(* ===== verification/_CoqProject ===== *)
-Q . S2P
Prelude.v
PyFloat.v
PyValue.v
ToolRegistry.v
StateStore.v
StateStoreFacts.v
Recovery.v
Planner.v
PlannerGraph.v
PlannerFacts.v
Replanner.v
Policy.v
Context.v
Contract.v
ContractFacts.v
Executor.v
ExecutorBatch.v
ExecutorFacts.v
ExecutorProps.v
App.v
AppFacts.v
Persistence.v
CircuitBreaker.v
Catalog.v
Authorizer.v
PreInvocation.v
RateLimiter.v
Scheduler.v
ConfigCenter.v
PySort.v
PyFormat.v
Json.v
JsonFacts.v
Compression.v
SharedMemory.v
Messaging.v
Dispatcher.v
MultiAgent.v
LruCache.v
Retrieval.v
Compressor.v
Release.v
Pipeline.v
Anonymizer.v
Observability.v
Scorer.v
EvalRunner.v
EvalRag.v
EvalParallel.v
SessionRecovery.v
Sqlite.v
Prometheus.v
OpsReport.v
Archive.v
Artifacts.v
AppMain.v
EvalMain.v
MultiAgentEval.v
EvalScript.v
ConfigBackends.v
ConfigTools.v
Redis.v
RedisWorkers.v
RedisBackends.v
RedisBus.v
ConnectionPool.v
