(* ===== verification/Prelude.v ===== *)
(** * Agent platform: verification library

    This library models the agent runtime of the repository (src/agent-system/src),
    the platform around it (src/src), the offline evaluation (src/eval) and the
    configuration scripts (src/scripts), and proves the properties that make them
    correct.

    ** The program

    A request enters [AgentApplication.handle_request] (api/app.py).  It is
    checked against a JSON contract (gateway/validator.py), turned into an
    execution context (agent/context.py) and into a plan, a dependency graph of
    steps (agent/planner.py), and run by the executor (agent/executor.py).  The
    executor runs ready steps in worker threads, guards every tool call by the
    policy (agent/policy.py) and the tool's contract, calls tools through the
    registry (gateway/tool_registry.py), records every transition in the session
    store (state/store.py) with snapshots (state/snapshot.py), writes audit events
    (gateway/audit_logger.py), consults the replanner after a failure
    (agent/replanner.py) and resumes from the recovery point of an earlier run
    (state/recovery.py).  Cancellation and limits come from
    agent/execution_context.py.

    The platform (src/src) has a tool gateway: versioned registry, authorization,
    pre-invocation checks with quotas, rate limiting, a circuit breaker and an
    audit log; persistence backends in memory, in SQLite and in Redis, with the
    recovery of sessions of dead instances; a task queue with a lock and a message
    bus, each in memory and over Redis; a configuration center; multi-agent
    collaboration over a shared memory and a dispatcher; retrieval with caches,
    fusion, reranking and compression; tracing, logging, metrics and alerts; and
    release governance: experiments, error budget, score, gate, traffic replay,
    chaos tests and the regression pipeline that composes them.  The evaluation
    (src/eval) drives samples through the gateway or retrieval, scores them,
    writes reports and compares them with a baseline.

    ** Files

    Foundations:
    - [Prelude]: exceptions, the error monad [res] and the state-and-error monad
      [st] (mutations made before an exception stay), Python dictionaries as
      insertion-ordered association lists, slices, strings, invariants
      ([preserves]), the hint database [agent], the tactics [inv_ok] and
      [split_cases].
    - [PyFloat], [PyValue], [PySort], [PyFormat]: binary64 floats with the
      interpreter's rounding and comparisons; JSON-like values with truthiness,
      equality, [int()], [in]; stable sorting and float sums; format
      specifications.
    - [Json], [JsonFacts], [Compression]: printing and scanning JSON texts, the
      round trip, and the compressed form.

    Agent runtime (src/agent-system/src):
    - [ToolRegistry], [StateStore], [StateStoreFacts], [Recovery]: tool
      invocation and the result envelope; every method of the session store;
      its invariant; snapshots and recovery points.
    - [Planner], [PlannerGraph], [PlannerFacts]: planning and plan validation;
      the graph algorithms against relations; the planner's theorems.
    - [Replanner], [Policy], [Context], [Contract], [ContractFacts]: the
      remaining parts of the runtime, each with its theorems; [ContractFacts]
      also holds the repository's contract files as values.
    - [Executor], [ExecutorBatch], [ExecutorFacts], [ExecutorProps]: the
      executor as programs over effects and schedules; a logic for one worker
      thread lifted to all interleavings; the main loop's invariant and measure;
      the theorems.
    - [App], [AppFacts], [AppMain]: the application that composes them; the
      command-line program with its audit log and output stream.

    Platform (src/src):
    - [Persistence], [Sqlite], [Redis], [RedisWorkers], [RedisBackends],
      [ConnectionPool], [SessionRecovery]: the backend interface as the class
      [KeyedBackend] with [KeyedBackendLaws] and the in-memory adapters as
      instances; the SQLite tables, schema and counters; the Redis server as the
      class [RedisServer] with [RedisLaws], the task queue, lock and state backends
      over it; the operations of the queue as single commands of concurrent
      workers; the connection pool; instance registry and recovery of sessions.
    - [ConfigBackends]: the interface of configuration backends as the class
      [ConfigBackend] with [ConfigBackendLaws], the center over any of them, the
      in-memory and the SQLite backend as instances.
    - [CircuitBreaker], [Catalog], [Authorizer], [PreInvocation], [RateLimiter]:
      the gateway.
    - [Scheduler], [ConfigCenter], [Messaging], [RedisBus]: the in-memory task
      queue and lock; versioned configuration with watchers; the bus interface
      as the class [MessageBus], the bus in memory, the bus over Redis.
    - [SharedMemory], [Dispatcher], [MultiAgent], [MultiAgentEval]: collaboration
      of agents, with two stores over one backend; the comparison of the demo
      flows.
    - [LruCache], [Retrieval], [Compressor]: retrieval.
    - [Observability], [Prometheus], [Release], [Pipeline], [Anonymizer],
      [OpsReport], [ConfigTools]: tracing, logging, auditing and exporters; the
      exporter over the Prometheus client; alerts, experiments, budget, score and
      gate; replay, chaos and the regression pipeline; the regular expressions
      that mask personal data; operations reports; loading components from the
      configuration center, and the configuration scripts of src/scripts.

    Evaluation (src/eval):
    - [Scorer], [EvalRunner], [EvalRag], [EvalParallel], [EvalScript]: scores,
      summaries and the baseline gate; one tool sample through the gateway;
      retrieval samples and sequential runs; runs on a thread pool; the knowledge
      base and the retrieval script.
    - [Archive], [Artifacts], [EvalMain]: datasets and the failed-case archive as
      JSON lines; every file a run writes, and the gate on such files; a whole run
      from its dataset to its files and printed summary.

    ** What the theorems show

    - Executor: it returns on every schedule within [enough] iterations; its
      verdict agrees with the store; every tool call is allowed, conforms to its
      contract and comes after its dependencies; replans and tool calls are
      bounded; resuming a finished session calls no tool.  One theorem records a
      defect: a succeeded sibling of a replanned step is executed again.
    - Planner and replanner: [validate_plan] decides declarative validity, the
      depth-first search and the depth map meet their specifications, planning is
      sound and, for plain requests, total, and replanning keeps plans valid; a
      rollback is valid exactly when no earlier step depends on the cut.
    - Store and recovery: well-formedness of reachable stores, remembered success,
      the split into completed and pending steps, the recovery point, unique
      snapshot identifiers.
    - Contracts, context, policy, application: validation decides conformance,
      the schema cache is transparent, redaction masks nested dictionaries, the
      memory window, policy decisions, and [handle_request] as a whole; the
      program reports an unreadable or rejected request without running anything,
      and prints documents that read back.
    - Gateway: the circuit breaker refines a three-state circuit, opens exactly at
      its threshold and resumes after a restart; the active version of a tool is
      never deprecated and the lifecycle only advances; authorization and
      pre-invocation validation decide their specifications; admitted calls stay
      within quota; the token bucket grants what it holds.
    - Persistence: the SQLite and the Redis backends answer as the in-memory ones;
      JSON values survive storage; a recovery sweep adopts exactly the unfinished
      sessions of dead instances; the pool never hands out more than its maximum
      until it is closed.
    - Services: the task queue loses no task of protocol-following workers and its
      Redis variant refines it; no interleaving of the Redis commands of workers
      loses or duplicates a task, except that a task is gone when the worker that
      took it crashes; both locks are exclusive until they expire; the
      configuration center is a versioned map, and the scripts back a database
      up and restore it; a
      request on the bus answers only from its private topic; the Redis bus
      delivers every message in order as long as no handler raises.
    - Collaboration: the shared memory refines a map of versioned cells and loses
      no conditional update, while two stores over one backend can lose one; the
      dispatcher serves every waiting task within its
      retry budget; arbitration does not depend on the order of candidates; the
      protocol validator decides its declared shape.
    - Retrieval: the cache keeps its capacity and evicts the least recently used;
      results are accessible, distinct and best first; fusion computes the
      reciprocal-rank sum; compression is maximal within its budget.
    - Release: traffic splits are exact; a regression run passes exactly when
      alerts, score and budget satisfy the gate; replay is anonymized and bounded,
      and the default rules leave no bare phone number, identity number or short
      Chinese name; every metric name creates one Prometheus instrument.
    - Evaluation: a tool is called only after every gate accepted; runs account for
      every sample; a parallel run in which no sample exceeds the timeout returns,
      in the order of the samples, what each sample computes alone, and keeps all
      records of each sample in their order; failed cases can be replayed from
      their archive; the files of a run read back as the values the run computed.

    ** Modelling choices

    Code outside the repository is a parameter: clocks are sequences of readings
    ([utcnow], [monotonic], [time]), identifiers sequences of texts, [repr] and
    [exc_str] are the interpreter's texts, [pow], [log] and [exp] are the C
    library's, digests and Unicode tables are functions, file contents are a map,
    tools, handlers and exporters are arbitrary and may raise.  SQLite enters as
    what its REAL columns keep; Redis, its publish/subscribe side and the
    Prometheus client as classes with the documented laws, each with an instance
    that satisfies them; zlib as a pair of functions.

    The worker threads of a batch interleave at calls of the store, control,
    context, clock, audit log and tools; one such call is one step, an assumption
    since the store takes no lock.  The thread pool of the evaluation hands out
    samples in order, each to the worker that is free first; every thread has its
    own clock readings and identifiers, a schedule weaves the records of the
    threads into the shared ones, and the class [Respects] shows that what a sample
    computes does not depend on records already present.  The main loop
    of the executor runs on fuel;
    [enough], one more than the number of steps times the number of plan versions,
    suffices by [execute_returns].  The graph search uses one unit of fuel per step
    identifier and one more, and [validate_acyclic_decides] and
    [depth_map_longest_chain] show that it never runs out.  Synchronous dispatch on
    the bus has the interpreter's recursion limit as fuel: running out is the
    exception the interpreter raises.  The JSON scanner has fuel for twice the
    length of the text, which suffices on every text ([loads_answers]).  Templates,
    whitespace and the replacement of regular expressions use the length of their
    text, of which every step takes a character.  Everything else is structurally
    recursive.

    Integers are Python's unbounded integers, floats binary64; sums add from left
    to right; sorting with a NaN among the keys is outside the model.  Texts are
    sequences of bytes: Latin-1 in the agent runtime, UTF-8 where JSON is read or
    written (texts with lone surrogates cannot be sent to Redis or written to a
    file, and are left out there), code points in retrieval.  Fields that the code
    does not check keep any JSON value where it matters (replay records), or go
    through a parameter that says what they become (configuration entries).

    ** Not modelled

    The parsing of command-line options and the construction of database and Redis
    clients, which only pass values on to the code that is modelled. *)
From stdpp Require Export base tactics list gmap strings pretty sorting relations.
From Stdlib Require Export Lia.

(** ** Exceptions and the error monad

    Python exceptions that the modelled code raises, with the message the
    source formats. *)
Inductive exc : Type :=
| KeyError (msg : string)
| ValueError (msg : string)
| TypeError (msg : string)
| IndexError (msg : string)
| AttributeError (msg : string)
| OverflowError (msg : string)
| ZeroDivisionError (msg : string)
| OSError (msg : string)
| ToolRegistryError (msg : string)
| ContractValidationError (errors : list string)
| Raised (cls msg : string).  (* any other exception class, by its name *)

#[global] Instance exc_eq_dec : EqDecision exc.
Proof. solve_decision. Defined.

Inductive res (A : Type) : Type :=
| Ok (a : A)
| Err (e : exc).
Arguments Ok {A} a.
Arguments Err {A} e.

#[global] Instance res_eq_dec `{EqDecision A} : EqDecision (res A).
Proof. solve_decision. Defined.

#[global] Instance res_ret : MRet res := λ A a, Ok a.
#[global] Instance res_bind : MBind res := λ A B f m,
  match m with Ok a => f a | Err e => Err e end.
#[global] Instance res_fmap : FMap res := λ A B f m,
  match m with Ok a => Ok (f a) | Err e => Err e end.

Definition is_ok {A} (r : res A) : bool :=
  match r with Ok _ => true | Err _ => false end.

(** A [for] loop whose body may raise: the first exception leaves the loop. *)
Fixpoint for_each {A} (f : A → res unit) (l : list A) : res unit :=
  match l with
  | [] => Ok tt
  | x :: l => match f x with Ok _ => for_each f l | Err e => Err e end
  end.

(** A [for] loop that threads an accumulator and may raise. *)
Fixpoint fold_res {A S} (f : A → S → res S) (l : list A) (s : S) : res S :=
  match l with
  | [] => Ok s
  | x :: l => match f x s with Ok s' => fold_res f l s' | Err e => Err e end
  end.

Definition raise_if (b : bool) (e : exc) : res unit := if b then Err e else Ok tt.

(** ** State and exceptions

    A method of a mutable object: it reads and updates the object's state and
    may raise; the updates made before an exception are kept. *)
Definition st (S A : Type) : Type := S → res A * S.
#[global] Instance st_ret S : MRet (st S) := λ A a s, (Ok a, s).
#[global] Instance st_bind S : MBind (st S) := λ A B f m s,
  match m s with
  | (Ok a, s') => f a s'
  | (Err e, s') => (Err e, s')
  end.
Definition st_raise {S A} (e : exc) : st S A := λ s, (Err e, s).
Definition st_get {S} : st S S := λ s, (Ok s, s).
Definition st_put {S} (s : S) : st S unit := λ _, (Ok tt, s).
Definition st_lift {S A} (r : res A) : st S A := λ s, (r, s).
Definition st_gets {S A} (f : S → A) : st S A := λ s, (Ok (f s), s).
Definition st_modify {S} (f : S → S) : st S unit := λ s, (Ok tt, f s).
Fixpoint st_for {S A} (f : A → st S unit) (l : list A) : st S unit :=
  match l with
  | [] => mret tt
  | x :: l => f x ≫= λ _, st_for f l
  end.

(** [try: m except Exception as e: h(e)] and [try: m finally: f], whose
    exceptions replace those of [m]; a method of a part [T] of an object [S]. *)
Definition st_catch {S A} (m : st S A) (h : exc → st S A) : st S A := λ s,
  match m s with
  | (Ok a, s') => (Ok a, s')
  | (Err e, s') => h e s'
  end.
Definition st_finally {S A} (m : st S A) (f : st S unit) : st S A := λ s,
  let '(r, s') := m s in
  match f s' with
  | (Ok _, s'') => (r, s'')
  | (Err e, s'') => (Err e, s'')
  end.
Definition zoom {S T A} (get : S → T) (set : T → S → S) (m : st T A) : st S A := λ s,
  let '(r, t) := m (get s) in (r, set t s).

(** [e.__class__.__name__] *)
Definition class_name (e : exc) : string :=
  match e with
  | KeyError _ => "KeyError" | ValueError _ => "ValueError" | TypeError _ => "TypeError"
  | IndexError _ => "IndexError" | AttributeError _ => "AttributeError"
  | OverflowError _ => "OverflowError" | ZeroDivisionError _ => "ZeroDivisionError"
  | OSError _ => "OSError" | ToolRegistryError _ => "ToolRegistryError"
  | ContractValidationError _ => "ContractValidationError" | Raised cls _ => cls
  end.

(** ** Python dictionaries with string keys

    A dictionary that the code iterates keeps its insertion order: it is an
    association list in which [dinsert] overwrites in place or appends. *)
Abbreviation dict A := (list (string * A)).

Fixpoint dlookup {A} (k : string) (d : dict A) : option A :=
  match d with
  | [] => None
  | (k', v) :: d => if decide (k = k') then Some v else dlookup k d
  end.

Fixpoint dinsert {A} (k : string) (v : A) (d : dict A) : dict A :=
  match d with
  | [] => [(k, v)]
  | (k', v') :: d => if decide (k = k') then (k', v) :: d else (k', v') :: dinsert k v d
  end.

Definition dmem {A} (k : string) (d : dict A) : bool := bool_decide (is_Some (dlookup k d)).
Definition dkeys {A} (d : dict A) : list string := d.*1.
Definition dget {A} (k : string) (dflt : A) (d : dict A) : A :=
  default dflt (dlookup k d).

(** ** Slices: [l[k:]] and [l[:k]] for any integer [k] *)
Definition slice_index {A} (l : list A) (k : Z) : nat :=
  Z.to_nat (if (k <? 0)%Z then k + Z.of_nat (length l) else k)%Z.
Definition slice_from {A} (k : Z) (l : list A) : list A := drop (slice_index l k) l.
Definition slice_to {A} (k : Z) (l : list A) : list A := take (slice_index l k) l.

(** ** Strings: [sub in s], [s.startswith(p)], truthiness *)
Fixpoint str_in (sub s : string) : bool :=
  String.prefix sub s || match s with EmptyString => false | String _ s' => str_in sub s' end.
Definition starts_with (s p : string) : bool := String.prefix p s.
Definition str_truthy (s : string) : bool := bool_decide (s ≠ "").

(** ** Lemmas *)
Lemma bind_Ok {A B} (m : res A) (f : A → res B) b :
  m ≫= f = Ok b ↔ ∃ a, m = Ok a ∧ f a = Ok b.
Proof. destruct m; simpl; naive_solver. Qed.

Lemma bind_Err {A B} (m : res A) (f : A → res B) e :
  m ≫= f = Err e ↔ m = Err e ∨ ∃ a, m = Ok a ∧ f a = Err e.
Proof. destruct m; simpl; naive_solver. Qed.

Lemma st_bind_Ok {S A B} (m : st S A) (f : A → st S B) s b s' :
  (m ≫= f) s = (Ok b, s') ↔ ∃ a s1, m s = (Ok a, s1) ∧ f a s1 = (Ok b, s').
Proof.
  unfold mbind, st_bind. destruct (m s) as [[a|e] s1]; split; try naive_solver.
Qed.

(** Inverts a successful run of a stateful computation. *)
Ltac inv_st :=
  repeat match goal with
  | H : (_ ≫= _) _ = (Ok _, _) |- _ => apply st_bind_Ok in H as (? & ? & ? & H)
  | H : st_lift _ _ = (Ok _, _) |- _ => injection H as H ?; subst
  | H : st_gets _ _ = (Ok _, _) |- _ => injection H as ? ?; subst
  | H : mret _ _ = (Ok _, _) |- _ => injection H as ? ?; subst
  end.

Lemma raise_if_Ok b e u : raise_if b e = Ok u ↔ b = false.
Proof. destruct b, u; simpl; naive_solver. Qed.

Lemma raise_if_bind {A} b e (k : unit → res A) a :
  raise_if b e ≫= k = Ok a ↔ b = false ∧ k tt = Ok a.
Proof. destruct b; simpl; naive_solver. Qed.

Lemma bind_unit_Ok {A} (m : res unit) (k : unit → res A) a :
  m ≫= k = Ok a ↔ m = Ok tt ∧ k tt = Ok a.
Proof. destruct m as [[]|]; simpl; naive_solver. Qed.

Lemma for_each_Ok {A} (f : A → res unit) l u :
  for_each f l = Ok u ↔ ∀ x, x ∈ l → f x = Ok tt.
Proof.
  destruct u. induction l as [|x l IH]; simpl; [set_solver|].
  destruct (f x) as [[]|e] eqn:E; [rewrite IH|]; split.
  - intros H y [->|?]%elem_of_cons; auto.
  - intros H y ?. apply H. set_solver.
  - done.
  - intros H. specialize (H x ltac:(set_solver)). congruence.
Qed.

Lemma for_each_Err {A} (f : A → res unit) l e :
  for_each f l = Err e →
  ∃ l1 x l2, l = l1 ++ x :: l2 ∧ f x = Err e ∧ ∀ y, y ∈ l1 → f y = Ok tt.
Proof.
  induction l as [|x l IH]; simpl; [done|]. destruct (f x) as [[]|e'] eqn:E.
  - intros (l1 & y & l2 & -> & ? & Hl1)%IH. exists (x :: l1), y, l2.
    split_and!; [done..|]. intros z [->|?]%elem_of_cons; auto.
  - intros [= ->]. exists [], x, l. split_and!; [done..|]. set_solver.
Qed.

Lemma dlookup_dinsert {A} k k' (v : A) d :
  dlookup k' (dinsert k v d) = if decide (k = k') then Some v else dlookup k' d.
Proof.
  induction d as [|[k0 v0] d IH]; simpl; [by repeat case_decide|].
  destruct (decide (k = k0)) as [->|]; simpl; repeat case_decide; naive_solver.
Qed.

Lemma dlookup_dinsert_eq {A} k (v : A) d : dlookup k (dinsert k v d) = Some v.
Proof. rewrite dlookup_dinsert. by case_decide. Qed.

Lemma dlookup_dinsert_ne {A} k k' (v : A) d :
  k ≠ k' → dlookup k' (dinsert k v d) = dlookup k' d.
Proof. intros. rewrite dlookup_dinsert. by case_decide. Qed.

Lemma dlookup_Some_keys {A} k (v : A) d : dlookup k d = Some v → k ∈ dkeys d.
Proof.
  unfold dkeys. induction d as [|[k0 v0] d IH]; simpl; [done|].
  case_decide; set_solver.
Qed.

Lemma dlookup_None_keys {A} k (d : dict A) : dlookup k d = None ↔ k ∉ dkeys d.
Proof.
  unfold dkeys. induction d as [|[k0 v0] d IH]; simpl; [set_solver|].
  case_decide; set_solver.
Qed.

Lemma dmem_true {A} k (d : dict A) : dmem k d = true ↔ is_Some (dlookup k d).
Proof. unfold dmem. by rewrite bool_decide_eq_true. Qed.

Lemma dkeys_cons {A} k (v : A) d : dkeys ((k, v) :: d) = k :: dkeys d.
Proof. done. Qed.
Lemma dkeys_app {A} (d1 d2 : dict A) : dkeys (d1 ++ d2) = dkeys d1 ++ dkeys d2.
Proof. apply fmap_app. Qed.

Lemma dget_dinsert {A} k k' (v d0 : A) d :
  dget k' d0 (dinsert k v d) = if decide (k = k') then v else dget k' d0 d.
Proof. unfold dget. rewrite dlookup_dinsert. by case_decide. Qed.

Lemma dkeys_dinsert {A} k (v : A) d :
  dkeys (dinsert k v d) = if decide (k ∈ dkeys d) then dkeys d else dkeys d ++ [k].
Proof.
  induction d as [|[k0 v0] d IH]; [done|]. cbn [dinsert].
  destruct (decide (k = k0)) as [->|]; rewrite !dkeys_cons.
  - rewrite decide_True; set_solver.
  - rewrite IH. destruct (decide (k ∈ dkeys d)).
    + rewrite decide_True; set_solver.
    + rewrite decide_False; set_solver.
Qed.

Lemma dinsert_NoDup {A} k (v : A) d : NoDup (dkeys d) → NoDup (dkeys (dinsert k v d)).
Proof.
  rewrite dkeys_dinsert. case_decide; [done|].
  intros. apply NoDup_app. split_and!; [done|set_solver|apply NoDup_singleton].
Qed.

Lemma slice_from_last {A} (n : nat) (l : list A) :
  n ≠ 0 → slice_from (- Z.of_nat n) l = drop (length l - n) l.
Proof.
  intros Hn. unfold slice_from, slice_index.
  destruct (Z.ltb_spec (- Z.of_nat n) 0); [|lia]. f_equal. lia.
Qed.

Lemma length_slice_from_last {A} (n : nat) (l : list A) :
  n ≠ 0 → length (slice_from (- Z.of_nat n) l) = length l `min` n.
Proof. intros. rewrite slice_from_last, length_drop by done. lia. Qed.

Lemma slice_to_pos {A} (k : Z) (l : list A) : (0 ≤ k)%Z → slice_to k l = take (Z.to_nat k) l.
Proof.
  intros Hk. unfold slice_to, slice_index. by destruct (Z.ltb_spec k 0); [lia|].
Qed.

Lemma str_truthy_true s : str_truthy s = true ↔ s ≠ "".
Proof. unfold str_truthy. by rewrite bool_decide_eq_true. Qed.

(** ** Characters of formatted strings

    The separators of the identifiers the code formats do not occur in a
    decimal number, so the last separator delimits the number. *)
Fixpoint no_char (c : Ascii.ascii) (s : string) : Prop :=
  match s with
  | EmptyString => True
  | String d s => d ≠ c ∧ no_char c s
  end.

Lemma string_append_assoc x y z : (x +:+ y) +:+ z = x +:+ y +:+ z.
Proof. induction x as [|c x IH]; [done|].
  change (String c ((x +:+ y) +:+ z) = String c (x +:+ y +:+ z)). by rewrite IH. Qed.

Lemma not_no_char c x a : ¬ no_char c (x +:+ String c a).
Proof.
  induction x as [|d x IH]; [by intros [? _]|].
  change (String d x +:+ String c a) with (String d (x +:+ String c a)). by intros [_ ?].
Qed.

Lemma app_last_char c x y a b :
  no_char c a → no_char c b → x +:+ String c a = y +:+ String c b → x = y ∧ a = b.
Proof.
  revert y. induction x as [|d x IH]; intros [|d' y] Ha Hb H.
  - by injection H.
  - injection H as _ H. change (a = y +:+ String c b) in H. subst.
    by apply not_no_char in Ha.
  - injection H as _ H. change (x +:+ String c a = b) in H. subst.
    by apply not_no_char in Hb.
  - injection H as -> H. destruct (IH y Ha Hb H) as [-> ->]. done.
Qed.

Lemma no_char_pretty_go c x s :
  (∀ d, pretty_N_char d ≠ c) → no_char c s → no_char c (pretty_N_go x s).
Proof.
  intros Hc. revert s. induction (N.lt_wf_0 x) as [x _ IH]; intros s Hs.
  destruct (decide (x = 0)%N) as [->|]; [by rewrite pretty_N_go_0|].
  rewrite pretty_N_go_step by lia. apply IH; [by apply N.div_lt; lia|]. by split.
Qed.

Lemma no_char_pretty_N c (n : N) : (∀ d, pretty_N_char d ≠ c) → no_char c (pretty n).
Proof.
  intros Hc. unfold pretty, pretty_N. case_decide; [by split; [apply (Hc 0%N)|]|].
  by apply no_char_pretty_go.
Qed.

Lemma no_char_pretty_Z c (z : Z) :
  c ≠ Ascii.ascii_of_nat 45 → (∀ d, pretty_N_char d ≠ c) → no_char c (pretty z).
Proof.
  intros Hm Hc. destruct z as [|p|p]; [split; [apply (Hc 0%N)|done]|..]; unfold pretty, pretty_Z.
  - by apply (no_char_pretty_N c (Npos p)).
  - split; [by intros <-|]. by apply (no_char_pretty_N c (Npos p)).
Qed.

Lemma string_app_inj_r x y a : x +:+ a = y +:+ a → x = y.
Proof.
  assert (∀ s t, String.length (s +:+ t) = (String.length s + String.length t)%nat) as Hl.
  { intros s t. induction s as [|c s IH]; [done|].
    change (String c s +:+ t) with (String c (s +:+ t)). simpl. by rewrite IH. }
  revert y. induction x as [|c x IH]; intros [|d y] H; [done|..].
  - apply (f_equal String.length) in H. rewrite !Hl in H. simpl in H. lia.
  - apply (f_equal String.length) in H. rewrite !Hl in H. simpl in H. lia.
  - injection H as -> H. f_equal. by apply IH.
Qed.

(** The list monad's [filter] keeps relative order; the first match of a
    predicate is found by [list_find]. *)
Definition find_first {A} (p : A → bool) (l : list A) : option A :=
  head (filter (λ x, p x = true) l).

Lemma find_first_Some {A} (p : A → bool) l x :
  find_first p l = Some x → x ∈ l ∧ p x = true.
Proof.
  unfold find_first. intros H. apply head_Some in H as [l' Hl].
  assert (x ∈ filter (λ x, p x = true) l) as ?%list_elem_of_filter; [|naive_solver].
  rewrite Hl. set_solver.
Qed.

Lemma find_first_None {A} (p : A → bool) l :
  find_first p l = None ↔ ∀ x, x ∈ l → p x = false.
Proof.
  unfold find_first. rewrite head_None. split.
  - intros Hf x Hx. destruct (p x) eqn:E; [|done].
    assert (x ∈ filter (λ x, p x = true) l) as Hin by (apply list_elem_of_filter; done).
    rewrite Hf in Hin. set_solver.
  - intros H. destruct (filter _ l) as [|x l'] eqn:E; [done|].
    assert (x ∈ filter (λ x, p x = true) l) as [Hp Hx]%list_elem_of_filter
      by (rewrite E; set_solver).
    rewrite H in Hp; done.
Qed.

(** ** Invariants of stateful computations

    [preserves I m]: [m] keeps [I] whether it returns or raises. *)
Definition preserves {S A} (I : S → Prop) (m : st S A) : Prop :=
  ∀ s, I s → I (m s).2.

Lemma preserves_ret {S A} (I : S → Prop) (a : A) : preserves I (mret a : st S A).
Proof. by intros s. Qed.

Lemma preserves_raise {S A} (I : S → Prop) e : preserves I (st_raise e : st S A).
Proof. by intros s. Qed.

Lemma preserves_lift {S A} (I : S → Prop) (r : res A) : preserves I (st_lift r : st S A).
Proof. by intros s. Qed.

Lemma preserves_bind {S A B} (I : S → Prop) (m : st S A) (f : A → st S B) :
  preserves I m → (∀ a, preserves I (f a)) → preserves I (m ≫= f).
Proof.
  intros Hm Hf s Hs. specialize (Hm s Hs). unfold mbind, st_bind.
  destruct (m s) as [[a|e] s']; simpl in *; [by apply Hf|done].
Qed.

Lemma preserves_for {S A} (I : S → Prop) (f : A → st S unit) l :
  (∀ x, x ∈ l → preserves I (f x)) → preserves I (st_for f l).
Proof.
  induction l as [|x l IH]; intros Hf; simpl; [apply preserves_ret|].
  apply preserves_bind; [apply Hf; set_solver|]. intros _. apply IH. set_solver.
Qed.

(** ** Development-wide automation *)
Create HintDb agent.
Create Rewrite HintDb agent.
#[export] Hint Rewrite @bind_Ok @raise_if_Ok @for_each_Ok : agent.
#[export] Hint Resolve dlookup_dinsert_eq dinsert_NoDup : agent.
#[export] Hint Resolve preserves_ret preserves_raise preserves_lift preserves_bind
  preserves_for : agent.

(** Inverts a successful run of a computation in the error monad. *)
Ltac inv_ok :=
  repeat match goal with
  | H : (_ ≫= _) = Ok _ |- _ => apply bind_Ok in H as (? & ? & ?)
  | H : raise_if _ _ = Ok _ |- _ => apply raise_if_Ok in H
  | H : Ok _ = Ok _ |- _ => injection H as H; subst
  | H : Err _ = Ok _ |- _ => discriminate H
  | H : Ok _ = Err _ |- _ => discriminate H
  end.

(** Splits the [if]s and [match]es of the goal and closes the trivial cases. *)
Ltac split_cases := repeat (case_match || case_decide); simplify_eq/=; try done.
