(* ===== verification/PyFloat.v ===== *)
(** * Python floats: IEEE-754 binary64, computed exactly

    A Python [float] is a binary64 number.  It is the Standard Library's
    [spec_float] at precision 53 and exponent bound 1024, so arithmetic rounds
    as the interpreter does and every definition that uses floats evaluates.
    Comparisons are Python's: any comparison with NaN is false. *)
From Stdlib Require Export SpecFloat.
From S2P Require Import Prelude.

Abbreviation float := spec_float.

#[global] Instance float_eq_dec : EqDecision float.
Proof. solve_decision. Defined.

Module PyFloat.

Definition add (x y : float) : float := SFadd 53 1024 x y.
Definition sub (x y : float) : float := SFsub 53 1024 x y.
Definition mul (x y : float) : float := SFmul 53 1024 x y.
(** Callers test the divisor: Python raises [ZeroDivisionError] on zero. *)
Definition div (x y : float) : float := SFdiv 53 1024 x y.
Definition lt (x y : float) : bool := SFltb x y.
Definition le (x y : float) : bool := SFleb x y.
Definition gt (x y : float) : bool := SFltb y x.
Definition ge (x y : float) : bool := SFleb y x.
Definition eqb (x y : float) : bool := SFeqb x y.
Definition is_nan (x : float) : bool := match x with S754_nan => true | _ => false end.

(** [float(z)] for an integer, rounded to nearest even. *)
Definition of_Z (z : Z) : float := binary_normalize 53 1024 z 0 false.
Definition zero : float := S754_zero false.
(** The literal [a/b] for small [a] and [b]: the division of two exact
    integers is the correctly rounded value the literal denotes. *)
Definition ratio (a b : Z) : float := div (of_Z a) (of_Z b).

(** [min(x, y)] and [max(x, y)] keep the first argument on ties. *)
Definition min (x y : float) : float := if lt y x then y else x.
Definition max (x y : float) : float := if lt x y then y else x.

(** Comparison of a float with an [int], exact as in Python. *)
Definition compare_Z (x : float) (z : Z) : option comparison :=
  match x with
  | S754_nan => None
  | S754_infinity s => Some (if s then Lt else Gt)
  | S754_zero _ => Some (0 ?= z)%Z
  | S754_finite s m e =>
      let v := if s then Z.neg m else Z.pos m in
      Some (if (0 <=? e)%Z then (v * 2 ^ e ?= z)%Z else (v ?= z * 2 ^ (- e))%Z)
  end.
Definition ge_Z (x : float) (z : Z) : bool :=
  match compare_Z x z with Some (Gt | Eq) => true | _ => false end.
Definition lt_Z (x : float) (z : Z) : bool :=
  match compare_Z x z with Some Lt => true | _ => false end.

(** [int(x)]: truncation towards zero; NaN and infinities raise. *)
Definition trunc (x : float) : res Z :=
  match x with
  | S754_nan => Err (ValueError "cannot convert float NaN to integer")
  | S754_infinity _ => Err (OverflowError "cannot convert float infinity to integer")
  | S754_zero _ => Ok 0%Z
  | S754_finite s m e =>
      let v := if s then Z.neg m else Z.pos m in
      Ok (if (0 <=? e)%Z then v * 2 ^ e else Z.quot v (2 ^ (- e)))%Z
  end.

Definition is_finite (x : float) : bool :=
  match x with S754_nan | S754_infinity _ => false | _ => true end.

(** The conversion of an [int] operand to a float. *)
Definition of_int (z : Z) : res float :=
  if is_finite (of_Z z) then Ok (of_Z z)
  else Err (OverflowError "int too large to convert to float").

(** [x / y] *)
Definition true_div (x y : float) : res float :=
  match y with
  | S754_zero _ => Err (ZeroDivisionError "float division by zero")
  | _ => Ok (div x y)
  end.

(** [n / d] rounded to the nearest integer, ties to even, for [0 < d]. *)
Definition round_half_even (n d : Z) : Z :=
  let q := (n / d)%Z in
  match (2 * (n mod d) ?= d)%Z with
  | Lt => q
  | Gt => q + 1
  | Eq => if Z.even q then q else q + 1
  end%Z.

(** [round(x, 2)]: the exact value is rounded to hundredths, ties to even,
    and the decimal result is rounded to the nearest float. *)
Definition round2 (x : float) : float :=
  match x with
  | S754_finite s m e =>
      let q := (if (0 <=? e)%Z then Z.pos m * 100 * 2 ^ e
                else round_half_even (Z.pos m * 100) (2 ^ (- e)))%Z in
      match q with
      | Z.pos p => SFdiv 53 1024 (S754_finite s p 0) (S754_finite false 100 0)
      | _ => S754_zero s
      end
  | _ => x
  end.

(** ** The order on floats

    [SFcompare] is a lexicographic comparison of class, exponent and
    mantissa. *)
Definition key (x : float) : option (Z * Z * Z) :=
  match x with
  | S754_nan => None
  | S754_infinity true => Some (-2, 0, 0)%Z
  | S754_finite true m e => Some (-1, - e, Z.neg m)%Z
  | S754_zero _ => Some (0, 0, 0)%Z
  | S754_finite false m e => Some (1, e, Z.pos m)%Z
  | S754_infinity false => Some (2, 0, 0)%Z
  end.

Definition klt (a b : Z * Z * Z) : Prop :=
  (a.1.1 < b.1.1 ∨ (a.1.1 = b.1.1 ∧ (a.1.2 < b.1.2 ∨ (a.1.2 = b.1.2 ∧ a.2 < b.2))))%Z.

Lemma compare_key x y :
  match key x, key y with
  | Some a, Some b =>
      SFcompare x y = Some Lt ∧ klt a b ∨ SFcompare x y = Some Eq ∧ a = b
      ∨ SFcompare x y = Some Gt ∧ klt b a
  | _, _ => SFcompare x y = None
  end.
Proof.
  destruct x as [[]|[]| |[] m e], y as [[]|[]| |[] m' e']; simpl; unfold klt; simpl;
    try (by auto with lia);
    try change (Pos.compare_cont Eq m m') with (m ?= m')%positive.
  all: destruct (Z.compare_spec e e'); subst; simpl; auto with lia.
  all: destruct (Pos.compare_spec m m'); subst; simpl; auto with lia.
Qed.

Lemma lt_key x y : lt x y = true ↔ ∃ a b, key x = Some a ∧ key y = Some b ∧ klt a b.
Proof.
  unfold lt, SFltb. pose proof (compare_key x y) as H.
  destruct (key x) as [a|], (key y) as [b|]; try (rewrite H; naive_solver).
  destruct H as [[-> ?]|[[-> ?]|[-> ?]]]; split; try done; try naive_solver.
  all: intros (?&?&?&?&?); unfold klt in *; naive_solver lia.
Qed.

Lemma le_key x y :
  le x y = true ↔ ∃ a b, key x = Some a ∧ key y = Some b ∧ ¬ klt b a.
Proof.
  unfold le, SFleb. pose proof (compare_key x y) as H.
  destruct (key x) as [a|], (key y) as [b|]; try (rewrite H; naive_solver).
  destruct H as [[-> ?]|[[-> ?]|[-> ?]]]; split; try done.
  all: try (intros (?&?&?&?&?); unfold klt in *; naive_solver lia).
  all: intros _; eexists _, _; split_and!; [done..|]; unfold klt in *; naive_solver lia.
Qed.

Lemma lt_irrefl x : lt x x = false.
Proof.
  apply not_true_is_false. intros (a & b & Ha & Hb & Hlt)%lt_key.
  simplify_eq. unfold klt in *. lia.
Qed.

Lemma lt_trans x y z : lt x y = true → lt y z = true → lt x z = true.
Proof.
  rewrite !lt_key. intros (a & b & ? & ? & ?) (b' & c & ? & ? & ?). simplify_eq.
  eexists _, _; split_and!; [done..|]. unfold klt in *. lia.
Qed.

Lemma lt_le x y : lt x y = true → le x y = true.
Proof.
  rewrite lt_key, le_key. intros (a & b & ? & ? & ?).
  eexists _, _; split_and!; [done..|]. unfold klt in *. lia.
Qed.

Lemma le_trans x y z : le x y = true → le y z = true → le x z = true.
Proof.
  rewrite !le_key. intros (a & b & ? & ? & ?) (b' & c & ? & ? & ?). simplify_eq.
  eexists _, _; split_and!; [done..|]. unfold klt in *. lia.
Qed.

Lemma le_lt_trans x y z : le x y = true → lt y z = true → lt x z = true.
Proof.
  rewrite le_key, !lt_key. intros (a & b & ? & ? & ?) (b' & c & ? & ? & ?). simplify_eq.
  eexists _, _; split_and!; [done..|]. unfold klt in *. lia.
Qed.

Lemma not_nan_key x : is_nan x = false ↔ is_Some (key x).
Proof. destruct x as [[]|[]| |[] ??]; simpl; split; naive_solver. Qed.

(** Outside NaN the order is total. *)
Lemma lt_false_le x y :
  is_nan x = false → is_nan y = false → lt x y = false → le y x = true.
Proof.
  rewrite !not_nan_key. intros [a Ha] [b Hb] Hlt. apply le_key.
  eexists _, _; split_and!; [done..|]. intros Hk.
  assert (lt x y = true) by (apply lt_key; eauto). congruence.
Qed.

Lemma lt_false_iff_le x y :
  is_nan x = false → is_nan y = false → lt x y = false ↔ le y x = true.
Proof.
  intros Hx Hy. split; [by apply lt_false_le|]. intros H.
  apply not_true_is_false. intros Hlt. pose proof (le_lt_trans _ _ _ H Hlt) as Hc.
  by rewrite lt_irrefl in Hc.
Qed.

Lemma le_refl x : is_nan x = false → le x x = true.
Proof. intros. apply lt_false_le; auto using lt_irrefl. Qed.

Lemma lt_false_trans x y z :
  is_nan y = false → lt y x = false → lt z y = false → lt z x = false.
Proof.
  intros Hy Hyx Hzy. apply not_true_is_false. intros Hzx.
  assert (is_Some (key x) ∧ is_Some (key z)) as [Hkx Hkz]
    by (apply lt_key in Hzx; naive_solver).
  rewrite <-not_nan_key in Hkx, Hkz.
  pose proof (lt_false_le _ _ Hy Hkx Hyx) as H1.
  pose proof (lt_false_le _ _ Hkz Hy Hzy) as H2.
  pose proof (le_lt_trans _ _ _ (le_trans _ _ _ H1 H2) Hzx) as Hc.
  by rewrite lt_irrefl in Hc.
Qed.

Lemma trunc_finite x : is_finite x = true → ∃ z, trunc x = Ok z.
Proof. destruct x; simpl; try done; eauto. Qed.

(** [min] never exceeds its second argument. *)
Lemma min_le_r x y : lt y (min x y) = false.
Proof.
  unfold min. destruct (lt y x) eqn:E; [apply lt_irrefl|done].
Qed.

End PyFloat.

Example round2_examples :
  PyFloat.round2 (PyFloat.ratio 5 1000) = PyFloat.ratio 1 100 ∧
  PyFloat.round2 (PyFloat.ratio 2675 1000) = PyFloat.ratio 267 100 ∧
  PyFloat.round2 (PyFloat.of_Z 60) = PyFloat.of_Z 60.
Proof. by vm_compute. Qed.
