(* ===== verification/PyValue.v ===== *)
(** * JSON-like Python values

    Requests, tool payloads, schemas and error objects are nested Python
    dictionaries, lists and scalars.  A string is a sequence of characters in
    the Latin-1 range, each standing for one code point.  Attribute and method
    calls on a value of the wrong type raise, as in the interpreter. *)
From S2P Require Import Prelude PyFloat.
Local Open Scope Z_scope.

Inductive pyval : Type :=
| VNone
| VBool (b : bool)
| VInt (z : Z)
| VFloat (f : float)
| VStr (s : string)
| VList (l : list pyval)
| VDict (d : dict pyval).

(** ** Induction through the nested lists *)
Section pyval_induction.
Context (P : pyval → Prop).
Context (Hnone : P VNone) (Hbool : ∀ b, P (VBool b)) (Hint : ∀ z, P (VInt z))
  (Hfloat : ∀ f, P (VFloat f)) (Hstr : ∀ s, P (VStr s))
  (Hlist : ∀ l, Forall P l → P (VList l))
  (Hdict : ∀ d, Forall (λ kv, P kv.2) d → P (VDict d)).

Fixpoint pyval_ind' (v : pyval) : P v :=
  match v with
  | VNone => Hnone
  | VBool b => Hbool b
  | VInt z => Hint z
  | VFloat f => Hfloat f
  | VStr s => Hstr s
  | VList l => Hlist l
      ((fix go l : Forall P l :=
          match l with
          | [] => Forall_nil_2 P
          | v :: l => Forall_cons_2 P v l (pyval_ind' v) (go l)
          end) l)
  | VDict d => Hdict d
      ((fix go d : Forall (λ kv : string * pyval, P kv.2) d :=
          match d with
          | [] => Forall_nil_2 _
          | (k, v) :: d => Forall_cons_2 _ (k, v) d (pyval_ind' v) (go d)
          end) d)
  end.
End pyval_induction.

#[global] Instance pyval_eq_dec : EqDecision pyval.
Proof.
  refine (fix go (v w : pyval) : Decision (v = w) :=
    let H : EqDecision pyval := go in
    match v, w with
    | VNone, VNone => left _
    | VBool a, VBool b => cast_if (decide (a = b))
    | VInt a, VInt b => cast_if (decide (a = b))
    | VFloat a, VFloat b => cast_if (decide (a = b))
    | VStr a, VStr b => cast_if (decide (a = b))
    | VList a, VList b => cast_if (decide (a = b))
    | VDict a, VDict b => cast_if (decide (a = b))
    | _, _ => right _
    end); clear H go; abstract congruence.
Defined.

Module Py.

(** [type(v).__name__] *)
Definition type_name (v : pyval) : string :=
  match v with
  | VNone => "NoneType" | VBool _ => "bool" | VInt _ => "int" | VFloat _ => "float"
  | VStr _ => "str" | VList _ => "list" | VDict _ => "dict"
  end.

(** [bool(v)] *)
Definition truthy (v : pyval) : bool :=
  match v with
  | VNone => false
  | VBool b => b
  | VInt z => negb (z =? 0)
  | VFloat f => negb (PyFloat.eqb f PyFloat.zero)
  | VStr s => str_truthy s
  | VList l => bool_decide (l ≠ [])
  | VDict d => bool_decide (d ≠ [])
  end.

(** [str(v)]; [repr] is the interpreter's text of the other types. *)
Definition to_str (repr : pyval → string) (v : pyval) : string :=
  match v with
  | VStr s => s
  | VNone => "None"
  | VBool true => "True"
  | VBool false => "False"
  | VInt z => pretty z
  | _ => repr v
  end.

(** [v.get(k, default)] on a mapping; any other receiver has no [get]. *)
Definition get (k : string) (dflt : pyval) (v : pyval) : res pyval :=
  match v with
  | VDict d => Ok (dget k dflt d)
  | _ => Err (AttributeError (type_name v +:+ " object has no attribute 'get'"))
  end.

(** [request[k]] on a mapping *)
Definition subscript (k : string) (d : dict pyval) : res pyval :=
  match dlookup k d with Some v => Ok v | None => Err (KeyError k) end.

(** [list(v)] and [set(v)]: the elements an iteration yields. *)
Fixpoint str_chars (s : string) : list pyval :=
  match s with
  | EmptyString => []
  | String c s => VStr (String c EmptyString) :: str_chars s
  end.
Definition iterate (v : pyval) : res (list pyval) :=
  match v with
  | VList l => Ok l
  | VStr s => Ok (str_chars s)
  | VDict d => Ok (VStr <$> dkeys d)
  | _ => Err (TypeError (type_name v +:+ " object is not iterable"))
  end.

(** Case mapping of [str.lower] on Latin-1 code points. *)
Definition lower_char (c : Ascii.ascii) : Ascii.ascii :=
  let n := Ascii.nat_of_ascii c in
  if ((65 <=? n) && (n <=? 90) || ((192 <=? n) && (n <=? 222) && negb (n =? 215)))%nat
  then Ascii.ascii_of_nat (n + 32) else c.
Fixpoint lower (s : string) : string :=
  match s with EmptyString => EmptyString | String c s => String (lower_char c) (lower s) end.

(** Whitespace of [str.strip] on Latin-1 code points. *)
Definition is_space (c : Ascii.ascii) : bool :=
  let n := Ascii.nat_of_ascii c in
  ((9 <=? n) && (n <=? 13) || (28 <=? n) && (n <=? 32) || (n =? 133) || (n =? 160))%nat.
Fixpoint lstrip (s : string) : string :=
  match s with
  | EmptyString => EmptyString
  | String c s' => if is_space c then lstrip s' else s
  end.
Definition strip (s : string) : string := String.rev (lstrip (String.rev (lstrip s))).

(** [int(v)].  A string holds an optional sign and decimal digits with single
    underscores between them, after stripping. *)
Definition digit (c : Ascii.ascii) : option Z :=
  let n := Ascii.nat_of_ascii c in
  if ((48 <=? n) && (n <=? 57))%nat then Some (Z.of_nat n - 48) else None.
Fixpoint parse_digits (prev_digit : bool) (acc : Z) (s : string) : option Z :=
  match s with
  | EmptyString => if prev_digit then Some acc else None
  | String c s =>
      match digit c with
      | Some d => parse_digits true (10 * acc + d) s
      | None =>
          if Ascii.eqb c (Ascii.ascii_of_nat 95) && prev_digit then parse_digits false acc s else None
      end
  end.
Definition parse_int (s : string) : option Z :=
  match strip s with
  | String c s' =>
      if (Ascii.nat_of_ascii c =? 45)%nat then Z.opp <$> parse_digits false 0 s'
      else if (Ascii.nat_of_ascii c =? 43)%nat then parse_digits false 0 s'
      else parse_digits false 0 (String c s')
  | EmptyString => None
  end.
Definition to_int (v : pyval) : res Z :=
  match v with
  | VInt z => Ok z
  | VBool b => Ok (if b then 1 else 0)
  | VFloat f => PyFloat.trunc f
  | VStr s =>
      match parse_int s with
      | Some z => Ok z
      | None => Err (ValueError ("invalid literal for int() with base 10: '" +:+ s +:+ "'"))
      end
  | _ => Err (TypeError ("int() argument must be a string or a number, not '"
                         +:+ type_name v +:+ "'"))
  end.

(** Numeric value of a scalar for cross-type comparison: booleans are 0 and 1. *)
Definition num (v : pyval) : option (Z + float) :=
  match v with
  | VBool b => Some (inl (if b then 1 else 0))
  | VInt z => Some (inl z)
  | VFloat f => Some (inr f)
  | _ => None
  end.
Definition num_compare (a b : Z + float) : option comparison :=
  match a, b with
  | inl x, inl y => Some (x ?= y)
  | inr x, inr y => SFcompare x y
  | inr x, inl y => PyFloat.compare_Z x y
  | inl x, inr y => CompOpp <$> PyFloat.compare_Z y x
  end.

(** [v == w]: numbers compare by value, dictionaries up to order. *)
Fixpoint eq (v w : pyval) {struct v} : bool :=
  match v, w with
  | VNone, VNone => true
  | VStr a, VStr b => bool_decide (a = b)
  | VList a, VList b =>
      (fix go a b {struct a} :=
         match a, b with
         | [], [] => true
         | x :: a, y :: b => eq x y && go a b
         | _, _ => false
         end) a b
  | VDict a, VDict b =>
      (length a =? length b)%nat &&
      (fix go a :=
         match a with
         | [] => true
         | (k, x) :: a => match dlookup k b with Some y => eq x y | None => false end && go a
         end) a
  | _, _ =>
      match num v, num w with
      | Some x, Some y => match num_compare x y with Some Eq => true | _ => false end
      | _, _ => false
      end
  end.

(** [x in l] *)
Definition mem (x : pyval) (l : list pyval) : bool := existsb (eq x) l.

(** [x < y] and [x > y] for a number [x]. *)
Definition num_lt (x : Z + float) (y : pyval) : res bool :=
  match num y with
  | Some y => Ok (match num_compare x y with Some Lt => true | _ => false end)
  | None => Err (TypeError ("'<' not supported between a number and '" +:+ type_name y +:+ "'"))
  end.
Definition num_gt (x : Z + float) (y : pyval) : res bool :=
  match num y with
  | Some y => Ok (match num_compare x y with Some Gt => true | _ => false end)
  | None => Err (TypeError ("'>' not supported between a number and '" +:+ type_name y +:+ "'"))
  end.

Definition hashable (v : pyval) : bool :=
  match v with VList _ | VDict _ => false | _ => true end.
Definition unhashable (v : pyval) : exc := TypeError ("unhashable type: '" +:+ type_name v +:+ "'").

(** [x in container]: elements of a list, keys of a dictionary, substrings. *)
Definition contains (x container : pyval) : res bool :=
  match container with
  | VList l => Ok (mem x l)
  | VDict d =>
      if hashable x then Ok (match x with VStr k => dmem k d | _ => false end)
      else Err (unhashable x)
  | VStr s =>
      match x with
      | VStr t => Ok (str_in t s)
      | _ => Err (TypeError ("'in <string>' requires string as left operand, not " +:+ type_name x))
      end
  | _ => Err (TypeError ("argument of type '" +:+ type_name container +:+ "' is not iterable"))
  end.

End Py.

Lemma py_eq_str s w : Py.eq (VStr s) w = bool_decide (w = VStr s).
Proof.
  destruct w; try (by rewrite bool_decide_eq_false_2).
  simpl. apply bool_decide_ext. naive_solver.
Qed.

Lemma py_mem_str s l : Py.mem (VStr s) l = bool_decide (VStr s ∈ l).
Proof.
  unfold Py.mem. induction l as [|w l IH]; [done|].
  cbn [existsb]. rewrite IH, py_eq_str.
  rewrite <-bool_decide_or. apply bool_decide_ext. rewrite elem_of_cons. naive_solver.
Qed.

Example parse_int_ex : Py.parse_int " -1_000 " = Some (-1000).
Proof. reflexivity. Qed.
Example strip_lower_ex : Py.lower (Py.strip "  Analyze THIS ") = "analyze this".
Proof. reflexivity. Qed.
