(* ===== verification/ToolRegistry.v ===== *)
(** * Tool registry and result envelopes (agent-system/src/gateway/tool_registry.py)

    The registry maps tool ids to handlers.  [invoke] turns whatever a handler
    does (return, raise [ToolExecutionError], raise anything else) into one
    envelope shape.  A handler is a method of an object with its own state of
    type [T]: it is a function of the payload and that state. *)
From S2P Require Import Prelude PyFloat PyValue.

(** The envelope [{"success", "data", "error", "retryable"}]. *)
Record envelope := Envelope {
  env_success : bool;
  env_data : pyval;
  env_error : option (dict pyval);
  env_retryable : bool;
}.

#[global] Instance envelope_eq_dec : EqDecision envelope.
Proof. solve_decision. Defined.

Definition error_object (code message : string) : dict pyval :=
  [("code", VStr code); ("message", VStr message)].

Definition failure (error : dict pyval) (retryable : bool) : envelope :=
  Envelope false VNone (Some error) retryable.

(** The envelope as the dictionary the code stores in snapshots. *)
Definition envelope_dict (r : envelope) : pyval :=
  VDict [("success", VBool (env_success r)); ("data", env_data r);
         ("error", from_option VDict VNone (env_error r));
         ("retryable", VBool (env_retryable r))].

Module ToolRegistry.

(** What one call of a handler does. *)
Inductive outcome :=
| Returned (data : pyval)
| ToolExecutionError (code message : string) (retryable : bool)
| Raised (message : string).

Record ToolDefinition (T : Type) := {
  tool_id : string;
  schema_path : string;
  handler : dict pyval → T → outcome * T;
}.
Arguments tool_id {T} _.
Arguments schema_path {T} _.
Arguments handler {T} _ _ _.

Section registry.
Context {T : Type}.

Definition init : gmap string (ToolDefinition T) := ∅.

Definition get_def (defs : gmap string (ToolDefinition T)) (id : string)
    : res (ToolDefinition T) :=
  match defs !! id with
  | None => Err (ToolRegistryError ("tool not registered: " +:+ id))
  | Some d => Ok d
  end.

Definition register (d : ToolDefinition T) : st (gmap string (ToolDefinition T)) unit :=
  λ defs,
    match defs !! tool_id d with
    | Some _ => (Err (ToolRegistryError ("duplicate tool registration: " +:+ tool_id d)), defs)
    | None => (Ok tt, <[tool_id d := d]> defs)
    end.

Definition get_schema_path (defs : gmap string (ToolDefinition T)) (id : string) : res string :=
  schema_path <$> get_def defs id.

Definition normalize (o : outcome) : envelope :=
  match o with
  | Returned data => Envelope true data None false
  | ToolExecutionError code message retryable => failure (error_object code message) retryable
  | Raised message => failure (error_object "tool_runtime_exception" message) false
  end.

Definition invoke (defs : gmap string (ToolDefinition T)) (id : string)
    (payload : dict pyval) : st T envelope := λ t,
  match get_def defs id with
  | Err e => (Err e, t)
  | Ok d => let '(o, t') := handler d payload t in (Ok (normalize o), t')
  end.

(** A registered tool is found, under its own id, and never replaced. *)
Lemma register_spec d defs :
  match register d defs with
  | (Ok _, defs') =>
      get_def defs (tool_id d) = Err (ToolRegistryError ("tool not registered: " +:+ tool_id d))
      ∧ get_def defs' (tool_id d) = Ok d
      ∧ ∀ id, id ≠ tool_id d → get_def defs' id = get_def defs id
  | (Err _, defs') => defs' = defs ∧ is_ok (get_def defs (tool_id d)) = true
  end.
Proof.
  unfold register, get_def. destruct (defs !! tool_id d) eqn:E; [done|].
  split_and!; [done|by rewrite lookup_insert_eq|]. intros. by rewrite lookup_insert_ne.
Qed.

(** A failed call never carries data and a successful one never an error. *)
Lemma normalize_shape o :
  env_success (normalize o) = true ∧ env_error (normalize o) = None
    ∧ env_retryable (normalize o) = false
  ∨ env_success (normalize o) = false ∧ env_data (normalize o) = VNone
    ∧ is_Some (env_error (normalize o)).
Proof. destruct o; simpl; [left|right|right]; eauto. Qed.

End registry.
End ToolRegistry.
