(* ===== verification/StateStore.v ===== *)
(** * Session state store (agent-system/src/state/store.py)

    [store] is [InMemoryStateStore]: the session map, and the number of
    [_utcnow()] readings taken so far; reading [n] of the wall clock yields
    [utcnow n].  Each method is a [st store] computation, so the mutations made
    before an exception stay.  [op] enumerates the methods with their result
    types; clients that interleave calls use [exec]. *)
From S2P Require Import Prelude PyFloat PyValue ToolRegistry.
Local Open Scope Z_scope.

Inductive ExecutionStatus :=
| PENDING | RUNNING | WAITING_TOOL | SUCCESS | FAILED | CANCELED.

#[global] Instance ExecutionStatus_eq_dec : EqDecision ExecutionStatus.
Proof. solve_decision. Defined.

Record StepState := mkStepState {
  ss_step_id : string;
  ss_tool_id : string;
  ss_goal : string;
  ss_depends_on : list string;
  ss_status : ExecutionStatus;
  ss_attempts : Z;
  ss_idempotency_key : string;
  ss_result : option envelope;
  ss_error : option (dict pyval);
  ss_updated_at : string;
}.

(** The snapshot dictionary built by [SnapshotManager.create] (snapshot.py). *)
Record StepSnapshot := mkStepSnapshot {
  snap_id : string;
  snap_session_id : string;
  snap_step_id : string;
  snap_phase : string;
  snap_created_at : string;
  snap_payload : dict pyval;
}.

Record SessionState := mkSessionState {
  se_session_id : string;
  se_request_id : string;
  se_trace_id : string;
  se_plan_version : Z;
  se_status : ExecutionStatus;
  se_cancel_requested : bool;
  se_steps : gmap string StepState;
  se_step_sequence : list string;
  se_snapshots : list StepSnapshot;
  se_created_at : string;
  se_updated_at : string;
}.

(** A planner step as the executor serialises it for the store. *)
Record StepSpec := mkStepSpec {
  sp_step_id : string;
  sp_tool_id : string;
  sp_goal : string;
  sp_depends_on : list string;
}.

Record store := mkStore {
  sessions : gmap string SessionState;
  ticks : nat;
}.

Module StateStore.

(** ** Field updates *)
Definition step_set_status (x : ExecutionStatus) (s : StepState) : StepState :=
  mkStepState (ss_step_id s) (ss_tool_id s) (ss_goal s) (ss_depends_on s) x
    (ss_attempts s) (ss_idempotency_key s) (ss_result s) (ss_error s) (ss_updated_at s).
Definition step_set_attempts (x : Z) (s : StepState) : StepState :=
  mkStepState (ss_step_id s) (ss_tool_id s) (ss_goal s) (ss_depends_on s) (ss_status s)
    x (ss_idempotency_key s) (ss_result s) (ss_error s) (ss_updated_at s).
Definition step_set_key (x : string) (s : StepState) : StepState :=
  mkStepState (ss_step_id s) (ss_tool_id s) (ss_goal s) (ss_depends_on s) (ss_status s)
    (ss_attempts s) x (ss_result s) (ss_error s) (ss_updated_at s).
Definition step_set_result (x : option envelope) (s : StepState) : StepState :=
  mkStepState (ss_step_id s) (ss_tool_id s) (ss_goal s) (ss_depends_on s) (ss_status s)
    (ss_attempts s) (ss_idempotency_key s) x (ss_error s) (ss_updated_at s).
Definition step_set_error (x : option (dict pyval)) (s : StepState) : StepState :=
  mkStepState (ss_step_id s) (ss_tool_id s) (ss_goal s) (ss_depends_on s) (ss_status s)
    (ss_attempts s) (ss_idempotency_key s) (ss_result s) x (ss_updated_at s).
Definition step_set_updated (x : string) (s : StepState) : StepState :=
  mkStepState (ss_step_id s) (ss_tool_id s) (ss_goal s) (ss_depends_on s) (ss_status s)
    (ss_attempts s) (ss_idempotency_key s) (ss_result s) (ss_error s) x.

Definition set_request (x : string) (s : SessionState) : SessionState :=
  mkSessionState (se_session_id s) x (se_trace_id s) (se_plan_version s) (se_status s)
    (se_cancel_requested s) (se_steps s) (se_step_sequence s) (se_snapshots s)
    (se_created_at s) (se_updated_at s).
Definition set_trace (x : string) (s : SessionState) : SessionState :=
  mkSessionState (se_session_id s) (se_request_id s) x (se_plan_version s) (se_status s)
    (se_cancel_requested s) (se_steps s) (se_step_sequence s) (se_snapshots s)
    (se_created_at s) (se_updated_at s).
Definition set_version (x : Z) (s : SessionState) : SessionState :=
  mkSessionState (se_session_id s) (se_request_id s) (se_trace_id s) x (se_status s)
    (se_cancel_requested s) (se_steps s) (se_step_sequence s) (se_snapshots s)
    (se_created_at s) (se_updated_at s).
Definition set_status (x : ExecutionStatus) (s : SessionState) : SessionState :=
  mkSessionState (se_session_id s) (se_request_id s) (se_trace_id s) (se_plan_version s) x
    (se_cancel_requested s) (se_steps s) (se_step_sequence s) (se_snapshots s)
    (se_created_at s) (se_updated_at s).
Definition set_cancel (x : bool) (s : SessionState) : SessionState :=
  mkSessionState (se_session_id s) (se_request_id s) (se_trace_id s) (se_plan_version s)
    (se_status s) x (se_steps s) (se_step_sequence s) (se_snapshots s)
    (se_created_at s) (se_updated_at s).
Definition set_steps (x : gmap string StepState) (s : SessionState) : SessionState :=
  mkSessionState (se_session_id s) (se_request_id s) (se_trace_id s) (se_plan_version s)
    (se_status s) (se_cancel_requested s) x (se_step_sequence s) (se_snapshots s)
    (se_created_at s) (se_updated_at s).
Definition set_sequence (x : list string) (s : SessionState) : SessionState :=
  mkSessionState (se_session_id s) (se_request_id s) (se_trace_id s) (se_plan_version s)
    (se_status s) (se_cancel_requested s) (se_steps s) x (se_snapshots s)
    (se_created_at s) (se_updated_at s).
Definition set_snapshots (x : list StepSnapshot) (s : SessionState) : SessionState :=
  mkSessionState (se_session_id s) (se_request_id s) (se_trace_id s) (se_plan_version s)
    (se_status s) (se_cancel_requested s) (se_steps s) (se_step_sequence s) x
    (se_created_at s) (se_updated_at s).
Definition set_updated (x : string) (s : SessionState) : SessionState :=
  mkSessionState (se_session_id s) (se_request_id s) (se_trace_id s) (se_plan_version s)
    (se_status s) (se_cancel_requested s) (se_steps s) (se_step_sequence s) (se_snapshots s)
    (se_created_at s) x.

Definition init : store := mkStore ∅ 0.

(** [build_idempotency_key]: [f"{request_id}:{step_id}:{version}"]. *)
Definition build_idempotency_key (request_id step_id : string) (version : Z) : string :=
  request_id +:+ ":" +:+ step_id +:+ ":" +:+ pretty version.

Section methods.
Context (utcnow : nat → string).

(** [_utcnow()] *)
Definition now : st store string := λ w,
  (Ok (utcnow (ticks w)), mkStore (sessions w) (S (ticks w))).

Definition get_session (sid : string) : st store SessionState := λ w,
  match sessions w !! sid with
  | None => (Err (KeyError ("session not found: " +:+ sid)), w)
  | Some s => (Ok s, w)
  end.

(** Mutation of the session object that [get_session] returned. *)
Definition write_session (sid : string) (s : SessionState) : st store unit := λ w,
  (Ok tt, mkStore (<[sid := s]> (sessions w)) (ticks w)).

Definition update_session (sid : string) (f : SessionState → SessionState) : st store unit :=
  s ← get_session sid; write_session sid (f s).

Definition touch_session (sid : string) : st store unit :=
  _ ← get_session sid; t ← now; update_session sid (set_updated t).

Definition get_step (sid step_id : string) : st store StepState :=
  s ← get_session sid;
  match se_steps s !! step_id with
  | None => st_raise (KeyError ("step not found: " +:+ step_id))
  | Some x => mret x
  end.

(** Mutation of the step object that [get_step] returned. *)
Definition update_step (sid step_id : string) (f : StepState → StepState) : st store unit :=
  x ← get_step sid step_id;
  update_session sid (λ s, set_steps (<[step_id := f x]> (se_steps s)) s).

(** One iteration of the loop of [upsert_plan_steps]. *)
Definition upsert_step (sid : string) (sp : StepSpec) : st store unit :=
  s ← get_session sid;
  match se_steps s !! sp_step_id sp with
  | Some _ => mret tt
  | None =>
      t ← now;
      update_session sid (λ s,
        set_sequence (se_step_sequence s ++ [sp_step_id sp])
          (set_steps (<[sp_step_id sp :=
             mkStepState (sp_step_id sp) (sp_tool_id sp) (sp_goal sp) (sp_depends_on sp)
               PENDING 0 "" None None t]> (se_steps s)) s))
  end.

Definition upsert_plan_steps (sid : string) (steps : list StepSpec) (version : Z)
    : st store unit :=
  update_session sid (λ s, set_version (Z.max (se_plan_version s) version) s) ≫= λ _,
  st_for (upsert_step sid) steps ≫= λ _,
  touch_session sid.

Definition init_session (request_id sid : string) (steps : list StepSpec) (version : Z)
    (trace_id : string) : st store SessionState := λ w,
  match sessions w !! sid with
  | Some _ =>
      (update_session sid (λ s, set_version (Z.max (se_plan_version s) version)
         (set_trace (if str_truthy trace_id then trace_id else se_trace_id s)
            (set_request request_id s))) ≫= λ _,
       upsert_plan_steps sid steps version ≫= λ _,
       touch_session sid ≫= λ _,
       get_session sid) w
  | None =>
      (t1 ← now; t2 ← now;
       write_session sid (mkSessionState sid request_id trace_id version PENDING false
                            ∅ [] [] t1 t2) ≫= λ _,
       upsert_plan_steps sid steps version ≫= λ _,
       get_session sid) w
  end.

Definition set_session_status (sid : string) (x : ExecutionStatus) : st store unit :=
  update_session sid (set_status x) ≫= λ _, touch_session sid.

Definition mark_cancel_requested (sid : string) : st store unit :=
  update_session sid (set_cancel true) ≫= λ _, touch_session sid.

Definition is_cancel_requested (sid : string) : st store bool :=
  s ← get_session sid; mret (se_cancel_requested s).

Definition mark_step_running (sid step_id : string) : st store unit :=
  update_step sid step_id
    (λ x, step_set_attempts (ss_attempts x + 1) (step_set_status RUNNING x)) ≫= λ _,
  t ← now; update_step sid step_id (step_set_updated t) ≫= λ _,
  touch_session sid.

Definition mark_step_waiting_tool (sid step_id : string) : st store unit :=
  update_step sid step_id (step_set_status WAITING_TOOL) ≫= λ _,
  t ← now; update_step sid step_id (step_set_updated t) ≫= λ _,
  touch_session sid.

Definition mark_step_success (sid step_id : string) (result : envelope) (key : string)
    : st store unit :=
  update_step sid step_id (λ x, step_set_key key (step_set_error None
    (step_set_result (Some result) (step_set_status SUCCESS x)))) ≫= λ _,
  t ← now; update_step sid step_id (step_set_updated t) ≫= λ _,
  touch_session sid.

Definition mark_step_failed (sid step_id : string) (error : dict pyval) : st store unit :=
  update_step sid step_id (λ x, step_set_error (Some error) (step_set_status FAILED x)) ≫= λ _,
  t ← now; update_step sid step_id (step_set_updated t) ≫= λ _,
  touch_session sid.

Definition mark_step_canceled (sid step_id : string) (reason : dict pyval) : st store unit :=
  update_step sid step_id (λ x, step_set_error (Some reason) (step_set_status CANCELED x)) ≫= λ _,
  t ← now; update_step sid step_id (step_set_updated t) ≫= λ _,
  touch_session sid.

Definition should_skip_step (sid step_id key : string) : st store bool :=
  x ← get_step sid step_id;
  mret (bool_decide (ss_status x = SUCCESS) && str_truthy (ss_idempotency_key x)
        && bool_decide (ss_idempotency_key x = key)).

Definition get_step_result (sid step_id : string) : st store (option envelope) :=
  x ← get_step sid step_id; mret (ss_result x).

Definition save_snapshot (sid : string) (x : StepSnapshot) : st store unit :=
  update_session sid (λ s, set_snapshots (se_snapshots s ++ [x]) s) ≫= λ _,
  touch_session sid.

Definition latest_snapshot (sid : string) : st store (option StepSnapshot) :=
  s ← get_session sid; mret (last (se_snapshots s)).

Definition latest_snapshot_for_step (sid step_id : string) : st store (option StepSnapshot) :=
  s ← get_session sid;
  mret (find_first (λ x, bool_decide (snap_step_id x = step_id)) (reverse (se_snapshots s))).

(** The loops of [completed_step_ids] and [pending_step_ids]:
    [session_state.steps[step_id]] raises on a dangling sequence entry. *)
Fixpoint select_steps (p : ExecutionStatus → bool) (steps : gmap string StepState)
    (seq : list string) : res (list string) :=
  match seq with
  | [] => Ok []
  | id :: seq =>
      match steps !! id with
      | None => Err (KeyError id)
      | Some x =>
          r ← select_steps p steps seq;
          Ok (if p (ss_status x) then id :: r else r)
      end
  end.

Definition is_success (x : ExecutionStatus) : bool := bool_decide (x = SUCCESS).

Definition completed_step_ids (sid : string) : st store (list string) :=
  s ← get_session sid; st_lift (select_steps is_success (se_steps s) (se_step_sequence s)).

Definition pending_step_ids (sid : string) : st store (list string) :=
  s ← get_session sid;
  st_lift (select_steps (λ x, negb (is_success x)) (se_steps s) (se_step_sequence s)).

(** ** The methods as commands *)
Inductive op : Type → Type :=
| OInitSession (request_id sid : string) (steps : list StepSpec) (version : Z)
    (trace_id : string) : op SessionState
| OUpsertPlanSteps (sid : string) (steps : list StepSpec) (version : Z) : op unit
| OGetSession (sid : string) : op SessionState
| OSetSessionStatus (sid : string) (x : ExecutionStatus) : op unit
| OMarkCancelRequested (sid : string) : op unit
| OIsCancelRequested (sid : string) : op bool
| OMarkStepRunning (sid step_id : string) : op unit
| OMarkStepWaitingTool (sid step_id : string) : op unit
| OMarkStepSuccess (sid step_id : string) (result : envelope) (key : string) : op unit
| OMarkStepFailed (sid step_id : string) (error : dict pyval) : op unit
| OMarkStepCanceled (sid step_id : string) (reason : dict pyval) : op unit
| OShouldSkipStep (sid step_id key : string) : op bool
| OGetStepResult (sid step_id : string) : op (option envelope)
| OSaveSnapshot (sid : string) (x : StepSnapshot) : op unit
| OUtcNow : op string.

Definition exec {A} (o : op A) : st store A :=
  match o with
  | OInitSession r sid steps v t => init_session r sid steps v t
  | OUpsertPlanSteps sid steps v => upsert_plan_steps sid steps v
  | OGetSession sid => get_session sid
  | OSetSessionStatus sid x => set_session_status sid x
  | OMarkCancelRequested sid => mark_cancel_requested sid
  | OIsCancelRequested sid => is_cancel_requested sid
  | OMarkStepRunning sid i => mark_step_running sid i
  | OMarkStepWaitingTool sid i => mark_step_waiting_tool sid i
  | OMarkStepSuccess sid i r k => mark_step_success sid i r k
  | OMarkStepFailed sid i e => mark_step_failed sid i e
  | OMarkStepCanceled sid i e => mark_step_canceled sid i e
  | OShouldSkipStep sid i k => should_skip_step sid i k
  | OGetStepResult sid i => get_step_result sid i
  | OSaveSnapshot sid x => save_snapshot sid x
  | OUtcNow => now
  end.
End methods.
End StateStore.
