(* ===== verification/StateStoreFacts.v ===== *)
(** * The state store: invariant, framing and recovery data

    Characterises every method by the session it rewrites, proves the
    representation invariant [store_wf] for all of them, and that a call leaves
    every step other than the one it names as it was. *)
From S2P Require Import Prelude PyFloat PyValue ToolRegistry StateStore.
Import StateStore.
Local Open Scope Z_scope.

(** ** Views and the representation invariant *)
Definition step_of (w : store) (sid id : string) : option StepState :=
  sessions w !! sid ≫= λ s, se_steps s !! id.
Definition status_of (w : store) (sid id : string) : option ExecutionStatus :=
  ss_status <$> step_of w sid id.

Record session_wf (s : SessionState) : Prop := {
  wf_nodup : NoDup (se_step_sequence s);
  wf_dom : ∀ id, id ∈ se_step_sequence s ↔ is_Some (se_steps s !! id);
  wf_id : ∀ id x, se_steps s !! id = Some x → ss_step_id x = id;
}.

Definition store_wf (w : store) : Prop :=
  ∀ sid s, sessions w !! sid = Some s → se_session_id s = sid ∧ session_wf s.

(** The step a command may change, if it changes one that exists. *)
Definition target {A} (o : op A) : option (string * string) :=
  match o with
  | OMarkStepRunning sid i | OMarkStepWaitingTool sid i => Some (sid, i)
  | OMarkStepSuccess sid i _ _ => Some (sid, i)
  | OMarkStepFailed sid i _ | OMarkStepCanceled sid i _ => Some (sid, i)
  | _ => None
  end.

Section facts.
Context (utcnow : nat → string).
Implicit Types (w : store) (s : SessionState).
Local Abbreviation exec := (exec utcnow).

(** ** What each building block computes *)
Lemma update_session_eq sid f w :
  update_session sid f w =
  match sessions w !! sid with
  | None => (Err (KeyError ("session not found: " +:+ sid)), w)
  | Some s => (Ok tt, mkStore (<[sid := f s]> (sessions w)) (ticks w))
  end.
Proof.
  unfold update_session, mbind, st_bind, get_session. by destruct (sessions w !! sid).
Qed.

Lemma touch_session_eq sid w :
  touch_session utcnow sid w =
  match sessions w !! sid with
  | None => (Err (KeyError ("session not found: " +:+ sid)), w)
  | Some s => (Ok tt, mkStore (<[sid := set_updated (utcnow (ticks w)) s]> (sessions w))
                        (S (ticks w)))
  end.
Proof.
  unfold touch_session, mbind at 1, st_bind at 1, get_session.
  destruct (sessions w !! sid) eqn:E; [|done].
  unfold mbind, st_bind, now. rewrite update_session_eq. simpl. by rewrite E.
Qed.

Lemma get_step_eq sid id w :
  get_step sid id w =
  match sessions w !! sid with
  | None => (Err (KeyError ("session not found: " +:+ sid)), w)
  | Some s =>
      match se_steps s !! id with
      | None => (Err (KeyError ("step not found: " +:+ id)), w)
      | Some x => (Ok x, w)
      end
  end.
Proof.
  unfold get_step, mbind, st_bind, get_session. destruct (sessions w !! sid); [|done].
  by destruct (se_steps _ !! id).
Qed.

Lemma update_step_eq sid id f w :
  update_step sid id f w =
  match sessions w !! sid with
  | None => (Err (KeyError ("session not found: " +:+ sid)), w)
  | Some s =>
      match se_steps s !! id with
      | None => (Err (KeyError ("step not found: " +:+ id)), w)
      | Some x => (Ok tt, mkStore (<[sid := set_steps (<[id := f x]> (se_steps s)) s]>
                                     (sessions w)) (ticks w))
      end
  end.
Proof.
  unfold update_step, mbind, st_bind. rewrite get_step_eq.
  destruct (sessions w !! sid) as [s|] eqn:E; [|done].
  destruct (se_steps s !! id); [|done]. by rewrite update_session_eq, E.
Qed.

(** The common body of the [mark_step_*] methods: change the step, stamp it,
    touch the session. *)
Definition mark (sid id : string) (f : StepState → StepState) : st store unit :=
  update_step sid id f ≫= λ _,
  t ← now utcnow; update_step sid id (step_set_updated t) ≫= λ _,
  touch_session utcnow sid.

Lemma mark_eq sid id f w :
  mark sid id f w =
  match sessions w !! sid with
  | None => (Err (KeyError ("session not found: " +:+ sid)), w)
  | Some s =>
      match se_steps s !! id with
      | None => (Err (KeyError ("step not found: " +:+ id)), w)
      | Some x =>
          (Ok tt, mkStore (<[sid := set_updated (utcnow (S (ticks w)))
             (set_steps (<[id := step_set_updated (utcnow (ticks w)) (f x)]> (se_steps s)) s)]>
             (sessions w)) (S (S (ticks w))))
      end
  end.
Proof.
  unfold mark, mbind, st_bind. rewrite update_step_eq.
  destruct (sessions w !! sid) as [s|] eqn:E; [|done].
  destruct (se_steps s !! id) as [x|] eqn:Ex; [|done]. unfold now.
  rewrite update_step_eq. simpl. rewrite lookup_insert_eq. simpl. rewrite lookup_insert_eq.
  rewrite touch_session_eq. simpl. rewrite lookup_insert_eq, !insert_insert_eq. simpl.
  by rewrite ?insert_insert_eq.
Qed.

(** ** Preservation of the invariant *)
Lemma wf_update sid f :
  (∀ s, session_wf s → se_session_id s = sid → session_wf (f s) ∧ se_session_id (f s) = sid) →
  preserves store_wf (update_session sid f).
Proof.
  intros Hf w Hw. rewrite update_session_eq.
  destruct (sessions w !! sid) as [s|] eqn:E; [|done].
  intros sid' s' Hs'. simpl in Hs'.
  destruct (decide (sid = sid')) as [<-|]; simplify_map_eq; [|by apply Hw].
  destruct (Hw _ _ E). naive_solver.
Qed.

Lemma wf_now : preserves store_wf (now utcnow).
Proof. by intros w Hw. Qed.

Lemma wf_get_session sid : preserves store_wf (get_session sid).
Proof. intros w Hw. unfold get_session. by destruct (sessions w !! sid). Qed.

Lemma wf_get_step sid id : preserves store_wf (get_step sid id).
Proof. intros w Hw. rewrite get_step_eq. by repeat case_match. Qed.

Lemma session_wf_set_step id x y s :
  session_wf s → se_steps s !! id = Some x → ss_step_id y = id →
  session_wf (set_steps (<[id := y]> (se_steps s)) s).
Proof.
  intros [Hn Hd Hi] Hx Hy. split; simpl; [done| |].
  - intros i. rewrite Hd, lookup_insert. case_decide; naive_solver.
  - intros i z. rewrite lookup_insert. case_decide; naive_solver.
Qed.

#[local] Hint Resolve wf_now wf_get_session wf_get_step : agent.

Ltac wf_field := apply wf_update; intros ? [? ? ?] ?; by split; [split|].

Lemma wf_touch sid : preserves store_wf (touch_session utcnow sid).
Proof.
  apply preserves_bind; [auto with agent|]. intros _.
  apply preserves_bind; [auto with agent|]. intros t. wf_field.
Qed.

Lemma wf_mark sid id f :
  (∀ x, ss_step_id (f x) = ss_step_id x) → preserves store_wf (mark sid id f).
Proof.
  intros Hf w Hw. rewrite mark_eq. destruct (sessions w !! sid) as [s|] eqn:E; [|done].
  destruct (se_steps s !! id) as [x|] eqn:Ex; [|done]. destruct (Hw _ _ E) as [Hid Hs].
  intros sid' s' Hs'. simpl in Hs'.
  destruct (decide (sid = sid')) as [<-|]; simplify_map_eq; [|by apply Hw].
  split; [done|].
  assert (session_wf (set_steps
    (<[id:=step_set_updated (utcnow (ticks w)) (f x)]> (se_steps s)) s)) as [? ? ?].
  { eapply session_wf_set_step; [done..|]. simpl. rewrite Hf. by eapply wf_id. }
  by split.
Qed.

Lemma wf_upsert_step sid sp : preserves store_wf (upsert_step utcnow sid sp).
Proof.
  intros w Hw. unfold upsert_step, mbind at 1, st_bind at 1, get_session.
  destruct (sessions w !! sid) as [s|] eqn:E; [|done].
  destruct (se_steps s !! sp_step_id sp) eqn:Esp; [done|].
  unfold mbind, st_bind, now. rewrite update_session_eq. simpl. rewrite E.
  destruct (Hw _ _ E) as [Hid [Hn Hd Hi]].
  intros sid' s' Hs'. simpl in Hs'.
  destruct (decide (sid = sid')) as [<-|]; simplify_map_eq; [|by apply Hw].
  split; [done|]. split; simpl.
  - apply NoDup_app. split_and!; [done| |apply NoDup_singleton].
    intros i Hin Hin'. apply list_elem_of_singleton in Hin' as ->.
    apply Hd in Hin as [? ?]. congruence.
  - intros i. rewrite elem_of_app, Hd, list_elem_of_singleton, lookup_insert.
    case_decide; naive_solver.
  - intros i x. rewrite lookup_insert. case_decide; naive_solver.
Qed.

Lemma wf_upsert sid steps v : preserves store_wf (upsert_plan_steps utcnow sid steps v).
Proof.
  apply preserves_bind; [wf_field|]. intros _.
  apply preserves_bind; [apply preserves_for; auto using wf_upsert_step|].
  auto using wf_touch.
Qed.

Lemma wf_write sid s :
  session_wf s → se_session_id s = sid → preserves store_wf (write_session sid s).
Proof.
  intros ? ? w Hw sid' s' Hs'. simpl in Hs'.
  destruct (decide (sid = sid')) as [<-|]; simplify_map_eq; [done|by apply Hw].
Qed.

Lemma session_wf_empty sid r t v t1 t2 :
  session_wf (mkSessionState sid r t v PENDING false ∅ [] [] t1 t2).
Proof.
  split; simpl; [constructor| |by intros id x; rewrite lookup_empty].
  intros id. rewrite lookup_empty. split; [by intros ?%not_elem_of_nil|by intros []].
Qed.

Lemma wf_init_session r sid steps v t :
  preserves store_wf (init_session utcnow r sid steps v t).
Proof.
  intros w Hw. unfold init_session. destruct (sessions w !! sid) as [s0|]; [clear s0|].
  - revert w Hw. change (preserves store_wf
      (update_session sid (λ s, set_version (Z.max (se_plan_version s) v)
         (set_trace (if str_truthy t then t else se_trace_id s) (set_request r s))) ≫= λ _,
       upsert_plan_steps utcnow sid steps v ≫= λ _,
       touch_session utcnow sid ≫= λ _, get_session sid)).
    apply preserves_bind; [wf_field|]. intros _.
    apply preserves_bind; [apply wf_upsert|]. intros _.
    apply preserves_bind; [apply wf_touch|]. auto with agent.
  - revert w Hw. match goal with |- ∀ w, _ → store_wf (?m w).2 => change (preserves store_wf m) end.
    apply preserves_bind; [auto with agent|]. intros t1.
    apply preserves_bind; [auto with agent|]. intros t2.
    apply preserves_bind; [apply wf_write; [apply session_wf_empty|done]|]. intros _.
    apply preserves_bind; [apply wf_upsert|]. auto with agent.
Qed.

Lemma exec_wf {A} (o : op A) w : store_wf w → store_wf (exec o w).2.
Proof.
  revert w. change (preserves store_wf (exec o)). destruct o; simpl;
    try (by apply (wf_mark _ _ _)); try solve [auto with agent].
  - apply wf_init_session.
  - apply wf_upsert.
  - apply preserves_bind; [wf_field|auto using wf_touch].
  - apply preserves_bind; [wf_field|auto using wf_touch].
  - apply preserves_bind; auto with agent.
  - apply preserves_bind; auto with agent.
  - apply preserves_bind; auto with agent.
  - apply preserves_bind; [wf_field|auto using wf_touch].
Qed.

(** ** Framing *)
Lemma step_of_Some w sid id x :
  step_of w sid id = Some x ↔ ∃ s, sessions w !! sid = Some s ∧ se_steps s !! id = Some x.
Proof. unfold step_of. rewrite bind_Some. naive_solver. Qed.

(** [keeps sid id]: the step's recorded state survives the computation. *)
Definition keeps {A} (sid id : string) (m : st store A) : Prop :=
  ∀ x, preserves (λ w, step_of w sid id = Some x) m.

Lemma keeps_bind {A B} sid id (m : st store A) (f : A → st store B) :
  keeps sid id m → (∀ a, keeps sid id (f a)) → keeps sid id (m ≫= f).
Proof. intros ?? x. apply preserves_bind; [done|]. intros. naive_solver. Qed.

Lemma keeps_ret {A} sid id (a : A) : keeps sid id (mret a : st store A).
Proof. by intros x w. Qed.

Lemma keeps_lift {A} sid id (r : res A) : keeps sid id (st_lift r : st store A).
Proof. by intros x w. Qed.

Lemma keeps_now sid id : keeps sid id (now utcnow).
Proof. by intros x w. Qed.

Lemma keeps_get_session sid id sid' : keeps sid id (get_session sid').
Proof. intros x w. unfold get_session. by destruct (sessions w !! sid'). Qed.

Lemma keeps_get_step sid id sid' id' : keeps sid id (get_step sid' id').
Proof. intros x w. rewrite get_step_eq. by repeat case_match. Qed.

Lemma keeps_update sid id sid' f :
  (∀ s y, se_steps s !! id = Some y → se_steps (f s) !! id = Some y) →
  keeps sid id (update_session sid' f).
Proof.
  intros Hf x w. rewrite update_session_eq. destruct (sessions w !! sid') as [s|] eqn:E; [|done].
  rewrite !step_of_Some. intros (s' & ? & ?). simpl.
  destruct (decide (sid' = sid)) as [->|]; simplify_map_eq; eauto.
Qed.

#[local] Hint Resolve keeps_bind keeps_ret keeps_lift keeps_now keeps_get_session
  keeps_get_step : agent.

Lemma keeps_touch sid id sid' : keeps sid id (touch_session utcnow sid').
Proof.
  apply keeps_bind; [auto with agent|intros _].
  apply keeps_bind; [auto with agent|intros t]. by apply keeps_update.
Qed.
#[local] Hint Resolve keeps_touch : agent.

Lemma keeps_mark sid id sid' id' f :
  (sid', id') ≠ (sid, id) → keeps sid id (mark sid' id' f).
Proof.
  intros Hne x w. rewrite mark_eq. destruct (sessions w !! sid') as [s|] eqn:E; [|done].
  destruct (se_steps s !! id') as [y|] eqn:Ey; [|done].
  rewrite !step_of_Some. intros (s' & ? & ?). simpl.
  destruct (decide (sid' = sid)) as [->|]; simplify_map_eq; [|eauto].
  eexists. split; [done|]. simpl. rewrite lookup_insert_ne by congruence. done.
Qed.

Lemma keeps_upsert_step sid id sid' sp : keeps sid id (upsert_step utcnow sid' sp).
Proof.
  intros x w Hx. unfold upsert_step, mbind at 1, st_bind at 1, get_session.
  destruct (sessions w !! sid') as [s|] eqn:E; [|done].
  destruct (se_steps s !! sp_step_id sp) eqn:Esp; [done|].
  unfold mbind, st_bind, now. rewrite update_session_eq. simpl. rewrite E.
  apply step_of_Some in Hx as (s' & ? & ?). apply step_of_Some. simpl.
  destruct (decide (sid' = sid)) as [->|]; simplify_map_eq; [|eauto].
  eexists. split; [done|]. simpl. rewrite lookup_insert_ne by congruence. done.
Qed.

Lemma keeps_upsert sid id sid' steps v : keeps sid id (upsert_plan_steps utcnow sid' steps v).
Proof.
  apply keeps_bind; [by apply keeps_update|intros _].
  apply keeps_bind; [|auto with agent].
  intros x. apply preserves_for. intros sp _. apply keeps_upsert_step.
Qed.

Lemma keeps_init sid id r sid' steps v t : keeps sid id (init_session utcnow r sid' steps v t).
Proof.
  intros x w Hx. unfold init_session. destruct (sessions w !! sid') as [s0|] eqn:E.
  - clear s0 E. revert w Hx.
    match goal with |- ∀ w, _ → step_of (?m w).2 _ _ = _ => cut (keeps sid id m); [by intros H; apply H|] end.
    apply keeps_bind; [by apply keeps_update|intros _].
    apply keeps_bind; [apply keeps_upsert|intros _]. auto with agent.
  - unfold mbind at 1, st_bind at 1. cbn [now]. unfold mbind at 1, st_bind at 1. cbn [now].
    unfold mbind at 1, st_bind at 1. cbn [write_session].
    match goal with |- step_of (?m ?w').2 _ _ = _ => cut (keeps sid id m); [intros H; apply H|] end.
    + apply step_of_Some in Hx as (s & ? & ?). apply step_of_Some. exists s. simpl.
      split; [|done]. rewrite lookup_insert_ne; congruence.
    + apply keeps_bind; [apply keeps_upsert|]. auto with agent.
Qed.

Lemma exec_keeps {A} (o : op A) sid id : target o ≠ Some (sid, id) → keeps sid id (exec o).
Proof.
  destruct o; simpl; intros Ht; try (by apply (keeps_mark _ _ _ _ _); congruence);
    try solve [auto with agent].
  - apply keeps_init.
  - apply keeps_upsert.
  - apply keeps_bind; [by apply keeps_update|auto with agent].
  - apply keeps_bind; [by apply keeps_update|auto with agent].
  - apply keeps_bind; auto with agent.
  - apply keeps_bind; auto with agent.
  - apply keeps_bind; auto with agent.
  - apply keeps_bind; [by apply keeps_update|auto with agent].
Qed.
End facts.
