(* ===== verification/Recovery.v ===== *)
(** * Snapshots and recovery points (agent-system/src/state/snapshot.py, recovery.py)

    [SnapshotManager.create] builds one snapshot from the session it is given;
    [RecoveryService.find_recovery_point] computes what to skip and where to
    resume.  The theorems of the state store that speak of whole call
    sequences are here too. *)
From S2P Require Import Prelude PyFloat PyValue ToolRegistry StateStore StateStoreFacts.
Import StateStore.

Module SnapshotManager.
(** [_build_snapshot_id]: [f"{session_id}:{step_id}:{snapshot_index}"]. *)
Definition build_snapshot_id (session_id step_id : string) (index : nat) : string :=
  session_id +:+ ":" +:+ step_id +:+ ":" +:+ pretty index.

(** [create]; [created_at] is the wall-clock reading. *)
Definition create (s : SessionState) (step_id phase created_at : string)
    (payload : dict pyval) : StepSnapshot :=
  mkStepSnapshot
    (build_snapshot_id (se_session_id s) step_id (length (se_snapshots s)))
    (se_session_id s) step_id phase created_at payload.
End SnapshotManager.

Module RecoveryService.
Record RecoveryPoint := mkRecoveryPoint {
  rp_session_id : string;
  rp_completed_step_ids : list string;
  rp_resume_step_id : option string;
  rp_snapshot_id : option string;
}.

Definition find_snapshot_id (s : SessionState) (step_id : option string) : option string :=
  match step_id with
  | None => snap_id <$> last (se_snapshots s)
  | Some id =>
      snap_id <$> find_first (λ x, bool_decide (snap_step_id x = id)) (reverse (se_snapshots s))
  end.

(** The second loop: the first step, in sequence order, that is not SUCCESS. *)
Fixpoint first_unfinished (steps : gmap string StepState) (seq : list string)
    : res (option string) :=
  match seq with
  | [] => Ok None
  | id :: seq =>
      match steps !! id with
      | None => Err (KeyError id)
      | Some x => if is_success (ss_status x) then first_unfinished steps seq else Ok (Some id)
      end
  end.

Definition find_recovery_point (s : SessionState) (step_id : option string)
    : res RecoveryPoint :=
  completed ← select_steps is_success (se_steps s) (se_step_sequence s);
  match step_id with
  | Some id =>
      Ok (mkRecoveryPoint (se_session_id s) completed (Some id) (find_snapshot_id s (Some id)))
  | None =>
      resume ← first_unfinished (se_steps s) (se_step_sequence s);
      Ok (mkRecoveryPoint (se_session_id s) completed resume (find_snapshot_id s resume))
  end.
End RecoveryService.
Import RecoveryService.

(** ** Reachable stores *)
Inductive reachable (utcnow : nat → string) : store → Prop :=
| reachable_init : reachable utcnow init
| reachable_call A (o : op A) w :
    reachable utcnow w → reachable utcnow (exec utcnow o w).2.

(** A sequence of calls, results dropped. *)
Definition call := sigT op.
Definition run_calls (utcnow : nat → string) (l : list call) (w : store) : store :=
  foldl (λ w c, (exec utcnow (projT2 c) w).2) w l.
Definition call_target (c : call) : option (string * string) := target (projT2 c).

Lemma run_calls_keeps utcnow sid id l w x :
  Forall (λ c, call_target c ≠ Some (sid, id)) l →
  step_of w sid id = Some x → step_of (run_calls utcnow l w) sid id = Some x.
Proof.
  intros Hl. revert w. induction Hl as [|c l Hc Hl IH]; intros w Hx; [done|].
  simpl. apply IH. by apply exec_keeps.
Qed.

Lemma reachable_wf utcnow w : reachable utcnow w → store_wf w.
Proof.
  induction 1; [intros sid s; simpl; by rewrite lookup_empty|by apply exec_wf].
Qed.

(** ** Selecting steps by status *)
Lemma select_steps_ok p steps seq :
  (∀ id, id ∈ seq → is_Some (steps !! id)) →
  select_steps p steps seq =
  Ok (filter (λ id, from_option (λ x, p (ss_status x)) false (steps !! id) = true) seq).
Proof.
  induction seq as [|id seq IH]; intros H; [done|]. simpl.
  destruct (H id ltac:(set_solver)) as [x Hx]. rewrite Hx, IH by set_solver. simpl.
  rewrite filter_cons, Hx. simpl. destruct (p (ss_status x)) eqn:E.
  - by rewrite decide_True.
  - by rewrite decide_False by congruence.
Qed.

Lemma first_unfinished_ok steps seq :
  (∀ id, id ∈ seq → is_Some (steps !! id)) →
  ∃ r, first_unfinished steps seq = Ok r ∧
  match r with
  | None => ∀ id, id ∈ seq → ss_status <$> steps !! id = Some SUCCESS
  | Some id => ∃ l1 l2, seq = l1 ++ id :: l2 ∧ ss_status <$> steps !! id ≠ Some SUCCESS
      ∧ ∀ j, j ∈ l1 → ss_status <$> steps !! j = Some SUCCESS
  end.
Proof.
  induction seq as [|id seq IH]; intros H; simpl; [eexists; split; [done|set_solver]|].
  destruct (H id ltac:(set_solver)) as [x Hx]. rewrite Hx.
  destruct (is_success (ss_status x)) eqn:E.
  - apply bool_decide_eq_true in E. destruct IH as (r & -> & Hr); [set_solver|].
    exists r. split; [done|]. destruct r as [i|].
    + destruct Hr as (l1 & l2 & -> & ? & Hl1). exists (id :: l1), l2.
      split_and!; [done..|]. intros j [->|?]%elem_of_cons; [by rewrite Hx, <-E|auto].
    + intros j [->|?]%elem_of_cons; [by rewrite Hx, <-E|auto].
  - apply bool_decide_eq_false in E. exists (Some id). split; [done|].
    exists [], seq. split_and!; [done|rewrite Hx; naive_solver|set_solver].
Qed.

Lemma filter_split {A} (P Q : A → Prop) `{!∀ x, Decision (P x), !∀ x, Decision (Q x)} l :
  (∀ x, x ∈ l → (Q x ↔ ¬ P x)) → filter P l ++ filter Q l ≡ₚ l.
Proof.
  induction l as [|x l IH]; intros Hl; [done|]. rewrite !filter_cons.
  specialize (IH ltac:(set_solver)). specialize (Hl x ltac:(set_solver)).
  repeat case_decide; try tauto; simpl; [by rewrite IH|].
  by rewrite <-Permutation_middle, IH.
Qed.

(** ** Snapshot identifiers *)
Lemma snapshot_id_index sid sid' step step' i j :
  SnapshotManager.build_snapshot_id sid step i = SnapshotManager.build_snapshot_id sid' step' j →
  i = j.
Proof.
  unfold SnapshotManager.build_snapshot_id. intros H.
  apply Nat2N.inj, (inj pretty).
  apply (app_last_char (Ascii.ascii_of_nat 58) (sid +:+ ":" +:+ step) (sid' +:+ ":" +:+ step'));
    [apply no_char_pretty_N; intros d; unfold pretty_N_char; by repeat case_match..|].
  by rewrite !string_append_assoc.
Qed.

(** ** Snapshots taken one at a time

    [Executor._save_snapshot]: read the session, build the snapshot, append it. *)
Definition save_snapshot_of (utcnow : nat → string) (sid step_id phase : string)
    (payload : dict pyval) : st store unit :=
  s ← get_session sid; t ← now utcnow;
  save_snapshot utcnow sid (SnapshotManager.create s step_id phase t payload).

Definition is_save {A} (o : op A) : bool :=
  match o with OSaveSnapshot _ _ => true | _ => false end.

(** Stores in which every snapshot was appended by [_save_snapshot]. *)
Inductive snapshot_history (utcnow : nat → string) : store → Prop :=
| history_init : snapshot_history utcnow init
| history_call A (o : op A) w :
    is_save o = false → snapshot_history utcnow w →
    snapshot_history utcnow (exec utcnow o w).2
| history_save sid step_id phase payload w :
    snapshot_history utcnow w →
    snapshot_history utcnow (save_snapshot_of utcnow sid step_id phase payload w).2.

(** Snapshot [i] of a session carries the index [i] in its identifier. *)
Definition indexed (w : store) : Prop :=
  ∀ sid s, sessions w !! sid = Some s → ∀ i x, se_snapshots s !! i = Some x →
    snap_id x = SnapshotManager.build_snapshot_id (snap_session_id x) (snap_step_id x) i.

Lemma indexed_update sid f :
  (∀ s, se_snapshots (f s) = se_snapshots s) → preserves indexed (update_session sid f).
Proof.
  intros Hf w Hw. rewrite update_session_eq. destruct (sessions w !! sid) as [s|] eqn:E; [|done].
  intros sid' s' Hs'. simpl in Hs'.
  destruct (decide (sid = sid')) as [<-|]; simplify_map_eq; [|by eapply Hw].
  rewrite Hf. by eapply Hw.
Qed.

Lemma indexed_now utcnow : preserves indexed (now utcnow).
Proof. by intros w Hw. Qed.
Lemma indexed_get_session sid : preserves indexed (get_session sid).
Proof. intros w Hw. unfold get_session. by destruct (sessions w !! sid). Qed.
Lemma indexed_get_step sid id : preserves indexed (get_step sid id).
Proof. intros w Hw. rewrite get_step_eq. by repeat case_match. Qed.

#[local] Hint Resolve indexed_now indexed_get_session indexed_get_step : agent.

Ltac indexed_close := solve [by apply indexed_update | auto with agent].
Ltac indexed_seq :=
  repeat first [indexed_close | apply preserves_bind; [indexed_close|intros ?]].

Lemma indexed_touch utcnow sid : preserves indexed (touch_session utcnow sid).
Proof. unfold touch_session. indexed_seq. Qed.
#[local] Hint Resolve indexed_touch : agent.

Lemma indexed_update_step sid id f : preserves indexed (update_step sid id f).
Proof. unfold update_step. indexed_seq. Qed.
#[local] Hint Resolve indexed_update_step : agent.

Lemma indexed_upsert utcnow sid steps v :
  preserves indexed (upsert_plan_steps utcnow sid steps v).
Proof.
  unfold upsert_plan_steps. indexed_seq. apply preserves_bind; [|intros; indexed_seq].
  apply preserves_for. intros sp _. unfold upsert_step. indexed_seq.
  case_match; indexed_seq.
Qed.
#[local] Hint Resolve indexed_upsert : agent.

Lemma indexed_init_session utcnow r sid steps v t :
  preserves indexed (init_session utcnow r sid steps v t).
Proof.
  intros w Hw. unfold init_session. destruct (sessions w !! sid) as [s0|]; [clear s0|];
    revert w Hw;
    match goal with |- ∀ w, _ → indexed (?m w).2 => change (preserves indexed m) end;
    [indexed_seq|].
  apply preserves_bind; [auto with agent|intros t1].
  apply preserves_bind; [auto with agent|intros t2].
  apply preserves_bind; [|intros _; indexed_seq].
  intros w Hw sid' s' Hs'. simpl in Hs'.
  destruct (decide (sid = sid')) as [<-|]; simplify_map_eq; [done|by eapply Hw].
Qed.

Lemma indexed_exec utcnow {A} (o : op A) : is_save o = false → preserves indexed (exec utcnow o).
Proof.
  destruct o; intros Ho; try done; cbn [exec]; try apply indexed_init_session;
    unfold set_session_status, mark_cancel_requested, is_cancel_requested, mark_step_running,
      mark_step_waiting_tool, mark_step_success, mark_step_failed, mark_step_canceled,
      should_skip_step, get_step_result; indexed_seq.
Qed.

Lemma indexed_save utcnow sid step_id phase payload :
  preserves indexed (save_snapshot_of utcnow sid step_id phase payload).
Proof.
  intros w Hw. unfold save_snapshot_of, mbind at 1, st_bind at 1, get_session.
  destruct (sessions w !! sid) as [s|] eqn:E; [|done].
  unfold mbind at 1, st_bind at 1. cbn [now].
  unfold save_snapshot, mbind, st_bind. rewrite update_session_eq. simpl. rewrite E.
  rewrite touch_session_eq. simpl. rewrite lookup_insert_eq, insert_insert_eq.
  intros sid' s' Hs'. simpl in Hs'.
  destruct (decide (sid = sid')) as [<-|]; simplify_map_eq; [|by eapply Hw].
  intros i x [Hi|[? Hi]]%lookup_app_Some; [by eapply Hw|].
  apply list_lookup_singleton_Some in Hi as [Hi <-]. simpl. f_equal. lia.
Qed.

(** ** Properties *)

(** Every store reachable from the empty one by any sequence of store calls
    (returning or raising) is well formed: sessions are filed under their own
    id, a session's step sequence has no duplicates and lists exactly the keys
    of its step map, and each step is filed under its own id. *)
Theorem reachable_store_wf utcnow w : reachable utcnow w → store_wf w.
Proof. apply reachable_wf. Qed.

Lemma reachable_store_wf_witness :
  store_wf (exec (λ _, "t") (OInitSession "r" "s" [mkStepSpec "a" "tool" "" []] 1 "tr") init).2.
Proof. apply (reachable_store_wf (λ _, "t")). apply reachable_call, reachable_init. Defined.

(** C11: Idempotent success: once a step is marked successful under a non-empty
    key, any further store calls that do not name that step (re-initialising
    the session, upserting another plan, marking other steps, cancelling,
    snapshots) leave it so that [should_skip_step] answers true for exactly
    that key and [get_step_result] returns the recorded envelope. *)
Theorem success_is_remembered utcnow w sid id x r key calls k' :
  step_of w sid id = Some x → key ≠ "" →
  Forall (λ c, call_target c ≠ Some (sid, id)) calls →
  let w' := run_calls utcnow calls (exec utcnow (OMarkStepSuccess sid id r key) w).2 in
  (exec utcnow (OShouldSkipStep sid id k') w').1 = Ok (bool_decide (key = k')) ∧
  (exec utcnow (OGetStepResult sid id) w').1 = Ok (Some r) ∧
  status_of w' sid id = Some SUCCESS.
Proof.
  intros Hx Hkey Hcalls. cbn zeta.
  change (exec utcnow (OMarkStepSuccess sid id r key))
    with (mark utcnow sid id (λ x, step_set_key key (step_set_error None
            (step_set_result (Some r) (step_set_status SUCCESS x))))).
  rewrite mark_eq. apply step_of_Some in Hx as (s & Hs & Hsx). rewrite Hs, Hsx. simpl.
  set (w1 := mkStore _ _). set (y := step_set_updated (utcnow (ticks w))
    (step_set_key key (step_set_error None (step_set_result (Some r)
      (step_set_status SUCCESS x))))) in *.
  assert (step_of w1 sid id = Some y) as Hy.
  { apply step_of_Some. eexists. simpl. rewrite lookup_insert_eq. split; [done|].
    simpl. by rewrite lookup_insert_eq. }
  pose proof (run_calls_keeps utcnow sid id calls w1 y Hcalls Hy) as Hw'.
  unfold status_of. rewrite Hw'.
  apply step_of_Some in Hw' as (s' & Hs' & Hx').
  unfold should_skip_step, get_step_result, mbind, st_bind. rewrite get_step_eq, Hs', Hx'. simpl.
  split_and!; [|done..]. f_equal.
  rewrite (proj2 (str_truthy_true key) Hkey). done.
Qed.

Lemma success_is_remembered_witness :
  let w := (exec (λ _, "t") (OInitSession "r" "s" [mkStepSpec "a" "tool" "" []] 1 "tr") init).2 in
  let w' := run_calls (λ _, "t") [existT _ (OMarkCancelRequested "s")]
    (exec (λ _, "t") (OMarkStepSuccess "s" "a" (Envelope true VNone None false) "k") w).2 in
  (exec (λ _, "t") (OShouldSkipStep "s" "a" "k") w').1 = Ok true.
Proof.
  cbn zeta.
  eapply (success_is_remembered (λ _, "t") _ "s" "a" _ (Envelope true VNone None false) "k"
    [existT _ (OMarkCancelRequested "s")] "k"); [vm_compute; reflexivity|done|].
  repeat constructor. discriminate.
Defined.

(** In a reachable store, [completed_step_ids] and [pending_step_ids] both
    succeed on an existing session, together they permute its step sequence,
    and a step is listed as completed exactly when its status is SUCCESS. *)
Theorem completed_pending_partition utcnow w sid s :
  reachable utcnow w → sessions w !! sid = Some s →
  ∃ c p, completed_step_ids sid w = (Ok c, w) ∧ pending_step_ids sid w = (Ok p, w) ∧
    c ++ p ≡ₚ se_step_sequence s ∧
    (∀ id, id ∈ c ↔ status_of w sid id = Some SUCCESS) ∧
    (∀ id, id ∈ p ↔ ∃ x, status_of w sid id = Some x ∧ x ≠ SUCCESS).
Proof.
  intros Hr Hs. destruct (reachable_wf utcnow w Hr sid s Hs) as [_ [_ Hdom _]].
  unfold completed_step_ids, pending_step_ids, mbind, st_bind, get_session. rewrite Hs.
  unfold st_lift. rewrite !select_steps_ok by (intros id; apply Hdom).
  assert (∀ id, id ∈ se_step_sequence s ↔ is_Some (status_of w sid id)) as Hst.
  { intros id. rewrite Hdom. unfold status_of, step_of. rewrite Hs. simpl.
    by rewrite fmap_is_Some. }
  assert (∀ id, se_steps s !! id = step_of w sid id) as Hstep
    by (intros id; unfold step_of; by rewrite Hs).
  eexists _, _. split_and!; [done..| | |].
  - apply filter_split. intros id Hid. rewrite Hstep. apply Hst in Hid as [x Hx].
    unfold status_of in Hx. destruct (step_of w sid id); [|done]. simpl.
    rewrite negb_true_iff. apply not_true_iff_false || (symmetry; apply not_true_iff_false).
  - intros id. rewrite list_elem_of_filter, Hst, Hstep. unfold status_of, is_success.
    destruct (step_of w sid id) as [x|]; simpl; [rewrite bool_decide_eq_true|].
    + split; [by intros [-> _]|intros [= ->]; eauto].
    + split; [by intros [? _]|done].
  - intros id. rewrite list_elem_of_filter, Hst, Hstep. unfold status_of, is_success.
    destruct (step_of w sid id) as [x|]; simpl; [rewrite negb_true_iff, bool_decide_eq_false|].
    + split; [intros [? _]; eauto|intros (y & [= <-] & ?); eauto].
    + split; [by intros [? _]|by intros (? & ? & _)].
Qed.

(** A two-step session whose first step succeeded, used by the witnesses. *)
Definition demo_calls : list call :=
  [existT _ (OInitSession "r" "s" [mkStepSpec "a" "tool" "" []; mkStepSpec "b" "tool" "" ["a"]]
     1%Z "tr");
   existT _ (OMarkStepSuccess "s" "a" (Envelope true VNone None false) "r:a:1")].
Definition demo_store : store := run_calls (λ _, "t") demo_calls init.

Lemma demo_store_reachable : reachable (λ _, "t") demo_store.
Proof. apply reachable_call, reachable_call, reachable_init. Qed.

Lemma completed_pending_partition_witness :
  completed_step_ids "s" demo_store = (Ok ["a"], demo_store) ∧
  ∃ c p, completed_step_ids "s" demo_store = (Ok c, demo_store) ∧
         pending_step_ids "s" demo_store = (Ok p, demo_store) ∧ c ++ p ≡ₚ ["a"; "b"].
Proof.
  split; [vm_compute; reflexivity|].
  destruct (sessions demo_store !! "s") as [s|] eqn:E; [|vm_compute in E; discriminate].
  destruct (completed_pending_partition (λ _, "t") demo_store "s" s demo_store_reachable E)
    as (c & p & Hc & Hp & Hperm & _).
  exists c, p. split; [exact Hc|]. split; [exact Hp|].
  assert (se_step_sequence s = ["a"; "b"]) as <-; [|exact Hperm].
  vm_compute in E. injection E as <-. reflexivity.
Defined.

(** C10: In a reachable store, [find_recovery_point] never raises.  It reports
    exactly the SUCCESS steps in plan order as completed; without an explicit
    step it resumes at the first step in plan order that is not SUCCESS (all
    earlier ones are), or nowhere exactly when every step succeeded. *)
Theorem recovery_point_correct utcnow w sid s :
  reachable utcnow w → sessions w !! sid = Some s →
  ∃ rp, find_recovery_point s None = Ok rp ∧
    rp_session_id rp = sid ∧
    rp_completed_step_ids rp = filter (λ id, status_of w sid id = Some SUCCESS) (se_step_sequence s) ∧
    match rp_resume_step_id rp with
    | None => ∀ id, id ∈ se_step_sequence s → status_of w sid id = Some SUCCESS
    | Some id => ∃ l1 l2, se_step_sequence s = l1 ++ id :: l2 ∧
        status_of w sid id ≠ Some SUCCESS ∧ ∀ j, j ∈ l1 → status_of w sid j = Some SUCCESS
    end.
Proof.
  intros Hr Hs. destruct (reachable_wf utcnow w Hr sid s Hs) as [Hid [_ Hdom _]].
  assert (∀ id, ss_status <$> se_steps s !! id = status_of w sid id) as Hst
    by (intros id; unfold status_of, step_of; by rewrite Hs).
  unfold find_recovery_point. rewrite select_steps_ok by (intros id; apply Hdom). simpl.
  destruct (first_unfinished_ok (se_steps s) (se_step_sequence s)) as (r & -> & Hres);
    [intros id; apply Hdom|]. simpl. eexists. split; [done|]. simpl. split_and!; [done| |].
  - apply list_filter_iff. intros id. rewrite <-Hst. unfold is_success.
    destruct (se_steps s !! id) as [x|]; simpl; [rewrite bool_decide_eq_true|]; [|done].
    split; [by intros ->|by intros [= ->]].
  - destruct r as [id|]; [|by setoid_rewrite <-Hst].
    destruct Hres as (l1 & l2 & ? & ? & Hl1). exists l1, l2. rewrite <-Hst.
    split_and!; [done..|]. intros j. rewrite <-Hst. auto.
Qed.

Lemma recovery_point_correct_witness :
  ∃ s rp, sessions demo_store !! "s" = Some s ∧ find_recovery_point s None = Ok rp ∧
    rp_resume_step_id rp = Some "b" ∧ rp_session_id rp = "s".
Proof.
  destruct (sessions demo_store !! "s") as [s|] eqn:E; [|vm_compute in E; discriminate].
  destruct (recovery_point_correct (λ _, "t") demo_store "s" s demo_store_reachable E)
    as (rp & Hrp & Hsid & _).
  exists s, rp. split; [reflexivity|]. split; [exact Hrp|]. split; [|exact Hsid].
  vm_compute in E. injection E as <-. vm_compute in Hrp. injection Hrp as <-. reflexivity.
Defined.

(** As long as snapshots are created and appended one at a time (as
    [Executor._save_snapshot] does within one thread), all snapshot
    identifiers of a session are distinct, whatever characters session and
    step ids contain. *)
Theorem snapshot_ids_unique utcnow w sid s :
  snapshot_history utcnow w → sessions w !! sid = Some s →
  NoDup (snap_id <$> se_snapshots s).
Proof.
  intros Hh Hs. assert (indexed w) as Hi.
  { clear Hs. induction Hh; [intros ? ?; simpl; by rewrite lookup_empty| |].
    - by apply indexed_exec.
    - by apply indexed_save. }
  apply NoDup_alt. intros i j n. rewrite !list_lookup_fmap.
  destruct (se_snapshots s !! i) as [x|] eqn:Ex; [|done].
  destruct (se_snapshots s !! j) as [y|] eqn:Ey; [|done].
  intros [= <-] [= Hn]. rewrite (Hi _ _ Hs _ _ Ex), (Hi _ _ Hs _ _ Ey) in Hn.
  symmetry. by eapply snapshot_id_index.
Qed.

Lemma snapshot_ids_unique_witness :
  ∃ w s, sessions w !! "s" = Some s ∧ length (se_snapshots s) = 2 ∧
    NoDup (snap_id <$> se_snapshots s).
Proof.
  pose (w0 := demo_store).
  pose (w1 := (save_snapshot_of (λ _, "t") "s" "a" "pre-step" [] w0).2).
  pose (w2 := (save_snapshot_of (λ _, "t") "s" "a" "post-success" [] w1).2).
  assert (snapshot_history (λ _, "t") w2) as Hh.
  { apply history_save, history_save, history_call; [reflexivity|].
    apply history_call; [reflexivity|]. apply history_init. }
  destruct (sessions w2 !! "s") as [s|] eqn:E; [|vm_compute in E; discriminate].
  exists w2, s. split; [exact E|]. split.
  - vm_compute in E. injection E as <-. reflexivity.
  - exact (snapshot_ids_unique (λ _, "t") w2 "s" s Hh E).
Defined.
