(* ===== verification/Planner.v ===== *)
(** * Planning (agent-system/src/agent/planner.py)

    [Planner.create_plan] turns a request into a plan with the keyword strategy
    and validates it: step fields, dependency references, acyclicity by a
    depth-first search, depth and parallelism against the graph limits.

    A request is a dictionary.  The fields that the request contract requires
    to be strings (ids, input, tools) are read with [as_str]: a request that
    the contract rejects before planning may put another type there, and the
    model raises [TypeError].  [repr] is the interpreter's text of a float, list
    or dictionary, which [str()] would yield in an f-string. *)
From S2P Require Import Prelude PyFloat PyValue.
Local Open Scope Z_scope.

Record GraphLimits := mkGraphLimits { max_depth : Z; max_parallel : Z }.

Record PlanStep := mkPlanStep {
  ps_step_id : string;
  ps_goal : string;
  ps_tool_id : string;
  ps_payload : dict pyval;
  ps_depends_on : list string;
  ps_done_criteria : string;
  ps_timeout_seconds : Z;
  ps_allow_rollback : bool;
}.

Record ExecutionPlan := mkExecutionPlan {
  ep_request_id : string;
  ep_session_id : string;
  ep_trace_id : string;
  ep_plan_version : Z;
  ep_steps : list PlanStep;
  ep_risk_flags : list string;
  ep_graph_limits : GraphLimits;
}.

Definition as_str (v : pyval) : res string :=
  match v with VStr s => Ok s | _ => Err (TypeError "expected str") end.
Fixpoint as_strs (l : list pyval) : res (list string) :=
  match l with
  | [] => Ok []
  | v :: l => s ← as_str v; r ← as_strs l; Ok (s :: r)
  end.

Module Planner.
Section planner.
Context (repr : pyval → string).

Local Abbreviation to_str := (Py.to_str repr).

(** [list(request.get("allowed_tools", []))] *)
Definition request_tools (request : dict pyval) : res (list string) :=
  l ← Py.iterate (dget "allowed_tools" (VList []) request); as_strs l.

Definition request_metadata (request : dict pyval) : pyval := dget "metadata" (VDict []) request.

(** A step with the dataclass defaults. *)
Definition new_step (step_id goal tool_id : string) (payload : dict pyval)
    (depends_on : list string) (done_criteria : string) : PlanStep :=
  mkPlanStep step_id goal tool_id payload depends_on done_criteria 8 true.

(** [KeywordPlanningStrategy.build_steps] *)
Definition build_steps (request : dict pyval) : res (list PlanStep) :=
  let user_input := Py.strip (to_str (dget "user_input" (VStr "") request)) in
  let user_input_lower := Py.lower user_input in
  allowed_tools ← request_tools request;
  if str_in "notify" user_input_lower && bool_decide ("tool.notify" ∈ allowed_tools) then
    recipient ← Py.get "recipient" (VStr "ops-team") (request_metadata request);
    Ok [new_step "step-1" "send notification" "tool.notify"
          [("channel", VStr "slack"); ("recipient", recipient); ("message", VStr user_input)]
          [] "notification status is queued"]
  else
  let can_search := bool_decide ("tool.search" ∈ allowed_tools) in
  let can_query := bool_decide ("tool.query_db" ∈ allowed_tools) in
  if (str_in "analyze" user_input_lower || str_in "analysis" user_input_lower)
     && can_search && can_query then
    Ok [new_step "step-1" "collect external context" "tool.search"
          [("query", VStr user_input); ("top_k", VInt 5)] []
          "search returns at least one item";
        new_step "step-2" "collect structured metrics" "tool.query_db"
          [("sql", VStr "SELECT 1 AS ok"); ("limit", VInt 10)] []
          "query returns at least one row";
        new_step "step-3" "final consistency check" "tool.search"
          [("query", VStr ("summary check: " +:+ user_input)); ("top_k", VInt 3)]
          ["step-1"; "step-2"] "summary check result is available"]
  else if str_in "query" user_input_lower && can_query then
    Ok [new_step "step-1" "run query" "tool.query_db"
          [("sql", VStr "SELECT 1 AS ok"); ("limit", VInt 10)] []
          "query returns row_count >= 1"]
  else
  selected_tool ← (if can_search then Ok "tool.search" else
    match allowed_tools with
    | [] => Err (IndexError "list index out of range")
    | t :: _ => Ok t
    end);
  Ok [new_step "step-1" "search relevant information" selected_tool
        [("query", VStr user_input); ("top_k", VInt 5)] [] "search result is not empty"].

Definition required_fields : list string :=
  ["request_id"; "session_id"; "user_input"; "allowed_tools"].

(** [_validate_request] *)
Definition validate_request (request : dict pyval) : res unit :=
  for_each (λ f, raise_if (negb (dmem f request))
      (ValueError ("missing required planning field: " +:+ f))) required_fields ≫= λ _,
  tools ← Py.subscript "allowed_tools" request;
  raise_if (negb (Py.truthy tools)) (ValueError "allowed_tools must not be empty").

(** ** Structural validation *)

(** One iteration of the loop of [_validate_step_fields]; the state is the set
    [step_ids].  [payload] is a dictionary by type. *)
Definition check_step_fields (allowed : list string) (s : PlanStep) (step_ids : gset string)
    : res (gset string) :=
  let id := ps_step_id s in
  raise_if (negb (str_truthy id)) (ValueError "step_id must not be empty") ≫= λ _,
  raise_if (bool_decide (id ∈ step_ids)) (ValueError ("duplicate step_id: " +:+ id)) ≫= λ _,
  raise_if (negb (str_truthy (ps_goal s)))
    (ValueError ("step " +:+ id +:+ " missing goal")) ≫= λ _,
  raise_if (negb (str_truthy (ps_done_criteria s)))
    (ValueError ("step " +:+ id +:+ " missing done_criteria")) ≫= λ _,
  raise_if (negb (str_truthy (ps_tool_id s)))
    (ValueError ("step " +:+ id +:+ " missing tool_id")) ≫= λ _,
  raise_if (negb (bool_decide (ps_tool_id s ∈ allowed)))
    (ValueError ("step " +:+ id +:+ " uses disallowed tool: " +:+ ps_tool_id s)) ≫= λ _,
  raise_if (ps_timeout_seconds s <? 1)
    (ValueError ("step " +:+ id +:+ " timeout_seconds must be >= 1")) ≫= λ _,
  Ok ({[id]} ∪ step_ids).

Definition validate_step_fields (plan : ExecutionPlan) (allowed : list string) : res unit :=
  _ ← fold_res (check_step_fields allowed) (ep_steps plan) ∅; Ok tt.

Definition validate_dependencies (plan : ExecutionPlan) : res unit :=
  let step_ids := ps_step_id <$> ep_steps plan in
  for_each (λ s,
    for_each (λ d, raise_if (negb (bool_decide (d ∈ step_ids)))
      (ValueError ("step " +:+ ps_step_id s +:+ " depends on unknown step: " +:+ d)))
      (ps_depends_on s)) (ep_steps plan).

(** [{step.step_id: list(step.depends_on) for step in plan.steps}] *)
Definition dependency_map (plan : ExecutionPlan) : dict (list string) :=
  foldl (λ m s, dinsert (ps_step_id s) (ps_depends_on s) m) [] (ep_steps plan).
Definition deps_of (m : dict (list string)) (id : string) : list string := dget id [] m.

(** The nested function [dfs] of [_validate_acyclic]; the state is the pair of
    sets (visiting, visited).  [None] is fuel exhaustion. *)
Definition dfs_state : Type := gset string * gset string.

(** [for x in ids: visit(x)] *)
Fixpoint visit_all (visit : string → dfs_state → option (res dfs_state)) (ids : list string)
    (s : dfs_state) : option (res dfs_state) :=
  match ids with
  | [] => Some (Ok s)
  | id :: ids =>
      match visit id s with
      | Some (Ok s') => visit_all visit ids s'
      | r => r
      end
  end.

Fixpoint dfs (m : dict (list string)) (fuel : nat) (id : string) (s : dfs_state)
    : option (res dfs_state) :=
  match fuel with
  | O => None
  | S fuel =>
      let '(visiting, visited) := s in
      if bool_decide (id ∈ visited) then Some (Ok s)
      else if bool_decide (id ∈ visiting) then
        Some (Err (ValueError ("cycle detected at step: " +:+ id)))
      else
        match visit_all (dfs m fuel) (deps_of m id) ({[id]} ∪ visiting, visited) with
        | Some (Ok (visiting', visited')) =>
            Some (Ok (visiting' ∖ {[id]}, {[id]} ∪ visited'))
        | r => r
        end
  end.

(** Every identifier the graph mentions: one more than their number bounds the
    recursion depth, because each nested call adds one to [visiting]. *)
Definition graph_ids (plan : ExecutionPlan) : list string :=
  (ps_step_id <$> ep_steps plan) ++ concat (ps_depends_on <$> ep_steps plan).
Definition graph_fuel (plan : ExecutionPlan) : nat := S (length (graph_ids plan)).

(** The interpreter's answer to runaway recursion. *)
Definition recursion_error : exc := ValueError "maximum recursion depth exceeded".

Definition validate_acyclic (plan : ExecutionPlan) : res unit :=
  match visit_all (dfs (dependency_map plan) (graph_fuel plan))
          (ps_step_id <$> ep_steps plan) (∅, ∅) with
  | Some (Ok _) => Ok tt
  | Some (Err e) => Err e
  | None => Err recursion_error
  end.

(** The nested function [depth_of] of [_build_depth_map] with its [cache]. *)
(** The rest of [max(depth_of(d) for d in dependencies)] after its first
    element, left to right. *)
Fixpoint max_depths (depth : string → gmap string Z → option (Z * gmap string Z))
    (deps : list string) (best : Z) (cache : gmap string Z) : option (Z * gmap string Z) :=
  match deps with
  | [] => Some (best, cache)
  | d :: deps =>
      match depth d cache with
      | Some (x, cache') => max_depths depth deps (Z.max best x) cache'
      | None => None
      end
  end.

Fixpoint depth_of (m : dict (list string)) (fuel : nat) (id : string) (cache : gmap string Z)
    : option (Z * gmap string Z) :=
  match fuel with
  | O => None
  | S fuel =>
      match cache !! id with
      | Some d => Some (d, cache)
      | None =>
          match deps_of m id with
          | [] => Some (1, <[id := 1]> cache)
          | d0 :: deps =>
              match depth_of m fuel d0 cache with
              | None => None
              | Some (x0, cache') =>
                  match max_depths (depth_of m fuel) deps x0 cache' with
                  | None => None
                  | Some (x, cache'') => Some (1 + x, <[id := 1 + x]> cache'')
                  end
              end
          end
      end
  end.

Fixpoint depth_all (m : dict (list string)) (fuel : nat) (ids : list string)
    (cache : gmap string Z) : option (gmap string Z) :=
  match ids with
  | [] => Some cache
  | id :: ids =>
      match depth_of m fuel id cache with
      | Some (_, cache') => depth_all m fuel ids cache'
      | None => None
      end
  end.

Definition build_depth_map (plan : ExecutionPlan) : res (gmap string Z) :=
  match depth_all (dependency_map plan) (graph_fuel plan) (ps_step_id <$> ep_steps plan) ∅ with
  | Some cache => Ok cache
  | None => Err recursion_error
  end.

Definition map_values (m : gmap string Z) : list Z := (map_to_list m).*2.

(** [max] of a non-empty list. *)
Definition max_list (l : list Z) : res Z :=
  match l with
  | [] => Err (ValueError "max() iterable argument is empty")
  | x :: l => Ok (foldl Z.max x l)
  end.

Definition validate_depth (plan : ExecutionPlan) : res unit :=
  depth_map ← build_depth_map plan;
  d ← max_list (map_values depth_map);
  raise_if (max_depth (ep_graph_limits plan) <? d)
    (ValueError ("plan depth " +:+ pretty d +:+ " exceeds max_depth "
                 +:+ pretty (max_depth (ep_graph_limits plan)))).

(** [depth_count[depth] = depth_count.get(depth, 0) + 1] *)
Definition depth_counts (depths : list Z) : gmap Z Z :=
  foldl (λ c d, <[d := default 0 (c !! d) + 1]> c) ∅ depths.

Definition validate_parallelism (plan : ExecutionPlan) : res unit :=
  depth_map ← build_depth_map plan;
  let counts := (map_to_list (depth_counts (map_values depth_map))).*2 in
  estimated ← (match counts with [] => Ok 0 | _ => max_list counts end);
  raise_if (max_parallel (ep_graph_limits plan) <? estimated)
    (ValueError ("plan estimated parallelism " +:+ pretty estimated +:+ " exceeds max_parallel "
                 +:+ pretty (max_parallel (ep_graph_limits plan)))).

Definition validate_plan (plan : ExecutionPlan) (allowed_tools : list string) : res unit :=
  raise_if (max_depth (ep_graph_limits plan) <? 1)
    (ValueError "graph max_depth must be >= 1") ≫= λ _,
  raise_if (max_parallel (ep_graph_limits plan) <? 1)
    (ValueError "graph max_parallel must be >= 1") ≫= λ _,
  validate_step_fields plan allowed_tools ≫= λ _,
  validate_dependencies plan ≫= λ _,
  validate_acyclic plan ≫= λ _,
  validate_depth plan ≫= λ _,
  validate_parallelism plan.

(** ** Plan creation *)
Definition uncertain_keywords : list string := ["maybe"; "unknown"; "uncertain"; "guess"].

(** [_infer_risks]; [sorted] of the set of flags. *)
Definition infer_risks (request : dict pyval) (steps : list PlanStep) : res (list string) :=
  let tools := ps_tool_id <$> steps in
  let f0 : gset string := if bool_decide ("tool.notify" ∈ tools) then {["high_cost"]} else ∅ in
  let f1 := if bool_decide ("tool.search" ∈ tools) || bool_decide ("tool.query_db" ∈ tools)
            then {["external_dependency"]} ∪ f0 else f0 in
  let user_input := Py.lower (to_str (dget "user_input" (VStr "") request)) in
  let f2 := if existsb (λ k, str_in k user_input) uncertain_keywords
            then {["uncertain_information"]} ∪ f1 else f1 in
  high_cost ← Py.get "high_cost" VNone (request_metadata request);
  let f3 := if Py.truthy high_cost then {["high_cost"]} ∪ f2 else f2 in
  Ok (merge_sort String.le (elements f3)).

Definition set_timeout (t : Z) (s : PlanStep) : PlanStep :=
  mkPlanStep (ps_step_id s) (ps_goal s) (ps_tool_id s) (ps_payload s) (ps_depends_on s)
    (ps_done_criteria s) t (ps_allow_rollback s).

(** [create_plan] for a strategy [build]. *)
Definition create_plan_with (build : dict pyval → res (list PlanStep)) (request : dict pyval)
    : res ExecutionPlan :=
  validate_request request ≫= λ _,
  steps0 ← build request;
  raise_if (bool_decide (steps0 = [])) (ValueError "planner produced empty plan") ≫= λ _,
  let metadata := request_metadata request in
  default_step_timeout ← Py.get "step_timeout_seconds" VNone metadata;
  steps ← (match default_step_timeout with
           | VNone => Ok steps0
           | v => t ← Py.to_int v; Ok (set_timeout t <$> steps0)
           end);
  d ← Py.get "max_depth" (VInt 6) metadata ≫= Py.to_int;
  p ← Py.get "max_parallel" (VInt 4) metadata ≫= Py.to_int;
  plan_version ← Py.get "plan_version" (VInt 1) metadata ≫= Py.to_int;
  raise_if (plan_version <? 1) (ValueError "plan_version must be >= 1") ≫= λ _,
  t ← Py.get "trace_id" VNone metadata;
  request_id ← Py.subscript "request_id" request ≫= as_str;
  let trace_id := if Py.truthy t then to_str t
                  else "trace-" +:+ request_id +:+ "-v" +:+ pretty plan_version in
  session_id ← Py.subscript "session_id" request ≫= as_str;
  risks ← infer_risks request steps;
  let plan := mkExecutionPlan request_id session_id trace_id plan_version steps risks
                (mkGraphLimits d p) in
  allowed ← Py.subscript "allowed_tools" request;
  tools ← Py.iterate allowed ≫= as_strs;
  validate_plan plan tools ≫= λ _,
  Ok plan.

Definition create_plan : dict pyval → res ExecutionPlan := create_plan_with build_steps.

End planner.
End Planner.

Example create_plan_demo :
  let request := [("request_id", VStr "r1"); ("session_id", VStr "s1");
    ("user_input", VStr " Analyze maybe the queue "); ("allowed_tools",
    VList [VStr "tool.search"; VStr "tool.query_db"])] in
  match Planner.create_plan (λ _, "") request with
  | Ok p => ep_trace_id p = "trace-r1-v1" ∧ (ps_step_id <$> ep_steps p) = ["step-1"; "step-2"; "step-3"]
      ∧ ep_risk_flags p = ["external_dependency"; "uncertain_information"]
  | Err _ => False
  end.
Proof. vm_compute. auto. Qed.
