(* ===== verification/PlannerGraph.v ===== *)
(** * The planner's graph algorithms against their specification

    The depth-first search of [_validate_acyclic] decides acyclicity, and the
    memoised recursion of [_build_depth_map] computes longest dependency
    chains.  Both run within the fuel the model gives them. *)
From S2P Require Import Prelude PyFloat PyValue Planner.
Import Planner.
Local Open Scope Z_scope.

(** ** The dependency relation *)
Section graph.
Context (m : dict (list string)).

Definition edge (a b : string) : Prop := b ∈ deps_of m a.
Definition acyclic : Prop := ∀ a, ¬ tc edge a a.

(** [Fin a]: every dependency chain from [a] is finite. *)
Abbreviation Fin := (Acc (λ b a, edge a b)).

Lemma Fin_no_cycle a : Fin a → ¬ tc edge a a.
Proof.
  induction 1 as [a _ IH]. intros Hc.
  inversion Hc as [? ? Hab|? b ? Hab Hba]; subst; [by apply (IH a)|].
  apply (IH b); [done|]. by eapply tc_r.
Qed.

(** ** Depth-first search *)
Definition all_fin (vd : gset string) : Prop := ∀ v, v ∈ vd → Fin v.

(** What a search from [id] may answer in state [(vg, vd)]. *)
Definition dfs_ok (ids : list string) (vg vd : gset string)
    (r : option (res dfs_state)) : Prop :=
  match r with
  | None => False
  | Some (Ok (vg', vd')) => vg' = vg ∧ vd ⊆ vd' ∧ (∀ id, id ∈ ids → id ∈ vd') ∧ all_fin vd'
  | Some (Err e) =>
      ∃ x, e = ValueError ("cycle detected at step: " +:+ x) ∧ tc edge x x
  end.

Lemma visit_all_ok (visit : string → dfs_state → option (res dfs_state)) vg ids :
  (∀ id vd, id ∈ ids → all_fin vd → dfs_ok [id] vg vd (visit id (vg, vd))) →
  ∀ vd, all_fin vd → dfs_ok ids vg vd (visit_all visit ids (vg, vd)).
Proof.
  induction ids as [|id ids IH]; intros Hv vd Hfin; simpl.
  { split_and!; [done..|set_solver|done]. }
  pose proof (Hv id vd ltac:(set_solver) Hfin) as H1.
  destruct (visit id (vg, vd)) as [[[vg' vd']|e]|]; [|exact H1|done].
  destruct H1 as (-> & Hsub & Hin & Hfin').
  specialize (IH ltac:(intros; apply Hv; set_solver) vd' Hfin').
  destruct (visit_all visit ids (vg, vd')) as [[[vg'' vd'']|e]|]; [|exact IH|done].
  destruct IH as (-> & Hsub' & Hin' & ?). split_and!; [done|by etrans| |done].
  intros i [->|?]%elem_of_cons; [|auto]. apply Hsub', Hin. set_solver.
Qed.

Lemma dfs_correct (U : gset string) fuel :
  (∀ a b, a ∈ U → edge a b → b ∈ U) →
  ∀ id vg vd, id ∈ U → (size (U ∖ vg) < fuel)%nat →
  (∀ v, v ∈ vg → tc edge v id) → all_fin vd →
  dfs_ok [id] vg vd (dfs m fuel id (vg, vd)).
Proof.
  intros HU. induction fuel as [|fuel IH]; intros id vg vd Hid Hfuel Hstack Hfin; [lia|].
  simpl. case_bool_decide as Hvd.
  { split_and!; [done..| |done]. intros i ->%list_elem_of_singleton. done. }
  case_bool_decide as Hvg.
  { exists id. split; [done|by apply Hstack]. }
  assert (size (U ∖ ({[id]} ∪ vg)) < size (U ∖ vg))%nat as Hlt.
  { apply subset_size. split.
    - intros x. rewrite !elem_of_difference, elem_of_union. tauto.
    - intros Hs. specialize (Hs id). rewrite !elem_of_difference in Hs.
      destruct (Hs (conj Hid Hvg)) as [_ Hn]. apply Hn, elem_of_union_l, elem_of_singleton_2. done. }
  assert (dfs_ok (deps_of m id) ({[id]} ∪ vg) vd
    (visit_all (dfs m fuel) (deps_of m id) ({[id]} ∪ vg, vd))) as Hvisit.
  { apply visit_all_ok; [|done]. intros d vd' Hd Hfin'. apply IH; [by eapply HU|lia| |done].
    intros v [->%elem_of_singleton|Hv]%elem_of_union; [by apply tc_once|].
    eapply tc_r; [by apply Hstack|done]. }
  destruct (visit_all _ _ _) as [[[vg' vd']|e]|]; [|exact Hvisit|done].
  destruct Hvisit as (-> & Hsub & Hdeps & Hfin'). clear IH Hstack.
  split_and!.
  - apply set_eq. intros x. rewrite elem_of_difference, elem_of_union, elem_of_singleton.
    destruct (decide (x = id)) as [->|]; tauto.
  - by apply union_subseteq_r'.
  - intros i ->%list_elem_of_singleton. by apply elem_of_union_l, elem_of_singleton_2.
  - intros v [->%elem_of_singleton|Hv]%elem_of_union; [|by apply Hfin'].
    constructor. intros b Hb. by apply Hfin', Hdeps.
Qed.

(** ** Chains: paths along dependencies *)
Fixpoint chain (l : list string) : Prop :=
  match l with
  | a :: ((b :: _) as l') => edge a b ∧ chain l'
  | _ => True
  end.

Lemma chain_tail a l : chain (a :: l) → chain l.
Proof. by destruct l as [|b l]; [|intros [??]]. Qed.

Lemma chain_reach a l x : chain (a :: l) → x ∈ l → tc edge a x.
Proof.
  revert a. induction l as [|b l IH]; intros a; [set_solver|].
  intros [Hab Hl] [->|Hx]%elem_of_cons; [by apply tc_once|].
  eapply tc_l; [done|]. by apply IH.
Qed.

Lemma chain_NoDup l : acyclic → chain l → NoDup l.
Proof.
  intros Hac. induction l as [|a l IH]; intros Hl; [constructor|].
  constructor; [|by eapply IH, chain_tail]. intros Ha.
  by apply (Hac a), (chain_reach a l).
Qed.

Lemma chain_closed (U : gset string) a l :
  (∀ a b, a ∈ U → edge a b → b ∈ U) → a ∈ U → chain (a :: l) → ∀ x, x ∈ a :: l → x ∈ U.
Proof.
  intros HU. revert a. induction l as [|b l IH]; intros a Ha Hl x Hx; [set_solver|].
  apply elem_of_cons in Hx as [->|Hx]; [done|]. destruct Hl as [Hab Hl].
  eapply (IH b); [by eapply HU|done|done].
Qed.

Lemma chain_length (U : gset string) a l :
  acyclic → (∀ a b, a ∈ U → edge a b → b ∈ U) → a ∈ U → chain (a :: l) →
  (length (a :: l) ≤ size U)%nat.
Proof.
  intros Hac HU Ha Hl. pose proof (chain_NoDup _ Hac Hl) as Hnd.
  rewrite <-(size_list_to_set (C := gset string) (a :: l)) by done.
  apply subseteq_size. intros x. rewrite elem_of_list_to_set. by apply chain_closed.
Qed.

(** ** Depth *)

(** [depth_spec id n]: the longest chain from [id] has [n] steps. *)
Definition depth_spec (id : string) (n : Z) : Prop :=
  (∃ l, chain (id :: l) ∧ Z.of_nat (length (id :: l)) = n) ∧
  (∀ l, chain (id :: l) → Z.of_nat (length (id :: l)) ≤ n).

Lemma depth_spec_leaf id : deps_of m id = [] → depth_spec id 1.
Proof.
  intros Hd. split; [by exists []|]. intros [|b l]; simpl; [lia|].
  intros [Hab _]. unfold edge in Hab. rewrite Hd in Hab. set_solver.
Qed.

(** One more than the greatest depth of the dependencies. *)
Lemma depth_spec_node id x :
  (∃ d, d ∈ deps_of m id ∧ depth_spec d x) →
  (∀ d, d ∈ deps_of m id → ∃ y, depth_spec d y ∧ y ≤ x) →
  depth_spec id (1 + x).
Proof.
  intros (d & Hd & (l & Hl & Hlen) & _) Hall. split.
  - exists (d :: l). split; [by split|]. change (length (id :: d :: l)) with (S (length (d :: l))). lia.
  - intros [|b l'] Hc.
    + simpl in *. lia.
    + destruct Hc as [Hb Hc]. destruct (Hall b Hb) as (y & [_ Hy] & ?).
      specialize (Hy l' Hc). change (length (id :: b :: l')) with (S (length (b :: l'))). lia.
Qed.

(** A set of identifiers closed under dependencies; the cache stays inside. *)
Context (V : gset string) (HV : ∀ a b, a ∈ V → edge a b → b ∈ V).

Definition cache_ok (cache : gmap string Z) : Prop :=
  ∀ id n, cache !! id = Some n → id ∈ V ∧ depth_spec id n.

(** The answer of [depth_of] on [id]. *)
Definition depth_ok (id : string) (cache : gmap string Z)
    (r : option (Z * gmap string Z)) : Prop :=
  ∃ x cache', r = Some (x, cache') ∧ depth_spec id x ∧ cache_ok cache' ∧
    cache' !! id = Some x ∧ dom cache ⊆ dom cache'.

Lemma max_depths_ok depth deps :
  (∀ d cache, d ∈ deps → cache_ok cache → depth_ok d cache (depth d cache)) →
  ∀ best cache, cache_ok cache →
  ∃ x cache', max_depths depth deps best cache = Some (x, cache') ∧ cache_ok cache' ∧
    best ≤ x ∧ (x = best ∨ ∃ d, d ∈ deps ∧ depth_spec d x) ∧
    (∀ d, d ∈ deps → ∃ y, depth_spec d y ∧ y ≤ x) ∧ dom cache ⊆ dom cache'.
Proof.
  induction deps as [|d deps IH]; intros Hd best cache Hc; simpl.
  { eexists _, _. split_and!; [done|done|lia|by left|set_solver|done]. }
  destruct (Hd d cache ltac:(set_solver) Hc) as (y & cache1 & -> & Hy & Hc1 & _ & Hsub1).
  destruct (IH ltac:(intros; apply Hd; set_solver) (Z.max best y) cache1 Hc1)
    as (x & cache2 & -> & Hc2 & Hbest & Hx & Hall & Hsub2).
  exists x, cache2. split_and!; [done|done|lia| | |set_solver].
  - destruct Hx as [->|(d' & ? & ?)]; [|right; exists d'; set_solver].
    destruct (Z.max_spec best y) as [[_ ->]|[_ ->]]; [right; exists d; set_solver|by left].
  - intros d' [->|?]%elem_of_cons; [exists y; split; [done|lia]|auto].
Qed.

Lemma cache_ok_insert id n cache :
  id ∈ V → depth_spec id n → cache_ok cache → cache_ok (<[id:=n]> cache).
Proof.
  intros Hid Hs Hc i k. rewrite lookup_insert. case_decide; [|apply Hc].
  intros [= <-]. by subst.
Qed.

Lemma depth_of_ok fuel : ∀ id cache, id ∈ V →
  (∀ l, chain (id :: l) → (length (id :: l) ≤ fuel)%nat) → cache_ok cache →
  depth_ok id cache (depth_of m fuel id cache).
Proof.
  induction fuel as [|fuel IH]; intros id cache Hid Hlen Hc.
  { specialize (Hlen [] I). simpl in Hlen. lia. }
  simpl. destruct (cache !! id) as [n|] eqn:En.
  { exists n, cache. destruct (Hc id n En). split_and!; auto. }
  assert (∀ d cache, d ∈ deps_of m id → cache_ok cache →
    depth_ok d cache (depth_of m fuel d cache)) as Hdep.
  { intros d cache' Hd Hc'. apply IH; [by eapply HV| |done]. intros l Hl.
    specialize (Hlen (d :: l) (conj Hd Hl)). simpl in *. lia. }
  destruct (deps_of m id) as [|d0 deps] eqn:Ed.
  - exists 1, (<[id:=1]> cache). pose proof (depth_spec_leaf id Ed).
    split_and!; [done..|by apply cache_ok_insert|by rewrite lookup_insert_eq|set_solver].
  - destruct (Hdep d0 cache ltac:(set_solver) Hc) as (x0 & c1 & -> & Hx0 & Hc1 & _ & Hs1).
    destruct (max_depths_ok (depth_of m fuel) deps) with (best := x0) (cache := c1)
      as (x & c2 & -> & Hc2 & Hbest & Hx & Hall & Hs2); [intros; apply Hdep; set_solver|done|].
    assert (depth_spec id (1 + x)) as Hspec.
    { apply depth_spec_node; rewrite Ed.
      - destruct Hx as [->|(d & ? & ?)]; [exists d0; set_solver|exists d; set_solver].
      - intros d [->|?]%elem_of_cons; [by exists x0|auto]. }
    exists (1 + x), (<[id:=1 + x]> c2).
    split_and!; [done..|by apply cache_ok_insert|by rewrite lookup_insert_eq|set_solver].
Qed.

Lemma depth_all_ok fuel ids :
  (∀ id, id ∈ ids → id ∈ V) →
  (∀ id, id ∈ ids → ∀ l, chain (id :: l) → (length (id :: l) ≤ fuel)%nat) →
  ∀ cache, cache_ok cache →
  ∃ cache', depth_all m fuel ids cache = Some cache' ∧ cache_ok cache' ∧
    dom cache ⊆ dom cache' ∧ ∀ id, id ∈ ids → id ∈ dom cache'.
Proof.
  induction ids as [|id ids IH]; intros Hids Hlen cache Hc; simpl.
  { exists cache. set_solver. }
  destruct (depth_of_ok fuel id cache) as (x & c1 & -> & _ & Hc1 & Hid & Hs1);
    [apply Hids; set_solver|apply Hlen; set_solver|done|].
  destruct (IH ltac:(set_solver) ltac:(intros; eapply Hlen; set_solver) c1 Hc1) as (c2 & -> & ? & Hs2 & Hin).
  exists c2. split_and!; [done|done|set_solver|].
  apply elem_of_dom_2 in Hid. intros i [->|?]%elem_of_cons; set_solver.
Qed.
End graph.
