(* ===== verification/PlannerFacts.v ===== *)
(** * What an accepted plan satisfies

    [plan_valid] is the declarative meaning of [Planner.validate_plan]; the two
    are equivalent.  The keyword strategy always produces such plans under the
    default limits. *)
From S2P Require Import Prelude PyFloat PyValue Planner PlannerGraph.
Import Planner.
Local Open Scope Z_scope.

Abbreviation step_ids p := (ps_step_id <$> ep_steps p).

(** ** The dependency map *)
Lemma dependency_map_app l s :
  foldl (λ m s, dinsert (ps_step_id s) (ps_depends_on s) m) [] (l ++ [s]) =
  dinsert (ps_step_id s) (ps_depends_on s)
    (foldl (λ m s, dinsert (ps_step_id s) (ps_depends_on s) m) [] l).
Proof. by rewrite foldl_app. Qed.

Lemma dependency_map_Some p id ds :
  dlookup id (dependency_map p) = Some ds →
  ∃ s, s ∈ ep_steps p ∧ ps_step_id s = id ∧ ps_depends_on s = ds.
Proof.
  unfold dependency_map. induction (ep_steps p) as [|s l IH] using rev_ind; [done|].
  rewrite dependency_map_app, dlookup_dinsert. case_decide as Hid.
  - intros [= <-]. exists s. split_and!; [set_solver|done..].
  - intros (s' & ? & ? & ?)%IH. exists s'. split_and!; [set_solver|done..].
Qed.

Lemma dependency_map_step p s :
  NoDup (step_ids p) → s ∈ ep_steps p →
  dlookup (ps_step_id s) (dependency_map p) = Some (ps_depends_on s).
Proof.
  unfold dependency_map. induction (ep_steps p) as [|s' l IH] using rev_ind; [set_solver|].
  rewrite fmap_app, dependency_map_app, dlookup_dinsert. intros Hnd Hs.
  apply NoDup_app in Hnd as (Hnd & Hdisj & _).
  apply elem_of_app in Hs as [Hs| ->%list_elem_of_singleton]; [|by rewrite decide_True].
  rewrite decide_False; [by apply IH|]. intros Heq.
  apply (Hdisj (ps_step_id s)); [by apply list_elem_of_fmap_2|].
  rewrite <-Heq. set_solver.
Qed.

Lemma edge_step p a b :
  edge (dependency_map p) a b → ∃ s, s ∈ ep_steps p ∧ ps_step_id s = a ∧ b ∈ ps_depends_on s.
Proof.
  unfold edge, deps_of, dget. destruct (dlookup a (dependency_map p)) as [ds|] eqn:E; simpl.
  - intros Hb. apply dependency_map_Some in E as (s & ? & ? & <-). eauto.
  - set_solver.
Qed.

Lemma edge_iff p s b :
  NoDup (step_ids p) → s ∈ ep_steps p →
  edge (dependency_map p) (ps_step_id s) b ↔ b ∈ ps_depends_on s.
Proof.
  intros Hnd Hs. unfold edge, deps_of, dget. by rewrite dependency_map_step.
Qed.

Definition graph_set (p : ExecutionPlan) : gset string := list_to_set (graph_ids p).

Lemma graph_set_closed p a b :
  a ∈ graph_set p → edge (dependency_map p) a b → b ∈ graph_set p.
Proof.
  intros _ (s & Hs & _ & Hb)%edge_step. unfold graph_set, graph_ids.
  rewrite elem_of_list_to_set, elem_of_app. right.
  rewrite list_elem_of_In, in_concat. exists (ps_depends_on s).
  rewrite <-!list_elem_of_In. split; [by apply list_elem_of_fmap_2|done].
Qed.

Lemma graph_set_step p id : id ∈ step_ids p → id ∈ graph_set p.
Proof.
  unfold graph_set, graph_ids. rewrite elem_of_list_to_set, elem_of_app. by left.
Qed.

Lemma graph_set_size p : (size (graph_set p) < graph_fuel p)%nat.
Proof.
  unfold graph_fuel, graph_set. generalize (graph_ids p) as l. intros l.
  enough (size (list_to_set l : gset string) ≤ length l)%nat by lia.
  induction l as [|x l IH]; [done|].
  cbn [list_to_set length]. rewrite size_union_alt, size_singleton.
  enough (size (list_to_set l ∖ {[x]} : gset string) ≤ size (list_to_set l : gset string))%nat by lia.
  apply subseteq_size. set_solver.
Qed.

(** ** Acyclicity *)
Lemma search_ok p :
  dfs_ok (dependency_map p) (step_ids p) ∅ ∅
    (visit_all (dfs (dependency_map p) (graph_fuel p)) (step_ids p) (∅, ∅)).
Proof.
  apply visit_all_ok; [|intros v; set_solver]. intros id vd Hid Hfin.
  apply (dfs_correct _ (graph_set p)); [apply graph_set_closed|by apply graph_set_step| |set_solver|done].
  pose proof (graph_set_size p).
  enough (size (graph_set p ∖ ∅) ≤ size (graph_set p))%nat by lia.
  apply subseteq_size. set_solver.
Qed.

Lemma validate_acyclic_Ok p : validate_acyclic p = Ok tt ↔ acyclic (dependency_map p).
Proof.
  pose proof (search_ok p) as H. unfold validate_acyclic.
  destruct (visit_all _ _ _) as [[[vg vd]|e]|]; simpl in H; [|split|done].
  - destruct H as (_ & _ & Hin & Hfin). split; [|done]. intros _ a Hc.
    assert (∃ b, edge (dependency_map p) a b) as [b Hb] by (inversion Hc; eauto).
    apply edge_step in Hb as (s & Hs & <- & _).
    eapply Fin_no_cycle, Hc. apply Hfin, Hin. by apply list_elem_of_fmap_2.
  - done.
  - destruct H as (x & _ & Hx). intros Hac. by apply Hac in Hx.
Qed.

Lemma validate_acyclic_Err p e :
  validate_acyclic p = Err e →
  ∃ x, e = ValueError ("cycle detected at step: " +:+ x) ∧ tc (edge (dependency_map p)) x x.
Proof.
  pose proof (search_ok p) as H. unfold validate_acyclic.
  destruct (visit_all _ _ _) as [[[vg vd]|e']|]; simpl in H; [done| |done].
  by intros [= <-].
Qed.

(** ** The depth map *)
Lemma build_depth_map_ok p :
  acyclic (dependency_map p) →
  ∃ dm, build_depth_map p = Ok dm ∧
    (∀ id, id ∈ step_ids p → id ∈ dom dm) ∧
    (∀ id n, dm !! id = Some n → id ∈ graph_set p ∧ depth_spec (dependency_map p) id n).
Proof.
  intros Hac. unfold build_depth_map.
  destruct (depth_all_ok (dependency_map p) (graph_set p)
    (graph_set_closed p) (graph_fuel p) (step_ids p)) with (cache := ∅ : gmap string Z)
    as (dm & -> & Hok & _ & Hin).
  - apply graph_set_step.
  - intros id Hid l Hl. pose proof (graph_set_size p).
    assert (length (id :: l) ≤ size (graph_set p))%nat; [|lia].
    eapply chain_length; [done|apply graph_set_closed|by apply graph_set_step|done].
  - intros id n. by rewrite lookup_empty.
  - exists dm. done.
Qed.

Lemma map_values_elem (dm : gmap string Z) n : n ∈ map_values dm ↔ ∃ id, dm !! id = Some n.
Proof.
  unfold map_values. rewrite list_elem_of_fmap. split.
  - intros ([id x] & -> & H%elem_of_map_to_list). eauto.
  - intros [id H]. exists (id, n). by rewrite elem_of_map_to_list.
Qed.

Lemma foldl_max x l : ∀ y, foldl Z.max x l ≤ y ↔ x ≤ y ∧ ∀ z, z ∈ l → z ≤ y.
Proof.
  revert x. induction l as [|z l IH]; intros x y; simpl; [set_solver|].
  rewrite IH. setoid_rewrite elem_of_cons. split.
  - intros [H1 H2]. split; [lia|]. intros w [->|Hw]; [lia|auto].
  - intros [H1 H2]. split; [specialize (H2 z (or_introl eq_refl)); lia|auto].
Qed.

Lemma max_list_le l m : max_list l = Ok m → ∀ y, m ≤ y ↔ ∀ z, z ∈ l → z ≤ y.
Proof.
  destruct l as [|x l]; simpl; [done|]. intros [= <-] y. rewrite foldl_max.
  setoid_rewrite elem_of_cons. naive_solver.
Qed.

(** ** Counting *)
Definition count (x : Z) (l : list Z) : Z := Z.of_nat (length (filter (λ y, y = x) l)).

Lemma count_snoc d l x : count d (l ++ [x]) = count d l + (if decide (x = d) then 1 else 0).
Proof.
  unfold count. rewrite filter_app, length_app, filter_cons, filter_nil.
  case_decide; simpl; lia.
Qed.

Lemma count_not_in d l : d ∉ l → count d l = 0.
Proof.
  unfold count. induction l as [|x l IH]; intros Hd; [done|].
  rewrite filter_cons, decide_False by set_solver. apply IH. set_solver.
Qed.

Lemma depth_counts_spec l :
  ∀ d, depth_counts l !! d = (if decide (d ∈ l) then Some (count d l) else None).
Proof.
  unfold depth_counts. induction l as [|x l IH] using rev_ind; intros d.
  { rewrite decide_False by set_solver. apply lookup_empty. }
  rewrite foldl_app. cbn [foldl]. rewrite lookup_insert, count_snoc.
  destruct (decide (x = d)) as [->|Hne].
  - rewrite IH. rewrite (decide_True (P := d ∈ l ++ [d])) by set_solver. f_equal.
    case_decide as Hd; simpl; [lia|]. rewrite count_not_in by done. lia.
  - rewrite IH, Z.add_0_r. repeat case_decide; set_solver.
Qed.

Lemma parallelism_le (depths : list Z) y :
  0 ≤ y →
  (∃ e, (match (map_to_list (depth_counts depths)).*2 with
         | [] => Ok 0
         | _ => max_list ((map_to_list (depth_counts depths)).*2)
         end) = Ok e ∧ (e ≤ y ↔ ∀ d, count d depths ≤ y)).
Proof.
  intros Hy.
  assert (∀ c, c ∈ (map_to_list (depth_counts depths)).*2 ↔ ∃ d, d ∈ depths ∧ c = count d depths)
    as Hel.
  { intros c. rewrite list_elem_of_fmap. split.
    - intros ([d c'] & -> & Hc%elem_of_map_to_list). rewrite depth_counts_spec in Hc.
      case_decide; [|done]. simplify_eq. eauto.
    - intros (d & Hd & ->). exists (d, count d depths). split; [done|].
      apply elem_of_map_to_list. by rewrite depth_counts_spec, decide_True. }
  destruct ((map_to_list (depth_counts depths)).*2) as [|c l] eqn:E.
  - exists 0. split; [done|]. split; [|lia]. intros _ d.
    destruct (decide (d ∈ depths)) as [Hd|Hd]; [|rewrite count_not_in; [lia|done]].
    assert (count d depths ∈ []) by (apply Hel; eauto). set_solver.
  - destruct (max_list (c :: l)) as [e|] eqn:Em; [|done]. exists e. split; [done|].
    rewrite (max_list_le _ _ Em). split.
    + intros Hle d. destruct (decide (d ∈ depths)) as [Hd|Hd]; [|rewrite count_not_in; [lia|done]].
      apply Hle, Hel. eauto.
    + intros Hle z (d & _ & ->)%Hel. done.
Qed.

Lemma count_values (dm : gmap string Z) n :
  count n (map_values dm) =
  Z.of_nat (length (filter (λ kv : string * Z, kv.2 = n) (map_to_list dm))).
Proof.
  unfold count, map_values. f_equal. induction (map_to_list dm) as [|[k x] l IH]; [done|].
  cbn [fmap list_fmap snd]. rewrite !filter_cons. simpl. by case_decide; simpl; rewrite IH.
Qed.

(** ** The meaning of [validate_plan] *)
Definition step_fields_ok (allowed : list string) (s : PlanStep) : Prop :=
  ps_step_id s ≠ "" ∧ ps_goal s ≠ "" ∧ ps_done_criteria s ≠ "" ∧ ps_tool_id s ≠ "" ∧
  ps_tool_id s ∈ allowed ∧ 1 ≤ ps_timeout_seconds s.

Record plan_valid (p : ExecutionPlan) (allowed : list string) : Prop := {
  pv_max_depth : 1 ≤ max_depth (ep_graph_limits p);
  pv_max_parallel : 1 ≤ max_parallel (ep_graph_limits p);
  pv_nonempty : ep_steps p ≠ [];
  pv_fields : ∀ s, s ∈ ep_steps p → step_fields_ok allowed s;
  pv_nodup : NoDup (step_ids p);
  pv_deps : ∀ s d, s ∈ ep_steps p → d ∈ ps_depends_on s → d ∈ step_ids p;
  pv_acyclic : acyclic (dependency_map p);
  (* no dependency chain is longer than [max_depth] *)
  pv_depth : ∀ id l, id ∈ step_ids p → chain (dependency_map p) (id :: l) →
    Z.of_nat (length (id :: l)) ≤ max_depth (ep_graph_limits p);
  (* no level of the graph holds more than [max_parallel] steps *)
  pv_parallel : ∀ n ids, NoDup ids →
    (∀ id, id ∈ ids → id ∈ step_ids p ∧ depth_spec (dependency_map p) id n) →
    Z.of_nat (length ids) ≤ max_parallel (ep_graph_limits p);
}.

Lemma check_step_fields_Ok allowed s S0 S1 :
  (check_step_fields allowed s S0 = Ok S1) ↔
  step_fields_ok allowed s ∧ (ps_step_id s ∉ S0) ∧ S1 = ({[ps_step_id s]} ∪ S0).
Proof.
  unfold check_step_fields, step_fields_ok.
  assert (∀ t, (negb (str_truthy t) = false) ↔ t ≠ "") as Ht.
  { intros t. by rewrite negb_false_iff, str_truthy_true. }
  rewrite !raise_if_bind, !Ht, bool_decide_eq_false, negb_false_iff, bool_decide_eq_true, Z.ltb_ge.
  split.
  - intros (? & ? & ? & ? & ? & ? & ? & [= <-]). auto 20.
  - intros ((? & ? & ? & ? & ? & ?) & ? & ->). auto 20.
Qed.

Lemma fold_fields_Ok allowed l : ∀ S0,
  is_ok (fold_res (check_step_fields allowed) l S0) = true ↔
  (∀ s, s ∈ l → step_fields_ok allowed s) ∧ NoDup (ps_step_id <$> l) ∧
  (∀ id, id ∈ ps_step_id <$> l → id ∉ S0).
Proof.
  induction l as [|s l IH]; intros S0; cbn [fold_res].
  { split; [|done]. intros _. split_and!; [set_solver|constructor|set_solver]. }
  destruct (check_step_fields allowed s S0) as [S1|e] eqn:E.
  - apply check_step_fields_Ok in E as (Hs & Hn & ->). rewrite IH. cbn [fmap list_fmap].
    rewrite NoDup_cons. split.
    + intros (Hf & Hnd & Hd). split_and!; [|set_solver|done|set_solver].
      intros s' [->|?]%elem_of_cons; auto.
    + intros (Hf & [Hni Hnd] & Hd). split_and!; [intros; apply Hf; set_solver|done|].
      intros id Hid. rewrite not_elem_of_union, not_elem_of_singleton.
      split; [by intros ->|]. apply Hd. set_solver.
  - split; [done|]. intros (Hf & _ & Hd). exfalso.
    assert (check_step_fields allowed s S0 = Ok ({[ps_step_id s]} ∪ S0)) as Hok.
    { apply check_step_fields_Ok. split_and!; [apply Hf; set_solver|apply Hd; set_solver|done]. }
    congruence.
Qed.

Lemma validate_step_fields_Ok p allowed :
  validate_step_fields p allowed = Ok tt ↔
  (∀ s, s ∈ ep_steps p → step_fields_ok allowed s) ∧ NoDup (step_ids p).
Proof.
  pose proof (fold_fields_Ok allowed (ep_steps p) ∅) as H. unfold validate_step_fields.
  destruct (fold_res _ _ _) as [S1|e]; simpl in *.
  - split; [|done]. intros _. destruct H as [H _]. destruct (H eq_refl) as (? & ? & _). auto.
  - split; [done|]. intros [? ?]. destruct H as [_ H].
    discriminate H. split_and!; [done..|]. set_solver.
Qed.

Lemma validate_dependencies_Ok p :
  validate_dependencies p = Ok tt ↔
  ∀ s d, s ∈ ep_steps p → d ∈ ps_depends_on s → d ∈ step_ids p.
Proof.
  unfold validate_dependencies. rewrite for_each_Ok.
  setoid_rewrite for_each_Ok. setoid_rewrite raise_if_Ok.
  setoid_rewrite negb_false_iff. setoid_rewrite bool_decide_eq_true. naive_solver.
Qed.

Lemma depth_spec_unique m id n n' : depth_spec m id n → depth_spec m id n' → n = n'.
Proof.
  intros [(l & Hl & <-) Hn] [(l' & Hl' & <-) Hn'].
  specialize (Hn l' Hl'). specialize (Hn' l Hl). lia.
Qed.

Section accepted.
Context (p : ExecutionPlan).
Hypothesis (Hdeps : ∀ s d, s ∈ ep_steps p → d ∈ ps_depends_on s → d ∈ step_ids p).
Hypothesis (Hac : acyclic (dependency_map p)).
Hypothesis (Hne : ep_steps p ≠ []).

Lemma graph_set_steps id : id ∈ graph_set p ↔ id ∈ step_ids p.
Proof.
  split; [|apply graph_set_step]. unfold graph_set, graph_ids.
  rewrite elem_of_list_to_set, elem_of_app. intros [?|Hc]; [done|].
  rewrite list_elem_of_In, in_concat in Hc. destruct Hc as (ds & Hds & Hid).
  apply list_elem_of_In in Hds. apply list_elem_of_In in Hid. apply list_elem_of_fmap in Hds as (s & -> & Hs). eauto.
Qed.

Lemma depth_map_steps :
  ∃ dm, build_depth_map p = Ok dm ∧ map_values dm ≠ [] ∧
    (∀ id n, dm !! id = Some n ↔ id ∈ step_ids p ∧ depth_spec (dependency_map p) id n).
Proof.
  destruct (build_depth_map_ok p Hac) as (dm & Hdm & Hdom & Hspec). exists dm. split; [done|].
  assert (∀ id n, dm !! id = Some n ↔ id ∈ step_ids p ∧ depth_spec (dependency_map p) id n) as Hiff.
  { intros id n. split.
    - intros [??]%Hspec. by rewrite <-graph_set_steps.
    - intros [Hid Hn]. apply Hdom, elem_of_dom in Hid as [n' Hn'].
      destruct (Hspec _ _ Hn') as [_ Hn'']. by rewrite (depth_spec_unique _ _ _ _ Hn Hn''). }
  split; [|done]. destruct (ep_steps p) as [|s l] eqn:E; [done|].
  assert (ps_step_id s ∈ dom dm) as [n Hn]%elem_of_dom by (apply Hdom; rewrite ?E; set_solver).
  intros Hnil. assert (n ∈ map_values dm) as Hin by (apply map_values_elem; eauto).
  rewrite Hnil in Hin. set_solver.
Qed.

Lemma validate_depth_Ok :
  validate_depth p = Ok tt ↔
  ∀ id l, id ∈ step_ids p → chain (dependency_map p) (id :: l) →
    Z.of_nat (length (id :: l)) ≤ max_depth (ep_graph_limits p).
Proof.
  destruct depth_map_steps as (dm & Hdm & Hnil & Hiff).
  unfold validate_depth. rewrite Hdm. simpl.
  destruct (max_list (map_values dm)) as [d|] eqn:E; [|by destruct (map_values dm)].
  simpl. rewrite raise_if_Ok, Z.ltb_ge, (max_list_le _ _ E). split.
  - intros Hle id l Hid Hl.
    destruct (build_depth_map_ok p Hac) as (dm' & Hdm' & Hdom & Hspec).
    rewrite Hdm in Hdm'. injection Hdm' as <-.
    apply Hdom, elem_of_dom in Hid as [n Hn]. destruct (Hspec _ _ Hn) as [_ [_ Hmax]].
    specialize (Hmax l Hl). etrans; [exact Hmax|]. apply Hle, map_values_elem. eauto.
  - intros Hle n (id & [Hid [(l & Hl & <-) _]]%Hiff)%map_values_elem. by eapply Hle.
Qed.

Lemma validate_parallelism_Ok :
  1 ≤ max_parallel (ep_graph_limits p) →
  validate_parallelism p = Ok tt ↔
  ∀ n ids, NoDup ids →
    (∀ id, id ∈ ids → id ∈ step_ids p ∧ depth_spec (dependency_map p) id n) →
    Z.of_nat (length ids) ≤ max_parallel (ep_graph_limits p).
Proof.
  intros Hmp. destruct depth_map_steps as (dm & Hdm & _ & Hiff).
  unfold validate_parallelism. rewrite Hdm. simpl.
  destruct (parallelism_le (map_values dm) (max_parallel (ep_graph_limits p)))
    as (e & He & Hle); [lia|].
  rewrite He. simpl. rewrite raise_if_Ok, Z.ltb_ge, Hle. setoid_rewrite count_values. split.
  - intros Hc n ids Hnd Hids. etrans; [|apply (Hc n)]. apply inj_le.
    rewrite <-(length_fmap (λ id, (id, n)) ids). apply submseteq_length, NoDup_submseteq.
    { apply NoDup_fmap_2; [intros ?? [= ->]; done|done]. }
    intros ? (id & -> & Hid)%list_elem_of_fmap. apply list_elem_of_filter. split; [done|].
    by apply elem_of_map_to_list, Hiff, Hids.
  - intros Hids n.
    rewrite <-(length_fmap fst (filter (λ kv : string * Z, kv.2 = n) (map_to_list dm))).
    apply (Hids n).
    + pose proof (NoDup_fst_map_to_list dm) as Hnd.
      induction (map_to_list dm) as [|[k x] l IH]; [constructor|].
      rewrite filter_cons. cbn [fmap list_fmap fst] in Hnd. apply NoDup_cons in Hnd as [Hk Hnd].
      case_decide; [|by apply IH]. cbn [fmap list_fmap fst]. constructor; [|by apply IH].
      intros (kv & -> & [_ ?]%list_elem_of_filter)%list_elem_of_fmap.
      apply Hk. by apply list_elem_of_fmap_2.
    + intros id ([k x] & -> & [? ?%elem_of_map_to_list]%list_elem_of_filter)%list_elem_of_fmap.
      simpl in *. subst. by apply Hiff.
Qed.
End accepted.

Lemma validate_plan_iff p allowed :
  ep_steps p ≠ [] → validate_plan p allowed = Ok tt ↔ plan_valid p allowed.
Proof.
  intros Hne. unfold validate_plan. rewrite !raise_if_bind, !bind_unit_Ok, !Z.ltb_ge. split.
  - intros (H1 & H2 & H3 & H4 & H5 & H6 & H7).
    apply validate_step_fields_Ok in H3 as [? ?]. apply validate_acyclic_Ok in H5.
    pose proof (proj1 (validate_dependencies_Ok p) H4) as Hd.
    split; try done.
    + by apply validate_depth_Ok.
    + by apply validate_parallelism_Ok.
  - intros [? ? _ ? ? Hd ? ? ?].
    split_and!; [done..|by apply validate_step_fields_Ok|by apply validate_dependencies_Ok
      |by apply validate_acyclic_Ok|by apply validate_depth_Ok|by apply validate_parallelism_Ok].
Qed.

(** ** Plans of the keyword strategy *)
Section keyword.
Context (repr : pyval → string).

(** A request as the contract admits it, with no metadata. *)
Record plain_request (r : dict pyval) (request_id session_id user_input : string)
    (tools : list string) : Prop := {
  pr_request_id : dlookup "request_id" r = Some (VStr request_id);
  pr_session_id : dlookup "session_id" r = Some (VStr session_id);
  pr_user_input : dlookup "user_input" r = Some (VStr user_input);
  pr_tools : dlookup "allowed_tools" r = Some (VList (VStr <$> tools));
  pr_metadata : dlookup "metadata" r = None;
  pr_nonempty : tools ≠ [];
  pr_named : "" ∉ tools;
}.

Lemma as_strs_VStr (l : list string) : as_strs (VStr <$> l) = Ok l.
Proof.
  induction l as [|s l IH]; [done|].
  change (as_strs (VStr <$> (s :: l))) with (r ← as_strs (VStr <$> l); Ok (s :: r)).
  by rewrite IH.
Qed.

(** The strategy answers with one independent step or with the three-step
    analysis plan, all on allowed tools. *)
Lemma build_steps_shape r rid sid u tools :
  plain_request r rid sid u tools →
  ∃ steps, build_steps repr r = Ok steps ∧
    ((∃ goal tool payload done, steps = [new_step "step-1" goal tool payload [] done] ∧
        goal ≠ "" ∧ done ≠ "" ∧ tool ∈ tools) ∨
     (∃ p1 p2 p3, "tool.search" ∈ tools ∧ "tool.query_db" ∈ tools ∧
        steps = [new_step "step-1" "collect external context" "tool.search" p1 []
                   "search returns at least one item";
                 new_step "step-2" "collect structured metrics" "tool.query_db" p2 []
                   "query returns at least one row";
                 new_step "step-3" "final consistency check" "tool.search" p3
                   ["step-1"; "step-2"] "summary check result is available"])).
Proof.
  intros [Hr Hs Hu Ht Hm Hne Hnm]. unfold build_steps, request_tools, request_metadata, dget.
  rewrite Ht, Hu, Hm. simpl. rewrite as_strs_VStr. simpl.
  case_match eqn:E1.
  { apply andb_true_iff in E1 as [_ E1%bool_decide_eq_true].
    eexists. split; [done|]. left. eexists _, _, _, _. split; [done|]. done. }
  case_match eqn:E2.
  { rewrite !andb_true_iff, !bool_decide_eq_true in E2. destruct E2 as [[_ ?] ?].
    eexists. split; [done|]. right. eexists _, _, _. split_and!; done. }
  case_match eqn:E3.
  { apply andb_true_iff in E3 as [_ E3%bool_decide_eq_true].
    eexists. split; [done|]. left. eexists _, _, _, _. split; [done|]. done. }
  destruct (bool_decide ("tool.search" ∈ tools)) eqn:E4; cbn [mbind res_bind].
  { apply bool_decide_eq_true in E4. eexists. split; [done|]. left. eexists _, _, _, _. split; [done|]. done. }
  destruct tools as [|t tools]; [by destruct Hne|]. simpl.
  eexists. split; [done|]. left. eexists _, _, _, _. split; [done|]. split_and!; [done..|set_solver].
Qed.

Lemma infer_risks_plain r rid sid u tools steps :
  plain_request r rid sid u tools → is_ok (infer_risks repr r steps) = true.
Proof.
  intros [_ _ _ _ Hm _ _]. unfold infer_risks, request_metadata, dget. by rewrite Hm.
Qed.

Lemma default_limits_accept rid sid tr v steps risks tools :
  "" ∉ tools →
  ((∃ goal tool payload done, steps = [new_step "step-1" goal tool payload [] done] ∧
        goal ≠ "" ∧ done ≠ "" ∧ tool ∈ tools) ∨
     (∃ p1 p2 p3, "tool.search" ∈ tools ∧ "tool.query_db" ∈ tools ∧
        steps = [new_step "step-1" "collect external context" "tool.search" p1 []
                   "search returns at least one item";
                 new_step "step-2" "collect structured metrics" "tool.query_db" p2 []
                   "query returns at least one row";
                 new_step "step-3" "final consistency check" "tool.search" p3
                   ["step-1"; "step-2"] "summary check result is available"])) →
  validate_plan (mkExecutionPlan rid sid tr v steps risks (mkGraphLimits 6 4)) tools = Ok tt.
Proof.
  intros Hnm Hsteps. unfold validate_plan.
  apply raise_if_bind. split; [done|]. apply raise_if_bind. split; [done|].
  apply bind_unit_Ok. split.
  { apply validate_step_fields_Ok. simpl.
    destruct Hsteps as [(goal & tool & pay & don & -> & ? & ? & ?)|(p1 & p2 & p3 & ? & ? & ->)].
    - split; [|apply NoDup_singleton]. intros s ->%list_elem_of_singleton.
      unfold step_fields_ok; simpl. split_and!; try done. by intros ->.
    - split.
      + intros s. rewrite !elem_of_cons, elem_of_nil.
        intros [->|[->|[->|[]]]]; unfold step_fields_ok; simpl; by split_and!.
      + repeat constructor; set_solver. }
  destruct Hsteps as [(goal & tool & pay & don & -> & _)|(p1 & p2 & p3 & _ & _ & ->)];
    vm_compute; reflexivity.
Qed.

Lemma create_plan_plain r rid sid u tools :
  plain_request r rid sid u tools →
  ∃ p, create_plan repr r = Ok p ∧ ep_request_id p = rid ∧ ep_session_id p = sid ∧
    ep_plan_version p = 1 ∧ ep_trace_id p = "trace-" +:+ rid +:+ "-v1".
Proof.
  intros Hp. pose proof Hp as [Hr Hs Hu Ht Hm Hne Hnm].
  destruct (build_steps_shape r rid sid u tools Hp) as (steps & Hb & Hshape).
  assert (steps ≠ []) as Hnil.
  { by destruct Hshape as [(? & ? & ? & ? & -> & _)|(? & ? & ? & _ & _ & ->)]. }
  pose proof (infer_risks_plain r rid sid u tools steps Hp) as Hrisk.
  destruct (infer_risks repr r steps) as [risks|] eqn:Er; [clear Hrisk|done].
  assert (validate_request r = Ok tt) as Hv.
  { unfold validate_request, dmem. simpl. rewrite Hr, Hs, Hu, Ht. simpl.
    unfold Py.subscript. rewrite Ht. simpl. destruct tools; [done|]. done. }
  unfold create_plan, create_plan_with. rewrite Hv, Hb. simpl.
  rewrite bool_decide_eq_false_2 by done. simpl.
  unfold request_metadata, dget. rewrite Hm. simpl. unfold Py.subscript.
  rewrite Hr, Hs, Ht. simpl. rewrite Er. simpl. rewrite as_strs_VStr. simpl.
  rewrite default_limits_accept by done. simpl. eexists. split; [done|]. done.
Qed.
End keyword.

(** The tool names a request allows, when it lists names. *)
Definition tools_of (r : dict pyval) : option (list string) :=
  dlookup "allowed_tools" r ≫= (λ v,
    match Py.iterate v ≫= as_strs with Ok l => Some l | Err _ => None end).

Lemma create_plan_ok repr r p :
  create_plan repr r = Ok p →
  ∃ tools, tools_of r = Some tools ∧
    plan_valid p tools ∧ 1 ≤ ep_plan_version p ∧
    dlookup "request_id" r = Some (VStr (ep_request_id p)) ∧
    dlookup "session_id" r = Some (VStr (ep_session_id p)).
Proof.
  unfold create_plan, create_plan_with. intros H.
  apply bind_unit_Ok in H as [_ H]. apply bind_Ok in H as (steps0 & _ & H).
  apply raise_if_bind in H as [Hne%bool_decide_eq_false H].
  apply bind_Ok in H as (to & _ & H). apply bind_Ok in H as (steps & Hsteps & H).
  apply bind_Ok in H as (d & _ & H). apply bind_Ok in H as (pl & _ & H).
  apply bind_Ok in H as (v & _ & H). apply raise_if_bind in H as [Hv%Z.ltb_ge H].
  apply bind_Ok in H as (t & _ & H). apply bind_Ok in H as (rid & Hrid & H).
  apply bind_Ok in H as (sid & Hsid & H). apply bind_Ok in H as (risks & _ & H).
  apply bind_Ok in H as (allowed & Hal & H). apply bind_Ok in H as (tools & Htools & H).
  apply bind_unit_Ok in H as [Hval [= <-]].
  assert (∀ k s, Py.subscript k r ≫= as_str = Ok s → dlookup k r = Some (VStr s)) as Hstr.
  { intros k s. unfold Py.subscript. destruct (dlookup k r) as [[]|]; simpl; naive_solver. }
  unfold tools_of. unfold Py.subscript in Hal. destruct (dlookup "allowed_tools" r) as [al|]; [|done].
  injection Hal as ->. exists tools. simpl. rewrite Htools. split_and!; [done| |done|auto..].
  apply validate_plan_iff; [|done]. simpl. intros ->.
  destruct to; inv_ok; try by apply Hne.
  all: destruct steps0; [by apply Hne|done].
Qed.

(** ** Properties *)

(** C4: [validate_plan] accepts a non-empty plan exactly when it is valid:
    limits at least one, well-formed steps on allowed tools, distinct step
    ids, dependencies on steps of the plan, no dependency cycle, no dependency
    chain longer than [max_depth], no level with more than [max_parallel]
    steps. *)
Theorem validate_plan_correct p allowed :
  ep_steps p ≠ [] → validate_plan p allowed = Ok tt ↔ plan_valid p allowed.
Proof. apply validate_plan_iff. Qed.

Definition diamond : ExecutionPlan :=
  mkExecutionPlan "r" "s" "t" 1
    [new_step "a" "g" "x" [] [] "d"; new_step "b" "g" "x" [] ["a"] "d";
     new_step "c" "g" "x" [] ["a"] "d"; new_step "e" "g" "x" [] ["b"; "c"] "d"] []
    (mkGraphLimits 3 2).

Lemma validate_plan_correct_witness : plan_valid diamond ["x"].
Proof. apply validate_plan_correct; [discriminate|vm_compute; reflexivity]. Defined.

(** The depth-first search of [_validate_acyclic] terminates with a
    verdict on every plan, accepts exactly the plans without a dependency
    cycle, and a rejection names a step that depends on itself through the
    graph. *)
Theorem validate_acyclic_decides p :
  (validate_acyclic p = Ok tt ∧ acyclic (dependency_map p)) ∨
  (∃ x, validate_acyclic p = Err (ValueError ("cycle detected at step: " +:+ x)) ∧
        tc (edge (dependency_map p)) x x).
Proof.
  destruct (validate_acyclic p) as [[]|e] eqn:E.
  - left. split; [done|]. by apply validate_acyclic_Ok.
  - right. apply validate_acyclic_Err in E as (x & -> & ?). eauto.
Qed.

(** On a plan without cycles, [_build_depth_map] answers for every step,
    and the depth it records is the length of the longest dependency chain
    that starts at the step. *)
Theorem depth_map_longest_chain p :
  acyclic (dependency_map p) →
  ∃ dm, build_depth_map p = Ok dm ∧
    ∀ id, id ∈ step_ids p → ∃ n, dm !! id = Some n ∧
      (∃ l, chain (dependency_map p) (id :: l) ∧ Z.of_nat (length (id :: l)) = n) ∧
      (∀ l, chain (dependency_map p) (id :: l) → Z.of_nat (length (id :: l)) ≤ n).
Proof.
  intros Hac. destruct (build_depth_map_ok p Hac) as (dm & Hdm & Hdom & Hspec).
  exists dm. split; [done|]. intros id [n Hn]%Hdom%elem_of_dom.
  exists n. split; [done|]. by apply Hspec.
Qed.

Lemma diamond_acyclic : acyclic (dependency_map diamond).
Proof. apply validate_acyclic_Ok. vm_compute. reflexivity. Qed.

Lemma depth_map_longest_chain_witness :
  ∃ dm, build_depth_map diamond = Ok dm ∧ ∃ n, dm !! "e" = Some n.
Proof.
  destruct (depth_map_longest_chain diamond diamond_acyclic) as (dm & Hdm & H).
  exists dm. split; [exact Hdm|]. destruct (H "e") as (n & Hn & _); [|by exists n].
  vm_compute. repeat first [apply list_elem_of_here | apply list_elem_of_further].
Defined.

(** Any plan [create_plan] returns, for any request and metadata, is valid
    for the request's tools, has a version of at least one and carries the
    request's identifiers. *)
Theorem create_plan_sound repr r p :
  create_plan repr r = Ok p →
  ∃ tools, tools_of r = Some tools ∧
    plan_valid p tools ∧ 1 ≤ ep_plan_version p ∧
    dlookup "request_id" r = Some (VStr (ep_request_id p)) ∧
    dlookup "session_id" r = Some (VStr (ep_session_id p)).
Proof. apply create_plan_ok. Qed.

Definition demo_request : dict pyval :=
  [("request_id", VStr "r1"); ("session_id", VStr "s1");
   ("user_input", VStr "analyze the queue");
   ("allowed_tools", VList [VStr "tool.search"; VStr "tool.query_db"])].

Lemma create_plan_sound_witness :
  ∃ p, create_plan (λ _, "") demo_request = Ok p ∧ 1 ≤ ep_plan_version p.
Proof.
  destruct (create_plan (λ _, "") demo_request) as [p|e] eqn:E; [|vm_compute in E; discriminate].
  exists p. split; [reflexivity|].
  destruct (create_plan_sound (λ _, "") demo_request p E) as (tools & _ & _ & Hv & _). exact Hv.
Defined.

(** For a request with string ids and input, a non-empty list of non-empty
    tool names and no metadata, planning with the keyword strategy always
    succeeds: some branch of [build_steps] applies and its steps pass every
    check of [validate_plan] under the default limits. *)
Theorem keyword_planning_total repr r rid sid u tools :
  plain_request r rid sid u tools →
  ∃ p, create_plan repr r = Ok p ∧ ep_request_id p = rid ∧ ep_session_id p = sid ∧
    ep_plan_version p = 1 ∧ ep_trace_id p = "trace-" +:+ rid +:+ "-v1".
Proof. apply create_plan_plain. Qed.

Lemma keyword_planning_total_witness :
  ∃ p, create_plan (λ _, "") demo_request = Ok p ∧ ep_trace_id p = "trace-r1-v1".
Proof.
  destruct (keyword_planning_total (λ _, "") demo_request "r1" "s1" "analyze the queue"
    ["tool.search"; "tool.query_db"]) as (p & Hp & _ & _ & _ & Ht);
    [|exists p; split; [exact Hp|exact Ht]].
  constructor; try reflexivity; [discriminate|].
  intros H. apply (bool_decide_eq_true_2 ("" ∈ ["tool.search"; "tool.query_db"])) in H.
  vm_compute in H. discriminate H.
Defined.
