(* ===== verification/Replanner.v ===== *)
(** * Replanning (agent-system/src/agent/replanner.py)

    After a failed step or a blocked graph the replanner renames the failed
    step (or the failed step and every later one) and builds a plan of the next
    version.  Both strategies are renamings of step ids; the section
    [renaming] shows that an injective renaming keeps a plan valid. *)
From S2P Require Import Prelude PyFloat PyValue Planner PlannerGraph PlannerFacts.
Import Planner.
Local Open Scope Z_scope.

Record ReplanDecision := mkReplanDecision {
  should_replan : bool;
  strategy : string;
  rd_reason : string;
  rd_message : string;
  requires_human_handoff : bool;
}.

Record StepIdMapping := mkStepIdMapping {
  source_step_id : string;
  target_step_id : string;
  sm_plan_version : Z;
}.

Record ReplanOutcome := mkReplanOutcome {
  ro_plan : ExecutionPlan;
  ro_decision : ReplanDecision;
  step_id_mappings : list StepIdMapping;
}.

Module Replanner.

(** [dataclasses.replace(step, step_id=..., goal=..., depends_on=...)] *)
Definition replace_step (s : PlanStep) (step_id goal : string) (depends_on : list string)
    : PlanStep :=
  mkPlanStep step_id goal (ps_tool_id s) (ps_payload s) depends_on
    (ps_done_criteria s) (ps_timeout_seconds s) (ps_allow_rollback s).

(** [f"{step_id}-replan-v{version}"] *)
Definition replan_id (step_id : string) (version : Z) : string :=
  step_id +:+ "-replan-v" +:+ pretty version.

(** The plan with a new version and new steps. *)
Definition with_steps (p : ExecutionPlan) (version : Z) (steps : list PlanStep) : ExecutionPlan :=
  mkExecutionPlan (ep_request_id p) (ep_session_id p) (ep_trace_id p) version steps
    (ep_risk_flags p) (ep_graph_limits p).

Definition handoff_codes : list string :=
  ["permission_denied"; "schema_validation_error"; "invalid_business_input"].
Definition local_codes : list string :=
  ["tool_timeout"; "transient_network_error"; "retry_exhausted"; "service_unavailable"].

(** [str((error or {}).get("code", "unknown_error"))] *)
Definition error_code (repr : pyval → string) (error : dict pyval) : string :=
  Py.to_str repr (dget "code" (VStr "unknown_error") error).

Definition build_decision (repr : pyval → string) (error : dict pyval) (reason : string)
    : ReplanDecision :=
  let code := error_code repr error in
  if bool_decide (code ∈ handoff_codes) then
    mkReplanDecision false "human_handoff" reason
      ("manual handoff required for " +:+ code) true
  else if bool_decide (code ∈ local_codes) then
    mkReplanDecision true "local_replace" reason
      ("retry with local replace for " +:+ code) false
  else
    mkReplanDecision true "rollback_retry" reason
      ("fallback to rollback retry for " +:+ code) false.

(** One iteration of the loop of [_local_replace]. *)
Definition local_remap (failed : PlanStep) (new_id : string) (s : PlanStep) : PlanStep :=
  if bool_decide (ps_step_id s = ps_step_id failed) then
    replace_step failed new_id (ps_goal failed +:+ " (replanned)") (ps_depends_on failed)
  else
    replace_step s (ps_step_id s) (ps_goal s)
      ((λ d, if bool_decide (d = ps_step_id failed) then new_id else d) <$> ps_depends_on s).

Definition local_replace (plan : ExecutionPlan) (failed : PlanStep) (decision : ReplanDecision)
    : ReplanOutcome :=
  let version := ep_plan_version plan + 1 in
  let new_id := replan_id (ps_step_id failed) version in
  mkReplanOutcome (with_steps plan version (local_remap failed new_id <$> ep_steps plan)) decision
    [mkStepIdMapping (ps_step_id failed) new_id version].

Fixpoint find_step_index_from (steps : list PlanStep) (step_id : string) (index : nat)
    : res nat :=
  match steps with
  | [] => Err (ValueError ("step index not found for replan: " +:+ step_id))
  | s :: steps => if bool_decide (ps_step_id s = step_id) then Ok index
                  else find_step_index_from steps step_id (S index)
  end.
Definition find_step_index (plan : ExecutionPlan) (step_id : string) : res nat :=
  find_step_index_from (ep_steps plan) step_id 0.

Definition find_step (plan : ExecutionPlan) (step_id : string) : res PlanStep :=
  match find_first (λ s, bool_decide (ps_step_id s = step_id)) (ep_steps plan) with
  | Some s => Ok s
  | None => Err (ValueError ("step not found for replan: " +:+ step_id))
  end.

(** The first loop of [_rollback_retry]: the dictionary [step_id_map]. *)
Definition step_id_map (suffix : list PlanStep) (version : Z) : dict string :=
  foldl (λ m s, dinsert (ps_step_id s) (replan_id (ps_step_id s) version) m) [] suffix.

(** [step_id_map.get(d, d)] *)
Definition remap (m : dict string) (d : string) : string := dget d d m.

(** The second loop; [step_id_map[s.step_id]] is always present there. *)
Definition rollback_remap (m : dict string) (s : PlanStep) : PlanStep :=
  replace_step s (remap m (ps_step_id s)) (ps_goal s +:+ " (rollback-replan)")
    (remap m <$> ps_depends_on s).

Definition rollback_retry (plan : ExecutionPlan) (failed : PlanStep) (decision : ReplanDecision)
    : res ReplanOutcome :=
  let version := ep_plan_version plan + 1 in
  index ← find_step_index plan (ps_step_id failed);
  let prefix := take index (ep_steps plan) in
  let suffix := drop index (ep_steps plan) in
  let m := step_id_map suffix version in
  Ok (mkReplanOutcome (with_steps plan version (prefix ++ (rollback_remap m <$> suffix))) decision
        ((λ s, mkStepIdMapping (ps_step_id s) (remap m (ps_step_id s)) version) <$> suffix)).

Definition replan_after_failure (repr : pyval → string) (plan : ExecutionPlan)
    (failed : PlanStep) (error : dict pyval) : res ReplanOutcome :=
  let decision := build_decision repr error "step_failed" in
  if negb (should_replan decision) then Ok (mkReplanOutcome plan decision [])
  else if bool_decide (strategy decision = "local_replace") then
    Ok (local_replace plan failed decision)
  else rollback_retry plan failed decision.

Definition replan_for_missing_dependency (plan : ExecutionPlan) (blocked_step_id : string)
    : res ReplanOutcome :=
  failed ← find_step plan blocked_step_id;
  rollback_retry plan failed
    (mkReplanDecision true "rollback_retry" "missing_dependency"
       ("dependency graph blocked at " +:+ blocked_step_id) false).

End Replanner.
Import Replanner.

(** ** Renaming the steps of a valid plan *)
Record renamed (ρ : string → string) (s s' : PlanStep) : Prop := {
  rn_id : ps_step_id s' = ρ (ps_step_id s);
  rn_deps : ps_depends_on s' = ρ <$> ps_depends_on s;
  rn_goal : ps_goal s ≠ "" → ps_goal s' ≠ "";
  rn_tool : ps_tool_id s' = ps_tool_id s;
  rn_done : ps_done_criteria s' = ps_done_criteria s;
  rn_timeout : ps_timeout_seconds s' = ps_timeout_seconds s;
}.

Lemma renamed_list_ids ρ l l' :
  Forall2 (renamed ρ) l l' → (ps_step_id <$> l') = ρ <$> (ps_step_id <$> l).
Proof.
  induction 1 as [|s s' l l' Hs Hl IH]; [done|]. cbn [fmap list_fmap].
  by rewrite (rn_id _ _ _ Hs), IH.
Qed.

Section renaming.
Context (ρ : string → string) (p p' : ExecutionPlan) (allowed : list string).
Hypothesis (Hvalid : plan_valid p allowed).
Hypothesis (Hren : Forall2 (renamed ρ) (ep_steps p) (ep_steps p')).
Hypothesis (Hlim : ep_graph_limits p' = ep_graph_limits p).
Hypothesis (Hinj : ∀ a b, a ∈ step_ids p → b ∈ step_ids p → ρ a = ρ b → a = b).
Hypothesis (Hname : ∀ a, a ≠ "" → ρ a ≠ "").

Lemma renamed_ids : step_ids p' = ρ <$> step_ids p.
Proof using Hren. by apply renamed_list_ids. Qed.

Lemma renamed_steps s' :
  s' ∈ ep_steps p' → ∃ s, s ∈ ep_steps p ∧ renamed ρ s s'.
Proof using Hren.
  rewrite list_elem_of_lookup. intros [i Hi].
  destruct (Forall2_lookup_r _ _ _ _ _ Hren Hi) as (s & Hs & ?).
  exists s. split; [|done]. by eapply list_elem_of_lookup_2.
Qed.

Lemma renamed_steps_back s :
  s ∈ ep_steps p → ∃ s', s' ∈ ep_steps p' ∧ renamed ρ s s'.
Proof using Hren.
  rewrite list_elem_of_lookup. intros [i Hi].
  destruct (Forall2_lookup_l _ _ _ _ _ Hren Hi) as (s' & Hs & ?).
  exists s'. split; [|done]. by eapply list_elem_of_lookup_2.
Qed.

Lemma renamed_NoDup : NoDup (step_ids p').
Proof using Hvalid Hren Hinj.
  rewrite renamed_ids. apply NoDup_fmap_2_strong; [|apply (pv_nodup _ _ Hvalid)]. eauto.
Qed.

Lemma step_ids_elem (q : ExecutionPlan) s : s ∈ ep_steps q → ps_step_id s ∈ step_ids q.
Proof. apply list_elem_of_fmap_2. Qed.

(** Edges of the new graph are images of edges of the old one. *)
Lemma renamed_edge a b' :
  a ∈ step_ids p → edge (dependency_map p') (ρ a) b' →
  ∃ b, b' = ρ b ∧ b ∈ step_ids p ∧ edge (dependency_map p) a b.
Proof using Hvalid Hren Hinj.
  intros Ha (s' & Hs' & Hid & Hb)%edge_step.
  destruct (renamed_steps s' Hs') as (s & Hs & Hr).
  rewrite (rn_id _ _ _ Hr) in Hid. apply Hinj in Hid; [|by apply step_ids_elem|done]. subst a.
  rewrite (rn_deps _ _ _ Hr) in Hb. apply list_elem_of_fmap in Hb as (b & -> & Hb).
  exists b. split_and!; [done|by eapply (pv_deps _ _ Hvalid)|].
  by apply edge_iff; [apply (pv_nodup _ _ Hvalid)|..].
Qed.

Lemma edge_renamed a b :
  edge (dependency_map p) a b → edge (dependency_map p') (ρ a) (ρ b).
Proof using Hvalid Hren Hinj.
  intros (s & Hs & <- & Hb)%edge_step.
  destruct (renamed_steps_back s Hs) as (s' & Hs' & Hr).
  rewrite <-(rn_id _ _ _ Hr). apply edge_iff; [apply renamed_NoDup|done|].
  rewrite (rn_deps _ _ _ Hr). by apply list_elem_of_fmap_2.
Qed.

Lemma renamed_chain l' a :
  a ∈ step_ids p → chain (dependency_map p') (ρ a :: l') →
  ∃ l, l' = ρ <$> l ∧ chain (dependency_map p) (a :: l).
Proof using Hvalid Hren Hinj.
  revert a. induction l' as [|b' l' IH]; intros a Ha Hc.
  { by exists []. }
  destruct Hc as [He Hc'].
  apply renamed_edge in He as (b & -> & Hb & He); [|done].
  apply IH in Hc' as (l & -> & Hl); [|done]. exists (b :: l). done.
Qed.

Lemma chain_renamed l a :
  chain (dependency_map p) (a :: l) → chain (dependency_map p') (ρ a :: (ρ <$> l)).
Proof using Hvalid Hren Hinj.
  revert a. induction l as [|b l IH]; intros a Hc; [done|].
  destruct Hc. split; [by apply edge_renamed|by apply IH].
Qed.

Lemma renamed_depth a n :
  a ∈ step_ids p → depth_spec (dependency_map p') (ρ a) n → depth_spec (dependency_map p) a n.
Proof using Hvalid Hren Hinj.
  intros Ha [(l' & Hl' & <-) Hmax]. split.
  - apply renamed_chain in Hl' as (l & -> & Hl); [|done]. exists l. split; [done|].
    simpl. by rewrite length_fmap.
  - intros l Hl. apply chain_renamed in Hl. specialize (Hmax _ Hl). simpl in *.
    by rewrite length_fmap in Hmax.
Qed.

Lemma renamed_tc a b' :
  a ∈ step_ids p → tc (edge (dependency_map p')) (ρ a) b' →
  ∃ b, b' = ρ b ∧ b ∈ step_ids p ∧ tc (edge (dependency_map p)) a b.
Proof using Hvalid Hren Hinj.
  intros Ha Htc. remember (ρ a) as a' eqn:E. revert a E Ha.
  induction Htc as [a' b' He|a' b' c' He Htc IH]; intros a -> Ha;
    apply renamed_edge in He as (b & -> & Hb & He); try done.
  - exists b. split_and!; [done..|]. by apply tc_once.
  - destruct (IH b eq_refl Hb) as (c & -> & Hc & Htc'). exists c. split_and!; [done..|].
    by eapply tc_l.
Qed.

Lemma renamed_plan_valid : plan_valid p' allowed.
Proof using Hvalid Hren Hinj Hlim Hname.
  split; rewrite ?Hlim; try apply Hvalid.
  - intros Hnil. apply (pv_nonempty _ _ Hvalid).
    apply Forall2_length in Hren. rewrite Hnil in Hren. by apply nil_length_inv.
  - intros s' (s & Hs & Hr)%renamed_steps. destruct (pv_fields _ _ Hvalid s Hs) as (? & ? & ? & ? & ? & ?).
    destruct Hr as [Hi _ Hg Ht Hd Hto]. unfold step_fields_ok. rewrite Hi, Ht, Hd, Hto.
    split_and!; auto.
  - apply renamed_NoDup.
  - intros s' d' (s & Hs & Hr)%renamed_steps. rewrite (rn_deps _ _ _ Hr).
    intros (d & -> & Hd)%list_elem_of_fmap. rewrite renamed_ids. apply list_elem_of_fmap_2.
    by eapply (pv_deps _ _ Hvalid).
  - intros a' Htc. assert (a' ∈ step_ids p') as Ha'.
    { assert (∃ b, edge (dependency_map p') a' b) as [b (s & Hs & <- & _)%edge_step]
        by (inversion Htc; eauto). by apply step_ids_elem. }
    rewrite renamed_ids in Ha'. apply list_elem_of_fmap in Ha' as (a & -> & Ha).
    apply renamed_tc in Htc as (b & Hab & Hb & Htc); [|done].
    apply Hinj in Hab as <-; [|done..]. by apply (pv_acyclic _ _ Hvalid) in Htc.
  - intros id' l'. rewrite renamed_ids. intros (id & -> & Hid)%list_elem_of_fmap Hc.
    apply renamed_chain in Hc as (l & -> & Hc); [|done].
    pose proof (pv_depth _ _ Hvalid id l Hid Hc). simpl in *. by rewrite length_fmap.
  - intros n ids' Hnd Hids.
    assert (∃ ids, ids' = ρ <$> ids ∧ ∀ id, id ∈ ids → id ∈ step_ids p ∧
              depth_spec (dependency_map p) id n) as (ids & -> & Hin).
    { clear Hnd. induction ids' as [|id' ids' IH].
      { exists []. split; [done|set_solver]. }
      destruct IH as (ids & -> & Hin); [intros; apply Hids; set_solver|].
      destruct (Hids id') as [Hid Hd]; [set_solver|].
      rewrite renamed_ids in Hid. apply list_elem_of_fmap in Hid as (id & -> & Hid).
      exists (id :: ids). split; [done|]. intros i [->|?]%elem_of_cons; [|auto].
      split; [done|]. by apply renamed_depth. }
    rewrite length_fmap. apply (pv_parallel _ _ Hvalid n); [by eapply NoDup_fmap_1|done].
Qed.
End renaming.

(** ** The invariant of replanning *)

(** Steps depend on earlier steps only. *)
Definition in_order (p : ExecutionPlan) : Prop :=
  ∀ i s d, ep_steps p !! i = Some s → d ∈ ps_depends_on s →
    d ∈ ps_step_id <$> take i (ep_steps p).

(** No step carries an id that a later version may generate. *)
Definition fresh_ids (p : ExecutionPlan) : Prop :=
  ∀ id x k, id ∈ step_ids p → ep_plan_version p < k → id ≠ replan_id x k.

Record replannable (p : ExecutionPlan) (allowed : list string) : Prop := {
  rp_valid : plan_valid p allowed;
  rp_order : in_order p;
  rp_fresh : fresh_ids p;
}.

Definition char_v : Ascii.ascii := Ascii.ascii_of_nat 118.

Lemma replan_id_split x k : replan_id x k = (x +:+ "-replan-") +:+ String char_v (pretty k).
Proof. unfold replan_id. by rewrite string_append_assoc. Qed.

Lemma replan_id_version x y k k' : replan_id x k = replan_id y k' → k = k'.
Proof.
  rewrite !replan_id_split. intros H. apply (inj pretty).
  eapply app_last_char; [..|exact H];
    (apply no_char_pretty_Z; [done|intros d; unfold pretty_N_char; by repeat case_match]).
Qed.

Lemma replan_id_inj x y k : replan_id x k = replan_id y k → x = y.
Proof. apply string_app_inj_r. Qed.

Lemma replan_id_nonempty x k : x ≠ "" → replan_id x k ≠ "".
Proof. by destruct x. Qed.

Lemma next_version_inj ρ p a b :
  fresh_ids p → (∀ x, ρ x = x ∨ ρ x = replan_id x (ep_plan_version p + 1)) →
  a ∈ step_ids p → b ∈ step_ids p → ρ a = ρ b → a = b.
Proof.
  intros Hf Hρ Ha Hb. destruct (Hρ a) as [-> | ->], (Hρ b) as [-> | ->]; [done|..].
  - intros E. exfalso. by eapply Hf; [exact Ha|..]; [|exact E]; lia.
  - intros E. exfalso. by eapply Hf; [exact Hb|..]; [|by rewrite <-E]; lia.
  - apply replan_id_inj.
Qed.

(** A renaming that is the identity or generates ids of the next version. *)
Section next_version.
Context (ρ : string → string) (p p' : ExecutionPlan) (allowed : list string).
Hypothesis (Hp : replannable p allowed).
Hypothesis (Hren : Forall2 (renamed ρ) (ep_steps p) (ep_steps p')).
Hypothesis (Hlim : ep_graph_limits p' = ep_graph_limits p).
Hypothesis (Hver : ep_plan_version p' = ep_plan_version p + 1).
Hypothesis (Hρ : ∀ x, ρ x = x ∨ ρ x = replan_id x (ep_plan_version p + 1)).

Lemma next_replannable : replannable p' allowed.
Proof using Hp Hren Hlim Hver Hρ.
  split.
  - apply (renamed_plan_valid ρ p p' allowed); [apply Hp|done|done| |].
    { intros a b. apply next_version_inj; [apply Hp|done]. }
    intros a Ha. destruct (Hρ a) as [-> | ->]; [done|by apply replan_id_nonempty].
  - intros i s' d' Hi Hd. destruct (Forall2_lookup_r _ _ _ _ _ Hren Hi) as (s & Hs & Hr).
    rewrite (rn_deps _ _ _ Hr) in Hd. apply list_elem_of_fmap in Hd as (d & -> & Hd).
    pose proof (rp_order _ _ Hp i s d Hs Hd) as (s0 & -> & [j Hj]%list_elem_of_lookup)%list_elem_of_fmap.
    destruct (Forall2_lookup_l _ _ _ _ _ (Forall2_take _ _ _ i Hren) Hj) as (s0' & Hj' & Hr').
    rewrite <-(rn_id _ _ _ Hr'). apply list_elem_of_fmap_2. by eapply list_elem_of_lookup_2.
  - intros id x k. rewrite (renamed_ids ρ p p') by done. rewrite Hver.
    intros (a & -> & Ha)%list_elem_of_fmap Hk. destruct (Hρ a) as [-> | ->].
    + apply (rp_fresh _ _ Hp); [done|lia].
    + intros E%replan_id_version. lia.
Qed.
End next_version.

Lemma step_eq_of_id p s s' :
  NoDup (step_ids p) → s ∈ ep_steps p → s' ∈ ep_steps p → ps_step_id s = ps_step_id s' → s = s'.
Proof.
  induction (ep_steps p) as [|x l IH]; cbn [fmap list_fmap]; [set_solver|].
  intros [Hx Hnd]%NoDup_cons [->|Hs]%elem_of_cons [->|Hs']%elem_of_cons E; [done|..|by apply IH].
  - destruct Hx. rewrite E. by apply list_elem_of_fmap_2.
  - destruct Hx. rewrite <-E. by apply list_elem_of_fmap_2.
Qed.

Lemma goal_suffix g t : g ≠ "" → g +:+ t ≠ "".
Proof. by destruct g. Qed.

Lemma Forall2_fmap_r' {A B} (R : A → B → Prop) (f : A → B) l :
  (∀ x, x ∈ l → R x (f x)) → Forall2 R l (f <$> l).
Proof.
  induction l as [|x l IH]; intros H; constructor; [apply H; set_solver|].
  apply IH. set_solver.
Qed.

(** ** The two strategies as renamings *)
Definition local_renaming (failed : PlanStep) (v : Z) (x : string) : string :=
  if bool_decide (x = ps_step_id failed) then replan_id x v else x.

Lemma local_remap_renamed p allowed failed v :
  plan_valid p allowed → failed ∈ ep_steps p →
  Forall2 (renamed (local_renaming failed v)) (ep_steps p)
    (local_remap failed (replan_id (ps_step_id failed) v) <$> ep_steps p).
Proof.
  intros Hv Hf. apply Forall2_fmap_r'. intros s Hs. unfold local_remap, local_renaming.
  case_bool_decide as E.
  - apply (step_eq_of_id p) in E as ->; [|apply (pv_nodup _ _ Hv)|done|done].
    split; simpl; try done.
    + by rewrite bool_decide_eq_true_2.
    + rewrite <-(list_fmap_id (ps_depends_on failed)) at 1. apply list_fmap_ext.
      intros i d Hd%list_elem_of_lookup_2. rewrite bool_decide_eq_false_2; [done|].
      intros ->. apply (pv_acyclic _ _ Hv (ps_step_id failed)), tc_once.
      by apply edge_iff; [apply (pv_nodup _ _ Hv)|..].
    + apply goal_suffix.
  - split; simpl; try done; [by rewrite bool_decide_eq_false_2|].
    apply list_fmap_ext. intros i d _. by case_bool_decide; [subst|].
Qed.

Lemma step_id_map_lookup suffix v x :
  dlookup x (step_id_map suffix v) =
  if decide (x ∈ ps_step_id <$> suffix) then Some (replan_id x v) else None.
Proof.
  unfold step_id_map. induction suffix as [|s l IH] using rev_ind; [done|].
  rewrite foldl_app, fmap_app. cbn [foldl]. rewrite dlookup_dinsert, IH.
  repeat case_decide; subst; set_solver.
Qed.

Lemma remap_eq suffix v x :
  remap (step_id_map suffix v) x =
  if decide (x ∈ ps_step_id <$> suffix) then replan_id x v else x.
Proof. unfold remap, dget. rewrite step_id_map_lookup. by case_decide. Qed.

Lemma find_step_index_from_ok steps id k :
  id ∈ ps_step_id <$> steps →
  ∃ i s, find_step_index_from steps id k = Ok (k + i)%nat ∧ steps !! i = Some s ∧ ps_step_id s = id.
Proof.
  revert k. induction steps as [|s steps IH]; intros k; cbn [fmap list_fmap]; [set_solver|].
  intros Hid. cbn [find_step_index_from]. case_bool_decide as E.
  - exists 0%nat, s. split_and!; [f_equal; lia|done..].
  - destruct (IH (S k)) as (i & s' & H & ? & ?); [set_solver|].
    exists (S i), s'. split_and!; [rewrite H; f_equal; lia|done..].
Qed.

(** No step before index [i] depends on one at or after it. *)
Definition cut_ok (p : ExecutionPlan) (i : nat) : Prop :=
  ∀ s d, s ∈ take i (ep_steps p) → d ∈ ps_depends_on s → d ∈ ps_step_id <$> take i (ep_steps p).

Lemma in_order_cut p i : in_order p → cut_ok p i.
Proof.
  intros Ho s d [j Hj]%list_elem_of_lookup Hd.
  apply lookup_take_Some in Hj as [Hj Hlt].
  pose proof (Ho _ _ _ Hj Hd) as (s0 & -> & H0)%list_elem_of_fmap.
  apply list_elem_of_fmap_2. revert H0. rewrite !elem_of_take. intros (k & ? & ?).
  exists k. split; [done|lia].
Qed.

Lemma ids_disjoint p i x :
  NoDup (step_ids p) → x ∈ ps_step_id <$> take i (ep_steps p) →
  x ∉ ps_step_id <$> drop i (ep_steps p).
Proof.
  intros Hnd. rewrite <-(take_drop i (ep_steps p)), fmap_app in Hnd.
  apply NoDup_app in Hnd as (_ & Hd & _). apply Hd.
Qed.

Lemma rollback_remap_renamed p i v :
  NoDup (step_ids p) → cut_ok p i →
  Forall2 (renamed (remap (step_id_map (drop i (ep_steps p)) v))) (ep_steps p)
    (take i (ep_steps p) ++
     (rollback_remap (step_id_map (drop i (ep_steps p)) v) <$> drop i (ep_steps p))).
Proof.
  intros Hnd Hcut. rewrite <-(take_drop i (ep_steps p)) at 2.
  apply Forall2_app.
  - rewrite <-(list_fmap_id (take i (ep_steps p))) at 2. apply Forall2_fmap_r'.
    intros s Hs. split; try done; unfold id.
    + rewrite remap_eq, decide_False; [done|]. apply ids_disjoint; [done|].
      by apply list_elem_of_fmap_2.
    + rewrite <-(list_fmap_id (ps_depends_on s)) at 1. apply list_fmap_ext.
      intros j d Hd%list_elem_of_lookup_2. rewrite remap_eq, decide_False; [done|].
      apply ids_disjoint; [done|]. by eapply Hcut.
  - apply Forall2_fmap_r'. intros s Hs. split; try done. apply goal_suffix.
Qed.

(** The renaming a mapping list describes. *)
Definition apply_mappings (l : list StepIdMapping) (x : string) : string :=
  match find_first (λ m, bool_decide (source_step_id m = x)) l with
  | Some m => target_step_id m
  | None => x
  end.

(** What a replan that went through has done to plan [p]. *)
Record replan_ok (p : ExecutionPlan) (allowed : list string) (o : ReplanOutcome) : Prop := {
  ok_replannable : replannable (ro_plan o) allowed;
  ok_version : ep_plan_version (ro_plan o) = ep_plan_version p + 1;
  ok_session : ep_session_id (ro_plan o) = ep_session_id p;
  ok_request : ep_request_id (ro_plan o) = ep_request_id p;
  ok_limits : ep_graph_limits (ro_plan o) = ep_graph_limits p;
  ok_ids : step_ids (ro_plan o) = apply_mappings (step_id_mappings o) <$> step_ids p;
  ok_tools : ps_tool_id <$> ep_steps (ro_plan o) = ps_tool_id <$> ep_steps p;
  ok_decision : should_replan (ro_decision o) = true;
}.

Lemma Forall2_renamed_tools ρ l l' :
  Forall2 (renamed ρ) l l' → ps_tool_id <$> l' = ps_tool_id <$> l.
Proof.
  induction 1 as [|s s' l l' Hs _ IH]; [done|]. cbn [fmap list_fmap].
  by rewrite (rn_tool _ _ _ Hs), IH.
Qed.

Lemma mappings_of_list (l : list PlanStep) ρ v x :
  (x ∉ ps_step_id <$> l → ρ x = x) →
  apply_mappings ((λ s, mkStepIdMapping (ps_step_id s) (ρ (ps_step_id s)) v) <$> l) x = ρ x.
Proof.
  unfold apply_mappings. intros Hx.
  destruct (find_first _ _) as [m|] eqn:E.
  - apply find_first_Some in E as [(s & -> & _)%list_elem_of_fmap E%bool_decide_eq_true].
    simpl in *. by subst.
  - rewrite Hx; [done|]. intros (s & -> & Hs)%list_elem_of_fmap.
    rewrite find_first_None in E.
    specialize (E (mkStepIdMapping (ps_step_id s) (ρ (ps_step_id s)) v)).
    rewrite bool_decide_eq_true_2 in E by done. discriminate E.
    by apply (list_elem_of_fmap_2 (λ s, mkStepIdMapping (ps_step_id s) (ρ (ps_step_id s)) v)).
Qed.

Lemma local_replace_ok p allowed failed dec :
  replannable p allowed → failed ∈ ep_steps p → should_replan dec = true →
  replan_ok p allowed (local_replace p failed dec).
Proof.
  intros Hp Hf Hdec. pose proof (local_remap_renamed p allowed failed (ep_plan_version p + 1)
    (rp_valid _ _ Hp) Hf) as Hren.
  split; try done.
  - eapply (next_replannable _ p); [done|exact Hren|done|done|].
    intros x. unfold local_renaming. case_bool_decide; auto.
  - etrans; [apply (renamed_list_ids _ _ _ Hren)|]. apply list_fmap_ext. intros i x _. symmetry.
    rewrite <-(mappings_of_list [failed] (local_renaming failed (ep_plan_version p + 1))
      (ep_plan_version p + 1)).
    { cbn [fmap list_fmap]. unfold local_renaming at 1. by rewrite bool_decide_eq_true_2. }
    unfold local_renaming. intros Hx. rewrite bool_decide_eq_false_2; [done|set_solver].
  - by apply (Forall2_renamed_tools _ _ _ Hren).
Qed.

Lemma find_step_index_ok p s :
  s ∈ ep_steps p → NoDup (step_ids p) →
  ∃ i, find_step_index p (ps_step_id s) = Ok i ∧ ep_steps p !! i = Some s.
Proof.
  intros Hs Hnd. unfold find_step_index.
  destruct (find_step_index_from_ok (ep_steps p) (ps_step_id s) 0) as (i & s' & H & Hi & E).
  { by apply list_elem_of_fmap_2. }
  exists i. split; [done|]. rewrite Hi. f_equal.
  apply (step_eq_of_id p); [done|by eapply list_elem_of_lookup_2|done|done].
Qed.

Lemma rollback_retry_ok p allowed failed dec :
  replannable p allowed → failed ∈ ep_steps p → should_replan dec = true →
  ∃ o, rollback_retry p failed dec = Ok o ∧ replan_ok p allowed o.
Proof.
  intros Hp Hf Hdec. pose proof (pv_nodup _ _ (rp_valid _ _ Hp)) as Hnd.
  destruct (find_step_index_ok p failed Hf Hnd) as (i & Hi & _).
  unfold rollback_retry. rewrite Hi. cbn [mbind res_bind]. eexists. split; [done|].
  pose proof (rollback_remap_renamed p i (ep_plan_version p + 1) Hnd
    (in_order_cut p i (rp_order _ _ Hp))) as Hren.
  split; try done.
  - eapply (next_replannable _ p); [done|exact Hren|done|done|].
    intros x. rewrite remap_eq. case_decide; auto.
  - etrans; [apply (renamed_list_ids _ _ _ Hren)|]. apply list_fmap_ext. intros j x _. symmetry.
    apply mappings_of_list. intros Hx. by rewrite remap_eq, decide_False.
  - by apply (Forall2_renamed_tools _ _ _ Hren).
Qed.

Lemma replan_after_failure_ok repr p allowed failed error :
  replannable p allowed → failed ∈ ep_steps p →
  ∃ o, replan_after_failure repr p failed error = Ok o ∧
    if should_replan (ro_decision o) then replan_ok p allowed o
    else ro_plan o = p ∧ requires_human_handoff (ro_decision o) = true.
Proof.
  intros Hp Hf. unfold replan_after_failure, build_decision.
  case_bool_decide; [by eexists|].
  case_bool_decide; cbn.
  - eexists. split; [done|]. by apply local_replace_ok.
  - edestruct rollback_retry_ok as (o & Ho & Hok); [done|done| |]; [|exists o; split; [exact Ho|]].
    + done.
    + by rewrite (ok_decision _ _ _ Hok).
Qed.

Lemma replan_for_missing_dependency_ok p allowed id :
  replannable p allowed → id ∈ step_ids p →
  ∃ o, replan_for_missing_dependency p id = Ok o ∧ replan_ok p allowed o.
Proof.
  intros Hp (s & -> & Hs)%list_elem_of_fmap. unfold replan_for_missing_dependency, find_step.
  destruct (find_first _ _) as [s'|] eqn:E.
  - apply find_first_Some in E as [Hs' _]. cbn [mbind res_bind].
    by apply rollback_retry_ok.
  - rewrite find_first_None in E. specialize (E s Hs). by rewrite bool_decide_eq_true_2 in E.
Qed.

(** ** Plans of the keyword planner *)
Lemma build_steps_ids repr r steps :
  build_steps repr r = Ok steps →
  (∃ s, steps = [s] ∧ ps_step_id s = "step-1" ∧ ps_depends_on s = []) ∨
  (∃ s1 s2 s3, steps = [s1; s2; s3] ∧ (ps_step_id <$> steps) = ["step-1"; "step-2"; "step-3"] ∧
     ps_depends_on s1 = [] ∧ ps_depends_on s2 = [] ∧ ps_depends_on s3 = ["step-1"; "step-2"]).
Proof.
  unfold build_steps. intros H. apply bind_Ok in H as (tools & _ & H).
  case_match; [apply bind_Ok in H as (? & _ & [= <-]); left; eauto|].
  case_match; [injection H as <-; right; eauto 10|].
  case_match; [injection H as <-; left; eauto|].
  apply bind_Ok in H as (? & _ & [= <-]). left; eauto.
Qed.

Lemma no_replan_id id x k : no_char char_v id → id ≠ replan_id x k.
Proof. rewrite replan_id_split. intros H ->. by apply not_no_char in H. Qed.

Lemma create_plan_replannable repr r p allowed :
  create_plan repr r = Ok p → plan_valid p allowed → replannable p allowed.
Proof.
  intros Hc Hv. unfold create_plan, create_plan_with in Hc.
  apply bind_unit_Ok in Hc as [_ H]. apply bind_Ok in H as (steps0 & Hb & H).
  apply raise_if_bind in H as [_ H]. apply bind_Ok in H as (to & _ & H).
  apply bind_Ok in H as (steps & Hsteps & H).
  do 2 apply bind_Ok in H as (? & _ & H). apply bind_Ok in H as (v & _ & H).
  apply raise_if_bind in H as [_ H]. do 6 apply bind_Ok in H as (? & _ & H).
  apply bind_unit_Ok in H as [_ [= <-]].
  assert ((ps_step_id <$> steps) = (ps_step_id <$> steps0) ∧
          (ps_depends_on <$> steps) = (ps_depends_on <$> steps0)) as [Hids Hdeps].
  { destruct to; inv_ok; rewrite <-?list_fmap_compose; done. }
  apply build_steps_ids in Hb. split; [done|..].
  - intros i s d Hi Hd. simpl in *.
    assert ((ps_depends_on <$> steps) !! i = Some (ps_depends_on s)) as Hi' by (by rewrite list_lookup_fmap, Hi).
    rewrite fmap_take, Hids. rewrite Hdeps in Hi'. clear -Hi' Hd Hb.
    destruct Hb as [(s1 & -> & H1 & H2)|(s1 & s2 & s3 & -> & Hids & H1 & H2 & H3)].
    + destruct i; simpl in Hi'; [|done]. injection Hi' as Hi'. rewrite H2 in Hi'.
      rewrite <-Hi' in Hd. set_solver.
    + rewrite Hids. destruct i as [|[|[|]]]; simpl in Hi'; [..|done]; injection Hi' as Hi';
        rewrite <-Hi', ?H1, ?H2, ?H3 in Hd; set_solver.
  - intros id y k Hid _. apply no_replan_id. simpl in Hid. rewrite Hids in Hid.
    destruct Hb as [(s1 & -> & H1 & H2)|(s1 & s2 & s3 & -> & Hi & _)].
    + cbn [fmap list_fmap] in Hid. apply list_elem_of_singleton in Hid as ->. rewrite H1.
      repeat split; discriminate.
    + rewrite Hi in Hid. repeat (apply elem_of_cons in Hid as [->|Hid]; [repeat split; discriminate|]).
      set_solver.
Qed.

(** ** Properties *)

(** The plans that replanning may produce from [p]. *)
Inductive replans (repr : pyval → string) (p : ExecutionPlan) : ExecutionPlan → Prop :=
| replans_none : replans repr p p
| replans_failure q failed error o :
    replans repr p q → failed ∈ ep_steps q →
    replan_after_failure repr q failed error = Ok o → replans repr p (ro_plan o)
| replans_blocked q id o :
    replans repr p q → id ∈ step_ids q →
    replan_for_missing_dependency q id = Ok o → replans repr p (ro_plan o).

Lemma replans_replannable repr p q allowed :
  replannable p allowed → replans repr p q →
  replannable q allowed ∧ (ps_tool_id <$> ep_steps q) = (ps_tool_id <$> ep_steps p).
Proof.
  intros Hp. induction 1 as [|q failed error o _ [IH IHt] Hf Ho|q id o _ [IH IHt] Hid Ho]; [done|..].
  - destruct (replan_after_failure_ok repr q allowed failed error IH Hf) as (o' & Ho' & Hok).
    rewrite Ho in Ho'. injection Ho' as <-. case_match.
    + split; [apply Hok|]. rewrite <-IHt. apply Hok.
    + by destruct Hok as [-> _].
  - destruct (replan_for_missing_dependency_ok q allowed id IH Hid) as (o' & Ho' & Hok).
    rewrite Ho in Ho'. injection Ho' as <-. split; [apply Hok|]. rewrite <-IHt. apply Hok.
Qed.

(** C7: Starting from a plan of the keyword planner, any number of replans
    after failures of any step with any error, or after a blocked graph, gives
    plans that [validate_plan] accepts for the request's tools and that run the
    same tools in the same order; and the next replan never raises. *)
Theorem replans_stay_valid repr r p q :
  create_plan repr r = Ok p → replans repr p q →
  ∃ tools, tools_of r = Some tools ∧ validate_plan q tools = Ok tt ∧
    (ps_tool_id <$> ep_steps q) = (ps_tool_id <$> ep_steps p) ∧
    (∀ failed error, failed ∈ ep_steps q → is_ok (replan_after_failure repr q failed error) = true) ∧
    (∀ id, id ∈ step_ids q → is_ok (replan_for_missing_dependency q id) = true).
Proof.
  intros Hc Hq. destruct (create_plan_ok repr r p Hc) as (tools & Ht & Hv & _).
  destruct (replans_replannable repr p q tools) as [Hr Htools];
    [by eapply create_plan_replannable|done|].
  exists tools. split_and!; [done| |done|..].
  - apply validate_plan_iff; [apply (pv_nonempty _ _ (rp_valid _ _ Hr))|apply Hr].
  - intros failed error Hf.
    by destruct (replan_after_failure_ok repr q tools failed error Hr Hf) as (o & -> & _).
  - intros id Hid. by destruct (replan_for_missing_dependency_ok q tools id Hr Hid) as (o & -> & _).
Qed.

Definition demo_plan : ExecutionPlan :=
  match create_plan (λ _, "") demo_request with Ok p => p | Err _ => diamond end.

Lemma replans_stay_valid_witness :
  ∃ q, replans (λ _, "") demo_plan q ∧ (step_ids q) = ["step-1"; "step-2-replan-v2"; "step-3-replan-v2"]
    ∧ validate_plan q ["tool.search"; "tool.query_db"] = Ok tt.
Proof.
  destruct (replan_for_missing_dependency demo_plan "step-2") as [o|e] eqn:E;
    [|vm_compute in E; discriminate].
  assert (replans (λ _, "") demo_plan (ro_plan o)) as Hr.
  { eapply replans_blocked; [constructor| |exact E].
    vm_compute. repeat first [apply list_elem_of_here | apply list_elem_of_further]. }
  exists (ro_plan o). split; [exact Hr|]. split.
  { vm_compute in E. injection E as <-. reflexivity. }
  destruct (replans_stay_valid (λ _, "") demo_request demo_plan (ro_plan o)) as (tools & Ht & Hv & _);
    [vm_compute; reflexivity|exact Hr|].
  vm_compute in Ht. injection Ht as <-. exact Hv.
Defined.

(** The error code of a failed step decides what [replan_after_failure]
    does to a replannable plan: permission, schema and business-input errors
    leave the plan alone and ask for a human; transient errors rename the
    failed step only; every other code renames the failed step and all later
    ones.  A renaming replan yields a valid plan of the next version whose
    step ids are the old ones under the reported mapping. *)
Theorem replan_by_error_code repr p allowed failed error :
  replannable p allowed → failed ∈ ep_steps p →
  let code := error_code repr error in
  ∃ o i, replan_after_failure repr p failed error = Ok o ∧ ep_steps p !! i = Some failed ∧
    if bool_decide (code ∈ handoff_codes) then
      ro_plan o = p ∧ step_id_mappings o = [] ∧ requires_human_handoff (ro_decision o) = true
    else replan_ok p allowed o ∧
      (source_step_id <$> step_id_mappings o) =
        if bool_decide (code ∈ local_codes) then [ps_step_id failed]
        else ps_step_id <$> drop i (ep_steps p).
Proof.
  intros Hp Hf code. pose proof (pv_nodup _ _ (rp_valid _ _ Hp)) as Hnd.
  destruct (find_step_index_ok p failed Hf Hnd) as (i & Hi & Hlook).
  unfold replan_after_failure, build_decision. fold code.
  case_bool_decide; [by eexists _, i|]. case_bool_decide; cbn.
  - eexists _, i. split_and!; [done|done|by apply local_replace_ok|done].
  - edestruct rollback_retry_ok as (o & Ho & Hok); [done|done| |].
    2: { exists o, i. rewrite Ho. split_and!; [done..|].
         unfold rollback_retry in Ho. rewrite Hi in Ho. injection Ho as <-.
         simpl. by rewrite <-list_fmap_compose. }
    done.
Qed.

Lemma replan_by_error_code_witness :
  ∃ o, replan_after_failure (λ _, "") demo_plan
         (new_step "step-1" "collect external context" "tool.search"
            [("query", VStr "analyze the queue"); ("top_k", VInt 5)] []
            "search returns at least one item")
         [("code", VStr "tool_timeout")] = Ok o ∧
    (source_step_id <$> step_id_mappings o) = ["step-1"].
Proof.
  destruct (replan_by_error_code (λ _, "") demo_plan ["tool.search"; "tool.query_db"]
    (new_step "step-1" "collect external context" "tool.search"
            [("query", VStr "analyze the queue"); ("top_k", VInt 5)] []
            "search returns at least one item") [("code", VStr "tool_timeout")])
    as (o & i & Ho & _ & _ & Hs).
  - apply (create_plan_replannable (λ _, "") demo_request); [vm_compute; reflexivity|].
    apply validate_plan_iff; [vm_compute; discriminate|vm_compute; reflexivity].
  - vm_compute. apply list_elem_of_here.
  - exists o. split; [exact Ho|exact Hs].
Defined.

(** A rollback replan of a valid plan with fresh ids is valid exactly when
    no step before the failed one depends on the failed step or a later one:
    the ids of the suffix change, but the dependencies of the prefix are kept
    as they are. *)
Theorem rollback_valid_iff p allowed failed dec i o :
  plan_valid p allowed → fresh_ids p → ep_steps p !! i = Some failed →
  rollback_retry p failed dec = Ok o →
  plan_valid (ro_plan o) allowed ↔
  ∀ s d, s ∈ take i (ep_steps p) → d ∈ ps_depends_on s → d ∈ ps_step_id <$> take i (ep_steps p).
Proof.
  intros Hv Hfr Hi Ho. pose proof (pv_nodup _ _ Hv) as Hnd.
  destruct (find_step_index_ok p failed) as (j & Hj & Hj');
    [by eapply list_elem_of_lookup_2|done|].
  assert (j = i) as ->.
  { apply (NoDup_lookup (step_ids p) j i (ps_step_id failed) Hnd);
      rewrite list_lookup_fmap; [by rewrite Hj'|by rewrite Hi]. }
  unfold rollback_retry in Ho. rewrite Hj in Ho. injection Ho as <-. cbn [ro_plan].
  set (m := step_id_map (drop i (ep_steps p)) (ep_plan_version p + 1)). split.
  - intros Hv' s d Hs Hd.
    assert (d ∈ step_ids p) as Hold.
    { eapply (pv_deps _ _ Hv); [|done]. apply (subseteq_take i). done. }
    assert (d ∈ ps_step_id <$> (take i (ep_steps p) ++ (rollback_remap m <$> drop i (ep_steps p)))) as Hnew.
    { apply (pv_deps _ _ Hv' s); [|done]. simpl. rewrite elem_of_app. by left. }
    rewrite fmap_app, elem_of_app in Hnew. destruct Hnew as [?|Hnew]; [done|exfalso].
    apply list_elem_of_fmap in Hnew as (s' & -> & (s0 & -> & Hs0)%list_elem_of_fmap).
    simpl in Hold. unfold m in Hold. rewrite remap_eq, decide_True in Hold.
    + by eapply (Hfr _ (ps_step_id s0) (ep_plan_version p + 1)); [exact Hold|lia|].
    + by apply list_elem_of_fmap_2.
  - intros Hcut. apply (renamed_plan_valid (remap m) p); try done.
    + by apply rollback_remap_renamed.
    + intros a b. apply next_version_inj; [done|]. intros x. unfold m. rewrite remap_eq.
      case_decide; auto.
    + intros a Ha. unfold m. rewrite remap_eq. case_decide; [by apply replan_id_nonempty|done].
Qed.

(** A valid plan whose first step depends on its second. *)
Definition backward_plan : ExecutionPlan :=
  mkExecutionPlan "r" "s" "t" 1
    [new_step "report" "g" "x" [] ["fetch"] "d"; new_step "fetch" "g" "x" [] [] "d"] []
    (mkGraphLimits 2 1).

Lemma rollback_valid_iff_witness :
  plan_valid backward_plan ["x"] ∧
  ∃ o, replan_after_failure (λ _, "") backward_plan (new_step "fetch" "g" "x" [] [] "d")
         [("code", VStr "backend_bug")] = Ok o ∧
    ¬ plan_valid (ro_plan o) ["x"] ∧
    validate_plan (ro_plan o) ["x"] =
      Err (ValueError "step report depends on unknown step: fetch").
Proof.
  assert (plan_valid backward_plan ["x"]) as Hv.
  { apply validate_plan_iff; [discriminate|vm_compute; reflexivity]. }
  split; [exact Hv|].
  destruct (replan_after_failure (λ _, "") backward_plan (new_step "fetch" "g" "x" [] [] "d")
    [("code", VStr "backend_bug")]) as [o|] eqn:E; [|vm_compute in E; discriminate].
  exists o. split; [reflexivity|]. split; [|vm_compute in E; injection E as <-; vm_compute; reflexivity].
  pose proof (rollback_valid_iff backward_plan ["x"] (new_step "fetch" "g" "x" [] [] "d")
    (build_decision (λ _, "") [("code", VStr "backend_bug")] "step_failed") 1 o Hv) as H.
  destruct H as [H _].
  - intros id x k Hid _. apply no_replan_id. vm_compute in Hid.
    repeat (apply elem_of_cons in Hid as [->|Hid]; [repeat split; discriminate|]).
    inversion Hid.
  - vm_compute. reflexivity.
  - exact E.
  - intros Hv'. specialize (H Hv' (new_step "report" "g" "x" [] ["fetch"] "d") "fetch").
    assert ("fetch" ∈ ["report"]) as Hin.
    { apply H; vm_compute; apply list_elem_of_here. }
    apply list_elem_of_singleton in Hin. discriminate Hin.
Defined.
