(* ===== verification/Policy.v ===== *)
(** * Tool policy and runtime controls
    (agent-system/src/agent/policy.py and execution_context.py)

    The policy decides whether a step may call its tool; the control object
    carries the cancel flag, the timeouts and the concurrency limit of one
    execution. *)
From S2P Require Import Prelude PyFloat PyValue.
Local Open Scope Z_scope.

Record ToolPermission := mkToolPermission {
  tp_tool_id : string;
  requires_approval_token : bool;
}.

Module ToolPolicyEngine.

(** [set(v)]: the elements of an iteration, all hashable. *)
Definition py_set (v : pyval) : res (list pyval) :=
  l ← Py.iterate v;
  for_each (λ x, raise_if (negb (Py.hashable x)) (Py.unhashable x)) l ≫= λ _,
  Ok l.

Definition is_tool_allowed (permission_map : gmap string ToolPermission) (tool_id : string)
    (allowed_tools : pyval) (request : dict pyval) : res bool :=
  allowed_set ← py_set allowed_tools;
  if negb (Py.mem (VStr tool_id) allowed_set) then Ok false
  else
    match permission_map !! tool_id with
    | None => Ok true
    | Some permission =>
        if negb (requires_approval_token permission) then Ok true
        else
          token ← Py.get "approval_token" VNone (dget "metadata" (VDict []) request);
          Ok (Py.truthy token)
    end.

(** [ToolPolicyEngine.default()] *)
Definition default_map : gmap string ToolPermission :=
  list_to_map [("tool.search", mkToolPermission "tool.search" false);
               ("tool.query_db", mkToolPermission "tool.query_db" false);
               ("tool.notify", mkToolPermission "tool.notify" true)].

End ToolPolicyEngine.

Record ExecutionControl := mkExecutionControl {
  max_concurrency : Z;
  default_step_timeout_seconds : Z;
  session_timeout_seconds : Z;
  cancel_requested : bool;
  started_at : float;
}.

Module Control.

Definition request_cancel (c : ExecutionControl) : ExecutionControl :=
  mkExecutionControl (max_concurrency c) (default_step_timeout_seconds c)
    (session_timeout_seconds c) true (started_at c).

Definition is_cancelled (c : ExecutionControl) : bool := cancel_requested c.

(** [monotonic] is the clock reading taken by the call. *)
Definition is_session_timed_out (monotonic : float) (c : ExecutionControl) : bool :=
  PyFloat.ge_Z (PyFloat.sub monotonic (started_at c)) (session_timeout_seconds c).

(** [ExecutionControl()] *)
Definition default_control (monotonic : float) : ExecutionControl :=
  mkExecutionControl 2 8 60 false monotonic.

Definition at_least_one (z : Z) : Z := if z <? 1 then 1 else z.

Definition from_request (monotonic : float) (request : dict pyval) : res ExecutionControl :=
  let metadata := dget "metadata" (VDict []) request in
  let control_options :=
    match metadata with VDict m => dget "execution_control" (VDict []) m | _ => VDict [] end in
  mc ← Py.get "max_concurrency" (VInt 2) control_options ≫= Py.to_int;
  step ← Py.get "default_step_timeout_seconds" (VInt 8) control_options ≫= Py.to_int;
  session ← Py.get "session_timeout_seconds" (VInt 60) control_options ≫= Py.to_int;
  Ok (mkExecutionControl (at_least_one mc) (at_least_one step) (at_least_one session)
        false monotonic).

Lemma at_least_one_ge z : 1 ≤ at_least_one z.
Proof. unfold at_least_one. case_match; lia. Qed.

(** Whatever the request says, the limits of its control object are positive. *)
Lemma from_request_positive t r c :
  from_request t r = Ok c →
  1 ≤ max_concurrency c ∧ 1 ≤ default_step_timeout_seconds c ∧ 1 ≤ session_timeout_seconds c
  ∧ cancel_requested c = false ∧ started_at c = t.
Proof.
  unfold from_request. intros H. inv_ok. simpl. auto using at_least_one_ge.
Qed.
End Control.

(** ** What the policy admits *)
Import ToolPolicyEngine.

(** The approval token of a request's metadata. *)
Definition approval_token (request : dict pyval) : option pyval :=
  match dget "metadata" (VDict []) request with
  | VDict m => dlookup "approval_token" m
  | _ => None
  end.

Lemma py_set_Ok v l : py_set v = Ok l → Py.iterate v = Ok l.
Proof. unfold py_set. intros H. inv_ok. done. Qed.

Lemma is_tool_allowed_true pm id allowed request :
  is_tool_allowed pm id allowed request = Ok true ↔
  ∃ l, py_set allowed = Ok l ∧ VStr id ∈ l ∧
    (∀ p, pm !! id = Some p → requires_approval_token p = true →
       ∃ t, approval_token request = Some t ∧ Py.truthy t = true).
Proof.
  unfold is_tool_allowed, approval_token. rewrite bind_Ok.
  apply exist_proper. intros l. apply and_iff_compat_l.
  rewrite py_mem_str. destruct (decide (VStr id ∈ l)) as [Hin|Hin].
  2: { rewrite bool_decide_eq_false_2 by done. simpl. split; [done|]. by intros [? _]. }
  rewrite bool_decide_eq_true_2 by done. simpl. destruct (pm !! id) as [p|]; [|done].
  destruct (requires_approval_token p) eqn:Ep; simpl.
  2: { split; [|done]. intros _. split; [done|]. intros p' [= <-]. by rewrite Ep. }
  rewrite bind_Ok. split.
  - intros (t & Ht & [= Htt]). split; [done|]. intros p' [= <-] _.
    destruct (dget "metadata" (VDict []) request) as [| | | | | |m]; try discriminate Ht.
    cbn in Ht. injection Ht as Ht. unfold dget in Ht. destruct (dlookup _ m) as [t'|]; simpl in Ht; subst.
    + eauto.
    + done.
  - intros [_ H]. destruct (H p eq_refl Ep) as (t & Ht & Htt).
    destruct (dget "metadata" (VDict []) request) as [| | | | | |m]; try discriminate Ht.
    exists t. cbn. unfold dget. rewrite Ht. simpl. by rewrite Htt.
Qed.

(** ** Properties *)

(** The policy lets a tool through exactly when the request lists it and,
    if the tool is marked as needing approval, the request's metadata carries a
    truthy approval token. *)
Theorem tool_allowed_iff pm id allowed request :
  is_tool_allowed pm id allowed request = Ok true ↔
  ∃ l, py_set allowed = Ok l ∧ VStr id ∈ l ∧
    (∀ p, pm !! id = Some p → requires_approval_token p = true →
       ∃ t, approval_token request = Some t ∧ Py.truthy t = true).
Proof. apply is_tool_allowed_true. Qed.
