(* ===== verification/Context.v ===== *)
(** * Execution context (agent-system/src/agent/context.py)

    The layered context of one execution, the memory of step summaries with its
    budget, and the redaction applied to what leaves the process. *)
From S2P Require Import Prelude PyFloat PyValue.
Local Open Scope Z_scope.

Definition REDACTED_FIELDS : list string := ["api_key"; "password"; "access_token"; "ssn"; "phone"].

Record SystemContext := mkSystemContext {
  tenant_id : pyval; environment : pyval; policy_version : pyval }.
Record TaskContext := mkTaskContext {
  tc_request_id : pyval; tc_session_id : pyval; tc_user_input : pyval }.
Record ToolContext := mkToolContext {
  current_tool : string; retry_budget : Z; validated_payload : dict pyval }.
Record SessionMemory := mkSessionMemory {
  step_summaries : list (dict pyval); memory_snapshots : list (dict pyval) }.
Record ExecutionContext := mkExecutionContext {
  ec_system : SystemContext;
  ec_task : TaskContext;
  ec_tool : ToolContext;
  ec_memory : SessionMemory;
  source_map : dict pyval;
  trim_policy : dict pyval;
}.

Module ContextManager.

Definition DEFAULT_MAX_STEP_SUMMARIES : Z := 5.

(** [_redact]: dictionaries are rebuilt key by key; other values, lists
    included, are copied as they are. *)
Fixpoint redact_value (v : pyval) : pyval :=
  match v with
  | VDict d => VDict
      ((fix go (d : dict pyval) : dict pyval :=
          match d with
          | [] => []
          | (k, v) :: d =>
              (k, if bool_decide (k ∈ REDACTED_FIELDS) then VStr "***" else redact_value v) :: go d
          end) d)
  | _ => v
  end.
Definition redact_item (kv : string * pyval) : string * pyval :=
  (kv.1, if bool_decide (kv.1 ∈ REDACTED_FIELDS) then VStr "***" else redact_value kv.2).
Definition redact (payload : dict pyval) : dict pyval := redact_item <$> payload.

(** [_validate_request_fields] *)
Definition validate_request_fields (request : dict pyval) : res unit :=
  for_each (λ f, raise_if (negb (Py.truthy (dget f VNone request)))
      (ValueError ("missing required field: " +:+ f)))
    ["request_id"; "session_id"; "user_input"].

Definition build (request : dict pyval) : res ExecutionContext :=
  validate_request_fields request ≫= λ _,
  system_context ← Py.get "system" (VDict []) (dget "context" (VDict []) request);
  rid ← Py.subscript "request_id" request;
  sid ← Py.subscript "session_id" request;
  ui ← Py.subscript "user_input" request;
  tenant ← Py.get "tenant_id" (VStr "default-tenant") system_context;
  env ← Py.get "environment" (VStr "local") system_context;
  pv ← Py.get "policy_version" (VStr "v1") system_context;
  Ok (mkExecutionContext (mkSystemContext tenant env pv) (mkTaskContext rid sid ui)
        (mkToolContext "" 1 []) (mkSessionMemory [] [])
        [("request_id", VStr "request.request_id");
         ("session_id", VStr "request.session_id");
         ("user_input", VStr "request.user_input");
         ("tenant_id", VStr "request.context.system.tenant_id")]
        [("max_step_summaries", VInt DEFAULT_MAX_STEP_SUMMARIES)]).

Definition trim_for_tool (c : ExecutionContext) (tool_id : string) : dict pyval :=
  let trimmed_memory := slice_from (- DEFAULT_MAX_STEP_SUMMARIES) (step_summaries (ec_memory c)) in
  [("task", VDict [("request_id", tc_request_id (ec_task c));
                   ("session_id", tc_session_id (ec_task c));
                   ("user_input", tc_user_input (ec_task c))]);
   ("system", VDict [("tenant_id", tenant_id (ec_system c));
                     ("environment", environment (ec_system c));
                     ("policy_version", policy_version (ec_system c))]);
   ("tool", VDict [("tool_id", VStr tool_id); ("retry_budget", VInt (retry_budget (ec_tool c)))]);
   ("memory", VList (VDict ∘ redact <$> trimmed_memory));
   ("source_map", VDict (source_map c));
   ("trim_policy", VDict (trim_policy c))].

Definition set_summaries (l : list (dict pyval)) (c : ExecutionContext) : ExecutionContext :=
  mkExecutionContext (ec_system c) (ec_task c) (ec_tool c)
    (mkSessionMemory l (memory_snapshots (ec_memory c))) (source_map c) (trim_policy c).

(** [if len(l) > max_items: l = l[-max_items:]]; a slice bound is an integer. *)
Definition keep_last (max_items : pyval) (l : list (dict pyval)) : res (list (dict pyval)) :=
  match Py.num max_items with
  | Some (inl n) => Ok (if Z.of_nat (length l) >? n then slice_from (- n) l else l)
  | Some (inr f) =>
      if PyFloat.lt_Z f (Z.of_nat (length l)) then
        Err (TypeError "slice indices must be integers or None or have an __index__ method")
      else Ok l
  | None => Err (TypeError ("'>' not supported between instances of 'int' and '"
                            +:+ Py.type_name max_items +:+ "'"))
  end.

Definition append_step_summary (summary : dict pyval) : st ExecutionContext unit := λ c,
  let c' := set_summaries (step_summaries (ec_memory c) ++ [redact summary]) c in
  let max_items :=
    dget "max_step_summaries" (VInt DEFAULT_MAX_STEP_SUMMARIES) (trim_policy c) in
  match keep_last max_items (step_summaries (ec_memory c')) with
  | Ok l => (Ok tt, set_summaries l c')
  | Err e => (Err e, c')
  end.

End ContextManager.
Import ContextManager.

(** ** Redaction *)

(** A sensitive field with its value, reached through dictionaries only. *)
Inductive exposes : pyval → string → pyval → Prop :=
| exposes_here d k v : (k, v) ∈ d → k ∈ REDACTED_FIELDS → exposes (VDict d) k v
| exposes_below d k0 v0 k v : (k0, v0) ∈ d → exposes v0 k v → exposes (VDict d) k v.

Lemma redact_value_dict d : redact_value (VDict d) = VDict (redact d).
Proof.
  cbn [redact_value]. f_equal. induction d as [|[k v] d IH]; [done|].
  unfold redact. cbn [fmap list_fmap]. f_equal. apply IH.
Qed.

Lemma redact_exposes v : ∀ k x, exposes (redact_value v) k x → x = VStr "***".
Proof.
  induction v as [| | | | |l _|d IH] using pyval_ind'; intros k x H; try by inversion H.
  rewrite redact_value_dict in H. rewrite Forall_forall in IH.
  inversion H as [? ? ? Hin Hk|? k0 v0 ? ? Hin Hex]; subst;
    unfold redact in Hin; apply list_elem_of_fmap in Hin as ([k' v'] & Heq & Hd);
    injection Heq as -> ->; cbn in *.
  - by rewrite bool_decide_eq_true_2.
  - case_bool_decide; [by inversion Hex|]. by eapply (IH (k', v')).
Qed.

Lemma redact_value_idemp v : redact_value (redact_value v) = redact_value v.
Proof.
  induction v as [| | | | |l _|d IH] using pyval_ind'; try done.
  rewrite !redact_value_dict. f_equal. unfold redact. rewrite <-list_fmap_compose.
  apply list_fmap_ext. intros i [k v] Hi%list_elem_of_lookup_2. unfold redact_item; cbn.
  case_bool_decide; [done|]. rewrite Forall_forall in IH. f_equal. exact (IH (k, v) Hi).
Qed.

Lemma redact_idemp d : redact (redact d) = redact d.
Proof.
  pose proof (redact_value_idemp (VDict d)) as H. rewrite !redact_value_dict in H. by injection H.
Qed.

(** ** The memory budget *)
Lemma slice_from_app {A} (n : nat) (l k : list A) :
  n ≠ 0%nat →
  slice_from (- Z.of_nat n) (slice_from (- Z.of_nat n) l ++ k) =
  slice_from (- Z.of_nat n) (l ++ k).
Proof.
  intros Hn. rewrite !slice_from_last by done. rewrite !length_app, length_drop.
  rewrite !drop_app, drop_drop, length_drop. f_equal; f_equal; lia.
Qed.

Definition append_all (l : list (dict pyval)) (c : ExecutionContext) : res unit * ExecutionContext :=
  st_for append_step_summary l c.

Lemma append_step_summary_eq c s :
  trim_policy c = [("max_step_summaries", VInt DEFAULT_MAX_STEP_SUMMARIES)] →
  append_step_summary s c =
  (Ok tt, set_summaries
     (slice_from (-5) (step_summaries (ec_memory c) ++ [redact s])) c).
Proof.
  intros Ht. unfold append_step_summary. rewrite Ht.
  change (dget _ _ _) with (VInt 5). unfold keep_last. cbn [Py.num].
  change (step_summaries (ec_memory (set_summaries ?l c))) with l.
  set (l := _ ++ [redact s]). f_equal.
  destruct (Z.gtb_spec (Z.of_nat (length l)) 5); [done|].
  rewrite (slice_from_last 5) by done. replace (_ - 5)%nat with 0%nat by lia. done.
Qed.

Lemma append_all_eq l : ∀ c,
  trim_policy c = [("max_step_summaries", VInt DEFAULT_MAX_STEP_SUMMARIES)] →
  (length (step_summaries (ec_memory c)) ≤ 5)%nat →
  append_all l c =
  (Ok tt, set_summaries (slice_from (-5) (step_summaries (ec_memory c) ++ (redact <$> l))) c).
Proof.
  unfold append_all. induction l as [|s l IH]; intros c Ht Hl.
  - cbn. rewrite app_nil_r, (slice_from_last 5) by done.
    replace (_ - 5)%nat with 0%nat by lia. by destruct c as [? ? ? [] ? ?].
  - cbn [st_for]. unfold mbind, st_bind. rewrite append_step_summary_eq by done.
    rewrite IH; [|done|cbn; rewrite (length_slice_from_last 5) by done; lia].
    f_equal. unfold set_summaries; cbn [ec_memory step_summaries ec_system ec_task ec_tool
      memory_snapshots source_map trim_policy]. f_equal. f_equal.
    etrans; [apply (slice_from_app 5); done|]. f_equal. by rewrite <-app_assoc.
Qed.

Lemma build_trim_policy r c :
  build r = Ok c →
  trim_policy c = [("max_step_summaries", VInt DEFAULT_MAX_STEP_SUMMARIES)] ∧
  step_summaries (ec_memory c) = [].
Proof. unfold build. intros H. inv_ok. done. Qed.

(** ** Properties *)

(** The memory of an execution is the redacted window of the last five
    step summaries: appending any history of summaries to a fresh context
    never fails and leaves exactly its last five entries, redacted, and what
    [trim_for_tool] hands to a tool is the same window. *)
Theorem memory_window r c history :
  build r = Ok c →
  ∃ c', append_all history c = (Ok tt, c') ∧
    step_summaries (ec_memory c') = redact <$> slice_from (-5) history ∧
    (length (step_summaries (ec_memory c')) ≤ 5)%nat ∧
    ∀ tool_id, dlookup "memory" (trim_for_tool c' tool_id) =
      Some (VList (VDict ∘ redact <$> slice_from (-5) history)).
Proof.
  intros [Ht Hnil]%build_trim_policy.
  rewrite append_all_eq by (rewrite ?Hnil; simpl; auto with lia).
  eexists. split; [done|]. cbn [set_summaries ec_memory step_summaries].
  rewrite Hnil. cbn [app].
  assert (slice_from (-5) (redact <$> history) = redact <$> slice_from (-5) history) as ->.
  { rewrite !(slice_from_last 5), length_fmap by done. by rewrite fmap_drop. }
  split_and!; [done| |].
  - rewrite length_fmap, (length_slice_from_last 5) by done. lia.
  - intros tool_id. cbn -[Z.opp DEFAULT_MAX_STEP_SUMMARIES]. f_equal. f_equal. change (- DEFAULT_MAX_STEP_SUMMARIES) with (-5).
    assert (slice_from (-5) (redact <$> slice_from (-5) history) =
            redact <$> slice_from (-5) history) as ->.
    { rewrite (slice_from_last 5 (redact <$> _)), length_fmap by done.
      rewrite (length_slice_from_last 5) by done. by replace (_ - 5)%nat with 0%nat by lia. }
    rewrite <-list_fmap_compose. apply list_fmap_ext. intros i d _. cbn. by rewrite redact_idemp.
Qed.

Definition demo_context_request : dict pyval :=
  [("request_id", VStr "r1"); ("session_id", VStr "s1"); ("user_input", VStr "hi")].

Lemma memory_window_witness :
  ∃ c c', build demo_context_request = Ok c ∧
    append_all [[("step_id", VStr "a"); ("password", VStr "x")]] c = (Ok tt, c') ∧
    step_summaries (ec_memory c') = [[("step_id", VStr "a"); ("password", VStr "***")]].
Proof.
  destruct (build demo_context_request) as [c|] eqn:E; [|vm_compute in E; discriminate].
  destruct (memory_window demo_context_request c [[("step_id", VStr "a"); ("password", VStr "x")]] E)
    as (c' & Hc & Hs & _).
  exists c, c'. split; [reflexivity|]. split; [exact Hc|]. rewrite Hs. vm_compute. reflexivity.
Defined.

(** Redaction is complete along nested dictionaries and idempotent: every
    sensitive field that can be reached from a redacted payload through
    dictionaries holds the mask, and redacting twice is redacting once. *)
Theorem redaction_masks (payload : dict pyval) :
  (∀ k v, exposes (VDict (redact payload)) k v → v = VStr "***") ∧
  redact (redact payload) = redact payload ∧
  dkeys (redact payload) = dkeys payload.
Proof.
  split_and!.
  - rewrite <-redact_value_dict. apply redact_exposes.
  - apply redact_idemp.
  - unfold redact, dkeys. rewrite <-list_fmap_compose. by apply list_fmap_ext.
Qed.

(** Redaction stops at lists: a dictionary inside a list keeps its sensitive
    fields, although the docstring says the keys are redacted recursively. *)
Lemma redaction_misses_lists k v :
  redact [("items", VList [VDict [(k, v)]])] = [("items", VList [VDict [(k, v)]])].
Proof. reflexivity. Qed.
