(* ===== verification/Contract.v ===== *)
(** * Contract validation (agent-system/src/gateway/validator.py)

    [ContractValidator] checks a value against a JSON-Schema subset.  A schema
    is a dictionary as parsed from disk; the checks read its keywords with
    [get] and raise on a schema of the wrong shape, as the code does.  The
    validator collects every violation before it raises.

    [repr] is the interpreter's text of a value in messages, [disk] the parsed
    content of the file at a path under the contracts root. *)
From S2P Require Import Prelude PyFloat PyValue.
Local Open Scope Z_scope.

Module ContractValidator.

(** [_is_type]; a type name that is not a string matches nothing. *)
Definition is_type (value : pyval) (json_type : pyval) : bool :=
  match json_type with
  | VStr t =>
      if bool_decide (t = "null") then match value with VNone => true | _ => false end
      else if bool_decide (t = "object") then match value with VDict _ => true | _ => false end
      else if bool_decide (t = "array") then match value with VList _ => true | _ => false end
      else if bool_decide (t = "string") then match value with VStr _ => true | _ => false end
      else if bool_decide (t = "boolean") then match value with VBool _ => true | _ => false end
      else if bool_decide (t = "integer") then match value with VInt _ => true | _ => false end
      else if bool_decide (t = "number") then
        match value with VInt _ | VFloat _ => true | _ => false end
      else false
  | _ => false
  end.

Section validator.
Context (repr : pyval → string).
Local Abbreviation to_str := (Py.to_str repr).

(** A check appends to the error list or raises. *)
Definition check : Type := list string → res (list string).

Definition skip : check := Ok.
Definition report (message : string) : check := λ errors, Ok (errors ++ [message]).
Definition and_then (a b : check) : check := λ errors, errors' ← a errors; b errors'.
Fixpoint for_all {A} (f : A → check) (l : list A) : check :=
  match l with
  | [] => skip
  | x :: l => and_then (f x) (for_all f l)
  end.

(** [bound = schema.get(key); if bound is not None and exceeds(bound): report]. *)
Definition check_bound (schema : pyval) (key : string) (exceeds : pyval → res bool)
    (message : pyval → string) : check := λ errors,
  bound ← Py.get key VNone schema;
  match bound with
  | VNone => Ok errors
  | _ => exceeds bound ≫= λ b : bool, Ok (if b then errors ++ [message bound] else errors)
  end.

(** The checks of the children of a value: fields of a dictionary by name,
    elements of a list by position. *)
Definition node_check : Type := pyval → string → check.

(** [_validate_object] *)
Definition validate_object (schema : pyval) (value : dict pyval)
    (children : dict node_check) (path : string) : check := λ errors,
  properties ← Py.get "properties" (VDict []) schema;
  required_fields ← Py.get "required" (VList []) schema;
  required ← Py.iterate required_fields;
  errors ← for_all (λ f errors,
      Py.contains f (VDict value) ≫= λ present : bool,
      Ok (if present then errors
          else errors ++ [path +:+ ": missing required field " +:+ to_str f])) required errors;
  additional ← Py.get "additionalProperties" VNone schema;
  errors ← (if bool_decide (additional = VBool false) then
      for_all (λ k errors,
        Py.contains (VStr k) properties ≫= λ known : bool,
        Ok (if known then errors
            else errors ++ [path +:+ ": unexpected field " +:+ k])) (dkeys value) errors
    else Ok errors);
  match properties with
  | VDict props =>
      for_all (λ '(field_name, property_schema),
        match dlookup field_name children with
        | None => skip
        | Some validate => validate property_schema (path +:+ "." +:+ field_name)
        end) props errors
  | _ => Err (AttributeError (Py.type_name properties +:+ " object has no attribute 'items'"))
  end.

(** [enumerate(value)] *)
Fixpoint validate_items (item_schema : pyval) (items : list node_check) (index : nat)
    (path : string) : check :=
  match items with
  | [] => skip
  | validate :: items =>
      and_then (validate item_schema (path +:+ "[" +:+ pretty index +:+ "]"))
        (validate_items item_schema items (S index) path)
  end.

Definition length_is (n : nat) : string := ": length " +:+ pretty n.

(** [_validate_array] *)
Definition validate_array (schema : pyval) (items : list node_check) (path : string) : check :=
  let n := inl (Z.of_nat (length items)) in
  and_then (check_bound schema "minItems" (Py.num_lt n)
    (λ b, path +:+ length_is (length items) +:+ " < minItems " +:+ to_str b))
  (and_then (check_bound schema "maxItems" (Py.num_gt n)
    (λ b, path +:+ length_is (length items) +:+ " > maxItems " +:+ to_str b))
  (λ errors,
    item_schema ← Py.get "items" VNone schema;
    match item_schema with
    | VNone => Ok errors
    | _ => validate_items item_schema items 0 path errors
    end)).

(** [_validate_string] *)
Definition validate_string (schema : pyval) (value : string) (path : string) : check :=
  let n := inl (Z.of_nat (String.length value)) in
  and_then (check_bound schema "minLength" (Py.num_lt n)
    (λ b, path +:+ length_is (String.length value) +:+ " < minLength " +:+ to_str b))
  (check_bound schema "maxLength" (Py.num_gt n)
    (λ b, path +:+ length_is (String.length value) +:+ " > maxLength " +:+ to_str b)).

(** [_validate_number] *)
Definition validate_number (schema : pyval) (value : pyval) (n : Z + float) (path : string)
    : check :=
  and_then (check_bound schema "minimum" (Py.num_lt n)
    (λ b, path +:+ ": value " +:+ to_str value +:+ " < minimum " +:+ to_str b))
  (check_bound schema "maximum" (Py.num_gt n)
    (λ b, path +:+ ": value " +:+ to_str value +:+ " > maximum " +:+ to_str b)).

(** The [type] keyword: [None] when the value has one of the listed types. *)
Definition type_error (schema value : pyval) : res (option pyval) :=
  schema_types ← Py.get "type" VNone schema;
  match schema_types with
  | VNone => Ok None
  | _ =>
      let types := match schema_types with VStr _ => VList [schema_types] | t => t end in
      l ← Py.iterate types;
      Ok (if existsb (is_type value) l then None else Some types)
  end.

(** The [enum] keyword. *)
Definition check_enum (schema value : pyval) (path : string) : check :=
  check_bound schema "enum" (λ enum, negb <$> Py.contains value enum)
    (λ enum, path +:+ ": value " +:+ repr value +:+ " not in enum " +:+ to_str enum).

(** [_validate_node], by recursion on the value. *)
Fixpoint validate_node (value : pyval) : node_check := λ schema path errors,
  bad_type ← type_error schema value;
  match bad_type with
  | Some types =>
      report (path +:+ ": expected type " +:+ to_str types +:+ ", got "
              +:+ Py.type_name value) errors
  | None =>
      errors ← check_enum schema value path errors;
      match value with
      | VDict d =>
          validate_object schema d
            ((fix go (d : dict pyval) : dict node_check :=
                match d with
                | [] => []
                | (k, v) :: d => (k, validate_node v) :: go d
                end) d) path errors
      | VList l =>
          validate_array schema
            ((fix go (l : list pyval) : list node_check :=
                match l with
                | [] => []
                | v :: l => validate_node v :: go l
                end) l) path errors
      | VStr s => validate_string schema s path errors
      | VInt z => validate_number schema value (inl z) path errors
      | VFloat f => validate_number schema value (inr f) path errors
      | VNone | VBool _ => Ok errors
      end
  end.

(** [validate] for a loaded schema. *)
Definition validate_value (schema payload : pyval) : res unit :=
  errors ← validate_node payload schema "$" [];
  raise_if (bool_decide (errors ≠ [])) (ContractValidationError errors).

(** ** Loading with the cache *)
Context (disk : string → res pyval).

Definition load_schema (path : string) : st (gmap string pyval) pyval := λ cache,
  match cache !! path with
  | Some schema => (Ok schema, cache)
  | None =>
      match disk path with
      | Ok schema => (Ok schema, <[path := schema]> cache)
      | Err e => (Err e, cache)
      end
  end.

Definition validate (schema_path : string) (payload : pyval) : st (gmap string pyval) unit :=
  schema ← load_schema schema_path; st_lift (validate_value schema payload).

Definition validate_request (payload : pyval) : st (gmap string pyval) unit :=
  validate "agent-request.schema.json" payload.
Definition validate_response (payload : pyval) : st (gmap string pyval) unit :=
  validate "agent-response.schema.json" payload.

(** [validate] with every file read afresh. *)
Definition validate_uncached (schema_path : string) (payload : pyval) : res unit :=
  schema ← disk schema_path; validate_value schema payload.

(** The cache only holds what is on disk. *)
Definition coherent (cache : gmap string pyval) : Prop :=
  ∀ p s, cache !! p = Some s → disk p = Ok s.

Lemma validate_coherent path payload cache :
  coherent cache →
  (validate path payload cache).1 = validate_uncached path payload ∧
  coherent (validate path payload cache).2.
Proof.
  intros Hc. unfold validate, validate_uncached, load_schema, mbind, st_bind, res_bind.
  destruct (cache !! path) as [s|] eqn:E; [by rewrite (Hc _ _ E)|].
  destruct (disk path) as [s|e] eqn:Ed; [|done]. split; [done|].
  intros p' s'. simpl. rewrite lookup_insert. case_decide; [|apply Hc]. naive_solver.
Qed.
End validator.
End ContractValidator.
