(* ===== verification/ContractFacts.v ===== *)
(** * What contract validation decides

    For a schema whose keywords have the right shapes ([schema_wf], which
    evaluates to [true] on the contract files of the repository), validation
    never raises anything but the list of violations, and raises nothing
    exactly when the value conforms to the schema. *)
From S2P Require Import Prelude PyFloat PyValue Contract.
Import ContractValidator.
Local Open Scope Z_scope.

(** ** Keywords of a schema *)
Definition kw (k : string) (s : pyval) : pyval :=
  match s with VDict d => dget k VNone d | _ => VNone end.
Definition items_of (v : pyval) : list pyval := match v with VList l => l | _ => [] end.
Definition fields_of (v : pyval) : dict pyval := match v with VDict d => d | _ => [] end.

Definition is_str (v : pyval) : bool := match v with VStr _ => true | _ => false end.
Definition is_none (v : pyval) : bool := match v with VNone => true | _ => false end.
Definition strs_or_none (v : pyval) : bool :=
  match v with VNone => true | VList l => forallb is_str l | _ => false end.
Definition bound_ok (v : pyval) : bool :=
  is_none v || bool_decide (is_Some (Py.num v)).

Definition bound_keywords : list string :=
  ["minItems"; "maxItems"; "minLength"; "maxLength"; "minimum"; "maximum"].

(** Keywords that do not hold schemas. *)
Definition keywords_wf (s : pyval) : bool :=
  (is_str (kw "type" s) || strs_or_none (kw "type" s)) &&
  match kw "enum" s with VNone | VList _ => true | _ => false end &&
  match kw "required" s with VNone => true | v => strs_or_none v end &&
  forallb (λ k, bound_ok (kw k s)) bound_keywords.

(** The key is absent or not [null], so that [get] with a default answers the
    default or a value of the right shape. *)
Definition absent_or (p : pyval → bool) (k : string) (s : pyval) : bool :=
  match s with
  | VDict d => match dlookup k d with None => true | Some v => p v end
  | _ => false
  end.

Fixpoint schema_wf (s : pyval) : bool :=
  match s with
  | VDict d =>
      keywords_wf s &&
      absent_or (λ v, match v with VList _ => true | _ => false end) "required" s &&
      (fix go (d : dict pyval) : bool :=
         match d with
         | [] => true
         | (k, v) :: d =>
             (if bool_decide (k = "properties") then
                match v with
                | VDict ps =>
                    (fix all (ps : dict pyval) : bool :=
                       match ps with
                       | [] => true
                       | (_, s') :: ps => schema_wf s' && all ps
                       end) ps
                | _ => false
                end
              else if bool_decide (k = "items") then schema_wf v
              else true) && go d
         end) d
  | _ => false
  end.

(** ** Conformance *)
Definition at_least (n : Z + float) (bound : pyval) : Prop :=
  ∀ y, Py.num bound = Some y → Py.num_compare n y ≠ Some Lt.
Definition at_most (n : Z + float) (bound : pyval) : Prop :=
  ∀ y, Py.num bound = Some y → Py.num_compare n y ≠ Some Gt.
Definition size_of (n : nat) : Z + float := inl (Z.of_nat n).

Definition type_ok (s v : pyval) : Prop :=
  match kw "type" s with
  | VNone => True
  | VStr t => is_type v (VStr t) = true
  | t => ∃ x, x ∈ items_of t ∧ is_type v x = true
  end.
Definition enum_ok (s v : pyval) : Prop :=
  kw "enum" s ≠ VNone → Py.mem v (items_of (kw "enum" s)) = true.

Inductive conforms : pyval → pyval → Prop :=
| conforms_intro s v :
    type_ok s v → enum_ok s v →
    (∀ d f, v = VDict d → VStr f ∈ items_of (kw "required" s) → f ∈ dkeys d) →
    (∀ d k, v = VDict d → kw "additionalProperties" s = VBool false →
       k ∈ dkeys d → k ∈ dkeys (fields_of (kw "properties" s))) →
    (∀ d k s' x, v = VDict d → (k, s') ∈ fields_of (kw "properties" s) →
       dlookup k d = Some x → conforms s' x) →
    (∀ l, v = VList l → at_least (size_of (length l)) (kw "minItems" s) ∧
       at_most (size_of (length l)) (kw "maxItems" s)) →
    (∀ l x, v = VList l → kw "items" s ≠ VNone → x ∈ l → conforms (kw "items" s) x) →
    (∀ t, v = VStr t → at_least (size_of (String.length t)) (kw "minLength" s) ∧
       at_most (size_of (String.length t)) (kw "maxLength" s)) →
    (∀ n, Py.num v = Some n → (∀ b, v ≠ VBool b) →
       at_least n (kw "minimum" s) ∧ at_most n (kw "maximum" s)) →
    conforms s v.

(** ** Checks that decide a proposition *)
Definition decides (c : check) (P : Prop) : Prop :=
  ∃ new, (∀ errors, c errors = Ok (errors ++ new)) ∧ (new = [] ↔ P).

Lemma decides_skip : decides skip True.
Proof. exists []. split; [|done]. intros. by rewrite app_nil_r. Qed.

Lemma decides_report m : decides (report m) False.
Proof. by exists [m]. Qed.

Lemma decides_and_then a b P Q : decides a P → decides b Q → decides (and_then a b) (P ∧ Q).
Proof.
  intros (n1 & H1 & HP) (n2 & H2 & HQ). exists (n1 ++ n2). split.
  - intros errors. unfold and_then. rewrite H1. simpl. by rewrite H2, app_assoc.
  - rewrite <-HP, <-HQ. destruct n1, n2; naive_solver.
Qed.

Lemma decides_iff c P Q : decides c P → (P ↔ Q) → decides c Q.
Proof. intros (n & H & HP) HQ. exists n. split; [done|]. by rewrite HP. Qed.

Lemma decides_ext c c' P : (∀ errors, c errors = c' errors) → decides c P → decides c' P.
Proof. intros E (n & H & HP). exists n. split; [|done]. intros. by rewrite <-E. Qed.

Lemma decides_for_all {A} (f : A → check) (P : A → Prop) l :
  (∀ x, x ∈ l → decides (f x) (P x)) → decides (for_all f l) (∀ x, x ∈ l → P x).
Proof.
  induction l as [|x l IH]; intros H; cbn [for_all].
  - eapply decides_iff; [apply decides_skip|]. set_solver.
  - eapply decides_iff; [apply decides_and_then; [apply H|apply IH; intros; apply H]; set_solver|].
    set_solver.
Qed.

Lemma decides_if (b : bool) (m : list string → string) (P : Prop) :
  (b = true ↔ P) → (∀ e e', m e = m e') → decides (λ errors, Ok (if b then errors else errors ++ [m errors])) P.
Proof.
  intros Hb Hm. exists (if b then [] else [m []]). split.
  - intros errors. destruct b; [by rewrite app_nil_r|]. by rewrite (Hm errors []).
  - rewrite <-Hb. by destruct b.
Qed.

(** ** The keywords one by one *)
Lemma get_kw k dflt d : Py.get k dflt (VDict d) = Ok (dget k dflt d).
Proof. done. Qed.

Lemma check_bound_decides d k exceeds msg P :
  (kw k (VDict d) = VNone → P) →
  (kw k (VDict d) ≠ VNone → ∃ b, exceeds (kw k (VDict d)) = Ok b ∧ (b = false ↔ P)) →
  decides (check_bound (VDict d) k exceeds msg) P.
Proof.
  intros H0 H1. unfold check_bound. rewrite get_kw. cbn [mbind res_bind].
  change (dget k VNone d) with (kw k (VDict d)).
  destruct (decide (kw k (VDict d) = VNone)) as [E|E].
  { rewrite E. exists []. split; [|naive_solver]. intros. by rewrite app_nil_r. }
  destruct (H1 E) as (b & Hb & HP). rewrite Hb. cbn [mbind res_bind].
  exists (if b then [msg (kw k (VDict d))] else []). split.
  - intros errors. destruct (kw k (VDict d)); try done; by destruct b; rewrite ?app_nil_r.
  - rewrite <-HP. by destruct b.
Qed.

Lemma lower_bound_decides d k n msg :
  bound_ok (kw k (VDict d)) = true →
  decides (check_bound (VDict d) k (Py.num_lt n) msg) (at_least n (kw k (VDict d))).
Proof.
  intros Hb. apply check_bound_decides.
  - intros ->. by intros y.
  - unfold bound_ok in Hb. intros Hne. apply orb_true_iff in Hb as [Hb|[y Hy]%bool_decide_eq_true].
    { by destruct (kw k (VDict d)). }
    unfold Py.num_lt. rewrite Hy. eexists. split; [done|]. unfold at_least. rewrite Hy.
    split; [|intros H; specialize (H y eq_refl); by destruct (Py.num_compare n y) as [[]|]].
    intros H y' [= <-]. by destruct (Py.num_compare n y) as [[]|].
Qed.

Lemma upper_bound_decides d k n msg :
  bound_ok (kw k (VDict d)) = true →
  decides (check_bound (VDict d) k (Py.num_gt n) msg) (at_most n (kw k (VDict d))).
Proof.
  intros Hb. apply check_bound_decides.
  - intros ->. by intros y.
  - unfold bound_ok in Hb. intros Hne. apply orb_true_iff in Hb as [Hb|[y Hy]%bool_decide_eq_true].
    { by destruct (kw k (VDict d)). }
    unfold Py.num_gt. rewrite Hy. eexists. split; [done|]. unfold at_most. rewrite Hy.
    split; [|intros H; specialize (H y eq_refl); by destruct (Py.num_compare n y) as [[]|]].
    intros H y' [= <-]. by destruct (Py.num_compare n y) as [[]|].
Qed.

Section checks.
Context (repr : pyval → string) (d : dict pyval).
Local Abbreviation s := (VDict d).
Hypothesis (Hkw : keywords_wf s = true).

Lemma keyword_bound k : k ∈ bound_keywords → bound_ok (kw k s) = true.
Proof using Hkw.
  intros Hk. unfold keywords_wf in Hkw. rewrite !andb_true_iff in Hkw.
  destruct Hkw as [_ H]. rewrite forallb_forall in H. by apply H, list_elem_of_In.
Qed.

Lemma type_error_ok v :
  ∃ r, type_error s v = Ok r ∧ (r = None ↔ type_ok s v).
Proof using Hkw.
  unfold keywords_wf in Hkw. rewrite !andb_true_iff in Hkw. destruct Hkw as [[[Ht _] _] _].
  unfold type_error, type_ok. rewrite get_kw. cbn [mbind res_bind].
  change (dget "type" VNone d) with (kw "type" s). destruct (kw "type" s) as [| | | |t|l|] eqn:E; try done;
    cbn [mbind res_bind Py.iterate existsb items_of].
  - by exists None.
  - eexists. split; [done|]. rewrite orb_false_r. by destruct (is_type v (VStr t)).
  - eexists. split; [done|]. destruct (existsb (is_type v) l) eqn:Ex.
    + split; [|done]. intros _. apply existsb_exists in Ex as (x & Hx & ?).
      exists x. by rewrite list_elem_of_In.
    + split; [done|]. intros (x & Hx & Hv). rewrite list_elem_of_In in Hx.
      rewrite <-not_true_iff_false in Ex. destruct Ex. apply existsb_exists. eauto.
Qed.

Lemma check_enum_decides v path : decides (check_enum repr s v path) (enum_ok s v).
Proof using Hkw.
  unfold keywords_wf in Hkw. rewrite !andb_true_iff in Hkw. destruct Hkw as [[[_ He] _] _].
  apply check_bound_decides; unfold enum_ok.
  - intros ->. done.
  - intros Hne. destruct (kw "enum" s) as [| | | | |l|]; try done. cbn.
    exists (negb (Py.mem v l)). split; [done|]. rewrite negb_false_iff. naive_solver.
Qed.

Lemma validate_string_decides t path :
  decides (validate_string repr s t path)
    (at_least (size_of (String.length t)) (kw "minLength" s) ∧
     at_most (size_of (String.length t)) (kw "maxLength" s)).
Proof using Hkw.
  apply decides_and_then; [apply lower_bound_decides|apply upper_bound_decides];
    apply keyword_bound; set_solver.
Qed.

Lemma validate_number_decides v n path :
  decides (validate_number repr s v n path)
    (at_least n (kw "minimum" s) ∧ at_most n (kw "maximum" s)).
Proof using Hkw.
  apply decides_and_then; [apply lower_bound_decides|apply upper_bound_decides];
    apply keyword_bound; set_solver.
Qed.

Lemma validate_items_decides sch (items : list node_check) (P : nat → Prop) :
  (∀ i c, items !! i = Some c → ∀ path, decides (c sch path) (P i)) →
  ∀ k path, decides (validate_items sch items k path) (∀ i, (i < length items)%nat → P i).
Proof using.
  revert P. induction items as [|c items IH]; intros P Hc k path; cbn [validate_items length].
  { eapply decides_iff; [apply decides_skip|]. split; [lia|done]. }
  eapply decides_iff.
  { apply decides_and_then; [apply (Hc 0%nat c eq_refl)|].
    apply (IH (λ i, P (S i))). intros i c' Hi. by apply (Hc (S i)). }
  split.
  - intros [H0 HS] [|i] Hi; [done|]. apply HS. lia.
  - intros H. split; [apply H; lia|]. intros i Hi. apply H. lia.
Qed.

Lemma validate_array_decides (items : list node_check) (P : nat → Prop) path :
  (∀ i c, items !! i = Some c → kw "items" s ≠ VNone →
     ∀ path, decides (c (kw "items" s) path) (P i)) →
  decides (validate_array repr s items path)
    ((at_least (size_of (length items)) (kw "minItems" s) ∧
      at_most (size_of (length items)) (kw "maxItems" s)) ∧
     (kw "items" s ≠ VNone → ∀ i, (i < length items)%nat → P i)).
Proof using Hkw.
  intros Hc. eapply decides_iff.
  { apply decides_and_then; [apply lower_bound_decides, keyword_bound; set_solver|].
    apply decides_and_then; [apply upper_bound_decides, keyword_bound; set_solver|].
    instantiate (1 := kw "items" s ≠ VNone → ∀ i, (i < length items)%nat → P i).
    rewrite get_kw. cbn [mbind res_bind]. change (dget "items" VNone d) with (kw "items" s).
    destruct (decide (kw "items" s = VNone)) as [E|E].
    - rewrite E. eapply decides_iff; [apply decides_skip|]. naive_solver.
    - apply (decides_ext (validate_items (kw "items" s) items 0 path)).
      { intros errors. by destruct (kw "items" s). }
      eapply decides_iff; [apply (validate_items_decides _ _ P); eauto|]. naive_solver. }
  tauto.
Qed.

Hypothesis (Hreq : absent_or (λ v, match v with VList _ => true | _ => false end) "required" s = true).
Hypothesis (Hprops : absent_or (λ v, match v with VDict _ => true | _ => false end) "properties" s = true).

Lemma required_list :
  dget "required" (VList []) d = VList (items_of (kw "required" s)) ∧
  ∀ x, x ∈ items_of (kw "required" s) → is_str x = true.
Proof using Hkw Hreq.
  clear Hprops. unfold keywords_wf in Hkw. rewrite !andb_true_iff in Hkw. destruct Hkw as [[_ Hr] _].
  unfold absent_or in Hreq. unfold kw, dget in *. destruct (dlookup "required" d) as [v|]; simpl in *.
  - destruct v; try done. split; [done|]. simpl in *. intros x Hx.
    rewrite forallb_forall in Hr. apply Hr. by rewrite <-list_elem_of_In.
  - split; [done|set_solver].
Qed.

Lemma properties_dict : dget "properties" (VDict []) d = VDict (fields_of (kw "properties" s)).
Proof using Hprops.
  unfold absent_or in Hprops. unfold kw, dget. destruct (dlookup "properties" d) as [v|]; simpl; [|done].
  by destruct v.
Qed.

Lemma validate_object_decides (o : dict pyval) (children : dict node_check) (P : string → pyval → Prop) path :
  (∀ k s' c, (k, s') ∈ fields_of (kw "properties" s) → dlookup k children = Some c →
     ∀ path, decides (c s' path) (P k s')) →
  decides (validate_object repr s o children path)
    ((∀ f, VStr f ∈ items_of (kw "required" s) → f ∈ dkeys o) ∧
     (kw "additionalProperties" s = VBool false →
        ∀ k, k ∈ dkeys o → k ∈ dkeys (fields_of (kw "properties" s))) ∧
     (∀ k s' c, (k, s') ∈ fields_of (kw "properties" s) → dlookup k children = Some c → P k s')).
Proof using Hkw Hreq Hprops.
  intros Hc. destruct required_list as [Hr Hstr].
  assert (∀ k (dd : dict pyval), dmem k dd = true ↔ k ∈ dkeys dd) as Hmem.
  { intros k dd. rewrite dmem_true, <-not_eq_None_Some, dlookup_None_keys.
    destruct (decide (k ∈ dkeys dd)); tauto. }
  eapply (decides_ext (and_then _ (and_then _ _))).
  { intros errors. unfold validate_object. rewrite !get_kw. cbn [mbind res_bind].
    rewrite Hr, properties_dict. cbn [Py.iterate mbind res_bind]. unfold and_then. reflexivity. }
  apply decides_and_then; [|apply decides_and_then].
  - eapply decides_iff; [apply (decides_for_all _ (λ x, ∃ f, x = VStr f ∧ f ∈ dkeys o))|].
    + intros x Hx. apply Hstr in Hx. destruct x as [| | | |f| |]; try done. cbn.
      apply (decides_if (dmem f o) (λ _, _)); [|done]. rewrite Hmem. naive_solver.
    + split; [intros H f Hf; by destruct (H _ Hf) as (? & [= <-] & ?)|].
      intros H x Hx. pose proof (Hstr x Hx). destruct x as [| | | |f| |]; try done. eauto.
  - change (dget "additionalProperties" VNone d) with (kw "additionalProperties" s).
    case_bool_decide as Ea.
    + eapply decides_iff; [apply (decides_for_all _ (λ k, k ∈ dkeys (fields_of (kw "properties" s))))|].
      * intros k _. cbn. apply (decides_if (dmem k _) (λ _, _)); [apply Hmem|done].
      * naive_solver.
    + eapply decides_iff; [apply decides_skip|]. naive_solver.
  - eapply decides_iff; [apply (decides_for_all _
      (λ ks, ∀ c, dlookup ks.1 children = Some c → P ks.1 ks.2))|].
    + intros [k s'] Hin. destruct (dlookup k children) as [c|] eqn:E.
      * eapply decides_iff; [by eapply Hc|]. simpl. rewrite E. naive_solver.
      * eapply decides_iff; [apply decides_skip|]. simpl. rewrite E. naive_solver.
    + split; [intros H k s' c Hin; by apply (H (k, s'))|]. intros H [k s'] Hin c. by apply H.
Qed.
End checks.

(** ** Well-formed schemas *)
Lemma schema_wf_props (ps : dict pyval) :
  ((fix all (ps : dict pyval) : bool :=
      match ps with [] => true | (_, s') :: ps => schema_wf s' && all ps end) ps) = true →
  ∀ k s', (k, s') ∈ ps → schema_wf s' = true.
Proof.
  induction ps as [|[k0 s0] ps IH]; [set_solver|]. rewrite andb_true_iff. intros [H0 H] k s'.
  intros [[= -> ->]|Hin]%elem_of_cons; eauto.
Qed.

Lemma schema_wf_inv s :
  schema_wf s = true → ∃ d, s = VDict d ∧ keywords_wf s = true ∧
    absent_or (λ v, match v with VList _ => true | _ => false end) "required" s = true ∧
    absent_or (λ v, match v with VDict _ => true | _ => false end) "properties" s = true ∧
    (∀ k s', (k, s') ∈ fields_of (kw "properties" s) → schema_wf s' = true) ∧
    (kw "items" s ≠ VNone → schema_wf (kw "items" s) = true).
Proof.
  destruct s as [| | | | | |d]; try done. intros H. exists d. split; [done|].
  cbn [schema_wf] in H. rewrite !andb_true_iff in H. destruct H as [[Hk Hr] Hgo].
  split; [done|]. split; [done|]. clear Hk Hr. unfold absent_or, kw, dget.
  induction d as [|[k v] d IH]; [simpl; split_and!; [done|set_solver|done]|].
  rewrite andb_true_iff in Hgo. destruct Hgo as [Hv (Hp & Hps & Hi)%IH].
  cbn [dlookup]. split_and!.
  - destruct (decide ("properties" = k)) as [<-|]; [|done].
    rewrite bool_decide_eq_true_2 in Hv by done. by destruct v.
  - destruct (decide ("properties" = k)) as [<-|]; [|done].
    rewrite bool_decide_eq_true_2 in Hv by done.
    destruct v; try done. by apply schema_wf_props.
  - destruct (decide ("items" = k)) as [<-|]; [|done]. intros _. exact Hv.
Qed.

Lemma children_lookup repr (o : dict pyval) k :
  dlookup k ((fix go (d : dict pyval) : dict node_check :=
     match d with [] => [] | (k, v) :: d => (k, validate_node repr v) :: go d end) o) =
  validate_node repr <$> dlookup k o.
Proof. induction o as [|[k0 v0] o IH]; [done|]. cbn [dlookup]. by case_decide. Qed.

Lemma items_fmap repr (l : list pyval) :
  ((fix go (l : list pyval) : list node_check :=
      match l with [] => [] | v :: l => validate_node repr v :: go l end) l) =
  validate_node repr <$> l.
Proof. induction l as [|v l IH]; [done|]. cbn [fmap list_fmap]. by f_equal. Qed.

Lemma dlookup_elem {A} k (v : A) d : dlookup k d = Some v → (k, v) ∈ d.
Proof.
  induction d as [|[k0 v0] d IH]; simpl; [done|]. case_decide; [|set_solver].
  intros [= ->]. subst. set_solver.
Qed.

(** The shape-dependent part of [conforms]. *)
Definition shape_ok (s v : pyval) : Prop :=
  (∀ d f, v = VDict d → VStr f ∈ items_of (kw "required" s) → f ∈ dkeys d) ∧
  (∀ d k, v = VDict d → kw "additionalProperties" s = VBool false →
     k ∈ dkeys d → k ∈ dkeys (fields_of (kw "properties" s))) ∧
  (∀ d k s' x, v = VDict d → (k, s') ∈ fields_of (kw "properties" s) →
     dlookup k d = Some x → conforms s' x) ∧
  (∀ l, v = VList l → at_least (size_of (length l)) (kw "minItems" s) ∧
     at_most (size_of (length l)) (kw "maxItems" s)) ∧
  (∀ l x, v = VList l → kw "items" s ≠ VNone → x ∈ l → conforms (kw "items" s) x) ∧
  (∀ t, v = VStr t → at_least (size_of (String.length t)) (kw "minLength" s) ∧
     at_most (size_of (String.length t)) (kw "maxLength" s)) ∧
  (∀ n, Py.num v = Some n → (∀ b, v ≠ VBool b) →
     at_least n (kw "minimum" s) ∧ at_most n (kw "maximum" s)).

Lemma conforms_iff s v : conforms s v ↔ type_ok s v ∧ enum_ok s v ∧ shape_ok s v.
Proof.
  unfold shape_ok. split.
  - destruct 1. by split_and!.
  - intros (? & ? & ? & ? & ? & ? & ? & ? & ?). by constructor.
Qed.

(** The part of [validate_node] after the type test. *)
Definition shape_check (repr : pyval → string) (s v : pyval) (path : string) : check :=
  match v with
  | VDict o => validate_object repr s o (prod_map id (validate_node repr) <$> o) path
  | VList l => validate_array repr s (validate_node repr <$> l) path
  | VStr t => validate_string repr s t path
  | VInt z => validate_number repr s v (inl z) path
  | VFloat f => validate_number repr s v (inr f) path
  | VNone | VBool _ => skip
  end.

Lemma children_fmap repr (o : dict pyval) :
  ((fix go (d : dict pyval) : dict node_check :=
     match d with [] => [] | (k, v) :: d => (k, validate_node repr v) :: go d end) o) =
  prod_map id (validate_node repr) <$> o.
Proof. induction o as [|[k v] o IH]; [done|]. cbn [fmap list_fmap prod_map]. by f_equal. Qed.

Lemma validate_node_eq repr v s path errors :
  validate_node repr v s path errors =
  (bad_type ← type_error s v;
   match bad_type with
   | Some types => report (path +:+ ": expected type " +:+ Py.to_str repr types +:+ ", got "
                           +:+ Py.type_name v) errors
   | None => and_then (check_enum repr s v path) (shape_check repr s v path) errors
   end).
Proof.
  destruct v as [|b|z|f|t|l|d]; unfold shape_check.
  1-5: reflexivity.
  - pose proof (items_fmap repr l) as E. unfold node_check in *. rewrite <-E. reflexivity.
  - pose proof (children_fmap repr d) as E. unfold node_check in *. rewrite <-E. reflexivity.
Qed.

Lemma shape_check_decides repr s v path :
  schema_wf s = true →
  (∀ s' x path, schema_wf s' = true → (∃ k d, v = VDict d ∧ (k, x) ∈ d) ∨ (∃ l, v = VList l ∧ x ∈ l) →
     decides (validate_node repr x s' path) (conforms s' x)) →
  decides (shape_check repr s v path) (shape_ok s v).
Proof.
  intros (sd & -> & Hkw & Hreq & Hprops & Hpwf & Hiwf)%schema_wf_inv IH.
  destruct v as [|b|z|f|t|l|o]; cbn [shape_check].
  - eapply decides_iff; [apply decides_skip|]. unfold shape_ok. naive_solver.
  - eapply decides_iff; [apply decides_skip|]. unfold shape_ok. naive_solver.
  - eapply decides_iff; [by apply validate_number_decides|]. unfold shape_ok. naive_solver.
  - eapply decides_iff; [by apply validate_number_decides|]. unfold shape_ok. naive_solver.
  - eapply decides_iff; [by apply validate_string_decides|]. unfold shape_ok. naive_solver.
  - eapply decides_iff; [apply (validate_array_decides repr sd Hkw _
      (λ i, ∀ x, l !! i = Some x → conforms (kw "items" (VDict sd)) x))|].
    + intros i c. rewrite list_lookup_fmap. destruct (l !! i) as [x|] eqn:Hx; [|done].
      intros [= <-] Hne path'. eapply decides_iff; [apply IH|naive_solver]; [by apply Hiwf|].
      right. exists l. split; [done|]. by eapply list_elem_of_lookup_2.
    + rewrite length_fmap. unfold shape_ok. split.
      * intros [Hb Hi]. split_and!; try naive_solver.
        intros l' x [= <-] Hne [i Hx]%list_elem_of_lookup. eapply (Hi Hne i); [|done].
        by apply lookup_lt_is_Some_1.
      * intros (_ & _ & _ & Hb & Hi & _). split; [by apply Hb|].
        intros Hne i _ x Hx. eapply Hi; [done..|by eapply list_elem_of_lookup_2].
  - eapply decides_iff; [apply (validate_object_decides repr sd Hkw Hreq Hprops _ _
      (λ k s', ∀ x, dlookup k o = Some x → conforms s' x))|].
    + intros k s' c Hin. rewrite <-children_fmap, children_lookup.
      destruct (dlookup k o) as [x|] eqn:Hx; [|done]. intros [= <-] path'.
      eapply decides_iff; [apply IH|naive_solver]; [by eapply Hpwf|].
      left. exists k, o. split; [done|]. by apply dlookup_elem.
    + setoid_rewrite <-children_fmap. setoid_rewrite children_lookup. unfold shape_ok. split.
      * intros (Hr & Ha & Hp). split_and!; try naive_solver.
        intros d k s' x [= <-] Hin Hx. eapply (Hp k s' (validate_node repr x)); [done| |done].
        by rewrite Hx.
      * intros (Hr & Ha & Hp & _). split_and!; [naive_solver..|].
        intros k s' c Hin _ x Hx. by eapply Hp.
Qed.

Lemma validate_node_decides repr v : ∀ s path,
  schema_wf s = true → decides (validate_node repr v s path) (conforms s v).
Proof.
  assert (∀ v, (∀ s' x path, schema_wf s' = true →
      (∃ k d, v = VDict d ∧ (k, x) ∈ d) ∨ (∃ l, v = VList l ∧ x ∈ l) →
      decides (validate_node repr x s' path) (conforms s' x)) →
    ∀ s path, schema_wf s = true → decides (validate_node repr v s path) (conforms s v)) as Hstep.
  { clear v. intros v IH s path Hs. pose proof (schema_wf_inv s Hs) as (sd & -> & Hkw & _).
    destruct (type_error_ok sd Hkw v) as (r & Hr & Ht).
    eapply (decides_ext (match r with Some types => report _ | None => and_then _ _ end)).
    { intros errors. rewrite validate_node_eq, Hr. cbn [mbind res_bind].
      destruct r; reflexivity. }
    destruct r as [types|].
    - eapply decides_iff; [apply decides_report|]. rewrite conforms_iff. naive_solver.
    - eapply decides_iff.
      { apply decides_and_then; [by apply check_enum_decides|by apply shape_check_decides]. }
      rewrite conforms_iff. naive_solver. }
  induction v as [|b|z|f|t|l IH|o IH] using pyval_ind'; apply Hstep; intros s' x path Hs [H|H];
    try (by destruct H as (? & ? & ? & ?)); try (by destruct H as (? & ? & ?)).
  - destruct H as (l' & [= <-] & Hx). rewrite Forall_forall in IH. by apply IH.
  - destruct H as (k & d & [= <-] & Hx). rewrite Forall_forall in IH. by apply (IH (k, x)).
Qed.

Lemma validate_value_decides repr s v :
  schema_wf s = true →
  (validate_value repr s v = Ok tt ∧ conforms s v) ∨
  (∃ errors, errors ≠ [] ∧ validate_value repr s v = Err (ContractValidationError errors) ∧
     ¬ conforms s v).
Proof.
  intros Hs. destruct (validate_node_decides repr v s "$" Hs) as (new & Hnew & Hiff).
  unfold validate_value. rewrite Hnew. cbn [mbind res_bind app]. destruct new as [|e new].
  - left. split; [done|]. by apply Hiff.
  - right. exists (e :: new). split_and!; [done..|]. rewrite <-Hiff. done.
Qed.

(** ** The contract files (agent-system/contracts) *)
Definition string_type : pyval := VDict [("type", VStr "string"); ("minLength", VInt 1)].
Definition schema_uri : string := "https://json-schema.org/draft/2020-12/schema".

Definition agent_request_schema : pyval := VDict
  [("$schema", VStr schema_uri); ("title", VStr "AgentRequest"); ("type", VStr "object");
   ("additionalProperties", VBool false);
   ("required", VList [VStr "request_id"; VStr "session_id"; VStr "user_input"; VStr "allowed_tools"]);
   ("properties", VDict
     [("request_id", string_type); ("session_id", string_type); ("user_input", string_type);
      ("allowed_tools", VDict
         [("type", VStr "array"); ("minItems", VInt 1);
          ("items", VDict [("type", VStr "string");
             ("enum", VList [VStr "tool.search"; VStr "tool.query_db"; VStr "tool.notify"])])]);
      ("context", VDict
         [("type", VStr "object"); ("additionalProperties", VBool false);
          ("properties", VDict [("system", VDict
             [("type", VStr "object"); ("additionalProperties", VBool false);
              ("properties", VDict [("tenant_id", string_type); ("environment", string_type);
                                    ("policy_version", string_type)])])])]);
      ("metadata", VDict
         [("type", VStr "object"); ("additionalProperties", VBool true);
          ("properties", VDict [("approval_token", string_type); ("recipient", string_type)])])])].

Definition agent_response_schema : pyval := VDict
  [("$schema", VStr schema_uri); ("title", VStr "AgentResponse"); ("type", VStr "object");
   ("additionalProperties", VBool false);
   ("required", VList [VStr "request_id"; VStr "session_id"; VStr "success"; VStr "data"; VStr "error"]);
   ("properties", VDict
     [("request_id", string_type); ("session_id", string_type);
      ("success", VDict [("type", VStr "boolean")]);
      ("data", VDict [("type", VList [VStr "object"; VStr "null"]);
                      ("additionalProperties", VBool true)]);
      ("error", VDict [("type", VList [VStr "object"; VStr "null"]);
                       ("additionalProperties", VBool true);
                       ("properties", VDict [("code", string_type); ("message", string_type)])])])].

Definition runtime_context_schema : pyval :=
  VDict [("type", VStr "object"); ("additionalProperties", VBool true)].

Definition tool_schema (title : string) (required : list string) (props : dict pyval) : pyval := VDict
  [("$schema", VStr schema_uri); ("title", VStr title); ("type", VStr "object");
   ("additionalProperties", VBool false); ("required", VList (VStr <$> required));
   ("properties", VDict (props ++ [("runtime_context", runtime_context_schema)]))].

Definition tool_search_schema : pyval :=
  tool_schema "ToolSearchPayload" ["query"]
    [("query", string_type);
     ("top_k", VDict [("type", VStr "integer"); ("minimum", VInt 1); ("maximum", VInt 20)])].
Definition tool_query_db_schema : pyval :=
  tool_schema "ToolQueryDbPayload" ["sql"]
    [("sql", VDict [("type", VStr "string"); ("minLength", VInt 1); ("maxLength", VInt 1000)]);
     ("limit", VDict [("type", VStr "integer"); ("minimum", VInt 1); ("maximum", VInt 100)])].
Definition tool_notify_schema : pyval :=
  tool_schema "ToolNotifyPayload" ["channel"; "recipient"; "message"]
    [("channel", VDict [("type", VStr "string"); ("enum", VList [VStr "email"; VStr "slack"])]);
     ("recipient", string_type);
     ("message", VDict [("type", VStr "string"); ("minLength", VInt 1); ("maxLength", VInt 500)])].

(** The files under the contracts root. *)
Definition contract_files (path : string) : res pyval :=
  match dlookup path
    [("agent-request.schema.json", agent_request_schema);
     ("agent-response.schema.json", agent_response_schema);
     ("tools/tool.search.schema.json", tool_search_schema);
     ("tools/tool.query_db.schema.json", tool_query_db_schema);
     ("tools/tool.notify.schema.json", tool_notify_schema)] with
  | Some s => Ok s
  | None => Err (OSError ("No such file or directory: " +:+ path))
  end.

Lemma contract_files_wf path s : contract_files path = Ok s → schema_wf s = true.
Proof.
  unfold contract_files. destruct (dlookup path _) as [s'|] eqn:E; [|done]. intros [= ->].
  apply dlookup_elem in E. repeat (apply elem_of_cons in E as [[= -> ->]|E]; [vm_compute; reflexivity|]).
  by apply elem_of_nil in E.
Qed.

(** ** Properties *)

(** C9: On a schema with well-shaped keywords, contract validation is a
    decision procedure for conformance: it accepts exactly the values that
    conform to the schema (types, enumerations, required and unexpected
    fields, lengths, bounds, nested properties and items), it rejects the others
    with a non-empty list of violations, and it raises nothing else. *)
Theorem contract_validation_decides repr s v :
  schema_wf s = true →
  (validate_value repr s v = Ok tt ∧ conforms s v) ∨
  (∃ errors, errors ≠ [] ∧ validate_value repr s v = Err (ContractValidationError errors) ∧
     ¬ conforms s v).
Proof. apply validate_value_decides. Qed.

Lemma contract_validation_decides_witness :
  validate_value (λ _, "") tool_search_schema (VDict [("query", VStr "q"); ("top_k", VInt 21)]) =
    Err (ContractValidationError ["$.top_k: value 21 > maximum 20"]) ∧
  ¬ conforms tool_search_schema (VDict [("query", VStr "q"); ("top_k", VInt 21)]).
Proof.
  split; [vm_compute; reflexivity|].
  destruct (contract_validation_decides (λ _, "") tool_search_schema
    (VDict [("query", VStr "q"); ("top_k", VInt 21)])) as [[H _]|(errors & _ & _ & H)];
    [vm_compute; reflexivity| |exact H].
  vm_compute in H. discriminate H.
Defined.

(** Caching parsed schemas does not change any verdict: from an empty
    cache, after any sequence of validations, a validation answers what reading
    the file afresh would answer. *)
Theorem schema_cache_transparent repr disk (history : list (string * pyval)) path payload :
  let cache := foldl (λ c h, (validate repr disk h.1 h.2 c).2) ∅ history in
  (validate repr disk path payload cache).1 = validate_uncached repr disk path payload.
Proof.
  intros cache. apply validate_coherent. unfold cache.
  assert (∀ c, coherent disk c →
    coherent disk (foldl (λ c h, (validate repr disk h.1 h.2 c).2) c history)) as H.
  { induction history as [|h history IH]; intros c Hc; [done|]. apply IH.
    by apply validate_coherent. }
  apply H. intros p s. by rewrite lookup_empty.
Qed.
