(* ===== verification/Executor.v ===== *)
(** * Execution engine (agent-system/src/agent/executor.py, gateway/audit_logger.py)

    [execute] runs a plan batch by batch.  The steps of a batch run in worker
    threads; a thread is a program over the effects [eff] and an interleaving
    of threads is a list of choices: which thread performs its next effect,
    whether the tool call it performs exceeds its timeout, and what the
    environment does meanwhile (cancel through the control object or the store,
    late effects of a timed-out tool).  When the list is used up the remaining
    threads run to completion one after the other, so every list denotes a
    complete run of the batch.  One call of a store method is one effect.

    Parameters: [utcnow] and [monotonic] are the successive readings of the two
    clocks, [repr] and [exc_str] the interpreter's texts of values and
    exceptions, [defs] the registered tools (with state [T]), [validate] the
    contract validator's verdict on a payload, [permission_map] the policy's
    permissions, [replanner] whether a replanner is configured. *)
From S2P Require Import Prelude PyFloat PyValue ToolRegistry StateStore Recovery Planner Replanner Policy Context.
Local Open Scope Z_scope.

(** ** Audit events *)
Module AuditLogger.

Definition result_status (success : bool) : pyval := VStr (if success then "SUCCESS" else "FAILED").

Definition step_event (request_id session_id step_id tool_id : string) (duration_ms : Z)
    (result : envelope) : dict pyval :=
  [("event_type", VStr "step"); ("request_id", VStr request_id); ("session_id", VStr session_id);
   ("step_id", VStr step_id); ("tool_id", VStr tool_id); ("duration_ms", VInt duration_ms);
   ("result_status", result_status (env_success result));
   ("retryable", VBool (env_retryable result));
   ("error", from_option VDict VNone (env_error result))].

Definition final_event (request_id session_id : string) (success : bool) (duration_ms : Z)
    : dict pyval :=
  [("event_type", VStr "final"); ("request_id", VStr request_id); ("session_id", VStr session_id);
   ("duration_ms", VInt duration_ms); ("result_status", result_status success)].

(** [_write_event]: append one event to the log file. *)
Definition write_event (event : dict pyval) (log : list (dict pyval)) : list (dict pyval) :=
  log ++ [event].
End AuditLogger.

(** ** Effects *)

(** A tool invocation as it happened: the step, the payload handed over and the
    store at that moment. *)
Record invocation := mkInvocation {
  iv_step : PlanStep;
  iv_payload : dict pyval;
  iv_store : store;
}.

Record world (T : Type) := mkWorld {
  w_store : store;
  w_context : ExecutionContext;
  w_control : ExecutionControl;
  w_audit : list (dict pyval);
  w_tools : T;
  w_clock : nat;
  w_calls : list invocation;
}.
Arguments mkWorld {T}.
Arguments w_store {T}.
Arguments w_context {T}.
Arguments w_control {T}.
Arguments w_audit {T}.
Arguments w_tools {T}.
Arguments w_clock {T}.
Arguments w_calls {T}.

Inductive eff : Type → Type :=
| EStore {A} (o : StateStore.op A) : eff A
| EControl : eff ExecutionControl
| EContext : eff ExecutionContext
| EMonotonic : eff float
| EAudit (event : dict pyval) : eff unit
| EInvoke (step : PlanStep) (payload : dict pyval) (timeout_seconds : Z) : eff envelope.

(** Programs of a worker thread. *)
Inductive prog (A : Type) : Type :=
| PRet (a : A)
| PRaise (e : exc)
| PVis {X : Type} (o : eff X) (k : X → prog A).
Arguments PRet {A} a.
Arguments PRaise {A} e.
Arguments PVis {A X} o k.

#[global] Instance prog_ret : MRet prog := @PRet.
Fixpoint prog_bind {A B} (f : A → prog B) (p : prog A) : prog B :=
  match p with
  | PRet a => f a
  | PRaise e => PRaise e
  | PVis o k => PVis o (λ x, prog_bind f (k x))
  end.
#[global] Instance prog_mbind : MBind prog := @prog_bind.

Definition call {X} (o : eff X) : prog X := PVis o PRet.
Definition on_store {X} (o : StateStore.op X) : prog X := call (EStore o).
Definition prog_lift {A} (r : res A) : prog A :=
  match r with Ok a => PRet a | Err e => PRaise e end.

(** What the environment may do between two effects. *)
Inductive env_action (T : Type) : Type :=
| CancelControl
| CancelSession (sid : string)
| LateTools (t : T).
Arguments CancelControl {T}.
Arguments CancelSession {T} sid.
Arguments LateTools {T} t.

Inductive choice (T : Type) : Type :=
| Run (i : nat)
| RunLate (i : nat)
| Env (a : env_action T).
Arguments Run {T} i.
Arguments RunLate {T} i.
Arguments Env {T} a.

(** The environment of one iteration of the main loop. *)
Record round (T : Type) := mkRound {
  rd_before : list (env_action T);
  rd_batch : list (choice T);
}.
Arguments mkRound {T}.
Arguments rd_before {T}.
Arguments rd_batch {T}.

(** ** Results *)
Record StepResult := mkStepResult {
  sr_step_id : string;
  sr_tool_id : string;
  sr_plan_version : Z;
  sr_result : envelope;
}.

Record ReplanItem := mkReplanItem {
  ri_strategy : string;
  ri_reason : string;
  ri_message : string;
  ri_target_plan_version : Z;
  ri_step_id_mapping : list StepIdMapping;
}.

Record ExecutionResult := mkExecutionResult {
  er_success : bool;
  er_step_results : list StepResult;
  er_error : option (dict pyval);
  er_trace_id : string;
  er_plan_version : Z;
  er_replan_history : list ReplanItem;
}.

Module Executor.
Import StateStore.

Section executor.
Context {T : Type}.
Context (utcnow : nat → string) (monotonic : nat → float).
Context (repr : pyval → string) (exc_str : exc → string).
Context (defs : gmap string (ToolRegistry.ToolDefinition T)).
Context (validate : string → dict pyval → res unit).
Context (permission_map : gmap string ToolPermission).
Context (replanner : bool) (max_retry_attempts max_replan_attempts : Z).
Context (request : dict pyval).

(** ** Performing one effect *)
Definition store_effect {A} (m : st store A) : st (world T) A := λ w,
  let '(r, s) := m (w_store w) in
  (r, mkWorld s (w_context w) (w_control w) (w_audit w) (w_tools w) (w_clock w) (w_calls w)).

Definition control_effect (f : ExecutionControl → ExecutionControl) (w : world T) : world T :=
  mkWorld (w_store w) (w_context w) (f (w_control w)) (w_audit w) (w_tools w) (w_clock w) (w_calls w).

Definition context_effect {A} (m : st ExecutionContext A) : st (world T) A := λ w,
  let '(r, c) := m (w_context w) in
  (r, mkWorld (w_store w) c (w_control w) (w_audit w) (w_tools w) (w_clock w) (w_calls w)).

Definition read_clock : st (world T) float := λ w,
  (Ok (monotonic (w_clock w)),
   mkWorld (w_store w) (w_context w) (w_control w) (w_audit w) (w_tools w) (S (w_clock w)) (w_calls w)).

Definition audit_effect (event : dict pyval) : st (world T) unit := λ w,
  (Ok tt, mkWorld (w_store w) (w_context w) (w_control w)
     (AuditLogger.write_event event (w_audit w)) (w_tools w) (w_clock w) (w_calls w)).

(** [_invoke_tool_with_timeout]: the registry call runs in a pool of its own;
    [late] says that it has not answered within [timeout_seconds].  The handler
    of a call that is abandoned keeps running: its effect on the tools' state
    is an action of the environment. *)
Definition invoke_tool_with_timeout (step : PlanStep) (payload : dict pyval)
    (timeout_seconds : Z) (late : bool) : st (world T) envelope := λ w,
  let calls := w_calls w ++ [mkInvocation step payload (w_store w)] in
  let set t := mkWorld (w_store w) (w_context w) (w_control w) (w_audit w) t (w_clock w) calls in
  if late then
    (Ok (failure (error_object "tool_timeout"
           ("tool timeout after " +:+ pretty timeout_seconds +:+ "s")) true), set (w_tools w))
  else
    match ToolRegistry.invoke defs (ps_tool_id step) payload (w_tools w) with
    | (Ok r, t) => (Ok r, set t)
    | (Err e, t) => (Ok (failure (error_object "tool_runtime_exception" (exc_str e)) false), set t)
    end.

Definition perform {X} (o : eff X) (late : bool) : st (world T) X :=
  match o with
  | EStore o => store_effect (exec utcnow o)
  | EControl => λ w, (Ok (w_control w), w)
  | EContext => λ w, (Ok (w_context w), w)
  | EMonotonic => read_clock
  | EAudit event => audit_effect event
  | EInvoke step payload timeout => invoke_tool_with_timeout step payload timeout late
  end.

Definition env_step (a : env_action T) (w : world T) : world T :=
  match a with
  | CancelControl => control_effect Control.request_cancel w
  | CancelSession sid => (store_effect (mark_cancel_requested utcnow sid) w).2
  | LateTools t =>
      mkWorld (w_store w) (w_context w) (w_control w) (w_audit w) t (w_clock w) (w_calls w)
  end.

(** ** One step: [_execute_single_step] *)

(** [_is_cancelled] *)
Definition is_cancelled (sid : string) : prog bool :=
  c ← call EControl;
  if Control.is_cancelled c then mret true else on_store (OIsCancelRequested sid).

(** [_save_snapshot] *)
Definition save_snapshot (plan : ExecutionPlan) (step_id phase : string) (payload : dict pyval)
    : prog unit :=
  s ← on_store (OGetSession (ep_session_id plan));
  t ← on_store OUtcNow;
  on_store (OSaveSnapshot (ep_session_id plan) (SnapshotManager.create s step_id phase t payload)).

(** [_check_policy] *)
Definition check_policy (step : PlanStep) : res (option envelope) :=
  allowed ← ToolPolicyEngine.is_tool_allowed permission_map (ps_tool_id step)
    (dget "allowed_tools" (VList []) request) request;
  Ok (if (allowed : bool) then None
      else Some (failure (error_object "permission_denied"
                            ("tool not allowed: " +:+ ps_tool_id step)) false)).

(** [_build_payload_with_context] *)
Definition build_payload_with_context (context : ExecutionContext) (step : PlanStep) : dict pyval :=
  dinsert "runtime_context" (VDict (ContextManager.trim_for_tool context (ps_tool_id step)))
    (ps_payload step).

(** ["; ".join(errors)] *)
Definition join_errors (errors : list string) : string :=
  match errors with
  | [] => ""
  | e :: errors => foldl (λ acc x, acc +:+ "; " +:+ x) e errors
  end.

(** [_check_schema]: only contract violations are caught. *)
Definition check_schema (step : PlanStep) (payload : dict pyval) : res (option envelope) :=
  schema_path ← ToolRegistry.get_schema_path defs (ps_tool_id step);
  match validate schema_path payload with
  | Ok _ => Ok None
  | Err (ContractValidationError errors) =>
      Ok (Some (failure (error_object "schema_validation_error" (join_errors errors)) false))
  | Err e => Err e
  end.

(** The snapshot payload [{"attempt": ..., "result": ...}]. *)
Definition attempt_payload (attempt : Z) (result : envelope) : dict pyval :=
  [("attempt", VInt attempt); ("result", envelope_dict result)].

(** [mark_step_failed] and the "post-failed" snapshot. *)
Definition record_failure (plan : ExecutionPlan) (step : PlanStep) (attempt : Z)
    (result : envelope) : prog unit :=
  on_store (OMarkStepFailed (ep_session_id plan) (ps_step_id step) (default [] (env_error result)))
    ≫= λ _,
  save_snapshot plan (ps_step_id step) "post-failed" (attempt_payload attempt result).

(** [int((time.monotonic() - started_at) * 1000)] *)
Definition duration_ms (started_at finished_at : float) : res Z :=
  PyFloat.trunc (PyFloat.mul (PyFloat.sub finished_at started_at) (PyFloat.of_Z 1000)).

(** The tool call of one attempt with its audit record. *)
Definition invoke_audited (plan : ExecutionPlan) (step : PlanStep) (payload : dict pyval)
    : prog envelope :=
  control ← call EControl;
  let timeout_seconds := if 0 <? ps_timeout_seconds step then ps_timeout_seconds step
                         else default_step_timeout_seconds control in
  started_at ← call EMonotonic;
  result ← call (EInvoke step payload timeout_seconds);
  finished_at ← call EMonotonic;
  ms ← prog_lift (duration_ms started_at finished_at);
  call (EAudit (AuditLogger.step_event (ep_request_id plan) (ep_session_id plan)
          (ps_step_id step) (ps_tool_id step) ms result)) ≫= λ _,
  mret result.

(** One iteration of the retry loop: [inl] leaves the loop with a result, [inr]
    is a retryable failure. *)
Definition attempt_step (plan : ExecutionPlan) (step : PlanStep) (key : string) (attempt : Z)
    : prog (envelope + envelope) :=
  let sid := ep_session_id plan in
  let id := ps_step_id step in
  cancelled ← is_cancelled sid;
  if (cancelled : bool) then
    let cancel_error := error_object "step_cancelled" ("step cancelled: " +:+ id) in
    on_store (OMarkStepCanceled sid id cancel_error) ≫= λ _,
    mret (inl (failure cancel_error false))
  else
  on_store (OMarkStepRunning sid id) ≫= λ _,
  save_snapshot plan id "pre-step"
    [("attempt", VInt attempt); ("tool_id", VStr (ps_tool_id step));
     ("idempotency_key", VStr key)] ≫= λ _,
  policy_result ← prog_lift (check_policy step);
  match policy_result with
  | Some r => record_failure plan step attempt r ≫= λ _, mret (inl r)
  | None =>
      context ← call EContext;
      let payload := build_payload_with_context context step in
      schema_result ← prog_lift (check_schema step payload);
      match schema_result with
      | Some r => record_failure plan step attempt r ≫= λ _, mret (inl r)
      | None =>
          on_store (OMarkStepWaitingTool sid id) ≫= λ _,
          result ← invoke_audited plan step payload;
          if env_success result then
            on_store (OMarkStepSuccess sid id result key) ≫= λ _,
            save_snapshot plan id "post-success" (attempt_payload attempt result) ≫= λ _,
            mret (inl result)
          else
            record_failure plan step attempt result ≫= λ _,
            mret (if env_retryable result then inr result else inl result)
      end
  end.

(** [for attempt in range(attempt, attempt + n)], then [exhausted_result]. *)
Fixpoint attempts (plan : ExecutionPlan) (step : PlanStep) (key : string) (n : nat)
    (attempt : Z) (last_retryable : option envelope) : prog envelope :=
  match n with
  | O =>
      let exhausted := failure
        [("code", VStr "retry_exhausted");
         ("message", VStr ("retry limit reached for step " +:+ ps_step_id step));
         ("last_error", from_option VDict VNone (last_retryable ≫= env_error))] false in
      record_failure plan step (max_retry_attempts + 1) exhausted ≫= λ _,
      mret exhausted
  | S n =>
      r ← attempt_step plan step key attempt;
      match r with
      | inl result => mret result
      | inr result => attempts plan step key n (attempt + 1) (Some result)
      end
  end.

Definition idempotent_skip : envelope :=
  Envelope true (VDict [("idempotent_skip", VBool true)]) None false.

Definition execute_single_step (plan : ExecutionPlan) (step : PlanStep) : prog envelope :=
  let sid := ep_session_id plan in
  let key := build_idempotency_key (ep_request_id plan) (ps_step_id step) (ep_plan_version plan) in
  skip ← on_store (OShouldSkipStep sid (ps_step_id step) key);
  if (skip : bool) then
    cached ← on_store (OGetStepResult sid (ps_step_id step));
    mret (default idempotent_skip cached)
  else attempts plan step key (Z.to_nat (max_retry_attempts + 1)) 1 None.

(** ** A batch: [_execute_ready_steps] *)

(** One effect of a thread; an exception ends it. *)
Definition step_prog {A} (late : bool) (p : prog A) : st (world T) (prog A) := λ w,
  match p with
  | PVis o k =>
      match perform o late w with
      | (Ok x, w') => (Ok (k x), w')
      | (Err e, w') => (Ok (PRaise e), w')
      end
  | _ => (Ok p, w)
  end.

(** A thread run to its end without interruption. *)
Fixpoint run_prog {A} (p : prog A) (w : world T) : res A * world T :=
  match p with
  | PRet a => (Ok a, w)
  | PRaise e => (Err e, w)
  | PVis o k =>
      match perform o false w with
      | (Ok x, w') => run_prog (k x) w'
      | (Err e, w') => (Err e, w')
      end
  end.

Definition run_choice (c : choice T) (ts : list (prog envelope)) (w : world T)
    : list (prog envelope) * world T :=
  let run i late :=
    match ts !! i with
    | Some p =>
        match step_prog late p w with
        | (Ok p', w') => (<[i := p']> ts, w')
        | (Err _, w') => (ts, w')
        end
    | None => (ts, w)
    end in
  match c with
  | Run i => run i false
  | RunLate i => run i true
  | Env a => (ts, env_step a w)
  end.

Fixpoint run_choices (cs : list (choice T)) (ts : list (prog envelope)) (w : world T)
    : list (prog envelope) * world T :=
  match cs with
  | [] => (ts, w)
  | c :: cs => let '(ts, w) := run_choice c ts w in run_choices cs ts w
  end.

Fixpoint join_threads (ts : list (prog envelope)) (w : world T)
    : list (res envelope) * world T :=
  match ts with
  | [] => ([], w)
  | p :: ts =>
      let '(r, w) := run_prog p w in
      let '(rs, w) := join_threads ts w in (r :: rs, w)
  end.

(** [future.result()] with the defensive guard. *)
Definition future_result (r : res envelope) : envelope :=
  match r with
  | Ok result => result
  | Err e => failure (error_object "executor_internal_error" (exc_str e)) false
  end.

(** The results come back in the order of [steps]; step ids are unique within a
    batch, so [results_by_step_id] pairs each step with its own result. *)
Definition execute_ready_steps (cs : list (choice T)) (plan : ExecutionPlan)
    (steps : list PlanStep) (w : world T) : list (PlanStep * envelope) * world T :=
  let '(ts, w) := run_choices cs (execute_single_step plan <$> steps) w in
  let '(rs, w) := join_threads ts w in
  (zip steps (future_result <$> rs), w).

(** ** The main loop: [execute] *)
Record loop_state := mkLoop {
  lp_plan : ExecutionPlan;
  lp_completed : gset string;
  lp_results : list StepResult;
  lp_history : list ReplanItem;
  lp_replan_count : Z;
}.

(** [_serialize_plan_steps] *)
Definition serialize_plan_steps (steps : list PlanStep) : list StepSpec :=
  (λ s, mkStepSpec (ps_step_id s) (ps_tool_id s) (ps_goal s) (ps_depends_on s)) <$> steps.

(** [_build_replan_history_item] *)
Definition build_replan_history_item (o : ReplanOutcome) : ReplanItem :=
  mkReplanItem (strategy (ro_decision o)) (rd_reason (ro_decision o)) (rd_message (ro_decision o))
    (ep_plan_version (ro_plan o)) (step_id_mappings o).

(** [_replan_for_missing_dependency] *)
Definition replan_for_missing_dependency (plan : ExecutionPlan) (pending : list PlanStep)
    (replan_count : Z) : res (option ReplanOutcome) :=
  if negb replanner || (max_replan_attempts <=? replan_count) then Ok None
  else
    match pending with
    | [] => Err (IndexError "list index out of range")
    | blocked :: _ => Some <$> Replanner.replan_for_missing_dependency plan (ps_step_id blocked)
    end.

(** [_replan_after_failure] *)
Definition replan_after_failure (plan : ExecutionPlan) (failed : PlanStep) (error : dict pyval)
    (replan_count : Z) : res (option ReplanOutcome) :=
  if negb replanner || (max_replan_attempts <=? replan_count) then Ok None
  else
    o ← Replanner.replan_after_failure repr plan failed error;
    Ok (if requires_human_handoff (ro_decision o) then None
        else if negb (should_replan (ro_decision o)) then None
        else Some o).

Definition finish (l : loop_state) (success : bool) (error : option (dict pyval))
    : ExecutionResult :=
  mkExecutionResult success (lp_results l) error (ep_trace_id (lp_plan l))
    (ep_plan_version (lp_plan l)) (lp_history l).

Definition session_status (l : loop_state) (x : ExecutionStatus) : st (world T) unit :=
  store_effect (set_session_status utcnow (ep_session_id (lp_plan l)) x).

(** [current_plan = replan_outcome.plan; replan_count += 1; ...upsert_plan_steps]. *)
Definition adopt (l : loop_state) (o : ReplanOutcome) : st (world T) loop_state :=
  let p := ro_plan o in
  store_effect (upsert_plan_steps utcnow (ep_session_id p)
    (serialize_plan_steps (ep_steps p)) (ep_plan_version p)) ≫= λ _,
  mret (mkLoop p (lp_completed l) (lp_results l)
          (lp_history l ++ [build_replan_history_item o]) (lp_replan_count l + 1)).

(** [step_results.append(...)] and [append_step_summary]. *)
Definition add_result (l : loop_state) (step : PlanStep) (result : envelope)
    : st (world T) loop_state :=
  context_effect (ContextManager.append_step_summary
    [("step_id", VStr (ps_step_id step)); ("tool_id", VStr (ps_tool_id step));
     ("success", VBool (env_success result))]) ≫= λ _,
  mret (mkLoop (lp_plan l) (lp_completed l)
    (lp_results l ++ [mkStepResult (ps_step_id step) (ps_tool_id step)
                        (ep_plan_version (lp_plan l)) result])
    (lp_history l) (lp_replan_count l)).

Definition complete (l : loop_state) (step_id : string) : loop_state :=
  mkLoop (lp_plan l) ({[step_id]} ∪ lp_completed l) (lp_results l) (lp_history l)
    (lp_replan_count l).

(** The loop over [batch_results]: [inl] returns from [execute], [inr]
    continues the main loop. *)
Fixpoint consume (l : loop_state) (batch : list (PlanStep * envelope))
    : st (world T) (ExecutionResult + loop_state) :=
  match batch with
  | [] => mret (inr l)
  | (step, result) :: batch =>
      l ← add_result l step result;
      if env_success result then consume (complete l (ps_step_id step)) batch
      else
        o ← st_lift (replan_after_failure (lp_plan l) step (default [] (env_error result))
                       (lp_replan_count l));
        match o with
        | Some o => l ← adopt l o; mret (inr l)
        | None =>
            session_status l FAILED ≫= λ _,
            mret (inl (finish l false (env_error result)))
        end
  end.

Definition pending_steps (l : loop_state) : list PlanStep :=
  filter (λ s, ps_step_id s ∉ lp_completed l) (ep_steps (lp_plan l)).
Definition ready (completed : gset string) (s : PlanStep) : Prop :=
  Forall (λ d, d ∈ completed) (ps_depends_on s).
Definition ready_steps (l : loop_state) : list PlanStep :=
  filter (ready (lp_completed l)) (pending_steps l).

(** One iteration of [while True]. *)
Definition iteration (rd : round T) (l : loop_state)
    : st (world T) (ExecutionResult + loop_state) := λ w0,
  (cancelled ← (run_prog (is_cancelled (ep_session_id (lp_plan l))) : st (world T) bool);
   if (cancelled : bool) then
     session_status l CANCELED ≫= λ _,
     mret (inl (finish l false (Some (error_object "session_cancelled"
                                         "execution cancelled by control signal"))))
   else
   now ← read_clock;
   control ← (λ w, (Ok (w_control w), w));
   if Control.is_session_timed_out now control then
     session_status l FAILED ≫= λ _,
     mret (inl (finish l false (Some (error_object "session_timeout"
                                         "execution exceeded session timeout"))))
   else
   match pending_steps l with
   | [] =>
       session_status l SUCCESS ≫= λ _,
       (run_prog (save_snapshot (lp_plan l) "final" "final-response"
          [("step_results", VInt (Z.of_nat (length (lp_results l))));
           ("replan_count", VInt (lp_replan_count l))]) : st (world T) unit) ≫= λ _,
       mret (inl (finish l true None))
   | pending =>
       match ready_steps l with
       | [] =>
           o ← st_lift (replan_for_missing_dependency (lp_plan l) pending (lp_replan_count l));
           match o with
           | None =>
               session_status l FAILED ≫= λ _,
               mret (inl (finish l false (Some (error_object "dependency_blocked"
                            "no executable step and replanner not available"))))
           | Some o => l ← adopt l o; mret (inr l)
           end
       | ready =>
           let max_par := Z.min (max_concurrency control)
                            (max_parallel (ep_graph_limits (lp_plan l))) in
           batch ← (λ w, let '(b, w') := execute_ready_steps (rd_batch rd) (lp_plan l)
                                            (slice_to max_par ready) w in (Ok b, w'));
           consume l batch
       end
   end) (foldl (λ w a, env_step a w) w0 (rd_before rd)).

(** [while True] with fuel; [None] is fuel exhaustion. *)
Fixpoint loop (rounds : nat → round T) (fuel : nat) (i : nat) (l : loop_state) (w : world T)
    : option (res ExecutionResult * world T) :=
  match fuel with
  | O => None
  | S fuel =>
      match iteration (rounds i) l w with
      | (Ok (inl r), w') => Some (Ok r, w')
      | (Ok (inr l'), w') => loop rounds fuel (S i) l' w'
      | (Err e, w') => Some (Err e, w')
      end
  end.

(** [execute] up to the loop: the session is created or resumed and the steps
    that already succeeded are taken from the recovery point. *)
Definition start (plan : ExecutionPlan) : st (world T) loop_state :=
  store_effect (init_session utcnow (ep_request_id plan) (ep_session_id plan)
    (serialize_plan_steps (ep_steps plan)) (ep_plan_version plan) (ep_trace_id plan)) ≫= λ _,
  session ← store_effect (get_session (ep_session_id plan));
  point ← st_lift (RecoveryService.find_recovery_point session None);
  store_effect (set_session_status utcnow (ep_session_id plan) RUNNING) ≫= λ _,
  mret (mkLoop plan (list_to_set (RecoveryService.rp_completed_step_ids point)) [] [] 0).

Definition execute (rounds : nat → round T) (fuel : nat) (plan : ExecutionPlan) (w : world T)
    : option (res ExecutionResult * world T) :=
  match start plan w with
  | (Ok l, w') => loop rounds fuel 0 l w'
  | (Err e, w') => Some (Err e, w')
  end.

(** Iterations that always suffice: every iteration that does not return
    replans or completes a pending step. *)
Definition enough (plan : ExecutionPlan) : nat :=
  S (S (Z.to_nat max_replan_attempts) * length (ep_steps plan)).

End executor.
End Executor.
