(* ===== verification/ExecutorBatch.v ===== *)
(** * What a batch of steps does, under every interleaving

    A small program logic for worker threads: [wp] tracks the status of the
    thread's own step, the store calls and tool calls the thread may make, and
    a budget of tool calls.  The section [batch] lifts it to all schedules:
    threads of different steps do not disturb each other. *)
From S2P Require Import Prelude PyFloat PyValue ToolRegistry StateStore StateStoreFacts Recovery Planner Replanner Policy Context Executor.
Import StateStore Executor.
Local Open Scope nat_scope.

(** ** Statuses under store commands *)
Section store_facts.
Context (utcnow : nat → string).

Lemma exec_status_keep {A} (o : op A) sid id w σ :
  target o ≠ Some (sid, id) → status_of w sid id = Some σ →
  status_of (exec utcnow o w).2 sid id = Some σ.
Proof.
  unfold status_of. intros Ht. destruct (step_of w sid id) as [x|] eqn:E; [|done].
  intros [= <-]. by rewrite (exec_keeps utcnow o sid id Ht x w E).
Qed.

(** The status a marking command writes. *)
Definition mark_status {A} (o : op A) : option ExecutionStatus :=
  match o with
  | OMarkStepRunning _ _ => Some RUNNING
  | OMarkStepWaitingTool _ _ => Some WAITING_TOOL
  | OMarkStepSuccess _ _ _ _ => Some SUCCESS
  | OMarkStepFailed _ _ _ => Some FAILED
  | OMarkStepCanceled _ _ _ => Some CANCELED
  | _ => None
  end.

Lemma mark_status_of sid id f w x σ :
  step_of w sid id = Some x → ss_status (f x) = σ →
  status_of (mark utcnow sid id f w).2 sid id = Some σ.
Proof.
  intros (s & Hs & Hx)%step_of_Some Hf. rewrite mark_eq, Hs, Hx.
  unfold status_of, step_of. simpl. rewrite lookup_insert_eq. simpl.
  rewrite lookup_insert_eq. simpl. by rewrite <-Hf.
Qed.

Lemma exec_mark_status {A} (o : op A) sid id w σ0 σ :
  target o = Some (sid, id) → mark_status o = Some σ →
  status_of w sid id = Some σ0 → status_of (exec utcnow o w).2 sid id = Some σ.
Proof.
  unfold status_of at 1. intros Ht Hσ Hs. destruct (step_of w sid id) as [x|] eqn:E; [|done].
  destruct o; try discriminate Ht; injection Ht as -> ->; injection Hσ as <-;
    by apply (mark_status_of _ _ _ _ x).
Qed.

Lemma target_mark_status {A} (o : op A) p : target o = Some p → is_Some (mark_status o).
Proof. destruct o; naive_solver. Qed.

Lemma exec_status_some {A} (o : op A) sid id w :
  is_Some (status_of w sid id) → is_Some (status_of (exec utcnow o w).2 sid id).
Proof.
  intros [σ Hσ]. destruct (decide (target o = Some (sid, id))) as [Ht|Ht].
  - destruct (target_mark_status o _ Ht) as [σ' Hσ']. exists σ'. by eapply exec_mark_status.
  - exists σ. by apply exec_status_keep.
Qed.
End store_facts.

(** ** A program logic for threads *)
Section threads.
Context {T : Type}.
Context (utcnow : nat → string) (monotonic : nat → float).
Context (repr : pyval → string) (exc_str : exc → string).
Context (defs : gmap string (ToolRegistry.ToolDefinition T)).
Context (validate : string → dict pyval → res unit).
Context (permission_map : gmap string ToolPermission).
Context (max_retry_attempts : Z) (request : dict pyval).
Local Abbreviation perform := (perform utcnow monotonic exc_str defs).
Local Abbreviation check_policy := (check_policy permission_map request).
Local Abbreviation check_schema := (check_schema defs validate).
Local Abbreviation attempt_step := (attempt_step defs validate permission_map request).
Local Abbreviation attempts := (attempts defs validate permission_map max_retry_attempts request).
Local Abbreviation execute_single_step :=
  (execute_single_step defs validate permission_map max_retry_attempts request).
Implicit Types (w : world T).

Lemma perform_store {X} (o : eff X) late w :
  w_store (perform o late w).2 =
  match o with EStore o => (exec utcnow o (w_store w)).2 | _ => w_store w end.
Proof.
  destruct o; simpl; try done.
  - unfold store_effect. by destruct (exec utcnow o (w_store w)).
  - unfold invoke_tool_with_timeout. destruct late; [done|].
    by destruct (ToolRegistry.invoke _ _ _ _) as [[]].
Qed.

Definition cost {X} (o : eff X) : nat := match o with EInvoke _ _ _ => 1 | _ => 0 end.

(** Store commands a worker thread issues for its step. *)
Definition worker_op (sid id : string) {A} (o : op A) : Prop :=
  (target o = None ∨ target o = Some (sid, id)) ∧
  match o with
  | OInitSession _ _ _ _ _ | OUpsertPlanSteps _ _ _ | OSetSessionStatus _ _
  | OMarkCancelRequested _ => False
  | _ => True
  end.

(** Effects a worker thread performs for its step: a tool call is made for the
    step itself, after the policy and the tool's contract let it through. *)
Definition worker_eff (sid : string) (step : PlanStep) {X} (o : eff X) : Prop :=
  match o with
  | EStore o => worker_op sid (ps_step_id step) o
  | EInvoke s payload _ =>
      s = step ∧ check_policy step = Ok None ∧ check_schema step payload = Ok None
  | _ => True
  end.

Section wp.
Context (sid : string) (step : PlanStep).
Local Abbreviation id := (ps_step_id step).

Fixpoint wp {A} (n : nat) (p : prog A) (Q : nat → A → ExecutionStatus → Prop)
    (σ : ExecutionStatus) : Prop :=
  match p with
  | PRet a => Q n a σ
  | PRaise _ => True
  | PVis o k =>
      worker_eff sid step o ∧
      ∃ m, cost o + m ≤ n ∧
        ∀ late w r w', status_of (w_store w) sid id = Some σ → perform o late w = (Ok r, w') →
          ∃ σ', status_of (w_store w') sid id = Some σ' ∧ wp m (k r) Q σ'
  end.

Lemma wp_mono {A} (p : prog A) (Q Q' : nat → A → ExecutionStatus → Prop) : ∀ n n' σ,
  n ≤ n' → (∀ m m' a σ, m ≤ m' → Q m a σ → Q' m' a σ) → wp n p Q σ → wp n' p Q' σ.
Proof.
  induction p as [a|e|X o k IH]; intros n n' σ Hn HQ; simpl; [by apply HQ|done|].
  intros (Ho & m & Hm & H). split; [done|]. exists m. split; [lia|].
  intros late w r w' Hs Hp. destruct (H late w r w' Hs Hp) as (σ' & ? & ?).
  exists σ'. split; [done|]. by eapply IH.
Qed.

Lemma wp_bind {A B} (p : prog A) (f : A → prog B) Q : ∀ n σ,
  wp n p (λ n a σ, wp n (f a) Q σ) σ → wp n (p ≫= f) Q σ.
Proof.
  induction p as [a|e|X o k IH]; intros n σ; simpl; [done|done|].
  intros (Ho & m & Hm & H). split; [done|]. exists m. split; [done|].
  intros late w r w' Hs Hp. destruct (H late w r w' Hs Hp) as (σ' & ? & ?).
  exists σ'. split; [done|]. by apply IH.
Qed.

Lemma wp_ret {A} n (a : A) (Q : nat → A → ExecutionStatus → Prop) σ : Q n a σ → wp n (mret a) Q σ.
Proof. done. Qed.

Lemma wp_lift {A} n (r : res A) (Q : nat → A → ExecutionStatus → Prop) σ :
  (∀ a, r = Ok a → Q n a σ) → wp n (prog_lift r) Q σ.
Proof. destruct r; simpl; auto. Qed.

(** Effects that leave the step's status alone. *)
Lemma wp_read {X} (o : eff X) n (Q : nat → X → ExecutionStatus → Prop) σ :
  match o with
  | EStore o => worker_op sid id o ∧ target o = None
  | EInvoke _ _ _ => False
  | _ => True
  end →
  (∀ r, Q n r σ) → wp n (call o) Q σ.
Proof.
  intros Ho HQ. simpl. split.
  - destruct o; simpl; try done. apply Ho.
  - exists n. split; [by destruct o|]. intros late w r w' Hs Hp. exists σ. split; [|done].
    replace w' with (perform o late w).2 by (by rewrite Hp). rewrite perform_store.
    destruct o; try done. apply exec_status_keep; [|done]. destruct Ho as [_ ->]. done.
Qed.

Lemma wp_mark (o : op unit) n (Q : nat → unit → ExecutionStatus → Prop) σ σ' :
  worker_op sid id o → target o = Some (sid, id) → mark_status o = Some σ' →
  Q n tt σ' → wp n (on_store o) Q σ.
Proof.
  intros Ho Ht Hm HQ. split; [exact Ho|]. exists n. split; [done|].
  intros late w r w' Hs Hp. exists σ'. destruct r. split; [|done].
  replace w' with (perform (EStore o) late w).2 by (by rewrite Hp). rewrite perform_store.
  by eapply exec_mark_status.
Qed.

Lemma wp_invoke payload timeout n (Q : nat → envelope → ExecutionStatus → Prop) σ :
  check_policy step = Ok None → check_schema step payload = Ok None →
  (∀ r, Q n r σ) → wp (S n) (call (EInvoke step payload timeout)) Q σ.
Proof.
  intros Hp Hc HQ. split; [done|]. exists n. split; [done|].
  intros late w r w' Hs Hw. exists σ. split; [|apply HQ].
  replace w' with (perform (EInvoke step payload timeout) late w).2 by (by rewrite Hw).
  by rewrite perform_store.
Qed.

Variable (plan : ExecutionPlan).
Hypothesis (Hsid : ep_session_id plan = sid).

Lemma wp_snapshot phase payload n (Q : nat → unit → ExecutionStatus → Prop) σ :
  Q n tt σ → wp n (save_snapshot plan id phase payload) Q σ.
Proof.
  intros HQ. unfold save_snapshot, on_store.
  apply wp_bind, wp_read; [simpl; unfold worker_op; simpl; auto|]. intros s.
  apply wp_bind, wp_read; [simpl; unfold worker_op; simpl; auto|]. intros t.
  apply wp_read; [simpl; unfold worker_op; simpl; auto|]. by intros [].
Qed.

Lemma wp_is_cancelled n (Q : nat → bool → ExecutionStatus → Prop) σ :
  (∀ b, Q n b σ) → wp n (is_cancelled sid) Q σ.
Proof.
  intros HQ. unfold is_cancelled. apply wp_bind, wp_read; [done|]. intros c.
  destruct (Control.is_cancelled c); [by apply wp_ret|].
  apply wp_read; [simpl; unfold worker_op; simpl; auto|done].
Qed.

Lemma wp_record_failure attempt result n (Q : nat → unit → ExecutionStatus → Prop) σ :
  (∀ σ, Q n tt σ) → wp n (record_failure plan step attempt result) Q σ.
Proof using Hsid.
  intros HQ. unfold record_failure. rewrite Hsid.
  apply wp_bind. eapply wp_mark; [unfold worker_op; simpl; auto|done..|].
  apply wp_snapshot. apply HQ.
Qed.

Lemma wp_invoke_audited payload n (Q : nat → envelope → ExecutionStatus → Prop) σ :
  check_policy step = Ok None → check_schema step payload = Ok None →
  (∀ r, Q n r σ) → wp (S n) (invoke_audited plan step payload) Q σ.
Proof.
  intros Hp Hc HQ. unfold invoke_audited.
  apply wp_bind, wp_read; [done|]. intros c. apply wp_bind, wp_read; [done|]. intros t0.
  apply wp_bind, wp_invoke; [done..|]. intros r.
  apply wp_bind, wp_read; [done|]. intros t1. apply wp_bind, wp_lift. intros ms _.
  apply wp_bind, wp_read; [done|]. intros []. by apply wp_ret.
Qed.

(** A thread that answers with success has marked its step SUCCESS. *)
Definition success_marked (r : envelope) (σ : ExecutionStatus) : Prop :=
  env_success r = true → σ = SUCCESS.

Lemma wp_attempt_step key attempt n σ :
  wp (S n) (attempt_step plan step key attempt)
    (λ n' r σ', n ≤ n' ∧ match r with inl r => success_marked r σ' | inr _ => True end) σ.
Proof using Hsid.
  unfold attempt_step. rewrite Hsid. apply wp_bind, wp_is_cancelled. intros [].
  { apply wp_bind. eapply wp_mark; [unfold worker_op; simpl; auto|done..|].
    apply wp_ret. by split; [lia|]. }
  apply wp_bind. eapply wp_mark; [unfold worker_op; simpl; auto|done..|].
  apply wp_bind, wp_snapshot. apply wp_bind, wp_lift. intros pr Hpr.
  destruct pr as [r|].
  { apply wp_bind, wp_record_failure. intros σ'. apply wp_ret. split; [lia|].
    unfold Executor.check_policy in Hpr. inv_ok. by case_match; simplify_eq. }
  apply wp_bind, wp_read; [done|]. intros c. apply wp_bind, wp_lift. intros sr Hsr.
  destruct sr as [r|].
  { apply wp_bind, wp_record_failure. intros σ'. apply wp_ret. split; [lia|].
    unfold Executor.check_schema in Hsr. apply bind_Ok in Hsr as (path & _ & Hsr).
    case_match; [done|]. by case_match; simplify_eq. }
  apply wp_bind. eapply wp_mark; [unfold worker_op; simpl; auto|done..|].
  apply wp_bind, wp_invoke_audited; [done..|]. intros r. destruct (env_success r) eqn:Er.
  - apply wp_bind. eapply wp_mark; [unfold worker_op; simpl; auto|done..|].
    apply wp_bind, wp_snapshot. apply wp_ret. by split; [lia|].
  - apply wp_bind, wp_record_failure. intros σ'. apply wp_ret.
    split; [lia|]. unfold success_marked. destruct (env_retryable r); [done|]. by rewrite Er.
Qed.

Lemma wp_attempts key : ∀ k attempt last σ,
  wp k (attempts plan step key k attempt last) (λ _ r σ', success_marked r σ') σ.
Proof using Hsid.
  induction k as [|k IH]; intros attempt last σ; cbn [Executor.attempts].
  - apply wp_bind, wp_record_failure. intros σ'. by apply wp_ret.
  - apply wp_bind. eapply wp_mono; [done| |apply wp_attempt_step].
    intros m m' [r|r] σ' Hm [Hk Hr]; [by apply wp_ret|].
    eapply wp_mono; [| |apply IH]; [lia|done].
Qed.

Lemma wp_single_step σ :
  wp (Z.to_nat (max_retry_attempts + 1)) (execute_single_step plan step)
    (λ _ r σ', success_marked r σ') σ.
Proof using Hsid.
  unfold execute_single_step. rewrite Hsid. apply wp_bind.
  split; [unfold worker_eff, worker_op; simpl; auto|]. exists (Z.to_nat (max_retry_attempts + 1)). split; [simpl; lia|].
  intros late w skip w' Hs Hp. exists σ.
  assert (status_of (w_store w') sid id = Some σ ∧ (skip = true → σ = SUCCESS)) as [? Hskip].
  { revert Hp. cbn [Executor.perform]. unfold store_effect. cbn [exec].
    unfold should_skip_step, mbind, st_bind. rewrite get_step_eq.
    unfold status_of in Hs. destruct (step_of (w_store w) sid id) as [x|] eqn:Ex; [|done].
    apply step_of_Some in Ex as (s & E1 & E2). rewrite E1, E2. cbn. intros [= <- <-]. cbn.
    injection Hs as <-. unfold status_of, step_of. rewrite E1. simpl. rewrite E2. split; [done|].
    by intros [[?%bool_decide_eq_true _]%andb_true_iff _]%andb_true_iff. }
  split; [done|]. apply wp_ret. destruct skip; [|apply wp_attempts].
  rewrite (Hskip eq_refl). apply wp_bind, wp_read; [simpl; unfold worker_op; simpl; auto|].
  intros r. by apply wp_ret.
Qed.
End wp.

(** ** All interleavings of a batch *)
Lemma sum_list_insert (ns : list nat) i n m :
  ns !! i = Some n → sum_list (<[i := m]> ns) + n = sum_list ns + m.
Proof.
  revert i. induction ns as [|x ns IH]; intros [|i]; simpl; [done|done|..].
  - intros [= ->]. simpl. lia.
  - intros H%IH. lia.
Qed.

Section batch.
Context (plan : ExecutionPlan) (steps : list PlanStep) (w0 : world T).
Local Abbreviation sid := (ep_session_id plan).
Local Abbreviation ids := (ps_step_id <$> steps).
Hypothesis (Hnd : NoDup ids).

(** A tool call made for a step of the batch, with every step outside the
    batch still in the state it had when the batch started. *)
Record call_ok (c : invocation) : Prop := {
  co_step : iv_step c ∈ steps;
  co_policy : check_policy (iv_step c) = Ok None;
  co_schema : check_schema (iv_step c) (iv_payload c) = Ok None;
  co_store : ∀ id x, id ∉ ids → step_of (w_store w0) sid id = Some x →
    step_of (iv_store c) sid id = Some x;
}.

Definition thread_ok (w : world T) (s : PlanStep) (n : nat) (p : prog envelope) : Prop :=
  ∃ σ, status_of (w_store w) sid (ps_step_id s) = Some σ ∧
    wp sid s n p (λ _ r σ', success_marked r σ') σ.

Definition same_limits (c c' : ExecutionControl) : Prop :=
  max_concurrency c' = max_concurrency c ∧
  default_step_timeout_seconds c' = default_step_timeout_seconds c ∧
  session_timeout_seconds c' = session_timeout_seconds c ∧ started_at c' = started_at c.

Record batch_inv (ts : list (prog envelope)) (ns : list nat) (w : world T) (new : list invocation)
    : Prop := {
  bi_wf : store_wf (w_store w0) → store_wf (w_store w);
  bi_len : length ts = length steps ∧ length ns = length steps;
  bi_threads : ∀ i s n p, steps !! i = Some s → ns !! i = Some n → ts !! i = Some p →
    thread_ok w s n p;
  bi_frame : ∀ id x, id ∉ ids → step_of (w_store w0) sid id = Some x →
    step_of (w_store w) sid id = Some x;
  bi_context : w_context w = w_context w0;
  bi_control : same_limits (w_control w0) (w_control w);
  bi_calls : w_calls w = w_calls w0 ++ new;
  bi_new : Forall call_ok new;
  bi_budget : length new + sum_list ns ≤ length steps * Z.to_nat (max_retry_attempts + 1);
}.

Lemma perform_context {X} (o : eff X) late w :
  w_context (perform o late w).2 = w_context w ∧ w_control (perform o late w).2 = w_control w.
Proof.
  destruct o; simpl; try done.
  - unfold store_effect. by destruct (exec utcnow o (w_store w)).
  - unfold invoke_tool_with_timeout. destruct late; [done|].
    by destruct (ToolRegistry.invoke _ _ _ _) as [[]].
Qed.

Lemma perform_calls {X} (o : eff X) late w :
  w_calls (perform o late w).2 = w_calls w ++
    match o with EInvoke s payload _ => [mkInvocation s payload (w_store w)] | _ => [] end.
Proof.
  destruct o; simpl; rewrite ?app_nil_r; try done.
  - unfold store_effect. by destruct (exec utcnow o (w_store w)).
  - unfold invoke_tool_with_timeout. destruct late; [done|].
    by destruct (ToolRegistry.invoke _ _ _ _) as [[]].
Qed.

(** A worker of one step leaves every other step as it is. *)
Lemma perform_keeps {X} (o : eff X) late w s id x :
  worker_eff sid s o → ps_step_id s ≠ id → step_of (w_store w) sid id = Some x →
  step_of (w_store (perform o late w).2) sid id = Some x.
Proof.
  intros Ho Hne Hx. rewrite perform_store. destruct o as [A o| | | | |]; try done.
  apply exec_keeps; [|done]. destruct Ho as [[-> | ->] _]; congruence.
Qed.

Lemma batch_step ts ns w new i p p' w' late :
  batch_inv ts ns w new → ts !! i = Some p → step_prog utcnow monotonic exc_str defs late p w = (Ok p', w') →
  ∃ ns' new', batch_inv (<[i := p']> ts) ns' w' new'.
Proof using Hnd.
  intros HB Hi Hp. destruct (bi_len _ _ _ _ HB) as [Hlt Hln].
  assert (∃ s, steps !! i = Some s) as [s Hs].
  { apply lookup_lt_is_Some_2. rewrite <-Hlt. by eapply lookup_lt_Some. }
  assert (∃ n, ns !! i = Some n) as [n Hn].
  { apply lookup_lt_is_Some_2. rewrite Hln, <-Hlt. by eapply lookup_lt_Some. }
  destruct (bi_threads _ _ _ _ HB i s n p Hs Hn Hi) as (σ & Hσ & Hwp).
  destruct p as [a|e|X o k]; simpl in Hp;
    [injection Hp as <- <-; rewrite list_insert_id by done; by exists ns, new..|].
  destruct Hwp as (Ho & m & Hm & Hk).
  assert (w' = (perform o late w).2 ∧
    (p' = match (perform o late w).1 with Ok x => k x | Err e => PRaise e end)) as [-> ->].
  { by destruct (perform o late w) as [[x|e] w1]; injection Hp as <- <-. }
  clear Hp.
  assert (∃ σ', status_of (w_store (perform o late w).2) sid (ps_step_id s) = Some σ' ∧
    wp sid s m (match (perform o late w).1 with Ok x => k x | Err e => PRaise e end)
      (λ _ r σ', success_marked r σ') σ') as Hthread.
  { destruct (perform o late w) as [[x|e] w1] eqn:E; [by apply (Hk late w)|].
    assert (is_Some (status_of (w_store w1) sid (ps_step_id s))) as [σ' ?]; [|by exists σ'].
    replace w1 with (perform o late w).2 by (by rewrite E). rewrite perform_store.
    destruct o; try by rewrite Hσ. apply exec_status_some. by rewrite Hσ. }
  exists (<[i := m]> ns), (new ++
    match o with EInvoke s payload _ => [mkInvocation s payload (w_store w)] | _ => [] end).
  pose proof (sum_list_insert ns i n m Hn) as Hsum. split.
  - intros Hwf. rewrite perform_store. pose proof (bi_wf _ _ _ _ HB Hwf).
    destruct o; try done. by apply exec_wf.
  - by rewrite !length_insert.
  - intros j s' n' p' Hs' Hn' Hp'. destruct (decide (i = j)) as [<-|Hij].
    + rewrite list_lookup_insert_eq in Hn' by (by eapply lookup_lt_Some).
      rewrite list_lookup_insert_eq in Hp' by (by eapply lookup_lt_Some).
      rewrite Hs in Hs'. by simplify_eq.
    + rewrite list_lookup_insert_ne in Hn' by done. rewrite list_lookup_insert_ne in Hp' by done.
      destruct (bi_threads _ _ _ _ HB j s' n' p' Hs' Hn' Hp') as (σ1 & Hσ1 & Hwp1).
      exists σ1. split; [|done]. unfold status_of in Hσ1 |- *.
      destruct (step_of (w_store w) sid (ps_step_id s')) as [x|] eqn:Ex; [|done].
      rewrite (perform_keeps o late w s (ps_step_id s') x); [done|done| |done].
      intros Heq. apply Hij. apply (NoDup_lookup ids i j (ps_step_id s) Hnd);
        rewrite list_lookup_fmap; [by rewrite Hs|by rewrite Hs', Heq].
  - intros id x Hid Hx. apply (perform_keeps o late w s); [done| |by eapply (bi_frame _ _ _ _ HB)].
    intros <-. apply Hid. apply list_elem_of_fmap_2. by eapply list_elem_of_lookup_2.
  - destruct (perform_context o late w) as [-> _]. apply HB.
  - destruct (perform_context o late w) as [_ ->]. apply HB.
  - rewrite perform_calls, (bi_calls _ _ _ _ HB). by rewrite app_assoc.
  - apply Forall_app. split; [apply HB|]. destruct o; try by constructor.
    destruct Ho as (-> & ? & ?). constructor; [|by constructor]. split; simpl; [|done..|apply HB].
    by eapply list_elem_of_lookup_2.
  - rewrite length_app. pose proof (bi_budget _ _ _ _ HB). destruct o; simpl in *; lia.
Qed.

Lemma env_step_inv ts ns w new a :
  batch_inv ts ns w new → batch_inv ts ns (env_step utcnow a w) new.
Proof.
  intros HB. destruct a as [|sid'|t]; simpl.
  - split; apply HB.
  - unfold store_effect.
    assert (∀ id x, step_of (w_store w) sid id = Some x →
      step_of (mark_cancel_requested utcnow sid' (w_store w)).2 sid id = Some x) as Hk.
    { intros id x. by apply (exec_keeps utcnow (OMarkCancelRequested sid')). }
    pose proof (exec_wf utcnow (OMarkCancelRequested sid') (w_store w)) as Hwf. simpl in Hwf.
    destruct (mark_cancel_requested utcnow sid' (w_store w)) as [r s']. simpl in *.
    split; simpl; try apply HB.
    + intros ?. by apply Hwf, HB.
    + intros i s n p H1 H2 H3. destruct (bi_threads _ _ _ _ HB i s n p H1 H2 H3) as (σ & Hσ & ?).
      exists σ. split; [|done]. simpl. unfold status_of in *.
      destruct (step_of (w_store w) sid (ps_step_id s)) as [x|] eqn:Ex; [|done].
      by rewrite (Hk _ _ Ex).
    + intros id x Hid Hx. by apply Hk, (bi_frame _ _ _ _ HB).
  - split; apply HB.
Qed.

Lemma run_choices_inv cs : ∀ ts ns w new,
  batch_inv ts ns w new →
  ∃ ns' new', let '(ts', w') := run_choices utcnow monotonic exc_str defs cs ts w in
    batch_inv ts' ns' w' new'.
Proof using Hnd.
  induction cs as [|c cs IH]; intros ts ns w new HB; simpl; [by exists ns, new|].
  assert (∃ ns' new', let '(ts', w') := run_choice utcnow monotonic exc_str defs c ts w in
    batch_inv ts' ns' w' new') as (ns' & new' & H).
  { destruct c as [i|i|a]; simpl; [..|eexists _, _; by apply env_step_inv];
      (destruct (ts !! i) as [p|] eqn:Hi; [|by exists ns, new]);
      match goal with |- context [step_prog _ _ _ _ ?l _ _] =>
        destruct (step_prog utcnow monotonic exc_str defs l p w) as [[p'|e] w'] eqn:E end;
      try (by eapply batch_step); exfalso; destruct p; simpl in E; try discriminate;
      by destruct (perform _ _ _) as [[]]. }
  destruct (run_choice utcnow monotonic exc_str defs c ts w) as [ts' w']. by eapply IH.
Qed.

(** A finished thread. *)
Definition finished (r : res envelope) : prog envelope :=
  match r with Ok a => PRet a | Err e => PRaise e end.

Lemma run_prog_inv (p : prog envelope) : ∀ ts ns w new i,
  batch_inv ts ns w new → ts !! i = Some p →
  ∃ ns' new', let '(r, w') := run_prog utcnow monotonic exc_str defs p w in
    batch_inv (<[i := finished r]> ts) ns' w' new'.
Proof using Hnd.
  induction p as [a|e|X o k IH]; intros ts ns w new i HB Hi; simpl.
  - rewrite list_insert_id by done. by exists ns, new.
  - rewrite list_insert_id by done. by exists ns, new.
  - destruct (batch_step ts ns w new i (PVis o k)
      (match (perform o false w).1 with Ok x => k x | Err e => PRaise e end)
      (perform o false w).2 false HB Hi) as (ns' & new' & HB').
    { simpl. by destruct (perform o false w) as [[x|e] w1]. }
    destruct (perform o false w) as [[x|e] w1]; simpl in *; [|by exists ns', new'].
    destruct (IH x _ _ _ _ i HB') as (ns'' & new'' & H).
    { rewrite list_lookup_insert_eq; [done|]. by eapply lookup_lt_Some. }
    exists ns'', new''. destruct (run_prog _ _ _ _ (k x) w1). by rewrite list_insert_insert_eq in H.
Qed.

Lemma join_threads_inv ts : ∀ done ns w new,
  batch_inv (done ++ ts) ns w new →
  ∃ ns' new', let '(rs, w') := join_threads utcnow monotonic exc_str defs ts w in
    batch_inv (done ++ (finished <$> rs)) ns' w' new' ∧ length rs = length ts.
Proof using Hnd.
  induction ts as [|p ts IH]; intros done ns w new HB; simpl; [by exists ns, new|].
  destruct (run_prog_inv p (done ++ p :: ts) ns w new (length done) HB) as (ns1 & new1 & H1).
  { by rewrite lookup_app_r, Nat.sub_diag by lia. }
  destruct (run_prog _ _ _ _ p w) as [r w1].
  rewrite insert_app_r_alt, Nat.sub_diag in H1 by lia. simpl in H1.
  rewrite (cons_middle (finished r) done ts), app_assoc in H1.
  destruct (IH _ _ _ _ H1) as (ns2 & new2 & H2).
  destruct (join_threads _ _ _ _ ts w1) as [rs w2]. destruct H2 as [H2 Hl].
  exists ns2, new2. simpl. split; [|by f_equal]. by rewrite <-app_assoc in H2.
Qed.

(** What a batch leaves behind. *)
Record batch_post (b : list (PlanStep * envelope)) (w : world T) (new : list invocation)
    : Prop := {
  bp_steps : b.*1 = steps;
  bp_success : ∀ s r, (s, r) ∈ b → env_success r = true →
    status_of (w_store w) sid (ps_step_id s) = Some SUCCESS;
  bp_exists : ∀ s, s ∈ steps → is_Some (status_of (w_store w) sid (ps_step_id s));
  bp_wf : store_wf (w_store w0) → store_wf (w_store w);
  bp_frame : ∀ id x, id ∉ ids → step_of (w_store w0) sid id = Some x →
    step_of (w_store w) sid id = Some x;
  bp_context : w_context w = w_context w0;
  bp_control : same_limits (w_control w0) (w_control w);
  bp_calls : w_calls w = w_calls w0 ++ new;
  bp_new : Forall call_ok new;
  bp_budget : length new ≤ length steps * Z.to_nat (max_retry_attempts + 1);
}.

Lemma batch_inv_start :
  (∀ s, s ∈ steps → is_Some (status_of (w_store w0) sid (ps_step_id s))) →
  batch_inv (execute_single_step plan <$> steps)
    (replicate (length steps) (Z.to_nat (max_retry_attempts + 1))) w0 [].
Proof.
  intros Hex. split; simpl; try done.
  - by rewrite length_fmap, length_replicate.
  - intros i s n p Hs Hn Hp. rewrite list_lookup_fmap, Hs in Hp. injection Hp as <-.
    apply lookup_replicate in Hn as [-> _].
    destruct (Hex s) as [σ Hσ]; [by eapply list_elem_of_lookup_2|].
    exists σ. split; [done|]. by apply wp_single_step.
  - by rewrite app_nil_r.
  - by rewrite sum_list_replicate.
Qed.

Lemma execute_ready_steps_ok cs :
  (∀ s, s ∈ steps → is_Some (status_of (w_store w0) sid (ps_step_id s))) →
  ∃ new, let '(b, w) := execute_ready_steps utcnow monotonic exc_str defs validate permission_map
                          max_retry_attempts request cs plan steps w0 in
    batch_post b w new.
Proof using Hnd.
  intros Hex. unfold execute_ready_steps.
  destruct (run_choices_inv cs _ _ _ _ (batch_inv_start Hex)) as (ns1 & new1 & H1).
  destruct (run_choices _ _ _ _ cs _ w0) as [ts w1].
  destruct (join_threads_inv ts [] _ _ _ H1) as (ns2 & new2 & H2).
  destruct (join_threads _ _ _ _ ts w1) as [rs w2]. destruct H2 as [H2 Hl]. exists new2.
  destruct (bi_len _ _ _ _ H2) as [Hlt Hln]. simpl in Hlt. rewrite length_fmap in Hlt.
  assert (∀ i s r, steps !! i = Some s → rs !! i = Some r →
    ∃ n, thread_ok w2 s n (finished r)) as Hth.
  { intros i s r Hs Hr. assert (is_Some (ns2 !! i)) as [n Hn].
    { apply lookup_lt_is_Some. rewrite Hln. by eapply lookup_lt_Some. }
    exists n. apply (bi_threads _ _ _ _ H2 i); [done|done|]. simpl. by rewrite list_lookup_fmap, Hr. }
  split; try apply H2.
  - rewrite fst_zip; [done|]. rewrite length_fmap. lia.
  - intros s r [i Hi]%list_elem_of_lookup Hr.
    apply lookup_zip_with_Some in Hi as (s' & r' & [= <- <-] & Hs & Hr').
    rewrite list_lookup_fmap in Hr'. destruct (rs !! i) as [r0|] eqn:E; [|done].
    injection Hr' as <-. destruct (Hth i s r0 Hs E) as (n & σ & Hσ & Hwp).
    destruct r0 as [r0|e]; [|done]. simpl in Hwp. by rewrite Hσ, Hwp.
  - intros s [i Hi]%list_elem_of_lookup. assert (is_Some (rs !! i)) as [r Hr].
    { apply lookup_lt_is_Some. rewrite Hlt. by eapply lookup_lt_Some. }
    destruct (Hth i s r Hi Hr) as (n & σ & Hσ & _). by rewrite Hσ.
  - pose proof (bi_budget _ _ _ _ H2). lia.
Qed.
End batch.
End threads.
