(* ===== verification/ExecutorFacts.v ===== *)
(** * The main loop of the execution engine

    [loop_inv] is the invariant of [execute]'s loop; every iteration keeps it
    and either returns a result that satisfies [final_ok] or decreases the
    potential.  The bounds on iterations, replans and tool calls, and the
    meaning of the result, follow for every schedule of the batches and every
    behaviour of tools, clocks and cancellation. *)
From S2P Require Import Prelude PyFloat PyValue ToolRegistry StateStore StateStoreFacts Recovery Planner PlannerFacts Replanner Policy Context Executor ExecutorBatch.
Import StateStore Executor.
Local Open Scope nat_scope.

(** ** Store calls of the main thread *)
Section main_store.
Context (utcnow : nat → string).

(** [alive sid w]: the session exists. *)
Definition session_of (w : store) (sid : string) : option SessionState := sessions w !! sid.

Lemma status_of_session w sid id : is_Some (status_of w sid id) → is_Some (session_of w sid).
Proof.
  unfold status_of, step_of, session_of. destruct (sessions w !! sid); [eauto|]. by intros [? ?].
Qed.

Lemma set_session_status_ok w sid x :
  is_Some (session_of w sid) →
  ∃ w', set_session_status utcnow sid x w = (Ok tt, w') ∧
    (∃ s, session_of w' sid = Some s ∧ se_status s = x).
Proof.
  intros [s Hs]. unfold set_session_status, mbind, st_bind. rewrite update_session_eq.
  unfold session_of in *. rewrite Hs, touch_session_eq. simpl. rewrite lookup_insert_eq.
  eexists. split; [done|]. simpl. rewrite lookup_insert_eq. by eexists.
Qed.

Lemma save_snapshot_ok w sid x :
  is_Some (session_of w sid) →
  ∃ w', StateStore.save_snapshot utcnow sid x w = (Ok tt, w') ∧
    (se_status <$> session_of w' sid) = (se_status <$> session_of w sid).
Proof.
  intros [s Hs]. unfold StateStore.save_snapshot, mbind, st_bind. rewrite update_session_eq.
  unfold session_of in *. rewrite Hs, touch_session_eq. simpl. rewrite lookup_insert_eq.
  eexists. split; [done|]. simpl. by rewrite lookup_insert_eq.
Qed.

Lemma upsert_step_ok w sid sp :
  is_Some (session_of w sid) →
  ∃ w', upsert_step utcnow sid sp w = (Ok tt, w') ∧ is_Some (session_of w' sid) ∧
    is_Some (status_of w' sid (sp_step_id sp)).
Proof.
  intros [s Hs]. unfold upsert_step, mbind at 1, st_bind at 1, get_session.
  unfold session_of in Hs. rewrite Hs. destruct (se_steps s !! sp_step_id sp) as [x|] eqn:E.
  - exists w. unfold session_of, status_of, step_of. rewrite Hs. simpl. rewrite E. eauto.
  - unfold mbind, st_bind, now. rewrite update_session_eq. simpl. rewrite Hs.
    eexists. split; [done|]. unfold session_of, status_of, step_of. simpl.
    rewrite lookup_insert_eq. simpl. rewrite lookup_insert_eq. eauto.
Qed.

Lemma keeps_status {A} (m : st store A) sid id w :
  keeps sid id m → is_Some (status_of w sid id) → is_Some (status_of (m w).2 sid id).
Proof.
  unfold status_of. intros Hm [σ Hσ]. destruct (step_of w sid id) as [x|] eqn:E; [|done].
  by rewrite (Hm x w E).
Qed.

Lemma upsert_steps_ok sid l : ∀ w,
  is_Some (session_of w sid) →
  ∃ w', st_for (upsert_step utcnow sid) l w = (Ok tt, w') ∧ is_Some (session_of w' sid) ∧
    (∀ sp, sp ∈ l → is_Some (status_of w' sid (sp_step_id sp))).
Proof.
  induction l as [|sp l IH]; intros w Hs; simpl.
  { exists w. split_and!; [done..|set_solver]. }
  destruct (upsert_step_ok w sid sp Hs) as (w1 & E1 & Hs1 & Hsp).
  unfold mbind, st_bind. rewrite E1. destruct (IH w1 Hs1) as (w2 & E2 & Hs2 & Hl).
  exists w2. split_and!; [done..|]. intros sp' [->|Hin]%elem_of_cons; [|by apply Hl].
  replace w2 with (st_for (upsert_step utcnow sid) l w1).2 by (by rewrite E2).
  apply keeps_status; [|done]. intros x. apply preserves_for. intros ? _. apply keeps_upsert_step.
Qed.

Lemma touch_session_ok w sid :
  is_Some (session_of w sid) →
  ∃ w', touch_session utcnow sid w = (Ok tt, w') ∧ is_Some (session_of w' sid).
Proof.
  intros [s Hs]. unfold session_of in *. rewrite touch_session_eq, Hs. eexists. split; [done|].
  simpl. rewrite lookup_insert_eq. eauto.
Qed.

Lemma update_session_ok w sid f :
  is_Some (session_of w sid) →
  ∃ w', update_session sid f w = (Ok tt, w') ∧ is_Some (session_of w' sid).
Proof.
  intros [s Hs]. unfold session_of in *. rewrite update_session_eq, Hs. eexists. split; [done|].
  simpl. rewrite lookup_insert_eq. eauto.
Qed.

Lemma upsert_plan_steps_ok w sid l v :
  is_Some (session_of w sid) →
  ∃ w', upsert_plan_steps utcnow sid l v w = (Ok tt, w') ∧ is_Some (session_of w' sid) ∧
    (∀ sp, sp ∈ l → is_Some (status_of w' sid (sp_step_id sp))).
Proof.
  intros Hs. unfold upsert_plan_steps, mbind, st_bind.
  destruct (update_session_ok w sid
    (λ s, set_version (Z.max (se_plan_version s) v) s) Hs) as (w1 & -> & Hs1).
  destruct (upsert_steps_ok sid l w1 Hs1) as (w2 & -> & Hs2 & Hl).
  destruct (touch_session_ok w2 sid Hs2) as (w3 & E3 & Hs3). rewrite E3.
  exists w3. split_and!; [done..|]. intros sp Hsp.
  replace w3 with (touch_session utcnow sid w2).2 by (by rewrite E3).
  apply keeps_status; [apply keeps_touch|auto].
Qed.

Lemma init_session_ok w r sid l v t :
  ∃ s w', init_session utcnow r sid l v t w = (Ok s, w') ∧ is_Some (session_of w' sid) ∧
    (∀ sp, sp ∈ l → is_Some (status_of w' sid (sp_step_id sp))).
Proof.
  unfold init_session. destruct (sessions w !! sid) as [s0|] eqn:E.
  - unfold mbind, st_bind. edestruct (update_session_ok w sid) as (w1 & -> & Hs1); [by eexists|].
    destruct (upsert_plan_steps_ok w1 sid l v Hs1) as (w2 & -> & Hs2 & Hl).
    destruct (touch_session_ok w2 sid Hs2) as (w3 & E3 & [s3 Hs3]). rewrite E3.
    unfold get_session. unfold session_of in Hs3. rewrite Hs3. exists s3, w3.
    split_and!; [done|by eexists|]. intros sp Hsp.
    replace w3 with (touch_session utcnow sid w2).2 by (by rewrite E3).
    apply keeps_status; [apply keeps_touch|auto].
  - unfold mbind, st_bind, now. simpl.
    match goal with |- context [upsert_plan_steps _ _ _ _ ?w1] =>
      destruct (upsert_plan_steps_ok w1 sid l v) as (w2 & -> & [s2 Hs2] & Hl) end.
    { unfold session_of. simpl. rewrite lookup_insert_eq. by eexists. }
    unfold get_session. unfold session_of in Hs2. rewrite Hs2. exists s2, w2.
    split_and!; [done|by eexists|done].
Qed.
End main_store.

(** ** The loop invariant *)
Section main_loop.
Context {T : Type}.
Context (utcnow : nat → string) (monotonic : nat → float).
Context (repr : pyval → string) (exc_str : exc → string).
Context (defs : gmap string (ToolRegistry.ToolDefinition T)).
Context (validate : string → dict pyval → res unit).
Context (permission_map : gmap string ToolPermission).
Context (replanner : bool) (max_retry_attempts max_replan_attempts : Z).
Context (request : dict pyval).
Local Abbreviation check_policy := (check_policy permission_map request).
Local Abbreviation check_schema := (check_schema defs validate).
Local Abbreviation env_step := (env_step utcnow).
Local Abbreviation consume := (consume utcnow repr replanner max_replan_attempts).
Local Abbreviation iteration := (iteration utcnow monotonic repr exc_str defs validate permission_map
  replanner max_retry_attempts max_replan_attempts request).
Local Abbreviation loop := (loop utcnow monotonic repr exc_str defs validate permission_map
  replanner max_retry_attempts max_replan_attempts request).
Local Abbreviation execute := (execute utcnow monotonic repr exc_str defs validate permission_map
  replanner max_retry_attempts max_replan_attempts request).
Implicit Types (w : world T) (l : loop_state).

(** The execution under study: its plan, tools, and the calls made before it. *)
Context (plan0 : ExecutionPlan) (allowed : list string) (calls0 : list invocation).
Local Abbreviation sid := (ep_session_id plan0).
Local Abbreviation N := (length (ep_steps plan0)).
Local Abbreviation per_step := (Z.to_nat (max_retry_attempts + 1)).
Local Abbreviation status w id := (status_of (w_store w) sid id).

(** A call that passed the policy and the tool's contract, made when every
    dependency of its step had succeeded. *)
Record call_guarded (c : invocation) : Prop := {
  cg_policy : check_policy (iv_step c) = Ok None;
  cg_schema : check_schema (iv_step c) (iv_payload c) = Ok None;
  cg_deps : ∀ d, d ∈ ps_depends_on (iv_step c) → status_of (iv_store c) sid d = Some SUCCESS;
}.

Record base_inv (l : loop_state) (w : world T) : Prop := {
  li_plan : replannable (lp_plan l) allowed;
  li_replans : replans repr plan0 (lp_plan l);
  li_sid : ep_session_id (lp_plan l) = sid;
  li_wf : store_wf (w_store w);
  li_steps : ∀ id, id ∈ step_ids (lp_plan l) → is_Some (status w id);
  li_done : ∀ id, id ∈ lp_completed l → status w id = Some SUCCESS;
  li_trim : trim_policy (w_context w) =
    [("max_step_summaries", VInt ContextManager.DEFAULT_MAX_STEP_SUMMARIES)];
  li_limit : (1 ≤ max_concurrency (w_control w))%Z;
  li_len : length (ep_steps (lp_plan l)) = N;
  li_count : (0 ≤ lp_replan_count l ≤ Z.max 0 max_replan_attempts)%Z;
  li_version : ep_plan_version (lp_plan l) = (ep_plan_version plan0 + lp_replan_count l)%Z;
  li_history : Z.of_nat (length (lp_history l)) = lp_replan_count l;
}.

Definition potential (l : loop_state) : nat :=
  (Z.to_nat max_replan_attempts - Z.to_nat (lp_replan_count l)) * N + length (pending_steps l).

(** Calls made so far, paid for by the potential that was used up. *)
Definition calls_inv (Φ : nat) (w : world T) : Prop :=
  ∃ new, w_calls w = calls0 ++ new ∧ Forall call_guarded new ∧
    length new + per_step * Φ ≤ per_step * (S (Z.to_nat max_replan_attempts) * N).

Definition cancelled_error : dict pyval :=
  error_object "session_cancelled" "execution cancelled by control signal".

Record final_ok (r : ExecutionResult) (w : world T) : Prop := {
  fo_wf : store_wf (w_store w);
  fo_status : ∃ s, session_of (w_store w) sid = Some s ∧
    if er_success r then se_status s = SUCCESS ∧ er_error r = None
    else se_status s = FAILED ∨ se_status s = CANCELED ∧ er_error r = Some cancelled_error;
  fo_plan : ∃ q, replans repr plan0 q ∧ er_plan_version r = ep_plan_version q ∧
    (er_success r = true → ∀ id, id ∈ step_ids q → status w id = Some SUCCESS);
  fo_version : er_plan_version r =
    (ep_plan_version plan0 + Z.of_nat (length (er_replan_history r)))%Z;
  fo_replans : (Z.of_nat (length (er_replan_history r)) ≤ Z.max 0 max_replan_attempts)%Z;
}.

(** ** Frame lemmas for worlds *)
Lemma session_alive l w : base_inv l w → is_Some (session_of (w_store w) sid).
Proof.
  intros H. pose proof (pv_nonempty _ _ (rp_valid _ _ (li_plan _ _ H))) as Hne.
  destruct (ep_steps (lp_plan l)) as [|s steps] eqn:E; [done|].
  apply (status_of_session _ sid (ps_step_id s)), (li_steps _ _ H). rewrite E. set_solver.
Qed.

(** A world in which steps, context and limits are as in a good one. *)
Lemma base_inv_frame l w w' :
  base_inv l w →
  store_wf (w_store w') →
  (∀ id x, step_of (w_store w) sid id = Some x → step_of (w_store w') sid id = Some x) →
  trim_policy (w_context w') = trim_policy (w_context w) →
  max_concurrency (w_control w') = max_concurrency (w_control w) →
  base_inv l w'.
Proof.
  intros H Hwf Hk Hc Hm.
  assert (∀ id σ, status w id = Some σ → status w' id = Some σ) as Hσ.
  { intros id σ. unfold status_of. destruct (step_of (w_store w) sid id) as [x|] eqn:E; [|done].
    by rewrite (Hk _ _ E). }
  split; try apply H; try done.
  - intros id Hid. destruct (li_steps _ _ H id Hid) as [σ E]. rewrite (Hσ _ _ E). eauto.
  - intros id Hid. by apply Hσ, (li_done _ _ H).
  - rewrite Hc. apply H.
  - rewrite Hm. apply H.
Qed.

(** A store call of the main thread. *)
Lemma store_effect_base {A} (m : st store A) l w :
  base_inv l w → preserves store_wf m → (∀ id, keeps sid id m) →
  base_inv l (store_effect m w).2 ∧ w_calls (store_effect m w).2 = w_calls w.
Proof.
  intros H Hwf Hk. unfold store_effect.
  pose proof (Hwf (w_store w) (li_wf _ _ H)) as Hwf'.
  assert (∀ id x, step_of (w_store w) sid id = Some x → step_of (m (w_store w)).2 sid id = Some x) as Hk'.
  { intros id x. apply Hk. }
  destruct (m (w_store w)) as [r s]. split; [|done]. by apply (base_inv_frame l w).
Qed.

Lemma env_steps_base acts l w :
  base_inv l w →
  base_inv l (foldl (λ w a, env_step a w) w acts) ∧
  w_calls (foldl (λ w a, env_step a w) w acts) = w_calls w.
Proof.
  revert w. induction acts as [|a acts IH]; intros w H; [done|]. simpl.
  assert (base_inv l (env_step a w) ∧ w_calls (env_step a w) = w_calls w) as [H' E].
  { destruct a as [|sid'|t]; simpl.
    - split; [|done]. by apply (base_inv_frame l w); [|apply H|..].
    - apply (store_effect_base (mark_cancel_requested utcnow sid')); [done|..].
      + intros s. apply (exec_wf utcnow (OMarkCancelRequested sid')).
      + intros id. by apply (exec_keeps utcnow (OMarkCancelRequested sid')).
    - split; [|done]. by apply (base_inv_frame l w); [|apply H|..]. }
  destruct (IH _ H') as [? ->]. by rewrite E.
Qed.

(** ** Ending the execution *)
Lemma session_status_ok l w x :
  base_inv l w →
  ∃ w', session_status utcnow l x w = (Ok tt, w') ∧ base_inv l w' ∧ w_calls w' = w_calls w ∧
    ∃ s, session_of (w_store w') sid = Some s ∧ se_status s = x.
Proof.
  intros H. unfold session_status. rewrite (li_sid _ _ H).
  destruct (set_session_status_ok utcnow (w_store w) sid x (session_alive _ _ H)) as (s' & E & Hs).
  destruct (store_effect_base (set_session_status utcnow sid x) l w H) as [H' Hc].
  - intros s. apply (exec_wf utcnow (OSetSessionStatus sid x)).
  - intros id. by apply (exec_keeps utcnow (OSetSessionStatus sid x)).
  - unfold store_effect in *. rewrite E in *. eexists. split_and!; done.
Qed.

Lemma finish_failed l w x e :
  base_inv l w → (∃ s, session_of (w_store w) sid = Some s ∧ se_status s = x) →
  x = FAILED ∨ x = CANCELED ∧ e = Some cancelled_error → final_ok (finish l false e) w.
Proof.
  intros H (s & Hs & Hx) Hor. split; [apply H|..].
  - exists s. split; [done|]. simpl. rewrite Hx. done.
  - exists (lp_plan l). split_and!; [apply H|done|done].
  - simpl. rewrite (li_version _ _ H), (li_history _ _ H). done.
  - simpl. rewrite (li_history _ _ H). apply H.
Qed.

Lemma session_failed l w x e :
  base_inv l w → x = FAILED ∨ x = CANCELED ∧ e = Some cancelled_error →
  ∃ w', (session_status utcnow l x ≫= λ _, mret (inl (finish l false e))) w =
        (Ok (inl (finish l false e) : ExecutionResult + loop_state), w') ∧
    final_ok (finish l false e) w' ∧ w_calls w' = w_calls w.
Proof.
  intros H Hx. destruct (session_status_ok l w x H) as (w' & E & H' & Hc & Hs).
  exists w'. unfold mbind, st_bind. rewrite E. split; [done|]. split; [|done].
  by eapply finish_failed.
Qed.

(** ** Adopting a replan *)
Lemma adopt_ok l w o :
  base_inv l w → replan_ok (lp_plan l) allowed o → replans repr plan0 (ro_plan o) →
  (lp_replan_count l < max_replan_attempts)%Z →
  ∃ l' w', adopt utcnow l o w = (Ok l', w') ∧ base_inv l' w' ∧ w_calls w' = w_calls w ∧
    lp_replan_count l' = (lp_replan_count l + 1)%Z ∧ lp_completed l' = lp_completed l.
Proof.
  intros H Ho Hr Hlt. unfold adopt. set (p := ro_plan o).
  assert (ep_session_id p = sid) as Hsid.
  { unfold p. rewrite (ok_session _ _ _ Ho). apply H. }
  rewrite Hsid. unfold mbind, st_bind.
  set (m := upsert_plan_steps utcnow sid (serialize_plan_steps (ep_steps p)) (ep_plan_version p)).
  destruct (store_effect_base m l w H) as [H' Hc].
  { intros s. apply (exec_wf utcnow (OUpsertPlanSteps sid _ _)). }
  { intros id. by apply (exec_keeps utcnow (OUpsertPlanSteps sid _ _)). }
  destruct (upsert_plan_steps_ok utcnow (w_store w) sid (serialize_plan_steps (ep_steps p))
    (ep_plan_version p) (session_alive _ _ H)) as (s' & E & _ & Hsteps). fold m in E.
  unfold store_effect in *. rewrite E in *. eexists _, _. split; [done|].
  split_and!; [|done..]. split; simpl; try apply H'.
  - apply Ho.
  - done.
  - done.
  - intros id (s & -> & Hs)%list_elem_of_fmap.
    apply (Hsteps (mkStepSpec (ps_step_id s) (ps_tool_id s) (ps_goal s) (ps_depends_on s))).
    unfold serialize_plan_steps. apply list_elem_of_fmap. by exists s.
  - pose proof (f_equal length (ok_ids _ _ _ Ho)) as Hl. rewrite !length_fmap in Hl.
    unfold p. rewrite Hl. apply H.
  - pose proof (li_count _ _ H). lia.
  - unfold p. rewrite (ok_version _ _ _ Ho), (li_version _ _ H). lia.
  - rewrite length_app. simpl. pose proof (li_history _ _ H). lia.
Qed.

(** ** Consuming the results of a batch *)

(** How an iteration that goes on has changed the loop's state. *)
Definition progress (l l' : loop_state) (ids : list string) : Prop :=
  (lp_replan_count l' = (lp_replan_count l + 1)%Z ∧ (lp_replan_count l < max_replan_attempts)%Z) ∨
  (lp_replan_count l' = lp_replan_count l ∧ lp_plan l' = lp_plan l ∧
   lp_completed l' = list_to_set ids ∪ lp_completed l).

Lemma add_result_ok l w s r :
  base_inv l w →
  ∃ l' w', add_result l s r w = (Ok l', w') ∧ base_inv l' w' ∧ w_calls w' = w_calls w ∧
    w_store w' = w_store w ∧ lp_plan l' = lp_plan l ∧ lp_completed l' = lp_completed l ∧
    lp_replan_count l' = lp_replan_count l.
Proof.
  intros H. unfold add_result, mbind, st_bind, context_effect.
  rewrite append_step_summary_eq by apply H. eexists _, _. split; [done|].
  split_and!; try done. split; apply H.
Qed.

Lemma replan_after_failure_case l w s e :
  base_inv l w → s ∈ ep_steps (lp_plan l) →
  ∃ x, Executor.replan_after_failure repr replanner max_replan_attempts (lp_plan l) s e
         (lp_replan_count l) = Ok x ∧
    match x with
    | None => True
    | Some o => replan_ok (lp_plan l) allowed o ∧ replans repr plan0 (ro_plan o) ∧
        (lp_replan_count l < max_replan_attempts)%Z
    end.
Proof.
  intros H Hs. unfold Executor.replan_after_failure.
  destruct (negb replanner || _) eqn:E; [by exists None|].
  apply orb_false_iff in E as [_ E%Z.leb_gt].
  destruct (replan_after_failure_ok repr _ allowed s e (li_plan _ _ H) Hs) as (o & Ho & Hok).
  rewrite Ho. cbn [mbind res_bind]. eexists. split; [done|].
  destruct (requires_human_handoff (ro_decision o)); [done|].
  destruct (should_replan (ro_decision o)); simpl; [|done].
  split_and!; [done| |done]. by eapply replans_failure; [apply H|..].
Qed.

Lemma consume_ok b : ∀ l w,
  base_inv l w →
  (∀ s r, (s, r) ∈ b → s ∈ ep_steps (lp_plan l) ∧
     (env_success r = true → status w (ps_step_id s) = Some SUCCESS)) →
  ∃ x w', consume l b w = (Ok x, w') ∧ w_calls w' = w_calls w ∧
    match x with
    | inl r => final_ok r w'
    | inr l' => base_inv l' w' ∧ progress l l' (ps_step_id <$> b.*1)
    end.
Proof.
  induction b as [|[s r] b IH]; intros l w H Hb; cbn [Executor.consume].
  { eexists _, w. split; [done|]. split; [done|]. split; [done|]. right. set_solver. }
  destruct (add_result_ok l w s r H) as (l1 & w1 & E1 & H1 & Hc1 & Hst & Hp & Hd & Hn).
  unfold mbind at 1, st_bind at 1. rewrite E1.
  destruct (Hb s r) as [Hs Hr]; [set_solver|].
  destruct (env_success r) eqn:Er.
  - destruct (IH (complete l1 (ps_step_id s)) w1) as (x & w2 & E2 & Hc2 & Hx).
    + split; try apply H1. simpl. intros id [->%elem_of_singleton|Hid]%elem_of_union.
      * rewrite Hst. by apply Hr.
      * by apply H1.
    + intros s' r' Hin. simpl. rewrite Hp, Hst. apply Hb. set_solver.
    + exists x, w2. split; [done|]. split; [congruence|]. destruct x as [x|l']; [done|].
      destruct Hx as [? Hpr]. split; [done|]. destruct Hpr as [[? ?]|(? & ? & Hset)]; simpl in *.
      * left. rewrite <-Hn. done.
      * right. split_and!; [congruence..|]. rewrite Hset, Hd. set_solver.
  - destruct (replan_after_failure_case l1 w1 s (default [] (env_error r)) H1) as (x & Ex & Hx).
    { by rewrite Hp. }
    unfold mbind at 1, st_bind at 1, st_lift. rewrite Ex. destruct x as [o|].
    + destruct Hx as (Ho & Hrep & Hlt).
      destruct (adopt_ok l1 w1 o H1 Ho Hrep Hlt) as (l2 & w2 & E2 & H2 & Hc2 & Hn2 & Hd2).
      unfold mbind, st_bind. rewrite E2. eexists _, w2. split; [done|].
      split; [congruence|]. split; [done|]. left. rewrite Hn2, <-Hn. done.
    + destruct (session_failed l1 w1 FAILED (env_error r) H1) as (w2 & E2 & Hf & Hc2); [by left|].
      eexists _, w2. split; [exact E2|]. split; [congruence|done].
Qed.

(** ** The potential *)
Lemma pending_steps_elem l s :
  s ∈ pending_steps l ↔ s ∈ ep_steps (lp_plan l) ∧ ps_step_id s ∉ lp_completed l.
Proof. unfold pending_steps. rewrite list_elem_of_filter. tauto. Qed.

Lemma plan_steps_NoDup l w : base_inv l w → NoDup (ep_steps (lp_plan l)).
Proof.
  intros H. apply (NoDup_fmap_1 ps_step_id). apply (pv_nodup _ _ (rp_valid _ _ (li_plan _ _ H))).
Qed.

Lemma pending_le l w : base_inv l w → length (pending_steps l) ≤ N.
Proof.
  intros H. rewrite <-(li_len _ _ H). unfold pending_steps. apply length_filter.
Qed.

Lemma potential_drop l w l' w' batch :
  base_inv l w → base_inv l' w' → progress l l' (ps_step_id <$> batch) →
  NoDup batch → (∀ s, s ∈ batch → s ∈ pending_steps l) →
  potential l' + length batch ≤ potential l.
Proof.
  intros H H' Hp Hnd Hsub. unfold potential.
  assert (length batch ≤ length (pending_steps l)) as Hb.
  { by apply submseteq_length, NoDup_submseteq. }
  pose proof (pending_le _ _ H'). pose proof (li_count _ _ H).
  destruct Hp as [[-> Hlt]|(-> & Hplan & Hdone)].
  - rewrite Z2Nat.inj_add by lia.
    assert (1 ≤ Z.to_nat max_replan_attempts - Z.to_nat (lp_replan_count l)) by lia. nia.
  - enough (length (pending_steps l') + length batch ≤ length (pending_steps l)) by lia.
    rewrite <-length_app. apply submseteq_length, NoDup_submseteq.
    + apply NoDup_app. split_and!; [|intros s|done].
      * apply NoDup_filter. rewrite Hplan. by eapply plan_steps_NoDup.
      * rewrite pending_steps_elem, Hdone. intros [_ Hs] Hin. apply Hs.
        apply elem_of_union_l, elem_of_list_to_set. by apply list_elem_of_fmap_2.
    + intros s [Hs|Hs]%elem_of_app; [|by apply Hsub].
      rewrite pending_steps_elem, Hplan, Hdone in Hs. rewrite pending_steps_elem. set_solver.
Qed.

Lemma potential_start l w : base_inv l w → potential l ≤ S (Z.to_nat max_replan_attempts) * N.
Proof. intros H. unfold potential. pose proof (pending_le _ _ H). nia. Qed.

(** ** One iteration *)
Lemma is_cancelled_ok l w :
  base_inv l w →
  ∃ b, run_prog utcnow monotonic exc_str defs (is_cancelled (ep_session_id (lp_plan l))) w = (Ok b, w).
Proof.
  intros H. rewrite (li_sid _ _ H). unfold is_cancelled. cbn.
  destruct (Control.is_cancelled (w_control w)); [by exists true|]. cbn.
  destruct (session_alive _ _ H) as [s Hs]. unfold session_of in Hs.
  unfold store_effect, is_cancel_requested, mbind, st_bind, get_session. rewrite Hs.
  exists (se_cancel_requested s). by destruct w.
Qed.

Lemma final_snapshot_ok l w payload :
  base_inv l w →
  ∃ w', run_prog utcnow monotonic exc_str defs
          (Executor.save_snapshot (lp_plan l) "final" "final-response" payload) w = (Ok tt, w') ∧
    base_inv l w' ∧ w_calls w' = w_calls w ∧
    (se_status <$> session_of (w_store w') sid) = (se_status <$> session_of (w_store w) sid).
Proof.
  intros H. unfold Executor.save_snapshot. rewrite (li_sid _ _ H). cbn -[exec].
  destruct (session_alive _ _ H) as [s Hs].
  assert (exec utcnow (OGetSession sid) (w_store w) = (Ok s, w_store w)) as E1.
  { cbn. unfold get_session. unfold session_of in Hs. by rewrite Hs. }
  unfold store_effect at 1. rewrite E1. cbn -[exec]. unfold store_effect at 1. cbn [w_store exec now].
  set (w1 := mkWorld (mkStore (sessions (w_store w)) (S (ticks (w_store w)))) _ _ _ _ _ _).
  assert (base_inv l w1) as H1.
  { apply (base_inv_frame l w); try done. apply (exec_wf utcnow OUtcNow), H. }
  set (x := SnapshotManager.create _ _ _ _ _).
  destruct (save_snapshot_ok utcnow (w_store w1) sid x (session_alive _ _ H1)) as (s' & E2 & Hst).
  destruct (store_effect_base (StateStore.save_snapshot utcnow sid x) l w1 H1) as [H2 Hc].
  { intros ?. apply (exec_wf utcnow (OSaveSnapshot sid x)). }
  { intros id. by apply (exec_keeps utcnow (OSaveSnapshot sid x)). }
  unfold store_effect in H2, Hc |- *. rewrite E2 in H2, Hc |- *.
  eexists. split; [done|]. split; [done|]. split; [done|]. exact Hst.
Qed.

(** What an iteration may answer. *)
Definition iteration_post (Φ : nat) (x : ExecutionResult + loop_state) (w : world T) : Prop :=
  match x with
  | inl r => final_ok r w ∧ calls_inv 0 w
  | inr l => base_inv l w ∧ calls_inv (potential l) w ∧ potential l < Φ
  end.

Lemma calls_inv_weaken Φ Φ' w w' :
  Φ' ≤ Φ → w_calls w' = w_calls w → calls_inv Φ w → calls_inv Φ' w'.
Proof.
  intros Hle E (new & Hc & Hg & Hb). exists new. rewrite E. split_and!; [done..|]. nia.
Qed.

Lemma success_case l w :
  base_inv l w → calls_inv (potential l) w → pending_steps l = [] →
  ∃ x w', (session_status utcnow l SUCCESS ≫= λ _,
      (run_prog utcnow monotonic exc_str defs (Executor.save_snapshot (lp_plan l) "final" "final-response"
          [("step_results", VInt (Z.of_nat (length (lp_results l))));
           ("replan_count", VInt (lp_replan_count l))]) : st (world T) unit) ≫= λ _,
       mret (inl (finish l true None))) w = (Ok x, w') ∧ iteration_post (potential l) x w'.
Proof.
  intros H Hc Hpend. destruct (session_status_ok l w SUCCESS H) as (w1 & E1 & H1 & Hc1 & s & Hs & Hst).
  unfold mbind, st_bind. rewrite E1. edestruct (final_snapshot_ok l w1) as (w2 & -> & H2 & Hc2 & Hst2); [done|].
  eexists _, w2. split; [done|]. split; [|apply (calls_inv_weaken (potential l) 0 w); [lia|congruence|done]].
  split; [apply H2|..].
  - rewrite Hs in Hst2. simpl in Hst2. destruct (session_of (w_store w2) sid) as [s2|]; [|done].
    exists s2. split; [done|]. simpl in *. split; [congruence|done].
  - exists (lp_plan l). split_and!; [apply H|done|]. intros _ id (st & -> & Hin)%list_elem_of_fmap.
    apply H2. destruct (decide (ps_step_id st ∈ lp_completed l)) as [|Hni]; [done|].
    assert (st ∈ pending_steps l) as Hp by (by apply pending_steps_elem).
    rewrite Hpend in Hp. set_solver.
  - simpl. rewrite (li_version _ _ H), (li_history _ _ H). done.
  - simpl. rewrite (li_history _ _ H). apply H.
Qed.

Lemma blocked_case l w s pending :
  base_inv l w → calls_inv (potential l) w → pending_steps l = s :: pending →
  ∃ x w', (o ← st_lift (replan_for_missing_dependency replanner max_replan_attempts (lp_plan l)
                  (s :: pending) (lp_replan_count l));
           match o with
           | None =>
               session_status utcnow l FAILED ≫= λ _,
               mret (inl (finish l false (Some (error_object "dependency_blocked"
                            "no executable step and replanner not available"))))
           | Some o => l ← adopt utcnow l o; mret (inr l)
           end) w = (Ok x, w') ∧ iteration_post (potential l) x w'.
Proof.
  intros H Hc Hpend. unfold mbind at 1, st_bind at 1, st_lift, replan_for_missing_dependency.
  assert (s ∈ pending_steps l) as Hs by (rewrite Hpend; set_solver).
  pose proof (proj1 (pending_steps_elem l s) Hs) as [Hin _].
  destruct (negb replanner || _) eqn:E.
  - edestruct (session_failed l w FAILED) as (w1 & -> & Hf & Hc1); [done|by left|].
    eexists _, w1. split; [done|]. split; [done|]. apply (calls_inv_weaken (potential l) _ w); [lia|done|done].
  - apply orb_false_iff in E as [_ E%Z.leb_gt].
    destruct (replan_for_missing_dependency_ok (lp_plan l) allowed (ps_step_id s)) as (o & Ho & Hok);
      [apply H|by apply list_elem_of_fmap_2|].
    rewrite Ho. cbn [fmap res_fmap].
    destruct (adopt_ok l w o H Hok) as (l' & w1 & E1 & H1 & Hc1 & Hn & Hd); [|done|].
    { eapply replans_blocked; [apply H| |exact Ho]. by apply list_elem_of_fmap_2. }
    unfold mbind, st_bind. rewrite E1. eexists _, w1. split; [done|].
    assert (potential l' + length [s] ≤ potential l) as Hdrop.
    { apply (potential_drop l w l' w1); try done; [by left|apply NoDup_singleton|].
      by intros ? ->%list_elem_of_singleton. }
    simpl in Hdrop. split; [done|]. split; [|lia]. apply (calls_inv_weaken (potential l) _ w); [lia|done|done].
Qed.

Lemma batch_NoDup l w n :
  base_inv l w → NoDup (take n (ready_steps l)) ∧ NoDup (ps_step_id <$> take n (ready_steps l)) ∧
    (∀ s, s ∈ take n (ready_steps l) → s ∈ pending_steps l ∧ ready (lp_completed l) s).
Proof.
  intros H.
  assert (NoDup (take n (ready_steps l))) as Hnd.
  { assert (NoDup (ready_steps l)) as Hr.
    { do 2 apply NoDup_filter. by eapply plan_steps_NoDup. }
    rewrite <-(take_drop n (ready_steps l)) in Hr. by apply NoDup_app in Hr as [? _]. }
  assert (∀ s, s ∈ take n (ready_steps l) → s ∈ pending_steps l ∧ ready (lp_completed l) s) as Hin.
  { intros s Hs%(subseteq_take n). by apply list_elem_of_filter in Hs as [? ?]. }
  split_and!; [done| |done]. apply NoDup_fmap_2_strong; [|done].
  intros s s' [Hs _]%Hin [Hs' _]%Hin. apply pending_steps_elem in Hs as [Hs _].
  apply pending_steps_elem in Hs' as [Hs' _].
  apply (step_eq_of_id (lp_plan l)); [|done..]. apply (pv_nodup _ _ (rp_valid _ _ (li_plan _ _ H))).
Qed.

Section batch_case.
Context (l : loop_state) (w w1 : world T) (batch : list PlanStep).
Context (b : list (PlanStep * envelope)) (new : list invocation).
Hypothesis (Hinv : base_inv l w).
Hypothesis (Hcalls : calls_inv (potential l) w).
Hypothesis (Hnd : NoDup batch).
Hypothesis (Hin : ∀ s, s ∈ batch → s ∈ pending_steps l ∧ ready (lp_completed l) s).
Hypothesis (Hpost : batch_post defs validate permission_map max_retry_attempts request
  (lp_plan l) batch w b w1 new).

Lemma completed_not_in_batch id : id ∈ lp_completed l → id ∉ ps_step_id <$> batch.
Proof using Hin.
  intros Hid (s & -> & Hs)%list_elem_of_fmap. apply Hin in Hs as [Hs _].
  by apply pending_steps_elem in Hs as [_ Hs].
Qed.

Lemma batch_base_inv : base_inv l w1.
Proof using Hinv Hin Hpost.
  destruct Hpost as [Hb1 Hsucc Hex Hwf Hfr Hctx Hctl _ _ _]. rewrite (li_sid _ _ Hinv) in *.
  split; try apply Hinv.
  - apply Hwf, Hinv.
  - intros id Hid. destruct (decide (id ∈ ps_step_id <$> batch)) as [(s & -> & Hs)%list_elem_of_fmap|Hni].
    + by apply Hex.
    + destruct (li_steps _ _ Hinv id Hid) as [σ Hσ]. unfold status_of in *.
      destruct (step_of (w_store w) sid id) as [x|] eqn:E; [|done]. rewrite (Hfr _ _ Hni E). eauto.
  - intros id Hid. pose proof (li_done _ _ Hinv id Hid) as Hσ. unfold status_of in *.
    destruct (step_of (w_store w) sid id) as [x|] eqn:E; [|done].
    by rewrite (Hfr _ _ (completed_not_in_batch id Hid) E).
  - rewrite Hctx. apply Hinv.
  - destruct Hctl as [-> _]. apply Hinv.
Qed.

Lemma batch_calls : calls_inv (potential l - length batch) w1.
Proof using Hinv Hcalls Hnd Hin Hpost.
  destruct Hcalls as (new0 & Hc0 & Hg0 & Hb0). destruct Hpost as [_ _ _ _ _ _ _ Hc Hnew Hbud].
  exists (new0 ++ new). rewrite Hc, Hc0, app_assoc. split; [done|]. split.
  - apply Forall_app. split; [done|]. eapply Forall_impl; [exact Hnew|].
    intros c [Hs Hp Hsc Hst]. split; [done..|]. intros d Hd.
    apply Hin in Hs as [_ Hready]. unfold ready in Hready. rewrite Forall_forall in Hready.
    specialize (Hready d Hd). pose proof (li_done _ _ Hinv d Hready) as Hσ.
    unfold status_of in *. rewrite (li_sid _ _ Hinv) in Hst.
    destruct (step_of (w_store w) sid d) as [x|] eqn:E; [|done].
    by rewrite (Hst _ _ (completed_not_in_batch d Hready) E).
  - rewrite length_app.
    assert (length batch ≤ potential l) as Hle.
    { etrans; [|apply Nat.le_add_l]. apply submseteq_length, NoDup_submseteq; [done|]. intros s Hs. by apply Hin. }
    rewrite Nat.mul_sub_distr_l. rewrite (Nat.mul_comm per_step (length batch)).
    assert (length batch * per_step ≤ per_step * potential l) as Hle'.
    { rewrite Nat.mul_comm. by apply Nat.mul_le_mono_l. }
    revert Hle' Hb0 Hbud. generalize (length batch * per_step) (per_step * potential l)
      (per_step * (S (Z.to_nat max_replan_attempts) * N)). lia.
Qed.

Lemma batch_case_ok :
  batch ≠ [] → ∃ x w', consume l b w1 = (Ok x, w') ∧ iteration_post (potential l) x w'.
Proof using Hinv Hcalls Hnd Hin Hpost.
  intros Hne. destruct (consume_ok b l w1 batch_base_inv) as (x & w' & E & Hc & Hx).
  { intros s r Hb. split.
    - assert (s ∈ batch) as [Hs _]%Hin; [|by apply pending_steps_elem in Hs as [? _]].
      rewrite <-(bp_steps _ _ _ _ _ _ _ _ _ _ _ Hpost). by apply (list_elem_of_fmap_2 fst _ (s, r)).
    - rewrite <-(li_sid _ _ Hinv). by apply Hpost. }
  exists x, w'. split; [done|]. pose proof batch_calls as Hbc. destruct x as [r|l'].
  - split; [done|]. by apply (calls_inv_weaken (potential l - length batch) _ w1); [lia|..].
  - destruct Hx as [H' Hp]. rewrite (bp_steps _ _ _ _ _ _ _ _ _ _ _ Hpost) in Hp.
    assert (potential l' + length batch ≤ potential l).
    { apply (potential_drop l w l' w'); try done. intros s Hs. by apply Hin. }
    assert (0 < length batch) by (destruct batch; [done|simpl; lia]).
    split; [done|]. split; [|lia].
    by apply (calls_inv_weaken (potential l - length batch) _ w1); [lia|..].
Qed.
End batch_case.

Lemma iteration_ok rd l w :
  base_inv l w → calls_inv (potential l) w →
  ∃ x w', iteration rd l w = (Ok x, w') ∧ iteration_post (potential l) x w'.
Proof.
  intros H0 Hc0. unfold iteration.
  destruct (env_steps_base (rd_before rd) l w H0) as [H Hc]. set (w1 := foldl _ w _) in *.
  assert (calls_inv (potential l) w1) as Hc1 by (by apply (calls_inv_weaken (potential l) _ w)).
  clearbody w1. clear H0 Hc0 Hc. unfold mbind at 1, st_bind at 1.
  destruct (is_cancelled_ok l w1 H) as (b & E). rewrite E. clear E. destruct b.
  { edestruct (session_failed l w1 CANCELED) as (w2 & -> & Hf & Hc2); [done|by right|].
    eexists _, w2. split; [done|]. split; [done|]. by apply (calls_inv_weaken (potential l) _ w1); [lia|..]. }
  unfold mbind at 1, st_bind at 1, read_clock. set (w2 := mkWorld _ _ _ _ _ _ _).
  assert (base_inv l w2) as H2 by (by apply (base_inv_frame l w1); [|apply H|..]).
  assert (calls_inv (potential l) w2) as Hc2 by (by apply (calls_inv_weaken (potential l) _ w1)).
  clearbody w2. clear H Hc1. unfold mbind at 1, st_bind at 1.
  destruct (Control.is_session_timed_out _ _).
  { edestruct (session_failed l w2 FAILED) as (w3 & -> & Hf & Hc3); [done|by left|].
    eexists _, w3. split; [done|]. split; [done|]. by apply (calls_inv_weaken (potential l) _ w2); [lia|..]. }
  destruct (pending_steps l) as [|s pending] eqn:Ep; [by apply success_case|].
  destruct (ready_steps l) as [|s' rest] eqn:Er; [by apply blocked_case|]. rewrite <-Er.
  unfold mbind at 1, st_bind at 1.
  set (k := Z.min _ _).
  assert (1 ≤ k)%Z as Hk.
  { pose proof (li_limit _ _ H2). pose proof (pv_max_parallel _ _ (rp_valid _ _ (li_plan _ _ H2))).
    unfold k. lia. }
  rewrite slice_to_pos by lia. set (batch := take (Z.to_nat k) (ready_steps l)).
  destruct (batch_NoDup l w2 (Z.to_nat k) H2) as (Hnd & Hndi & Hin). fold batch in Hnd, Hndi, Hin.
  destruct (execute_ready_steps_ok utcnow monotonic exc_str defs validate permission_map
    max_retry_attempts request (lp_plan l) batch w2 Hndi (rd_batch rd)) as (new & Hpost).
  { intros st Hst. rewrite (li_sid _ _ H2). apply (li_steps _ _ H2), list_elem_of_fmap_2.
    apply Hin in Hst as [Hst _]. by apply pending_steps_elem in Hst as [? _]. }
  destruct (execute_ready_steps _ _ _ _ _ _ _ _ _ _ _ _) as [b w3].
  eapply batch_case_ok; [exact H2|exact Hc2|exact Hnd|exact Hin|exact Hpost|].
  unfold batch. rewrite Er. destruct (Z.to_nat k) eqn:Ek; [lia|done].
Qed.

Lemma loop_ok rounds : ∀ fuel i l w,
  base_inv l w → calls_inv (potential l) w → potential l < fuel →
  ∃ r w', loop rounds fuel i l w = Some (Ok r, w') ∧ final_ok r w' ∧ calls_inv 0 w'.
Proof.
  induction fuel as [|fuel IH]; intros i l w H Hc Hlt; [lia|]. cbn [Executor.loop].
  destruct (iteration_ok (rounds i) l w H Hc) as (x & w' & E & Hx). rewrite E.
  destruct x as [r|l']; [by exists r, w'|]. destruct Hx as (H' & Hc' & Hp). apply IH; [done..|lia].
Qed.

(** Fuel beyond what was needed does not change the answer. *)
Lemma loop_fuel rounds : ∀ fuel fuel' i l w x,
  loop rounds fuel i l w = Some x → fuel ≤ fuel' → loop rounds fuel' i l w = Some x.
Proof.
  induction fuel as [|fuel IH]; intros [|fuel'] i l w x; simpl; try done; [lia|].
  intros H Hle. destruct (iteration (rounds i) l w) as [[[r|l']|e] w']; [done| |done].
  eapply IH; [done|lia].
Qed.

(** ** Starting *)

(** What [execute] is called with. *)
Record start_ok (w : world T) : Prop := {
  so_plan : replannable plan0 allowed;
  so_wf : store_wf (w_store w);
  so_trim : trim_policy (w_context w) =
    [("max_step_summaries", VInt ContextManager.DEFAULT_MAX_STEP_SUMMARIES)];
  so_limit : (1 ≤ max_concurrency (w_control w))%Z;
}.

Lemma recovery_point_completed (w : store) s :
  store_wf w → session_of w sid = Some s →
  ∃ point, RecoveryService.find_recovery_point s None = Ok point ∧
    ∀ id, id ∈ RecoveryService.rp_completed_step_ids point ↔ status_of w sid id = Some SUCCESS.
Proof.
  intros Hwf Hs. destruct (Hwf _ _ Hs) as [_ Hw].
  assert (∀ id, id ∈ se_step_sequence s → is_Some (se_steps s !! id)) as Hdom.
  { intros id. apply Hw. }
  unfold RecoveryService.find_recovery_point. rewrite select_steps_ok by done. cbn [mbind res_bind].
  destruct (first_unfinished_ok (se_steps s) (se_step_sequence s) Hdom) as (r & -> & _).
  cbn [mbind res_bind]. eexists. split; [done|]. simpl. intros id.
  rewrite list_elem_of_filter, (wf_dom _ Hw).
  unfold status_of, step_of. unfold session_of in Hs. rewrite Hs. simpl.
  destruct (se_steps s !! id) as [x|]; simpl; [|split; [by intros [? _]|done]].
  unfold is_success. rewrite bool_decide_eq_true. split; [by intros [-> _]|].
  intros [= ->]. eauto.
Qed.

Lemma start_base w :
  start_ok w → w_calls w = calls0 →
  ∃ l w', start utcnow plan0 w = (Ok l, w') ∧ base_inv l w' ∧ calls_inv (potential l) w' ∧
    (∀ id, status w id = Some SUCCESS → id ∈ lp_completed l) ∧ lp_plan l = plan0 ∧
    w_calls w' = w_calls w.
Proof.
  intros [Hp Hwf Ht Hl] Hc. unfold start.
  set (m := init_session utcnow (ep_request_id plan0) sid (serialize_plan_steps (ep_steps plan0))
    (ep_plan_version plan0) (ep_trace_id plan0)).
  destruct (init_session_ok utcnow (w_store w) (ep_request_id plan0) sid
    (serialize_plan_steps (ep_steps plan0)) (ep_plan_version plan0) (ep_trace_id plan0))
    as (s1 & st1 & E1 & [s Hs] & Hsteps). fold m in E1.
  assert (store_wf st1) as Hwf1.
  { replace st1 with (m (w_store w)).2 by (by rewrite E1).
    by apply (exec_wf utcnow (OInitSession _ _ _ _ _)). }
  unfold mbind at 1, st_bind at 1, store_effect at 1. rewrite E1.
  unfold mbind at 1, st_bind at 1, store_effect at 1. cbn [w_store].
  unfold get_session. unfold session_of in Hs. rewrite Hs. cbn [w_context w_control w_audit w_tools w_clock w_calls].
  destruct (recovery_point_completed st1 s Hwf1 Hs) as (point & Epoint & Hdone).
  unfold mbind at 1, st_bind at 1, st_lift. rewrite Epoint.
  set (w1 := mkWorld st1 _ _ _ _ _ _).
  set (l := mkLoop plan0 (list_to_set (RecoveryService.rp_completed_step_ids point)) [] [] 0).
  assert (base_inv l w1) as H1.
  { split; simpl; try done.
    - constructor.
    - intros id (st & -> & Hst)%list_elem_of_fmap.
      apply (Hsteps (mkStepSpec (ps_step_id st) (ps_tool_id st) (ps_goal st) (ps_depends_on st))).
      unfold serialize_plan_steps. apply list_elem_of_fmap. by exists st.
    - intros id Hid%elem_of_list_to_set. by apply Hdone.
    - lia.
    - lia. }
  destruct (session_status_ok l w1 RUNNING H1) as (w2 & E2 & H2 & Hc2 & _).
  unfold session_status in E2. simpl in E2. unfold mbind, st_bind. rewrite E2.
  exists l, w2. split_and!; [done|done| | |done|done].
  - exists []. rewrite app_nil_r, Hc2. simpl.
    split_and!; [done|by constructor|]. apply Nat.mul_le_mono_l. by apply (potential_start l w2).
  - intros id Hid. simpl. apply elem_of_list_to_set, Hdone.
    replace st1 with (m (w_store w)).2 by (by rewrite E1).
    by apply (exec_status_keep utcnow (OInitSession _ _ _ _ _)).
Qed.

Lemma execute_ok rounds fuel w :
  start_ok w → w_calls w = calls0 → enough max_replan_attempts plan0 ≤ fuel →
  ∃ r w', execute rounds fuel plan0 w = Some (Ok r, w') ∧ final_ok r w' ∧ calls_inv 0 w'.
Proof.
  intros Hs Hc Hf. unfold execute.
  destruct (start_base w Hs Hc) as (l & w1 & E & H & Hcalls & _). rewrite E.
  apply loop_ok; [done..|]. pose proof (potential_start l w1 H). unfold enough in Hf. lia.
Qed.

(** Whatever the fuel, a result that is produced is the one above. *)
Lemma execute_result rounds fuel w x w' :
  start_ok w → w_calls w = calls0 → execute rounds fuel plan0 w = Some (x, w') →
  ∃ r, x = Ok r ∧ final_ok r w' ∧ calls_inv 0 w'.
Proof.
  intros Hs Hc He.
  destruct (execute_ok rounds (fuel + enough max_replan_attempts plan0) w Hs Hc) as (r & w2 & E & Hf & Hcl); [lia|].
  exists r. unfold execute in *. destruct (start utcnow plan0 w) as [[l|e] w1].
  - apply (loop_fuel _ _ (fuel + enough max_replan_attempts plan0)) in He; [|lia].
    rewrite E in He. by injection He as <- <-.
  - by injection E.
Qed.

(** With nothing pending, the loop returns at once and calls no tool. *)
Lemma iteration_nothing_pending rd l w :
  base_inv l w → pending_steps l = [] →
  ∃ r w', iteration rd l w = (Ok (inl r), w') ∧ w_calls w' = w_calls w.
Proof.
  intros H0 Hp. unfold iteration.
  destruct (env_steps_base (rd_before rd) l w H0) as [H Hc]. rewrite <-Hc. set (w1 := foldl _ w _) in *.
  clearbody w1. unfold mbind at 1, st_bind at 1.
  destruct (is_cancelled_ok l w1 H) as (b & ->). destruct b.
  { edestruct (session_failed l w1 CANCELED) as (w2 & -> & _ & Hc2); [done|by right|]. eauto. }
  unfold mbind at 1, st_bind at 1, read_clock. set (w2 := mkWorld _ _ _ _ _ _ _).
  assert (base_inv l w2) as H2 by (by apply (base_inv_frame l w1); [|apply H|..]).
  assert (w_calls w1 = w_calls w2) as -> by done. clearbody w2.
  unfold mbind at 1, st_bind at 1. destruct (Control.is_session_timed_out _ _).
  { edestruct (session_failed l w2 FAILED) as (w3 & -> & _ & Hc3); [done|by left|]. eauto. }
  rewrite Hp. destruct (session_status_ok l w2 SUCCESS H2) as (w3 & E3 & H3 & Hc3 & _).
  unfold mbind, st_bind. rewrite E3.
  edestruct (final_snapshot_ok l w3) as (w4 & -> & _ & Hc4 & _); [done|].
  eexists _, w4. split; [done|]. congruence.
Qed.
End main_loop.
