(* ===== verification/ExecutorProps.v ===== *)
(** * Properties of the execution engine

    Each property quantifies over the clocks, the tools with their state, the
    contract and policy verdicts, the retry and replan limits, and the
    environment [rounds]: every interleaving of the worker threads, every
    timeout and every cancellation. *)
From S2P Require Import Prelude PyFloat PyValue ToolRegistry StateStore StateStoreFacts Recovery Planner PlannerFacts Replanner Policy Context Executor ExecutorBatch ExecutorFacts.
Import StateStore Executor.
Local Open Scope nat_scope.

(** ** A small configuration for the examples

    Tool [x] counts its calls; tool [flaky] fails twice with a retryable error
    and then succeeds. *)
Definition demo_tools : Type := nat * nat.
Definition demo_x (_ : dict pyval) (t : demo_tools) : ToolRegistry.outcome * demo_tools :=
  (ToolRegistry.Returned (VInt (Z.of_nat t.1)), (S t.1, t.2)).
Definition demo_flaky (_ : dict pyval) (t : demo_tools) : ToolRegistry.outcome * demo_tools :=
  (if bool_decide (t.2 < 2)
   then ToolRegistry.ToolExecutionError "transient_network_error" "temporary failure" true
   else ToolRegistry.Returned VNone, (t.1, S t.2)).
Definition demo_defs : gmap string (ToolRegistry.ToolDefinition demo_tools) :=
  {["x" := {| ToolRegistry.tool_id := "x"; ToolRegistry.schema_path := "x.json";
              ToolRegistry.handler := demo_x |};
    "flaky" := {| ToolRegistry.tool_id := "flaky"; ToolRegistry.schema_path := "flaky.json";
                  ToolRegistry.handler := demo_flaky |}]}.
Definition demo_request : dict pyval :=
  [("request_id", VStr "r"); ("session_id", VStr "s"); ("user_input", VStr "go");
   ("allowed_tools", VList [VStr "x"; VStr "flaky"])].
Definition demo_two : ExecutionPlan :=
  mkExecutionPlan "r" "s" "t" 1
    [Planner.new_step "a" "g" "flaky" [] [] "d"; Planner.new_step "b" "g" "x" [] [] "d"] []
    (mkGraphLimits 2 2).
Definition demo_context : ExecutionContext :=
  match ContextManager.build demo_request with
  | Ok c => c
  | Err _ => mkExecutionContext (mkSystemContext VNone VNone VNone) (mkTaskContext VNone VNone VNone)
               (mkToolContext "" 0 []) (mkSessionMemory [] []) [] []
  end.
Definition demo_world : world demo_tools :=
  mkWorld init demo_context (Control.default_control PyFloat.zero) [] (0, 0) 0 [].
Definition demo_rounds : nat → round demo_tools := λ _, mkRound [] [Run 0; Run 1; Run 1; Run 0].
Definition demo_execute : option (res ExecutionResult * world demo_tools) :=
  execute (λ _, "t") (λ _, PyFloat.zero) (λ _, "") (λ _, "") demo_defs (λ _ _, Ok tt)
    ToolPolicyEngine.default_map true 1 1 demo_request demo_rounds
    (enough 1 demo_two) demo_two demo_world.

Lemma demo_start_ok : start_ok demo_two ["x"; "flaky"] demo_world.
Proof.
  split; [|intros sid s Hs; change ((∅ : gmap string SessionState) !! sid = Some s) in Hs; by rewrite lookup_empty in Hs|vm_compute; reflexivity|done].
  split.
  - apply validate_plan_iff; [done|vm_compute; reflexivity].
  - intros [|[|i]] s d; simpl; intros [= <-]; simpl; set_solver.
  - intros id x k Hid _. apply no_replan_id. simpl in Hid.
    repeat (apply elem_of_cons in Hid as [->|Hid]; [repeat split; discriminate|]). set_solver.
Qed.

(** ** The engine in general *)
Section properties.
Context {T : Type}.
Context (utcnow : nat → string) (monotonic : nat → float).
Context (repr : pyval → string) (exc_str : exc → string).
Context (defs : gmap string (ToolRegistry.ToolDefinition T)).
Context (validate : string → dict pyval → res unit).
Context (permission_map : gmap string ToolPermission).
Context (replanner : bool) (max_retry_attempts max_replan_attempts : Z).
Context (request : dict pyval).
Local Abbreviation execute := (execute utcnow monotonic repr exc_str defs validate permission_map
  replanner max_retry_attempts max_replan_attempts request).

(** C1: Executing a replannable plan from a well-formed store always returns a
    result: within [enough] iterations of the main loop the engine stops, and
    no exception leaves it, whatever the tools, clocks, threads and
    cancellations do. *)
Theorem execute_returns rounds fuel plan allowed (w : world T) :
  start_ok plan allowed w → enough max_replan_attempts plan ≤ fuel →
  ∃ r w', execute rounds fuel plan w = Some (Ok r, w').
Proof.
  intros Hs Hf.
  edestruct (execute_ok utcnow monotonic repr exc_str defs validate permission_map replanner
    max_retry_attempts max_replan_attempts request) as (r & w' & E & _);
    [exact Hs|done|exact Hf|eauto].
Qed.

(** C2: The result and the stored session agree.  Success is reported only
    when every step of the final plan (the given plan after its replans) is
    SUCCESS in the store, and then the session is SUCCESS; otherwise the
    session is FAILED, or CANCELED when the execution was cancelled. *)
Theorem execute_result_matches_store rounds fuel plan allowed (w w' : world T) r :
  start_ok plan allowed w → execute rounds fuel plan w = Some (Ok r, w') →
  ∃ s q, sessions (w_store w') !! ep_session_id plan = Some s ∧
    replans repr plan q ∧ er_plan_version r = ep_plan_version q ∧
    if er_success r then
      se_status s = SUCCESS ∧ er_error r = None ∧
      ∀ id, id ∈ step_ids q → status_of (w_store w') (ep_session_id plan) id = Some SUCCESS
    else se_status s = FAILED ∨ se_status s = CANCELED ∧ er_error r = Some cancelled_error.
Proof.
  intros Hs He. destruct (execute_result utcnow monotonic repr exc_str defs validate permission_map replanner
    max_retry_attempts max_replan_attempts request plan allowed (w_calls w) rounds fuel w _ w' Hs eq_refl He) as (r' & Hr & Hf & _).
  injection Hr as <-. destruct (fo_status _ _ _ _ _ Hf) as (s & Hses & Hst).
  destruct (fo_plan _ _ _ _ _ Hf) as (q & Hq & Hv & Hd). exists s, q. split_and!; [done..|].
  destruct (er_success r); [|done]. destruct Hst. auto.
Qed.

(** Replanning is bounded and numbered: the history holds at most
    [max_replan_attempts] entries and the version of the final plan is the
    initial version plus the number of replans. *)
Theorem execute_replans_bounded rounds fuel plan allowed (w w' : world T) r :
  start_ok plan allowed w → execute rounds fuel plan w = Some (Ok r, w') →
  er_plan_version r = (ep_plan_version plan + Z.of_nat (length (er_replan_history r)))%Z ∧
  (Z.of_nat (length (er_replan_history r)) ≤ Z.max 0 max_replan_attempts)%Z.
Proof.
  intros Hs He. destruct (execute_result utcnow monotonic repr exc_str defs validate permission_map replanner
    max_retry_attempts max_replan_attempts request plan allowed (w_calls w) rounds fuel w _ w' Hs eq_refl He) as (r' & Hr & Hf & _).
  injection Hr as <-. split; apply Hf.
Qed.

(** C3: Every tool call of an execution is guarded: the policy allowed the
    step's tool for this request, the payload handed over satisfied the tool's
    contract, and at the moment of the call every dependency of the step was
    SUCCESS in the store, under every interleaving of the worker threads. *)
Theorem tool_calls_guarded rounds fuel plan allowed (w w' : world T) x :
  start_ok plan allowed w → execute rounds fuel plan w = Some (x, w') →
  ∃ new, w_calls w' = w_calls w ++ new ∧ ∀ c, c ∈ new →
    check_policy permission_map request (iv_step c) = Ok None ∧
    check_schema defs validate (iv_step c) (iv_payload c) = Ok None ∧
    ∀ d, d ∈ ps_depends_on (iv_step c) →
      status_of (iv_store c) (ep_session_id plan) d = Some SUCCESS.
Proof.
  intros Hs He. destruct (execute_result utcnow monotonic repr exc_str defs validate permission_map replanner
    max_retry_attempts max_replan_attempts request plan allowed (w_calls w) rounds fuel w _ w' Hs eq_refl He) as (r' & Hr & _ & Hc).
  destruct Hc as (new & Hc & Hg & _). exists new. split; [done|]. intros c Hin.
  rewrite Forall_forall in Hg. destruct (Hg c Hin). auto.
Qed.

(** C8: The number of tool calls of one execution is at most
    (max_retry_attempts + 1) per step, times the number of plan versions that
    replanning may produce. *)
Theorem tool_calls_bounded rounds fuel plan allowed (w w' : world T) x :
  start_ok plan allowed w → execute rounds fuel plan w = Some (x, w') →
  length (w_calls w') ≤ length (w_calls w) +
    Z.to_nat (max_retry_attempts + 1) *
      (S (Z.to_nat max_replan_attempts) * length (ep_steps plan)).
Proof.
  intros Hs He. destruct (execute_result utcnow monotonic repr exc_str defs validate permission_map replanner
    max_retry_attempts max_replan_attempts request plan allowed (w_calls w) rounds fuel w _ w' Hs eq_refl He) as (r' & Hr & _ & Hc).
  destruct Hc as (new & Hc & _ & Hb). rewrite Hc, length_app, Nat.mul_0_r, Nat.add_0_r in *. lia.
Qed.

(** Resuming is idempotent: executing a plan whose steps are all SUCCESS in
    the store (for instance a second time) returns without calling any tool. *)
Theorem resume_calls_no_tool rounds fuel plan allowed (w : world T) :
  start_ok plan allowed w → 0 < fuel →
  (∀ id, id ∈ step_ids plan → status_of (w_store w) (ep_session_id plan) id = Some SUCCESS) →
  ∃ r w', execute rounds fuel plan w = Some (Ok r, w') ∧ w_calls w' = w_calls w.
Proof.
  intros Hs Hf Hall. unfold execute.
  edestruct (start_base utcnow repr defs validate permission_map max_retry_attempts
    max_replan_attempts request) as (l & w1 & E & H & _ & Hdone & Hplan & Hcw);
    [exact Hs|done|].
  assert (pending_steps l = []) as Hp.
  { destruct (pending_steps l) as [|s rest] eqn:Ep; [done|].
    assert (s ∈ pending_steps l) as [Hin Hni]%pending_steps_elem by (rewrite Ep; set_solver).
    destruct Hni. apply Hdone, Hall. rewrite <-Hplan. by apply list_elem_of_fmap_2. }
  rewrite E, <-Hcw. destruct fuel as [|fuel]; [lia|]. cbn [loop].
  edestruct (iteration_nothing_pending utcnow monotonic repr exc_str defs validate permission_map
    replanner max_retry_attempts max_replan_attempts request plan allowed (rounds 0) l w1 H Hp)
    as (r & w2 & -> & Hc2). eauto.
Qed.
End properties.

(** ** The properties at work *)
Definition demo_result : ExecutionResult :=
  match demo_execute with
  | Some (Ok r, _) => r
  | _ => mkExecutionResult false [] None "" 0 []
  end.
Definition demo_world' : world demo_tools :=
  match demo_execute with Some (_, w) => w | _ => demo_world end.

Lemma execute_returns_witness : ∃ r w', demo_execute = Some (Ok r, w').
Proof.
  unfold demo_execute. apply (execute_returns (T := demo_tools) (λ _, "t") (λ _, PyFloat.zero)
    (λ _, "") (λ _, "") demo_defs (λ _ _, Ok tt) ToolPolicyEngine.default_map true 1 1
    demo_request demo_rounds (enough 1 demo_two) demo_two ["x"; "flaky"] demo_world demo_start_ok).
  apply Nat.le_refl.
Defined.

Lemma execute_result_matches_store_witness :
  er_success demo_result = true ∧
  ∃ q, replans (λ _, "") demo_two q ∧ ep_plan_version q = 2%Z ∧
    ∀ id, id ∈ step_ids q → status_of (w_store demo_world') "s" id = Some SUCCESS.
Proof.
  split; [vm_compute; reflexivity|].
  destruct (execute_result_matches_store (T := demo_tools) (λ _, "t") (λ _, PyFloat.zero)
    (λ _, "") (λ _, "") demo_defs (λ _ _, Ok tt) ToolPolicyEngine.default_map true 1 1
    demo_request demo_rounds (enough 1 demo_two) demo_two ["x"; "flaky"] demo_world demo_world'
    demo_result demo_start_ok) as (s & q & _ & Hq & Hv & H); [vm_compute; reflexivity|].
  assert (er_success demo_result = true) as E by (vm_compute; reflexivity). rewrite E in H.
  exists q. split; [exact Hq|]. split; [rewrite <-Hv; vm_compute; reflexivity|].
  destruct H as (_ & _ & H). exact H.
Defined.

Lemma execute_replans_bounded_witness :
  er_plan_version demo_result = 2%Z ∧ (Z.of_nat (length (er_replan_history demo_result)) ≤ 1)%Z.
Proof.
  destruct (execute_replans_bounded (T := demo_tools) (λ _, "t") (λ _, PyFloat.zero)
    (λ _, "") (λ _, "") demo_defs (λ _ _, Ok tt) ToolPolicyEngine.default_map true 1 1
    demo_request demo_rounds (enough 1 demo_two) demo_two ["x"; "flaky"] demo_world demo_world'
    demo_result demo_start_ok) as [_ H]; [vm_compute; reflexivity|].
  split; [vm_compute; reflexivity|exact H].
Defined.

Lemma tool_calls_guarded_witness :
  ∃ new, w_calls demo_world' = new ∧ length new = 5 ∧ ∀ c, c ∈ new →
    check_policy ToolPolicyEngine.default_map demo_request (iv_step c) = Ok None.
Proof.
  destruct (tool_calls_guarded (T := demo_tools) (λ _, "t") (λ _, PyFloat.zero)
    (λ _, "") (λ _, "") demo_defs (λ _ _, Ok tt) ToolPolicyEngine.default_map true 1 1
    demo_request demo_rounds (enough 1 demo_two) demo_two ["x"; "flaky"] demo_world demo_world'
    (Ok demo_result) demo_start_ok) as (new & Hc & H); [vm_compute; reflexivity|].
  exists new. split; [exact Hc|]. split; [|intros c Hin; destruct (H c Hin) as [Hp _]; exact Hp].
  apply (f_equal length) in Hc. vm_compute in Hc. symmetry. exact Hc.
Defined.

Lemma tool_calls_bounded_witness :
  length (w_calls demo_world') = 5 ∧ length (w_calls demo_world') ≤ 8.
Proof.
  split; [vm_compute; reflexivity|].
  apply (tool_calls_bounded (T := demo_tools) (λ _, "t") (λ _, PyFloat.zero)
    (λ _, "") (λ _, "") demo_defs (λ _ _, Ok tt) ToolPolicyEngine.default_map true 1 1
    demo_request demo_rounds (enough 1 demo_two) demo_two ["x"; "flaky"] demo_world demo_world'
    (Ok demo_result) demo_start_ok). vm_compute. reflexivity.
Defined.

(** A plan of one step, its world after a first execution, and a second one. *)
Definition demo_one : ExecutionPlan :=
  mkExecutionPlan "r" "s" "t" 1 [Planner.new_step "b" "g" "x" [] [] "d"] [] (mkGraphLimits 2 2).
Definition demo_once : world demo_tools :=
  match execute (λ _, "t") (λ _, PyFloat.zero) (λ _, "") (λ _, "") demo_defs (λ _ _, Ok tt)
    ToolPolicyEngine.default_map true 1 1 demo_request demo_rounds 5 demo_one demo_world with
  | Some (_, w) => w
  | None => demo_world
  end.

Lemma demo_once_start_ok : start_ok demo_one ["x"] demo_once.
Proof.
  assert (start_ok demo_one ["x"] demo_world) as H0.
  { split; [|intros sid s Hs; change ((∅ : gmap string SessionState) !! sid = Some s) in Hs;
               by rewrite lookup_empty in Hs|vm_compute; reflexivity|done].
    split.
    - apply validate_plan_iff; [done|vm_compute; reflexivity].
    - intros [|i] s d; simpl; intros [= <-]; simpl; set_solver.
    - intros id x k Hid _. apply no_replan_id. simpl in Hid.
      repeat (apply elem_of_cons in Hid as [->|Hid]; [repeat split; discriminate|]). set_solver. }
  split; [apply H0| |vm_compute; reflexivity|vm_compute; discriminate].
  destruct (execute_result (λ _, "t") (λ _, PyFloat.zero) (λ _, "") (λ _, "") demo_defs
    (λ _ _, Ok tt) ToolPolicyEngine.default_map true 1 1 demo_request demo_one ["x"] [] demo_rounds 5
    demo_world (match execute (λ _, "t") (λ _, PyFloat.zero) (λ _, "") (λ _, "") demo_defs
      (λ _ _, Ok tt) ToolPolicyEngine.default_map true 1 1 demo_request demo_rounds 5 demo_one
      demo_world with Some (x, _) => x | None => Err (KeyError "") end) demo_once H0 eq_refl)
    as (r & _ & Hf & _); [vm_compute; reflexivity|apply Hf].
Qed.

Lemma resume_calls_no_tool_witness :
  length (w_calls demo_once) = 1 ∧
  ∃ r w', execute (λ _, "t") (λ _, PyFloat.zero) (λ _, "") (λ _, "") demo_defs (λ _ _, Ok tt)
    ToolPolicyEngine.default_map true 1 1 demo_request demo_rounds 1 demo_one demo_once
      = Some (Ok r, w') ∧ w_calls w' = w_calls demo_once.
Proof.
  split; [vm_compute; reflexivity|].
  apply (resume_calls_no_tool (T := demo_tools) (λ _, "t") (λ _, PyFloat.zero)
    (λ _, "") (λ _, "") demo_defs (λ _ _, Ok tt) ToolPolicyEngine.default_map true 1 1
    demo_request demo_rounds 1 demo_one ["x"] demo_once demo_once_start_ok); [apply Nat.lt_0_1|].
  intros id Hid. apply list_elem_of_singleton in Hid as ->. vm_compute. reflexivity.
Defined.

(** A step that has succeeded is executed again after a sibling's replan.
    In the example both steps of a batch run, [b] succeeds and is recorded as
    SUCCESS, [a] fails and triggers a replan; the loop over the batch results
    stops at [a], so the result of [b] is dropped, and the next batch calls the
    tool of [b] a second time because the idempotency key of [b] now carries
    the new plan version. *)
Theorem succeeded_step_runs_again :
  match demo_execute with
  | Some (Ok r, w) =>
      er_success r = true ∧
      (sr_step_id <$> er_step_results r) = ["a"; "a-replan-v2"; "b"] ∧
      (ps_step_id ∘ iv_step <$> w_calls w) = ["a"; "a"; "b"; "a-replan-v2"; "b"] ∧
      (λ c, status_of (iv_store c) "s" "b") <$> w_calls w !! 3 = Some (Some SUCCESS) ∧
      (w_tools w).1 = 2
  | _ => False
  end.
Proof. vm_compute. repeat split. Qed.
