(* ===== verification/App.v ===== *)
(** * The application (agent-system/src/api/app.py)

    [AgentApplication] wires the components together: [handle_request]
    validates a request, builds context, plan and controls, executes the plan
    and answers with a contract-checked response.  Its mock tools keep a
    dictionary of call counters.

    [disk] is the parsed content of the contract files.  The validator's cache
    is not part of the state: [schema_cache_transparent] shows that it does not
    change any verdict. *)
From S2P Require Import Prelude PyFloat PyValue ToolRegistry StateStore StateStoreFacts Recovery Planner PlannerFacts Replanner Policy Context Contract ContractFacts Executor ExecutorBatch ExecutorFacts.
Import StateStore.
Local Open Scope Z_scope.

Module AgentApplication.

Definition counters : Type := gmap string Z.

Section application.
Context (utcnow : nat → string) (monotonic : nat → float).
Context (repr : pyval → string) (exc_str : exc → string).
Context (disk : string → res pyval).
Local Abbreviation to_str := (Py.to_str repr).

(** ** Mock tools *)

(** [_should_fail_once] and [_should_fail_twice] *)
Definition should_fail_once (key : string) (c : counters) : bool * counters :=
  let current := default 0 (c !! key) in (current =? 0, <[key := current + 1]> c).
Definition should_fail_twice (key : string) (c : counters) : bool * counters :=
  let current := default 0 (c !! key) in (current <? 2, <[key := current + 1]> c).

Definition tool_error (code message : string) (retryable : bool) : ToolRegistry.outcome :=
  ToolRegistry.ToolExecutionError code message retryable.

Definition search_items : list pyval :=
  [VDict [("title", VStr "Architecture Baseline"); ("score", VFloat (PyFloat.ratio 88 100))];
   VDict [("title", VStr "Recovery Design"); ("score", VFloat (PyFloat.ratio 75 100))]].

(** The end of [_tool_search]: [int(payload.get("top_k", 2))] may raise. *)
Definition search_result (payload : dict pyval) : ToolRegistry.outcome :=
  match Py.to_int (dget "top_k" (VInt 2) payload) with
  | Ok k => ToolRegistry.Returned
      (VDict [("query", dget "query" VNone payload); ("items", VList (slice_to k search_items))])
  | Err e => ToolRegistry.Raised (exc_str e)
  end.

(** [_tool_search]; the [time.sleep] of "sleep_short" only takes time. *)
Definition tool_search (payload : dict pyval) (c : counters) : ToolRegistry.outcome * counters :=
  let query := Py.lower (Py.strip (to_str (dget "query" (VStr "") payload))) in
  if str_in "timeout" query then (tool_error "tool_timeout" "search timeout" true, c)
  else
  let '(once, c) := if str_in "flaky_once" query then should_fail_once ("search:" +:+ query) c
                    else (false, c) in
  if once then (tool_error "transient_network_error" "temporary search failure" true, c)
  else
  let '(twice, c) := if str_in "flaky_twice" query then should_fail_twice ("search:" +:+ query) c
                     else (false, c) in
  if twice then (tool_error "service_unavailable" "temporary upstream outage" true, c)
  else if str_in "force_fail" query then
    (tool_error "invalid_business_input" "search input is invalid" false, c)
  else (search_result payload, c).

Definition tool_query_db (payload : dict pyval) (c : counters) : ToolRegistry.outcome * counters :=
  let sql := Py.lower (Py.strip (to_str (dget "sql" (VStr "") payload))) in
  if negb (starts_with sql "select") then
    (tool_error "invalid_business_input" "only SELECT is allowed" false, c)
  else
  let '(once, c) := if str_in "transient_fail_once" sql then should_fail_once ("query:" +:+ sql) c
                    else (false, c) in
  if once then (tool_error "service_unavailable" "db service unavailable" true, c)
  else (ToolRegistry.Returned (VDict [("rows", VList [VDict [("ok", VInt 1)]]); ("row_count", VInt 1);
                                      ("limit", dget "limit" (VInt 10) payload)]), c).

Definition tool_notify (payload : dict pyval) (c : counters) : ToolRegistry.outcome * counters :=
  let message := to_str (dget "message" (VStr "") payload) in
  if (500 <? String.length message)%nat then
    (tool_error "invalid_business_input" "message too long" false, c)
  else if str_in "handoff" (Py.lower message) then
    (tool_error "permission_denied" "manual approval required" false, c)
  else (ToolRegistry.Returned (VDict [("channel", dget "channel" VNone payload);
                                      ("recipient", dget "recipient" VNone payload);
                                      ("status", VStr "queued")]), c).

(** [_register_tools] *)
Definition register_tools : st (gmap string (ToolRegistry.ToolDefinition counters)) unit :=
  st_for ToolRegistry.register
    [{| ToolRegistry.tool_id := "tool.search";
        ToolRegistry.schema_path := "tools/tool.search.schema.json";
        ToolRegistry.handler := tool_search |};
     {| ToolRegistry.tool_id := "tool.query_db";
        ToolRegistry.schema_path := "tools/tool.query_db.schema.json";
        ToolRegistry.handler := tool_query_db |};
     {| ToolRegistry.tool_id := "tool.notify";
        ToolRegistry.schema_path := "tools/tool.notify.schema.json";
        ToolRegistry.handler := tool_notify |}].

(** The registry of a running application. *)
Definition registry : gmap string (ToolRegistry.ToolDefinition counters) :=
  (register_tools ToolRegistry.init).2.

(** ** State *)
Record app := mkApp {
  a_store : store;
  a_audit : list (dict pyval);
  a_tools : counters;
  a_clock : nat;
}.

(** [AgentApplication.__init__] *)
Definition init_app : app := mkApp StateStore.init [] ∅ 0.

(** ** The response *)
Definition step_result_dict (r : StepResult) : pyval :=
  VDict [("step_id", VStr (sr_step_id r)); ("tool_id", VStr (sr_tool_id r));
         ("plan_version", VInt (sr_plan_version r)); ("result", envelope_dict (sr_result r))].

Definition replan_item_dict (i : ReplanItem) : pyval :=
  VDict [("strategy", VStr (ri_strategy i)); ("reason", VStr (ri_reason i));
         ("message", VStr (ri_message i)); ("target_plan_version", VInt (ri_target_plan_version i));
         ("step_id_mapping", VList ((λ m,
            VDict [("source_step_id", VStr (source_step_id m));
                   ("target_step_id", VStr (target_step_id m));
                   ("plan_version", VInt (sm_plan_version m))]) <$> ri_step_id_mapping i))].

Definition response_payload (plan : ExecutionPlan) (r : ExecutionResult) : dict pyval :=
  [("request_id", VStr (ep_request_id plan)); ("session_id", VStr (ep_session_id plan));
   ("success", VBool (er_success r));
   ("data", if er_success r then
      VDict [("trace_id", VStr (er_trace_id r)); ("plan_version", VInt (er_plan_version r));
             ("risk_flags", VList (VStr <$> ep_risk_flags plan));
             ("replan_history", VList (replan_item_dict <$> er_replan_history r));
             ("step_results", VList (step_result_dict <$> er_step_results r))]
    else VNone);
   ("error", from_option VDict VNone (er_error r))].

(** ** [handle_request] *)
Definition validate (schema_path : string) (payload : dict pyval) : res unit :=
  ContractValidator.validate_uncached repr disk schema_path (VDict payload).

(** The part before any state changes: validation, context, plan, controls;
    [from_request] reads the clock for [started_at]. *)
Definition prepare (request : dict pyval) (started_at : float)
    : res (ExecutionContext * ExecutionPlan * ExecutionControl) :=
  validate "agent-request.schema.json" request ≫= λ _,
  context ← ContextManager.build request;
  plan ← Planner.create_plan repr request;
  control ← Control.from_request started_at request;
  Ok (context, plan, control).

Definition execute (request : dict pyval) (rounds : nat → round counters) (fuel : nat)
    (plan : ExecutionPlan) (w : world counters) : option (res ExecutionResult * world counters) :=
  Executor.execute utcnow monotonic repr exc_str registry validate ToolPolicyEngine.default_map
    true 1 1 request rounds fuel plan w.

Definition close (w : world counters) : app :=
  mkApp (w_store w) (w_audit w) (w_tools w) (w_clock w).

(** The part after the execution. *)
Definition respond (plan : ExecutionPlan) (started_at : float) (r : ExecutionResult)
    (w : world counters) : res (dict pyval) * app :=
  let response := response_payload plan r in
  match validate "agent-response.schema.json" response with
  | Err e => (Err e, close w)
  | Ok _ =>
      match Executor.duration_ms started_at (monotonic (w_clock w)) with
      | Err e => (Err e, mkApp (w_store w) (w_audit w) (w_tools w) (S (w_clock w)))
      | Ok ms =>
          (Ok response,
           mkApp (w_store w)
             (AuditLogger.write_event (AuditLogger.final_event (ep_request_id plan)
                (ep_session_id plan) (er_success r) ms) (w_audit w))
             (w_tools w) (S (w_clock w)))
      end
  end.

Definition handle_request (rounds : nat → round counters) (fuel : nat) (request : dict pyval)
    (a : app) : option (res (dict pyval) * app) :=
  let started_at := monotonic (a_clock a) in
  let tick n := mkApp (a_store a) (a_audit a) (a_tools a) (n + a_clock a) in
  match prepare request (monotonic (S (a_clock a))) with
  | Err e => Some (Err e, tick 1%nat)
  | Ok (context, plan, control) =>
      match init_session utcnow (ep_request_id plan) (ep_session_id plan)
              (Executor.serialize_plan_steps (ep_steps plan)) (ep_plan_version plan)
              (ep_trace_id plan) (a_store a) with
      | (Err e, s) => Some (Err e, mkApp s (a_audit a) (a_tools a) (2 + a_clock a))
      | (Ok _, s) =>
          match execute request rounds fuel plan
                  (mkWorld s context control (a_audit a) (a_tools a) (2 + a_clock a) []) with
          | None => None
          | Some (Err e, w) => Some (Err e, close w)
          | Some (Ok r, w) => Some (respond plan started_at r w)
          end
      end
  end.

(** [get_session_snapshot] *)
Definition get_session_snapshot (sid : string) (a : app) : res (option StepSnapshot) :=
  (latest_snapshot sid (a_store a)).1.

End application.
End AgentApplication.
Import AgentApplication.

Example app_demo :
  let request := [("request_id", VStr "r1"); ("session_id", VStr "s1");
    ("user_input", VStr "analyze flaky_once"); ("allowed_tools",
    VList [VStr "tool.search"; VStr "tool.query_db"])] in
  match handle_request (λ _, "t") (λ _, PyFloat.zero) (λ _, "") (λ _, "") contract_files
          (λ _, mkRound [] []) 10 request init_app with
  | Some (Ok r, a) => dlookup "success" r = Some (VBool true) ∧ length (a_audit a) = 6%nat
  | _ => False
  end.
Proof. vm_compute. auto. Qed.
