(* ===== verification/AppFacts.v ===== *)
(** * The application end to end

    What the request contract guarantees to the planner and the context
    builder, and what a client may rely on when [handle_request] answers. *)
From S2P Require Import Prelude PyFloat PyValue ToolRegistry StateStore StateStoreFacts Recovery Planner PlannerFacts Replanner Policy Context Contract ContractFacts Executor ExecutorBatch ExecutorFacts App.
Import StateStore AgentApplication.
Local Open Scope Z_scope.

(** ** Reading the request contract *)
Lemma conforms_inv s v : conforms s v → type_ok s v ∧ enum_ok s v ∧ shape_ok s v.
Proof. apply conforms_iff. Qed.

Lemma conforms_string v : conforms string_type v → ∃ t, v = VStr t ∧ t ≠ "".
Proof.
  intros (Ht & _ & Hshape)%conforms_inv. destruct v as [| | | |t| |]; try discriminate Ht.
  exists t. split; [done|]. intros ->. destruct Hshape as (_ & _ & _ & _ & _ & Hs & _).
  destruct (Hs "" eq_refl) as [Hmin _]. by apply (Hmin (inl 1) eq_refl).
Qed.

Lemma conforms_dict s v :
  kw "type" s = VStr "object" → conforms s v →
  ∃ d, v = VDict d ∧
    (∀ f, VStr f ∈ items_of (kw "required" s) → ∃ x, dlookup f d = Some x) ∧
    (∀ k s' x, (k, s') ∈ fields_of (kw "properties" s) → dlookup k d = Some x → conforms s' x).
Proof.
  intros Hk (Ht & _ & Hshape)%conforms_inv. unfold type_ok in Ht. rewrite Hk in Ht.
  destruct v as [| | | | | |d]; try discriminate Ht. exists d. split; [done|].
  destruct Hshape as (Hr & _ & Hp & _). split; [|eauto].
  intros f Hf. specialize (Hr d f eq_refl Hf).
  destruct (dlookup f d) as [x|] eqn:E; [eauto|]. by apply dlookup_None_keys in E.
Qed.

Definition tool_names : list string := ["tool.search"; "tool.query_db"; "tool.notify"].

Definition allowed_tools_schema : pyval := VDict
  [("type", VStr "array"); ("minItems", VInt 1);
   ("items", VDict [("type", VStr "string"); ("enum", VList (VStr <$> tool_names))])].

Lemma conforms_tools v :
  conforms allowed_tools_schema v →
  ∃ tools, v = VList (VStr <$> tools) ∧ tools ≠ [] ∧ ∀ t, t ∈ tools → t ∈ tool_names.
Proof.
  intros (Ht & _ & Hshape)%conforms_inv. destruct v as [| | | | |l|]; try discriminate Ht.
  destruct Hshape as (_ & _ & _ & Hlen & Hitems & _).
  destruct (Hlen l eq_refl) as [Hmin _].
  assert (∃ tools, l = VStr <$> tools ∧ ∀ t, t ∈ tools → t ∈ tool_names) as (tools & -> & Hin).
  { specialize (Hitems l). clear Hlen Hmin Ht.
    induction l as [|x l IH]; [exists []; split; [done|set_solver]|].
    destruct IH as (tools & -> & Hin); [intros y _ Hne Hy; apply Hitems; [done|done|set_solver]|].
    pose proof (Hitems x eq_refl ltac:(discriminate) ltac:(set_solver)) as (Htx & Hen & _)%conforms_inv.
    destruct x as [| | | |t| |]; try discriminate Htx.
    specialize (Hen ltac:(discriminate)). change (Py.mem (VStr t) (VStr <$> tool_names) = true) in Hen.
    rewrite py_mem_str in Hen. apply bool_decide_eq_true, list_elem_of_fmap in Hen as (t' & [= <-] & Ht').
    exists (t :: tools). split; [done|]. intros t' [->|?]%elem_of_cons; auto. }
  exists tools. split_and!; [done| |done]. intros ->. by apply (Hmin (inl 1) eq_refl).
Qed.

Definition system_schema : pyval := VDict
  [("type", VStr "object"); ("additionalProperties", VBool false);
   ("properties", VDict [("tenant_id", string_type); ("environment", string_type);
                         ("policy_version", string_type)])].
Definition context_schema : pyval := VDict
  [("type", VStr "object"); ("additionalProperties", VBool false);
   ("properties", VDict [("system", system_schema)])].

(** What the contract says of the fields that planning and context read. *)
Lemma request_fields r :
  conforms agent_request_schema (VDict r) →
  ∃ rid sid u tools,
    dlookup "request_id" r = Some (VStr rid) ∧ rid ≠ "" ∧
    dlookup "session_id" r = Some (VStr sid) ∧ sid ≠ "" ∧
    dlookup "user_input" r = Some (VStr u) ∧ u ≠ "" ∧
    dlookup "allowed_tools" r = Some (VList (VStr <$> tools)) ∧ tools ≠ [] ∧
    (∀ t, t ∈ tools → t ∈ tool_names) ∧
    (∀ c, dlookup "context" r = Some c → conforms context_schema c).
Proof.
  intros (d & [= <-] & Hreq & Hprop)%conforms_dict; [|done].
  assert (∀ f s, (f, s) ∈ fields_of (kw "properties" agent_request_schema) →
    VStr f ∈ items_of (kw "required" agent_request_schema) →
    ∃ v, dlookup f r = Some v ∧ conforms s v) as H.
  { intros f s Hin Hr. destruct (Hreq f Hr) as [v Hv]. eauto. }
  assert (∀ f, f ∈ ["request_id"; "session_id"; "user_input"] →
    ∃ t, dlookup f r = Some (VStr t) ∧ t ≠ "") as Hstr.
  { intros f Hf. destruct (H f string_type) as (v & Hv & (t & -> & Ht)%conforms_string); [..|eauto].
    - vm_compute. repeat (apply elem_of_cons in Hf as [->|Hf];
        [repeat first [apply list_elem_of_here | apply list_elem_of_further]|]). set_solver.
    - vm_compute. repeat (apply elem_of_cons in Hf as [->|Hf];
        [repeat first [apply list_elem_of_here | apply list_elem_of_further]|]). set_solver. }
  destruct (Hstr "request_id") as (rid & ? & ?); [set_solver|].
  destruct (Hstr "session_id") as (sid & ? & ?); [set_solver|].
  destruct (Hstr "user_input") as (u & ? & ?); [set_solver|].
  destruct (H "allowed_tools" allowed_tools_schema) as (v & ? & (tools & -> & ? & ?)%conforms_tools).
  { vm_compute. repeat first [apply list_elem_of_here | apply list_elem_of_further]. }
  { vm_compute. repeat first [apply list_elem_of_here | apply list_elem_of_further]. }
  exists rid, sid, u, tools. split_and!; [assumption..|].
  intros c Hc. eapply Hprop; [|exact Hc].
  vm_compute. repeat first [apply list_elem_of_here | apply list_elem_of_further].
Qed.

Lemma context_builds r :
  conforms agent_request_schema (VDict r) → ∃ c, ContextManager.build r = Ok c.
Proof.
  intros (rid & sid & u & tools & Hr & ? & Hs & ? & Hu & ? & _ & _ & _ & Hc)%request_fields.
  unfold ContextManager.build.
  assert (ContextManager.validate_request_fields r = Ok tt) as ->.
  { unfold ContextManager.validate_request_fields, dget. simpl. rewrite Hr, Hs, Hu. simpl.
    unfold str_truthy. by rewrite !bool_decide_eq_true_2. }
  cbn [mbind res_bind].
  assert (∃ sys, Py.get "system" (VDict []) (dget "context" (VDict []) r) = Ok (VDict sys)) as [sys ->].
  { unfold dget. destruct (dlookup "context" r) as [c|] eqn:E; simpl; [|by eexists].
    destruct (conforms_dict context_schema c eq_refl (Hc c eq_refl)) as (d & -> & _ & Hp). simpl.
    unfold dget. destruct (dlookup "system" d) as [x|] eqn:Ex; simpl; [|by eexists].
    destruct (conforms_dict system_schema x eq_refl) as (sd & -> & _); [|by eexists].
    apply (Hp "system"); [apply list_elem_of_here|done]. }
  cbn [mbind res_bind]. unfold Py.subscript. rewrite Hr, Hs, Hu. cbn. by eexists.
Qed.

Section app.
Context (utcnow : nat → string) (monotonic : nat → float).
Context (repr : pyval → string) (exc_str : exc → string).

Lemma validate_request_conforms r :
  validate repr contract_files "agent-request.schema.json" r = Ok tt ↔
  conforms agent_request_schema (VDict r).
Proof.
  unfold validate, ContractValidator.validate_uncached.
  change (contract_files "agent-request.schema.json") with (Ok agent_request_schema).
  cbn [mbind res_bind].
  destruct (validate_value_decides repr agent_request_schema (VDict r)) as [[-> ?]|(es & _ & -> & ?)];
    [vm_compute; reflexivity|done|]. naive_solver.
Qed.

(** ** Preparing a request *)
Lemma prepare_plain r t :
  validate repr contract_files "agent-request.schema.json" r = Ok tt →
  dlookup "metadata" r = None →
  ∃ c p k, prepare repr contract_files r t = Ok (c, p, k) ∧ ep_plan_version p = 1.
Proof.
  intros Hv Hm. pose proof (proj1 (validate_request_conforms r) Hv) as Hc.
  destruct (context_builds r Hc) as [c Hb].
  destruct (request_fields r Hc) as (rid & sid & u & tools & ? & ? & ? & ? & ? & ? & ? & ? & Hn & _).
  destruct (create_plan_plain repr r rid sid u tools) as (p & Hp & _ & _ & Hver & _).
  { split; try done. intros He%Hn. set_solver. }
  unfold prepare. rewrite Hv. cbn [mbind res_bind]. rewrite Hb. cbn [mbind res_bind].
  rewrite Hp. cbn [mbind res_bind]. unfold Control.from_request, dget. rewrite Hm. cbn.
  by eexists _, p, _.
Qed.

Lemma prepare_start_ok disk r t c p k s audit tools clock :
  prepare repr disk r t = Ok (c, p, k) → store_wf s →
  ∃ allowed, start_ok p allowed (mkWorld s c k audit tools clock [] : world counters).
Proof.
  unfold prepare. intros H Hs. apply bind_unit_Ok in H as [_ H].
  apply bind_Ok in H as (c' & Hc & H). apply bind_Ok in H as (p' & Hp & H).
  apply bind_Ok in H as (k' & Hk & [= -> -> ->]).
  destruct (create_plan_ok repr r p Hp) as (allowed & _ & Hv & _). exists allowed. split; simpl.
  - by eapply create_plan_replannable.
  - done.
  - by apply (build_trim_policy r).
  - by apply Control.from_request_positive in Hk as [? _].
Qed.

(** ** Handling a request *)

(** What a caller may rely on when a response comes back in state [a]. *)
Definition response_ok (request response : dict pyval) (a : app) : Prop :=
  ∃ rid sid s, dlookup "request_id" request = Some (VStr rid) ∧
    dlookup "session_id" request = Some (VStr sid) ∧
    dlookup "request_id" response = Some (VStr rid) ∧
    dlookup "session_id" response = Some (VStr sid) ∧
    sessions (a_store a) !! sid = Some s ∧
    dlookup "success" response = Some (VBool (bool_decide (se_status s = SUCCESS))) ∧
    (dlookup "data" response = Some VNone ↔ se_status s ≠ SUCCESS).

Lemma respond_ok disk p t r (w : world counters) allowed request s :
  final_ok repr 1 p r w → store_wf (w_store w) → plan_valid p allowed →
  dlookup "request_id" request = Some (VStr (ep_request_id p)) →
  dlookup "session_id" request = Some (VStr (ep_session_id p)) →
  session_of (w_store w) (ep_session_id p) = Some s →
  store_wf (a_store (respond monotonic repr disk p t r w).2) ∧
  match (respond monotonic repr disk p t r w).1 with
  | Ok response => response_ok request response (respond monotonic repr disk p t r w).2
  | Err _ => True
  end.
Proof.
  intros Hf Hwf Hv Hrid Hsid Hs. unfold respond.
  destruct (validate repr disk _ _) as [[]|e]; [|done].
  destruct (Executor.duration_ms _ _) as [ms|e]; [|done]. split; [done|].
  destruct (fo_status _ _ _ _ _ Hf) as (s' & Hs' & Hst). rewrite Hs in Hs'. injection Hs' as <-.
  exists (ep_request_id p), (ep_session_id p), s. unfold response_payload. simpl.
  destruct (er_success r) eqn:Er.
  - destruct Hst as [Hst _]. rewrite bool_decide_eq_true_2 by done. by split_and!.
  - assert (se_status s ≠ SUCCESS) as Hne by (destruct Hst as [-> |[-> _]]; done).
    rewrite bool_decide_eq_false_2 by done. by split_and!.
Qed.

Lemma handle_request_ok disk rounds fuel request a :
  store_wf (a_store a) →
  (∀ p, Planner.create_plan repr request = Ok p → (Executor.enough 1 p ≤ fuel)%nat) →
  ∃ x a', handle_request utcnow monotonic repr exc_str disk rounds fuel request a = Some (x, a') ∧
    store_wf (a_store a') ∧
    match x with Ok response => response_ok request response a' | Err _ => True end.
Proof.
  intros Hwf Hfuel. unfold handle_request.
  destruct (prepare repr disk request _) as [[[c p] k]|e] eqn:Ep; [|by eexists _, _].
  destruct (init_session_ok utcnow (a_store a) (ep_request_id p) (ep_session_id p)
    (Executor.serialize_plan_steps (ep_steps p)) (ep_plan_version p) (ep_trace_id p))
    as (s0 & s1 & E & _ & _). rewrite E.
  assert (store_wf s1) as Hwf1.
  { replace s1 with (exec utcnow (OInitSession (ep_request_id p) (ep_session_id p)
      (Executor.serialize_plan_steps (ep_steps p)) (ep_plan_version p) (ep_trace_id p)) (a_store a)).2
      by (simpl; by rewrite E).
    by apply exec_wf. }
  destruct (prepare_start_ok disk request _ c p k s1 (a_audit a) (a_tools a) (2 + a_clock a) Ep Hwf1)
    as [allowed Hstart].
  assert (Planner.create_plan repr request = Ok p) as Hcp.
  { unfold prepare in Ep. apply bind_unit_Ok in Ep as [_ Ep]. apply bind_Ok in Ep as (? & _ & Ep).
    apply bind_Ok in Ep as (p' & Hp & Ep). by apply bind_Ok in Ep as (k' & _ & [= _ -> _]). }
  destruct (execute_ok utcnow monotonic repr exc_str (registry repr exc_str) (validate repr disk)
    ToolPolicyEngine.default_map true 1 1 request p allowed [] rounds fuel
    (mkWorld s1 c k (a_audit a) (a_tools a) (2 + a_clock a) []) Hstart eq_refl (Hfuel p Hcp))
    as (r & w' & He & Hf & _).
  unfold execute. rewrite He.
  destruct (create_plan_ok repr request p Hcp) as (tools & _ & Hv & _ & Hrid & Hsid).
  destruct (fo_status _ _ _ _ _ Hf) as (s & Hs & _).
  destruct (respond_ok disk p (monotonic (a_clock a)) r w' tools request s Hf (fo_wf _ _ _ _ _ Hf) Hv Hrid Hsid Hs)
    as [Hwf' Hresp].
  destruct (respond monotonic repr disk p (monotonic (a_clock a)) r w') as [x a']. eauto.
Qed.
End app.

(** ** Properties *)

(** A request that the request contract accepts and that carries no
    metadata always gets past preparation: the context, a plan of version one
    and the controls are built without an exception. *)
Theorem accepted_request_prepares repr r t :
  validate repr contract_files "agent-request.schema.json" r = Ok tt →
  dlookup "metadata" r = None →
  ∃ c p k, prepare repr contract_files r t = Ok (c, p, k) ∧ ep_plan_version p = 1.
Proof. apply prepare_plain. Qed.

Definition demo_app_request : dict pyval :=
  [("request_id", VStr "r1"); ("session_id", VStr "s1"); ("user_input", VStr "query the totals");
   ("allowed_tools", VList [VStr "tool.query_db"])].

Lemma accepted_request_prepares_witness :
  ∃ c p k, prepare (λ _, "") contract_files demo_app_request PyFloat.zero = Ok (c, p, k) ∧
    (ps_tool_id <$> ep_steps p) = ["tool.query_db"].
Proof.
  destruct (accepted_request_prepares (λ _, "") demo_app_request PyFloat.zero) as (c & p & k & H & _);
    [vm_compute; reflexivity|reflexivity|].
  exists c, p, k. split; [exact H|]. vm_compute in H. injection H as _ <- _. reflexivity.
Defined.

(** C5: [handle_request] always answers, with a response or an exception, for
    every request whatsoever, every schedule and every content of the contract
    files; the session store stays well-formed; and a response echoes the
    request's identifiers and reports success exactly when the stored session
    is SUCCESS. *)
Theorem handle_request_sound utcnow monotonic repr exc_str disk rounds fuel request a :
  store_wf (a_store a) →
  (∀ p, Planner.create_plan repr request = Ok p → (Executor.enough 1 p ≤ fuel)%nat) →
  ∃ x a', handle_request utcnow monotonic repr exc_str disk rounds fuel request a = Some (x, a') ∧
    store_wf (a_store a') ∧
    match x with Ok response => response_ok request response a' | Err _ => True end.
Proof. apply handle_request_ok. Qed.

Lemma handle_request_sound_witness :
  ∃ response a', handle_request (λ _, "t") (λ _, PyFloat.zero) (λ _, "") (λ _, "") contract_files
      (λ _, mkRound [] []) 3 demo_app_request init_app = Some (Ok response, a') ∧
    dlookup "success" response = Some (VBool true) ∧ store_wf (a_store a').
Proof.
  destruct (handle_request_sound (λ _, "t") (λ _, PyFloat.zero) (λ _, "") (λ _, "") contract_files
    (λ _, mkRound [] []) 3 demo_app_request init_app) as (x & a' & H & Hwf & _).
  - intros sid s Hs. change ((∅ : gmap string SessionState) !! sid = Some s) in Hs.
    rewrite lookup_empty in Hs. discriminate Hs.
  - intros p Hp. vm_compute in Hp. injection Hp as <-. vm_compute. reflexivity.
  - destruct x as [response|e].
    + exists response, a'. split; [exact H|]. split; [|exact Hwf].
      vm_compute in H. injection H as <- _. reflexivity.
    + vm_compute in H. discriminate H.
Defined.
