(* ===== verification/Persistence.v ===== *)
(** * Persistence backends (src/src/persistence/interfaces.py, in_memory.py)

    The abstract backends are typeclasses with their laws; components that
    persist state are verified against the classes.  The in-memory adapters are
    insertion-ordered dictionaries; records are copied on the way in and out
    ([copy.deepcopy]), so a backend never shares a mutable record with its
    client and values model it. *)
From S2P Require Import Prelude PyFloat PyValue.
Local Open Scope Z_scope.

(** ** Records *)
Record MemoryRecord := mkMemoryRecord {
  mr_key : string;
  mr_value : pyval;
  mr_version : Z;
  mr_writer_role : string;
  mr_updated_at : float;
  mr_expires_at : option float;
}.

Record CircuitRecord := mkCircuitRecord {
  cr_tool_name : string;
  cr_state : string;
  cr_failure_count : Z;
  cr_success_count : Z;
  cr_half_open_successes : Z;
  cr_last_failure_time : float;
  cr_last_state_change : float;
  cr_total_calls : Z;
  cr_total_failures : Z;
  cr_total_rejections : Z;
}.

Record ConfigRecord := mkConfigRecord {
  cf_namespace : string;
  cf_key : string;
  cf_value : pyval;
  cf_version : Z;
  cf_config_type : string;
  cf_updated_at : float;
  cf_description : string;
}.

Record SessionRecord := mkSessionRecord {
  sn_session_id : string;
  sn_instance_id : string;
  sn_state : string;
  sn_payload : pyval;
  sn_created_at : float;
  sn_updated_at : float;
  sn_expires_at : option float;
}.

(** ** Interfaces *)

(** [get], [put], [delete], [list_all] and [clear] of a backend [B] that
    stores records [R] under their field [key]. *)
Class KeyedBackend (B R : Type) (key : R → string) := {
  backend_get : string → B → option R;
  backend_put : R → B → B;
  backend_delete : string → B → bool * B;
  backend_list_all : B → list R;
  backend_clear : B → B;
}.

(** [backend_ok] is the representation invariant of an implementation. *)
Class KeyedBackendLaws (B R : Type) (key : R → string) `{KeyedBackend B R key} := {
  backend_ok : B → Prop;
  ok_put r b : backend_ok b → backend_ok (backend_put r b);
  ok_delete k b : backend_ok b → backend_ok (backend_delete k b).2;
  ok_clear b : backend_ok (backend_clear b);
  get_put_eq r b : backend_get (key r) (backend_put r b) = Some r;
  get_put_ne k r b : k ≠ key r → backend_get k (backend_put r b) = backend_get k b;
  get_delete k k' b : backend_get k (backend_delete k' b).2 =
    if decide (k = k') then None else backend_get k b;
  delete_reports k b : (backend_delete k b).1 = bool_decide (is_Some (backend_get k b));
  get_clear k b : backend_get k (backend_clear b) = None;
  list_all_get r b : backend_ok b →
    r ∈ backend_list_all b ↔ backend_get (key r) b = Some r;
  get_key k r b : backend_ok b → backend_get k b = Some r → key r = k;
}.

(** ** Dictionaries *)
Fixpoint ddelete {A} (k : string) (d : dict A) : dict A :=
  match d with
  | [] => []
  | (k', v) :: d => if decide (k = k') then ddelete k d else (k', v) :: ddelete k d
  end.

Lemma dlookup_ddelete {A} k k' (d : dict A) :
  dlookup k (ddelete k' d) = if decide (k = k') then None else dlookup k d.
Proof.
  induction d as [|[k0 v0] d IH]; simpl; [by case_decide|].
  destruct (decide (k' = k0)) as [->|]; simpl; rewrite IH; repeat case_decide; naive_solver.
Qed.

Lemma ddelete_filter {A} k (d : dict A) : ddelete k d = filter (λ x, x.1 ≠ k) d.
Proof.
  induction d as [|[k' v] d IH]; simpl; [done|]. rewrite filter_cons, IH. simpl.
  repeat case_decide; naive_solver.
Qed.

(** Entries sit under their own keys, each key once. *)
Definition keyed {R} (key : R → string) (d : dict R) : Prop :=
  (∀ k r, (k, r) ∈ d → k = key r) ∧ NoDup (dkeys d).

Lemma elem_of_dinsert {A} k (v : A) d x :
  x ∈ dinsert k v d → x = (k, v) ∨ x ∈ d.
Proof.
  induction d as [|[k' v'] d IH]; simpl; [set_solver|]. case_decide; set_solver.
Qed.

Lemma elem_of_ddelete {A} k (d : dict A) x : x ∈ ddelete k d → x ∈ d.
Proof. induction d as [|[k' v'] d IH]; simpl; [done|]. case_decide; set_solver. Qed.

Lemma NoDup_ddelete {A} k (d : dict A) : NoDup (dkeys d) → NoDup (dkeys (ddelete k d)).
Proof.
  induction d as [|[k' v] d IH]; cbn [ddelete]; [done|].
  rewrite dkeys_cons. intros [Hni Hnd]%NoDup_cons. case_decide; [by apply IH|].
  rewrite dkeys_cons. apply NoDup_cons. split; [|by apply IH].
  rewrite <-dlookup_None_keys, dlookup_ddelete. case_decide; [done|]. by apply dlookup_None_keys.
Qed.

Lemma elem_of_dlookup {A} k (v : A) d : NoDup (dkeys d) → (k, v) ∈ d ↔ dlookup k d = Some v.
Proof.
  intros Hnd. induction d as [|[k' v'] d IH]; cbn [dlookup]; [set_solver|].
  rewrite dkeys_cons in Hnd. apply NoDup_cons in Hnd as [Hni Hnd].
  rewrite elem_of_cons, IH by done. case_decide as E; [subst|naive_solver].
  split; [|intros [= ->]; by left]. intros [[= ->]|Hk]; [done|].
  by apply dlookup_Some_keys in Hk.
Qed.

Module InMemory.
Section in_memory.
Context {R : Type} (key : R → string).

(** [self._store = {}] *)
Definition init : dict R := [].
Definition get (k : string) (b : dict R) : option R := dlookup k b.
Definition put (r : R) (b : dict R) : dict R := dinsert (key r) r b.
Definition delete (k : string) (b : dict R) : bool * dict R :=
  if dmem k b then (true, ddelete k b) else (false, b).
Definition list_all (b : dict R) : list R := b.*2.
Definition clear (b : dict R) : dict R := init.
(** [[r for r in self._store.values() if p(r)]] *)
Definition list_by (p : R → bool) (b : dict R) : list R := filter (λ r, p r = true) (list_all b).

Lemma delete_eq k b : (delete k b).2 = ddelete k b.
Proof.
  unfold delete. destruct (dmem k b) eqn:E; [done|]. simpl.
  assert (dlookup k b = None) as Hk.
  { destruct (dlookup k b) eqn:E'; [|done]. unfold dmem in E. by rewrite E' in E. }
  clear E. induction b as [|[k' v] b IH]; [done|]. simpl in *.
  case_decide; [done|]. by rewrite <-IH.
Qed.
End in_memory.
End InMemory.

(** ** The four backends of in_memory.py *)
Definition memory_backend : KeyedBackend (dict MemoryRecord) MemoryRecord mr_key := {|
  backend_get := InMemory.get; backend_put := InMemory.put mr_key;
  backend_delete := InMemory.delete; backend_list_all := InMemory.list_all;
  backend_clear := InMemory.clear |}.
Definition circuit_backend : KeyedBackend (dict CircuitRecord) CircuitRecord cr_tool_name := {|
  backend_get := InMemory.get; backend_put := InMemory.put cr_tool_name;
  backend_delete := InMemory.delete; backend_list_all := InMemory.list_all;
  backend_clear := InMemory.clear |}.
Definition session_backend : KeyedBackend (dict SessionRecord) SessionRecord sn_session_id := {|
  backend_get := InMemory.get; backend_put := InMemory.put sn_session_id;
  backend_delete := InMemory.delete; backend_list_all := InMemory.list_all;
  backend_clear := InMemory.clear |}.
#[global] Existing Instances memory_backend circuit_backend session_backend.

Section dict_laws.
Context {R : Type} (key : R → string).

Definition dict_backend : KeyedBackend (dict R) R key := {|
  backend_get := InMemory.get; backend_put := InMemory.put key;
  backend_delete := InMemory.delete; backend_list_all := InMemory.list_all;
  backend_clear := InMemory.clear |}.

Lemma dict_laws : @KeyedBackendLaws (dict R) R key dict_backend.
Proof.
  refine {| backend_ok := keyed key : dict R → Prop |}; simpl; unfold InMemory.get, InMemory.put.
  - intros r b [Hk Hnd]. split; [|by apply dinsert_NoDup].
    intros k r' [[= -> ->]|Hin]%elem_of_dinsert; eauto.
  - intros k b [Hk Hnd]. rewrite InMemory.delete_eq. split; [|by apply NoDup_ddelete].
    intros k' r' Hin%elem_of_ddelete. eauto.
  - intros b. split; [set_solver|constructor].
  - intros r b. apply dlookup_dinsert_eq.
  - intros k r b Hne. by apply dlookup_dinsert_ne.
  - intros k k' b. rewrite InMemory.delete_eq. apply dlookup_ddelete.
  - intros k b. unfold InMemory.delete, dmem. by case_bool_decide.
  - done.
  - intros r b [Hk Hnd]. rewrite <-elem_of_dlookup by done. unfold InMemory.list_all.
    rewrite list_elem_of_fmap. split.
    + intros ([k r'] & -> & Hin). simpl. by rewrite <-(Hk _ _ Hin).
    + intros Hin. by exists (key r, r).
  - intros k r b [Hk Hnd] Hg. symmetry. apply Hk. by apply elem_of_dlookup.
Defined.
End dict_laws.

#[global] Instance memory_laws : KeyedBackendLaws (dict MemoryRecord) MemoryRecord mr_key :=
  dict_laws mr_key.
#[global] Instance circuit_laws : KeyedBackendLaws (dict CircuitRecord) CircuitRecord cr_tool_name :=
  dict_laws cr_tool_name.
#[global] Instance session_laws : KeyedBackendLaws (dict SessionRecord) SessionRecord sn_session_id :=
  dict_laws sn_session_id.

(** [list_by_instance] and [list_by_state] of the session backend. *)
Definition list_by_instance (instance_id : string) (b : dict SessionRecord) : list SessionRecord :=
  InMemory.list_by (λ r, bool_decide (sn_instance_id r = instance_id)) b.
Definition list_by_state (state : string) (b : dict SessionRecord) : list SessionRecord :=
  InMemory.list_by (λ r, bool_decide (sn_state r = state)) b.

(** ** The configuration backend *)
Module InMemoryConfig.

Record config_store := mkConfigStore {
  cs_store : dict ConfigRecord;
  cs_history : dict (list ConfigRecord);
}.

(** [f"{namespace}::{key}"] *)
Definition composite_key (namespace key : string) : string := namespace +:+ "::" +:+ key.

Definition init : config_store := mkConfigStore [] [].

Definition get (namespace key : string) (b : config_store) : option ConfigRecord :=
  dlookup (composite_key namespace key) (cs_store b).

Definition put (r : ConfigRecord) (b : config_store) : config_store :=
  let ck := composite_key (cf_namespace r) (cf_key r) in
  mkConfigStore (dinsert ck r (cs_store b))
    (dinsert ck (dget ck [] (cs_history b) ++ [r]) (cs_history b)).

Definition delete (namespace key : string) (b : config_store) : bool * config_store :=
  let ck := composite_key namespace key in
  if dmem ck (cs_store b)
  then (true, mkConfigStore (ddelete ck (cs_store b)) (cs_history b))
  else (false, b).

Definition list_all (b : config_store) : list ConfigRecord := (cs_store b).*2.
Definition list_by_namespace (namespace : string) (b : config_store) : list ConfigRecord :=
  filter (λ r, bool_decide (cf_namespace r = namespace) = true) (list_all b).
Definition get_history (namespace key : string) (b : config_store) : list ConfigRecord :=
  dget (composite_key namespace key) [] (cs_history b).
Definition clear (b : config_store) : config_store := init.

End InMemoryConfig.
