(* ===== verification/CircuitBreaker.v ===== *)
(** * Circuit breaker (src/src/gateway/circuit_breaker.py)

    Per-tool failure isolation with the states CLOSED, OPEN and HALF_OPEN and
    optional persistence through any backend that satisfies the laws of
    [KeyedBackend].  [time n] is the n-th reading of [time.time()]. *)
From S2P Require Import Prelude PyFloat PyValue Persistence.
Local Open Scope Z_scope.

Inductive CircuitState := CLOSED | OPEN | HALF_OPEN.
#[global] Instance CircuitState_eq_dec : EqDecision CircuitState.
Proof. solve_decision. Defined.

Record CircuitConfig := mkCircuitConfig {
  failure_threshold : Z;
  recovery_timeout : float;
  success_threshold : Z;
  window_size : float;
}.

Record CircuitStats := mkCircuitStats {
  st_state : CircuitState;
  st_failure_count : Z;
  st_success_count : Z;
  st_half_open_successes : Z;
  st_last_failure_time : float;
  st_last_state_change : float;
  st_total_calls : Z;
  st_total_failures : Z;
  st_total_rejections : Z;
}.

Record breaker (B : Type) := mkBreaker {
  circuits : gmap string CircuitStats;
  backend : option B;
  cb_clock : nat;
}.
Arguments mkBreaker {B}.
Arguments circuits {B}.
Arguments backend {B}.
Arguments cb_clock {B}.

Module CircuitBreaker.

(** [CircuitConfig()] *)
Definition default_config : CircuitConfig :=
  mkCircuitConfig 5 (PyFloat.of_Z 30) 2 (PyFloat.of_Z 60).

(** [CircuitState.value] and [CircuitState(text)] *)
Definition state_value (s : CircuitState) : string :=
  match s with CLOSED => "closed" | OPEN => "open" | HALF_OPEN => "half_open" end.
Definition state_of_value (v : string) : res CircuitState :=
  if bool_decide (v = "closed") then Ok CLOSED
  else if bool_decide (v = "open") then Ok OPEN
  else if bool_decide (v = "half_open") then Ok HALF_OPEN
  else Err (ValueError ("'" +:+ v +:+ "' is not a valid CircuitState")).

(** [CircuitStats()] *)
Definition fresh_stats (now : float) : CircuitStats :=
  mkCircuitStats CLOSED 0 0 0 PyFloat.zero now 0 0 0.

Definition record_of (tool : string) (s : CircuitStats) : CircuitRecord :=
  mkCircuitRecord tool (state_value (st_state s)) (st_failure_count s) (st_success_count s)
    (st_half_open_successes s) (st_last_failure_time s) (st_last_state_change s)
    (st_total_calls s) (st_total_failures s) (st_total_rejections s).

Definition stats_of (r : CircuitRecord) : res CircuitStats :=
  state ← state_of_value (cr_state r);
  Ok (mkCircuitStats state (cr_failure_count r) (cr_success_count r) (cr_half_open_successes r)
        (cr_last_failure_time r) (cr_last_state_change r) (cr_total_calls r)
        (cr_total_failures r) (cr_total_rejections r)).

Section breaker.
Context {B : Type} `{KeyedBackend B CircuitRecord cr_tool_name}.
Context (time : nat → float) (config : CircuitConfig).

(** [__init__] *)
Definition init (b : option B) (clock : nat) : breaker B := mkBreaker ∅ b clock.

Definition now : st (breaker B) float := λ k,
  (Ok (time (cb_clock k)), mkBreaker (circuits k) (backend k) (S (cb_clock k))).

Definition set_stats (tool : string) (s : CircuitStats) : st (breaker B) unit := λ k,
  (Ok tt, mkBreaker (<[tool := s]> (circuits k)) (backend k) (cb_clock k)).

(** [_get_stats] *)
Definition get_stats' (tool : string) : st (breaker B) CircuitStats := λ k,
  match circuits k !! tool with
  | Some s => (Ok s, k)
  | None =>
      match backend k ≫= backend_get tool with
      | Some r =>
          (s ← st_lift (stats_of r); set_stats tool s ≫= λ _, mret s) k
      | None => (t ← now; set_stats tool (fresh_stats t) ≫= λ _, mret (fresh_stats t)) k
      end
  end.

(** [_persist] *)
Definition persist (tool : string) (s : CircuitStats) : st (breaker B) unit := λ k,
  (Ok tt, mkBreaker (circuits k) (backend_put (record_of tool s) <$> backend k) (cb_clock k)).

(** [_transition], on the stats object with the clock reading it takes. *)
Definition transition (s : CircuitStats) (new : CircuitState) (now : float) : CircuitStats :=
  mkCircuitStats new
    (match new with CLOSED => 0 | _ => st_failure_count s end) (st_success_count s)
    (match new with OPEN => st_half_open_successes s | _ => 0 end)
    (st_last_failure_time s) now (st_total_calls s) (st_total_failures s)
    (st_total_rejections s).

(** [_maybe_transition_to_half_open]: the stats after it. *)
Definition maybe_half_open (tool : string) (s : CircuitStats) : st (breaker B) CircuitStats :=
  match st_state s with
  | OPEN =>
      t ← now;
      if PyFloat.ge (PyFloat.sub t (st_last_state_change s)) (recovery_timeout config) then
        t' ← now;
        let s' := transition s HALF_OPEN t' in
        set_stats tool s' ≫= λ _, persist tool s' ≫= λ _, mret s'
      else mret s
  | _ => mret s
  end.

Definition get_stats (tool : string) : st (breaker B) CircuitStats :=
  s ← get_stats' tool; maybe_half_open tool s.

Definition get_state (tool : string) : st (breaker B) CircuitState :=
  s ← get_stats tool; mret (st_state s).

Definition count_rejection (s : CircuitStats) : CircuitStats :=
  mkCircuitStats (st_state s) (st_failure_count s) (st_success_count s)
    (st_half_open_successes s) (st_last_failure_time s) (st_last_state_change s)
    (st_total_calls s) (st_total_failures s) (st_total_rejections s + 1).

Definition allow_request (tool : string) : st (breaker B) bool :=
  s ← get_stats tool;
  match st_state s with
  | CLOSED | HALF_OPEN => mret true
  | OPEN =>
      let s' := count_rejection s in
      set_stats tool s' ≫= λ _, persist tool s' ≫= λ _, mret false
  end.

(** The counters of [record_success]; [half_open] is the value of
    [half_open_successes] after it. *)
Definition count_success (s : CircuitStats) : CircuitStats :=
  mkCircuitStats (st_state s)
    (match st_state s with CLOSED => 0 | _ => st_failure_count s end)
    (st_success_count s + 1)
    (match st_state s with HALF_OPEN => st_half_open_successes s + 1 | _ => st_half_open_successes s end)
    (st_last_failure_time s) (st_last_state_change s) (st_total_calls s + 1)
    (st_total_failures s) (st_total_rejections s).

Definition record_success (tool : string) : st (breaker B) unit :=
  s ← get_stats' tool;
  let s1 := count_success s in
  s2 ← (match st_state s with
        | HALF_OPEN =>
            if success_threshold config <=? st_half_open_successes s1
            then t ← now; mret (transition s1 CLOSED t) else mret s1
        | _ => mret s1
        end);
  set_stats tool s2 ≫= λ _, persist tool s2.

Definition count_failure (s : CircuitStats) (now : float) : CircuitStats :=
  mkCircuitStats (st_state s) (st_failure_count s + 1) (st_success_count s)
    (st_half_open_successes s) now (st_last_state_change s) (st_total_calls s + 1)
    (st_total_failures s + 1) (st_total_rejections s).

Definition record_failure (tool : string) : st (breaker B) unit :=
  s ← get_stats' tool;
  t ← now;
  let s1 := count_failure s t in
  s2 ← (match st_state s with
        | HALF_OPEN => t' ← now; mret (transition s1 OPEN t')
        | CLOSED =>
            if failure_threshold config <=? st_failure_count s1
            then t' ← now; mret (transition s1 OPEN t') else mret s1
        | OPEN => mret s1
        end);
  set_stats tool s2 ≫= λ _, persist tool s2.

Definition reset (tool : string) : st (breaker B) unit := λ k,
  match circuits k !! tool with
  | None => (Ok tt, k)
  | Some s =>
      (t ← now; let s' := transition s CLOSED t in
       set_stats tool s' ≫= λ _, persist tool s') k
  end.

(** The public operations as commands. *)
Inductive cb_op := GetState | AllowRequest | RecordSuccess | RecordFailure | Reset.

Definition exec (o : cb_op) (tool : string) (k : breaker B) : breaker B :=
  match o with
  | GetState => (get_state tool k).2
  | AllowRequest => (allow_request tool k).2
  | RecordSuccess => (record_success tool k).2
  | RecordFailure => (record_failure tool k).2
  | Reset => (reset tool k).2
  end.

(** A new instance over the same backend. *)
Definition restart (k : breaker B) : breaker B := init (backend k) (cb_clock k).

End breaker.
End CircuitBreaker.
Import CircuitBreaker.

(** ** Persistence round trip *)
Lemma stats_round_trip tool s : stats_of (record_of tool s) = Ok s.
Proof. by destruct s as [[] ????????]. Qed.

(** ** What one operation does to one circuit

    [settled]: the circuit an operation finds, before its own effect: the one
    in memory, the persisted one, or a fresh one. *)
Section facts.
Context {B : Type} `{KeyedBackendLaws B CircuitRecord cr_tool_name}.
Context (time : nat → float) (config : CircuitConfig).
Hypothesis (Hft : 1 ≤ failure_threshold config).
Hypothesis (Hst : 1 ≤ success_threshold config).
Local Abbreviation exec := (exec time config).

(** The invariant of one circuit. *)
Definition stats_ok (s : CircuitStats) : Prop :=
  match st_state s with
  | CLOSED => 0 ≤ st_failure_count s < failure_threshold config ∧ st_half_open_successes s = 0
  | HALF_OPEN => 0 ≤ st_half_open_successes s < success_threshold config
  | OPEN => True
  end.

(** Memory and backend agree: what is in memory is what a new instance would
    load, unless the circuit was never used. *)
Definition agrees (tool : string) (k : breaker B) : Prop :=
  ∀ b, backend k = Some b →
    match circuits k !! tool, backend_get tool b with
    | Some s, Some r => stats_of r = Ok s
    | Some s, None => ∃ t, s = fresh_stats t
    | None, Some r => ∃ s, stats_of r = Ok s
    | None, None => True
    end.

(** The circuit that [_get_stats] finds, if the tool has one. *)
Definition circuit_of (tool : string) (k : breaker B) : option CircuitStats :=
  match circuits k !! tool with
  | Some s => Some s
  | None =>
      match backend k ≫= backend_get tool with
      | Some r => match stats_of r with Ok s => Some s | Err _ => None end
      | None => None
      end
  end.

Record breaker_ok (k : breaker B) : Prop := {
  bk_agrees : ∀ tool, agrees tool k;
  bk_stats : ∀ tool s, circuit_of tool k = Some s → stats_ok s;
}.

(** What an operation on [tool] makes of the whole breaker: [s] is the circuit
    it leaves. *)
Definition settles (tool : string) (s : CircuitStats) (k k' : breaker B) : Prop :=
  breaker_ok k' ∧ circuits k' !! tool = Some s ∧
  (∀ tool', tool' ≠ tool → circuit_of tool' k' = circuit_of tool' k) ∧
  (cb_clock k ≤ cb_clock k')%nat.

Lemma get_stats'_ok tool k :
  breaker_ok k →
  ∃ s k', get_stats' time tool k = (Ok s, k') ∧ settles tool s k k' ∧ stats_ok s ∧
    (circuit_of tool k = Some s ∨ circuit_of tool k = None ∧ ∃ t, s = fresh_stats t).
Proof using All.
  intros [Ha Hs]. unfold get_stats'.
  destruct (circuits k !! tool) as [s|] eqn:E.
  { assert (circuit_of tool k = Some s) as Hc by (unfold circuit_of; by rewrite E).
    exists s, k. split_and!; [done|by split_and!|by apply (Hs tool)|by left]. }
  assert (∀ s k', circuits k' = <[tool := s]> (circuits k) → backend k' = backend k →
    (∀ b, backend k = Some b → match backend_get tool b with
       Some r => stats_of r = Ok s | None => ∃ t, s = fresh_stats t end) → stats_ok s →
    breaker_ok k' ∧ (∀ tool', tool' ≠ tool → circuit_of tool' k' = circuit_of tool' k)) as Hnew.
  { intros s k' Hc Hb Hr Hok. split; [split|].
    - intros tool' b Hb'. rewrite Hc. rewrite Hb in Hb'. destruct (decide (tool = tool')) as [<-|Hne].
      + rewrite lookup_insert_eq. by apply Hr.
      + rewrite lookup_insert_ne by done. by apply Ha.
    - intros tool' s'. unfold circuit_of. rewrite Hc, Hb.
      destruct (decide (tool = tool')) as [<-|Hne].
      + rewrite lookup_insert_eq. by intros [= <-].
      + rewrite lookup_insert_ne by done. apply (Hs tool').
    - intros tool' Hne. unfold circuit_of. rewrite Hc, Hb. by rewrite lookup_insert_ne. }
  destruct (backend k ≫= backend_get tool) as [r|] eqn:Eb.
  - apply bind_Some in Eb as (b & Hb & Hr). pose proof (Ha tool b Hb) as Hag. rewrite E, Hr in Hag.
    destruct Hag as [s Hs']. unfold mbind at 1, st_bind at 1, st_lift. rewrite Hs'.
    cbn. eexists s, _. split; [done|].
    assert (circuit_of tool k = Some s) as Hc.
    { unfold circuit_of. rewrite E, Hb. simpl. rewrite Hr. simpl. by rewrite Hs'. }
    destruct (Hnew s (mkBreaker (<[tool := s]> (circuits k)) (backend k) (cb_clock k)))
      as [H1 H2]; [done|done| |by apply (Hs tool)|].
    { intros b' Hb'. rewrite Hb in Hb'. injection Hb' as <-. by rewrite Hr. }
    split_and!; [split_and!; [exact H1|simpl; by rewrite lookup_insert_eq|exact H2|simpl; lia]
      |by apply (Hs tool)|by left].
  - cbn. eexists _, _. split; [done|].
    set (s := fresh_stats (time (cb_clock k))).
    destruct (Hnew s (mkBreaker (<[tool := s]> (circuits k)) (backend k) (S (cb_clock k))))
      as [H1 H2]; [done|done| |unfold stats_ok; simpl; lia|].
    { intros b Hb. rewrite Hb in Eb. simpl in Eb. rewrite Eb. unfold s. eauto. }
    split_and!; [split_and!; [exact H1|simpl; by rewrite lookup_insert_eq|exact H2|simpl; lia]
      |unfold stats_ok; simpl; lia|].
    right. split; [|unfold s; eauto]. unfold circuit_of. by rewrite E, Eb.
Qed.

(** Writing a circuit through to the backend. *)
Lemma write_through_ok tool s k :
  breaker_ok k → stats_ok s →
  ∃ k', (set_stats tool s ≫= λ _, persist tool s) k = (Ok tt, k') ∧ breaker_ok k' ∧
    circuits k' !! tool = Some s ∧
    (∀ tool', tool' ≠ tool → circuit_of tool' k' = circuit_of tool' k).
Proof.
  intros [Ha Hs] Hok. eexists. split; [done|].
  assert (∀ tool', tool' ≠ tool → ∀ b, backend_get tool' (backend_put (record_of tool s) b) =
    backend_get tool' b) as Hne.
  { intros tool' Hne b. by apply get_put_ne. }
  assert (∀ tool', tool' ≠ tool → circuit_of tool'
    (mkBreaker (<[tool := s]> (circuits k)) (backend_put (record_of tool s) <$> backend k) (cb_clock k))
    = circuit_of tool' k) as Hof.
  { intros tool' Ht. unfold circuit_of. simpl. rewrite lookup_insert_ne by done.
    destruct (backend k) as [b|]; [|done]. simpl. by rewrite Hne. }
  split_and!; [split| |exact Hof].
  - intros tool' b Hb. simpl in Hb. destruct (backend k) as [b0|] eqn:Eb; [|done].
    injection Hb as <-. simpl. destruct (decide (tool' = tool)) as [->|Ht].
    + rewrite lookup_insert_eq. pose proof (get_put_eq (record_of tool s) b0) as Hg. simpl in Hg.
      rewrite Hg. apply stats_round_trip.
    + rewrite lookup_insert_ne, Hne by done. by apply Ha.
  - intros tool' s'. destruct (decide (tool' = tool)) as [->|Ht].
    + unfold circuit_of. simpl. rewrite lookup_insert_eq. by intros [= <-].
    + intros Hc. apply (Hs tool'). by rewrite <-Hof.
  - simpl. by rewrite lookup_insert_eq.
Qed.

Lemma circuit_of_memory tool s (k : breaker B) :
  circuits k !! tool = Some s → circuit_of tool k = Some s.
Proof. intros Hk. unfold circuit_of. by rewrite Hk. Qed.

Lemma settles_trans tool s s' k k' k'' :
  settles tool s k k' → settles tool s' k' k'' → settles tool s' k k''.
Proof.
  intros (_ & _ & Ho & Hn) (Hok & Hc & Ho' & Hn'). split_and!; [done|done| |lia].
  intros tool' Hne. rewrite Ho', Ho by done. done.
Qed.

Lemma settles_now tool s k k' :
  settles tool s k k' →
  settles tool s k (mkBreaker (circuits k') (backend k') (S (cb_clock k'))).
Proof.
  intros ([Ha Hs] & Hc & Ho & Hn). split_and!; [by split|done|done|simpl; lia].
Qed.

Lemma settles_write tool s s' k k' :
  settles tool s k k' → stats_ok s' →
  ∃ k'', (set_stats tool s' ≫= λ _, persist tool s') k' = (Ok tt, k'') ∧
    settles tool s' k k'' ∧ cb_clock k'' = cb_clock k'.
Proof.
  intros Hset Hok'. destruct (write_through_ok tool s' k') as (k'' & He & Hok & Hc & Ho);
    [by destruct Hset|done|].
  assert (cb_clock k'' = cb_clock k') as Hn.
  { unfold mbind, st_bind, set_stats, persist in He. by injection He as <-. }
  exists k''. split_and!; [done| |done]. eapply settles_trans; [exact Hset|].
  split_and!; [done|done|done|lia].
Qed.

(** ** The abstract circuit

    What the counters mean: consecutive failures while closed, the opening
    time while open, successful probes while half open. *)
Inductive circuit := Closed (failures : Z) | Open (since : float) | HalfOpen (successes : Z).

Definition abs (s : CircuitStats) : circuit :=
  match st_state s with
  | CLOSED => Closed (st_failure_count s)
  | OPEN => Open (st_last_state_change s)
  | HALF_OPEN => HalfOpen (st_half_open_successes s)
  end.

(** The abstract circuit of a tool; an unknown tool is closed. *)
Definition abstract (tool : string) (k : breaker B) : circuit :=
  from_option abs (Closed 0) (circuit_of tool k).

(** One operation at time [t]. *)
Definition circuit_step (o : cb_op) (t : float) (c : circuit) : circuit :=
  match o, c with
  | GetState, Open since | AllowRequest, Open since =>
      if PyFloat.ge (PyFloat.sub t since) (recovery_timeout config) then HalfOpen 0 else c
  | RecordSuccess, Closed _ => Closed 0
  | RecordSuccess, HalfOpen n =>
      if success_threshold config <=? n + 1 then Closed 0 else HalfOpen (n + 1)
  | RecordFailure, Closed n =>
      if failure_threshold config <=? n + 1 then Open t else Closed (n + 1)
  | RecordFailure, HalfOpen _ => Open t
  | Reset, _ => Closed 0
  | _, _ => c
  end.

(** A time the operation reads, unless it needs none. *)
Definition reads (o : cb_op) (c : circuit) (k k' : breaker B) (t : float) : Prop :=
  (∃ n, (cb_clock k ≤ n < cb_clock k')%nat ∧ t = time n) ∨
  ∀ t', circuit_step o t' c = circuit_step o t c.

(** The effect of an operation that finds the circuit [s]. *)
Definition steps (o : cb_op) (tool : string) (s : CircuitStats) (k k' : breaker B) : Prop :=
  ∃ s' t, settles tool s' k k' ∧ reads o (abs s) k k' t ∧ abs s' = circuit_step o t (abs s).

Lemma maybe_half_open_ok o tool s k k' :
  o = GetState ∨ o = AllowRequest →
  settles tool s k k' → stats_ok s →
  ∃ s' k'' t, maybe_half_open time config tool s k' = (Ok s', k'') ∧ settles tool s' k k'' ∧
    stats_ok s' ∧ reads o (abs s) k k'' t ∧ abs s' = circuit_step o t (abs s).
Proof using All.
  intros Ho Hset Hok. unfold maybe_half_open.
  destruct (st_state s) eqn:Es.
  1,3: exists s, k', PyFloat.zero; split_and!; [done..|right; unfold abs; rewrite Es;
    by destruct Ho as [-> | ->]|unfold abs; rewrite Es; by destruct Ho as [-> | ->]].
  assert (∀ t, circuit_step o t (abs s) =
    if PyFloat.ge (PyFloat.sub t (st_last_state_change s)) (recovery_timeout config)
    then HalfOpen 0 else abs s) as Hstep.
  { intros t. unfold abs. rewrite Es. by destruct Ho as [-> | ->]. }
  unfold mbind at 1, st_bind at 1, now at 1.
  set (t := time (cb_clock k')). pose proof (settles_now _ _ _ _ Hset) as Hset1.
  set (k1 := mkBreaker (circuits k') (backend k') (S (cb_clock k'))) in *.
  assert (∀ k'', (cb_clock k1 ≤ cb_clock k'')%nat → reads o (abs s) k k'' t) as Hr.
  { intros k'' Hle. left. exists (cb_clock k'). split; [|done].
    destruct Hset as (_ & _ & _ & ?). simpl in Hle. lia. }
  specialize (Hstep t). destruct (PyFloat.ge _ _) eqn:Ee.
  - unfold mbind at 1, st_bind at 1, now at 1.
    pose proof (settles_now _ _ _ _ Hset1) as Hset2.
    set (s' := transition s HALF_OPEN _).
    destruct (settles_write tool s s' k _ Hset2) as (k'' & He & Hset' & Hn).
    { unfold stats_ok. simpl. lia. }
    unfold mbind, st_bind, set_stats, persist in He. injection He as <-.
    eexists s', _, t. split_and!; [done|exact Hset'|unfold stats_ok; simpl; lia| |by rewrite Hstep].
    apply Hr. simpl in *. lia.
  - eexists s, _, t. split_and!; [done|exact Hset1|done|by apply Hr|done].
Qed.

Lemma query_ok o tool k :
  o = GetState ∨ o = AllowRequest → breaker_ok k →
  ∃ s s' k' t, get_stats time config tool k = (Ok s', k') ∧ settles tool s' k k' ∧ stats_ok s' ∧
    abs s = abstract tool k ∧ reads o (abs s) k k' t ∧ abs s' = circuit_step o t (abs s).
Proof using All.
  intros Ho Hok. destruct (get_stats'_ok tool k Hok) as (s & k1 & He & Hset & Hs & Hc).
  destruct (maybe_half_open_ok o tool s k k1) as (s' & k' & t & He' & ?); [done..|].
  exists s, s', k', t. split_and!; try naive_solver.
  - unfold get_stats, mbind, st_bind. by rewrite He.
  - unfold abstract. by destruct Hc as [-> | [-> [t' ->]]].
Qed.

Lemma allow_request_ok tool k :
  breaker_ok k →
  ∃ s s' k' t, allow_request time config tool k =
      (Ok (match abs s' with Open _ => false | _ => true end), k') ∧
    settles tool s' k k' ∧ abs s = abstract tool k ∧
    reads AllowRequest (abs s) k k' t ∧ abs s' = circuit_step AllowRequest t (abs s).
Proof using All.
  intros Hok. destruct (query_ok AllowRequest tool k) as (s & s1 & k1 & t & He & Hset & Hs & Ha & Hr & Hst');
    [by right|done|].
  unfold allow_request, mbind at 1, st_bind at 1. rewrite He.
  destruct (st_state s1) eqn:Es.
  1,3: exists s, s1, k1, t; split_and!; [unfold abs at 1; by rewrite Es|done..].
  destruct (settles_write tool s1 (count_rejection s1) k k1 Hset) as (k' & He' & Hset' & Hn).
  { by unfold stats_ok; simpl; rewrite Es. }
  unfold mbind, st_bind, set_stats, persist in He'. injection He' as <-.
  assert (abs (count_rejection s1) = abs s1) as Hab by (unfold abs; simpl; by rewrite Es).
  eexists s, (count_rejection s1), _, t. rewrite Hab. split_and!; [|exact Hset'|done| |done].
  - unfold abs. by rewrite Es.
  - destruct Hr as [(n & ? & ?)|Hr]; [left; exists n; simpl; split; [lia|done]|by right].
Qed.

(** [record_success] and [record_failure] read the circuit, compute its new
    value and write it through. *)
Lemma record_ok o tool k s2 (k2 : breaker B) s t :
  settles tool s k k2 → stats_ok s2 → reads o (abs s) k k2 t →
  abs s2 = circuit_step o t (abs s) →
  ∃ k', (set_stats tool s2 ≫= λ _, persist tool s2) k2 = (Ok tt, k') ∧ steps o tool s k k'.
Proof using All.
  intros Hset2 Hs2 Hr Ha. destruct (settles_write _ _ s2 _ _ Hset2) as (k' & He & Hset' & Hn);
    [done|].
  exists k'. split; [done|]. exists s2, t. split_and!; [done| |done].
  destruct Hr as [(n & ? & ?)|Hr]; [left; exists n; split; [lia|done]|by right].
Qed.

Lemma found_abs tool k s :
  circuit_of tool k = Some s ∨ circuit_of tool k = None ∧ (∃ t, s = fresh_stats t) →
  abs s = abstract tool k.
Proof. unfold abstract. by intros [-> | [-> [t' ->]]]. Qed.

Lemma record_success_ok tool k :
  breaker_ok k →
  ∃ s, abs s = abstract tool k ∧
  ∃ k', record_success time config tool k = (Ok tt, k') ∧ steps RecordSuccess tool s k k'.
Proof using All.
  intros Hok. destruct (get_stats'_ok tool k Hok) as (s & k1 & He & Hset & Hs & Hc).
  exists s. split; [by apply found_abs|].
  unfold record_success, mbind at 1, st_bind at 1. rewrite He.
  assert (∀ t t', circuit_step RecordSuccess t' (abs s) = circuit_step RecordSuccess t (abs s)) as Hany.
  { intros. unfold abs. by destruct (st_state s). }
  unfold stats_ok in Hs. unfold count_success, mbind at 1, st_bind at 1.
  pose proof (settles_now _ _ _ _ Hset) as Hset1.
  destruct (st_state s) eqn:Es; cbv zeta; cbn [st_half_open_successes]; [| |destruct (_ <=? _) eqn:Et];
    unfold mret, st_ret, mbind at 1, st_bind at 1, now; cbv beta iota;
    apply (record_ok _ _ _ _ _ s PyFloat.zero); try done;
    (by right; intros; apply Hany) || (unfold stats_ok; simpl; done || lia) ||
    (unfold abs; rewrite Es; simpl; done || by rewrite Et).
Qed.

Lemma record_failure_ok tool k :
  breaker_ok k →
  ∃ s, abs s = abstract tool k ∧
  ∃ k', record_failure time config tool k = (Ok tt, k') ∧ steps RecordFailure tool s k k'.
Proof using All.
  intros Hok. destruct (get_stats'_ok tool k Hok) as (s & k1 & He & Hset & Hs & Hc).
  exists s. split; [by apply found_abs|].
  unfold record_failure, mbind at 1, st_bind at 1. rewrite He.
  pose proof (settles_now _ _ _ _ Hset) as Hset1. pose proof (settles_now _ _ _ _ Hset1) as Hset2.
  assert (∀ c, reads RecordFailure c k
    (mkBreaker (circuits k1) (backend k1) (S (S (cb_clock k1)))) (time (S (cb_clock k1)))) as Hread.
  { intros c. left. exists (S (cb_clock k1)). destruct Hset as (_ & _ & _ & ?). simpl. split; [lia|done]. }
  assert (st_state s = OPEN ∨ (st_state s = CLOSED ∧
      (failure_threshold config <=? st_failure_count s + 1) = false) → ∀ t t',
    circuit_step RecordFailure t' (abs s) = circuit_step RecordFailure t (abs s)) as Hany.
  { unfold abs. intros [-> | [-> Ht]] t t'; [done|]. simpl. by rewrite Ht. }
  unfold stats_ok in Hs. unfold count_failure, mbind at 1, st_bind at 1, now at 1.
  unfold mbind at 1, st_bind at 1.
  destruct (st_state s) eqn:Es; cbv zeta; cbn [st_failure_count]; [destruct (_ <=? _) eqn:Et|..];
    unfold mret, st_ret, mbind at 1, st_bind at 1, now; cbv beta iota.
  1,4: apply (record_ok _ _ _ _ _ s (time (S (cb_clock k1)))); [exact Hset2|done|apply Hread|].
  3,4: apply (record_ok _ _ _ _ _ s PyFloat.zero); [exact Hset1| |right; intros; apply Hany; auto|].
  all: (unfold abs; rewrite Es; simpl; done || by rewrite Et) || (unfold stats_ok; simpl; done || lia).
Qed.

Lemma reset_ok tool k s :
  breaker_ok k → circuits k !! tool = Some s →
  ∃ k', reset time tool k = (Ok tt, k') ∧ steps Reset tool s k k'.
Proof using All.
  intros Hok Hk. unfold reset. rewrite Hk. unfold mbind at 1, st_bind at 1, now at 1.
  assert (settles tool s k k) as Hset by by split_and!.
  apply (record_ok _ _ _ _ _ s PyFloat.zero (settles_now _ _ _ _ Hset)).
  - unfold stats_ok. simpl. lia.
  - by right; intros; unfold abs; destruct (st_state s).
  - by unfold abs; destruct (st_state s).
Qed.

Lemma steps_abstract o tool s k k' :
  abs s = abstract tool k → steps o tool s k k' →
  breaker_ok k' ∧
  (∃ t, reads o (abstract tool k) k k' t ∧ abstract tool k' = circuit_step o t (abstract tool k)) ∧
  (∀ tool', tool' ≠ tool → abstract tool' k' = abstract tool' k).
Proof.
  intros Ha (s' & t & (Hok & Hk & Ho & Hn) & Hr & Hs). rewrite Ha in Hr, Hs. split_and!; [done| |].
  - exists t. split; [done|]. unfold abstract at 1. by rewrite (circuit_of_memory tool s').
  - intros tool' Hne. unfold abstract. by rewrite Ho.
Qed.

Lemma exec_ok o tool k :
  breaker_ok k → (o = Reset → is_Some (circuits k !! tool)) →
  ∃ s, abs s = abstract tool k ∧ steps o tool s k (exec o tool k).
Proof using All.
  intros Hok Hr. destruct o; simpl.
  - destruct (query_ok GetState tool k) as (s & s' & k' & t & He & Hset & _ & Ha & ?); [by left|done|].
    exists s. split; [done|]. unfold get_state, mbind, st_bind. rewrite He. simpl. by exists s', t.
  - destruct (allow_request_ok tool k Hok) as (s & s' & k' & t & He & Hset & Ha & ?).
    exists s. split; [done|]. rewrite He. simpl. by exists s', t.
  - destruct (record_success_ok tool k Hok) as (s & Ha & k' & -> & ?). by exists s.
  - destruct (record_failure_ok tool k Hok) as (s & Ha & k' & -> & ?). by exists s.
  - destruct Hr as [s Hs]; [done|]. destruct (reset_ok tool k s Hok Hs) as (k' & -> & ?).
    exists s. split; [|done]. unfold abstract. by rewrite (circuit_of_memory tool s).
Qed.

Lemma exec_breaker_ok o tool k : breaker_ok k → breaker_ok (exec o tool k).
Proof using All.
  intros Hok. destruct (circuits k !! tool) as [s0|] eqn:E; [|destruct o].
  6: { simpl. unfold reset. by rewrite E. }
  all: edestruct exec_ok as (s & Ha & Hs); [exact Hok| |by destruct (steps_abstract _ _ _ _ _ Ha Hs)].
  all: done || by rewrite E.
Qed.

(** A sequence of operations on any tools. *)
Definition run (ops : list (cb_op * string)) (k : breaker B) : breaker B :=
  foldl (λ k '(o, tool), exec o tool k) k ops.

Lemma run_breaker_ok ops k : breaker_ok k → breaker_ok (run ops k).
Proof using All.
  revert k. induction ops as [|[o tool] ops IH]; intros k Hok; [done|].
  apply (IH (exec o tool k)). by apply exec_breaker_ok.
Qed.

Lemma init_ok (b : option B) clock :
  (∀ b' tool, b = Some b' → backend_get tool b' = None) → breaker_ok (init b clock).
Proof.
  intros Hb. split.
  - intros tool b' Hb'. simpl. by rewrite (Hb b' tool Hb').
  - intros tool s. unfold circuit_of. simpl. destruct b as [b'|]; [|done].
    simpl. by rewrite (Hb b' tool).
Qed.

Lemma restart_backward b k :
  breaker_ok k → backend k = Some b → ∀ tool s,
  circuit_of tool (restart k) = Some s → circuit_of tool k = Some s.
Proof.
  intros [Ha Hs] Hb tool s. unfold circuit_of. simpl. rewrite Hb. simpl. specialize (Ha tool b Hb).
  destruct (circuits k !! tool), (backend_get tool b); try done. by rewrite Ha.
Qed.

Lemma restart_ok b k :
  breaker_ok k → backend k = Some b →
  breaker_ok (restart k) ∧ ∀ tool s, circuit_of tool k = Some s →
    circuit_of tool (restart k) = Some s ∨
    circuit_of tool (restart k) = None ∧ ∃ t, s = fresh_stats t.
Proof.
  intros [Ha Hs] Hb.
  split.
  - split; [|intros tool s Hc; eapply Hs; by apply (restart_backward b k (Build_breaker_ok _ Ha Hs) Hb)].
    intros tool b' Hb'. simpl in *. rewrite Hb in Hb'. injection Hb' as <-.
    specialize (Ha tool b Hb). rewrite lookup_empty.
    destruct (circuits k !! tool), (backend_get tool b); naive_solver.
  - intros tool s. unfold circuit_of. simpl. rewrite Hb. simpl. specialize (Ha tool b Hb).
    destruct (circuits k !! tool), (backend_get tool b) as [r|]; try done; try naive_solver.
    rewrite Ha. naive_solver.
Qed.

(** A configured backend stays configured. *)
Lemma run_backend ops k : is_Some (backend k) → is_Some (backend (run ops k)).
Proof.
  assert (∀ A (k0 : breaker B) (m : st (breaker B) A),
    preserves (λ k, is_Some (backend k)) m → is_Some (backend k0) → is_Some (backend (m k0).2)) as Hp.
  { intros A k0 m Hm. apply Hm. }
  assert (preserves (λ k : breaker B, is_Some (backend k)) (now time)) by by intros k1.
  assert (∀ tool s, preserves (λ k : breaker B, is_Some (backend k)) (set_stats tool s)) by by intros tool s k1.
  assert (∀ tool s, preserves (λ k : breaker B, is_Some (backend k)) (persist tool s)).
  { intros tool s k1 [b Hb]. simpl. rewrite Hb. by eexists. }
  assert (∀ tool, preserves (λ k : breaker B, is_Some (backend k)) (get_stats' time tool)).
  { intros tool k1 Hk1. unfold get_stats'. repeat case_match; [done|..]; apply Hp; auto 10 with agent. }
  assert (∀ tool s, preserves (λ k : breaker B, is_Some (backend k)) (maybe_half_open time config tool s)).
  { intros tool s. unfold maybe_half_open. case_match; [by auto with agent| |by auto with agent].
    apply preserves_bind; [done|]. intros t. case_match; auto 10 with agent. }
  revert k. induction ops as [|[o tool] ops IH]; intros k Hk; [done|]. apply (IH (exec o tool k)).
  unfold CircuitBreaker.exec, get_state, allow_request, get_stats, record_success, record_failure.
  destruct o; try (apply Hp; [|done]).
  - auto 10 with agent.
  - apply preserves_bind; [auto with agent|]. intros s. cbv beta. case_match; auto 10 with agent.
  - apply preserves_bind; [auto with agent|]. intros s. apply preserves_bind; [|auto with agent].
    repeat case_match; auto 10 with agent.
  - apply preserves_bind; [auto with agent|]. intros s. apply preserves_bind; [auto with agent|].
    intros t. cbv beta zeta. apply preserves_bind; [|auto with agent]. repeat case_match; auto 10 with agent.
  - intros k1 Hk1. unfold reset. case_match; [|done]. apply Hp; auto 10 with agent.
Qed.

Lemma failures_ok tool k n (j : nat) :
  breaker_ok k → abstract tool k = Closed n →
  n + Z.of_nat j < failure_threshold config →
  breaker_ok (Nat.iter j (exec RecordFailure tool) k) ∧
  abstract tool (Nat.iter j (exec RecordFailure tool) k) = Closed (n + Z.of_nat j).
Proof using All.
  intros Hok Ha. induction j as [|j IH]; intros Hj; [split; [done|simpl; by rewrite Z.add_0_r]|].
  destruct IH as [Hok' Ha']; [lia|]. rewrite Nat.iter_succ.
  destruct (exec_ok RecordFailure tool _ Hok') as (s & Hs & Hst'); [done|].
  destruct (steps_abstract _ _ _ _ _ Hs Hst') as (Hok'' & (t & _ & Heq) & _).
  split; [done|]. rewrite Heq, Ha'. simpl.
  destruct (Z.leb_spec (failure_threshold config) (n + Z.of_nat j + 1)); [lia|]. f_equal. lia.
Qed.
End facts.

(** ** Claims *)


(** in a closed circuit that has counted [n] failures, fewer further
    consecutive failures than the threshold allows only raise the count, and
    the failure that reaches the threshold opens the circuit at the time of
    that call; the next request is then refused for as long as the recovery
    timeout has not elapsed. *)
Theorem consecutive_failures_trip `{KeyedBackendLaws B CircuitRecord cr_tool_name}
    (time : nat → float) (config : CircuitConfig) (tool : string) (k : breaker B) n (j : nat) :
  1 ≤ failure_threshold config → 1 ≤ success_threshold config →
  breaker_ok config k → abstract tool k = Closed n →
  n + Z.of_nat j < failure_threshold config →
  let k1 := Nat.iter j (exec time config RecordFailure tool) k in
  let k2 := exec time config RecordFailure tool k1 in
  abstract tool k1 = Closed (n + Z.of_nat j) ∧
  (n + Z.of_nat j + 1 = failure_threshold config →
   ∃ m, (cb_clock k1 ≤ m < cb_clock k2)%nat ∧ abstract tool k2 = Open (time m) ∧
     ((∀ m', (cb_clock k2 ≤ m')%nat → PyFloat.ge (PyFloat.sub (time m') (time m))
        (recovery_timeout config) = false) →
      (allow_request time config tool k2).1 = Ok false)).
Proof.
  intros Hft Hst Hok Ha Hj k1 k2.
  destruct (failures_ok time config Hft Hst tool k n j Hok Ha Hj) as [Hok1 Ha1].
  split; [done|]. intros Heq.
  destruct (exec_ok time config Hft Hst RecordFailure tool k1 Hok1) as (s & Hs & Hs'); [done|].
  destruct (steps_abstract _ _ _ _ _ _ _ Hs Hs') as (Hok2 & (t & Hr & Ht) & _).
  unfold k1 in Hr, Ht. rewrite Ha1 in Hr, Ht. simpl in Hr, Ht.
  destruct (Z.leb_spec (failure_threshold config) (n + Z.of_nat j + 1)); [|lia].
  destruct Hr as [(m & Hm & ->)|Hr].
  2: { exfalso. simpl in Hr.
    destruct (Z.leb_spec (failure_threshold config) (n + Z.of_nat j + 1)); [|lia].
    pose proof (Hr S754_nan) as Hnan. pose proof (Hr PyFloat.zero) as Hzero. rewrite <-Hzero in Hnan. discriminate Hnan. }
  exists m. split; [exact Hm|split; [exact Ht|]]. intros Hwait.
  change (abstract tool k2 = Open (time m)) in Ht.
  destruct (allow_request_ok time config Hft Hst tool k2 Hok2)
    as (s0 & s2 & k3 & t & He & _ & Ha0 & Hr & Has). rewrite He. simpl. f_equal.
  rewrite Ha0, Ht in Has, Hr. rewrite Has. simpl.
  assert (PyFloat.ge (PyFloat.sub t (time m)) (recovery_timeout config) = false) as ->; [|done].
  destruct Hr as [(m' & Hm' & ->)|Hr]; [apply Hwait; lia|].
  specialize (Hr (time (cb_clock k2))). simpl in Hr. rewrite Hwait in Hr by done.
  by destruct (PyFloat.ge (PyFloat.sub t (time m)) (recovery_timeout config)).
Qed.

(** Every state change is persisted: after any sequence of operations on a
    breaker with a backend, a new instance over the same backend starts with
    the same circuit for every tool, counters and times included (a circuit
    that was only looked at is not stored and is as new in both). *)
Theorem restart_resumes `{KeyedBackendLaws B CircuitRecord cr_tool_name}
    (time : nat → float) (config : CircuitConfig) (b : B) clock (ops : list (cb_op * string)) tool :
  1 ≤ failure_threshold config → 1 ≤ success_threshold config →
  (∀ tool, backend_get tool b = None) →
  let k := run time config ops (init (Some b) clock) in
  abstract tool (restart k) = abstract tool k ∧
  (∀ s, circuit_of tool k = Some s → circuit_of tool (restart k) = Some s ∨
     circuit_of tool (restart k) = None ∧ ∃ t, s = fresh_stats t) ∧
  breaker_ok config (restart k).
Proof.
  intros Hft Hst Hb k.
  assert (breaker_ok config k) as Hok.
  { apply run_breaker_ok; [done..|]. apply init_ok; try done. by intros b' tool' [= <-]. }
  destruct (run_backend time config ops (init (Some b) clock)) as [b' Hb']; [by eexists|].
  destruct (restart_ok config b' k Hok Hb') as [Hok' Hc]. split_and!; [|by apply Hc|done].
  unfold abstract. destruct (circuit_of tool k) as [s|] eqn:E.
  - by destruct (Hc tool s E) as [-> |[-> [t ->]]].
  - destruct (circuit_of tool (restart k)) as [s|] eqn:E'; [|done].
    by rewrite (restart_backward config b' k Hok Hb' tool s E') in E.
Qed.

(** *** Witnesses: a breaker over the in-memory backend, a clock that ticks
    once a second *)
Definition ticks (n : nat) : float := PyFloat.of_Z (Z.of_nat n).
Definition fresh_breaker : breaker (dict CircuitRecord) := init (Some InMemory.init) 0.

Lemma fresh_breaker_ok : breaker_ok default_config fresh_breaker.
Proof. apply init_ok; try done. by intros b tool [= <-]. Qed.


Lemma consecutive_failures_trip_witness :
  let k1 := Nat.iter 4 (exec ticks default_config RecordFailure "search") fresh_breaker in
  let k2 := exec ticks default_config RecordFailure "search" k1 in
  abstract "search" k1 = Closed (0 + 4) ∧
  (0 + 4 + 1 = failure_threshold default_config →
   ∃ m, (cb_clock k1 ≤ m < cb_clock k2)%nat ∧ abstract "search" k2 = Open (ticks m) ∧
     ((∀ m', (cb_clock k2 ≤ m')%nat → PyFloat.ge (PyFloat.sub (ticks m') (ticks m))
        (recovery_timeout default_config) = false) →
      (allow_request ticks default_config "search" k2).1 = Ok false)).
Proof.
  apply (consecutive_failures_trip ticks default_config "search" fresh_breaker 0 4);
    [done|done|apply fresh_breaker_ok|done|done].
Defined.

Lemma restart_resumes_witness :
  let k := run ticks default_config (replicate 5 (RecordFailure, "search"))
             (init (Some InMemory.init) 0) in
  abstract "search" (restart k) = abstract "search" k ∧
  (∀ s, circuit_of "search" k = Some s → circuit_of "search" (restart k) = Some s ∨
     circuit_of "search" (restart k) = None ∧ ∃ t, s = fresh_stats t) ∧
  breaker_ok default_config (restart k).
Proof.
  apply (restart_resumes ticks default_config InMemory.init 0
           (replicate 5 (RecordFailure, "search")) "search"); done.
Defined.

(** [reset] tests the in-memory circuits only: on a new instance over a backend
    that holds an open circuit it does nothing, and the circuit that the next
    call loads is still open. *)
Example reset_skips_persisted_circuit :
  let k := run ticks default_config (replicate 5 (RecordFailure, "search")) fresh_breaker in
  let k' := (reset ticks "search" (restart k)).2 in
  (match abstract "search" k' with Open _ => True | _ => False end) ∧
  (allow_request ticks default_config "search" k').1 = Ok false.
Proof. vm_compute. done. Qed.
