(* ===== verification/Catalog.v ===== *)
(** * Tool registry centre (src/src/gateway/tool_registry.py)

    Versioned tool metadata with the lifecycle draft, available, deprecated and
    one active version per tool.  The registry owns the [ToolMeta] objects: only
    [transition] changes one, so values model them.  [now] is the reading of
    [time.time()] a call takes. *)
From S2P Require Import Prelude PyFloat PyValue Persistence.
Local Open Scope Z_scope.

Inductive ToolStatus := DRAFT | AVAILABLE | DEPRECATED.
#[global] Instance ToolStatus_eq_dec : EqDecision ToolStatus.
Proof. solve_decision. Defined.

Record QuotaConfig := mkQuotaConfig {
  qps : Z;
  max_concurrent : Z;
  daily_limit : Z;
}.

Record ToolMeta := mkToolMeta {
  tm_name : string;
  tm_version : string;
  tm_description : string;
  tm_status : ToolStatus;
  tm_input_schema : dict pyval;
  tm_output_schema : dict pyval;
  tm_capabilities : list string;
  tm_required_roles : list string;
  tm_is_sensitive : bool;
  tm_quota : QuotaConfig;
  tm_timeout_seconds : float;
  tm_author : string;
  tm_tags : list string;
  tm_registered_at : float;
  tm_updated_at : float;
  tm_deprecated_reason : string;
  tm_replacement_tool : string;
}.

Module Registry.

(** [_tools] is iterated by [list_tools], so it keeps its insertion order. *)
Record registry := mkRegistry {
  tools : dict (dict ToolMeta);
  active_versions : gmap string string;
}.

Definition status_value (s : ToolStatus) : string :=
  match s with DRAFT => "draft" | AVAILABLE => "available" | DEPRECATED => "deprecated" end.

(** [__init__] *)
Definition init : registry := mkRegistry [] ∅.

(** [QuotaConfig()] and a [ToolMeta] with the defaults of the dataclass;
    [now] and [now'] are the readings of the two timestamp factories. *)
Definition default_quota : QuotaConfig := mkQuotaConfig 10 5 1000.
Definition new_meta (name version description : string) (status : ToolStatus)
    (now now' : float) : ToolMeta :=
  mkToolMeta name version description status [] [] [] ["public"] false default_quota
    (PyFloat.of_Z 30) "" [] now now' "" "".

Definition register (meta : ToolMeta) : st registry ToolMeta := λ r,
  let versions := dlookup (tm_name meta) (tools r) in
  if bool_decide (is_Some (versions ≫= dlookup (tm_version meta)))
  then (Err (ValueError ("Tool '" +:+ tm_name meta +:+ "' version '" +:+ tm_version meta +:+
          "' already registered. Use a new version string for updates.")), r)
  else
    let tools' := dinsert (tm_name meta)
      (dinsert (tm_version meta) meta (default [] versions)) (tools r) in
    let first := match active_versions r !! tm_name meta with
      | None => <[tm_name meta := tm_version meta]> (active_versions r)
      | Some _ => active_versions r
      end in
    let active := if bool_decide (tm_status meta = AVAILABLE)
      then <[tm_name meta := tm_version meta]> first else first in
    (Ok meta, mkRegistry tools' active).

(** [get]: [version] is [None] or the empty string for the active version. *)
Definition get (name : string) (version : option string) (r : registry) : option ToolMeta :=
  match dlookup name (tools r) with
  | None => None
  | Some versions =>
      let ver := default "" version in
      if str_truthy ver then dlookup ver versions
      else
        match active_versions r !! name with
        | Some active => if str_truthy active then dlookup active versions else None
        | None => None
        end
  end.

(** [versions.sort(key=lambda m: m.registered_at)]: a stable sort. *)
Fixpoint insert_meta (m : ToolMeta) (l : list ToolMeta) : list ToolMeta :=
  match l with
  | [] => [m]
  | x :: l =>
      if PyFloat.lt (tm_registered_at m) (tm_registered_at x) then m :: x :: l
      else x :: insert_meta m l
  end.
Definition sort_versions (l : list ToolMeta) : list ToolMeta :=
  foldl (λ acc m, insert_meta m acc) [] l.

Definition get_all_versions (name : string) (r : registry) : list ToolMeta :=
  match dlookup name (tools r) with
  | None => []
  | Some versions => sort_versions versions.*2
  end.

(** [valid_transitions] *)
Definition valid_transitions (s : ToolStatus) : list ToolStatus :=
  match s with
  | DRAFT => [AVAILABLE; DEPRECATED]
  | AVAILABLE => [DEPRECATED]
  | DEPRECATED => []
  end.

Definition set_status (meta : ToolMeta) (target : ToolStatus) (now : float)
    (reason replacement : string) : ToolMeta :=
  mkToolMeta (tm_name meta) (tm_version meta) (tm_description meta) target
    (tm_input_schema meta) (tm_output_schema meta) (tm_capabilities meta)
    (tm_required_roles meta) (tm_is_sensitive meta) (tm_quota meta) (tm_timeout_seconds meta)
    (tm_author meta) (tm_tags meta) (tm_registered_at meta) now
    (match target with DEPRECATED => reason | _ => tm_deprecated_reason meta end)
    (match target with DEPRECATED => replacement | _ => tm_replacement_tool meta end).

(** The object update [meta.status = ...]: [get] handed out the object stored
    under the metadata's own name and version. *)
Definition store_meta (meta : ToolMeta) (r : registry) : registry :=
  mkRegistry (dinsert (tm_name meta)
      (dinsert (tm_version meta) meta (default [] (dlookup (tm_name meta) (tools r)))) (tools r))
    (active_versions r).

(** The search for another available version when the active one is
    deprecated. *)
Definition fallback_version (name version : string) (r : registry) : option string :=
  tm_version <$> find_first (λ m, bool_decide (tm_status m = AVAILABLE)
                                && bool_decide (tm_version m ≠ version))
                   (reverse (get_all_versions name r)).

(** [show] is the text of the set of allowed states, whose order the
    interpreter chooses. *)
Section transition.
Context (show : list ToolStatus → string).

Definition transition (name version : string) (target : ToolStatus) (now : float)
    (reason replacement : string) : st registry ToolMeta := λ r,
  match get name (Some version) r with
  | None => (Err (ValueError ("Tool '" +:+ name +:+ "' version '" +:+ version +:+ "' not found.")), r)
  | Some meta =>
      if bool_decide (target ∈ valid_transitions (tm_status meta)) then
        let meta' := set_status meta target now reason replacement in
        let r1 := store_meta meta' r in
        match target with
        | AVAILABLE => (Ok meta', mkRegistry (tools r1) (<[name := version]> (active_versions r1)))
        | DEPRECATED =>
            if bool_decide (active_versions r1 !! name = Some version) then
              let popped := delete name (active_versions r1) in
              let active := match fallback_version name version r1 with
                | Some v => <[name := v]> popped
                | None => popped
                end in
              (Ok meta', mkRegistry (tools r1) active)
            else (Ok meta', r1)
        | DRAFT => (Ok meta', r1)
        end
      else (Err (ValueError ("Invalid transition: " +:+ status_value (tm_status meta) +:+ " -> " +:+
              status_value target +:+ ". Allowed: " +:+ show (valid_transitions (tm_status meta)))), r)
  end.
End transition.

(** One filter of [list_tools]; an absent (or empty) filter accepts. *)
Definition tag_matches (tag : option string) (l : list string) : bool :=
  let t := default "" tag in negb (str_truthy t) || bool_decide (t ∈ l).
Definition list_tools (status : option ToolStatus) (tag capability : option string)
    (r : registry) : list ToolMeta :=
  filter (λ m, (match status with None => true | Some s => bool_decide (tm_status m = s) end
                && tag_matches tag (tm_tags m) && tag_matches capability (tm_capabilities m)) = true)
    (omap (λ name, get name None r) (dkeys (tools r))).

Definition unregister (name : string) : st registry bool := λ r,
  if dmem name (tools r)
  then (Ok true, mkRegistry (ddelete name (tools r)) (delete name (active_versions r)))
  else (Ok false, r).

Definition tool_count (r : registry) : nat := length (tools r).

Definition export_entry (m : ToolMeta) : dict pyval :=
  [("name", VStr (tm_name m)); ("version", VStr (tm_version m));
   ("description", VStr (tm_description m)); ("status", VStr (status_value (tm_status m)));
   ("capabilities", VList (VStr <$> tm_capabilities m)); ("input_schema", VDict (tm_input_schema m));
   ("required_roles", VList (VStr <$> tm_required_roles m)); ("is_sensitive", VBool (tm_is_sensitive m))].
Definition export_catalog (r : registry) : list (dict pyval) :=
  export_entry <$> list_tools None None None r.

(** The calls that change the registry. *)
Inductive reg_op :=
| Register (meta : ToolMeta)
| Transition (name version : string) (target : ToolStatus) (now : float) (reason replacement : string)
| Unregister (name : string).

Definition exec (show : list ToolStatus → string) (o : reg_op) (r : registry) : registry :=
  match o with
  | Register meta => (register meta r).2
  | Transition name version target now reason replacement =>
      (transition show name version target now reason replacement r).2
  | Unregister name => (unregister name r).2
  end.

End Registry.
Import Registry.

(** ** Facts *)
Definition meta_at (r : registry) (name version : string) : option ToolMeta :=
  dlookup name (tools r) ≫= dlookup version.

Record reg_ok (r : registry) : Prop := {
  reg_versions name vs : dlookup name (tools r) = Some vs → keyed tm_version vs;
  reg_names name v m : meta_at r name v = Some m → tm_name m = name ∧ tm_version m = v ∧ v ≠ "";
  (** the active version is registered and not deprecated *)
  reg_active name v : active_versions r !! name = Some v →
    ∃ m, meta_at r name v = Some m ∧ tm_status m ≠ DEPRECATED;
  (** a tool with an available version has an available active version *)
  reg_best name v m : meta_at r name v = Some m → tm_status m = AVAILABLE →
    ∃ v' m', active_versions r !! name = Some v' ∧ meta_at r name v' = Some m' ∧
      tm_status m' = AVAILABLE;
}.

(** Storing one version. *)
Definition with_meta (m : ToolMeta) (r : registry) : dict (dict ToolMeta) :=
  dinsert (tm_name m) (dinsert (tm_version m) m (default [] (dlookup (tm_name m) (tools r)))) (tools r).

Lemma meta_at_with_meta m r a name v :
  meta_at (mkRegistry (with_meta m r) a) name v =
  if decide (name = tm_name m ∧ v = tm_version m) then Some m else meta_at r name v.
Proof.
  unfold meta_at, with_meta. simpl. destruct (decide (name = tm_name m)) as [->|Hn].
  - rewrite dlookup_dinsert_eq. simpl. destruct (decide (v = tm_version m)) as [->|Hv].
    + rewrite dlookup_dinsert_eq. by rewrite decide_True.
    + rewrite dlookup_dinsert_ne, decide_False by naive_solver.
      by destruct (dlookup _ (tools r)).
  - rewrite dlookup_dinsert_ne, decide_False by naive_solver. done.
Qed.

Lemma keyed_dinsert {R} (key : R → string) r d : keyed key d → keyed key (dinsert (key r) r d).
Proof.
  intros [Hk Hnd]. split; [|by apply dinsert_NoDup].
  intros k r' [[= -> ->]|Hin]%elem_of_dinsert; eauto.
Qed.

Lemma with_meta_versions m r a name vs :
  reg_ok r → dlookup name (tools (mkRegistry (with_meta m r) a)) = Some vs → keyed tm_version vs.
Proof.
  intros Hok. unfold with_meta. simpl. destruct (decide (name = tm_name m)) as [->|Hn].
  - rewrite dlookup_dinsert_eq. intros [= <-]. apply keyed_dinsert.
    destruct (dlookup _ _) as [vs|] eqn:E; simpl; [by apply (reg_versions r Hok (tm_name m))|].
    split; [set_solver|constructor].
  - rewrite dlookup_dinsert_ne by done. apply (reg_versions r Hok).
Qed.

Lemma elem_of_insert_meta m x l : x ∈ insert_meta m l ↔ x = m ∨ x ∈ l.
Proof. induction l as [|y l IH]; simpl; [set_solver|]. case_match; set_solver. Qed.

Lemma elem_of_sort_versions l x : x ∈ sort_versions l ↔ x ∈ l.
Proof.
  unfold sort_versions. assert (∀ acc, x ∈ foldl (λ acc m, insert_meta m acc) acc l ↔ x ∈ acc ∨ x ∈ l) as H.
  { induction l as [|m l IH]; intros acc; simpl; [set_solver|].
    rewrite IH, elem_of_insert_meta. set_solver. }
  rewrite H. set_solver.
Qed.

(** The fallback is some available version other than the given one, and
    there is none only if no such version exists. *)
Lemma elem_of_all_versions r name m :
  (∀ vs, dlookup name (tools r) = Some vs → keyed tm_version vs) →
  m ∈ get_all_versions name r ↔ meta_at r name (tm_version m) = Some m.
Proof.
  intros Hk. unfold get_all_versions, meta_at. destruct (dlookup name (tools r)) as [vs|]; [|set_solver].
  destruct (Hk vs) as [Hkey Hnd]; [done|]. simpl. rewrite elem_of_sort_versions, <-elem_of_dlookup by done.
  rewrite list_elem_of_fmap. split.
  - intros ([v m'] & -> & Hin). simpl. by rewrite <-(Hkey _ _ Hin).
  - intros Hin. by exists (tm_version m, m).
Qed.

Lemma fallback_spec r name version :
  (∀ vs, dlookup name (tools r) = Some vs → keyed tm_version vs) →
  match fallback_version name version r with
  | Some v => v ≠ version ∧ ∃ m, meta_at r name v = Some m ∧ tm_status m = AVAILABLE
  | None => ∀ v m, meta_at r name v = Some m → tm_version m = v → tm_status m = AVAILABLE → v = version
  end.
Proof.
  intros Hk. unfold fallback_version. destruct (find_first _ _) as [m|] eqn:E; simpl.
  - apply find_first_Some in E as [Hin Hp]. apply andb_true_iff in Hp as [Ha Hv].
    apply bool_decide_eq_true in Ha, Hv. split; [done|]. exists m. split; [|done].
    rewrite elem_of_reverse in Hin. by apply elem_of_all_versions in Hin.
  - intros v m Hm <- Ha. rewrite find_first_None in E. specialize (E m).
    rewrite elem_of_reverse, elem_of_all_versions in E by done. specialize (E Hm).
    rewrite bool_decide_eq_true_2 in E by done. simpl in E.
    apply bool_decide_eq_false in E. by apply dec_stable in E.
Qed.

Lemma init_reg_ok : reg_ok init.
Proof. split; by intros. Qed.

Lemma get_active r name :
  reg_ok r → get name None r = active_versions r !! name ≫= meta_at r name.
Proof.
  intros Hok. unfold get, meta_at. simpl.
  destruct (active_versions r !! name) as [v|] eqn:Ea; [|by destruct (dlookup _ _)].
  destruct (reg_active r Hok name v Ea) as (m & Hm & _). simpl. unfold meta_at in Hm.
  destruct (dlookup name (tools r)) as [vs|] eqn:E; [|done].
  assert (v ≠ "") as Hv%str_truthy_true; [|by rewrite Hv].
  apply (reg_names r Hok name v m). unfold meta_at. by rewrite E.
Qed.

Lemma get_version r name v : v ≠ "" → get name (Some v) r = meta_at r name v.
Proof.
  intros Hv%str_truthy_true. unfold get, meta_at. simpl. rewrite Hv. by destruct (dlookup _ _).
Qed.

Lemma register_ok meta r :
  tm_version meta ≠ "" → tm_status meta ≠ DEPRECATED →
  reg_ok r → reg_ok (register meta r).2.
Proof.
  intros Hv Hd Hok. unfold register. case_bool_decide as Hnew; [done|]. simpl.
  assert (meta_at r (tm_name meta) (tm_version meta) = None) as Hno by by apply eq_None_not_Some.
  clear Hnew. fold (with_meta meta r).
  match goal with |- reg_ok (mkRegistry _ ?a) => set (act := a) end.
  assert (∀ name v, meta_at (mkRegistry (with_meta meta r) act) name v =
    if decide (name = tm_name meta ∧ v = tm_version meta) then Some meta else meta_at r name v) as Hat
    by (intros; apply meta_at_with_meta).
  assert (∀ name, name ≠ tm_name meta → act !! name = active_versions r !! name) as Hother.
  { intros name Hn. unfold act. repeat case_match; by rewrite ?lookup_insert_ne by done. }
  assert ((tm_status meta = AVAILABLE ∨ active_versions r !! tm_name meta = None) ∧
      act !! tm_name meta = Some (tm_version meta) ∨
    tm_status meta ≠ AVAILABLE ∧ is_Some (active_versions r !! tm_name meta) ∧
      act !! tm_name meta = active_versions r !! tm_name meta) as Hact.
  { unfold act. case_bool_decide; [left; split; [by left|by rewrite lookup_insert_eq]|].
    destruct (active_versions r !! tm_name meta) eqn:E; [right; by rewrite E|].
    left. split; [by right|]. by rewrite lookup_insert_eq. }
  clearbody act. split.
  - intros name vs. by apply with_meta_versions.
  - intros name v m. rewrite Hat. case_decide; [naive_solver|apply (reg_names r Hok)].
  - intros name v Ha. rewrite Hat. case_decide as Hc; [by eexists|].
    destruct (decide (name = tm_name meta)) as [->|Hn]; [|by apply (reg_active r Hok); rewrite <-Hother].
    destruct Hact as [[_ Hact]|(_ & _ & Hact)]; [naive_solver|].
    apply (reg_active r Hok). by rewrite <-Hact.
  - intros name v m Hm Hav. simpl. destruct (decide (name = tm_name meta)) as [->|Hn].
    + destruct Hact as [[[Hav'|Hnone] Hact]|(Hnav & _ & Hact)].
      * exists (tm_version meta), meta. rewrite Hat, decide_True by done. done.
      * exists (tm_version meta), meta. rewrite Hat, decide_True by done. split_and!; [done..|].
        rewrite Hat in Hm. case_decide; [congruence|].
        destruct (reg_best r Hok _ _ _ Hm Hav) as (v' & m' & Ha' & _). congruence.
      * rewrite Hat in Hm. case_decide; [congruence|].
        destruct (reg_best r Hok _ _ _ Hm Hav) as (v' & m' & Ha' & Hm' & Hs').
        exists v', m'. split_and!; [by rewrite Hact| |done]. rewrite Hat.
        case_decide as Hc; [|done]. destruct Hc as [_ ->]. congruence.
    + rewrite Hat, decide_False in Hm by naive_solver.
      destruct (reg_best r Hok _ _ _ Hm Hav) as (v' & m' & Ha' & Hm' & Hs').
      exists v', m'. rewrite Hother, Hat, decide_False by naive_solver. done.
Qed.

(** Replacing the metadata of one registered version by [m'], with the active
    version of that tool chosen again. *)
Lemma update_ok r m m' (act : gmap string string) :
  reg_ok r → meta_at r (tm_name m') (tm_version m') = Some m →
  (∀ name, name ≠ tm_name m' → act !! name = active_versions r !! name) →
  (∀ v, act !! tm_name m' = Some v →
     ∃ m0, meta_at (mkRegistry (with_meta m' r) act) (tm_name m') v = Some m0 ∧ tm_status m0 ≠ DEPRECATED) →
  (∀ v m0, meta_at (mkRegistry (with_meta m' r) act) (tm_name m') v = Some m0 → tm_status m0 = AVAILABLE →
     ∃ v' m1, act !! tm_name m' = Some v' ∧
       meta_at (mkRegistry (with_meta m' r) act) (tm_name m') v' = Some m1 ∧ tm_status m1 = AVAILABLE) →
  reg_ok (mkRegistry (with_meta m' r) act).
Proof.
  intros Hok Hm Hother Hact Hbest.
  assert (∀ name v, name ≠ tm_name m' →
    meta_at (mkRegistry (with_meta m' r) act) name v = meta_at r name v) as Hne.
  { intros name v Hn. by rewrite meta_at_with_meta, decide_False by naive_solver. }
  split.
  - intros name vs. by apply with_meta_versions.
  - intros name v m0. rewrite meta_at_with_meta. case_decide as Hc; [|apply (reg_names r Hok)].
    destruct Hc as [-> ->]. intros [= <-]. destruct (reg_names r Hok _ _ _ Hm) as (_ & _ & ?). done.
  - intros name v Ha. destruct (decide (name = tm_name m')) as [->|Hn]; [by apply Hact|].
    rewrite Hne by done. apply (reg_active r Hok). by rewrite <-Hother.
  - intros name v m0 Hm0 Hs. destruct (decide (name = tm_name m')) as [->|Hn]; [by eapply Hbest|].
    rewrite Hne in Hm0 by done. destruct (reg_best r Hok _ _ _ Hm0 Hs) as (v' & m1 & ? & ? & ?).
    exists v', m1. rewrite Hne by done. simpl. by rewrite Hother.
Qed.

Lemma transition_ok show name version target now reason replacement r :
  version ≠ "" → reg_ok r →
  reg_ok (transition show name version target now reason replacement r).2.
Proof.
  intros Hv Hok. unfold transition. rewrite get_version by done.
  destruct (meta_at r name version) as [m|] eqn:Em; [|done].
  destruct (reg_names r Hok _ _ _ Em) as (Hn & Hver & _).
  destruct (bool_decide (target ∈ _)) eqn:Et; [|done]. apply bool_decide_eq_true in Et.
  set (m' := set_status m target now reason replacement).
  change (store_meta m' r) with (mkRegistry (with_meta m' r) (active_versions r)).
  cbn [tools active_versions].
  assert (tm_name m' = name) as Hn' by done. assert (tm_version m' = version) as Hv' by done.
  assert (∀ a v, meta_at (mkRegistry (with_meta m' r) a) name v =
    if decide (v = version) then Some m' else meta_at r name v) as Hat.
  { intros a v. rewrite meta_at_with_meta, Hn', Hv'. repeat case_decide; naive_solver. }
  destruct target; [exfalso; by destruct (tm_status m); set_solver|..].
  - apply (update_ok r m); rewrite ?Hn', ?Hv'; [done|done|..].
    + intros name' Hne. by rewrite lookup_insert_ne.
    + intros v. rewrite lookup_insert_eq. intros [= <-]. exists m'. by rewrite Hat, decide_True.
    + intros v m0 _ _. exists version, m'. by rewrite lookup_insert_eq, Hat, decide_True.
  - case_bool_decide as Ha.
    + set (r1 := mkRegistry (with_meta m' r) (active_versions r)).
      pose proof (fallback_spec r1 name version) as Hf.
      specialize (Hf (λ vs, with_meta_versions m' r _ name vs Hok)).
      destruct (fallback_version name version r1) as [v0|].
      * destruct Hf as (Hv0 & m0 & Hm0 & Hs0). unfold r1 in Hm0. rewrite Hat in Hm0.
        apply (update_ok r m); rewrite ?Hn', ?Hv'; [done|done|..].
        -- intros name' Hne. by rewrite lookup_insert_ne, lookup_delete_ne.
        -- intros v. rewrite lookup_insert_eq. intros [= <-]. exists m0. rewrite Hat, Hm0. by rewrite Hs0.
        -- intros v m1 _ _. exists v0, m0. by rewrite lookup_insert_eq, Hat.
      * apply (update_ok r m); rewrite ?Hn', ?Hv'; [done|done|..].
        -- intros name' Hne. by rewrite lookup_delete_ne.
        -- intros v. by rewrite lookup_delete_eq.
        -- intros v m1 Hm1 Hs1. exfalso. specialize (Hf v m1). unfold r1 in Hf.
           rewrite Hat in Hm1, Hf. case_decide; [by simplify_eq|].
           destruct (reg_names r Hok _ _ _ Hm1) as (_ & ? & _). naive_solver.
    + apply (update_ok r m); rewrite ?Hn', ?Hv'; [done..| |].
      * intros v Hact. rewrite Hat, decide_False by naive_solver. by apply (reg_active r Hok).
      * intros v m0. rewrite Hat. case_decide; [by intros [= <-]|]. intros Hm0 Hs0.
        destruct (reg_best r Hok _ _ _ Hm0 Hs0) as (v' & m1 & ? & ? & ?).
        exists v', m1. rewrite Hat, decide_False by naive_solver. done.
Qed.

Lemma meta_at_unregister name r a name' v :
  meta_at (mkRegistry (ddelete name (tools r)) a) name' v =
  if decide (name' = name) then None else meta_at r name' v.
Proof. unfold meta_at. simpl. rewrite dlookup_ddelete. by case_decide. Qed.

Lemma unregister_ok name r : reg_ok r → reg_ok (unregister name r).2.
Proof.
  intros Hok. unfold unregister. case_match; [|done]. simpl. split.
  - intros name' vs. simpl. rewrite dlookup_ddelete. case_decide; [done|]. apply (reg_versions r Hok).
  - intros name' v m. rewrite meta_at_unregister. case_decide; [done|]. apply (reg_names r Hok).
  - intros name' v. simpl. rewrite meta_at_unregister, lookup_delete_Some.
    intros [Hne Ha]. rewrite decide_False by done. by apply (reg_active r Hok).
  - intros name' v m. rewrite meta_at_unregister. case_decide; [done|]. intros Hm Hs.
    destruct (reg_best r Hok _ _ _ Hm Hs) as (v' & m' & ? & ? & ?). exists v', m'.
    rewrite meta_at_unregister, decide_False by done. simpl. by rewrite lookup_delete_ne.
Qed.

(** Calls with real version strings; a tool is not registered as deprecated. *)
Definition op_ok (o : reg_op) : Prop :=
  match o with
  | Register meta => tm_version meta ≠ "" ∧ tm_status meta ≠ DEPRECATED
  | Transition _ version _ _ _ _ => version ≠ ""
  | Unregister _ => True
  end.

Definition run (show : list ToolStatus → string) (ops : list reg_op) (r : registry) : registry :=
  foldl (λ r o, exec show o r) r ops.

Lemma exec_reg_ok show o r : op_ok o → reg_ok r → reg_ok (exec show o r).
Proof.
  destruct o; simpl; intros Ho Hok;
    [destruct Ho; by apply register_ok|by apply transition_ok|by apply unregister_ok].
Qed.

Lemma run_ok show ops r : Forall op_ok ops → reg_ok r → reg_ok (run show ops r).
Proof.
  intros Hops. revert r. induction Hops as [|o ops Ho Hops IH]; intros r Hok; [done|].
  apply (IH (exec show o r)). by apply exec_reg_ok.
Qed.

(** How one call may change the metadata of a registered version. *)
Definition evolves (m m' : ToolMeta) : Prop :=
  m' = m ∨ ∃ target now reason replacement, target ∈ valid_transitions (tm_status m) ∧
    m' = set_status m target now reason replacement.

Lemma exec_evolves show o r name v m :
  op_ok o → reg_ok r → o ≠ Unregister name → meta_at r name v = Some m →
  ∃ m', meta_at (exec show o r) name v = Some m' ∧ evolves m m'.
Proof.
  intros Ho Hok Hun Hm. destruct o as [meta|name0 version target now reason repl|name0]; simpl.
  - unfold register. case_bool_decide as Hnew; [exists m; split; [done|by left]|].
    simpl. fold (with_meta meta r). exists m. split; [|by left].
    rewrite meta_at_with_meta, decide_False; [done|]. intros [-> ->]. apply Hnew.
    unfold meta_at in Hm. by rewrite Hm.
  - simpl in Ho. unfold transition. rewrite get_version by done.
    destruct (meta_at r name0 version) as [m0|] eqn:E; [|exists m; split; [done|by left]].
    destruct (reg_names r Hok _ _ _ E) as (Hn & Hv & _).
    destruct (bool_decide (target ∈ _)) eqn:Et; [|exists m; split; [done|by left]].
    apply bool_decide_eq_true in Et. set (m' := set_status m0 target now reason repl).
    assert (∀ a, ∃ m'', meta_at (mkRegistry (with_meta m' r) a) name v = Some m'' ∧ evolves m m'') as Hw.
    { intros a. rewrite meta_at_with_meta. case_decide as Hc; [|exists m; split; [done|by left]].
      simpl in Hc. destruct Hc as [-> ->]. exists m'. split; [done|]. right.
      assert (m0 = m) as -> by congruence. by exists target, now, reason, repl. }
    destruct target; [apply Hw|apply Hw|]. case_bool_decide; apply Hw.
  - unfold unregister. case_match; [|exists m; split; [done|by left]].
    simpl. rewrite meta_at_unregister, decide_False by congruence. exists m. split; [done|by left].
Qed.

(** ** Claims *)


Definition demo_meta (version : string) (status : ToolStatus) : ToolMeta :=
  new_meta "search" version "full text search" status (PyFloat.of_Z 1) (PyFloat.of_Z 1).
Definition demo_ops : list reg_op :=
  [Register (demo_meta "1.0" DRAFT); Transition "search" "1.0" AVAILABLE (PyFloat.of_Z 2) "" "";
   Register (demo_meta "2.0" AVAILABLE);
   Transition "search" "2.0" DEPRECATED (PyFloat.of_Z 3) "broken" "search"].


(** no call other than [unregister] of the tool loses a registered version,
    and its metadata changes only along the lifecycle: the status moves from
    draft to available, from draft or available to deprecated, never back, and
    the declared capabilities, roles, quota and schemas stay as registered. *)
Theorem lifecycle_only_advances show (ops : list reg_op) (r : registry) name v m :
  Forall op_ok ops → reg_ok r → Unregister name ∉ ops → meta_at r name v = Some m →
  ∃ m', meta_at (run show ops r) name v = Some m' ∧ rtc evolves m m' ∧
    (tm_status m = DEPRECATED → m' = m) ∧
    (tm_status m = AVAILABLE → tm_status m' ≠ DRAFT) ∧
    tm_name m' = tm_name m ∧ tm_version m' = tm_version m ∧
    tm_required_roles m' = tm_required_roles m ∧ tm_is_sensitive m' = tm_is_sensitive m ∧
    tm_quota m' = tm_quota m ∧ tm_input_schema m' = tm_input_schema m.
Proof.
  intros Hops Hok Hun Hm.
  assert (∃ m', meta_at (run show ops r) name v = Some m' ∧ rtc evolves m m') as (m' & Hm' & Hev).
  { revert r m Hok Hm. induction Hops as [|o ops Ho Hops IH]; intros r m Hok Hm; [by exists m|].
    destruct (exec_evolves show o r name v m) as (m1 & Hm1 & Hev1); [done|done|set_solver|done|].
    destruct (IH ltac:(set_solver) (exec show o r) m1) as (m2 & ? & ?); [by apply exec_reg_ok|done|].
    exists m2. split; [done|]. by eapply rtc_l. }
  exists m'. split; [done|]. split; [done|]. clear -Hev.
  induction Hev as [m|m m1 m2 Hev _ IH]; [split_and!; congruence|].
  destruct Hev as [->|(target & now & reason & repl & Ht & ->)]; [done|].
  destruct (tm_status m) eqn:Es; simpl in Ht; [naive_solver| |set_solver].
  assert (target = DEPRECATED) as -> by set_solver. simpl in IH.
  destruct IH as (Hd & _ & ?). rewrite Hd by done. done.
Qed.

Lemma lifecycle_only_advances_witness :
  ∃ m', meta_at (run (λ _, "") (drop 1 demo_ops) (run (λ _, "") (take 1 demo_ops) init)) "search" "1.0"
      = Some m' ∧ rtc evolves (demo_meta "1.0" DRAFT) m' ∧
    (DRAFT = DEPRECATED → m' = demo_meta "1.0" DRAFT) ∧
    (DRAFT = AVAILABLE → tm_status m' ≠ DRAFT) ∧
    tm_name m' = "search" ∧ tm_version m' = "1.0" ∧
    tm_required_roles m' = ["public"] ∧ tm_is_sensitive m' = false ∧
    tm_quota m' = default_quota ∧ tm_input_schema m' = [].
Proof.
  apply (lifecycle_only_advances (λ _, "") (drop 1 demo_ops)
    (run (λ _, "") (take 1 demo_ops) init) "search" "1.0" (demo_meta "1.0" DRAFT)).
  - unfold demo_ops. simpl. repeat (apply Forall_cons_2; [done|]). apply Forall_nil_2.
  - apply run_ok; [|apply init_reg_ok]. apply Forall_cons_2; [done|apply Forall_nil_2].
  - simpl. intros Hin. repeat (apply elem_of_cons in Hin as [Hin|Hin]; [discriminate Hin|]).
    by apply elem_of_nil in Hin.
  - by vm_compute.
Defined.
