(* ===== verification/Authorizer.v ===== *)
(** * Tool authorization (src/src/gateway/authorizer.py)

    Role hierarchy, tenant allow and deny lists, confirmation of sensitive
    tools, and the log of denied attempts.  [now] is the time a denial is
    recorded at; [repr] is the interpreter's text of a list of strings. *)
From S2P Require Import Prelude PyFloat PyValue Persistence Catalog.

Inductive Role := PUBLIC | INTERNAL | ADMIN.
#[global] Instance Role_eq_dec : EqDecision Role.
Proof. solve_decision. Defined.

Record CallerIdentity := mkCallerIdentity {
  caller_id : string;
  role : Role;
  tenant : string;
  confirmed_tools : gset string;
}.

Record AuthDecision := mkAuthDecision {
  allowed : bool;
  reason : string;
  requires_confirmation : bool;
}.

Record TenantPolicy := mkTenantPolicy {
  allow_lists : gmap string (gset string);
  deny_lists : gmap string (gset string);
}.

Record denial := mkDenial {
  dn_timestamp : float;
  dn_caller_id : string;
  dn_caller_role : string;
  dn_tenant : string;
  dn_tool_name : string;
  dn_tool_version : string;
  dn_reason : string;
}.

Record authorizer := mkAuthorizer {
  tenant_policy : TenantPolicy;
  denial_log : list denial;
}.

Module ToolAuthorizer.

(** [Role.value] and [Role(text)] *)
Definition role_value (r : Role) : string :=
  match r with PUBLIC => "public" | INTERNAL => "internal" | ADMIN => "admin" end.
Definition role_of (v : string) : option Role :=
  if bool_decide (v = "public") then Some PUBLIC
  else if bool_decide (v = "internal") then Some INTERNAL
  else if bool_decide (v = "admin") then Some ADMIN
  else None.

(** [_ROLE_HIERARCHY] *)
Definition role_hierarchy (r : Role) : list Role :=
  match r with
  | PUBLIC => [PUBLIC]
  | INTERNAL => [PUBLIC; INTERNAL]
  | ADMIN => [PUBLIC; INTERNAL; ADMIN]
  end.

(** ** TenantPolicy *)
Definition new_policy : TenantPolicy := mkTenantPolicy ∅ ∅.
Definition set_allow_list (tn : string) (ts : list string) (p : TenantPolicy) : TenantPolicy :=
  mkTenantPolicy (<[tn := list_to_set ts]> (allow_lists p)) (deny_lists p).
Definition set_deny_list (tn : string) (ts : list string) (p : TenantPolicy) : TenantPolicy :=
  mkTenantPolicy (allow_lists p) (<[tn := list_to_set ts]> (deny_lists p)).

Definition is_allowed (tn tool : string) (p : TenantPolicy) : bool :=
  if (match deny_lists p !! tn with Some denied => bool_decide (tool ∈ denied) | None => false end)
  then false
  else match allow_lists p !! tn with Some ok => bool_decide (tool ∈ ok) | None => true end.

(** ** ToolAuthorizer *)
Definition allow : AuthDecision := mkAuthDecision true "" false.
Definition deny (why : string) : AuthDecision := mkAuthDecision false why false.

(** [__init__] *)
Definition init (p : option TenantPolicy) : authorizer := mkAuthorizer (default new_policy p) [].

Section authorize.
Context (repr : list string → string).

(** The loop of [_check_role] over the required roles. *)
Fixpoint check_roles (caller : CallerIdentity) (all required : list string) : AuthDecision :=
  match required with
  | [] => deny ("Caller role '" +:+ role_value (role caller) +:+ "' insufficient. Required: " +:+ repr all)
  | r :: required =>
      match role_of r with
      | None => deny ("Unknown required role '" +:+ r +:+ "' in tool config.")
      | Some needed =>
          if bool_decide (needed ∈ role_hierarchy (role caller)) then allow
          else check_roles caller all required
      end
  end.
Definition check_role (caller : CallerIdentity) (tool : ToolMeta) : AuthDecision :=
  check_roles caller (tm_required_roles tool) (tm_required_roles tool).

Definition check_tenant (caller : CallerIdentity) (tool : ToolMeta) (p : TenantPolicy) : AuthDecision :=
  if is_allowed (tenant caller) (tm_name tool) p then allow
  else deny ("Tenant '" +:+ tenant caller +:+ "' denied access to '" +:+ tm_name tool +:+ "'.").

Definition check_sensitive (caller : CallerIdentity) (tool : ToolMeta) : AuthDecision :=
  if negb (tm_is_sensitive tool) then allow
  else if bool_decide (tm_name tool ∈ confirmed_tools caller) then allow
  else mkAuthDecision false ("Tool '" +:+ tm_name tool +:+
         "' is sensitive and requires explicit confirmation.") true.

Definition record_denial (caller : CallerIdentity) (tool : ToolMeta) (why : string) (now : float)
    (a : authorizer) : authorizer :=
  mkAuthorizer (tenant_policy a) (denial_log a ++
    [mkDenial now (caller_id caller) (role_value (role caller)) (tenant caller)
       (tm_name tool) (tm_version tool) why]).

Definition authorize (caller : CallerIdentity) (tool : ToolMeta) (now : float) (a : authorizer)
    : AuthDecision * authorizer :=
  let refuse d := (d, record_denial caller tool (reason d) now a) in
  let d1 := check_role caller tool in
  if negb (allowed d1) then refuse d1 else
  let d2 := check_tenant caller tool (tenant_policy a) in
  if negb (allowed d2) then refuse d2 else
  let d3 := check_sensitive caller tool in
  if negb (allowed d3) then refuse d3 else
  (allow, a).
End authorize.

(** The caller's set is updated in place. *)
Definition confirm_sensitive_tool (caller : CallerIdentity) (tool_name : string) : CallerIdentity :=
  mkCallerIdentity (caller_id caller) (role caller) (tenant caller)
    ({[tool_name]} ∪ confirmed_tools caller).

End ToolAuthorizer.
Import ToolAuthorizer.

(** ** Specification *)

(** Privilege as a number. *)
Definition rank (r : Role) : nat := match r with PUBLIC => 0 | INTERNAL => 1 | ADMIN => 2 end.

(** Some required role is within the caller's privilege and no role listed
    before it is unknown. *)
Definition role_granted (caller : CallerIdentity) (tool : ToolMeta) : Prop :=
  ∃ before r after needed, tm_required_roles tool = before ++ r :: after ∧
    Forall (λ x, is_Some (role_of x)) before ∧
    role_of r = Some needed ∧ rank needed ≤ rank (role caller).

(** The deny list of the tenant wins; an allow list must name the tool. *)
Definition tenant_granted (caller : CallerIdentity) (tool : ToolMeta) (p : TenantPolicy) : Prop :=
  (∀ denied, deny_lists p !! tenant caller = Some denied → tm_name tool ∉ denied) ∧
  (∀ ok, allow_lists p !! tenant caller = Some ok → tm_name tool ∈ ok).

Definition confirmation_granted (caller : CallerIdentity) (tool : ToolMeta) : Prop :=
  tm_is_sensitive tool = true → tm_name tool ∈ confirmed_tools caller.

Lemma hierarchy_rank r r' : r ∈ role_hierarchy r' ↔ rank r ≤ rank r'.
Proof. destruct r, r'; simpl; split; intros; try lia; set_solver. Qed.

Lemma check_roles_allowed repr caller all required :
  allowed (check_roles repr caller all required) = true ↔
  ∃ before r after needed, required = before ++ r :: after ∧
    Forall (λ x, is_Some (role_of x)) before ∧
    role_of r = Some needed ∧ rank needed ≤ rank (role caller).
Proof.
  induction required as [|r required IH]; simpl.
  { split; [done|]. by intros ([] & ? & ? & ? & ? & _). }
  destruct (role_of r) as [needed|] eqn:E; simpl.
  - destruct (decide (rank needed ≤ rank (role caller))) as [Hle|Hn].
    + rewrite bool_decide_eq_true_2 by by apply hierarchy_rank. split; [|done].
      intros _. by exists [], r, required, needed.
    + rewrite bool_decide_eq_false_2 by by rewrite hierarchy_rank. rewrite IH. split.
      * intros (b & r' & a & n & -> & Hb & Hr & Hle). exists (r :: b), r', a, n.
        split_and!; [done| |done..]. constructor; [by rewrite E|done].
      * intros ([|r0 b] & r' & a & n & Heq & Hb & Hr & Hle); simplify_eq/=; [done|].
        apply Forall_cons in Hb as [_ Hb]. by exists b, r', a, n.
  - split; [done|]. intros ([|r0 b] & r' & a & n & Heq & Hb & Hr & _); simplify_eq/=.
    apply Forall_cons in Hb as [[? Hb] _]. congruence.
Qed.

Lemma is_allowed_granted caller tool p :
  is_allowed (tenant caller) (tm_name tool) p = true ↔ tenant_granted caller tool p.
Proof.
  unfold is_allowed, tenant_granted.
  destruct (deny_lists p !! tenant caller) as [den|], (allow_lists p !! tenant caller) as [ok|];
    repeat case_bool_decide; naive_solver.
Qed.

Lemma check_sensitive_granted caller tool :
  allowed (check_sensitive caller tool) = true ↔ confirmation_granted caller tool.
Proof.
  unfold check_sensitive, confirmation_granted.
  destruct (tm_is_sensitive tool); simpl; [case_bool_decide; naive_solver|naive_solver].
Qed.

(** ** Claims *)

Lemma authorize_ok repr caller tool now a :
  let '(d, a') := authorize repr caller tool now a in
  (allowed d = true ↔ role_granted caller tool ∧ tenant_granted caller tool (tenant_policy a) ∧
                      confirmation_granted caller tool) ∧
  (requires_confirmation d = true ↔ role_granted caller tool ∧
     tenant_granted caller tool (tenant_policy a) ∧ ¬ confirmation_granted caller tool) ∧
  tenant_policy a' = tenant_policy a ∧
  denial_log a' = denial_log a ++
    (if allowed d then [] else
       [mkDenial now (caller_id caller) (role_value (role caller)) (tenant caller)
          (tm_name tool) (tm_version tool) (reason d)]).
Proof.
  unfold authorize. pose proof (check_roles_allowed repr caller (tm_required_roles tool)
    (tm_required_roles tool)) as Hr. fold (check_role repr caller tool) in Hr.
  fold (role_granted caller tool) in Hr.
  pose proof (is_allowed_granted caller tool (tenant_policy a)) as Ht.
  pose proof (check_sensitive_granted caller tool) as Hs.
  assert (∀ req, requires_confirmation (check_roles repr caller (tm_required_roles tool) req) = false) as Hc.
  { induction req as [|r req IH]; simpl; [done|]. by destruct (role_of r); [case_bool_decide|]. }
  specialize (Hc (tm_required_roles tool)). fold (check_role repr caller tool) in Hc.
  destruct (allowed (check_role repr caller tool)) eqn:Er; simpl.
  2: { rewrite Er, Hc. split_and!; [naive_solver|naive_solver|done|done]. }
  unfold check_tenant. destruct (is_allowed _ _ _) eqn:Et; simpl; [|split_and!; naive_solver].
  destruct (allowed (check_sensitive caller tool)) eqn:Es; simpl.
  { split_and!; [naive_solver|naive_solver|done|by rewrite app_nil_r]. }
  rewrite Es. split_and!; [naive_solver| |done|done].
  assert (requires_confirmation (check_sensitive caller tool) = true) as ->; [|naive_solver].
  unfold check_sensitive in *. destruct (tm_is_sensitive tool); simpl in *; [|done].
  by case_bool_decide.
Qed.

(** a tool call is authorized exactly when all three gates accept it: a
    required role is within the caller's place in the role hierarchy (with no
    unknown role listed before it), the tenant's deny list does not name the
    tool and its allow list, if it has one, does, and a sensitive tool has been
    confirmed.  Everything else is denied; a denial adds exactly one entry with
    the caller, the tool and the reason to the log, and an authorized call adds
    none.  Confirmation is asked for only when it is the one thing missing. *)
Theorem authorize_decides repr caller tool now a :
  let '(d, a') := authorize repr caller tool now a in
  (allowed d = true ↔ role_granted caller tool ∧ tenant_granted caller tool (tenant_policy a) ∧
                      confirmation_granted caller tool) ∧
  (requires_confirmation d = true ↔ role_granted caller tool ∧
     tenant_granted caller tool (tenant_policy a) ∧ ¬ confirmation_granted caller tool) ∧
  tenant_policy a' = tenant_policy a ∧
  denial_log a' = denial_log a ++
    (if allowed d then [] else
       [mkDenial now (caller_id caller) (role_value (role caller)) (tenant caller)
          (tm_name tool) (tm_version tool) (reason d)]).
Proof. apply authorize_ok. Qed.

(** A required role that satisfies the caller does not help when an unknown
    role is listed before it, although it does when listed after it. *)
Example unknown_role_order :
  let caller := mkCallerIdentity "u" ADMIN "default" ∅ in
  let tool roles := let m := Registry.new_meta "t" "1" "" AVAILABLE PyFloat.zero PyFloat.zero in
    mkToolMeta (tm_name m) (tm_version m) "" AVAILABLE [] [] [] roles false (tm_quota m)
      PyFloat.zero "" [] PyFloat.zero PyFloat.zero "" "" in
  allowed (authorize (λ _, "") caller (tool ["auditor"; "public"]) PyFloat.zero (init None)).1 = false ∧
  allowed (authorize (λ _, "") caller (tool ["public"; "auditor"]) PyFloat.zero (init None)).1 = true.
Proof. by vm_compute. Qed.
