(* ===== verification/PreInvocation.v ===== *)
(** * Pre-invocation checks (src/src/gateway/errors.py, src/src/gateway/validator.py)

    Error codes with their message templates, the quota tracker and the
    validator that checks availability, parameter schema and quota before a tool
    is called.  [now] and [date] are the readings of [time.time()] and
    [time.strftime("%Y-%m-%d")] a call takes. *)
From S2P Require Import Prelude PyFloat PyValue Persistence Catalog.
Local Open Scope Z_scope.

(** ** errors.py *)
Inductive ErrorCategory := VALIDATION | QUOTA | AUTH | RUNTIME | DEGRADATION.

Record ErrorCode := mkErrorCode {
  ec_code : Z;
  ec_category : ErrorCategory;
  ec_template : string;
}.

Module Errors.
Definition category_value (c : ErrorCategory) : string :=
  match c with
  | VALIDATION => "validation" | QUOTA => "quota" | AUTH => "auth"
  | RUNTIME => "runtime" | DEGRADATION => "degradation"
  end.

(** [template.format(kwargs)] for templates with named fields only; [field]
    is the name read so far inside braces. *)
Fixpoint format_from (kwargs : dict string) (field : option string) (s : string) : res string :=
  match s, field with
  | EmptyString, None => Ok EmptyString
  | EmptyString, Some _ => Err (ValueError "expected '}' before end of string")
  | String c s, None =>
      if (Ascii.nat_of_ascii c =? 123)%nat then format_from kwargs (Some EmptyString) s
      else String c <$> format_from kwargs None s
  | String c s, Some name =>
      if (Ascii.nat_of_ascii c =? 125)%nat then
        match dlookup name kwargs with
        | Some v => (λ rest, v +:+ rest) <$> format_from kwargs None s
        | None => Err (KeyError name)
        end
      else format_from kwargs (Some (name +:+ String c EmptyString)) s
  end.
Definition format (e : ErrorCode) (kwargs : dict string) : res string :=
  format_from kwargs None (ec_template e).

Definition INVALID_TOOL_NAME := mkErrorCode 1001 VALIDATION "Tool '{tool_name}' is not registered.".
Definition TOOL_NOT_AVAILABLE := mkErrorCode 1002 VALIDATION
  "Tool '{tool_name}' is not in AVAILABLE state (current: {status}).".
Definition SCHEMA_VIOLATION := mkErrorCode 1003 VALIDATION "Input validation failed: {details}".
Definition MISSING_REQUIRED_FIELD := mkErrorCode 1004 VALIDATION "Missing required field: {field_name}".
Definition INVALID_FIELD_TYPE := mkErrorCode 1005 VALIDATION
  "Field '{field_name}' expected type '{expected}', got '{actual}'.".
Definition QPS_EXCEEDED := mkErrorCode 2001 QUOTA
  "QPS limit exceeded for tool '{tool_name}' (limit: {limit}/s).".
Definition CONCURRENCY_EXCEEDED := mkErrorCode 2002 QUOTA
  "Concurrency limit exceeded for tool '{tool_name}' (limit: {limit}).".
Definition DAILY_QUOTA_EXCEEDED := mkErrorCode 2003 QUOTA
  "Daily quota exceeded for tool '{tool_name}' (limit: {limit}/day).".
Definition UNAUTHORIZED := mkErrorCode 3001 AUTH
  "Caller '{caller}' lacks required role for tool '{tool_name}'.".
Definition SENSITIVE_TOOL_UNCONFIRMED := mkErrorCode 3002 AUTH
  "Tool '{tool_name}' is sensitive and requires explicit confirmation.".
Definition TENANT_DENIED := mkErrorCode 3003 AUTH
  "Tenant '{tenant}' is not authorized to use tool '{tool_name}'.".
Definition TOOL_TIMEOUT := mkErrorCode 4001 RUNTIME "Tool '{tool_name}' timed out after {timeout}s.".
Definition CIRCUIT_OPEN := mkErrorCode 4002 RUNTIME
  "Circuit breaker open for tool '{tool_name}'. Try again later.".
Definition TOOL_EXECUTION_ERROR := mkErrorCode 4003 RUNTIME
  "Tool '{tool_name}' execution failed: {details}".
Definition RATE_LIMITED := mkErrorCode 4004 RUNTIME
  "Rate limited for caller '{caller}'. Retry after {retry_after}s.".
Definition DEGRADED_RESPONSE := mkErrorCode 5001 DEGRADATION
  "Tool '{tool_name}' returned a degraded response: {strategy}.".
Definition FALLBACK_USED := mkErrorCode 5002 DEGRADATION
  "Fallback tool '{fallback}' used instead of '{tool_name}'.".

(** [ToolGatewayError(code, kwargs).to_dict()] *)
Definition to_dict (e : ErrorCode) (kwargs : dict string) : res (dict pyval) :=
  message ← format e kwargs;
  Ok [("code", VInt (ec_code e)); ("category", VStr (category_value (ec_category e)));
      ("message", VStr message); ("params", VDict ((λ '(k, v), (k, VStr v)) <$> kwargs))].
End Errors.

(** ** ValidationResult *)
Record error_entry := mkErrorEntry {
  ee_code : Z;
  ee_category : string;
  ee_message : string;
}.
Record ValidationResult := mkValidationResult {
  valid : bool;
  errors : list error_entry;
}.

Definition add_error (e : ErrorCode) (kwargs : dict string) (r : ValidationResult)
    : res ValidationResult :=
  message ← Errors.format e kwargs;
  Ok (mkValidationResult false (errors r ++
        [mkErrorEntry (ec_code e) (Errors.category_value (ec_category e)) message])).

(** ** QuotaTracker

    The three counters are [defaultdict]s: a read of a missing key yields the
    default (and stores it, which no read can tell). *)
Record quota_tracker := mkQuotaTracker {
  call_timestamps : gmap string (list float);
  concurrent : gmap string Z;
  daily_counts : gmap (string * string) Z;
}.

Module QuotaTracker.
Definition init : quota_tracker := mkQuotaTracker ∅ ∅ ∅.

Definition timestamps_of (tool : string) (q : quota_tracker) : list float :=
  default [] (call_timestamps q !! tool).
Definition concurrent_of (tool : string) (q : quota_tracker) : Z := default 0 (concurrent q !! tool).
Definition daily_of (tool date : string) (q : quota_tracker) : Z :=
  default 0 (daily_counts q !! (tool, date)).

(** [t] with [now - t < 1.0] *)
Definition in_window (now t : float) : bool := PyFloat.lt (PyFloat.sub now t) (PyFloat.of_Z 1).

Definition check_qps (tool : string) (limit : Z) (now : float) (q : quota_tracker)
    : bool * quota_tracker :=
  let recent := filter (λ t, in_window now t = true) (timestamps_of tool q) in
  (Z.of_nat (length recent) <? limit,
   mkQuotaTracker (<[tool := recent]> (call_timestamps q)) (concurrent q) (daily_counts q)).

Definition check_concurrency (tool : string) (limit : Z) (q : quota_tracker) : bool :=
  concurrent_of tool q <? limit.

Definition check_daily (tool : string) (limit : Z) (date : string) (q : quota_tracker) : bool :=
  daily_of tool date q <? limit.

Definition record_call_start (tool : string) (now : float) (date : string) (q : quota_tracker)
    : quota_tracker :=
  mkQuotaTracker (<[tool := timestamps_of tool q ++ [now]]> (call_timestamps q))
    (<[tool := concurrent_of tool q + 1]> (concurrent q))
    (<[(tool, date) := daily_of tool date q + 1]> (daily_counts q)).

Definition record_call_end (tool : string) (q : quota_tracker) : quota_tracker :=
  mkQuotaTracker (call_timestamps q) (<[tool := Z.max 0 (concurrent_of tool q - 1)]> (concurrent q))
    (daily_counts q).

Definition reset (tool : option string) (q : quota_tracker) : quota_tracker :=
  let t := default "" tool in
  if str_truthy t then
    mkQuotaTracker (delete t (call_timestamps q)) (delete t (concurrent q))
      (filter (λ kv, kv.1.1 ≠ t) (daily_counts q))
  else init.
End QuotaTracker.

(** ** ToolValidator *)
Module ToolValidator.
Section validator.
Context (repr : pyval → string).

(** [_TYPE_MAP.get(type(v).__name__, type(v).__name__)] *)
Definition json_type (v : pyval) : string :=
  match v with
  | VStr _ => "string" | VInt _ => "integer" | VFloat _ => "number" | VBool _ => "boolean"
  | VList _ => "array" | VDict _ => "object" | VNone => "null"
  end.

Definition check_required (params : dict pyval) (field : pyval) (r : ValidationResult)
    : res ValidationResult :=
  Py.contains field (VDict params) ≫= λ present : bool,
  if present then Ok r
  else add_error Errors.MISSING_REQUIRED_FIELD [("field_name", Py.to_str repr field)] r.

Definition check_field (params : dict pyval) (field : string * pyval) (r : ValidationResult)
    : res ValidationResult :=
  let '(name, spec) := field in
  if bool_decide (name ∈ ["required"; "properties"]) then Ok r else
  match dlookup name params with
  | None => Ok r
  | Some actual_value =>
      let expected := match spec with VDict d => dget "type" VNone d | _ => VNone end in
      if negb (Py.truthy expected) then Ok r else
      let actual := json_type actual_value in
      if Py.eq expected (VStr "number") && bool_decide (actual = "integer") then Ok r
      else if negb (Py.eq (VStr actual) expected) then
        add_error Errors.INVALID_FIELD_TYPE
          [("field_name", name); ("expected", Py.to_str repr expected); ("actual", actual)] r
      else Ok r
  end.

Definition schema_parts (schema : dict pyval) : pyval * pyval :=
  if negb (dmem "properties" schema) && negb (dmem "required" schema)
  then (VList [], VDict schema)
  else (dget "required" (VList []) schema, dget "properties" (VDict schema) schema).

Definition validate_schema (meta : ToolMeta) (params : dict pyval) (r : ValidationResult)
    : res ValidationResult :=
  let schema := tm_input_schema meta in
  if bool_decide (schema = []) then Ok r else
  let '(required, properties) := schema_parts schema in
  fields ← Py.iterate required;
  r1 ← fold_res (check_required params) fields r;
  match properties with
  | VDict props => fold_res (check_field params) props r1
  | v => Err (AttributeError (Py.type_name v +:+ " object has no attribute 'items'"))
  end.

(** One quota check: the error is added when the check fails. *)
Definition require (ok : bool) (e : ErrorCode) (kwargs : dict string) (r : ValidationResult)
    : res ValidationResult := if ok then Ok r else add_error e kwargs r.

Definition validate_quota (meta : ToolMeta) (r : ValidationResult) (now : float) (date : string)
    : st quota_tracker ValidationResult := λ q,
  let quota := tm_quota meta in
  let name := tm_name meta in
  let '(qps_ok, q') := QuotaTracker.check_qps name (qps quota) now q in
  (r1 ← require qps_ok Errors.QPS_EXCEEDED [("tool_name", name); ("limit", pretty (qps quota))] r;
   r2 ← require (QuotaTracker.check_concurrency name (max_concurrent quota) q')
          Errors.CONCURRENCY_EXCEEDED [("tool_name", name); ("limit", pretty (max_concurrent quota))] r1;
   require (QuotaTracker.check_daily name (daily_limit quota) date q')
     Errors.DAILY_QUOTA_EXCEEDED [("tool_name", name); ("limit", pretty (daily_limit quota))] r2, q').

Definition validate (registry : Registry.registry) (tool_name : string) (params : dict pyval)
    (now : float) (date : string) : st quota_tracker ValidationResult := λ q,
  let result := mkValidationResult true [] in
  match Registry.get tool_name None registry with
  | None => (add_error Errors.INVALID_TOOL_NAME [("tool_name", tool_name)] result, q)
  | Some meta =>
      if bool_decide (tm_status meta = AVAILABLE) then
        match validate_schema meta params result with
        | Ok r => validate_quota meta r now date q
        | Err e => (Err e, q)
        end
      else (add_error Errors.TOOL_NOT_AVAILABLE
              [("tool_name", tool_name); ("status", Registry.status_value (tm_status meta))] result, q)
  end.
End validator.
End ToolValidator.
Import ToolValidator.

(** ** Facts

    A check [c] that reports an error exactly when [P] fails. *)
Definition consistent (r : ValidationResult) : Prop := valid r = true ↔ errors r = [].
Definition checks (c : ValidationResult → res ValidationResult) (P : Prop) : Prop :=
  ∀ r, consistent r → ∃ r', c r = Ok r' ∧ consistent r' ∧ (valid r' = true ↔ valid r = true ∧ P).

Lemma add_error_checks e kwargs msg (P : Prop) :
  Errors.format e kwargs = Ok msg → ¬ P → checks (add_error e kwargs) P.
Proof.
  intros Hf HP r Hr. unfold add_error. rewrite Hf. simpl. eexists. split; [done|].
  unfold consistent. simpl. split; [split; [done|]|naive_solver].
  intros Heq%(f_equal length). rewrite length_app in Heq. simpl in Heq. lia.
Qed.

Lemma skip_checks (P : Prop) : P → checks Ok P.
Proof. intros HP r Hr. exists r. naive_solver. Qed.

Lemma fold_checks {A} (c : A → ValidationResult → res ValidationResult) (P : A → Prop) l :
  (∀ x, x ∈ l → checks (c x) (P x)) → checks (fold_res c l) (∀ x, x ∈ l → P x).
Proof.
  induction l as [|x l IH]; intros Hc r Hr; simpl.
  { exists r. split_and!; [done|done|]. split; [|naive_solver]. intros. split; [done|set_solver]. }
  destruct (Hc x ltac:(set_solver) r Hr) as (r1 & -> & Hr1 & Hv1).
  destruct (IH ltac:(set_solver) r1 Hr1) as (r2 & -> & Hr2 & Hv2).
  exists r2. split_and!; [done|done|]. rewrite Hv2, Hv1. split.
  - intros [[? ?] ?]. split; [done|]. intros y [->|]%elem_of_cons; auto.
  - intros [? Hall]. split_and!; [done|apply Hall; set_solver|intros; apply Hall; set_solver].
Qed.

(** The quota messages format whatever the name and the limit are. *)
Lemma quota_message e tool limit :
  e ∈ [Errors.QPS_EXCEEDED; Errors.CONCURRENCY_EXCEEDED; Errors.DAILY_QUOTA_EXCEEDED] →
  ∃ msg, Errors.format e [("tool_name", tool); ("limit", limit)] = Ok msg.
Proof.
  intros He. repeat (apply elem_of_cons in He as [->|He]; [eexists; by vm_compute|]).
  by apply elem_of_nil in He.
Qed.

Lemma require_checks (ok : bool) e tool limit :
  e ∈ [Errors.QPS_EXCEEDED; Errors.CONCURRENCY_EXCEEDED; Errors.DAILY_QUOTA_EXCEEDED] →
  checks (require ok e [("tool_name", tool); ("limit", limit)]) (ok = true).
Proof. intros [msg Hf]%(quota_message e tool limit). destruct ok; [by apply skip_checks|by eapply add_error_checks]. Qed.

(** ** Specification *)
Definition declared_type (spec : pyval) : pyval :=
  match spec with VDict d => dget "type" VNone d | _ => VNone end.
(** No (or an empty) declared type accepts everything; an integer is a number. *)
Definition type_accepts (expected v : pyval) : Prop :=
  Py.truthy expected = false ∨ (expected = VStr "number" ∧ json_type v = "integer") ∨
  expected = VStr (json_type v).

(** The schema shapes the validator reads: required names, field specs. *)
Definition schema_shape (schema : dict pyval) (required : list string) (props : dict pyval) : Prop :=
  schema_parts schema = (VList (VStr <$> required), VDict props).

Definition params_ok (schema : dict pyval) (params : dict pyval) : Prop :=
  schema = [] ∨ ∃ required props, schema_shape schema required props ∧
    (∀ f, f ∈ required → is_Some (dlookup f params)) ∧
    (∀ f, f ∈ props → f.1 ∉ ["required"; "properties"] →
       ∀ v, dlookup f.1 params = Some v → type_accepts (declared_type f.2) v).

Definition quota_ok (meta : ToolMeta) (now : float) (date : string) (q : quota_tracker) : Prop :=
  let recent := filter (λ t, QuotaTracker.in_window now t = true)
                  (QuotaTracker.timestamps_of (tm_name meta) q) in
  Z.of_nat (length recent) < qps (tm_quota meta) ∧
  QuotaTracker.concurrent_of (tm_name meta) q < max_concurrent (tm_quota meta) ∧
  QuotaTracker.daily_of (tm_name meta) date q < daily_limit (tm_quota meta).

Lemma check_required_checks repr params f :
  checks (check_required repr params (VStr f)) (is_Some (dlookup f params)).
Proof.
  unfold check_required. simpl. destruct (dmem f params) eqn:E.
  - apply skip_checks. by apply dmem_true.
  - eapply add_error_checks; [by vm_compute|]. rewrite <-dmem_true. congruence.
Qed.

Lemma py_eq_str_r v s : Py.eq v (VStr s) = true ↔ v = VStr s.
Proof.
  destruct v; simpl; try done; try (rewrite bool_decide_eq_true; naive_solver);
    split; try done.
Qed.

Lemma check_field_checks repr params f :
  checks (check_field repr params f)
    (f.1 ∉ ["required"; "properties"] →
       ∀ v, dlookup f.1 params = Some v → type_accepts (declared_type f.2) v).
Proof.
  destruct f as [name spec]. unfold check_field.
  destruct (bool_decide (name ∈ _)) eqn:En.
  { apply bool_decide_eq_true in En. apply skip_checks. naive_solver. }
  apply bool_decide_eq_false in En.
  destruct (dlookup name params) as [v|] eqn:Ev; [|apply skip_checks; simpl; naive_solver].
  fold (declared_type spec). destruct (Py.truthy (declared_type spec)) eqn:Et; cbn [negb].
  2: { apply skip_checks. intros _ v' _. by left. }
  destruct (Py.eq (declared_type spec) (VStr "number") && bool_decide (json_type v = "integer")) eqn:Enum.
  { apply skip_checks. intros _ v' Hv'. cbn [fst snd] in *. apply andb_true_iff in Enum as [->%py_eq_str_r ?%bool_decide_eq_true].
    right. left. split; [done|]. congruence. }
  rewrite py_eq_str. destruct (bool_decide (declared_type spec = VStr (json_type v))) eqn:Eq; cbn [negb];
    [apply bool_decide_eq_true in Eq|apply bool_decide_eq_false in Eq].
  { apply skip_checks. intros _ v' Hv'. cbn [fst snd] in *. right. right. congruence. }
  eapply add_error_checks; [by vm_compute|]. intros Hall. cbn [fst snd] in *. specialize (Hall En v Ev).
  cbn [fst snd] in *. destruct Hall as [?|[[Hn Hi]|?]]; [congruence| |done].
  apply andb_false_iff in Enum as [Hf|Hf]; [|by apply bool_decide_eq_false in Hf].
  rewrite <-not_true_iff_false, py_eq_str_r in Hf. done.
Qed.

Lemma validate_schema_checks repr meta params :
  (tm_input_schema meta = [] ∨ ∃ required props, schema_shape (tm_input_schema meta) required props) →
  checks (validate_schema repr meta params) (params_ok (tm_input_schema meta) params).
Proof.
  intros Hshape. unfold validate_schema. case_bool_decide as E; [apply skip_checks; by left|].
  destruct Hshape as [?|(req & props & Hs)]; [done|]. unfold schema_shape in Hs. rewrite Hs. simpl.
  intros r Hr.
  destruct (fold_checks (check_required repr params) (λ f, ∃ s, f = VStr s ∧ is_Some (dlookup s params))
    (VStr <$> req)) with (r := r) as (r1 & He1 & Hr1 & Hv1); [|done|].
  { intros f (s & -> & _)%list_elem_of_fmap. intros r0 Hr0.
    destruct (check_required_checks repr params s r0 Hr0) as (r' & ? & ? & ?).
    exists r'. naive_solver. }
  destruct (fold_checks (check_field repr params) _ props (λ f _, check_field_checks repr params f) r1 Hr1)
    as (r2 & He2 & Hr2 & Hv2).
  exists r2. rewrite He1. simpl. split_and!; [done|done|]. rewrite Hv2, Hv1. split.
  - intros [[? H1] H2]. split; [done|]. right. exists req, props. split_and!; [done| |done].
    intros f Hf. destruct (H1 (VStr f)) as (s & [= <-] & ?); [by apply list_elem_of_fmap_2|done].
  - intros [? [?|(req' & props' & Hs' & H1 & H2)]]; [done|].
    unfold schema_shape in Hs'. rewrite Hs in Hs'. injection Hs' as Hreq ->.
    apply list_fmap_eq_inj in Hreq; [|by intros ?? [= ->]]. subst req'.
    split_and!; [done| |done]. intros f (s & -> & Hin)%list_elem_of_fmap. eauto.
Qed.

Lemma validate_quota_ok meta r now date q :
  consistent r →
  ∃ r' q', validate_quota meta r now date q = (Ok r', q') ∧ consistent r' ∧
    (valid r' = true ↔ valid r = true ∧ quota_ok meta now date q) ∧
    concurrent q' = concurrent q ∧ daily_counts q' = daily_counts q.
Proof.
  intros Hr. unfold validate_quota, quota_ok, QuotaTracker.check_qps.
  set (recent := filter _ _). set (q' := mkQuotaTracker _ _ _).
  edestruct (require_checks (Z.of_nat (length recent) <? qps (tm_quota meta)) Errors.QPS_EXCEEDED
    (tm_name meta) (pretty (qps (tm_quota meta)))) as (r1 & He1 & Hr1 & Hv1);
    [set_solver|exact Hr|].
  edestruct (require_checks (QuotaTracker.check_concurrency (tm_name meta) (max_concurrent (tm_quota meta)) q')
    Errors.CONCURRENCY_EXCEEDED
    (tm_name meta) (pretty (max_concurrent (tm_quota meta))))
    as (r2 & He2 & Hr2 & Hv2); [set_solver|exact Hr1|].
  edestruct (require_checks (QuotaTracker.check_daily (tm_name meta) (daily_limit (tm_quota meta)) date q')
    Errors.DAILY_QUOTA_EXCEEDED
    (tm_name meta) (pretty (daily_limit (tm_quota meta))))
    as (r3 & He3 & Hr3 & Hv3); [set_solver|exact Hr2|].
  exists r3, q'. rewrite He1. simpl. rewrite He2. simpl. rewrite He3.
  split_and!; [done|done| |done|done]. rewrite Hv3, Hv2, Hv1.
  unfold QuotaTracker.check_concurrency, QuotaTracker.check_daily, QuotaTracker.concurrent_of,
    QuotaTracker.daily_of. simpl. rewrite !Z.ltb_lt. naive_solver.
Qed.

(** ** Calls admitted by the quota checks

    [limits] are the quotas of the tools.  A call starts only after its three
    checks pass, and a call that started ends. *)
Inductive quota_step (limits : string → QuotaConfig) : quota_tracker → quota_tracker → Prop :=
| quota_start tool now now' date q q' :
    QuotaTracker.check_qps tool (qps (limits tool)) now q = (true, q') →
    QuotaTracker.check_concurrency tool (max_concurrent (limits tool)) q' = true →
    QuotaTracker.check_daily tool (daily_limit (limits tool)) date q' = true →
    quota_step limits q (QuotaTracker.record_call_start tool now' date q')
| quota_check tool limit now q :
    quota_step limits q (QuotaTracker.check_qps tool limit now q).2
| quota_end tool q : quota_step limits q (QuotaTracker.record_call_end tool q)
| quota_reset tool q : quota_step limits q (QuotaTracker.reset tool q).

Definition within (limits : string → QuotaConfig) (q : quota_tracker) : Prop :=
  ∀ tool,
    Z.of_nat (length (QuotaTracker.timestamps_of tool q)) ≤ qps (limits tool) ∧
    0 ≤ QuotaTracker.concurrent_of tool q ≤ max_concurrent (limits tool) ∧
    ∀ date, 0 ≤ QuotaTracker.daily_of tool date q ≤ daily_limit (limits tool).

Definition limits_ok (limits : string → QuotaConfig) : Prop :=
  ∀ tool, 0 ≤ qps (limits tool) ∧ 0 ≤ max_concurrent (limits tool) ∧ 0 ≤ daily_limit (limits tool).

Lemma within_init limits : limits_ok limits → within limits QuotaTracker.init.
Proof.
  intros Hl tool. destruct (Hl tool) as (? & ? & ?).
  unfold QuotaTracker.timestamps_of, QuotaTracker.concurrent_of, QuotaTracker.daily_of. simpl.
  rewrite !lookup_empty. by split_and!.
Qed.

Lemma check_qps_within limits tool limit now q :
  within limits q → within limits (QuotaTracker.check_qps tool limit now q).2.
Proof.
  intros Hw t. destruct (Hw t) as (H1 & H2 & H3). split; [|by split].
  unfold QuotaTracker.timestamps_of in *. simpl. destruct (decide (tool = t)) as [->|].
  - rewrite lookup_insert_eq. simpl. etrans; [|exact H1]. apply Nat2Z.inj_le, length_filter.
  - by rewrite lookup_insert_ne.
Qed.

Lemma quota_step_within limits q q' :
  limits_ok limits → quota_step limits q q' → within limits q → within limits q'.
Proof.
  intros Hl [tool now now' date q0 q1 Hq Hc Hd|tool limit now q0|tool q0|tool q0] Hw t.
  - pose proof (check_qps_within limits tool (qps (limits tool)) now q0 Hw) as Hw1.
    rewrite Hq in Hw1. simpl in Hw1. destruct (Hw1 t) as (H1 & H2 & H3).
    unfold QuotaTracker.check_qps in Hq. injection Hq as Hq <-.
    unfold QuotaTracker.check_concurrency, QuotaTracker.check_daily in *.
    apply Z.ltb_lt in Hq, Hc, Hd.
    unfold QuotaTracker.record_call_start, QuotaTracker.timestamps_of, QuotaTracker.concurrent_of, QuotaTracker.daily_of in *. simpl in *.
    destruct (decide (tool = t)) as [->|Hne].
    + rewrite !lookup_insert_eq in *. simpl in *. rewrite length_app. simpl. split_and!; [lia..|].
      intros date'. destruct (decide (date = date')) as [->|Hdne].
      * rewrite lookup_insert_eq. simpl. specialize (H3 date'). lia.
      * rewrite lookup_insert_ne by congruence. apply H3.
    + rewrite !lookup_insert_ne in * by done. split_and!; [lia..|].
      intros date'. rewrite lookup_insert_ne by congruence. apply H3.
  - by apply check_qps_within.
  - destruct (Hw t) as (H1 & H2 & H3). split_and!; [done| | |exact H3].
    all: unfold QuotaTracker.record_call_end, QuotaTracker.concurrent_of in *; simpl; destruct (decide (tool = t)) as [->|];
      [rewrite lookup_insert_eq; simpl; lia|rewrite lookup_insert_ne by done; lia].
  - unfold QuotaTracker.reset. case_match; [|by apply within_init].
    destruct (Hw t) as (H1 & H2 & H3). destruct (Hl t) as (? & ? & ?).
    unfold QuotaTracker.timestamps_of, QuotaTracker.concurrent_of, QuotaTracker.daily_of in *. simpl.
    rewrite !lookup_delete. split_and!.
    + by case_decide.
    + case_decide; simpl; lia.
    + case_decide; simpl; lia.
    + intros date. destruct (filter _ _ !! _) as [n|] eqn:E; simpl; [|lia].
      apply map_lookup_filter_Some in E as [E _]. specialize (H3 date). by rewrite E in H3.
Qed.

(** ** Claims *)

Lemma validate_ok repr registry tool_name params now date q :
  (∀ meta, Registry.get tool_name None registry = Some meta →
     tm_input_schema meta = [] ∨
     ∃ required props, schema_shape (tm_input_schema meta) required props) →
  ∃ result q', validate repr registry tool_name params now date q = (Ok result, q') ∧
    (valid result = true ↔
       ∃ meta, Registry.get tool_name None registry = Some meta ∧ tm_status meta = AVAILABLE ∧
         params_ok (tm_input_schema meta) params ∧ quota_ok meta now date q) ∧
    (valid result = true ↔ errors result = []) ∧
    concurrent q' = concurrent q ∧ daily_counts q' = daily_counts q.
Proof.
  intros Hshape. unfold validate. set (r0 := mkValidationResult true []).
  assert (consistent r0) as Hr0 by done.
  destruct (Registry.get tool_name None registry) as [meta|] eqn:Em.
  2: { edestruct (add_error_checks Errors.INVALID_TOOL_NAME [("tool_name", tool_name)]) as (r & -> & Hr & Hv);
       [by vm_compute|exact (λ H : False, H)|exact Hr0|].
       exists r, q. split_and!; [done| |done..]. rewrite Hv. naive_solver. }
  case_bool_decide as Hst.
  2: { edestruct (add_error_checks Errors.TOOL_NOT_AVAILABLE
         [("tool_name", tool_name); ("status", Registry.status_value (tm_status meta))])
         as (r & -> & Hr & Hv); [by vm_compute|exact (λ H : False, H)|exact Hr0|].
       exists r, q. split_and!; [done| |done..]. rewrite Hv. naive_solver. }
  destruct (validate_schema_checks repr meta params (Hshape meta eq_refl) r0 Hr0) as (r1 & -> & Hr1 & Hv1).
  destruct (validate_quota_ok meta r1 now date q Hr1) as (r2 & q' & -> & Hr2 & Hv2 & Hc & Hd).
  exists r2, q'. split_and!; [done| |done..]. rewrite Hv2, Hv1. split.
  - intros [[_ ?] ?]. by exists meta.
  - intros (m & [= <-] & ? & ? & ?). done.
Qed.

(** pre-invocation validation always answers and accepts a call exactly
    when the tool has an active version that is available, every required
    parameter is given, every given parameter whose field declares a type has
    that type (integers count as numbers), and the sliding-window, concurrency
    and daily quotas all leave room; a rejected call carries at least one
    structured error.  The check itself takes no concurrency or daily quota.
    Hypothesis: the schema of the tool has the documented shape, a list of
    required names and a mapping of fields. *)
Theorem validate_decides repr registry tool_name params now date q :
  (∀ meta, Registry.get tool_name None registry = Some meta →
     tm_input_schema meta = [] ∨
     ∃ required props, schema_shape (tm_input_schema meta) required props) →
  ∃ result q', validate repr registry tool_name params now date q = (Ok result, q') ∧
    (valid result = true ↔
       ∃ meta, Registry.get tool_name None registry = Some meta ∧ tm_status meta = AVAILABLE ∧
         params_ok (tm_input_schema meta) params ∧ quota_ok meta now date q) ∧
    (valid result = true ↔ errors result = []) ∧
    concurrent q' = concurrent q ∧ daily_counts q' = daily_counts q.
Proof. apply validate_ok. Qed.

Definition search_meta : ToolMeta :=
  let m := Registry.new_meta "search" "1.0" "" AVAILABLE PyFloat.zero PyFloat.zero in
  mkToolMeta (tm_name m) (tm_version m) "" AVAILABLE
    [("required", VList [VStr "query"]);
     ("properties", VDict [("query", VDict [("type", VStr "string")]);
                           ("limit", VDict [("type", VStr "number")])])]
    [] [] ["public"] false (tm_quota m) PyFloat.zero "" [] PyFloat.zero PyFloat.zero "" "".
Definition search_registry : Registry.registry := (Registry.register search_meta Registry.init).2.

Lemma validate_decides_witness :
  ∃ result q', validate (λ _, "") search_registry "search" [("query", VStr "rocq"); ("limit", VInt 3)]
      PyFloat.zero "2024-01-01" QuotaTracker.init = (Ok result, q') ∧
    (valid result = true ↔
       ∃ meta, Registry.get "search" None search_registry = Some meta ∧ tm_status meta = AVAILABLE ∧
         params_ok (tm_input_schema meta) [("query", VStr "rocq"); ("limit", VInt 3)] ∧
         quota_ok meta PyFloat.zero "2024-01-01" QuotaTracker.init) ∧
    (valid result = true ↔ errors result = []) ∧
    concurrent q' = concurrent QuotaTracker.init ∧
    daily_counts q' = daily_counts QuotaTracker.init.
Proof.
  apply (validate_decides (λ _, "") search_registry "search" [("query", VStr "rocq"); ("limit", VInt 3)]
    PyFloat.zero "2024-01-01" QuotaTracker.init).
  intros meta Hm. vm_compute in Hm. injection Hm as <-. right. eexists ["query"], _. by vm_compute.
Defined.


