(* ===== verification/RateLimiter.v ===== *)
(** * Rate limiter and degradation (src/src/gateway/rate_limiter.py)

    A token bucket per caller.  A bucket's tokens are a Python number: the
    refill [min(tokens + refill, max_tokens)] yields a float below the capacity
    and the integer capacity itself at the cap.  [time n] is the n-th reading of
    [time.time()]; [pow x n] is [x ** n] of the C library, which raises
    [OverflowError] when the result is out of range. *)
From S2P Require Import Prelude PyFloat PyValue.
Local Open Scope Z_scope.

Record RateLimitConfig := mkRateLimitConfig {
  tokens_per_second : float;
  max_tokens : Z;
  backoff_base : float;
  backoff_max : float;
  backoff_multiplier : float;
}.

Abbreviation number := (Z + float)%type.

Record Bucket := mkBucket {
  bk_tokens : number;
  bk_max_tokens : Z;
  bk_last_refill : float;
  bk_consecutive_rejections : Z;
}.

Record RateLimitResult := mkRateLimitResult {
  rl_allowed : bool;
  rl_retry_after : float;
  rl_remaining_tokens : Z;
}.

Record limiter := mkLimiter {
  buckets : gmap string Bucket;
  rl_clock : nat;
}.

Record DegradeStrategy := mkDegradeStrategy {
  fallback_tool : option string;
  cached_response : option (dict pyval);
  human_handoff : bool;
  ds_message : string;
}.

Module RateLimiter.

(** [RateLimitConfig()] *)
Definition default_config : RateLimitConfig :=
  mkRateLimitConfig (PyFloat.of_Z 10) 20 (PyFloat.of_Z 1) (PyFloat.of_Z 60) (PyFloat.of_Z 2).

(** ** Mixed arithmetic of ints and floats *)
Definition to_float (x : number) : res float :=
  match x with inl z => PyFloat.of_int z | inr f => Ok f end.
(** [x >= z] *)
Definition ge_int (x : number) (z : Z) : bool :=
  match Py.num_compare x (inl z) with Some (Gt | Eq) => true | _ => false end.
(** [x - z] *)
Definition sub_int (x : number) (z : Z) : res number :=
  match x with
  | inl y => Ok (inl (y - z))
  | inr f => g ← PyFloat.of_int z; Ok (inr (PyFloat.sub f g))
  end.
(** [z - x] *)
Definition int_sub (z : Z) (x : number) : res number :=
  match x with
  | inl y => Ok (inl (z - y))
  | inr f => g ← PyFloat.of_int z; Ok (inr (PyFloat.sub g f))
  end.
(** [int(x)] *)
Definition to_int (x : number) : res Z :=
  match x with inl z => Ok z | inr f => PyFloat.trunc f end.
(** [min(f, z)] *)
Definition min_int (f : float) (z : Z) : number :=
  match PyFloat.compare_Z f z with Some Gt => inl z | _ => inr f end.

Section limiter.
Context (time : nat → float) (pow : float → Z → res float) (config : RateLimitConfig).

Definition init (clock : nat) : limiter := mkLimiter ∅ clock.

Definition now : st limiter float := λ l,
  (Ok (time (rl_clock l)), mkLimiter (buckets l) (S (rl_clock l))).
Definition set_bucket (caller : string) (b : Bucket) : st limiter unit := λ l,
  (Ok tt, mkLimiter (<[caller := b]> (buckets l)) (rl_clock l)).

(** [_get_bucket] *)
Definition get_bucket (caller : string) : st limiter Bucket := λ l,
  match buckets l !! caller with
  | Some b => (Ok b, l)
  | None =>
      (tokens ← st_lift (PyFloat.of_int (max_tokens config));
       t ← now;
       let b := mkBucket (inr tokens) (max_tokens config) t 0 in
       set_bucket caller b ≫= λ _, mret b) l
  end.

(** The tokens after [elapsed] seconds. *)
Definition refilled (b : Bucket) (t : float) : res number :=
  let elapsed := PyFloat.sub t (bk_last_refill b) in
  let refill := PyFloat.mul elapsed (tokens_per_second config) in
  tokens ← to_float (bk_tokens b);
  Ok (min_int (PyFloat.add tokens refill) (bk_max_tokens b)).

(** [_refill] *)
Definition refill (caller : string) (b : Bucket) : st limiter Bucket :=
  t ← now;
  tokens ← st_lift (refilled b t);
  let b' := mkBucket tokens (bk_max_tokens b) t (bk_consecutive_rejections b) in
  set_bucket caller b' ≫= λ _, mret b'.

Definition check (caller : string) (tokens : Z) : st limiter RateLimitResult :=
  b0 ← get_bucket caller;
  b ← refill caller b0;
  if ge_int (bk_tokens b) tokens then
    remaining ← st_lift (to_int (bk_tokens b));
    mret (mkRateLimitResult true PyFloat.zero remaining)
  else
    missing ← st_lift (int_sub tokens (bk_tokens b) ≫= to_float);
    wait ← st_lift (PyFloat.true_div missing (tokens_per_second config));
    remaining ← st_lift (to_int (bk_tokens b));
    mret (mkRateLimitResult false (PyFloat.round2 wait) remaining).

Definition acquire (caller : string) (tokens : Z) : st limiter RateLimitResult :=
  b0 ← get_bucket caller;
  b ← refill caller b0;
  if ge_int (bk_tokens b) tokens then
    left ← st_lift (sub_int (bk_tokens b) tokens);
    set_bucket caller (mkBucket left (bk_max_tokens b) (bk_last_refill b) 0) ≫= λ _,
    remaining ← st_lift (to_int left);
    mret (mkRateLimitResult true PyFloat.zero remaining)
  else
    let rejections := bk_consecutive_rejections b + 1 in
    set_bucket caller (mkBucket (bk_tokens b) (bk_max_tokens b) (bk_last_refill b) rejections) ≫= λ _,
    factor ← st_lift (pow (backoff_multiplier config) (rejections - 1));
    let backoff := PyFloat.min (PyFloat.mul (backoff_base config) factor) (backoff_max config) in
    remaining ← st_lift (to_int (bk_tokens b));
    mret (mkRateLimitResult false (PyFloat.round2 backoff) remaining).

Definition reset (caller : option string) : st limiter unit := λ l,
  let c := default "" caller in
  (Ok tt, mkLimiter (if str_truthy c then delete c (buckets l) else ∅) (rl_clock l)).

End limiter.
End RateLimiter.

(** ** DegradeManager *)
Module DegradeManager.
Definition init : gmap string DegradeStrategy := ∅.
Definition register_strategy (tool : string) (s : DegradeStrategy) (d : gmap string DegradeStrategy)
    : gmap string DegradeStrategy := <[tool := s]> d.
Definition get_strategy (tool : string) (d : gmap string DegradeStrategy) : option DegradeStrategy :=
  d !! tool.
Definition should_degrade (tool : string) (d : gmap string DegradeStrategy) : bool :=
  bool_decide (is_Some (d !! tool)).
End DegradeManager.
Import RateLimiter.

(** ** Facts *)
(** Integers that a number reaches are at most the integers it does not
    exceed. *)
Lemma compare_Z_between f z k :
  PyFloat.compare_Z f z ≠ Some Gt → ge_int (inr f) k = true → k ≤ z.
Proof.
  assert (∀ v a b, Some (v ?= a) ≠ Some Gt →
    match Some (v ?= b) with Some (Gt | Eq) => true | _ => false end = true → b ≤ a) as Hbetween.
  { intros v a b. destruct (Z.compare_spec v a), (Z.compare_spec v b); try done; lia. }
  unfold ge_int, Py.num_compare. destruct f as [s|s| |s m e]; simpl.
  - apply (Hbetween 0).
  - by destruct s.
  - done.
  - destruct (Z.leb_spec 0 e) as [He|He]; [apply Hbetween|]. intros Hz Hk.
    pose proof (Hbetween _ _ _ Hz Hk) as Hle.
    by apply (Zmult_le_reg_r k z (2 ^ (- e))); [apply Z.lt_gt, Z.pow_pos_nonneg; lia|].
Qed.

(** A refilled bucket serves at most its capacity. *)
Lemma min_int_bound f z k : ge_int (min_int f z) k = true → k ≤ z.
Proof.
  unfold min_int. destruct (PyFloat.compare_Z f z) as [[]|] eqn:E;
    try (apply compare_Z_between; by rewrite E).
  unfold ge_int. simpl. destruct (Z.compare_spec z k); try done; lia.
Qed.

Section facts.
Context (time : nat → float) (pow : float → Z → res float) (config : RateLimitConfig).

(** Every bucket has the configured capacity. *)
Definition limiter_ok (l : limiter) : Prop :=
  ∀ caller b, buckets l !! caller = Some b → bk_max_tokens b = max_tokens config.

(** The bucket a call finds, and the time it is refilled at. *)
Definition found (caller : string) (l : limiter) : Bucket * float :=
  match buckets l !! caller with
  | Some b => (b, time (rl_clock l))
  | None => (mkBucket (inr (PyFloat.of_Z (max_tokens config))) (max_tokens config)
               (time (rl_clock l)) 0, time (S (rl_clock l)))
  end.

(** The state in which a call decides: the bucket refilled, nothing else
    changed. *)
Lemma refill_found caller l t :
  limiter_ok l → PyFloat.is_finite (PyFloat.of_Z (max_tokens config)) = true →
  refilled config (found caller l).1 (found caller l).2 = Ok t →
  ∃ clock, let b := (found caller l).1 in
    let b' := mkBucket t (max_tokens config) (found caller l).2 (bk_consecutive_rejections b) in
    (b0 ← get_bucket time config caller; refill time config caller b0) l =
      (Ok b', mkLimiter (<[caller := b']> (buckets l)) clock).
Proof.
  intros Hok Hcap Hr. unfold found in *. unfold mbind at 1, st_bind at 1, get_bucket.
  destruct (buckets l !! caller) as [b|] eqn:E; cbn [fst snd] in *.
  - unfold refill, mbind, st_bind, now, st_lift. rewrite Hr.
    eexists. rewrite (Hok _ _ E). done.
  - unfold mbind at 1, st_bind at 1, st_lift, PyFloat.of_int. rewrite Hcap.
    unfold refill, mbind, st_bind, now, st_lift, set_bucket, mret, st_ret. cbn [rl_clock buckets]. cbv beta iota zeta. cbn [rl_clock buckets]. rewrite Hr. eexists.
    cbn [mret st_ret bk_max_tokens bk_consecutive_rejections rl_clock buckets]. by rewrite insert_insert_eq.
Qed.

Lemma limiter_ok_insert caller b l clock :
  limiter_ok l → bk_max_tokens b = max_tokens config →
  limiter_ok (mkLimiter (<[caller := b]> (buckets l)) clock).
Proof.
  intros Hok Hb c b'. simpl. destruct (decide (caller = c)) as [->|].
  - rewrite lookup_insert_eq. by intros [= <-].
  - rewrite lookup_insert_ne by done. apply Hok.
Qed.

(** What [acquire] does once the bucket is refilled to [b]. *)
Lemma acquire_after_refill caller tokens l b l1 :
  (b0 ← get_bucket time config caller; refill time config caller b0) l = (Ok b, l1) →
  acquire time pow config caller tokens l =
    (if ge_int (bk_tokens b) tokens then
       left ← st_lift (sub_int (bk_tokens b) tokens);
       set_bucket caller (mkBucket left (bk_max_tokens b) (bk_last_refill b) 0) ≫= λ _,
       remaining ← st_lift (RateLimiter.to_int left);
       mret (mkRateLimitResult true PyFloat.zero remaining)
     else
       let rejections := bk_consecutive_rejections b + 1 in
       set_bucket caller (mkBucket (bk_tokens b) (bk_max_tokens b) (bk_last_refill b) rejections) ≫= λ _,
       factor ← st_lift (pow (backoff_multiplier config) (rejections - 1));
       let backoff := PyFloat.min (PyFloat.mul (backoff_base config) factor) (backoff_max config) in
       remaining ← st_lift (RateLimiter.to_int (bk_tokens b));
       mret (mkRateLimitResult false (PyFloat.round2 backoff) remaining)) l1.
Proof.
  unfold acquire, mbind, st_bind. destruct (get_bucket time config caller l) as [[] ]; [|done].
  by intros ->.
Qed.

(** A refilled bucket never serves more than the capacity. *)
Lemma refilled_bound caller tokens l t :
  limiter_ok l → refilled config (found caller l).1 (found caller l).2 = Ok t →
  ge_int t tokens = true → tokens ≤ max_tokens config.
Proof.
  intros Hok Hr Eg. unfold refilled in Hr. apply bind_Ok in Hr as (f & _ & [= <-]).
  apply min_int_bound in Eg. etrans; [exact Eg|]. unfold found.
  destruct (buckets l !! caller) as [b|] eqn:E; simpl; [by rewrite (Hok _ _ E)|done].
Qed.
End facts.

(** ** Claims *)

(** C24: a request for tokens is granted exactly when the refilled bucket holds
    them, so never for more than the configured burst capacity; a grant takes
    the tokens and clears the caller's rejection count, a denial takes nothing,
    counts one more rejection and suggests the exponential backoff of the
    rejections so far, capped and rounded to hundredths.  Every bucket keeps
    the configured capacity and no other caller's bucket is touched.  [t] is
    the number the bucket holds after the refill of this call. *)
Theorem acquire_correct time pow config l caller tokens t :
  limiter_ok config l → PyFloat.is_finite (PyFloat.of_Z (max_tokens config)) = true →
  refilled config (found time config caller l).1 (found time config caller l).2 = Ok t →
  let n := bk_consecutive_rejections (found time config caller l).1 in
  let now := (found time config caller l).2 in
  let '(out, l') := acquire time pow config caller tokens l in
  limiter_ok config l' ∧
  (∀ other, other ≠ caller → buckets l' !! other = buckets l !! other) ∧
  if ge_int t tokens then
    tokens ≤ max_tokens config ∧
    ∀ left remaining, sub_int t tokens = Ok left → RateLimiter.to_int left = Ok remaining →
      out = Ok (mkRateLimitResult true PyFloat.zero remaining) ∧
      buckets l' !! caller = Some (mkBucket left (max_tokens config) now 0)
  else
    buckets l' !! caller = Some (mkBucket t (max_tokens config) now (n + 1)) ∧
    ∀ remaining, RateLimiter.to_int t = Ok remaining →
      out = factor ← pow (backoff_multiplier config) n;
            Ok (mkRateLimitResult false (PyFloat.round2 (PyFloat.min
              (PyFloat.mul (backoff_base config) factor) (backoff_max config))) remaining).
Proof.
  intros Hok Hcap Hr n now.
  pose proof (refilled_bound time config caller tokens l t Hok Hr) as Hle.
  destruct (refill_found time config caller l t Hok Hcap Hr) as [clock He].
  cbv zeta in He. fold now n in He. clearbody n now.
  rewrite (acquire_after_refill time pow config caller tokens l _ _ He). clear He.
  assert (∀ b1 clock', bk_max_tokens b1 = max_tokens config →
    limiter_ok config (mkLimiter (<[caller := b1]> (buckets l)) clock')) as Hkeep
    by (intros; by apply limiter_ok_insert).
  assert (∀ b1 other, other ≠ caller → <[caller := b1]> (buckets l) !! other = buckets l !! other) as Hother
    by (intros; by rewrite lookup_insert_ne).
  cbn [bk_tokens bk_max_tokens bk_last_refill bk_consecutive_rejections]. destruct (ge_int t tokens) eqn:Eg.
  - specialize (Hle eq_refl).
    unfold mbind at 1, st_bind at 1, st_lift at 1. destruct (sub_int t tokens) as [left|e].
    + unfold mbind, st_bind, set_bucket, st_lift. simpl. rewrite insert_insert_eq.
      destruct (RateLimiter.to_int left) as [rem|e] eqn:Ei; simpl.
      all: split; [by apply Hkeep|]; split; [exact (Hother _)|]; split; [done|].
      all: intros left' rem' [= <-]; rewrite Ei; intros [= <-]. by rewrite lookup_insert_eq.
    + split; [by apply Hkeep|]. split; [exact (Hother _)|]. split; [done|]. by intros left rem [=].
  - unfold mbind at 1, st_bind at 1, set_bucket at 1. simpl. rewrite insert_insert_eq.
    unfold mbind at 1, st_bind at 1, st_lift at 1. replace (n + 1 - 1) with n by lia.
    destruct (pow _ _) as [f|e]; simpl.
    + unfold mbind, st_bind, st_lift. destruct (RateLimiter.to_int t) as [rem|e] eqn:Ei; simpl.
      all: split; [by apply Hkeep|]; split; [exact (Hother _)|].
      all: split; [by rewrite lookup_insert_eq|]; intros rem' Hrem.
      all: first [discriminate Hrem|by injection Hrem as <-].
    + split; [by apply Hkeep|]. split; [exact (Hother _)|].
      split; [by rewrite lookup_insert_eq|]. done.
Qed.

(** *** Witness: the default configuration, powers of two *)
Definition pow2 (x : float) (n : Z) : res float :=
  if n <? 1024 then Ok (PyFloat.of_Z (2 ^ n))
  else Err (OverflowError "(34, 'Numerical result out of range')").
Definition noon (n : nat) : float := PyFloat.of_Z 43200.

Lemma acquire_correct_witness :
  let '(out, l') := acquire noon pow2 default_config "alice" 1 (init 0) in
  limiter_ok default_config l' ∧
  (∀ other, other ≠ "alice" → buckets l' !! other = buckets (init 0) !! other) ∧
  if ge_int (inr (PyFloat.of_Z 20)) 1 then
    1 ≤ max_tokens default_config ∧
    ∀ left remaining, sub_int (inr (PyFloat.of_Z 20)) 1 = Ok left →
      RateLimiter.to_int left = Ok remaining →
      out = Ok (mkRateLimitResult true PyFloat.zero remaining) ∧
      buckets l' !! "alice" = Some (mkBucket left (max_tokens default_config) (noon 1) 0)
  else
    buckets l' !! "alice" = Some (mkBucket (inr (PyFloat.of_Z 20)) (max_tokens default_config) (noon 1) (0 + 1)) ∧
    ∀ remaining, RateLimiter.to_int (inr (PyFloat.of_Z 20)) = Ok remaining →
      out = factor ← pow2 (backoff_multiplier default_config) 0;
            Ok (mkRateLimitResult false (PyFloat.round2 (PyFloat.min
              (PyFloat.mul (backoff_base default_config) factor) (backoff_max default_config))) remaining).
Proof.
  apply (acquire_correct noon pow2 default_config (init 0) "alice" 1 (inr (PyFloat.of_Z 20))).
  - by intros caller b.
  - by vm_compute.
  - by vm_compute.
Defined.

(** The default burst at one instant: twenty grants, then denials whose
    suggested waits are 1, 2, 4, ..., 60 seconds. *)
Fixpoint acquires (k : nat) (l : limiter) : list (res RateLimitResult) :=
  match k with
  | O => []
  | S k => let '(r, l') := acquire noon pow2 default_config "alice" 1 l in r :: acquires k l'
  end.
Example default_burst :
  (λ r, match r with Ok r => Some (rl_allowed r, rl_retry_after r) | Err _ => None end)
    <$> acquires 28 (init 0) =
  replicate 20 (Some (true, PyFloat.zero)) ++
  ((λ w, Some (false, PyFloat.of_Z w)) <$> [1; 2; 4; 8; 16; 32; 60; 60]).
Proof. by vm_compute. Qed.

(** The cap is applied after the power: when the power overflows, the denial
    is an exception instead of a result.  With the default multiplier that is
    the 1025th consecutive rejection. *)
Example backoff_overflows :
  let l := mkLimiter {["alice" := mkBucket (inr PyFloat.zero) 20 (noon 0) 1024]} 0 in
  (acquire noon pow2 default_config "alice" 1 l).1 =
  Err (OverflowError "(34, 'Numerical result out of range')").
Proof. by vm_compute. Qed.
