(* ===== verification/Scheduler.v ===== *)
(** * Task queue and lock (src/src/scheduler/interfaces.py, src/src/scheduler/in_memory_queue.py)

    The in-memory task queue: one FIFO of task identifiers per queue name, the
    live items by identifier, and the dead letters.  Every method holds the
    queue's lock for its whole body, so a method is one step of an
    interleaving.  An item object belongs to the queue once enqueued; a client
    does not enqueue the same object twice, so values model items.  The lock
    table maps a name to its holder and expiry. *)
From S2P Require Import Prelude PyFloat PyValue.
Local Open Scope Z_scope.

Record TaskItem := mkTaskItem {
  task_id : string;
  queue_name : string;
  ti_payload : pyval;
  ti_priority : Z;
  ti_created_at : float;
  ti_status : string;
  attempt_count : Z;
  max_retries : Z;
  processing_timeout : float;
  last_error : option string;
  worker_id : option string;
}.

Record task_queue := mkTaskQueue {
  queues : gmap string (list string);
  items : gmap string TaskItem;
  dead_letter : gmap string (list TaskItem);
}.

Module InMemoryTaskQueue.

(** [TaskItem(task_id, queue_name, payload)] with the defaults. *)
Definition new_item (id queue : string) (payload : pyval) (now : float) : TaskItem :=
  mkTaskItem id queue payload 0 now "pending" 0 3 (PyFloat.of_Z 30) None None.

Definition set_status (status : string) (i : TaskItem) : TaskItem :=
  mkTaskItem (task_id i) (queue_name i) (ti_payload i) (ti_priority i) (ti_created_at i) status
    (attempt_count i) (max_retries i) (processing_timeout i) (last_error i) (worker_id i).
Definition set_error (error : string) (i : TaskItem) : TaskItem :=
  mkTaskItem (task_id i) (queue_name i) (ti_payload i) (ti_priority i) (ti_created_at i) (ti_status i)
    (attempt_count i) (max_retries i) (processing_timeout i) (Some error) (worker_id i).
Definition start_attempt (worker : string) (i : TaskItem) : TaskItem :=
  mkTaskItem (task_id i) (queue_name i) (ti_payload i) (ti_priority i) (ti_created_at i) "processing"
    (attempt_count i + 1) (max_retries i) (processing_timeout i) (last_error i) (Some worker).

Definition init : task_queue := mkTaskQueue ∅ ∅ ∅.

(** [self._queues.get(name, deque())] and
    [self._queues.setdefault(name, deque()).append(id)] *)
Definition pending_ids (name : string) (q : task_queue) : list string := default [] (queues q !! name).
Definition push (name id : string) (q : task_queue) : gmap string (list string) :=
  <[name := pending_ids name q ++ [id]]> (queues q).

Definition enqueue (i : TaskItem) : st task_queue TaskItem := λ q,
  let i' := set_status "pending" i in
  (Ok i', mkTaskQueue (push (queue_name i') (task_id i') q) (<[task_id i' := i']> (items q))
            (dead_letter q)).

Definition dequeue (name worker : string) : st task_queue (option TaskItem) := λ q,
  match pending_ids name q with
  | [] => (Ok None, q)
  | id :: rest =>
      let queues' := <[name := rest]> (queues q) in
      match items q !! id with
      | None => (Err (KeyError id), mkTaskQueue queues' (items q) (dead_letter q))
      | Some i =>
          let i' := start_attempt worker i in
          (Ok (Some i'), mkTaskQueue queues' (<[id := i']> (items q)) (dead_letter q))
      end
  end.

Definition ack (id : string) : st task_queue bool := λ q,
  match items q !! id with
  | None => (Ok false, q)
  | Some _ => (Ok true, mkTaskQueue (queues q) (delete id (items q)) (dead_letter q))
  end.

Definition nack (id error : string) : st task_queue bool := λ q,
  match items q !! id with
  | None => (Ok false, q)
  | Some i =>
      let i1 := set_error error i in
      if max_retries i1 <=? attempt_count i1 then
        let i2 := set_status "dead" i1 in
        (Ok true, mkTaskQueue (queues q) (delete id (items q))
           (<[queue_name i2 := default [] (dead_letter q !! queue_name i2) ++ [i2]]> (dead_letter q)))
      else
        let i2 := set_status "pending" i1 in
        (Ok true, mkTaskQueue (push (queue_name i2) id q) (<[id := i2]> (items q)) (dead_letter q))
  end.

Definition peek_dead_letter (name : string) (q : task_queue) : list TaskItem :=
  default [] (dead_letter q !! name).
Definition queue_length (name : string) (q : task_queue) : nat := length (pending_ids name q).
Definition close (q : task_queue) : task_queue := init.

End InMemoryTaskQueue.

(** The interface [TaskQueue] *)
Class TaskQueue (Q : Type) := {
  tq_enqueue : TaskItem → st Q TaskItem;
  tq_dequeue : string → string → st Q (option TaskItem);
  tq_ack : string → st Q bool;
  tq_nack : string → string → st Q bool;
  tq_peek_dead_letter : string → Q → res (list TaskItem);
  tq_queue_length : string → Q → nat;
  tq_close : Q → Q;
}.
#[global] Instance memory_task_queue : TaskQueue task_queue := {
  tq_enqueue := InMemoryTaskQueue.enqueue;
  tq_dequeue := InMemoryTaskQueue.dequeue;
  tq_ack := InMemoryTaskQueue.ack;
  tq_nack := InMemoryTaskQueue.nack;
  tq_peek_dead_letter name q := Ok (InMemoryTaskQueue.peek_dead_letter name q);
  tq_queue_length := InMemoryTaskQueue.queue_length;
  tq_close := InMemoryTaskQueue.close;
}.

(** ** The lock

    One pass of [acquire]'s loop is one critical section; between two passes
    other threads run.  [now] is the reading of [_cleanup_expired], [now'] the
    reading the new expiry is counted from. *)
Abbreviation lock_table := (gmap string (string * float)).

Module InMemoryDistributedLock.
Definition init : lock_table := ∅.

Definition cleanup_expired (now : float) (l : lock_table) : lock_table :=
  filter (λ e, PyFloat.ge now e.2.2 = false) l.

Definition try_acquire (name holder : string) (ttl now now' : float) (l : lock_table)
    : bool * lock_table :=
  let l1 := cleanup_expired now l in
  match l1 !! name with
  | None => (true, <[name := (holder, PyFloat.add now' ttl)]> l1)
  | Some _ => (false, l1)
  end.

(** The loop: each pass has the readings it takes ([now], [now'] and the one it
    compares with the deadline) and what other threads do before the next pass.
    It ends with an answer or when the given passes are used up. *)
Record pass := mkPass {
  pass_now : float;
  pass_now' : float;
  pass_deadline : float;
  pass_others : lock_table → lock_table;
}.
Fixpoint acquire (name holder : string) (ttl deadline : float) (passes : list pass) (l : lock_table)
    : option bool * lock_table :=
  match passes with
  | [] => (None, l)
  | p :: passes =>
      let '(ok, l1) := try_acquire name holder ttl (pass_now p) (pass_now' p) l in
      if ok then (Some true, l1)
      else if PyFloat.ge (pass_deadline p) deadline then (Some false, l1)
      else acquire name holder ttl deadline passes (pass_others p l1)
  end.

Definition release (name holder : string) (l : lock_table) : bool * lock_table :=
  match l !! name with
  | None => (false, l)
  | Some (owner, _) =>
      if str_truthy holder && bool_decide (owner ≠ holder) then (false, l)
      else (true, delete name l)
  end.

Definition is_locked (name : string) (now : float) (l : lock_table) : bool * lock_table :=
  let l1 := cleanup_expired now l in (bool_decide (is_Some (l1 !! name)), l1).
End InMemoryDistributedLock.
Import InMemoryTaskQueue InMemoryDistributedLock.

(** ** Workers that follow the protocol

    Identifiers are enqueued once at a time with no attempt made and at least
    one allowed; only a task that is being processed is acknowledged or
    rejected.  [sc_enqueued] and [sc_acked] record what happened. *)
Record sched := mkSched {
  sc_queue : task_queue;
  sc_enqueued : list string;
  sc_acked : list string;
}.

Inductive sched_step : sched → sched → Prop :=
| step_enqueue i s :
    items (sc_queue s) !! task_id i = None → attempt_count i = 0 → 1 ≤ max_retries i →
    sched_step s (mkSched (enqueue i (sc_queue s)).2 (task_id i :: sc_enqueued s) (sc_acked s))
| step_dequeue name worker s :
    sched_step s (mkSched (dequeue name worker (sc_queue s)).2 (sc_enqueued s) (sc_acked s))
| step_ack id i s :
    items (sc_queue s) !! id = Some i → ti_status i = "processing" →
    sched_step s (mkSched (ack id (sc_queue s)).2 (sc_enqueued s) (id :: sc_acked s))
| step_nack id i error s :
    items (sc_queue s) !! id = Some i → ti_status i = "processing" →
    sched_step s (mkSched (nack id error (sc_queue s)).2 (sc_enqueued s) (sc_acked s)).

Definition new_sched : sched := mkSched InMemoryTaskQueue.init [] [].

(** A live task is waiting in its own queue with attempts left, or being
    processed with at most the allowed attempts. *)
Definition waiting (id name : string) (q : task_queue) : Prop :=
  ∃ i, items q !! id = Some i ∧ ti_status i = "pending" ∧ queue_name i = name.
Definition item_ok (i : TaskItem) : Prop :=
  ti_status i = "pending" ∧ 0 ≤ attempt_count i < max_retries i ∨
  ti_status i = "processing" ∧ 0 < attempt_count i ≤ max_retries i.

Record queue_ok (q : task_queue) : Prop := {
  qo_id id i : items q !! id = Some i → task_id i = id;
  qo_pending id name : id ∈ pending_ids name q ↔ waiting id name q;
  qo_nodup name : NoDup (pending_ids name q);
  qo_items id i : items q !! id = Some i → item_ok i;
  qo_dead name i : i ∈ peek_dead_letter name q →
    ti_status i = "dead" ∧ queue_name i = name ∧ attempt_count i = max_retries i;
}.

Definition accounted (s : sched) : Prop :=
  ∀ id, id ∈ sc_enqueued s → is_Some (items (sc_queue s) !! id) ∨ id ∈ sc_acked s ∨
    ∃ name i, i ∈ peek_dead_letter name (sc_queue s) ∧ task_id i = id.

(** Replacing the live item [id]: who waits afterwards. *)
Lemma waiting_insert id i q name id' qs dl :
  waiting id' name (mkTaskQueue qs (<[id := i]> (items q)) dl) ↔
  (id' = id ∧ ti_status i = "pending" ∧ queue_name i = name) ∨ (id' ≠ id ∧ waiting id' name q).
Proof.
  unfold waiting. simpl. destruct (decide (id' = id)) as [->|Hne].
  - rewrite lookup_insert_eq. naive_solver.
  - rewrite lookup_insert_ne by done. naive_solver.
Qed.

Lemma waiting_delete id q name id' qs dl :
  waiting id' name (mkTaskQueue qs (delete id (items q)) dl) ↔ id' ≠ id ∧ waiting id' name q.
Proof.
  unfold waiting. simpl. destruct (decide (id' = id)) as [->|Hne].
  - rewrite lookup_delete_eq. naive_solver.
  - rewrite lookup_delete_ne by done. naive_solver.
Qed.

Lemma pending_push name id name' q its dl :
  pending_ids name' (mkTaskQueue (push name id q) its dl) =
  if decide (name' = name) then pending_ids name q ++ [id] else pending_ids name' q.
Proof.
  unfold pending_ids at 1, push. simpl. case_decide as E; [subst; by rewrite lookup_insert_eq|].
  by rewrite lookup_insert_ne.
Qed.

(** Appending an identifier that waits nowhere, with its item pending. *)
Lemma push_ok q i :
  queue_ok q → ti_status i = "pending" → 0 ≤ attempt_count i < max_retries i →
  (∀ name, task_id i ∉ pending_ids name q) →
  queue_ok (mkTaskQueue (push (queue_name i) (task_id i) q) (<[task_id i := i]> (items q)) (dead_letter q)).
Proof.
  intros Hok Hs Ha Hni. split.
  - intros id' i'. simpl. destruct (decide (task_id i = id')) as [<-|].
    + rewrite lookup_insert_eq. by intros [= <-].
    + rewrite lookup_insert_ne by done. apply (qo_id q Hok).
  - intros id' name. rewrite waiting_insert, pending_push, <-(qo_pending q Hok).
    case_decide as E; [subst name; rewrite elem_of_app, list_elem_of_singleton|].
    all: destruct (decide (id' = task_id i)) as [->|]; naive_solver.
  - intros name. rewrite pending_push. case_decide; [|apply (qo_nodup q Hok)].
    apply NoDup_app. split_and!; [apply (qo_nodup q Hok)| |apply NoDup_singleton].
    intros id' Hin ->%list_elem_of_singleton. by eapply Hni.
  - intros id' i'. simpl. destruct (decide (task_id i = id')) as [<-|].
    + rewrite lookup_insert_eq. intros [= <-]. by left.
    + rewrite lookup_insert_ne by done. apply (qo_items q Hok).
  - apply (qo_dead q Hok).
Qed.

Lemma processing_not_queued q id i name :
  queue_ok q → items q !! id = Some i → ti_status i ≠ "pending" → id ∉ pending_ids name q.
Proof. intros Hok Hi Hs Hin. apply (qo_pending q Hok) in Hin as (i' & Hi' & ? & _). congruence. Qed.

Lemma dequeue_ok q name worker :
  queue_ok q →
  match pending_ids name q with
  | [] => dequeue name worker q = (Ok None, q)
  | id :: rest => ∃ i, items q !! id = Some i ∧ queue_ok (dequeue name worker q).2 ∧
      dequeue name worker q = (Ok (Some (start_attempt worker i)),
        mkTaskQueue (<[name := rest]> (queues q)) (<[id := start_attempt worker i]> (items q))
          (dead_letter q))
  end.
Proof.
  intros Hok. unfold dequeue. destruct (pending_ids name q) as [|id rest] eqn:E; [done|].
  assert (id ∈ pending_ids name q) as (i & Hi & Hs & Hn)%(qo_pending q Hok) by (rewrite E; set_solver).
  exists i. rewrite Hi. split_and!; [done| |done]. simpl.
  pose proof (qo_nodup q Hok name) as Hnd. rewrite E in Hnd. apply NoDup_cons in Hnd as [Hni Hnd].
  destruct (qo_items q Hok id i Hi) as [[_ Ha]|[Hp _]]; [|congruence].
  assert (∀ name', pending_ids name' (mkTaskQueue (<[name := rest]> (queues q))
    (<[id := start_attempt worker i]> (items q)) (dead_letter q)) =
    if decide (name' = name) then rest else pending_ids name' q) as Hpend.
  { intros name'. unfold pending_ids. simpl. case_decide as En; [subst; by rewrite lookup_insert_eq|].
    by rewrite lookup_insert_ne. }
  split.
  - intros id' i'. simpl. destruct (decide (id = id')) as [<-|].
    + rewrite lookup_insert_eq. intros [= <-]. apply (qo_id q Hok id i Hi).
    + rewrite lookup_insert_ne by done. apply (qo_id q Hok).
  - intros id' name'. rewrite waiting_insert, Hpend, <-(qo_pending q Hok).
    case_decide as En; [subst name'; rewrite E|].
    + destruct (decide (id' = id)) as [->|]; set_solver.
    + destruct (decide (id' = id)) as [->|]; [|set_solver]. rewrite (qo_pending q Hok).
      split; [|by intros [(_ & ? & _)|[? _]]]. intros (i' & Hi' & _ & Hn'). congruence.
  - intros name'. rewrite Hpend. case_decide; [done|apply (qo_nodup q Hok)].
  - intros id' i'. simpl. destruct (decide (id = id')) as [<-|].
    + rewrite lookup_insert_eq. intros [= <-]. right. split; [done|simpl; lia].
    + rewrite lookup_insert_ne by done. apply (qo_items q Hok).
  - apply (qo_dead q Hok).
Qed.

(** Removing a processed item, with dead letters that satisfy their own part. *)
Lemma remove_ok q id i dl :
  queue_ok q → items q !! id = Some i → ti_status i = "processing" →
  (∀ name i', i' ∈ default [] (dl !! name) →
     ti_status i' = "dead" ∧ queue_name i' = name ∧ attempt_count i' = max_retries i') →
  queue_ok (mkTaskQueue (queues q) (delete id (items q)) dl).
Proof.
  intros Hok Hi Hs Hdl. split.
  - intros id' i'. simpl. intros [_ H]%lookup_delete_Some. by apply (qo_id q Hok).
  - intros id' name. rewrite waiting_delete, <-(qo_pending q Hok).
    change (pending_ids name (mkTaskQueue (queues q) _ dl)) with (pending_ids name q).
    split; [|naive_solver]. intros Hin. split; [|done]. intros ->.
    by apply (processing_not_queued q id i name Hok Hi) in Hin; [|rewrite Hs].
  - apply (qo_nodup q Hok).
  - intros id' i'. simpl. intros [_ H]%lookup_delete_Some. by apply (qo_items q Hok id').
  - exact Hdl.
Qed.

Lemma nack_ok q id i error :
  queue_ok q → items q !! id = Some i → ti_status i = "processing" → queue_ok (nack id error q).2.
Proof.
  intros Hok Hi Hs. destruct (qo_items q Hok id i Hi) as [[? _]|[_ Ha]]; [congruence|].
  pose proof (qo_id q Hok id i Hi) as Hid.
  unfold nack. rewrite Hi. simpl. destruct (Z.leb_spec (max_retries i) (attempt_count i)) as [Hle|Hlt]; simpl.
  - apply (remove_ok q id i); [done..|]. intros name i'. destruct (decide (name = queue_name i)) as [->|Hne].
    + rewrite lookup_insert_eq. simpl. rewrite elem_of_app, list_elem_of_singleton.
      intros [Hin| ->]; [by apply (qo_dead q Hok)|]. split_and!; [done..|simpl; lia].
    + rewrite lookup_insert_ne by done. apply (qo_dead q Hok).
  - set (i2 := set_status "pending" (set_error error i)). rewrite <-Hid.
    apply (push_ok q i2); [done|done|simpl; lia|]. intros name. simpl. rewrite Hid.
    apply (processing_not_queued q id i); [done..|by rewrite Hs].
Qed.

Lemma peek_grow name q i name' (i0 : TaskItem) its :
  i0 ∈ peek_dead_letter name' q →
  i0 ∈ peek_dead_letter name' (mkTaskQueue (queues q) its
    (<[name := default [] (dead_letter q !! name) ++ [i]]> (dead_letter q))).
Proof.
  intros Hin. unfold peek_dead_letter in *. simpl.
  destruct (decide (name = name')) as [->|]; [rewrite lookup_insert_eq; simpl; set_solver|].
  by rewrite lookup_insert_ne.
Qed.

Lemma sched_step_ok s s' :
  sched_step s s' → queue_ok (sc_queue s) ∧ accounted s → queue_ok (sc_queue s') ∧ accounted s'.
Proof.
  intros [i s0 Hnew Ha Hm|name worker s0|id i s0 Hi Hs|id i error s0 Hi Hs] [Hok Hacc]; simpl.
  - split.
    + apply (push_ok (sc_queue s0) (set_status "pending" i)); [done|done|simpl; lia|].
      intros name Hin. apply (qo_pending _ Hok) in Hin as (i' & Hi' & _). simpl in Hi'. congruence.
    + intros id. simpl. rewrite elem_of_cons. intros [->|Hin].
      * left. by rewrite lookup_insert_eq.
      * destruct (Hacc id Hin) as [Hl|Hr]; [left|by right]. simpl.
        destruct (decide (task_id i = id)) as [->|]; [by rewrite lookup_insert_eq|by rewrite lookup_insert_ne].
  - pose proof (dequeue_ok (sc_queue s0) name worker Hok) as Hd.
    destruct (pending_ids name (sc_queue s0)) as [|id rest]; [by rewrite Hd|].
    destruct Hd as (i & Hi & Hok' & Heq). split; [done|]. rewrite Heq. intros id' Hin. simpl.
    destruct (Hacc id' Hin) as [Hl|Hr]; [left|by right].
    destruct (decide (id = id')) as [->|]; [by rewrite lookup_insert_eq|by rewrite lookup_insert_ne].
  - unfold ack. rewrite Hi. simpl. split; [apply (remove_ok _ id i); [done..|apply (qo_dead _ Hok)]|].
    intros id' Hin. simpl. destruct (decide (id' = id)) as [->|Hne]; [right; left; set_solver|].
    rewrite lookup_delete_ne by done. destruct (Hacc id' Hin) as [?|[?|?]]; [by left|right; left; set_solver|].
    by right; right.
  - split; [by apply (nack_ok _ id i)|]. intros id' Hin. simpl in *.
    pose proof (qo_id _ Hok id i Hi) as Hid. unfold nack. rewrite Hi. simpl.
    destruct (_ <=? _); simpl.
    + destruct (decide (id' = id)) as [->|Hne].
      * right. right. exists (queue_name i), (InMemoryTaskQueue.set_status "dead" (set_error error i)). split; [|exact Hid].
        unfold peek_dead_letter. simpl. rewrite lookup_insert_eq. simpl.
        rewrite elem_of_app, list_elem_of_singleton. by right.
      * rewrite lookup_delete_ne by done. destruct (Hacc id' Hin) as [?|[?|(n & i0 & Hi0 & ?)]]; [by left|by right; left|].
        right. right. exists n, i0. split; [|done]. by apply peek_grow.
    + destruct (Hacc id' Hin) as [Hl|Hr]; [left|by right].
      destruct (decide (id = id')) as [->|]; [by rewrite lookup_insert_eq|by rewrite lookup_insert_ne].
Qed.

Lemma new_sched_ok : queue_ok (sc_queue new_sched) ∧ accounted new_sched.
Proof.
  split; [split|]; simpl; try done.
  - intros id name. unfold pending_ids, waiting. simpl. rewrite lookup_empty. simpl.
    split; [set_solver|]. by intros (i & ? & _).
  - intros name. constructor.
  - intros name i. unfold peek_dead_letter. simpl. rewrite lookup_empty. set_solver.
  - intros id. set_solver.
Qed.

Lemma sched_reachable_ok s : rtc sched_step new_sched s → queue_ok (sc_queue s) ∧ accounted s.
Proof.
  intros Hr. pose proof new_sched_ok as H0. revert H0.
  induction Hr as [|s0 s1 s2 Hs _ IH]; [done|]. intros H0. apply IH. by eapply sched_step_ok.
Qed.

(** ** The lock under other threads *)
Inductive lock_op :=
| TryAcquire (name holder : string) (ttl now now' : float)
| Release (name holder : string)
| IsLocked (name : string) (now : float).

Definition lock_exec (o : lock_op) (l : lock_table) : lock_table :=
  match o with
  | TryAcquire name holder ttl now now' => (try_acquire name holder ttl now now' l).2
  | Release name holder => (release name holder l).2
  | IsLocked name now => (is_locked name now l).2
  end.
Definition lock_run (ops : list lock_op) (l : lock_table) : lock_table :=
  foldl (λ l o, lock_exec o l) l ops.

(** What others may do while [owner] holds [name] until [expiry]: anything
    before the expiry, except releasing [name] as [owner] or anonymously. *)
Definition before_expiry (name owner : string) (expiry : float) (o : lock_op) : Prop :=
  match o with
  | TryAcquire _ _ _ now _ | IsLocked _ now => PyFloat.ge now expiry = false
  | Release name' holder => name' = name → holder ≠ "" ∧ holder ≠ owner
  end.

Lemma cleanup_keeps name e now (l : lock_table) :
  l !! name = Some e → PyFloat.ge now e.2 = false → cleanup_expired now l !! name = Some e.
Proof. intros Hl He. unfold cleanup_expired. by apply map_lookup_filter_Some_2. Qed.

Lemma lock_exec_keeps name owner expiry o l :
  l !! name = Some (owner, expiry) → before_expiry name owner expiry o →
  lock_exec o l !! name = Some (owner, expiry).
Proof.
  intros Hl Ho. destruct o as [name' holder ttl now now'|name' holder|name' now]; simpl in *.
  - pose proof (cleanup_keeps name _ now l Hl Ho) as Hc. unfold try_acquire.
    destruct (cleanup_expired now l !! name') as [e|] eqn:E; simpl; [done|].
    rewrite lookup_insert_ne; [done|]. intros ->. congruence.
  - unfold release. destruct (l !! name') as [[owner' e']|] eqn:E; [|done].
    destruct (decide (name' = name)) as [->|Hne].
    + destruct Ho as [Hne Hno]; [done|]. rewrite Hl in E. injection E as <- <-.
      apply str_truthy_true in Hne. rewrite Hne. simpl. by rewrite bool_decide_eq_true_2 by done.
    + case_match; simpl; [done|]. by rewrite lookup_delete_ne.
  - by apply cleanup_keeps.
Qed.

Lemma lock_run_keeps name owner expiry ops l :
  l !! name = Some (owner, expiry) → Forall (before_expiry name owner expiry) ops →
  lock_run ops l !! name = Some (owner, expiry).
Proof.
  intros Hl Hops. revert l Hl. induction Hops as [|o ops Ho Hops IH]; intros l Hl; [done|].
  apply (IH (lock_exec o l)). by apply lock_exec_keeps.
Qed.

(** ** Claims *)

(** C25: with workers that follow the protocol, no task is lost and no call
    fails: every task ever enqueued is live, acknowledged or a dead letter; a
    live task is either waiting, exactly then in its own queue, with attempts
    left, or being processed within its allowed attempts; a dead letter has used
    exactly its allowed attempts; and [dequeue] never raises, takes the oldest
    waiting task of the queue and leaves the others in order. *)
Theorem tasks_are_delivered s :
  rtc sched_step new_sched s →
  let q := sc_queue s in
  accounted s ∧
  (∀ id i, items q !! id = Some i →
     item_ok i ∧ (ti_status i = "pending" ↔ id ∈ pending_ids (queue_name i) q)) ∧
  (∀ name i, i ∈ peek_dead_letter name q →
     ti_status i = "dead" ∧ attempt_count i = max_retries i) ∧
  (∀ name worker, match pending_ids name q with
     | [] => dequeue name worker q = (Ok None, q)
     | id :: rest => ∃ i, (dequeue name worker q).1 = Ok (Some i) ∧ task_id i = id ∧
         ti_status i = "processing" ∧ pending_ids name (dequeue name worker q).2 = rest
     end).
Proof.
  intros Hr q. destruct (sched_reachable_ok s Hr) as [Hok Hacc]. fold q in Hok. split_and!; [done|..].
  - intros id i Hi. split; [by apply (qo_items q Hok id)|]. rewrite (qo_pending q Hok). split.
    + intros Hs. by exists i.
    + intros (i' & Hi' & ? & _). congruence.
  - intros name i Hi. destruct (qo_dead q Hok name i Hi) as (? & _ & ?). done.
  - intros name worker. pose proof (dequeue_ok q name worker Hok) as Hd.
    destruct (pending_ids name q) as [|id rest]; [done|]. destruct Hd as (i & Hi & _ & ->).
    exists (start_attempt worker i). split_and!; [done|apply (qo_id q Hok id i Hi)|done|].
    unfold pending_ids. simpl. by rewrite lookup_insert_eq.
Qed.

Definition demo_item : TaskItem := new_item "t1" "mail" VNone PyFloat.zero.
Definition demo_sched : sched :=
  mkSched (nack "t1" "timeout" (dequeue "mail" "w1" (enqueue demo_item InMemoryTaskQueue.init).2).2).2
    ["t1"] [].

Lemma demo_sched_reachable : rtc sched_step new_sched demo_sched.
Proof.
  eapply rtc_l; [apply (step_enqueue demo_item); [done|done|by vm_compute]|].
  eapply rtc_l; [apply (step_dequeue "mail" "w1")|].
  eapply rtc_l; [|apply rtc_refl].
  eapply (step_nack "t1" (start_attempt "w1" demo_item) "timeout"); by vm_compute.
Qed.

Lemma tasks_are_delivered_witness :
  let q := sc_queue demo_sched in
  accounted demo_sched ∧
  (∀ id i, items q !! id = Some i →
     item_ok i ∧ (ti_status i = "pending" ↔ id ∈ pending_ids (queue_name i) q)) ∧
  (∀ name i, i ∈ peek_dead_letter name q →
     ti_status i = "dead" ∧ attempt_count i = max_retries i) ∧
  (∀ name worker, match pending_ids name q with
     | [] => dequeue name worker q = (Ok None, q)
     | id :: rest => ∃ i, (dequeue name worker q).1 = Ok (Some i) ∧ task_id i = id ∧
         ti_status i = "processing" ∧ pending_ids name (dequeue name worker q).2 = rest
     end).
Proof. apply (tasks_are_delivered demo_sched), demo_sched_reachable. Defined.

(** Outside the protocol: a task that is acknowledged while it waits leaves its
    identifier in the queue, and the next [dequeue] finds no item and raises. *)
Example ack_of_waiting_task_breaks_dequeue :
  let q := (ack "t1" (enqueue demo_item InMemoryTaskQueue.init).2).2 in
  (dequeue "mail" "w1" q).1 = Err (KeyError "t1").
Proof. by vm_compute. Qed.

(** a lock is exclusive until it expires: once [owner] holds a lock until
    [expiry], whatever other threads do before that time (acquire or query any
    lock, release other locks or this one under another name) leaves it with
    [owner], and every attempt to acquire it fails; from the expiry on an
    attempt succeeds and the lock belongs to the new holder. *)
Theorem lock_exclusive_until_expiry name owner expiry (l : lock_table) ops holder ttl now now' :
  l !! name = Some (owner, expiry) → Forall (before_expiry name owner expiry) ops →
  let l1 := lock_run ops l in
  l1 !! name = Some (owner, expiry) ∧
  (PyFloat.ge now expiry = false → (try_acquire name holder ttl now now' l1).1 = false ∧
     (is_locked name now l1).1 = true) ∧
  (PyFloat.ge now expiry = true → (try_acquire name holder ttl now now' l1).1 = true ∧
     (try_acquire name holder ttl now now' l1).2 !! name = Some (holder, PyFloat.add now' ttl)).
Proof.
  intros Hl Hops l1. pose proof (lock_run_keeps name owner expiry ops l Hl Hops) as Hk. fold l1 in Hk.
  split_and!; [done|..]; intros He; unfold try_acquire, is_locked.
  - pose proof (cleanup_keeps name _ now l1 Hk He) as Hc. rewrite Hc. split; [done|].
    by apply bool_decide_eq_true_2.
  - assert (cleanup_expired now l1 !! name = None) as ->.
    { unfold cleanup_expired. apply map_lookup_filter_None. right. intros e He'.
      rewrite Hk in He'. injection He' as <-. simpl. by rewrite He. }
    split; [done|]. simpl. by rewrite lookup_insert_eq.
Qed.

Lemma lock_exclusive_until_expiry_witness :
  let l := (try_acquire "job" "a" (PyFloat.of_Z 30) PyFloat.zero PyFloat.zero InMemoryDistributedLock.init).2 in
  let l1 := lock_run [TryAcquire "job" "b" (PyFloat.of_Z 30) (PyFloat.of_Z 1) (PyFloat.of_Z 1);
                      Release "job" "b"; IsLocked "other" (PyFloat.of_Z 2)] l in
  l1 !! "job" = Some ("a", PyFloat.of_Z 30) ∧
  (PyFloat.ge (PyFloat.of_Z 3) (PyFloat.of_Z 30) = false →
     (try_acquire "job" "b" (PyFloat.of_Z 30) (PyFloat.of_Z 3) (PyFloat.of_Z 3) l1).1 = false ∧
     (is_locked "job" (PyFloat.of_Z 3) l1).1 = true) ∧
  (PyFloat.ge (PyFloat.of_Z 3) (PyFloat.of_Z 30) = true →
     (try_acquire "job" "b" (PyFloat.of_Z 30) (PyFloat.of_Z 3) (PyFloat.of_Z 3) l1).1 = true ∧
     (try_acquire "job" "b" (PyFloat.of_Z 30) (PyFloat.of_Z 3) (PyFloat.of_Z 3) l1).2 !! "job" =
       Some ("b", PyFloat.add (PyFloat.of_Z 3) (PyFloat.of_Z 30))).
Proof.
  apply (lock_exclusive_until_expiry "job" "a" (PyFloat.of_Z 30)).
  - by vm_compute.
  - repeat (apply Forall_cons_2; [by vm_compute || (simpl; intros _; split; discriminate)|]).
    apply Forall_nil_2.
Defined.
