(* ===== verification/ConfigCenter.v ===== *)
(** * Configuration center (src/src/config_center/config_store.py, models.py, watcher.py)

    Versioned configuration entries by namespace and key over the in-memory
    configuration backend, with watchers.  A watch callback is known by a name;
    [notify] returns the callbacks it calls, in order, with the event each one
    receives.  [now] is the reading of [time.time()] a call takes. *)
From S2P Require Import Prelude PyFloat PyValue Persistence.
Local Open Scope Z_scope.

Record ConfigEntry := mkConfigEntry {
  ce_namespace : string;
  ce_key : string;
  ce_value : pyval;
  ce_version : Z;
  ce_config_type : string;
  ce_updated_at : float;
  ce_description : string;
}.

Record WatchEvent := mkWatchEvent {
  we_namespace : string;
  we_key : string;
  we_old_value : pyval;
  we_new_value : pyval;
  we_old_version : Z;
  we_new_version : Z;
  we_event_type : string;
}.

Module ConfigWatcher.
Abbreviation watchers := (dict (list string)).

Definition init : watchers := [].
Definition watch_key (namespace key : string) : string := namespace +:+ "::" +:+ key.

Definition watch (namespace key callback : string) (w : watchers) : watchers :=
  let wk := watch_key namespace key in dinsert wk (dget wk [] w ++ [callback]) w.

(** [callbacks.remove(callback)]: the first occurrence. *)
Fixpoint remove_first (c : string) (l : list string) : list string :=
  match l with
  | [] => []
  | x :: l => if decide (x = c) then l else x :: remove_first c l
  end.

Definition unwatch (namespace key callback : string) (w : watchers) : bool * watchers :=
  let wk := watch_key namespace key in
  let callbacks := dget wk [] w in
  if bool_decide (callback ∈ callbacks) then (true, dinsert wk (remove_first callback callbacks) w)
  else (false, w).

Definition notify (event : WatchEvent) (w : watchers) : list (string * WatchEvent) :=
  let call := λ callback, (callback, event) in
  (call <$> dget (watch_key (we_namespace event) (we_key event)) [] w) ++
  (call <$> dget (watch_key (we_namespace event) "*") [] w).

Definition watcher_count (w : watchers) : nat := sum_list (length <$> w.*2).
Definition clear (w : watchers) : watchers := init.
End ConfigWatcher.

Module ConfigCenter.
Record center := mkCenter {
  backend : InMemoryConfig.config_store;
  watcher : ConfigWatcher.watchers;
}.

Definition init : center := mkCenter InMemoryConfig.init ConfigWatcher.init.

Definition record_to_entry (r : ConfigRecord) : ConfigEntry :=
  mkConfigEntry (cf_namespace r) (cf_key r) (cf_value r) (cf_version r) (cf_config_type r)
    (cf_updated_at r) (cf_description r).

Definition get (namespace key : string) (c : center) : option ConfigEntry :=
  record_to_entry <$> InMemoryConfig.get namespace key (backend c).

(** [put]: the entry, the new state and the callbacks called. *)
Definition put (namespace key : string) (value : pyval) (config_type description : string)
    (now : float) (c : center) : ConfigEntry * list (string * WatchEvent) * center :=
  let existing := InMemoryConfig.get namespace key (backend c) in
  let old_value := from_option cf_value VNone existing in
  let old_version := from_option cf_version 0 existing in
  let record := mkConfigRecord namespace key value (old_version + 1) config_type now description in
  let event := mkWatchEvent namespace key old_value value old_version (old_version + 1)
    (match existing with None => "created" | Some _ => "updated" end) in
  (record_to_entry record, ConfigWatcher.notify event (watcher c),
   mkCenter (InMemoryConfig.put record (backend c)) (watcher c)).

Definition delete (namespace key : string) (c : center)
    : bool * list (string * WatchEvent) * center :=
  match InMemoryConfig.get namespace key (backend c) with
  | None => (false, [], c)
  | Some existing =>
      let event := mkWatchEvent namespace key (cf_value existing) VNone (cf_version existing)
        (cf_version existing) "deleted" in
      (true, ConfigWatcher.notify event (watcher c),
       mkCenter (InMemoryConfig.delete namespace key (backend c)).2 (watcher c))
  end.

Definition list_namespace (namespace : string) (c : center) : list ConfigEntry :=
  record_to_entry <$> InMemoryConfig.list_by_namespace namespace (backend c).
Definition list_all (c : center) : list ConfigEntry :=
  record_to_entry <$> InMemoryConfig.list_all (backend c).
Definition history (namespace key : string) (c : center) : list ConfigEntry :=
  record_to_entry <$> InMemoryConfig.get_history namespace key (backend c).

Definition watch (namespace key callback : string) (c : center) : center :=
  mkCenter (backend c) (ConfigWatcher.watch namespace key callback (watcher c)).
Definition unwatch (namespace key callback : string) (c : center) : bool * center :=
  let '(found, w) := ConfigWatcher.unwatch namespace key callback (watcher c) in
  (found, mkCenter (backend c) w).

(** The calls that change the center. *)
Inductive config_op :=
| Put (namespace key : string) (value : pyval) (config_type description : string) (now : float)
| Delete (namespace key : string)
| Watch (namespace key callback : string)
| Unwatch (namespace key callback : string).

Definition exec (o : config_op) (c : center) : center :=
  match o with
  | Put n k v ty d now => (put n k v ty d now c).2
  | Delete n k => (delete n k c).2
  | Watch n k cb => watch n k cb c
  | Unwatch n k cb => (unwatch n k cb c).2
  end.
End ConfigCenter.
Import ConfigCenter.

(** ** Composite keys

    Namespaces without a colon keep the composite keys of different
    configuration keys apart. *)
Definition colon : Ascii.ascii := Ascii.ascii_of_nat 58.

Lemma composite_key_inj n n' k k' :
  no_char colon n → no_char colon n' →
  InMemoryConfig.composite_key n k = InMemoryConfig.composite_key n' k' → n = n' ∧ k = k'.
Proof.
  unfold InMemoryConfig.composite_key. revert n'.
  induction n as [|c n IH]; intros [|c' n'] Hn Hn' Heq; simpl in Hn, Hn'.
  - by injection Heq.
  - injection Heq as Hc _. by destruct Hn' as [[] _].
  - injection Heq as Hc _. by destruct Hn as [[] _].
  - injection Heq as -> Heq. destruct (IH n') as [-> ->]; [by destruct Hn|by destruct Hn'|exact Heq|done].
Qed.

(** ** What a key holds, abstractly

    The value and version since the last deletion, and every value ever put. *)
Definition op_namespace (o : config_op) : string :=
  match o with Put n _ _ _ _ _ | Delete n _ | Watch n _ _ | Unwatch n _ _ => n end.

Definition key_step (namespace key : string) (cur : option (pyval * Z)) (o : config_op)
    : option (pyval * Z) :=
  match o with
  | Put n k v _ _ _ =>
      if decide (n = namespace ∧ k = key) then Some (v, from_option snd 0 cur + 1) else cur
  | Delete n k => if decide (n = namespace ∧ k = key) then None else cur
  | _ => cur
  end.

Definition put_value (namespace key : string) (o : config_op) : option pyval :=
  match o with
  | Put n k v _ _ _ => if decide (n = namespace ∧ k = key) then Some v else None
  | _ => None
  end.

Definition current (namespace key : string) (c : center) : option (pyval * Z) :=
  (λ e, (ce_value e, ce_version e)) <$> get namespace key c.

Lemma config_get_put n k r b :
  no_char colon n → no_char colon (cf_namespace r) →
  InMemoryConfig.get n k (InMemoryConfig.put r b) =
  if decide (cf_namespace r = n ∧ cf_key r = k) then Some r else InMemoryConfig.get n k b.
Proof.
  intros Hn Hr. unfold InMemoryConfig.get, InMemoryConfig.put. simpl.
  case_decide as E; [destruct E as [-> ->]; apply dlookup_dinsert_eq|].
  rewrite dlookup_dinsert_ne; [done|]. intros Heq. apply E.
  by apply composite_key_inj in Heq as [-> ->].
Qed.

Lemma config_get_delete n k n' k' b :
  no_char colon n → no_char colon n' →
  InMemoryConfig.get n k (InMemoryConfig.delete n' k' b).2 =
  if decide (n' = n ∧ k' = k) then None else InMemoryConfig.get n k b.
Proof.
  intros Hn Hn'. unfold InMemoryConfig.get, InMemoryConfig.delete.
  destruct (dmem _ (InMemoryConfig.cs_store b)) eqn:Em; simpl.
  - rewrite dlookup_ddelete. case_decide as E; case_decide as E'; try done.
    + apply composite_key_inj in E as [-> ->]; naive_solver.
    + destruct E' as [-> ->]. naive_solver.
  - case_decide as E; [|done]. destruct E as [-> ->].
    destruct (dlookup _ (InMemoryConfig.cs_store b)) eqn:El; [|done]. unfold dmem in Em. by rewrite El in Em.
Qed.

Lemma exec_current n k o c :
  no_char colon n → no_char colon (op_namespace o) →
  current n k (exec o c) = key_step n k (current n k c) o.
Proof.
  intros Hn Ho. unfold current, get. destruct o as [n' k' v ty d now|n' k'|n' k' cb|n' k' cb]; simpl in *.
  - rewrite config_get_put by done. simpl. case_decide as E; [|done]. destruct E as [-> ->]. simpl.
    by destruct (InMemoryConfig.get n k (backend c)).
  - unfold delete. destruct (InMemoryConfig.get n' k' (backend c)) as [r|] eqn:E; simpl.
    + rewrite config_get_delete by done. by destruct (decide (n' = n ∧ k' = k)).
    + case_decide as Ed; [|done]. destruct Ed as [-> ->]. by rewrite E.
  - done.
  - unfold unwatch. by destruct (ConfigWatcher.unwatch n' k' cb (watcher c)).
Qed.

Lemma exec_history n k o c :
  no_char colon n → no_char colon (op_namespace o) →
  ce_value <$> history n k (exec o c) =
  (ce_value <$> history n k c) ++ option_list (put_value n k o).
Proof.
  intros Hn Ho. unfold history, InMemoryConfig.get_history.
  destruct o as [n' k' v ty d now|n' k'|n' k' cb|n' k' cb]; simpl in *.
  - unfold dget. case_decide as E.
    + destruct E as [-> ->]. rewrite dlookup_dinsert_eq. simpl. by rewrite !fmap_app.
    + rewrite dlookup_dinsert_ne, app_nil_r; [done|]. intros Heq. apply E.
      by apply composite_key_inj in Heq as [-> ->].
  - rewrite app_nil_r. unfold delete. destruct (InMemoryConfig.get n' k' (backend c)); [|done].
    simpl. unfold InMemoryConfig.delete. by case_match.
  - by rewrite app_nil_r.
  - rewrite app_nil_r. unfold unwatch. by destruct (ConfigWatcher.unwatch n' k' cb (watcher c)).
Qed.

(** ** Claims *)

(** C26: the configuration center is a versioned map: after any sequence of
    writes, deletions and subscriptions over namespaces without a colon, reading
    a key gives the value of the last write since its last deletion with the
    number of writes since then as version (nothing if there is none), keys
    never interfere, and the history lists the values of all writes of the key,
    oldest first, deletions notwithstanding. *)
Theorem config_center_refines (ops : list config_op) (namespace key : string) :
  no_char colon namespace → Forall (λ o, no_char colon (op_namespace o)) ops →
  let c := foldl (λ c o, exec o c) init ops in
  current namespace key c = foldl (key_step namespace key) None ops ∧
  (ce_value <$> history namespace key c) = omap (put_value namespace key) ops.
Proof.
  intros Hn. induction ops as [|o ops IH] using rev_ind; intros Hops; [done|].
  apply Forall_app in Hops as [Hops Ho]. apply Forall_cons in Ho as [Ho _]. cbv beta in Ho.
  destruct (IH Hops) as [Hc Hh]. simpl. rewrite !foldl_app. simpl. split.
  - rewrite exec_current by assumption. by rewrite Hc.
  - rewrite exec_history by assumption. rewrite Hh, omap_app. simpl. by destruct (put_value namespace key o).
Qed.

Definition demo_config : list config_op :=
  [Put "gate" "score" (VInt 1) "gateway" "" PyFloat.zero; Watch "gate" "*" "audit";
   Put "gate" "score" (VInt 2) "gateway" "" PyFloat.zero; Put "exp" "score" (VInt 9) "experiment" "" PyFloat.zero;
   Delete "gate" "score"; Put "gate" "score" (VInt 3) "gateway" "" PyFloat.zero].

Lemma config_center_refines_witness :
  let c := foldl (λ c o, exec o c) init demo_config in
  current "gate" "score" c = foldl (key_step "gate" "score") None demo_config ∧
  (ce_value <$> history "gate" "score" c) = omap (put_value "gate" "score") demo_config.
Proof.
  apply (config_center_refines demo_config "gate" "score").
  - vm_compute. repeat split; discriminate.
  - unfold demo_config. repeat (apply Forall_cons_2; [vm_compute; repeat split; discriminate|]). apply Forall_nil_2.
Defined.

(** The versions in a key's history restart after a deletion. *)
Example history_versions_restart :
  (ce_version <$> history "gate" "score" (foldl (λ c o, exec o c) init demo_config)) = [1; 2; 1].
Proof. by vm_compute. Qed.

(** A colon in a namespace makes two different keys one. *)
Example colon_collides :
  let c := (put "a::b" "k" (VInt 1) "gateway" "" PyFloat.zero init).2 in
  current "a" "b::k" c = Some (VInt 1, 1).
Proof. by vm_compute. Qed.

(** The key ["*"] matches both subscriptions: its wildcard watcher is called
    twice for one write. *)
Example star_key_notifies_twice :
  let c := watch "gate" "*" "audit" init in
  ((put "gate" "*" (VInt 1) "gateway" "" PyFloat.zero c).1.2).*1 = ["audit"; "audit"].
Proof. by vm_compute. Qed.
