(* ===== verification/PySort.v ===== *)
(** * Python's sorts and float sums

    [sorted] and [list.sort] are stable and compare with [<] only.  For a
    comparison that is a strict weak order on the elements (floats without NaN,
    integers, strings, tuples of these) every stable sort gives the same list,
    and [sort] is the insertion sort; with a NaN among the keys the order the
    interpreter gives depends on its algorithm.  [sum] of floats adds from left
    to right (Python 3.11, the version of the repository's workflows). *)
From S2P Require Import Prelude PyFloat PyValue.
Local Open Scope Z_scope.

Lemma filter_all {A} (P : A → Prop) `{!∀ x, Decision (P x)} (l : list A) :
  (∀ x, x ∈ l → P x) → filter P l = l.
Proof.
  induction l as [|x l IH]; intros Hp; [done|]. rewrite filter_cons, decide_True by set_solver.
  f_equal. apply IH. set_solver.
Qed.

Lemma filter_ext_elem {A} (P Q : A → Prop) `{!∀ x, Decision (P x)} `{!∀ x, Decision (Q x)} (l : list A) :
  (∀ x, x ∈ l → P x ↔ Q x) → filter P l = filter Q l.
Proof.
  induction l as [|x l IH]; intros HPQ; [done|]. rewrite !filter_cons, IH by set_solver.
  destruct (decide (P x)) as [Hp|Hp], (decide (Q x)) as [Hq|Hq]; try done; exfalso;
    specialize (HPQ x ltac:(set_solver)); tauto.
Qed.

Lemma StronglySorted_sublist {A} (R : A → A → Prop) l1 l2 :
  l1 `sublist_of` l2 → StronglySorted R l2 → StronglySorted R l1.
Proof.
  induction 1 as [|x l1 l2 Hs IH|x l1 l2 Hs IH]; intros Hl; [constructor|..];
    apply StronglySorted_inv in Hl as [Hl Hall]; [|by apply IH].
  constructor; [by apply IH|]. rewrite Forall_forall in *. intros y Hy. apply Hall.
  by eapply elem_of_sublist.
Qed.

Lemma elem_of_slice_to {A} k (l : list A) x : x ∈ slice_to k l → x ∈ l.
Proof. unfold slice_to. intros Hx. eapply elem_of_sublist; [exact Hx|apply sublist_take]. Qed.

Module PySort.
Section sort.
Context {A : Type} (lt : A → A → bool).

Fixpoint insert (x : A) (l : list A) : list A :=
  match l with
  | [] => [x]
  | y :: l => if lt y x then y :: insert x l else x :: y :: l
  end.
Definition sort (l : list A) : list A := foldr insert [] l.

(** [lt] orders the elements of [P] up to the equivalence "neither is less". *)
Record strict_weak (P : A → Prop) : Prop := {
  sw_irrefl x : P x → lt x x = false;
  sw_trans x y z : P x → P y → P z → lt x y = true → lt y z = true → lt x z = true;
  sw_negtrans x y z : P x → P y → P z → lt x y = false → lt y z = false → lt x z = false;
}.

Definition sorted : list A → Prop := StronglySorted (λ x y, lt y x = false).
(** Neither is less: the elements a stable sort keeps in their order. *)
Definition tied (x y : A) : Prop := lt x y = false ∧ lt y x = false.

Lemma insert_perm x l : insert x l ≡ₚ x :: l.
Proof.
  induction l as [|y l IH]; simpl; [done|]. case_match; [|done].
  rewrite IH. apply Permutation_swap.
Qed.

Lemma sort_perm l : sort l ≡ₚ l.
Proof. induction l as [|x l IH]; simpl; [done|]. by rewrite insert_perm, IH. Qed.

Lemma elem_of_sort x l : x ∈ sort l ↔ x ∈ l.
Proof. by rewrite sort_perm. Qed.

Lemma length_sort l : length (sort l) = length l.
Proof. by rewrite sort_perm. Qed.

Lemma sort_nil_inv l : sort l = [] ↔ l = [].
Proof. split; [|by intros ->]. intros H. apply nil_length_inv. by rewrite <-length_sort, H. Qed.

(** Without its first element the sorted list is the sort of the list without
    that element. *)
Lemma sort_cons_inv l x l' : sort l = x :: l' →
  ∃ l1 l2, l = l1 ++ x :: l2 ∧ sort (l1 ++ l2) = l'.
Proof.
  revert x l'. induction l as [|y l IH]; intros x l' Hs; [done|]. cbn [sort foldr] in Hs.
  change (foldr insert [] l) with (sort l) in Hs. destruct (sort l) as [|z t] eqn:E; simpl in Hs.
  - injection Hs as <- <-. apply sort_nil_inv in E as ->. by exists [], [].
  - destruct (lt z y) eqn:Ez; injection Hs as <- <-.
    + destruct (IH z t eq_refl) as (l1 & l2 & -> & <-). by exists (y :: l1), l2.
    + exists [], l. by rewrite <-E.
Qed.

Context (P : A → Prop) (Hsw : strict_weak P).

Lemma sw_asym x y : P x → P y → lt x y = true → lt y x = false.
Proof.
  intros Hx Hy Hxy. destruct (lt y x) eqn:E; [|done].
  pose proof (sw_trans P Hsw x y x Hx Hy Hx Hxy E). by rewrite (sw_irrefl P Hsw) in *.
Qed.

Lemma insert_sorted x l : P x → Forall P l → sorted l → sorted (insert x l).
Proof.
  intros Hx HP. induction 1 as [|y l Hs IH Hy]; simpl; [repeat constructor|].
  apply Forall_cons in HP as [HPy HP]. destruct (lt y x) eqn:E.
  - constructor; [by apply IH|]. rewrite insert_perm. constructor; [by apply sw_asym|done].
  - constructor; [by constructor|]. constructor; [done|].
    rewrite Forall_forall in *. intros z Hz.
    eapply (sw_negtrans P Hsw z y x); eauto.
Qed.

Lemma sort_sorted l : Forall P l → sorted (sort l).
Proof.
  induction 1 as [|x l Hx HP IH]; simpl; [constructor|].
  apply insert_sorted; [done| |done]. by rewrite sort_perm.
Qed.

(** The head of the sorted list is a minimum of the list. *)
Lemma sort_head x l l' : Forall P l → sort l = x :: l' →
  x ∈ l ∧ ∀ y, y ∈ l → lt y x = false.
Proof.
  intros HP E. pose proof (sort_sorted l HP) as Hs. rewrite E in Hs.
  assert (x ∈ l) as Hx by (rewrite <-elem_of_sort, E; set_solver). split; [done|].
  intros y Hy. rewrite <-elem_of_sort, E in Hy. apply elem_of_cons in Hy as [->|Hy].
  - rewrite Forall_forall in HP. by apply (sw_irrefl P Hsw), HP.
  - inversion_clear Hs as [|?? _ Hall]. rewrite Forall_forall in Hall. by apply Hall.
Qed.

(** Where no two elements tie, the order of the input does not matter. *)
Lemma sort_unique l1 l2 : Forall P l1 → l1 ≡ₚ l2 →
  (∀ x y, x ∈ l1 → y ∈ l1 → tied x y → x = y) → sort l1 = sort l2.
Proof.
  intros HP Hperm Htie. assert (Forall P l2) by by rewrite <-Hperm.
  apply (StronglySorted_unique_strong (λ x y, lt y x = false)); [|by apply sort_sorted..|].
  - intros x y Hx Hy H1 H2. rewrite elem_of_sort in Hx, Hy. rewrite <-Hperm in Hy.
    by apply Htie.
  - by rewrite !sort_perm.
Qed.

(** Stability: the elements tied with [x] keep their relative order. *)
Lemma insert_stable `{!∀ x y, Decision (tied x y)} x y l : P x → P y → Forall P l →
  filter (tied x) (insert y l) = filter (tied x) (y :: l).
Proof.
  intros Hx Hy. induction 1 as [|z l Hz HP IH]; [done|]. cbn [insert].
  destruct (lt z y) eqn:E; [|done].
  rewrite filter_cons, IH, !filter_cons. destruct (decide (tied x z)) as [[H1 H2]|]; [|done].
  destruct (decide (tied x y)) as [[H3 H4]|]; [|done].
  by rewrite (sw_negtrans P Hsw z x y) in E.
Qed.

Lemma sort_stable `{!∀ x y, Decision (tied x y)} x l : P x → Forall P l →
  filter (tied x) (sort l) = filter (tied x) l.
Proof.
  intros Hx. induction 1 as [|y l Hy HP IH]; [done|]. cbn [sort foldr].
  rewrite insert_stable; [|done..|].
  - rewrite !filter_cons. by rewrite <-IH.
  - change (foldr insert [] l) with (sort l). by rewrite sort_perm.
Qed.

(** Sorting a sorted list changes nothing. *)
Lemma sort_id l : sorted l → sort l = l.
Proof.
  induction 1 as [|x l Hs IH Hx]; [done|]. cbn [sort foldr].
  change (foldr insert [] l) with (sort l). rewrite IH. destruct l as [|y l]; [done|]. simpl.
  apply Forall_cons in Hx as [-> _]. done.
Qed.
End sort.

(** [sorted(l, key=f)]: compare the keys. *)
Definition on {A B} (f : A → B) (lt : B → B → bool) (x y : A) : bool := lt (f x) (f y).
(** Comparison of tuples: the second components decide when the first are tied. *)
Definition lex {A} (lt1 lt2 : A → A → bool) (x y : A) : bool :=
  lt1 x y || (negb (lt1 y x) && lt2 x y).
Definition Zlt (x y : Z) : bool := x <? y.
Definition strlt (x y : string) : bool := String.ltb x y.
(** [sort(reverse=True)] and [key=-x]: stable, greatest first. *)
Definition down {A} (lt : A → A → bool) (x y : A) : bool := lt y x.

Lemma strict_weak_on {A B} (f : A → B) lt P :
  strict_weak lt P → strict_weak (on f lt) (λ x, P (f x)).
Proof. intros [? ? ?]. split; unfold on; eauto. Qed.

Lemma strict_weak_down {A} (lt : A → A → bool) P : strict_weak lt P → strict_weak (down lt) P.
Proof. intros [? ? ?]. split; unfold down; eauto. Qed.

Lemma strict_weak_mono {A} (lt : A → A → bool) (P Q : A → Prop) :
  (∀ x, Q x → P x) → strict_weak lt P → strict_weak lt Q.
Proof. intros HPQ [? ? ?]. split; eauto 10. Qed.

Lemma strict_weak_lex {A} (lt1 lt2 : A → A → bool) P :
  strict_weak lt1 P → strict_weak lt2 P → strict_weak (lex lt1 lt2) P.
Proof.
  intros H1 H2. unfold lex. split.
  - intros x Hx. by rewrite (sw_irrefl _ _ H1), (sw_irrefl _ _ H2).
  - intros x y z Hx Hy Hz.
    pose proof (sw_trans _ _ H1 x y z Hx Hy Hz). pose proof (sw_trans _ _ H2 x y z Hx Hy Hz).
    pose proof (sw_negtrans _ _ H1 z y x Hz Hy Hx). pose proof (sw_asym _ _ H1 x y Hx Hy).
    pose proof (sw_asym _ _ H1 y z Hy Hz). pose proof (sw_negtrans _ _ H1 x z y Hx Hz Hy).
    pose proof (sw_negtrans _ _ H1 y x z Hy Hx Hz).
    destruct (lt1 x y), (lt1 y x), (lt1 y z), (lt1 z y), (lt1 x z), (lt1 z x),
      (lt2 x y), (lt2 y z); naive_solver.
  - intros x y z Hx Hy Hz.
    pose proof (sw_negtrans _ _ H1 x y z Hx Hy Hz). pose proof (sw_negtrans _ _ H2 x y z Hx Hy Hz).
    pose proof (sw_trans _ _ H1 z y x Hz Hy Hx).
    pose proof (sw_asym _ _ H1 x y Hx Hy). pose proof (sw_asym _ _ H1 y z Hy Hz).
    pose proof (sw_negtrans _ _ H1 z x y Hz Hx Hy). pose proof (sw_negtrans _ _ H1 y z x Hy Hz Hx).
    destruct (lt1 x y), (lt1 y x), (lt1 y z), (lt1 z y), (lt1 x z), (lt1 z x),
      (lt2 x y), (lt2 y z); naive_solver.
Qed.

Lemma strict_weak_Z : strict_weak Zlt (λ _, True).
Proof. split; unfold Zlt; intros; lia. Qed.

Lemma strict_weak_float : strict_weak PyFloat.lt (λ x, PyFloat.is_nan x = false).
Proof.
  split.
  - intros. apply PyFloat.lt_irrefl.
  - intros x y z _ _ _. apply PyFloat.lt_trans.
  - intros x y z Hx Hy Hz Hxy Hyz. apply (PyFloat.lt_false_trans z y x); done.
Qed.

Lemma ascii_compare_lt a b : Ascii.compare a b = Lt ↔ (Ascii.N_of_ascii a < Ascii.N_of_ascii b)%N.
Proof. unfold Ascii.compare. apply N.compare_lt_iff. Qed.

Lemma strlt_trans x y z : strlt x y = true → strlt y z = true → strlt x z = true.
Proof.
  unfold strlt, String.ltb. revert y z.
  induction x as [|a x IH]; intros [|b y] [|c z]; simpl; try done.
  unfold Ascii.compare in *.
  destruct (N.compare_spec (Ascii.N_of_ascii a) (Ascii.N_of_ascii b)) as [E1|E1|E1],
    (N.compare_spec (Ascii.N_of_ascii b) (Ascii.N_of_ascii c)) as [E2|E2|E2],
    (N.compare_spec (Ascii.N_of_ascii a) (Ascii.N_of_ascii c)) as [E3|E3|E3]; try done; try lia.
  apply IH.
Qed.

Lemma strlt_total x y : strlt x y = false → strlt y x = false → x = y.
Proof.
  unfold strlt, String.ltb. rewrite (String.compare_antisym x y).
  destruct (String.compare y x) eqn:E; simpl; [|done..]. intros _ _. symmetry.
  by apply String.compare_eq_iff.
Qed.

Lemma lex_tied {A} (lt1 lt2 : A → A → bool) x y :
  tied (lex lt1 lt2) x y → tied lt1 x y ∧ tied lt2 x y.
Proof.
  unfold tied, lex. destruct (lt1 x y), (lt1 y x), (lt2 x y), (lt2 y x); naive_solver.
Qed.

Lemma strict_weak_str : strict_weak strlt (λ _, True).
Proof.
  assert (∀ x, strlt x x = false) as Hirr.
  { intros x. unfold strlt, String.ltb. destruct (String.compare x x) eqn:E; [done| |done].
    pose proof (String.compare_antisym x x) as H. by rewrite E in H. }
  split; [auto|intros; eapply strlt_trans; eauto|].
  intros x y z _ _ _ Hxy Hyz. destruct (strlt x z) eqn:E; [|done].
  destruct (strlt y x) eqn:E1; [|apply strlt_total in E1; [by subst; congruence|done]].
  pose proof (strlt_trans y x z E1 E). congruence.
Qed.

(** [sum(l)] over floats: [0] added to the first element, left to right. *)
Definition fsum (l : list float) : float := foldl PyFloat.add PyFloat.zero l.
Definition zsum (l : list Z) : Z := foldl Z.add 0 l.
Definition count_if {A} (p : A → bool) (l : list A) : Z :=
  Z.of_nat (length (filter (λ x, p x = true) l)).

Lemma count_if_cons {A} (p : A → bool) x l :
  count_if p (x :: l) = (if p x then 1 else 0) + count_if p l.
Proof. unfold count_if. rewrite filter_cons. case_decide; simpl; destruct (p x); simpl; [lia|done..]. Qed.

Lemma count_if_bounds {A} (p : A → bool) l : 0 ≤ count_if p l ≤ Z.of_nat (length l).
Proof. unfold count_if. pose proof (length_filter (λ x, p x = true) l). lia. Qed.
End PySort.

(** The strict weak orders of the keys the code sorts by. *)
#[export] Hint Resolve PySort.strict_weak_on PySort.strict_weak_down PySort.strict_weak_lex
  PySort.strict_weak_Z PySort.strict_weak_float PySort.strict_weak_str : agent.
