(* ===== verification/PyFormat.v ===== *)
(** * Text formatting

    Format specifications [.2f] and the like: the exact binary value is rounded
    to the given number of decimals, ties to even. *)
From S2P Require Import Prelude PyFloat PyValue.
Local Open Scope Z_scope.

Module PyFormat.
Fixpoint zeros (n : nat) : string := match n with O => "" | S n => "0" +:+ zeros n end.
(** [n] with leading zeros to [width] digits *)
Definition pad (width : nat) (n : Z) : string :=
  let s := pretty n in zeros (width - String.length s) +:+ s.
Definition decimals (d : nat) (n : Z) : string :=
  match d with
  | O => pretty n
  | _ => pretty (n / 10 ^ Z.of_nat d) +:+ "." +:+ pad d (n mod 10 ^ Z.of_nat d)
  end.
Definition sign (s : bool) : string := if s then "-" else "".
(** [f"{x:.<d>f}"] *)
Definition fixed (d : nat) (x : float) : string :=
  match x with
  | S754_nan => "nan"
  | S754_infinity s => sign s +:+ "inf"
  | S754_zero s => sign s +:+ decimals d 0
  | S754_finite s m e =>
      sign s +:+ decimals d
        (if 0 <=? e then Z.pos m * 10 ^ Z.of_nat d * 2 ^ e
         else PyFloat.round_half_even (Z.pos m * 10 ^ Z.of_nat d) (2 ^ (- e)))
  end.
(** [sep.join(l)] *)
Fixpoint join (sep : string) (l : list string) : string :=
  match l with
  | [] => ""
  | [x] => x
  | x :: l => x +:+ sep +:+ join sep l
  end.

Example fixed_examples :
  fixed 2 (PyFloat.ratio 82 100) = "0.82" ∧ fixed 2 (PyFloat.ratio 1 8) = "0.12" ∧
  fixed 3 (PyFloat.of_Z (-7)) = "-7.000" ∧ fixed 1 (PyFloat.ratio 999 100) = "10.0" ∧
  fixed 4 (PyFloat.ratio 1 400) = "0.0025".
Proof. by vm_compute. Qed.
End PyFormat.
