(* ===== verification/Json.v ===== *)
(** * JSON texts (src/src/persistence/serialization.py)

    [json.dumps(value, ensure_ascii=False, default=str)] and [json.loads] on
    JSON-like values.  A text is its UTF-8 encoding (a lone surrogate has the
    three bytes of its code point), so only bytes below 128 matter to the
    syntax.  The position an error message ends with, and the limits on the
    nesting depth and on the digits of an integer, are left out. *)
From Stdlib Require Import Ascii DecimalString DecimalN DecimalZ DecimalFacts.
From S2P Require Import Prelude PyFloat PyValue PyFormat.
Local Open Scope Z_scope.

(** ** Decimal numbers and floats *)

(** A number as the grammar reads it: sign, integer part, fraction, exponent. *)
Record num := mkNum {
  nm_neg : bool;
  nm_int : Decimal.uint;
  nm_frac : option Decimal.uint;
  nm_exp : option (option bool * Decimal.uint);  (* the sign, if any: [true] is minus *)
}.

Module Decimals.
Definition digits (u : Decimal.uint) : string := NilEmpty.string_of_uint u.
Definition uint_Z (u : Decimal.uint) : Z := Z.of_N (N.of_uint u).

Definition num_text (n : num) : string :=
  PyFormat.sign (nm_neg n) +:+ digits (nm_int n) +:+
  match nm_frac n with Some u => "." +:+ digits u | None => "" end +:+
  match nm_exp n with
  | Some (s, u) => "e" +:+ match s with Some true => "-" | Some false => "+" | None => "" end +:+ digits u
  | None => ""
  end.

(** The float nearest to [m * 10 ^ e], ties to even. *)
Definition of_decimal (neg : bool) (m e : Z) : float :=
  match m with
  | Z.pos p =>
      if 0 <=? e then binary_normalize 53 1024 (cond_Zopp neg (m * 10 ^ e)) 0 neg
      else SFdiv 53 1024 (S754_finite neg p 0) (S754_finite false (Z.to_pos (10 ^ (- e))) 0)
  | _ => S754_zero neg
  end.

(** [int(text)] or [float(text)] of the number *)
Definition num_value (n : num) : pyval :=
  match nm_frac n, nm_exp n with
  | None, None => VInt (cond_Zopp (nm_neg n) (uint_Z (nm_int n)))
  | frac, exp =>
      let frac := default Decimal.Nil frac in
      let e := match exp with
        | Some (Some true, u) => - uint_Z u
        | Some (_, u) => uint_Z u
        | None => 0
        end in
      VFloat (of_decimal (nm_neg n) (uint_Z (Decimal.app (nm_int n) frac))
        (e - Z.of_nat (Decimal.nb_digits frac)))
  end.

(** ** [repr] of a float: the fewest digits that read back as the float, the
    nearest such number *)

(** [m * 2 ^ e * 10 ^ k] as a fraction *)
Definition scaled (m : positive) (e k : Z) : Z * Z :=
  (Z.pos m * 2 ^ Z.max 0 e * 10 ^ Z.max 0 k, 2 ^ Z.max 0 (- e) * 10 ^ Z.max 0 (- k)).
Definition count_digits (n : Z) : Z := Z.of_nat (Decimal.nb_digits (N.to_uint (Z.to_N n))).
(** The position of the decimal point: [n / d] is [0.d1d2... * 10 ^ p]. *)
Definition point (n d : Z) : Z :=
  if d <=? n then count_digits (n / d) else 1 - count_digits ((d - 1) / n).
(** The two neighbours with [k] digits, the nearer one first. *)
Definition neighbours (m : positive) (e p k : Z) : list Z :=
  let '(n, d) := scaled m e (k - p) in
  let q := n / d in
  if PyFloat.round_half_even n d =? q then [q; q + 1] else [q + 1; q].
Fixpoint shortest (fuel : nat) (neg : bool) (m : positive) (e p k : Z) : Z * Z :=
  match find_first (λ c, PyFloat.eqb (of_decimal neg c (p - k)) (S754_finite neg m e)) (neighbours m e p k), fuel with
  | Some c, _ => (c, p - k)
  | None, O => (default 0 (head (neighbours m e p k)), p - k)
  | None, S fuel => shortest fuel neg m e p (k + 1)
  end.
Fixpoint pad_zeros (n : nat) (u : Decimal.uint) : Decimal.uint :=
  match n with O => u | S n => Decimal.D0 (pad_zeros n u) end.
(** At most two leading zeros: [e+05] *)
Definition exponent (x : Z) : Decimal.uint :=
  let u := N.to_uint (Z.to_N (Z.abs x)) in pad_zeros (2 - Decimal.nb_digits u) u.
(** Digits [u] with the decimal point at [p]: fixed notation for [-4 < p <= 16] *)
Definition layout (neg : bool) (u : Decimal.uint) (p : Z) : num :=
  let l := Z.of_nat (Decimal.nb_digits u) in
  if (-4 <? p) && (p <=? 16) then
    if p <=? 0 then mkNum neg (Decimal.D0 Decimal.Nil) (Some (pad_zeros (Z.to_nat (- p)) u)) None
    else if l <=? p then
      mkNum neg (Decimal.app u (pad_zeros (Z.to_nat (p - l)) Decimal.Nil)) (Some (Decimal.D0 Decimal.Nil)) None
    else
      let take := Decimal.rev (Decimal.del_head (Z.to_nat (l - p)) (Decimal.rev u)) in
      mkNum neg take (Some (Decimal.del_head (Z.to_nat p) u)) None
  else
    mkNum neg (Decimal.rev (Decimal.del_head (Z.to_nat (l - 1)) (Decimal.rev u)))
      (if l =? 1 then None else Some (Decimal.del_head 1 u))
      (Some (Some (p <=? 0), exponent (p - 1))).
Definition repr_num (neg : bool) (m : positive) (e : Z) : num :=
  let '(n, d) := scaled m e 0 in
  let '(c, x) := shortest 16 neg m e (point n d) 1 in
  let u := N.to_uint (Z.to_N c) in
  layout neg (Decimal.nztail u).1 (count_digits c + x).
Definition zero_num (neg : bool) : num := mkNum neg (Decimal.D0 Decimal.Nil) (Some (Decimal.D0 Decimal.Nil)) None.
(** [float.__repr__], with JSON's names for the special values *)
Definition float_text (f : float) : string :=
  match f with
  | S754_nan => "NaN"
  | S754_infinity neg => PyFormat.sign neg +:+ "Infinity"
  | S754_zero neg => num_text (zero_num neg)
  | S754_finite neg m e => num_text (repr_num neg m e)
  end.

Definition dec (m e : Z) : float := of_decimal (m <? 0) (Z.abs m) e.
Example float_texts :
  float_text <$> [dec 1 (-1); dec 1 15; dec 1 16; dec 1 (-4); dec 1 (-5); dec 5 (-324); dec (-125) (-2);
    dec 17976931348623157 292; PyFloat.ratio 1 3; of_decimal false 1 400; PyFloat.ratio 1 (2 ^ 44);
    dec 9007199254740993 0; dec 123456789012345678 0; PyFloat.of_Z 100; dec 12345 (-2); dec 9999999999999999999 3] =
  ["0.1"; "1000000000000000.0"; "1e+16"; "0.0001"; "1e-05"; "5e-324"; "-1.25"; "1.7976931348623157e+308";
   "0.3333333333333333"; "Infinity"; "5.684341886080802e-14"; "9007199254740992.0"; "1.2345678901234568e+17";
   "100.0"; "123.45"; "1e+22"].
Proof. vm_compute. reflexivity. Qed.
End Decimals.

(** ** Printing *)
Module Json.
Import Decimals.
Definition code (c : ascii) : Z := Z.of_N (N_of_ascii c).
Definition char (n : Z) : ascii := ascii_of_N (Z.to_N n).
Definition quote_char : ascii := char 34.
Definition backslash : ascii := char 92.

Definition hex_digit (n : Z) : ascii := char (if n <? 10 then 48 + n else 87 + n).
(** The characters with an escape of their own, and the letter of it. *)
Definition short_escapes : list (Z * Z) :=
  [(34, 34); (92, 92); (8, 98); (12, 102); (10, 110); (13, 114); (9, 116)].
Definition short_escape (n : Z) : option Z :=
  snd <$> find_first (λ kv, kv.1 =? n) short_escapes.
Definition escape_char (c : ascii) : string :=
  match short_escape (code c) with
  | Some x => String backslash (String (char x) "")
  | None =>
      if code c <? 32 then
        String backslash ("u00" +:+ String (hex_digit (code c / 16)) (String (hex_digit (code c mod 16)) ""))
      else String c ""
  end.
Fixpoint escape (s : string) : string :=
  match s with "" => "" | String c s => escape_char c +:+ escape s end.
Definition quote (s : string) : string := String quote_char (escape s +:+ String quote_char "").

Definition int_text (z : Z) : string := num_text (mkNum (z <? 0) (N.to_uint (Z.abs_N z)) None None).

(** [\uXXXX] *)
Definition hex4_text (n : Z) : string :=
  String backslash ("u" +:+ String (hex_digit (n / 4096 mod 16)) (String (hex_digit (n / 256 mod 16))
    (String (hex_digit (n / 16 mod 16)) (String (hex_digit (n mod 16)) "")))).

(** The UTF-8 encoding of a code point *)
Definition utf8 (n : Z) : string :=
  let more k := char (128 + (n / 64 ^ k) mod 64) in
  if n <? 128 then String (char n) ""
  else if n <? 2048 then String (char (192 + n / 64)) (String (more 0) "")
  else if n <? 65536 then String (char (224 + n / 4096)) (String (more 1) (String (more 0) ""))
  else String (char (240 + n / 262144)) (String (more 2) (String (more 1) (String (more 0) ""))).

(** Where a document breaks: what follows an opening bracket, a comma and what
    precedes a closing bracket of a container at the given depth; and how a
    string is written. *)
Record style := mkStyle {
  sy_open : nat → string;
  sy_sep : nat → string;
  sy_close : nat → string;
  sy_quote : string → string;
}.
Fixpoint dumps_with (y : style) (depth : nat) (v : pyval) : string :=
  match v with
  | VNone => "null"
  | VBool true => "true"
  | VBool false => "false"
  | VInt z => int_text z
  | VFloat f => float_text f
  | VStr s => sy_quote y s
  | VList [] => "[]"
  | VList l => "[" +:+ sy_open y depth +:+ PyFormat.join ("," +:+ sy_sep y depth) (map (dumps_with y (S depth)) l) +:+
      sy_close y depth +:+ "]"
  | VDict [] => "{}"
  | VDict d => "{" +:+ sy_open y depth +:+
      PyFormat.join ("," +:+ sy_sep y depth) (map (λ kv, sy_quote y kv.1 +:+ ": " +:+ dumps_with y (S depth) kv.2) d) +:+
      sy_close y depth +:+ "}"
  end.

(** [ensure_ascii=False] *)
Definition compact : style := mkStyle (λ _, "") (λ _, " ") (λ _, "") quote.
Definition dumps (v : pyval) : string := dumps_with compact 0 v.

(** [indent=n] *)
Fixpoint spaces (n : nat) : string := match n with O => "" | S n => " " +:+ spaces n end.
Definition newline : string := String (char 10) "".
Definition indented (n : nat) : style :=
  mkStyle (λ depth, newline +:+ spaces (n * S depth)) (λ depth, newline +:+ spaces (n * S depth))
    (λ depth, newline +:+ spaces (n * depth)) quote.
Definition dumps_indent (n : nat) (v : pyval) : string := dumps_with (indented n) 0 v.

(** ** Reading *)
Definition err {A} (msg : string) : res A := Err (ValueError msg).

Definition is_ws (c : ascii) : bool := bool_decide (code c ∈ [32; 9; 10; 13]).
Fixpoint skip_ws (s : string) : string :=
  match s with String c s' => if is_ws c then skip_ws s' else s | "" => "" end.

Definition hex_value (c : ascii) : option Z :=
  let n := code c in
  if (48 <=? n) && (n <=? 57) then Some (n - 48)
  else if (97 <=? n) && (n <=? 102) then Some (n - 87)
  else if (65 <=? n) && (n <=? 70) then Some (n - 55) else None.
Definition hex4 (a b c d : ascii) : option Z :=
  a ← hex_value a; b ← hex_value b; c ← hex_value c; d ← hex_value d;
  Some (((a * 16 + b) * 16 + c) * 16 + d).

Definition high_surrogate (n : Z) : bool := (55296 <=? n) && (n <=? 56319).
Definition low_surrogate (n : Z) : bool := (56320 <=? n) && (n <=? 57343).
Definition join_surrogates (h l : Z) : Z := 65536 + (h - 55296) * 1024 + (l - 56320).

(** [scanstring], after the opening quote: the text and the rest *)
Definition unescape (x : Z) : option Z :=
  fst <$> find_first (λ kv, kv.2 =? x) (short_escapes ++ [(47, 47)]).
Definition prepend (t : string) (r : res (string * string)) : res (string * string) :=
  match r with Ok (u, rest) => Ok (t +:+ u, rest) | Err e => Err e end.
Fixpoint scanstring (s : string) : res (string * string) :=
  match s with
  | "" => err "Unterminated string starting at"
  | String c s1 =>
      if decide (c = quote_char) then Ok ("", s1)
      else if decide (c = backslash) then
        match s1 with
        | "" => err "Unterminated string starting at"
        | String x s2 =>
            if decide (x = "u"%char) then
              match s2 with
              | String a (String b (String c (String d s3))) =>
                  match hex4 a b c d with
                  | None => err "Invalid \uXXXX escape"
                  | Some n =>
                      match high_surrogate n, s3 with
                      | true, String b1 (String u (String a' (String b' (String c' (String d' s4))))) =>
                          if decide (b1 = backslash ∧ u = "u"%char) then
                            match hex4 a' b' c' d' with
                            | None => err "Invalid \uXXXX escape"
                            | Some m =>
                                if low_surrogate m then prepend (utf8 (join_surrogates n m)) (scanstring s4)
                                else prepend (utf8 n) (scanstring s3)
                            end
                          else prepend (utf8 n) (scanstring s3)
                      | _, _ => prepend (utf8 n) (scanstring s3)
                      end
                  end
              | _ => err "Invalid \uXXXX escape"
              end
            else match unescape (code x) with
                 | Some n => prepend (String (char n) "") (scanstring s2)
                 | None => err "Invalid \escape: "
                 end
        end
      else if code c <? 32 then err "Invalid control character at"
      else prepend (String c "") (scanstring s1)
  end.

(** Numbers: an optional minus, a zero or digits that do not start with one, then
    optionally a point with digits and an exponent with digits *)
Definition is_digit (c : ascii) : bool := (48 <=? code c) && (code c <=? 57).
Definition digit_of (c : ascii) (u : Decimal.uint) : Decimal.uint :=
  default u (uint_of_char c (Some u)).
Fixpoint scan_digits (s : string) : Decimal.uint * string :=
  match s with
  | String c s' => if is_digit c then let '(u, r) := scan_digits s' in (digit_of c u, r) else (Decimal.Nil, s)
  | "" => (Decimal.Nil, "")
  end.
Definition scan_digits1 (s : string) : option (Decimal.uint * string) :=
  match scan_digits s with (Decimal.Nil, _) => None | r => Some r end.
Fixpoint strip (p s : string) : option string :=
  match p, s with
  | "", _ => Some s
  | String c p, String c' s => if decide (c = c') then strip p s else None
  | _, _ => None
  end.
Definition scan_sign (s : string) : bool * string :=
  match strip "-" s with Some r => (true, r) | None => (false, s) end.
Definition scan_int (s : string) : option (Decimal.uint * string) :=
  match strip "0" s with
  | Some r => Some (Decimal.D0 Decimal.Nil, r)
  | None => scan_digits1 s
  end.
Definition scan_frac (s : string) : option Decimal.uint * string :=
  match r ← strip "." s; scan_digits1 r with
  | Some (u, r) => (Some u, r)
  | None => (None, s)
  end.
Definition scan_exp_sign (s : string) : option bool * string :=
  match strip "-" s, strip "+" s with
  | Some r, _ => (Some true, r)
  | _, Some r => (Some false, r)
  | None, None => (None, s)
  end.
Definition scan_exp (s : string) : option (option bool * Decimal.uint) * string :=
  let mark := match strip "e" s with Some r => Some r | None => strip "E" s end in
  match r ← mark; '(u, r') ← scan_digits1 (scan_exp_sign r).2; Some ((scan_exp_sign r).1, u, r') with
  | Some (sg, u, r) => (Some (sg, u), r)
  | None => (None, s)
  end.
Definition scan_number (s : string) : option (num * string) :=
  let '(neg, s1) := scan_sign s in
  '(i, s2) ← scan_int s1;
  let '(f, s3) := scan_frac s2 in
  let '(e, s4) := scan_exp s3 in
  Some (mkNum neg i f e, s4).

(** [scan_once] at a value that is no string, object or array *)
Definition words : list (string * pyval) :=
  [("null", VNone); ("true", VBool true); ("false", VBool false)].
Definition constants : list (string * pyval) :=
  [("NaN", VFloat S754_nan); ("Infinity", VFloat (S754_infinity false));
   ("-Infinity", VFloat (S754_infinity true))].
Fixpoint scan_word (l : list (string * pyval)) (s : string) : option (pyval * string) :=
  match l with
  | [] => None
  | (w, v) :: l => match strip w s with Some r => Some (v, r) | None => scan_word l s end
  end.
Definition scan_atom (s : string) : res (pyval * string) :=
  match scan_word words s, scan_number s, scan_word constants s with
  | Some x, _, _ => Ok x
  | None, Some (n, r), _ => Ok (num_value n, r)
  | None, None, Some x => Ok x
  | None, None, None => err "Expecting value"
  end.

(** Each call of the scanner takes one unit of fuel. *)
Fixpoint scan_once (fuel : nat) (s : string) : res (pyval * string) :=
  match fuel with
  | O => Err (Raised "RecursionError" "")
  | S fuel =>
      match s with
      | String c r =>
          if decide (c = quote_char) then '(t, r) ← scanstring r; Ok (VStr t, r)
          else if decide (c = "{"%char) then
            let r := skip_ws r in
            match strip "}" r with
            | Some r => Ok (VDict [], r)
            | None => scan_pairs fuel [] r
            end
          else if decide (c = "["%char) then
            let r := skip_ws r in
            match strip "]" r with
            | Some r => Ok (VList [], r)
            | None => scan_items fuel [] r
            end
          else scan_atom s
      | "" => err "Expecting value"
      end
  end
(** The elements of an array, from the first character of one; [acc] is reversed. *)
with scan_items (fuel : nat) (acc : list pyval) (s : string) : res (pyval * string) :=
  match fuel with
  | O => Err (Raised "RecursionError" "")
  | S fuel =>
      '(v, r) ← scan_once fuel s;
      let r := skip_ws r in
      match strip "]" r, strip "," r with
      | Some r, _ => Ok (VList (reverse (v :: acc)), r)
      | None, Some r => scan_items fuel (v :: acc) (skip_ws r)
      | None, None => err "Expecting ',' delimiter"
      end
  end
(** The members of an object, from the quote of a key. *)
with scan_pairs (fuel : nat) (acc : dict pyval) (s : string) : res (pyval * string) :=
  match fuel with
  | O => Err (Raised "RecursionError" "")
  | S fuel =>
      match strip (String quote_char "") s with
      | None => err "Expecting property name enclosed in double quotes"
      | Some r =>
          '(k, r) ← scanstring r;
          match strip ":" (skip_ws r) with
          | None => err "Expecting ':' delimiter"
          | Some r =>
              '(v, r) ← scan_once fuel (skip_ws r);
              let r := skip_ws r in
              match strip "}" r, strip "," r with
              | Some r, _ => Ok (VDict (dinsert k v acc), r)
              | None, Some r => scan_pairs fuel (dinsert k v acc) (skip_ws r)
              | None, None => err "Expecting ',' delimiter"
              end
          end
      end
  end.

Definition bom : string := utf8 65279.
(** [json.loads(s)]; every call of the scanner but the first follows a character
    of its own. *)
Definition loads (s : string) : res pyval :=
  match strip bom s with
  | Some _ => err "Unexpected UTF-8 BOM (decode using utf-8-sig)"
  | None =>
      '(v, r) ← scan_once (2 * String.length s + 1) (skip_ws s);
      match skip_ws r with "" => Ok v | _ => err "Extra data" end
  end.

(** ** [ensure_ascii=True] *)

(** The first code point of a text and the rest, if the bytes are its encoding *)
Definition first_point (s : string) : Z :=
  match s with
  | String a r =>
      let byte k := match String.get k r with Some b => code b - 128 | None => 0 end in
      if code a <? 128 then code a
      else if code a <? 224 then (code a - 192) * 64 + byte 0%nat
      else if code a <? 240 then ((code a - 224) * 64 + byte 0%nat) * 64 + byte 1%nat
      else (((code a - 240) * 64 + byte 0%nat) * 64 + byte 1%nat) * 64 + byte 2%nat
  | "" => 0
  end.
Definition next_point (s : string) : option (Z * string) :=
  match s with
  | "" => None
  | _ => r ← strip (utf8 (first_point s)) s; Some (first_point s, r)
  end.
(** The code points of a text *)
Fixpoint points (fuel : nat) (s : string) : list Z :=
  match fuel, next_point s with
  | S fuel, Some (n, r) => n :: points fuel r
  | _, _ => []
  end.
Definition points_of (s : string) : list Z := points (String.length s) s.

Definition escape_point (n : Z) : string :=
  match short_escape n with
  | Some x => String backslash (String (char x) "")
  | None =>
      if (32 <=? n) && (n <=? 126) then String (char n) ""
      else if n <? 65536 then hex4_text n
      else hex4_text (55296 + (n - 65536) / 1024) +:+ hex4_text (56320 + (n - 65536) mod 1024)
  end.
Definition concat_strings (l : list string) : string := foldr String.append "" l.
Definition quote_ascii (s : string) : string :=
  String quote_char (concat_strings (escape_point <$> points_of s) +:+ String quote_char "").
Definition ascii_style : style := mkStyle (λ _, "") (λ _, " ") (λ _, "") quote_ascii.
(** [json.dumps(value)] *)
Definition dumps_ascii (v : pyval) : string := dumps_with ascii_style 0 v.

Definition q (s : string) : string := String quote_char (s +:+ String quote_char "").
Example loads_examples :
  loads (" [1, -2.5e1 , {" +:+ q "a\u00e9\n" +:+ ":null} ]" ) =
    Ok (VList [VInt 1; VFloat (PyFloat.of_Z (-25)); VDict [(String "a" (utf8 233) +:+ String (char 10) "", VNone)]]) ∧
  loads "01" = err "Extra data" ∧ loads "[1,]" = err "Expecting value" ∧ loads "-" = err "Expecting value" ∧
  loads "-Infinity" = Ok (VFloat (S754_infinity true)) ∧ loads "" = err "Expecting value" ∧
  loads (q "\ud83d\ude00") = Ok (VStr (utf8 128512)) ∧
  loads ("{" +:+ q "k" +:+ ": 1, " +:+ q "k" +:+ ": 2}") = Ok (VDict [("k", VInt 2)]).
Proof. vm_compute. done. Qed.

Example dumps_examples :
  dumps (VList [VDict [("k", VList [])]; VInt 1]) = "[{" +:+ q "k" +:+ ": []}, 1]" ∧
  dumps_indent 2 (VList [VDict [("k", VList [])]; VInt 1]) =
    PyFormat.join newline ["["; "  {"; "    " +:+ q "k" +:+ ": []"; "  },"; "  1"; "]"] ∧
  dumps_ascii (VStr (utf8 233 +:+ utf8 128512 +:+ utf8 127)) = q "\u00e9\ud83d\ude00\u007f".
Proof. vm_compute. done. Qed.
End Json.

(** ** serialization.py *)
Module Serialization.
Definition serialize (value : pyval) : string := Json.dumps value.
Definition deserialize (raw : option string) : res pyval :=
  match raw with None => Ok VNone | Some raw => Json.loads raw end.
End Serialization.
