(* ===== verification/JsonFacts.v ===== *)
(** * Reading back a printed value

    [loads] inverts [dumps], and always answers with a value or a
    [ValueError]. *)
From Stdlib Require Import Ascii DecimalString DecimalN DecimalZ DecimalFacts.
From S2P Require Import Prelude PyFloat PyValue PyFormat Json.
Import Decimals Json.
Local Open Scope Z_scope.
#[local] Arguments String.append : simpl nomatch.

Module ScanFacts.

Lemma app_assoc_s (a b c : string) : (a +:+ b) +:+ c = a +:+ b +:+ c.
Proof. induction a as [|x a IH]; [done|]. cbn [String.append String.length Nat.add]. by rewrite IH. Qed.
Lemma app_nil_s (a : string) : a +:+ "" = a.
Proof. induction a as [|x a IH]; [done|]. cbn [String.append String.length Nat.add]. by rewrite IH. Qed.
Lemma length_app_s (a b : string) : String.length (a +:+ b) = (String.length a + String.length b)%nat.
Proof. induction a as [|x a IH]; [done|]. cbn [String.append String.length Nat.add]. by rewrite IH. Qed.

Lemma strip_app p s : strip p (p +:+ s) = Some s.
Proof. induction p as [|c p IH]; [done|]. cbn [String.append strip]. by rewrite decide_True. Qed.

(** ** Digits and numbers *)
Definition stops_digits (s : string) : bool :=
  match s with String c _ => negb (is_digit c) | "" => true end.
(** What may follow a number. *)
Definition stops (s : string) : bool :=
  match s with
  | String c _ => negb (is_digit c || bool_decide (c ∈ ["."%char; "e"%char; "E"%char]))
  | "" => true
  end.

Lemma stops_is s : stops s = true →
  stops_digits s = true ∧ strip "." s = None ∧ strip "e" s = None ∧ strip "E" s = None.
Proof.
  destruct s as [|c s]; [done|]. unfold stops. rewrite negb_true_iff, orb_false_iff, bool_decide_eq_false.
  intros [Hd Hc]. cbn [strip]. split_and!; [simpl; by rewrite Hd|..]; rewrite decide_False; set_solver.
Qed.

Lemma scan_digits_app u s : stops_digits s = true → scan_digits (digits u +:+ s) = (u, s).
Proof.
  intros Hs. unfold digits.
  induction u as [|u IH|u IH|u IH|u IH|u IH|u IH|u IH|u IH|u IH|u IH];
    cbn [NilEmpty.string_of_uint]; [|cbn [String.append scan_digits]; by rewrite IH..].
  destruct s as [|c s]; [done|]. cbn. unfold stops_digits in Hs. apply negb_true_iff in Hs. by rewrite Hs.
Qed.

Lemma scan_digits1_app u s : u ≠ Decimal.Nil → stops_digits s = true → scan_digits1 (digits u +:+ s) = Some (u, s).
Proof. intros Hu Hs. unfold scan_digits1. rewrite scan_digits_app by done. by destruct u. Qed.

Definition nonempty (u : Decimal.uint) : bool := match u with Decimal.Nil => false | _ => true end.
Definition int_part (u : Decimal.uint) : bool :=
  match u with Decimal.D0 Decimal.Nil => true | Decimal.D0 _ | Decimal.Nil => false | _ => true end.
(** A number of the grammar. *)
Definition num_ok (n : num) : bool :=
  int_part (nm_int n) && from_option nonempty true (nm_frac n) && from_option (nonempty ∘ snd) true (nm_exp n).

Lemma nonempty_Nil u : nonempty u = true → u ≠ Decimal.Nil.
Proof. by destruct u. Qed.

Lemma scan_int_app u s : int_part u = true → stops_digits s = true → scan_int (digits u +:+ s) = Some (u, s).
Proof.
  intros Hu Hs. assert (u ≠ Decimal.Nil) by (by destruct u).
  unfold scan_int. destruct u as [|[]| | | | | | | | |]; try done; apply (scan_digits1_app _ s); done.
Qed.

Lemma scan_sign_app neg u s : int_part u = true →
  scan_sign (PyFormat.sign neg +:+ digits u +:+ s) = (neg, digits u +:+ s).
Proof. intros Hu. destruct neg; [done|]. by destruct u. Qed.

Lemma scan_exp_sign_app (sg : option bool) u s : nonempty u = true →
  scan_exp_sign (match sg with Some true => "-" | Some false => "+" | None => "" end +:+ digits u +:+ s) =
  (sg, digits u +:+ s).
Proof. intros Hu. destruct sg as [[]|]; [done..|]. by destruct u. Qed.

Lemma scan_exp_none s : strip "e" s = None → strip "E" s = None → scan_exp s = (None, s).
Proof. intros He HE. unfold scan_exp. by rewrite He, HE. Qed.

Lemma scan_exp_app sg u s : nonempty u = true → stops_digits s = true →
  scan_exp ("e" +:+ match sg with Some true => "-" | Some false => "+" | None => "" end +:+ digits u +:+ s) =
  (Some (sg, u), s).
Proof.
  intros Hu Hs. unfold scan_exp. rewrite strip_app. cbn [mbind option_bind].
  rewrite scan_exp_sign_app by done. cbn [fst snd].
  by rewrite scan_digits1_app by (done || by apply nonempty_Nil).
Qed.

Lemma scan_frac_app u s : nonempty u = true → stops_digits s = true →
  scan_frac ("." +:+ digits u +:+ s) = (Some u, s).
Proof.
  intros Hu Hs. unfold scan_frac. rewrite strip_app. cbn [mbind option_bind].
  by rewrite scan_digits1_app by (done || by apply nonempty_Nil).
Qed.

Lemma scan_number_app n s : num_ok n = true → stops s = true → scan_number (num_text n +:+ s) = Some (n, s).
Proof.
  destruct n as [neg i f e]. unfold num_ok. cbn [nm_int nm_frac nm_exp].
  rewrite !andb_true_iff. intros [[Hi Hf] He] (Hd & Hp & Hle & HE)%stops_is.
  set (tail := match e with
    | Some (sg, u) => "e" +:+ match sg with Some true => "-" | Some false => "+" | None => "" end +:+ digits u
    | None => "" end).
  assert (scan_exp (tail +:+ s) = (e, s) ∧ stops_digits (tail +:+ s) = true ∧ strip "." (tail +:+ s) = None)
    as (Hexp & Hdt & Hpt).
  { subst tail. destruct e as [[sg u]|]; [|by rewrite scan_exp_none].
    rewrite !app_assoc_s, scan_exp_app by done. done. }
  unfold num_text, scan_number. cbn [nm_neg nm_int nm_frac nm_exp]. fold tail.
  rewrite !app_assoc_s, scan_sign_app by done.
  destruct f as [u|]; rewrite ?app_assoc_s.
  - rewrite scan_int_app by done. cbn [mbind option_bind]. rewrite scan_frac_app by done. by rewrite Hexp.
  - change ("" +:+ tail +:+ s) with (tail +:+ s). rewrite scan_int_app by done. cbn [mbind option_bind].
    unfold scan_frac. rewrite Hpt. cbn [mbind option_bind]. by rewrite Hexp.
Qed.

Lemma int_part_to_uint n : int_part (N.to_uint n) = true.
Proof.
  rewrite <-(DecimalN.Unsigned.of_to n), DecimalN.Unsigned.to_of. unfold Decimal.unorm.
  generalize (N.to_uint n). intros u. induction u; try done.
Qed.

Lemma int_value z : num_value (mkNum (z <? 0) (N.to_uint (Z.abs_N z)) None None) = VInt z.
Proof.
  unfold num_value, uint_Z. cbn [nm_neg nm_int nm_frac nm_exp]. rewrite DecimalN.Unsigned.of_to. f_equal.
  unfold cond_Zopp. destruct (z <? 0) eqn:E; lia.
Qed.

(** The text of a float is a number that reads back as the float. *)
Definition json_float (f : float) : bool :=
  match f with
  | S754_finite neg m e =>
      num_ok (repr_num neg m e) && bool_decide (num_value (repr_num neg m e) = VFloat f)
  | _ => true
  end.

(** ** Strings *)
Lemma scanstring_char c s : scanstring (escape_char c +:+ s) = prepend (String c "") (scanstring s).
Proof. destruct c as [[] [] [] [] [] [] [] []]; reflexivity. Qed.

Lemma scanstring_app t s : scanstring (escape t +:+ String quote_char s) = Ok (t, s).
Proof.
  induction t as [|c t IH]; [done|]. cbn [escape]. rewrite app_assoc_s, scanstring_char, IH. done.
Qed.

(** ** Atoms *)
(** The first character of a value. *)
Definition value_head (c : ascii) : bool := (32 <? code c) && (code c <? 127) && negb (bool_decide (c = "]"%char)).
Definition atom_head (c : ascii) : bool :=
  value_head c && negb (bool_decide (c ∈ [quote_char; "{"%char; "["%char])).
Definition starts (p : ascii → bool) (s : string) : bool :=
  match s with String c _ => p c | "" => false end.

Lemma starts_app p s t : starts p s = true → starts p (s +:+ t) = true.
Proof. by destruct s. Qed.
Lemma starts_digits p u s : (∀ c, is_digit c = true → p c = true) → nonempty u = true →
  starts p (digits u +:+ s) = true.
Proof. intros Hp Hu. destruct u; [done|..]; by apply Hp. Qed.
Definition num_head (c : ascii) : bool := is_digit c || bool_decide (c = "-"%char).
Lemma starts_num n s : num_ok n = true → starts num_head (num_text n +:+ s) = true.
Proof.
  destruct n as [neg i f e]. unfold num_ok, num_text. cbn [nm_neg nm_int nm_frac nm_exp].
  rewrite !andb_true_iff. intros [[Hi _] _]. rewrite !app_assoc_s. destruct neg; [done|].
  apply starts_digits; [|by destruct i]. intros c Hc. unfold num_head. by rewrite Hc.
Qed.
Lemma starts_mono (p p' : ascii → bool) s : (∀ c, p c = true → p' c = true) → starts p s = true → starts p' s = true.
Proof. destruct s; [done|]. simpl. auto. Qed.
Lemma num_head_atom c : num_head c = true → atom_head c = true.
Proof. destruct c as [[] [] [] [] [] [] [] []]; by vm_compute. Qed.

Lemma scan_word_none s : starts num_head s = true → scan_word words s = None.
Proof.
  destruct s as [|c s]; [done|]. simpl. intros Hc.
  rewrite !decide_False; [done|..]; intros <-; by vm_compute in Hc.
Qed.

Lemma scan_atom_num n s : num_ok n = true → stops s = true → scan_atom (num_text n +:+ s) = Ok (num_value n, s).
Proof.
  intros Hn Hs. unfold scan_atom. rewrite scan_word_none by by apply starts_num.
  by rewrite scan_number_app.
Qed.
End ScanFacts.

Module JsonRoundTrip.
Import ScanFacts.

(** Values that survive: keys are unique, and the text of every float reads back
    as the float. *)
Fixpoint json_ok (v : pyval) : bool :=
  match v with
  | VFloat f => json_float f
  | VList l => forallb json_ok l
  | VDict d => bool_decide (NoDup (dkeys d)) && forallb (λ kv, json_ok kv.2) d
  | _ => true
  end.
(** Every string and key satisfies [p]. *)
Fixpoint texts_ok (p : string → bool) (v : pyval) : bool :=
  match v with
  | VStr t => p t
  | VList l => forallb (texts_ok p) l
  | VDict d => forallb (λ kv, p kv.1 && texts_ok p kv.2) d
  | _ => true
  end.
Lemma texts_ok_true v : texts_ok (λ _, true) v = true.
Proof.
  induction v as [|b|z|f|t|l IH|d IH] using pyval_ind'; try done; cbn [texts_ok]; apply forallb_forall;
    intros x Hx%list_elem_of_In; exact (proj1 (Forall_forall _ _) IH x Hx).
Qed.

Fixpoint all_ws (s : string) : bool :=
  match s with String c s => is_ws c && all_ws s | "" => true end.
Lemma skip_ws_app w s : all_ws w = true → skip_ws (w +:+ s) = skip_ws s.
Proof. induction w as [|c w IH]; [done|]. simpl. destruct (is_ws c); [done|easy]. Qed.

(** What reading back asks of a style: its breaks are blank, and the scanner
    reads a written text that satisfies [p]. *)
Class Readable (y : style) (p : string → bool) : Prop := {
  open_ws n : all_ws (sy_open y n) = true;
  sep_ws n : all_ws (sy_sep y n) = true;
  close_ws n : all_ws (sy_close y n) = true;
  quote_reads t : p t = true → ∃ u, sy_quote y t = String quote_char u ∧ ∀ s, scanstring (u +:+ s) = Ok (t, s);
}.

Lemma value_head_ws c : value_head c = true → is_ws c = false.
Proof. destruct c as [[] [] [] [] [] [] [] []]; by vm_compute. Qed.
Lemma skip_ws_starts s : starts value_head s = true → skip_ws s = s.
Proof. destruct s as [|c s]; [done|]. simpl. intros Hc. by rewrite value_head_ws. Qed.
Lemma strip_bracket s : starts value_head s = true → strip "]" s = None.
Proof. destruct s as [|c s]; [done|]. simpl. intros Hc. rewrite decide_False; [done|]. intros <-. by vm_compute in Hc. Qed.
Lemma atom_value c : atom_head c = true → value_head c = true.
Proof. unfold atom_head. by intros [? _]%andb_true_iff. Qed.

Lemma float_text_starts f : json_float f = true → starts atom_head (float_text f) = true.
Proof.
  destruct f as [[]|[]| |neg m e]; try done; intros [Hok _]%andb_true_iff.
  unfold float_text. rewrite <-(app_nil_s (num_text _)). eapply starts_mono; [apply num_head_atom|by apply starts_num].
Qed.
Lemma int_ok z : num_ok (mkNum (z <? 0) (N.to_uint (Z.abs_N z)) None None) = true.
Proof. unfold num_ok. cbn [nm_int nm_frac nm_exp]. by rewrite int_part_to_uint. Qed.
Lemma int_text_starts z : starts atom_head (int_text z) = true.
Proof.
  unfold int_text. rewrite <-(app_nil_s (num_text _)). eapply starts_mono; [apply num_head_atom|].
  apply starts_num, int_ok.
Qed.

Lemma scan_once_atom fuel s : starts atom_head s = true → scan_once (S fuel) s = scan_atom s.
Proof.
  destruct s as [|c s]; [done|]. unfold starts, atom_head.
  rewrite andb_true_iff, negb_true_iff, bool_decide_eq_false. intros [_ Hc]. cbn [scan_once].
  rewrite !decide_False by set_solver. done.
Qed.

Lemma scan_atom_float f s : json_float f = true → stops s = true → scan_atom (float_text f +:+ s) = Ok (VFloat f, s).
Proof.
  destruct f as [neg|neg| |neg m e].
  - intros _ Hs. unfold float_text. rewrite scan_atom_num by by destruct neg. by destruct neg.
  - intros _ _. by destruct neg.
  - done.
  - intros [Hok Hv%bool_decide_eq_true]%andb_true_iff Hs. unfold float_text. by rewrite scan_atom_num, Hv.
Qed.

Lemma join_starts p sep x l s : starts p x = true → starts p (PyFormat.join sep (x :: l) +:+ s) = true.
Proof. intros Hx. apply starts_app. destruct l; [done|]. by apply starts_app. Qed.
Lemma join_cons sep x x' l : PyFormat.join sep (x :: x' :: l) = x +:+ sep +:+ PyFormat.join sep (x' :: l).
Proof. done. Qed.
Lemma strip_comma s : strip "," ("," +:+ s) = Some s.
Proof. done. Qed.
Lemma skip_comma s : skip_ws ("," +:+ s) = "," +:+ s.
Proof. done. Qed.
Lemma comma_no_bracket s : strip "]" ("," +:+ s) = None.
Proof. done. Qed.
Lemma comma_no_brace s : strip "}" ("," +:+ s) = None.
Proof. done. Qed.
Lemma stops_ws w s : all_ws w = true → stops s = true → stops (w +:+ s) = true.
Proof.
  destruct w as [|c w]; [done|]. intros [Hc _]%andb_true_iff _. revert Hc.
  destruct c as [[] [] [] [] [] [] [] []]; by vm_compute.
Qed.
(** After the last element: blanks and the closing bracket. *)
Lemma close_bracket w s : all_ws w = true → strip "]" (skip_ws (w +:+ "]" +:+ s)) = Some s.
Proof. intros Hw. by rewrite skip_ws_app. Qed.
Lemma close_brace w s : all_ws w = true → strip "}" (skip_ws (w +:+ "}" +:+ s)) = Some s.
Proof. intros Hw. by rewrite skip_ws_app. Qed.

Lemma dinsert_fresh {A} k (v : A) d : k ∉ dkeys d → dinsert k v d = d ++ [(k, v)].
Proof.
  induction d as [|[k' v'] d IH]; [done|]. rewrite dkeys_cons, not_elem_of_cons. intros [Hne Hk]. cbn [dinsert].
  rewrite decide_False by done. by rewrite IH.
Qed.

Section printed.
Context (y : style) (p : string → bool) `{Hy : !Readable y p}.
#[local] Set Default Proof Using "Hy".

Definition fit (v : pyval) : Prop := json_ok v = true ∧ texts_ok p v = true.

Lemma dumps_starts n v : fit v → starts value_head (dumps_with y n v) = true.
Proof.
  intros [Hv Ht]. destruct v as [|[]|z|f|t|[]|[]]; try done.
  - eapply starts_mono; [apply atom_value|apply int_text_starts].
  - eapply starts_mono; [apply atom_value|by apply float_text_starts].
  - destruct (quote_reads t Ht) as (u & Hu & _). cbn [dumps_with]. by rewrite Hu.
Qed.
Lemma skip_dumps n v s : fit v → skip_ws (dumps_with y n v +:+ s) = dumps_with y n v +:+ s.
Proof. intros Hv. by apply skip_ws_starts, starts_app, dumps_starts. Qed.

Lemma fit_list l : fit (VList l) ↔ Forall fit l.
Proof.
  unfold fit. cbn [json_ok texts_ok]. rewrite !forallb_forall, Forall_forall. setoid_rewrite <-list_elem_of_In. naive_solver.
Qed.
Lemma fit_dict d : fit (VDict d) ↔ NoDup (dkeys d) ∧ Forall (λ kv, p kv.1 = true ∧ fit kv.2) d.
Proof.
  unfold fit. cbn [json_ok texts_ok]. rewrite andb_true_iff, bool_decide_eq_true, !forallb_forall, Forall_forall.
  setoid_rewrite <-list_elem_of_In. setoid_rewrite andb_true_iff. naive_solver.
Qed.

(** What the scanner does on a printed value, whatever follows it. *)
Definition reads (v : pyval) : Prop := ∀ n fuel s, fit v → stops s = true →
  (2 * String.length (dumps_with y n v) + 1 ≤ fuel)%nat → scan_once fuel (dumps_with y n v +:+ s) = Ok (v, s).

Definition member (n : nat) (kv : string * pyval) : string := sy_quote y kv.1 +:+ ": " +:+ dumps_with y n kv.2.
Definition listed (n : nat) (l : list string) : string := PyFormat.join ("," +:+ sy_sep y n) l.

Lemma items_read n m l : ∀ fuel acc s, l ≠ [] → Forall reads l → Forall fit l →
  (2 * String.length (listed n (map (dumps_with y m) l)) + 2 ≤ fuel)%nat →
  scan_items fuel acc (listed n (map (dumps_with y m) l) +:+ sy_close y n +:+ "]" +:+ s) =
  Ok (VList (reverse acc ++ l), s).
Proof.
  unfold listed. induction l as [|v l IH]; intros fuel acc s Hne Hr Hok Hf; [done|].
  apply Forall_cons in Hr as [Hv Hr]. apply Forall_cons in Hok as [Hvok Hlok].
  destruct fuel as [|fuel]; [lia|]. cbn [scan_items].
  destruct l as [|v' l]; [cbn [map PyFormat.join] in *|rewrite !map_cons, join_cons in *].
  - rewrite Hv by (done || lia || by apply stops_ws; [apply close_ws|]). cbn [mbind res_bind].
    rewrite close_bracket by apply close_ws. by rewrite reverse_cons.
  - rewrite !length_app_s in Hf. change (String.length ",") with 1%nat in Hf. rewrite !app_assoc_s, Hv by (done || lia).
    cbn [mbind res_bind].
    rewrite skip_comma, comma_no_bracket, strip_comma, skip_ws_app by apply sep_ws. rewrite skip_ws_starts.
    + rewrite (IH fuel (v :: acc) s); [by rewrite reverse_cons, <-app_assoc|done|done|done|].
      lia.
    + apply join_starts, dumps_starts. by apply Forall_cons in Hlok as [? _].
Qed.

Lemma member_reads n kv t : p kv.1 = true → ∃ r, member n kv +:+ t = String quote_char r ∧
  scanstring r = Ok (kv.1, ": " +:+ dumps_with y n kv.2 +:+ t).
Proof.
  destruct kv as [k v]. intros Hk. destruct (quote_reads k Hk) as (u & Hu & Hsc). unfold member. cbn [fst snd].
  rewrite Hu. eexists. split; [cbn [String.append]; reflexivity|]. by rewrite !app_assoc_s, Hsc.
Qed.

Lemma pairs_read n m d : ∀ fuel acc s, d ≠ [] → Forall (λ kv, reads kv.2) d →
  Forall (λ kv, p kv.1 = true ∧ fit kv.2) d → NoDup (dkeys (acc ++ d)) →
  (2 * String.length (listed n (map (member m) d)) + 2 ≤ fuel)%nat →
  scan_pairs fuel acc (listed n (map (member m) d) +:+ sy_close y n +:+ "}" +:+ s) = Ok (VDict (acc ++ d), s).
Proof.
  unfold listed. induction d as [|[k v] d IH]; intros fuel acc s Hne Hr Hok Hnd Hf; [done|].
  apply Forall_cons in Hr as [Hv Hr]. apply Forall_cons in Hok as [[Hkok Hvok] Hlok]. cbn [fst snd] in *.
  assert (k ∉ dkeys acc) as Hk.
  { intros Hin. rewrite dkeys_app, NoDup_app in Hnd. destruct Hnd as (_ & Hd & _). by apply (Hd k Hin), elem_of_cons; left. }
  destruct fuel as [|fuel]; [lia|]. cbn [scan_pairs].
  assert (String.length (dumps_with y m v) ≤ String.length (member m (k, v)))%nat as Hlen.
  { unfold member. rewrite !length_app_s. cbn [fst snd]. lia. }
  assert (∀ t, strip ":" (skip_ws (": " +:+ t)) = Some (" " +:+ t)) as Hcolon by done.
  assert (∀ t, skip_ws (" " +:+ t) = skip_ws t) as Hspace by done.
  assert (∀ r, strip (String quote_char "") (String quote_char r) = Some r) as Hq by done.
  destruct d as [|[k' v'] d]; [cbn [map PyFormat.join] in *|rewrite !map_cons, join_cons in *].
  - destruct (member_reads m (k, v) (sy_close y n +:+ "}" +:+ s) Hkok) as (r & -> & Hsc).
    rewrite Hq, Hsc. cbn [mbind res_bind fst snd]. rewrite Hcolon, Hspace, skip_dumps by done.
    rewrite Hv by (done || lia || by apply stops_ws; [apply close_ws|]). cbn [mbind res_bind].
    rewrite close_brace by apply close_ws. by rewrite dinsert_fresh.
  - rewrite !length_app_s in Hf. change (String.length ",") with 1%nat in Hf. rewrite !app_assoc_s.
    match goal with |- context [member m (k, v) +:+ ?t] =>
      destruct (member_reads m (k, v) t Hkok) as (r & -> & Hsc) end.
    rewrite Hq, Hsc. cbn [mbind res_bind fst snd]. rewrite Hcolon, Hspace, skip_dumps, Hv by (done || lia).
    cbn [mbind res_bind].
    rewrite skip_comma, comma_no_brace, strip_comma, skip_ws_app by apply sep_ws. rewrite skip_ws_starts.
    + rewrite dinsert_fresh, (IH fuel (acc ++ [(k, v)]) s); rewrite <-?app_assoc; try done.
      lia.
    + apply join_starts. apply Forall_cons in Hlok as [[Hk' _] _].
      destruct (member_reads m (k', v') "" Hk') as (r' & Hr' & _). rewrite app_nil_s in Hr'. by rewrite Hr'.
Qed.

Lemma dumps_reads v : reads v.
Proof.
  induction v as [|b|z|f|t|l IH|d IH] using pyval_ind'; intros n fuel s Hok Hs Hf; destruct fuel as [|fuel]; try lia.
  - done.
  - by destruct b.
  - rewrite scan_once_atom by (by apply starts_app, int_text_starts). cbn [dumps_with]. unfold int_text.
    by rewrite scan_atom_num, int_value by (done || apply int_ok).
  - destruct Hok as [Hok _]. rewrite scan_once_atom by (by apply starts_app, float_text_starts). by apply scan_atom_float.
  - destruct Hok as [_ Hok]. destruct (quote_reads t Hok) as (u & Hu & Hsc). cbn [dumps_with]. rewrite Hu.
    cbn [String.append scan_once]. rewrite decide_True by done. by rewrite Hsc.
  - destruct l as [|v l]; [done|]. cbn [dumps_with] in *. fold (listed n (map (dumps_with y (S n)) (v :: l))) in *.
    rewrite !length_app_s in Hf. cbn [String.length] in Hf. apply fit_list in Hok. rewrite !app_assoc_s.
    change (scan_once (S fuel) ("[" +:+ ?t)) with
      (match strip "]" (skip_ws t) with
       | Some r => Ok (VList [], r)
       | None => scan_items fuel [] (skip_ws t) end).
    rewrite skip_ws_app by apply open_ws. rewrite skip_ws_starts, strip_bracket.
    + by rewrite items_read by (done || lia).
    + apply join_starts, dumps_starts. by apply Forall_cons in Hok as [? _].
    + apply join_starts, dumps_starts. by apply Forall_cons in Hok as [? _].
  - destruct d as [|kv d]; [done|]. cbn [dumps_with] in *.
    change (λ kv, sy_quote y kv.1 +:+ ": " +:+ dumps_with y (S n) kv.2) with (member (S n)) in *.
    fold (listed n (map (member (S n)) (kv :: d))) in *.
    rewrite !length_app_s in Hf. cbn [String.length] in Hf. apply fit_dict in Hok as [Hnd Hok]. rewrite !app_assoc_s.
    change (scan_once (S fuel) ("{" +:+ ?t)) with
      (match strip "}" (skip_ws t) with
       | Some r => Ok (VDict [], r)
       | None => scan_pairs fuel [] (skip_ws t) end).
    assert (starts (λ c, bool_decide (c = quote_char)) (listed n (map (member (S n)) (kv :: d)) +:+
      sy_close y n +:+ "}" +:+ s) = true) as Hq.
    { apply join_starts. pose proof Hok as [[Hk _] _]%Forall_cons.
      destruct (member_reads (S n) kv "" Hk) as (r' & Hr' & _). rewrite app_nil_s in Hr'. by rewrite Hr'. }
    rewrite skip_ws_app, skip_ws_starts by (apply open_ws || by eapply starts_mono; [|exact Hq]; intros ? ->%bool_decide_eq_true).
    assert (∀ t, starts (λ c, bool_decide (c = quote_char)) t = true → strip "}" t = None) as Hb.
    { intros [|c t]; [done|]. intros ->%bool_decide_eq_true. done. }
    rewrite Hb by done. by rewrite (pairs_read _ _ (kv :: d)) by (done || lia).
Qed.

(** Blanks may follow the document. *)
Lemma loads_dumps_ws v w : fit v → all_ws w = true → loads (dumps_with y 0 v +:+ w) = Ok v.
Proof.
  intros Hv Hw. unfold loads. pose proof (dumps_starts 0 v Hv) as Hst.
  assert (strip bom (dumps_with y 0 v +:+ w) = None) as ->.
  { destruct (dumps_with y 0 v) as [|c s]; [done|]. unfold bom. simpl. rewrite decide_False; [done|].
    intros <-. by vm_compute in Hst. }
  rewrite skip_dumps, (dumps_reads v) by (done || (rewrite length_app_s; lia) || by rewrite <-(app_nil_s w); apply stops_ws).
  cbn [mbind res_bind]. by rewrite <-(app_nil_s w), skip_ws_app.
Qed.
Lemma loads_dumps_with v : fit v → loads (dumps_with y 0 v) = Ok v.
Proof. intros Hv. rewrite <-(app_nil_s (dumps_with y 0 v)). by apply loads_dumps_ws. Qed.
End printed.

Lemma quote_readable t : ∃ u, quote t = String quote_char u ∧ ∀ s, scanstring (u +:+ s) = Ok (t, s).
Proof. eexists. split; [reflexivity|]. intros s. rewrite app_assoc_s. apply scanstring_app. Qed.
#[export] Instance compact_readable : Readable compact (λ _, true).
Proof. split; try done. intros t _. apply quote_readable. Qed.
Lemma spaces_ws n : all_ws (spaces n) = true.
Proof. by induction n. Qed.
#[export] Instance indented_readable n : Readable (indented n) (λ _, true).
Proof. split; [intros; apply spaces_ws..|]. intros t _. apply quote_readable. Qed.

Lemma loads_dumps v : json_ok v = true → loads (dumps v) = Ok v.
Proof. intros Hv. apply (loads_dumps_with compact (λ _, true)). split; [done|apply texts_ok_true]. Qed.
Lemma loads_dumps_indent n v w : json_ok v = true → all_ws w = true → loads (dumps_indent n v +:+ w) = Ok v.
Proof. intros Hv. apply (loads_dumps_ws (indented n) (λ _, true)). split; [done|apply texts_ok_true]. Qed.

(** ** [ensure_ascii=True] *)
(** A code point that is no surrogate. *)
Definition scalar (n : Z) : bool := (0 <=? n) && (n <? 55296) || (57344 <=? n) && (n <? 1114112).
(** The bytes are the encoding of such code points. *)
Definition scalar_text (t : string) : bool :=
  bool_decide (concat_strings (utf8 <$> points_of t) = t) && forallb scalar (points_of t).

Lemma hex_value_digit d : 0 <= d < 16 → hex_value (hex_digit d) = Some d.
Proof.
  intros Hd. assert (d ∈ seqZ 0 16) as Hin by (apply elem_of_seqZ; lia). clear Hd. revert d Hin.
  apply Forall_forall. by repeat constructor.
Qed.
Lemma hex4_digits n : 0 <= n < 65536 → hex4 (hex_digit (n / 4096 mod 16)) (hex_digit (n / 256 mod 16))
  (hex_digit (n / 16 mod 16)) (hex_digit (n mod 16)) = Some n.
Proof.
  intros Hn. unfold hex4. rewrite !hex_value_digit by (apply Z.mod_pos_bound; lia). cbn [mbind option_bind]. f_equal.
  pose proof (Z.div_div n 16 16 ltac:(lia) ltac:(lia)) as H2. pose proof (Z.div_div n 256 16 ltac:(lia) ltac:(lia)) as H3.
  assert (n / 4096 < 16) by (apply Z.div_lt_upper_bound; lia). assert (0 <= n / 4096) by (apply Z.div_pos; lia).
  change (16 * 16) with 256 in H2. change (256 * 16) with 4096 in H3. rewrite (Z.mod_small (n / 4096) 16) by lia.
  pose proof (Z.div_mod n 16 ltac:(lia)). pose proof (Z.div_mod (n / 16) 16 ltac:(lia)) as E2.
  pose proof (Z.div_mod (n / 256) 16 ltac:(lia)) as E3. rewrite H2 in E2. rewrite H3 in E3. lia.
Qed.

(** [\uXXXX] read as one code point, or with the next as a pair. *)
Lemma scan_hex4 n s : 0 <= n < 65536 → high_surrogate n = false →
  scanstring (hex4_text n +:+ s) = prepend (utf8 n) (scanstring s).
Proof.
  intros Hn Hh. unfold hex4_text. cbn -[hex4 utf8 hex_digit Z.div Z.modulo high_surrogate low_surrogate prepend].
  rewrite hex4_digits by done. by rewrite Hh.
Qed.
Lemma scan_pair h l s : 55296 <= h <= 56319 → 56320 <= l <= 57343 →
  scanstring (hex4_text h +:+ hex4_text l +:+ s) = prepend (utf8 (join_surrogates h l)) (scanstring s).
Proof.
  intros Hh Hl. unfold hex4_text. cbn -[hex4 utf8 hex_digit Z.div Z.modulo high_surrogate low_surrogate prepend join_surrogates].
  rewrite !hex4_digits by lia.
  assert (high_surrogate h = true) as -> by (unfold high_surrogate; lia).
  assert (low_surrogate l = true) as -> by (unfold low_surrogate; lia). done.
Qed.
Lemma scan_ascii_point c s : code c < 128 → scanstring (escape_point (code c) +:+ s) = prepend (utf8 (code c)) (scanstring s).
Proof. destruct c as [[] [] [] [] [] [] [] []]; intros Hc; first [by vm_compute in Hc|reflexivity]. Qed.

Lemma code_char n : 0 <= n < 256 → code (char n) = n.
Proof. intros Hn. unfold code, char. rewrite N_ascii_embedding; lia. Qed.
Lemma short_escape_ascii n : 128 <= n → short_escape n = None.
Proof.
  intros Hn. unfold short_escape. rewrite (proj2 (find_first_None _ _)); [done|].
  apply Forall_forall. repeat constructor; cbn [fst]; lia.
Qed.

Lemma scan_point n s : scalar n = true → scanstring (escape_point n +:+ s) = prepend (utf8 n) (scanstring s).
Proof.
  intros Hn. unfold scalar in Hn. destruct (Z.ltb_spec n 128) as [Hlt|Hge].
  { rewrite <-(code_char n) by lia. apply scan_ascii_point. rewrite code_char; lia. }
  unfold escape_point. rewrite short_escape_ascii by done.
  replace ((32 <=? n) && (n <=? 126)) with false by lia. destruct (Z.ltb_spec n 65536).
  - apply scan_hex4; [lia|]. unfold high_surrogate. lia.
  - pose proof (Z.div_mod (n - 65536) 1024 ltac:(lia)). pose proof (Z.mod_pos_bound (n - 65536) 1024 ltac:(lia)).
    rewrite app_assoc_s, scan_pair by lia. do 2 f_equal. unfold join_surrogates. lia.
Qed.

Lemma prepend_prepend t u r : prepend t (prepend u r) = prepend (t +:+ u) r.
Proof. destruct r as [[]|]; [|done]. cbn. by rewrite app_assoc_s. Qed.
Lemma scan_points l s : forallb scalar l = true →
  scanstring (concat_strings (escape_point <$> l) +:+ String quote_char s) = Ok (concat_strings (utf8 <$> l), s).
Proof.
  induction l as [|n l IH]; [done|]. intros [Hn Hl]%andb_true_iff. rewrite !fmap_cons. cbn [concat_strings foldr].
  rewrite app_assoc_s, scan_point by done. fold (concat_strings (escape_point <$> l)). by rewrite IH.
Qed.

#[export] Instance ascii_readable : Readable ascii_style scalar_text.
Proof.
  split; try done. intros t [Ht%bool_decide_eq_true Hs]%andb_true_iff. eexists. split; [reflexivity|].
  intros s. rewrite app_assoc_s. cbn [String.append]. rewrite scan_points by done. by rewrite Ht.
Qed.
Lemma loads_dumps_ascii v : json_ok v = true → texts_ok scalar_text v = true → loads (dumps_ascii v) = Ok v.
Proof. intros Hv Ht. by apply (loads_dumps_with ascii_style scalar_text). Qed.


(** ** The scanner never runs out of fuel *)
Lemma strip_length p s r : strip p s = Some r → String.length s = (String.length p + String.length r)%nat.
Proof.
  revert s. induction p as [|c p IH]; intros s; [by intros [= ->]|]. destruct s as [|c' s]; [done|].
  cbn [strip]. case_decide; [|done]. intros Hl%IH. simpl. lia.
Qed.
Lemma skip_ws_length s : (String.length (skip_ws s) ≤ String.length s)%nat.
Proof. induction s as [|c s IH]; [done|]. simpl. destruct (is_ws c); simpl; lia. Qed.
(** A scanner answers with a value and a rest of the text, or a [ValueError]. *)
Definition answered {A} (n : nat) (r : res (A * string)) : Prop :=
  match r with
  | Ok (_, rest) => (String.length rest ≤ n)%nat
  | Err (ValueError _) => True
  | Err _ => False
  end.
Lemma answered_mono {A} n n' (r : res (A * string)) : answered n r → (n ≤ n')%nat → answered n' r.
Proof. destruct r as [[]|[]]; simpl; lia. Qed.
Lemma answered_bind {A B} n n' (r : res (A * string)) (f : A * string → res (B * string)) :
  answered n r → (∀ a rest, (String.length rest ≤ n)%nat → answered n' (f (a, rest))) → answered n' (r ≫= f).
Proof. destruct r as [[a rest]|[]]; simpl; auto. Qed.
Lemma answered_prepend n t r : answered n r → answered n (prepend t r).
Proof. by destruct r as [[]|]. Qed.

Lemma scanstring_answers n : ∀ s, (String.length s ≤ n)%nat → answered (String.length s) (scanstring s).
Proof.
  induction n as [|n IH]; intros s Hn; [by destruct s; [|simpl in *; lia]|].
  destruct s as [|c s]; [done|]. cbn [scanstring]. cbn [String.length] in Hn.
  unfold err. repeat (case_decide || case_match); try exact I;
    try (apply answered_prepend; eapply answered_mono; [apply IH|]; cbn [String.length] in *; lia).
  cbn [answered String.length]. lia.
Qed.

Lemma scan_digits_length s : (String.length (scan_digits s).2 ≤ String.length s)%nat.
Proof.
  induction s as [|c s IH]; [done|]. cbn [scan_digits]. destruct (is_digit c); [|done].
  destruct (scan_digits s). simpl in *. lia.
Qed.
Lemma scan_digits1_length s u r : scan_digits1 s = Some (u, r) → (String.length r ≤ String.length s)%nat.
Proof.
  unfold scan_digits1. pose proof (scan_digits_length s) as Hl. destruct (scan_digits s) as [u' r'].
  destruct u'; intros [= <- <-]; done.
Qed.
Lemma scan_sign_length s : (String.length (scan_sign s).2 ≤ String.length s)%nat.
Proof. unfold scan_sign. destruct (strip "-" s) eqn:E; [|done]. apply strip_length in E. simpl in *. lia. Qed.
Lemma scan_int_length s u r : scan_int s = Some (u, r) → (String.length r ≤ String.length s)%nat.
Proof.
  unfold scan_int. destruct (strip "0" s) eqn:E; [|apply scan_digits1_length].
  apply strip_length in E. intros [= _ <-]. simpl in *. lia.
Qed.
Lemma scan_frac_length s : (String.length (scan_frac s).2 ≤ String.length s)%nat.
Proof.
  unfold scan_frac. destruct (strip "." s) as [r|] eqn:E; [|done]. apply strip_length in E. cbn [mbind option_bind].
  destruct (scan_digits1 r) as [[u r']|] eqn:E'; [|done]. apply scan_digits1_length in E'. simpl in *. lia.
Qed.
Lemma scan_exp_length s : (String.length (scan_exp s).2 ≤ String.length s)%nat.
Proof.
  unfold scan_exp. set (mark := match strip "e" s with Some _ => _ | None => _ end).
  assert (∀ r, mark = Some r → String.length r ≤ String.length s)%nat as Hm.
  { intros r Hr. unfold mark in Hr. destruct (strip "e" s) eqn:E; [simplify_eq|];
      [apply strip_length in E|apply strip_length in Hr]; lia. }
  destruct mark as [r|]; [|done]. specialize (Hm r eq_refl). cbn [mbind option_bind].
  assert (String.length (scan_exp_sign r).2 ≤ String.length r)%nat as Hs.
  { unfold scan_exp_sign. destruct (strip "-" r) eqn:E; [|destruct (strip "+" r) eqn:E'; [|done]];
      [apply strip_length in E|apply strip_length in E']; simpl in *; lia. }
  destruct (scan_digits1 (scan_exp_sign r).2) as [[u r']|] eqn:E'; [|done].
  apply scan_digits1_length in E'. simpl in *. lia.
Qed.
Lemma scan_number_length s n r : scan_number s = Some (n, r) → (String.length r ≤ String.length s)%nat.
Proof.
  unfold scan_number. pose proof (scan_sign_length s) as H1. destruct (scan_sign s) as [neg s1].
  destruct (scan_int s1) as [[i s2]|] eqn:E; [|done]. cbn [mbind option_bind]. apply scan_int_length in E.
  pose proof (scan_frac_length s2) as H2. destruct (scan_frac s2) as [f s3].
  pose proof (scan_exp_length s3) as H3. destruct (scan_exp s3) as [e s4].
  intros [= _ <-]. simpl in *. lia.
Qed.
Lemma scan_word_length l s v r : scan_word l s = Some (v, r) → (String.length r ≤ String.length s)%nat.
Proof.
  induction l as [|[w v'] l IH]; [done|]. cbn [scan_word]. destruct (strip w s) eqn:E; [|done].
  intros [= <- <-]. apply strip_length in E. lia.
Qed.
Lemma scan_atom_answers s : answered (String.length s) (scan_atom s).
Proof.
  unfold scan_atom. destruct (scan_word words s) as [[]|] eqn:E1; [by apply scan_word_length in E1|].
  destruct (scan_number s) as [[]|] eqn:E2; [by apply scan_number_length in E2|].
  destruct (scan_word constants s) as [[]|] eqn:E3; [by apply scan_word_length in E3|done].
Qed.

Lemma after_strip p s r : strip p (skip_ws s) = Some r → (String.length p + String.length r ≤ String.length s)%nat.
Proof. intros Hr%strip_length. pose proof (skip_ws_length s). lia. Qed.

Lemma scan_answers fuel :
  (∀ s, (2 * String.length s + 1 ≤ fuel)%nat → answered (String.length s) (scan_once fuel s)) ∧
  (∀ acc s, (2 * String.length s + 2 ≤ fuel)%nat → answered (String.length s) (scan_items fuel acc s)) ∧
  (∀ acc s, (2 * String.length s + 2 ≤ fuel)%nat → answered (String.length s) (scan_pairs fuel acc s)).
Proof.
  induction fuel as [|fuel (IHo & IHi & IHp)]; [split_and!; intros; lia|]. split_and!.
  - intros s Hf. destruct s as [|c r]; [done|]. cbn [scan_once String.length] in *.
    pose proof (skip_ws_length r) as Hw.
    repeat case_decide.
    + eapply answered_bind; [by apply (scanstring_answers (String.length r))|]. simpl. lia.
    + destruct (strip "}" (skip_ws r)) eqn:E; [apply after_strip in E; simpl in *; lia|].
      eapply answered_mono; [apply IHp; lia|lia].
    + destruct (strip "]" (skip_ws r)) eqn:E; [apply after_strip in E; simpl in *; lia|].
      eapply answered_mono; [apply IHi; lia|lia].
    + apply (scan_atom_answers (String c r)).
  - intros acc s Hf. cbn [scan_items]. eapply answered_bind; [apply IHo; lia|]. intros v r Hr.
    destruct (strip "]" (skip_ws r)) eqn:E; [apply after_strip in E; simpl in *; lia|].
    destruct (strip "," (skip_ws r)) as [r'|] eqn:E'; [|done]. apply after_strip in E'. cbn [String.length] in E'.
    pose proof (skip_ws_length r'). eapply answered_mono; [apply IHi|]; lia.
  - intros acc s Hf. cbn [scan_pairs]. destruct (strip _ s) as [r0|] eqn:E0; [|done]. apply strip_length in E0.
    cbn [String.length] in E0.
    eapply answered_bind; [by apply (scanstring_answers (String.length r0))|]. intros k r1 Hr1.
    destruct (strip ":" (skip_ws r1)) as [r2|] eqn:E2; [|done]. apply after_strip in E2. cbn [String.length] in E2.
    pose proof (skip_ws_length r2). eapply answered_bind; [apply IHo; lia|]. intros v r Hr.
    destruct (strip "}" (skip_ws r)) eqn:E; [apply after_strip in E; simpl in *; lia|].
    destruct (strip "," (skip_ws r)) as [r'|] eqn:E'; [|done]. apply after_strip in E'. cbn [String.length] in E'.
    pose proof (skip_ws_length r'). eapply answered_mono; [apply IHp|]; lia.
Qed.

Lemma loads_answers s : (∃ v, loads s = Ok v) ∨ (∃ msg, loads s = Err (ValueError msg)).
Proof.
  unfold loads. destruct (strip bom s); [by right; eexists|].
  pose proof (proj1 (scan_answers (2 * String.length s + 1)) (skip_ws s)) as Hs.
  pose proof (skip_ws_length s). specialize (Hs ltac:(lia)).
  destruct (scan_once _ _) as [[v r]|[]]; try done; [|by right; eexists].
  cbn [mbind res_bind]. destruct (skip_ws r); [by left; eexists|by right; eexists].
Qed.
End JsonRoundTrip.


Definition sample_value : pyval :=
  VDict [("a", VList [VInt (-12); VFloat (PyFloat.ratio 1 10); VNone; VBool true]);
         (String (Json.char 10) (Json.q "x\"), VDict []); ("pi", VFloat (PyFloat.ratio 355 113))].
