(* ===== verification/Compression.v ===== *)
(** * Compressed serialization (src/src/persistence/compression.py)

    Bytes are strings; a text is its UTF-8 encoding.  [compress] and [decompress]
    are those of the zlib module. *)
From S2P Require Import Prelude PyFloat PyValue Json JsonFacts.
Local Open Scope Z_scope.

Module Compression.
(** [raw.encode("utf-8")] and [payload.decode("utf-8")]: exactly the encodings of
    sequences of scalar values *)
Definition encode (s : string) : res string :=
  if JsonRoundTrip.scalar_text s then Ok s else Err (Raised "UnicodeEncodeError" "surrogates not allowed").
Definition decode (s : string) : res string :=
  if JsonRoundTrip.scalar_text s then Ok s else Err (Raised "UnicodeDecodeError" "invalid bytes").

Definition COMPRESSED_MARKER : Ascii.ascii := Json.char 1.
Definition PLAIN_MARKER : Ascii.ascii := Json.char 0.

Section zlib.
Variables (compress : string → string) (decompress : string → res string).

Definition serialize_compressed (value : pyval) (threshold : Z) : res string :=
  raw ← encode (Serialization.serialize value);
  Ok (if threshold <=? Z.of_nat (String.length raw) then String COMPRESSED_MARKER (compress raw)
      else String PLAIN_MARKER raw).

Definition deserialize_compressed (data : string) : res pyval :=
  match data with
  | EmptyString => Ok VNone
  | String marker payload =>
      raw ← (if bool_decide (marker = COMPRESSED_MARKER) then decompress payload else Ok payload);
      text ← decode raw;
      Json.loads text
  end.

(** A value survives whatever the threshold, when decompression undoes
    compression; what is written is the marked text itself below the threshold. *)
Theorem compressed_round_trip value threshold :
  (∀ s, decompress (compress s) = Ok s) →
  JsonRoundTrip.json_ok value = true → JsonRoundTrip.scalar_text (Serialization.serialize value) = true →
  ∃ data, serialize_compressed value threshold = Ok data ∧ deserialize_compressed data = Ok value ∧
    (Z.of_nat (String.length (Serialization.serialize value)) < threshold →
     data = String PLAIN_MARKER (Serialization.serialize value)).
Proof.
  intros Hz Hv Hs. unfold serialize_compressed, encode. rewrite Hs. cbn [mbind res_bind]. eexists. split; [reflexivity|].
  destruct (_ <=? _) eqn:E.
  - split; [|lia]. cbn [deserialize_compressed]. rewrite bool_decide_eq_true_2 by done. rewrite Hz. cbn [mbind res_bind].
    unfold decode. rewrite Hs. by apply JsonRoundTrip.loads_dumps.
  - split; [|done]. cbn [deserialize_compressed]. rewrite bool_decide_eq_false_2 by done. cbn [mbind res_bind].
    unfold decode. rewrite Hs. by apply JsonRoundTrip.loads_dumps.
Qed.
End zlib.

(** Compression as the identity, on both sides of a threshold. *)
Lemma compressed_round_trip_witness :
  let v := VDict [("k", VList [VInt 1; VStr (Json.utf8 36864)])] in
  (∃ data, serialize_compressed (λ s, s) v 5 = Ok data ∧ deserialize_compressed Ok data = Ok v) ∧
  serialize_compressed (λ s, s) v 100 = Ok (String PLAIN_MARKER (Serialization.serialize v)).
Proof.
  intros v. split.
  - destruct (compressed_round_trip (λ s, s) Ok v 5) as (data & H1 & H2 & _); [done|by vm_compute|by vm_compute|].
    by exists data.
  - by vm_compute.
Defined.
End Compression.
