(* ===== verification/SharedMemory.v ===== *)
(** * Versioned shared memory (src/src/multi_agent/shared_memory.py)

    Cells with optimistic version checks and expiry, kept in a persistence
    backend or, without one, in a dictionary of the store.  Values are not
    mutated after they are handed over (the dictionary path does not copy
    them).  [time n] is the n-th reading of [time.time()]. *)
From S2P Require Import Prelude PyFloat PyValue Persistence.
Local Open Scope Z_scope.

Record MemoryEntry := mkMemoryEntry {
  me_key : string;
  me_value : pyval;
  me_version : Z;
  me_writer_role : string;
  me_updated_at : float;
  me_expires_at : option float;
}.

Module SharedMemoryStore.

Record store (B : Type) := mkStore {
  sm_backend : option B;
  sm_entries : dict MemoryEntry;
  sm_history : gmap string (list Z);
  sm_clock : nat;
}.
Arguments mkStore {B}. Arguments sm_backend {B}. Arguments sm_entries {B}.
Arguments sm_history {B}. Arguments sm_clock {B}.

Definition init {B} (backend : option B) : store B := mkStore backend [] ∅ 0.

Definition of_record (r : MemoryRecord) : MemoryEntry :=
  mkMemoryEntry (mr_key r) (mr_value r) (mr_version r) (mr_writer_role r) (mr_updated_at r)
    (mr_expires_at r).
Definition to_record (e : MemoryEntry) : MemoryRecord :=
  mkMemoryRecord (me_key e) (me_value e) (me_version e) (me_writer_role e) (me_updated_at e)
    (me_expires_at e).
Definition clone (e : MemoryEntry) : MemoryEntry :=
  mkMemoryEntry (me_key e) (me_value e) (me_version e) (me_writer_role e) (me_updated_at e)
    (me_expires_at e).

Section store.
Context {B : Type} `{KeyedBackend B MemoryRecord mr_key}.
Variable time : nat → float.

Definition now : st (store B) float := λ s,
  (Ok (time (sm_clock s)), mkStore (sm_backend s) (sm_entries s) (sm_history s) (S (sm_clock s))).

Definition load (key : string) (s : store B) : option MemoryEntry :=
  match sm_backend s with
  | Some b => of_record <$> backend_get key b
  | None => dlookup key (sm_entries s)
  end.

Definition store_entry (e : MemoryEntry) (s : store B) : store B :=
  match sm_backend s with
  | Some b => mkStore (Some (backend_put (to_record e) b)) (sm_entries s) (sm_history s) (sm_clock s)
  | None => mkStore None (dinsert (me_key e) e (sm_entries s)) (sm_history s) (sm_clock s)
  end.

Definition remove (key : string) (s : store B) : store B :=
  match sm_backend s with
  | Some b => mkStore (Some (backend_delete key b).2) (sm_entries s) (sm_history s) (sm_clock s)
  | None => mkStore None (ddelete key (sm_entries s)) (sm_history s) (sm_clock s)
  end.

Definition all_entries (s : store B) : dict MemoryEntry :=
  match sm_backend s with
  | Some b => foldl (λ d r, dinsert (mr_key r) (of_record r) d) [] (backend_list_all b)
  | None => sm_entries s
  end.

(** The loop's two [continue]s: a cell without expiry or with a later one stays. *)
Definition live (current_time : float) (e : MemoryEntry) : bool :=
  match me_expires_at e with
  | None => true
  | Some t => PyFloat.gt t current_time
  end.

Definition cleanup_expired : st (store B) (list string) :=
  current_time ← now;
  all ← st_gets all_entries;
  let removed_keys := (filter (λ kv, live current_time kv.2 = false) all).*1 in
  st_modify (λ s, foldl (λ s key, remove key s) s removed_keys) ≫= λ _,
  mret removed_keys.

Definition read (key : string) : st (store B) (option MemoryEntry) :=
  cleanup_expired ≫= λ _, st_gets (λ s, clone <$> load key s).

Definition conflict (key : string) (expected actual : Z) : exc :=
  Raised "VersionConflictError" ("version conflict for '" +:+ key +:+ "': expected " +:+
    pretty expected +:+ ", actual " +:+ pretty actual).

(** [self._history.setdefault(key, []).append(version)] *)
Definition record_version (key : string) (version : Z) (s : store B) : store B :=
  mkStore (sm_backend s) (sm_entries s)
    (<[key := default [] (sm_history s !! key) ++ [version]]> (sm_history s)) (sm_clock s).

(** [None if ttl_seconds is None else time.time() + ttl_seconds] *)
Definition expiry (ttl_seconds : option float) : st (store B) (option float) :=
  match ttl_seconds with
  | None => mret None
  | Some ttl => t ← now; mret (Some (PyFloat.add t ttl))
  end.

Definition write (key : string) (value : pyval) (writer_role : string)
    (expected_version : option Z) (ttl_seconds : option float) : st (store B) MemoryEntry :=
  cleanup_expired ≫= λ _,
  current ← st_gets (load key);
  let current_version := match current with None => 0 | Some c => me_version c end in
  st_lift (match expected_version with
    | Some v => raise_if (bool_decide (current_version ≠ v)) (conflict key v current_version)
    | None => Ok tt
    end) ≫= λ _,
  let next_version := match current with None => 1 | Some c => me_version c + 1 end in
  expires_at ← expiry ttl_seconds;
  updated_at ← now;
  let entry := mkMemoryEntry key value next_version writer_role updated_at expires_at in
  st_modify (λ s, record_version key next_version (store_entry entry s)) ≫= λ _,
  mret (clone entry).

Definition snapshot : st (store B) (dict MemoryEntry) :=
  cleanup_expired ≫= λ _, st_gets (λ s, prod_map id clone <$> all_entries s).

Definition get_history (key : string) (s : store B) : list Z := default [] (sm_history s !! key).
End store.

(** ** Specification: one finite map *)
Module Spec.
Record memory := mkMemory {
  cells : gmap string MemoryEntry;
  versions : gmap string (list Z);
  clock : nat;
}.

(** Cells that have expired at the next reading of the clock disappear. *)
Definition expire (time : nat → float) (m : memory) : memory :=
  mkMemory (filter (λ kv, live (time (clock m)) kv.2 = true) (cells m)) (versions m) (S (clock m)).
Definition version_of (key : string) (m : memory) : Z :=
  match cells m !! key with None => 0 | Some c => me_version c end.

Definition write (time : nat → float) (key : string) (value : pyval) (role : string)
    (expected : option Z) (ttl : option float) (m0 : memory) : res MemoryEntry * memory :=
  let m := expire time m0 in
  let v := version_of key m in
  if match expected with Some w => bool_decide (v ≠ w) | None => false end
  then (Err (conflict key (default 0 expected) v), m)
  else
    let t := clock m in
    let entry := match ttl with
      | None => mkMemoryEntry key value (v + 1) role (time t) None
      | Some d => mkMemoryEntry key value (v + 1) role (time (S t)) (Some (PyFloat.add (time t) d))
      end in
    (Ok entry, mkMemory (<[key := entry]> (cells m))
      (<[key := default [] (versions m !! key) ++ [v + 1]]> (versions m))
      (match ttl with None => S t | Some _ => S (S t) end)).
End Spec.

(** ** Operations as data *)
Inductive op :=
| Read (key : string)
| Write (key : string) (value : pyval) (role : string) (expected : option Z) (ttl : option float)
| Cleanup
| Snapshot
| History (key : string).

(** What a client sees of an output: lists of keys and snapshots are compared
    as sets and maps. *)
Inductive outcome :=
| SCell (c : option MemoryEntry)
| SWrite (r : res MemoryEntry)
| SKeys (ks : gset string)
| SCells (d : gmap string MemoryEntry)
| SVersions (l : list Z).

Section run.
Context {B : Type} `{KeyedBackend B MemoryRecord mr_key}.
Variable time : nat → float.

Definition run_op (o : op) (s : store B) : outcome * store B :=
  match o with
  | Read k => match read time k s with (r, s') => (SCell (match r with Ok c => c | _ => None end), s') end
  | Write k v role e ttl => prod_map SWrite id (write time k v role e ttl s)
  | Cleanup => match cleanup_expired time s with
               | (r, s') => (SKeys (list_to_set (match r with Ok l => l | _ => [] end)), s') end
  | Snapshot => match snapshot time s with
                | (r, s') => (SCells (list_to_map (match r with Ok l => l | _ => [] end)), s') end
  | History k => (SVersions (get_history k s), s)
  end.

Definition spec_op (o : op) (m : Spec.memory) : outcome * Spec.memory :=
  match o with
  | Read k => let m' := Spec.expire time m in (SCell (Spec.cells m' !! k), m')
  | Write k v role e ttl => prod_map SWrite id (Spec.write time k v role e ttl m)
  | Cleanup => let m' := Spec.expire time m in
               (SKeys (dom (Spec.cells m) ∖ dom (Spec.cells m')), m')
  | Snapshot => let m' := Spec.expire time m in (SCells (Spec.cells m'), m')
  | History k => (SVersions (default [] (Spec.versions m !! k)), m)
  end.

Fixpoint run_ops {S} (step : op → S → outcome * S) (l : list op) (s : S) : list outcome * S :=
  match l with
  | [] => ([], s)
  | o :: l => let '(x, s1) := step o s in let '(xs, s2) := run_ops step l s1 in (x :: xs, s2)
  end.
End run.

(** ** Both paths refine the specification *)
Lemma clone_id e : clone e = e.
Proof. by destruct e. Qed.

Lemma fold_dinsert_None {R A} (key : R → string) (f : R → A) k rs d :
  (∀ r, r ∈ rs → key r ≠ k) →
  dlookup k (foldl (λ d r, dinsert (key r) (f r) d) d rs) = dlookup k d.
Proof.
  revert d. induction rs as [|r rs IH]; intros d Hr; simpl; [done|].
  rewrite IH by set_solver. apply dlookup_dinsert_ne. apply Hr. set_solver.
Qed.

Lemma fold_dinsert_Some {R A} (key : R → string) (f : R → A) r rs d :
  r ∈ rs → (∀ r', r' ∈ rs → key r' = key r → r' = r) →
  dlookup (key r) (foldl (λ d r, dinsert (key r) (f r) d) d rs) = Some (f r).
Proof.
  revert d. induction rs as [|r1 rs IH]; intros d Hr Hu; simpl; [set_solver|].
  destruct (decide (key r ∈ key <$> rs)) as [(r' & Hk & Hin)%list_elem_of_fmap|Hin].
  { apply IH; [|set_solver]. by rewrite <-(Hu r') by set_solver. }
  assert (r1 = r) as ->.
  { apply elem_of_cons in Hr as [->|Hr]; [done|]. destruct Hin. by apply list_elem_of_fmap_2. }
  rewrite fold_dinsert_None; [by rewrite dlookup_dinsert_eq|].
  intros r' Hr' Hk. apply Hin. rewrite <-Hk. by apply list_elem_of_fmap_2.
Qed.

Lemma fold_dinsert_NoDup {R A} (key : R → string) (f : R → A) rs d :
  NoDup (dkeys d) → NoDup (dkeys (foldl (λ d r, dinsert (key r) (f r) d) d rs)).
Proof. revert d. induction rs as [|r rs IH]; intros d Hd; simpl; auto using dinsert_NoDup. Qed.

Section refinement.
Context {B : Type} `{KeyedBackendLaws B MemoryRecord mr_key}.
Variable time : nat → float.
Implicit Types (s : store B) (m : Spec.memory).

(** The store's own representation invariant. *)
Definition store_ok s : Prop :=
  match sm_backend s with
  | Some b => backend_ok b
  | None => NoDup (dkeys (sm_entries s))
  end.
(** Every cell sits under its own key. *)
Definition cells_keyed (c : gmap string MemoryEntry) : Prop := ∀ k e, c !! k = Some e → me_key e = k.

Record repr s m : Prop := {
  repr_ok : store_ok s;
  repr_keyed : cells_keyed (Spec.cells m);
  repr_load k : load k s = Spec.cells m !! k;
  repr_history : sm_history s = Spec.versions m;
  repr_clock : sm_clock s = Spec.clock m;
}.

Lemma all_entries_spec s m : repr s m →
  NoDup (dkeys (all_entries s)) ∧ ∀ k, dlookup k (all_entries s) = Spec.cells m !! k.
Proof.
  intros [Hok Hkey Hl _ _]. unfold store_ok, load, all_entries in *.
  destruct (sm_backend s) as [b|]; [|by split].
  split; [apply (fold_dinsert_NoDup mr_key of_record); constructor|].
  intros k. rewrite <-Hl. destruct (backend_get k b) as [r|] eqn:E; simpl.
  - assert (mr_key r = k) as Hrk.
    { apply (Hkey k (of_record r)). by rewrite <-Hl, E. }
    rewrite <-Hrk. apply (fold_dinsert_Some mr_key of_record).
    + apply (list_all_get r b Hok). by rewrite Hrk.
    + intros r' Hr' Hk'. apply (list_all_get r' b Hok) in Hr'. congruence.
  - apply (fold_dinsert_None mr_key of_record). intros r Hr <-.
    apply (list_all_get r b Hok) in Hr. congruence.
Qed.

Lemma remove_spec k s :
  store_ok s → store_ok (remove k s) ∧ sm_history (remove k s) = sm_history s ∧
  sm_clock (remove k s) = sm_clock s ∧
  ∀ k', load k' (remove k s) = if decide (k' = k) then None else load k' s.
Proof.
  unfold store_ok, remove, load. destruct (sm_backend s) as [b|] eqn:Eb; simpl; intros Hok.
  - split_and!; [by apply ok_delete|done..|]. intros k'. rewrite get_delete. by case_decide.
  - rewrite ?Eb. split_and!; [by apply NoDup_ddelete|done..|]. intros k'. apply dlookup_ddelete.
Qed.

Lemma remove_all_spec ks s :
  store_ok s → let s' := foldl (λ s key, remove key s) s ks in
  store_ok s' ∧ sm_history s' = sm_history s ∧ sm_clock s' = sm_clock s ∧
  ∀ k', load k' s' = if decide (k' ∈ ks) then None else load k' s.
Proof.
  revert s. induction ks as [|k ks IH]; intros s Hok; cbn [foldl].
  { split_and!; [done..|]. intros. by rewrite decide_False by set_solver. }
  destruct (remove_spec k s Hok) as (Hok' & Hh & Hc & Hl).
  destruct (IH _ Hok') as (? & -> & -> & Hl'). split_and!; [done..|].
  intros k'. rewrite Hl', Hl. repeat case_decide; set_solver.
Qed.

Lemma cleanup_repr s m : repr s m → ∃ ks s',
  cleanup_expired time s = (Ok ks, s') ∧ repr s' (Spec.expire time m) ∧
  (list_to_set ks : gset string) = dom (Spec.cells m) ∖ dom (Spec.cells (Spec.expire time m)).
Proof.
  intros Hr. destruct (all_entries_spec s m Hr) as [Hnd Hall]. destruct Hr as [Hok Hkey Hl Hh Hc].
  unfold cleanup_expired, now, st_gets, st_modify, mbind, st_bind, mret, st_ret. cbn [sm_clock].
  set (s1 := mkStore _ _ _ _). set (ks := (filter _ (all_entries s1)).*1).
  exists ks, (foldl (λ s key, remove key s) s1 ks). split; [done|].
  assert (∀ k, k ∈ ks ↔ ∃ e, Spec.cells m !! k = Some e ∧ live (time (Spec.clock m)) e = false) as Hks.
  { intros k. unfold ks. rewrite list_elem_of_fmap, <-Hc. split.
    - intros ([k' e] & -> & [Hlive Hin]%list_elem_of_filter). exists e.
      rewrite <-Hall. split; [|done]. by apply elem_of_dlookup.
    - intros (e & He & Hlive). exists (k, e). split; [done|].
      apply list_elem_of_filter. split; [done|]. apply elem_of_dlookup; [done|]. by rewrite <-He. }
  destruct (remove_all_spec ks s1 Hok) as (Hok' & Hh' & Hc' & Hl').
  assert (∀ k, Spec.cells (Spec.expire time m) !! k =
    if decide (k ∈ ks) then None else Spec.cells m !! k) as Hexp.
  { intros k. unfold Spec.expire; simpl. destruct (decide (k ∈ ks)) as [Hin|Hin].
    - apply Hks in Hin as (e & He & Hlive). apply map_lookup_filter_None. right.
      intros e' He'. simpl. rewrite He in He'. injection He' as <-. by rewrite Hlive.
    - destruct (Spec.cells m !! k) as [e|] eqn:He.
      + apply map_lookup_filter_Some. split; [done|]. simpl.
        destruct (live _ e) eqn:Hlive; [done|]. destruct Hin. apply Hks. eauto.
      + apply map_lookup_filter_None. by left. }
  split; [split|].
  - done.
  - intros k e He. rewrite Hexp in He. case_decide; [done|]. eauto.
  - intros k. rewrite Hexp, Hl'. case_decide; [done|]. apply Hl.
  - by rewrite Hh'.
  - rewrite Hc'. simpl. by rewrite Hc.
  - apply set_eq. intros k. rewrite elem_of_list_to_set, elem_of_difference, !elem_of_dom, Hexp.
    destruct (decide (k ∈ ks)) as [Hin|Hin].
    + split; [|done]. intros _. split; [|by intros [? [=]]]. apply Hks in Hin as (e & -> & _). eauto.
    + naive_solver.
Qed.

Lemma store_entry_repr k e v s m : repr s m → me_key e = k →
  repr (record_version k v (store_entry e s))
    (Spec.mkMemory (<[k := e]> (Spec.cells m))
      (<[k := default [] (Spec.versions m !! k) ++ [v]]> (Spec.versions m)) (Spec.clock m)).
Proof.
  intros [Hok Hkey Hl Hh Hc] Hk. unfold record_version, store_entry, store_ok, load in *.
  split.
  - unfold store_ok. destruct (sm_backend s) as [b|]; simpl; [by apply ok_put|by apply dinsert_NoDup].
  - intros k' e'. cbn [Spec.cells]. intros [[<- <-]|[? ?]]%lookup_insert_Some; eauto.
  - intros k'. unfold load. specialize (Hl k'). simpl. rewrite lookup_insert.
    destruct (sm_backend s) as [b|]; simpl; case_decide as Hd; subst.
    + change (me_key e) with (mr_key (to_record e)). rewrite get_put_eq. by destruct e.
    + by rewrite get_put_ne by done.
    + by rewrite dlookup_dinsert_eq.
    + by rewrite dlookup_dinsert_ne by done.
  - simpl. destruct (sm_backend s); simpl; by rewrite Hh.
  - simpl. destruct (sm_backend s); simpl; by rewrite Hc.
Qed.

Lemma commit_repr k e v s m n : repr s m → me_key e = k →
  repr (record_version k v (store_entry e
          (mkStore (sm_backend s) (sm_entries s) (sm_history s) n)))
    (Spec.mkMemory (<[k := e]> (Spec.cells m))
      (<[k := default [] (Spec.versions m !! k) ++ [v]]> (Spec.versions m)) n).
Proof.
  intros [? ? ? ? ?]. apply (store_entry_repr k e v _ (Spec.mkMemory (Spec.cells m) (Spec.versions m) n)).
  by split.
Qed.

Lemma write_repr k v role e ttl s m : repr s m →
  (write time k v role e ttl s).1 = (Spec.write time k v role e ttl m).1 ∧
  repr (write time k v role e ttl s).2 (Spec.write time k v role e ttl m).2.
Proof.
  intros Hr. destruct (cleanup_repr s m Hr) as (ks & s1 & Hcl & Hr1 & _).
  unfold write, Spec.write, Spec.version_of. set (m1 := Spec.expire time m) in *. clearbody m1.
  unfold mbind, st_bind, st_gets, st_lift. rewrite Hcl, (repr_load _ _ Hr1 k).
  set (cur := Spec.cells m1 !! k). set (cv := match cur with None => 0 | Some c => me_version c end).
  assert ((match cur with None => 1 | Some c => me_version c + 1 end) = cv + 1) as ->
    by (unfold cv; by destruct cur).
  pose proof (repr_clock _ _ Hr1) as Hc.
  destruct e as [w|]; [destruct (bool_decide (cv ≠ w)) eqn:E|]; unfold raise_if; [done|..];
    destruct ttl as [d|];
    unfold expiry, now, mbind, st_bind, mret, st_ret, st_modify; cbn [sm_clock fst snd];
    rewrite ?clone_id, Hc; (split; [done|]); by apply (commit_repr k _ _ s1 m1 _ Hr1).
Qed.

Lemma run_op_repr o s m : repr s m →
  (run_op time o s).1 = (spec_op time o m).1 ∧
  repr (run_op time o s).2 (spec_op time o m).2.
Proof.
  intros Hr. pose proof (cleanup_repr s m Hr) as (ks & s1 & Hcl & Hr1 & Hks). destruct o; cbn [run_op spec_op].
  - unfold read, mbind, st_bind, st_gets. rewrite Hcl. cbn [fst snd]. rewrite (repr_load _ _ Hr1).
    split; [|done]. f_equal. by destruct (_ !! key) as [[]|].
  - destruct (write_repr key value role expected ttl s m Hr) as [E1 E2].
    destruct (write _ _ _ _ _ _ s) as [r s']. destruct (Spec.write _ _ _ _ _ _ m) as [r' m'].
    simpl in *. by subst.
  - rewrite Hcl. simpl. by rewrite Hks.
  - unfold snapshot, mbind, st_bind, st_gets. rewrite Hcl. cbn [fst snd]. split; [|done]. f_equal.
    destruct (all_entries_spec s1 _ Hr1) as [Hnd Hall].
    assert (prod_map id clone <$> all_entries s1 = all_entries s1) as ->.
    { rewrite <-(list_fmap_id (all_entries s1)) at 2. apply list_fmap_ext. intros i [k e] _. simpl.
      by rewrite clone_id. }
    apply map_eq. intros k. rewrite <-Hall. destruct (dlookup k (all_entries s1)) as [e|] eqn:E.
    + apply elem_of_list_to_map; [done|]. by apply elem_of_dlookup.
    + apply not_elem_of_list_to_map. by apply dlookup_None_keys.
  - unfold get_history. rewrite (repr_history _ _ Hr). by split.
Qed.

Lemma run_ops_repr l s m : repr s m →
  (run_ops (run_op time) l s).1 = (run_ops (spec_op time) l m).1 ∧
  repr (run_ops (run_op time) l s).2 (run_ops (spec_op time) l m).2.
Proof.
  revert s m. induction l as [|o l IH]; intros s m Hr; simpl; [done|].
  destruct (run_op_repr o s m Hr) as [E1 E2].
  destruct (run_op time o s) as [x s1], (spec_op time o m) as [x' m1]. simpl in *. subst.
  destruct (IH s1 m1 E2) as [E3 E4].
  destruct (run_ops _ l s1) as [xs s2], (run_ops _ l m1) as [xs' m2]. simpl in *. by subst.
Qed.

Lemma init_repr (backend : option B) (c : gmap string MemoryEntry) :
  cells_keyed c →
  (∀ k, (backend ≫= λ b, of_record <$> backend_get k b) = c !! k) →
  match backend with Some b => backend_ok b | None => True end →
  repr (init backend) (Spec.mkMemory c ∅ 0).
Proof.
  intros Hkey Hl Hok. split; simpl; [|done| |done..].
  - unfold store_ok. destruct backend as [b|]; simpl; [done|constructor].
  - intros k. rewrite <-Hl. unfold load. by destruct backend.
Qed.
End refinement.
End SharedMemoryStore.

Import SharedMemoryStore.

(** C16: A shared memory without a backend and one over any lawful backend behave alike, and
    as one finite map of cells: every sequence of operations gives the outcomes of the
    specification, in which an expired cell is absent and a write makes version one more than
    the current one or fails on a version mismatch.  The backend may already hold records. *)
Theorem shared_memory_refines {B} `{KeyedBackendLaws B MemoryRecord mr_key} time
    (backend : option B) (c : gmap string MemoryEntry) (l : list op) :
  cells_keyed c →
  (∀ k, (backend ≫= λ b, of_record <$> backend_get k b) = c !! k) →
  match backend with Some b => backend_ok b | None => True end →
  (run_ops (run_op time) l (init backend)).1 = (run_ops (spec_op time) l (Spec.mkMemory c ∅ 0)).1.
Proof. intros Hkey Hl Hok. by apply run_ops_repr, init_repr. Qed.

Lemma shared_memory_refines_witness :
  (run_ops (run_op (λ n, PyFloat.of_Z (Z.of_nat n)))
     [Write "k" VNone "planner" None (Some (PyFloat.of_Z 3)); Read "k"; Snapshot; Read "k"; Cleanup]
     (init (Some ([] : dict MemoryRecord)))).1 =
  (run_ops (spec_op (λ n, PyFloat.of_Z (Z.of_nat n)))
     [Write "k" VNone "planner" None (Some (PyFloat.of_Z 3)); Read "k"; Snapshot; Read "k"; Cleanup]
     (Spec.mkMemory ∅ ∅ 0)).1.
Proof.
  apply (shared_memory_refines (λ n, PyFloat.of_Z (Z.of_nat n)) (Some ([] : dict MemoryRecord)) ∅);
    [done|done|]. exact (ok_clear []).
Defined.

(** ** Optimistic writes without expiry *)
Definition no_ttl (o : op) : Prop :=
  match o with Write _ _ _ _ (Some _) => False | _ => True end.

(** No cell expires, and the versions written under a key count up from one. *)
Definition counted (m : Spec.memory) : Prop :=
  (∀ k e, Spec.cells m !! k = Some e → me_expires_at e = None) ∧
  ∀ k, 0 ≤ Spec.version_of k m ∧
    default [] (Spec.versions m !! k) = seqZ 1 (Spec.version_of k m).

Lemma expire_counted time m : counted m →
  Spec.expire time m = Spec.mkMemory (Spec.cells m) (Spec.versions m) (S (Spec.clock m)).
Proof.
  intros [Hn _]. unfold Spec.expire. f_equal. apply map_filter_id. intros k e He. simpl.
  unfold live. by rewrite (Hn k e He).
Qed.

Lemma counted_insert k e m n : counted m → me_expires_at e = None →
  me_version e = Spec.version_of k m + 1 →
  counted (Spec.mkMemory (<[k := e]> (Spec.cells m))
    (<[k := default [] (Spec.versions m !! k) ++ [me_version e]]> (Spec.versions m)) n).
Proof.
  intros [Hn Hv] He Hver. unfold counted, Spec.version_of in *. cbn [Spec.cells Spec.versions].
  split; [intros k' e' [[_ <-]|[_ ?]]%lookup_insert_Some; eauto|].
  intros k'. destruct (Hv k) as [H0 Hh]. rewrite !lookup_insert. case_decide; subst; [|apply Hv].
  rewrite Hver. split; [lia|]. cbn [default from_option id]. rewrite Hh, seqZ_app by lia.
  do 2 f_equal. rewrite Z.add_comm. done.
Qed.

Lemma spec_op_counted time o m : no_ttl o → counted m → counted (spec_op time o m).2.
Proof.
  intros Ho Hm. pose proof (expire_counted time m Hm) as He. destruct o; simpl; rewrite ?He; try done.
  destruct ttl as [d|]; [done|]. unfold Spec.write. rewrite He.
  case_match; [done|]. by apply (counted_insert key (mkMemoryEntry _ _ _ _ _ _) m).
Qed.

Lemma spec_ops_counted time l m : Forall no_ttl l → counted m → counted (run_ops (spec_op time) l m).2.
Proof.
  intros Hl. revert m. induction Hl as [|o l Ho Hl IH]; intros m Hm; simpl; [done|].
  pose proof (spec_op_counted time o m Ho Hm) as H1. destruct (spec_op time o m) as [x m1].
  specialize (IH m1 H1). by destruct (run_ops _ l m1).
Qed.



(** With expiry the version of a key restarts at one, so a writer that read
    version 1 of an expired cell overwrites the version 1 of its successor. *)
Example expired_version_restarts :
  let time n := PyFloat.of_Z (Z.of_nat n) in
  (run_ops (run_op (B := dict MemoryRecord) time)
     [Write "k" (VInt 1) "a" None (Some (PyFloat.of_Z 1)); Write "k" (VInt 2) "b" (Some 0) None;
      Write "k" (VInt 3) "a" (Some 1) None; History "k"] (init None)).1 =
  [SWrite (Ok (mkMemoryEntry "k" (VInt 1) 1 "a" (time 2%nat) (Some (time 2%nat))));
   SWrite (Ok (mkMemoryEntry "k" (VInt 2) 1 "b" (time 4%nat) None));
   SWrite (Ok (mkMemoryEntry "k" (VInt 3) 2 "a" (time 6%nat) None)); SVersions [1; 1; 2]].
Proof. vm_compute. reflexivity. Qed.

(** ** Two stores over one backend

    [write] sends several commands to the backend.  [prepare_write] ends before
    the cell is stored; a second store may write in between. *)
Module Halves.
Section halves.
Context {B : Type} `{KeyedBackend B MemoryRecord mr_key}.
Variable time : nat → float.
Definition prepare_write (key : string) (value : pyval) (role : string) (expected : option Z) (ttl : option float) :
    st (store B) MemoryEntry :=
  cleanup_expired time ≫= λ _,
  current ← st_gets (load key);
  let version := match current with None => 0 | Some c => me_version c end in
  st_lift (match expected with
    | Some v => raise_if (bool_decide (version ≠ v)) (conflict key v version)
    | None => Ok tt
    end) ≫= λ _,
  expires_at ← expiry time ttl;
  updated_at ← now time;
  mret (mkMemoryEntry key value (match current with None => 1 | Some c => me_version c + 1 end) role updated_at expires_at).
Definition commit_write (entry : MemoryEntry) : st (store B) MemoryEntry :=
  st_modify (λ s, record_version (me_key entry) (me_version entry) (store_entry entry s)) ≫= λ _, mret (clone entry).
Lemma write_halves key value role expected ttl s :
  write time key value role expected ttl s = (prepare_write key value role expected ttl ≫= commit_write) s.
Proof.
  unfold write, prepare_write, commit_write, mbind, st_bind. destruct (cleanup_expired time s) as [[]]; [|done]. cbn.
  destruct (match expected with Some _ => _ | None => _ end) as [[]|]; [|done].
  by destruct (expiry time ttl s0) as [[]].
Qed.

(** The backend as another store left it. *)
Definition see (b : option B) (s : store B) : store B := mkStore b (sm_entries s) (sm_history s) (sm_clock s).
End halves.

(** Both stores expect an empty cell, both writes succeed as version 1, and the
    second overwrites the first. *)
Example stores_lose_update :
  let time n := PyFloat.of_Z (Z.of_nat n) in
  let shared := init (Some (InMemory.init : dict MemoryRecord)) in
  let '(a, sa) := prepare_write time "k" (VInt 1) "a" (Some 0) None shared in
  let '(b, sb) := prepare_write time "k" (VInt 2) "b" (Some 0) None shared in
  match a, b with
  | Ok a, Ok b =>
      let '(ra, sa) := commit_write a sa in
      let '(rb, sb) := commit_write b (see (sm_backend sa) sb) in
      (me_version <$> ra) = Ok 1 ∧ (me_version <$> rb) = Ok 1 ∧ (me_value <$> load "k" (see (sm_backend sb) sa)) = Some (VInt 2)
  | _, _ => False
  end.
Proof. vm_compute. auto. Qed.
End Halves.
