(* ===== verification/Messaging.v ===== *)
(** * Message bus (src/src/messaging/interfaces.py, in_memory_bus.py)

    The interface [MessageBus] as a class, and the in-process bus.  A handler is
    the program its body runs on the bus ([hprog]); which program depends on the
    message and on the deliveries so far, so handlers keep arbitrary state of
    their own.  Dispatch is synchronous: handlers run inside [publish], and may
    publish, subscribe, reply or send requests in turn; [fuel] is the
    interpreter's recursion limit, which raises.  [uuid n] and [time n] are the
    n-th fresh identifier and clock reading; [other n] is what the other threads
    do on the bus while the request numbered [n] waits. *)
From S2P Require Import Prelude PyFloat PyValue.
Local Open Scope Z_scope.
Set Default Proof Using "Type*".

Record Message := mkMessage {
  topic : string;
  payload : pyval;
  message_id : string;
  sender_id : string;
  timestamp : float;
  reply_to : option string;
  correlation_id : option string;
}.

(** What a component may expect of a bus: [publish] and nothing else. *)
Class MessageBus (W : Type) := {
  bus_publish : string → pyval → string → st W Message;
}.

Module InMemoryMessageBus.

(** Identity of a handler: a client's function, or the closure [_on_reply] of
    the request numbered [n]. *)
Inductive handler := User (n : nat) | OnReply (n : nat).
#[global] Instance handler_eq_dec : EqDecision handler.
Proof. solve_decision. Defined.

Record bus := mkBus {
  subscribers : gmap string (list handler);
  closed : bool;
  deliveries : list (handler * Message);
  counter : nat;  (* identifiers and clock readings taken *)
}.

(** The body of a handler as a program on the bus. *)
Inductive hprog :=
| HDone
| HRaise (e : exc)
| HPublish (topic : string) (payload : pyval) (sender : string) (k : Message → hprog)
| HSubscribe (topic : string) (h : nat) (k : hprog)
| HUnsubscribe (topic : string) (h : nat) (k : bool → hprog)
| HCount (topic : string) (k : Z → hprog)
| HReply (original : Message) (payload : pyval) (sender : string) (k : Message → hprog)
| HRequest (topic : string) (payload : pyval) (sender : string) (k : option Message → hprog)
| HClose (k : hprog).

Definition init : bus := mkBus ∅ false [] 0.

Definition subs (t : string) (b : bus) : list handler := default [] (subscribers b !! t).
Definition set_subs (t : string) (l : list handler) (b : bus) : bus :=
  mkBus (<[t := l]> (subscribers b)) (closed b) (deliveries b) (counter b).

Definition subscribe (t : string) (h : handler) (b : bus) : bus := set_subs t (subs t b ++ [h]) b.

(** [handlers.remove(handler)] *)
Fixpoint remove_handler (h : handler) (l : list handler) : list handler :=
  match l with
  | [] => []
  | x :: l => if decide (x = h) then l else x :: remove_handler h l
  end.

Definition unsubscribe (t : string) (h : handler) (b : bus) : bool * bus :=
  if bool_decide (h ∈ subs t b)
  then (true, set_subs t (remove_handler h (subs t b)) b) else (false, b).

Definition topic_subscriber_count (t : string) (b : bus) : Z := Z.of_nat (length (subs t b)).

Definition close (b : bus) : bus := mkBus ∅ true (deliveries b) (counter b).

Section bus.
Variable uuid : nat → string.
Variable time : nat → float.
Variable behaviour : nat → list (handler * Message) → Message → hprog.
Variable other : nat → hprog.

(** [Message(...)] takes an identifier and a clock reading. *)
Definition new_message (t : string) (p : pyval) (sender : string) (reply corr : option string)
    (b : bus) : Message * bus :=
  (mkMessage t p (uuid (counter b)) sender (time (counter b)) reply corr,
   mkBus (subscribers b) (closed b) (deliveries b) (S (counter b))).

Definition reply_topic (n : nat) : string := "_reply." +:+ uuid n.

(** [result[0] if result else None], the first message the closure received. *)
Definition first_reply (n : nat) (b : bus) : option Message :=
  head (snd <$> filter (λ d, d.1 = OnReply n) (deliveries b)).

Section with_dispatch.
Variable dispatch : string → Message → bus → res unit * bus.

Definition publish (t : string) (p : pyval) (sender : string) : st bus Message := λ b,
  let '(m, b) := new_message t p sender None None b in
  match dispatch t m b with
  | (Ok _, b) => (Ok m, b)
  | (Err e, b) => (Err e, b)
  end.

Definition reply (original : Message) (p : pyval) (sender : string) : st bus Message := λ b,
  match reply_to original with
  | Some r =>
      if str_truthy r
      then
        let '(m, b) := new_message r p sender None (Some (message_id original)) b in
        match dispatch r m b with (Ok _, b) => (Ok m, b) | (Err e, b) => (Err e, b) end
      else (Err (ValueError "original message has no reply_to topic"), b)
  | None => (Err (ValueError "original message has no reply_to topic"), b)
  end.

(** [request]: the request number is the identifier of its reply topic.  The
    [finally] clause unsubscribes whether the dispatch returns or raises. *)
Definition request_with (run : hprog → bus → res unit * bus) (t : string) (p : pyval)
    (sender : string) : st bus (option Message) := λ b,
  let n := counter b in
  let b := mkBus (subscribers b) (closed b) (deliveries b) (S n) in
  let b := subscribe (reply_topic n) (OnReply n) b in
  let '(m, b) := new_message t p sender (Some (reply_topic n)) None b in
  match dispatch t m b with
  | (Err e, b) => (Err e, (unsubscribe (reply_topic n) (OnReply n) b).2)
  | (Ok _, b) =>
      let b := match first_reply n b with Some _ => b | None => (run (other n) b).2 end in
      (Ok (first_reply n b), (unsubscribe (reply_topic n) (OnReply n) b).2)
  end.

(** The waiting threads' program itself runs without waiting again. *)
Fixpoint run_prog (wait : hprog → bus → res unit * bus) (p : hprog) (b : bus) : res unit * bus :=
  match p with
  | HDone => (Ok tt, b)
  | HRaise e => (Err e, b)
  | HPublish t v sender k =>
      match publish t v sender b with (Ok m, b) => run_prog wait (k m) b | (Err e, b) => (Err e, b) end
  | HSubscribe t h k => run_prog wait k (subscribe t (User h) b)
  | HUnsubscribe t h k => let '(r, b) := unsubscribe t (User h) b in run_prog wait (k r) b
  | HCount t k => run_prog wait (k (topic_subscriber_count t b)) b
  | HReply o v sender k =>
      match reply o v sender b with (Ok m, b) => run_prog wait (k m) b | (Err e, b) => (Err e, b) end
  | HRequest t v sender k =>
      match request_with wait t v sender b with
      | (Ok m, b) => run_prog wait (k m) b
      | (Err e, b) => (Err e, b)
      end
  | HClose k => run_prog wait k (close b)
  end.
End with_dispatch.

(** [handler(msg)]: a closure only records; a client's handler runs its body. *)
Definition deliver (run : hprog → bus → res unit * bus) (h : handler) (m : Message) : st bus unit := λ b,
  let b' := mkBus (subscribers b) (closed b) (deliveries b ++ [(h, m)]) (counter b) in
  match h with
  | OnReply _ => (Ok tt, b')
  | User n => run (behaviour n (deliveries b) m) b'
  end.

(** [_dispatch], with the handlers listed before any of them runs. *)
Fixpoint dispatch (fuel : nat) (t : string) (m : Message) (b : bus) : res unit * bus :=
  match fuel with
  | O => (Err (Raised "RecursionError" "maximum recursion depth exceeded"), b)
  | S fuel =>
      st_for (λ h, deliver (run_prog (dispatch fuel) (λ _ b, (Ok tt, b))) h m) (subs t b) b
  end.

Definition run (fuel : nat) : hprog → bus → res unit * bus :=
  run_prog (dispatch fuel) (run_prog (dispatch fuel) (λ _ b, (Ok tt, b))).
Definition request (fuel : nat) : string → pyval → string → st bus (option Message) :=
  request_with (dispatch fuel) (run_prog (dispatch fuel) (λ _ b, (Ok tt, b))).

Definition in_memory_bus (fuel : nat) : MessageBus bus :=
  {| bus_publish := publish (dispatch fuel) |}.

(** ** Reply topics are private *)

(** The closure of request [n] is subscribed to its reply topic only, at most
    once, and receives messages of that topic only. *)
Record private (b : bus) : Prop := {
  private_subs n t : OnReply n ∈ subs t b → (n < counter b)%nat ∧ t = reply_topic n;
  private_once n t : (length (filter (λ h, h = OnReply n) (subs t b)) ≤ 1)%nat;
  private_log n m : (OnReply n, m) ∈ deliveries b → (n < counter b)%nat ∧ topic m = reply_topic n;
}.
(** Operations never take identifiers back, and only add deliveries. *)
Definition keeps (f : bus → bus) : Prop := ∀ b, private b → private (f b) ∧ (counter b ≤ counter (f b))%nat.

Lemma subs_set_subs t t' l b : subs t' (set_subs t l b) = if decide (t = t') then l else subs t' b.
Proof. unfold subs, set_subs; simpl. rewrite lookup_insert. by case_decide. Qed.

Lemma keeps_new_message t p sender r c b : private b →
  private (new_message t p sender r c b).2 ∧ (counter b ≤ counter (new_message t p sender r c b).2)%nat.
Proof.
  intros [H1 H2 H3]. split; [|simpl; lia]. split; simpl.
  - intros n t' Hn. destruct (H1 n t' Hn). split; [lia|done].
  - done.
  - intros n m Hm. destruct (H3 n m Hm). split; [lia|done].
Qed.

Lemma keeps_set_subs t l b : private b →
  (∀ n, OnReply n ∈ l → OnReply n ∈ subs t b) →
  (∀ n, length (filter (λ h, h = OnReply n) l) ≤ length (filter (λ h, h = OnReply n) (subs t b)))%nat →
  private (set_subs t l b).
Proof.
  intros [H1 H2 H3] Hin Hlen. split; [| |done].
  - intros n t'. rewrite subs_set_subs. case_decide; subst; intros ?; apply H1; auto.
  - intros n t'. rewrite subs_set_subs. case_decide; subst; [|done].
    etrans; [apply Hlen|apply H2].
Qed.

Lemma remove_handler_sub h x l : x ∈ remove_handler h l → x ∈ l.
Proof. induction l as [|y l IH]; simpl; [done|]. case_decide; set_solver. Qed.

Lemma remove_handler_filter h x l :
  (length (filter (λ y, y = x) (remove_handler h l)) ≤ length (filter (λ y, y = x) l))%nat.
Proof.
  induction l as [|y l IH]; simpl; [done|]. destruct (decide (y = h)); rewrite !filter_cons;
    repeat case_decide; simpl; lia.
Qed.

(** A single subscription is gone after [remove]. *)
Lemma remove_handler_once h l :
  (length (filter (λ y, y = h) l) ≤ 1)%nat → h ∉ remove_handler h l.
Proof.
  induction l as [|y l IH]; simpl; [set_solver|]. rewrite filter_cons.
  destruct (decide (y = h)) as [->|Hne]; simpl.
  - intros Hle Hin. assert (h ∈ filter (λ y, y = h) l) as Hf by (apply list_elem_of_filter; done).
    destruct (filter _ l); [set_solver|simpl in Hle; lia].
  - intros ?. apply not_elem_of_cons. split; [congruence|auto].
Qed.

Lemma keeps_unsubscribe t h b : private b →
  private (unsubscribe t h b).2 ∧ counter (unsubscribe t h b).2 = counter b.
Proof.
  intros Hb. unfold unsubscribe. case_bool_decide; simpl; [|done]. split; [|done].
  apply keeps_set_subs; [done|..]; intros n; [apply remove_handler_sub|apply remove_handler_filter].
Qed.

Lemma keeps_subscribe_user t n b : private b → private (subscribe t (User n) b).
Proof.
  intros Hb. unfold subscribe. apply keeps_set_subs; [done|by intros k [?|[=]%list_elem_of_singleton]%elem_of_app|].
  intros k. rewrite filter_app, length_app, filter_cons, decide_False by done. simpl. lia.
Qed.

Lemma keeps_close b : private b → private (close b).
Proof.
  intros [H1 H2 H3]. split; [| |done]; unfold subs, close; simpl; intros n t; rewrite lookup_empty; simpl.
  - set_solver.
  - lia.
Qed.

(** What every computation on the bus keeps. *)
Definition tame {A} (f : st bus A) : Prop :=
  ∀ b, private b → private (f b).2 ∧ (counter b ≤ counter (f b).2)%nat ∧
    ∀ d, d ∈ deliveries b → d ∈ deliveries (f b).2.

Lemma deliveries_new_message t p sender r c b :
  deliveries (new_message t p sender r c b).2 = deliveries b.
Proof. done. Qed.

Section tame.
Variable disp : string → Message → bus → res unit * bus.
Hypothesis disp_tame : ∀ t m, topic m = t → tame (disp t m).

Lemma tame_send t p sender r c b : private b →
  let '(m, b1) := new_message t p sender r c b in
  private (disp t m b1).2 ∧ (S (counter b) ≤ counter (disp t m b1).2)%nat ∧
  ∀ d, d ∈ deliveries b → d ∈ deliveries (disp t m b1).2.
Proof.
  intros Hb. destruct (keeps_new_message t p sender r c b Hb) as [Hb1 _].
  destruct (disp_tame t (new_message t p sender r c b).1 eq_refl _ Hb1) as (? & ? & Hd).
  split_and!; [done|simpl in *; lia|]. intros d Hin. by apply Hd.
Qed.

Lemma tame_publish t p sender : tame (publish disp t p sender).
Proof.
  intros b Hb. pose proof (tame_send t p sender None None b Hb) as Hs. unfold publish.
  destruct (new_message t p sender None None b) as [m b1].
  destruct (disp t m b1) as [[[]|e] b2]; simpl in *; split_and!; try tauto; lia.
Qed.

Lemma tame_reply o p sender : tame (reply disp o p sender).
Proof.
  intros b Hb. unfold reply. destruct (reply_to o) as [r|]; [|done].
  destruct (str_truthy r); [|done].
  pose proof (tame_send r p sender None (Some (message_id o)) b Hb) as Hs.
  destruct (new_message r p sender _ _ b) as [m b1].
  destruct (disp r m b1) as [[[]|e] b2]; simpl in *; split_and!; try tauto; lia.
Qed.

(** A request leaves no subscription behind and answers with a message that was
    delivered to its own reply topic meanwhile. *)
Definition request_ok (b : bus) (r : res (option Message)) (b' : bus) : Prop :=
  private b' ∧ (counter b ≤ counter b')%nat ∧ (∀ d, d ∈ deliveries b → d ∈ deliveries b') ∧
  (∀ t, OnReply (counter b) ∉ subs t b') ∧
  ∀ m, r = Ok (Some m) → topic m = reply_topic (counter b) ∧
    (OnReply (counter b), m) ∈ deliveries b' ∧ (OnReply (counter b), m) ∉ deliveries b.

Lemma unsubscribed n b : private b →
  ∀ t, OnReply n ∉ subs t (unsubscribe (reply_topic n) (OnReply n) b).2.
Proof.
  intros [H1 H2 _] t Hin. unfold unsubscribe in Hin. case_bool_decide as Hd; simpl in Hin.
  - rewrite subs_set_subs in Hin. case_decide as Ht; subst.
    + by apply remove_handler_once in Hin.
    + by apply H1 in Hin as [_ ->].
  - destruct (H1 n t Hin) as [_ ->]. done.
Qed.

Lemma first_reply_in n b m : first_reply n b = Some m → (OnReply n, m) ∈ deliveries b.
Proof.
  unfold first_reply. intros Hh. apply head_Some_elem_of in Hh.
  apply list_elem_of_fmap in Hh as ([h m'] & -> & [Hp Hin]%list_elem_of_filter). simpl in *. by subst.
Qed.

Lemma keeps_subscribe_reply b : private b →
  private (subscribe (reply_topic (counter b)) (OnReply (counter b))
    (mkBus (subscribers b) (closed b) (deliveries b) (S (counter b)))).
Proof.
  intros [H1 H2 H3]. split.
  - intros n t. unfold subscribe. rewrite subs_set_subs. intros Hin. simpl.
    change (subs ?u (mkBus (subscribers b) _ _ _)) with (subs u b) in Hin.
    case_decide as Ht; [|destruct (H1 n t Hin); split; [lia|done]].
    apply elem_of_app in Hin as [Hin|Hin%list_elem_of_singleton].
    + rewrite Ht in Hin. destruct (H1 n t Hin); split; [lia|done].
    + injection Hin as ->. split; [lia|done].
  - intros n t. unfold subscribe. rewrite subs_set_subs.
    change (subs ?u (mkBus (subscribers b) _ _ _)) with (subs u b). case_decide as Ht; [|apply H2].
    rewrite filter_app, length_app, filter_cons.
    case_decide as Hn; simpl; [|pose proof (H2 n (reply_topic (counter b))); lia].
    injection Hn as <-. destruct (filter _ (subs _ b)) as [|h l] eqn:Ef; [simpl; lia|].
    assert (h ∈ filter (λ h, h = OnReply (counter b)) (subs (reply_topic (counter b)) b)) as Hh
      by (rewrite Ef; set_solver).
    apply list_elem_of_filter in Hh as [-> Hh]. apply H1 in Hh as [? _]. lia.
  - intros n m Hin. simpl in *. destruct (H3 n m Hin). split; [lia|done].
Qed.

Lemma request_with_ok run t p sender b :
  (∀ q, tame (run q)) → private b →
  request_ok b (request_with disp run t p sender b).1 (request_with disp run t p sender b).2.
Proof.
  intros Hrun Hb. unfold request_with. set (n := counter b).
  pose proof (keeps_subscribe_reply b Hb) as Hb1. fold n in Hb1. set (b1 := subscribe _ _ _) in *.
  pose proof (tame_send t p sender (Some (reply_topic n)) None b1 Hb1) as Hs.
  destruct (new_message t p sender (Some (reply_topic n)) None b1) as [m b2].
  destruct (disp t m b2) as [r b3]. cbn [fst snd] in Hs. destruct Hs as (Hb3 & Hc3 & Hd3).
  assert (∀ b4, private b4 → (n ≤ counter b4)%nat → (∀ d, d ∈ deliveries b → d ∈ deliveries b4) →
    ∀ r, (∀ m, r = Ok (Some m) → (OnReply n, m) ∈ deliveries b4) →
    request_ok b r (unsubscribe (reply_topic n) (OnReply n) b4).2) as Hend.
  { intros b4 Hb4 Hc4 Hd4 r' Hr'. destruct (keeps_unsubscribe (reply_topic n) (OnReply n) b4 Hb4) as [Hu Huc].
    assert (deliveries (unsubscribe (reply_topic n) (OnReply n) b4).2 = deliveries b4) as Hdel
      by (unfold unsubscribe; by case_bool_decide).
    split_and!; [done|rewrite Huc; fold n; lia|by rewrite Hdel|by apply unsubscribed|].
    intros m' Hm'. apply Hr' in Hm'. split_and!.
    - by apply (private_log _ Hb4).
    - by rewrite Hdel.
    - intros Hold. apply (private_log _ Hb) in Hold as [? _]. fold n in H. lia. }
  destruct r as [[]|e]; [|by apply Hend; [done|simpl in Hc3; lia|auto|]].
  destruct (first_reply n b3) as [m'|] eqn:Ef; cbn [fst snd].
  - apply Hend; [done|simpl in Hc3; lia|auto|]. intros m1 [= Hm1]. apply first_reply_in. congruence.
  - destruct (Hrun (other n) b3 Hb3) as (Hb4 & Hc4 & Hd4). simpl in Hc3.
    apply Hend; [done|lia|auto|]. intros m1 [= Hm1]. by apply first_reply_in.
Qed.

Lemma tame_run_prog wait p : (∀ q, tame (wait q)) → tame (run_prog disp wait p).
Proof.
  intros Hw. induction p; intros b Hb; cbn [run_prog].
  - done.
  - done.
  - destruct (tame_publish topic0 payload0 sender b Hb) as (H1 & H2 & H3).
    destruct (publish disp topic0 payload0 sender b) as [[m|e] b1]; cbn [fst snd] in *; [|done].
    destruct (H m b1 H1) as (? & ? & ?). split_and!; [done|lia|auto].
  - destruct (IHp _ (keeps_subscribe_user topic0 h b Hb)) as (? & ? & ?). done.
  - destruct (keeps_unsubscribe topic0 (User h) b Hb) as [H1 H2].
    assert (deliveries (unsubscribe topic0 (User h) b).2 = deliveries b) as Hdel
      by (unfold unsubscribe; by case_bool_decide).
    destruct (unsubscribe topic0 (User h) b) as [r b1]; cbn [fst snd] in *.
    destruct (H r b1 H1) as (? & ? & Hd). split_and!; [done|lia|]. intros d. rewrite <-Hdel. auto.
  - by apply H.
  - destruct (tame_reply original payload0 sender b Hb) as (H1 & H2 & H3).
    destruct (reply disp original payload0 sender b) as [[m|e] b1]; cbn [fst snd] in *; [|done].
    destruct (H m b1 H1) as (? & ? & ?). split_and!; [done|lia|auto].
  - destruct (request_with_ok wait topic0 payload0 sender b Hw Hb) as (H1 & H2 & H3 & _ & _).
    destruct (request_with disp wait topic0 payload0 sender b) as [[m|e] b1]; cbn [fst snd] in *; [|done].
    destruct (H m b1 H1) as (? & ? & ?). split_and!; [done|lia|auto].
  - destruct (IHp _ (keeps_close b Hb)) as (? & ? & ?). done.
Qed.
End tame.

Lemma tame_for {A} (f : A → st bus unit) l : (∀ x, x ∈ l → tame (f x)) → tame (st_for f l).
Proof.
  induction l as [|x l IH]; intros Hf b Hb; [done|]. cbn [st_for]. unfold mbind, st_bind.
  destruct (Hf x ltac:(set_solver) b Hb) as (H1 & H2 & H3).
  destruct (f x b) as [[u|e] b1]; cbn [fst snd] in *; [|done].
  destruct (IH ltac:(set_solver) b1 H1) as (? & ? & ?). split_and!; [done|lia|auto].
Qed.

Lemma tame_dispatch fuel t m : topic m = t → tame (dispatch fuel t m).
Proof.
  revert t m. induction fuel as [|fuel IH]; intros t m Ht b Hb; [done|]. cbn [dispatch].
  assert (∀ n, OnReply n ∈ subs t b → (n < counter b)%nat ∧ t = reply_topic n) as Hsub
    by (intros n; apply (private_subs _ Hb)).
  set (c := counter b) in *.
  (* the handlers were listed in [b]; the counter only grows while they run *)
  assert (∀ hs, (∀ h, h ∈ hs → h ∈ subs t b) → ∀ b', private b' → (c ≤ counter b')%nat →
    (let f := st_for (λ h, deliver (run_prog (dispatch fuel) (λ _ b, (Ok tt, b))) h m) hs in
     private (f b').2 ∧ (counter b' ≤ counter (f b').2)%nat ∧
     ∀ d, d ∈ deliveries b' → d ∈ deliveries (f b').2)) as Hgen; [|by apply Hgen].
  induction hs as [|h hs IHh]; intros Hin b' Hb' Hc; cbn [st_for]; [done|].
  unfold mbind, st_bind.
  assert (private (deliver (run_prog (dispatch fuel) (λ _ b, (Ok tt, b))) h m b').2 ∧
    (counter b' ≤ counter (deliver (run_prog (dispatch fuel) (λ _ b, (Ok tt, b))) h m b').2)%nat ∧
    ∀ d, d ∈ deliveries b' →
      d ∈ deliveries (deliver (run_prog (dispatch fuel) (λ _ b, (Ok tt, b))) h m b').2) as (D1 & D2 & D3).
  { assert (private (mkBus (subscribers b') (closed b') (deliveries b' ++ [(h, m)]) (counter b'))) as Hp.
    { destruct Hb' as [P1 P2 P3]. split; [done|done|]. simpl.
      intros n m' [Hd|[= <- ->]%list_elem_of_singleton]%elem_of_app; [auto|].
      destruct (Hsub n) as [? ->]; [apply Hin; set_solver|]. split; [lia|done]. }
    unfold deliver. destruct h as [n|n]; cbn [fst snd].
    - destruct (tame_run_prog (dispatch fuel) IH (λ _ b, (Ok tt, b)) (behaviour n (deliveries b') m))
        with (b := mkBus (subscribers b') (closed b') (deliveries b' ++ [(User n, m)]) (counter b'))
        as (? & ? & Hd); [done|done|].
      split_and!; [done|done|]. intros d ?. apply Hd. set_solver.
    - split_and!; [done|done|]. set_solver. }
  destruct (deliver _ h m b') as [[u|e] b1]; cbn [fst snd] in *; [|done].
  destruct (IHh ltac:(set_solver) b1 D1 ltac:(lia)) as (? & ? & ?). split_and!; [done|lia|auto].
Qed.

Lemma init_private : private init.
Proof.
  split; [| |set_solver]; unfold subs, init; simpl; intros n t; rewrite lookup_empty; simpl;
    [set_solver|lia].
Qed.
End bus.
End InMemoryMessageBus.

Import InMemoryMessageBus.

(** C18: Whatever the handlers do (publish, reply, send further requests, raise, run into the
    recursion limit) and whatever other threads do meanwhile, a request leaves no subscription
    of its own behind, and the message it answers with was delivered to its private reply topic
    during the request; so answers of two requests are never mixed up. *)
Theorem request_reply_private uuid time behaviour other fuel t p sender b :
  private uuid b →
  let '(r, b') := request uuid time behaviour other fuel t p sender b in
  private uuid b' ∧ (∀ t, OnReply (counter b) ∉ subs t b') ∧
  ∀ m, r = Ok (Some m) → topic m = reply_topic uuid (counter b) ∧
    (OnReply (counter b), m) ∈ deliveries b' ∧ (OnReply (counter b), m) ∉ deliveries b.
Proof.
  intros Hb. unfold request.
  destruct (request_with_ok uuid time other (dispatch uuid time behaviour other fuel)
    (λ t m, tame_dispatch uuid time behaviour other fuel t m)
    (run_prog uuid time other (dispatch uuid time behaviour other fuel) (λ _ b, (Ok tt, b)))
    t p sender b) as (H1 & _ & _ & H4 & H5); [|done|].
  - intros q. apply tame_run_prog; [|by intros ? ? ?]. intros t1 m1. apply tame_dispatch.
  - by destruct (request_with _ _ _ _ _ _ _ _ b).
Qed.

Module BusExample.
(** A service that answers every message, and a client that asks it. *)
Definition uuid n : string := pretty (N.of_nat n).
Definition time n : float := PyFloat.of_Z (Z.of_nat n).
Definition echo (n : nat) (_ : list (handler * Message)) (m : Message) : hprog :=
  HReply m (payload m) "echo" (λ _, HDone).
Definition b0 : bus := subscribe "ask" (User 0) init.

Lemma b0_private : private uuid b0.
Proof. apply keeps_subscribe_user, init_private. Qed.

Example echo_answers :
  (request uuid time echo (λ _, HDone) 5 "ask" (VInt 7) "client" b0).1 =
  Ok (Some (mkMessage "_reply.0" (VInt 7) "2" "echo" (time 2) None (Some "1"))).
Proof. vm_compute. reflexivity. Qed.

Lemma request_reply_private_witness :
  private uuid b0 ∧ let '(r, b') := request uuid time echo (λ _, HDone) 5 "ask" (VInt 7) "client" b0 in
  private uuid b' ∧ (∀ t, OnReply (counter b0) ∉ subs t b') ∧
  ∀ m, r = Ok (Some m) → topic m = reply_topic uuid (counter b0) ∧
    (OnReply (counter b0), m) ∈ deliveries b' ∧ (OnReply (counter b0), m) ∉ deliveries b0.
Proof. split; [exact b0_private|]. apply request_reply_private, b0_private. Defined.
End BusExample.
