(* ===== verification/Dispatcher.v ===== *)
(** * Task dispatcher and callbacks (src/src/multi_agent/dispatcher.py, callback_handler.py)

    Role-based dispatch of assignments with timeouts and a retry budget.  The
    dispatcher owns its assignments: clients do not mutate the objects it
    returns.  Lifecycle events go to any [MessageBus], whose handlers may raise
    after the dispatcher has changed its state.  [time n] is the n-th reading of
    [time.time()]. *)
From S2P Require Import Prelude PyFloat PyValue Persistence PySort Messaging.
Local Open Scope Z_scope.

Record TaskAssignment := mkTaskAssignment {
  ta_task_id : string;
  ta_role : string;
  ta_payload : pyval;
  ta_timeout_seconds : float;
  ta_retry_limit : Z;
  ta_status : string;
  ta_attempt_count : Z;
  ta_created_at : float;
  ta_updated_at : float;
}.

Record CallbackRecord := mkCallbackRecord {
  cb_task_id : string;
  cb_role : string;
  cb_succeeded : bool;
  cb_payload : pyval;
  cb_received_at : float;
}.

Module CallbackHandler.
Definition records := gmap string (list CallbackRecord).
Definition init : records := ∅.
Definition get_task_records (id : string) (r : records) : list CallbackRecord := default [] (r !! id).
Definition record (c : CallbackRecord) (r : records) : records :=
  <[cb_task_id c := get_task_records (cb_task_id c) r ++ [c]]> r.
Definition aggregate_task (id : string) (r : records) : pyval :=
  let task_records := get_task_records id r in
  VDict [("task_id", VStr id); ("callback_count", VInt (Z.of_nat (length task_records)));
         ("all_succeeded", VBool (negb (bool_decide (task_records = [])) && forallb cb_succeeded task_records));
         ("roles", VList (VStr ∘ cb_role <$> task_records))].
End CallbackHandler.

Module TaskDispatcher.

Record dispatcher (W : Type) := mkDispatcher {
  assignments : dict TaskAssignment;
  dp_bus : option W;
  dp_clock : nat;
}.
Arguments mkDispatcher {W}. Arguments assignments {W}. Arguments dp_bus {W}. Arguments dp_clock {W}.

(** [TaskAssignment(task_id, role, payload)] with the defaults. *)
Definition new_assignment (id role : string) (payload : pyval) (t t' : float) : TaskAssignment :=
  mkTaskAssignment id role payload (PyFloat.of_Z 30) 1 "pending" 0 t t'.

Definition set_status (status : string) (now : float) (a : TaskAssignment) : TaskAssignment :=
  mkTaskAssignment (ta_task_id a) (ta_role a) (ta_payload a) (ta_timeout_seconds a) (ta_retry_limit a)
    status (ta_attempt_count a) (ta_created_at a) now.
Definition start (now : float) (a : TaskAssignment) : TaskAssignment :=
  mkTaskAssignment (ta_task_id a) (ta_role a) (ta_payload a) (ta_timeout_seconds a) (ta_retry_limit a)
    "running" (ta_attempt_count a + 1) (ta_created_at a) now.

Section dispatcher.
Context {W : Type} `{MessageBus W}.
Variable time : nat → float.

Definition init (bus : option W) : dispatcher W := mkDispatcher [] bus 0.

Definition now : st (dispatcher W) float := λ d,
  (Ok (time (dp_clock d)), mkDispatcher (assignments d) (dp_bus d) (S (dp_clock d))).
Definition update (f : dict TaskAssignment → dict TaskAssignment) : st (dispatcher W) unit :=
  st_modify (λ d, mkDispatcher (f (assignments d)) (dp_bus d) (dp_clock d)).

(** [if self._bus is not None: self._bus.publish(...)] *)
Definition notify (topic : string) (payload : pyval) : st (dispatcher W) unit := λ d,
  match dp_bus d with
  | None => (Ok tt, d)
  | Some w =>
      let '(r, w') := bus_publish topic payload "dispatcher" w in
      ((λ _, tt) <$> r, mkDispatcher (assignments d) (Some w') (dp_clock d))
  end.

Definition enqueue (a : TaskAssignment) : st (dispatcher W) TaskAssignment :=
  known ← st_gets (λ d, dmem (ta_task_id a) (assignments d));
  st_lift (raise_if known (ValueError ("task '" +:+ ta_task_id a +:+ "' already exists"))) ≫= λ _,
  update (dinsert (ta_task_id a) a) ≫= λ _,
  notify ("task.assigned." +:+ ta_role a)
    (VDict [("task_id", VStr (ta_task_id a)); ("role", VStr (ta_role a))]) ≫= λ _,
  mret a.

(** [assignment.role == role and assignment.status == "pending"] *)
Definition waiting (role : string) (a : TaskAssignment) : bool :=
  bool_decide (ta_role a = role) && bool_decide (ta_status a = "pending").
Definition older : TaskAssignment → TaskAssignment → bool := PySort.on ta_created_at PyFloat.lt.
Definition candidates (role : string) (d : dispatcher W) : list TaskAssignment :=
  PySort.sort older (filter (λ a, waiting role a = true) (assignments d).*2).

Definition dispatch_next (role : string) : st (dispatcher W) (option TaskAssignment) :=
  ranked ← st_gets (candidates role);
  match ranked with
  | [] => mret None
  | a :: _ =>
      t ← now;
      update (dinsert (ta_task_id a) (start t a)) ≫= λ _,
      mret (Some (start t a))
  end.

Definition get_assignment (id : string) : st (dispatcher W) TaskAssignment :=
  found ← st_gets (λ d, dlookup id (assignments d));
  st_lift (match found with
    | Some a => Ok a
    | None => Err (ValueError ("task '" +:+ id +:+ "' not found"))
    end).

Definition complete (id : string) (succeeded : bool) : st (dispatcher W) TaskAssignment :=
  a ← get_assignment id;
  t ← now;
  let a' := set_status (if succeeded then "completed" else "failed") t a in
  update (dinsert id a') ≫= λ _,
  notify "task.completed" (VDict [("task_id", VStr id); ("succeeded", VBool succeeded)]) ≫= λ _,
  mret a'.

(** The body of the loop over the assignments: whether a task is recycled and
    what becomes of it. *)
Definition timed_out (current_time : float) (a : TaskAssignment) : bool :=
  bool_decide (ta_status a = "running") &&
  negb (PyFloat.lt (PyFloat.sub current_time (ta_updated_at a)) (ta_timeout_seconds a)).
Definition exhausted (a : TaskAssignment) : bool := ta_retry_limit a <? ta_attempt_count a.
Definition recycle_one (current_time : float) (a : TaskAssignment) : TaskAssignment :=
  if timed_out current_time a
  then set_status (if exhausted a then "failed" else "pending") current_time a
  else a.

(** [now or time.time()]: a [now] of zero counts as absent. *)
Definition current_time (now_arg : option float) : st (dispatcher W) float :=
  match now_arg with
  | Some t => if PyFloat.eqb t PyFloat.zero then now else mret t
  | None => now
  end.

Definition recycle_timed_out (now_arg : option float) : st (dispatcher W) (list TaskAssignment) :=
  t ← current_time now_arg;
  all ← st_gets assignments;
  update (fmap (prod_map id (recycle_one t))) ≫= λ _,
  mret (recycle_one t <$> filter (λ a, timed_out t a && negb (exhausted a) = true) all.*2).

Definition list_assignments (d : dispatcher W) : list TaskAssignment := (assignments d).*2.

(** A worker of a role that takes assignments until none is left. *)
Fixpoint drain (n : nat) (role : string) : st (dispatcher W) (list TaskAssignment) :=
  match n with
  | O => mret []
  | S n =>
      a ← dispatch_next role;
      match a with
      | None => mret []
      | Some a => rest ← drain n role; mret (a :: rest)
      end
  end.

(** ** Dictionaries of assignments under their own identifiers *)
Implicit Types (d : dispatcher W) (a : TaskAssignment).

Lemma filter_values_dinsert (p : TaskAssignment → bool) k x (l : dict TaskAssignment) :
  keyed ta_task_id l → k ∈ dkeys l → p x = false →
  filter (λ a, p a = true) (dinsert k x l).*2 =
  filter (λ a, ta_task_id a ≠ k) (filter (λ a, p a = true) l.*2).
Proof.
  intros [Hk Hnd] Hin Hp. induction l as [|[k0 v] l IH]; [set_solver|].
  rewrite dkeys_cons in Hnd. apply NoDup_cons in Hnd as [Hk0 Hnd].
  assert (k0 = ta_task_id v) as Hkv by (apply Hk; set_solver).
  assert (∀ j r, (j, r) ∈ l → j = ta_task_id r) as Hk' by (intros; apply Hk; set_solver).
  rewrite dkeys_cons in Hin. cbn [dinsert]. destruct (decide (k = k0)) as [->|Hne]; rewrite !fmap_cons; cbn [snd].
  - rewrite !filter_cons, decide_False by congruence.
    assert (filter (λ a, ta_task_id a ≠ k0) (filter (λ a, p a = true) l.*2) = filter (λ a, p a = true) l.*2) as Heq.
    { apply filter_all.
      intros a [_ Ha]%list_elem_of_filter <-. apply list_elem_of_fmap in Ha as ([j r] & -> & Hj).
      apply Hk0. cbn [snd] in *. rewrite <-(Hk' _ _ Hj). unfold dkeys.
      by apply (list_elem_of_fmap_2 fst _ (j, r)). }
    destruct (decide (p v = true)); [|done]. rewrite filter_cons, decide_False by (intros []; auto). done.
  - rewrite !filter_cons, IH by (done || set_solver).
    destruct (decide (p v = true)); [|done]. rewrite filter_cons, decide_True by congruence. done.
Qed.

Lemma keyed_update k a (l : dict TaskAssignment) :
  keyed ta_task_id l → ta_task_id a = k → keyed ta_task_id (dinsert k a l).
Proof.
  intros [Hk Hnd] <-. split; [|by apply dinsert_NoDup].
  intros k r [[= -> ->]|Hin]%elem_of_dinsert; eauto.
Qed.

Lemma keyed_lookup a (l : dict TaskAssignment) :
  keyed ta_task_id l → a ∈ l.*2 ↔ dlookup (ta_task_id a) l = Some a.
Proof.
  intros [Hk Hnd]. rewrite <-elem_of_dlookup by done. rewrite list_elem_of_fmap. split.
  - intros ([k r] & -> & Hin). simpl. by rewrite <-(Hk _ _ Hin).
  - intros Hin. by exists (ta_task_id a, a).
Qed.

Lemma keyed_values_NoDup (l : dict TaskAssignment) : keyed ta_task_id l → NoDup (ta_task_id <$> l.*2).
Proof.
  intros [Hk Hnd]. assert (ta_task_id <$> l.*2 = dkeys l) as ->; [|done].
  unfold dkeys. rewrite <-list_fmap_compose. apply list_fmap_ext.
  intros i [k r] Hi. simpl. symmetry. apply Hk. by apply list_elem_of_lookup_2 in Hi.
Qed.

(** ** One dispatch *)
Lemma waiting_start role t a : waiting role (start t a) = false.
Proof. unfold waiting, start; simpl. by rewrite andb_false_r. Qed.

Lemma dispatch_next_spec role d : keyed ta_task_id (assignments d) →
  match candidates role d with
  | [] => dispatch_next role d = (Ok None, d)
  | a :: l => ∃ d', let t := time (dp_clock d) in
      dispatch_next role d = (Ok (Some (start t a)), d') ∧
      assignments d' = dinsert (ta_task_id a) (start t a) (assignments d) ∧
      dlookup (ta_task_id a) (assignments d) = Some a ∧ waiting role a = true ∧
      keyed ta_task_id (assignments d') ∧ candidates role d' = l
  end.
Proof.
  intros Hd. unfold dispatch_next. unfold mbind, st_bind, st_gets.
  destruct (candidates role d) as [|a l] eqn:E; [done|].
  unfold candidates in E. apply PySort.sort_cons_inv in E as (l1 & l2 & Hl & Hs).
  assert (a ∈ filter (λ a, waiting role a = true) (assignments d).*2) as [Hw Ha]%list_elem_of_filter
    by (rewrite Hl; set_solver).
  apply keyed_lookup in Ha as Hlook; [|done].
  eexists. split; [unfold now, update, st_modify, mret, st_ret; reflexivity|].
  split_and!; [done|done|done|by apply keyed_update|].
  unfold candidates. cbn [assignments snd]. rewrite filter_values_dinsert; [|done|by eapply dlookup_Some_keys|].
  2: apply waiting_start.
  rewrite Hl, <-Hs. f_equal.
  assert (NoDup (ta_task_id <$> (l1 ++ a :: l2))) as Hnd.
  { rewrite <-Hl. eapply sublist_NoDup; [by apply keyed_values_NoDup|].
    apply fmap_sublist, sublist_filter. }
  rewrite fmap_app, fmap_cons in Hnd. apply NoDup_app in Hnd as (_ & Hd1 & [Hd2 _]%NoDup_cons).
  rewrite filter_app, filter_cons, decide_False by (intros []; done). f_equal; apply filter_all.
  - intros b Hb Hk. destruct (Hd1 (ta_task_id b)); [by apply list_elem_of_fmap_2|rewrite Hk; set_solver].
  - intros b Hb Hk. destruct Hd2. rewrite <-Hk. by apply list_elem_of_fmap_2.
Qed.

Lemma candidates_spec role d a : keyed ta_task_id (assignments d) →
  a ∈ candidates role d ↔ dlookup (ta_task_id a) (assignments d) = Some a ∧ waiting role a = true.
Proof.
  intros Hd. unfold candidates. rewrite PySort.elem_of_sort, list_elem_of_filter, keyed_lookup by done.
  tauto.
Qed.

(** ** A worker that takes everything *)
Lemma drain_spec role n d : keyed ta_task_id (assignments d) →
  (length (candidates role d) < n)%nat → ∃ l d',
  drain n role d = (Ok l, d') ∧ keyed ta_task_id (assignments d') ∧ candidates role d' = [] ∧
  ta_task_id <$> l = ta_task_id <$> candidates role d ∧
  dkeys (assignments d') = dkeys (assignments d) ∧
  ∀ id a, dlookup id (assignments d) = Some a → ∃ k, dlookup id (assignments d') =
    Some (if waiting role a then start (time k) a else a).
Proof.
  revert d. induction n as [|n IH]; intros d Hd Hn; [lia|]. cbn [drain].
  unfold mbind, st_bind. pose proof (dispatch_next_spec role d Hd) as Hnext.
  destruct (candidates role d) as [|a l] eqn:E.
  - rewrite Hnext. exists [], d. split_and!; [done|done|done|done|done|].
    intros id a Ha. exists 0%nat. destruct (waiting role a) eqn:Hw; [|done].
    assert (a ∈ candidates role d) as Hin; [|rewrite E in Hin; set_solver].
    apply candidates_spec; [done|]. split; [|done].
    assert (id = ta_task_id a) as <-; [|done].
    destruct Hd as [Hk Hnd]. apply Hk. by apply elem_of_dlookup.
  - destruct Hnext as (d1 & -> & Hass & Hlook & Hw & Hd1 & Hcand).
    destruct (IH d1 Hd1 ltac:(rewrite Hcand; simpl in Hn; lia))
      as (l' & d' & -> & Hd' & Hc' & Hl' & Hk' & Hall).
    exists (start (time (dp_clock d)) a :: l'), d'. split_and!; [done|done|done|..].
    + rewrite !fmap_cons, Hl', Hcand. done.
    + rewrite Hk', Hass, dkeys_dinsert. apply dlookup_Some_keys in Hlook. by rewrite decide_True.
    + intros id b Hb. destruct (decide (id = ta_task_id a)) as [->|Hne].
      * assert (b = a) as -> by congruence. rewrite Hw.
        destruct (Hall (ta_task_id a) (start (time (dp_clock d)) a)) as [k Hlk].
        { rewrite Hass. apply dlookup_dinsert_eq. }
        exists (dp_clock d). by rewrite Hlk, waiting_start.
      * apply Hall. by rewrite Hass, dlookup_dinsert_ne.
Qed.

(** ** Retry budget *)
Definition fresh a : Prop := ta_status a = "pending" ∧ ta_attempt_count a = 0.
Definition terminal a : Prop := ta_status a = "completed" ∨ ta_status a = "failed".
Definition task_ok a : Prop :=
  (ta_status a = "pending" ∨ ta_status a = "running" ∨ terminal a) ∧
  0 ≤ ta_attempt_count a ≤ Z.max 0 (ta_retry_limit a) + 1 ∧
  (ta_status a = "pending" → ta_attempt_count a ≤ Z.max 0 (ta_retry_limit a)) ∧
  (ta_status a = "running" → 1 ≤ ta_attempt_count a).
Definition tasks_ok d : Prop :=
  keyed ta_task_id (assignments d) ∧ ∀ id a, dlookup id (assignments d) = Some a → task_ok a.

Inductive step : dispatcher W → dispatcher W → Prop :=
| step_enqueue a d : fresh a → step d (enqueue a d).2
| step_dispatch role d : step d (dispatch_next role d).2
| step_complete id succeeded d : step d (complete id succeeded d).2
| step_recycle t d : step d (recycle_timed_out t d).2.

(** What one step makes of one assignment. *)
Definition moved a a' : Prop :=
  ta_retry_limit a' = ta_retry_limit a ∧
  (a' = a ∨ (terminal a' ∧ ta_attempt_count a' = ta_attempt_count a) ∨
   (ta_status a = "pending" ∧ ta_status a' = "running" ∧ ta_attempt_count a' = ta_attempt_count a + 1) ∨
   (ta_status a = "running" ∧ ta_status a' = "pending" ∧ ta_attempt_count a' = ta_attempt_count a ∧
    ta_attempt_count a ≤ ta_retry_limit a)).

Lemma notify_assignments t p d : assignments (notify t p d).2 = assignments d.
Proof. unfold notify. destruct (dp_bus d); [|done]. by destruct (bus_publish _ _ _ _). Qed.

Lemma keyed_recycle t (l : dict TaskAssignment) :
  keyed ta_task_id l → keyed ta_task_id (prod_map id (recycle_one t) <$> l).
Proof.
  assert (∀ a, ta_task_id (recycle_one t a) = ta_task_id a) as Hid
    by (intros a; unfold recycle_one; by case_match).
  intros [Hk Hnd]. split.
  - intros k r ([k' r'] & [= -> ->] & Hin)%list_elem_of_fmap. simpl. rewrite Hid. eauto.
  - unfold dkeys in *. by rewrite <-list_fmap_compose.
Qed.

Lemma dlookup_fmap_values (f : TaskAssignment → TaskAssignment) id (l : dict TaskAssignment) :
  dlookup id (prod_map (λ k, k) f <$> l) = f <$> dlookup id l.
Proof. induction l as [|[k v] l IH]; simpl; [done|]. by case_decide. Qed.

Lemma recycle_spec t d : ∃ t',
  assignments (recycle_timed_out t d).2 = prod_map id (recycle_one t') <$> assignments d ∧
  ∀ t0, t = Some t0 → PyFloat.eqb t0 PyFloat.zero = false → t' = t0.
Proof.
  unfold recycle_timed_out, current_time, mbind, st_bind, now, mret, st_ret.
  destruct t as [t|]; [destruct (PyFloat.eqb t PyFloat.zero) eqn:E|]; eexists; (split; [done|]);
    intros t0 [= <-]; congruence.
Qed.

Lemma recycle_moved t a : moved a (recycle_one t a).
Proof.
  unfold moved, recycle_one, timed_out, exhausted, terminal.
  destruct (bool_decide (ta_status a = "running")) eqn:E; simpl; [|auto].
  apply bool_decide_eq_true in E. destruct (PyFloat.lt _ _); simpl; [auto|].
  destruct (Z.ltb_spec (ta_retry_limit a) (ta_attempt_count a)); (split; [done|]); right.
  - left. auto.
  - right; right. auto.
Qed.

Lemma step_tasks d d' : step d d' → keyed ta_task_id (assignments d) →
  keyed ta_task_id (assignments d') ∧
  ∀ id a', dlookup id (assignments d') = Some a' →
    match dlookup id (assignments d) with Some a => moved a a' | None => fresh a' end.
Proof.
  assert (∀ a, moved a a) as Hrefl by (split; auto).
  assert (∀ d id a', dlookup id (assignments d) = Some a' →
    match dlookup id (assignments d) with Some a => moved a a' | None => fresh a' end) as Hsame
    by (intros ? ? ? ->; auto).
  intros Hs Hd. destruct Hs as [a d Hf|role d|id b d|t d].
  - unfold enqueue, mbind, st_bind, st_gets, st_lift, update, st_modify.
    destruct (dmem _ _) eqn:Em; unfold raise_if; [by split; [|apply Hsame]|].
    pose proof (notify_assignments ("task.assigned." +:+ ta_role a)
      (VDict [("task_id", VStr (ta_task_id a)); ("role", VStr (ta_role a))])
      (mkDispatcher (dinsert (ta_task_id a) a (assignments d)) (dp_bus d) (dp_clock d))) as Hn.
    destruct (notify _ _ _) as [[u|e] d1]; cbn [snd mret st_ret] in *; rewrite Hn; cbn [assignments].
    all: split; [by apply keyed_update|]; intros id a'; rewrite dlookup_dinsert;
      case_decide; subst; [|apply Hsame]; intros [= <-];
      assert (dlookup (ta_task_id a) (assignments d) = None) as -> by
        (destruct (dlookup _ _) eqn:E; [unfold dmem in Em; by rewrite E in Em|done]); done.
  - pose proof (dispatch_next_spec role d Hd) as Hn. destruct (candidates role d) as [|a l].
    { rewrite Hn. split; [done|]. apply Hsame. }
    destruct Hn as (d' & -> & Hass & Hlook & Hw & Hd' & _). cbn [snd]. split; [done|].
    intros id a'. rewrite Hass, dlookup_dinsert. case_decide; subst; [|apply Hsame].
    intros [= <-]. rewrite Hlook. apply andb_true_iff in Hw as [_ Hst%bool_decide_eq_true].
    split; [done|]. right; right; left. done.
  - unfold complete, get_assignment, mbind, st_bind, st_gets, st_lift, update, st_modify, now.
    destruct (dlookup id (assignments d)) as [a|] eqn:Ea; cbn [snd]; [|by split; [|apply Hsame]].
    assert (ta_task_id a = id) as Hid by (destruct Hd as [Hk ?]; symmetry; apply Hk; by apply elem_of_dlookup).
    match goal with |- context [notify ?t ?p ?x] => pose proof (notify_assignments t p x) as Hn;
      destruct (notify t p x) as [[u|e] d1] end; cbn [snd mret st_ret assignments] in *; rewrite Hn.
    all: split; [by apply keyed_update|]; intros id' a'; rewrite dlookup_dinsert; case_decide; subst;
      [|apply Hsame]; intros [= <-]; rewrite Ea; split; [done|]; right; left; unfold terminal; by destruct b; auto.
  - destruct (recycle_spec t d) as (t' & -> & _). split; [by apply keyed_recycle|].
    intros id a'. rewrite dlookup_fmap_values. destruct (dlookup id (assignments d)); [|done].
    intros [= <-]. apply recycle_moved.
Qed.

Lemma step_ok d d' : step d d' → tasks_ok d → tasks_ok d'.
Proof.
  intros Hs [Hd Hok]. destruct (step_tasks d d' Hs Hd) as [Hd' Hmv]. split; [done|].
  intros id a' Ha'. specialize (Hmv id a' Ha').
  destruct (dlookup id (assignments d)) as [a|] eqn:Ea.
  - destruct (Hok id a Ea) as (Hst & Hb & Hp & Hr). unfold task_ok.
    destruct Hmv as (Hlim & [->|[[Ht Hc]|[(H1 & H2 & Hc)|(H1 & H2 & Hc & Hle)]]]).
    + done.
    + rewrite Hlim, Hc. split_and!; [auto|lia|lia|..]; destruct Ht as [->| ->]; done.
    + rewrite Hlim, Hc, H2. specialize (Hp H1). split_and!; [auto|lia|lia|done|lia].
    + rewrite Hlim, Hc, H2. split_and!; [auto|lia|lia|lia|done].
  - destruct Hmv as [H1 H2]. unfold task_ok. rewrite H1, H2. split_and!; [auto|lia|lia|lia|done].
Qed.

(** ** Workers that never report back *)

(** Each round the role's worker takes everything and is then timed out. *)
Definition round (role : string) (t : float) : st (dispatcher W) unit :=
  n ← st_gets (λ d, length (assignments d));
  drain (S n) role ≫= λ _,
  recycle_timed_out (Some t) ≫= λ _, mret tt.

(** [t] is so late that every attempt started so far has timed out. *)
Definition late (a : TaskAssignment) (t : float) : Prop :=
  PyFloat.eqb t PyFloat.zero = false ∧
  ∀ n, PyFloat.lt (PyFloat.sub t (time n)) (ta_timeout_seconds a) = false.

Lemma length_candidates role d : (length (candidates role d) ≤ length (assignments d))%nat.
Proof.
  unfold candidates. rewrite PySort.length_sort. etrans; [apply length_filter|].
  by rewrite length_fmap.
Qed.

Lemma round_spec role t id d a :
  keyed ta_task_id (assignments d) → dlookup id (assignments d) = Some a →
  waiting role a = true → late a t → ∃ k d', round role t d = (Ok tt, d') ∧
  keyed ta_task_id (assignments d') ∧
  dlookup id (assignments d') = Some (set_status
    (if ta_retry_limit a <? ta_attempt_count a + 1 then "failed" else "pending") t (start (time k) a)).
Proof.
  intros Hd Ha Hw [Hz Hlate]. unfold round, mbind, st_bind, st_gets.
  destruct (drain_spec role (S (length (assignments d))) d Hd) as (l & d1 & -> & Hd1 & _ & _ & _ & Hall);
    [pose proof (length_candidates role d); lia|].
  destruct (Hall id a Ha) as [k Hk]. rewrite Hw in Hk.
  destruct (recycle_spec (Some t) d1) as (t' & Hass & Ht'). rewrite (Ht' t eq_refl Hz) in Hass.
  assert (∃ l, (recycle_timed_out (Some t) d1).1 = Ok l) as [l' Hok].
  { unfold recycle_timed_out, current_time, mbind, st_bind. rewrite Hz. by eexists. }
  destruct (recycle_timed_out (Some t) d1) as [r d2]. cbn [fst snd] in *. subst r.
  exists k, d2. split; [done|]. rewrite Hass. split; [by apply keyed_recycle|].
  rewrite dlookup_fmap_values, Hk. simpl. unfold recycle_one, timed_out, exhausted. simpl.
  by rewrite (Hlate k).
Qed.

Lemma rounds_fail role ts : ∀ id d a,
  keyed ta_task_id (assignments d) → dlookup id (assignments d) = Some a →
  waiting role a = true → Z.of_nat (length ts) = ta_retry_limit a - ta_attempt_count a + 1 →
  Forall (late a) ts → ts ≠ [] → ∃ a' d',
  st_for (round role) ts d = (Ok tt, d') ∧ dlookup id (assignments d') = Some a' ∧
  ta_status a' = "failed" ∧ ta_attempt_count a' = ta_retry_limit a + 1.
Proof.
  induction ts as [|t ts IH]; intros id d a Hd Ha Hw Hlen Hl Hne; [done|].
  apply Forall_cons in Hl as [Ht Hl]. cbn [st_for]. unfold mbind, st_bind. simpl in Hlen.
  destruct (round_spec role t id d a Hd Ha Hw Ht) as (k & d1 & -> & Hd1 & Ha1).
  destruct ts as [|t2 ts].
  - destruct (Z.ltb_spec (ta_retry_limit a) (ta_attempt_count a + 1)); [|simpl in Hlen; lia].
    eexists _, d1. split_and!; [done|done|done|]. simpl in *. lia.
  - destruct (Z.ltb_spec (ta_retry_limit a) (ta_attempt_count a + 1)); [simpl in Hlen; lia|].
    apply andb_true_iff in Hw as [Hrole _].
    apply (IH id d1 _ Hd1 Ha1); [|simpl in *; lia|done|done].
    unfold waiting. simpl. by rewrite Hrole.
Qed.
End dispatcher.
End TaskDispatcher.

Import TaskDispatcher.

(** In every reachable state of the dispatcher an assignment is pending, running, completed
    or failed, and has been attempted at most once more than its retry limit; a completed or
    failed assignment stays so and is never attempted again.  The bus may raise at any time. *)
Theorem dispatch_budget {W} `{MessageBus W} time (bus : option W) d :
  rtc (step time) (init bus) d →
  (∀ a, a ∈ list_assignments d →
     (ta_status a = "pending" ∨ ta_status a = "running" ∨ terminal a) ∧
     0 ≤ ta_attempt_count a ≤ Z.max 0 (ta_retry_limit a) + 1) ∧
  ∀ d' id a, step time d d' → dlookup id (assignments d) = Some a → terminal a →
    ∀ a', dlookup id (assignments d') = Some a' → terminal a' ∧ ta_attempt_count a' = ta_attempt_count a.
Proof.
  intros Hr. assert (tasks_ok d) as [Hd Hok].
  { assert (tasks_ok (init bus)) as H0 by (split; [split; [set_solver|constructor]|done]).
    clear -Hr H0. induction Hr; eauto using step_ok. }
  split.
  - intros a Ha. apply keyed_lookup in Ha; [|done]. destruct (Hok _ _ Ha) as (? & ? & _). auto.
  - intros d' id a Hs Ha Ht a' Ha'. destruct (step_tasks time d d' Hs Hd) as [_ Hmv].
    specialize (Hmv id a' Ha'). rewrite Ha in Hmv. destruct Ht as [Ht|Ht];
      destruct Hmv as (_ & [->|[?|[(?&?&?)|(?&?&?&?)]]]); unfold terminal; intuition congruence.
Qed.

(** A worker that keeps asking is served: if more requests are made than assignments wait
    for its role, it receives exactly the waiting assignments, oldest first and ties in the
    order of their registration, every one of them is then running, and none of the role waits
    any more. *)
Theorem waiting_tasks_served {W} `{MessageBus W} time role n (d : dispatcher W) :
  keyed ta_task_id (assignments d) →
  Forall (λ a, PyFloat.is_nan (ta_created_at a) = false) (list_assignments d) →
  (length (assignments d) < n)%nat →
  ∃ served d', drain time n role d = (Ok served, d') ∧
  ta_task_id <$> served = ta_task_id <$> candidates role d ∧
  PySort.sorted older (candidates role d) ∧
  candidates role d ≡ₚ filter (λ a, waiting role a = true) (list_assignments d) ∧
  candidates role d' = [] ∧
  ∀ a, a ∈ candidates role d → ∃ k, dlookup (ta_task_id a) (assignments d') = Some (start (time k) a).
Proof.
  intros Hd Hnan Hn.
  destruct (drain_spec time role n d Hd) as (l & d' & Hdr & Hd' & Hc & Hl & _ & Hall);
    [pose proof (length_candidates role d); lia|].
  exists l, d'. split_and!; [done|done| |apply PySort.sort_perm|done|].
  - apply (PySort.sort_sorted _ (λ a, PyFloat.is_nan (ta_created_at a) = false)).
    + apply (PySort.strict_weak_on ta_created_at PyFloat.lt (λ x, PyFloat.is_nan x = false)),
        PySort.strict_weak_float.
    + rewrite Forall_forall in *. intros a [_ Ha]%list_elem_of_filter. auto.
  - intros a [Ha Hw]%candidates_spec; [|done]. destruct (Hall _ _ Ha) as [k Hk].
    exists k. by rewrite Hk, Hw.
Qed.

(** No assignment is retried for ever: if the workers of its role take it and never report
    back, it is handed out once per round while its budget lasts and is marked failed after
    exactly its retry limit plus one attempts. *)
Theorem abandoned_task_fails {W} `{MessageBus W} time role ts id (d : dispatcher W) a :
  keyed ta_task_id (assignments d) → dlookup id (assignments d) = Some a →
  waiting role a = true → 0 ≤ ta_attempt_count a ≤ ta_retry_limit a →
  Z.of_nat (length ts) = ta_retry_limit a - ta_attempt_count a + 1 →
  Forall (late time a) ts → ∃ a' d',
  st_for (round time role) ts d = (Ok tt, d') ∧ dlookup id (assignments d') = Some a' ∧
  ta_status a' = "failed" ∧ ta_attempt_count a' = ta_retry_limit a + 1.
Proof.
  intros Hd Ha Hw Hb Hlen Hl. apply (rounds_fail time role ts id d a); try done.
  destruct ts; [simpl in Hlen; lia|done].
Qed.

Module DispatcherExamples.
(** A bus that is down. *)
#[local] Instance no_bus : MessageBus unit := {| bus_publish _ _ _ := st_raise (OSError "down") |}.
Definition time (n : nat) : float := PyFloat.zero.
Definition task id created : TaskAssignment := mkTaskAssignment id "executor" VNone (PyFloat.of_Z 30) 1 "pending" 0
  (PyFloat.of_Z created) PyFloat.zero.
Definition d0 : dispatcher unit := (enqueue (task "t1" 1) (enqueue (task "t2" 2) (init None)).2).2.

Lemma dispatch_budget_witness :
  (∀ a, a ∈ list_assignments (dispatch_next time "executor" d0).2 →
     (ta_status a = "pending" ∨ ta_status a = "running" ∨ terminal a) ∧
     0 ≤ ta_attempt_count a ≤ Z.max 0 (ta_retry_limit a) + 1) ∧
  ∀ d' id a, step time (dispatch_next time "executor" d0).2 d' →
    dlookup id (assignments (dispatch_next time "executor" d0).2) = Some a → terminal a →
    ∀ a', dlookup id (assignments d') = Some a' → terminal a' ∧ ta_attempt_count a' = ta_attempt_count a.
Proof.
  apply (dispatch_budget time None).
  apply (rtc_l _ _ (enqueue (task "t2" 2) (init None)).2); [by apply step_enqueue|].
  apply (rtc_l _ _ d0); [by apply step_enqueue|]. apply rtc_once, step_dispatch.
Defined.

Lemma waiting_tasks_served_witness :
  ∃ served d', drain time 3 "executor" d0 = (Ok served, d') ∧
  ta_task_id <$> served = ta_task_id <$> candidates "executor" d0 ∧
  PySort.sorted older (candidates "executor" d0) ∧
  candidates "executor" d0 ≡ₚ filter (λ a, waiting "executor" a = true) (list_assignments d0) ∧
  candidates "executor" d' = [] ∧
  ∀ a, a ∈ candidates "executor" d0 →
    ∃ k, dlookup (ta_task_id a) (assignments d') = Some (start (time k) a).
Proof.
  apply (waiting_tasks_served time "executor" 3 d0).
  - split; [|by apply (bool_decide_unpack _); vm_compute].
    intros k r. change (assignments d0) with [("t2", task "t2" 2); ("t1", task "t1" 1)].
    rewrite !elem_of_cons, elem_of_nil. naive_solver.
  - repeat constructor.
  - vm_compute. lia.
Defined.

Lemma abandoned_task_fails_witness :
  ∃ a' d', st_for (round time "executor") [PyFloat.of_Z 31; PyFloat.of_Z 62] d0 = (Ok tt, d') ∧
  dlookup "t1" (assignments d') = Some a' ∧ ta_status a' = "failed" ∧ ta_attempt_count a' = 1 + 1.
Proof.
  apply (abandoned_task_fails time "executor" _ "t1" d0 (task "t1" 1)).
  - split; [|by apply (bool_decide_unpack _); vm_compute].
    intros k r. change (assignments d0) with [("t2", task "t2" 2); ("t1", task "t1" 1)].
    rewrite !elem_of_cons, elem_of_nil. naive_solver.
  - reflexivity.
  - reflexivity.
  - vm_compute. split; congruence.
  - reflexivity.
  - repeat constructor.
Defined.
End DispatcherExamples.
