(* ===== verification/MultiAgent.v ===== *)
(** * Multi-agent collaboration (src/src/multi_agent: arbitrator.py,
    protocol_validator.py, demo_flow.py)

    Conflict arbitration, the message protocol, and the demo flows that compose
    the protocol validator, the dispatcher, the callbacks, the shared memory and
    the arbitrator.  [repr] is the interpreter's text of a value. *)
From Stdlib Require Import Floats.SpecFloat.
From S2P Require Import Prelude PyFloat PyValue Persistence PySort PyFormat Messaging SharedMemory Dispatcher.
Local Open Scope Z_scope.

(** ** Arbitration *)
Record ArbitrationCandidate := mkCandidate {
  ac_role : string;
  ac_result : pyval;
  ac_confidence : float;
  ac_priority : Z;
  ac_evidence : list string;
}.

Record ArbitrationDecision := mkDecision {
  ad_status : string;
  ad_selected_role : string;
  ad_result : pyval;
  ad_rationale : string;
  ad_evidence_chain : list string;
}.

Module Arbitrator.

(** [key=lambda item: (item.priority, -item.confidence, item.role)] *)
Definition before : ArbitrationCandidate → ArbitrationCandidate → bool :=
  PySort.lex (PySort.on ac_priority PySort.Zlt)
    (PySort.lex (PySort.on (λ c, SFopp (ac_confidence c)) PyFloat.lt) (PySort.on ac_role PySort.strlt)).

Definition needs_human (best second : ArbitrationCandidate) : bool :=
  let same_priority := ac_priority best =? ac_priority second in
  let confidence_gap := SFabs (PyFloat.sub (ac_confidence best) (ac_confidence second)) in
  let conflicting_result := negb (Py.eq (ac_result best) (ac_result second)) in
  same_priority && conflicting_result && PyFloat.lt confidence_gap (PyFloat.ratio 1 10).

Definition evidence_line (c : ArbitrationCandidate) : string :=
  let summary := match ac_evidence c with [] => "no evidence" | l => PyFormat.join "; " l end in
  "role=" +:+ ac_role c +:+ ", priority=" +:+ pretty (ac_priority c) +:+ ", confidence=" +:+
  PyFormat.fixed 2 (ac_confidence c) +:+ ", evidence=" +:+ summary.
Definition build_evidence_chain (ranked : list ArbitrationCandidate) : list string :=
  evidence_line <$> ranked.

Definition resolve (candidates : list ArbitrationCandidate) : res ArbitrationDecision :=
  match candidates with
  | [] => Err (ValueError "candidates must not be empty")
  | _ =>
      let ranked := PySort.sort before candidates in
      match ranked with
      | [] => Err (IndexError "list index out of range")
      | best :: rest =>
          let decide status rationale :=
            Ok (mkDecision status (ac_role best) (ac_result best) rationale
                  (build_evidence_chain ranked)) in
          match rest with
          | second :: _ =>
              if needs_human best second
              then decide "needs_human" "top candidates are too close; human fallback required"
              else decide "resolved" "selected by priority first, then confidence"
          | [] => decide "resolved" "selected by priority first, then confidence"
          end
      end
  end.
End Arbitrator.

(** ** Message protocol *)
Record ProtocolValidationResult := mkValidation { pv_valid : bool; pv_errors : list string }.

Module ProtocolValidator.

Definition SUPPORTED_ROLES : list string := ["planner"; "executor"; "auditor"; "coordinator"; "human"].
Definition SUPPORTED_MESSAGE_TYPES : list string :=
  ["task_request"; "task_result"; "audit_review"; "conflict_notice"; "memory_update"].
Definition SUPPORTED_STATUSES : list string := ["pending"; "running"; "completed"; "failed"; "needs_human"].
Definition SUPPORTED_VERSION_PREFIXES : list string := ["1."].

Section validator.
Variable repr : pyval → string.

(** [x in a set of strings], and the message appended when it is not. *)
Definition in_set (x : pyval) (l : list string) : res bool :=
  if Py.hashable x then Ok (existsb (λ s, Py.eq (VStr s) x) l) else Err (Py.unhashable x).
Definition unsupported (what : string) (x : pyval) (l : list string) : res (list string) :=
  in_set x l ≫= λ ok : bool,
  Ok (if ok then [] else ["unsupported " +:+ what +:+ ": " +:+ Py.to_str repr x]).
Definition err_if (b : bool) (e : string) : list string := if b then [e] else [].

(** The loops over [required_fields]. *)
Fixpoint missing (what : string) (fields : list string) (v : pyval) : res (list string) :=
  match fields with
  | [] => Ok []
  | f :: fields =>
      here ← Py.contains (VStr f) v;
      rest ← missing what fields v;
      Ok (err_if (negb here) ("missing " +:+ what +:+ " field: " +:+ f) ++ rest)
  end.

Definition validate_top_level (message : dict pyval) : res (list string) :=
  absent ← missing "top-level" ["version"; "header"; "payload"; "meta"] (VDict message);
  Ok (absent ++ match dget "version" VNone message with
      | VStr version => err_if (negb (existsb (starts_with version) SUPPORTED_VERSION_PREFIXES))
                          ("unsupported version: " +:+ version)
      | _ => ["version must be string"]
      end).

Definition validate_header (header : pyval) : res (list string) :=
  absent ← missing "header" ["message_id"; "message_type"; "sender_role"; "receiver_role"; "task_id"] header;
  sender_role ← Py.get "sender_role" VNone header;
  receiver_role ← Py.get "receiver_role" VNone header;
  message_type ← Py.get "message_type" VNone header;
  e1 ← unsupported "sender_role" sender_role SUPPORTED_ROLES;
  e2 ← unsupported "receiver_role" receiver_role SUPPORTED_ROLES;
  e3 ← unsupported "message_type" message_type SUPPORTED_MESSAGE_TYPES;
  Ok (absent ++ e1 ++ e2 ++ e3).

(** [isinstance(priority, int) and 1 <= priority <= 5]; booleans are integers. *)
Definition priority_ok (v : pyval) : bool :=
  match v with
  | VInt z => (1 <=? z) && (z <=? 5)
  | VBool b => b
  | _ => false
  end.
Definition is_list (v : pyval) : bool := match v with VList _ => true | _ => false end.

Definition validate_meta (meta : pyval) : res (list string) :=
  absent ← missing "meta" ["trace_id"; "session_id"; "status"; "priority"] meta;
  status ← Py.get "status" VNone meta;
  e1 ← unsupported "status" status SUPPORTED_STATUSES;
  priority ← Py.get "priority" VNone meta;
  conflict_fields ← Py.get "conflict_fields" (VList []) meta;
  Ok (absent ++ e1 ++ err_if (negb (priority_ok priority)) "priority must be integer in range 1..5"
      ++ err_if (negb (is_list conflict_fields)) "conflict_fields must be list").

(** The field each message type requires of its payload. *)
Definition required_payload : list (string * string) :=
  [("task_request", "instruction"); ("task_result", "result"); ("audit_review", "review");
   ("conflict_notice", "conflict_type"); ("memory_update", "memory_key")].

Definition validate_payload (payload header : pyval) : res (list string) :=
  match payload with
  | VDict p =>
      message_type ← Py.get "message_type" VNone header;
      Ok (required_payload ≫= λ '(t, f),
        err_if (Py.eq message_type (VStr t) && negb (dmem f p)) (t +:+ " requires payload." +:+ f))
  | _ => Ok ["payload must be object"]
  end.

Definition validate_message (message : dict pyval) : res ProtocolValidationResult :=
  errors ← validate_top_level message;
  if negb (bool_decide (errors = [])) then Ok (mkValidation false errors)
  else
    header ← Py.subscript "header" message;
    meta ← Py.subscript "meta" message;
    e1 ← validate_header header;
    e2 ← validate_meta meta;
    payload ← Py.subscript "payload" message;
    e3 ← validate_payload payload header;
    let errors := e1 ++ e2 ++ e3 in
    Ok (mkValidation (bool_decide (errors = [])) errors).
End validator.
End ProtocolValidator.

(** ** Demo flows (demo_flow.py) *)
Module DemoFlow.
Import TaskDispatcher SharedMemoryStore.

Section flows.
Variable repr : pyval → string.
Variable time perf_counter : nat → float.
(** The dispatcher runs without a bus. *)
#[local] Instance absent_bus : MessageBus Empty_set :=
  {| bus_publish _ _ _ := λ w : Empty_set, match w with end |}.

Definition request_message : dict pyval :=
  [("version", VStr "1.0.0");
   ("header", VDict [("message_id", VStr "msg-standard-1"); ("message_type", VStr "task_request");
      ("sender_role", VStr "planner"); ("receiver_role", VStr "executor");
      ("task_id", VStr "task-standard-1")]);
   ("payload", VDict [("instruction", VStr "collect merchant refund evidence")]);
   ("meta", VDict [("trace_id", VStr "trace-standard-1"); ("session_id", VStr "sess-standard-1");
      ("status", VStr "pending"); ("priority", VInt 2); ("conflict_fields", VList [])])].

(** An attribute of a value that may be [None]. *)
Definition attribute {A B} (name : string) (f : A → B) (x : option A) : res B :=
  match x with
  | Some a => Ok (f a)
  | None => Err (AttributeError ("'NoneType' object has no attribute '" +:+ name +:+ "'"))
  end.

(** [run_standard_flow]: the clock is read by the two defaults of the
    assignment, by the dispatcher, by the callbacks and by the memory; each
    component's readings are a sequence of their own. *)
Definition run_standard_flow : res pyval :=
  validation_result ← ProtocolValidator.validate_message repr request_message;
  if negb (pv_valid validation_result)
  then Ok (VDict [("status", VStr "invalid_protocol"); ("errors", VList (VStr <$> pv_errors validation_result))])
  else
    let task := new_assignment "task-standard-1" "executor" (VDict request_message) (time 0) (time 1) in
    let dispatcher := TaskDispatcher.init (None : option Empty_set) in
    let '(r, dispatcher) := enqueue task dispatcher in
    _ ← r;
    let '(r, dispatcher) := dispatch_next time "executor" dispatcher in
    found ← r;
    assignment ← attribute "task_id" (λ a, a) found;
    let id := ta_task_id assignment in
    let callbacks := CallbackHandler.record (mkCallbackRecord id "executor" true
      (VDict [("result", VStr "evidence_found")]) (time 2)) CallbackHandler.init in
    let '(r, dispatcher) := complete time id true dispatcher in
    _ ← r;
    let memory := SharedMemoryStore.init (None : option (dict MemoryRecord)) in
    let '(r, memory) := write time "merchant:m-100" (VDict [("refund_status", VStr "eligible")])
      "executor" None None memory in
    _ ← r;
    let callbacks := CallbackHandler.record (mkCallbackRecord id "auditor" true
      (VDict [("review", VStr "approved")]) (time 3)) callbacks in
    let '(r, memory) := read time "merchant:m-100" memory in
    cell ← r;
    value ← attribute "value" me_value cell;
    let '(r, memory) := read time "merchant:m-100" memory in
    cell ← r;
    version ← attribute "version" me_version cell;
    Ok (VDict [("status", VStr "completed");
               ("task", CallbackHandler.aggregate_task "task-standard-1" callbacks);
               ("memory", value);
               ("metrics", VDict [("role_count", VInt 3); ("callback_count", VInt 2);
                                  ("memory_version", VInt version)])]).

Definition conflict_candidates : list ArbitrationCandidate :=
  [mkCandidate "executor" (VStr "approve_refund") (PyFloat.ratio 82 100) 2 ["refund within 30 days"];
   mkCandidate "auditor" (VStr "reject_refund") (PyFloat.ratio 78 100) 2 ["missing receipt attachment"]].

Definition run_conflict_flow : res pyval :=
  decision ← Arbitrator.resolve conflict_candidates;
  Ok (VDict [("status", VStr (ad_status decision)); ("selected_role", VStr (ad_selected_role decision));
             ("result", ad_result decision);
             ("evidence_chain", VList (VStr <$> ad_evidence_chain decision));
             ("metrics", VDict [("candidate_count", VInt (Z.of_nat (length conflict_candidates)));
                ("requires_human", VBool (bool_decide (ad_status decision = "needs_human")))])]).

Definition run_single_agent_flow : pyval :=
  let start_time := perf_counter 0 in
  let latency_ms := PyFloat.mul (PyFloat.sub (perf_counter 1) start_time) (PyFloat.of_Z 1000) in
  VDict [("status", VStr "completed"); ("result", VStr "approve_refund");
         ("evidence", VList [VStr "refund within 30 days"; VStr "receipt attached"]);
         ("metrics", VDict [("role_count", VInt 1); ("callback_count", VInt 0);
                            ("latency_ms", VFloat latency_ms)])].
End flows.
End DemoFlow.

(** ** Arbitration follows the policy *)
Module ArbitratorFacts.
Import Arbitrator.

Lemma opp_compare x y : SFcompare (SFopp x) (SFopp y) = SFcompare y x.
Proof.
  destruct x as [[]|[]| |[] m e], y as [[]|[]| |[] m' e']; try done; simpl;
    change (Pos.compare_cont Eq m m') with (m ?= m')%positive;
    change (Pos.compare_cont Eq m' m) with (m' ?= m)%positive;
    rewrite (Z.compare_antisym e e'), (Pos.compare_antisym m m'); destruct (e ?= e'); simpl; try done;
    by rewrite ?CompOpp_involutive.
Qed.

Lemma opp_lt x y : PyFloat.lt (SFopp x) (SFopp y) = PyFloat.lt y x.
Proof. unfold PyFloat.lt, SFltb. by rewrite opp_compare. Qed.

Lemma opp_nan x : PyFloat.is_nan (SFopp x) = PyFloat.is_nan x.
Proof. by destruct x. Qed.

Definition comparable (c : ArbitrationCandidate) : Prop := PyFloat.is_nan (ac_confidence c) = false.

Lemma before_strict_weak : PySort.strict_weak before comparable.
Proof.
  apply PySort.strict_weak_lex; [|apply PySort.strict_weak_lex].
  - eapply PySort.strict_weak_mono, PySort.strict_weak_on, PySort.strict_weak_Z. done.
  - eapply PySort.strict_weak_mono,
      (PySort.strict_weak_on (λ c, SFopp (ac_confidence c)) PyFloat.lt), PySort.strict_weak_float.
    intros c. unfold comparable. by rewrite opp_nan.
  - eapply PySort.strict_weak_mono, PySort.strict_weak_on, PySort.strict_weak_str. done.
Qed.

(** [a] is at least as good as [b]: priority, then confidence, then role. *)
Definition preferred (a b : ArbitrationCandidate) : Prop :=
  ac_priority a < ac_priority b ∨
  ac_priority a = ac_priority b ∧
  (PyFloat.lt (ac_confidence b) (ac_confidence a) = true ∨
   PyFloat.lt (ac_confidence a) (ac_confidence b) = false ∧
   PySort.strlt (ac_role b) (ac_role a) = false).

Lemma not_before_preferred a b : before b a = false → preferred a b.
Proof.
  unfold before, PySort.lex, PySort.on, PySort.Zlt, preferred. rewrite !opp_lt.
  destruct (Z.ltb_spec (ac_priority b) (ac_priority a)); [done|].
  destruct (Z.ltb_spec (ac_priority a) (ac_priority b)); simpl; [by left|].
  intros Hb. right. split; [lia|]. destruct (PyFloat.lt (ac_confidence a) _); [done|].
  destruct (PyFloat.lt (ac_confidence b) _); simpl in *; auto.
Qed.

(** Ties have the same role. *)
Lemma tied_role a b : PySort.tied before a b → ac_role a = ac_role b.
Proof. intros [_ [_ [H1 H2]]%PySort.lex_tied]%PySort.lex_tied. by apply PySort.strlt_total. Qed.

Lemma resolve_ranked c cs : ∃ best rest, PySort.sort before (c :: cs) = best :: rest ∧
  ∃ status rationale, resolve (c :: cs) = Ok (mkDecision status (ac_role best) (ac_result best) rationale
    (build_evidence_chain (best :: rest))) ∧
  (status = "needs_human" ∧ (∃ second rest', rest = second :: rest' ∧ needs_human best second = true) ∨
   status = "resolved" ∧ ∀ second rest', rest = second :: rest' → needs_human best second = false).
Proof.
  unfold resolve. destruct (PySort.sort before (c :: cs)) as [|best rest] eqn:E.
  { by apply PySort.sort_nil_inv in E. }
  exists best, rest. split; [done|]. destruct rest as [|second rest].
  - eexists _, _. split; [done|]. by right.
  - destruct (needs_human best second) eqn:En; eexists _, _; (split; [done|]); [left|right]; eauto.
    split; [done|]. by intros ? ? [= -> ->].
Qed.
End ArbitratorFacts.

Import ArbitratorFacts.

(** Arbitration is a function of the set of candidates: for candidates of distinct roles
    the decision does not depend on the order in which they arrive.  It selects the candidate
    preferred to all others by priority, then confidence, then role, and asks for a human
    exactly when the runner-up of the ranking has the same priority, another result and a
    confidence closer than 0.1. *)
Theorem arbitration_deterministic (l : list ArbitrationCandidate) :
  l ≠ [] → NoDup (ac_role <$> l) → Forall comparable l →
  ∃ d best rest, Arbitrator.resolve l = Ok d ∧ best :: rest ≡ₚ l ∧
    ad_selected_role d = ac_role best ∧ ad_result d = ac_result best ∧
    (∀ c, c ∈ l → preferred best c) ∧
    ad_evidence_chain d = Arbitrator.build_evidence_chain (best :: rest) ∧
    (∀ second rest', rest = second :: rest' → ∀ c, c ∈ rest → preferred second c) ∧
    (ad_status d = "needs_human" ↔
       ∃ second rest', rest = second :: rest' ∧ Arbitrator.needs_human best second = true) ∧
    ∀ l', l' ≡ₚ l → Arbitrator.resolve l' = Ok d.
Proof.
  intros Hne Hnd Hcmp. destruct l as [|c cs]; [done|].
  destruct (resolve_ranked c cs) as (best & rest & Hs & status & why & Hr & Hst).
  pose proof (PySort.sort_sorted _ _ before_strict_weak _ Hcmp) as Hsorted. rewrite Hs in Hsorted.
  pose proof (PySort.sort_perm Arbitrator.before (c :: cs)) as Hp. rewrite Hs in Hp.
  destruct (PySort.sort_head _ _ before_strict_weak _ _ _ Hcmp Hs) as [_ Hbest].
  eexists _, best, rest. split; [exact Hr|]. split_and!; [done|done|done| |done| | |].
  - intros a Ha. by apply not_before_preferred, Hbest.
  - intros second rest' -> a Ha. apply StronglySorted_inv in Hsorted as [Hsorted _].
    apply StronglySorted_inv in Hsorted as [_ Hall]. rewrite Forall_forall in Hall.
    apply elem_of_cons in Ha as [->|Ha]; [|by apply not_before_preferred, Hall].
    apply not_before_preferred, (PySort.sw_irrefl _ _ before_strict_weak).
    rewrite Forall_forall in Hcmp. apply Hcmp. rewrite <-Hp. set_solver.
  - simpl. destruct Hst as [[-> ?]|[-> Hno]]; [done|]. split; [done|].
    intros (second & rest' & E & Hn). by rewrite (Hno _ _ E) in Hn.
  - intros l' Hl'. rewrite <-Hr.
    assert (PySort.sort Arbitrator.before l' = PySort.sort Arbitrator.before (c :: cs)) as Heq.
    { symmetry. apply (PySort.sort_unique _ _ before_strict_weak); [done|done|].
      intros x y Hx Hy Ht%tied_role.
      apply list_elem_of_lookup in Hx as [i Hi], Hy as [j Hj].
      assert (i = j) as ->; [|congruence]. eapply (NoDup_lookup _ i j (ac_role x)); [exact Hnd|..].
      - by rewrite list_lookup_fmap, Hi.
      - by rewrite list_lookup_fmap, Hj, Ht. }
    unfold Arbitrator.resolve. rewrite Heq. destruct l' as [|c' cs']; [|done].
    by apply Permutation_nil_l in Hl'.
Qed.

Lemma arbitration_deterministic_witness :
  ∃ d best rest, Arbitrator.resolve DemoFlow.conflict_candidates = Ok d ∧
    best :: rest ≡ₚ DemoFlow.conflict_candidates ∧
    ad_selected_role d = ac_role best ∧ ad_result d = ac_result best ∧
    (∀ c, c ∈ DemoFlow.conflict_candidates → preferred best c) ∧
    ad_evidence_chain d = Arbitrator.build_evidence_chain (best :: rest) ∧
    (∀ second rest', rest = second :: rest' → ∀ c, c ∈ rest → preferred second c) ∧
    (ad_status d = "needs_human" ↔
       ∃ second rest', rest = second :: rest' ∧ Arbitrator.needs_human best second = true) ∧
    ∀ l', l' ≡ₚ DemoFlow.conflict_candidates → Arbitrator.resolve l' = Ok d.
Proof.
  apply (arbitration_deterministic DemoFlow.conflict_candidates); [done| |].
  - by apply (bool_decide_unpack _); vm_compute.
  - repeat constructor.
Defined.

(** ** The protocol as a declarative shape *)
Module ProtocolFacts.
Import ProtocolValidator.

Definition has (k : string) (d : dict pyval) : Prop := is_Some (dlookup k d).
Definition one_of (k : string) (allowed : list string) (d : dict pyval) : Prop :=
  ∃ s, dlookup k d = Some (VStr s) ∧ s ∈ allowed.

Definition header_shape (h : dict pyval) : Prop :=
  has "message_id" h ∧ has "task_id" h ∧ one_of "sender_role" SUPPORTED_ROLES h ∧
  one_of "receiver_role" SUPPORTED_ROLES h ∧ one_of "message_type" SUPPORTED_MESSAGE_TYPES h.
Definition meta_shape (mt : dict pyval) : Prop :=
  has "trace_id" mt ∧ has "session_id" mt ∧ one_of "status" SUPPORTED_STATUSES mt ∧
  (∃ v, dlookup "priority" mt = Some v ∧ priority_ok v = true) ∧
  ∀ v, dlookup "conflict_fields" mt = Some v → is_list v = true.
Definition well_formed (m : dict pyval) : Prop := ∃ version h mt p t f,
  dlookup "version" m = Some (VStr version) ∧ starts_with version "1." = true ∧
  dlookup "header" m = Some (VDict h) ∧ dlookup "meta" m = Some (VDict mt) ∧
  dlookup "payload" m = Some (VDict p) ∧ header_shape h ∧ meta_shape mt ∧
  dlookup "message_type" h = Some (VStr t) ∧ (t, f) ∈ required_payload ∧ has f p.

Lemma err_if_nil b e : err_if b e = [] ↔ b = false.
Proof. by destruct b. Qed.

Lemma missing_dict what fs d : ∃ e, missing what fs (VDict d) = Ok e ∧ (e = [] ↔ Forall (λ f, has f d) fs).
Proof.
  induction fs as [|f fs (e & He & IH)]; simpl; [by exists []|].
  rewrite He. simpl. eexists. split; [done|].
  rewrite app_nil, err_if_nil, negb_false_iff, dmem_true, Forall_cons, IH. done.
Qed.

Section facts.
Variable repr : pyval → string.

Lemma unsupported_nil what x l e :
  unsupported repr what x l = Ok e → (e = [] ↔ ∃ s, x = VStr s ∧ s ∈ l).
Proof.
  unfold unsupported, in_set. destruct (Py.hashable x); [|done]. unfold mbind, res_bind. intros [= <-].
  destruct (existsb _ l) eqn:E.
  - apply existsb_exists in E as (s & Hs%list_elem_of_In & He).
    destruct x; try done. apply bool_decide_eq_true in He. naive_solver.
  - split; [done|]. intros (s & -> & Hs).
    apply not_true_iff_false in E. destruct E. apply existsb_exists. exists s.
    split; [by apply list_elem_of_In|]. by apply bool_decide_eq_true.
Qed.

Lemma unsupported_str what s l : ∃ e, unsupported repr what (VStr s) l = Ok e.
Proof. unfold unsupported, in_set. simpl. eauto. Qed.

(** A field that is one of the supported strings is present. *)
Lemma one_of_dget k l d : one_of k l d ↔ ∃ s, dget k VNone d = VStr s ∧ s ∈ l.
Proof.
  unfold one_of, dget. destruct (dlookup k d); simpl; naive_solver.
Qed.
Lemma one_of_has k l d : one_of k l d → has k d.
Proof. intros (s & ? & _). unfold has. naive_solver. Qed.

Ltac same_missing :=
  match goal with
  | H1 : missing _ _ _ = Ok ?a, H2 : missing _ _ _ = Ok ?b |- _ =>
      assert (a = b) as -> by congruence; clear H1 H2
  end.

Lemma header_nil v e : validate_header repr v = Ok e →
  ∃ h, v = VDict h ∧ (e = [] ↔ header_shape h).
Proof.
  unfold validate_header. intros H. inv_ok.
  destruct v as [| | | | | |h]; try discriminate. exists h. split; [done|].
  destruct (missing_dict "header" ["message_id"; "message_type"; "sender_role"; "receiver_role"; "task_id"] h)
    as (e0 & He0 & Hmiss). same_missing.
  repeat match goal with H : Py.get _ _ _ = Ok _ |- _ => simpl in H; injection H as <- end.
  repeat match goal with H : unsupported _ _ _ _ = Ok _ |- _ => apply unsupported_nil in H end.
  rewrite !app_nil. unfold header_shape. rewrite !one_of_dget.
  assert (∀ k l, (∃ s, dget k VNone h = VStr s ∧ s ∈ l) → has k h) as Hhas
    by (intros k l Hk; apply (one_of_has k l), one_of_dget, Hk).
  pose proof (Hhas "sender_role" SUPPORTED_ROLES). pose proof (Hhas "receiver_role" SUPPORTED_ROLES).
  pose proof (Hhas "message_type" SUPPORTED_MESSAGE_TYPES).
  rewrite !Forall_cons in Hmiss. pose proof (Forall_nil_2 (λ f, has f h)). tauto.
Qed.

Lemma meta_nil v e : validate_meta repr v = Ok e →
  ∃ mt, v = VDict mt ∧ (e = [] ↔ meta_shape mt).
Proof.
  unfold validate_meta. intros H. inv_ok.
  destruct v as [| | | | | |mt]; try discriminate. exists mt. split; [done|].
  destruct (missing_dict "meta" ["trace_id"; "session_id"; "status"; "priority"] mt) as (e0 & He0 & Hmiss).
  same_missing.
  repeat match goal with H : Py.get _ _ _ = Ok _ |- _ => simpl in H; injection H as <- end.
  repeat match goal with H : unsupported _ _ _ _ = Ok _ |- _ => apply unsupported_nil in H end.
  rewrite !app_nil, !err_if_nil, !negb_false_iff. unfold meta_shape. rewrite one_of_dget.
  assert (has "priority" mt ∧ priority_ok (dget "priority" VNone mt) = true ↔
    ∃ v, dlookup "priority" mt = Some v ∧ priority_ok v = true) as Hprio.
  { unfold has, dget. destruct (dlookup "priority" mt); simpl; naive_solver. }
  assert (is_list (dget "conflict_fields" (VList []) mt) = true ↔
    ∀ v, dlookup "conflict_fields" mt = Some v → is_list v = true) as Hconf.
  { unfold dget. destruct (dlookup "conflict_fields" mt); simpl; naive_solver. }
  assert ((∃ s, dget "status" VNone mt = VStr s ∧ s ∈ SUPPORTED_STATUSES) → has "status" mt) as Hhas
    by (intros Hk; apply (one_of_has _ SUPPORTED_STATUSES), one_of_dget, Hk).
  rewrite !Forall_cons in Hmiss. pose proof (Forall_nil_2 (λ f, has f mt)). tauto.
Qed.

Lemma header_total h : header_shape h → ∃ e, validate_header repr (VDict h) = Ok e.
Proof.
  intros (_ & _ & H1 & H2 & H3). rewrite one_of_dget in H1, H2, H3.
  destruct H1 as (s1 & E1 & _), H2 as (s2 & E2 & _), H3 as (s3 & E3 & _). unfold validate_header.
  destruct (missing_dict "header" ["message_id"; "message_type"; "sender_role"; "receiver_role"; "task_id"] h)
    as (e0 & -> & _). cbn [mbind res_bind Py.get]. rewrite E1, E2, E3.
  destruct (unsupported_str "sender_role" s1 SUPPORTED_ROLES) as [e1 ->].
  destruct (unsupported_str "receiver_role" s2 SUPPORTED_ROLES) as [e2 ->].
  destruct (unsupported_str "message_type" s3 SUPPORTED_MESSAGE_TYPES) as [e3 ->]. cbn [mbind res_bind]. eauto.
Qed.

Lemma meta_total mt : meta_shape mt → ∃ e, validate_meta repr (VDict mt) = Ok e.
Proof.
  intros (_ & _ & H1 & _). rewrite one_of_dget in H1. destruct H1 as (s1 & E1 & _). unfold validate_meta.
  destruct (missing_dict "meta" ["trace_id"; "session_id"; "status"; "priority"] mt) as (e0 & -> & _).
  cbn [mbind res_bind Py.get]. rewrite E1.
  destruct (unsupported_str "status" s1 SUPPORTED_STATUSES) as [e1 ->]. cbn [mbind res_bind]. eauto.
Qed.

Lemma payload_nil v h t : dlookup "message_type" h = Some (VStr t) → t ∈ SUPPORTED_MESSAGE_TYPES →
  ∃ e, validate_payload v (VDict h) = Ok e ∧
  (e = [] ↔ ∃ p f, v = VDict p ∧ (t, f) ∈ required_payload ∧ has f p).
Proof.
  intros Ht Hin. assert (dget "message_type" VNone h = VStr t) as Hget by (unfold dget; by rewrite Ht).
  destruct v as [| | | | | |p]; try (eexists; split; [done|]; naive_solver).
  unfold validate_payload. cbn [Py.get mbind res_bind]. rewrite Hget. eexists. split; [done|].
  unfold SUPPORTED_MESSAGE_TYPES in Hin. rewrite !elem_of_cons, elem_of_nil in Hin. unfold has.
  assert (∀ f, negb (dmem f p) = false ↔ is_Some (dlookup f p)) as Hneg
    by (intros f; by rewrite negb_false_iff, dmem_true).
  destruct Hin as [->|[->|[->|[->|[->|[]]]]]]; simpl; rewrite ?app_nil_r, err_if_nil, Hneg.
  all: split; [intros HS; eexists _, _; split; [done|]; split; [|exact HS]; by apply (bool_decide_unpack _)|].
  all: intros (p' & f & [= <-] & Hf & HS); unfold required_payload in Hf;
    rewrite !elem_of_cons, elem_of_nil in Hf; intuition (simplify_eq; done).
Qed.

Lemma top_level_nil m e : validate_top_level m = Ok e →
  (e = [] ↔ has "header" m ∧ has "payload" m ∧ has "meta" m ∧
     ∃ version, dlookup "version" m = Some (VStr version) ∧ starts_with version "1." = true).
Proof.
  unfold validate_top_level.
  destruct (missing_dict "top-level" ["version"; "header"; "payload"; "meta"] m) as (e0 & -> & Hm).
  unfold mbind, res_bind. intros [= <-]. rewrite app_nil, Hm, !Forall_cons.
  pose proof (Forall_nil_2 (λ f, has f m)). unfold dget, has.
  destruct (dlookup "version" m) as [[| | | |version| |]|] eqn:E; simpl; try naive_solver.
  rewrite err_if_nil, negb_false_iff, orb_false_r. naive_solver.
Qed.
End facts.
End ProtocolFacts.

Import ProtocolFacts.

(** C19: The protocol validator accepts exactly the messages of the protocol's shape: a version
    1.x, a header with identifiers, known roles and a known message type, metadata with
    identifiers, a known status, a priority from 1 to 5 and, if present, a list of conflict
    fields, and a payload object with the field its message type requires.  A message is valid
    exactly when no error is reported. *)
Theorem protocol_accepts_iff repr (m : dict pyval) :
  ((∃ r, ProtocolValidator.validate_message repr m = Ok r ∧ pv_valid r = true) ↔ well_formed m) ∧
  ∀ r, ProtocolValidator.validate_message repr m = Ok r → pv_valid r = bool_decide (pv_errors r = []).
Proof.
  unfold ProtocolValidator.validate_message.
  assert (∃ e, ProtocolValidator.validate_top_level m = Ok e) as [e He].
  { unfold ProtocolValidator.validate_top_level.
    destruct (missing_dict "top-level" ["version"; "header"; "payload"; "meta"] m) as (e0 & -> & _).
    cbn [mbind res_bind]. eauto. }
  rewrite He. cbn [mbind res_bind]. pose proof (top_level_nil m e He) as Htop. split.
  - split.
    + intros (r & Hr & Hv). destruct (bool_decide (e = [])) eqn:Ee; simpl in Hr; [|by simplify_eq].
      apply bool_decide_eq_true in Ee. apply Htop in Ee as (_ & _ & _ & version & Hver & Hpre).
      inv_ok. simpl in Hv. apply bool_decide_eq_true, app_nil in Hv as [-> [-> ->]%app_nil].
      repeat match goal with H : Py.subscript _ _ = Ok _ |- _ => unfold Py.subscript in H; case_match; [|done];
        injection H as -> end.
      match goal with H : ProtocolValidator.validate_header _ _ = _ |- _ =>
        apply header_nil in H as (h & -> & Hh) end.
      match goal with H : ProtocolValidator.validate_meta _ _ = _ |- _ =>
        apply meta_nil in H as (mt & -> & Hmt) end.
      apply proj1 in Hh. specialize (Hh eq_refl). apply proj1 in Hmt. specialize (Hmt eq_refl).
      pose proof Hh as (_ & _ & _ & _ & t & Ht & Hin).
      match goal with H : ProtocolValidator.validate_payload ?v _ = _ |- _ =>
        destruct (payload_nil v h t Ht Hin) as (e' & He' & Hp); rewrite He' in H; injection H as -> end.
      destruct (proj1 Hp eq_refl) as (p & f & -> & Hf & Hhas).
      exists version, h, mt, p, t, f. done.
    + intros (version & h & mt & p & t & f & Hver & Hpre & Hh & Hmt & Hp & Hhs & Hms & Ht & Hf & Hhas).
      rewrite bool_decide_eq_true_2 by (apply Htop; unfold has; naive_solver). simpl.
      unfold Py.subscript. rewrite Hh, Hmt, Hp. cbn [mbind res_bind].
      destruct (header_total repr h Hhs) as [e1 E1]. destruct (meta_total repr mt Hms) as [e2 E2].
      rewrite E1, E2. cbn [mbind res_bind].
      pose proof Hhs as (_ & _ & _ & _ & t' & Ht' & Hin). assert (t' = t) as -> by congruence.
      destruct (payload_nil (VDict p) h t Ht Hin) as (e3 & -> & He3). cbn [mbind res_bind].
      eexists. split; [done|]. simpl. apply bool_decide_eq_true, app_nil.
      apply header_nil in E1 as (h' & [= <-] & E1). apply meta_nil in E2 as (mt' & [= <-] & E2).
      rewrite app_nil. split; [by apply E1|]. split; [by apply E2|]. apply He3. eauto.
  - intros r Hr. destruct (bool_decide (e = [])) eqn:Ee; simpl in Hr.
    + inv_ok. done.
    + apply bool_decide_eq_false in Ee. simplify_eq. simpl. by rewrite bool_decide_eq_false_2.
Qed.

(** A header that is not an object makes the validator raise instead of
    reporting an error. *)
Example header_not_object repr :
  is_ok (ProtocolValidator.validate_message repr
    [("version", VStr "1.0"); ("header", VNone); ("payload", VDict []); ("meta", VDict [])]) = false.
Proof. reflexivity. Qed.

(** The standard flow completes whatever the clock reads: its request passes the protocol,
    the assignment it enqueues is the one dispatched and completed, both callbacks are
    aggregated as successes of the executor and the auditor, and the memory cell it wrote is
    read back at version 1; the conflict flow asks for a human. *)
Theorem demo_flows_complete repr time :
  DemoFlow.run_standard_flow repr time = Ok (VDict
    [("status", VStr "completed");
     ("task", VDict [("task_id", VStr "task-standard-1"); ("callback_count", VInt 2);
        ("all_succeeded", VBool true); ("roles", VList [VStr "executor"; VStr "auditor"])]);
     ("memory", VDict [("refund_status", VStr "eligible")]);
     ("metrics", VDict [("role_count", VInt 3); ("callback_count", VInt 2); ("memory_version", VInt 1)])]) ∧
  ∃ chain, DemoFlow.run_conflict_flow = Ok (VDict
    [("status", VStr "needs_human"); ("selected_role", VStr "executor"); ("result", VStr "approve_refund");
     ("evidence_chain", VList chain);
     ("metrics", VDict [("candidate_count", VInt 2); ("requires_human", VBool true)])]).
Proof. split; [reflexivity|]. eexists. vm_compute. reflexivity. Qed.
