(* ===== verification/LruCache.v ===== *)
(** * Retrieval caches (src/src/rag/cache.py)

    The LRU cache with expiry, the three-level cache of the retrieval pipeline
    and the fallback policy.  An [OrderedDict] is an association list, least
    recently used first.  [time n] is the n-th reading of [time.time()];
    [digest] is [sha256(...).hexdigest()[:32]]. *)
From S2P Require Import Prelude PyFloat PyValue Persistence PySort PyFormat.
Local Open Scope Z_scope.

Inductive CacheStatus := HIT | MISS | EXPIRED | DEGRADED.

Record CacheEntry (T : Type) := mkCacheEntry {
  ce_key : string;
  ce_value : T;
  ce_created_at : float;
  ce_ttl_seconds : float;
  ce_hit_count : Z;
}.
Arguments mkCacheEntry {T}. Arguments ce_key {T}. Arguments ce_value {T}.
Arguments ce_created_at {T}. Arguments ce_ttl_seconds {T}. Arguments ce_hit_count {T}.

Record CacheStats := mkCacheStats {
  total_requests : Z;
  hits : Z;
  misses : Z;
  expirations : Z;
  evictions : Z;
}.

Module LRUCache.

Record cache (T : Type) := mkCache {
  max_size : Z;
  default_ttl : float;
  entries : dict (CacheEntry T);
  stats : CacheStats;
}.
Arguments mkCache {T}. Arguments max_size {T}. Arguments default_ttl {T}.
Arguments entries {T}. Arguments stats {T}.

(** [hits / total_requests if total_requests > 0 else 0.0] *)
Definition hit_rate (s : CacheStats) : float :=
  if 0 <? total_requests s then PyFloat.ratio (hits s) (total_requests s) else PyFloat.zero.

Section cache.
Context {T : Type}.

Definition new (size : Z) (ttl : float) : cache T := mkCache size ttl [] (mkCacheStats 0 0 0 0 0).

Definition set_entries (l : dict (CacheEntry T)) (c : cache T) : cache T :=
  mkCache (max_size c) (default_ttl c) l (stats c).
Definition count_request (c : cache T) : cache T := let s := stats c in
  mkCache (max_size c) (default_ttl c) (entries c)
    (mkCacheStats (total_requests s + 1) (hits s) (misses s) (expirations s) (evictions s)).
Definition count_hit (c : cache T) : cache T := let s := stats c in
  mkCache (max_size c) (default_ttl c) (entries c)
    (mkCacheStats (total_requests s) (hits s + 1) (misses s) (expirations s) (evictions s)).
Definition count_miss (c : cache T) : cache T := let s := stats c in
  mkCache (max_size c) (default_ttl c) (entries c)
    (mkCacheStats (total_requests s) (hits s) (misses s + 1) (expirations s) (evictions s)).
Definition count_expiration (c : cache T) : cache T := let s := stats c in
  mkCache (max_size c) (default_ttl c) (entries c)
    (mkCacheStats (total_requests s) (hits s) (misses s) (expirations s + 1) (evictions s)).
Definition count_evictions (n : Z) (c : cache T) : cache T := let s := stats c in
  mkCache (max_size c) (default_ttl c) (entries c)
    (mkCacheStats (total_requests s) (hits s) (misses s) (expirations s) (evictions s + n)).

(** [(time.time() - created_at) > ttl_seconds] *)
Definition is_expired (now : float) (e : CacheEntry T) : bool :=
  PyFloat.gt (PyFloat.sub now (ce_created_at e)) (ce_ttl_seconds e).
Definition touch (e : CacheEntry T) : CacheEntry T :=
  mkCacheEntry (ce_key e) (ce_value e) (ce_created_at e) (ce_ttl_seconds e) (ce_hit_count e + 1).

(** [get], at the clock reading [now], which a miss does not take. *)
Definition get (now : float) (key : string) (c0 : cache T) : (option T * CacheStatus) * cache T :=
  let c := count_request c0 in
  match dlookup key (entries c) with
  | None => ((None, MISS), count_miss c)
  | Some entry =>
      if is_expired now entry
      then ((None, EXPIRED), count_expiration (set_entries (ddelete key (entries c)) c))
      else ((Some (ce_value entry), HIT),
            count_hit (set_entries (ddelete key (entries c) ++ [(key, touch entry)]) c))
  end.

(** [while len(store) >= max_size: store.popitem(last=False)]: the remaining
    entries and the number evicted; an empty dictionary raises. *)
Fixpoint evict (size : Z) (l : dict (CacheEntry T)) (n : Z) : res unit * (dict (CacheEntry T) * Z) :=
  if size <=? Z.of_nat (length l)
  then match l with
       | [] => (Err (KeyError "dictionary is empty"), ([], n))
       | _ :: l => evict size l (n + 1)
       end
  else (Ok tt, (l, n)).

Definition put (now : float) (key : string) (value : T) (ttl : option float) : st (cache T) unit := λ c,
  let '(r, (rest, n)) := evict (max_size c) (ddelete key (entries c)) 0 in
  match r with
  | Err e => (Err e, count_evictions n (set_entries rest c))
  | Ok _ =>
      let ttl_seconds := match ttl with
        | Some t => if PyFloat.eqb t PyFloat.zero then default_ttl c else t
        | None => default_ttl c
        end in
      (Ok tt, count_evictions n
        (set_entries (rest ++ [(key, mkCacheEntry key value now ttl_seconds 0)]) c))
  end.

Definition invalidate (key : string) (c : cache T) : bool * cache T :=
  if dmem key (entries c) then (true, set_entries (ddelete key (entries c)) c) else (false, c).

Definition invalidate_by_prefix (prefix : string) (c : cache T) : Z * cache T :=
  let keys_to_remove := filter (λ k, starts_with k prefix = true) (dkeys (entries c)) in
  (Z.of_nat (length keys_to_remove), set_entries (foldl (λ d k, ddelete k d) (entries c) keys_to_remove) c).

Definition clear (c : cache T) : cache T := set_entries [] c.
Definition size (c : cache T) : Z := Z.of_nat (length (entries c)).
End cache.
End LRUCache.

(** ** The three levels *)
Module RAGCache.
Section levels.
Variable digest : string → string.
Context {R : Type}.

Record caches := mkCaches {
  query_cache : LRUCache.cache R;
  embedding_cache : LRUCache.cache (list float);
  context_cache : LRUCache.cache string;
  rc_time : nat → float;
  rc_clock : nat;
}.

Definition new (qs : Z) (qt : float) (es : Z) (et : float) (cs : Z) (ct : float)
    (time : nat → float) : caches :=
  mkCaches (LRUCache.new qs qt) (LRUCache.new es et) (LRUCache.new cs ct) time 0.
(** The sizes and lifetimes of the constructor's defaults. *)
Definition default_caches : (nat → float) → caches :=
  new 500 (PyFloat.of_Z 300) 5000 (PyFloat.of_Z 3600) 200 (PyFloat.of_Z 600).

(** The key holds the normalised query and the role. *)
Definition query_key (query user_role : string) : string :=
  digest (Py.lower (Py.strip query) +:+ "|" +:+ user_role).

(** The clock advances with every call; an operation that does not read it
    leaves a reading unused. *)
Definition now (c : caches) : float := rc_time c (rc_clock c).
Definition with_query (q : LRUCache.cache R) (c : caches) : caches :=
  mkCaches q (embedding_cache c) (context_cache c) (rc_time c) (S (rc_clock c)).
Definition with_embedding (e : LRUCache.cache (list float)) (c : caches) : caches :=
  mkCaches (query_cache c) e (context_cache c) (rc_time c) (S (rc_clock c)).
Definition with_context (x : LRUCache.cache string) (c : caches) : caches :=
  mkCaches (query_cache c) (embedding_cache c) x (rc_time c) (S (rc_clock c)).

Definition get_query_result (query user_role : string) (c : caches) : (option R * CacheStatus) * caches :=
  let '(r, q) := LRUCache.get (now c) (query_key query user_role) (query_cache c) in (r, with_query q c).
Definition put_query_result (query : string) (result : R) (user_role : string) : st caches unit := λ c,
  let '(r, q) := LRUCache.put (now c) (query_key query user_role) result None (query_cache c) in
  (r, with_query q c).
Definition get_embedding (chunk_id : string) (c : caches) : (option (list float) * CacheStatus) * caches :=
  let '(r, e) := LRUCache.get (now c) chunk_id (embedding_cache c) in (r, with_embedding e c).
Definition put_embedding (chunk_id : string) (embedding : list float) : st caches unit := λ c,
  let '(r, e) := LRUCache.put (now c) chunk_id embedding None (embedding_cache c) in (r, with_embedding e c).
Definition get_context (query user_role : string) (c : caches) : (option string * CacheStatus) * caches :=
  let '(r, x) := LRUCache.get (now c) ("ctx_" +:+ query_key query user_role) (context_cache c) in
  (r, with_context x c).
Definition put_context (query context user_role : string) : st caches unit := λ c,
  let '(r, x) := LRUCache.put (now c) ("ctx_" +:+ query_key query user_role) context None (context_cache c) in
  (r, with_context x c).

Definition invalidate_source (source_id : string) (c : caches) : caches :=
  mkCaches (LRUCache.clear (query_cache c))
    (LRUCache.invalidate_by_prefix source_id (embedding_cache c)).2
    (LRUCache.clear (context_cache c)) (rc_time c) (rc_clock c).

(** [f"{rate:.2%}"] *)
Definition percent (x : float) : string := PyFormat.fixed 2 (PyFloat.mul x (PyFloat.of_Z 100)) +:+ "%".
Definition level {T} (c : LRUCache.cache T) : dict pyval :=
  [("size", VInt (LRUCache.size c)); ("hit_rate", VStr (percent (LRUCache.hit_rate (LRUCache.stats c))))].
Definition stats_summary (c : caches) : dict pyval :=
  [("query_cache", VDict (level (query_cache c) ++
      [("hits", VInt (hits (LRUCache.stats (query_cache c))));
       ("misses", VInt (misses (LRUCache.stats (query_cache c))))]));
   ("embedding_cache", VDict (level (embedding_cache c)));
   ("context_cache", VDict (level (context_cache c)))].

(** ** Fallback *)
Definition should_degrade (timeout_ms elapsed_ms : float) (error : option exc) : bool :=
  match error with Some _ => true | None => PyFloat.gt elapsed_ms timeout_ms end.

(** [get_fallback]; a result that is [None] counts as absent, so a cached value
    is never [None] here. *)
Definition get_fallback (query user_role : string) (c : caches) : (option (R + string) * bool) * caches :=
  let '((result, _), c) := get_query_result query user_role c in
  match result with
  | Some r => ((Some (inl r), true), c)
  | None =>
      let '((context, _), c) := get_context query user_role c in
      match context with
      | Some x => ((Some (inr x), true), c)
      | None => ((None, false), c)
      end
  end.
End levels.
End RAGCache.

(** ** Correctness of the LRU cache *)
Module LRUCacheFacts.
Import LRUCache.
Section facts.
Context {T : Type}.

Inductive op :=
| Get (now : float) (key : string)
| Put (now : float) (key : string) (value : T) (ttl : option float)
| Invalidate (key : string)
| InvalidatePrefix (prefix : string)
| Clear.

Definition run_op (o : op) (c : cache T) : cache T :=
  match o with
  | Get now k => (get now k c).2
  | Put now k v ttl => (put now k v ttl c).2
  | Invalidate k => (invalidate k c).2
  | InvalidatePrefix p => (invalidate_by_prefix p c).2
  | Clear => clear c
  end.

(** What a client remembers: the keys it used, latest first, where a get that
    misses is no use, and the last value it put under each key. *)
Record client := mkClient { used : list string; latest : gmap string T }.
Definition observe (o : op) (c : cache T) (w : client) : client :=
  match o with
  | Get now k => match (get now k c).1 with
                 | (_, HIT) => mkClient (k :: used w) (latest w)
                 | _ => w
                 end
  | Put _ k v _ => mkClient (k :: used w) (<[k := v]> (latest w))
  | _ => w
  end.
Fixpoint run_ops (l : list op) (c : cache T) (w : client) : cache T * client :=
  match l with
  | [] => (c, w)
  | o :: l => run_ops l (run_op o c) (observe o c w)
  end.

(** How many uses ago the key was used last. *)
Fixpoint age (k : string) (h : list string) : nat :=
  match h with
  | [] => 0
  | x :: h => if decide (k = x) then 0 else S (age k h)
  end.

Record correct (c : cache T) (w : client) : Prop := {
  c_nodup : NoDup (dkeys (entries c));
  c_order : StronglySorted (λ a b, age b (used w) < age a (used w))%nat (dkeys (entries c));
  c_values k e : dlookup k (entries c) = Some e → latest w !! k = Some (ce_value e);
  c_bound : Z.of_nat (length (entries c)) ≤ max_size c;
  c_stats : total_requests (stats c) = hits (stats c) + misses (stats c) + expirations (stats c);
}.

Lemma ddelete_sublist {A} k (d : dict A) : ddelete k d `sublist_of` d.
Proof. rewrite ddelete_filter. apply sublist_filter. Qed.

(** Dropping entries keeps a cache correct. *)
Lemma correct_sublist l c w : l `sublist_of` entries c →
  (∀ k e, dlookup k l = Some e → dlookup k (entries c) = Some e) →
  correct c w → correct (set_entries l c) w.
Proof.
  intros Hsub Hlook [H1 H2 H3 H4 H5].
  assert (dkeys l `sublist_of` dkeys (entries c)) as Hk by (unfold dkeys; by apply fmap_sublist).
  split; simpl; [by eapply sublist_NoDup|by eapply StronglySorted_sublist|eauto| |done].
  apply sublist_length in Hsub. lia.
Qed.

Lemma dlookup_sublist {A} (l d : dict A) k e : NoDup (dkeys d) → l `sublist_of` d →
  dlookup k l = Some e → dlookup k d = Some e.
Proof.
  intros Hnd Hs Hl. apply elem_of_dlookup; [done|]. eapply elem_of_sublist; [|exact Hs].
  apply elem_of_dlookup; [|done]. eapply sublist_NoDup; [exact Hnd|]. by apply fmap_sublist.
Qed.

Lemma correct_drop l c w : l `sublist_of` entries c → correct c w → correct (set_entries l c) w.
Proof.
  intros Hs Hc. apply correct_sublist; [done| |done]. intros k e.
  apply dlookup_sublist; [apply Hc|done].
Qed.

(** Using a key makes it the youngest. *)
Lemma order_use k ks h : k ∉ ks →
  StronglySorted (λ a b, age b h < age a h)%nat ks →
  StronglySorted (λ a b, age b (k :: h) < age a (k :: h))%nat (ks ++ [k]).
Proof.
  intros Hk. induction 1 as [|x ks Hs IH Hall]; simpl; [repeat constructor|].
  apply not_elem_of_cons in Hk as [Hx Hk]. constructor; [by apply IH|].
  rewrite Forall_app, Forall_singleton. rewrite Forall_forall in *. split.
  - intros y Hy. simpl. rewrite (decide_False (P := x = k)) by done.
    rewrite decide_False by (intros ->; done). specialize (Hall y Hy). lia.
  - simpl. rewrite decide_True, decide_False by done. lia.
Qed.

Lemma dlookup_app {A} k (d1 d2 : dict A) :
  dlookup k (d1 ++ d2) = match dlookup k d1 with Some v => Some v | None => dlookup k d2 end.
Proof. induction d1 as [|[k' v] d1 IH]; simpl; [done|]. by case_decide. Qed.

Lemma correct_use k e c w v l : correct c w → l `sublist_of` ddelete k (entries c) →
  ce_value e = v → (Z.of_nat (length l) < max_size c) →
  correct (set_entries (l ++ [(k, e)]) c) (mkClient (k :: used w) (<[k := v]> (latest w))).
Proof.
  intros Hc Hs Hv Hlen. assert (l `sublist_of` entries c) as Hs'
    by (etrans; [exact Hs|apply ddelete_sublist]).
  pose proof (correct_drop l c w Hs' Hc) as [H1 H2 H3 _ H5]. simpl in *.
  assert (k ∉ dkeys l) as Hk.
  { apply dlookup_None_keys. destruct (dlookup k l) as [e'|] eqn:E; [|done].
    eapply dlookup_sublist in E; [|apply NoDup_ddelete, Hc|exact Hs].
    rewrite dlookup_ddelete in E. by case_decide. }
  split; simpl.
  - rewrite dkeys_app. apply NoDup_app. split_and!; [done|set_solver|apply NoDup_singleton].
  - rewrite dkeys_app. by apply order_use.
  - intros k' e'. rewrite dlookup_app. destruct (dlookup k' l) as [e0|] eqn:E.
    + intros [= ->]. rewrite lookup_insert_ne; [by apply H3|].
      intros ->. by apply dlookup_Some_keys in E.
    + simpl. case_decide; [|done]. intros [= <-]. subst. by rewrite lookup_insert_eq.
  - rewrite length_app. simpl. lia.
  - done.
Qed.

Lemma evict_spec size (l : dict (CacheEntry T)) n : 1 ≤ size → ∃ l1 l2, l = l1 ++ l2 ∧
  evict size l n = (Ok tt, (l2, n + Z.of_nat (length l1))) ∧ Z.of_nat (length l2) < size ∧
  (size < Z.of_nat (length l) + 1 → Z.of_nat (length l2) = size - 1) ∧
  (Z.of_nat (length l) < size → l1 = []).
Proof.
  intros Hsize. revert n. induction l as [|x l IH]; intros n; simpl.
  - exists [], []. destruct (Z.leb_spec size (Z.of_nat 0)); [lia|].
    simpl. rewrite Z.add_0_r. split_and!; [done|done|lia|lia|done].
  - destruct (Z.leb_spec size (Z.of_nat (S (length l)))).
    + destruct (IH (n + 1)) as (l1 & l2 & -> & -> & Hl & He & Hn). exists (x :: l1), l2.
      split_and!; [done|do 2 f_equal; simpl; lia|done| |lia].
      intros _. destruct (decide (Z.of_nat (length (l1 ++ l2)) < size)) as [Hlt|]; [|by apply He; lia].
      rewrite (Hn Hlt) in *. simpl in *. lia.
    + exists [], (x :: l). simpl. rewrite Z.add_0_r. split_and!; [done|done|lia|lia|done].
Qed.

Lemma correct_stats c c' w : entries c' = entries c → max_size c' = max_size c →
  total_requests (stats c') = hits (stats c') + misses (stats c') + expirations (stats c') →
  correct c w → correct c' w.
Proof. intros He Hm Hs [H1 H2 H3 H4 _]. split; rewrite ?He, ?Hm; done. Qed.

Lemma put_spec now k v ttl c w : 1 ≤ max_size c → correct c w →
  ∃ l1 l2 e, ddelete k (entries c) = l1 ++ l2 ∧ ce_value e = v ∧
  (put now k v ttl c).1 = Ok tt ∧ entries (put now k v ttl c).2 = l2 ++ [(k, e)] ∧
  max_size (put now k v ttl c).2 = max_size c ∧
  (Z.of_nat (length (ddelete k (entries c))) < max_size c → l1 = []) ∧
  correct (put now k v ttl c).2 (mkClient (k :: used w) (<[k := v]> (latest w))).
Proof.
  intros Hsize Hc. destruct (evict_spec (max_size c) (ddelete k (entries c)) 0 Hsize)
    as (l1 & l2 & Hl & Hev & Hlen & _ & Hnone).
  unfold put. rewrite Hev. eexists l1, l2, _. split_and!; [done| |done|done|done|done|].
  { simpl. reflexivity. }
  refine (correct_stats (set_entries (l2 ++ [(k, _)]) c) _ _ _ _ _ _); [done|done|apply Hc|].
  apply correct_use; [done| |done|done]. rewrite Hl. by apply sublist_inserts_l.
Qed.

Lemma get_correct now k c w : 1 ≤ max_size c → correct c w →
  correct (get now k c).2 (observe (Get now k) c w) ∧ max_size (get now k c).2 = max_size c ∧
  ∀ v, (get now k c).1 = (Some v, HIT) → latest w !! k = Some v.
Proof.
  intros Hsize Hc. unfold observe, get. cbn [entries count_request].
  pose proof (c_stats _ _ Hc) as Hst.
  destruct (dlookup k (entries c)) as [e|] eqn:E; cbn [fst snd].
  - pose proof (c_values _ _ Hc k e E) as Hv. destruct (is_expired now e); cbn [fst snd].
    + split_and!; [|done|done].
      refine (correct_stats (set_entries (ddelete k (entries c)) c) _ _ _ _ _ _); [done|done|simpl; lia|].
      apply correct_drop; [apply ddelete_sublist|done].
    + split_and!; [|done|by intros v [= <-]].
      refine (correct_stats (set_entries (ddelete k (entries c) ++ [(k, touch e)]) c) _ _ _ _ _ _);
        [done|done|simpl; lia|].
      rewrite <-(insert_id (latest w) k (ce_value e)) by done.
      apply (correct_use k (touch e)); [done|done|done|].
      pose proof (c_bound _ _ Hc). assert (length (ddelete k (entries c)) < length (entries c))%nat; [|lia].
      rewrite ddelete_filter. apply (length_filter_lt _ _ (k, e)); [|by intros []].
      apply elem_of_dlookup; [apply Hc|done].
  - split_and!; [|done|done]. refine (correct_stats c _ _ _ _ _ Hc); [done|done|simpl; lia].
Qed.

Lemma foldl_ddelete_sublist {A} ks (d : dict A) : foldl (λ d k, ddelete k d) d ks `sublist_of` d.
Proof.
  revert d. induction ks as [|k ks IH]; intros d; simpl; [done|].
  etrans; [apply IH|apply ddelete_sublist].
Qed.

Lemma run_op_correct o c w : 1 ≤ max_size c → correct c w →
  correct (run_op o c) (observe o c w) ∧ max_size (run_op o c) = max_size c.
Proof.
  intros Hsize Hc. destruct o as [now k|now k v ttl|k|p|]; cbn [run_op observe].
  - by destruct (get_correct now k c w Hsize Hc) as (? & ? & _).
  - by destruct (put_spec now k v ttl c w Hsize Hc) as (? & ? & ? & _ & _ & _ & _ & ? & _ & ?).
  - unfold invalidate. destruct (dmem k (entries c)); [|done].
    split; [|done]. apply correct_drop; [apply ddelete_sublist|done].
  - split; [|done]. apply correct_drop; [apply foldl_ddelete_sublist|done].
  - split; [|done]. apply correct_drop; [apply sublist_nil_l|done].
Qed.

Lemma run_ops_correct l : ∀ c w, 1 ≤ max_size c → correct c w →
  correct (run_ops l c w).1 (run_ops l c w).2 ∧ max_size (run_ops l c w).1 = max_size c.
Proof.
  induction l as [|o l IH]; intros c w Hsize Hc; [done|]. cbn [run_ops].
  destruct (run_op_correct o c w Hsize Hc) as [Hc' Hm].
  destruct (IH _ _ ltac:(by rewrite Hm) Hc') as [? Hm']. by rewrite Hm', Hm.
Qed.

Lemma new_correct size ttl : 1 ≤ size → correct (new (T := T) size ttl) (mkClient [] ∅).
Proof. intros. split; simpl; [constructor|constructor|done|lia|done]. Qed.
End facts.
End LRUCacheFacts.

Import LRUCache LRUCacheFacts.

(** C20: After any sequence of operations on a cache of positive capacity: the capacity is never
    exceeded; every request is counted once as hit, miss or expiration; a hit returns the value
    last put under the key; a put succeeds, makes its value available, evicts nothing while
    there is room, and otherwise evicts only entries used longer ago than every entry it keeps. *)
Theorem lru_cache_correct {T} size ttl (l : list (op (T := T))) :
  1 ≤ size →
  let '(c, w) := run_ops l (new size ttl) (mkClient [] ∅) in
  LRUCache.size c ≤ size ∧
  total_requests (stats c) = hits (stats c) + misses (stats c) + expirations (stats c) ∧
  (∀ now k v, (get now k c).1 = (Some v, HIT) → latest w !! k = Some v) ∧
  ∀ now k v t, let '(r, c') := put now k v t c in
    r = Ok tt ∧ (ce_value <$> dlookup k (entries c')) = Some v ∧
    (LRUCache.size c < size → ∀ k', k' ∈ dkeys (entries c) → k' ∈ dkeys (entries c')) ∧
    ∀ gone kept, gone ∈ dkeys (entries c) → gone ∉ dkeys (entries c') →
      kept ∈ dkeys (entries c') → kept ≠ k → (age kept (used w) < age gone (used w))%nat.
Proof.
  intros Hsize. destruct (run_ops_correct l (new size ttl) (mkClient [] ∅)) as [Hc Hm];
    [done|by apply new_correct|].
  destruct (run_ops l (new size ttl) (mkClient [] ∅)) as [c w]. cbn [fst snd max_size new] in *.
  assert (1 ≤ max_size c) as Hsize' by by rewrite Hm.
  split_and!; [rewrite <-Hm; apply Hc|apply Hc|intros; by eapply get_correct|].
  intros now k v t. destruct (put_spec now k v t c w Hsize' Hc) as (l1 & l2 & e & Hl & Hv & Hr & He & _ & Hn & _).
  destruct (put now k v t c) as [r c']. cbn [fst snd] in *. split; [done|]. rewrite He.
  assert (dlookup k l2 = None) as Hk2.
  { apply dlookup_None_keys. assert (dlookup k (ddelete k (entries c)) = None) as Hd
      by (rewrite dlookup_ddelete; by case_decide).
    apply dlookup_None_keys in Hd. rewrite Hl, dkeys_app in Hd. set_solver. }
  assert (∀ k', k' ∈ dkeys (entries c) → k' ≠ k → k' ∈ dkeys l1 ++ dkeys l2) as Hsplit.
  { intros k' Hk' Hne. rewrite <-dkeys_app, <-Hl.
    destruct (decide (k' ∈ dkeys (ddelete k (entries c)))) as [|Hni]; [done|].
    apply dlookup_None_keys in Hni. rewrite dlookup_ddelete, decide_False in Hni by done.
    by apply dlookup_None_keys in Hni. }
  split_and!.
  - rewrite dlookup_app, Hk2. simpl. rewrite decide_True by done. simpl. by rewrite Hv.
  - intros Hlt k' Hk'. rewrite dkeys_app. destruct (decide (k' = k)) as [->|Hne]; [set_solver|].
    specialize (Hsplit k' Hk' Hne). rewrite Hn in Hsplit; [set_solver|].
    pose proof (sublist_length _ _ (ddelete_sublist k (entries c))). unfold LRUCache.size in Hlt. lia.
  - intros gone kept Hg Hg' Hk' Hne. rewrite dkeys_app in Hg', Hk'. simpl in Hg', Hk'.
    assert (gone ≠ k) as Hgk by set_solver. specialize (Hsplit gone Hg Hgk).
    assert (StronglySorted (λ a b, age b (used w) < age a (used w))%nat (dkeys l1 ++ dkeys l2)) as Hs.
    { rewrite <-dkeys_app, <-Hl. eapply StronglySorted_sublist, (c_order _ _ Hc).
      apply fmap_sublist, ddelete_sublist. }
    eapply (StronglySorted_app_1_elem_of _ _ _ _ _ Hs); set_solver.
Qed.

Lemma lru_cache_correct_witness :
  1 ≤ 2 ∧
  let '(c, w) := run_ops [Put PyFloat.zero "a" 1 None; Put PyFloat.zero "b" 2 None;
      Get PyFloat.zero "a"; Put PyFloat.zero "c" 3 None] (new 2 (PyFloat.of_Z 300)) (mkClient [] ∅) in
  LRUCache.size c ≤ 2 ∧
  total_requests (stats c) = hits (stats c) + misses (stats c) + expirations (stats c) ∧
  (∀ now k v, (get now k c).1 = (Some v, HIT) → latest w !! k = Some v) ∧
  ∀ now k v t, let '(r, c') := put now k v t c in
    r = Ok tt ∧ (ce_value <$> dlookup k (entries c')) = Some v ∧
    (LRUCache.size c < 2 → ∀ k', k' ∈ dkeys (entries c) → k' ∈ dkeys (entries c')) ∧
    ∀ gone kept, gone ∈ dkeys (entries c) → gone ∉ dkeys (entries c') →
      kept ∈ dkeys (entries c') → kept ≠ k → (age kept (used w) < age gone (used w))%nat.
Proof. split; [lia|]. apply lru_cache_correct. lia. Defined.

Example lru_evicts_b :
  dkeys (entries (run_ops [Put PyFloat.zero "a" 1 None; Put PyFloat.zero "b" 2 None;
    Get PyFloat.zero "a"; Put PyFloat.zero "c" 3 None] (new 2 (PyFloat.of_Z 300)) (mkClient [] ∅)).1)
  = ["a"; "c"].
Proof. reflexivity. Qed.

(** A capacity of zero makes [put] raise; a [ttl] of zero means the default. *)
Example zero_capacity_put :
  (put PyFloat.zero "a" tt None (new 0 (PyFloat.of_Z 300))).1 = Err (KeyError "dictionary is empty").
Proof. reflexivity. Qed.
Example zero_ttl_is_default :
  (ce_ttl_seconds <$> dlookup "a" (entries
    (put PyFloat.zero "a" tt (Some PyFloat.zero) (new 1 (PyFloat.of_Z 300))).2)) = Some (PyFloat.of_Z 300).
Proof. reflexivity. Qed.

(** ** Cached answers stay with their role *)
Section isolation.
Context (digest : string → string) {R : Type}.
Implicit Types c : RAGCache.caches (R := R).

Inductive rag_op :=
| GetQuery (query role : string)
| PutQuery (query : string) (result : R) (role : string)
| GetEmbedding (chunk_id : string)
| PutEmbedding (chunk_id : string) (embedding : list float)
| GetContext (query role : string)
| PutContext (query context role : string)
| InvalidateSource (source_id : string)
| Fallback (query role : string).

Definition rag_step (o : rag_op) c : RAGCache.caches :=
  match o with
  | GetQuery q r => (RAGCache.get_query_result digest q r c).2
  | PutQuery q v r => (RAGCache.put_query_result digest q v r c).2
  | GetEmbedding k => (RAGCache.get_embedding k c).2
  | PutEmbedding k e => (RAGCache.put_embedding k e c).2
  | GetContext q r => (RAGCache.get_context digest q r c).2
  | PutContext q x r => (RAGCache.put_context digest q x r c).2
  | InvalidateSource s => RAGCache.invalidate_source s c
  | Fallback q r => (RAGCache.get_fallback digest q r c).2
  end.

Definition normal (q : string) : string := Py.lower (Py.strip q).

(** Every entry of a level was put under its key. *)
Definition from {T} (puts : string → T → Prop) (c : cache T) : Prop :=
  ∀ k e, (k, e) ∈ entries c → puts k (ce_value e).

Lemma dlookup_member {A} k (v : A) d : dlookup k d = Some v → (k, v) ∈ d.
Proof.
  induction d as [|[k0 v0] d IH]; simpl; [done|].
  case_decide; [intros [= ->]; subst; left|intros ?; right; auto].
Qed.

Lemma from_get {T} (puts : string → T → Prop) now k (c : cache T) : from puts c → from puts (get now k c).2.
Proof.
  intros Hf. unfold get. cbn [entries count_request]. destruct (dlookup k (entries c)) as [e|] eqn:E; [|done].
  destruct (is_expired now e); simpl; intros k' e'; simpl.
  - intros Hin%elem_of_ddelete. by apply Hf.
  - intros [Hin%elem_of_ddelete|[= -> ->]%list_elem_of_singleton]%elem_of_app; [by apply Hf|].
    simpl. by apply Hf, dlookup_member.
Qed.

Lemma evict_sub {T} size (l : dict (CacheEntry T)) n x : x ∈ (evict size l n).2.1 → x ∈ l.
Proof.
  revert n. induction l as [|y l IH]; intros n; simpl; case_match; simpl; try done.
  intros ?%IH. set_solver.
Qed.

Lemma from_put {T} (puts : string → T → Prop) now k v t (c : cache T) :
  from puts c → puts k v → from puts (put now k v t c).2.
Proof.
  intros Hf Hv. unfold put. pose proof (evict_sub (max_size c) (ddelete k (entries c)) 0) as Hsub.
  destruct (evict _ _ _) as [[[]|e] [rest n]]; simpl in *; intros k' e'; simpl.
  - intros [Hin%Hsub%elem_of_ddelete|[= -> ->]%list_elem_of_singleton]%elem_of_app; [by apply Hf|done].
  - intros Hin%Hsub%elem_of_ddelete. by apply Hf.
Qed.

(** What the trace of operations put into the query and the context level. *)
Definition query_puts (tr : list rag_op) (k : string) (v : R) : Prop :=
  ∃ q r, PutQuery q v r ∈ tr ∧ k = RAGCache.query_key digest q r.
Definition context_puts (tr : list rag_op) (k : string) (x : string) : Prop :=
  ∃ q r, PutContext q x r ∈ tr ∧ k = "ctx_" +:+ RAGCache.query_key digest q r.
Definition traced (tr : list rag_op) c : Prop :=
  from (query_puts tr) (RAGCache.query_cache c) ∧ from (context_puts tr) (RAGCache.context_cache c).

Lemma from_mono {T} (P Q : string → T → Prop) (c : cache T) :
  (∀ k v, P k v → Q k v) → from P c → from Q c.
Proof. intros HPQ Hf k e Hin. apply HPQ, Hf, Hin. Qed.

Lemma traced_get_query tr q r c : traced tr c → traced tr (RAGCache.get_query_result digest q r c).2.
Proof.
  intros [Hq Hx]. unfold RAGCache.get_query_result.
  pose proof (from_get _ (RAGCache.now c) (RAGCache.query_key digest q r) _ Hq) as Hg.
  by destruct (get _ _ _).
Qed.
Lemma traced_get_context tr q r c : traced tr c → traced tr (RAGCache.get_context digest q r c).2.
Proof.
  intros [Hq Hx]. unfold RAGCache.get_context.
  pose proof (from_get _ (RAGCache.now c) ("ctx_" +:+ RAGCache.query_key digest q r) _ Hx) as Hg.
  by destruct (get _ _ _).
Qed.

Lemma traced_step tr o c : traced tr c → traced (tr ++ [o]) (rag_step o c).
Proof.
  intros Ht. assert (traced (tr ++ [o]) c) as Ht'.
  { destruct Ht as [Hq Hx]. split; (eapply from_mono; [|done]); intros k v (q & r & Hin & ->);
      exists q, r; (split; [set_solver|done]). }
  clear Ht. destruct o as [q r|q v r|k|k e|q r|q x r|s|q r]; cbn [rag_step].
  - by apply traced_get_query.
  - destruct Ht' as [Hq Hx]. unfold RAGCache.put_query_result.
    pose proof (from_put (query_puts (tr ++ [PutQuery q v r])) (RAGCache.now c)
      (RAGCache.query_key digest q r) v None (RAGCache.query_cache c) Hq) as Hp.
    destruct (put _ _ _ _ _); split; [apply Hp|done]. exists q, r. split; [set_solver|done].
  - unfold RAGCache.get_embedding. by destruct (get _ _ _).
  - unfold RAGCache.put_embedding. by destruct (put _ _ _ _ _).
  - by apply traced_get_context.
  - destruct Ht' as [Hq Hx]. unfold RAGCache.put_context.
    pose proof (from_put (context_puts (tr ++ [PutContext q x r])) (RAGCache.now c)
      ("ctx_" +:+ RAGCache.query_key digest q r) x None (RAGCache.context_cache c) Hx) as Hp.
    destruct (put _ _ _ _ _); split; [done|apply Hp]. exists q, r. split; [set_solver|done].
  - split; intros k e; simpl; set_solver.
  - unfold RAGCache.get_fallback. pose proof (traced_get_query _ q r c Ht') as Ht1.
    destruct (RAGCache.get_query_result digest q r c) as [[[v|] ?] c1]; [done|]. simpl in Ht1.
    pose proof (traced_get_context _ q r c1 Ht1) as Ht2.
    by destruct (RAGCache.get_context digest q r c1) as [[[x|] ?] c2].
Qed.

Lemma traced_run tr l c : traced tr c → traced (tr ++ l) (foldl (λ c o, rag_step o c) c l).
Proof.
  revert tr c. induction l as [|o l IH]; intros tr c Ht; simpl; [by rewrite app_nil_r|].
  rewrite (cons_middle o tr l), (assoc_L (++)). by apply IH, traced_step.
Qed.

Lemma get_hit {T} (puts : string → T → Prop) now k (c : cache T) v s : from puts c →
  (get now k c).1 = (Some v, s) → puts k v.
Proof.
  intros Hf. unfold get. cbn [entries count_request]. destruct (dlookup k (entries c)) as [e|] eqn:E; [|done].
  case_match; simpl; [done|]. intros [= <- <-]. apply Hf.
  by apply dlookup_member.
Qed.

(** The separator of the key; no role of the system contains it. *)
Definition bar : Ascii.ascii := Ascii.ascii_of_nat 124.

Lemma query_key_inj (Hdigest : Inj (=) (=) digest) q r q' r' :
  no_char bar r → no_char bar r' →
  RAGCache.query_key digest q r = RAGCache.query_key digest q' r' → normal q = normal q' ∧ r = r'.
Proof. intros H1 H2 Hk%Hdigest. exact (app_last_char bar _ _ r r' H1 H2 Hk). Qed.

Lemma ctx_inj k k' : "ctx_" +:+ k = "ctx_" +:+ k' → k = k'.
Proof. intros H. by injection H. Qed.
End isolation.

(** An answer cached for one role is never served to another: after any sequence of
    operations, whatever the query and context levels (or the fallback built on them) return to
    a role was put by that same role for the same query up to case and surrounding blanks.
    Roles contain no bar and the digest has no collisions. *)
Theorem cached_answers_keep_role {R} (digest : string → string) (time : nat → float)
    (l : list (rag_op (R := R))) q r v :
  Inj (=) (=) digest → no_char bar r →
  (∀ q' v' r', PutQuery q' v' r' ∈ l → no_char bar r') →
  (∀ q' x' r', PutContext q' x' r' ∈ l → no_char bar r') →
  let c := foldl (λ c o, rag_step digest o c) (RAGCache.default_caches time) l in
  (RAGCache.get_fallback digest q r c).1 = (Some v, true) →
  ∃ q', normal q' = normal q ∧
    match v with inl result => PutQuery q' result r ∈ l | inr context => PutContext q' context r ∈ l end.
Proof.
  intros Hinj Hr Hq Hx c.
  assert (traced digest l c) as Ht.
  { apply (traced_run digest []). split; intros k e; simpl; set_solver. }
  unfold RAGCache.get_fallback. destruct Ht as [Tq Tx].
  unfold RAGCache.get_query_result.
  destruct (get _ _ (RAGCache.query_cache c)) as [[[w|] s] c1] eqn:E; cbn [fst snd].
  - intros [= <-]. destruct (get_hit _ (RAGCache.now c) (RAGCache.query_key digest q r) _ w s Tq)
      as (q' & r' & Hin & Hk); [by rewrite E|].
    apply query_key_inj in Hk as [Hn <-]; eauto.
  - destruct (RAGCache.get_context digest q r (RAGCache.with_query c1 c)) as [[[x|] s'] c2] eqn:E2; [|done].
    intros [= <-]. unfold RAGCache.get_context in E2.
    destruct (get _ _ (RAGCache.context_cache _)) as [r2 x2] eqn:E3. injection E2 as E2 _. subst r2.
    destruct (get_hit _ _ _ _ x s' Tx (f_equal fst E3)) as (q' & r' & Hin & Hk%ctx_inj).
    apply query_key_inj in Hk as [Hn <-]; eauto.
Qed.

Lemma cached_answers_keep_role_witness :
  ∃ q', normal q' = normal "Refund?" ∧ PutQuery q' 7 "admin" ∈ [PutQuery " refund? " 7 "admin"].
Proof.
  apply (cached_answers_keep_role (λ s, s) (λ _, PyFloat.zero) [PutQuery " refund? " 7 "admin"]
    "Refund?" "admin" (inl 7)).
  - apply _.
  - repeat split; done.
  - intros q' v' r' [= -> -> ->]%list_elem_of_singleton. repeat split; done.
  - intros q' v' r' [=]%list_elem_of_singleton.
  - vm_compute. reflexivity.
Defined.
