(* ===== verification/Retrieval.v ===== *)
(** * Retrieval (src/src/rag/keyword_retriever.py, retriever.py)

    Vector and keyword recall, their fusion and the access filter.  A text is
    its sequence of code points; the Unicode tables of the interpreter
    ([lower], the word characters of [\w]) and the C library's [log] are
    parameters.  Counts are list lengths, exactly representable as floats. *)
From S2P Require Import Prelude PyFloat PyValue Persistence PySort.
Local Open Scope Z_scope.

Abbreviation text := (list Z).

(** [\u4e00-\u9fff] *)
Definition is_cjk (c : Z) : bool := (0x4e00 <=? c) && (c <=? 0x9fff).

(** The maximal runs of characters that satisfy [p]: [re.findall] of a
    character class with [+], and [split()] for the complement of blanks. *)
Fixpoint runs_go (p : Z → bool) (cur : text) (l : text) : list text :=
  let flush := match cur with [] => [] | _ => [reverse cur] end in
  match l with
  | [] => flush
  | c :: l => if p c then runs_go p (c :: cur) l else flush ++ runs_go p [] l
  end.
Definition runs (p : Z → bool) (l : text) : list text := runs_go p [] l.

(** [k or default] for an optional integer *)
Definition or_default (k : option Z) (default : Z) : Z :=
  match k with Some k => if k =? 0 then default else k | None => default end.

Record IndexedChunk := mkIndexedChunk {
  ix_chunk_id : string;
  ix_content : text;
  ix_source_id : string;
  ix_source_type : string;
  ix_access_level : string;
  ix_metadata : dict pyval;
  ix_tokens : list text;
}.

Record RetrievalChunk := mkChunk {
  chunk_id : string;
  content : text;
  score : float;
  source_id : string;
  source_type : string;
  access_level : string;
  metadata : dict pyval;
  retrieval_source : string;
}.

Record RetrievalResult := mkRetrievalResult {
  rr_query : text;
  rr_chunks : list RetrievalChunk;
  rr_total_candidates : Z;
  rr_latency_ms : float;
  rr_retrieval_sources : dict Z;
}.

Definition with_score (s : float) (src : string) (c : RetrievalChunk) : RetrievalChunk :=
  mkChunk (chunk_id c) (content c) s (source_id c) (source_type c) (access_level c) (metadata c) src.

(** [scored.sort(key=lambda x: x[0], reverse=True)] *)
Definition best_first {A} : float * A → float * A → bool := PySort.down (PySort.on fst PyFloat.lt).

Module KeywordRetriever.
Record index := mkIndex {
  kw_top_k : Z;
  kw_k1 : float;
  kw_b : float;
  documents : list IndexedChunk;
  doc_count : Z;
  avg_doc_len : float;
  df : gmap text Z;
}.

Definition new (top_k : Z) (k1 b : float) : index := mkIndex top_k k1 b [] 0 PyFloat.zero ∅.

Section index.
Variable lower : text → text.
Variable is_word : Z → bool.
Variable log : float → res float.

Definition tokenize (t : text) : list text := runs (λ c, is_word c || is_cjk c) (lower t).

(** [if not doc.tokens: doc.tokens = self.tokenize(doc.content)] *)
Definition with_tokens (d : IndexedChunk) : IndexedChunk :=
  match ix_tokens d with
  | [] => mkIndexedChunk (ix_chunk_id d) (ix_content d) (ix_source_id d) (ix_source_type d)
            (ix_access_level d) (ix_metadata d) (tokenize (ix_content d))
  | _ => d
  end.

Definition count_tokens (l : list IndexedChunk) : gmap text Z :=
  foldl (λ m d, foldl (λ m t, <[t := default 0 (m !! t) + 1]> m) m (remove_dups (ix_tokens d))) ∅ l.

Definition add_documents (docs : list IndexedChunk) (ix : index) : index :=
  let all := documents ix ++ (with_tokens <$> docs) in
  let n := Z.of_nat (length all) in
  let total_len := PySort.zsum ((λ d, Z.of_nat (length (ix_tokens d))) <$> all) in
  mkIndex (kw_top_k ix) (kw_k1 ix) (kw_b ix) all n
    (if 0 <? n then PyFloat.ratio total_len n else PyFloat.zero) (count_tokens all).

(** One query token's contribution to [_bm25_score]. *)
Definition token_score (ix : index) (doc : IndexedChunk) (token : text) (acc : float) : res float :=
  let tf := Z.of_nat (length (filter (λ t, t = token) (ix_tokens doc))) in
  if tf =? 0 then Ok acc
  else
    let doc_len := PyFloat.of_Z (Z.of_nat (length (ix_tokens doc))) in
    let dfz := default 0 (df ix !! token) in
    let half := PyFloat.ratio 1 2 in
    let one := PyFloat.of_Z 1 in
    ratio ← PyFloat.true_div (PyFloat.add (PyFloat.of_Z (doc_count ix - dfz)) half)
              (PyFloat.add (PyFloat.of_Z dfz) half);
    idf ← log (PyFloat.add ratio one);
    let numerator := PyFloat.mul (PyFloat.of_Z tf) (PyFloat.add (kw_k1 ix) one) in
    norm ← PyFloat.true_div (PyFloat.mul (kw_b ix) doc_len) (avg_doc_len ix);
    let denominator := PyFloat.add (PyFloat.of_Z tf)
      (PyFloat.mul (kw_k1 ix) (PyFloat.add (PyFloat.sub one (kw_b ix)) norm)) in
    part ← PyFloat.true_div (PyFloat.mul idf numerator) denominator;
    Ok (PyFloat.add acc part).
Definition bm25_score (ix : index) (query_tokens : list text) (doc : IndexedChunk) : res float :=
  fold_res (token_score ix doc) query_tokens PyFloat.zero.

Fixpoint scored (ix : index) (query_tokens : list text) (docs : list IndexedChunk) :
    res (list (float * IndexedChunk)) :=
  match docs with
  | [] => Ok []
  | d :: docs =>
      s ← bm25_score ix query_tokens d;
      rest ← scored ix query_tokens docs;
      Ok (if PyFloat.gt s PyFloat.zero then (s, d) :: rest else rest)
  end.

Definition to_chunk (sd : float * IndexedChunk) : RetrievalChunk := let '(s, d) := sd in
  mkChunk (ix_chunk_id d) (ix_content d) s (ix_source_id d) (ix_source_type d) (ix_access_level d)
    (ix_metadata d) "keyword".

Definition search (ix : index) (query : text) (top_k : option Z) : res (list RetrievalChunk) :=
  let k := or_default top_k (kw_top_k ix) in
  let query_tokens := tokenize query in
  if bool_decide (query_tokens = []) || (doc_count ix =? 0) then Ok []
  else
    scores ← scored ix query_tokens (documents ix);
    Ok (to_chunk <$> slice_to k (PySort.sort best_first scores)).
End index.
End KeywordRetriever.

Module VectorRetriever.
Record index := mkIndex { vr_top_k : Z; chunks : list RetrievalChunk }.
Definition new (top_k : Z) : index := mkIndex top_k [].
Definition add_documents (l : list RetrievalChunk) (ix : index) : index :=
  mkIndex (vr_top_k ix) (chunks ix ++ l).

(** Overlap of the character sets. *)
Definition similarity (query c : text) : float :=
  let query_chars : gset Z := list_to_set query in
  let content_chars : gset Z := list_to_set c in
  let overlap := Z.of_nat (size (query_chars ∩ content_chars)) in
  let union := Z.of_nat (size (query_chars ∪ content_chars)) in
  if 0 <? union then PyFloat.ratio overlap union else PyFloat.zero.

Definition search (ix : index) (query : text) (top_k : option Z) : list RetrievalChunk :=
  let k := or_default top_k (vr_top_k ix) in
  let scored := (λ c, (similarity query (content c), c)) <$> chunks ix in
  (λ '(s, c), with_score s "vector" c) <$> slice_to k (PySort.sort best_first scored).
End VectorRetriever.

Inductive MergeStrategy := RRF | WEIGHTED_SCORE.
#[global] Instance MergeStrategy_eq_dec : EqDecision MergeStrategy.
Proof. solve_decision. Defined.

Module HybridRetriever.
Record retriever := mkRetriever {
  vector_retriever : VectorRetriever.index;
  keyword_retriever : KeywordRetriever.index;
  merge_strategy : MergeStrategy;
  vector_weight : float;
  keyword_weight : float;
  final_top_k : Z;
  rrf_k : Z;
  access_checker : option (string → string → bool);
}.

Definition set_access_checker (f : string → string → bool) (h : retriever) : retriever :=
  mkRetriever (vector_retriever h) (keyword_retriever h) (merge_strategy h) (vector_weight h)
    (keyword_weight h) (final_top_k h) (rrf_k h) (Some f).

(** The three dictionaries a merge builds: scores, chunks, sources. *)
Record merge := mkMerge { m_scores : dict float; m_chunks : dict RetrievalChunk; m_sources : dict (list string) }.
Definition merge_empty : merge := mkMerge [] [] [].

(** [scores[cid] = scores.get(cid, 0.0) + s; chunk_map[cid] = chunk;
    source_map.setdefault(cid, set()).add(src)] *)
Definition merge_add (src : string) (s : float) (c : RetrievalChunk) (m : merge) : merge :=
  let cid := chunk_id c in
  let sources := dget cid [] (m_sources m) in
  mkMerge (dinsert cid (PyFloat.add (dget cid PyFloat.zero (m_scores m)) s) (m_scores m))
    (dinsert cid c (m_chunks m))
    (dinsert cid (if bool_decide (src ∈ sources) then sources else sources ++ [src]) (m_sources m)).

(** One [for rank, chunk in enumerate(results)] loop of [_merge_rrf]. *)
Fixpoint rrf_loop (k : Z) (src : string) (rank : Z) (l : list RetrievalChunk) (m : merge) : res merge :=
  match l with
  | [] => Ok m
  | c :: l =>
      d ← PyFloat.of_int (k + rank + 1);
      s ← PyFloat.true_div (PyFloat.of_Z 1) d;
      rrf_loop k src (rank + 1) l (merge_add src s c m)
  end.
Definition weighted_loop (w : float) (src : string) (l : list RetrievalChunk) (m : merge) : merge :=
  foldl (λ m c, merge_add src (PyFloat.mul (score c) w) c m) m l.

(** [sorted(scores.keys(), key=lambda x: scores[x], reverse=True)] and the loop
    that rebuilds the chunks. *)
Definition ranked_ids (m : merge) : list string :=
  PySort.sort (PySort.down (PySort.on (λ cid, dget cid PyFloat.zero (m_scores m)) PyFloat.lt))
    (dkeys (m_scores m)).
Definition source_label (sources : list string) : string :=
  if (1 <? Z.of_nat (length sources)) then "both" else default "" (head sources).
Definition rebuild (m : merge) (cid : string) : res RetrievalChunk :=
  match dlookup cid (m_chunks m) with
  | None => Err (KeyError cid)
  | Some c => Ok (with_score (dget cid PyFloat.zero (m_scores m))
                    (source_label (dget cid [] (m_sources m))) c)
  end.
Fixpoint rebuild_all (m : merge) (ids : list string) : res (list RetrievalChunk) :=
  match ids with
  | [] => Ok []
  | cid :: ids => c ← rebuild m cid; rest ← rebuild_all m ids; Ok (c :: rest)
  end.

Definition merge_rrf (k : Z) (vector_results keyword_results : list RetrievalChunk) :
    res (list RetrievalChunk) :=
  m ← rrf_loop k "vector" 0 vector_results merge_empty;
  m ← rrf_loop k "keyword" 0 keyword_results m;
  rebuild_all m (ranked_ids m).

Definition merge_weighted (vw kw : float) (vector_results keyword_results : list RetrievalChunk) :
    res (list RetrievalChunk) :=
  let m := weighted_loop kw "keyword" keyword_results
             (weighted_loop vw "vector" vector_results merge_empty) in
  rebuild_all m (ranked_ids m).

(** [access_hierarchy] *)
Definition allowed_levels (user_role : string) : list string :=
  dget user_role ["public"]
    [("public", ["public"]); ("internal", ["public"; "internal"]);
     ("admin", ["public"; "internal"; "restricted"])].
Definition may_access (checker : option (string → string → bool)) (user_role level : string) : bool :=
  match checker with
  | Some f => f user_role level
  | None => bool_decide (level ∈ allowed_levels user_role)
  end.
Definition filter_by_access (h : retriever) (chunks : list RetrievalChunk) (user_role : string) :
    list RetrievalChunk :=
  filter (λ c, may_access (access_checker h) user_role (access_level c) = true) chunks.

(** [sources[src] += 1] for the known sources *)
Definition count_source (d : dict Z) (c : RetrievalChunk) : dict Z :=
  let src := retrieval_source c in
  if dmem src d then dinsert src (dget src 0 d + 1) d else d.

Section retrieve.
Variable lower : text → text.
Variable is_word : Z → bool.
Variable log : float → res float.

Definition retrieve (h : retriever) (query : text) (user_role : string) (top_k : option Z)
    (start_time end_time : float) : res RetrievalResult :=
  let k := or_default top_k (final_top_k h) in
  let vector_results := VectorRetriever.search (vector_retriever h) query None in
  keyword_results ← KeywordRetriever.search lower is_word log (keyword_retriever h) query None;
  merged ← match merge_strategy h with
    | RRF => merge_rrf (rrf_k h) vector_results keyword_results
    | WEIGHTED_SCORE => merge_weighted (vector_weight h) (keyword_weight h) vector_results keyword_results
    end;
  let filtered := filter_by_access h merged user_role in
  let final := slice_to k filtered in
  let sources := foldl count_source [("vector", 0); ("keyword", 0); ("both", 0)] final in
  Ok (mkRetrievalResult query final (Z.of_nat (length merged))
        (PyFloat.mul (PyFloat.sub end_time start_time) (PyFloat.of_Z 1000)) sources).
End retrieve.
End HybridRetriever.

(** ** Fusion *)
Module RetrievalFacts.
Import HybridRetriever.

(** The merge holds one score and one chunk per identifier, the chunks being
    among those recalled. *)
Record merge_ok (P : RetrievalChunk → Prop) (m : merge) : Prop := {
  mo_nodup : NoDup (dkeys (m_scores m));
  mo_keys : dkeys (m_chunks m) = dkeys (m_scores m);
  mo_chunks cid c : dlookup cid (m_chunks m) = Some c → chunk_id c = cid ∧ P c;
}.

Lemma merge_empty_ok P : merge_ok P merge_empty.
Proof. by split; [constructor| |]. Qed.

Lemma merge_add_ok P src s c m : merge_ok P m → P c → merge_ok P (merge_add src s c m).
Proof.
  intros [H1 H2 H3] Hc. split; simpl.
  - by apply dinsert_NoDup.
  - by rewrite !dkeys_dinsert, H2.
  - intros cid c'. rewrite dlookup_dinsert. case_decide; [|apply H3]. intros [= <-]. done.
Qed.

Lemma rrf_loop_ok P k src rank l m m' : merge_ok P m → Forall P l →
  rrf_loop k src rank l m = Ok m' → merge_ok P m'.
Proof.
  revert rank m. induction l as [|c l IH]; intros rank m Hm Hl H; simpl in H; [by simplify_eq|].
  apply Forall_cons in Hl as [Hc Hl]. inv_ok. eapply IH; [|done|done]. by apply merge_add_ok.
Qed.

Lemma weighted_loop_ok P w src l m : merge_ok P m → Forall P l → merge_ok P (weighted_loop w src l m).
Proof.
  intros Hm Hl. revert m Hm. induction Hl as [|c l Hc Hl IH]; intros m Hm; simpl; [done|].
  apply IH. by apply merge_add_ok.
Qed.

Lemma rebuild_all_spec P m ids : merge_ok P m → (∀ cid, cid ∈ ids → cid ∈ dkeys (m_scores m)) →
  ∃ l, rebuild_all m ids = Ok l ∧ chunk_id <$> l = ids ∧
  ∀ c, c ∈ l → score c = dget (chunk_id c) PyFloat.zero (m_scores m) ∧
    retrieval_source c = source_label (dget (chunk_id c) [] (m_sources m)) ∧
    ∃ c0 s src, P c0 ∧ c = with_score s src c0.
Proof.
  intros Hm. induction ids as [|cid ids IH]; intros Hids; simpl; [exists []; set_solver|].
  destruct IH as (l & -> & Hl & Hall); [set_solver|]. unfold rebuild.
  destruct (dlookup cid (m_chunks m)) as [c0|] eqn:E.
  2: { apply dlookup_None_keys in E. destruct E. rewrite (mo_keys _ _ Hm). apply Hids. set_solver. }
  destruct (mo_chunks _ _ Hm _ _ E) as [Hid HP]. simpl. eexists. split; [done|].
  split; [by rewrite fmap_cons, Hl; simpl; rewrite Hid|].
  intros c [->|Hc]%elem_of_cons; [|by apply Hall]. simpl. rewrite Hid. split_and!; [done|done|].
  by eexists _, _, _.
Qed.

Definition ordered (l : list RetrievalChunk) : Prop :=
  StronglySorted (λ a b, PyFloat.lt (score a) (score b) = false) l.

Lemma StronglySorted_fmap_2 {A B} (f : A → B) (R : B → B → Prop) l :
  StronglySorted R (f <$> l) → StronglySorted (λ a b, R (f a) (f b)) l.
Proof.
  induction l as [|x l IH]; intros Hs; [constructor|]. simpl in Hs.
  apply StronglySorted_inv in Hs as [Hs Hall]. constructor; [by apply IH|].
  by rewrite Forall_fmap in Hall.
Qed.

Lemma StronglySorted_weaken {A} (R1 R2 : A → A → Prop) l :
  (∀ x y, x ∈ l → y ∈ l → R1 x y → R2 x y) → StronglySorted R1 l → StronglySorted R2 l.
Proof.
  induction l as [|x l IH]; intros HR Hs; [constructor|].
  apply StronglySorted_inv in Hs as [Hs Hall]. constructor.
  - apply IH; [|done]. set_solver.
  - rewrite Forall_forall in *. intros y Hy. apply HR; [set_solver|set_solver|auto].
Qed.

Lemma merged_spec P m : merge_ok P m → ∃ l, rebuild_all m (ranked_ids m) = Ok l ∧
  chunk_id <$> l ≡ₚ dkeys (m_scores m) ∧ NoDup (chunk_id <$> l) ∧
  (Forall (λ c, PyFloat.is_nan (score c) = false) l → ordered l) ∧
  ∀ c, c ∈ l → score c = dget (chunk_id c) PyFloat.zero (m_scores m) ∧
    retrieval_source c = source_label (dget (chunk_id c) [] (m_sources m)) ∧
    ∃ c0 s src, P c0 ∧ c = with_score s src c0.
Proof.
  intros Hm. destruct (rebuild_all_spec P m (ranked_ids m) Hm) as (l & Hl & Hids & Hall).
  { intros cid. unfold ranked_ids. by rewrite PySort.elem_of_sort. }
  exists l. assert (ranked_ids m ≡ₚ dkeys (m_scores m)) as Hp by apply PySort.sort_perm.
  split_and!; [done|by rewrite Hids|rewrite Hids, Hp; apply Hm| |done].
  intros Hnan. unfold ordered.
  eapply (StronglySorted_weaken (λ a b, PyFloat.lt (dget (chunk_id a) PyFloat.zero (m_scores m))
    (dget (chunk_id b) PyFloat.zero (m_scores m)) = false)).
  { intros a b Ha Hb. by rewrite (proj1 (Hall a Ha)), (proj1 (Hall b Hb)). }
  apply (StronglySorted_fmap_2 chunk_id (λ a b, PyFloat.lt (dget a PyFloat.zero (m_scores m))
    (dget b PyFloat.zero (m_scores m)) = false)). rewrite Hids.
  apply (PySort.sort_sorted (PySort.down (PySort.on (λ cid, dget cid PyFloat.zero (m_scores m)) PyFloat.lt))
    (λ cid, PyFloat.is_nan (dget cid PyFloat.zero (m_scores m)) = false)).
  - apply PySort.strict_weak_down,
      (PySort.strict_weak_on (λ cid, dget cid PyFloat.zero (m_scores m)) PyFloat.lt
        (λ x, PyFloat.is_nan x = false)), PySort.strict_weak_float.
  - rewrite <-Hp, <-Hids, Forall_fmap. rewrite Forall_forall in *. intros c Hc. simpl.
    rewrite <-(proj1 (Hall c Hc)). auto.
Qed.

(** A chunk that repeats an indexed document, whatever its score and label. *)
Definition of_vector (v : VectorRetriever.index) (c : RetrievalChunk) : Prop :=
  ∃ c0, c0 ∈ VectorRetriever.chunks v ∧ chunk_id c = chunk_id c0 ∧ content c = content c0 ∧
    access_level c = access_level c0 ∧ source_id c = source_id c0 ∧ metadata c = metadata c0.
Definition of_keyword (ix : KeywordRetriever.index) (c : RetrievalChunk) : Prop :=
  ∃ d, d ∈ KeywordRetriever.documents ix ∧ chunk_id c = ix_chunk_id d ∧ content c = ix_content d ∧
    access_level c = ix_access_level d ∧ source_id c = ix_source_id d ∧ metadata c = ix_metadata d.
Definition indexed (h : retriever) (c : RetrievalChunk) : Prop :=
  of_vector (vector_retriever h) c ∨ of_keyword (keyword_retriever h) c.

Lemma vector_search_indexed v q k c : c ∈ VectorRetriever.search v q k → of_vector v c.
Proof.
  unfold VectorRetriever.search. intros ([s c0] & -> & Hin%elem_of_slice_to)%list_elem_of_fmap.
  rewrite PySort.elem_of_sort in Hin. apply list_elem_of_fmap in Hin as (c1 & [= -> ->] & Hin).
  by exists c1.
Qed.

Lemma scored_documents log ix qs docs l s d :
  KeywordRetriever.scored log ix qs docs = Ok l → (s, d) ∈ l → d ∈ docs.
Proof.
  revert l. induction docs as [|d0 docs IH]; intros l H Hin; simpl in H; [inv_ok; set_solver|].
  inv_ok. case_match; [apply elem_of_cons in Hin as [[= -> ->]|Hin]|]; [set_solver|..];
    right; by eapply IH.
Qed.

Lemma keyword_search_indexed lower is_word log ix q k l :
  KeywordRetriever.search lower is_word log ix q k = Ok l → Forall (of_keyword ix) l.
Proof.
  unfold KeywordRetriever.search. case_match; [intros [= <-]; constructor|]. intros Hs. inv_ok.
  apply Forall_forall. intros c ([s d] & -> & Hin%elem_of_slice_to)%list_elem_of_fmap.
  rewrite PySort.elem_of_sort in Hin. exists d.
  split; [by eapply scored_documents|done].
Qed.

Lemma with_score_indexed h s src c : indexed h c → indexed h (with_score s src c).
Proof. intros [(c0 & ? & ?)|(d & ? & ?)]; [left; by exists c0|right; by exists d]. Qed.

Lemma retrieve_merged lower is_word log h q role top_k t0 t1 r :
  retrieve lower is_word log h q role top_k t0 t1 = Ok r → ∃ merged,
  rr_chunks r = slice_to (or_default top_k (final_top_k h)) (filter_by_access h merged role) ∧
  rr_total_candidates r = Z.of_nat (length merged) ∧
  NoDup (chunk_id <$> merged) ∧ Forall (indexed h) merged ∧
  (Forall (λ c, PyFloat.is_nan (score c) = false) merged → ordered merged).
Proof.
  unfold retrieve. intros H. inv_ok.
  match goal with H : KeywordRetriever.search _ _ _ _ _ _ = Ok ?kw |- _ =>
    apply keyword_search_indexed in H; rename kw into kws; rename H into Hkw end.
  match goal with H : _ = Ok ?x |- _ => rename x into merged; rename H into Hm end.
  exists merged. cbn [rr_chunks rr_total_candidates]. split; [done|]. split; [done|].
  assert (Forall (indexed h) (VectorRetriever.search (vector_retriever h) q None)) as Hv.
  { apply Forall_forall. intros c Hc%vector_search_indexed. by left. }
  assert (Forall (indexed h) kws) as Hk by (eapply Forall_impl; [exact Hkw|]; by right).
  assert (∃ m, merge_ok (indexed h) m ∧ rebuild_all m (ranked_ids m) = Ok merged) as (m & Hok & Hre).
  { destruct (merge_strategy h); [unfold merge_rrf in Hm; inv_ok|].
    - eexists. split; [|exact H1]. eapply rrf_loop_ok, H0; [|done].
      eapply rrf_loop_ok, H; [|done]. apply merge_empty_ok.
    - unfold merge_weighted in Hm. eexists. split; [|exact Hm].
      apply weighted_loop_ok; [apply weighted_loop_ok|]; [apply merge_empty_ok|done|done]. }
  destruct (merged_spec _ m Hok) as (l & Hl & _ & Hnd & Hord & Hall).
  assert (l = merged) as -> by congruence. split_and!; [done| |done].
  apply Forall_forall. intros c Hc. destruct (Hall c Hc) as (_ & _ & c0 & s & src & Hi & ->).
  by apply with_score_indexed.
Qed.
End RetrievalFacts.

Import RetrievalFacts HybridRetriever.



(** ** Reciprocal rank fusion against its formula *)
Fixpoint rank_of (cid : string) (l : list RetrievalChunk) : option Z :=
  match l with
  | [] => None
  | c :: l => if decide (chunk_id c = cid) then Some 0 else Z.succ <$> rank_of cid l
  end.
(** [1 / (k + rank + 1)] *)
Definition reciprocal (k rank : Z) : float := PyFloat.div (PyFloat.of_Z 1) (PyFloat.of_Z (k + rank + 1)).
(** The sum over the recall lists that contain the chunk, vector first. *)
Definition rrf_score (k : Z) (v kw : list RetrievalChunk) (cid : string) : float :=
  let plus x o := match o with Some r => PyFloat.add x (reciprocal k r) | None => x end in
  plus (plus PyFloat.zero (rank_of cid v)) (rank_of cid kw).
Definition rrf_label (v kw : list RetrievalChunk) (cid : string) : string :=
  match rank_of cid v, rank_of cid kw with
  | Some _, Some _ => "both"
  | Some _, None => "vector"
  | _, _ => "keyword"
  end.

Lemma rank_of_None cid l : rank_of cid l = None ↔ cid ∉ chunk_id <$> l.
Proof.
  induction l as [|c l IH]; simpl; [set_solver|]. case_decide; [set_solver|].
  rewrite fmap_None, IH. set_solver.
Qed.

Definition add_source (src : string) (l : list string) : list string :=
  if bool_decide (src ∈ l) then l else l ++ [src].

Lemma rrf_loop_spec k src l : ∀ rank m m', NoDup (chunk_id <$> l) →
  rrf_loop k src rank l m = Ok m' →
  (∀ cid, cid ∈ dkeys (m_scores m') ↔ cid ∈ dkeys (m_scores m) ∨ cid ∈ chunk_id <$> l) ∧
  ∀ cid, dget cid PyFloat.zero (m_scores m') = match rank_of cid l with
      | Some r => PyFloat.add (dget cid PyFloat.zero (m_scores m)) (reciprocal k (rank + r))
      | None => dget cid PyFloat.zero (m_scores m)
      end ∧
    dget cid [] (m_sources m') = match rank_of cid l with
      | Some _ => add_source src (dget cid [] (m_sources m))
      | None => dget cid [] (m_sources m)
      end.
Proof.
  induction l as [|c l IH]; intros rank m m' Hnd H; simpl in H.
  { simplify_eq. split; [set_solver|done]. }
  inv_ok. apply NoDup_cons in Hnd as [Hni Hnd].
  unfold PyFloat.of_int in *. case_match; [|done].
  assert (x0 = reciprocal k rank) as ->.
  { unfold reciprocal, PyFloat.true_div in *. simplify_eq. by destruct (PyFloat.of_Z (k + rank + 1)); simplify_eq. }
  destruct (IH _ _ _ Hnd H1) as [Hkeys Hval]. split.
  - intros cid. rewrite Hkeys. simpl. rewrite dkeys_dinsert. case_decide; set_solver.
  - intros cid. destruct (Hval cid) as [-> ->]. simpl. rewrite !dget_dinsert.
    destruct (decide (chunk_id c = cid)) as [<-|Hne].
    + apply rank_of_None in Hni as ->. by rewrite Z.add_0_r.
    + destruct (rank_of cid l) as [r|]; simpl; [|done].
      by replace (rank + 1 + r) with (rank + Z.succ r) by lia.
Qed.

(** Reciprocal rank fusion computes its formula: for recall lists without repeated
    identifiers, the fused list holds every recalled identifier once, each with the sum of
    1/(k + rank) over the lists that contain it, labelled by those lists, and is ordered by
    that sum, best first. *)
Theorem rrf_fusion_formula k v kw merged :
  NoDup (chunk_id <$> v) → NoDup (chunk_id <$> kw) → merge_rrf k v kw = Ok merged →
  NoDup (chunk_id <$> merged) ∧
  (∀ cid, cid ∈ chunk_id <$> merged ↔ cid ∈ chunk_id <$> v ∨ cid ∈ chunk_id <$> kw) ∧
  (∀ c, c ∈ merged → score c = rrf_score k v kw (chunk_id c) ∧
     retrieval_source c = rrf_label v kw (chunk_id c)) ∧
  (Forall (λ c, PyFloat.is_nan (score c) = false) merged → ordered merged).
Proof.
  intros Hv Hk H. unfold merge_rrf in H. inv_ok.
  assert (merge_ok (λ _, True) x0) as Hok.
  { eapply rrf_loop_ok, H0; [eapply rrf_loop_ok, H; [apply merge_empty_ok|]|]; by apply Forall_true. }
  destruct (merged_spec _ _ Hok) as (l & Hl & Hids & Hnd & Hord & Hall).
  assert (l = merged) as -> by congruence.
  destruct (rrf_loop_spec _ _ _ _ _ _ Hv H) as [Hk1 Hv1].
  destruct (rrf_loop_spec _ _ _ _ _ _ Hk H0) as [Hk2 Hv2].
  assert (∀ cid, cid ∈ chunk_id <$> merged ↔ cid ∈ chunk_id <$> v ∨ cid ∈ chunk_id <$> kw) as Hin.
  { intros cid. rewrite Hids, Hk2, Hk1. simpl. set_solver. }
  split_and!; [done|done| |done].
  intros c Hc. destruct (Hall c Hc) as (-> & -> & _).
  destruct (Hv2 (chunk_id c)) as [-> ->]. destruct (Hv1 (chunk_id c)) as [-> ->].
  assert (chunk_id c ∈ chunk_id <$> merged) as Hcm by by apply list_elem_of_fmap_2.
  apply Hin in Hcm. unfold rrf_score, rrf_label. 
  change (dget (chunk_id c) PyFloat.zero (m_scores merge_empty)) with PyFloat.zero.
  change (dget (chunk_id c) [] (m_sources merge_empty)) with ([] : list string).
  destruct (rank_of (chunk_id c) v) as [r1|] eqn:E1, (rank_of (chunk_id c) kw) as [r2|] eqn:E2; try done.
  apply rank_of_None in E1, E2. tauto.
Qed.

Lemma rrf_fusion_formula_witness :
  let doc id := mkChunk id [] PyFloat.zero "s" "doc" "public" [] "" in
  match merge_rrf 60 [doc "a"; doc "b"] [doc "b"; doc "c"] with
  | Ok merged => (chunk_id <$> merged) = ["b"; "a"; "c"] ∧
      ∀ c, c ∈ merged → score c = rrf_score 60 [doc "a"; doc "b"] [doc "b"; doc "c"] (chunk_id c) ∧
        retrieval_source c = rrf_label [doc "a"; doc "b"] [doc "b"; doc "c"] (chunk_id c)
  | Err _ => False
  end.
Proof.
  intros doc. pose proof (rrf_fusion_formula 60 [doc "a"; doc "b"] [doc "b"; doc "c"]) as Hf.
  destruct (merge_rrf 60 _ _) as [merged|e] eqn:E; [|vm_compute in E; discriminate].
  split; [vm_compute in E; injection E as <-; reflexivity|].
  refine (proj1 (proj2 (proj2 (Hf merged _ _ eq_refl)))); by apply (bool_decide_unpack _); vm_compute.
Defined.

(** The access filter runs after the recall limits: a better ranked document the
    caller may not see can take the place of one it may. *)
Example restricted_crowds_out :
  let doc id lvl c := mkChunk id c PyFloat.zero "s" "doc" lvl [] "" in
  let h := mkRetriever
    (VectorRetriever.mkIndex 1 [doc "secret" "restricted" [97]; doc "open" "public" [97; 98]])
    (KeywordRetriever.new 20 (PyFloat.ratio 3 2) (PyFloat.ratio 3 4)) RRF (PyFloat.ratio 3 5)
    (PyFloat.ratio 2 5) 10 60 None in
  (rr_chunks <$> retrieve (λ t, t) (λ _, true) Ok h [97] "public" None PyFloat.zero PyFloat.zero) = Ok [].
Proof. vm_compute. reflexivity. Qed.
