(* ===== verification/Compressor.v ===== *)
(** * Reranking, compression and the context budget
    (src/src/rag/reranker.py, compressor.py, context_budget.py)

    Texts are code points; the Unicode predicates [is_space] and [is_alnum],
    [lower], the digest and the C library's [exp] are parameters, as are the
    interpreter's texts of floats ([float_str]).  [time n] is the n-th reading
    of [time.time()].  Counts are list lengths, exactly representable as floats. *)
From Stdlib Require Import Floats.SpecFloat.
From S2P Require Import Prelude PyFloat PyValue Persistence PySort PyFormat Retrieval.
Local Open Scope Z_scope.

(** ** Budget *)
Record BudgetAllocation := mkAllocation {
  al_system_prompt : Z;
  al_conversation_history : Z;
  al_retrieval_context : Z;
  al_user_input : Z;
  al_safety_margin : Z;
}.

Module ContextBudgetManager.
Record manager := mkManager {
  max_total_tokens : Z;
  allocation : BudgetAllocation;
  usage : dict Z;
}.

Definition default_allocation : BudgetAllocation := mkAllocation 500 1000 2000 500 200.
Definition total (a : BudgetAllocation) : Z :=
  al_system_prompt a + al_conversation_history a + al_retrieval_context a + al_user_input a
  + al_safety_margin a.
Definition new (max_total : Z) (a : BudgetAllocation) : manager :=
  mkManager max_total a [("system_prompt", 0); ("conversation_history", 0);
    ("retrieval_context", 0); ("user_input", 0)].

Definition get_retrieval_budget (m : manager) : Z :=
  let used_by_others := dget "system_prompt" 0 (usage m) + dget "conversation_history" 0 (usage m)
    + dget "user_input" 0 (usage m) in
  let available := max_total_tokens m - used_by_others - al_safety_margin (allocation m) in
  Z.min available (al_retrieval_context (allocation m)).

Definition record_usage (category : string) (tokens : Z) (m : manager) : manager :=
  if dmem category (usage m)
  then mkManager (max_total_tokens m) (allocation m) (dinsert category tokens (usage m)) else m.

Definition used (m : manager) : Z := PySort.zsum (usage m).*2.
Definition remaining_tokens (m : manager) : Z :=
  Z.max (max_total_tokens m - used m - al_safety_margin (allocation m)) 0.
Definition is_over_budget (m : manager) : bool := remaining_tokens m <=? 0.
Definition summary (m : manager) : dict Z :=
  [("max_total", max_total_tokens m); ("used", used m); ("remaining", remaining_tokens m)]
  ++ ((λ kv, ("used_" +:+ kv.1, kv.2)) <$> usage m).
End ContextBudgetManager.

(** ** Reranking *)
Record RerankScore := mkRerankScore {
  relevance_score : float;
  freshness_score : float;
  authority_score : float;
  final_score : float;
  explanation : string;
}.

Record RerankResult := mkRerankResult {
  rk_chunk : RetrievalChunk;
  rerank_score : RerankScore;
  original_rank : Z;
  new_rank : Z;
}.

Record RerankConfig := mkRerankConfig {
  relevance_weight : float;
  freshness_weight : float;
  authority_weight : float;
  freshness_decay_days : Z;
  top_n : Z;
  source_authority : dict float;
}.

Record RerankOutput := mkRerankOutput {
  ro_results : list RerankResult;
  ro_latency_ms : float;
  ro_config : dict pyval;
}.

Module Reranker.
(** [RerankConfig()] *)
Definition default_config : RerankConfig :=
  mkRerankConfig (PyFloat.ratio 1 2) (PyFloat.ratio 3 10) (PyFloat.ratio 1 5) 90 10
    [("doc", PyFloat.ratio 9 10); ("db", PyFloat.ratio 8 10); ("api", PyFloat.ratio 7 10);
     ("user_generated", PyFloat.ratio 1 2); ("unknown", PyFloat.ratio 3 10)].

Definition validate (c : RerankConfig) : res unit :=
  let total := PyFloat.add (PyFloat.add (relevance_weight c) (freshness_weight c)) (authority_weight c) in
  raise_if (PyFloat.gt (SFabs (PyFloat.sub total (PyFloat.of_Z 1))) (PyFloat.ratio 1 1000000))
    (ValueError ("权重之和必须为 1.0，当前为 " +:+ PyFormat.fixed 4 total)).

Section reranker.
Variable exp : float → float.
Variable float_str : float → string.
Variable time : nat → float.

(** [_calc_freshness]: the score and the next clock index. *)
Definition calc_freshness (c : RerankConfig) (chunk : RetrievalChunk) (n : nat) : res (float * nat) :=
  let half := PyFloat.ratio 1 2 in
  let updated_at := dget "updated_at" VNone (metadata chunk) in
  if negb (Py.truthy updated_at) then Ok (half, n)
  else
    match Py.num updated_at with
    | None => Ok (half, n)
    | Some v =>
        t ← match v with inl z => PyFloat.of_int z | inr f => Ok f end;
        let age_seconds := PyFloat.sub (time n) t in
        let age := PyFloat.div age_seconds (PyFloat.of_Z 86400) in
        (* max(age, 0) is the integer 0 for a negative age; its negation is 0 *)
        let negated := if PyFloat.lt age PyFloat.zero then PyFloat.zero else SFopp age in
        decay ← PyFloat.of_int (freshness_decay_days c);
        x ← PyFloat.true_div negated decay;
        Ok (exp x, S n)
    end.

Definition calc_authority (c : RerankConfig) (chunk : RetrievalChunk) : float :=
  dget (source_type chunk) (dget "unknown" (PyFloat.ratio 3 10) (source_authority c)) (source_authority c).

Definition config_dict (c : RerankConfig) : dict pyval :=
  [("relevance_weight", VFloat (relevance_weight c)); ("freshness_weight", VFloat (freshness_weight c));
   ("authority_weight", VFloat (authority_weight c));
   ("freshness_decay_days", VInt (freshness_decay_days c)); ("top_n", VInt (top_n c))].

(** [max(c.score for c in chunks) or 1.0] *)
Definition max_score (c : RetrievalChunk) (chunks : list RetrievalChunk) : float :=
  let m := foldl (λ m x, PyFloat.max m (score x)) (score c) chunks in
  if PyFloat.eqb m PyFloat.zero then PyFloat.of_Z 1 else m.

(** The body of the scoring loop. *)
Definition score_chunk (c : RerankConfig) (top : float) (idx : Z) (chunk : RetrievalChunk) (n : nat) :
    res (RerankResult * nat) :=
  relevance ← PyFloat.true_div (score chunk) top;
  fn ← calc_freshness c chunk n;
  let freshness := fn.1 in
  let authority := calc_authority c chunk in
  let final := PyFloat.add (PyFloat.add (PyFloat.mul (relevance_weight c) relevance)
    (PyFloat.mul (freshness_weight c) freshness)) (PyFloat.mul (authority_weight c) authority) in
  let explanation :=
    "relevance=" +:+ PyFormat.fixed 3 relevance +:+ "(w=" +:+ float_str (relevance_weight c) +:+ "), " +:+
    "freshness=" +:+ PyFormat.fixed 3 freshness +:+ "(w=" +:+ float_str (freshness_weight c) +:+ "), " +:+
    "authority=" +:+ PyFormat.fixed 3 authority +:+ "(w=" +:+ float_str (authority_weight c) +:+ ")" in
  Ok (mkRerankResult chunk (mkRerankScore relevance freshness authority final explanation) (idx + 1) 0, fn.2).
Fixpoint score_chunks (c : RerankConfig) (top : float) (idx : Z) (chunks : list RetrievalChunk) (n : nat) :
    res (list RerankResult * nat) :=
  match chunks with
  | [] => Ok ([], n)
  | chunk :: chunks =>
      r ← score_chunk c top idx chunk n;
      rest ← score_chunks c top (idx + 1) chunks r.2;
      Ok (r.1 :: rest.1, rest.2)
  end.

Definition set_rank (i : nat) (r : RerankResult) : RerankResult :=
  mkRerankResult (rk_chunk r) (rerank_score r) (original_rank r) (Z.of_nat i + 1).
Definition by_final : RerankResult → RerankResult → bool :=
  PySort.down (PySort.on (λ r, final_score (rerank_score r)) PyFloat.lt).

Definition rerank (c : RerankConfig) (chunks : list RetrievalChunk) (top_n_arg : option Z) :
    res RerankOutput :=
  let start_time := time 0 in
  let n := or_default top_n_arg (top_n c) in
  match chunks with
  | [] => Ok (mkRerankOutput [] PyFloat.zero (config_dict c))
  | c0 :: rest =>
      s ← score_chunks c (max_score c0 rest) 0 chunks 1;
      let ranked := imap set_rank (PySort.sort by_final s.1) in
      Ok (mkRerankOutput (slice_to n ranked)
            (PyFloat.mul (PyFloat.sub (time s.2) start_time) (PyFloat.of_Z 1000)) (config_dict c))
  end.
End reranker.
End Reranker.

(** ** Compression *)
Record CompressedChunk := mkCompressedChunk {
  cc_chunk_id : string;
  cc_content : text;
  cc_token_count : Z;
  cc_source_id : string;
  cc_final_score : float;
  cc_kept_reason : string;
  cc_metadata : dict pyval;
}.

Record CompressionResult := mkCompressionResult {
  cr_chunks : list CompressedChunk;
  cr_total_tokens : Z;
  cr_budget_limit : Z;
  cr_dropped_count : Z;
  cr_dropped_reasons : dict Z;
  cr_latency_ms : float;
}.

Module Compressor.
Record compressor := mkCompressor {
  budget_manager : ContextBudgetManager.manager;
  dedup_threshold : float;
  min_content_length : Z;
  min_info_density : float;
}.

Section compressor.
Variable is_space is_alnum : Z → bool.
Variable lower : text → text.
Variable md5 : text → string.

Fixpoint lstrip (t : text) : text :=
  match t with [] => [] | c :: t' => if is_space c then lstrip t' else t end.
Definition strip (t : text) : text := reverse (lstrip (reverse (lstrip t))).
(** [t.split()] *)
Definition split (t : text) : list text := runs (λ c, negb (is_space c)) t.

(** [int(chinese_chars * 1.5 + words * 1.3)] *)
Definition estimate_tokens (t : text) : res Z :=
  let chinese_chars := PySort.count_if is_cjk t in
  let words := Z.of_nat (length (split t)) in
  PyFloat.trunc (PyFloat.add (PyFloat.mul (PyFloat.of_Z chinese_chars) (PyFloat.ratio 3 2))
    (PyFloat.mul (PyFloat.of_Z words) (PyFloat.ratio 13 10))).

Definition check_low_value (c : compressor) (content : text) : option string :=
  let content := strip content in
  let total := Z.of_nat (length content) in
  if total <? min_content_length c then Some "too_short"
  else
    let alnum_count := PySort.count_if (λ x, is_alnum x || is_cjk x) content in
    if (0 <? total) && PyFloat.lt (PyFloat.ratio alnum_count total) (min_info_density c)
    then Some "low_info_density" else None.

Definition token_set (content : text) : gset text := list_to_set (split (lower content)).
(** [union > 0 and intersection / union >= threshold] *)
Definition near (threshold : float) (a b : gset text) : bool :=
  let union := Z.of_nat (size (a ∪ b)) in
  (0 <? union) && PyFloat.ge (PyFloat.ratio (Z.of_nat (size (a ∩ b))) union) threshold.

(** The loop of [_deduplicate]: kept results and the number of duplicates. *)
Fixpoint dedup_loop (threshold : float) (seen_hashes : list string) (seen_token_sets : list (gset text))
    (results : list RerankResult) : list RerankResult * Z :=
  match results with
  | [] => ([], 0)
  | r :: results =>
      let content := strip (content (rk_chunk r)) in
      let content_hash := md5 content in
      let tokens := token_set content in
      if bool_decide (content_hash ∈ seen_hashes) || existsb (near threshold tokens) seen_token_sets
      then let '(kept, dup) := dedup_loop threshold seen_hashes seen_token_sets results in (kept, dup + 1)
      else
        let '(kept, dup) := dedup_loop threshold (content_hash :: seen_hashes)
          (seen_token_sets ++ [tokens]) results in
        (r :: kept, dup)
  end.
Definition deduplicate (c : compressor) (results : list RerankResult) : list RerankResult * Z :=
  dedup_loop (dedup_threshold c) [] [] results.

(** [dropped_reasons[reason] = dropped_reasons.get(reason, 0) + 1] *)
Definition count_drop (reason : string) (d : dict Z) : dict Z := dinsert reason (dget reason 0 d + 1) d.

Fixpoint value_filter (c : compressor) (l : list RerankResult) (reasons : dict Z) :
    list RerankResult * dict Z :=
  match l with
  | [] => ([], reasons)
  | r :: l =>
      match check_low_value c (content (rk_chunk r)) with
      | Some reason => value_filter c l (count_drop reason reasons)
      | None => let '(kept, reasons) := value_filter c l reasons in (r :: kept, reasons)
      end
  end.

Definition compressed (r : RerankResult) (tokens : Z) : CompressedChunk :=
  mkCompressedChunk (chunk_id (rk_chunk r)) (content (rk_chunk r)) tokens (source_id (rk_chunk r))
    (final_score (rerank_score r))
    ("rank=" +:+ pretty (new_rank r) +:+ ", score=" +:+ PyFormat.fixed 3 (final_score (rerank_score r)))
    (metadata (rk_chunk r)).

(** The greedy loop: selected chunks, used tokens, drop reasons. *)
Fixpoint select (budget : Z) (l : list RerankResult) (used : Z) (reasons : dict Z) :
    res (list CompressedChunk * Z * dict Z) :=
  match l with
  | [] => Ok ([], used, reasons)
  | r :: l =>
      token_count ← estimate_tokens (content (rk_chunk r));
      if budget <? used + token_count
      then select budget l used (count_drop "over_budget" reasons)
      else
        rest ← select budget l (used + token_count) reasons;
        Ok (compressed r token_count :: rest.1.1, rest.1.2, rest.2)
  end.

Definition compress (rerank_results : list RerankResult) (budget_override : option Z)
    (start_time end_time : float) (c : compressor) : res CompressionResult * compressor :=
  let budget := or_default budget_override (ContextBudgetManager.get_retrieval_budget (budget_manager c)) in
  let '(deduped, dup_count) := deduplicate c rerank_results in
  let reasons := if 0 <? dup_count then [("duplicate", dup_count)] else [] in
  let '(filtered, reasons) := value_filter c deduped reasons in
  match select budget filtered 0 reasons with
  | Err e => (Err e, c)
  | Ok (selected, used_tokens, reasons) =>
      (Ok (mkCompressionResult selected used_tokens budget
             (Z.of_nat (length rerank_results) - Z.of_nat (length selected)) reasons
             (PyFloat.mul (PyFloat.sub end_time start_time) (PyFloat.of_Z 1000))),
       mkCompressor (ContextBudgetManager.record_usage "retrieval_context" used_tokens (budget_manager c))
         (dedup_threshold c) (min_content_length c) (min_info_density c))
  end.

(** [assemble_context], as a sequence of pieces of text *)
Definition assemble_context (encode : string → text) (chunks : list CompressedChunk) : text :=
  let part c := encode "[来源: " ++ encode (cc_source_id c) ++ encode "]
" ++ cc_content c in
  match part <$> chunks with
  | [] => []
  | p :: ps => p ++ (ps ≫= λ q, encode "
---
" ++ q)
  end.
End compressor.
End Compressor.

(** ** Non-negative token counts *)
Definition nonneg (x : float) : Prop :=
  match x with
  | S754_zero s | S754_infinity s | S754_finite s _ _ => s = false
  | S754_nan => True
  end.

Lemma nonneg_round_aux m e l : nonneg (binary_round_aux 53 1024 false m e l).
Proof. unfold binary_round_aux. repeat case_match; simpl; done. Qed.

Lemma nonneg_round m e : nonneg (binary_round 53 1024 false m e).
Proof. unfold binary_round. repeat case_match. apply nonneg_round_aux. Qed.

Lemma nonneg_normalize z e : 0 ≤ z → nonneg (binary_normalize 53 1024 z e false).
Proof.
  intros Hz. unfold binary_normalize. destruct z as [|p|p]; [done| |lia]. apply nonneg_round.
Qed.

Lemma nonneg_of_Z z : 0 ≤ z → nonneg (PyFloat.of_Z z).
Proof. apply nonneg_normalize. Qed.

Lemma nonneg_mul x y : nonneg x → nonneg y → nonneg (PyFloat.mul x y).
Proof.
  unfold PyFloat.mul, SFmul. destruct x as [[]|[]| |[] m e], y as [[]|[]| |[] m' e']; simpl; try done.
  intros _ _. apply nonneg_round_aux.
Qed.

Lemma nonneg_add x y : nonneg x → nonneg y → nonneg (PyFloat.add x y).
Proof.
  unfold PyFloat.add, SFadd. destruct x as [[]|[]| |[] m e], y as [[]|[]| |[] m' e']; simpl; try done.
  intros _ _. apply nonneg_round.
Qed.

Lemma nonneg_trunc x z : nonneg x → PyFloat.trunc x = Ok z → 0 ≤ z.
Proof.
  destruct x as [[]|[]| |[] m e]; simpl; try done; intros _ H; injection H as <-; [done|].
  destruct (Z.leb_spec 0 e); [apply Z.mul_nonneg_nonneg; [lia|]; apply Z.pow_nonneg; lia|].
  apply Z.quot_pos; [lia|]. apply Z.pow_pos_nonneg; lia.
Qed.

Module CompressorFacts.
Import Compressor.

Lemma foldl_add a b l : foldl Z.add (a + b) l = a + foldl Z.add b l.
Proof.
  revert b. induction l as [|y l IH]; intros b; simpl; [done|]. rewrite <-Z.add_assoc. apply IH.
Qed.
Lemma zsum_cons x l : PySort.zsum (x :: l) = x + PySort.zsum l.
Proof. pose proof (foldl_add x 0 l) as H. by rewrite Z.add_0_r in H. Qed.

Lemma zsum_count_drop reason d : PySort.zsum (count_drop reason d).*2 = PySort.zsum d.*2 + 1.
Proof.
  unfold count_drop, dget. induction d as [|[k v] d IH]; [done|]. cbn [dlookup dinsert].
  case_decide; rewrite !fmap_cons, !zsum_cons; simpl in *; lia.
Qed.

Section facts.
Variable is_space is_alnum : Z → bool.
Variable lower : text → text.
Variable md5 : text → string.
Abbreviation estimate_tokens := (estimate_tokens is_space).
Abbreviation check_low_value := (check_low_value is_space is_alnum).
Abbreviation dedup_loop := (dedup_loop is_space lower md5).
Abbreviation value_filter := (value_filter is_space is_alnum).
Abbreviation select := (select is_space).
Implicit Types (r : RerankResult) (l : list RerankResult).

Lemma estimate_nonneg t z : estimate_tokens t = Ok z → 0 ≤ z.
Proof.
  unfold Compressor.estimate_tokens. apply nonneg_trunc, nonneg_add; apply nonneg_mul.
  - apply nonneg_of_Z. pose proof (PySort.count_if_bounds is_cjk t). lia.
  - done.
  - apply nonneg_of_Z. lia.
  - done.
Qed.

(** The fingerprint and the token set of a result. *)
Definition body r : text := strip is_space (content (rk_chunk r)).
Definition hash r : string := md5 (body r).
Definition tokens r : gset text := token_set is_space lower (body r).
(** [x] repeats [y] exactly or nearly. *)
Definition repeats (threshold : float) r r' : Prop :=
  hash r = hash r' ∨ near threshold (tokens r) (tokens r') = true.

Lemma dedup_spec th l : ∀ seen hs ts kept dup,
  (∀ h, h ∈ hs ↔ h ∈ hash <$> seen) → ts = tokens <$> seen →
  dedup_loop th hs ts l = (kept, dup) →
  kept `sublist_of` l ∧ Z.of_nat (length l) = Z.of_nat (length kept) + dup ∧ 0 ≤ dup ∧
  (∀ r r', r ∈ kept → r' ∈ seen → ¬ repeats th r r') ∧
  StronglySorted (λ r r', ¬ repeats th r' r) kept ∧
  ∀ r, r ∈ l → r ∈ kept ∨ ∃ r', (r' ∈ seen ∨ r' ∈ kept) ∧ repeats th r r'.
Proof.
  induction l as [|r l IH]; intros seen hs ts kept dup Hhs Hts H; simpl in H.
  { injection H as <- <-. split_and!; [done|done|done|set_solver|constructor|set_solver]. }
  change (md5 (strip is_space (content (rk_chunk r)))) with (hash r) in H.
  change (token_set is_space lower (strip is_space (content (rk_chunk r)))) with (tokens r) in H.
  destruct (_ || _) eqn:E.
  - destruct (dedup_loop th hs ts l) as [k d] eqn:El. injection H as <- <-.
    destruct (IH seen hs ts k d Hhs Hts El) as (H1 & H2 & H3 & H4 & H5 & H6).
    split_and!; [by constructor|simpl; lia|lia|done|done|].
    intros x [->|Hx]%elem_of_cons; [|by apply H6]. right.
    apply orb_true_iff in E as [Eh%bool_decide_eq_true|Et%existsb_exists].
    + apply Hhs, list_elem_of_fmap in Eh as (r' & Hr' & Hin). exists r'. split; [by left|by left].
    + destruct Et as (t & Ht%list_elem_of_In & Hn). rewrite Hts in Ht.
      apply list_elem_of_fmap in Ht as (r' & -> & Hin). exists r'. split; [by left|by right].
  - destruct (dedup_loop th (hash r :: hs) (ts ++ [tokens r]) l) as [k d] eqn:El. injection H as <- <-.
    destruct (IH (seen ++ [r]) (hash r :: hs) (ts ++ [tokens r]) k d) as (H1 & H2 & H3 & H4 & H5 & H6).
    { intros h. rewrite fmap_app, elem_of_cons, elem_of_app, Hhs. set_solver. }
    { by rewrite Hts, fmap_app. }
    { done. }
    apply orb_false_iff in E as [Eh%bool_decide_eq_false Et].
    split_and!; [by constructor|simpl; lia|done| | |].
    + intros x x' [->|Hx]%elem_of_cons Hx'; [|apply H4; set_solver]. intros [Heq|Hn].
      * apply Eh, Hhs. rewrite Heq. by apply list_elem_of_fmap_2.
      * assert (existsb (near th (tokens r)) ts = true); [|congruence].
        apply existsb_exists. exists (tokens x'). split; [|done].
        apply list_elem_of_In. rewrite Hts. by apply list_elem_of_fmap_2.
    + constructor; [done|]. apply Forall_forall. intros x Hx. apply H4; set_solver.
    + intros x [->|Hx]%elem_of_cons; [left; set_solver|].
      destruct (H6 x Hx) as [?|(r' & Hin & Hrep)]; [left; set_solver|].
      right. exists r'. split; [set_solver|done].
Qed.

Lemma value_filter_spec c l : ∀ reasons kept reasons',
  value_filter c l reasons = (kept, reasons') →
  kept = filter (λ r, check_low_value c (content (rk_chunk r)) = None) l ∧
  PySort.zsum reasons'.*2 = PySort.zsum reasons.*2 + Z.of_nat (length l) - Z.of_nat (length kept).
Proof.
  induction l as [|r l IH]; intros reasons kept reasons' H; simpl in H; [simplify_eq; split; [done|simpl; lia]|].
  rewrite filter_cons. destruct (check_low_value c (content (rk_chunk r))) as [why|] eqn:E.
  - destruct (IH _ _ _ H) as [-> ->]. split; [by rewrite decide_False|].
    rewrite zsum_count_drop. simpl. lia.
  - destruct (value_filter c l reasons) as [k rs] eqn:El. injection H as <- <-.
    destruct (IH _ _ _ El) as [-> ->]. split; [by rewrite decide_True|]. simpl. lia.
Qed.

Lemma select_spec budget l : ∀ used reasons sel used' reasons',
  select budget l used reasons = Ok (sel, used', reasons') →
  (∃ kept, kept `sublist_of` l ∧ Forall2 (λ cc r, ∃ t, estimate_tokens (content (rk_chunk r)) = Ok t ∧
     cc = compressed r t) sel kept ∧
   ∀ r, r ∈ l → r ∈ kept ∨ ∃ t, estimate_tokens (content (rk_chunk r)) = Ok t ∧ budget < used' + t) ∧
  used' = used + PySort.zsum (cc_token_count <$> sel) ∧ used ≤ used' ∧
  used' ≤ Z.max used budget ∧
  PySort.zsum reasons'.*2 = PySort.zsum reasons.*2 + Z.of_nat (length l) - Z.of_nat (length sel).
Proof.
  induction l as [|r l IH]; intros used reasons sel used' reasons' H; simpl in H.
  { injection H as <- <- <-. split_and!; [|unfold PySort.zsum; simpl; lia|lia|lia|simpl; lia].
    exists []. split_and!; [done|constructor|set_solver]. }
  apply bind_Ok in H as (t & Ht & H). pose proof (estimate_nonneg _ _ Ht) as Ht0.
  destruct (Z.ltb_spec budget (used + t)).
  - destruct (IH _ _ _ _ _ H) as ((kept & K1 & K2 & K3) & H2 & H3 & H4 & H5).
    split_and!; [|done|done|done|rewrite H5, zsum_count_drop; simpl; lia].
    exists kept. split_and!; [by constructor|done|].
    intros x [->|Hx]%elem_of_cons; [|by apply K3]. right. exists t. split; [done|lia].
  - apply bind_Ok in H as ([[sel0 u0] rs0] & H & [= <- <- <-]).
    destruct (IH _ _ _ _ _ H) as ((kept & K1 & K2 & K3) & H2 & H3 & H4 & H5). cbn [fst snd].
    split_and!; [|rewrite fmap_cons, zsum_cons; cbn [cc_token_count compressed]; lia|lia|lia|simpl; lia].
    exists (r :: kept). split_and!; [by constructor|constructor; [by exists t|done]|].
    intros x [->|Hx]%elem_of_cons; [left; set_solver|]. destruct (K3 x Hx); [left; set_solver|by right].
Qed.
End facts.
End CompressorFacts.

Import CompressorFacts Compressor.


(** The assembled prompt fits the model window: when the other categories leave the safety
    margin free, then after a compression without an explicit budget the recorded usage of all
    categories plus the safety margin is at most the window. *)
Theorem compressed_prompt_fits is_space is_alnum lower md5 results t0 t1 c r c' s h u x :
  let m := budget_manager c in
  ContextBudgetManager.usage m =
    [("system_prompt", s); ("conversation_history", h); ("retrieval_context", x); ("user_input", u)] →
  s + h + u + al_safety_margin (ContextBudgetManager.allocation m)
    ≤ ContextBudgetManager.max_total_tokens m →
  compress is_space is_alnum lower md5 results None t0 t1 c = (Ok r, c') →
  ContextBudgetManager.used (budget_manager c') +
    al_safety_margin (ContextBudgetManager.allocation m) ≤ ContextBudgetManager.max_total_tokens m ∧
  ContextBudgetManager.remaining_tokens (budget_manager c') =
    ContextBudgetManager.max_total_tokens m - al_safety_margin (ContextBudgetManager.allocation m)
    - (s + h + u + cr_total_tokens r).
Proof.
  intros m Hu Hfit Hc.
  assert (∃ used, cr_total_tokens r = used ∧ used ≤ Z.max 0 (ContextBudgetManager.get_retrieval_budget m) ∧
    budget_manager c' = ContextBudgetManager.record_usage "retrieval_context" used m)
    as (used & Hr & Hle & Hm').
  { unfold compress in Hc. destruct (deduplicate _ _ _ c results) as [deduped dup].
    destruct (value_filter _ _ _ _ _) as [filtered reasons].
    destruct (select _ _ _ _ _) as [[[sel used] reasons2]|e] eqn:Es; [|done].
    injection Hc as <- <-. exists used. split_and!; [done| |done].
    by apply (select_spec is_space is_alnum) in Es as (_ & _ & _ & ? & _). }
  rewrite Hm', Hr. unfold ContextBudgetManager.get_retrieval_budget in Hle.
  unfold ContextBudgetManager.remaining_tokens, ContextBudgetManager.used, ContextBudgetManager.record_usage.
  rewrite Hu in *. change (dmem "retrieval_context" _) with true.
  cbn [ContextBudgetManager.usage ContextBudgetManager.allocation ContextBudgetManager.max_total_tokens].
  change (dinsert "retrieval_context" used _) with
    [("system_prompt", s); ("conversation_history", h); ("retrieval_context", used); ("user_input", u)].
  change (dget "system_prompt" _ _) with s in Hle. change (dget "conversation_history" _ _) with h in Hle.
  change (dget "user_input" _ _) with u in Hle. unfold PySort.zsum. cbn [fmap list_fmap foldl snd].
  split; lia.
Qed.

Section examples.
Definition chunk_of (id : string) (t : text) : RetrievalChunk :=
  mkChunk id t PyFloat.zero "src" "doc" "public" [] "vector".
Definition result_of (id : string) (t : text) : RerankResult :=
  mkRerankResult (chunk_of id t)
    (mkRerankScore PyFloat.zero PyFloat.zero PyFloat.zero PyFloat.zero "") 1 1.
(** Three results: a repeated one, and one of a single short word. *)
Definition sample : list RerankResult :=
  [result_of "a" [97; 98; 32; 99]; result_of "b" [97; 98; 32; 99]; result_of "c" [100]].
Definition sample_compressor : compressor :=
  mkCompressor (ContextBudgetManager.new 4096 ContextBudgetManager.default_allocation)
    (PyFloat.ratio 85 100) 2 (PyFloat.ratio 3 10).
Definition blank (c : Z) : bool := c =? 32.
Definition show (t : text) : string :=
  String.concat "," (pretty <$> t).
Definition sample_run : res CompressionResult * compressor :=
  compress blank (λ _, true) (λ t, t) show sample None PyFloat.zero PyFloat.zero sample_compressor.

Example sample_kept :
  match sample_run.1 with
  | Ok r => (cc_chunk_id <$> cr_chunks r) = ["a"] ∧ cr_total_tokens r = 2 ∧
      cr_dropped_reasons r = [("duplicate", 1); ("too_short", 1)]
  | Err _ => False
  end.
Proof. vm_compute. done. Qed.


Lemma compressed_prompt_fits_witness :
  match sample_run with
  | (Ok r, c') => ContextBudgetManager.used (budget_manager c') + 200 ≤ 4096
  | (Err _, _) => False
  end.
Proof.
  pose proof (compressed_prompt_fits blank (λ _, true) (λ t, t) show sample PyFloat.zero PyFloat.zero
    sample_compressor) as Hc.
  change (compress blank _ _ show sample None _ _ sample_compressor) with sample_run in Hc.
  destruct sample_run as [[r|e] c'] eqn:E; [|vm_compute in E; discriminate].
  refine (proj1 (Hc r c' 0 0 0 0 eq_refl _ eq_refl)). vm_compute. congruence.
Defined.
End examples.

(** ** Reranking *)
Section rerank.
Context (exp : float → float) (float_str : float → string) (time : nat → float).
Import Reranker.

Lemma score_chunks_spec c top chunks : ∀ idx n l n',
  score_chunks exp float_str time c top idx chunks n = Ok (l, n') →
  (rk_chunk <$> l) = chunks ∧
  ∀ i r, l !! i = Some r → original_rank r = idx + Z.of_nat i + 1.
Proof.
  induction chunks as [|ch chunks IH]; intros idx n l n' H; simpl in H; [simplify_eq; by split|].
  apply bind_Ok in H as ([r n1] & Hr & H). apply bind_Ok in H as ([l0 n2] & Hl & H). simpl in *.
  injection H as <- <-. destruct (IH _ _ _ _ Hl) as [IH1 IH2].
  unfold score_chunk in Hr. apply bind_Ok in Hr as (rel & _ & Hr). apply bind_Ok in Hr as ([f n3] & _ & [= <- <-]).
  split; [by rewrite fmap_cons, IH1|]. intros [|i] r'; simpl; [intros [= <-]; simpl; lia|].
  intros Hi. rewrite (IH2 i r' Hi). lia.
Qed.

Lemma StronglySorted_fmap_1 {A B} (f : A → B) (R : B → B → Prop) l :
  StronglySorted (λ a b, R (f a) (f b)) l → StronglySorted R (f <$> l).
Proof.
  induction 1 as [|x l Hs IH Hall]; [constructor|]. simpl. constructor; [done|].
  by rewrite Forall_fmap.
Qed.

Lemma rk_chunk_set_rank l : rk_chunk <$> imap set_rank l = rk_chunk <$> l.
Proof. rewrite fmap_imap. rewrite <-imap_const. apply imap_ext. by intros. Qed.
End rerank.

Import Reranker.

(** Reranking neither invents nor loses chunks: its results are the best [top_n] of a
    permutation of the given chunks, ordered by final score, best first, with ranks counted
    from one in the new order and each chunk's position in the given list as its original
    rank. *)
Theorem rerank_permutes exp float_str time c chunks top_n_arg out :
  rerank exp float_str time c chunks top_n_arg = Ok out →
  ∃ all, ro_results out = slice_to (or_default top_n_arg (top_n c)) all ∧
    (rk_chunk <$> all) ≡ₚ chunks ∧
    (∀ i r, all !! i = Some r → new_rank r = Z.of_nat i + 1) ∧
    (∀ r, r ∈ all → ∃ i, chunks !! i = Some (rk_chunk r) ∧ original_rank r = Z.of_nat i + 1) ∧
    (Forall (λ r, PyFloat.is_nan (final_score (rerank_score r)) = false) all →
     StronglySorted (λ a b, PyFloat.lt (final_score (rerank_score a)) (final_score (rerank_score b)) = false) all).
Proof.
  unfold rerank. destruct chunks as [|c0 rest].
  { intros [= <-]. exists []. split_and!; [by unfold slice_to; rewrite take_nil|done|done|set_solver|constructor]. }
  set (chunks := c0 :: rest). intros H. apply bind_Ok in H as ([l n'] & Hl & [= <-]).
  destruct (score_chunks_spec _ _ _ _ _ _ _ _ _ _ Hl) as [Hch Hor]. cbn [ro_results fst].
  exists (imap set_rank (PySort.sort by_final l)). split_and!.
  - done.
  - rewrite rk_chunk_set_rank, PySort.sort_perm, Hch. done.
  - intros i r. rewrite list_lookup_imap. intros (r0 & _ & ->)%fmap_Some_1. done.
  - intros r [i Hi]%list_elem_of_lookup. rewrite list_lookup_imap in Hi.
    apply fmap_Some_1 in Hi as (r0 & Hr0 & ->). apply list_elem_of_lookup_2 in Hr0.
    rewrite PySort.elem_of_sort in Hr0. apply list_elem_of_lookup in Hr0 as [j Hj]. exists j.
    rewrite <-Hch, list_lookup_fmap, Hj. split; [done|]. simpl. rewrite (Hor j r0 Hj). lia.
  - intros Hnan. set (f := λ r, final_score (rerank_score r)).
    apply (RetrievalFacts.StronglySorted_fmap_2 f (λ x y, PyFloat.lt x y = false)).
    assert (f <$> imap set_rank (PySort.sort by_final l) = f <$> PySort.sort by_final l) as Hf.
    { rewrite fmap_imap, <-imap_const. apply imap_ext. by intros. }
    rewrite Hf. apply StronglySorted_fmap_1. unfold f.
    apply (PySort.sort_sorted by_final (λ r, PyFloat.is_nan (f r) = false)).
    + apply PySort.strict_weak_down, (PySort.strict_weak_on f PyFloat.lt (λ x, PyFloat.is_nan x = false)),
        PySort.strict_weak_float.
    + assert (Forall (λ x, PyFloat.is_nan x = false) (f <$> PySort.sort by_final l)) as Hn.
      { rewrite <-Hf, Forall_fmap. exact Hnan. }
      rewrite Forall_fmap in Hn. by rewrite PySort.sort_perm in Hn.
Qed.

Lemma rerank_permutes_witness :
  match rerank (λ _, PyFloat.zero) (λ _, "") (λ _, PyFloat.zero) default_config
      [chunk_of "a" []; chunk_of "b" []] None with
  | Ok out => ∃ all, ro_results out = slice_to 10 all ∧
      (rk_chunk <$> all) ≡ₚ [chunk_of "a" []; chunk_of "b" []]
  | Err _ => False
  end.
Proof.
  pose proof (rerank_permutes (λ _, PyFloat.zero) (λ _, "") (λ _, PyFloat.zero) default_config
    [chunk_of "a" []; chunk_of "b" []] None) as Hr.
  destruct (rerank _ _ _ default_config _ None) as [out|e] eqn:E; [|vm_compute in E; discriminate].
  destruct (Hr out eq_refl) as (all & H1 & H2 & _). exists all. exact (conj H1 H2).
Defined.
