(* ===== verification/Release.v ===== *)
(** * Release governance: metrics, alerts, experiments, budget, score and gate
    (src/src/observability/alert_manager.py, src/src/release/ab_router.py,
    src/src/evaluation, src/src/automation/gate_function.py)

    [parse_float] is the interpreter's parser of float texts, [float_str] its
    text of a float, [bucket_hash] the integer of the first eight hexadecimal
    digits of a SHA-256 digest. *)
From Stdlib Require Import Floats.SpecFloat.
From S2P Require Import Prelude PyFloat PyValue Persistence PySort PyFormat.
Local Open Scope Z_scope.

(** ** Reading a metric *)
Module Metrics.
(** [path.split(".")] *)
Fixpoint split_go (cur : string) (s : string) : list string :=
  match s with
  | EmptyString => [String.rev cur]
  | String c s =>
      if bool_decide (c = Ascii.ascii_of_nat 46) then String.rev cur :: split_go "" s
      else split_go (String c cur) s
  end.
Definition split_dots (s : string) : list string := split_go "" s.

Section metrics.
Variable parse_float : string → option float.

(** [float(v)] *)
Definition to_float (v : pyval) : res float :=
  match v with
  | VFloat f => Ok f
  | VInt z => PyFloat.of_int z
  | VBool b => Ok (PyFloat.of_Z (if b then 1 else 0))
  | VStr s => match parse_float s with
              | Some f => Ok f
              | None => Err (ValueError ("could not convert string to float: '" +:+ s +:+ "'"))
              end
  | _ => Err (TypeError ("float() argument must be a string or a real number, not '" +:+
                         Py.type_name v +:+ "'"))
  end.

(** The loop of [_resolve_metric]; [None] is the early [return 0.0]. *)
Fixpoint walk (segments : list string) (current : pyval) : option pyval :=
  match segments with
  | [] => Some current
  | s :: segments =>
      match current with
      | VDict d => walk segments (dget s (VFloat PyFloat.zero) d)
      | _ => None
      end
  end.
Definition resolve_metric (metrics : dict pyval) (path : string) : res float :=
  match walk (split_dots path) (VDict metrics) with
  | None => Ok PyFloat.zero
  | Some v =>
      match to_float v with
      | Err (TypeError _ | ValueError _) => Ok PyFloat.zero
      | r => r
      end
  end.
End metrics.

Definition unsupported (comparator : string) : exc := ValueError ("unsupported comparator: " +:+ comparator).
End Metrics.

(** ** Alerts *)
Record AlertRule := mkAlertRule {
  ar_name : string;
  ar_severity : string;
  ar_metric : string;
  ar_threshold : float;
  ar_comparator : string;
  ar_route : string;
  ar_description : string;
}.

Record AlertEvent := mkAlertEvent {
  ae_name : string;
  ae_severity : string;
  ae_status : string;
  ae_metric : string;
  ae_actual_value : float;
  ae_threshold : float;
  ae_route : string;
  ae_description : string;
}.

Module AlertManager.
Definition default_rules : list AlertRule :=
  [mkAlertRule "low_e2e_success_rate" "P1" "e2e_success_rate" (PyFloat.ratio 75 100) "lt"
     "oncall+owner+war-room" "E2E success rate drops below SLO.";
   mkAlertRule "high_p95_latency" "P2" "p95_latency_ms" (PyFloat.ratio 75 10) "gt"
     "owner+team-channel" "P95 latency exceeds smoke baseline tolerance.";
   mkAlertRule "tool_execution_failures" "P1" "failure_buckets.tool_execution_failed" (PyFloat.of_Z 1) "ge"
     "oncall+owner+war-room" "Tool execution failures detected.";
   mkAlertRule "rate_limited_burst" "P2" "failure_buckets.rate_limited" (PyFloat.of_Z 5) "ge"
     "owner+team-channel" "Rate limited events exceed expected noise level.";
   mkAlertRule "token_cost_spike" "P2" "cost.total_tokens" (PyFloat.of_Z 240) "gt"
     "owner+team-channel" "Token cost exceeds smoke control threshold."].

Definition new (rules : option (list AlertRule)) : list AlertRule := default default_rules rules.

Definition compare (actual threshold : float) (comparator : string) : res bool :=
  if bool_decide (comparator = "lt") then Ok (PyFloat.lt actual threshold)
  else if bool_decide (comparator = "gt") then Ok (PyFloat.gt actual threshold)
  else if bool_decide (comparator = "ge") then Ok (PyFloat.ge actual threshold)
  else Err (Metrics.unsupported comparator).

Section evaluate.
Variable parse_float : string → option float.

Definition evaluate_rule (summary : dict pyval) (r : AlertRule) : res AlertEvent :=
  actual ← Metrics.resolve_metric parse_float summary (ar_metric r);
  compare actual (ar_threshold r) (ar_comparator r) ≫= λ is_firing : bool,
  Ok (mkAlertEvent (ar_name r) (ar_severity r) (if is_firing then "firing" else "ok") (ar_metric r)
        actual (ar_threshold r) (ar_route r) (ar_description r)).
Fixpoint evaluate (rules : list AlertRule) (summary : dict pyval) : res (list AlertEvent) :=
  match rules with
  | [] => Ok []
  | r :: rules => e ← evaluate_rule summary r; rest ← evaluate rules summary; Ok (e :: rest)
  end.
End evaluate.

(** [event.to_dict()] and the lines of [write_markdown] *)
Definition to_dict (e : AlertEvent) : pyval :=
  VDict [("name", VStr (ae_name e)); ("severity", VStr (ae_severity e)); ("status", VStr (ae_status e));
         ("metric", VStr (ae_metric e)); ("actual_value", VFloat (ae_actual_value e));
         ("threshold", VFloat (ae_threshold e)); ("route", VStr (ae_route e));
         ("description", VStr (ae_description e))].
Definition markdown_lines (events : list AlertEvent) : list string :=
  ["# Alert Evaluation"; "";
   "| Rule | Severity | Status | Metric | Actual | Threshold | Route |";
   "|------|----------|--------|--------|--------|-----------|-------|"] ++
  ((λ e, "| " +:+ ae_name e +:+ " | " +:+ ae_severity e +:+ " | " +:+ ae_status e +:+ " | " +:+
     ae_metric e +:+ " | " +:+ PyFormat.fixed 4 (ae_actual_value e) +:+ " | " +:+
     PyFormat.fixed 4 (ae_threshold e) +:+ " | " +:+ ae_route e +:+ " |") <$> events).
End AlertManager.

(** ** Experiments *)
Record VariantAllocation := mkVariant { va_name : string; va_percentage : float }.
Record MetricGuardrail := mkGuardrail {
  gr_metric : string;
  gr_comparator : string;
  gr_threshold : float;
  gr_action : string;
}.
Record ExperimentConfig := mkExperiment {
  experiment_id : string;
  default_variant : string;
  variants : list VariantAllocation;
  enabled : bool;
  salt : string;
  allow_override : bool;
  guardrails : list MetricGuardrail;
}.
Record RoutingDecision := mkRouting {
  rd_experiment_id : string;
  rd_subject_key : string;
  rd_variant : string;
  rd_bucket : float;
  rd_reason : string;
}.
Record GuardrailHit := mkHit {
  gh_metric : string;
  gh_comparator : string;
  gh_actual_value : float;
  gh_threshold : float;
  gh_action : string;
}.
Record ExperimentSafetyDecision := mkSafety {
  sd_status : string;
  sd_should_stop : bool;
  sd_hits : list GuardrailHit;
}.

Module AbRouter.
Section router.
Variable parse_float : string → option float.
Variable bucket_hash : string → Z.

Definition validate_config (c : ExperimentConfig) : res unit :=
  let names := va_name <$> variants c in
  raise_if (bool_decide (variants c = [])) (ValueError "experiment variants cannot be empty") ≫= λ _,
  raise_if (bool_decide (default_variant c ∉ names)) (ValueError "default variant must exist in variants") ≫= λ _,
  raise_if (PyFloat.gt (SFabs (PyFloat.sub (PySort.fsum (va_percentage <$> variants c)) (PyFloat.of_Z 100)))
              (PyFloat.ratio 1 1000000)) (ValueError "variant percentages must sum to 100") ≫= λ _,
  raise_if (bool_decide (length (remove_dups names) ≠ length names)) (ValueError "variant names must be unique").

(** [bucket_value / 100] of the hashed key *)
Definition calculate_bucket (experiment_id salt subject_key : string) : float :=
  PyFloat.ratio (bucket_hash (experiment_id +:+ ":" +:+ salt +:+ ":" +:+ subject_key) mod 10000) 100.

Fixpoint select_from (l : list VariantAllocation) (boundary bucket : float) : option string :=
  match l with
  | [] => None
  | v :: l =>
      let boundary := PyFloat.add boundary (va_percentage v) in
      if PyFloat.lt bucket boundary then Some (va_name v) else select_from l boundary bucket
  end.
(** The last variant takes what the boundaries leave. *)
Definition select_variant (l : list VariantAllocation) (bucket : float) : string :=
  default (default "" (va_name <$> last l)) (select_from l PyFloat.zero bucket).

Definition build_override_decision (c : ExperimentConfig) (subject_key override : string) : res RoutingDecision :=
  raise_if (negb (allow_override c)) (ValueError "override is disabled for this experiment") ≫= λ _,
  raise_if (bool_decide (override ∉ va_name <$> variants c))
    (ValueError ("unknown override variant: " +:+ override)) ≫= λ _,
  Ok (mkRouting (experiment_id c) subject_key override PyFloat.zero "manual_override").

Definition route (c : ExperimentConfig) (subject_key : string) (override : option string) : res RoutingDecision :=
  validate_config c ≫= λ _,
  if negb (enabled c)
  then Ok (mkRouting (experiment_id c) subject_key (default_variant c) PyFloat.zero "experiment_disabled")
  else
    match override with
    | Some o => build_override_decision c subject_key o
    | None =>
        let bucket := calculate_bucket (experiment_id c) (salt c) subject_key in
        Ok (mkRouting (experiment_id c) subject_key (select_variant (variants c) bucket) bucket
              "bucket_assignment")
    end.

Definition compare (actual threshold : float) (comparator : string) : res bool :=
  if bool_decide (comparator = "lt") then Ok (PyFloat.lt actual threshold)
  else if bool_decide (comparator = "le") then Ok (PyFloat.le actual threshold)
  else if bool_decide (comparator = "gt") then Ok (PyFloat.gt actual threshold)
  else if bool_decide (comparator = "ge") then Ok (PyFloat.ge actual threshold)
  else Err (Metrics.unsupported comparator).

Fixpoint guardrail_hits (rules : list MetricGuardrail) (metrics : dict pyval) : res (list GuardrailHit) :=
  match rules with
  | [] => Ok []
  | r :: rules =>
      actual ← Metrics.resolve_metric parse_float metrics (gr_metric r);
      compare actual (gr_threshold r) (gr_comparator r) ≫= λ hit : bool,
      rest ← guardrail_hits rules metrics;
      Ok (if hit then mkHit (gr_metric r) (gr_comparator r) actual (gr_threshold r) (gr_action r) :: rest
          else rest)
  end.
Definition build_safety_status (hits : list GuardrailHit) (should_stop : bool) : string :=
  if should_stop then "stop" else match hits with [] => "ok" | _ => "warn" end.
Definition evaluate_guardrails (c : ExperimentConfig) (metrics : dict pyval) : res ExperimentSafetyDecision :=
  hits ← guardrail_hits (guardrails c) metrics;
  let should_stop := existsb (λ h, bool_decide (gh_action h = "stop_experiment")) hits in
  Ok (mkSafety (build_safety_status hits should_stop) should_stop hits).
End router.
End AbRouter.

(** ** Error budget *)
Record ErrorBudgetSnapshot := mkSnapshot {
  eb_slo_target : float;
  eb_total_observations : Z;
  eb_bad_observations : Z;
  eb_burn_rate : float;
  eb_remaining : float;
}.

(** [round(x, d)]: the exact value rounded to [d] decimals, ties to even, and
    the decimal result rounded to the nearest float. *)
Definition round_to (d : nat) (x : float) : float :=
  match x with
  | S754_finite s m e =>
      let q := if 0 <=? e then Z.pos m * 10 ^ Z.of_nat d * 2 ^ e
               else PyFloat.round_half_even (Z.pos m * 10 ^ Z.of_nat d) (2 ^ (- e)) in
      match q with
      | Z.pos p => SFdiv 53 1024 (S754_finite s p 0) (PyFloat.of_Z (10 ^ Z.of_nat d))
      | _ => S754_zero s
      end
  | _ => x
  end.

Module ErrorBudgetTracker.
Record tracker := mkTracker { slo_target : float; tr_total : Z; tr_bad : Z }.

Definition new (float_str : float → string) (target : float) : res tracker :=
  if PyFloat.lt PyFloat.zero target && PyFloat.le target (PyFloat.of_Z 1)
  then Ok (mkTracker target 0 0)
  else Err (ValueError ("slo_target must be in (0, 1], got " +:+ float_str target)).

Definition record (success : bool) (t : tracker) : tracker :=
  mkTracker (slo_target t) (tr_total t + 1) (if success then tr_bad t else tr_bad t + 1).
Definition record_batch (total bad : Z) (t : tracker) : tracker :=
  mkTracker (slo_target t) (tr_total t + total) (tr_bad t + bad).
Definition reset (t : tracker) : tracker := mkTracker (slo_target t) 0 0.

Definition snapshot (t : tracker) : res ErrorBudgetSnapshot :=
  if tr_total t =? 0
  then Ok (mkSnapshot (slo_target t) 0 0 PyFloat.zero (PyFloat.of_Z 1))
  else
    total ← PyFloat.of_int (tr_total t);
    let allowed_bad := PyFloat.mul total (PyFloat.sub (PyFloat.of_Z 1) (slo_target t)) in
    burn_rate ← (if PyFloat.gt allowed_bad PyFloat.zero
                 then bad ← PyFloat.of_int (tr_bad t); PyFloat.true_div bad allowed_bad
                 else Ok (S754_infinity false));
    let remaining := PyFloat.max PyFloat.zero (PyFloat.sub (PyFloat.of_Z 1) burn_rate) in
    Ok (mkSnapshot (slo_target t) (tr_total t) (tr_bad t) (round_to 4 burn_rate) (round_to 4 remaining)).

Definition is_budget_exhausted (t : tracker) : res bool :=
  snap ← snapshot t;
  Ok (PyFloat.le (eb_remaining snap) PyFloat.zero).
End ErrorBudgetTracker.

(** ** Composite score *)
Record BusinessMetrics := mkBusinessMetrics {
  revenue_impact : float;
  cost_efficiency : float;
  user_satisfaction : float;
}.
Record CompositeScore := mkCompositeScore {
  cs_technical_score : float;
  cs_business_score : float;
  cs_overall_score : float;
  cs_passed : bool;
  cs_breakdown : dict float;
  cs_reasons : list string;
}.

Module BusinessEvaluator.
Record evaluator := mkEvaluator {
  weights : dict float;
  business_weights : dict float;
  pass_threshold : float;
}.
Definition default_weights : dict float := [("technical", PyFloat.ratio 6 10); ("business", PyFloat.ratio 4 10)].
Definition default_business_weights : dict float :=
  [("revenue_impact", PyFloat.ratio 4 10); ("cost_efficiency", PyFloat.ratio 3 10);
   ("user_satisfaction", PyFloat.ratio 3 10)].
(** [weights or dict(_DEFAULT_WEIGHTS)] *)
Definition or_dict (d : option (dict float)) (dflt : dict float) : dict float :=
  match d with Some (x :: l) => x :: l | _ => dflt end.
Definition new (w bw : option (dict float)) (threshold : float) : evaluator :=
  mkEvaluator (or_dict w default_weights) (or_dict bw default_business_weights) threshold.

Section evaluate.
Variable parse_float : string → option float.
Variable float_str : float → string.

(** [min(count * 0.1, 0.5)]; the count of a list of alerts. *)
Definition compute_technical_score (summary : dict pyval) (alert_firing_count : Z) : res float :=
  e2e ← Metrics.to_float parse_float (dget "e2e_success_rate" (VFloat PyFloat.zero) summary);
  stability ← Metrics.to_float parse_float (dget "stability" (VFloat (PyFloat.of_Z 1)) summary);
  let alert_penalty := PyFloat.min (PyFloat.mul (PyFloat.of_Z alert_firing_count) (PyFloat.ratio 1 10))
    (PyFloat.ratio 1 2) in
  Ok (PyFloat.max PyFloat.zero (PyFloat.sub (PyFloat.add (PyFloat.mul e2e (PyFloat.ratio 7 10))
    (PyFloat.mul stability (PyFloat.ratio 3 10))) alert_penalty)).

Definition compute_business_score (ev : evaluator) (m : BusinessMetrics) : float :=
  let bw := business_weights ev in
  PyFloat.add (PyFloat.add
    (PyFloat.mul (dget "revenue_impact" (PyFloat.ratio 4 10) bw) (revenue_impact m))
    (PyFloat.mul (dget "cost_efficiency" (PyFloat.ratio 3 10) bw) (cost_efficiency m)))
    (PyFloat.mul (dget "user_satisfaction" (PyFloat.ratio 3 10) bw) (user_satisfaction m)).

Definition evaluate (ev : evaluator) (summary : dict pyval) (m : BusinessMetrics)
    (alert_firing_count : Z) : res CompositeScore :=
  technical_score ← compute_technical_score summary alert_firing_count;
  let business_score := compute_business_score ev m in
  let w_tech := dget "technical" (PyFloat.ratio 6 10) (weights ev) in
  let w_biz := dget "business" (PyFloat.ratio 4 10) (weights ev) in
  let overall := PyFloat.add (PyFloat.mul w_tech technical_score) (PyFloat.mul w_biz business_score) in
  let reasons :=
    (if PyFloat.lt overall (pass_threshold ev)
     then ["overall " +:+ PyFormat.fixed 3 overall +:+ " < threshold " +:+ float_str (pass_threshold ev)] else []) ++
    (if 0 <? alert_firing_count then [pretty alert_firing_count +:+ " alert(s) firing"] else []) in
  e2e ← Metrics.to_float parse_float (dget "e2e_success_rate" (VFloat PyFloat.zero) summary);
  Ok (mkCompositeScore (round_to 4 technical_score) (round_to 4 business_score) (round_to 4 overall)
        (PyFloat.ge overall (pass_threshold ev) && (alert_firing_count =? 0))
        [("e2e_success_rate", e2e); ("revenue_impact", revenue_impact m);
         ("cost_efficiency", cost_efficiency m); ("user_satisfaction", user_satisfaction m)] reasons).
End evaluate.
End BusinessEvaluator.

(** ** Gate *)
Record GateDecision := mkGateDecision {
  gd_passed : bool;
  gd_reasons : list string;
  gd_blocking_alerts : Z;
  gd_budget_ok : bool;
  gd_score_ok : bool;
}.

Module GateFunction.
Record gate := mkGate { score_threshold : float; max_p1_alerts : Z }.
Definition default_gate : gate := mkGate (PyFloat.ratio 7 10) 0.

Definition p1_firing (e : AlertEvent) : bool :=
  bool_decide (ae_severity e = "P1") && bool_decide (ae_status e = "firing").

Definition decide (float_str : float → string) (g : gate) (alerts : list AlertEvent)
    (composite_score : option CompositeScore) (budget_snapshot : option ErrorBudgetSnapshot) : GateDecision :=
  let blocking := PySort.count_if p1_firing alerts in
  let alert_reasons :=
    if max_p1_alerts g <? blocking then [pretty blocking +:+ " P1 alert(s) firing"] else [] in
  let score_ok := match composite_score with
    | Some s => negb (PyFloat.lt (cs_overall_score s) (score_threshold g))
    | None => true
    end in
  let score_reasons := match composite_score with
    | Some s => if score_ok then [] else
        ["score " +:+ PyFormat.fixed 3 (cs_overall_score s) +:+ " < threshold " +:+ float_str (score_threshold g)]
    | None => []
    end in
  let budget_ok := match budget_snapshot with
    | Some b => negb (PyFloat.le (eb_remaining b) PyFloat.zero)
    | None => true
    end in
  let reasons := alert_reasons ++ score_reasons ++
    (if budget_ok then [] else ["error budget exhausted"]) in
  mkGateDecision (bool_decide (reasons = [])) reasons blocking budget_ok score_ok.
End GateFunction.

(** ** Traffic is split as configured *)
Module TrafficFacts.
Import AbRouter.

(** Buckets are hundredths of a percent: the float [n / 100] lies between the
    integers around the quotient, checked for all of them. *)
Lemma buckets_between : forallb (λ n,
  PyFloat.le (PyFloat.of_Z (n / 100)) (PyFloat.ratio n 100) &&
  PyFloat.lt (PyFloat.ratio n 100) (PyFloat.of_Z (n / 100 + 1))) (seqZ 0 10000) = true.
Proof. vm_compute. reflexivity. Qed.

(** Small integers are added and compared exactly. *)
Lemma percents_exact : forallb (λ a, forallb (λ b,
  bool_decide (PyFloat.add (PyFloat.of_Z a) (PyFloat.of_Z b) = PyFloat.of_Z (a + b)) &&
  eqb (PyFloat.le (PyFloat.of_Z a) (PyFloat.of_Z b)) (a <=? b)) (seqZ 0 101)) (seqZ 0 101) = true.
Proof. vm_compute. reflexivity. Qed.

Lemma forallb_seqZ (p : Z → bool) k n : forallb p (seqZ 0 n) = true → 0 ≤ k < n → p k = true.
Proof. rewrite forallb_forall. intros H Hk. apply H, list_elem_of_In, elem_of_seqZ. lia. Qed.

Lemma percent_add a b : 0 ≤ a ≤ 100 → 0 ≤ b ≤ 100 →
  PyFloat.add (PyFloat.of_Z a) (PyFloat.of_Z b) = PyFloat.of_Z (a + b).
Proof.
  intros Ha Hb. pose proof (forallb_seqZ _ a 101 percents_exact ltac:(lia)) as H. cbv beta in H.
  apply (forallb_seqZ _ b 101) in H; [|lia]. apply andb_true_iff in H as [H _].
  by apply bool_decide_eq_true in H.
Qed.

Lemma percent_le a b : 0 ≤ a ≤ 100 → 0 ≤ b ≤ 100 →
  PyFloat.le (PyFloat.of_Z a) (PyFloat.of_Z b) = (a <=? b).
Proof.
  intros Ha Hb. pose proof (forallb_seqZ _ a 101 percents_exact ltac:(lia)) as H. cbv beta in H.
  apply (forallb_seqZ _ b 101) in H; [|lia]. apply andb_true_iff in H as [_ H]. by apply eqb_prop in H.
Qed.

Lemma float_lt_le_trans x y z : PyFloat.lt x y = true → PyFloat.le y z = true → PyFloat.lt x z = true.
Proof.
  rewrite PyFloat.le_key, !PyFloat.lt_key. intros (a & b & ? & ? & ?) (b' & c & ? & ? & ?). simplify_eq.
  eexists _, _; split_and!; [done..|]. unfold PyFloat.klt in *. lia.
Qed.

Lemma bucket_lt n b : 0 ≤ n < 10000 → 0 ≤ b ≤ 100 →
  PyFloat.lt (PyFloat.ratio n 100) (PyFloat.of_Z b) = (n / 100 <? b).
Proof.
  intros Hn Hb. pose proof (forallb_seqZ _ n 10000 buckets_between Hn) as H. cbv beta in H.
  apply andb_true_iff in H as [Hle Hlt].
  assert (0 ≤ n / 100 < 100) by (split; [apply Z.div_pos; lia|apply Z.div_lt_upper_bound; lia]).
  destruct (Z.ltb_spec (n / 100) b).
  - eapply float_lt_le_trans; [exact Hlt|]. rewrite percent_le by lia. lia.
  - destruct (PyFloat.lt (PyFloat.ratio n 100) (PyFloat.of_Z b)) eqn:E; [|done].
    pose proof (PyFloat.le_lt_trans _ _ _ Hle E) as H'. apply PyFloat.lt_le in H'.
    assert (PyFloat.le (PyFloat.of_Z b) (PyFloat.of_Z (n / 100)) = true) as Hb' by (rewrite percent_le; lia).
    pose proof (PyFloat.le_lt_trans _ _ _ Hb' (PyFloat.le_lt_trans _ _ _ Hle E)) as Hirr.
    by rewrite PyFloat.lt_irrefl in Hirr.
Qed.

(** Shares in whole percents. *)
Definition to_variant (s : string * Z) : VariantAllocation := mkVariant s.1 (PyFloat.of_Z s.2).
Fixpoint int_select (l : list (string * Z)) (b k : Z) : option string :=
  match l with
  | [] => None
  | (name, p) :: l => if k <? b + p then Some name else int_select l (b + p) k
  end.
Fixpoint total (l : list (string * Z)) : Z := match l with [] => 0 | (_, p) :: l => p + total l end.

Lemma total_nonneg l : Forall (λ s, 0 ≤ s.2) l → 0 ≤ total l.
Proof. induction 1 as [|[x p] l]; simpl in *; lia. Qed.

Lemma total_app l1 l2 : total (l1 ++ l2) = total l1 + total l2.
Proof. induction l1 as [|[x p] l1 IH]; simpl; lia. Qed.

Lemma select_from_int l b n : Forall (λ s, 0 ≤ s.2) l → 0 ≤ b → b + total l ≤ 100 → 0 ≤ n < 10000 →
  select_from (to_variant <$> l) (PyFloat.of_Z b) (PyFloat.ratio n 100) = int_select l b (n / 100).
Proof.
  intros Hl. revert b. induction Hl as [|[name p] l Hp Hl IH]; intros b Hb Ht Hn; [done|].
  pose proof (total_nonneg l Hl). simpl in *. rewrite percent_add by lia.
  rewrite bucket_lt by lia. case_match; [done|]. apply IH; lia.
Qed.

Lemma int_select_spec l1 name p l2 b k :
  Forall (λ s, 0 ≤ s.2) (l1 ++ (name, p) :: l2) → NoDup (l1 ++ (name, p) :: l2).*1 →
  b ≤ k → k < b + total (l1 ++ (name, p) :: l2) →
  int_select (l1 ++ (name, p) :: l2) b k = Some name ↔ b + total l1 ≤ k < b + total l1 + p.
Proof.
  revert b. induction l1 as [|[x q] l1 IH]; intros b Hl Hnd Hb Hk; simpl in *.
  - apply Forall_cons in Hl as [Hp Hl]. apply NoDup_cons in Hnd as [Hni _]. simpl in Hp.
    destruct (Z.ltb_spec k (b + p)); [split; [lia|done]|]. split; [|lia].
    intros Hs. exfalso. apply Hni. clear -Hs. revert Hs. generalize (b + p).
    induction l2 as [|[y r] l2 IH2]; intros c; simpl; [done|]. case_match; [intros [= ->]; left|].
    intros ?. right. eauto.
  - apply Forall_cons in Hl as [Hq Hl]. apply NoDup_cons in Hnd as [Hni Hnd]. simpl in Hq.
    destruct (Z.ltb_spec k (b + q)).
    + pose proof (total_nonneg l1 (proj1 (proj1 (Forall_app _ _ _) Hl))).
      split; [|lia]. intros [= ->]. destruct Hni. rewrite fmap_app, fmap_cons. set_solver.
    + rewrite IH by (done || lia). lia.
Qed.

Lemma count_interval a c N : 0 ≤ a ≤ c → c ≤ N →
  Z.of_nat (length (filter (λ n, a ≤ n < c) (seqZ 0 N))) = c - a.
Proof.
  intros Ha Hc. replace N with (a + ((c - a) + (N - c))) by lia.
  rewrite !seqZ_app by lia. rewrite !filter_app, !length_app.
  rewrite (filter_all _ (seqZ (0 + a) (c - a))).
  2: { intros x Hx%elem_of_seqZ. lia. }
  assert (∀ l : list Z, (∀ x, x ∈ l → ¬ a ≤ x < c) → filter (λ n, a ≤ n < c) l = []) as Hnone.
  { intros l. induction l as [|y l IH]; intros Hx; [done|]. rewrite filter_cons, decide_False by (apply Hx; set_solver).
    apply IH. set_solver. }
  rewrite (Hnone (seqZ 0 a)), (Hnone (seqZ (0 + a + (c - a)) (N - c))).
  - simpl. rewrite length_seqZ. lia.
  - intros x Hx%elem_of_seqZ. lia.
  - intros x Hx%elem_of_seqZ. lia.
Qed.

Lemma fsum_percents l b : Forall (λ s, 0 ≤ s.2) l → 0 ≤ b → b + total l ≤ 100 →
  foldl PyFloat.add (PyFloat.of_Z b) (va_percentage <$> (to_variant <$> l)) = PyFloat.of_Z (b + total l).
Proof.
  intros Hl. revert b. induction Hl as [|[x p] l Hp Hl IH]; intros b Hb Ht; [by rewrite Z.add_0_r|].
  pose proof (total_nonneg l Hl). simpl in *. rewrite percent_add by lia. rewrite IH by lia. f_equal. lia.
Qed.

Lemma int_select_elem l b k x : int_select l b k = Some x → x ∈ l.*1.
Proof.
  revert b. induction l as [|[y p] l IH]; intros b; simpl; [done|].
  case_match; [intros [= ->]; left|intros ?; right; eauto].
Qed.

Lemma int_select_total l b k : b ≤ k → k < b + total l → is_Some (int_select l b k).
Proof.
  revert b. induction l as [|[x p] l IH]; intros b Hb Hk; simpl in *; [lia|].
  destruct (Z.ltb_spec k (b + p)); [done|]. apply IH; lia.
Qed.

Lemma select_variant_int l n : Forall (λ s, 0 ≤ s.2) l → total l = 100 → 0 ≤ n < 10000 →
  ∃ x, int_select l 0 (n / 100) = Some x ∧ x ∈ l.*1 ∧
    select_variant (to_variant <$> l) (PyFloat.ratio n 100) = x.
Proof.
  intros Hl Ht Hn.
  assert (0 ≤ n / 100 < 100) by (split; [apply Z.div_pos; lia|apply Z.div_lt_upper_bound; lia]).
  destruct (int_select_total l 0 (n / 100)) as [x Hx]; [lia|lia|].
  exists x. split_and!; [done|by eapply int_select_elem|].
  unfold select_variant. change PyFloat.zero with (PyFloat.of_Z 0).
  rewrite select_from_int by (done || lia). by rewrite Hx.
Qed.

(** A configuration whose percentages are whole numbers that sum to 100. *)
Record whole_percents (c : ExperimentConfig) (shares : list (string * Z)) : Prop := {
  wp_variants : variants c = to_variant <$> shares;
  wp_nonneg : Forall (λ s, 0 ≤ s.2) shares;
  wp_total : total shares = 100;
  wp_names : NoDup shares.*1;
  wp_default : default_variant c ∈ shares.*1;
}.

Lemma variant_names shares : va_name <$> (to_variant <$> shares) = shares.*1.
Proof. rewrite <-list_fmap_compose. apply list_fmap_ext. by intros i [x p]. Qed.

Lemma remove_dups_nodup (l : list string) : NoDup l → remove_dups l = l.
Proof. induction 1 as [|x l Hx Hl IH]; [done|]. cbn [remove_dups].
  destruct (decide_rel _ x l); [done|]. by rewrite IH. Qed.

Lemma validate_whole c shares : whole_percents c shares → validate_config c = Ok tt.
Proof.
  intros [Hv Hn Ht Hnd Hd]. unfold validate_config. rewrite Hv, variant_names.
  assert (PySort.fsum (va_percentage <$> (to_variant <$> shares)) = PyFloat.of_Z 100) as ->.
  { rewrite <-Ht. apply (fsum_percents shares 0); [done|lia|lia]. }
  destruct shares as [|s shares]; [simpl in Ht; lia|].
  rewrite (bool_decide_eq_false_2 (to_variant <$> s :: shares = [])) by done.
  rewrite (bool_decide_eq_false_2 (default_variant c ∉ _)) by auto.
  rewrite (remove_dups_nodup _ Hnd). rewrite (bool_decide_eq_false_2 (length _ ≠ _)) by auto. done.
Qed.
End TrafficFacts.

Import AbRouter TrafficFacts.

(** C28: An enabled experiment whose shares are whole percents summing to 100 splits the
    traffic exactly: every subject is routed to a configured variant determined by its hash
    bucket alone, and of the 10,000 buckets exactly 100 per percent of its share belong to
    each variant, so no bucket is lost to rounding. *)
Theorem traffic_split_exact bucket_hash c shares name p :
  whole_percents c shares → enabled c = true → (name, p) ∈ shares →
  (∀ subject, ∃ d, route bucket_hash c subject None = Ok d ∧ rd_variant d ∈ shares.*1 ∧
     rd_variant d = select_variant (variants c)
       (PyFloat.ratio (bucket_hash (experiment_id c +:+ ":" +:+ salt c +:+ ":" +:+ subject) mod 10000) 100)) ∧
  Z.of_nat (length (filter (λ n, select_variant (variants c) (PyFloat.ratio n 100) = name)
    (seqZ 0 10000))) = 100 * p.
Proof.
  intros Hw Hen Hin. pose proof Hw as [Hv Hn Ht Hnd Hd]. split.
  - intros subject. unfold route. rewrite (validate_whole c shares Hw). simpl. rewrite Hen. simpl.
    eexists. split; [done|]. simpl. split; [|done]. rewrite Hv. unfold calculate_bucket.
    pose proof (Z.mod_pos_bound (bucket_hash (experiment_id c +:+ ":" +:+ salt c +:+ ":" +:+ subject)) 10000 ltac:(lia)).
    set (n := _ mod 10000) in *. destruct (select_variant_int shares n Hn Ht ltac:(lia)) as (x & _ & Hx & ->). done.
  - apply list_elem_of_split in Hin as (l1 & l2 & Hl).
    pose proof Hn as Hn'. rewrite Hl in Hn'. apply Forall_app in Hn' as [Hn1 [Hp Hn2]%Forall_cons]. simpl in Hp.
    pose proof (total_nonneg _ Hn1). pose proof (total_nonneg _ Hn2).
    assert (total l1 + p + total l2 = 100) as Htot by (rewrite <-Ht, Hl, total_app; simpl; lia).
    replace (100 * p) with (100 * (total l1 + p) - 100 * total l1) by lia.
    rewrite <-(count_interval (100 * total l1) (100 * (total l1 + p)) 10000) by lia.
    do 2 f_equal. apply filter_ext_elem. intros n Hn0%elem_of_seqZ.
    assert (0 ≤ n / 100 < 100) by (split; [apply Z.div_pos; lia|apply Z.div_lt_upper_bound; lia]).
    destruct (select_variant_int shares n Hn Ht ltac:(lia)) as (x & Hx & _ & Hsel). rewrite Hv, Hsel.
    assert (x = name ↔ int_select shares 0 (n / 100) = Some name) as ->.
    { rewrite Hx. split; [by intros ->|by intros [= ->]]. }
    rewrite Hl in Hn, Hnd, Ht |- *. rewrite int_select_spec by (done || lia).
    pose proof (Z.div_mod n 100 ltac:(lia)). pose proof (Z.mod_pos_bound n 100 ltac:(lia)). lia.
Qed.

Lemma traffic_split_exact_witness :
  Z.of_nat (length (filter (λ n, select_variant [mkVariant "control" (PyFloat.of_Z 70);
      mkVariant "treatment" (PyFloat.of_Z 30)] (PyFloat.ratio n 100) = "treatment") (seqZ 0 10000))) = 100 * 30.
Proof.
  refine (proj2 (traffic_split_exact (λ _, 0) (mkExperiment "e" "control"
    [mkVariant "control" (PyFloat.of_Z 70); mkVariant "treatment" (PyFloat.of_Z 30)] true "s" true [])
    [("control", 70); ("treatment", 30)] "treatment" 30 _ eq_refl _)).
  - split; [reflexivity|repeat constructor; simpl; lia|reflexivity|..]; by apply (bool_decide_unpack _); vm_compute.
  - by apply (bool_decide_unpack _); vm_compute.
Defined.
