(* ===== verification/Pipeline.v ===== *)
(** * Regression pipeline: replay, chaos, resilience and the release decision
    (src/src/replay, src/src/chaos, src/src/automation/regression_pipeline.py)

    The pipeline composes the replay engine, the chaos injector, the alert
    manager, the business evaluator, the error budget, the gate, the message bus
    and the configuration center.  Parameters: [parse_float] and [float_str] of
    the interpreter, [exc_str] the text of an exception, [sample] of the random
    module, [sleep] (which raises for the values it rejects), and the rules of
    the anonymizer as the substitution functions of their compiled patterns. *)
From Stdlib Require Import Floats.SpecFloat.
From S2P Require Import Prelude PyFloat PyValue Persistence PySort PyFormat Messaging Scheduler ConfigCenter Release.
Local Open Scope Z_scope.

(** ** Replay *)

(** Records come from JSON lines whose fields nobody checks: where the source
    declares a text or a time the record holds any value. *)
Record ReplayRecord := mkReplayRecord {
  rp_case_id : pyval;
  rp_trace_id : pyval;
  rp_session_id : pyval;
  rp_error_code : pyval;
  rp_answer_f1 : float;
  rp_latency_ms : float;
  rp_step_outcomes : dict pyval;
  rp_sample : pyval;
  rp_captured_at : pyval;
  rp_anonymized : bool;
}.
Record ReplayPolicy := mkReplayPolicy {
  throttle_rate : float;
  sample_ratio : float;
  target_variant : string;
  max_batch_size : Z;
}.
Record ReplayResult := mkReplayResult {
  rs_record_id : pyval;
  rs_success : bool;
  rs_latency_ms : float;
  rs_error : option string;
  rs_variant : string;
  rs_metrics : dict pyval;
}.
Record ReplayBatch := mkReplayBatch {
  rb_batch_id : string;
  rb_policy : ReplayPolicy;
  rb_records : list ReplayRecord;
  rb_results : list ReplayResult;
  rb_total_duration_ms : float;
}.

Module TrafficAnonymizer.
Section anonymizer.
(** [pattern.sub(replacement, _)] of every rule, in order. *)
Variable rules : list (string → string).

Definition anonymize_text (text : string) : string := foldl (λ s rule, rule s) text rules.

Fixpoint walk (v : pyval) : pyval :=
  match v with
  | VStr s => VStr (anonymize_text s)
  | VDict d => VDict (map (λ kv, match kv with (k, x) => (k, walk x) end) d)
  | VList l => VList (map walk l)
  | _ => v
  end.
Definition anonymize_record (record_dict : pyval) : pyval := walk record_dict.
End anonymizer.
End TrafficAnonymizer.

Module ReplayEngine.
(** [ReplayPolicy()] *)
Definition default_policy : ReplayPolicy := mkReplayPolicy (PyFloat.of_Z 1) (PyFloat.of_Z 1) "control" 50.

Section engine.
Variable rules : list (string → string).
Variable sample : list ReplayRecord → Z → list ReplayRecord.

(** [captured_at or time.time()] *)
Definition or_time (t : pyval) (now : float) : pyval := if Py.truthy t then t else VFloat now.

Definition capture (now : float) (r : ReplayRecord) (records : list ReplayRecord) : list ReplayRecord :=
  let r' := if rp_anonymized r then r
    else mkReplayRecord (rp_case_id r) (rp_trace_id r) (rp_session_id r) (rp_error_code r)
           (rp_answer_f1 r) (rp_latency_ms r) (rp_step_outcomes r)
           (TrafficAnonymizer.anonymize_record rules (rp_sample r))
           (or_time (rp_captured_at r) now) true in
  records ++ [r'].

Definition list_records (limit : Z) (records : list ReplayRecord) : list ReplayRecord := slice_to limit records.
Definition clear (records : list ReplayRecord) : list ReplayRecord := [].

Definition apply_sampling (policy : ReplayPolicy) (records : list ReplayRecord) : res (list ReplayRecord) :=
  candidates ← (if PyFloat.lt (sample_ratio policy) (PyFloat.of_Z 1)
    then
      n ← PyFloat.trunc (PyFloat.mul (PyFloat.of_Z (Z.of_nat (length records))) (sample_ratio policy));
      let k := Z.max 1 n in
      Ok (sample records (Z.min k (Z.of_nat (length records))))
    else Ok records);
  Ok (slice_to (max_batch_size policy) candidates).

Fixpoint run_all (executor : ReplayRecord → res ReplayResult) (l : list ReplayRecord) : res (list ReplayResult) :=
  match l with
  | [] => Ok []
  | r :: l => x ← executor r; rest ← run_all executor l; Ok (x :: rest)
  end.

Definition replay (batch_id : string) (start finish : float) (policy : ReplayPolicy)
    (executor : ReplayRecord → res ReplayResult) (records : list ReplayRecord) : res ReplayBatch :=
  sampled ← apply_sampling policy records;
  results ← run_all executor sampled;
  Ok (mkReplayBatch batch_id policy sampled results
        (PyFloat.mul (PyFloat.sub finish start) (PyFloat.of_Z 1000))).
End engine.
End ReplayEngine.

(** ** Replay tasks on the queue *)
Module ReplayScheduler.
Definition replay_queue : string := "replay_tasks".
Section scheduler.
Variable parse_float : string → option float.
(** [target_variant] is kept as the string it is declared to be. *)
Definition as_variant (v : pyval) (dflt : string) : string := match v with VStr s => s | _ => dflt end.

Definition current_policy (dflt : ReplayPolicy) (center : option ConfigCenter.center) : res ReplayPolicy :=
  match center ≫= ConfigCenter.get "replay_policy" "default" with
  | Some entry =>
      match ce_value entry with
      | VDict v =>
          t ← Metrics.to_float parse_float (dget "throttle_rate" (VFloat (throttle_rate dflt)) v);
          s ← Metrics.to_float parse_float (dget "sample_ratio" (VFloat (sample_ratio dflt)) v);
          m ← Py.to_int (dget "max_batch_size" (VInt (max_batch_size dflt)) v);
          Ok (mkReplayPolicy t s
                (as_variant (dget "target_variant" (VStr (target_variant dflt)) v) (target_variant dflt)) m)
      | _ => Ok dflt
      end
  | None => Ok dflt
  end.

Definition task_payload (dataset_path : string) (p : ReplayPolicy) : pyval :=
  VDict [("action", VStr "replay"); ("dataset_path", VStr dataset_path);
         ("policy", VDict [("throttle_rate", VFloat (throttle_rate p)); ("sample_ratio", VFloat (sample_ratio p));
            ("target_variant", VStr (target_variant p)); ("max_batch_size", VInt (max_batch_size p))])].

(** [run_id or uuid.uuid4().hex[:12]] *)
Definition or_id (run_id : option string) (uuid : string) : string :=
  match run_id with Some i => if str_truthy i then i else uuid | None => uuid end.

(** Over any task queue *)
Definition schedule {Q} `{TaskQueue Q} (dflt : ReplayPolicy) (center : option ConfigCenter.center) (dataset_path : string)
    (run_id : option string) (uuid : string) (now : float) : st Q string :=
  let task_id := or_id run_id uuid in
  policy ← st_lift (current_policy dflt center);
  tq_enqueue (InMemoryTaskQueue.new_item task_id replay_queue (task_payload dataset_path policy) now) ≫= λ _,
  mret task_id.
Definition pending_count {Q} `{TaskQueue Q} (q : Q) : nat := tq_queue_length replay_queue q.
End scheduler.
End ReplayScheduler.

(** ** Chaos *)
Record ChaosScenario := mkScenario {
  fault_type : string;
  target_component : string;
  parameters : dict pyval;
  duration_seconds : float;
  sc_description : string;
}.
Record ChaosResult := mkChaosResult {
  cx_scenario : ChaosScenario;
  cx_success : bool;
  cx_recovery_time_ms : float;
  cx_error_isolated : bool;
  cx_cascading_failure : bool;
  cx_metrics : dict pyval;
  cx_error : option string;
}.
Record ResilienceReport := mkReport {
  rz_overall_score : float;
  rz_scenario_scores : dict float;
  rz_weaknesses : list string;
  rz_details : list ChaosResult;
}.

Module ChaosInjector.
(** A scenario object: its identity and its fields. *)
Definition scenario : Type := nat * ChaosScenario.
Record injector := mkInjector {
  active : list scenario;
  results : list ChaosResult;
}.
Definition init : injector := mkInjector [] [].

(** [==] of the frozen dataclass, which [in] uses *)
Definition scenario_eq (a b : ChaosScenario) : bool :=
  bool_decide (fault_type a = fault_type b) && bool_decide (target_component a = target_component b) &&
  Py.eq (VDict (parameters a)) (VDict (parameters b)) &&
  PyFloat.eqb (duration_seconds a) (duration_seconds b) &&
  bool_decide (sc_description a = sc_description b).
(** [scenario not in self._active] *)
Definition is_active (s : scenario) (l : list scenario) : bool :=
  existsb (λ x, bool_decide (x.1 = s.1) || scenario_eq x.2 s.2) l.

Definition inject (s : scenario) (i : injector) : injector :=
  if is_active s (active i) then i else mkInjector (active i ++ [s]) (results i).
(** Removal is by identity. *)
Definition remove (s : scenario) (i : injector) : injector :=
  mkInjector (filter (λ x, x.1 ≠ s.1) (active i)) (results i).

Section apply.
Variable sleep : float → res unit.
Variable exc_str : exc → string.

(** [v / 1000.0] for a parameter *)
Definition div_1000 (v : pyval) : res float :=
  match Py.num v with
  | Some (inl z) => f ← PyFloat.of_int z; Ok (PyFloat.div f (PyFloat.of_Z 1000))
  | Some (inr f) => Ok (PyFloat.div f (PyFloat.of_Z 1000))
  | None => Err (TypeError ("unsupported operand type(s) for /: '" +:+ Py.type_name v +:+ "' and 'float'"))
  end.

(** [_apply_fault]; [random] is the reading of [random.random()]. *)
Definition apply_fault (s : ChaosScenario) (random : float) (fn : res pyval) : res pyval :=
  let fault := fault_type s in
  if bool_decide (fault = "latency") then
    delay ← div_1000 (dget "delay_ms" (VInt 100) (parameters s));
    _ ← sleep delay;
    fn
  else if bool_decide (fault = "error") then
    Py.num_lt (inr random) (dget "error_rate" (VFloat (PyFloat.of_Z 1)) (parameters s)) ≫= λ hit : bool,
    if hit then Err (Raised "RuntimeError" ("Chaos injected error on " +:+ target_component s)) else fn
  else if bool_decide (fault = "timeout") then
    timeout ← div_1000 (dget "timeout_ms" (VInt 50) (parameters s));
    _ ← sleep timeout;
    Err (Raised "TimeoutError" ("Chaos injected timeout on " +:+ target_component s))
  else if bool_decide (fault = "resource_exhaustion") then
    Err (Raised "MemoryError" ("Chaos injected resource exhaustion on " +:+ target_component s))
  else fn.

Definition wrap_execution (s : scenario) (random start finish : float) (fn : res pyval) (i : injector) :
    ChaosResult * injector :=
  let i1 := inject s i in
  let recovery_ms := PyFloat.mul (PyFloat.sub finish start) (PyFloat.of_Z 1000) in
  let result := match apply_fault s.2 random fn with
    | Ok v => mkChaosResult s.2 true recovery_ms true false [("raw_result", v)] None
    | Err e => mkChaosResult s.2 false recovery_ms false true [] (Some (exc_str e))
    end in
  let i2 := remove s i1 in
  (result, mkInjector (active i2) (results i2 ++ [result])).

Definition collect_results (i : injector) : list ChaosResult := results i.
Definition active_scenarios (i : injector) : list ChaosScenario := snd <$> active i.
End apply.
End ChaosInjector.

Module ResilienceScorer.
Definition default_max_recovery_ms : float := PyFloat.of_Z 5000.

Definition score_single (max_recovery_ms : float) (r : ChaosResult) : res float :=
  q ← PyFloat.true_div (cx_recovery_time_ms r) max_recovery_ms;
  let one := PyFloat.of_Z 1 in
  let recovery_score := PyFloat.max PyFloat.zero (PyFloat.sub one q) in
  let isolation_score := if cx_error_isolated r then one else PyFloat.zero in
  let cascade_score := if cx_cascading_failure r then PyFloat.zero else one in
  Ok (PyFloat.div (PyFloat.add (PyFloat.add recovery_score isolation_score) cascade_score) (PyFloat.of_Z 3)).

Definition label (r : ChaosResult) : string :=
  fault_type (cx_scenario r) +:+ ":" +:+ target_component (cx_scenario r).

Fixpoint score_loop (max_recovery_ms : float) (l : list ChaosResult) (scores : dict float)
    (weaknesses : list string) : res (dict float * list string) :=
  match l with
  | [] => Ok (scores, weaknesses)
  | r :: l =>
      s ← score_single max_recovery_ms r;
      score_loop max_recovery_ms l (dinsert (label r) (round_to 4 s) scores)
        (if PyFloat.lt s (PyFloat.ratio 7 10) then weaknesses ++ [label r] else weaknesses)
  end.

Definition score (max_recovery_ms : float) (l : list ChaosResult) : res ResilienceReport :=
  match l with
  | [] => Ok (mkReport (PyFloat.of_Z 1) [] [] [])
  | _ =>
      sw ← score_loop max_recovery_ms l [] [];
      let overall := PyFloat.div (PySort.fsum sw.1.*2) (PyFloat.of_Z (Z.of_nat (length sw.1))) in
      Ok (mkReport (round_to 4 overall) sw.1 sw.2 l)
  end.
End ResilienceScorer.

(** ** The pipeline *)
Record RegressionRunConfig := mkRunConfig {
  rc_run_id : string;
  rc_dataset_path : string;
  rc_experiment_id : string;
  rc_chaos_scenarios : list ChaosInjector.scenario;
  rc_enable_replay : bool;
  rc_enable_chaos : bool;
  rc_enable_ab_routing : bool;
  rc_metadata : dict pyval;
}.
Record RegressionRunResult := mkRunResult {
  rr_run_id : string;
  rr_config : RegressionRunConfig;
  rr_gate_decision : GateDecision;
  rr_summary : dict pyval;
  rr_composite_score : option CompositeScore;
  rr_resilience_report : option ResilienceReport;
  rr_replay_batch_id : option string;
  rr_steps_completed : list string;
}.

Module RegressionPipeline.
(** The components a run changes; the others are fixed. *)
Record state (W : Type) := mkState {
  records : list ReplayRecord;
  chaos : ChaosInjector.injector;
  budget : ErrorBudgetTracker.tracker;
  bus : option W;
  center : option ConfigCenter.center;
  calls : list (string * WatchEvent);
  ticks : nat;  (* readings of the clock, of the random source and fresh identifiers *)
}.
Arguments mkState {W}. Arguments records {W}. Arguments chaos {W}. Arguments budget {W}.
Arguments bus {W}. Arguments center {W}. Arguments calls {W}. Arguments ticks {W}.

Record environment := mkEnvironment {
  parse_float : string → option float;
  float_str : float → string;
  exc_str : exc → string;
  sample : list ReplayRecord → Z → list ReplayRecord;
  sleep : float → res unit;
  time : nat → float;
  random : nat → float;
  uuid : nat → string;
}.

Section pipeline.
Context {W : Type} `{MessageBus W}.
Variable env : environment.
Variable evaluator : BusinessEvaluator.evaluator.
Variable gate : GateFunction.gate.
Variable rules : list AlertRule.
Variable evaluate_fn : option (string → res (dict pyval)).

Definition tick (f : nat → float) : st (state W) float := λ s,
  (Ok (f (ticks s)), mkState (records s) (chaos s) (budget s) (bus s) (center s) (calls s) (S (ticks s))).
Definition fresh_id : st (state W) string := λ s,
  (Ok (uuid env (ticks s)), mkState (records s) (chaos s) (budget s) (bus s) (center s) (calls s) (S (ticks s))).

Definition publish (topic : string) (payload : dict pyval) : st (state W) unit := λ s,
  match bus s with
  | None => (Ok tt, s)
  | Some w =>
      let '(r, w') := bus_publish topic (VDict payload) "regression_pipeline" w in
      ((λ _, tt) <$> r, mkState (records s) (chaos s) (budget s) (Some w') (center s) (calls s) (ticks s))
  end.
Definition progress (step status run_id : string) : st (state W) unit :=
  publish ("regression.step." +:+ step) [("run_id", VStr run_id); ("status", VStr status)].

Definition default_executor (r : ReplayRecord) : res ReplayResult :=
  Ok (mkReplayResult (rp_case_id r) true PyFloat.zero None "control" []).

(** Step 1 *)
Definition replay_step (config : RegressionRunConfig) (run_id : string) : st (state W) (option string * list string) :=
  if rc_enable_replay config then
    progress "replay" "started" run_id ≫= λ _,
    id ← fresh_id;
    start ← tick (time env);
    recs ← st_gets records;
    finish ← tick (time env);
    batch ← st_lift (ReplayEngine.replay (sample env) id start finish
              ReplayEngine.default_policy default_executor recs);
    progress "replay" "completed" run_id ≫= λ _,
    mret (Some (rb_batch_id batch), ["replay"])
  else mret (None, []).

(** Step 2 *)
Definition ab_route_step (config : RegressionRunConfig) (run_id : string) : st (state W) (list string) :=
  if rc_enable_ab_routing config then
    progress "ab_route" "completed" run_id ≫= λ _, mret ["ab_route"]
  else mret [].

(** Step 3 *)
Definition evaluate_step (config : RegressionRunConfig) (run_id : string) : st (state W) (dict pyval) :=
  progress "evaluate" "started" run_id ≫= λ _,
  summary ← st_lift (match evaluate_fn with
    | Some f => f (rc_dataset_path config)
    | None => Ok [("e2e_success_rate", VFloat (PyFloat.of_Z 1)); ("stability", VFloat (PyFloat.of_Z 1))]
    end);
  progress "evaluate" "completed" run_id ≫= λ _, mret summary.

Definition with_chaos {A} (f : ChaosInjector.injector → A * ChaosInjector.injector) : st (state W) A := λ s,
  let '(a, i) := f (chaos s) in
  (Ok a, mkState (records s) i (budget s) (bus s) (center s) (calls s) (ticks s)).

(** Step 4: every scenario runs [lambda: "ok"] under its fault. *)
Definition run_scenario (s : ChaosInjector.scenario) : st (state W) ChaosResult :=
  start ← tick (time env);
  rnd ← tick (random env);
  finish ← tick (time env);
  with_chaos (ChaosInjector.wrap_execution (sleep env) (exc_str env) s rnd start finish (Ok (VStr "ok"))).
Fixpoint run_scenarios (l : list ChaosInjector.scenario) : st (state W) (list ChaosResult) :=
  match l with
  | [] => mret []
  | s :: l => r ← run_scenario s; rest ← run_scenarios l; mret (r :: rest)
  end.
Definition chaos_step (config : RegressionRunConfig) (run_id : string) :
    st (state W) (option ResilienceReport * list string) :=
  if rc_enable_chaos config && negb (bool_decide (length (rc_chaos_scenarios config) = 0%nat)) then
    progress "chaos" "started" run_id ≫= λ _,
    chaos_results ← run_scenarios (rc_chaos_scenarios config);
    report ← st_lift (ResilienceScorer.score ResilienceScorer.default_max_recovery_ms chaos_results);
    progress "chaos" "completed" run_id ≫= λ _,
    mret (Some report, ["chaos"])
  else mret (None, []).

(** The business metrics derived from the summary. *)
Definition business_metrics (summary : dict pyval) : res BusinessMetrics :=
  e2e ← Metrics.to_float (parse_float env) (dget "e2e_success_rate" (VFloat PyFloat.zero) summary);
  tokens ← Py.get "total_tokens" (VInt 0) (dget "cost" (VDict []) summary);
  cost ← Metrics.to_float (parse_float env) tokens;
  f1 ← Metrics.to_float (parse_float env) (dget "avg_answer_f1" (VFloat PyFloat.zero) summary);
  Ok (mkBusinessMetrics e2e
        (PyFloat.max PyFloat.zero (PyFloat.sub (PyFloat.of_Z 1) (PyFloat.div cost (PyFloat.of_Z 10000)))) f1).

(** [total] and [bad] observations of this run *)
Definition observations (summary : dict pyval) : res (Z * Z) :=
  total ← Py.to_int (dget "total_samples" (VInt 0) summary);
  rate ← Metrics.to_float (parse_float env) (dget "e2e_success_rate" (VFloat (PyFloat.of_Z 1)) summary);
  t ← PyFloat.of_int total;
  good ← PyFloat.trunc (PyFloat.mul t rate);
  Ok (total, total - good).

Definition set_budget (f : ErrorBudgetTracker.tracker → ErrorBudgetTracker.tracker) : st (state W) unit :=
  st_modify (λ s, mkState (records s) (chaos s) (f (budget s)) (bus s) (center s) (calls s) (ticks s)).

(** [self._cc.put("regression_results", run_id, {...})] *)
Definition persist (run_id : string) (d : GateDecision) (c : CompositeScore) (steps : list string) :
    st (state W) unit := λ s,
  match center s with
  | None => (Ok tt, s)
  | Some cc =>
      let value := VDict [("run_id", VStr run_id); ("gate_passed", VBool (gd_passed d));
        ("overall_score", VFloat (cs_overall_score c)); ("technical_score", VFloat (cs_technical_score c));
        ("business_score", VFloat (cs_business_score c)); ("blocking_alerts", VInt (gd_blocking_alerts d));
        ("steps_completed", VList (VStr <$> steps)); ("timestamp", VFloat (time env (ticks s)))] in
      let '(_, called, cc') := ConfigCenter.put "regression_results" run_id value "feature_flag" ""
        (time env (S (ticks s))) cc in
      (Ok tt, mkState (records s) (chaos s) (budget s) (bus s) (Some cc') (calls s ++ called) (S (S (ticks s))))
  end.

Definition run (config : RegressionRunConfig) : st (state W) RegressionRunResult :=
  run_id ← (if str_truthy (rc_run_id config) then mret (rc_run_id config) else fresh_id);
  publish "regression.started" [("run_id", VStr run_id)] ≫= λ _,
  rep ← replay_step config run_id;
  routed ← ab_route_step config run_id;
  summary ← evaluate_step config run_id;
  ch ← chaos_step config run_id;
  alert_events ← st_lift (AlertManager.evaluate (parse_float env) rules summary);
  let firing_count := PySort.count_if (λ a, bool_decide (ae_status a = "firing")) alert_events in
  biz_metrics ← st_lift (business_metrics summary);
  composite ← st_lift (BusinessEvaluator.evaluate (parse_float env) (float_str env) evaluator
                summary biz_metrics firing_count);
  tb ← st_lift (observations summary);
  (if 0 <? tb.1 then set_budget (ErrorBudgetTracker.record_batch tb.1 tb.2) else mret tt) ≫= λ _,
  progress "gate" "started" run_id ≫= λ _,
  tracker ← st_gets budget;
  snap ← st_lift (ErrorBudgetTracker.snapshot tracker);
  let gate_decision := GateFunction.decide (float_str env) gate alert_events (Some composite) (Some snap) in
  progress "gate" "completed" run_id ≫= λ _,
  let steps := rep.2 ++ routed ++ ["evaluate"] ++ ch.2 ++ ["gate"] in
  persist run_id gate_decision composite steps ≫= λ _,
  publish "regression.completed" [("run_id", VStr run_id); ("gate_passed", VBool (gd_passed gate_decision))] ≫= λ _,
  mret (mkRunResult run_id config gate_decision summary (Some composite) ch.1 rep.1 steps).
End pipeline.
End RegressionPipeline.

(** ** The release decision *)
Module PipelineFacts.
Import RegressionPipeline.
Section facts.
Context {W : Type} `{MessageBus W}.
Variable env : environment.
Implicit Types s : state W.

Lemma publish_keeps t p s : budget (publish t p s).2 = budget s ∧ center (publish t p s).2 = center s.
Proof. unfold publish. destruct (bus s); [|done]. by destruct (bus_publish _ _ _ _). Qed.

Lemma publish_Ok t p s u s' : publish t p s = (Ok u, s') → budget s' = budget s ∧ center s' = center s.
Proof. intros Hp. pose proof (publish_keeps t p s) as Hk. by rewrite Hp in Hk. Qed.

Lemma persist_Ok run_id d c steps s u s' : persist env run_id d c steps s = (Ok u, s') →
  budget s' = budget s ∧ ∀ cc, center s' = Some cc → ∃ e fields,
    ConfigCenter.get "regression_results" run_id cc = Some e ∧ ce_value e = VDict fields ∧
    dlookup "gate_passed" fields = Some (VBool (gd_passed d)).
Proof.
  unfold persist. destruct (center s) as [cc0|] eqn:Ec.
  - unfold ConfigCenter.put. intros [= <- <-]. split; [done|]. simpl. intros cc [= <-].
    unfold ConfigCenter.get, InMemoryConfig.get, InMemoryConfig.put. simpl.
    rewrite dlookup_dinsert_eq. by eexists _, _.
  - intros [= <- <-]. split; [done|]. intros cc. by rewrite Ec.
Qed.

Lemma evaluate_rules rules summary events :
  AlertManager.evaluate (parse_float env) rules summary = Ok events →
  Forall2 (λ r e, AlertManager.evaluate_rule (parse_float env) summary r = Ok e) rules events.
Proof.
  revert events. induction rules as [|r rules IH]; intros events He; simpl in He.
  - injection He as <-. constructor.
  - apply bind_Ok in He as (e & He & Hr). apply bind_Ok in Hr as (rest & Hr & [= <-]).
    constructor; [done|by apply IH].
Qed.

(** The gate's verdict from its three inputs. *)
Lemma decide_passed fs g alerts c b :
  gd_passed (GateFunction.decide fs g alerts (Some c) (Some b)) = true ↔
  PySort.count_if GateFunction.p1_firing alerts ≤ GateFunction.max_p1_alerts g ∧
  PyFloat.lt (cs_overall_score c) (GateFunction.score_threshold g) = false ∧
  PyFloat.le (eb_remaining b) PyFloat.zero = false.
Proof.
  unfold GateFunction.decide. cbn [gd_passed]. rewrite bool_decide_eq_true.
  destruct (Z.ltb_spec (GateFunction.max_p1_alerts g) (PySort.count_if GateFunction.p1_firing alerts)).
  { split; [done|lia]. }
  destruct (PyFloat.lt _ _), (PyFloat.le _ _); simpl; split; try done; try naive_solver.
Qed.

(** A P1 rule whose alert is not firing: the metric compared to the threshold
    does not satisfy the rule. *)
Definition quiet (summary : dict pyval) (r : AlertRule) : Prop :=
  ∃ v, Metrics.resolve_metric (parse_float env) summary (ar_metric r) = Ok v ∧
    AlertManager.compare v (ar_threshold r) (ar_comparator r) = Ok false.

Lemma count_if_zero {A} (p : A → bool) l : PySort.count_if p l ≤ 0 → ∀ x, x ∈ l → p x = false.
Proof.
  unfold PySort.count_if. intros Hc x Hx. destruct (p x) eqn:E; [|done].
  assert (x ∈ filter (λ x, p x = true) l) as Hf by by apply list_elem_of_filter.
  destruct (filter _ l); [set_solver|simpl in Hc; lia].
Qed.

Lemma no_p1_quiet rules summary events :
  AlertManager.evaluate (parse_float env) rules summary = Ok events →
  PySort.count_if GateFunction.p1_firing events ≤ 0 →
  ∀ r, r ∈ rules → ar_severity r = "P1" → quiet summary r.
Proof.
  intros He Hc r Hr Hsev. apply evaluate_rules in He.
  apply list_elem_of_lookup in Hr as [i Hi]. destruct (Forall2_lookup_l _ _ _ _ _ He Hi) as (e & Hei & Hev).
  pose proof (count_if_zero _ _ Hc e ltac:(by eapply list_elem_of_lookup_2)) as Hp.
  unfold AlertManager.evaluate_rule in Hev. apply bind_Ok in Hev as (v & Hv & Hev).
  apply bind_Ok in Hev as (b & Hb & [= <-]). unfold GateFunction.p1_firing in Hp. simpl in Hp.
  rewrite Hsev in Hp. exists v. split; [done|]. destruct b; [|done].
  by rewrite !bool_decide_eq_true_2 in Hp.
Qed.
End facts.
End PipelineFacts.

Import RegressionPipeline PipelineFacts.

(** C29: A regression run passes exactly when the P1 alerts firing on its summary are within
    the gate's allowance, the composite score is not below the threshold and the error budget,
    with this run's observations included, is not exhausted.  With no P1 alert allowed, a run
    that passes satisfies no P1 rule.  The decision published to the configuration center is
    the one returned. *)
Theorem release_gate_sound {W} `{MessageBus W} env ev gate rules fn config (s s' : state W) r :
  run env ev gate rules fn config s = (Ok r, s') →
  ∃ events c snap,
    AlertManager.evaluate (parse_float env) rules (rr_summary r) = Ok events ∧
    rr_composite_score r = Some c ∧ ErrorBudgetTracker.snapshot (budget s') = Ok snap ∧
    (gd_passed (rr_gate_decision r) = true ↔
       PySort.count_if GateFunction.p1_firing events ≤ GateFunction.max_p1_alerts gate ∧
       PyFloat.lt (cs_overall_score c) (GateFunction.score_threshold gate) = false ∧
       PyFloat.le (eb_remaining snap) PyFloat.zero = false) ∧
    (GateFunction.max_p1_alerts gate = 0 → gd_passed (rr_gate_decision r) = true →
       ∀ rule, rule ∈ rules → ar_severity rule = "P1" → quiet env (rr_summary r) rule) ∧
    ∀ cc, center s' = Some cc → ∃ e fields,
      ConfigCenter.get "regression_results" (rr_run_id r) cc = Some e ∧ ce_value e = VDict fields ∧
      dlookup "gate_passed" fields = Some (VBool (gd_passed (rr_gate_decision r))).
Proof.
  unfold run. intros Hrun. inv_st.
  match goal with H : AlertManager.evaluate _ _ _ = Ok ?e |- _ => rename e into events; rename H into Hev end.
  match goal with H : BusinessEvaluator.evaluate _ _ _ _ _ _ = Ok ?c |- _ => rename c into comp end.
  match goal with H : ErrorBudgetTracker.snapshot _ = Ok ?b |- _ => rename b into snap; rename H into Hsnap end.
  exists events, comp, snap. cbn [rr_summary rr_composite_score rr_gate_decision rr_run_id].
  repeat match goal with H : progress _ _ _ _ = (Ok _, _) |- _ => apply publish_Ok in H as [? ?] end.
  match goal with H : persist _ _ _ _ _ _ = (Ok _, _) |- _ => apply persist_Ok in H as [Hper Hcc] end.
  match goal with H : publish "regression.completed" _ _ = _ |- _ => apply publish_Ok in H as [Hb' Hc'] end.
  split_and!; [done|done|congruence|apply decide_passed| |].
  - intros Hm Hp. apply decide_passed in Hp as [Hcount _]. rewrite Hm in Hcount.
    by apply (no_p1_quiet env rules _ events).
  - rewrite Hc'. exact Hcc.
Qed.

Module PipelineExample.
#[local] Instance silent_bus : MessageBus unit := {| bus_publish _ _ _ := st_raise (OSError "down") |}.
Definition env : environment := mkEnvironment (λ _, None) (λ _, "0.7") (λ _, "") (λ l _, l) (λ _, Ok tt)
  (λ n, PyFloat.of_Z (Z.of_nat n)) (λ _, PyFloat.zero) (λ _, "id").
Definition config : RegressionRunConfig := mkRunConfig "r1" "data" "" [(0%nat, mkScenario "error" "db" [] PyFloat.zero "")]
  true true true [].
Definition start : state unit := mkState [] ChaosInjector.init
  (ErrorBudgetTracker.mkTracker (PyFloat.ratio 9 10) 0 0) None (Some ConfigCenter.init) [] 0.
Definition summary : dict pyval := [("e2e_success_rate", VFloat (PyFloat.ratio 98 100));
  ("avg_answer_f1", VFloat (PyFloat.ratio 9 10)); ("total_samples", VInt 100)].
Definition outcome : res RegressionRunResult * state unit :=
  run env (BusinessEvaluator.new None None (PyFloat.ratio 7 10)) GateFunction.default_gate
    AlertManager.default_rules (Some (λ _, Ok summary)) config start.

Example outcome_passes :
  match outcome.1 with
  | Ok r => gd_passed (rr_gate_decision r) = true ∧
      rr_steps_completed r = ["replay"; "ab_route"; "evaluate"; "chaos"; "gate"]
  | Err _ => False
  end.
Proof. vm_compute. done. Qed.

Lemma release_gate_sound_witness :
  match outcome with
  | (Ok r, s') => ∀ rule, rule ∈ AlertManager.default_rules → ar_severity rule = "P1" →
      quiet env (rr_summary r) rule
  | (Err _, _) => False
  end.
Proof.
  pose proof (release_gate_sound env (BusinessEvaluator.new None None (PyFloat.ratio 7 10))
    GateFunction.default_gate AlertManager.default_rules (Some (λ _, Ok summary)) config start) as Hg.
  pose proof outcome_passes as Hp.
  change (run env _ _ _ _ config start) with outcome in Hg.
  destruct outcome as [[r|e] s']; [|exact Hp].
  destruct (Hg s' r eq_refl) as (events & c & snap & _ & _ & _ & _ & Hq & _).
  exact (Hq eq_refl (proj1 Hp)).
Defined.
End PipelineExample.

(** ** Captured traffic is anonymized *)
Section anonymized.
Context (rules : list (string → string)).
Import TrafficAnonymizer.

(** The string values of a value; keys are not values. *)
Fixpoint strings_of (v : pyval) : list string :=
  match v with
  | VStr s => [s]
  | VList l => concat (map strings_of l)
  | VDict d => concat (map (λ kv, match kv with (_, x) => strings_of x end) d)
  | _ => []
  end.

Lemma strings_of_walk v : strings_of (walk rules v) = anonymize_text rules <$> strings_of v.
Proof.
  induction v as [| | | |s|l IH|d IH] using pyval_ind'; try done; cbn [walk strings_of].
  - induction IH as [|x l Hx Hl IHl]; [done|]. cbn [map concat]. by rewrite Hx, IHl, fmap_app.
  - induction IH as [|[k x] d Hx Hd IHd]; [done|]. cbn [map concat]. simpl in Hx.
    by rewrite Hx, IHd, fmap_app.
Qed.

(** Every string of the record went through the rules. *)
Definition clean (r : ReplayRecord) : Prop :=
  ∀ s, s ∈ strings_of (rp_sample r) → ∃ t, s = anonymize_text rules t.

Lemma capture_clean now r l : rp_anonymized r = false → Forall clean l →
  Forall clean (ReplayEngine.capture rules now r l).
Proof.
  intros Hr Hl. unfold ReplayEngine.capture. rewrite Hr. apply Forall_app. split; [done|].
  apply Forall_singleton. intros s. simpl rp_sample. unfold anonymize_record. rewrite strings_of_walk.
  intros (t & -> & _)%list_elem_of_fmap. by exists t.
Qed.
End anonymized.

(** Replay uses anonymized traffic only and stays within its policy: after any captures of
    raw records, every string in the samples a batch replays has gone through all
    anonymization rules; the batch has one result per record, is drawn from the captured
    records and is no larger than the policy allows. *)
Theorem replay_anonymized_bounded rules sample caps batch_id t0 t1 policy executor batch :
  (∀ l k, 0 ≤ k ≤ Z.of_nat (length l) → sample l k ⊆ l) →
  Forall (λ c : float * ReplayRecord, rp_anonymized c.2 = false) caps → 0 ≤ max_batch_size policy →
  let records := foldl (λ l c, ReplayEngine.capture rules c.1 c.2 l) [] caps in
  ReplayEngine.replay sample batch_id t0 t1 policy executor records = Ok batch →
  Forall (clean rules) (rb_records batch) ∧ rb_records batch ⊆ records ∧
  Z.of_nat (length (rb_records batch)) ≤ max_batch_size policy ∧
  Forall2 (λ r x, executor r = Ok x) (rb_records batch) (rb_results batch).
Proof.
  intros Hsample Hcaps Hmax records Hr.
  assert (Forall (clean rules) records) as Hclean.
  { subst records. assert (Forall (clean rules) ([] : list ReplayRecord)) as H0 by constructor. clear Hr.
    revert H0. generalize ([] : list ReplayRecord). induction Hcaps as [|c caps Hc Hcaps IH]; intros l Hl; [done|].
    simpl. apply IH. by apply capture_clean. }
  clearbody records. unfold ReplayEngine.replay in Hr.
  apply bind_Ok in Hr as (sampled & Hs & Hr). apply bind_Ok in Hr as (results & Hres & [= <-]). simpl.
  unfold ReplayEngine.apply_sampling in Hs. apply bind_Ok in Hs as (cand & Hc & [= <-]).
  assert (cand ⊆ records) as Hsub.
  { destruct (PyFloat.lt _ _); [|by injection Hc as <-].
    apply bind_Ok in Hc as (n & _ & [= <-]). apply Hsample. lia. }
  assert (slice_to (max_batch_size policy) cand ⊆ records) as Hsub'
    by (intros x Hx%elem_of_slice_to; auto).
  split_and!; [|done| |].
  - apply Forall_forall. intros x Hx. rewrite Forall_forall in Hclean. auto.
  - rewrite slice_to_pos by done. rewrite length_take. lia.
  - clear -Hres. revert results Hres. induction (slice_to _ cand) as [|r l IH]; intros results Hres; simpl in Hres.
    + injection Hres as <-. constructor.
    + apply bind_Ok in Hres as (x & Hx & Hres). apply bind_Ok in Hres as (rest & Hrest & [= <-]).
      constructor; auto.
Qed.

Lemma replay_anonymized_bounded_witness :
  let rule s : string := if bool_decide (s = "13800000000") then "<PHONE>" else s in
  let raw := mkReplayRecord (VStr "c") VNone VNone VNone PyFloat.zero PyFloat.zero []
    (VDict [("phone", VStr "13800000000")]) VNone false in
  match ReplayEngine.replay (λ l _, l) "b" PyFloat.zero PyFloat.zero ReplayEngine.default_policy
    default_executor (ReplayEngine.capture [rule] PyFloat.zero raw []) with
  | Ok batch => strings_of (default VNone (rp_sample <$> head (rb_records batch))) = ["<PHONE>"] ∧
      Z.of_nat (length (rb_records batch)) ≤ 50
  | Err _ => False
  end.
Proof.
  intros rule raw.
  pose proof (replay_anonymized_bounded [rule] (λ l _, l) [(PyFloat.zero, raw)] "b" PyFloat.zero PyFloat.zero
    ReplayEngine.default_policy default_executor) as Hr.
  cbn [foldl fst snd] in Hr.
  destruct (ReplayEngine.replay _ "b" _ _ _ _ _) as [batch|e] eqn:E; [|vm_compute in E; discriminate].
  split; [vm_compute in E; injection E as <-; reflexivity|].
  refine (proj1 (proj2 (proj2 (Hr batch _ _ _ eq_refl)))); [done|by repeat constructor|done].
Defined.

(** ** Chaos is contained *)

(** Whatever the wrapped function does, the scenario is inactive afterwards,
    other scenarios stay as they were, and one result is recorded. *)
Lemma chaos_contained sleep exc_str s random t0 t1 fn i :
  let '(r, i') := ChaosInjector.wrap_execution sleep exc_str s random t0 t1 fn i in
  ChaosInjector.active i' = filter (λ x, x.1 ≠ s.1) (ChaosInjector.active i) ∧
  ChaosInjector.results i' = ChaosInjector.results i ++ [r] ∧
  (cx_success r = true ↔ is_ok (ChaosInjector.apply_fault sleep s.2 random fn) = true).
Proof.
  unfold ChaosInjector.wrap_execution. cbn [ChaosInjector.active ChaosInjector.results]. split_and!.
  - unfold ChaosInjector.remove, ChaosInjector.inject. case_match; simpl; [done|].
    rewrite filter_app, filter_cons, decide_False by (intros []; done). apply app_nil_r.
  - unfold ChaosInjector.remove, ChaosInjector.inject. by case_match.
  - by destruct (ChaosInjector.apply_fault sleep s.2 random fn).
Qed.

(** Two results of one fault and component share a label: the second replaces
    the first in the scores, and the mean forgets the failure. *)
Example repeated_label_hides_failure :
  let sc := mkScenario "error" "db" [] PyFloat.zero "" in
  let failed := mkChaosResult sc false PyFloat.zero false true [] (Some "x") in
  let fine := mkChaosResult sc true PyFloat.zero true false [] None in
  rz_overall_score <$> ResilienceScorer.score ResilienceScorer.default_max_recovery_ms [failed; fine]
  = Ok (PyFloat.of_Z 1).
Proof. vm_compute. reflexivity. Qed.
