(* ===== verification/Anonymizer.v ===== *)
(** * The patterns of the traffic anonymizer (src/src/replay/anonymizer.py)

    [re] for the patterns the anonymizer compiles: sequences of character classes
    with counts and of word boundaries, matched greedily with backtracking, and
    [sub], which replaces the leftmost matches that do not overlap.  A text is its
    code points; the Unicode classes of the interpreter ([\w], [\d]) are
    parameters. *)
From S2P Require Import Prelude PyFloat PyValue Json JsonFacts Pipeline.
Local Open Scope Z_scope.

Abbreviation text := (list Z).
(** The code points of an ASCII text *)
Definition ascii_points (s : string) : text := Json.code <$> String.list_ascii_of_string s.

(** ** Regular expressions *)
Module Regex.
(** [\b], and a class with the least and, if any, the greatest number of characters *)
Inductive atom :=
| Boundary
| Chars (p : Z → bool) (least : nat) (most : option nat).
Abbreviation pattern := (list atom).
Definition One (p : Z → bool) : atom := Chars p 1 (Some 1%nat).

Section regex.
Variable is_word : Z → bool.

Definition word_opt (c : option Z) : bool := from_option is_word false c.
Definition boundary (prev : option Z) (s : text) : bool := negb (Bool.eqb (word_opt prev) (word_opt (head s))).
Definition room (most : option nat) : bool := from_option (λ n, negb (n =? 0)%nat) true most.
(** The character before the rest once [u] has been read *)
Definition last_of (prev : option Z) (u : text) : option Z := foldl (λ _ c, Some c) prev u.

(** A class takes as many characters as it can and gives them back one by one;
    [k] matches what follows. *)
Fixpoint rep (k : option Z → text → option (option Z * text)) (p : Z → bool) (least : nat) (most : option nat)
    (prev : option Z) (s : text) {struct s} : option (option Z * text) :=
  match (match s with
         | c :: s => if p c && room most then rep k p (pred least) (pred <$> most) (Some c) s else None
         | [] => None
         end) with
  | Some r => Some r
  | None => if (least =? 0)%nat then k prev s else None
  end.
(** A match at the start of [s], after the character [prev]: the last character
    before the rest, and the rest. *)
Fixpoint match_at (pat : pattern) (prev : option Z) (s : text) {struct pat} : option (option Z * text) :=
  match pat with
  | [] => Some (prev, s)
  | Boundary :: pat => if boundary prev s then match_at pat prev s else None
  | Chars p least most :: pat => rep (match_at pat) p least most prev s
  end.

(** [pattern.sub(label, s)]; an empty match is replaced too. *)
Fixpoint sub_fuel (fuel : nat) (pat : pattern) (label : text) (prev : option Z) (s : text) : text :=
  match fuel with
  | O => []
  | S fuel =>
      match match_at pat prev s with
      | Some (prev', rest) =>
          if (length rest <? length s)%nat then label ++ sub_fuel fuel pat label prev' rest
          else label ++ match s with [] => [] | c :: s => c :: sub_fuel fuel pat label (Some c) s end
      | None => match s with [] => [] | c :: s => c :: sub_fuel fuel pat label (Some c) s end
      end
  end.
Definition sub (pat : pattern) (label : text) (s : text) : text := sub_fuel (S (length s)) pat label None s.
End regex.
End Regex.

(** ** The rules *)
Module AnonymizerRules.
Import Regex.
Section rules.
(** [\w] and [\d] *)
Variables (is_word is_digit : Z → bool).

Definition between (a b c : Z) : bool := (a <=? c) && (c <=? b).
Definition one_of (l : text) (c : Z) : bool := bool_decide (c ∈ l).
Definition letter (c : Z) : bool := between 65 90 c || between 97 122 c.
Definition alnum (c : Z) : bool := letter c || between 48 57 c.

(** [\b1[3-9]\d{9}\b] *)
Definition phone_pattern : pattern :=
  [Boundary; One (Z.eqb 49); One (between 51 57); Chars is_digit 9 (Some 9%nat); Boundary].
(** [\b[A-Za-z0-9._%+-]+@[A-Za-z0-9.-]+\.[A-Z|a-z]{2,}\b] *)
Definition email_pattern : pattern :=
  [Boundary; Chars (λ c, alnum c || one_of (ascii_points "._%+-") c) 1 None; One (Z.eqb 64);
   Chars (λ c, alnum c || one_of (ascii_points ".-") c) 1 None; One (Z.eqb 46);
   Chars (λ c, letter c || (c =? 124)) 2 None; Boundary].
(** [\b\d{15,18}[Xx]?\b] *)
Definition id_pattern : pattern :=
  [Boundary; Chars is_digit 15 (Some 18%nat); Chars (λ c, (c =? 88) || (c =? 120)) 0 (Some 1%nat); Boundary].
(** [\b[\u4e00-\u9fff]{2,4}\b] *)
Definition name_pattern : pattern := [Boundary; Chars (between 19968 40959) 2 (Some 4%nat); Boundary].

Definition default_patterns : list (pattern * text) :=
  [(phone_pattern, ascii_points "<PHONE>"); (email_pattern, ascii_points "<EMAIL>");
   (id_pattern, ascii_points "<ID_CARD>"); (name_pattern, ascii_points "<NAME>")].

(** [anonymize_text] on code points *)
Definition anonymize (t : text) : text := foldl (λ t r, sub is_word r.1 r.2 t) t default_patterns.
(** The rules of [TrafficAnonymizer()] on encoded texts *)
Definition default_rules : list (string → string) :=
  (λ r s, Json.concat_strings (Json.utf8 <$> sub is_word r.1 r.2 (Json.points_of s))) <$> default_patterns.
End rules.
End AnonymizerRules.

(** ** What a pattern matches *)
Module RegexFacts.
Import Regex.
Section facts.
Variable is_word : Z → bool.
Abbreviation word_opt := (word_opt is_word).
Abbreviation boundary := (boundary is_word).
Abbreviation match_at := (match_at is_word).

(** [w], between [prev] and [rest], is described by the pattern. *)
Definition within (most : option nat) (n : nat) : Prop := from_option (λ m, (n <= m)%nat) True most.
Fixpoint denotes (pat : pattern) (prev : option Z) (w rest : text) : Prop :=
  match pat with
  | [] => w = []
  | Boundary :: pat => boundary prev (w ++ rest) = true ∧ denotes pat prev w rest
  | Chars p least most :: pat => ∃ u v, w = u ++ v ∧ Forall (λ c, p c = true) u ∧ (least <= length u)%nat ∧
      within most (length u) ∧ denotes pat (last_of prev u) v rest
  end.

Lemma last_of_app prev u v : last_of prev (u ++ v) = last_of (last_of prev u) v.
Proof. apply foldl_app. Qed.

Lemma rep_sound k p s : ∀ least most prev r, rep k p least most prev s = Some r →
  ∃ u v, s = u ++ v ∧ Forall (λ c, p c = true) u ∧ (least <= length u)%nat ∧ within most (length u) ∧
    k (last_of prev u) v = Some r.
Proof.
  induction s as [|c s IH]; intros least most prev r H; cbn [rep] in H.
  { destruct (Nat.eqb_spec least 0) as [->|]; [|done]. exists [], []. repeat split; [constructor|simpl; lia| |done].
    destruct most; simpl; [lia|done]. }
  destruct (p c && room most) eqn:E.
  - apply andb_true_iff in E as [Hp Hm]. destruct (rep k p _ _ (Some c) s) as [r'|] eqn:Er.
    + injection H as ->. destruct (IH _ _ _ _ Er) as (u & v & -> & Hu & Hl & Hw & Hk). exists (c :: u), v.
      split_and!; [done|by constructor|simpl; lia| |done]. destruct most as [m|]; [|done]. simpl in *. destruct m; simpl in *; lia.
    + destruct (Nat.eqb_spec least 0) as [->|]; [|done]. exists [], (c :: s). split_and!; [done|constructor|simpl; lia| |done].
      destruct most; simpl; [lia|done].
  - destruct (Nat.eqb_spec least 0) as [->|]; [|done]. exists [], (c :: s). split_and!; [done|constructor|simpl; lia| |done].
    destruct most; simpl; [lia|done].
Qed.
Lemma rep_complete k p u v : ∀ least most prev, Forall (λ c, p c = true) u → (least <= length u)%nat →
  within most (length u) → is_Some (k (last_of prev u) v) → is_Some (rep k p least most prev (u ++ v)).
Proof.
  induction u as [|c u IH]; intros least most prev Hu Hl Hw Hk.
  - simpl in Hl. assert (least = 0%nat) as -> by lia. cbn [app].
    destruct v as [|c v]; cbn [rep]; [done|]. destruct (p c && room most); [|done]. by destruct (rep k p _ _ _ v).
  - apply Forall_cons in Hu as [Hc Hu]. cbn [app rep]. rewrite Hc.
    assert (room most = true) as -> by (destruct most as [[]|]; simpl in *; [lia|done..]). cbn [andb].
    destruct (IH (pred least) (pred <$> most) (Some c)) as [r ->]; [done|simpl in *; lia| |done|by eexists].
    destruct most as [[]|]; simpl in *; lia || done.
Qed.
Lemma match_sound pat : ∀ prev s prev' rest, match_at pat prev s = Some (prev', rest) →
  ∃ w, s = w ++ rest ∧ prev' = last_of prev w ∧ denotes pat prev w rest.
Proof.
  induction pat as [|[|p least most] pat IH]; intros prev s prev' rest H; cbn [Regex.match_at] in H.
  - injection H as <- <-. by exists [].
  - destruct (boundary prev s) eqn:E; [|done]. destruct (IH _ _ _ _ H) as (w & -> & -> & Hw). exists w. by repeat split.
  - apply rep_sound in H as (u & v & -> & Hu & Hl & Hm & (w & -> & -> & Hw)%IH). exists (u ++ w).
    rewrite last_of_app, <-(assoc_L (++)). split_and!; [done|done|]. by exists u, w.
Qed.
Lemma match_complete pat : ∀ prev w rest, denotes pat prev w rest → is_Some (match_at pat prev (w ++ rest)).
Proof.
  induction pat as [|[|p least most] pat IH]; intros prev w rest H; cbn [Regex.match_at].
  - by eexists.
  - destruct H as [-> H]. by apply IH.
  - destruct H as (u & v & -> & Hu & Hl & Hm & Hv). rewrite <-(assoc_L (++)). apply rep_complete; [done..|]. by apply IH.
Qed.

(** ** Words *)
(** A maximal run of word characters of [s], where [prev] is before [s] *)
Definition word_after (prev : option Z) (w s : text) : Prop :=
  ∃ a b, s = a ++ w ++ b ∧ w ≠ [] ∧ Forall (λ c, is_word c = true) w ∧
    word_opt (last_of prev a) = false ∧ word_opt (head b) = false.

Lemma word_after_app prev w m s : word_after (last_of prev m) w s → word_after prev w (m ++ s).
Proof.
  intros (a & b & -> & Hw & Hf & Ha & Hb). exists (m ++ a), b. rewrite last_of_app, <-(assoc_L (++)). done.
Qed.
Lemma word_prefix n w b x o : is_word n = false → Forall (λ c, is_word c = true) w → w ++ b = x ++ n :: o →
  ∃ b', x = w ++ b' ∧ b = b' ++ n :: o.
Proof.
  intros Hn. revert x. induction w as [|c w IH]; intros x Hw H; [by exists x|]. apply Forall_cons in Hw as [Hc Hw].
  destruct x as [|d x]; simplify_eq/=; [congruence|]. destruct (IH x Hw) as (b' & -> & ->); [done|]. by exists b'.
Qed.
Lemma word_after_split n w o x : is_word n = false → ∀ prev, word_after prev w (x ++ n :: o) →
  word_after prev w x ∨ word_after (Some n) w o.
Proof.
  intros Hn. induction x as [|c x IH]; intros prev (a & b & Heq & Hw & Hf & Ha & Hb).
  - right. destruct a as [|n' a]; simplify_eq/=; [|by exists a, b].
    destruct w as [|c w]; [done|]. simplify_eq/=. apply Forall_cons in Hf as [Hc _]. congruence.
  - destruct a as [|c' a]; simpl in Heq.
    + left. destruct (word_prefix n w b (c :: x) o Hn Hf (eq_sym Heq)) as (b' & -> & ->). exists [], b'.
      split_and!; [done..|]. by destruct b'.
    + injection Heq as <- Heq. destruct (IH (Some c)) as [H|H]; [by exists a, b| |by right]. left. by apply (word_after_app prev w [c]).
Qed.
End facts.
End RegexFacts.

(** ** What a substitution leaves *)
Module SubFacts.
Import Regex RegexFacts.
Section facts.
Variable is_word : Z → bool.
Abbreviation word_opt := (word_opt is_word).
Abbreviation boundary := (boundary is_word).
Abbreviation match_at := (match_at is_word).
Abbreviation denotes := (denotes is_word).
Abbreviation word_after := (word_after is_word).
Abbreviation sub_fuel := (sub_fuel is_word).

(** A pattern whose matches are not empty and lie between word boundaries *)
Definition delimited (pat : pattern) : Prop := ∀ prev w rest, denotes pat prev w rest →
  w ≠ [] ∧ boundary prev (w ++ rest) = true ∧ boundary (last_of prev w) rest = true.
(** It matches the words that satisfy [K]. *)
Definition covers (pat : pattern) (K : text → Prop) : Prop := ∀ prev w rest,
  K w → Forall (λ c, is_word c = true) w → w ≠ [] → word_opt prev = false → word_opt (head rest) = false →
  denotes pat prev w rest.
(** A label: a word in brackets that are no word characters *)
Record label_of (l : text) (name : text) : Prop := {
  lo_text : ∃ lt gt, l = lt :: name ++ [gt] ∧ is_word lt = false ∧ is_word gt = false;
  lo_name : name ≠ [];
  lo_word : Forall (λ c, is_word c = true) name;
}.

Lemma boundary_word prev c s : boundary prev (c :: s) = true → is_word c = true → word_opt prev = false.
Proof. unfold Regex.boundary. simpl. intros Hb Hc. rewrite Hc in Hb. by destruct (Regex.word_opt is_word prev). Qed.
Lemma boundary_after c s : boundary (Some c) s = true → is_word c = true → word_opt (head s) = false.
Proof.
  unfold Regex.boundary. change (Regex.word_opt is_word (Some c)) with (is_word c). intros Hb Hc. rewrite Hc in Hb.
  by destruct (Regex.word_opt is_word (head s)).
Qed.

Section sub.
Variables (pat : pattern) (l name : text) (K : text → Prop).
Hypothesis Hdel : delimited pat.
Hypothesis Hcov : covers pat K.
Hypothesis Hlabel : label_of l name.
#[local] Set Default Proof Using "Type".

(** One step: a match is replaced, or a character is copied. *)
Lemma sub_step n prev s (P : text → Prop) :
  (∀ w rest, s = w ++ rest → w ≠ [] → denotes pat prev w rest → P (l ++ sub_fuel n pat l (last_of prev w) rest)) →
  (s = [] → P []) →
  (∀ c s', s = c :: s' → match_at pat prev s = None → P (c :: sub_fuel n pat l (Some c) s')) →
  P (sub_fuel (S n) pat l prev s).
Proof using Hdel.
  intros Hm Hnil Hcopy. cbn [Regex.sub_fuel]. destruct (match_at pat prev s) as [[prev' rest]|] eqn:E.
  - apply match_sound in E as (w & -> & -> & Hw). destruct (Hdel _ _ _ Hw) as (Hne & _ & _).
    rewrite (proj2 (Nat.ltb_lt _ _)); [by apply (Hm w rest)|]. rewrite length_app. destruct w; [done|simpl; lia].
  - destruct s as [|c s]; [by apply Hnil|by apply Hcopy].
Qed.

(** The word that begins before the text goes on as in the original. *)
Lemma sub_prefix w : ∀ n c s b, (length s < n)%nat → is_word c = true →
  sub_fuel n pat l (Some c) s = w ++ b → Forall (λ c, is_word c = true) w → word_opt (head b) = false →
  ∃ b', s = w ++ b' ∧ word_opt (head b') = false.
Proof using Hdel Hlabel.
  destruct Hlabel as [(lt & gt & Hl & Hlt & Hgt) _ _].
  induction w as [|d w IH]; intros n c s b Hn Hc; (destruct n as [|n]; [lia|]).
  - pattern (sub_fuel (S n) pat l (Some c) s). apply sub_step.
    + intros w' rest -> Hne Hw _ _ _. exists (w' ++ rest). split; [done|].
      destruct (Hdel _ _ _ Hw) as (_ & Hb & _). by apply (boundary_after c).
    + intros -> _ _ _. by exists [].
    + intros d s' -> _ H _ Hb. exists (d :: s'). split; [done|]. cbn [app] in H. by subst b.
  - pattern (sub_fuel (S n) pat l (Some c) s). apply sub_step.
    + intros w' rest _ _ _ H [Hd _]%Forall_cons _. rewrite Hl in H. simplify_eq/=. congruence.
    + done.
    + intros d' s' -> _ H [Hd Hw]%Forall_cons Hb. injection H as -> H.
      destruct (IH n d s' b) as (b' & -> & Hb'); [simpl in Hn; lia|done..|]. by exists b'.
Qed.

Lemma label_word prev w : word_after prev w l → w = name.
Proof using Hlabel.
  clear Hdel Hcov K. destruct Hlabel as [(lt & gt & -> & Hlt & Hgt) Hne Hword]. intros H.
  apply (word_after_split is_word gt w [] (lt :: name) Hgt) in H as [H|H].
  - apply (word_after_split is_word lt w name [] Hlt) in H as [(a & b & Heq & Hw & _)|(a & b & Heq & Hw & Hf & Ha & Hb)].
    { destruct a, w; simplify_eq/=. }
    assert (a = []) as ->.
    { destruct a as [|c a _] using rev_ind; [done|]. rewrite last_of_app in Ha. change (is_word c = false) in Ha.
      rewrite Forall_forall in Hword. rewrite (Hword c) in Ha; [done|]. rewrite Heq. set_solver. }
    destruct b as [|c b]; [by rewrite app_nil_r in Heq|]. change (is_word c = false) in Hb.
    cbn [app] in Heq. rewrite Heq, Forall_app in Hword.
    destruct Hword as [_ [Hc _]%Forall_cons]. congruence.
  - destruct H as (a & b & Heq & Hw & _). by destruct a, w; simplify_eq/=.
Qed.

(** The words of the result are words of the text that do not satisfy [K], and
    the label. *)
Lemma sub_words w n : ∀ prev q s, (length s < n)%nat → q = prev ∨ word_opt q = false ∧ boundary prev s = true →
  word_after q w (sub_fuel n pat l prev s) → word_after prev w s ∧ ¬ K w ∨ w = name.
Proof using Hdel Hcov Hlabel.
  induction n as [|n IH]; intros prev q s Hn Hq; [lia|].
  pattern (sub_fuel (S n) pat l prev s). apply sub_step.
  - intros m rest -> Hne Hm Hw. destruct (Hdel _ _ _ Hm) as (_ & _ & Hb).
    pose proof Hlabel as [(lt & gt & Hl & _ & Hgt) _ _]. rewrite Hl in Hw.
    change ((lt :: name ++ [gt]) ++ ?o) with (lt :: (name ++ [gt]) ++ o) in Hw.
    rewrite <-(assoc_L (++)), app_comm_cons in Hw. cbn [app] in Hw.
    apply (word_after_split is_word gt w _ (lt :: name) Hgt) in Hw as [Hw|Hw].
    + right. apply (label_word q). destruct Hw as (a & b & Heq & Hw & Hf & Ha & Hb'). exists a, (b ++ [gt]). rewrite Hl.
      split_and!; [|done..|by destruct b].
      change (lt :: name ++ [gt]) with ((lt :: name) ++ [gt]). by rewrite Heq, <-!(assoc_L (++)).
    + rewrite <-Hl in Hw. apply IH in Hw as [[Hw HK]|Hw]; [|by right|..].
      * left. split; [|done]. by apply word_after_app.
      * rewrite length_app in Hn. destruct m; [done|simpl in Hn; lia].
      * right. split; [done|exact Hb].
  - intros _ (a & b & Heq & Hw & _). by destruct a, w.
  - intros c s' -> Hnone (a & b & Heq & Hw & Hf & Ha & Hb). simpl in Hn. destruct a as [|c' a]; simpl in *.
    + destruct w as [|c' w]; [done|]. injection Heq as <- Heq. apply Forall_cons in Hf as [Hc Hf].
      destruct (sub_prefix w n c s' b) as (b' & -> & Hb'); [lia|done..|].
      assert (word_opt prev = false) as Hprev.
      { destruct Hq as [<-|[_ Hbd]]; [done|by apply (boundary_word prev c (w ++ b'))]. }
      left. split; [exists [], b'; by split_and!; [|done|constructor|..]|]. intros HK.
      destruct (match_complete is_word pat prev (c :: w) b') as [r Hr]; [|by rewrite <-app_comm_cons, Hnone in Hr].
      apply Hcov; [done|by constructor|done..].
    + injection Heq as <- Heq. destruct (IH (Some c) (Some c) s') as [[H HK]|H]; [lia|by left|by exists a, b| |by right].
      left. split; [|done]. by apply (word_after_app is_word prev w [c]).
Qed.

(** A text without a match stays as it is. *)
Lemma sub_id n : ∀ prev s, (length s < n)%nat →
  (∀ a w rest, s = a ++ w ++ rest → ¬ denotes pat (last_of prev a) w rest) → sub_fuel n pat l prev s = s.
Proof using Hdel.
  induction n as [|n IH]; intros prev s Hn Hno; [lia|]. apply (sub_step n prev s (λ o, o = s)).
  - intros w rest -> _ Hw. by destruct (Hno [] w rest).
  - done.
  - intros c s' -> _. f_equal. apply IH; [simpl in Hn; lia|]. intros a w rest ->. exact (Hno (c :: a) w rest eq_refl).
Qed.
Lemma sub_Forall (P : Z → Prop) n : ∀ prev s, Forall P l → Forall P s → Forall P (sub_fuel n pat l prev s).
Proof using Hdel.
  induction n as [|n IH]; intros prev s Hl Hs; [constructor|]. apply (sub_step n prev s (Forall P)).
  - intros w rest -> _ _. apply Forall_app in Hs as [_ Hs]. apply Forall_app. auto.
  - constructor.
  - intros c s' -> _. apply Forall_cons in Hs as [Hc Hs]. constructor; auto.
Qed.
End sub.
End facts.
End SubFacts.

(** ** What the rules match *)
Module RulesFacts.
Import Regex RegexFacts SubFacts AnonymizerRules.

(** What the rules rely on of the interpreter's Unicode tables *)
Record unicode_tables (is_word is_digit : Z → bool) : Prop := {
  ascii_word c : 0 <= c < 128 → is_word c = alnum c || (c =? 95);
  digit_word c : is_digit c = true → is_word c = true;
  ascii_digit c : 0 <= c < 128 → is_digit c = between 48 57 c;
  han_word c : between 19968 40959 c = true → is_word c = true;
}.

Section facts.
Variables (is_word is_digit : Z → bool).
Hypothesis Htables : unicode_tables is_word is_digit.
Abbreviation word_opt := (word_opt is_word).
Abbreviation boundary := (boundary is_word).
Abbreviation denotes := (denotes is_word).
#[local] Set Default Proof Using "Type".

(** What the rules are about *)
Definition phone (w : text) : bool :=
  match w with
  | c :: d :: ds => (49 =? c) && between 51 57 d && (length ds =? 9)%nat && forallb is_digit ds
  | _ => false
  end.
Definition id_number (ds : text) : bool := forallb is_digit ds && (15 <=? length ds)%nat && (length ds <=? 18)%nat.
Definition id_card (w : text) : bool :=
  id_number w || match reverse w with c :: ds => ((c =? 88) || (c =? 120)) && id_number (reverse ds) | [] => false end.
Definition short_name (w : text) : bool :=
  forallb (between 19968 40959) w && (2 <=? length w)%nat && (length w <=? 4)%nat.
Definition sensitive (w : text) : bool := phone w || id_card w || short_name w.

Lemma denotes_app p1 p2 : ∀ prev w rest, denotes (p1 ++ p2) prev w rest ↔
  ∃ u v, w = u ++ v ∧ denotes p1 prev u (v ++ rest) ∧ denotes p2 (last_of prev u) v rest.
Proof.
  induction p1 as [|[|p least most] p1 IH]; intros prev w rest; cbn [app RegexFacts.denotes].
  - split; [intros H; by exists [], w|]. by intros (u & v & -> & -> & H).
  - rewrite IH. split.
    + intros [Hb (u & v & -> & H1 & H2)]. exists u, v. by rewrite (assoc_L (++)).
    + intros (u & v & -> & [Hb H1] & H2). rewrite <-(assoc_L (++)). split; [done|]. by exists u, v.
  - split.
    + intros (u & x & -> & Hu & Hl & Hm & (u' & v & -> & H1 & H2)%IH). exists (u ++ u'), v.
      rewrite last_of_app, (assoc_L (++)). split_and!; [done| |done]. by exists u, u'.
    + intros (x & v & -> & (u & u' & -> & Hu & Hl & Hm & H1) & H2). rewrite last_of_app in H2.
      exists u, (u' ++ v). rewrite (assoc_L (++)). split_and!; [done..|]. apply IH. by exists u', v.
Qed.
Lemma denotes_delimited body prev w rest : denotes (Boundary :: body ++ [Boundary]) prev w rest ↔
  boundary prev (w ++ rest) = true ∧ denotes body prev w rest ∧ boundary (last_of prev w) rest = true.
Proof.
  cbn [RegexFacts.denotes]. rewrite denotes_app. split.
  - intros [Hb (u & v & -> & H1 & H2 & ->)]. by rewrite app_nil_r in *.
  - intros (Hb & H1 & H2). split; [done|]. exists w, []. by rewrite app_nil_r.
Qed.
Fixpoint min_length (pat : pattern) : nat :=
  match pat with [] => 0 | Boundary :: pat => min_length pat | Chars _ least _ :: pat => least + min_length pat end.
Lemma denotes_length pat : ∀ prev w rest, denotes pat prev w rest → (min_length pat <= length w)%nat.
Proof.
  induction pat as [|[|p least most] pat IH]; intros prev w rest; cbn [RegexFacts.denotes min_length]; [lia|naive_solver|].
  intros (u & v & -> & _ & Hl & _ & Hv%IH). rewrite length_app. lia.
Qed.
Lemma delimited_pattern body : (0 < min_length body)%nat → delimited is_word (Boundary :: body ++ [Boundary]).
Proof.
  intros Hm prev w rest (Hb & Hw & He)%denotes_delimited. split_and!; [|done..].
  apply denotes_length in Hw. destruct w; [simpl in Hw; lia|done].
Qed.

Lemma last_of_word prev w : w ≠ [] → Forall (λ c, is_word c = true) w → word_opt (last_of prev w) = true.
Proof.
  destruct w as [|c w _] using rev_ind; [done|]. intros _ [_ Hc]%Forall_app. rewrite last_of_app.
  apply Forall_cons in Hc as [Hc _]. exact Hc.
Qed.
Lemma covers_words body K : (∀ prev w rest, K w → denotes body prev w rest) →
  covers is_word (Boundary :: body ++ [Boundary]) K.
Proof.
  intros HK prev w rest Hk Hf Hne Hp Hr. apply denotes_delimited. split_and!; [|by apply HK|].
  - destruct w as [|c w]; [done|]. apply Forall_cons in Hf as [Hc _]. unfold Regex.boundary.
    rewrite Hp. change (Regex.word_opt is_word (head ((c :: w) ++ rest))) with (is_word c). by rewrite Hc.
  - unfold Regex.boundary. by rewrite last_of_word, Hr.
Qed.
(** A match of such a pattern that has word characters only is a word. *)
Lemma match_is_word body prev w rest : denotes (Boundary :: body ++ [Boundary]) prev w rest → w ≠ [] →
  Forall (λ c, is_word c = true) w → word_opt prev = false ∧ word_opt (head rest) = false.
Proof.
  intros (Hb & _ & He)%denotes_delimited Hne Hf. split.
  - destruct w as [|c w]; [done|]. apply Forall_cons in Hf as [Hc _]. by apply (boundary_word is_word prev c (w ++ rest)).
  - unfold Regex.boundary in He. rewrite last_of_word in He by done. by destruct (Regex.word_opt is_word (head rest)).
Qed.

Lemma denotes_one p pat prev w rest : denotes (One p :: pat) prev w rest ↔
  ∃ c v, w = c :: v ∧ p c = true ∧ denotes pat (Some c) v rest.
Proof.
  cbn [RegexFacts.denotes One]. split.
  - intros (u & v & -> & Hu & Hl & Hm & Hv). simpl in Hm. destruct u as [|c [|]]; simpl in *; [lia| |lia].
    apply Forall_cons in Hu as [Hu _]. by exists c, v.
  - intros (c & v & -> & Hc & Hv). exists [c], v. split_and!; [done|by constructor|simpl; lia..|done].
Qed.
Lemma Forall_forallb (p : Z → bool) w : Forall (λ c, p c = true) w ↔ forallb p w = true.
Proof. rewrite forallb_forall, Forall_forall. by setoid_rewrite list_elem_of_In. Qed.
Lemma denotes_last p least most prev w rest : denotes [Chars p least most] prev w rest ↔
  forallb p w = true ∧ (least <= length w)%nat ∧ within most (length w).
Proof.
  cbn [RegexFacts.denotes]. rewrite <-Forall_forallb. split.
  - intros (u & v & -> & Hu & Hl & Hm & ->). by rewrite app_nil_r.
  - intros (Hu & Hl & Hm). exists w, []. by rewrite app_nil_r.
Qed.

Definition phone_body : pattern := [One (Z.eqb 49); One (between 51 57); Chars is_digit 9 (Some 9%nat)].
Definition id_body : pattern := [Chars is_digit 15 (Some 18%nat); Chars (λ c, (c =? 88) || (c =? 120)) 0 (Some 1%nat)].
Definition name_body : pattern := [Chars (between 19968 40959) 2 (Some 4%nat)].

Lemma phone_shape prev w rest : denotes phone_body prev w rest ↔ phone w = true.
Proof.
  unfold phone_body, phone. rewrite denotes_one. split.
  - intros (c & v & -> & Hc & (d & ds & -> & Hd & (Hf & Hl & Hm)%denotes_last)%denotes_one). simpl in Hm.
    rewrite Hc, Hd, Hf. by replace (length ds) with 9%nat by lia.
  - destruct w as [|c [|d ds]]; [done..|]. rewrite !andb_true_iff, Nat.eqb_eq. intros [[[Hc Hd] Hl] Hf].
    exists c, (d :: ds). split_and!; [done..|]. apply denotes_one. exists d, ds. split_and!; [done..|].
    apply denotes_last. simpl. split_and!; [done|lia..].
Qed.
Lemma id_number_iff ds : id_number ds = true ↔ forallb is_digit ds = true ∧ (15 <= length ds <= 18)%nat.
Proof. unfold id_number. rewrite !andb_true_iff, !Nat.leb_le. tauto. Qed.
Lemma id_shape prev w rest : denotes id_body prev w rest ↔ id_card w = true.
Proof.
  unfold id_body, id_card. cbn [RegexFacts.denotes].
  rewrite orb_true_iff. split.
  - intros (u & v & -> & Hu & Hl & Hm & x & y & -> & Hx & _ & Hm' & ->). simpl in Hm, Hm'. rewrite app_nil_r.
    apply Forall_forallb in Hu. destruct x as [|c [|]]; simpl in Hm'; [left|right|lia].
    + rewrite app_nil_r. by apply id_number_iff.
    + rewrite reverse_app. rewrite reverse_singleton. cbn [app]. rewrite reverse_involutive.
      apply Forall_cons in Hx as [Hc _]. apply andb_true_iff. split; [done|]. by apply id_number_iff.
  - intros [[Hf Hl]%id_number_iff|H].
    + exists w, []. rewrite app_nil_r. simpl. split_and!; [done|by apply Forall_forallb|lia|lia|].
      exists [], []. split_and!; [done|apply Forall_nil_2|simpl; lia..|done].
    + destruct (reverse w) as [|c ds] eqn:E; [done|]. apply andb_true_iff in H as [Hc [Hf Hl]%id_number_iff].
      apply (f_equal reverse) in E. rewrite reverse_involutive, reverse_cons in E. exists (reverse ds), [c]. simpl.
      split_and!; [done|by apply Forall_forallb|lia|lia|]. exists [c], [].
      split_and!; [done|by constructor|simpl; lia..|done].
Qed.
Lemma name_shape prev w rest : denotes name_body prev w rest ↔ short_name w = true.
Proof. unfold name_body, short_name. rewrite denotes_last, !andb_true_iff, !Nat.leb_le. simpl. tauto. Qed.

(** They consist of word characters. *)
Lemma sensitive_word w : sensitive w = true → w ≠ [] ∧ Forall (λ c, is_word c = true) w.
Proof using Htables.
  destruct Htables as [Hascii Hdigit _ Han].
  assert (∀ ds, forallb is_digit ds = true → Forall (λ c, is_word c = true) ds) as Hds.
  { intros ds Hf%Forall_forallb. by eapply Forall_impl. }
  unfold sensitive. rewrite !orb_true_iff. intros [[Hp|Hi]|Hn].
  - destruct w as [|c [|d ds]]; [done..|]. unfold phone in Hp. rewrite !andb_true_iff in Hp. destruct Hp as [[[Hc Hd] _] Hf].
    unfold between in Hd. split; [done|]. apply Forall_cons_2; [|apply Forall_cons_2; [|by apply Hds]];
      rewrite Hascii by lia; unfold alnum, letter, between; lia.
  - unfold id_card in Hi. apply orb_true_iff in Hi as [[Hf Hl]%id_number_iff|H].
    + split; [by destruct w; simpl in Hl; [lia|]|by apply Hds].
    + destruct (reverse w) as [|c ds] eqn:E; [done|]. apply andb_true_iff in H as [Hc [Hf Hl]%id_number_iff].
      apply (f_equal reverse) in E. rewrite reverse_involutive, reverse_cons in E. subst w.
      split; [by destruct (reverse ds)|]. apply Forall_app. split; [by apply Hds|]. constructor; [|constructor].
      rewrite Hascii by lia. unfold alnum, letter, between. lia.
  - unfold short_name in Hn. rewrite !andb_true_iff, !Nat.leb_le in Hn. destruct Hn as [[Hf%Forall_forallb Hl] _].
    split; [by destruct w; simpl in Hl; [lia|]|]. by eapply Forall_impl.
Qed.

(** *** The chain *)
Definition word_in (w t : text) : Prop := word_after is_word None w t.
Definition label_names : list text := ascii_points <$> ["PHONE"; "EMAIL"; "ID_CARD"; "NAME"].

Lemma ascii_points_app a b : ascii_points (a +:+ b) = ascii_points a ++ ascii_points b.
Proof.
  unfold ascii_points. rewrite <-fmap_app. f_equal. induction a as [|c a IH]; [done|].
  change (c :: String.list_ascii_of_string (a +:+ b) = c :: (String.list_ascii_of_string a ++ String.list_ascii_of_string b)).
  by rewrite IH.
Qed.
Lemma ascii_label s name : s = "<" +:+ name +:+ ">" → name ≠ "" →
  forallb (λ c, between 0 127 c && (alnum c || (c =? 95))) (ascii_points name) = true →
  label_of is_word (ascii_points s) (ascii_points name).
Proof using Htables.
  intros -> Hne Hw%Forall_forallb. destruct Htables as [Hascii _ _ _]. split.
  - exists 60, 62. split_and!; [|rewrite Hascii by lia; reflexivity..].
    by rewrite !ascii_points_app.
  - by destruct name.
  - eapply Forall_impl; [exact Hw|]. intros c. cbn beta. intros [Hc Hx]%andb_true_iff.
    rewrite Hascii; [done|]. unfold between in Hc. lia.
Qed.
Lemma stage body K s name t w : (0 < min_length body)%nat → (∀ prev w rest, K w = true → denotes body prev w rest) →
  label_of is_word (ascii_points s) (ascii_points name) →
  word_in w (sub is_word (Boundary :: body ++ [Boundary]) (ascii_points s) t) →
  word_in w t ∧ K w ≠ true ∨ w = ascii_points name.
Proof.
  intros Hm HK Hl Hw. unfold sub in Hw.
  apply (sub_words is_word _ _ (ascii_points name) (λ w, K w = true)) in Hw; [done|by apply delimited_pattern| |done|lia|by left].
  by apply covers_words.
Qed.
Lemma stage_id body (K : text → bool) s t : (0 < min_length body)%nat →
  (∀ a w rest, t = a ++ w ++ rest → ¬ denotes (Boundary :: body ++ [Boundary]) (last_of None a) w rest) →
  sub is_word (Boundary :: body ++ [Boundary]) s t = t.
Proof. intros Hm Hno. apply sub_id; [by apply delimited_pattern|lia|done]. Qed.
Lemma no_match body (K : text → bool) t : (0 < min_length body)%nat → (∀ prev w rest, denotes body prev w rest → K w = true) →
  (∀ w, K w = true → sensitive w = true) → (∀ w, word_in w t → sensitive w = false) →
  ∀ a w rest, t = a ++ w ++ rest → ¬ denotes (Boundary :: body ++ [Boundary]) (last_of None a) w rest.
Proof using Htables.
  intros Hm HK Hs Hno a w rest -> Hd. pose proof Hd as (_ & Hw%HK%Hs & _)%denotes_delimited.
  destruct (sensitive_word w Hw) as [Hne Hf]. destruct (match_is_word _ _ _ _ Hd Hne Hf) as [Hp Hr].
  enough (sensitive w = false) by congruence. apply Hno. by exists a, rest.
Qed.

Definition email_body : pattern :=
  [Chars (λ c, alnum c || one_of (ascii_points "._%+-") c) 1 None; One (Z.eqb 64);
   Chars (λ c, alnum c || one_of (ascii_points ".-") c) 1 None; One (Z.eqb 46); Chars (λ c, letter c || (c =? 124)) 2 None].
Lemma email_at prev w rest : denotes email_body prev w rest → 64 ∈ w.
Proof.
  unfold email_body. intros (u & v & -> & _ & _ & _ & (c & x & -> & Hc & _)%denotes_one). apply Z.eqb_eq in Hc. subst c.
  apply elem_of_app. right. by left.
Qed.

Lemma anonymize_eq t : anonymize is_word is_digit t =
  sub is_word (Boundary :: name_body ++ [Boundary]) (ascii_points "<NAME>")
   (sub is_word (Boundary :: id_body ++ [Boundary]) (ascii_points "<ID_CARD>")
    (sub is_word (Boundary :: email_body ++ [Boundary]) (ascii_points "<EMAIL>")
     (sub is_word (Boundary :: phone_body ++ [Boundary]) (ascii_points "<PHONE>") t))).
Proof. reflexivity. Qed.

Lemma anonymize_words t w : word_in w (anonymize is_word is_digit t) →
  word_in w t ∧ sensitive w = false ∨ w ∈ label_names.
Proof using Htables.
  rewrite anonymize_eq. intros Hw.
  apply (stage name_body short_name "<NAME>" "NAME") in Hw as [[Hw Hn]| ->]; [|right; set_solver|..];
    [|simpl; lia|intros; by apply name_shape|by apply ascii_label].
  apply (stage id_body id_card "<ID_CARD>" "ID_CARD") in Hw as [[Hw Hi]| ->]; [|right; set_solver|..];
    [|simpl; lia|intros; by apply id_shape|by apply ascii_label].
  apply (stage email_body (λ _, false) "<EMAIL>" "EMAIL") in Hw as [[Hw _]| ->]; [|right; set_solver|..];
    [|simpl; lia|done|by apply ascii_label].
  apply (stage phone_body phone "<PHONE>" "PHONE") in Hw as [[Hw Hp]| ->]; [|right; set_solver|..];
    [|simpl; lia|intros; by apply phone_shape|by apply ascii_label].
  left. split; [done|]. unfold sensitive. apply not_true_is_false in Hn, Hi, Hp. by rewrite Hn, Hi, Hp.
Qed.
Lemma anonymize_id t : (∀ w, word_in w t → sensitive w = false) → 64 ∉ t → anonymize is_word is_digit t = t.
Proof using Htables.
  intros Hno Hat. rewrite anonymize_eq.
  assert (∀ w, phone w = true → sensitive w = true) as H1 by (intros w; unfold sensitive; by intros ->).
  assert (∀ w, id_card w = true → sensitive w = true) as H2.
  { intros w. unfold sensitive. intros ->. by rewrite orb_true_r. }
  assert (∀ w, short_name w = true → sensitive w = true) as H3.
  { intros w. unfold sensitive. intros ->. by rewrite orb_true_r. }
  rewrite (stage_id phone_body phone _ t); [|simpl; lia|eapply no_match; [simpl; lia|by intros ??? ?%phone_shape|done..]].
  rewrite (stage_id email_body phone _ t); [|simpl; lia|].
  2: { intros a w rest -> (_ & Hw%email_at & _)%denotes_delimited. apply Hat. set_solver. }
  rewrite (stage_id id_body id_card _ t); [|simpl; lia|eapply no_match; [simpl; lia|by intros ??? ?%id_shape|done..]].
  by rewrite (stage_id name_body short_name _ t); [|simpl; lia|eapply no_match; [simpl; lia|by intros ??? ?%name_shape|done..]].
Qed.
Lemma label_not_sensitive w : w ∈ label_names → sensitive w = false.
Proof.
  assert (∀ ds, (length ds < 15)%nat → id_number ds = false) as Hid.
  { intros ds Hl. apply not_true_is_false. intros [_ ?]%id_number_iff. lia. }
  unfold label_names, sensitive, id_card. cbn [fmap list_fmap].
  intros [->|[->|[->|[->|[]%elem_of_nil]%elem_of_cons]%elem_of_cons]%elem_of_cons]%elem_of_cons;
    rewrite Hid by (cbn; lia); reflexivity.
Qed.
End facts.
End RulesFacts.

(** ** Encoded texts *)
Module Utf8Facts.
Import JsonRoundTrip.
#[local] Arguments String.append : simpl nomatch.

(** The quotients and remainders of the bytes *)
Ltac bytes := change (64 ^ 0) with 1 in *; change (64 ^ 1) with 64 in *; change (64 ^ 2) with 4096 in *;
  Z.to_euclidean_division_equations; lia.
Lemma first_point_utf8 n r : scalar n = true → Json.first_point (Json.utf8 n +:+ r) = n.
Proof.
  intros Hn. unfold scalar in Hn. unfold Json.utf8.
  destruct (Z.ltb_spec n 128); [|destruct (Z.ltb_spec n 2048); [|destruct (Z.ltb_spec n 65536)]];
    cbn [String.append Json.first_point String.get].
  - rewrite code_char by lia. by replace (n <? 128) with true by lia.
  - rewrite !code_char by bytes. replace (192 + n / 64 <? 128) with false by bytes.
    replace (192 + n / 64 <? 224) with true by bytes. bytes.
  - rewrite !code_char by bytes. replace (224 + n / 4096 <? 128) with false by bytes.
    replace (224 + n / 4096 <? 224) with false by bytes. replace (224 + n / 4096 <? 240) with true by bytes. bytes.
  - rewrite !code_char by bytes. replace (240 + n / 262144 <? 128) with false by bytes.
    replace (240 + n / 262144 <? 224) with false by bytes. replace (240 + n / 262144 <? 240) with false by bytes. bytes.
Qed.
Lemma utf8_not_empty n : Json.utf8 n ≠ "".
Proof. unfold Json.utf8. by repeat case_match. Qed.
Lemma next_point_utf8 n r : scalar n = true → Json.next_point (Json.utf8 n +:+ r) = Some (n, r).
Proof.
  intros Hn. unfold Json.next_point. destruct (Json.utf8 n +:+ r) as [|c s] eqn:E.
  { pose proof (utf8_not_empty n). by destruct (Json.utf8 n). }
  rewrite <-E, first_point_utf8, ScanFacts.strip_app by done. done.
Qed.
Lemma points_utf8 l : ∀ fuel, (length l <= fuel)%nat → forallb scalar l = true →
  Json.points fuel (Json.concat_strings (Json.utf8 <$> l)) = l.
Proof.
  induction l as [|n l IH]; intros fuel Hf Hl; [by destruct fuel|]. apply andb_true_iff in Hl as [Hn Hl].
  destruct fuel as [|fuel]; [simpl in Hf; lia|]. rewrite fmap_cons. cbn [Json.concat_strings foldr Json.points].
  rewrite next_point_utf8 by done. f_equal. apply IH; [simpl in Hf; lia|done].
Qed.
Lemma points_of_utf8 l : forallb scalar l = true → Json.points_of (Json.concat_strings (Json.utf8 <$> l)) = l.
Proof.
  intros Hl. apply points_utf8; [|done]. clear Hl. induction l as [|n l IH]; [done|].
  rewrite fmap_cons. cbn [Json.concat_strings foldr length]. rewrite ScanFacts.length_app_s.
  pose proof (utf8_not_empty n). destruct (Json.utf8 n); [done|]. simpl. unfold Json.concat_strings in IH. lia.
Qed.
End Utf8Facts.

Import Regex RegexFacts AnonymizerRules RulesFacts.

Lemma sub_scalar is_word body l t : (0 < min_length body)%nat → forallb JsonRoundTrip.scalar l = true →
  forallb JsonRoundTrip.scalar t = true →
  forallb JsonRoundTrip.scalar (sub is_word (Boundary :: body ++ [Boundary]) l t) = true.
Proof.
  intros Hm Hl Ht. apply Forall_forallb. apply SubFacts.sub_Forall; [by apply delimited_pattern|by apply Forall_forallb..].
Qed.
Lemma anonymize_text_points is_word is_digit s : JsonRoundTrip.scalar_text s = true →
  Json.points_of (TrafficAnonymizer.anonymize_text (default_rules is_word is_digit) s) =
  anonymize is_word is_digit (Json.points_of s).
Proof.
  intros [_ Hs]%andb_true_iff. unfold TrafficAnonymizer.anonymize_text, default_rules. cbn [default_patterns fmap list_fmap foldl fst snd].
  rewrite anonymize_eq.
  pose proof (sub_scalar is_word (phone_body is_digit) (ascii_points "<PHONE>") (Json.points_of s) ltac:(simpl; lia) eq_refl Hs) as H1.
  pose proof (sub_scalar is_word email_body (ascii_points "<EMAIL>") _ ltac:(simpl; lia) eq_refl H1) as H2.
  pose proof (sub_scalar is_word (id_body is_digit) (ascii_points "<ID_CARD>") _ ltac:(simpl; lia) eq_refl H2) as H3.
  pose proof (sub_scalar is_word name_body (ascii_points "<NAME>") _ ltac:(simpl; lia) eq_refl H3) as H4.
  change (phone_pattern is_digit) with (Boundary :: phone_body is_digit ++ [Boundary]).
  change email_pattern with (Boundary :: email_body ++ [Boundary]).
  change (id_pattern is_digit) with (Boundary :: id_body is_digit ++ [Boundary]).
  change name_pattern with (Boundary :: name_body ++ [Boundary]).
  rewrite (Utf8Facts.points_of_utf8 _ H1), (Utf8Facts.points_of_utf8 _ H2), (Utf8Facts.points_of_utf8 _ H3).
  by rewrite (Utf8Facts.points_of_utf8 _ H4).
Qed.


(** ** Examples *)
Module AnonymizerExample.
(** Tables of ASCII and the Chinese characters *)
Definition is_word (c : Z) : bool := alnum c || (c =? 95) || between 19968 40959 c.
Definition is_digit (c : Z) : bool := between 48 57 c.
Lemma tables : unicode_tables is_word is_digit.
Proof.
  split; intros c; unfold is_word, is_digit, alnum, letter, between; intros Hc.
  - replace ((19968 <=? c) && (c <=? 40959)) with false by lia. by rewrite orb_false_r.
  - rewrite Hc. by rewrite orb_true_r.
  - done.
  - rewrite Hc. by rewrite orb_true_r.
Qed.
Abbreviation anonymize_text := (TrafficAnonymizer.anonymize_text (default_rules is_word is_digit)).

Example masks_everything :
  anonymize_text "call 13812345678, mail a.b@qq.com.cn; 王小明 110101199003071234x" =
  "call <PHONE>, mail <EMAIL>; <NAME> <ID_CARD>".
Proof. by vm_compute. Qed.


(** Chinese characters are word characters: a number written directly after
    Chinese text is no word of its own and is not masked, while any two to four
    Chinese characters between punctuation count as a name. *)
Example number_in_chinese_text_leaks :
  anonymize_text "联系电话13812345678" = "联系电话13812345678" ∧ anonymize_text "退款，30天" = "<NAME>，30天".
Proof. by vm_compute. Qed.
End AnonymizerExample.
