(* ===== verification/Observability.v ===== *)
(** * Tracing, logging, auditing and exporters
    (src/src/observability/tracer.py, logger.py, exporters; src/src/gateway/audit_logger.py)

    [time n] is the n-th reading of [time.time()], [hex n] the hexadecimal text
    of the n-th [uuid.uuid4()], [uuid n] its usual text and [hash] the truncated
    digest of the serialized parameters.  Exporters and alert handlers are
    callbacks that may raise; they act on a world of their own. *)
From Stdlib Require Import Floats.SpecFloat.
From S2P Require Import Prelude PyFloat PyValue PySort.
Local Open Scope Z_scope.

(** ** tracer.py *)
Record TraceContext := mkTraceContext {
  tc_trace_id : string;
  tc_session_id : string;
  tc_case_id : string;
  tc_tags : dict pyval;
}.

Record SpanRecord := mkSpanRecord {
  sp_trace_id : string;
  sp_session_id : string;
  sp_case_id : string;
  sp_step_id : string;
  sp_parent_step_id : option string;
  sp_component : string;
  sp_name : string;
  sp_started_at_ms : float;
  sp_ended_at_ms : float;
  sp_duration_ms : float;
  sp_status : string;
  sp_error_code : option string;
  sp_metadata : dict pyval;
}.

Record SpanScope := mkSpanScope {
  sc_step_id : string;
  sc_trace_context : TraceContext;
  sc_component : string;
  sc_name : string;
  sc_parent_step_id : option string;
  sc_metadata : dict pyval;
  sc_started_at_ms : float;
  sc_closed : bool;
}.

(** ** logger.py *)
Record StructuredLogEntry := mkLogEntry {
  le_timestamp_ms : float;
  le_level : string;
  le_event_type : string;
  le_component : string;
  le_message : string;
  le_trace_id : option string;
  le_session_id : option string;
  le_case_id : option string;
  le_step_id : option string;
  le_error_code : pyval;
  le_metadata : dict pyval;
}.

(** A tracer and a logger with the clock and identifier source they share. *)
Record obs := mkObs {
  spans : list SpanRecord;
  logs : list StructuredLogEntry;
  ob_clock : nat;
  ob_ids : nat;
}.

Definition opt_str (o : option string) : pyval := from_option VStr VNone o.

(** [x.update(y)] on dictionaries *)
Definition dict_update {A} (x y : dict A) : dict A := foldl (λ d kv, dinsert kv.1 kv.2 d) x y.

(** [time.time() * 1000] *)
Definition now_ms (time : nat → float) : st obs float := λ o,
  (Ok (PyFloat.mul (time (ob_clock o)) (PyFloat.of_Z 1000)),
   mkObs (spans o) (logs o) (S (ob_clock o)) (ob_ids o)).

(** [exporter.export_spans([d])] or [exporter.export([d])], if one is set *)
Definition export (e : option (dict pyval → res unit)) (d : dict pyval) : st obs unit :=
  st_lift (match e with Some f => f d | None => Ok tt end).

Module Tracer.
Section tracer.
Context (time : nat → float) (hex : nat → string) (span_exporter : option (dict pyval → res unit)).

(** [asdict(self)] *)
Definition to_dict (r : SpanRecord) : dict pyval :=
  [("trace_id", VStr (sp_trace_id r)); ("session_id", VStr (sp_session_id r));
   ("case_id", VStr (sp_case_id r)); ("step_id", VStr (sp_step_id r));
   ("parent_step_id", opt_str (sp_parent_step_id r)); ("component", VStr (sp_component r));
   ("name", VStr (sp_name r)); ("started_at_ms", VFloat (sp_started_at_ms r));
   ("ended_at_ms", VFloat (sp_ended_at_ms r)); ("duration_ms", VFloat (sp_duration_ms r));
   ("status", VStr (sp_status r)); ("error_code", opt_str (sp_error_code r));
   ("metadata", VDict (sp_metadata r))].

Definition record (r : SpanRecord) : st obs unit :=
  st_modify (λ o, mkObs (spans o ++ [r]) (logs o) (ob_clock o) (ob_ids o)) ≫= λ _,
  export span_exporter (to_dict r).

(** [SpanScope.__init__]: [f"step-{uuid.uuid4().hex[:8]}"] *)
Definition start_span (ctx : TraceContext) (component name : string) (parent : option string)
    (metadata : option (dict pyval)) : st obs SpanScope := λ o,
  (Ok (mkSpanScope ("step-" +:+ String.substring 0 8 (hex (ob_ids o))) ctx component name parent
         (default [] metadata) PyFloat.zero false),
   mkObs (spans o) (logs o) (ob_clock o) (S (ob_ids o))).

(** [__enter__] *)
Definition enter (s : SpanScope) : st obs SpanScope :=
  t ← now_ms time;
  mret (mkSpanScope (sc_step_id s) (sc_trace_context s) (sc_component s) (sc_name s)
          (sc_parent_step_id s) (sc_metadata s) t (sc_closed s)).

Definition close (s : SpanScope) : SpanScope :=
  mkSpanScope (sc_step_id s) (sc_trace_context s) (sc_component s) (sc_name s)
    (sc_parent_step_id s) (sc_metadata s) (sc_started_at_ms s) true.

Definition span_of (s : SpanScope) (ended : float) (status : string) (error_code : option string)
    (metadata : option (dict pyval)) : SpanRecord :=
  let ctx := sc_trace_context s in
  mkSpanRecord (tc_trace_id ctx) (tc_session_id ctx) (tc_case_id ctx) (sc_step_id s)
    (sc_parent_step_id s) (sc_component s) (sc_name s) (sc_started_at_ms s) ended
    (PyFloat.max PyFloat.zero (PyFloat.sub ended (sc_started_at_ms s)))
    status error_code (dict_update (sc_metadata s) (default [] metadata)).

(** [finish]: the record and the closed scope. *)
Definition finish (s : SpanScope) (status : string) (error_code : option string)
    (metadata : option (dict pyval)) : st obs (SpanRecord * SpanScope) :=
  st_lift (raise_if (sc_closed s) (Raised "RuntimeError" "span already closed")) ≫= λ _,
  ended ← now_ms time;
  let r := span_of s ended status error_code metadata in
  record r ≫= λ _, mret (r, close s).

(** [__exit__] *)
Definition exit_ (s : SpanScope) (e : option exc) : st obs unit :=
  if sc_closed s then mret tt else
  finish s (match e with None => "ok" | Some _ => "error" end) (class_name <$> e) None ≫= λ _, mret tt.

Definition list_spans (o : obs) : list SpanRecord := spans o.

(** [with tracer.start_span(...) as span: body] inside a method of an object
    [S] that owns the tracer. *)
Section with_span.
Context {S A : Type} (get : S → obs) (set : obs → S → S).
Definition in_span (scope : SpanScope) (body : string → st S A) : st S A := λ s,
  match body (sc_step_id scope) s with
  | (Ok a, s') => (zoom get set (exit_ scope None) ≫= λ _, mret a) s'
  | (Err e, s') => (zoom get set (exit_ scope (Some e)) ≫= λ _, st_raise e) s'
  end.
Definition with_span (ctx : TraceContext) (component name : string) (body : string → st S A) : st S A :=
  scope ← zoom get set (s ← start_span ctx component name None None; enter s);
  in_span scope body.
End with_span.
End tracer.
End Tracer.

Module Logger.
Section logger.
Context (time : nat → float) (log_exporter : option (dict pyval → res unit)).

(** [asdict(self)] *)
Definition to_dict (e : StructuredLogEntry) : dict pyval :=
  [("timestamp_ms", VFloat (le_timestamp_ms e)); ("level", VStr (le_level e));
   ("event_type", VStr (le_event_type e)); ("component", VStr (le_component e));
   ("message", VStr (le_message e)); ("trace_id", opt_str (le_trace_id e));
   ("session_id", opt_str (le_session_id e)); ("case_id", opt_str (le_case_id e));
   ("step_id", opt_str (le_step_id e)); ("error_code", le_error_code e);
   ("metadata", VDict (le_metadata e))].

(** [_append] *)
Definition append (level component event_type message : string) (ctx : option TraceContext)
    (step_id : option string) (error_code : pyval) (metadata : option (dict pyval)) : st obs unit :=
  t ← now_ms time;
  let e := mkLogEntry t level event_type component message (tc_trace_id <$> ctx)
             (tc_session_id <$> ctx) (tc_case_id <$> ctx) step_id error_code (default [] metadata) in
  st_modify (λ o, mkObs (spans o) (logs o ++ [e]) (ob_clock o) (ob_ids o)) ≫= λ _,
  export log_exporter (to_dict e).

Definition info (component event_type message : string) (ctx : option TraceContext)
    (step_id : option string) (metadata : option (dict pyval)) : st obs unit :=
  append "INFO" component event_type message ctx step_id VNone metadata.
Definition warning (component event_type message : string) (ctx : option TraceContext)
    (step_id : option string) (error_code : pyval) (metadata : option (dict pyval)) : st obs unit :=
  append "WARN" component event_type message ctx step_id error_code metadata.
Definition error (component event_type message : string) (ctx : option TraceContext)
    (step_id : option string) (error_code : pyval) (metadata : option (dict pyval)) : st obs unit :=
  append "ERROR" component event_type message ctx step_id error_code metadata.
Definition list_entries (o : obs) : list StructuredLogEntry := logs o.
End logger.
End Logger.

(** ** Exporters: a buffer and the documents written to the file so far *)
Record exporter := mkExporter { ex_buffer : list (dict pyval); ex_file : list pyval }.

Module JsonFileLogExporter.
(** [_flush_locked]: [dump] is [json.dump] of one entry, with its newline; the
    lines written before it raises stay in the file and the buffer is kept. *)
Section exporter.
Context (dump : dict pyval → res pyval) (max_buffer : Z).

Fixpoint write_lines (l : list (dict pyval)) : st exporter unit :=
  match l with
  | [] => mret tt
  | e :: l =>
      line ← st_lift (dump e);
      st_modify (λ x, mkExporter (ex_buffer x) (ex_file x ++ [line])) ≫= λ _, write_lines l
  end.
Definition flush : st exporter unit :=
  buffer ← st_gets ex_buffer;
  match buffer with
  | [] => mret tt
  | _ => write_lines buffer ≫= λ _, st_modify (λ x, mkExporter [] (ex_file x))
  end.
Definition export (entries : list (dict pyval)) : st exporter Z :=
  st_modify (λ x, mkExporter (ex_buffer x ++ entries) (ex_file x)) ≫= λ _,
  n ← st_gets (λ x, Z.of_nat (length (ex_buffer x)));
  (if max_buffer <=? n then flush else mret tt) ≫= λ _,
  mret (Z.of_nat (length entries)).
End exporter.
End JsonFileLogExporter.

Module OtlpJsonTraceExporter.
(** [int(x * 1_000_000)] for the times of a span dictionary *)
Definition nanos (v : pyval) : res Z :=
  match v with
  | VFloat f => PyFloat.trunc (PyFloat.mul f (PyFloat.of_Z 1000000))
  | VInt z => Ok (z * 1000000)
  | _ => Err (TypeError "unsupported operand type(s)")
  end.

Definition to_otlp_span (span : dict pyval) : res pyval :=
  let get k := dget k (VStr "") span in
  started ← nanos (dget "started_at_ms" (VInt 0) span);
  ended ← nanos (dget "ended_at_ms" (VInt 0) span);
  Ok (VDict
    [("traceId", get "trace_id"); ("spanId", get "step_id"); ("parentSpanId", get "parent_step_id");
     ("name", get "name"); ("kind", VInt 1);
     ("startTimeUnixNano", VInt started); ("endTimeUnixNano", VInt ended);
     ("status", VDict [("code", VInt (if Py.eq (dget "status" VNone span) (VStr "ok") then 1 else 2));
                       ("message", get "error_code")]);
     ("attributes", VList
       [VDict [("key", VStr "component"); ("value", VDict [("stringValue", get "component")])];
        VDict [("key", VStr "session_id"); ("value", VDict [("stringValue", get "session_id")])]])]).

Fixpoint map_res {A B} (f : A → res B) (l : list A) : res (list B) :=
  match l with
  | [] => Ok []
  | x :: l => y ← f x; ys ← map_res f l; Ok (y :: ys)
  end.

(** The document of one flush. *)
Definition otlp_doc (otlp_spans : list pyval) : pyval :=
  VDict [("resourceSpans", VList [VDict
    [("resource", VDict [("attributes", VList [VDict
        [("key", VStr "service.name"); ("value", VDict [("stringValue", VStr "agent-system")])]])]);
     ("scopeSpans", VList [VDict
        [("scope", VDict [("name", VStr "agent-tracer")]); ("spans", VList otlp_spans)]])]])].

Definition flush : st exporter unit :=
  buffer ← st_gets ex_buffer;
  match buffer with
  | [] => mret tt
  | _ =>
      l ← st_lift (map_res to_otlp_span buffer);
      st_modify (λ x, mkExporter [] (ex_file x ++ [otlp_doc l]))
  end.
Definition export_spans (max_buffer : Z) (l : list (dict pyval)) : st exporter Z :=
  st_modify (λ x, mkExporter (ex_buffer x ++ l) (ex_file x)) ≫= λ _,
  n ← st_gets (λ x, Z.of_nat (length (ex_buffer x)));
  (if max_buffer <=? n then flush else mret tt) ≫= λ _,
  mret (Z.of_nat (length l)).
End OtlpJsonTraceExporter.

(** ** exporters/in_memory_metrics.py *)
Record metrics := mkMetrics {
  counters : dict float;
  gauges : dict float;
  histograms : dict (list float);
}.
Module InMemoryMetricsExporter.
(** [_label_key] *)
Fixpoint label_texts (l : dict string) : list string :=
  match l with [] => [] | (k, v) :: l => (k +:+ "=" +:+ v) :: label_texts l end.
Fixpoint commas (l : list string) : string :=
  match l with [] => "" | [x] => x | x :: l => x +:+ "," +:+ commas l end.
Definition label_key (name : string) (labels : option (dict string)) : string :=
  match labels with
  | None | Some [] => name
  | Some l =>
      name +:+ "{" +:+ commas (label_texts (PySort.sort (PySort.on fst PySort.strlt) l)) +:+ "}"
  end.

Definition init : metrics := mkMetrics [] [] [].
Definition counter (name : string) (value : float) (labels : option (dict string)) (m : metrics) : metrics :=
  let k := label_key name labels in
  mkMetrics (dinsert k (PyFloat.add (dget k PyFloat.zero (counters m)) value) (counters m))
    (gauges m) (histograms m).
Definition gauge (name : string) (value : float) (labels : option (dict string)) (m : metrics) : metrics :=
  mkMetrics (counters m) (dinsert (label_key name labels) value (gauges m)) (histograms m).
Definition histogram (name : string) (value : float) (labels : option (dict string)) (m : metrics) : metrics :=
  let k := label_key name labels in
  mkMetrics (counters m) (gauges m) (dinsert k (dget k [] (histograms m) ++ [value]) (histograms m)).
Definition snapshot (m : metrics) : dict pyval :=
  [("counters", VDict (prod_map id VFloat <$> counters m));
   ("gauges", VDict (prod_map id VFloat <$> gauges m));
   ("histograms", VDict (prod_map id (λ l, VList (VFloat <$> l)) <$> histograms m))].
End InMemoryMetricsExporter.

(** ** gateway/audit_logger.py *)
Inductive AuditEventType :=
| TOOL_CALL_START | TOOL_CALL_SUCCESS | TOOL_CALL_FAILURE | TOOL_CALL_REJECTED
| AUTH_DENIED | CIRCUIT_OPENED | RATE_LIMITED | DEGRADED.
#[global] Instance AuditEventType_eq_dec : EqDecision AuditEventType.
Proof. solve_decision. Defined.

Record AuditEntry := mkAuditEntry {
  ae_event_id : string;
  ae_event_type : AuditEventType;
  ae_timestamp : float;
  ae_trace_id : string;
  ae_session_id : string;
  ae_caller_id : string;
  ae_tool_name : string;
  ae_tool_version : string;
  ae_params_hash : string;
  ae_result_summary : string;
  ae_latency_ms : float;
  ae_error : pyval;
  ae_metadata : dict pyval;
}.

(** [world] is what the alert handlers act on. *)
Record audit_log (W : Type) := mkAuditLog {
  al_entries : list AuditEntry;
  al_handlers : list (AuditEntry → st W unit);
  al_alert_events : list AuditEventType;
  al_clock : nat;
  al_world : W;
}.
Arguments mkAuditLog {W}.
Arguments al_entries {W}.
Arguments al_handlers {W}.
Arguments al_alert_events {W}.
Arguments al_clock {W}.
Arguments al_world {W}.

Module GatewayAudit.
Definition event_value (t : AuditEventType) : string :=
  match t with
  | TOOL_CALL_START => "tool_call_start" | TOOL_CALL_SUCCESS => "tool_call_success"
  | TOOL_CALL_FAILURE => "tool_call_failure" | TOOL_CALL_REJECTED => "tool_call_rejected"
  | AUTH_DENIED => "auth_denied" | CIRCUIT_OPENED => "circuit_opened"
  | RATE_LIMITED => "rate_limited" | DEGRADED => "degraded"
  end.

Definition to_dict (e : AuditEntry) : dict pyval :=
  [("event_id", VStr (ae_event_id e)); ("event_type", VStr (event_value (ae_event_type e)));
   ("timestamp", VFloat (ae_timestamp e)); ("trace_id", VStr (ae_trace_id e));
   ("session_id", VStr (ae_session_id e)); ("caller_id", VStr (ae_caller_id e));
   ("tool_name", VStr (ae_tool_name e)); ("tool_version", VStr (ae_tool_version e));
   ("params_hash", VStr (ae_params_hash e)); ("result_summary", VStr (ae_result_summary e));
   ("latency_ms", VFloat (ae_latency_ms e)); ("error", ae_error e); ("metadata", VDict (ae_metadata e))].

Section audit.
Context {W : Type}.
Context (uuid : nat → string) (time : nat → float) (hash : dict pyval → string).
Implicit Types a : audit_log W.

(** [__init__] *)
Definition init (w : W) : audit_log W :=
  mkAuditLog [] [] [AUTH_DENIED; CIRCUIT_OPENED; TOOL_CALL_FAILURE] 0 w.

(** [_append] *)
Definition run_handlers (e : AuditEntry) : st (audit_log W) unit := λ a,
  let '(r, w) := st_for (λ h : AuditEntry → st W unit, h e) (al_handlers a) (al_world a) in
  (r, mkAuditLog (al_entries a) (al_handlers a) (al_alert_events a) (al_clock a) w).
Definition append (e : AuditEntry) : st (audit_log W) unit :=
  st_modify (λ a, mkAuditLog (al_entries a ++ [e]) (al_handlers a) (al_alert_events a)
                    (al_clock a) (al_world a)) ≫= λ _,
  alert ← st_gets (λ a, bool_decide (ae_event_type e ∈ al_alert_events a));
  if alert : bool then run_handlers e else mret tt.

(** [str(uuid.uuid4())] and [time.time()] of a new entry *)
Definition fresh : st (audit_log W) (string * float) := λ a,
  (Ok (uuid (al_clock a), time (al_clock a)),
   mkAuditLog (al_entries a) (al_handlers a) (al_alert_events a) (S (al_clock a)) (al_world a)).

Definition log_call_start (trace_id session_id caller_id tool_name tool_version : string)
    (params : dict pyval) : st (audit_log W) string :=
  f ← fresh;
  append (mkAuditEntry f.1 TOOL_CALL_START f.2 trace_id session_id caller_id tool_name tool_version
            (hash params) "" PyFloat.zero (VStr "") []) ≫= λ _, mret f.1.
Definition log_call_success (trace_id session_id caller_id tool_name tool_version result_summary : string)
    (latency_ms : float) : st (audit_log W) unit :=
  f ← fresh;
  append (mkAuditEntry f.1 TOOL_CALL_SUCCESS f.2 trace_id session_id caller_id tool_name tool_version
            "" result_summary latency_ms (VStr "") []).
Definition log_call_failure (trace_id session_id caller_id tool_name tool_version error : string)
    (latency_ms : float) : st (audit_log W) unit :=
  f ← fresh;
  append (mkAuditEntry f.1 TOOL_CALL_FAILURE f.2 trace_id session_id caller_id tool_name tool_version
            "" "" latency_ms (VStr error) []).
(** [log_event] with the keyword arguments [error] and [metadata], the ones
    the code passes. *)
Definition log_event (t : AuditEventType) (trace_id session_id caller_id tool_name : string)
    (error : pyval) (metadata : dict pyval) : st (audit_log W) AuditEntry :=
  f ← fresh;
  let e := mkAuditEntry f.1 t f.2 trace_id session_id caller_id tool_name "" "" "" PyFloat.zero
             error metadata in
  append e ≫= λ _, mret e.

Definition query_by_trace (trace_id : string) a : list AuditEntry :=
  filter (λ e, ae_trace_id e = trace_id) (al_entries a).
Definition query_by_session (session_id : string) a : list AuditEntry :=
  filter (λ e, ae_session_id e = session_id) (al_entries a).
Definition query_by_tool (tool_name : string) (t : option AuditEventType) a : list AuditEntry :=
  let results := filter (λ e, ae_tool_name e = tool_name) (al_entries a) in
  match t with
  | Some t => filter (λ e, ae_event_type e = t) results
  | None => results
  end.
Definition register_alert_handler (h : AuditEntry → st W unit) a : audit_log W :=
  mkAuditLog (al_entries a) (al_handlers a ++ [h]) (al_alert_events a) (al_clock a) (al_world a).
Definition set_alert_events (l : list AuditEventType) a : audit_log W :=
  mkAuditLog (al_entries a) (al_handlers a) l (al_clock a) (al_world a).
Definition entry_count a : Z := Z.of_nat (length (al_entries a)).
End audit.
End GatewayAudit.

(** ** Facts *)
Module ObservabilityFacts.

(** A method that neither raises nor does anything but append to the log or
    the spans. *)
Lemma log_append_ok time level component event message ctx step code md o :
  ∃ e, Logger.append time None level component event message ctx step code md o =
    (Ok tt, mkObs (spans o) (logs o ++ [e]) (S (ob_clock o)) (ob_ids o)) ∧
    le_level e = level ∧ le_event_type e = event ∧ le_error_code e = code ∧
    le_trace_id e = tc_trace_id <$> ctx.
Proof. unfold Logger.append, st_bind, mbind, st_modify, now_ms. cbn -[String.append]. by eexists. Qed.

(** The span a [with] block leaves: one record, closed with the outcome of
    its body, never of negative duration. *)
Definition span_reports {A} (ctx : TraceContext) (component name : string) (r : res A)
    (sp : SpanRecord) : Prop :=
  sp_trace_id sp = tc_trace_id ctx ∧ sp_component sp = component ∧ sp_name sp = name ∧
  sp_status sp = (if is_ok r then "ok" else "error") ∧
  sp_error_code sp = (match r with Ok _ => None | Err e => Some (class_name e) end) ∧
  PyFloat.lt (sp_duration_ms sp) PyFloat.zero = false.

Lemma max_zero_not_negative x : PyFloat.lt (PyFloat.max PyFloat.zero x) PyFloat.zero = false.
Proof.
  unfold PyFloat.max. destruct (PyFloat.lt PyFloat.zero x) eqn:E; [|done].
  destruct (PyFloat.lt x PyFloat.zero) eqn:E'; [|done].
  pose proof (PyFloat.lt_trans _ _ _ E E'). by rewrite PyFloat.lt_irrefl in H.
Qed.

(** The owner of the tracer: [get] and [set] access it. *)
Section owner.
Context {S A : Type} (get : S → obs) (set : obs → S → S).

(** A [with] block enters, runs its body and leaves one span behind; the
    outcome is the body's. *)
Lemma with_span_spec time hex ctx component name (body : string → st S A) s :
  ∃ step o1 sp, spans o1 = spans (get s) ∧ logs o1 = logs (get s) ∧
    let '(r, s1) := body step (set o1 s) in
    let o := get s1 in
    Tracer.with_span time hex None get set ctx component name body s =
      (r, set (mkObs (spans o ++ [sp]) (logs o) (Datatypes.S (ob_clock o)) (ob_ids o)) s1) ∧
    span_reports ctx component name r sp.
Proof.
  unfold Tracer.with_span, Tracer.in_span, Tracer.start_span, Tracer.enter, zoom, st_bind, mbind, now_ms.
  simpl. match goal with |- context [set ?o s] => set (o1 := o) end.
  match goal with |- context [body ?x] => set (step := x) end.
  exists step, o1. destruct (body step (set o1 s)) as [[a|e] s1]; simpl; eexists;
    (split; [done|]); (split; [done|]); (split; [reflexivity|]); unfold span_reports; simpl;
    split_and!; try done; apply max_zero_not_negative.
Qed.
End owner.

(** Finishing a finished span raises and records nothing. *)
Lemma finish_twice time e s status code md o :
  Tracer.finish time e (Tracer.close s) status code md o =
    (Err (Raised "RuntimeError" "span already closed"), o).
Proof. done. Qed.

Section audit.
Context {W : Type} (uuid : nat → string) (time : nat → float) (hash : dict pyval → string).
Implicit Types a : audit_log W.

(** The entry is recorded whatever the handlers do; handlers run exactly for
    the alert events. *)
Lemma append_entries e a :
  let '(r, a') := GatewayAudit.append e a in
  al_entries a' = al_entries a ++ [e] ∧ al_handlers a' = al_handlers a ∧
  al_alert_events a' = al_alert_events a ∧
  (r, al_world a') =
    if bool_decide (ae_event_type e ∈ al_alert_events a)
    then st_for (λ h : AuditEntry → st W unit, h e) (al_handlers a) (al_world a)
    else (Ok tt, al_world a).
Proof.
  unfold GatewayAudit.append, st_bind, st_modify, st_gets, mbind. simpl.
  case_bool_decide as H; [|done]. unfold GatewayAudit.run_handlers. simpl.
  by destruct (st_for _ _ _).
Qed.

(** Without handlers logging never raises. *)
Lemma append_quiet e a : al_handlers a = [] →
  GatewayAudit.append e a =
    (Ok tt, mkAuditLog (al_entries a ++ [e]) [] (al_alert_events a) (al_clock a) (al_world a)).
Proof.
  intros Hh. unfold GatewayAudit.append, st_bind, st_modify, st_gets, mbind. simpl.
  rewrite Hh. case_bool_decide; [|done]. unfold GatewayAudit.run_handlers. simpl. done.
Qed.
End audit.
End ObservabilityFacts.

(** ** Exporters lose nothing *)
Section exporter_runs.
Context (max_buffer : Z).

(** Calls of the trace exporter: a batch of spans, or a forced flush. *)
Definition export_call (c : option (list (dict pyval))) (x : exporter) : exporter :=
  match c with
  | Some l => (OtlpJsonTraceExporter.export_spans max_buffer l x).2
  | None => (OtlpJsonTraceExporter.flush x).2
  end.

(** The file's documents are those of [batches], and with the buffer they are
    all of [all]. *)
Definition lossless (x : exporter) (all : list (dict pyval)) : Prop :=
  ∃ batches, Forall2 (λ doc b, ∃ l, OtlpJsonTraceExporter.map_res OtlpJsonTraceExporter.to_otlp_span b = Ok l ∧
                                    doc = OtlpJsonTraceExporter.otlp_doc l) (ex_file x) batches ∧
    concat batches ++ ex_buffer x = all.

Lemma flush_lossless x all : lossless x all → lossless (OtlpJsonTraceExporter.flush x).2 all.
Proof.
  intros (b & Hf & Ha). unfold OtlpJsonTraceExporter.flush, st_bind, st_gets, mbind.
  destruct (ex_buffer x) as [|d l] eqn:Hb; [exists b; simpl; by rewrite Hb|].
  unfold st_lift. destruct (OtlpJsonTraceExporter.map_res _ _) as [docs|e] eqn:Hd; simpl.
  - exists (b ++ [d :: l]). simpl. split.
    + apply Forall2_app; [done|]. constructor; [by exists docs|constructor].
    + rewrite concat_app. simpl. by rewrite !app_nil_r.
  - exists b. simpl. by rewrite Hb.
Qed.

Lemma export_call_lossless c x all :
  lossless x all → lossless (export_call c x) (all ++ default [] c).
Proof.
  intros H. destruct c as [l|]; simpl; [|rewrite app_nil_r; by apply flush_lossless].
  unfold OtlpJsonTraceExporter.export_spans, st_bind, st_modify, st_gets, mbind. simpl.
  set (x' := mkExporter _ _).
  assert (lossless x' (all ++ l)) as Hx.
  { destruct H as (b & Hf & <-). exists b. split; [done|]. simpl. by rewrite app_assoc. }
  pose proof (flush_lossless _ _ Hx) as Hx'.
  destruct (max_buffer <=? _); [|done]. by destruct (OtlpJsonTraceExporter.flush x') as [[]].
Qed.
End exporter_runs.

(** The trace exporter neither loses, repeats nor reorders spans: after any
    calls, flushes that raise included, the batches of the documents written to
    the file followed by the buffer are exactly the spans exported, in order. *)
Theorem trace_exporter_lossless max_buffer calls :
  lossless (foldl (λ x c, export_call max_buffer c x) (mkExporter [] []) calls)
    (concat (default [] <$> calls)).
Proof.
  assert (∀ x all, lossless x all →
    lossless (foldl (λ x c, export_call max_buffer c x) x calls)
      (all ++ concat (default [] <$> calls))) as H.
  { induction calls as [|c calls IH]; intros x all Hx; simpl; [by rewrite app_nil_r|].
    rewrite app_assoc. by apply IH, export_call_lossless. }
  apply (H _ []). by exists [].
Qed.

(** The log exporter keeps its buffer when serializing an entry raises, so the
    entries before it are written again by the next flush. *)
Example log_exporter_repeats :
  let dump d := match dlookup "bad" d with Some _ => Err (TypeError "keys must be str") | None => Ok (VDict d) end in
  let good := [("message", VStr "a")] in
  let bad := [("bad", VNone)] in
  let x := (JsonFileLogExporter.export dump 2 [good; bad] (mkExporter [] [])).2 in
  ex_file (JsonFileLogExporter.flush dump x).2 = [VDict good; VDict good].
Proof. by vm_compute. Qed.
