(* ===== verification/Scorer.v ===== *)
(** * Evaluation scoring and reports (src/eval/scorer.py, src/eval/diff.py,
    src/src/observability/error_bucket.py, latency_analyzer.py, dashboard_exporter.py)

    Scores of one sample, their aggregation into a summary, the gate against a
    baseline and the failure and latency reports.  [lower] and [is_space] are
    the interpreter's Unicode tables, [pstdev] the exact standard deviation of
    the statistics module.  The error code of a result is [None], a text or the
    integer code of the pre-invocation validator. *)
From Stdlib Require Import Floats.SpecFloat.
From S2P Require Import Prelude PyFloat PyValue Persistence PySort PyFormat Retrieval Compressor Release Observability.
Local Open Scope Z_scope.

Record EvalSample := mkEvalSample {
  es_id : string;
  es_category : string;
  es_query : text;
  es_expected_answer : text;
  es_relevant_source_ids : list string;
  es_difficulty : string;
  es_tags : list string;
  es_expect_error : option string;
  es_tool_name : option string;
  es_tool_params : dict pyval;
  es_caller_role : string;
  es_tenant : string;
}.

Record EvalCaseResult := mkCaseResult {
  ca_sample_id : string;
  ca_category : string;
  ca_difficulty : string;
  ca_success : bool;
  ca_answer : text;
  ca_expected_answer : text;
  ca_answer_f1 : float;
  ca_latency_ms : float;
  ca_trace_id : option string;
  ca_session_id : option string;
  ca_retrieved_source_ids : list string;
  ca_recall_at_5 : float;
  ca_recall_at_10 : float;
  ca_mrr : float;
  ca_error_code : pyval;
  ca_step_outcomes : dict bool;
  ca_validation_rejected : bool;
  ca_auth_denied : bool;
  ca_circuit_opened : bool;
  ca_audit_entries : Z;
  ca_retrieval_calls : Z;
  ca_tool_calls : Z;
  ca_input_tokens : Z;
  ca_output_tokens : Z;
}.

Record GroupMetrics := mkGroupMetrics {
  gm_count : float;
  gm_e2e_success_rate : float;
  gm_avg_answer_f1 : float;
  gm_avg_recall_at_5 : float;
  gm_avg_mrr : float;
  gm_avg_latency_ms : float;
}.

Record EvalSummary := mkSummary {
  su_dataset_name : string;
  su_total_samples : Z;
  su_e2e_success_rate : float;
  su_step_success_rates : dict float;
  su_p95_latency_ms : float;
  su_avg_latency_ms : float;
  su_avg_recall_at_5 : float;
  su_avg_recall_at_10 : float;
  su_avg_mrr : float;
  su_avg_answer_f1 : float;
  su_accuracy : float;
  su_consistency_std : float;
  su_stability : float;
  su_validation_rejection_rate : float;
  su_auth_denial_rate : float;
  su_circuit_open_frequency : float;
  su_audit_completeness : float;
  su_cost : dict Z;
  su_failure_buckets : list (pyval * Z);
  su_by_category : dict GroupMetrics;
  su_by_difficulty : dict GroupMetrics;
  su_details : list EvalCaseResult;
}.

(** Dictionaries keyed by error codes. *)
Fixpoint code_get {A} (k : pyval) (d : list (pyval * A)) : option A :=
  match d with
  | [] => None
  | (k', v) :: d => if Py.eq k k' then Some v else code_get k d
  end.
Fixpoint code_set {A} (k : pyval) (v : A) (d : list (pyval * A)) : list (pyval * A) :=
  match d with
  | [] => [(k, v)]
  | (k', v') :: d => if Py.eq k k' then (k', v) :: d else (k', v') :: code_set k v d
  end.

(** [math.ceil(x)] *)
Definition ceil (f : float) : res Z :=
  z ← PyFloat.trunc f;
  Ok (match PyFloat.compare_Z f z with Some Gt => z + 1 | _ => z end).

(** [l[i]] for an index that is not negative *)
Definition item (l : list float) (i : Z) : res float :=
  match l !! Z.to_nat i with
  | Some v => Ok v
  | None => Err (IndexError "list index out of range")
  end.

Definition quality_regression : pyval := VStr "quality_regression".
(** [error_code or "quality_regression"] *)
Definition bucket_name (r : EvalCaseResult) : pyval :=
  if Py.truthy (ca_error_code r) then ca_error_code r else quality_regression.

Module Scorer.
Definition is_token_char (c : Z) : bool :=
  ((97 <=? c) && (c <=? 122)) || ((48 <=? c) && (c <=? 57)) || (c =? 95).

(** [re.findall(r"[a-z0-9_]+|[\u4e00-\u9fff]", text)] *)
Fixpoint find_tokens (cur : text) (l : text) : list text :=
  let flush := match cur with [] => [] | _ => [reverse cur] end in
  match l with
  | [] => flush
  | c :: l =>
      if is_token_char c then find_tokens (c :: cur) l
      else flush ++ (if is_cjk c then [[c]] else []) ++ find_tokens [] l
  end.

Section text.
Variable lower : text → text.
Variable is_space : Z → bool.

Definition tokenize_text (t : text) : list text :=
  filter (λ tk, tk ≠ []) (find_tokens [] (Compressor.strip is_space (lower t))).
Definition estimate_tokens (t : text) : Z := Z.of_nat (length (tokenize_text t)).

Definition compute_f1 (predicted expected : text) : res float :=
  let predicted_tokens := tokenize_text predicted in
  let expected_tokens := tokenize_text expected in
  match predicted_tokens, expected_tokens with
  | [], _ | _, [] => Ok PyFloat.zero
  | _, _ =>
      let predicted_set : gset text := list_to_set predicted_tokens in
      let expected_set : gset text := list_to_set expected_tokens in
      let common := Z.of_nat (size (predicted_set ∩ expected_set)) in
      if common =? 0 then Ok PyFloat.zero else
      let precision := PyFloat.ratio common (Z.of_nat (size predicted_set)) in
      let recall := PyFloat.ratio common (Z.of_nat (size expected_set)) in
      PyFloat.true_div (PyFloat.mul (PyFloat.mul (PyFloat.of_Z 2) precision) recall)
        (PyFloat.add precision recall)
  end.
End text.

Definition compute_recall_at_k (retrieved relevant : list string) (top_k : Z) : float :=
  match relevant with
  | [] => PyFloat.of_Z 1
  | _ =>
      let relevant_set : gset string := list_to_set relevant in
      let retrieved_set : gset string := list_to_set (slice_to top_k retrieved) in
      PyFloat.ratio (Z.of_nat (size (retrieved_set ∩ relevant_set))) (Z.of_nat (size relevant_set))
  end.

(** The loop of [compute_mrr]. *)
Fixpoint reciprocal_rank (relevant : list string) (rank : Z) (retrieved : list string) : float :=
  match retrieved with
  | [] => PyFloat.zero
  | s :: retrieved =>
      if bool_decide (s ∈ relevant) then PyFloat.div (PyFloat.of_Z 1) (PyFloat.of_Z rank)
      else reciprocal_rank relevant (rank + 1) retrieved
  end.
Definition compute_mrr (retrieved relevant : list string) : float :=
  match relevant with [] => PyFloat.of_Z 1 | _ => reciprocal_rank relevant 1 retrieved end.

Definition compute_percentile (values : list float) (percentile : float) : res float :=
  match values with
  | [] => Ok PyFloat.zero
  | _ =>
      let sorted_values := PySort.sort PyFloat.lt values in
      c ← ceil (PyFloat.mul (PyFloat.of_Z (Z.of_nat (length sorted_values))) percentile);
      item sorted_values (Z.max 0 (c - 1))
  end.

Definition safe_divide (numerator denominator : Z) (default_value : float) : float :=
  if denominator =? 0 then default_value else PyFloat.ratio numerator denominator.

Definition is_accurate (r : EvalCaseResult) : bool :=
  (ca_success r && negb (bool_decide (ca_error_code r = VNone)) && bool_decide (ca_expected_answer r = []))
  || ((0 <? ca_tool_calls r) && bool_decide (ca_error_code r = VNone))
  || PyFloat.ge (ca_answer_f1 r) (PyFloat.ratio 8 10).

(** [_aggregate_step_success]: attempts and successes per step. *)
Definition count_step (c : dict Z) (name : string) : dict Z := dinsert name (dget name 0 c + 1) c.
Definition attempt_counts (l : list EvalCaseResult) : dict Z :=
  foldl count_step [] (l ≫= λ r, (ca_step_outcomes r).*1).
Definition success_counts (l : list EvalCaseResult) : dict Z :=
  foldl count_step [] (l ≫= λ r, (filter (λ kv, kv.2 = true) (ca_step_outcomes r)).*1).
Definition aggregate_step_success (l : list EvalCaseResult) : dict float :=
  (λ kv, (kv.1, safe_divide (dget kv.1 0 (success_counts l)) kv.2 PyFloat.zero)) <$>
    PySort.sort (PySort.lex (PySort.on fst PySort.strlt) (PySort.on snd PySort.Zlt)) (attempt_counts l).

(** [sum(f(r) for r in l) / n] *)
Definition mean (f : EvalCaseResult → float) (l : list EvalCaseResult) : float :=
  PyFloat.div (PySort.fsum (f <$> l)) (PyFloat.of_Z (Z.of_nat (length l))).
Definition rate (p : EvalCaseResult → bool) (l : list EvalCaseResult) : float :=
  PyFloat.ratio (PySort.count_if p l) (Z.of_nat (length l)).

Definition add_to_group (field : EvalCaseResult → string) (d : dict (list EvalCaseResult))
    (r : EvalCaseResult) : dict (list EvalCaseResult) :=
  dinsert (field r) (dget (field r) [] d ++ [r]) d.
Definition group_by (field : EvalCaseResult → string) (l : list EvalCaseResult) :=
  foldl (add_to_group field) [] l.
Definition metrics_of (l : list EvalCaseResult) : GroupMetrics :=
  mkGroupMetrics (PyFloat.of_Z (Z.of_nat (length l))) (rate ca_success l) (mean ca_answer_f1 l)
    (mean ca_recall_at_5 l) (mean ca_mrr l) (mean ca_latency_ms l).
Definition group_metrics (field : EvalCaseResult → string) (l : list EvalCaseResult) : dict GroupMetrics :=
  prod_map id metrics_of <$> group_by field l.

Definition count_code (d : list (pyval * Z)) (r : EvalCaseResult) : list (pyval * Z) :=
  if ca_success r then d
  else code_set (bucket_name r) (default 0 (code_get (bucket_name r) d) + 1) d.
Definition build_failure_buckets (l : list EvalCaseResult) : list (pyval * Z) := foldl count_code [] l.

Definition p95 : float := PyFloat.ratio 95 100.

Definition aggregate_results (pstdev : list float → float) (dataset_name : string)
    (l : list EvalCaseResult) : res EvalSummary :=
  let total := Z.of_nat (length l) in
  raise_if (total =? 0) (ValueError "case_results must not be empty") ≫= λ _,
  let tool_sample_count := PySort.count_if (λ r, dmem "validation" (ca_step_outcomes r)) l in
  p ← compute_percentile (ca_latency_ms <$> l) p95;
  Ok (mkSummary dataset_name total (rate ca_success l) (aggregate_step_success l) p
    (mean ca_latency_ms l) (mean ca_recall_at_5 l) (mean ca_recall_at_10 l) (mean ca_mrr l)
    (mean ca_answer_f1 l) (rate is_accurate l)
    (if 1 <? total then pstdev (ca_answer_f1 <$> l) else PyFloat.zero) (PyFloat.of_Z 1)
    (safe_divide (PySort.count_if ca_validation_rejected l) tool_sample_count PyFloat.zero)
    (safe_divide (PySort.count_if ca_auth_denied l) tool_sample_count PyFloat.zero)
    (safe_divide (PySort.count_if ca_circuit_opened l) tool_sample_count PyFloat.zero)
    (safe_divide (PySort.count_if (λ r, 0 <? ca_audit_entries r) l) tool_sample_count (PyFloat.of_Z 1))
    [("total_tokens", PySort.zsum ((λ r, ca_input_tokens r + ca_output_tokens r) <$> l));
     ("tool_calls", PySort.zsum (ca_tool_calls <$> l));
     ("retrieval_calls", PySort.zsum (ca_retrieval_calls <$> l))]
    (build_failure_buckets l) (group_metrics ca_category l) (group_metrics ca_difficulty l) l).

(** [to_dict], as the JSON file has it: an integer code as a key is its
    decimal text, and [encode] is the string of a text. *)
Definition key_text (code : pyval) : string :=
  match code with VStr s => s | VInt z => pretty z | _ => "null" end.
Definition case_dict (encode : text → string) (r : EvalCaseResult) : pyval :=
  VDict [("sample_id", VStr (ca_sample_id r)); ("category", VStr (ca_category r));
    ("difficulty", VStr (ca_difficulty r)); ("success", VBool (ca_success r));
    ("answer", VStr (encode (ca_answer r))); ("expected_answer", VStr (encode (ca_expected_answer r)));
    ("answer_f1", VFloat (ca_answer_f1 r)); ("latency_ms", VFloat (ca_latency_ms r));
    ("trace_id", opt_str (ca_trace_id r)); ("session_id", opt_str (ca_session_id r));
    ("retrieved_source_ids", VList (VStr <$> ca_retrieved_source_ids r));
    ("recall_at_5", VFloat (ca_recall_at_5 r)); ("recall_at_10", VFloat (ca_recall_at_10 r));
    ("mrr", VFloat (ca_mrr r)); ("error_code", ca_error_code r);
    ("step_outcomes", VDict (prod_map id VBool <$> ca_step_outcomes r));
    ("validation_rejected", VBool (ca_validation_rejected r)); ("auth_denied", VBool (ca_auth_denied r));
    ("circuit_opened", VBool (ca_circuit_opened r)); ("audit_entries", VInt (ca_audit_entries r));
    ("retrieval_calls", VInt (ca_retrieval_calls r)); ("tool_calls", VInt (ca_tool_calls r));
    ("input_tokens", VInt (ca_input_tokens r)); ("output_tokens", VInt (ca_output_tokens r))].
Definition group_dict (g : GroupMetrics) : pyval :=
  VDict [("count", VFloat (gm_count g)); ("e2e_success_rate", VFloat (gm_e2e_success_rate g));
    ("avg_answer_f1", VFloat (gm_avg_answer_f1 g)); ("avg_recall_at_5", VFloat (gm_avg_recall_at_5 g));
    ("avg_mrr", VFloat (gm_avg_mrr g)); ("avg_latency_ms", VFloat (gm_avg_latency_ms g))].
Definition to_dict (encode : text → string) (u : EvalSummary) : dict pyval :=
  [("dataset_name", VStr (su_dataset_name u)); ("total_samples", VInt (su_total_samples u));
   ("e2e_success_rate", VFloat (su_e2e_success_rate u));
   ("step_success_rates", VDict (prod_map id VFloat <$> su_step_success_rates u));
   ("p95_latency_ms", VFloat (su_p95_latency_ms u)); ("avg_latency_ms", VFloat (su_avg_latency_ms u));
   ("avg_recall_at_5", VFloat (su_avg_recall_at_5 u)); ("avg_recall_at_10", VFloat (su_avg_recall_at_10 u));
   ("avg_mrr", VFloat (su_avg_mrr u)); ("avg_answer_f1", VFloat (su_avg_answer_f1 u));
   ("accuracy", VFloat (su_accuracy u)); ("consistency_std", VFloat (su_consistency_std u));
   ("stability", VFloat (su_stability u));
   ("validation_rejection_rate", VFloat (su_validation_rejection_rate u));
   ("auth_denial_rate", VFloat (su_auth_denial_rate u));
   ("circuit_open_frequency", VFloat (su_circuit_open_frequency u));
   ("audit_completeness", VFloat (su_audit_completeness u));
   ("cost", VDict (prod_map id VInt <$> su_cost u));
   ("failure_buckets", VDict (prod_map key_text VInt <$> su_failure_buckets u));
   ("by_category", VDict (prod_map id group_dict <$> su_by_category u));
   ("by_difficulty", VDict (prod_map id group_dict <$> su_by_difficulty u));
   ("details", VList (case_dict encode <$> su_details u))].
End Scorer.

(** ** error_bucket.py *)
Record ErrorBucketEntry := mkBucketEntry {
  be_category : string;
  be_error_code : pyval;
  be_priority : Z;
  be_count : Z;
  be_sample_ids : list string;
}.

Module ErrorBucketAnalyzer.
(** The two tables; an integer code is in neither. *)
Definition classify_category (error_code : pyval) : string :=
  match error_code with
  | VStr c =>
      dget c "system" [("missing_required_field", "data"); ("invalid_tool_name", "tool");
        ("tool_execution_failed", "tool"); ("circuit_open", "system"); ("rate_limited", "system");
        ("unauthorized", "strategy"); ("quality_regression", "model")]
  | _ => "system"
  end.
Definition priority_of (error_code : pyval) : Z :=
  match error_code with
  | VStr c =>
      dget c 3 [("circuit_open", 1); ("tool_execution_failed", 1); ("rate_limited", 2);
        ("unauthorized", 3); ("missing_required_field", 3); ("invalid_tool_name", 2);
        ("quality_regression", 2)]
  | _ => 3
  end.

(** One round of the loop. *)
Definition add_failure (grouped : list (pyval * ErrorBucketEntry)) (r : EvalCaseResult) :
    list (pyval * ErrorBucketEntry) :=
  if ca_success r then grouped else
  let code := bucket_name r in
  let e := default (mkBucketEntry (classify_category code) code (priority_of code) 0 [])
             (code_get code grouped) in
  code_set code (mkBucketEntry (be_category e) (be_error_code e) (be_priority e) (be_count e + 1)
                   (be_sample_ids e ++ [ca_sample_id r])) grouped.
Definition grouped (l : list EvalCaseResult) : list (pyval * ErrorBucketEntry) := foldl add_failure [] l.

(** [(priority, -count, error_code)].  Codes of different types cannot be
    compared; a sort compares two entries of equal priority and count in any
    case, since nothing else decides their order. *)
Definition code_lt (x y : pyval) : bool :=
  match x, y with
  | VInt a, VInt b => a <? b
  | VStr a, VStr b => PySort.strlt a b
  | _, _ => false
  end.
Definition same_type (x y : pyval) : bool :=
  match x, y with
  | VInt _, VInt _ | VStr _, VStr _ => true
  | _, _ => false
  end.
Definition entry_lt : ErrorBucketEntry → ErrorBucketEntry → bool :=
  PySort.lex (PySort.on be_priority PySort.Zlt)
    (PySort.lex (PySort.on be_count (PySort.down PySort.Zlt)) (PySort.on be_error_code code_lt)).
Definition uncomparable (x y : ErrorBucketEntry) : Prop :=
  be_priority x = be_priority y ∧ be_count x = be_count y ∧
  same_type (be_error_code x) (be_error_code y) = false.
#[global] Instance uncomparable_dec x y : Decision (uncomparable x y) := _.

Definition build_topn (l : list EvalCaseResult) (limit : Z) : res (list ErrorBucketEntry) :=
  let entries := (grouped l).*2 in
  raise_if (bool_decide (Exists (λ x, Exists (uncomparable x) entries) entries))
    (TypeError "'<' not supported between instances of 'str' and 'int'") ≫= λ _,
  Ok (slice_to limit (PySort.sort entry_lt entries)).
End ErrorBucketAnalyzer.

(** ** latency_analyzer.py *)
Record LatencyHotspot := mkHotspot {
  hs_component : string;
  hs_span_name : string;
  hs_avg_duration_ms : float;
  hs_p95_duration_ms : float;
  hs_sample_count : Z;
}.

Module LatencyAnalyzer.
(** [_percentile]: the rounding up is [int(x + 0.999999)]. *)
Definition percentile (values : list float) (p : float) : res float :=
  match values with
  | [] => Ok PyFloat.zero
  | _ =>
      let sorted_values := PySort.sort PyFloat.lt values in
      c ← PyFloat.trunc (PyFloat.add (PyFloat.mul (PyFloat.of_Z (Z.of_nat (length sorted_values))) p)
                           (PyFloat.ratio 999999 1000000));
      item sorted_values (Z.max 0 (c - 1))
  end.
Definition average (values : list float) : float :=
  match values with
  | [] => PyFloat.zero
  | _ => PyFloat.div (PySort.fsum values) (PyFloat.of_Z (Z.of_nat (length values)))
  end.

(** [grouped.setdefault((component, name), []).append(duration)] *)
Fixpoint group_add (k : string * string) (v : float) (d : list (string * string * list float)) :
    list (string * string * list float) :=
  match d with
  | [] => [(k, [v])]
  | (k', l) :: d => if decide (k = k') then (k', l ++ [v]) :: d else (k', l) :: group_add k v d
  end.
Definition group_spans (l : list SpanRecord) : list (string * string * list float) :=
  foldl (λ d r, group_add (sp_component r, sp_name r) (sp_duration_ms r) d) [] l.
Definition hotspot (g : string * string * list float) : res LatencyHotspot :=
  p ← percentile g.2 Scorer.p95;
  Ok (mkHotspot g.1.1 g.1.2
        (PyFloat.div (PySort.fsum g.2) (PyFloat.of_Z (Z.of_nat (length g.2)))) p (Z.of_nat (length g.2))).

(** [(-p95, -avg, component)] *)
Definition slower : LatencyHotspot → LatencyHotspot → bool :=
  PySort.lex (PySort.on hs_p95_duration_ms (PySort.down PyFloat.lt))
    (PySort.lex (PySort.on hs_avg_duration_ms (PySort.down PyFloat.lt))
       (PySort.on hs_component PySort.strlt)).
Definition build_hotspots (l : list SpanRecord) (limit : Z) : res (list LatencyHotspot) :=
  h ← OtlpJsonTraceExporter.map_res hotspot (group_spans l);
  Ok (slice_to limit (PySort.sort slower h)).
End LatencyAnalyzer.

(** ** eval/diff.py *)
Record DiffThresholds := mkThresholds {
  min_e2e_success_rate_delta : float;
  min_answer_f1_delta : float;
  min_accuracy_delta : float;
  max_p95_latency_ratio : float;
  max_total_tokens_ratio : float;
}.
Record DiffIssue := mkIssue {
  di_metric : string;
  di_baseline : float;
  di_current : float;
  di_message : string;
}.
Record DiffResult := mkDiffResult { df_passed : bool; df_issues : list DiffIssue }.

Module Diff.
(** [-0.05] and [1.2] *)
Definition default_thresholds : DiffThresholds :=
  let delta := PyFloat.ratio (-5) 100 in
  mkThresholds delta delta delta (PyFloat.ratio 12 10) (PyFloat.ratio 12 10).

Definition check_delta (metric : string) (baseline current min_delta : float) : list DiffIssue :=
  let delta := PyFloat.sub current baseline in
  if PyFloat.lt delta min_delta
  then [mkIssue metric baseline current ("delta " +:+ PyFormat.fixed 4 delta +:+
          " is below threshold " +:+ PyFormat.fixed 4 min_delta)]
  else [].
Definition check_ratio (metric : string) (baseline current max_ratio : float) : list DiffIssue :=
  if PyFloat.le baseline PyFloat.zero then [] else
  let ratio := PyFloat.div current baseline in
  if PyFloat.gt ratio max_ratio
  then [mkIssue metric baseline current ("ratio " +:+ PyFormat.fixed 4 ratio +:+
          " exceeds threshold " +:+ PyFormat.fixed 4 max_ratio)]
  else [].

Section compare.
Variable parse_float : string → option float.

(** [float(report.get(metric, 0.0))] *)
Definition metric (name : string) (report : dict pyval) : res float :=
  Metrics.to_float parse_float (dget name (VFloat PyFloat.zero) report).
(** [float(report.get("cost", {}).get("total_tokens", 0.0))] *)
Definition total_tokens (report : dict pyval) : res float :=
  v ← Py.get "total_tokens" (VFloat PyFloat.zero) (dget "cost" (VDict []) report);
  Metrics.to_float parse_float v.

Definition compare_reports (baseline current : dict pyval) (t : DiffThresholds) : res DiffResult :=
  b1 ← metric "e2e_success_rate" baseline; c1 ← metric "e2e_success_rate" current;
  b2 ← metric "avg_answer_f1" baseline; c2 ← metric "avg_answer_f1" current;
  b3 ← metric "accuracy" baseline; c3 ← metric "accuracy" current;
  b4 ← metric "p95_latency_ms" baseline; c4 ← metric "p95_latency_ms" current;
  b5 ← total_tokens baseline; c5 ← total_tokens current;
  let issues := check_delta "e2e_success_rate" b1 c1 (min_e2e_success_rate_delta t) ++
    check_delta "avg_answer_f1" b2 c2 (min_answer_f1_delta t) ++
    check_delta "accuracy" b3 c3 (min_accuracy_delta t) ++
    check_ratio "p95_latency_ms" b4 c4 (max_p95_latency_ratio t) ++
    check_ratio "cost.total_tokens" b5 c5 (max_total_tokens_ratio t) in
  Ok (mkDiffResult (bool_decide (issues = [])) issues).
End compare.
End Diff.

(** ** dashboard_exporter.py *)
Module DashboardExporter.
Definition build_snapshot (summary : dict pyval) (alert_events : list (dict pyval)) : res (dict pyval) :=
  let firing := filter (λ e, Py.eq (dget "status" VNone e) (VStr "firing") = true) alert_events in
  let get k := dget k (VFloat PyFloat.zero) summary in
  tokens ← Py.get "total_tokens" (VInt 0) (dget "cost" (VDict []) summary);
  Ok [("dataset_name", dget "dataset_name" VNone summary);
      ("summary", VDict
        [("e2e_success_rate", get "e2e_success_rate"); ("accuracy", get "accuracy");
         ("avg_answer_f1", get "avg_answer_f1"); ("avg_latency_ms", get "avg_latency_ms");
         ("p95_latency_ms", get "p95_latency_ms"); ("total_tokens", tokens)]);
      ("breakdowns", VDict
        [("failure_buckets", dget "failure_buckets" (VDict []) summary);
         ("by_category", dget "by_category" (VDict []) summary);
         ("by_difficulty", dget "by_difficulty" (VDict []) summary)]);
      ("alerts", VDict
        [("firing_count", VInt (Z.of_nat (length firing))); ("firing", VList (VDict <$> firing))])].
End DashboardExporter.

(** ** Percentiles *)
Module PercentileFacts.

Lemma count_if_app {A} (p : A → bool) l1 l2 :
  PySort.count_if p (l1 ++ l2) = PySort.count_if p l1 + PySort.count_if p l2.
Proof. induction l1 as [|x l1 IH]; [done|]. simpl. rewrite !PySort.count_if_cons, IH. lia. Qed.

Lemma count_if_perm {A} (p : A → bool) l1 l2 :
  l1 ≡ₚ l2 → PySort.count_if p l1 = PySort.count_if p l2.
Proof. induction 1; rewrite ?PySort.count_if_cons; lia. Qed.

Lemma count_if_all {A} (p : A → bool) l :
  Forall (λ x, p x = true) l → PySort.count_if p l = Z.of_nat (length l).
Proof. induction 1 as [|x l Hx Hl IH]; [done|]. rewrite PySort.count_if_cons, Hx, IH. simpl. lia. Qed.

Lemma count_if_none {A} (p : A → bool) l : Forall (λ x, p x = false) l → PySort.count_if p l = 0.
Proof. induction 1 as [|x l Hx Hl IH]; [done|]. by rewrite PySort.count_if_cons, Hx, IH. Qed.

(** In an ordered list of numbers the element at [i] has at least [i + 1]
    elements not above it and at most [i] below it. *)
Lemma sorted_rank (l : list float) i v :
  Forall (λ x, PyFloat.is_nan x = false) l → PySort.sorted PyFloat.lt l → l !! i = Some v →
  Z.of_nat i + 1 ≤ PySort.count_if (λ x, PyFloat.le x v) l ∧
  PySort.count_if (λ x, PyFloat.lt x v) l ≤ Z.of_nat i.
Proof.
  intros Hn Hs Hi. pose proof (take_drop_middle l i v Hi) as Hl.
  assert (i < length l)%nat as Hlt by by eapply lookup_lt_Some.
  unfold PySort.sorted in Hs. rewrite <-Hl in Hs, Hn |- *.
  apply Forall_app in Hn as [Hn1 [Hnv Hn2]%Forall_cons].
  rewrite !count_if_app, !PySort.count_if_cons.
  pose proof (PySort.count_if_bounds (λ x, PyFloat.le x v) (drop (S i) l)).
  pose proof (PySort.count_if_bounds (λ x, PyFloat.lt x v) (take i l)) as Hb.
  rewrite length_take in Hb.
  apply StronglySorted_app in Hs as (Hcross & _ & Hs). apply StronglySorted_inv in Hs as [_ Hafter].
  rewrite (count_if_all (λ x, PyFloat.le x v) (take i l)), length_take.
  2:{ apply Forall_forall. intros x Hx. apply PyFloat.lt_false_iff_le.
      - done.
      - by apply (proj1 (Forall_forall _ _) Hn1).
      - eapply (Hcross x v); [done|by left]. }
  rewrite (count_if_none (λ x, PyFloat.lt x v) (drop (S i) l)); [|done].
  rewrite PyFloat.le_refl by done. rewrite PyFloat.lt_irrefl. lia.
Qed.

(** The rank of the 95th percentile, rounded up exactly by both ways of
    writing it, for up to 5000 values. *)
Definition rank95 (n : Z) : Z := (95 * n + 99) / 100.
Definition rank_exact (n : Z) : bool :=
  let x := PyFloat.mul (PyFloat.of_Z n) Scorer.p95 in
  bool_decide (ceil x = Ok (rank95 n)) &&
  bool_decide (PyFloat.trunc (PyFloat.add x (PyFloat.ratio 999999 1000000)) = Ok (rank95 n)).
Lemma ranks_exact : forallb rank_exact (seqZ 1 5000) = true.
Proof. by vm_compute. Qed.

Lemma rank95_exact n : 1 ≤ n ≤ 5000 →
  ceil (PyFloat.mul (PyFloat.of_Z n) Scorer.p95) = Ok (rank95 n) ∧
  PyFloat.trunc (PyFloat.add (PyFloat.mul (PyFloat.of_Z n) Scorer.p95) (PyFloat.ratio 999999 1000000))
    = Ok (rank95 n).
Proof.
  intros Hn. assert (rank_exact n = true) as H.
  { pose proof ranks_exact as H. rewrite forallb_forall in H. apply H.
    apply list_elem_of_In, elem_of_seqZ. lia. }
  unfold rank_exact in H. apply andb_true_iff in H as [H1 H2].
  by split; eapply bool_decide_eq_true_1.
Qed.

Lemma rank95_bounds n : 1 ≤ n → 1 ≤ rank95 n ≤ n ∧ 95 * n ≤ 100 * rank95 n ∧ 100 * (rank95 n - 1) < 95 * n.
Proof.
  intros Hn. unfold rank95.
  pose proof (Z.div_mod (95 * n + 99) 100 ltac:(lia)) as H.
  pose proof (Z.mod_pos_bound (95 * n + 99) 100 ltac:(lia)). lia.
Qed.
End PercentileFacts.
Import PercentileFacts.

(** The 95th percentile of the summary and the one of the latency report,
    which round up differently, are the same and are the nearest-rank
    percentile: for one to 5000 latencies the value returned is one of them, at
    least 95 percent of them are not above it and less than 95 percent are below
    it, whatever the floating-point rounding. *)
Theorem p95_nearest_rank (values : list float) :
  Forall (λ x, PyFloat.is_nan x = false) values → 1 ≤ Z.of_nat (length values) ≤ 5000 →
  ∃ v, Scorer.compute_percentile values Scorer.p95 = Ok v ∧
    LatencyAnalyzer.percentile values Scorer.p95 = Ok v ∧ v ∈ values ∧
    95 * Z.of_nat (length values) ≤ 100 * PySort.count_if (λ x, PyFloat.le x v) values ∧
    100 * PySort.count_if (λ x, PyFloat.lt x v) values < 95 * Z.of_nat (length values).
Proof.
  intros Hn Hlen. set (n := Z.of_nat (length values)) in *.
  destruct (rank95_exact n Hlen) as [Hc Ht]. destruct (rank95_bounds n) as (Hk & Hup & Hdown); [lia|].
  set (l := PySort.sort PyFloat.lt values).
  assert (length l = length values) as Hl by apply PySort.length_sort.
  destruct (lookup_lt_is_Some_2 l (Z.to_nat (rank95 n - 1))) as [v Hv]; [lia|]. exists v.
  assert (Scorer.compute_percentile values Scorer.p95 = item l (Z.max 0 (rank95 n - 1)) ∧
          LatencyAnalyzer.percentile values Scorer.p95 = item l (Z.max 0 (rank95 n - 1))) as [-> ->].
  { unfold Scorer.compute_percentile, LatencyAnalyzer.percentile. fold l. rewrite Hl. fold n.
    destruct values; [simpl in *; lia|]. by rewrite Hc, Ht. }
  unfold item. rewrite Z.max_r, Hv by lia.
  assert (l ≡ₚ values) as Hp by apply PySort.sort_perm.
  assert (Forall (λ x, PyFloat.is_nan x = false) l) as Hnl by by rewrite Hp.
  destruct (sorted_rank l (Z.to_nat (rank95 n - 1)) v Hnl) as [H1 H2]; [|done|].
  { eapply PySort.sort_sorted; [apply PySort.strict_weak_float|done]. }
  rewrite !(count_if_perm _ _ _ Hp) in H1. rewrite (count_if_perm _ _ _ Hp) in H2.
  split; [done|]. split; [done|]. split; [rewrite <-Hp; by eapply list_elem_of_lookup_2|lia].
Qed.

Lemma p95_nearest_rank_witness :
  ∃ v, Scorer.compute_percentile (PyFloat.of_Z <$> [30; 10; 20]) Scorer.p95 = Ok v ∧
    LatencyAnalyzer.percentile (PyFloat.of_Z <$> [30; 10; 20]) Scorer.p95 = Ok v ∧
    v ∈ PyFloat.of_Z <$> [30; 10; 20] ∧
    95 * Z.of_nat (length (PyFloat.of_Z <$> [30; 10; 20])) ≤ 100 * PySort.count_if (λ x, PyFloat.le x v) (PyFloat.of_Z <$> [30; 10; 20]) ∧
    100 * PySort.count_if (λ x, PyFloat.lt x v) (PyFloat.of_Z <$> [30; 10; 20]) <
      95 * Z.of_nat (length (PyFloat.of_Z <$> [30; 10; 20])).
Proof.
  apply (p95_nearest_rank (PyFloat.of_Z <$> [30; 10; 20])).
  - repeat constructor.
  - by vm_compute.
Defined.

(** ** Failure reports *)
Module FailureFacts.
(** The error codes the runner produces. *)
Definition is_code (v : pyval) : Prop := match v with VNone | VStr _ | VInt _ => True | _ => False end.
Definition coded (l : list EvalCaseResult) : Prop := Forall (λ r, is_code (ca_error_code r)) l.
(** The codes that become bucket names. *)
Definition is_name (v : pyval) : Prop := match v with VStr _ | VInt _ => True | _ => False end.

Lemma bucket_name_name r : is_code (ca_error_code r) → is_name (bucket_name r).
Proof. unfold bucket_name. by destruct (ca_error_code r) as [| |z| |s| |]; simpl; repeat case_match. Qed.

Lemma name_eq x y : is_name x → is_name y → Py.eq x y = bool_decide (x = y).
Proof.
  destruct x as [| |a| |a| |], y as [| |c| |c| |]; try done; intros _ _; simpl;
    repeat case_bool_decide; try naive_solver.
  all: destruct (Z.compare_spec a c); naive_solver lia.
Qed.

(** Dictionaries keyed by names behave as maps. *)
Definition named {A} (d : list (pyval * A)) : Prop := NoDup d.*1 ∧ Forall is_name d.*1.

Section codes.
Context {A : Type}.
Implicit Types d : list (pyval * A).

Lemma named_cons k v d : named ((k, v) :: d) ↔ is_name k ∧ (k ∉ d.*1) ∧ named d.
Proof. unfold named. cbn [fmap list_fmap fst]. rewrite NoDup_cons, Forall_cons. naive_solver. Qed.

Lemma code_get_Some k v d : is_name k → named d → code_get k d = Some v ↔ (k, v) ∈ d.
Proof.
  intros Hk. induction d as [|[k' v'] d IH]; cbn [code_get].
  { intros _. split; [done|]. by intros ?%elem_of_nil. }
  rewrite named_cons. intros (Hk' & Hni & Hd). rewrite name_eq, elem_of_cons by done.
  case_bool_decide as E; [subst|by rewrite IH; naive_solver]. split; [naive_solver|].
  intros [[= ->]|Hin]; [done|]. destruct Hni. apply list_elem_of_fmap. by exists (k', v).
Qed.

Lemma elem_of_code_set k v d x : is_name k → named d →
  x ∈ code_set k v d ↔ x = (k, v) ∨ x.1 ≠ k ∧ x ∈ d.
Proof.
  intros Hk. induction d as [|[k' v'] d IH]; cbn [code_set]; [set_solver|].
  rewrite named_cons. intros (Hk' & Hni & Hd). rewrite name_eq by done.
  case_bool_decide as E; rewrite !elem_of_cons; [subst|rewrite IH by done; destruct x; naive_solver].
  assert (x ∈ d → x.1 ≠ k') by (intros Hin <-; destruct Hni; apply list_elem_of_fmap; by exists x).
  destruct x; naive_solver.
Qed.

Lemma code_set_named k v d : is_name k → named d → named (code_set k v d).
Proof.
  intros Hk. induction d as [|[k' v'] d IH]; cbn [code_set].
  { intros _. apply named_cons. split_and!; [done|by intros ?%elem_of_nil|split; constructor]. }
  intros Hd. pose proof Hd as (Hk' & Hni & Hd')%named_cons. rewrite name_eq by done.
  case_bool_decide as E; [subst; by apply named_cons|].
  apply named_cons. split_and!; [done| |by apply IH].
  intros ([k0 v0] & Heq & Hin)%list_elem_of_fmap. simpl in Heq. subst k0.
  apply elem_of_code_set in Hin as [Heq|[_ Hin]]; [by simplify_eq| |done|done].
  destruct Hni. apply list_elem_of_fmap. by exists (k', v0).
Qed.

(** The sum of a measure changes by that of the one entry. *)
Lemma code_set_sum (f : A → Z) k v d :
  PySort.zsum (f <$> (code_set k v d).*2) =
  PySort.zsum (f <$> d.*2) + f v - default 0 (f <$> code_get k d).
Proof.
  induction d as [|[k' v'] d IH]; cbn [code_set code_get].
  { cbn. lia. }
  destruct (Py.eq k k'); csimpl; rewrite !CompressorFacts.zsum_cons; simpl; [lia|]. rewrite IH. lia.
Qed.
End codes.

Lemma code_get_fmap {A B} (f : A → B) k d :
  code_get k (prod_map id f <$> d) = f <$> code_get k d.
Proof. induction d as [|[k' v] d IH]; [done|]. simpl. by destruct (Py.eq k k'). Qed.
Lemma code_set_fmap {A B} (f : A → B) k v d :
  code_set k (f v) (prod_map id f <$> d) = prod_map id f <$> code_set k v d.
Proof. induction d as [|[k' v'] d IH]; [done|]. cbn. destruct (Py.eq k k'); [done|]. cbn. f_equal. apply IH. Qed.


Import ErrorBucketAnalyzer.

(** The failures of one bucket, in order. *)
Definition failures_of (code : pyval) (l : list EvalCaseResult) : list EvalCaseResult :=
  filter (λ r, ca_success r = false ∧ bucket_name r = code) l.

Definition describes (l : list EvalCaseResult) (kv : pyval * ErrorBucketEntry) : Prop :=
  let '(k, e) := kv in
  be_error_code e = k ∧ be_category e = classify_category k ∧ be_priority e = priority_of k ∧
  be_sample_ids e = ca_sample_id <$> failures_of k l ∧
  be_count e = Z.of_nat (length (failures_of k l)).

Record grouping (l : list EvalCaseResult) (d : list (pyval * ErrorBucketEntry)) : Prop := {
  g_named : named d;
  g_describes : ∀ kv, kv ∈ d → describes l kv;
  g_complete : ∀ r, r ∈ l → ca_success r = false → bucket_name r ∈ d.*1;
  g_total : PySort.zsum (be_count <$> d.*2) = PySort.count_if (λ r, negb (ca_success r)) l;
}.

Lemma failures_of_snoc k l r :
  failures_of k (l ++ [r]) = failures_of k l ++
    (if decide (ca_success r = false ∧ bucket_name r = k) then [r] else []).
Proof. unfold failures_of. by rewrite filter_app, filter_cons, filter_nil. Qed.

Lemma code_get_None {A} k (d : list (pyval * A)) : is_name k → named d → code_get k d = None ↔ k ∉ d.*1.
Proof.
  intros Hk Hd. rewrite list_elem_of_fmap. split.
  - intros Hn ([k' v] & Heq & Hin). simpl in Heq. subst k'. apply code_get_Some in Hin; [congruence|done..].
  - intros Hn. destruct (code_get k d) as [v|] eqn:E; [|done].
    apply code_get_Some in E; [|done..]. destruct Hn. by exists (k, v).
Qed.

Lemma grouping_step l d r : is_code (ca_error_code r) → grouping l d → grouping (l ++ [r]) (add_failure d r).
Proof.
  intros Hr [Hn Hd Hc Ht]. unfold add_failure.
  pose proof (bucket_name_name r Hr) as Hk. set (k := bucket_name r) in *.
  destruct (ca_success r) eqn:Es.
  { split; [done| | |].
    - intros [k' e] Hin. specialize (Hd _ Hin). unfold describes in *.
      rewrite failures_of_snoc, decide_False by (intros [? _]; congruence). by rewrite app_nil_r.
    - intros r' [Hin|Hin]%elem_of_app; [by apply Hc|].
      apply list_elem_of_singleton in Hin. congruence.
    - rewrite count_if_app, PySort.count_if_cons, Es, Ht. change (PySort.count_if _ []) with 0. simpl. lia. }
  set (e0 := default _ (code_get k d)).
  assert (be_error_code e0 = k ∧ be_category e0 = classify_category k ∧ be_priority e0 = priority_of k ∧
          be_sample_ids e0 = ca_sample_id <$> failures_of k l ∧
          be_count e0 = Z.of_nat (length (failures_of k l))) as (H1 & H2 & H3 & H4 & H5).
  { subst e0. destruct (code_get k d) as [e|] eqn:E; simpl.
    - apply code_get_Some in E; [|done..]. by apply (Hd _ E).
    - apply code_get_None in E; [|done..].
      assert (failures_of k l = []) as ->; [|done].
      apply elem_of_nil_inv. intros r' [[Hs Hb] Hin]%list_elem_of_filter. destruct E. rewrite <-Hb. by apply Hc. }
  split.
  - by apply code_set_named.
  - intros [k' e] Hin. apply elem_of_code_set in Hin as [[= -> ->]|[Hne Hin]]; [| |done|done].
    + unfold describes. simpl. rewrite failures_of_snoc, decide_True by done.
      rewrite fmap_app, length_app, H1, H2, H3, H4, H5. simpl. split_and!; try done. lia.
    + specialize (Hd _ Hin). unfold describes in *. simpl in Hne.
      rewrite failures_of_snoc, decide_False by (intros [_ Heq]; by apply Hne). by rewrite app_nil_r.
  - intros r' Hin Hs. apply list_elem_of_fmap.
    destruct (decide (bucket_name r' = k)) as [Hb|Hb].
    + eexists (k, _). split; [done|]. apply elem_of_code_set; [done..|]. by left.
    + apply elem_of_app in Hin as [Hin|Hin]; [|apply list_elem_of_singleton in Hin; by subst r'].
      specialize (Hc _ Hin Hs). apply list_elem_of_fmap in Hc as ([k' e] & Heq & Hin').
      exists (k', e). split; [done|]. apply elem_of_code_set; [done..|]. right. simpl in *. by subst.
  - rewrite code_set_sum, count_if_app, PySort.count_if_cons, Es, Ht. simpl.
    assert (be_count e0 = default 0 (be_count <$> code_get k d)) as <-.
    { subst e0. by destruct (code_get k d). }
    change (PySort.count_if _ []) with 0. lia.
Qed.

Lemma grouped_spec l : coded l → grouping l (grouped l).
Proof.
  unfold coded, grouped. induction l as [|r l IH] using rev_ind.
  - intros _. split; [split; constructor|set_solver|set_solver|done].
  - intros [Hl Hr]%Forall_app. rewrite foldl_app. simpl. apply grouping_step; [|by apply IH].
    by apply Forall_cons in Hr as [? _].
Qed.

(** The summary's buckets are the counts of the report's entries. *)
Lemma buckets_of_grouped l :
  Scorer.build_failure_buckets l = prod_map id be_count <$> grouped l.
Proof.
  unfold Scorer.build_failure_buckets, grouped. induction l as [|r l IH] using rev_ind; [done|].
  rewrite !foldl_app. simpl. rewrite IH. unfold Scorer.count_code, add_failure.
  destruct (ca_success r); [done|]. rewrite code_get_fmap, <-code_set_fmap. simpl. f_equal.
  by destruct (code_get _ _).
Qed.
End FailureFacts.
Import FailureFacts.

Import ErrorBucketAnalyzer.

(** Integer codes before texts: a total order that agrees with the code's on
    comparable entries. *)
Definition total_code_lt (x y : pyval) : bool :=
  match x, y with VInt _, VStr _ => true | _, _ => code_lt x y end.
Definition total_lt : ErrorBucketEntry → ErrorBucketEntry → bool :=
  PySort.lex (PySort.on be_priority PySort.Zlt)
    (PySort.lex (PySort.on be_count (PySort.down PySort.Zlt)) (PySort.on be_error_code total_code_lt)).

Lemma total_code_strict_weak : PySort.strict_weak total_code_lt is_name.
Proof.
  destruct PySort.strict_weak_str as [Si St Sn]. destruct PySort.strict_weak_Z as [Zi Zt Zn].
  split.
  - intros [] Hx; try done; simpl; [by apply Zi|by apply Si].
  - intros [] [] [] Hx Hy Hz; try done; simpl; [by apply Zt|by apply St].
  - intros [] [] [] Hx Hy Hz; try done; simpl; [by apply Zn|by apply Sn].
Qed.

Lemma total_strict_weak : PySort.strict_weak total_lt (λ e, is_name (be_error_code e)).
Proof.
  apply PySort.strict_weak_lex; [|apply PySort.strict_weak_lex].
  - eapply PySort.strict_weak_mono; [|apply PySort.strict_weak_on, PySort.strict_weak_Z]. done.
  - eapply PySort.strict_weak_mono; [|apply PySort.strict_weak_on, PySort.strict_weak_down, PySort.strict_weak_Z]. done.
  - apply PySort.strict_weak_on, total_code_strict_weak.
Qed.

Lemma entry_lt_total x y : is_name (be_error_code x) → is_name (be_error_code y) →
  ¬ uncomparable x y → entry_lt x y = total_lt x y.
Proof.
  unfold uncomparable, entry_lt, total_lt, PySort.lex, PySort.on, PySort.down, PySort.Zlt. intros Hx Hy Hu.
  destruct (Z.ltb_spec (be_priority x) (be_priority y)), (Z.ltb_spec (be_priority y) (be_priority x)); try done.
  destruct (Z.ltb_spec (be_count x) (be_count y)), (Z.ltb_spec (be_count y) (be_count x)); try done.
  simpl. unfold total_code_lt. destruct (be_error_code x), (be_error_code y); try done.
  destruct Hu. split_and!; [lia|lia|done].
Qed.

Lemma entries_strict_weak (L : list ErrorBucketEntry) :
  Forall (λ e, is_name (be_error_code e)) L → (∀ x y, x ∈ L → y ∈ L → ¬ uncomparable x y) →
  PySort.strict_weak entry_lt (λ e, e ∈ L).
Proof.
  rewrite Forall_forall. intros Hn Hu. destruct total_strict_weak as [Hi Ht Hneg].
  assert (∀ x y, x ∈ L → y ∈ L → entry_lt x y = total_lt x y) as Heq by (intros; apply entry_lt_total; auto).
  split.
  - intros x Hx. rewrite Heq by done. by apply Hi, Hn.
  - intros x y z Hx Hy Hz. rewrite !Heq by done. apply Ht; by apply Hn.
  - intros x y z Hx Hy Hz. rewrite !Heq by done. apply Hneg; by apply Hn.
Qed.

(** The failure report accounts for every failed case: for results whose
    codes are absent, texts or integers, the report is the first [limit] of
    entries ordered by priority, count and code, one per distinct code, each
    with exactly the failed samples of its code in their order; every failed
    case is in one of them, the counts add up to the number of failures and are
    those of the summary's failure buckets.  It raises exactly when an integer
    and a text code have the same priority and count. *)
Theorem failure_report_complete (l : list EvalCaseResult) limit :
  coded l →
  match build_topn l limit with
  | Ok entries => ∃ all, entries = slice_to limit all ∧ PySort.sorted entry_lt all ∧
      NoDup (be_error_code <$> all) ∧
      (∀ e, e ∈ all → be_sample_ids e = ca_sample_id <$> failures_of (be_error_code e) l ∧
         be_count e = Z.of_nat (length (be_sample_ids e)) ∧
         be_category e = classify_category (be_error_code e) ∧
         be_priority e = priority_of (be_error_code e)) ∧
      (∀ r, r ∈ l → ca_success r = false → bucket_name r ∈ be_error_code <$> all) ∧
      PySort.zsum (be_count <$> (grouped l).*2) = PySort.count_if (λ r, negb (ca_success r)) l ∧
      Scorer.build_failure_buckets l ≡ₚ (λ e, (be_error_code e, be_count e)) <$> all
  | Err _ => ∃ x y, x ∈ (grouped l).*2 ∧ y ∈ (grouped l).*2 ∧ uncomparable x y
  end.
Proof.
  intros Hl. destruct (grouped_spec l Hl) as [Hn Hd Hc Ht]. unfold build_topn, raise_if.
  case_bool_decide as E; simpl.
  { apply Exists_exists in E as (x & Hx & (y & Hy & Hu)%Exists_exists). eauto. }
  set (L := (grouped l).*2) in *.
  assert ((grouped l).*1 = be_error_code <$> L) as Hcodes.
  { unfold L. rewrite <-list_fmap_compose. apply list_fmap_ext. intros i kv Hi.
    apply list_elem_of_lookup_2, Hd in Hi. destruct kv. by destruct Hi as (<- & _). }
  assert (PySort.sort entry_lt L ≡ₚ L) as Hp by apply PySort.sort_perm.
  exists (PySort.sort entry_lt L). split; [done|].
  split.
  { eapply (PySort.sort_sorted entry_lt (λ e, e ∈ L)); [|by apply Forall_forall].
    apply entries_strict_weak.
    - destruct Hn as [_ Hn]. rewrite Hcodes in Hn. exact (proj1 (Forall_fmap _ _ _) Hn).
    - intros x y Hx Hy Hu. apply E, Exists_exists. exists x. split; [done|]. apply Exists_exists. eauto. }
  assert (∀ e, e ∈ L → ∃ k, (k, e) ∈ grouped l) as Hfrom.
  { intros e ([k e'] & -> & Hin)%list_elem_of_fmap. by exists k. }
  split; [rewrite Hp, <-Hcodes; by destruct Hn|]. split.
  { intros e He. rewrite Hp in He. destruct (Hfrom e He) as [k Hk].
    destruct (Hd _ Hk) as (-> & -> & -> & -> & ->). by rewrite length_fmap. }
  split; [intros r Hr Hs; rewrite Hp, <-Hcodes; by apply Hc|]. split; [done|].
  rewrite Hp, buckets_of_grouped. unfold L. rewrite <-list_fmap_compose.
  erewrite (list_fmap_ext (prod_map id be_count)); [done|].
  intros i [k e] Hi. apply list_elem_of_lookup_2, Hd in Hi. by destruct Hi as (<- & _).
Qed.

(** Results of a run: a passed case, a denied one and one without an answer. *)
Definition sample_result (id : string) (success : bool) (code : pyval) : EvalCaseResult :=
  mkCaseResult id "gateway" "easy" success [] [] PyFloat.zero PyFloat.zero None None [] PyFloat.zero
    PyFloat.zero PyFloat.zero code [] false false false 0 0 0 0 0.
Definition sample_run : list EvalCaseResult :=
  [sample_result "a" true VNone; sample_result "b" false (VStr "unauthorized");
   sample_result "c" false VNone].

Lemma failure_report_complete_witness :
  coded sample_run ∧
  match build_topn sample_run 5 with
  | Ok entries => ∃ all, entries = slice_to 5 all ∧ PySort.sorted entry_lt all ∧
      NoDup (be_error_code <$> all) ∧
      (∀ e, e ∈ all → be_sample_ids e = ca_sample_id <$> failures_of (be_error_code e) sample_run ∧
         be_count e = Z.of_nat (length (be_sample_ids e)) ∧
         be_category e = classify_category (be_error_code e) ∧
         be_priority e = priority_of (be_error_code e)) ∧
      (∀ r, r ∈ sample_run → ca_success r = false → bucket_name r ∈ be_error_code <$> all) ∧
      PySort.zsum (be_count <$> (grouped sample_run).*2) =
        PySort.count_if (λ r, negb (ca_success r)) sample_run ∧
      Scorer.build_failure_buckets sample_run ≡ₚ (λ e, (be_error_code e, be_count e)) <$> all
  | Err _ => ∃ x y, x ∈ (grouped sample_run).*2 ∧ y ∈ (grouped sample_run).*2 ∧ uncomparable x y
  end.
Proof.
  assert (coded sample_run) as H by (repeat constructor).
  split; [exact H|]. exact (failure_report_complete sample_run 5 H).
Defined.

(** A validation error has an integer code; next to an unauthorized call, which
    has the same priority, it makes the report raise. *)
Example mixed_codes_break_report :
  build_topn [sample_result "a" false (VInt 1004); sample_result "b" false (VStr "unauthorized")] 5 =
  Err (TypeError "'<' not supported between instances of 'str' and 'int'").
Proof. by vm_compute. Qed.
