(* ===== verification/EvalRunner.v ===== *)
(** * Evaluation runner (src/eval/runner.py)

    The flow that takes one evaluation sample through the gateway (validation,
    authorization, circuit breaker, rate limiter, tool) or through retrieval
    (recall, reranking, compression, answer), with tracing, logging and
    auditing.  It composes the models of those components.

    Parameters: [time] and [date] are the readings of the wall clock, [perf] of
    [time.perf_counter()], [hex] and [uuid] identifiers, [hash] the digest of
    parameters, [repr] and [exc_str] the interpreter's texts, [dumps] is
    [json.dumps].  Every component reads its own clock. *)
From S2P Require Import Prelude PyFloat PyValue Persistence CircuitBreaker Catalog Authorizer PreInvocation RateLimiter PySort PyFormat Retrieval Compressor Release Observability Scorer.
Local Open Scope Z_scope.

(** [_GatewayRuntime]: the components of one sample. *)
Record runtime (B W : Type) := mkRuntime {
  rt_registry : Registry.registry;
  rt_quota : quota_tracker;
  rt_authorizer : authorizer;
  rt_breaker : breaker B;
  rt_limiter : limiter;
  rt_audit : audit_log W;
  rt_handlers : dict (dict pyval → res pyval);
}.
Arguments mkRuntime {B W}.
Arguments rt_registry {B W}.
Arguments rt_quota {B W}.
Arguments rt_authorizer {B W}.
Arguments rt_breaker {B W}.
Arguments rt_limiter {B W}.
Arguments rt_audit {B W}.
Arguments rt_handlers {B W}.

(** The runner's tracer and logger, the runtime, the clocks, and the handler
    calls made so far (not part of the program's state: what the theorems are
    about). *)
Record flow (B W : Type) := mkFlow {
  fl_obs : obs;
  fl_rt : runtime B W;
  fl_clock : nat;
  fl_perf : nat;
  fl_calls : list (string * dict pyval);
}.
Arguments mkFlow {B W}.
Arguments fl_obs {B W}.
Arguments fl_rt {B W}.
Arguments fl_clock {B W}.
Arguments fl_perf {B W}.
Arguments fl_calls {B W}.

Module GatewayRuntime.
Section runtime.
Context {B W : Type}.
Implicit Types r : runtime B W.

Definition set_quota (q : quota_tracker) r : runtime B W :=
  mkRuntime (rt_registry r) q (rt_authorizer r) (rt_breaker r) (rt_limiter r) (rt_audit r) (rt_handlers r).
Definition set_authorizer (a : authorizer) r : runtime B W :=
  mkRuntime (rt_registry r) (rt_quota r) a (rt_breaker r) (rt_limiter r) (rt_audit r) (rt_handlers r).
Definition set_breaker (k : breaker B) r : runtime B W :=
  mkRuntime (rt_registry r) (rt_quota r) (rt_authorizer r) k (rt_limiter r) (rt_audit r) (rt_handlers r).
Definition set_limiter (l : limiter) r : runtime B W :=
  mkRuntime (rt_registry r) (rt_quota r) (rt_authorizer r) (rt_breaker r) l (rt_audit r) (rt_handlers r).
Definition set_audit (a : audit_log W) r : runtime B W :=
  mkRuntime (rt_registry r) (rt_quota r) (rt_authorizer r) (rt_breaker r) (rt_limiter r) a (rt_handlers r).

(** [__init__] *)
Definition init (w : W) : runtime B W :=
  mkRuntime Registry.init QuotaTracker.init (ToolAuthorizer.init None) (CircuitBreaker.init None 0)
    (RateLimiter.init 0) (GatewayAudit.init w) [].

(** [_register_tool] *)
Definition register_tool (meta : ToolMeta) (handler : dict pyval → res pyval) : st (runtime B W) unit := λ r,
  match Registry.register meta (rt_registry r) with
  | (Ok _, reg) =>
      (Ok tt, mkRuntime reg (rt_quota r) (rt_authorizer r) (rt_breaker r) (rt_limiter r) (rt_audit r)
                (dinsert (tm_name meta) handler (rt_handlers r)))
  | (Err e, reg) =>
      (Err e, mkRuntime reg (rt_quota r) (rt_authorizer r) (rt_breaker r) (rt_limiter r) (rt_audit r)
                (rt_handlers r))
  end.
End runtime.

(** The metadata of the mock tools; [now] is the reading of their timestamps. *)
Definition mock_meta (name description : string) (roles : list string) (sensitive : bool)
    (schema : dict pyval) (quota : QuotaConfig) (now : float) : ToolMeta :=
  mkToolMeta name "1.0.0" description AVAILABLE schema [] [] roles sensitive quota
    (PyFloat.of_Z 30) "" [] now now "" "".
Definition object_schema (required : string) (properties : dict string) : dict pyval :=
  [("type", VStr "object"); ("required", VList [VStr required]);
   ("properties", VDict (prod_map id (λ t, VDict [("type", VStr t)]) <$> properties))].

Definition web_search_meta (now : float) : ToolMeta :=
  mock_meta "web_search" "Mock public web search tool." ["public"] false
    (object_schema "query" [("query", "string"); ("top_k", "integer")]) (mkQuotaConfig 5 2 100) now.
Definition merchant_lookup_meta (now : float) : ToolMeta :=
  mock_meta "merchant_lookup" "Mock internal merchant lookup." ["internal"] false
    (object_schema "merchant_id" [("merchant_id", "string")]) Registry.default_quota now.
Definition admin_export_meta (now : float) : ToolMeta :=
  mock_meta "admin_export" "Mock sensitive admin export." ["admin"] true
    (object_schema "scope" [("scope", "string")]) Registry.default_quota now.

(** The lambdas. *)
Definition web_search (params : dict pyval) : res pyval :=
  q ← Py.subscript "query" params;
  Ok (VDict [("items", VList [VDict [("title", VStr "search_result"); ("snippet", q)]]); ("total", VInt 1)]).
Definition merchant_lookup (params : dict pyval) : res pyval :=
  m ← Py.subscript "merchant_id" params; Ok (VDict [("merchant_id", m); ("status", VStr "active")]).
Definition admin_export (params : dict pyval) : res pyval :=
  s ← Py.subscript "scope" params; Ok (VDict [("scope", s); ("exported", VBool true)]).

Definition register_default_tools {B W} (now : float) : st (runtime B W) unit :=
  register_tool (web_search_meta now) web_search ≫= λ _,
  register_tool (merchant_lookup_meta now) merchant_lookup ≫= λ _,
  register_tool (admin_export_meta now) admin_export.
Definition build_default {B W} (now : float) (w : W) : res unit * runtime B W :=
  register_default_tools now (init w).

Definition build_caller (sample : EvalSample) : CallerIdentity :=
  mkCallerIdentity ("caller-" +:+ es_id sample)
    (default PUBLIC (ToolAuthorizer.role_of (es_caller_role sample))) (es_tenant sample) ∅.

(** [CircuitConfig(failure_threshold=1, recovery_timeout=5.0)] *)
Definition circuit_config : CircuitConfig :=
  mkCircuitConfig 1 (PyFloat.of_Z 5) 2 (PyFloat.of_Z 60).
End GatewayRuntime.

Module GatewayFlow.
Import GatewayRuntime.
Section flow.
Context {B W : Type} `{KeyedBackend B CircuitRecord cr_tool_name}.
Context (time : nat → float) (date : nat → string) (perf : nat → float).
Context (hex uuid : nat → string) (hash : dict pyval → string).
Context (repr : pyval → string) (repr_list : list string → string) (exc_str : exc → string).
Context (dumps : pyval → res text) (pow : float → Z → res float).
Context (lower : text → text) (is_space : Z → bool).
Implicit Types s : flow B W.

Abbreviation M := (st (flow B W)).

(** Access to the parts of the state. *)
Definition set_obs (o : obs) s : flow B W := mkFlow o (fl_rt s) (fl_clock s) (fl_perf s) (fl_calls s).
Definition set_rt (r : runtime B W) s : flow B W :=
  mkFlow (fl_obs s) r (fl_clock s) (fl_perf s) (fl_calls s).
Definition with_obs {A} (m : st obs A) : M A := zoom fl_obs set_obs m.
Definition with_quota {A} (m : st quota_tracker A) : M A :=
  zoom (λ s, rt_quota (fl_rt s)) (λ q s, set_rt (set_quota q (fl_rt s)) s) m.
Definition with_breaker {A} (m : st (breaker B) A) : M A :=
  zoom (λ s, rt_breaker (fl_rt s)) (λ k s, set_rt (set_breaker k (fl_rt s)) s) m.
Definition with_limiter {A} (m : st limiter A) : M A :=
  zoom (λ s, rt_limiter (fl_rt s)) (λ l s, set_rt (set_limiter l (fl_rt s)) s) m.
Definition with_audit {A} (m : st (audit_log W) A) : M A :=
  zoom (λ s, rt_audit (fl_rt s)) (λ a s, set_rt (set_audit a (fl_rt s)) s) m.

(** A reading of the wall clock and of the date. *)
Definition tick : M nat := λ s,
  (Ok (fl_clock s), mkFlow (fl_obs s) (fl_rt s) (S (fl_clock s)) (fl_perf s) (fl_calls s)).
(** [time.perf_counter()] *)
Definition perf_counter : M float := λ s,
  (Ok (perf (fl_perf s)), mkFlow (fl_obs s) (fl_rt s) (fl_clock s) (S (fl_perf s)) (fl_calls s)).
(** [(time.perf_counter() - start_time) * 1000] *)
Definition latency_since (start : float) : M float :=
  t ← perf_counter; mret (PyFloat.mul (PyFloat.sub t start) (PyFloat.of_Z 1000)).
(** [uuid.uuid4().hex[:8]] *)
Definition fresh_hex : M string := with_obs (λ o,
  (Ok (String.substring 0 8 (hex (ob_ids o))), mkObs (spans o) (logs o) (ob_clock o) (S (ob_ids o)))).

(** [self._logger] and [self._tracer] of the runner *)
Definition info (component event message : string) (ctx : TraceContext) (step : option string)
    (md : dict pyval) : M unit :=
  with_obs (Logger.info time None component event message (Some ctx) step (Some md)).
Definition warning (event message : string) (ctx : TraceContext) (code : pyval) : M unit :=
  with_obs (Logger.warning time None "gateway" event message (Some ctx) None code None).
Definition error (event message : string) (ctx : TraceContext) (code : pyval) (md : dict pyval) : M unit :=
  with_obs (Logger.error time None "gateway" event message (Some ctx) None code (Some md)).
Definition span {A} (ctx : TraceContext) (component name : string) (body : string → M A) : M A :=
  Tracer.with_span time hex None fl_obs set_obs ctx component name body.

(** [validator.validate], [authorizer.authorize], [quota_tracker] *)
Definition validate (tool : string) (params : dict pyval) : M ValidationResult :=
  n ← tick;
  reg ← st_gets (λ s, rt_registry (fl_rt s));
  with_quota (ToolValidator.validate repr reg tool params (time n) (date n)).
Definition authorize (caller : CallerIdentity) (meta : ToolMeta) : M AuthDecision :=
  n ← tick;
  zoom (λ s, rt_authorizer (fl_rt s)) (λ a s, set_rt (set_authorizer a (fl_rt s)) s)
    (λ a, let '(d, a') := ToolAuthorizer.authorize repr_list caller meta (time n) a in (Ok d, a')).
Definition record_call_start (tool : string) : M unit :=
  n ← tick; with_quota (st_modify (QuotaTracker.record_call_start tool (time n) (date n))).
Definition record_call_end (tool : string) : M unit :=
  with_quota (st_modify (QuotaTracker.record_call_end tool)).

(** [invoke] *)
Definition invoke (tool : string) (params : dict pyval) : M pyval :=
  handlers ← st_gets (λ s, rt_handlers (fl_rt s));
  match dlookup tool handlers with
  | None => st_raise (KeyError tool)
  | Some handler =>
      st_modify (λ s, mkFlow (fl_obs s) (fl_rt s) (fl_clock s) (fl_perf s) (fl_calls s ++ [(tool, params)]))
        ≫= λ _, st_lift (handler params)
  end.

Record outcome := mkOutcome {
  oc_answer : text;
  oc_error_code : pyval;
  oc_success : bool;
  oc_latency_ms : float;
  oc_step_outcomes : dict bool;
  oc_validation_rejected : bool;
  oc_auth_denied : bool;
  oc_circuit_opened : bool;
  oc_tool_calls : Z;
}.

(** [_build_gateway_case_result] *)
Definition build_case_result (sample : EvalSample) (trace_id session_id : string) (o : outcome) :
    M EvalCaseResult :=
  answer_f1 ← st_lift (match oc_answer o with
    | [] => Ok PyFloat.zero
    | _ => Scorer.compute_f1 lower is_space (oc_answer o) (es_expected_answer sample)
    end);
  audit_entries ← st_gets (λ s, GatewayAudit.entry_count (rt_audit (fl_rt s)));
  mret (mkCaseResult (es_id sample) (es_category sample) (es_difficulty sample) (oc_success o)
    (oc_answer o) (es_expected_answer sample) answer_f1 (oc_latency_ms o) (Some trace_id)
    (Some session_id) [] PyFloat.zero PyFloat.zero PyFloat.zero (oc_error_code o)
    (oc_step_outcomes o) (oc_validation_rejected o) (oc_auth_denied o) (oc_circuit_opened o)
    audit_entries 0 (oc_tool_calls o) (Scorer.estimate_tokens lower is_space (es_query sample))
    (Scorer.estimate_tokens lower is_space (oc_answer o))).

(** [sample.expect_error == code] *)
Definition expected (sample : EvalSample) (code : pyval) : bool :=
  Py.eq (opt_str (es_expect_error sample)) code.

(** [sample.tool_name or ""] *)
Definition tool_of (sample : EvalSample) : string := default "" (es_tool_name sample).

Definition PASS : text := [80; 65; 83; 83].

Section sample.
Context (sample : EvalSample) (trace_id : string) (start_time : float).
Definition session_id : string := "sess-" +:+ es_id sample.
Definition ctx : TraceContext := mkTraceContext trace_id session_id (es_id sample) [].
Definition caller : CallerIdentity := build_caller sample.
Definition result (o : outcome) : M EvalCaseResult := build_case_result sample trace_id session_id o.
Definition refused (code : pyval) (latency : float) (steps : dict bool)
    (rejected denied opened : bool) : outcome :=
  mkOutcome [] code (expected sample code) latency steps rejected denied opened 0.
Definition audit_event (t : AuditEventType) (tool : string) (err : pyval) (md : dict pyval) : M unit :=
  with_audit (GatewayAudit.log_event uuid time t trace_id session_id (caller_id caller) tool err md)
    ≫= λ _, mret tt.

(** The branches that return early. *)
Definition reject_validation (v : ValidationResult) (steps : dict bool) : M EvalCaseResult :=
  latency ← latency_since start_time;
  code ← st_lift (match errors v with
    | e :: _ => Ok (VInt (ee_code e))
    | [] => Err (IndexError "list index out of range")
    end);
  warning "validation_failed" "Validation rejected request" ctx code ≫= λ _,
  audit_event TOOL_CALL_REJECTED (tool_of sample) code [] ≫= λ _,
  result (refused code latency steps true false false).
Definition unknown_tool (steps : dict bool) : M EvalCaseResult :=
  latency ← latency_since start_time;
  result (refused (VStr "invalid_tool_name") latency steps false false false).
Definition deny (d : AuthDecision) (meta : ToolMeta) (steps : dict bool) : M EvalCaseResult :=
  latency ← latency_since start_time;
  warning "authorization_failed" "Authorization denied request" ctx (VStr "unauthorized") ≫= λ _,
  audit_event AUTH_DENIED (tm_name meta) (VStr (reason d)) [] ≫= λ _,
  result (refused (VStr "unauthorized") latency steps false true false).
Definition circuit_rejected (meta : ToolMeta) (steps : dict bool) : M EvalCaseResult :=
  latency ← latency_since start_time;
  error "circuit_open" "Circuit breaker rejected request" ctx (VStr "circuit_open") [] ≫= λ _,
  audit_event CIRCUIT_OPENED (tm_name meta) (VStr "circuit_open") [] ≫= λ _,
  result (refused (VStr "circuit_open") latency steps false false true).
Definition rate_limited (r : RateLimitResult) (meta : ToolMeta) (steps : dict bool) : M EvalCaseResult :=
  latency ← latency_since start_time;
  warning "rate_limited" "Rate limiter rejected request" ctx (VStr "rate_limited") ≫= λ _,
  audit_event RATE_LIMITED (tm_name meta) (VStr "rate_limited") [("retry_after", VFloat (rl_retry_after r))]
    ≫= λ _,
  result (refused (VStr "rate_limited") latency steps false false false).

(** The [try] block. *)
Definition execute (meta : ToolMeta) (steps : dict bool) : M EvalCaseResult :=
  tool_response ← span ctx "gateway" "execution" (λ step,
    r ← invoke (tm_name meta) (es_tool_params sample);
    info "gateway" "execution_complete" "Tool invocation completed" ctx (Some step)
      [("tool_name", VStr (tm_name meta))] ≫= λ _, mret r);
  with_breaker (CircuitBreaker.record_success time circuit_config (tm_name meta)) ≫= λ _,
  logged ← latency_since start_time;
  with_audit (GatewayAudit.log_call_success uuid time trace_id session_id (caller_id caller)
    (tm_name meta) (tm_version meta) (String.substring 0 120 (Py.to_str repr tool_response)) logged)
    ≫= λ _,
  latency ← latency_since start_time;
  info "runner" "sample_complete" "Gateway sample passed" ctx None [] ≫= λ _,
  answer ← st_lift (if decide (es_expected_answer sample = PASS) then Ok PASS else dumps tool_response);
  result (mkOutcome answer VNone (bool_decide (es_expect_error sample = None)) latency
    (dinsert "execution" true steps) false false false 1).
(** The [except] block. *)
Definition failed (meta : ToolMeta) (steps : dict bool) (e : exc) : M EvalCaseResult :=
  with_breaker (CircuitBreaker.record_failure time circuit_config (tm_name meta)) ≫= λ _,
  latency ← latency_since start_time;
  error "execution_failed" "Tool invocation failed" ctx (VStr "tool_execution_failed")
    [("error", VStr (exc_str e))] ≫= λ _,
  with_audit (GatewayAudit.log_call_failure uuid time trace_id session_id (caller_id caller)
    (tm_name meta) (tm_version meta) (exc_str e) latency) ≫= λ _,
  result (mkOutcome [] (VStr "tool_execution_failed")
    (expected sample (VStr "tool_execution_failed")) latency
    (dinsert "execution" false steps) false false false 1).

Definition call_tool (meta : ToolMeta) (steps : dict bool) : M EvalCaseResult :=
  record_call_start (tm_name meta) ≫= λ _,
  with_audit (GatewayAudit.log_call_start uuid time hash trace_id session_id (caller_id caller)
    (tm_name meta) (tm_version meta) (es_tool_params sample)) ≫= λ _,
  st_finally (st_catch (execute meta steps) (failed meta steps)) (record_call_end (tm_name meta)).

(** The gates, in their order. *)
Definition rate_gate (meta : ToolMeta) (steps : dict bool) : M EvalCaseResult :=
  r ← span ctx "gateway" "rate_limit" (λ step,
    r ← with_limiter (RateLimiter.acquire time pow RateLimiter.default_config (caller_id caller) 1);
    info "gateway" "rate_limit_complete" "Rate limiter checked" ctx (Some step)
      [("allowed", VBool (rl_allowed r))] ≫= λ _, mret r);
  let steps := dinsert "rate_limit" (rl_allowed r) steps in
  if rl_allowed r then call_tool meta steps else rate_limited r meta steps.
Definition circuit_gate (meta : ToolMeta) (steps : dict bool) : M EvalCaseResult :=
  span ctx "gateway" "circuit_check" (λ step,
    allowed ← with_breaker (CircuitBreaker.allow_request time circuit_config (tm_name meta));
    info "gateway" "circuit_check_complete" "Circuit breaker checked" ctx (Some step)
      [("allowed", VBool allowed)] ≫= λ _, mret allowed) ≫= λ allowed : bool,
  if allowed then rate_gate meta steps else circuit_rejected meta steps.
Definition auth_gate (meta : ToolMeta) (steps : dict bool) : M EvalCaseResult :=
  d ← span ctx "gateway" "authorization" (λ step,
    d ← authorize caller meta;
    info "gateway" "authorization_complete" "Authorizer completed" ctx (Some step)
      [("allowed", VBool (allowed d))] ≫= λ _, mret d);
  let steps := dinsert "authorization" (allowed d) steps in
  if allowed d then circuit_gate meta steps else deny d meta steps.
Definition validation_gate : M EvalCaseResult :=
  v ← span ctx "gateway" "validation" (λ step,
    v ← validate (tool_of sample) (es_tool_params sample);
    info "gateway" "validation_complete" "Validator completed" ctx (Some step)
      [("valid", VBool (valid v))] ≫= λ _, mret v);
  let steps := [("validation", valid v)] in
  if negb (valid v) then reject_validation v steps else
  meta ← st_gets (λ s, Registry.get (tool_of sample) None (rt_registry (fl_rt s)));
  match meta with
  | None => unknown_tool steps
  | Some meta => auth_gate meta steps
  end.
End sample.

(** [_run_gateway_sample] on a runtime *)
Definition run_gateway_sample (sample : EvalSample) : M EvalCaseResult :=
  h ← fresh_hex;
  let trace_id := "trace-" +:+ es_id sample +:+ "-" +:+ h in
  start_time ← perf_counter;
  info "runner" "sample_start" "Gateway sample started" (ctx sample trace_id) None [] ≫= λ _,
  validation_gate sample trace_id start_time.
End flow.
End GatewayFlow.

(** ** A program logic for the flow

    [wp m Q rt c]: from any state with runtime [rt] and handler calls [c],
    whatever has been logged and whatever the clocks read, [m] ends with [Q]. *)
Module FlowFacts.
Import GatewayRuntime GatewayFlow.
Section wp.
Context {B W : Type} `{KeyedBackend B CircuitRecord cr_tool_name}.
Context (time : nat → float) (date : nat → string) (perf : nat → float).
Context (hex uuid : nat → string) (hash : dict pyval → string).
Context (repr : pyval → string) (repr_list : list string → string) (exc_str : exc → string).
Context (dumps : pyval → res text) (pow : float → Z → res float).
Context (lower : text → text) (is_space : Z → bool).

Abbreviation calls := (list (string * dict pyval)).
Abbreviation post A := (res A → runtime B W → calls → Prop).
Definition wp {A} (m : st (flow B W) A) (Q : post A) (rt : runtime B W) (c : calls) : Prop :=
  ∀ s, fl_rt s = rt → fl_calls s = c → let '(r, s') := m s in Q r (fl_rt s') (fl_calls s').

Lemma fwp_ret {A} (a : A) (Q : post A) rt c : Q (Ok a) rt c → wp (mret a) Q rt c.
Proof. by intros HQ s <- <-. Qed.
Lemma fwp_lift {A} (r : res A) (Q : post A) rt c : Q r rt c → wp (st_lift r) Q rt c.
Proof. by intros HQ s <- <-. Qed.
Lemma wp_raise {A} e (Q : post A) rt c : Q (Err e) rt c → wp (st_raise e) Q rt c.
Proof. by intros HQ s <- <-. Qed.
Lemma wp_gets {A} (f : flow B W → A) (Q : post A) rt c :
  (∀ s, fl_rt s = rt → fl_calls s = c → Q (Ok (f s)) rt c) → wp (st_gets f) Q rt c.
Proof. intros HQ s Hr Hc. simpl. rewrite Hr, Hc. by apply HQ. Qed.

Lemma fwp_mono {A} (m : st (flow B W) A) (Q Q' : post A) rt c :
  (∀ r rt c, Q r rt c → Q' r rt c) → wp m Q rt c → wp m Q' rt c.
Proof. intros HQ Hm s Hr Hc. specialize (Hm s Hr Hc). destruct (m s). by apply HQ. Qed.

Lemma fwp_bind {A A'} (m : st (flow B W) A) (f : A → st (flow B W) A') (Q : post A') rt c :
  wp m (λ r rt c, match r with Ok a => wp (f a) Q rt c | Err e => Q (Err e) rt c end) rt c →
  wp (m ≫= f) Q rt c.
Proof.
  intros Hm s Hr Hc. specialize (Hm s Hr Hc). unfold mbind, st_bind.
  destruct (m s) as [[a|e] s']; [|done]. by apply (Hm s').
Qed.

Lemma wp_catch {A} (m : st (flow B W) A) h (Q : post A) rt c :
  wp m (λ r rt c, match r with Ok a => Q (Ok a) rt c | Err e => wp (h e) Q rt c end) rt c →
  wp (st_catch m h) Q rt c.
Proof.
  intros Hm s Hr Hc. specialize (Hm s Hr Hc). unfold st_catch.
  destruct (m s) as [[a|e] s']; [done|]. by apply (Hm s').
Qed.

Lemma wp_finally {A} (m : st (flow B W) A) f (Q : post A) rt c :
  wp m (λ r rt c, wp f (λ r' rt c, match r' with Ok _ => Q r rt c | Err e => Q (Err e) rt c end) rt c) rt c →
  wp (st_finally m f) Q rt c.
Proof.
  intros Hm s Hr Hc. specialize (Hm s Hr Hc). unfold st_finally.
  destruct (m s) as [r s']. specialize (Hm s' eq_refl eq_refl). by destruct (f s') as [[] s''].
Qed.

(** Logging, tracing and the clocks are invisible. *)
Lemma wp_obs {A} (m : st obs A) (Q : post A) rt c :
  (∀ o, Q (m o).1 rt c) → wp (with_obs m) Q rt c.
Proof.
  intros HQ s <- <-. unfold with_obs, zoom. specialize (HQ (fl_obs s)). by destruct (m (fl_obs s)).
Qed.
Lemma wp_info comp ev msg x step md (Q : post unit) rt c :
  Q (Ok tt) rt c → wp (info time comp ev msg x step md) Q rt c.
Proof. intros HQ. by apply wp_obs. Qed.
Lemma wp_warning ev msg x code (Q : post unit) rt c :
  Q (Ok tt) rt c → wp (warning time ev msg x code) Q rt c.
Proof. intros HQ. by apply wp_obs. Qed.
Lemma wp_error ev msg x code md (Q : post unit) rt c :
  Q (Ok tt) rt c → wp (error time ev msg x code md) Q rt c.
Proof. intros HQ. by apply wp_obs. Qed.
Lemma wp_tick (Q : post nat) rt c : (∀ n, Q (Ok n) rt c) → wp tick Q rt c.
Proof. intros HQ s <- <-. apply HQ. Qed.
Lemma wp_perf (Q : post float) rt c : (∀ t, Q (Ok t) rt c) → wp (perf_counter perf) Q rt c.
Proof. intros HQ s <- <-. apply HQ. Qed.
Lemma wp_latency start (Q : post float) rt c : (∀ t, Q (Ok t) rt c) → wp (latency_since perf start) Q rt c.
Proof. intros HQ. apply fwp_bind, wp_perf. intros t. apply fwp_ret, HQ. Qed.
Lemma wp_hex (Q : post string) rt c : (∀ h, Q (Ok h) rt c) → wp (fresh_hex hex) Q rt c.
Proof. intros HQ. apply wp_obs. intros o. apply HQ. Qed.

Lemma wp_span {A} x comp name (body : string → st (flow B W) A) (Q : post A) rt c :
  (∀ step, wp (body step) Q rt c) → wp (span time hex x comp name body) Q rt c.
Proof.
  intros HQ s Hr Hc. unfold span.
  destruct (ObservabilityFacts.with_span_spec fl_obs set_obs time hex x comp name body s)
    as (step & o1 & sp & _ & _ & Hspec).
  specialize (HQ step (set_obs o1 s) Hr Hc). destruct (body step (set_obs o1 s)) as [r s1].
  destruct Hspec as [-> _]. done.
Qed.

(** The parts of the runtime. *)
Lemma wp_quota {A} (m : st quota_tracker A) (Q : post A) rt c :
  Q (m (rt_quota rt)).1 (set_quota (m (rt_quota rt)).2 rt) c → wp (with_quota m) Q rt c.
Proof. intros HQ s <- <-. unfold with_quota, zoom. by destruct (m _). Qed.
Lemma wp_breaker {A} (m : st (breaker B) A) (Q : post A) rt c :
  Q (m (rt_breaker rt)).1 (set_breaker (m (rt_breaker rt)).2 rt) c → wp (with_breaker m) Q rt c.
Proof. intros HQ s <- <-. unfold with_breaker, zoom. by destruct (m _). Qed.
Lemma wp_limiter {A} (m : st limiter A) (Q : post A) rt c :
  Q (m (rt_limiter rt)).1 (set_limiter (m (rt_limiter rt)).2 rt) c → wp (with_limiter m) Q rt c.
Proof. intros HQ s <- <-. unfold with_limiter, zoom. by destruct (m _). Qed.
Lemma wp_audit {A} (m : st (audit_log W) A) (Q : post A) rt c :
  Q (m (rt_audit rt)).1 (set_audit (m (rt_audit rt)).2 rt) c → wp (with_audit m) Q rt c.
Proof. intros HQ s <- <-. unfold with_audit, zoom. by destruct (m _). Qed.

(** ** What the gates accept, on the runtime the sample starts with *)
Section governed.
Context (sample : EvalSample) (rt0 : runtime B W).

(** Validation at the [n]-th reading of the clock, for the metadata found. *)
Definition validates (n : nat) (meta : ToolMeta) : Prop :=
  Registry.get (tool_of sample) None (rt_registry rt0) = Some meta ∧ tm_status meta = AVAILABLE ∧
  params_ok (tm_input_schema meta) (es_tool_params sample) ∧ quota_ok meta (time n) (date n) (rt_quota rt0).
Definition authorized (meta : ToolMeta) : Prop :=
  role_granted (caller sample) meta ∧
  tenant_granted (caller sample) meta (tenant_policy (rt_authorizer rt0)) ∧
  confirmation_granted (caller sample) meta.
Definition circuit_answers (meta : ToolMeta) (allowed : bool) : Prop :=
  (CircuitBreaker.allow_request time circuit_config (tm_name meta) (rt_breaker rt0)).1 = Ok allowed.
Definition rate_answers (allowed : bool) : Prop :=
  ∃ r, (RateLimiter.acquire time pow RateLimiter.default_config (caller_id (caller sample)) 1
          (rt_limiter rt0)).1 = Ok r ∧ rl_allowed r = allowed.
Definition permitted (meta : ToolMeta) : Prop :=
  (∃ n, validates n meta) ∧ authorized meta ∧ circuit_answers meta true ∧ rate_answers true.

(** The case result and the audit trail of one sample: a refusal for the gate
    that refused, or the start of the call and its end.  A call whose answer
    cannot be serialized is logged as a success and then as a failure. *)
Inductive accounted (cr : EvalCaseResult) (called : calls) : list AuditEventType → Prop :=
| acc_rejected n code :
    (∀ meta, ¬ validates n meta) → ca_error_code cr = VInt code → ca_validation_rejected cr = true →
    ca_success cr = false → ca_tool_calls cr = 0 → called = [] →
    accounted cr called [TOOL_CALL_REJECTED]
| acc_denied n meta :
    validates n meta → ¬ authorized meta → ca_error_code cr = VStr "unauthorized" →
    ca_auth_denied cr = true → ca_success cr = bool_decide (es_expect_error sample = Some "unauthorized") →
    ca_tool_calls cr = 0 → called = [] → accounted cr called [AUTH_DENIED]
| acc_circuit n meta :
    validates n meta → authorized meta → circuit_answers meta false →
    ca_error_code cr = VStr "circuit_open" → ca_circuit_opened cr = true →
    ca_success cr = bool_decide (es_expect_error sample = Some "circuit_open") →
    ca_tool_calls cr = 0 → called = [] → accounted cr called [CIRCUIT_OPENED]
| acc_limited n meta :
    validates n meta → authorized meta → circuit_answers meta true → rate_answers false →
    ca_error_code cr = VStr "rate_limited" →
    ca_success cr = bool_decide (es_expect_error sample = Some "rate_limited") →
    ca_tool_calls cr = 0 → called = [] → accounted cr called [RATE_LIMITED]
| acc_success meta :
    permitted meta → ca_error_code cr = VNone →
    ca_success cr = bool_decide (es_expect_error sample = None) → ca_tool_calls cr = 1 →
    called = [(tm_name meta, es_tool_params sample)] →
    accounted cr called [TOOL_CALL_START; TOOL_CALL_SUCCESS]
| acc_failure meta (answered : bool) :
    permitted meta → ca_error_code cr = VStr "tool_execution_failed" →
    ca_success cr = bool_decide (es_expect_error sample = Some "tool_execution_failed") →
    ca_tool_calls cr = 1 →
    (is_Some (dlookup (tm_name meta) (rt_handlers rt0)) → called = [(tm_name meta, es_tool_params sample)]) →
    accounted cr called
      (TOOL_CALL_START :: (if answered then [TOOL_CALL_SUCCESS] else []) ++ [TOOL_CALL_FAILURE]).

Definition of_sample (e : AuditEntry) : Prop :=
  ae_session_id e = session_id sample ∧ ae_caller_id e = caller_id (caller sample).

Record governed (r : res EvalCaseResult) (rt : runtime B W) (called : calls) : Prop := {
  gv_registry : rt_registry rt = rt_registry rt0;
  gv_balanced : ∀ tool, QuotaTracker.concurrent_of tool (rt_quota rt) =
                        QuotaTracker.concurrent_of tool (rt_quota rt0);
  gv_called : called = [] ∨ ∃ meta, permitted meta ∧ called = [(tm_name meta, es_tool_params sample)];
  gv_audit : ∃ es, al_entries (rt_audit rt) = al_entries (rt_audit rt0) ++ es ∧ Forall of_sample es ∧
    ∀ cr, r = Ok cr → ca_sample_id cr = es_id sample ∧
      ca_audit_entries cr = Z.of_nat (length (al_entries (rt_audit rt))) ∧
      accounted cr called (ae_event_type <$> es);
}.

(** Before the call the gates leave these parts as they were. *)
Record untouched (rt : runtime B W) : Prop := {
  ut_registry : rt_registry rt = rt_registry rt0;
  ut_concurrent : ∀ tool, QuotaTracker.concurrent_of tool (rt_quota rt) =
                          QuotaTracker.concurrent_of tool (rt_quota rt0);
  ut_audit : rt_audit rt = rt_audit rt0;
  ut_handlers : rt_handlers rt = rt_handlers rt0;
}.
End governed.

(** ** Auditing and results *)
Section branches.
Context (sample : EvalSample) (trace_id : string) (start : float).

Lemma log_quiet e (al : audit_log W) : al_handlers al = [] →
  ∃ al', GatewayAudit.append e al = (Ok tt, al') ∧ al_entries al' = al_entries al ++ [e] ∧ al_handlers al' = [].
Proof. intros Hh. rewrite ObservabilityFacts.append_quiet by done. by eexists. Qed.

Lemma wp_log_event t tool err md (Q : post unit) rt c :
  al_handlers (rt_audit rt) = [] →
  (∀ e al, ae_event_type e = t → of_sample sample e → al_entries al = al_entries (rt_audit rt) ++ [e] →
     al_handlers al = [] → Q (Ok tt) (set_audit al rt) c) →
  wp (audit_event time uuid sample trace_id t tool err md) Q rt c.
Proof.
  intros Hh HQ. apply fwp_bind, wp_audit. unfold GatewayAudit.log_event, mbind, st_bind. simpl.
  edestruct log_quiet as (al & -> & He & Hh'); [done|].
  apply fwp_ret. eapply HQ; [| |exact He|exact Hh']; done.
Qed.

Lemma wp_log_start meta (Q : post string) rt c :
  al_handlers (rt_audit rt) = [] →
  (∀ x e al, ae_event_type e = TOOL_CALL_START → of_sample sample e →
     al_entries al = al_entries (rt_audit rt) ++ [e] → al_handlers al = [] → Q (Ok x) (set_audit al rt) c) →
  wp (with_audit (GatewayAudit.log_call_start uuid time hash trace_id (session_id sample)
        (caller_id (caller sample)) (tm_name meta) (tm_version meta) (es_tool_params sample))) Q rt c.
Proof.
  intros Hh HQ. apply wp_audit. unfold GatewayAudit.log_call_start, mbind, st_bind. simpl.
  edestruct log_quiet as (al & -> & He & Hh'); [done|]. eapply HQ; [| |exact He|exact Hh']; done.
Qed.

Lemma wp_log_success meta summary lat (Q : post unit) rt c :
  al_handlers (rt_audit rt) = [] →
  (∀ e al, ae_event_type e = TOOL_CALL_SUCCESS → of_sample sample e →
     al_entries al = al_entries (rt_audit rt) ++ [e] → al_handlers al = [] → Q (Ok tt) (set_audit al rt) c) →
  wp (with_audit (GatewayAudit.log_call_success uuid time trace_id (session_id sample)
        (caller_id (caller sample)) (tm_name meta) (tm_version meta) summary lat)) Q rt c.
Proof.
  intros Hh HQ. apply wp_audit. unfold GatewayAudit.log_call_success, mbind, st_bind. simpl.
  edestruct log_quiet as (al & -> & He & Hh'); [done|]. eapply HQ; [| |exact He|exact Hh']; done.
Qed.

Lemma wp_log_failure meta err lat (Q : post unit) rt c :
  al_handlers (rt_audit rt) = [] →
  (∀ e al, ae_event_type e = TOOL_CALL_FAILURE → of_sample sample e →
     al_entries al = al_entries (rt_audit rt) ++ [e] → al_handlers al = [] → Q (Ok tt) (set_audit al rt) c) →
  wp (with_audit (GatewayAudit.log_call_failure uuid time trace_id (session_id sample)
        (caller_id (caller sample)) (tm_name meta) (tm_version meta) err lat)) Q rt c.
Proof.
  intros Hh HQ. apply wp_audit. unfold GatewayAudit.log_call_failure, mbind, st_bind. simpl.
  edestruct log_quiet as (al & -> & He & Hh'); [done|]. eapply HQ; [| |exact He|exact Hh']; done.
Qed.

(** A case result that carries an outcome. *)
Definition reports (o : outcome) (cr : EvalCaseResult) : Prop :=
  ca_error_code cr = oc_error_code o ∧ ca_success cr = oc_success o ∧
  ca_validation_rejected cr = oc_validation_rejected o ∧ ca_auth_denied cr = oc_auth_denied o ∧
  ca_circuit_opened cr = oc_circuit_opened o ∧ ca_tool_calls cr = oc_tool_calls o ∧
  ca_sample_id cr = es_id sample.

Lemma wp_result o (Q : post EvalCaseResult) rt c :
  (∀ cr, reports o cr → ca_audit_entries cr = Z.of_nat (length (al_entries (rt_audit rt))) → Q (Ok cr) rt c) →
  (∀ e, oc_answer o ≠ [] → Q (Err e) rt c) →
  wp (result lower is_space sample trace_id o) Q rt c.
Proof.
  intros HOk HErr. unfold result, build_case_result. apply fwp_bind, fwp_lift.
  assert (∀ f1, wp (audit_entries ← st_gets (λ s, GatewayAudit.entry_count (rt_audit (fl_rt s)));
    mret (mkCaseResult (es_id sample) (es_category sample) (es_difficulty sample) (oc_success o)
    (oc_answer o) (es_expected_answer sample) f1 (oc_latency_ms o) (Some trace_id)
    (Some (session_id sample)) [] PyFloat.zero PyFloat.zero PyFloat.zero (oc_error_code o)
    (oc_step_outcomes o) (oc_validation_rejected o) (oc_auth_denied o) (oc_circuit_opened o)
    audit_entries 0 (oc_tool_calls o) (Scorer.estimate_tokens lower is_space (es_query sample))
    (Scorer.estimate_tokens lower is_space (oc_answer o)))) Q rt c) as Hgo.
  { intros f1. apply fwp_bind, wp_gets. intros s Hr _. apply fwp_ret, HOk; [done|]. simpl. by rewrite Hr. }
  destruct (oc_answer o) as [|ch answer] eqn:Ea; [apply Hgo|].
  destruct (Scorer.compute_f1 _ _ _ _); [apply Hgo|by apply HErr].
Qed.

Lemma expected_eq (code : string) :
  expected sample (VStr code) = bool_decide (es_expect_error sample = Some code).
Proof.
  unfold expected, opt_str. destruct (es_expect_error sample) as [x|]; simpl; [|done].
  by repeat case_bool_decide; simplify_eq.
Qed.
Lemma expected_code z : expected sample (VInt z) = false.
Proof. unfold expected, opt_str. by destruct (es_expect_error sample). Qed.
End branches.

(** ** The flow is governed *)
Section proof.
Context (sample : EvalSample) (trace_id : string) (start : float) (rt0 : runtime B W) (c0 : calls).
Hypothesis no_alerts : al_handlers (rt_audit rt0) = [].
Hypothesis concurrent_nonneg : ∀ tool, 0 ≤ QuotaTracker.concurrent_of tool (rt_quota rt0).

Definition governed_post : post EvalCaseResult := λ r rt c,
  ∃ called, c = c0 ++ called ∧ governed sample rt0 r rt called.

(** A refusal adds one entry and calls nothing. *)
Lemma refusal_governed rt al e cr :
  untouched rt0 rt → of_sample sample e → al_entries al = al_entries (rt_audit rt) ++ [e] →
  ca_sample_id cr = es_id sample → ca_audit_entries cr = Z.of_nat (length (al_entries al)) →
  accounted sample rt0 cr [] [ae_event_type e] → governed_post (Ok cr) (set_audit al rt) c0.
Proof.
  intros [Hr Hc Ha _] He Hal Hid Hn Hacc. exists []. rewrite app_nil_r. split; [done|].
  split; [done|done|by left|]. exists [e]. simpl. rewrite Hal, Ha. split; [done|].
  split; [by constructor|]. intros ? [= <-]. rewrite Hn, Hal, Ha. done.
Qed.

Lemma reject_ok n v steps rt :
  untouched rt0 rt → (∀ meta, ¬ validates sample rt0 n meta) → errors v ≠ [] →
  wp (reject_validation time perf uuid lower is_space sample trace_id start v steps) governed_post rt c0.
Proof.
  intros Hu Hv He. unfold reject_validation. apply fwp_bind, wp_latency. intros lat.
  destruct (errors v) as [|err ?]; [done|]. apply fwp_bind, fwp_lift, fwp_bind, wp_warning, fwp_bind, wp_log_event.
  { by rewrite (ut_audit _ _ Hu). }
  intros e al Ht Hs Hal _. apply wp_result; [|done].
  intros cr (H1 & H2 & H3 & _ & _ & H6 & Hid) Hn. eapply refusal_governed; try done.
  rewrite Ht. eapply (acc_rejected _ _ _ _ n (ee_code err)); try done. by rewrite H2; apply expected_code.
Qed.

Lemma deny_ok n d meta steps rt :
  untouched rt0 rt → validates sample rt0 n meta → ¬ authorized sample rt0 meta →
  wp (deny time perf uuid lower is_space sample trace_id start d meta steps) governed_post rt c0.
Proof.
  intros Hu Hv Hd. unfold deny. apply fwp_bind, wp_latency. intros lat.
  apply fwp_bind, wp_warning, fwp_bind, wp_log_event; [by rewrite (ut_audit _ _ Hu)|].
  intros e al Ht Hs Hal _. apply wp_result; [|done].
  intros cr (H1 & H2 & _ & H4 & _ & H6 & Hid) Hn. eapply refusal_governed; try done.
  rewrite Ht. eapply (acc_denied _ _ _ _ n meta); try done. by rewrite H2; apply expected_eq.
Qed.

Lemma circuit_rejected_ok n meta steps rt :
  untouched rt0 rt → validates sample rt0 n meta → authorized sample rt0 meta → circuit_answers rt0 meta false →
  wp (circuit_rejected time perf uuid lower is_space sample trace_id start meta steps) governed_post rt c0.
Proof.
  intros Hu Hv Ha Hc. unfold circuit_rejected. apply fwp_bind, wp_latency. intros lat.
  apply fwp_bind, wp_error, fwp_bind, wp_log_event; [by rewrite (ut_audit _ _ Hu)|].
  intros e al Ht Hs Hal _. apply wp_result; [|done].
  intros cr (H1 & H2 & _ & _ & H5 & H6 & Hid) Hn. eapply refusal_governed; try done.
  rewrite Ht. eapply (acc_circuit _ _ _ _ n meta); try done. by rewrite H2; apply expected_eq.
Qed.

Lemma rate_limited_ok n r meta steps rt :
  untouched rt0 rt → validates sample rt0 n meta → authorized sample rt0 meta →
  circuit_answers rt0 meta true → rate_answers sample rt0 false →
  wp (rate_limited time perf uuid lower is_space sample trace_id start r meta steps) governed_post rt c0.
Proof.
  intros Hu Hv Ha Hc Hr. unfold rate_limited. apply fwp_bind, wp_latency. intros lat.
  apply fwp_bind, wp_warning, fwp_bind, wp_log_event; [by rewrite (ut_audit _ _ Hu)|].
  intros e al Ht Hs Hal _. apply wp_result; [|done].
  intros cr (H1 & H2 & _ & _ & _ & H6 & Hid) Hn. eapply refusal_governed; try done.
  rewrite Ht. eapply (acc_limited _ _ _ _ n meta); try done. by rewrite H2; apply expected_eq.
Qed.

(** ** The call *)
Section call.
Context (meta : ToolMeta) (steps : dict bool).
Hypothesis Hpermitted : permitted sample rt0 meta.
Abbreviation the_call := ((tm_name meta, es_tool_params sample)).

(** After the start of the call, and until its end, one call more is counted. *)
Record midway (rt : runtime B W) (called : calls) (es : list AuditEntry) : Prop := {
  mw_registry : rt_registry rt = rt_registry rt0;
  mw_concurrent : ∀ tool, QuotaTracker.concurrent_of tool (rt_quota rt) =
    QuotaTracker.concurrent_of tool (rt_quota rt0) + (if decide (tool = tm_name meta) then 1 else 0);
  mw_handlers : rt_handlers rt = rt_handlers rt0;
  mw_alerts : al_handlers (rt_audit rt) = [];
  mw_entries : al_entries (rt_audit rt) = al_entries (rt_audit rt0) ++ es;
  mw_sample : Forall (of_sample sample) es;
  mw_called : called = [] ∨ called = [the_call];
}.

Lemma midway_breaker k rt called es : midway rt called es → midway (set_breaker k rt) called es.
Proof. by intros []. Qed.
Lemma midway_called called' rt called es :
  midway rt called es → called' = [] ∨ called' = [the_call] → midway rt called' es.
Proof. intros []. by split. Qed.
Lemma midway_audit al e rt called es :
  midway rt called es → of_sample sample e → al_entries al = al_entries (rt_audit rt) ++ [e] →
  al_handlers al = [] → midway (set_audit al rt) called (es ++ [e]).
Proof.
  intros [H1 H2 H3 H4 H5 H6 H7] He Hal Hh. split; try done; simpl.
  - by rewrite Hal, H5, app_assoc.
  - apply Forall_app. split; [done|by apply Forall_singleton].
Qed.

(** The end of the [try] statement, before its [finally]. *)
Definition settled (cr : EvalCaseResult) (called : calls) (es : list AuditEntry) : Prop :=
  ca_sample_id cr = es_id sample ∧
  ca_audit_entries cr = Z.of_nat (length (al_entries (rt_audit rt0) ++ es)) ∧
  accounted sample rt0 cr called (ae_event_type <$> es).
Definition try_post : post EvalCaseResult := λ r rt c,
  ∃ called es, c = c0 ++ called ∧ midway rt called es ∧ ∀ cr, r = Ok cr → settled cr called es.
(** The end of the [try] block: a result, or an exception after the start or
    after the logged success. *)
Definition execute_post : post EvalCaseResult := λ r rt c,
  ∃ called es, c = c0 ++ called ∧ midway rt called es ∧
    match r with
    | Ok cr => settled cr called es
    | Err _ =>
        (∃ answered : bool, ae_event_type <$> es =
           TOOL_CALL_START :: if answered then [TOOL_CALL_SUCCESS] else []) ∧
        (is_Some (dlookup (tm_name meta) (rt_handlers rt0)) → called = [the_call])
    end.

Lemma failed_ok called es e rt :
  midway rt called es → (∃ answered : bool, ae_event_type <$> es =
    TOOL_CALL_START :: if answered then [TOOL_CALL_SUCCESS] else []) →
  (is_Some (dlookup (tm_name meta) (rt_handlers rt0)) → called = [the_call]) →
  wp (failed time perf uuid exc_str lower is_space sample trace_id start meta steps e) try_post rt (c0 ++ called).
Proof.
  intros Hm [answered Hes] Hcalled. unfold failed. apply fwp_bind, wp_breaker.
  apply (midway_breaker (CircuitBreaker.record_failure time circuit_config (tm_name meta) (rt_breaker rt)).2) in Hm.
  destruct (CircuitBreaker.record_failure _ _ _ _).1; [|by exists called, es].
  apply fwp_bind, wp_latency. intros lat. apply fwp_bind, wp_error, fwp_bind, wp_log_failure; [by apply Hm|].
  intros ent al Ht Hs Hal Hh. apply (midway_audit _ _ _ _ _ Hm Hs Hal) in Hh as Hm'.
  apply wp_result; [|done]. intros cr (H1 & H2 & _ & _ & _ & H6 & Hid) Hn.
  exists called, (es ++ [ent]). split; [done|]. split; [done|]. intros ? [= <-]. split; [done|]. split.
  { rewrite Hn. f_equal. f_equal. apply Hm'. }
  rewrite fmap_app, Hes. simpl. rewrite Ht.
  apply (acc_failure _ _ _ _ meta answered); try done. by rewrite H2; apply expected_eq.
Qed.

Lemma call_execute_ok e rt :
  midway rt [] [e] → ae_event_type e = TOOL_CALL_START →
  wp (execute time perf hex uuid repr dumps lower is_space sample trace_id start meta steps)
    execute_post rt c0.
Proof.
  intros Hm Hstart. unfold execute.
  apply fwp_bind, wp_span. intros step. apply fwp_bind. unfold invoke.
  apply fwp_bind, wp_gets. intros s0 Hrt _. rewrite Hrt, (mw_handlers _ _ _ Hm).
  destruct (dlookup (tm_name meta) (rt_handlers rt0)) as [handler|] eqn:Eh.
  2:{ apply wp_raise. exists [], [e]. rewrite app_nil_r. split_and!; [done|done| |].
      - exists false. simpl. by rewrite Hstart.
      - intros [? Hx]. congruence. }
  apply fwp_bind. intros s1 Hr1 Hc1. simpl. rewrite Hr1, Hc1. clear s1 Hr1 Hc1 s0 Hrt.
  apply (midway_called [the_call]) in Hm; [|by right].
  apply fwp_lift. destruct (handler (es_tool_params sample)) as [resp|err].
  2:{ exists [the_call], [e]. split_and!; [done|done| |done]. exists false. simpl. by rewrite Hstart. }
  apply fwp_bind, wp_info, fwp_ret, fwp_bind, wp_breaker.
  apply (midway_breaker (CircuitBreaker.record_success time circuit_config (tm_name meta) (rt_breaker rt)).2) in Hm.
  destruct (CircuitBreaker.record_success _ _ _ _).1.
  2:{ exists [the_call], [e]. split_and!; [done|done| |done]. exists false. simpl. by rewrite Hstart. }
  apply fwp_bind, wp_latency. intros l1. apply fwp_bind, wp_log_success; [by apply Hm|].
  intros ent al Ht Hs Hal Hh. apply (midway_audit _ _ _ _ _ Hm Hs Hal) in Hh as Hm'.
  assert (∀ err, execute_post (Err err) (set_audit al (set_breaker
    (CircuitBreaker.record_success time circuit_config (tm_name meta) (rt_breaker rt)).2 rt)) (c0 ++ [the_call])) as Herr.
  { intros err. exists [the_call], [e; ent]. split_and!; [done|done| |done]. exists true. simpl.
    by rewrite Hstart, Ht. }
  apply fwp_bind, wp_latency. intros l2. apply fwp_bind, wp_info, fwp_bind, fwp_lift.
  destruct (if decide (es_expected_answer sample = PASS) then Ok PASS else dumps resp) as [answer|err]; [|done].
  apply wp_result; [|done]. intros cr (H1 & H2 & _ & _ & _ & H6 & Hid) Hn.
  exists [the_call], [e; ent]. split; [done|]. split; [done|]. split; [done|]. split.
  { rewrite Hn. f_equal. f_equal. apply Hm'. }
  simpl. rewrite Hstart, Ht. by eapply (acc_success _ _ _ _ meta).
Qed.

Lemma end_call_ok r called es rt :
  midway rt called es → (∀ cr, r = Ok cr → settled cr called es) →
  wp (record_call_end (tm_name meta)) (λ r' rt c, match r' with
    | Ok _ => governed_post r rt c | Err e => governed_post (Err e) rt c end) rt (c0 ++ called).
Proof.
  intros [H1 H2 H3 H4 H5 H6 H7] Hr. apply wp_quota. simpl. exists called. split; [done|]. split; simpl.
  - done.
  - intros tool. specialize (H2 tool). specialize (concurrent_nonneg tool).
    unfold QuotaTracker.record_call_end, QuotaTracker.concurrent_of in *. simpl.
    case_decide as E.
    + subst tool. rewrite lookup_insert_eq. simpl. lia.
    + rewrite lookup_insert_ne by done. lia.
  - destruct H7 as [->| ->]; [by left|]. right. by exists meta.
  - exists es. split; [done|]. split; [done|]. intros cr ->. destruct (Hr cr eq_refl) as (? & ? & ?). by rewrite H5.
Qed.

Lemma call_tool_ok rt :
  untouched rt0 rt →
  wp (call_tool time date perf hex uuid hash repr exc_str dumps lower is_space sample trace_id start meta steps)
    governed_post rt c0.
Proof.
  intros [Hreg Hconc Haud Hhan]. unfold call_tool. apply fwp_bind. unfold record_call_start.
  apply fwp_bind, wp_tick. intros n. apply wp_quota. simpl.
  set (rt1 := set_quota _ rt). apply fwp_bind, wp_log_start; [simpl; by rewrite Haud|].
  intros x e al Ht Hs Hal Hh.
  assert (midway (set_audit al rt1) [] [e]) as Hm.
  { split; simpl; try done; [|by rewrite Hal; simpl; rewrite Haud|by apply Forall_singleton|by left].
    intros tool. rewrite <-Hconc. unfold QuotaTracker.record_call_start, QuotaTracker.concurrent_of. simpl.
    case_decide as E; [subst tool; by rewrite lookup_insert_eq|]. rewrite lookup_insert_ne by done. lia. }
  apply wp_finally, wp_catch. eapply fwp_mono; [|by apply (call_execute_ok e)].
  intros r rt2 c (called & es & -> & Hm2 & Hr). destruct r as [cr|err].
  - by apply (end_call_ok (Ok cr) called es); [|intros ? [= <-]].
  - destruct Hr as [Hes Hcalled]. eapply fwp_mono; [|by apply (failed_ok called es)].
    intros r rt3 c (called' & es' & -> & Hm3 & Hr). by eapply end_call_ok.
Qed.
End call.

(** Exceptions of the gates: nothing has been called or logged. *)
Lemma raised_governed e rt : untouched rt0 rt → governed_post (Err e) rt c0.
Proof.
  intros [H1 H2 H3 H4]. exists []. rewrite app_nil_r. split; [done|]. split; [done|done|by left|].
  exists []. rewrite app_nil_r. split; [by rewrite H3|]. split; [constructor|done].
Qed.

Lemma rate_gate_ok n meta steps rt :
  untouched rt0 rt → rt_limiter rt = rt_limiter rt0 → validates sample rt0 n meta →
  authorized sample rt0 meta → circuit_answers rt0 meta true →
  wp (rate_gate time date perf hex uuid hash repr exc_str dumps pow lower is_space sample trace_id start meta steps)
    governed_post rt c0.
Proof.
  intros Hu Hl Hv Ha Hc. unfold rate_gate. apply fwp_bind, wp_span. intros step. apply fwp_bind, wp_limiter.
  rewrite Hl. destruct (RateLimiter.acquire _ _ _ _ _ _) as [[r|e] l'] eqn:E; cbn [fst snd].
  2:{ apply raised_governed. by destruct Hu. }
  apply fwp_bind, wp_info, fwp_ret.
  assert (untouched rt0 (set_limiter l' rt)) as Hu' by by destruct Hu.
  assert (rate_answers sample rt0 (rl_allowed r)) as Hr by (exists r; by rewrite E).
  destruct (rl_allowed r) eqn:Er; [|by eapply rate_limited_ok].
  apply call_tool_ok; [|done]. split_and!; [by exists n|done..].
Qed.

Lemma circuit_gate_ok n meta steps rt :
  untouched rt0 rt → rt_limiter rt = rt_limiter rt0 → rt_breaker rt = rt_breaker rt0 →
  validates sample rt0 n meta → authorized sample rt0 meta →
  wp (circuit_gate time date perf hex uuid hash repr exc_str dumps pow lower is_space sample trace_id start meta steps)
    governed_post rt c0.
Proof.
  intros Hu Hl Hb Hv Ha. unfold circuit_gate. apply fwp_bind, wp_span. intros step. apply fwp_bind, wp_breaker.
  rewrite Hb. destruct (CircuitBreaker.allow_request _ _ _ _) as [[ok|e] k'] eqn:E; cbn [fst snd].
  2:{ apply raised_governed. by destruct Hu. }
  apply fwp_bind, wp_info, fwp_ret.
  assert (untouched rt0 (set_breaker k' rt)) as Hu' by by destruct Hu.
  assert (circuit_answers rt0 meta ok) as Hr by (unfold circuit_answers; by rewrite E).
  destruct ok; [by apply (rate_gate_ok n)|by eapply circuit_rejected_ok].
Qed.

Lemma auth_gate_ok n meta steps rt :
  untouched rt0 rt → rt_limiter rt = rt_limiter rt0 → rt_breaker rt = rt_breaker rt0 →
  rt_authorizer rt = rt_authorizer rt0 → validates sample rt0 n meta →
  wp (auth_gate time date perf hex uuid hash repr repr_list exc_str dumps pow lower is_space sample trace_id start meta steps)
    governed_post rt c0.
Proof.
  intros Hu Hl Hb Haz Hv. unfold auth_gate. apply fwp_bind, wp_span. intros step. apply fwp_bind.
  unfold authorize. apply fwp_bind, wp_tick. intros n'. intros s Hrt Hcs. unfold zoom. rewrite Hrt, Haz.
  pose proof (authorize_ok repr_list (caller sample) meta (time n') (rt_authorizer rt0)) as Hok.
  destruct (ToolAuthorizer.authorize _ _ _ _ _) as [d a'] eqn:E. destruct Hok as (Hd & _). simpl. rewrite ?Hrt, Hcs.
  apply fwp_bind, wp_info, fwp_ret.
  assert (untouched rt0 (set_authorizer a' rt)) as Hu' by by destruct Hu.
  destruct (allowed d) eqn:Ed.
  - apply (circuit_gate_ok n); try done. by apply Hd.
  - apply (deny_ok n); try done. intros Ha. by apply Hd in Ha.
Qed.

Hypothesis schemas_shaped : ∀ meta,
  Registry.get (tool_of sample) None (rt_registry rt0) = Some meta →
  tm_input_schema meta = [] ∨ ∃ required props, schema_shape (tm_input_schema meta) required props.

Lemma validation_gate_ok :
  wp (validation_gate time date perf hex uuid hash repr repr_list exc_str dumps pow lower is_space sample trace_id start)
    governed_post rt0 c0.
Proof.
  unfold validation_gate. apply fwp_bind, wp_span. intros step. apply fwp_bind. unfold validate.
  apply fwp_bind, wp_tick. intros n. apply fwp_bind, wp_gets. intros s0 Hr0 _. rewrite Hr0. apply wp_quota.
  destruct (validate_ok repr (rt_registry rt0) (tool_of sample) (es_tool_params sample) (time n) (date n)
    (rt_quota rt0) schemas_shaped) as (v & q' & -> & Hv & He & Hc & _). cbn [fst snd].
  apply fwp_bind, wp_info, fwp_ret.
  assert (untouched rt0 (set_quota q' rt0)) as Hu.
  { split; try done. intros tool. unfold QuotaTracker.concurrent_of. simpl. by rewrite Hc. }
  destruct (valid v) eqn:Ev; cbn [negb].
  - destruct (proj1 Hv eq_refl) as (meta & Hget & Hrest).
    apply fwp_bind, wp_gets. intros s1 Hr1 _. rewrite Hr1. simpl. rewrite Hget.
    by apply (auth_gate_ok n).
  - apply (reject_ok n); [done| |].
    + intros meta (Hget & Hst & Hp & Hq). assert (false = true); [|done]. apply Hv. by exists meta.
    + intros Hnil. assert (false = true); [|done]. by apply He.
Qed.
End proof.
End wp.
End FlowFacts.
Import GatewayRuntime GatewayFlow FlowFacts.

Lemma run_gateway_governed {B W} `{KeyedBackend B CircuitRecord cr_tool_name}
    time date perf hex uuid hash repr repr_list exc_str dumps pow lower is_space
    (sample : EvalSample) (s : flow B W) :
  al_handlers (rt_audit (fl_rt s)) = [] →
  (∀ tool, 0 ≤ QuotaTracker.concurrent_of tool (rt_quota (fl_rt s))) →
  (∀ meta, Registry.get (tool_of sample) None (rt_registry (fl_rt s)) = Some meta →
     tm_input_schema meta = [] ∨ ∃ required props, schema_shape (tm_input_schema meta) required props) →
  let '(r, s') := run_gateway_sample time date perf hex uuid hash repr repr_list exc_str dumps pow
                    lower is_space sample s in
  ∃ called, fl_calls s' = fl_calls s ++ called ∧
    governed time date pow sample (fl_rt s) r (fl_rt s') called.
Proof.
  intros Hh Hnn Hshape.
  assert (wp (run_gateway_sample time date perf hex uuid hash repr repr_list exc_str dumps pow
    lower is_space sample) (governed_post time date pow sample (fl_rt s) (fl_calls s)) (fl_rt s) (fl_calls s)) as Hwp.
  { unfold run_gateway_sample. apply fwp_bind, wp_hex. intros h. apply fwp_bind, wp_perf. intros t.
    apply fwp_bind, wp_info. by apply validation_gate_ok. }
  specialize (Hwp s eq_refl eq_refl). by destruct (run_gateway_sample _ _ _ _ _ _ _ _ _ _ _ _ _ _ _).
Qed.

(** C6: A tool is called only through all gates, and every sample is accounted
    for.  For any runtime without alert handlers: the handler is called at most
    once, only for a tool that is available, with parameters and quotas that
    pass validation, an authorized caller, a circuit that lets the request
    through and a granted rate limit; whatever happens, exceptions included,
    the registry and the concurrency counts are as before; the audit log grows
    by the entries of this sample alone: one refusal with the gate that refused,
    or the start and the end of the call; and the case result agrees with it. *)
Theorem gateway_call_governed {B W} `{KeyedBackend B CircuitRecord cr_tool_name}
    time date perf hex uuid hash repr repr_list exc_str dumps pow lower is_space
    (sample : EvalSample) (s : flow B W) :
  al_handlers (rt_audit (fl_rt s)) = [] →
  (∀ tool, 0 ≤ QuotaTracker.concurrent_of tool (rt_quota (fl_rt s))) →
  (∀ meta, Registry.get (tool_of sample) None (rt_registry (fl_rt s)) = Some meta →
     tm_input_schema meta = [] ∨ ∃ required props, schema_shape (tm_input_schema meta) required props) →
  let '(r, s') := run_gateway_sample time date perf hex uuid hash repr repr_list exc_str dumps pow
                    lower is_space sample s in
  ∃ called, fl_calls s' = fl_calls s ++ called ∧
    governed time date pow sample (fl_rt s) r (fl_rt s') called.
Proof. apply run_gateway_governed. Qed.

(** ** Examples on the default runtime *)
Module GatewayExamples.
(** [_run_gateway_sample] builds the runtime of the sample first. *)
Definition fresh_flow : flow (dict CircuitRecord) unit :=
  mkFlow (mkObs [] [] 0 0) (build_default PyFloat.zero tt).2 0 0 [].
Definition sample_of (role : string) (tool : string) (params : dict pyval) (expect : option string) : EvalSample :=
  mkEvalSample "s1" "gateway" [] PASS [] "easy" [] expect (Some tool) params role "default".
Definition noon (n : nat) : float := PyFloat.of_Z 43200.
Definition run (sample : EvalSample) : res EvalCaseResult * flow (dict CircuitRecord) unit :=
  run_gateway_sample noon (λ _, "2024-01-01") noon (λ _, "0a1b2c3d") (λ _, "id") (λ _, "") (λ _, "")
    (λ _, "") (λ _, "") (λ _, Ok []) (λ x _, Ok x) (λ t, t) (λ _, false) sample fresh_flow.
Definition outcome_of (sample : EvalSample) : option (bool * pyval * list AuditEventType * nat) :=
  let '(r, s) := run sample in
  match r with
  | Ok cr => Some (ca_success cr, ca_error_code cr, ae_event_type <$> al_entries (rt_audit (fl_rt s)),
                   length (fl_calls s))
  | Err _ => None
  end.

Example governed_outcomes :
  outcome_of (sample_of "public" "web_search" [("query", VStr "rocq")] None) =
    Some (true, VNone, [TOOL_CALL_START; TOOL_CALL_SUCCESS], 1%nat) ∧
  outcome_of (sample_of "public" "merchant_lookup" [("merchant_id", VStr "m1")] (Some "unauthorized")) =
    Some (true, VStr "unauthorized", [AUTH_DENIED], 0%nat) ∧
  outcome_of (sample_of "admin" "admin_export" [("scope", VStr "all")] None) =
    Some (false, VStr "unauthorized", [AUTH_DENIED], 0%nat).
Proof. by vm_compute. Qed.

(** A sample that expects a missing field, as the adversarial dataset has it,
    is rejected with the integer code of that error and counted as failed. *)
Example expected_rejection_fails :
  outcome_of (sample_of "public" "web_search" [] (Some "missing_required_field")) =
    Some (false, VInt 1004, [TOOL_CALL_REJECTED], 0%nat).
Proof. by vm_compute. Qed.

Definition demo_sample : EvalSample := sample_of "public" "web_search" [("query", VStr "rocq")] None.
Lemma gateway_call_governed_witness :
  outcome_of demo_sample = Some (true, VNone, [TOOL_CALL_START; TOOL_CALL_SUCCESS], 1%nat) ∧
  let '(r, s') := run demo_sample in
  ∃ called, fl_calls s' = fl_calls fresh_flow ++ called ∧
    governed noon (λ _, "2024-01-01") (λ x _, Ok x) demo_sample (fl_rt fresh_flow) r (fl_rt s') called.
Proof.
  assert (al_handlers (rt_audit (fl_rt fresh_flow)) = []) as H1 by by vm_compute.
  assert (∀ tool, 0 ≤ QuotaTracker.concurrent_of tool (rt_quota (fl_rt fresh_flow))) as H2.
  { intros tool. unfold QuotaTracker.concurrent_of.
    change (concurrent (rt_quota (fl_rt fresh_flow))) with (∅ : gmap string Z). by rewrite lookup_empty. }
  assert (∀ meta, Registry.get (tool_of demo_sample) None (rt_registry (fl_rt fresh_flow)) = Some meta →
     tm_input_schema meta = [] ∨ ∃ required props, schema_shape (tm_input_schema meta) required props) as H3.
  { intros meta Hm. right. vm_compute in Hm. injection Hm as <-.
    exists ["query"], [("query", VDict [("type", VStr "string")]); ("top_k", VDict [("type", VStr "integer")])].
    by vm_compute. }
  split; [by vm_compute|]. unfold run.
  pose proof (gateway_call_governed noon (λ _, "2024-01-01") noon (λ _, "0a1b2c3d") (λ _, "id") (λ _, "") (λ _, "")
    (λ _, "") (λ _, "") (λ _, Ok []) (λ x _, Ok x) (λ t, t) (λ _, false) demo_sample fresh_flow H1 H2 H3) as Hg.
  exact Hg.
Defined.
End GatewayExamples.
