(* ===== verification/EvalRag.v ===== *)
(** * Retrieval samples and sequential runs (src/eval/runner.py)

    The flow of a sample without a tool: recall, reranking, compression and
    answer; the dispatch between the two kinds of samples; all samples one after
    the other.  The knowledge base is an argument. *)
From S2P Require Import Prelude PyFloat PyValue Persistence CircuitBreaker Catalog Authorizer PreInvocation RateLimiter PySort PyFormat Retrieval Compressor Release Observability Scorer EvalRunner.
Local Open Scope Z_scope.

(** The runner's own state. *)
Record runner := mkRunner {
  rn_obs : obs;
  rn_compressor : Compressor.compressor;
  rn_clock : nat;
  rn_perf : nat;
}.

Module RagFlow.
Section flow.
Context (time perf : nat → float) (hex : nat → string).
Context (lower : text → text) (is_space is_alnum is_word : Z → bool) (log : float → res float).
Context (exp : float → float) (float_str : float → string) (md5 : text → string).
Context (retriever : HybridRetriever.retriever) (config : RerankConfig).

Abbreviation M := (st runner).
Definition set_obs (o : obs) (s : runner) : runner := mkRunner o (rn_compressor s) (rn_clock s) (rn_perf s).
Definition with_obs {A} (m : st obs A) : M A := zoom rn_obs set_obs m.
Definition perf_counter : M float := λ s,
  (Ok (perf (rn_perf s)), mkRunner (rn_obs s) (rn_compressor s) (rn_clock s) (S (rn_perf s))).
Definition info (component event message : string) (ctx : TraceContext) (step : option string)
    (md : dict pyval) : M unit :=
  with_obs (Logger.info time None component event message (Some ctx) step (Some md)).
Definition span {A} (ctx : TraceContext) (component name : string) (body : string → M A) : M A :=
  Tracer.with_span time hex None rn_obs set_obs ctx component name body.
(** [n] readings of the clock, taken by the component that follows. *)
Definition readings (n : nat) : M (nat → float) := λ s,
  (Ok (λ i, time (rn_clock s + i)%nat),
   mkRunner (rn_obs s) (rn_compressor s) (rn_clock s + n)%nat (rn_perf s)).

(** "[REFUSE]" and the answer for an empty context. *)
Definition REFUSE : text := [91; 82; 69; 70; 85; 83; 69; 93].
Definition NOT_FOUND : text := [0x672a; 0x627e; 0x5230; 0x76f8; 0x5173; 0x4fe1; 0x606f].

(** [_build_answer] *)
Definition build_answer (sample : EvalSample) (chunks : list CompressedChunk) : text :=
  if decide (REFUSE `prefix_of` es_expected_answer sample) then es_expected_answer sample
  else match chunks with [] => NOT_FOUND | c :: _ => cc_content c end.

Definition compress (results : list RerankResult) : M CompressionResult :=
  t ← readings 2;
  zoom rn_compressor (λ c s, mkRunner (rn_obs s) c (rn_clock s) (rn_perf s))
    (Compressor.compress is_space is_alnum lower md5 results None (t 0%nat) (t 1%nat)).

(** [len(x)] as a log value *)
Definition len {A} (l : list A) : pyval := VInt (Z.of_nat (length l)).

Definition run_rag_sample (sample : EvalSample) : M EvalCaseResult :=
  let trace_id := "trace-" +:+ es_id sample in
  let session_id := "sess-" +:+ es_id sample in
  let ctx := mkTraceContext trace_id session_id (es_id sample) [] in
  start_time ← perf_counter;
  info "runner" "sample_start" "RAG sample started" ctx None [] ≫= λ _,
  retrieval_result ← span ctx "retrieval" "retrieve" (λ step,
    t ← readings 2;
    r ← st_lift (HybridRetriever.retrieve lower is_word log retriever (es_query sample)
      (es_caller_role sample) None (t 0%nat) (t 1%nat));
    info "retrieval" "retrieval_complete" "Retriever completed" ctx (Some step)
      [("chunk_count", len (rr_chunks r))] ≫= λ _, mret r);
  rerank_output ← span ctx "rerank" "rerank" (λ step,
    t ← readings (2 + length (rr_chunks retrieval_result));
    r ← st_lift (Reranker.rerank exp float_str t config (rr_chunks retrieval_result) None);
    info "rerank" "rerank_complete" "Reranker completed" ctx (Some step)
      [("result_count", len (ro_results r))] ≫= λ _, mret r);
  compression_result ← span ctx "compression" "compress" (λ step,
    r ← compress (ro_results rerank_output);
    info "compression" "compression_complete" "Context compression completed" ctx (Some step)
      [("chunk_count", len (cr_chunks r))] ≫= λ _, mret r);
  let answer := build_answer sample (cr_chunks compression_result) in
  span ctx "generation" "build_answer" (λ step,
    info "generation" "answer_complete" "Answer builder completed" ctx (Some step)
      [("output_tokens", VInt (Scorer.estimate_tokens lower is_space answer))]) ≫= λ _,
  end_time ← perf_counter;
  let latency_ms := PyFloat.mul (PyFloat.sub end_time start_time) (PyFloat.of_Z 1000) in
  let retrieved := (λ item, source_id (rk_chunk item)) <$> ro_results rerank_output in
  answer_f1 ← st_lift (Scorer.compute_f1 lower is_space answer (es_expected_answer sample));
  let success := match es_expect_error sample with
    | None => PyFloat.ge answer_f1 (PyFloat.ratio 1 2)
    | Some _ => false
    end in
  (if success : bool then info "runner" "sample_complete" "RAG sample passed" ctx None []
   else with_obs (Logger.warning time None "runner" "sample_complete" "RAG sample failed" (Some ctx)
     None quality_regression (Some [("answer_f1", VFloat answer_f1)]))) ≫= λ _,
  let relevant := es_relevant_source_ids sample in
  mret (mkCaseResult (es_id sample) (es_category sample) (es_difficulty sample) success answer
    (es_expected_answer sample) answer_f1 latency_ms (Some trace_id) (Some session_id) retrieved
    (Scorer.compute_recall_at_k retrieved relevant 5) (Scorer.compute_recall_at_k retrieved relevant 10)
    (Scorer.compute_mrr retrieved relevant) VNone
    [("retrieval", true); ("rerank", bool_decide (ro_results rerank_output ≠ []));
     ("compression", bool_decide (cr_chunks compression_result ≠ []))]
    false false false 0 1 0 (Scorer.estimate_tokens lower is_space (es_query sample))
    (Scorer.estimate_tokens lower is_space answer)).
End flow.
End RagFlow.

(** ** Facts *)
Module RagFacts.
Import RagFlow.
Section facts.
Context (time perf : nat → float) (hex : nat → string).
Context (lower : text → text) (is_space is_alnum is_word : Z → bool) (log : float → res float).
Context (exp : float → float) (float_str : float → string) (md5 : text → string).
Context (h : HybridRetriever.retriever) (config : RerankConfig).

(** A document of the index that the role may see. *)
Definition visible (role : string) (c : RetrievalChunk) : Prop :=
  RetrievalFacts.indexed h c ∧ HybridRetriever.may_access (HybridRetriever.access_checker h) role (access_level c) = true.

Lemma retrieve_visible q role k t0 t1 r :
  HybridRetriever.retrieve lower is_word log h q role k t0 t1 = Ok r → Forall (visible role) (rr_chunks r).
Proof.
  intros (merged & -> & _ & _ & Hi & _)%RetrievalFacts.retrieve_merged.
  apply Forall_forall. intros c [Ha Hc]%elem_of_slice_to%list_elem_of_filter. split; [|done].
  by eapply Forall_forall in Hi.
Qed.

Lemma rerank_visible role t chunks k out :
  Reranker.rerank exp float_str t config chunks k = Ok out → Forall (visible role) chunks →
  Forall (λ r, visible role (rk_chunk r)) (ro_results out).
Proof.
  intros (all & -> & Hp & _)%rerank_permutes Hc. rewrite <-Hp, Forall_fmap in Hc.
  apply Forall_forall. intros r Hr%elem_of_slice_to. by eapply (proj1 (Forall_forall _ _)) in Hc.
Qed.

Lemma compress_contents results t0 t1 c r c' :
  Compressor.compress is_space is_alnum lower md5 results None t0 t1 c = (Ok r, c') →
  Forall (λ cc, ∃ x, x ∈ results ∧ cc_content cc = content (rk_chunk x)) (cr_chunks r).
Proof.
  unfold Compressor.compress, Compressor.deduplicate. intros H.
  destruct (Compressor.dedup_loop _ _ _ _ _ _ _) as [deduped dup] eqn:Ed.
  destruct (Compressor.value_filter _ _ _ _) as [filtered reasons] eqn:Ef.
  destruct (Compressor.select _ _ _ _ _) as [[[sel used] rs]|] eqn:Es; [|done]. injection H as <- _.
  destruct (CompressorFacts.dedup_spec is_space is_alnum lower md5 (Compressor.dedup_threshold c) results [] [] []
    deduped dup) as (Hsub & _); [set_solver|done|done|].
  apply CompressorFacts.value_filter_spec in Ef as [-> _].
  apply (CompressorFacts.select_spec is_space is_alnum) in Es as [(kept & Hk & H2 & _) _]. simpl.
  apply Forall_forall. intros cc [i Hi]%list_elem_of_lookup.
  destruct (Forall2_lookup_l _ _ _ _ _ H2 Hi) as (x & Hx & t & _ & ->).
  exists x. split; [|done]. apply list_elem_of_lookup_2 in Hx.
  assert (kept `sublist_of` results) as Hincl by (etrans; [exact Hk|]; etrans; [apply sublist_filter|exact Hsub]).
  by eapply elem_of_sublist.
Qed.

(** A [with] block that succeeds ran its body successfully. *)
Lemma span_Ok {A} ctx component name (body : string → st runner A) s a s' :
  span time hex ctx component name body s = (Ok a, s') →
  ∃ step s1 s2, body step s1 = (Ok a, s2).
Proof.
  unfold span. intros H.
  destruct (ObservabilityFacts.with_span_spec rn_obs set_obs time hex ctx component name body s)
    as (step & o1 & sp & _ & _ & Hs).
  exists step, (set_obs o1 s). destruct (body step (set_obs o1 s)) as [r s1]. destruct Hs as [Hs _].
  rewrite Hs in H. injection H as -> _. by exists s1.
Qed.

Lemma compress_Ok results s r s' :
  compress time lower is_space is_alnum md5 results s = (Ok r, s') →
  Forall (λ cc, ∃ x, x ∈ results ∧ cc_content cc = content (rk_chunk x)) (cr_chunks r).
Proof.
  unfold compress, zoom. intros H. apply st_bind_Ok in H as (t & s1 & _ & H).
  destruct (Compressor.compress _ _ _ _ _ _ _ _ _) as [r' c'] eqn:Hc. injection H as -> _.
  by eapply compress_contents.
Qed.
End facts.
End RagFacts.
Import RagFlow RagFacts.

Lemma run_rag_visible time perf hex lower is_space is_alnum is_word log exp float_str md5 h config
    sample s cr s' :
  run_rag_sample time perf hex lower is_space is_alnum is_word log exp float_str md5 h config sample s = (Ok cr, s') →
  (REFUSE `prefix_of` es_expected_answer sample ∧ ca_answer cr = es_expected_answer sample ∨
   ca_answer cr = NOT_FOUND ∨
   ∃ c, visible h (es_caller_role sample) c ∧ ca_answer cr = content c) ∧
  (∀ src, src ∈ ca_retrieved_source_ids cr → ∃ c, visible h (es_caller_role sample) c ∧ src = source_id c) ∧
  ca_sample_id cr = es_id sample ∧
  Scorer.compute_f1 lower is_space (ca_answer cr) (es_expected_answer sample) = Ok (ca_answer_f1 cr) ∧
  (ca_success cr = true ↔ es_expect_error sample = None ∧ PyFloat.ge (ca_answer_f1 cr) (PyFloat.ratio 1 2) = true).
Proof.
  unfold run_rag_sample. intros H. inv_st.
  repeat match goal with
  | H : span _ _ _ _ _ _ _ = (Ok _, _) |- _ => apply span_Ok in H as (? & ? & ? & H); inv_st
  end.
  cbn [ca_answer ca_retrieved_source_ids ca_success ca_answer_f1].
  match goal with
  | Hr : HybridRetriever.retrieve _ _ _ _ _ _ _ _ _ = Ok ?r,
    Hk : Reranker.rerank _ _ _ _ _ _ = Ok ?k,
    Hc : compress _ _ _ _ _ _ _ = (Ok ?c, _) |- _ =>
      apply retrieve_visible in Hr; pose proof (rerank_visible _ _ _ _ _ _ _ _ _ Hk Hr) as Hvis;
      apply compress_Ok in Hc as Hcon; set (results := ro_results k) in *; set (chunks := cr_chunks c) in *
  end.
  rewrite Forall_forall in Hvis. split_and!.
  - unfold build_answer. case_decide as Hp; [by left|]. right.
    destruct chunks as [|cc rest]; [by left|]. right. apply Forall_cons in Hcon as [(res & Hin & ->) _].
    exists (rk_chunk res). split; [by apply Hvis|done].
  - intros src (res & -> & Hin)%list_elem_of_fmap. exists (rk_chunk res). split; [by apply Hvis|done].
  - done.
  - done.
  - destruct (es_expect_error sample); naive_solver.
Qed.

(** An answer shows only what the caller may see: the answer of a retrieval
    sample is the expected refusal, the fixed text for an empty context, or the
    content of an indexed document whose access level the caller's role may
    read, and every source it reports is of such a document.  The sample passes
    exactly when it expects no error and its F1 score is at least one half. *)
Theorem rag_answer_visible time perf hex lower is_space is_alnum is_word log exp float_str md5 h config
    sample s cr s' :
  run_rag_sample time perf hex lower is_space is_alnum is_word log exp float_str md5 h config sample s = (Ok cr, s') →
  (REFUSE `prefix_of` es_expected_answer sample ∧ ca_answer cr = es_expected_answer sample ∨
   ca_answer cr = NOT_FOUND ∨
   ∃ c, visible h (es_caller_role sample) c ∧ ca_answer cr = content c) ∧
  (∀ src, src ∈ ca_retrieved_source_ids cr → ∃ c, visible h (es_caller_role sample) c ∧ src = source_id c) ∧
  ca_sample_id cr = es_id sample ∧
  Scorer.compute_f1 lower is_space (ca_answer cr) (es_expected_answer sample) = Ok (ca_answer_f1 cr) ∧
  (ca_success cr = true ↔ es_expect_error sample = None ∧ PyFloat.ge (ca_answer_f1 cr) (PyFloat.ratio 1 2) = true).
Proof. apply run_rag_visible. Qed.

(** ** Whole runs *)
Module EvaluationRunner.
Section run.
Context (time : nat → float) (date : nat → string) (perf : nat → float).
Context (hex uuid : nat → string) (hash : dict pyval → string).
Context (repr : pyval → string) (repr_list : list string → string) (exc_str : exc → string).
Context (dumps : pyval → res text) (pow : float → Z → res float).
Context (lower : text → text) (is_space is_alnum is_word : Z → bool) (log : float → res float).
Context (exp : float → float) (float_str : float → string) (md5 : text → string).
Context (retriever : HybridRetriever.retriever) (config : RerankConfig).

(** The gateway flow on a runtime of its own, with the runner's tracer, logger
    and clocks. *)
Definition gateway_flow (s : runner) : flow (dict CircuitRecord) unit :=
  mkFlow (rn_obs s) (GatewayRuntime.build_default (time (rn_clock s)) tt).2 (S (rn_clock s)) (rn_perf s) [].
Definition run_gateway (sample : EvalSample) : st runner EvalCaseResult := λ s,
  let '(r, f) := GatewayFlow.run_gateway_sample time date perf hex uuid hash repr repr_list exc_str dumps
                   pow lower is_space sample (gateway_flow s) in
  (r, mkRunner (fl_obs f) (rn_compressor s) (fl_clock f) (fl_perf f)).

(** [_run_single_sample] and the sequential [_run_samples] *)
Definition run_single_sample (sample : EvalSample) : st runner EvalCaseResult :=
  if str_truthy (default "" (es_tool_name sample)) then run_gateway sample
  else run_rag_sample time perf hex lower is_space is_alnum is_word log exp float_str md5 retriever config sample.
Fixpoint run_samples (l : list EvalSample) : st runner (list EvalCaseResult) :=
  match l with
  | [] => mret []
  | sample :: l => r ← run_single_sample sample; rs ← run_samples l; mret (r :: rs)
  end.

(** [alert.to_dict()] as a dictionary *)
Definition dict_of (v : pyval) : dict pyval := match v with VDict d => d | _ => [] end.

(** ** A run has one result per sample *)
#[local] Set Default Proof Using "Type".
Lemma gateway_flow_rt s : fl_rt (gateway_flow s) = (GatewayRuntime.build_default (time (rn_clock s)) tt).2.
Proof. done. Qed.
Lemma gateway_flow_ready s :
  al_handlers (rt_audit (fl_rt (gateway_flow s))) = [] ∧
  (∀ tool, 0 ≤ QuotaTracker.concurrent_of tool (rt_quota (fl_rt (gateway_flow s)))).
Proof.
  split; [by vm_compute|]. intros tool. unfold QuotaTracker.concurrent_of.
  change (concurrent (rt_quota (fl_rt (gateway_flow s)))) with (∅ : gmap string Z). by rewrite lookup_empty.
Qed.

(** The mock tools. *)
Lemma default_registry now :
  rt_registry (GatewayRuntime.build_default (B := dict CircuitRecord) now tt).2 =
  Registry.mkRegistry
    [("web_search", [("1.0.0", GatewayRuntime.web_search_meta now)]);
     ("merchant_lookup", [("1.0.0", GatewayRuntime.merchant_lookup_meta now)]);
     ("admin_export", [("1.0.0", GatewayRuntime.admin_export_meta now)])]
    (<["admin_export" := "1.0.0"]> (<["admin_export" := "1.0.0"]>
      (<["merchant_lookup" := "1.0.0"]> (<["merchant_lookup" := "1.0.0"]>
        (<["web_search" := "1.0.0"]> (<["web_search" := "1.0.0"]> ∅)))))).
Proof. reflexivity. Qed.

Lemma default_schemas now t meta :
  Registry.get t None (rt_registry (GatewayRuntime.build_default (B := dict CircuitRecord) now tt).2) = Some meta →
  tm_input_schema meta = [] ∨ ∃ required props, schema_shape (tm_input_schema meta) required props.
Proof.
  rewrite default_registry. intros H. right.
  assert (∃ m, meta = m ∧ m ∈ [GatewayRuntime.web_search_meta now; GatewayRuntime.merchant_lookup_meta now;
    GatewayRuntime.admin_export_meta now]) as (m & -> & Hm).
  { exists meta. split; [done|]. revert H. unfold Registry.get.
    cbn [Registry.tools Registry.active_versions dlookup].
    rewrite !elem_of_cons.
    destruct (decide (t = "web_search")) as [->|]; [intros [= <-]; by left|].
    destruct (decide (t = "merchant_lookup")) as [->|]; [intros [= <-]; right; by left|].
    destruct (decide (t = "admin_export")) as [->|]; [intros [= <-]; right; right; by left|done]. }
  rewrite !elem_of_cons, elem_of_nil in Hm.
  destruct Hm as [->|[->|[->|[]]]]; eexists [_], _; reflexivity.
Qed.

(** A fresh circuit lets the first request through. *)
Lemma fresh_circuit_allows now meta :
  ¬ FlowFacts.circuit_answers time (GatewayRuntime.build_default (B := dict CircuitRecord) now tt).2 meta false.
Proof.
  unfold FlowFacts.circuit_answers. change (rt_breaker _) with (CircuitBreaker.init (B := dict CircuitRecord) None 0).
  unfold CircuitBreaker.allow_request, CircuitBreaker.get_stats, CircuitBreaker.get_stats', CircuitBreaker.init,
    mbind, st_bind. simpl. by rewrite lookup_empty.
Qed.

(** What a run promises of one sample. *)
Definition sample_accounted (sample : EvalSample) (r : EvalCaseResult) : Prop :=
  ca_sample_id r = es_id sample ∧
  if str_truthy (default "" (es_tool_name sample)) then
    ca_error_code r ≠ VStr "circuit_open" ∧
    ∃ now called types, FlowFacts.accounted (B := dict CircuitRecord) (W := unit) time date pow sample
      (GatewayRuntime.build_default now tt).2 r called types
  else
    REFUSE `prefix_of` es_expected_answer sample ∧ ca_answer r = es_expected_answer sample ∨
    ca_answer r = NOT_FOUND ∨
    ∃ c, visible retriever (es_caller_role sample) c ∧ ca_answer r = content c.

#[local] Opaque GatewayFlow.run_gateway_sample GatewayRuntime.build_default.
Lemma run_gateway_accounted sample s r s' :
  str_truthy (default "" (es_tool_name sample)) = true →
  run_gateway sample s = (Ok r, s') → sample_accounted sample r.
Proof.
  intros Ht H. unfold run_gateway in H. unfold sample_accounted. rewrite Ht.
  destruct (gateway_flow_ready s) as [Hh Hnn].
  assert (∀ meta, Registry.get (GatewayFlow.tool_of sample) None (rt_registry (fl_rt (gateway_flow s))) = Some meta →
    tm_input_schema meta = [] ∨ ∃ required props, schema_shape (tm_input_schema meta) required props) as Hs.
  { intros meta. rewrite gateway_flow_rt. apply default_schemas. }
  pose proof (run_gateway_governed time date perf hex uuid hash repr repr_list exc_str dumps pow lower is_space
    sample (gateway_flow s) Hh Hnn Hs) as Hg.
  destruct (GatewayFlow.run_gateway_sample _ _ _ _ _ _ _ _ _ _ _ _ _ _ _) as [r0 f]. injection H as -> _.
  destruct Hg as (called & _ & Hg). destruct (FlowFacts.gv_audit _ _ _ _ _ _ _ _ Hg) as (es & _ & _ & Hr).
  destruct (Hr r eq_refl) as (Hid & _ & Hacc). rewrite gateway_flow_rt in Hacc. split; [done|]. split.
  - destruct Hacc; try congruence. intros _. by eapply (fresh_circuit_allows (time (rn_clock s)) meta).
  - by exists (time (rn_clock s)), called, (ae_event_type <$> es).
Qed.

Lemma run_single_accounted sample s r s' :
  run_single_sample sample s = (Ok r, s') → sample_accounted sample r.
Proof.
  unfold run_single_sample. destruct (str_truthy _) eqn:Ht; [by apply run_gateway_accounted|].
  intros (Ha & _ & Hid & _)%run_rag_visible. unfold sample_accounted. by rewrite Ht.
Qed.
End run.
End EvaluationRunner.
Import EvaluationRunner.


(** A public and a restricted document; the query matches both. *)
Module RagExample.
Definition doc (id level : string) (t : text) : RetrievalChunk :=
  mkChunk id t PyFloat.zero id "doc" level [] "".
Definition long (c : Z) : text := replicate 30 c.
Definition base : HybridRetriever.retriever :=
  HybridRetriever.mkRetriever
    (VectorRetriever.mkIndex 20 [doc "secret" "restricted" (long 98); doc "open" "public" (long 97)])
    (KeywordRetriever.new 20 (PyFloat.ratio 3 2) (PyFloat.ratio 3 4)) RRF (PyFloat.ratio 3 5)
    (PyFloat.ratio 2 5) 10 60 None.
Definition sample : EvalSample :=
  mkEvalSample "s" "rag" [97; 98] (long 97) ["open"] "easy" [] None None [] "public" "default".
Definition runner0 : runner :=
  mkRunner (mkObs [] [] 0 0)
    (Compressor.mkCompressor (ContextBudgetManager.new 4096 ContextBudgetManager.default_allocation)
       (PyFloat.ratio 8 10) 10 (PyFloat.ratio 3 10)) 0 0.
Definition noon (n : nat) : float := PyFloat.of_Z 43200.
Definition run (s : EvalSample) : res EvalCaseResult * runner :=
  run_rag_sample noon noon (λ _, "") (λ t, t) (λ c, c =? 32) (λ _, true) (λ c, (97 <=? c) && (c <=? 122))
    Ok (λ x, x) (λ _, "") (λ t, match t with [] => "" | c :: _ => pretty c end) base Reranker.default_config s runner0.

Lemma rag_answer_visible_witness :
  match (run sample).1 with
  | Ok cr => (ca_answer cr = long 97 ∧ ca_success cr = true) ∧
      (REFUSE `prefix_of` es_expected_answer sample ∧ ca_answer cr = es_expected_answer sample ∨
       ca_answer cr = NOT_FOUND ∨
       ∃ c, visible base (es_caller_role sample) c ∧ ca_answer cr = content c)
  | Err _ => False
  end.
Proof.
  assert (match (run sample).1 with
          | Ok cr => ca_answer cr = long 97 ∧ ca_success cr = true | Err _ => False end) as Hr by by vm_compute.
  destruct (run sample) as [r s'] eqn:E. cbn [fst] in *.
  destruct r as [cr|]; [|exact Hr]. split; [exact Hr|].
  unfold run in E. destruct (rag_answer_visible _ _ _ _ _ _ _ _ _ _ _ _ _ _ _ _ _ E) as [H _]. exact H.
Defined.

#[local] Opaque GatewayFlow.run_gateway_sample run_rag_sample GatewayRuntime.build_default.
(** One tool sample and one retrieval sample. *)
Definition run_all (l : list EvalSample) : res (list EvalCaseResult) * runner :=
  run_samples noon (λ _, "2024-01-01") noon (λ _, "0a1b2c3d") (λ _, "id") (λ _, "") (λ _, "") (λ _, "")
    (λ _, "") (λ _, Ok []) (λ x _, Ok x) (λ t, t) (λ c, c =? 32) (λ _, true)
    (λ c, (97 <=? c) && (c <=? 122)) Ok (λ x, x) (λ _, "")
    (λ t, match t with [] => "" | c :: _ => pretty c end) base Reranker.default_config l runner0.
End RagExample.
