(* ===== verification/EvalParallel.v ===== *)
(** * Evaluation runs on a thread pool (src/eval/runner.py, [_run_samples])

    With more than one worker the samples run on the threads of a pool and the
    results are collected in the order of submission, each wait limited by the
    timeout.  The threads share the tracer, the logger and the budget of the
    compressor.  [Respects] is the relational reasoning that shows that a sample
    computes the same whatever the others have recorded; so a thread is the run
    of its sample on records of its own, which a schedule then weaves into the
    shared ones.  Every thread has its own readings of the clocks and its own
    random identifiers. *)
From Stdlib Require Import Morphisms.
From S2P Require Import Prelude PyFloat PyValue Persistence CircuitBreaker Catalog Authorizer PreInvocation RateLimiter PySort PyFormat Retrieval Compressor Release Observability Scorer EvalRunner EvalRag.
Local Open Scope Z_scope.

(** ** Computations that do not look at a part of the state *)
Class Respects {S A} (R : relation S) (m : st S A) : Prop := respects : Proper (R ==> prod_relation eq R) m.

Lemma respects_run {S A} (R : relation S) (m : st S A) `{!Respects R m} s s' :
  R s s' → (m s).1 = (m s').1 ∧ R (m s).2 (m s').2.
Proof. intros Hs. exact (respects s s' Hs). Qed.

Section respects.
Context {S : Type} (R : relation S).

#[global] Instance respects_ret {A} (a : A) : Respects R (mret a).
Proof. by intros s s' Hs. Qed.
#[global] Instance respects_lift {A} (r : res A) : Respects R (st_lift r).
Proof. by intros s s' Hs. Qed.
#[global] Instance respects_raise {A} e : Respects R (st_raise (A := A) e).
Proof. by intros s s' Hs. Qed.
Lemma respects_gets {A} (f : S → A) : Proper (R ==> eq) f → Respects R (st_gets f).
Proof. intros Hf s s' Hs. split; [cbn; f_equal; by apply Hf|done]. Qed.
Lemma respects_modify (f : S → S) : Proper (R ==> R) f → Respects R (st_modify f).
Proof. intros Hf s s' Hs. split; [done|by apply Hf]. Qed.

#[global] Instance respects_bind {A B} (m : st S A) (f : A → st S B) :
  Respects R m → (∀ a, Respects R (f a)) → Respects R (m ≫= f).
Proof.
  intros Hm Hf s s' Hs. unfold mbind, st_bind. destruct (respects_run R m s s' Hs) as [Hr Hs1].
  destruct (m s) as [r s1], (m s') as [r' s1']. cbn in *. subst r'. destruct r as [a|e]; [by apply Hf|by split].
Qed.
#[global] Instance respects_catch {A} (m : st S A) h :
  Respects R m → (∀ e, Respects R (h e)) → Respects R (st_catch m h).
Proof.
  intros Hm Hf s s' Hs. unfold st_catch. destruct (respects_run R m s s' Hs) as [Hr Hs1].
  destruct (m s) as [r s1], (m s') as [r' s1']. cbn in *. subst r'. destruct r as [a|e]; [by split|by apply Hf].
Qed.
#[global] Instance respects_finally {A} (m : st S A) f :
  Respects R m → Respects R f → Respects R (st_finally m f).
Proof.
  intros Hm Hf s s' Hs. unfold st_finally. destruct (respects_run R m s s' Hs) as [Hr Hs1].
  destruct (m s) as [r s1], (m s') as [r' s1']. cbn in *. subst r'.
  destruct (respects_run R f s1 s1' Hs1) as [Hr2 Hs2]. destruct (f s1) as [r2 s2], (f s1') as [r2' s2']. cbn in *. subst r2'.
  by destruct r2.
Qed.
(** A method of a part that is related by [T]. *)
Lemma respects_zoom {P A} (T : relation P) (get : S → P) (set : P → S → S) (m : st P A) :
  Proper (R ==> T) get → Proper (T ==> R ==> R) set → Respects T m → Respects R (zoom get set m).
Proof.
  intros Hg Hset Hm s s' Hs. unfold zoom. destruct (respects_run T m _ _ (Hg s s' Hs)) as [Hr Ht].
  destruct (m (get s)) as [r t], (m (get s')) as [r' t']. cbn in *. split; [done|by apply Hset].
Qed.
End respects.

(** Anything respects equality. *)
#[global] Instance respects_eq {S A} (m : st S A) : Respects eq m.
Proof. by intros s s' <-. Qed.

(** ** Tracer and logger only append *)
Section records.
Context (sp : list SpanRecord) (lg : list StructuredLogEntry).

(** [o'] is [o] after other threads recorded [sp] and [lg]. *)
Definition obs_after : relation obs := λ o o',
  spans o' = sp ++ spans o ∧ logs o' = lg ++ logs o ∧ ob_clock o' = ob_clock o ∧ ob_ids o' = ob_ids o.

#[global] Instance now_ms_respects time : Respects obs_after (now_ms time).
Proof. intros o o' (? & ? & Hc & ?). unfold now_ms. rewrite Hc. split; [done|]. by split_and!. Qed.
#[global] Instance start_span_respects hex ctx component name parent md :
  Respects obs_after (Tracer.start_span hex ctx component name parent md).
Proof. intros o o' (? & ? & ? & Hi). unfold Tracer.start_span. rewrite Hi. split; [done|]. by split_and!. Qed.
#[global] Instance record_respects e r : Respects obs_after (Tracer.record e r).
Proof.
  unfold Tracer.record, export. apply respects_bind; [|apply _]. apply respects_modify.
  intros o o' (Hs & ? & ? & ?). split_and!; cbn; try done. by rewrite Hs, app_assoc.
Qed.
#[global] Instance exit_respects time e scope x : Respects obs_after (Tracer.exit_ time e scope x).
Proof. unfold Tracer.exit_. destruct (sc_closed scope); [apply _|]. unfold Tracer.finish. apply _. Qed.
#[global] Instance append_respects time e level component event message ctx step code md :
  Respects obs_after (Logger.append time e level component event message ctx step code md).
Proof.
  unfold Logger.append, export. apply respects_bind; [apply _|]. intros t. apply respects_bind; [|apply _].
  apply respects_modify. intros o o' (? & Hl & ? & ?). split_and!; cbn; try done. by rewrite Hl, app_assoc.
Qed.

(** A [with] block of an object that owns the tracer. *)
Lemma with_span_respects {S A} (R : relation S) get set time hex e ctx component name (body : string → st S A) :
  Proper (R ==> obs_after) get → Proper (obs_after ==> R ==> R) set → (∀ step, Respects R (body step)) →
  Respects R (Tracer.with_span time hex e get set ctx component name body).
Proof.
  intros Hg Hset Hb. unfold Tracer.with_span. apply respects_bind.
  { apply (respects_zoom R obs_after); [done..|]. unfold Tracer.enter. apply _. }
  intros scope s s' Hs. unfold Tracer.in_span. destruct (respects_run R (body (sc_step_id scope)) s s' Hs) as [Hr Hs1].
  destruct (body _ s) as [r s1], (body _ s') as [r' s1']. cbn in *. subst r'.
  destruct r; apply (respects_bind R); try apply _; try done; by apply (respects_zoom R obs_after); try apply _.
Qed.
End records.

(** ** The flows of samples *)
Module SampleFlows.
Section gateway.
Context {B W : Type} `{KeyedBackend B CircuitRecord cr_tool_name}.
Context (time : nat → float) (date : nat → string) (perf : nat → float).
Context (hex uuid : nat → string) (hash : dict pyval → string).
Context (repr : pyval → string) (repr_list : list string → string) (exc_str : exc → string).
Context (dumps : pyval → res text) (pow : float → Z → res float).
Context (lower : text → text) (is_space : Z → bool).
Context (sp : list SpanRecord) (lg : list StructuredLogEntry).
Import GatewayFlow.

Definition flow_after : relation (flow B W) := λ s s',
  obs_after sp lg (fl_obs s) (fl_obs s') ∧ fl_rt s = fl_rt s' ∧ fl_clock s = fl_clock s' ∧ fl_perf s = fl_perf s' ∧
  fl_calls s = fl_calls s'.

Lemma with_obs_respects {A} (m : st obs A) : Respects (obs_after sp lg) m → Respects flow_after (with_obs m).
Proof.
  apply respects_zoom.
  - by intros s s' (? & _).
  - intros o o' Ho s s' (_ & ? & ? & ? & ?). by split_and!.
Qed.
(** The runtime belongs to the sample. *)
Lemma with_part_respects {P A} (get : flow B W → P) (set : P → runtime B W → runtime B W) (m : st P A) :
  (∀ s s', fl_rt s = fl_rt s' → get s = get s') →
  Respects flow_after (zoom get (λ x s, set_rt (set x (fl_rt s)) s) m).
Proof.
  intros Hg. apply (respects_zoom flow_after eq); [|..|apply _].
  - intros s s' (_ & ? & _). by apply Hg.
  - intros x ? <- s s' (? & Hr & ? & ? & ?). split_and!; try done. cbn. by rewrite Hr.
Qed.
Lemma span_respects {A} ctx component name (body : string → st (flow B W) A) :
  (∀ step, Respects flow_after (body step)) → Respects flow_after (span time hex ctx component name body).
Proof.
  apply (with_span_respects sp lg).
  - by intros s s' (? & _).
  - intros o o' Ho s s' (_ & ? & ? & ? & ?). by split_and!.
Qed.
Lemma tick_respects : Respects flow_after tick.
Proof. intros s s' (? & ? & Hc & ? & ?). unfold tick. rewrite Hc. split; [done|]. by split_and!. Qed.
Lemma perf_respects : Respects flow_after (perf_counter perf).
Proof. intros s s' (? & ? & ? & Hp & ?). unfold perf_counter. rewrite Hp. split; [done|]. by split_and!. Qed.
Lemma call_respects call : Respects flow_after
  (st_modify (λ s, mkFlow (fl_obs s) (fl_rt s) (fl_clock s) (fl_perf s) (fl_calls s ++ [call]))).
Proof. apply respects_modify. intros s s' (? & ? & ? & ? & Hc). split_and!; cbn; try done. by rewrite Hc. Qed.
Lemma fresh_hex_respects : Respects flow_after (fresh_hex hex).
Proof.
  apply with_obs_respects. intros o o' (? & ? & ? & Hi). rewrite Hi. split; [done|]. by split_and!.
Qed.

(** Steps through a flow, one construct at a time. *)
Ltac flow_step :=
  first
  [ apply span_respects; intros ? | apply respects_ret | apply respects_lift | apply respects_raise
  | apply respects_bind; [|intros ?] | apply respects_catch; [|intros ?] | apply respects_finally
  | apply tick_respects | apply perf_respects | apply fresh_hex_respects
  | apply call_respects | apply respects_gets; intros ? ? (_ & Hrt & _); by rewrite Hrt | apply with_obs_respects; apply _
  | apply with_part_respects; intros ?? ->; done
  | match goal with
    | |- Respects _ (match ?x with _ => _ end) => destruct x
    | |- Respects _ (if ?x then _ else _) => destruct x
    end ].


Lemma result_respects sample trace_id o : Respects flow_after (result lower is_space sample trace_id o).
Proof. unfold result, build_case_result. repeat flow_step. Qed.
Lemma latency_respects start : Respects flow_after (latency_since perf start).
Proof. unfold latency_since. repeat flow_step. Qed.
Lemma audit_event_respects sample trace_id t tool err md :
  Respects flow_after (audit_event time uuid sample trace_id t tool err md).
Proof. unfold audit_event, with_audit. repeat flow_step. Qed.
Ltac flow_step_all := first [apply latency_respects | apply result_respects | apply audit_event_respects | flow_step].

Lemma call_tool_respects sample trace_id start meta steps : Respects flow_after
  (call_tool time date perf hex uuid hash repr exc_str dumps lower is_space sample trace_id start meta steps).
Proof.
  unfold call_tool, record_call_start, record_call_end, execute, failed, invoke, with_audit, with_quota, with_breaker,
    info, error. repeat flow_step_all.
Qed.
Lemma auth_gate_respects sample trace_id start meta steps : Respects flow_after
  (auth_gate time date perf hex uuid hash repr repr_list exc_str dumps pow lower is_space sample trace_id start meta steps).
Proof.
  unfold auth_gate, authorize, deny, circuit_gate, circuit_rejected, rate_gate, rate_limited, with_limiter, with_breaker,
    info, warning, error. repeat first [apply call_tool_respects | flow_step_all].
Qed.
#[global] Instance run_gateway_sample_respects sample : Respects flow_after
  (run_gateway_sample time date perf hex uuid hash repr repr_list exc_str dumps pow lower is_space sample).
Proof.
  unfold run_gateway_sample, validation_gate, validate, reject_validation, unknown_tool, with_quota, info, warning.
  repeat first [apply auth_gate_respects | flow_step_all].
Qed.
End gateway.

(** Compressors that differ at most in the recorded use of the retrieval budget,
    which no budget depends on. *)
Definition same_budget : relation Compressor.compressor := λ c c',
  Compressor.dedup_threshold c = Compressor.dedup_threshold c' ∧
  Compressor.min_content_length c = Compressor.min_content_length c' ∧
  Compressor.min_info_density c = Compressor.min_info_density c' ∧
  let m := Compressor.budget_manager c in let m' := Compressor.budget_manager c' in
  ContextBudgetManager.max_total_tokens m = ContextBudgetManager.max_total_tokens m' ∧
  ContextBudgetManager.allocation m = ContextBudgetManager.allocation m' ∧
  ∀ k, k ≠ "retrieval_context" → dget k 0 (ContextBudgetManager.usage m) = dget k 0 (ContextBudgetManager.usage m').

Lemma record_usage_others k n m : k ≠ "retrieval_context" →
  dget k 0 (ContextBudgetManager.usage (ContextBudgetManager.record_usage "retrieval_context" n m)) =
  dget k 0 (ContextBudgetManager.usage m).
Proof.
  intros Hk. unfold ContextBudgetManager.record_usage. destruct (dmem _ _); [|done]. unfold dget. cbn.
  by rewrite dlookup_dinsert_ne.
Qed.
Lemma record_usage_fixed k n m :
  ContextBudgetManager.max_total_tokens (ContextBudgetManager.record_usage k n m) = ContextBudgetManager.max_total_tokens m ∧
  ContextBudgetManager.allocation (ContextBudgetManager.record_usage k n m) = ContextBudgetManager.allocation m.
Proof. unfold ContextBudgetManager.record_usage. by destruct (dmem _ _). Qed.

Section runner.
Context (sp : list SpanRecord) (lg : list StructuredLogEntry).

Lemma value_filter_budget is_space is_alnum m m' d1 d2 d3 l : ∀ reasons,
  Compressor.value_filter is_space is_alnum (Compressor.mkCompressor m d1 d2 d3) l reasons =
  Compressor.value_filter is_space is_alnum (Compressor.mkCompressor m' d1 d2 d3) l reasons.
Proof.
  induction l as [|r l IH]; intros reasons; [done|]. cbn [Compressor.value_filter]. rewrite IH.
  change (Compressor.check_low_value is_space is_alnum (Compressor.mkCompressor m d1 d2 d3))
    with (Compressor.check_low_value is_space is_alnum (Compressor.mkCompressor m' d1 d2 d3)).
  by destruct (Compressor.check_low_value _ _ _ _).
Qed.
Lemma compress_respects is_space is_alnum lower md5 results t0 t1 :
  Respects same_budget (Compressor.compress is_space is_alnum lower md5 results None t0 t1).
Proof.
  intros [m d1 d2 d3] [m' d1' d2' d3'] (Hd & Hl & Hi & Hm & Ha & Hu). cbn in Hd, Hl, Hi, Hm, Ha, Hu. subst d1' d2' d3'.
  assert (ContextBudgetManager.get_retrieval_budget m = ContextBudgetManager.get_retrieval_budget m') as Hb.
  { unfold ContextBudgetManager.get_retrieval_budget. by rewrite Hm, Ha, !Hu by done. }
  unfold Compressor.compress. cbn [Compressor.budget_manager]. rewrite Hb.
  change (Compressor.deduplicate is_space lower md5 (Compressor.mkCompressor m d1 d2 d3) results)
    with (Compressor.deduplicate is_space lower md5 (Compressor.mkCompressor m' d1 d2 d3) results).
  destruct (Compressor.deduplicate _ _ _ _ _) as [deduped dup].
  rewrite (value_filter_budget is_space is_alnum m m').
  destruct (Compressor.value_filter _ _ _ _ _) as [filtered reasons].
  destruct (Compressor.select _ _ _ _ _) as [[[sel used] rs]|e]; (split; [done|]).
  - split; [done|]. split; [done|]. split; [done|]. cbn zeta. split_and!; cbn [Compressor.budget_manager snd].
    + by rewrite !(proj1 (record_usage_fixed _ _ _)).
    + by rewrite !(proj2 (record_usage_fixed _ _ _)).
    + intros k Hk. rewrite !record_usage_others by done. by apply Hu.
  - by split_and!.
Qed.

(** [s'] is [s] after other threads recorded [sp] and [lg] and used the compressor. *)
Definition runner_after : relation runner := λ s s',
  obs_after sp lg (rn_obs s) (rn_obs s') ∧ same_budget (rn_compressor s) (rn_compressor s') ∧
  rn_clock s = rn_clock s' ∧ rn_perf s = rn_perf s'.

Section flow.
Context (time : nat → float) (date : nat → string) (perf : nat → float).
Context (hex uuid : nat → string) (hash : dict pyval → string).
Context (repr : pyval → string) (repr_list : list string → string) (exc_str : exc → string).
Context (dumps : pyval → res text) (pow : float → Z → res float).
Context (lower : text → text) (is_space is_alnum is_word : Z → bool) (log : float → res float).
Context (exp : float → float) (float_str : float → string) (md5 : text → string).
Context (retriever : HybridRetriever.retriever) (config : RerankConfig).
Import RagFlow EvaluationRunner.

Lemma rag_obs_respects {A} (m : st obs A) : Respects (obs_after sp lg) m → Respects runner_after (with_obs m).
Proof.
  apply respects_zoom.
  - by intros s s' (? & _).
  - intros o o' Ho s s' (_ & ? & ? & ?). by split_and!.
Qed.
Lemma rag_span_respects {A} ctx component name (body : string → st runner A) :
  (∀ step, Respects runner_after (body step)) → Respects runner_after (span time hex ctx component name body).
Proof.
  apply (with_span_respects sp lg).
  - by intros s s' (? & _).
  - intros o o' Ho s s' (_ & ? & ? & ?). by split_and!.
Qed.
Lemma rag_perf_respects : Respects runner_after (perf_counter perf).
Proof. intros s s' (? & ? & ? & Hp). unfold perf_counter. rewrite Hp. split; [done|]. by split_and!. Qed.
Lemma readings_respects n : Respects runner_after (readings time n).
Proof. intros s s' (? & ? & Hc & ?). unfold readings. rewrite Hc. split; [done|]. by split_and!. Qed.
Lemma rag_compress_respects results : Respects runner_after (compress time lower is_space is_alnum md5 results).
Proof.
  unfold compress. apply respects_bind; [apply readings_respects|]. intros t.
  apply (respects_zoom _ same_budget); [| |apply compress_respects].
  - by intros s s' (_ & ? & _).
  - intros c c' Hc s s' (? & _ & ? & ?). by split_and!.
Qed.

#[global] Instance run_rag_sample_respects sample : Respects runner_after
  (run_rag_sample time perf hex lower is_space is_alnum is_word log exp float_str md5 retriever config sample).
Proof.
  unfold run_rag_sample, info.
  repeat first
  [ apply rag_span_respects; intros ? | apply rag_compress_respects | apply rag_perf_respects | apply readings_respects
  | apply rag_obs_respects; apply _ | apply respects_bind; [|intros ?] | apply respects_ret | apply respects_lift
  | progress cbv zeta | match goal with |- Respects _ (if ?b then _ else _) => destruct b end ].
Qed.

(** A sample computes the same, and records the same, whatever other threads
    recorded before. *)
#[global] Instance run_single_sample_respects sample : Respects runner_after
  (run_single_sample time date perf hex uuid hash repr repr_list exc_str dumps pow lower is_space is_alnum
    is_word log exp float_str md5 retriever config sample).
Proof.
  unfold run_single_sample. destruct (str_truthy _); [|apply _]. intros s s' (Ho & Hb & Hc & Hp). unfold run_gateway.
  assert (flow_after sp lg (gateway_flow time s) (gateway_flow time s')) as Hf.
  { unfold gateway_flow. rewrite Hc, Hp. by split_and!. }
  destruct (respects_run (flow_after sp lg) (GatewayFlow.run_gateway_sample time date perf hex uuid hash repr repr_list exc_str
    dumps pow lower is_space sample) _ _ Hf) as [Hr (? & ? & ? & ? & ?)].
  destruct (GatewayFlow.run_gateway_sample _ _ _ _ _ _ _ _ _ _ _ _ _ _ (gateway_flow time s)) as [r f].
  destruct (GatewayFlow.run_gateway_sample _ _ _ _ _ _ _ _ _ _ _ _ _ _ (gateway_flow time s')) as [r' f'].
  cbn in *. split; [done|]. by split_and!.
Qed.
End flow.
End runner.
End SampleFlows.

(** ** The pool

    Instants and durations are integers of any unit.  A job is submitted at an
    instant and takes its cost on the worker that runs it; jobs are taken in the
    order of submission by the worker that is free first. *)
Module ThreadPool.
Record job := mkJob { jb_submitted : Z; jb_cost : Z }.

(** The earliest of the instants at which workers are free, and the others. *)
Fixpoint earliest (w : Z) (free : list Z) : Z * list Z :=
  match free with
  | [] => (w, [])
  | w' :: free => let '(m, rest) := earliest (Z.min w w') free in (m, Z.max w w' :: rest)
  end.
Fixpoint finish_times (free : list Z) (jobs : list job) : list Z :=
  match free, jobs with
  | w :: free, j :: jobs =>
      let '(start, rest) := earliest w free in
      let finished := Z.max start (jb_submitted j) + jb_cost j in
      finished :: finish_times (finished :: rest) jobs
  | _, _ => []
  end.

(** [[future.result(timeout=timeout) for future in futures]], from the instant
    [now]; a future is its finishing instant and what its call returned. *)
Definition TimeoutError : exc := Raised "TimeoutError" "".
Fixpoint collect {A} (timeout now : Z) (futures : list (Z * res A)) : res (list A) :=
  match futures with
  | [] => Ok []
  | (finished, result) :: futures =>
      if now + timeout <? finished then Err TimeoutError
      else a ← result; rest ← collect timeout (Z.max now finished) futures; Ok (a :: rest)
  end.
(** The results of all calls, or the first exception. *)
Fixpoint all_results {A} (l : list (res A)) : res (list A) :=
  match l with [] => Ok [] | r :: l => a ← r; rest ← all_results l; Ok (a :: rest) end.

(** Records of threads in the order in which they reach the shared list: a
    schedule names the thread of the next record. *)
Fixpoint weave {A} (schedule : list nat) (threads : list (list A)) : list A :=
  match schedule with
  | [] => concat threads
  | i :: schedule =>
      match threads !! i with
      | Some (x :: l) => x :: weave schedule (<[i := l]> threads)
      | _ => weave schedule threads
      end
  end.

(** *** Facts *)
Lemma earliest_min free : ∀ w m rest t, earliest w free = (m, rest) →
  (∀ x, x ∈ w :: free → x ≤ t) → m ≤ t ∧ ∀ x, x ∈ rest → x ≤ t.
Proof.
  induction free as [|w' free IH]; intros w m rest t E Ht; cbn [earliest] in E.
  { injection E as <- <-. split; [apply Ht; by left|]. by intros x ?%elem_of_nil. }
  destruct (earliest (Z.min w w') free) as [m' rest'] eqn:E'. injection E as <- <-.
  assert (w ≤ t ∧ w' ≤ t) as [? ?] by (split; apply Ht; set_solver).
  destruct (IH _ _ _ t E') as [Hm Hr].
  { intros x [->|Hx]%elem_of_cons; [lia|]. apply Ht. set_solver. }
  split; [done|]. intros x [->|Hx]%elem_of_cons; [lia|by apply Hr].
Qed.

Lemma finish_times_length jobs : ∀ free, free ≠ [] → length (finish_times free jobs) = length jobs.
Proof.
  induction jobs as [|j jobs IH]; intros [|w free] Hf; [done..|]. cbn [finish_times].
  destruct (earliest w free) as [start rest]. cbn [length]. by rewrite IH.
Qed.

(** When every job costs at most the timeout, no wait is too long: at the moment
    of asking for a result all earlier jobs are done, so its job has started. *)
Lemma collect_in_time {A} timeout jobs : ∀ now free (results : list (res A)),
  free ≠ [] → length results = length jobs →
  (∀ x, x ∈ free → x ≤ now) → Forall (λ j, jb_submitted j ≤ now ∧ jb_cost j ≤ timeout) jobs →
  collect timeout now (zip (finish_times free jobs) results) = all_results results.
Proof.
  induction jobs as [|j jobs IH]; intros now free results Hf Hl Ht Hj.
  { by destruct results, free. }
  destruct free as [|w free]; [done|]. destruct results as [|r results]; [done|]. cbn [finish_times].
  destruct (earliest w free) as [start rest] eqn:E. apply Forall_cons in Hj as [[Hs Hc] Hj].
  destruct (earliest_min _ _ _ _ now E Ht) as [Hstart Hrest].
  cbn [zip zip_with collect all_results]. set (finished := Z.max start (jb_submitted j) + jb_cost j).
  rewrite (proj2 (Z.ltb_ge _ _)) by (unfold finished; lia). destruct r as [a|e]; [|done]. cbn [mbind res_bind].
  rewrite IH; [done|done|by injection Hl| |].
  - intros x [->|Hx]%elem_of_cons; [lia|]. specialize (Hrest x Hx). lia.
  - eapply Forall_impl; [exact Hj|]. intros j' [? ?]. lia.
Qed.

(** What is collected is one result per call, in order. *)
Lemma collect_Ok {A} timeout futures : ∀ now (l : list A),
  collect timeout now futures = Ok l → futures.*2 = Ok <$> l.
Proof.
  induction futures as [|[finished r] futures IH]; intros now l; cbn [collect]; [by intros [= <-]|].
  destruct (_ <? _); [done|]. destruct r as [a|e]; [|done]. cbn [mbind res_bind].
  destruct (collect timeout _ futures) as [rest|] eqn:E; [|done]. cbn. intros [= <-]. rewrite fmap_cons. f_equal.
  by eapply IH.
Qed.

Lemma concat_insert_perm {A} (ts : list (list A)) i x l :
  ts !! i = Some (x :: l) → concat ts ≡ₚ x :: concat (<[i := l]> ts).
Proof.
  intros Hi. rewrite <-(take_drop_middle ts i _ Hi) at 1. rewrite insert_take_drop by by eapply lookup_lt_Some.
  rewrite !concat_app, !concat_cons, <-app_comm_cons. by rewrite <-Permutation_middle.
Qed.
Lemma weave_perm {A} schedule : ∀ ts : list (list A), weave schedule ts ≡ₚ concat ts.
Proof.
  induction schedule as [|i schedule IH]; intros ts; cbn [weave]; [done|].
  destruct (ts !! i) as [[|x l]|] eqn:Hi; [apply IH| |apply IH]. by rewrite IH, <-concat_insert_perm.
Qed.
Lemma sublist_concat {A} (ts : list (list A)) i l : ts !! i = Some l → l `sublist_of` concat ts.
Proof.
  revert i. induction ts as [|t ts IH]; intros i; [done|]. destruct i as [|i]; cbn [lookup list_lookup].
  - intros [= ->]. apply sublist_inserts_r. done.
  - intros Hi%IH. by apply sublist_inserts_l.
Qed.
(** The records of one thread stay in their order. *)
Lemma weave_keeps_order {A} schedule : ∀ (ts : list (list A)) i l,
  ts !! i = Some l → l `sublist_of` weave schedule ts.
Proof.
  induction schedule as [|j schedule IH]; intros ts i l Hi; cbn [weave]; [by eapply sublist_concat|].
  destruct (ts !! j) as [[|x t]|] eqn:Hj; [by eapply IH| |by eapply IH].
  destruct (decide (i = j)) as [->|Hne].
  - rewrite Hj in Hi. injection Hi as <-. apply sublist_skip, (IH _ j). apply list_lookup_insert_eq. by eapply lookup_lt_Some.
  - apply sublist_cons, (IH _ i). by rewrite list_lookup_insert_ne.
Qed.
End ThreadPool.
Import ThreadPool SampleFlows EvaluationRunner.

(** ** Runs on the pool *)
Module ParallelRunner.
(** What the environment decides: when the workers start, when the samples are
    submitted and how long each takes, when the collection begins, in which order
    the records of the threads reach the tracer and the logger, and which thread
    uses the compressor last. *)
Record pool_run := mkPoolRun {
  pr_start : Z;
  pr_jobs : list job;
  pr_collect : Z;
  pr_spans : list nat;
  pr_logs : list nat;
  pr_last : nat;
}.

Section run.
(** Readings and identifiers of each thread. *)
Context (time : nat → nat → float) (date : nat → nat → string) (perf : nat → nat → float).
Context (hex uuid : nat → nat → string) (hash : dict pyval → string).
Context (repr : pyval → string) (repr_list : list string → string) (exc_str : exc → string).
Context (dumps : pyval → res text) (pow : float → Z → res float).
Context (lower : text → text) (is_space is_alnum is_word : Z → bool) (log : float → res float).
Context (exp : float → float) (float_str : float → string) (md5 : text → string).
Context (retriever : HybridRetriever.retriever) (config : RerankConfig).

Definition sample_on (i : nat) (sample : EvalSample) : st runner EvalCaseResult :=
  run_single_sample (time i) (date i) (perf i) (hex i) (uuid i) hash repr repr_list exc_str dumps pow lower
    is_space is_alnum is_word log exp float_str md5 retriever config sample.
(** A thread on records of its own. *)
Definition own (s : runner) : runner := mkRunner (mkObs [] [] 0 0) (rn_compressor s) 0 0.
Definition threads (samples : list EvalSample) (s : runner) : list (res EvalCaseResult * runner) :=
  imap (λ i sample, sample_on i sample (own s)) samples.

(** The branch of [_run_samples] with a pool: leaving the [with] block waits for
    all threads, whatever the collection raised. *)
Definition run_pool (workers : nat) (timeout : Z) (env : pool_run) (samples : list EvalSample) :
    st runner (list EvalCaseResult) := λ s,
  let ts := threads samples s in
  let o := rn_obs s in
  (collect timeout (pr_collect env) (zip (finish_times (replicate workers (pr_start env)) (pr_jobs env)) ts.*1),
   mkRunner (mkObs (spans o ++ weave (pr_spans env) ((λ t, spans (rn_obs t.2)) <$> ts))
       (logs o ++ weave (pr_logs env) ((λ t, logs (rn_obs t.2)) <$> ts)) (ob_clock o) (ob_ids o))
     (from_option (rn_compressor ∘ snd) (rn_compressor s) (ts !! pr_last env)) (rn_clock s) (rn_perf s)).

(** [_run_samples] *)
Definition run_samples (max_workers timeout : Z) (env : pool_run) (samples : list EvalSample) :
    st runner (list EvalCaseResult) :=
  if max_workers <=? 1 then
    EvaluationRunner.run_samples (time 0%nat) (date 0%nat) (perf 0%nat) (hex 0%nat) (uuid 0%nat) hash repr repr_list
      exc_str dumps pow lower is_space is_alnum is_word log exp float_str md5 retriever config samples
  else run_pool (Z.to_nat max_workers) timeout env samples.

Lemma threads_lookup samples s i sample : samples !! i = Some sample →
  threads samples s !! i = Some (sample_on i sample (own s)).
Proof. intros Hi. unfold threads. by rewrite list_lookup_imap, Hi. Qed.

(** The thread of a sample is the sample run after any records of others. *)
Lemma sample_after i sample s s' sp lg :
  runner_after sp lg (own s) s' → (sample_on i sample s').1 = (sample_on i sample (own s)).1 ∧
  logs (rn_obs (sample_on i sample s').2) = lg ++ logs (rn_obs (sample_on i sample (own s)).2) ∧
  spans (rn_obs (sample_on i sample s').2) = sp ++ spans (rn_obs (sample_on i sample (own s)).2).
Proof.
  intros Ha. destruct (respects_run (runner_after sp lg) (sample_on i sample) _ _ Ha) as [Hr (Ho & _)].
  destruct Ho as (Hs & Hl & _). by split_and!.
Qed.

Lemma pool_accounted timeout now finish samples s rs :
  collect timeout now (zip finish (threads samples s).*1) = Ok rs → length finish = length samples →
  length rs = length samples ∧
  ∀ i sample r, samples !! i = Some sample → rs !! i = Some r → sample_accounted (time i) (date i) pow retriever sample r.
Proof.
  intros Hc%collect_Ok Hl. rewrite snd_zip in Hc by (unfold threads; rewrite length_fmap, length_imap; lia). split.
  - apply (f_equal length) in Hc. unfold threads in Hc. rewrite !length_fmap, length_imap in Hc. lia.
  - intros i sample r Hi Hr. apply (f_equal (.!! i)) in Hc. rewrite !list_lookup_fmap, Hr in Hc.
    rewrite (threads_lookup _ _ _ _ Hi) in Hc. cbn in Hc. injection Hc as Hc.
    destruct (sample_on i sample (own s)) as [r' s1] eqn:E. cbn in Hc. subst r'. unfold sample_on in E.
    by apply run_single_accounted in E.
Qed.

(** The records of the threads in a shared list. *)
Lemma weave_records {A} (f : runner → list A) schedule samples s :
  let ts := threads samples s in let l := weave schedule ((λ t, f t.2) <$> ts) in
  l ≡ₚ concat ((λ t, f t.2) <$> ts) ∧ ∀ i t, ts !! i = Some t → f t.2 `sublist_of` l.
Proof.
  split; [apply weave_perm|]. intros i t Hi. apply (weave_keeps_order _ _ i). by rewrite list_lookup_fmap, Hi.
Qed.
End run.
End ParallelRunner.
Import ParallelRunner.


(** The timeout limits the wait for a result, not the sample: of two samples that
    take twelve units against a timeout of ten, the one that is waited for first
    ends the run, the other one is accepted. *)
Example timeout_limits_the_wait :
  let run costs := collect 10 0 (zip (finish_times [0; 0] (mkJob 0 <$> costs)) [Ok "a"; Ok "b"]) in
  run [12; 1] = Err TimeoutError ∧ run [9; 12] = Ok ["a"; "b"].
Proof. by vm_compute. Qed.

Module ParallelExample.
Import RagExample.
#[local] Opaque GatewayFlow.run_gateway_sample RagFlow.run_rag_sample GatewayRuntime.build_default.
Definition samples : list EvalSample := [GatewayExamples.demo_sample; sample].
(** The second sample finishes first. *)
Definition env : pool_run := mkPoolRun 0 [mkJob 1 9; mkJob 2 3] 3 [1; 0; 1; 0; 0]%nat [1; 1; 0]%nat 1.
Abbreviation on_threads f := (f (λ _, noon) (λ _ _, "2024-01-01") (λ _, noon) (λ _ _, "0a1b2c3d") (λ _ _, "id") (λ _, "")
  (λ _, "") (λ _, "") (λ _, "") (λ _, Ok []) (λ x _, Ok x) (λ t, t) (λ c, c =? 32) (λ _, true)
  (λ c, (97 <=? c) && (c <=? 122)) Ok (λ x, x) (λ _, "") (λ t, match t with [] => "" | c :: _ => pretty c end)
  base Reranker.default_config).

End ParallelExample.
