(* ===== verification/SessionRecovery.v ===== *)
(** * Instance registry and cross-instance recovery
    (src/src/persistence/instance_registry.py, recovery.py, state_tracker.py)

    Instances report heartbeats into the table [instances]; a sweep marks the
    instances whose heartbeat is too old and hands their unfinished sessions to
    the recovering instance.  The table is its rows in the order of insertion,
    one per primary key; each call is one transaction.  [now] is the reading of
    [time.time()] a call takes.  Sessions are kept by any backend that satisfies
    the session interface. *)
From S2P Require Import Prelude PyFloat PyValue Persistence PySort.
Local Open Scope Z_scope.

Record InstanceInfo := mkInstance {
  in_instance_id : string;
  in_hostname : string;
  in_started_at : float;
  in_last_heartbeat : float;
  in_status : string;
}.

Module InstanceRegistry.
Section registry.
Context (heartbeat_ttl : float).
Implicit Types t : list InstanceInfo.

(** [INSERT OR REPLACE]: the row of the same key goes, the new row comes last. *)
Definition register (now : float) (instance_id hostname : string) t : InstanceInfo * list InstanceInfo :=
  let i := mkInstance instance_id hostname now now "alive" in
  (i, filter (λ r, in_instance_id r ≠ instance_id) t ++ [i]).

Definition beat (now : float) (r : InstanceInfo) : InstanceInfo :=
  mkInstance (in_instance_id r) (in_hostname r) (in_started_at r) now "alive".
(** [UPDATE ... WHERE instance_id = ?]; [rowcount > 0] *)
Definition heartbeat (now : float) (instance_id : string) t : bool * list InstanceInfo :=
  (existsb (λ r, bool_decide (in_instance_id r = instance_id)) t,
   (λ r, if decide (in_instance_id r = instance_id) then beat now r else r) <$> t).

Definition get (instance_id : string) t : option InstanceInfo :=
  find_first (λ r, bool_decide (in_instance_id r = instance_id)) t.

Definition cutoff (now : float) : float := PyFloat.sub now heartbeat_ttl.
Definition list_alive (now : float) t : list InstanceInfo :=
  filter (λ r, PyFloat.ge (in_last_heartbeat r) (cutoff now) = true) t.

(** [last_heartbeat < ? AND status = 'alive'] *)
Definition is_stale (now : float) (r : InstanceInfo) : bool :=
  PyFloat.lt (in_last_heartbeat r) (cutoff now) && bool_decide (in_status r = "alive").
Definition expire (r : InstanceInfo) : InstanceInfo :=
  mkInstance (in_instance_id r) (in_hostname r) (in_started_at r) (in_last_heartbeat r) "expired".
Definition detect_expired (now : float) t : list InstanceInfo * list InstanceInfo :=
  let expired := filter (λ r, is_stale now r = true) t in
  (expired, (λ r, if decide (in_instance_id r ∈ in_instance_id <$> expired) then expire r else r) <$> t).

Definition deregister (instance_id : string) t : bool * list InstanceInfo :=
  (existsb (λ r, bool_decide (in_instance_id r = instance_id)) t,
   filter (λ r, in_instance_id r ≠ instance_id) t).
End registry.
End InstanceRegistry.

(** ** The session interface: a keyed backend with a search by instance *)
Class SessionBackend (B : Type) `{KeyedBackend B SessionRecord sn_session_id} := {
  sessions_of_instance : string → B → list SessionRecord;
}.
Class SessionBackendLaws (B : Type) `{SessionBackend B}
    `{!KeyedBackendLaws B SessionRecord sn_session_id} := {
  sessions_of_instance_spec i b r : backend_ok b →
    r ∈ sessions_of_instance i b ↔ r ∈ backend_list_all b ∧ sn_instance_id r = i;
  sessions_of_instance_once i b : backend_ok b → NoDup (sn_session_id <$> sessions_of_instance i b);
}.

#[global] Instance dict_sessions : SessionBackend (dict SessionRecord) :=
  {| sessions_of_instance := list_by_instance |}.
#[global] Instance dict_sessions_laws : SessionBackendLaws (dict SessionRecord).
Proof.
  split; unfold sessions_of_instance; simpl; unfold list_by_instance, InMemory.list_by.
  - intros i b r _. rewrite list_elem_of_filter, bool_decide_eq_true. simpl. naive_solver.
  - intros i b Hb. destruct (Hb : keyed sn_session_id b) as [Hk Hnd]. eapply sublist_NoDup; [|apply fmap_sublist, sublist_filter].
    unfold InMemory.list_all. rewrite <-list_fmap_compose.
    erewrite (list_fmap_ext _ fst); [done|]. intros ? [k r] Hin%list_elem_of_lookup_2. symmetry. by apply Hk.
Qed.

Record RecoveryResult := mkRecoveryResult {
  rv_expired_instances : list string;
  rv_orphan_sessions : list string;
  rv_recovered_sessions : list string;
  rv_timestamp : float;
}.

Module CrossInstanceRecovery.
Section recovery.
Context {B : Type} `{SessionBackend B}.
Context (heartbeat_ttl : float) (recovery_id : string).

Definition unfinished (s : SessionRecord) : bool :=
  bool_decide (sn_state s ∈ ["running"; "pending"]).
Definition adopt (now : float) (s : SessionRecord) : SessionRecord :=
  mkSessionRecord (sn_session_id s) recovery_id "recovered" (sn_payload s) (sn_created_at s) now
    (sn_expires_at s).
Definition orphans (expired_ids : list string) (b : B) : list SessionRecord :=
  expired_ids ≫= λ i, filter (λ s, unfinished s = true) (sessions_of_instance i b).

(** [recover], at the readings [t0] (detection), [t1] (update), [t2] (result). *)
Definition recover (t0 t1 t2 : float) (table : list InstanceInfo) (b : B) :
    RecoveryResult * (list InstanceInfo * B) :=
  let '(expired, table') := InstanceRegistry.detect_expired heartbeat_ttl t0 table in
  let expired_ids := in_instance_id <$> expired in
  let orphan_sessions := orphans expired_ids b in
  let b' := foldl (λ b s, backend_put (adopt t1 s) b) b orphan_sessions in
  (mkRecoveryResult expired_ids (sn_session_id <$> orphan_sessions) (sn_session_id <$> orphan_sessions) t2,
   (table', b')).
End recovery.
End CrossInstanceRecovery.

(** ** Facts *)
Module RecoveryFacts.
Import InstanceRegistry CrossInstanceRecovery.

(** The primary key. *)
Definition one_per_id (t : list InstanceInfo) : Prop := NoDup (in_instance_id <$> t).

Lemma fmap_id_keep (f : InstanceInfo → InstanceInfo) (t : list InstanceInfo) :
  (∀ r, in_instance_id (f r) = in_instance_id r) → in_instance_id <$> (f <$> t) = in_instance_id <$> t.
Proof. intros Hf. rewrite <-list_fmap_compose. apply list_fmap_ext. intros. apply Hf. Qed.

Lemma detect_expired_ids ttl now (t : list InstanceInfo) :
  in_instance_id <$> (detect_expired ttl now t).2 = in_instance_id <$> t.
Proof. simpl. apply fmap_id_keep. intros r. by case_decide. Qed.

(** Every operation keeps the primary key unique. *)
Lemma registry_keeps_ids ttl now i h (t : list InstanceInfo) : one_per_id t →
  one_per_id (register now i h t).2 ∧ one_per_id (heartbeat now i t).2 ∧
  one_per_id (detect_expired ttl now t).2 ∧ one_per_id (deregister i t).2.
Proof.
  intros Ht. unfold one_per_id in *. split_and!.
  - simpl. rewrite fmap_app. apply NoDup_app. split_and!.
    + eapply sublist_NoDup; [done|apply fmap_sublist, sublist_filter].
    + intros k (r & -> & [Hne _]%list_elem_of_filter)%list_elem_of_fmap. simpl. set_solver.
    + apply NoDup_singleton.
  - simpl. rewrite fmap_id_keep; [done|]. intros r. by case_decide.
  - by rewrite detect_expired_ids.
  - eapply sublist_NoDup; [done|apply fmap_sublist, sublist_filter].
Qed.

Lemma id_inj (t : list InstanceInfo) r r' : one_per_id t → r ∈ t → r' ∈ t → in_instance_id r = in_instance_id r' → r = r'.
Proof.
  intros Ht Hr Hr' He. apply list_elem_of_lookup in Hr as [i Hi], Hr' as [j Hj].
  assert (i = j) as ->; [|congruence].
  eapply NoDup_lookup; [exact Ht| |]; rewrite list_lookup_fmap; [by rewrite Hi|]. by rewrite Hj, He.
Qed.

(** After a sweep the stale instances are exactly those marked, and none is
    stale any more. *)
Lemma detect_expired_spec ttl now (t : list InstanceInfo) : one_per_id t →
  let '(expired, t') := detect_expired ttl now t in
  (∀ r, r ∈ expired ↔ r ∈ t ∧ is_stale ttl now r = true) ∧
  Forall (λ r, is_stale ttl now r = false) t' ∧
  t' = (λ r, if is_stale ttl now r then expire r else r) <$> t.
Proof.
  intros Ht. unfold detect_expired. set (expired := filter _ t).
  assert (∀ r, r ∈ t → (in_instance_id r ∈ in_instance_id <$> expired ↔ is_stale ttl now r = true)) as Hin.
  { intros r Hr. rewrite list_elem_of_fmap. split.
    - intros (r' & He & [Hs Hr']%list_elem_of_filter). by rewrite (id_inj t r r').
    - intros Hs. exists r. split; [done|]. by apply list_elem_of_filter. }
  assert (∀ r, r ∈ t → (if decide (in_instance_id r ∈ in_instance_id <$> expired) then expire r else r) =
    if is_stale ttl now r then expire r else r) as Hf.
  { intros r Hr. specialize (Hin r Hr). case_decide; destruct (is_stale ttl now r); naive_solver. }
  split_and!.
  - intros r. unfold expired. rewrite list_elem_of_filter. naive_solver.
  - apply Forall_fmap, Forall_forall. intros r Hr. unfold compose. rewrite Hf by done.
    destruct (is_stale ttl now r) eqn:E; [|done]. unfold is_stale. simpl. apply andb_false_r.
  - apply list_fmap_ext. intros ? r Hr%list_elem_of_lookup_2. by apply Hf.
Qed.

Section sessions.
Context {B : Type} `{SessionBackendLaws B}.
Context (ttl : float) (recovery_id : string).

Lemma puts_get now l : ∀ b k, NoDup (sn_session_id <$> l) →
  backend_get k (foldl (λ b s, backend_put (adopt recovery_id now s) b) b l) =
  match find_first (λ s, bool_decide (sn_session_id s = k)) l with
  | Some s => Some (adopt recovery_id now s)
  | None => backend_get k b
  end.
Proof.
  induction l as [|s l IH]; intros b k Hnd; [done|]. cbn [foldl].
  rewrite fmap_cons in Hnd. apply NoDup_cons in Hnd as [Hni Hnd]. rewrite IH by done.
  destruct (decide (sn_session_id s = k)) as [<-|Hne].
  - replace (find_first _ (s :: l)) with (Some s)
      by (unfold find_first; rewrite filter_cons_True by (by apply bool_decide_eq_true); done).
    destruct (find_first _ l) as [s'|] eqn:Ef.
    + apply find_first_Some in Ef as [Hin He%bool_decide_eq_true]. destruct Hni.
      rewrite <-He. by apply list_elem_of_fmap_2.
    + apply (get_put_eq (key := sn_session_id) (adopt recovery_id now s)).
  - replace (find_first _ (s :: l)) with (find_first (λ s, bool_decide (sn_session_id s = k)) l)
      by (unfold find_first; rewrite filter_cons_False by (by rewrite bool_decide_eq_true); done).
    destruct (find_first _ l); [done|]. apply (get_put_ne (key := sn_session_id) k (adopt recovery_id now s)). auto.
Qed.

Lemma puts_ok (f : SessionRecord → SessionRecord) l : ∀ b, backend_ok b →
  backend_ok (foldl (λ b s, backend_put (f s) b) b l).
Proof. induction l as [|s l IH]; intros b Hb; simpl; [done|]. apply IH. by apply ok_put. Qed.

Lemma elem_of_orphans ids b s : backend_ok b →
  s ∈ orphans ids b ↔ backend_get (sn_session_id s) b = Some s ∧ unfinished s = true ∧ sn_instance_id s ∈ ids.
Proof.
  intros Hb. unfold orphans. rewrite list_elem_of_bind. setoid_rewrite list_elem_of_filter.
  setoid_rewrite sessions_of_instance_spec; [|done]. rewrite <-list_all_get by done. naive_solver.
Qed.

Lemma orphans_once ids b : backend_ok b → NoDup ids → NoDup (sn_session_id <$> orphans ids b).
Proof.
  intros Hb Hids. apply NoDup_fmap_2_strong.
  - intros s s' [Hs _]%elem_of_orphans [Hs' _]%elem_of_orphans He; try done.
    rewrite He in Hs. congruence.
  - apply NoDup_bind; [| |done].
    + intros i i' s _ _. rewrite !list_elem_of_filter, !sessions_of_instance_spec by done. naive_solver.
    + intros i _. eapply sublist_NoDup; [|apply sublist_filter].
      eapply NoDup_fmap_1, (sessions_of_instance_once i b Hb).
Qed.

(** What the sweep takes for orphaned. *)
Definition orphaned (now : float) (table : list InstanceInfo) (s : SessionRecord) : bool :=
  unfinished s && existsb (λ i, is_stale ttl now i && bool_decide (in_instance_id i = sn_instance_id s)) table.

Lemma orphaned_spec now table s : orphaned now table s = true ↔
  unfinished s = true ∧ sn_instance_id s ∈ in_instance_id <$> (detect_expired ttl now table).1.
Proof.
  unfold orphaned. rewrite andb_true_iff, existsb_exists, list_elem_of_fmap. f_equiv. split.
  - intros (i & Hi & [Hs He%bool_decide_eq_true]%andb_true_iff).
    exists i. split; [done|]. apply list_elem_of_filter. by rewrite list_elem_of_In.
  - intros (i & He & [Hs Hi]%list_elem_of_filter). exists i. split; [by apply list_elem_of_In|].
    apply andb_true_iff. split; [done|]. by apply bool_decide_eq_true.
Qed.

Lemma orphans_find now table b k : backend_ok b →
  find_first (λ s, bool_decide (sn_session_id s = k)) (orphans (in_instance_id <$> (detect_expired ttl now table).1) b) =
  match backend_get k b with
  | Some s => if orphaned now table s then Some s else None
  | None => None
  end.
Proof.
  intros Hb. set (l := orphans _ b).
  assert (∀ s, s ∈ l ↔ backend_get (sn_session_id s) b = Some s ∧ orphaned now table s = true) as Hl.
  { intros s. unfold l. by rewrite elem_of_orphans, orphaned_spec. }
  destruct (find_first _ l) as [s|] eqn:Ef.
  - apply find_first_Some in Ef as [[Hg Ho]%Hl <-%bool_decide_eq_true]. by rewrite Hg, Ho.
  - rewrite find_first_None in Ef. destruct (backend_get k b) as [s|] eqn:Eg; [|done].
    destruct (orphaned now table s) eqn:Eo; [|done].
    assert (sn_session_id s = k) as Hid by by apply (get_key k s b).
    specialize (Ef s). rewrite Hl, Hid in Ef. specialize (Ef (conj Eg Eo)).
    by rewrite bool_decide_eq_false in Ef.
Qed.

Lemma detect_expired_fresh now (t : list InstanceInfo) : Forall (λ r, is_stale ttl now r = false) t →
  detect_expired ttl now t = ([], t).
Proof.
  intros Ht. unfold detect_expired. replace (filter _ t) with (@nil InstanceInfo).
  - f_equal. rewrite <-(list_fmap_id t) at 2. apply list_fmap_ext. intros. rewrite decide_False; [done|set_solver].
  - induction Ht as [|r t Hr Ht IH]; [done|]. by rewrite filter_cons_False by congruence.
Qed.

End sessions.
End RecoveryFacts.

(** ** An example: two stale instances, one alive *)
Module RecoveryExample.
Import InstanceRegistry CrossInstanceRecovery RecoveryFacts.

Definition sec (z : Z) : float := PyFloat.of_Z z.
Definition table : list InstanceInfo :=
  [mkInstance "i1" "h" (sec 0) (sec 10) "alive"; mkInstance "i2" "h" (sec 0) (sec 95) "alive";
   mkInstance "i3" "h" (sec 0) (sec 20) "alive"].
Definition session (k i state : string) : SessionRecord :=
  mkSessionRecord k i state VNone (sec 1) (sec 2) None.
Definition sessions : dict SessionRecord :=
  foldl (λ b s, backend_put s b) []
    [session "s1" "i1" "running"; session "s2" "i1" "done"; session "s3" "i2" "running";
     session "s4" "i3" "pending"].

Lemma sessions_ok : backend_ok sessions.
Proof. apply (puts_ok (B := dict SessionRecord) id). split; [set_solver|constructor]. Qed.


(** A sweep that stops after the instances are marked (the process ends, or the
    backend raises) leaves their sessions behind for good: later sweeps select
    instances still marked alive only. *)
Example marked_instance_is_forgotten :
  let marked := (detect_expired (sec 30) (sec 100) table).2 in
  let '(res, (_, b')) := recover (sec 30) "r" (sec 100) (sec 101) (sec 102) marked sessions in
  res = mkRecoveryResult [] [] [] (sec 102) ∧ b' = sessions.
Proof. by vm_compute. Qed.

(** An instance that reports again after a sweep is alive, but its sessions stay
    with the instance that took them over. *)
Example returning_instance :
  let '(_, (table', b')) := recover (sec 30) "r" (sec 100) (sec 101) (sec 102) table sessions in
  let '(found, table'') := heartbeat (sec 103) "i1" table' in
  found = true ∧ (in_status <$> get "i1" table'') = Some "alive" ∧
  (sn_instance_id <$> backend_get "s1" b') = Some "r".
Proof. by vm_compute. Qed.
End RecoveryExample.
