(* ===== verification/Sqlite.v ===== *)
(** * SQLite backends (src/src/persistence/sqlite_backend.py, schema.py, state_tracker.py)

    A table is its rows in the order of their row numbers; [INSERT OR REPLACE]
    removes the row of the same primary key and adds the new row at the end.
    Every call is one statement (or two) and a commit.  Values and payloads are
    stored as JSON texts.

    The engine enters through the cells it keeps: [real_cell f] is what a REAL
    column gives back for the float [f], [None] for NULL. *)
From Stdlib Require Import Ascii.
From S2P Require Import Prelude PyFloat PyValue Persistence ConfigCenter PySort PyFormat Json JsonFacts SessionRecovery.
Local Open Scope Z_scope.

(** ** Tables *)
Module Table.
Section table.
Context {R Row K : Type} `{EqDecision K}.
Context (row_key : Row → K) (bind : R → res Row) (row_to_record : Row → res R).
Implicit Types t : list Row.

Definition replace (w : Row) t : list Row := filter (λ w', row_key w' ≠ row_key w) t ++ [w].
(** [SELECT ... WHERE key = ?], [fetchone] *)
Definition get (k : K) t : res (option R) :=
  match find_first (λ w, bool_decide (row_key w = k)) t with
  | None => Ok None
  | Some w => r ← row_to_record w; Ok (Some r)
  end.
Definition put (r : R) : st (list Row) unit := λ t,
  match bind r with Ok w => (Ok tt, replace w t) | Err e => (Err e, t) end.
(** [DELETE ... WHERE key = ?]; [rowcount > 0] *)
Definition delete (k : K) : st (list Row) bool := λ t,
  (Ok (existsb (λ w, bool_decide (row_key w = k)) t), filter (λ w, row_key w ≠ k) t).
(** [[self._row_to_record(r) for r in rows]] *)
Definition select (p : Row → bool) t : res (list R) := mapM row_to_record (filter (λ w, p w = true) t).
Definition list_all t : res (list R) := mapM row_to_record t.
Definition clear t : list Row := [].
End table.
End Table.

(** ** Cells *)
Module Cell.
(** A text with a surrogate cannot be encoded. *)
Fixpoint has_surrogate (s : string) : bool :=
  match s with
  | String a ((String b _) as s') => ((Json.code a =? 237) && (160 <=? Json.code b)) || has_surrogate s'
  | _ => false
  end.
Definition text (s : string) : res string :=
  if has_surrogate s then Err (Raised "UnicodeEncodeError" "surrogates not allowed") else Ok s.
(** INTEGER is 64 bits wide. *)
Definition integer (z : Z) : res Z :=
  if (- 2 ^ 63 <=? z) && (z <? 2 ^ 63) then Ok z
  else Err (OverflowError "Python int too large to convert to SQLite INTEGER").
Definition not_null {A} (column : string) (c : option A) : res A :=
  match c with
  | Some a => Ok a
  | None => Err (Raised "IntegrityError" ("NOT NULL constraint failed: " +:+ column))
  end.
End Cell.

(** ** Rows: the record with its value as a text *)
Record MemoryRow := mkMemoryRow {
  mw_key : string; mw_value : string; mw_version : Z; mw_writer_role : string;
  mw_updated_at : float; mw_expires_at : option float;
}.
Record ConfigRow := mkConfigRow {
  cw_namespace : string; cw_key : string; cw_value : string; cw_version : Z;
  cw_config_type : string; cw_updated_at : float; cw_description : string;
}.
Record SessionRow := mkSessionRow {
  sw_session_id : string; sw_instance_id : string; sw_state : string; sw_payload : string;
  sw_created_at : float; sw_updated_at : float; sw_expires_at : option float;
}.

(** A REAL column declared NOT NULL, and one that may be NULL. *)
Definition real (real_cell : float → option float) (column : string) (f : float) : res float :=
  Cell.not_null column (real_cell f).
Definition nullable (real_cell : float → option float) (f : option float) : option float := f ≫= real_cell.

Module SQLiteSharedMemoryBackend.
Section backend.
Context (real_cell : float → option float).
(** The parameters in the order they are bound, then the constraints. *)
Definition bind (r : MemoryRecord) : res MemoryRow :=
  key ← Cell.text (mr_key r);
  value ← Cell.text (Serialization.serialize (mr_value r));
  version ← Cell.integer (mr_version r);
  role ← Cell.text (mr_writer_role r);
  updated ← real real_cell "shared_memory.updated_at" (mr_updated_at r);
  Ok (mkMemoryRow key value version role updated (nullable real_cell (mr_expires_at r))).
Definition row_to_record (w : MemoryRow) : res MemoryRecord :=
  value ← Serialization.deserialize (Some (mw_value w));
  Ok (mkMemoryRecord (mw_key w) value (mw_version w) (mw_writer_role w) (mw_updated_at w) (mw_expires_at w)).
Definition get (key : string) t := key ← Cell.text key; Table.get mw_key row_to_record key t.
Definition put := Table.put mw_key bind.
Definition delete (key : string) := st_lift (Cell.text key) ≫= Table.delete mw_key.
Definition list_all := Table.list_all row_to_record.
Definition clear := Table.clear (Row := MemoryRow).
End backend.
End SQLiteSharedMemoryBackend.

Module SQLiteCircuitStateBackend.
Section backend.
Context (real_cell : float → option float).
(** A row holds the record's own fields. *)
Definition bind (r : CircuitRecord) : res CircuitRecord :=
  name ← Cell.text (cr_tool_name r);
  state ← Cell.text (cr_state r);
  failures ← Cell.integer (cr_failure_count r);
  successes ← Cell.integer (cr_success_count r);
  half_open ← Cell.integer (cr_half_open_successes r);
  calls ← Cell.integer (cr_total_calls r);
  total_failures ← Cell.integer (cr_total_failures r);
  rejections ← Cell.integer (cr_total_rejections r);
  last_failure ← real real_cell "circuit_state.last_failure_time" (cr_last_failure_time r);
  last_change ← real real_cell "circuit_state.last_state_change" (cr_last_state_change r);
  Ok (mkCircuitRecord name state failures successes half_open last_failure last_change calls
        total_failures rejections).
Definition row_to_record (w : CircuitRecord) : res CircuitRecord := Ok w.
Definition get (tool_name : string) t := name ← Cell.text tool_name; Table.get cr_tool_name row_to_record name t.
Definition put := Table.put cr_tool_name bind.
Definition delete (tool_name : string) := st_lift (Cell.text tool_name) ≫= Table.delete cr_tool_name.
Definition list_all := Table.list_all row_to_record.
Definition clear := Table.clear (Row := CircuitRecord).
End backend.
End SQLiteCircuitStateBackend.

Module SQLiteConfigBackend.
Section backend.
Context (real_cell : float → option float).
(** The tables [config_entries] and [config_history]; the latter keeps every row
    in the order of its number. *)
Record tables := mkTables { ct_entries : list ConfigRow; ct_history : list ConfigRow }.
Definition bind (r : ConfigRecord) : res ConfigRow :=
  namespace ← Cell.text (cf_namespace r);
  key ← Cell.text (cf_key r);
  value ← Cell.text (Serialization.serialize (cf_value r));
  version ← Cell.integer (cf_version r);
  type_ ← Cell.text (cf_config_type r);
  description ← Cell.text (cf_description r);
  updated ← real real_cell "config_entries.updated_at" (cf_updated_at r);
  Ok (mkConfigRow namespace key value version type_ updated description).
Definition row_to_record (w : ConfigRow) : res ConfigRecord :=
  value ← Serialization.deserialize (Some (cw_value w));
  Ok (mkConfigRecord (cw_namespace w) (cw_key w) value (cw_version w) (cw_config_type w)
        (cw_updated_at w) (cw_description w)).
Definition row_key (w : ConfigRow) : string * string := (cw_namespace w, cw_key w).
Definition get (namespace key : string) (c : tables) : res (option ConfigRecord) :=
  namespace ← Cell.text namespace; key ← Cell.text key;
  Table.get row_key row_to_record (namespace, key) (ct_entries c).
Definition put (r : ConfigRecord) : st tables unit := λ c,
  match bind r with
  | Ok w => (Ok tt, mkTables (Table.replace row_key w (ct_entries c)) (ct_history c ++ [w]))
  | Err e => (Err e, c)
  end.
Definition delete (namespace key : string) : st tables bool :=
  namespace ← st_lift (Cell.text namespace); key ← st_lift (Cell.text key);
  zoom ct_entries (λ t c, mkTables t (ct_history c)) (Table.delete row_key (namespace, key)).
Definition list_by_namespace (namespace : string) (c : tables) : res (list ConfigRecord) :=
  namespace ← Cell.text namespace;
  Table.select row_to_record (λ w, bool_decide (cw_namespace w = namespace)) (ct_entries c).
Definition list_all (c : tables) : res (list ConfigRecord) := Table.list_all row_to_record (ct_entries c).
Definition get_history (namespace key : string) (c : tables) : res (list ConfigRecord) :=
  namespace ← Cell.text namespace; key ← Cell.text key;
  Table.select row_to_record (λ w, bool_decide (cw_namespace w = namespace) && bool_decide (cw_key w = key))
    (ct_history c).
Definition clear (c : tables) : tables := mkTables [] [].
End backend.
End SQLiteConfigBackend.

Module SQLiteSessionStoreBackend.
Section backend.
Context (real_cell : float → option float).
Definition bind (r : SessionRecord) : res SessionRow :=
  id ← Cell.text (sn_session_id r);
  instance ← Cell.text (sn_instance_id r);
  state ← Cell.text (sn_state r);
  payload ← Cell.text (Serialization.serialize (sn_payload r));
  created ← real real_cell "sessions.created_at" (sn_created_at r);
  updated ← real real_cell "sessions.updated_at" (sn_updated_at r);
  Ok (mkSessionRow id instance state payload created updated (nullable real_cell (sn_expires_at r))).
Definition row_to_record (w : SessionRow) : res SessionRecord :=
  payload ← Serialization.deserialize (Some (sw_payload w));
  Ok (mkSessionRecord (sw_session_id w) (sw_instance_id w) (sw_state w) payload (sw_created_at w)
        (sw_updated_at w) (sw_expires_at w)).
Definition get (session_id : string) t := id ← Cell.text session_id; Table.get sw_session_id row_to_record id t.
Definition put := Table.put sw_session_id bind.
Definition delete (session_id : string) := st_lift (Cell.text session_id) ≫= Table.delete sw_session_id.
Definition list_all := Table.list_all row_to_record.
Definition list_by_instance (instance_id : string) t :=
  id ← Cell.text instance_id; Table.select row_to_record (λ w, bool_decide (sw_instance_id w = id)) t.
Definition list_by_state (state : string) t :=
  state ← Cell.text state; Table.select row_to_record (λ w, bool_decide (sw_state w = state)) t.
Definition clear := Table.clear (Row := SessionRow).
End backend.
End SQLiteSessionStoreBackend.

(** ** The table refines the dictionary *)
Module TableFacts.
Section facts.
Context {R Row K : Type} `{EqDecision K}.
Context (row_key : Row → K) (bind : R → res Row) (row_to_record : Row → res R) (key : R → K).
(** Keys of the dictionary: injective where [good]. *)
Context (enc : K → string) (good : K → Prop).
Context (enc_inj : ∀ k k', good k → good k' → enc k = enc k' → k = k').
#[local] Set Default Proof Using "Type".

Definition stores (w : Row) (r : R) : Prop := row_to_record w = Ok r ∧ row_key w = key r.
(** A record that can be stored. *)
Definition storable (r : R) : Prop := good (key r) ∧ ∃ w, bind r = Ok w ∧ stores w r.
Definition refines (t : list Row) (b : dict R) : Prop :=
  ∃ l, Forall2 stores t l ∧ l ≡ₚ InMemory.list_all b ∧ keyed (enc ∘ key) b ∧ Forall (good ∘ key) l.

Lemma mapM_Ok t l : Forall2 stores t l → mapM row_to_record t = Ok l.
Proof. induction 1 as [|w r t l [Hw _] _ IH]; [done|]. simpl. by rewrite Hw, IH. Qed.

Lemma ddelete_fresh {A} k (d : dict A) : k ∉ dkeys d → ddelete k d = d.
Proof.
  induction d as [|[k' v] d IH]; [done|]. rewrite dkeys_cons, not_elem_of_cons. intros [Hne Hk]. cbn [ddelete].
  rewrite decide_False by done. by rewrite IH.
Qed.
Lemma dinsert_perm {A} k (v : A) d : NoDup (dkeys d) → dinsert k v d ≡ₚ ddelete k d ++ [(k, v)].
Proof.
  induction d as [|[k' v'] d IH]; [done|]. rewrite dkeys_cons. intros [Hni Hnd]%NoDup_cons. cbn [dinsert ddelete].
  case_decide as E.
  - subst k'. rewrite ddelete_fresh by done. by rewrite (comm (++)).
  - by rewrite IH.
Qed.

Lemma values_filter {A} (P : A → Prop) `{!∀ x, Decision (P x)} k (d : dict A) :
  (∀ kv, kv ∈ d → kv.1 ≠ k ↔ P kv.2) → (filter (λ kv, kv.1 ≠ k) d).*2 = filter P d.*2.
Proof.
  induction d as [|kv d IH]; intros Hd; [done|]. rewrite fmap_cons, !filter_cons.
  assert (kv.1 ≠ k ↔ P kv.2) by (apply Hd; by left).
  rewrite <-IH by (intros kv' Hin; apply Hd; by right). repeat case_decide; (done || naive_solver).
Qed.

Lemma refines_empty : refines [] [].
Proof. exists []. repeat split; try constructor. intros k r []%elem_of_nil. Qed.

(** The record under a key, on both sides. *)
Lemma refines_lookup t b l k r : Forall2 stores t l → l ≡ₚ InMemory.list_all b → keyed (enc ∘ key) b →
  Forall (good ∘ key) l → good k → (r ∈ l ∧ key r = k ↔ dlookup (enc k) b = Some r).
Proof using enc_inj.
  intros Ht Hl [Hk Hnd] Hg Hgk. rewrite <-elem_of_dlookup by done. rewrite Hl. unfold InMemory.list_all.
  rewrite list_elem_of_fmap. split.
  - intros [([k' r'] & -> & Hin) <-]. simpl in *. by rewrite (Hk _ _ Hin) in Hin.
  - intros Hin. split; [by exists (enc k, r)|]. apply enc_inj; [|done|by rewrite (Hk _ _ Hin)].
    rewrite Forall_forall in Hg. apply Hg. rewrite Hl. by apply (list_elem_of_fmap_2 snd) in Hin.
Qed.

Lemma refines_get t b k : refines t b → good k →
  Table.get row_key row_to_record k t = Ok (dlookup (enc k) b).
Proof using enc_inj.
  intros (l & Ht & Hl & Hk & Hg) Hgk. unfold Table.get.
  destruct (find_first _ t) as [w|] eqn:Ef.
  - apply find_first_Some in Ef as [Hw <-%bool_decide_eq_true].
    apply list_elem_of_lookup in Hw as [i Hi]. destruct (Forall2_lookup_l _ _ _ _ _ Ht Hi) as (r & Hr & Hdec & Hkey).
    rewrite Hdec. cbn [mbind res_bind]. f_equal. symmetry. eapply refines_lookup; [done..|].
    split; [by eapply list_elem_of_lookup_2|done].
  - rewrite find_first_None in Ef. destruct (dlookup (enc k) b) as [r|] eqn:El; [|done].
    apply (refines_lookup t b l) in El as [Hr <-]; [|done..].
    apply list_elem_of_lookup in Hr as [i Hi]. destruct (Forall2_lookup_r _ _ _ _ _ Ht Hi) as (w & Hw & _ & Hkey).
    apply list_elem_of_lookup_2, Ef in Hw. by rewrite bool_decide_eq_false, Hkey in Hw.
Qed.

(** Removing a key, on both sides. *)
Lemma refines_remove t b k : refines t b → good k →
  refines (filter (λ w, row_key w ≠ k) t) (ddelete (enc k) b).
Proof using enc_inj.
  intros (l & Ht & Hl & [Hk Hnd] & Hg) Hgk. exists (filter (λ r, key r ≠ k) l). split_and!.
  - apply Forall2_filter; [|done]. intros w r [_ ->]. done.
  - rewrite Hl. unfold InMemory.list_all. rewrite ddelete_filter, (values_filter (λ r, key r ≠ k)); [done|].
    intros [k' r] Hin. cbn [fst snd]. rewrite (Hk _ _ Hin). unfold compose.
    assert (good (key r)) as Hr.
    { rewrite Forall_forall in Hg. apply Hg. rewrite Hl. by apply (list_elem_of_fmap_2 snd) in Hin. }
    split; [congruence|]. intros Hne He. by apply Hne, enc_inj.
  - split; [|by apply NoDup_ddelete]. intros k' r Hin%elem_of_ddelete. by apply Hk.
  - rewrite Forall_forall in *. intros r [_ Hr]%list_elem_of_filter. by apply Hg.
Qed.

Lemma refines_put t b r : refines t b → storable r →
  Table.put row_key bind r t = (Ok tt, (Table.put row_key bind r t).2) ∧
  refines (Table.put row_key bind r t).2 (dinsert (enc (key r)) r b).
Proof using enc_inj.
  intros Hb (Hg & w & Hw & Hst). unfold Table.put. rewrite Hw. split; [done|]. cbn [snd]. unfold Table.replace.
  assert (row_key w = key r) as Hkey by apply Hst. rewrite Hkey.
  destruct (refines_remove t b (key r) Hb Hg) as (l & Ht & Hl & [Hk Hnd] & Hgl).
  destruct Hb as (_ & _ & _ & [Hk' Hnd'] & _). exists (l ++ [r]). split_and!.
  - apply Forall2_app; [done|]. constructor; [done|constructor].
  - unfold InMemory.list_all in *. by rewrite dinsert_perm, fmap_app, Hl.
  - split; [|by apply dinsert_NoDup]. intros k' r' [[= -> ->]|Hin]%elem_of_dinsert; [done|by apply Hk'].
  - apply Forall_app. split; [done|]. constructor; [done|constructor].
Qed.

Lemma refines_delete t b k : refines t b → good k →
  (Table.delete row_key k t).1 = Ok (dmem (enc k) b) ∧
  refines (Table.delete row_key k t).2 (InMemory.delete (enc k) b).2.
Proof using enc_inj.
  intros Hb Hg. split; [|rewrite InMemory.delete_eq; by apply refines_remove].
  pose proof (refines_get t b k Hb Hg) as Hget. simpl. f_equal. unfold Table.get in Hget. unfold dmem.
  destruct (find_first _ t) as [w|] eqn:Ef.
  - apply find_first_Some in Ef as [Hin Hw].
    replace (existsb _ t) with true; [|symmetry; apply existsb_exists; exists w; by rewrite <-list_elem_of_In].
    destruct (row_to_record w); [|done]. injection Hget as <-. done.
  - injection Hget as <-. apply not_true_iff_false. intros (w & Hin%list_elem_of_In & Hw)%existsb_exists.
    rewrite find_first_None in Ef. by rewrite (Ef w) in Hw.
Qed.

Lemma refines_select (p : Row → bool) (q : R → bool) t b : refines t b → (∀ w r, stores w r → p w = q r) →
  ∃ l, Table.select row_to_record p t = Ok l ∧ l ≡ₚ InMemory.list_by q b.
Proof.
  intros (l & Ht & Hl & _) Hpq. exists (filter (λ r, q r = true) l). split.
  - apply mapM_Ok. apply Forall2_filter; [|done]. intros w r Hw. by rewrite (Hpq w r Hw).
  - unfold InMemory.list_by. by rewrite Hl.
Qed.
Lemma refines_list_all t b : refines t b → ∃ l, Table.list_all row_to_record t = Ok l ∧ l ≡ₚ InMemory.list_all b.
Proof. intros (l & Ht & Hl & _). exists l. split; [by apply mapM_Ok|done]. Qed.
End facts.
End TableFacts.

(** ** What can be stored *)
Module Storable.
Definition clean (s : string) : bool := negb (Cell.has_surrogate s).
Definition fits64 (z : Z) : bool := (- 2 ^ 63 <=? z) && (z <? 2 ^ 63).
(** A time: neither NaN nor negative zero. *)
Definition plain (f : float) : bool := negb (PyFloat.is_nan f) && negb (bool_decide (f = S754_zero true)).
Definition plain_opt (f : option float) : bool := from_option plain true f.
Definition json_text (v : pyval) : bool :=
  JsonRoundTrip.json_ok v && clean (Serialization.serialize v).

Definition memory (r : MemoryRecord) : bool :=
  clean (mr_key r) && json_text (mr_value r) && fits64 (mr_version r) && clean (mr_writer_role r) &&
  plain (mr_updated_at r) && plain_opt (mr_expires_at r).
Definition circuit (r : CircuitRecord) : bool :=
  clean (cr_tool_name r) && clean (cr_state r) && fits64 (cr_failure_count r) && fits64 (cr_success_count r) &&
  fits64 (cr_half_open_successes r) && fits64 (cr_total_calls r) && fits64 (cr_total_failures r) &&
  fits64 (cr_total_rejections r) && plain (cr_last_failure_time r) && plain (cr_last_state_change r).
Definition config (r : ConfigRecord) : bool :=
  clean (cf_namespace r) && clean (cf_key r) && json_text (cf_value r) && fits64 (cf_version r) &&
  clean (cf_config_type r) && clean (cf_description r) && plain (cf_updated_at r).
Definition session (r : SessionRecord) : bool :=
  clean (sn_session_id r) && clean (sn_instance_id r) && clean (sn_state r) && json_text (sn_payload r) &&
  plain (sn_created_at r) && plain (sn_updated_at r) && plain_opt (sn_expires_at r).

Lemma clean_text s : clean s = true → Cell.text s = Ok s.
Proof. unfold clean, Cell.text. by destruct (Cell.has_surrogate s). Qed.
Lemma fits64_integer z : fits64 z = true → Cell.integer z = Ok z.
Proof. unfold fits64, Cell.integer. by intros ->. Qed.
Lemma json_text_reads v : json_text v = true →
  Cell.text (Serialization.serialize v) = Ok (Serialization.serialize v) ∧
  Serialization.deserialize (Some (Serialization.serialize v)) = Ok v.
Proof. intros [Hv Hc]%andb_true_iff. split; [by apply clean_text|by apply JsonRoundTrip.loads_dumps]. Qed.

Section cells.
Context (real_cell : float → option float).
(** What a REAL column keeps. *)
Definition keeps_reals : Prop := ∀ f, plain f = true → real_cell f = Some f.
Context (Hreal : keeps_reals).

Lemma plain_real column f : plain f = true → real real_cell column f = Ok f.
Proof using Hreal. intros Hf. unfold real. by rewrite Hreal. Qed.
Lemma plain_nullable f : plain_opt f = true → nullable real_cell f = f.
Proof using Hreal. destruct f as [f|]; [|done]. apply Hreal. Qed.
End cells.

(** Splits a condition and rewrites every binding with its part. *)
Ltac bind_cells Hreal :=
  rewrite !andb_true_iff; intros; destruct_and?;
  repeat match goal with
  | H : clean _ = true |- _ => rewrite (clean_text _ H); clear H
  | H : fits64 _ = true |- _ => rewrite (fits64_integer _ H); clear H
  | H : plain _ = true |- _ => rewrite (plain_real _ Hreal _ _ H); clear H
  | H : plain_opt _ = true |- _ => rewrite (plain_nullable _ Hreal _ H); clear H
  | H : json_text _ = true |- _ => destruct (json_text_reads _ H) as [? ?]; clear H
  end.

Ltac stored Hreal :=
  unfold TableFacts.storable, TableFacts.stores;
  cbn -[Cell.text Cell.integer real nullable Serialization.serialize Serialization.deserialize
        clean fits64 plain plain_opt json_text];
  bind_cells Hreal; (split; [done|]);
  repeat match goal with H : Cell.text _ = Ok _ |- _ => rewrite H; clear H end;
  eexists; (split; [reflexivity|]);
  cbn -[Serialization.serialize Serialization.deserialize];
  repeat match goal with H : Serialization.deserialize _ = Ok _ |- _ => rewrite H; clear H end;
  done.

Section records.
Context (real_cell : float → option float) (Hreal : keeps_reals real_cell).
#[local] Set Default Proof Using "Type*".

Lemma memory_storable r : memory r = true →
  TableFacts.storable mw_key (SQLiteSharedMemoryBackend.bind real_cell) SQLiteSharedMemoryBackend.row_to_record
    mr_key (λ _, True) r.
Proof. unfold memory, SQLiteSharedMemoryBackend.bind, SQLiteSharedMemoryBackend.row_to_record. destruct r. stored Hreal. Qed.
Lemma circuit_storable r : circuit r = true →
  TableFacts.storable cr_tool_name (SQLiteCircuitStateBackend.bind real_cell) SQLiteCircuitStateBackend.row_to_record
    cr_tool_name (λ _, True) r.
Proof. unfold circuit, SQLiteCircuitStateBackend.bind, SQLiteCircuitStateBackend.row_to_record. destruct r. stored Hreal. Qed.
Lemma session_storable r : session r = true →
  TableFacts.storable sw_session_id (SQLiteSessionStoreBackend.bind real_cell) SQLiteSessionStoreBackend.row_to_record
    sn_session_id (λ _, True) r.
Proof. unfold session, SQLiteSessionStoreBackend.bind, SQLiteSessionStoreBackend.row_to_record. destruct r. stored Hreal. Qed.
Lemma config_storable r (good : string * string → Prop) : config r = true → good (cf_namespace r, cf_key r) →
  TableFacts.storable SQLiteConfigBackend.row_key (SQLiteConfigBackend.bind real_cell) SQLiteConfigBackend.row_to_record
    (λ r, (cf_namespace r, cf_key r)) good r.
Proof.
  intros Hr Hg. revert Hr. unfold config, SQLiteConfigBackend.bind, SQLiteConfigBackend.row_to_record.
  destruct r. stored Hreal.
Qed.
End records.
End Storable.

(** ** Runs of calls on the two kinds of backends *)
Inductive call (R : Type) :=
| CallPut (r : R)
| CallDelete (k : string)
| CallClear.
Arguments CallPut {R}. Arguments CallDelete {R}. Arguments CallClear {R}.

(** The operations of a SQLite backend with one table. *)
Record sql_backend (R Row : Type) := mkSqlBackend {
  sb_get : string → list Row → res (option R);
  sb_put : R → st (list Row) unit;
  sb_delete : string → st (list Row) bool;
  sb_list_all : list Row → res (list R);
  sb_clear : list Row → list Row;
}.
Arguments sb_get {R Row}. Arguments sb_put {R Row}. Arguments sb_delete {R Row}.
Arguments sb_list_all {R Row}. Arguments sb_clear {R Row}.

Definition sql_memory (rc : float → option float) : sql_backend MemoryRecord MemoryRow :=
  {| sb_get := SQLiteSharedMemoryBackend.get; sb_put := SQLiteSharedMemoryBackend.put rc;
     sb_delete := SQLiteSharedMemoryBackend.delete; sb_list_all := SQLiteSharedMemoryBackend.list_all;
     sb_clear := SQLiteSharedMemoryBackend.clear |}.
Definition sql_circuit (rc : float → option float) : sql_backend CircuitRecord CircuitRecord :=
  {| sb_get := SQLiteCircuitStateBackend.get; sb_put := SQLiteCircuitStateBackend.put rc;
     sb_delete := SQLiteCircuitStateBackend.delete; sb_list_all := SQLiteCircuitStateBackend.list_all;
     sb_clear := SQLiteCircuitStateBackend.clear |}.
Definition sql_session (rc : float → option float) : sql_backend SessionRecord SessionRow :=
  {| sb_get := SQLiteSessionStoreBackend.get; sb_put := SQLiteSessionStoreBackend.put rc;
     sb_delete := SQLiteSessionStoreBackend.delete; sb_list_all := SQLiteSessionStoreBackend.list_all;
     sb_clear := SQLiteSessionStoreBackend.clear |}.

Module BackendRuns.
Section runs.
Context {R Row : Type} (key : R → string) (sql : sql_backend R Row).

Definition sql_call (c : call R) : st (list Row) bool := λ t,
  match c with
  | CallPut r => (sb_put sql r ≫= λ _, mret true) t
  | CallDelete k => sb_delete sql k t
  | CallClear => (Ok true, sb_clear sql t)
  end.
Definition memory_call (c : call R) (b : dict R) : bool * dict R :=
  match c with
  | CallPut r => (true, InMemory.put key r b)
  | CallDelete k => InMemory.delete k b
  | CallClear => (true, InMemory.clear b)
  end.
Fixpoint run_sql (l : list (call R)) (t : list Row) : list (res bool) * list Row :=
  match l with
  | [] => ([], t)
  | c :: l => let '(a, t) := sql_call c t in let '(as_, t) := run_sql l t in (a :: as_, t)
  end.
Fixpoint run_memory (l : list (call R)) (b : dict R) : list bool * dict R :=
  match l with
  | [] => ([], b)
  | c :: l => let '(a, b) := memory_call c b in let '(as_, b) := run_memory l b in (a :: as_, b)
  end.

Definition call_ok (ok : R → bool) (c : call R) : bool :=
  match c with CallPut r => ok r | CallDelete k => Storable.clean k | CallClear => true end.

(** Every run of storable records answers alike, and leaves backends that hold
    the same records. *)
Definition agrees (ok : R → bool) : Prop := ∀ l, forallb (call_ok ok) l = true →
  let '(answers, t) := run_sql l [] in
  let '(answers', b) := run_memory l [] in
  answers = Ok <$> answers' ∧
  (∀ k, Storable.clean k = true → sb_get sql k t = Ok (InMemory.get k b)) ∧
  (∃ all, sb_list_all sql t = Ok all ∧ all ≡ₚ InMemory.list_all b).
End runs.

Section refinement.
Context {R Row : Type} (key : R → string) (sql : sql_backend R Row) (ok : R → bool).
Context (row_key : Row → string) (bind : R → res Row) (row_to_record : Row → res R).
Context (Hget : ∀ k t, sb_get sql k t = (k ← Cell.text k; Table.get row_key row_to_record k t)).
Context (Hput : ∀ r t, sb_put sql r t = Table.put row_key bind r t).
Context (Hdelete : ∀ k t, sb_delete sql k t = (st_lift (Cell.text k) ≫= Table.delete row_key) t).
Context (Hall : ∀ t, sb_list_all sql t = Table.list_all row_to_record t).
Context (Hclear : ∀ t, sb_clear sql t = []).
Context (Hok : ∀ r, ok r = true → TableFacts.storable row_key bind row_to_record key (λ _, True) r).
Abbreviation refines := (TableFacts.refines row_key row_to_record key id (λ _, True)).

Lemma call_refines c t b : refines t b → call_ok ok c = true →
  (sql_call sql c t).1 = Ok (memory_call key c b).1 ∧ refines (sql_call sql c t).2 (memory_call key c b).2.
Proof using Hput Hdelete Hclear Hok.
  intros Hr Hc. destruct c as [r|k|]; cbn [call_ok] in Hc; cbn [sql_call memory_call].
  - destruct (TableFacts.refines_put row_key bind row_to_record key id (λ _, True) ltac:(done) t b r Hr (Hok r Hc))
      as [Hp Hr']. unfold mbind, st_bind. rewrite Hput, Hp. done.
  - destruct (TableFacts.refines_delete row_key row_to_record key id (λ _, True) ltac:(done) t b k Hr I)
      as [Ha Hr']. rewrite Hdelete. unfold st_lift, mbind, st_bind. rewrite (Storable.clean_text k Hc).
    split; [|done]. rewrite Ha. unfold InMemory.delete, id. by destruct (dmem k b).
  - split; [done|]. rewrite Hclear. apply TableFacts.refines_empty.
Qed.

Lemma run_refines l : ∀ t b, refines t b → forallb (call_ok ok) l = true →
  (run_sql sql l t).1 = Ok <$> (run_memory key l b).1 ∧ refines (run_sql sql l t).2 (run_memory key l b).2.
Proof using Hput Hdelete Hclear Hok.
  induction l as [|c l IH]; intros t b Hr Hl; [done|]. apply andb_true_iff in Hl as [Hc Hl].
  destruct (call_refines c t b Hr Hc) as [Ha Hr']. cbn [run_sql run_memory].
  destruct (sql_call sql c t) as [a t'], (memory_call key c b) as [a' b']. cbn [fst snd] in *.
  destruct (IH t' b' Hr' Hl) as [Has Hr'']. subst a.
  destruct (run_sql sql l t'), (run_memory key l b'). cbn [fst snd] in *. split; [|done]. csimpl. by rewrite Has.
Qed.

Lemma backend_agrees : agrees key sql ok.
Proof using Hget Hput Hdelete Hall Hclear Hok.
  intros l Hl. destruct (run_refines l [] [] (TableFacts.refines_empty _ _ _ _ _) Hl) as [Ha Hr].
  destruct (run_sql sql l []) as [answers t], (run_memory key l []) as [answers' b]. cbn [fst snd] in *.
  split_and!; [done| |].
  - intros k Hk. rewrite Hget, (Storable.clean_text k Hk). cbn [mbind res_bind].
    apply (TableFacts.refines_get row_key row_to_record key id (λ _, True)); done.
  - rewrite Hall. by eapply TableFacts.refines_list_all.
Qed.
End refinement.
End BackendRuns.

(** C13: The SQLite backends are interchangeable with the in-memory ones: over an
    engine whose REAL columns keep ordinary times, any sequence of writes,
    deletions and clears of records that fit their columns gets the same answers
    from both, no call raises, and afterwards every key reads the same record,
    and listing everything, the sessions of an instance or those in a state
    gives the same records in some order. *)
Theorem sqlite_backends_refine real_cell : Storable.keeps_reals real_cell →
  BackendRuns.agrees mr_key (sql_memory real_cell) Storable.memory ∧
  BackendRuns.agrees cr_tool_name (sql_circuit real_cell) Storable.circuit ∧
  BackendRuns.agrees sn_session_id (sql_session real_cell) Storable.session ∧
  ∀ l, forallb (BackendRuns.call_ok Storable.session) l = true →
    let t := (BackendRuns.run_sql (sql_session real_cell) l []).2 in
    let b := (BackendRuns.run_memory sn_session_id l []).2 in
    ∀ k, Storable.clean k = true →
      (∃ r, SQLiteSessionStoreBackend.list_by_instance k t = Ok r ∧ r ≡ₚ list_by_instance k b) ∧
      (∃ r, SQLiteSessionStoreBackend.list_by_state k t = Ok r ∧ r ≡ₚ list_by_state k b).
Proof.
  intros Hreal. split_and!.
  - eapply BackendRuns.backend_agrees; [done..|]. by apply Storable.memory_storable.
  - eapply BackendRuns.backend_agrees; [done..|]. by apply Storable.circuit_storable.
  - eapply BackendRuns.backend_agrees; [done..|]. by apply Storable.session_storable.
  - intros l Hl t b k Hk.
    assert (TableFacts.refines sw_session_id SQLiteSessionStoreBackend.row_to_record sn_session_id id (λ _, True) t b) as Hr.
    { eapply (BackendRuns.run_refines sn_session_id (sql_session real_cell) Storable.session); [done..| |apply TableFacts.refines_empty|done].
      by apply Storable.session_storable. }
    assert (∀ w r, TableFacts.stores sw_session_id SQLiteSessionStoreBackend.row_to_record sn_session_id w r →
      sw_instance_id w = sn_instance_id r ∧ sw_state w = sn_state r) as Hst.
    { intros w r [Hw _]. unfold SQLiteSessionStoreBackend.row_to_record in Hw.
      destruct (Serialization.deserialize _); [|done]. by injection Hw as <-. }
    unfold SQLiteSessionStoreBackend.list_by_instance, SQLiteSessionStoreBackend.list_by_state.
    rewrite (Storable.clean_text k Hk). cbn [mbind res_bind].
    split; (eapply TableFacts.refines_select; [done|]); intros w r [Hi Hs]%Hst; by rewrite ?Hi, ?Hs.
Qed.

(** ** Configuration *)
Inductive config_call :=
| ConfigPut (r : ConfigRecord)
| ConfigDelete (namespace key : string)
| ConfigClear.

Module ConfigRuns.
Import SQLiteConfigBackend.
Section runs.
Context (real_cell : float → option float).

Definition sql_call (c : config_call) : st tables bool := λ t,
  match c with
  | ConfigPut r => (put real_cell r ≫= λ _, mret true) t
  | ConfigDelete n k => delete n k t
  | ConfigClear => (Ok true, clear t)
  end.
Definition memory_call (c : config_call) (b : InMemoryConfig.config_store) : bool * InMemoryConfig.config_store :=
  match c with
  | ConfigPut r => (true, InMemoryConfig.put r b)
  | ConfigDelete n k => InMemoryConfig.delete n k b
  | ConfigClear => (true, InMemoryConfig.clear b)
  end.
Fixpoint run_sql (l : list config_call) (t : tables) : list (res bool) * tables :=
  match l with
  | [] => ([], t)
  | c :: l => let '(a, t) := sql_call c t in let '(as_, t) := run_sql l t in (a :: as_, t)
  end.
Fixpoint run_memory (l : list config_call) (b : InMemoryConfig.config_store) :
    list bool * InMemoryConfig.config_store :=
  match l with
  | [] => ([], b)
  | c :: l => let '(a, b) := memory_call c b in let '(as_, b) := run_memory l b in (a :: as_, b)
  end.

(** Names that both kinds of backends keep apart: they can be encoded, and
    namespaces have no colon. *)
Definition names_ok (k : string * string) : Prop :=
  no_char colon k.1 ∧ Storable.clean k.1 = true ∧ Storable.clean k.2 = true.
Definition call_ok (c : config_call) : Prop :=
  match c with
  | ConfigPut r => Storable.config r = true ∧ no_char colon (cf_namespace r)
  | ConfigDelete n k => names_ok (n, k)
  | ConfigClear => True
  end.

Definition key (r : ConfigRecord) : string * string := (cf_namespace r, cf_key r).
Definition composite (k : string * string) : string := InMemoryConfig.composite_key k.1 k.2.
Lemma composite_inj k k' : names_ok k → names_ok k' → composite k = composite k' → k = k'.
Proof.
  destruct k, k'. intros (Hn & _) (Hn' & _) He. apply composite_key_inj in He as [??]; simpl in *; by f_equal.
Qed.

(** The history tables agree under every key. *)
Definition same_history (t : list ConfigRow) (h : dict (list ConfigRecord)) : Prop :=
  ∃ l, Forall2 (TableFacts.stores row_key row_to_record key) t l ∧ Forall (names_ok ∘ key) l ∧
    ∀ k, names_ok k → dget (composite k) [] h = filter (λ r, key r = k) l.
Definition refines (t : tables) (b : InMemoryConfig.config_store) : Prop :=
  TableFacts.refines row_key row_to_record key composite names_ok (ct_entries t) (InMemoryConfig.cs_store b) ∧
  same_history (ct_history t) (InMemoryConfig.cs_history b).

Lemma refines_init : refines (mkTables [] []) InMemoryConfig.init.
Proof.
  split; [apply TableFacts.refines_empty|]. exists []. repeat split; constructor.
Qed.

Lemma same_history_put t h r w : same_history t h → names_ok (key r) →
  TableFacts.stores row_key row_to_record key w r →
  same_history (t ++ [w]) (dinsert (composite (key r)) (dget (composite (key r)) [] h ++ [r]) h).
Proof.
  intros (l & Ht & Hg & Hh) Hr Hw. exists (l ++ [r]). split_and!.
  - apply Forall2_app; [done|]. constructor; [done|constructor].
  - apply Forall_app. by rewrite Forall_singleton.
  - intros k Hk. rewrite dget_dinsert, filter_app, filter_cons, filter_nil, (Hh _ Hr), (Hh k Hk).
    destruct (decide (key r = k)) as [<-|Hne]; [by rewrite decide_True|].
    rewrite decide_False; [by rewrite app_nil_r|]. intros He. by apply Hne, composite_inj.
Qed.

Context (Hreal : Storable.keeps_reals real_cell).

Lemma config_call_refines c t b : refines t b → call_ok c →
  (sql_call c t).1 = Ok (memory_call c b).1 ∧ refines (sql_call c t).2 (memory_call c b).2.
Proof using Hreal.
  intros [He Hh] Hc. destruct c as [r|n k|]; cbn [call_ok sql_call memory_call] in *.
  - destruct Hc as [Hok Hn].
    assert (names_ok (key r)) as Hr.
    { revert Hok. unfold Storable.config. rewrite !andb_true_iff. intros. destruct_and?. by split_and!. }
    pose proof (Storable.config_storable real_cell Hreal r names_ok Hok Hr) as Hst.
    destruct (TableFacts.refines_put row_key (bind real_cell) row_to_record key composite names_ok composite_inj
      _ _ _ He Hst) as [Hp Hr'].
    destruct Hst as (_ & w & Hw & Hs). unfold mbind, st_bind, put, Table.put in *. rewrite Hw in *.
    split; [done|]. split; [exact Hr'|]. by apply same_history_put.
  - destruct Hc as (Hn & Hcn & Hck). simpl in Hcn, Hck. unfold delete, st_lift, mbind, st_bind, zoom.
    rewrite (Storable.clean_text n Hcn), (Storable.clean_text k Hck).
    destruct (TableFacts.refines_delete row_key row_to_record key composite names_ok composite_inj
      _ _ (n, k) He) as [Ha Hr']; [done|].
    unfold InMemoryConfig.delete. unfold InMemory.delete, composite in Ha, Hr'. cbn [fst snd] in Ha, Hr'.
    cbn [fst snd Table.delete] in *. rewrite Ha.
    destruct (dmem _ (InMemoryConfig.cs_store b)); (split; [done|]); by split.
  - split; [done|]. apply refines_init.
Qed.

Lemma config_run_refines l : ∀ t b, refines t b → Forall call_ok l →
  (run_sql l t).1 = Ok <$> (run_memory l b).1 ∧ refines (run_sql l t).2 (run_memory l b).2.
Proof using Hreal.
  induction l as [|c l IH]; intros t b Hr Hl; [done|]. apply Forall_cons in Hl as [Hc Hl].
  destruct (config_call_refines c t b Hr Hc) as [Ha Hr']. cbn [run_sql run_memory].
  destruct (sql_call c t) as [a t'], (memory_call c b) as [a' b']. cbn [fst snd] in *.
  destruct (IH t' b' Hr' Hl) as [Has Hr'']. subst a.
  destruct (run_sql l t'), (run_memory l b'). cbn [fst snd] in *. split; [|done]. csimpl. by rewrite Has.
Qed.
End runs.
End ConfigRuns.

(** The SQLite configuration backend is interchangeable with the in-memory
    one as long as namespaces have no colon: any sequence of writes, deletions
    and clears gets the same answers from both without an exception, and
    afterwards every key has the same record and the same history in the same
    order, and a namespace the same entries in some order. *)
Theorem sqlite_config_refines real_cell l :
  Storable.keeps_reals real_cell → Forall ConfigRuns.call_ok l →
  let '(answers, t) := ConfigRuns.run_sql real_cell l (SQLiteConfigBackend.mkTables [] []) in
  let '(answers', b) := ConfigRuns.run_memory l InMemoryConfig.init in
  answers = Ok <$> answers' ∧
  ∀ n k, ConfigRuns.names_ok (n, k) →
    SQLiteConfigBackend.get n k t = Ok (InMemoryConfig.get n k b) ∧
    SQLiteConfigBackend.get_history n k t = Ok (InMemoryConfig.get_history n k b) ∧
    (∃ r, SQLiteConfigBackend.list_by_namespace n t = Ok r ∧ r ≡ₚ InMemoryConfig.list_by_namespace n b) ∧
    (∃ r, SQLiteConfigBackend.list_all t = Ok r ∧ r ≡ₚ InMemoryConfig.list_all b).
Proof.
  intros Hreal Hl. destruct (ConfigRuns.config_run_refines real_cell Hreal l _ _ ConfigRuns.refines_init Hl) as [Ha [He Hh]].
  destruct (ConfigRuns.run_sql _ l _) as [answers t], (ConfigRuns.run_memory l _) as [answers' b]. cbn [fst snd] in *.
  split; [done|]. intros n k Hnk. pose proof Hnk as (Hn & Hcn & Hck). cbn [fst snd] in Hcn, Hck.
  assert (∀ w r, TableFacts.stores SQLiteConfigBackend.row_key SQLiteConfigBackend.row_to_record ConfigRuns.key w r →
    cw_namespace w = cf_namespace r ∧ cw_key w = cf_key r) as Hst.
  { intros w r [_ Hk]. by injection Hk. }
  unfold SQLiteConfigBackend.get, SQLiteConfigBackend.get_history, SQLiteConfigBackend.list_by_namespace.
  rewrite (Storable.clean_text n Hcn), (Storable.clean_text k Hck). cbn [mbind res_bind]. split_and!.
  - apply (TableFacts.refines_get _ _ _ ConfigRuns.composite ConfigRuns.names_ok ConfigRuns.composite_inj _ _ (n, k) He Hnk).
  - destruct Hh as (h & Ht & _ & Hk). unfold InMemoryConfig.get_history.
    change (InMemoryConfig.composite_key n k) with (ConfigRuns.composite (n, k)). rewrite (Hk _ Hnk).
    apply (TableFacts.mapM_Ok SQLiteConfigBackend.row_key _ ConfigRuns.key). apply Forall2_filter; [|done].
    intros w r [-> ->]%Hst. rewrite andb_true_iff, !bool_decide_eq_true. unfold ConfigRuns.key.
    split; [by intros [-> ->]|by intros [= -> ->]].
  - apply (TableFacts.refines_select _ _ _ _ _ _ (λ r, bool_decide (cf_namespace r = n)) _ _ He).
    intros w r [-> _]%Hst. done.
  - apply (TableFacts.refines_list_all _ _ _ _ _ _ _ He).
Qed.

(** ** Schema and counters *)
Record database := mkDatabase {
  db_shared_memory : option (list MemoryRow);
  db_circuit_state : option (list CircuitRecord);
  db_config_entries : option (list ConfigRow);
  db_config_history : option (list ConfigRow);
  db_sessions : option (list SessionRow);
  db_instances : option (list InstanceInfo);
  db_schema_version : option (option Z);  (* the table, and the version in its row *)
}.
Record SystemStateSnapshot := mkSnapshot {
  ss_shared_memory_keys : Z;
  ss_circuit_breakers : Z;
  ss_config_entries : Z;
  ss_active_sessions : Z;
  ss_registered_instances : Z;
  ss_alive_instances : Z;
}.

Module SchemaManager.
Definition SCHEMA_VERSION : Z := 1.
(** [CREATE TABLE IF NOT EXISTS] *)
Definition create {A} (empty : A) (t : option A) : option A := Some (default empty t).
Definition create_tables (d : database) : database :=
  mkDatabase (create [] (db_shared_memory d)) (create [] (db_circuit_state d))
    (create [] (db_config_entries d)) (create [] (db_config_history d)) (create [] (db_sessions d))
    (create [] (db_instances d)) (create None (db_schema_version d)).
(** [None] also when the table is missing *)
Definition get_version (d : database) : option Z := mjoin (db_schema_version d).
Definition set_version (v : Z) (d : database) : database :=
  mkDatabase (db_shared_memory d) (db_circuit_state d) (db_config_entries d) (db_config_history d)
    (db_sessions d) (db_instances d) (Some (Some v)).
(** [_migrate]: [UPDATE schema_version ... WHERE id = 1] *)
Definition migrate (to_version : Z) (d : database) : database :=
  match get_version d with Some _ => set_version to_version d | None => d end.
(** [x or SCHEMA_VERSION] *)
Definition or_current (v : option Z) : Z :=
  match v with Some v => if v =? 0 then SCHEMA_VERSION else v | None => SCHEMA_VERSION end.
Definition ensure_schema (d : database) : Z * database :=
  let d := create_tables d in
  match get_version d with
  | None => (SCHEMA_VERSION, set_version SCHEMA_VERSION d)
  | Some current =>
      let d := if current <? SCHEMA_VERSION then migrate SCHEMA_VERSION d else d in
      (or_current (get_version d), d)
  end.

(** A second start changes nothing, and no start touches stored data. *)
Lemma ensure_schema_idempotent d :
  let '(v, d') := ensure_schema d in
  ensure_schema d' = (v, d') ∧ SCHEMA_VERSION ≤ v ∧
  (∀ t, db_sessions d = Some t → db_sessions d' = Some t) ∧
  (∀ t, db_shared_memory d = Some t → db_shared_memory d' = Some t) ∧
  (∀ t, db_config_entries d = Some t → db_config_entries d' = Some t).
Proof.
  destruct d as [m c e h s i [[v|]|]]; unfold ensure_schema; simpl; [|repeat split; intros; simplify_eq/=; done..].
  unfold get_version, mjoin, option_join. simpl. unfold SCHEMA_VERSION.
  destruct (v <? 1) eqn:E; simpl; rewrite ?E; simpl.
  - repeat split; intros; simplify_eq/=; done.
  - destruct (v =? 0) eqn:E0; [lia|]. rewrite ?E0. repeat split; intros; simplify_eq/=; try done. lia.
Qed.
End SchemaManager.

Module StateTracker.
Definition no_such_table {A} : res A := Err (Raised "OperationalError" "no such table").
(** [SELECT COUNT of rows FROM table WHERE p] *)
Definition count_where {A} (p : A → bool) (t : option (list A)) : res Z :=
  match t with Some t => Ok (Z.of_nat (length (filter (λ x, p x = true) t))) | None => no_such_table end.
Definition count {A} (t : option (list A)) : res Z := count_where (λ _, true) t.
Definition snapshot (heartbeat_ttl now : float) (d : database) : res SystemStateSnapshot :=
  let cutoff := PyFloat.sub now heartbeat_ttl in
  memory ← count (db_shared_memory d);
  circuits ← count (db_circuit_state d);
  configs ← count (db_config_entries d);
  active ← count_where (λ w, bool_decide (sw_state w ∈ ["running"; "pending"])) (db_sessions d);
  registered ← count (db_instances d);
  (* the cutoff is written into the statement: [inf] and [nan] are no numbers there *)
  alive ← (if PyFloat.is_finite cutoff
           then count_where (λ i, PyFloat.ge (in_last_heartbeat i) cutoff) (db_instances d)
           else Err (Raised "OperationalError" "no such column"));
  Ok (mkSnapshot memory circuits configs active registered alive).
End StateTracker.

(** ** Examples *)
Module SqliteExample.
(** An engine that stores NaN as NULL and drops the sign of zero. *)
Definition cells (f : float) : option float :=
  match f with S754_nan => None | S754_zero _ => Some PyFloat.zero | _ => Some f end.
Lemma cells_keep : Storable.keeps_reals cells.
Proof. intros [[]|[]| |[] m e] Hf; by vm_compute in Hf. Qed.

Definition sec (z : Z) : float := PyFloat.of_Z z.
Definition session (k state : string) : SessionRecord :=
  mkSessionRecord k "i1" state (VDict [("step", VInt 3); ("ratio", VFloat (PyFloat.ratio 1 10))]) (sec 1) (sec 2) None.
Definition session_calls : list (call SessionRecord) :=
  [CallPut (session "a" "running"); CallPut (session "b" "running"); CallPut (session "a" "done"); CallDelete "c"].

Lemma sqlite_backends_refine_witness :
  BackendRuns.agrees sn_session_id (sql_session cells) Storable.session ∧
  (∃ r, SQLiteSessionStoreBackend.list_by_state "done" (BackendRuns.run_sql (sql_session cells) session_calls []).2 = Ok r
     ∧ r ≡ₚ [session "a" "done"]).
Proof.
  pose proof (sqlite_backends_refine cells cells_keep) as (_ & _ & Ha & Hq). split; [exact Ha|].
  destruct (Hq session_calls (eq_refl _) "done" (eq_refl _)) as [_ (r & Hr & Hp)].
  exists r. split; [exact Hr|]. rewrite Hp. by vm_compute.
Defined.

Definition entry (n k : string) (z : Z) : ConfigRecord := mkConfigRecord n k (VInt z) z "json" (sec z) "".
Definition config_calls : list config_call :=
  [ConfigPut (entry "ns" "a:b" 1); ConfigPut (entry "ns" "a:b" 2); ConfigPut (entry "other" "k" 1);
   ConfigDelete "ns" "a:b"].
Lemma config_calls_ok : Forall ConfigRuns.call_ok config_calls.
Proof. repeat constructor; by vm_compute. Qed.

Lemma sqlite_config_refines_witness :
  let t := (ConfigRuns.run_sql cells config_calls (SQLiteConfigBackend.mkTables [] [])).2 in
  SQLiteConfigBackend.get "ns" "a:b" t = Ok None ∧
  SQLiteConfigBackend.get_history "ns" "a:b" t = Ok [entry "ns" "a:b" 1; entry "ns" "a:b" 2].
Proof.
  pose proof (sqlite_config_refines cells config_calls cells_keep config_calls_ok) as H.
  destruct (ConfigRuns.run_sql cells config_calls _) as [answers t].
  destruct (ConfigRuns.run_memory config_calls _) as [answers' b] eqn:Eb.
  assert (b = (ConfigRuns.run_memory config_calls InMemoryConfig.init).2) as -> by by rewrite Eb.
  destruct H as [_ H]. destruct (H "ns" "a:b") as (H1 & H2 & _); [repeat split; by vm_compute|].
  cbv zeta. cbn [snd]. split; [rewrite H1; by vm_compute|rewrite H2; by vm_compute].
Defined.

(** A record with a time of NaN is refused and leaves the table as it was; the
    in-memory backend accepts it. *)
Example nan_is_refused :
  SQLiteSharedMemoryBackend.put cells (mkMemoryRecord "k" VNone 1 "w" S754_nan None) [] =
    (Err (Raised "IntegrityError" "NOT NULL constraint failed: shared_memory.updated_at"), []) ∧
  dmem "k" (InMemory.put mr_key (mkMemoryRecord "k" VNone 1 "w" S754_nan None) []) = true.
Proof. by vm_compute. Qed.

(** Keys with a colon in the namespace are one entry in memory and two in the
    database. *)
Example colon_namespaces_differ :
  let calls := [ConfigPut (entry "a::b" "k" 1); ConfigPut (entry "a" "b::k" 2)] in
  length (InMemoryConfig.list_all (ConfigRuns.run_memory calls InMemoryConfig.init).2) = 1%nat ∧
  length (SQLiteConfigBackend.ct_entries (ConfigRuns.run_sql cells calls (SQLiteConfigBackend.mkTables [] [])).2) = 2%nat.
Proof. by vm_compute. Qed.

Example snapshot_counts :
  let d := (SchemaManager.ensure_schema (mkDatabase None None None None None None None)).2 in
  StateTracker.snapshot (sec 30) (sec 100) d = Ok (mkSnapshot 0 0 0 0 0 0) ∧
  StateTracker.snapshot (sec 30) (sec 100) (mkDatabase None None None None None None None) = StateTracker.no_such_table.
Proof. by vm_compute. Qed.
End SqliteExample.
