(* ===== verification/Prometheus.v ===== *)
(** * Prometheus exporter (src/src/observability/exporters/prometheus_exporter.py,
    interfaces.py)

    The client library is a parameter: a class of registries whose instruments
    are created under a name with label names, and updated; both may raise. *)
From S2P Require Import Prelude PyFloat PyValue PySort.
Local Open Scope Z_scope.

(** Counter, Gauge, Histogram *)
Inductive instrument := Counter | Gauge | Histogram.
#[global] Instance instrument_eq_dec : EqDecision instrument.
Proof. solve_decision. Defined.

(** [pc_instruments] lists what a registry holds, in the order of creation. *)
Class PrometheusClient (R H : Type) := {
  pc_create : instrument → string → string → list string → st R H;
  (** [h.labels( **labels)] or [h], then [inc], [set] or [observe] *)
  pc_update : instrument → H → option (dict string) → float → st R unit;
  pc_generate_latest : R → string;
  pc_instruments : R → list (instrument * string * list string);
}.
Class PrometheusLaws (R H : Type) `{PrometheusClient R H} := {
  create_adds i n doc ls r h r' : pc_create i n doc ls r = (Ok h, r') →
    pc_instruments r' = pc_instruments r ++ [(i, n, ls)];
  create_raises i n doc ls r e r' : pc_create i n doc ls r = (Err e, r') → pc_instruments r' = pc_instruments r;
  update_keeps i h labels v r : pc_instruments (pc_update i h labels v r).2 = pc_instruments r;
}.

Module PrometheusMetricsExporter.
Record exporter (R H : Type) := mkPrometheus {
  px_registry : R;
  px_counters : dict H;
  px_gauges : dict H;
  px_histograms : dict H;
}.
Arguments mkPrometheus {R H}. Arguments px_registry {R H}. Arguments px_counters {R H}.
Arguments px_gauges {R H}. Arguments px_histograms {R H}.

Section exporter.
Context {R H : Type} `{PrometheusClient R H}.

Definition new (registry : R) : exporter R H := mkPrometheus registry [] [] [].
Definition metrics (i : instrument) (x : exporter R H) : dict H :=
  match i with Counter => px_counters x | Gauge => px_gauges x | Histogram => px_histograms x end.
Definition set_metrics (i : instrument) (d : dict H) (x : exporter R H) : exporter R H :=
  match i with
  | Counter => mkPrometheus (px_registry x) d (px_gauges x) (px_histograms x)
  | Gauge => mkPrometheus (px_registry x) (px_counters x) d (px_histograms x)
  | Histogram => mkPrometheus (px_registry x) (px_counters x) (px_gauges x) d
  end.
Definition set_registry (r : R) (x : exporter R H) : exporter R H :=
  mkPrometheus r (px_counters x) (px_gauges x) (px_histograms x).
Definition with_registry {A} (m : st R A) : st (exporter R H) A := zoom px_registry set_registry m.

Definition kind_text (i : instrument) : string :=
  match i with Counter => "counter" | Gauge => "gauge" | Histogram => "histogram" end.
(** [sorted(labels.keys()) if labels else []] *)
Definition label_names (labels : option (dict string)) : list string := PySort.sort PySort.strlt (dkeys (default [] labels)).
(** [_get_or_create_counter] and its siblings *)
Definition get_or_create (i : instrument) (name : string) (labels : option (dict string)) : st (exporter R H) H := λ x,
  match dlookup name (metrics i x) with
  | Some h => (Ok h, x)
  | None =>
      (h ← with_registry (pc_create i name (name +:+ " " +:+ kind_text i) (label_names labels));
       st_modify (λ x, set_metrics i (dinsert name h (metrics i x)) x) ≫= λ _, mret h) x
  end.
(** [if labels: c.labels( **labels).inc(value) else: c.inc(value)] *)
Definition labels_given (labels : option (dict string)) : option (dict string) :=
  match labels with None | Some [] => None | l => l end.
Definition update (i : instrument) (name : string) (value : float) (labels : option (dict string)) : st (exporter R H) unit :=
  h ← get_or_create i name labels;
  with_registry (pc_update i h (labels_given labels) value).
Definition counter := update Counter.
Definition gauge := update Gauge.
Definition histogram := update Histogram.
Definition generate_latest (x : exporter R H) : string := pc_generate_latest (px_registry x).
Definition snapshot (x : exporter R H) : dict pyval := [("prometheus_text", VStr (generate_latest x))].

(** A call of the interface *)
Record metric_call := mkCall { mc_kind : instrument; mc_name : string; mc_value : float; mc_labels : option (dict string) }.
Definition call (c : metric_call) : st (exporter R H) unit := update (mc_kind c) (mc_name c) (mc_value c) (mc_labels c).
Definition run (l : list metric_call) (x : exporter R H) : exporter R H := foldl (λ x c, (call c x).2) x l.
End exporter.
Arguments metric_call : clear implicits.
End PrometheusMetricsExporter.

Module PrometheusFacts.
Import PrometheusMetricsExporter.
Section facts.
Context {R H : Type} `{PrometheusLaws R H}.
Implicit Types x : exporter R H.

(** The instruments the exporter created, on top of those the registry had *)
Record owns (before : list (instrument * string * list string)) (l : list metric_call) x
    (created : list (instrument * string * list string)) : Prop := {
  ow_registry : pc_instruments (px_registry x) = before ++ created;
  ow_once : NoDup created.*1;
  ow_known i n : (i, n) ∈ created.*1 ↔ is_Some (dlookup n (metrics i x));
  ow_labels i n ls : (i, n, ls) ∈ created → ∃ c, c ∈ l ∧ mc_kind c = i ∧ mc_name c = n ∧ label_names (mc_labels c) = ls;
}.

Lemma metrics_set i j d x : metrics j (set_metrics i d x) = if decide (i = j) then d else metrics j x.
Proof. by destruct i, j. Qed.
Lemma registry_set i d x : px_registry (set_metrics i d x) = px_registry x.
Proof. by destruct i. Qed.
Lemma metrics_registry i r x : metrics i (set_registry r x) = metrics i x.
Proof. by destruct i. Qed.

Lemma get_or_create_owns before l x created c : owns before l x created → c ∈ l →
  ∃ created', owns before l (get_or_create (mc_kind c) (mc_name c) (mc_labels c) x).2 created'.
Proof.
  intros [Hr Hnd Hk Hl] Hc. unfold get_or_create. destruct (dlookup (mc_name c) _) as [h|] eqn:E; [by exists created|].
  unfold mbind, st_bind, with_registry, zoom.
  destruct (pc_create _ _ _ _ (px_registry x)) as [[h|e] r] eqn:Ec.
  - apply create_adds in Ec. exists (created ++ [(mc_kind c, mc_name c, label_names (mc_labels c))]). cbn [snd]. split.
    + unfold st_modify, mret, st_ret. cbn [snd]. rewrite registry_set. cbn [px_registry set_registry].
      by rewrite Ec, Hr, (assoc_L (++)).
    + rewrite fmap_app. apply NoDup_app. split_and!; [done| |apply NoDup_singleton].
      intros [i n] Hin [= -> ->]%list_elem_of_singleton. apply Hk in Hin. rewrite E in Hin. by destruct Hin.
    + intros i n. unfold st_modify, mret, st_ret. cbn [snd]. rewrite fmap_app, elem_of_app, Hk, metrics_set, !metrics_registry.
      cbn [fmap list_fmap fst]. rewrite list_elem_of_singleton. case_decide as Ei.
      * subst i. destruct (decide (n = mc_name c)) as [->|Hne].
        { rewrite dlookup_dinsert_eq. split; [by eexists|by right]. }
        rewrite dlookup_dinsert_ne by done. split; [intros [?|[= ?]]; done|by left].
      * split; [intros [?|[= ??]]; [done|by subst]|by left].
    + intros i n ls [Hin|[= -> -> ->]%list_elem_of_singleton]%elem_of_app; [by apply Hl|]. by exists c.
  - apply create_raises in Ec. exists created. cbn [snd]. split; [cbn; by rewrite Ec|done| |done].
    intros i n. by rewrite Hk, metrics_registry.
Qed.
Lemma update_owns before l x created c : owns before l x created → c ∈ l → ∃ created', owns before l (call c x).2 created'.
Proof.
  intros Ho Hc. destruct (get_or_create_owns before l x created c Ho Hc) as [created' Ho'].
  unfold call, update, mbind, st_bind. destruct (get_or_create _ _ _ x) as [[h|e] x']; [|by exists created'].
  cbn [snd] in Ho'. unfold with_registry, zoom. pose proof (update_keeps (mc_kind c) h (labels_given (mc_labels c)) (mc_value c) (px_registry x')) as Hu.
  destruct (pc_update _ _ _ _ _) as [r reg]. cbn [snd] in *. exists created'. destruct Ho' as [Hr Hnd Hk Hl].
  split; [cbn; by rewrite Hu|done| |done]. intros i n. by rewrite Hk, metrics_registry.
Qed.

(** Every metric name creates one instrument of its kind, on first use: after any
    calls, whether they returned or raised, the registry holds what it held
    before and one instrument for each kind and name the exporter knows, with the
    label names of a call for it. *)
Theorem one_instrument_per_name registry l :
  let x := run l (new registry) in
  ∃ created, pc_instruments (px_registry x) = pc_instruments registry ++ created ∧ NoDup created.*1 ∧
    (∀ i n, (i, n) ∈ created.*1 ↔ is_Some (dlookup n (metrics i x))) ∧
    ∀ i n ls, (i, n, ls) ∈ created → ∃ c, c ∈ l ∧ mc_kind c = i ∧ mc_name c = n ∧ label_names (mc_labels c) = ls.
Proof.
  intros x. assert (∀ l' x created, owns (pc_instruments registry) l x created → l' ⊆ l →
    ∃ created', owns (pc_instruments registry) l (run l' x) created') as Hrun.
  { induction l' as [|c l' IH]; intros y created Ho Hsub; [by exists created|].
    destruct (update_owns _ _ _ _ c Ho) as [created' Ho']; [apply Hsub; by left|].
    apply (IH _ created' Ho'). intros c' Hc'. apply Hsub. by right. }
  destruct (Hrun l (new registry) []) as [created [Hr Hnd Hk Hl]]; [|done|by exists created].
  split; [by rewrite app_nil_r|constructor| |by intros ??? []%elem_of_nil].
  intros i n. destruct i; cbn; split; [by intros []%elem_of_nil|by intros []..|by intros []%elem_of_nil|by intros []|by intros []%elem_of_nil|by intros []].
Qed.
End facts.
End PrometheusFacts.

(** ** A registry that behaves as the library documents *)
Module RegistryExample.
Import PrometheusMetricsExporter.
Abbreviation registry := (list (instrument * string * list string)).
#[export] Instance model_client : PrometheusClient registry (list string) := {
  pc_create i n _ ls r :=
    if bool_decide (n ∈ (λ x, x.1.2) <$> r) then (Err (ValueError "Duplicated timeseries in CollectorRegistry"), r)
    else (Ok ls, r ++ [(i, n, ls)]);
  pc_update i h labels _ r :=
    if bool_decide (PySort.sort PySort.strlt (dkeys (default [] labels)) = h) then (Ok tt, r)
    else (Err (ValueError "Incorrect label names"), r);
  pc_generate_latest r := "";
  pc_instruments r := r;
}.
#[export] Instance model_laws : PrometheusLaws registry (list string).
Proof.
  split; cbn.
  - intros i n doc ls r h r'. case_bool_decide; naive_solver.
  - intros i n doc ls r e r'. case_bool_decide; naive_solver.
  - intros i h labels v r. by case_bool_decide.
Qed.

(** The first use fixes the label names of a metric, and its kind: later calls
    with other labels raise, as does the same name for another kind. *)
Example first_use_fixes :
  let x := (counter "calls" (PyFloat.of_Z 1) None (new ([] : registry))).2 in
  (counter "calls" (PyFloat.of_Z 1) (Some [("tool", "search")]) x).1 = Err (ValueError "Incorrect label names") ∧
  (gauge "calls" (PyFloat.of_Z 1) None x).1 = Err (ValueError "Duplicated timeseries in CollectorRegistry") ∧
  (counter "calls" (PyFloat.of_Z 2) (Some []) x).1 = Ok tt.
Proof. by vm_compute. Qed.
End RegistryExample.
