(* ===== verification/OpsReport.v ===== *)
(** * Operations reports (src/src/ops_report)

    Regression results are read from the configuration center, turned into
    points, ordered by time, and analysed for trends; the weekly report is the
    aggregate and its Markdown text.  [parse_float] reads the text of a float,
    [to_text] is [str()]. *)
From S2P Require Import Prelude PyFloat PyValue Persistence ConfigCenter PySort PyFormat Release.
Local Open Scope Z_scope.

Record TrendPoint := mkTrendPoint {
  tp_run_id : pyval;
  tp_metrics : dict float;
  tp_gate_passed : bool;
  tp_timestamp : float;
}.
Record TrendAnalysis := mkTrendAnalysis {
  ta_regressions : list string;
  ta_improvements : list string;
  ta_overall_trend : string;
}.
Record WeeklyReportData := mkWeeklyReport {
  wr_period_start : string;
  wr_period_end : string;
  wr_total_runs : Z;
  wr_gate_pass_rate : float;
  wr_avg_overall_score : float;
  wr_trend : TrendAnalysis;
  wr_points : list TrendPoint;
}.

Module TrendAnalyzer.
Definition regression_threshold : float := PyFloat.ratio 5 100.
Definition improvement_threshold : float := PyFloat.ratio 10 100.
Definition is_zero (x : float) : bool := PyFloat.eqb x PyFloat.zero.
(** [(a - b) / abs(c) > threshold] *)
Definition exceeds (a b c threshold : float) : bool :=
  PyFloat.gt (PyFloat.div (PyFloat.sub a b) (SFabs c)) threshold.

(** [nums[i - 1], nums[i], nums[i + 1]] for the only [i] of the range *)
Definition last_three {A} (l : list A) : option (A * A * A) :=
  match reverse l with
  | c :: b :: a :: _ => Some (a, b, c)
  | _ => None
  end.
Definition consecutive_decline (nums : list float) (threshold : float) : bool :=
  match last_three nums with
  | None => false
  | Some (prev, curr, next) =>
      negb (is_zero prev) && exceeds prev curr prev threshold &&
      (negb (is_zero curr) && exceeds curr next curr threshold)
  end.
Definition consecutive_rise (nums : list float) (threshold : float) : bool :=
  match last_three nums with
  | None => false
  | Some (prev, curr, next) =>
      negb (is_zero prev) && exceeds curr prev prev threshold &&
      (negb (is_zero curr) && exceeds next curr curr threshold)
  end.

Definition score (p : TrendPoint) : float := dget "overall_score" PyFloat.zero (tp_metrics p).
Definition compute_overall_trend (points : list TrendPoint) : string :=
  let recent := if 3 <=? Z.of_nat (length points) then drop (length points - 3) points else points in
  let scores := score <$> recent in
  match scores, last scores with
  | first :: _ :: _, Some final =>
      let n := Z.of_nat (length scores) - 1 in
      let slope := PyFloat.div (PyFloat.sub final first) (PyFloat.of_Z (Z.max n 1)) in
      if PyFloat.gt slope (PyFloat.ratio 2 100) then "improving"
      else if PyFloat.lt slope (PyFloat.ratio (-2) 100) then "degrading" else "stable"
  | _, _ => "stable"
  end.

(** [sorted(metric_keys)] *)
Definition metric_keys (points : list TrendPoint) : list string :=
  PySort.sort PySort.strlt (remove_dups (points ≫= λ p, dkeys (tp_metrics p))).
Definition values (key : string) (points : list TrendPoint) : list float :=
  omap (λ p, dlookup key (tp_metrics p)) points.
Definition analyze (points : list TrendPoint) : TrendAnalysis :=
  if Z.of_nat (length points) <? 2 then mkTrendAnalysis [] [] "stable" else
  let keys := metric_keys points in
  mkTrendAnalysis
    (filter (λ k, consecutive_decline (values k points) regression_threshold = true) keys)
    (filter (λ k, consecutive_rise (values k points) improvement_threshold = true) keys)
    (compute_overall_trend points).
End TrendAnalyzer.

Module WeeklyReportGenerator.
Section generator.
Context (parse_float : string → option float) (to_text : pyval → string).
Context (namespace : string).

Definition number (name : string) (v : dict pyval) : res float :=
  Metrics.to_float parse_float (dget name (VFloat PyFloat.zero) v).
Definition to_point (e : ConfigEntry) (v : dict pyval) : res TrendPoint :=
  overall ← number "overall_score" v;
  technical ← number "technical_score" v;
  business ← number "business_score" v;
  timestamp ← number "timestamp" v;
  Ok (mkTrendPoint (dget "run_id" (VStr (ce_key e)) v)
    [("overall_score", overall); ("technical_score", technical); ("business_score", business)]
    (Py.truthy (dget "gate_passed" (VBool false) v)) timestamp).
Fixpoint to_points (l : list ConfigEntry) : res (list TrendPoint) :=
  match l with
  | [] => Ok []
  | e :: l =>
      match ce_value e with
      | VDict v => p ← to_point e v; ps ← to_points l; Ok (p :: ps)
      | _ => to_points l
      end
  end.
Definition by_time : TrendPoint → TrendPoint → bool := PySort.on tp_timestamp PyFloat.lt.
Definition collect_points (c : ConfigCenter.center) : res (list TrendPoint) :=
  points ← to_points (ConfigCenter.list_namespace namespace c);
  Ok (PySort.sort by_time points).

(** [round(x, 4)] *)
Definition round4 (x : float) : float :=
  match x with
  | S754_finite s m e =>
      let q := if 0 <=? e then Z.pos m * 10000 * 2 ^ e
               else PyFloat.round_half_even (Z.pos m * 10000) (2 ^ (- e)) in
      match q with
      | Z.pos p => SFdiv 53 1024 (S754_finite s p 0) (S754_finite false 10000 0)
      | _ => S754_zero s
      end
  | _ => x
  end.
Definition report_of (period_start period_end : string) (points : list TrendPoint) : WeeklyReportData :=
  let total := Z.of_nat (length points) in
  let pass_count := PySort.count_if tp_gate_passed points in
  let avg_score := if 0 <? total
    then PyFloat.div (PySort.fsum (TrendAnalyzer.score <$> points)) (PyFloat.of_Z total) else PyFloat.zero in
  mkWeeklyReport period_start period_end total
    (if 0 <? total then PyFloat.ratio pass_count total else PyFloat.zero)
    (round4 avg_score) (TrendAnalyzer.analyze points) points.
Definition generate (period_start period_end : string) (c : ConfigCenter.center) : res WeeklyReportData :=
  points ← collect_points c;
  Ok (report_of period_start period_end points).

(** [f"{x:.1%}"] *)
Definition percent (x : float) : string := PyFormat.fixed 1 (PyFloat.mul x (PyFloat.of_Z 100)) +:+ "%".
Definition item_lines (title : string) (l : list string) : list string :=
  match l with [] => [] | _ => [title; ""] ++ ((λ x, "- " +:+ x) <$> l) ++ [""] end.
Definition run_line (p : TrendPoint) : string :=
  "| " +:+ to_text (tp_run_id p) +:+ " | " +:+ PyFormat.fixed 4 (TrendAnalyzer.score p) +:+ " | " +:+
  (if tp_gate_passed p then "Yes" else "No") +:+ " |".
Definition report_lines (data : WeeklyReportData) : list string :=
  ["# Weekly Ops Report (" +:+ wr_period_start data +:+ " ~ " +:+ wr_period_end data +:+ ")"; "";
   "## Summary"; "";
   "- Total regression runs: **" +:+ pretty (wr_total_runs data) +:+ "**";
   "- Gate pass rate: **" +:+ percent (wr_gate_pass_rate data) +:+ "**";
   "- Average overall score: **" +:+ PyFormat.fixed 4 (wr_avg_overall_score data) +:+ "**";
   "- Overall trend: **" +:+ ta_overall_trend (wr_trend data) +:+ "**"; ""] ++
  item_lines "## Regressions" (ta_regressions (wr_trend data)) ++
  item_lines "## Improvements" (ta_improvements (wr_trend data)) ++
  match wr_points data with
  | [] => []
  | points => ["## Run Details"; ""; "| Run ID | Overall Score | Gate Passed |";
      "|--------|---------------|-------------|"] ++ (run_line <$> points) ++ [""]
  end.
Definition newline : string := String (Ascii.ascii_of_nat 10) "".
Definition render_markdown (period_start period_end : string) (c : ConfigCenter.center) : res string :=
  data ← generate period_start period_end c;
  Ok (PyFormat.join newline (report_lines data)).
End generator.
End WeeklyReportGenerator.

(** ** Facts *)
Module OpsFacts.
Import TrendAnalyzer WeeklyReportGenerator.

(** *** The sign of a difference *)
Definition positive_float (x : float) : bool :=
  match x with S754_finite false _ _ | S754_infinity false => true | _ => false end.

Lemma round_sign sx mx ex lx : positive_float (binary_round_aux 53 1024 sx mx ex lx) = true → sx = false.
Proof.
  unfold binary_round_aux. destruct (shr_fexp _ _ mx ex lx) as [mrs e']. destruct (shr_fexp _ _ _ e' loc_Exact) as [mrs' e''].
  destruct (shr_m mrs'); [done| |done]. destruct (e'' <=? 1024 - 53); by destruct sx.
Qed.
Lemma normalize_sign m e : positive_float (binary_normalize 53 1024 m e false) = true → 0 < m.
Proof.
  destruct m as [|p|p]; [done|lia|]. cbn [binary_normalize]. unfold binary_round.
  destruct (shl_align _ _ _). intros H%round_sign. done.
Qed.
Lemma sub_sign a b : positive_float (PyFloat.sub a b) = true → positive_float (PyFloat.sub b a) = true → False.
Proof.
  unfold PyFloat.sub, SFsub. destruct a as [[]|[]| |[] ma ea], b as [[]|[]| |[] mb eb]; try done;
    cbv zeta; rewrite (Z.min_comm eb ea); intros H1%normalize_sign H2%normalize_sign; lia.
Qed.
Lemma div_abs_sign d c : positive_float (PyFloat.div d (SFabs c)) = true → positive_float d = true.
Proof.
  unfold PyFloat.div, SFdiv. destruct d as [[]|[]| |[] md ed], c as [[]|[]| |[] mc ec]; try done;
    cbn [SFabs xorb]; destruct (SFdiv_core_binary _ _ _ _ _ _) as [[mz ez] lz]; by intros H%round_sign.
Qed.
Lemma gt_sign x t : positive_float t = true → PyFloat.gt x t = true → positive_float x = true.
Proof.
  unfold PyFloat.gt, SFltb. destruct t as [[]|[]| |[] mt et], x as [[]|[]| |[] mx ex]; done.
Qed.

(** The drop and the rise of one step exclude each other. *)
Lemma exceeds_excludes a b c t t' : positive_float t = true → positive_float t' = true →
  exceeds a b c t = true → exceeds b a c t' = true → False.
Proof.
  intros Ht Ht' H1%(gt_sign _ _ Ht)%div_abs_sign H2%(gt_sign _ _ Ht')%div_abs_sign. by eapply sub_sign.
Qed.

Lemma decline_excludes_rise nums :
  consecutive_decline nums regression_threshold = true → consecutive_rise nums improvement_threshold = true → False.
Proof.
  unfold consecutive_decline, consecutive_rise. destruct (last_three nums) as [[[a b] c]|]; [|done].
  rewrite !andb_true_iff. intros [[_ H1] _] [[_ H2] _].
  by eapply (exceeds_excludes a b a regression_threshold improvement_threshold).
Qed.

Lemma metric_keys_spec points k : k ∈ metric_keys points ↔ ∃ p, p ∈ points ∧ k ∈ dkeys (tp_metrics p).
Proof.
  unfold metric_keys. rewrite PySort.elem_of_sort, elem_of_remove_dups, list_elem_of_bind. naive_solver.
Qed.

(** *** Points do not depend on the order of the entries *)
Section points.
Context (parse_float : string → option float).
Abbreviation to_points := (to_points parse_float).

Lemma to_points_app l1 l2 : to_points (l1 ++ l2) = (p1 ← to_points l1; p2 ← to_points l2; Ok (p1 ++ p2)).
Proof.
  induction l1 as [|e l1 IH]; simpl; [by destruct (to_points l2)|].
  destruct (ce_value e) as [| | | | | |v]; try apply IH. destruct (to_point parse_float e v) as [p|]; [|done]. simpl.
  rewrite IH. destruct (to_points l1); simpl; [|done]. by destruct (to_points l2).
Qed.
Lemma to_points_perm l l' ps : l ≡ₚ l' → to_points l = Ok ps → ∃ ps', to_points l' = Ok ps' ∧ ps ≡ₚ ps'.
Proof.
  intros Hl. revert ps. induction Hl as [|e l l' _ IH|e e' l|l l' l'' _ IH1 _ IH2]; intros ps.
  - eauto.
  - simpl. destruct (ce_value e) as [| | | | | |v]; try apply IH.
    destruct (to_point parse_float e v) as [p|]; [|done]. simpl. destruct (to_points l) as [q|]; [|done]. simpl.
    intros [= <-]. destruct (IH q eq_refl) as (q' & -> & Hq). exists (p :: q'). by rewrite Hq.
  - simpl. destruct (ce_value e) as [| | | | | |v], (ce_value e') as [| | | | | |v'];
      simpl; try (by eauto); intros H;
      repeat (match goal with H : context [to_point parse_float ?e ?v] |- _ => destruct (to_point parse_float e v); simpl in * end;
        try done); destruct (to_points l); simpl in *; try done; injection H as <-; eexists; (split; [done|]); try done.
    constructor.
  - intros H. destruct (IH1 ps H) as (ps1 & H1 & Hp1). destruct (IH2 ps1 H1) as (ps2 & H2 & Hp2).
    exists ps2. split; [done|]. by rewrite Hp1.
Qed.
End points.
End OpsFacts.

(** The weekly report is a function of the stored results: two centers that hold
    the same entries in whatever order, whose runs have different times, give the
    same report; its runs are in the order of time; a metric is reported as a
    regression exactly when its last three values drop twice by more than five
    percent, as an improvement when they rise twice by more than ten, and never
    as both. *)
Theorem weekly_report_sound parse_float namespace period_start period_end (c c' : ConfigCenter.center) data :
  ConfigCenter.list_namespace namespace c ≡ₚ ConfigCenter.list_namespace namespace c' →
  WeeklyReportGenerator.generate parse_float namespace period_start period_end c = Ok data →
  Forall (λ p, PyFloat.is_nan (tp_timestamp p) = false) (wr_points data) →
  (∀ p q, p ∈ wr_points data → q ∈ wr_points data → PySort.tied WeeklyReportGenerator.by_time p q → p = q) →
  WeeklyReportGenerator.generate parse_float namespace period_start period_end c' = Ok data ∧
  PySort.sorted WeeklyReportGenerator.by_time (wr_points data) ∧
  wr_total_runs data = Z.of_nat (length (wr_points data)) ∧
  (∀ k, k ∈ ta_regressions (wr_trend data) →
     TrendAnalyzer.consecutive_decline (TrendAnalyzer.values k (wr_points data)) TrendAnalyzer.regression_threshold = true ∧
     k ∉ ta_improvements (wr_trend data)) ∧
  (2 ≤ wr_total_runs data → ∀ k, (∃ p, p ∈ wr_points data ∧ k ∈ dkeys (tp_metrics p)) →
     TrendAnalyzer.consecutive_decline (TrendAnalyzer.values k (wr_points data)) TrendAnalyzer.regression_threshold = true →
     k ∈ ta_regressions (wr_trend data)).
Proof.
  intros Hperm Hgen Hnan Htie. unfold WeeklyReportGenerator.generate, WeeklyReportGenerator.collect_points in *.
  destruct (WeeklyReportGenerator.to_points _ (ConfigCenter.list_namespace namespace c)) as [ps|] eqn:Eps; [|done].
  destruct (OpsFacts.to_points_perm _ _ _ _ Hperm Eps) as (ps' & -> & Hps).
  cbn [mbind res_bind] in *. injection Hgen as <-. set (pts := PySort.sort _ ps) in *.
  change (wr_points _) with pts in *. change (wr_total_runs _) with (Z.of_nat (length pts)) in *.
  change (wr_trend _) with (TrendAnalyzer.analyze pts) in *.
  assert (pts ≡ₚ ps) as Hpts by apply PySort.sort_perm.
  pose proof (PySort.strict_weak_on tp_timestamp PyFloat.lt _ PySort.strict_weak_float) as Hsw.
  assert (Forall (λ p, PyFloat.is_nan (tp_timestamp p) = false) ps) as Hnan' by by rewrite <-Hpts.
  split_and!.
  - do 2 f_equal. symmetry. eapply PySort.sort_unique; [exact Hsw|done|done|].
    intros x y Hx Hy. rewrite <-Hpts in Hx, Hy. by apply Htie.
  - eapply PySort.sort_sorted; [exact Hsw|done].
  - done.
  - intros k. unfold TrendAnalyzer.analyze. destruct (Z.of_nat (length pts) <? 2); [by intros ?%elem_of_nil|].
    cbn [ta_regressions ta_improvements]. rewrite !list_elem_of_filter. intros [Hd Hk]. split; [done|].
    intros [Hi _]. by eapply OpsFacts.decline_excludes_rise.
  - intros Hn k Hk Hd. unfold TrendAnalyzer.analyze.
    destruct (Z.of_nat (length pts) <? 2) eqn:E; [lia|]. cbn [ta_regressions].
    apply list_elem_of_filter. split; [done|]. by apply OpsFacts.metric_keys_spec.
Qed.

Module OpsExample.
Definition result (i score t : Z) (ok : bool) : pyval :=
  VDict [("run_id", VStr ("run-" +:+ pretty i)); ("overall_score", VFloat (PyFloat.ratio score 100));
         ("gate_passed", VBool ok); ("timestamp", VInt t)].
Definition record (i score t : Z) (ok : bool) (c : ConfigCenter.center) : ConfigCenter.center :=
  (ConfigCenter.put "regression_results" ("r" +:+ pretty i) (result i score t ok) "json" "" (PyFloat.of_Z t) c).2.
Definition center : ConfigCenter.center :=
  record 3 70 30 false (record 1 90 10 true (record 2 80 20 true ConfigCenter.init)).

Example weekly_report :
  match WeeklyReportGenerator.render_markdown (λ _, None) (λ v, match v with VStr s => s | _ => "" end)
    "regression_results" "d1" "d7" center with
  | Ok text => text = PyFormat.join WeeklyReportGenerator.newline
      ["# Weekly Ops Report (d1 ~ d7)"; ""; "## Summary"; ""; "- Total regression runs: **3**";
       "- Gate pass rate: **66.7%**"; "- Average overall score: **0.8000**"; "- Overall trend: **degrading**"; "";
       "## Regressions"; ""; "- overall_score"; ""; "## Run Details"; "";
       "| Run ID | Overall Score | Gate Passed |"; "|--------|---------------|-------------|";
       "| run-1 | 0.9000 | Yes |"; "| run-2 | 0.8000 | Yes |"; "| run-3 | 0.7000 | No |"; ""]
  | Err _ => False
  end.
Proof. by vm_compute. Qed.

(** A metric without any recorded value counts as a score of zero for the trend. *)
Example missing_score_trend :
  TrendAnalyzer.compute_overall_trend
    [mkTrendPoint VNone [] true PyFloat.zero; mkTrendPoint VNone [("overall_score", PyFloat.ratio 9 10)] true PyFloat.zero]
  = "improving".
Proof. by vm_compute. Qed.
End OpsExample.
