(* ===== verification/Archive.v ===== *)
(** * JSON-lines files: datasets, the failed-case archive and replaying it
    (src/eval/scorer.py, src/eval/runner.py, src/eval/diff.py,
    src/src/replay/replay_engine.py)

    A text file is the UTF-8 text in it.  Parameters: [parse_float], as in the
    configuration files; [dict_other], what [dict] answers on a value that is no
    dictionary; the substitutions of the anonymizer. *)
From Stdlib Require Import Ascii.
From S2P Require Import Prelude PyFloat PyValue PyFormat Json JsonFacts Retrieval Release Pipeline Observability Scorer.
Local Open Scope Z_scope.
#[local] Arguments String.append : simpl nomatch.

Module TextFile.
Definition lf : ascii := Json.char 10.
Definition cr : ascii := Json.char 13.
Definition nl : string := String lf "".

(** What reading in text mode makes of the ends of lines. *)
Fixpoint universal (s : string) : string :=
  match s with
  | "" => ""
  | String c s1 =>
      if decide (c = cr) then
        match s1 with
        | String c2 s2 => if decide (c2 = lf) then String lf (universal s2) else String lf (universal s1)
        | "" => nl
        end
      else String c (universal s1)
  end.
(** Iterating over the file: lines with their terminators. *)
Fixpoint lines (s : string) : list string :=
  match s with
  | "" => []
  | String c s =>
      if decide (c = lf) then nl :: lines s
      else match lines s with
           | [] => [String c ""]
           | l :: ls => String c l :: ls
           end
  end.

(** The characters [str.strip] removes. *)
Definition space_points : list Z :=
  [9; 10; 11; 12; 13; 28; 29; 30; 31; 32; 133; 160; 5760; 8192; 8193; 8194; 8195; 8196; 8197; 8198; 8199; 8200;
   8201; 8202; 8232; 8233; 8239; 8287; 12288].
Definition space_texts : list string := Json.utf8 <$> space_points.
Fixpoint first_space (l : list string) (s : string) : option string :=
  match l with
  | [] => None
  | w :: l => match Json.strip w s with Some r => Some r | None => first_space l s end
  end.
Fixpoint lstrip_fuel (fuel : nat) (s : string) : string :=
  match fuel, first_space space_texts s with
  | S fuel, Some r => lstrip_fuel fuel r
  | _, _ => s
  end.
Definition lstrip (s : string) : string := lstrip_fuel (String.length s) s.
Fixpoint rstrip (s : string) : string :=
  match s with
  | "" => ""
  | String c r => if decide (lstrip s = "") then "" else String c (rstrip r)
  end.
Definition strip (s : string) : string := rstrip (lstrip s).

(** The stripped lines that are not empty. *)
Definition documents (content : string) : list string :=
  filter (λ l, str_truthy l = true) (strip <$> lines (universal content)).
(** One document per line, as [json.dump] and a line feed write it. *)
Fixpoint jsonl (l : list pyval) : string :=
  match l with [] => "" | v :: l => Json.dumps v +:+ nl +:+ jsonl l end.

Definition blank (n : Z) : string := Json.utf8 n.
Example strip_examples :
  strip (blank 12288 +:+ " a b" +:+ blank 160 +:+ nl) = "a b" ∧ strip (blank 8203) = blank 8203 ∧ strip " " = "" ∧
  documents ("x" +:+ String cr (nl +:+ String cr " y ")) = ["x"; "y"].
Proof. vm_compute. done. Qed.
End TextFile.

(** ** Datasets *)
Module Dataset.
(** [asdict(sample)] *)
Definition asdict (encode : text → string) (s : EvalSample) : dict pyval :=
  [("id", VStr (es_id s)); ("category", VStr (es_category s)); ("query", VStr (encode (es_query s)));
   ("expected_answer", VStr (encode (es_expected_answer s)));
   ("relevant_source_ids", VList (VStr <$> es_relevant_source_ids s)); ("difficulty", VStr (es_difficulty s));
   ("tags", VList (VStr <$> es_tags s)); ("expect_error", opt_str (es_expect_error s));
   ("tool_name", opt_str (es_tool_name s)); ("tool_params", VDict (es_tool_params s));
   ("caller_role", VStr (es_caller_role s)); ("tenant", VStr (es_tenant s))].

(** The fields in order, with their defaults. *)
Definition fields : list (string * option pyval) :=
  [("id", None); ("category", None); ("query", None); ("expected_answer", None);
   ("relevant_source_ids", Some (VList [])); ("difficulty", Some (VStr "medium")); ("tags", Some (VList []));
   ("expect_error", Some VNone); ("tool_name", Some VNone); ("tool_params", Some (VDict []));
   ("caller_role", Some (VStr "public")); ("tenant", Some (VStr "default"))].

(** [EvalSample( **data)] of a dataclass with the given fields: the attributes of
    the new sample, which nothing checks. *)
Definition unexpected (fields : list (string * option pyval)) (d : dict pyval) : option string :=
  head (filter (λ k, k ∉ fields.*1) (dkeys d)).
Definition missing (fields : list (string * option pyval)) (d : dict pyval) : list string :=
  fst <$> filter (λ f : string * option pyval, f.2 = None ∧ dlookup f.1 d = None) fields.
Definition construct (fields : list (string * option pyval)) (data : pyval) : res (dict pyval) :=
  match data with
  | VDict d =>
      match unexpected fields d, missing fields d with
      | Some k, _ => Err (TypeError ("EvalSample.__init__() got an unexpected keyword argument '" +:+ k +:+ "'"))
      | None, [] => Ok ((λ f : string * option pyval, (f.1, dget f.1 (default VNone f.2) d)) <$> fields)
      | None, _ => Err (TypeError "EvalSample.__init__() missing required positional arguments")
      end
  | v => Err (TypeError ("argument after ** must be a mapping, not " +:+ Py.type_name v))
  end.
Fixpoint load_all (fields : list (string * option pyval)) (l : list string) : res (list (dict pyval)) :=
  match l with
  | [] => Ok []
  | line :: l =>
      data ← Json.loads line; s ← construct fields data;
      rest ← load_all fields l; Ok (s :: rest)
  end.
Definition load_samples (content : string) : res (list (dict pyval)) := load_all fields (TextFile.documents content).
End Dataset.

(** [load_report]: [json.load] of the whole file *)
Definition load_report (content : string) : res pyval := Json.loads (TextFile.universal content).

(** ** The archive of failed cases *)
Module FailedCases.
Section archive.
Variable encode : text → string.

Definition sample_index (samples : list EvalSample) : dict EvalSample :=
  foldl (λ d s, dinsert (es_id s) s d) [] samples.
Definition record (now : float) (r : EvalCaseResult) (s : EvalSample) : pyval :=
  VDict [("case_id", VStr (ca_sample_id r)); ("trace_id", opt_str (ca_trace_id r));
    ("session_id", opt_str (ca_session_id r)); ("error_code", ca_error_code r);
    ("answer_f1", VFloat (ca_answer_f1 r)); ("latency_ms", VFloat (ca_latency_ms r));
    ("step_outcomes", VDict (prod_map id VBool <$> ca_step_outcomes r));
    ("sample", VDict (Dataset.asdict encode s)); ("captured_at", VFloat now)].
(** The loop; [stamps] are the successive readings of the clock. *)
Fixpoint records (index : dict EvalSample) (stamps : nat → float) (results : list EvalCaseResult) : list pyval :=
  match results with
  | [] => []
  | r :: results =>
      if ca_success r then records index stamps results
      else match dlookup (ca_sample_id r) index with
           | None => records index stamps results
           | Some s => record (stamps O) r s :: records index (λ n, stamps (S n)) results
           end
  end.
Definition write_failed_case_archive (samples : list EvalSample) (results : list EvalCaseResult)
    (stamps : nat → float) : string :=
  TextFile.jsonl (records (sample_index samples) stamps results).
End archive.
End FailedCases.

(** ** Loading it for replay *)
Module ReplayLoader.
Section loader.
Variable rules : list (string → string).
Variable parse_float : string → option float.
Variable dict_other : pyval → res (dict pyval).

(** [dict(v)] *)
Definition dict_of (v : pyval) : res (dict pyval) := match v with VDict d => Ok d | v => dict_other v end.
(** The record of a line; [dict] is the copy that [capture] takes. *)
Definition record_of (data : pyval) : res ReplayRecord :=
  match data with
  | VDict d =>
      f1 ← Metrics.to_float parse_float (dget "answer_f1" (VFloat PyFloat.zero) d);
      latency ← Metrics.to_float parse_float (dget "latency_ms" (VFloat PyFloat.zero) d);
      outcomes ← dict_of (dget "step_outcomes" (VDict []) d);
      Ok (mkReplayRecord (dget "case_id" (VStr "") d) (dget "trace_id" VNone d) (dget "session_id" VNone d)
            (dget "error_code" VNone d) f1 latency outcomes (dget "sample" (VDict []) d)
            (dget "captured_at" VNone d) false)
  | v => Err (AttributeError ("'" +:+ Py.type_name v +:+ "' object has no attribute 'get'"))
  end.
(** Lines before the one that raises stay captured. *)
Fixpoint load_lines (now : nat → float) (l : list string) (count : nat) : st (list ReplayRecord) nat := λ recs,
  match l with
  | [] => (Ok count, recs)
  | line :: l =>
      match data ← Json.loads line; record_of data with
      | Ok r => load_lines (λ n, now (S n)) l (S count) (ReplayEngine.capture rules (now O) r recs)
      | Err e => (Err e, recs)
      end
  end.
Definition load_from_jsonl (now : nat → float) (content : string) : st (list ReplayRecord) nat :=
  load_lines now (TextFile.documents content) 0.
End loader.
End ReplayLoader.

(** ** What is written reads back line by line *)
Module LinesFacts.
Import Decimals Json TextFile ScanFacts JsonRoundTrip.

(** Every byte satisfies [p]. *)
Fixpoint every (p : ascii → bool) (s : string) : bool :=
  match s with "" => true | String c s => p c && every p s end.
Lemma every_app p s t : every p (s +:+ t) = every p s && every p t.
Proof. induction s as [|c s IH]; [done|]. cbn [String.append every]. by rewrite IH, andb_assoc. Qed.
Lemma every_join p sep l : every p sep = true → Forall (λ t, every p t = true) l → every p (PyFormat.join sep l) = true.
Proof.
  intros Hsep Hl. induction Hl as [|x l Hx Hl IH]; [done|]. destruct l as [|x' l]; [done|].
  rewrite join_cons, !every_app, Hx, Hsep. exact IH.
Qed.

(** No control character. *)
Definition printed (c : ascii) : bool := 32 <=? code c.
Lemma printed_digits u : every printed (digits u) = true.
Proof. unfold digits. by induction u. Qed.
Lemma printed_num n : every printed (num_text n) = true.
Proof.
  destruct n as [neg i f e]. unfold num_text. cbn [nm_neg nm_int nm_frac nm_exp]. rewrite !every_app, printed_digits.
  destruct neg, f as [u|], e as [[[[]|] x]|]; rewrite ?every_app, ?printed_digits; done.
Qed.
Lemma printed_float f : every printed (float_text f) = true.
Proof. destruct f as [[]|[]| |neg m e]; try done. apply printed_num. Qed.
Lemma printed_escape t : every printed (escape t) = true.
Proof.
  induction t as [|c t IH]; [done|]. cbn [escape]. rewrite every_app, IH, andb_true_r.
  destruct c as [[] [] [] [] [] [] [] []]; reflexivity.
Qed.
Lemma printed_quote t : every printed (quote t) = true.
Proof. unfold quote. cbn [every]. by rewrite every_app, printed_escape. Qed.
Section styles.
Variables (p : ascii → bool) (y : style).
Hypothesis p_printed : ∀ c, printed c = true → p c = true.
Hypothesis p_open : ∀ n, every p (sy_open y n) = true.
Hypothesis p_sep : ∀ n, every p (sy_sep y n) = true.
Hypothesis p_close : ∀ n, every p (sy_close y n) = true.
Hypothesis p_quote : ∀ t, every printed (sy_quote y t) = true.
Lemma every_mono s : every printed s = true → every p s = true.
Proof using p_printed.
  induction s as [|c s IH]; [done|]. cbn [every]. rewrite !andb_true_iff. intros [? ?]; auto.
Qed.
Lemma every_dumps v : ∀ n, every p (dumps_with y n v) = true.
Proof using p_printed p_open p_sep p_close p_quote.
  assert (∀ n, every p ("," +:+ sy_sep y n) = true) as Hsep.
  { intros n. by rewrite every_app, p_sep, every_mono. }
  induction v as [|[]|z|f|t|l IH|d IH] using pyval_ind'; intros n; try by apply every_mono.
  - apply every_mono, printed_num.
  - apply every_mono, printed_float.
  - apply every_mono, p_quote.
  - destruct l as [|v l]; [by apply every_mono|]. cbn [dumps_with].
    rewrite !every_app, p_open, p_close, (every_mono "["), (every_mono "]") by done.
    rewrite every_join; [done..|]. apply Forall_map. eapply Forall_impl; [exact IH|]. auto.
  - destruct d as [|kv d]; [by apply every_mono|]. cbn [dumps_with].
    rewrite !every_app, p_open, p_close, (every_mono "{"), (every_mono "}") by done.
    rewrite every_join; [done..|]. apply Forall_map. eapply Forall_impl; [exact IH|]. intros [k x] Hx. rewrite !every_app.
    cbn [fst snd] in *. by rewrite Hx, (every_mono ": "), (every_mono (sy_quote y k)).
Qed.
End styles.
Lemma printed_dumps v : every printed (dumps v) = true.
Proof. apply every_dumps; try done. apply printed_quote. Qed.
Definition not_cr (c : ascii) : bool := negb (bool_decide (c = cr)).
Lemma printed_not_cr c : printed c = true → not_cr c = true.
Proof. destruct c as [[] [] [] [] [] [] [] []]; by vm_compute. Qed.
Lemma spaces_not_cr n : every not_cr (spaces n) = true.
Proof. by induction n. Qed.
Lemma indent_not_cr n v : every not_cr (dumps_indent n v) = true.
Proof.
  apply every_dumps; [exact printed_not_cr|intros; apply spaces_not_cr..|apply printed_quote].
Qed.
Lemma universal_same s : every not_cr s = true → universal s = s.
Proof.
  induction s as [|c s IH]; [done|]. intros [Hc Hs]%andb_true_iff. cbn [universal].
  rewrite decide_False by (intros ->; by vm_compute in Hc). by rewrite IH.
Qed.

Lemma universal_line s t : every printed s = true → universal (s +:+ nl +:+ t) = s +:+ nl +:+ universal t.
Proof.
  induction s as [|c s IH]; [done|]. intros [Hc Hs]%andb_true_iff. cbn [String.append universal].
  rewrite decide_False by (intros ->; by vm_compute in Hc). by rewrite IH.
Qed.
Lemma lines_line s t : every printed s = true → lines (s +:+ nl +:+ t) = (s +:+ nl) :: lines t.
Proof.
  induction s as [|c s IH]; [done|]. intros [Hc Hs]%andb_true_iff. cbn [String.append lines].
  rewrite decide_False by (intros ->; by vm_compute in Hc). by rewrite IH.
Qed.

(** ** Stripping *)
Lemma strip_Some p s r : Json.strip p s = Some r → s = p +:+ r.
Proof.
  revert s. induction p as [|c p IH]; intros s; [by intros [= ->]|]. destruct s as [|c' s]; [done|].
  cbn [Json.strip]. case_decide; [|done]. subst. intros ->%IH. done.
Qed.
Definition no_brace (c : ascii) : bool := negb (bool_decide (c = "}"%char)).
Lemma spaces_no_brace : Forall (λ w, every no_brace w = true) space_texts.
Proof. by repeat constructor. Qed.
Lemma first_space_brace l s r : Forall (λ w, every no_brace w = true) l → first_space l s = Some r →
  every no_brace s = false → every no_brace r = false.
Proof.
  induction 1 as [|w l Hw Hl IH]; [done|]. cbn [first_space]. destruct (Json.strip w s) as [r'|] eqn:E; [|done].
  intros [= <-]. apply strip_Some in E as ->. rewrite every_app, Hw. done.
Qed.
Lemma lstrip_fuel_brace n : ∀ s, every no_brace s = false → every no_brace (lstrip_fuel n s) = false.
Proof.
  induction n as [|n IH]; intros s Hs; [done|]. cbn [lstrip_fuel].
  destruct (first_space space_texts s) eqn:E; [|done]. apply IH. eapply first_space_brace, Hs; [apply spaces_no_brace|done].
Qed.
Lemma rstrip_cons c s : lstrip (String c s) ≠ "" → rstrip (String c s) = String c (rstrip s).
Proof. intros Hs. cbn [rstrip]. by rewrite decide_False. Qed.
Lemma rstrip_brace t : rstrip (t +:+ "}" +:+ nl) = t +:+ "}".
Proof.
  induction t as [|c t IH]; [by vm_compute|]. change (String c t +:+ ?u) with (String c (t +:+ u)). rewrite rstrip_cons.
  - by rewrite IH.
  - intros E. assert (every no_brace (String c (t +:+ "}" +:+ nl)) = false) as Hb.
    { cbn [every]. by rewrite !every_app, andb_false_r, andb_false_r. }
    apply (lstrip_fuel_brace (String.length (String c (t +:+ "}" +:+ nl)))) in Hb. unfold lstrip in E. by rewrite E in Hb.
Qed.
Lemma strip_object m : strip ("{" +:+ m +:+ "}" +:+ nl) = "{" +:+ m +:+ "}".
Proof.
  unfold strip. assert (lstrip ("{" +:+ m +:+ "}" +:+ nl) = "{" +:+ m +:+ "}" +:+ nl) as -> by done.
  rewrite <-!app_assoc_s, app_assoc_s. apply rstrip_brace.
Qed.

Definition is_dict (v : pyval) : bool := match v with VDict _ => true | _ => false end.
Lemma dumps_object y n v : is_dict v = true → ∃ m, dumps_with y n v = "{" +:+ m +:+ "}".
Proof.
  destruct v as [| | | | | |[|kv d]]; try done; intros _; [by exists ""|]. cbn [dumps_with].
  match goal with |- context [PyFormat.join ?a ?b] => exists (sy_open y n +:+ PyFormat.join a b +:+ sy_close y n) end.
  by rewrite !app_assoc_s.
Qed.

(** The documents of a file of objects, one per line, are their texts. *)
Fixpoint text_lines (l : list string) : string :=
  match l with [] => "" | t :: l => t +:+ nl +:+ text_lines l end.
Definition object_line (t : string) : Prop := every printed t = true ∧ ∃ m, t = "{" +:+ m +:+ "}".
Lemma documents_lines l : Forall object_line l → documents (text_lines l) = l.
Proof.
  unfold documents. induction 1 as [|t l [Hp [m Hm]] Hl IH]; [done|]. cbn [text_lines].
  rewrite universal_line, lines_line by done. rewrite !fmap_cons, filter_cons.
  rewrite Hm, !app_assoc_s, strip_object, decide_True by done. by rewrite IH.
Qed.
Lemma documents_jsonl l : Forall (λ v, is_dict v = true) l → documents (jsonl l) = dumps <$> l.
Proof.
  intros Hl. assert (jsonl l = text_lines (dumps <$> l)) as -> by (clear; induction l as [|v l IH]; [done|]; cbn; by rewrite IH).
  apply documents_lines, Forall_fmap. eapply Forall_impl; [exact Hl|]. intros v Hv. split; [apply printed_dumps|].
  by apply dumps_object.
Qed.

(** [ensure_ascii=True] *)
Lemma printed_hex4 n : every printed (hex4_text n) = true.
Proof.
  assert (∀ d, printed (hex_digit (d mod 16)) = true) as Hd.
  { intros d. assert (d mod 16 ∈ seqZ 0 16) as Hin by (apply elem_of_seqZ; pose proof (Z.mod_pos_bound d 16); lia).
    revert Hin. generalize (d mod 16). apply Forall_forall. by repeat constructor. }
  unfold hex4_text. cbn [every String.append]. by rewrite !Hd.
Qed.
Lemma printed_point n : every printed (escape_point n) = true.
Proof.
  unfold escape_point. destruct (short_escape n) as [x|] eqn:E.
  { apply fmap_Some in E as ([a b] & [Hin _]%find_first_Some & ->). revert Hin.
    apply (proj1 (Forall_forall (λ kv : Z * Z, every printed (String backslash (String (char kv.2) "")) = true) short_escapes)).
    by repeat constructor. }
  destruct ((32 <=? n) && (n <=? 126)) eqn:Hn.
  { cbn [every]. unfold printed. rewrite code_char by lia. by rewrite andb_true_r; lia. }
  destruct (n <? 65536); rewrite ?every_app, ?printed_hex4; done.
Qed.
Lemma printed_quote_ascii t : every printed (quote_ascii t) = true.
Proof.
  unfold quote_ascii. cbn [every]. rewrite every_app. apply andb_true_iff. split; [done|].
  apply andb_true_iff. split; [|done]. induction (points_of t) as [|n l IH]; [done|]. rewrite fmap_cons.
  cbn [concat_strings foldr]. rewrite every_app, printed_point. exact IH.
Qed.
Lemma ascii_line v : is_dict v = true → object_line (dumps_ascii v).
Proof.
  intros Hv. split; [|by apply dumps_object]. apply every_dumps; try done. apply printed_quote_ascii.
Qed.
End LinesFacts.

(** ** Datasets read back *)
Module DatasetFacts.
Import Json JsonRoundTrip LinesFacts.
Section facts.
Variable encode : text → string.

Lemma construct_asdict s : Dataset.construct Dataset.fields (VDict (Dataset.asdict encode s)) = Ok (Dataset.asdict encode s).
Proof. reflexivity. Qed.

Lemma json_ok_strings l : forallb json_ok (VStr <$> l) = true.
Proof. by induction l. Qed.
Lemma asdict_ok s : json_ok (VDict (es_tool_params s)) = true → json_ok (VDict (Dataset.asdict encode s)) = true.
Proof.
  intros Hp. cbn [json_ok Dataset.asdict forallb snd]. cbn [json_ok] in Hp. rewrite !json_ok_strings, Hp.
  unfold Observability.opt_str. by destruct (es_expect_error s), (es_tool_name s).
Qed.

Lemma load_samples_jsonl samples : Forall (λ s, json_ok (VDict (es_tool_params s)) = true) samples →
  Dataset.load_samples (TextFile.jsonl ((λ s, VDict (Dataset.asdict encode s)) <$> samples)) =
  Ok (Dataset.asdict encode <$> samples).
Proof.
  intros Hs. unfold Dataset.load_samples. rewrite documents_jsonl by (by apply Forall_fmap, Forall_true).
  induction Hs as [|s samples Hp Hs IH]; [done|]. rewrite !fmap_cons. cbn [Dataset.load_all].
  rewrite loads_dumps by by apply asdict_ok. cbn [mbind res_bind].
  by rewrite construct_asdict, IH.
Qed.
End facts.
End DatasetFacts.

(** ** Replaying an archive *)
Module ArchiveFacts.
Import Json JsonRoundTrip LinesFacts FailedCases ReplayLoader.

(** The record a failed case is replayed from. *)
Definition replayed encode rules (stamp now : float) (s : EvalSample) (r : EvalCaseResult) : ReplayRecord :=
  mkReplayRecord (VStr (ca_sample_id r)) (Observability.opt_str (ca_trace_id r))
    (Observability.opt_str (ca_session_id r)) (ca_error_code r) (ca_answer_f1 r) (ca_latency_ms r)
    (prod_map id VBool <$> ca_step_outcomes r)
    (TrafficAnonymizer.anonymize_record rules (VDict (Dataset.asdict encode s)))
    (ReplayEngine.or_time (VFloat stamp) now) true.
Definition failures (samples : list EvalSample) (results : list EvalCaseResult) : list (EvalSample * EvalCaseResult) :=
  filter (λ sr, ca_success sr.2 = false) (zip samples results).

Lemma sample_index_go samples : ∀ d s, NoDup (es_id <$> samples) →
  s ∈ samples ∨ (dlookup (es_id s) d = Some s ∧ es_id s ∉ es_id <$> samples) →
  dlookup (es_id s) (foldl (λ d s, dinsert (es_id s) s d) d samples) = Some s.
Proof.
  induction samples as [|s' samples IH]; intros d s Hnd Hs.
  { destruct Hs as [?%elem_of_nil|[? _]]; done. }
  rewrite fmap_cons in Hnd. apply NoDup_cons in Hnd as [Hn Hnd]. cbn [foldl]. apply IH; [done|].
  destruct Hs as [[->|Hin]%elem_of_cons|[Hd Hs]].
  - right. by rewrite dlookup_dinsert_eq.
  - by left.
  - rewrite fmap_cons, not_elem_of_cons in Hs. destruct Hs as [Hne Hs]. right. split; [|done].
    by rewrite dlookup_dinsert_ne.
Qed.
Lemma sample_index_lookup samples : NoDup (es_id <$> samples) →
  Forall (λ s, dlookup (es_id s) (sample_index samples) = Some s) samples.
Proof. intros Hnd. apply Forall_forall. intros s Hs. apply sample_index_go; auto. Qed.

Lemma records_failures encode index samples results :
  Forall2 (λ s r, ca_sample_id r = es_id s) samples results →
  Forall (λ s, dlookup (es_id s) index = Some s) samples →
  ∀ stamps, records encode index stamps results =
    imap (λ i sr, record encode (stamps i) sr.2 sr.1) (failures samples results).
Proof.
  unfold failures. induction 1 as [|s r samples results Hid Hl IH]; intros Hs stamps; [done|].
  apply Forall_cons in Hs as [Hs Hss]. cbn [zip zip_with records]. rewrite filter_cons. cbn [fst snd].
  destruct (ca_success r); [rewrite decide_False by done; by apply IH|].
  rewrite decide_True by done. rewrite imap_cons, Hid, Hs. f_equal. by rewrite IH.
Qed.

Lemma record_of_record encode parse_float dict_other now r s :
  record_of parse_float dict_other (record encode now r s) =
  Ok (mkReplayRecord (VStr (ca_sample_id r)) (Observability.opt_str (ca_trace_id r))
    (Observability.opt_str (ca_session_id r)) (ca_error_code r) (ca_answer_f1 r) (ca_latency_ms r)
    (prod_map id VBool <$> ca_step_outcomes r) (VDict (Dataset.asdict encode s)) (VFloat now) false).
Proof. reflexivity. Qed.

Lemma load_lines_records encode rules parse_float dict_other l : ∀ stamps now count recs,
  Forall (λ v, json_ok v = true) (imap (λ i sr, record encode (stamps i) sr.2 sr.1) l) →
  load_lines rules parse_float dict_other now (dumps <$> imap (λ i sr, record encode (stamps i) sr.2 sr.1) l) count recs =
  (Ok (count + length l)%nat, recs ++ imap (λ i sr, replayed encode rules (stamps i) (now i) sr.1 sr.2) l).
Proof.
  induction l as [|[s r] l IH]; intros stamps now count recs Hok.
  { simpl. by rewrite app_nil_r, Nat.add_0_r. }
  rewrite !imap_cons in *. apply Forall_cons in Hok as [Hv Hok]. rewrite fmap_cons. cbn [load_lines].
  rewrite loads_dumps by done. cbn [mbind res_bind fst snd]. rewrite record_of_record.
  rewrite (IH (stamps ∘ S) (λ n, now (S n))) by exact Hok.
  f_equal; [f_equal; simpl; lia|]. unfold ReplayEngine.capture. cbn [rp_anonymized]. by rewrite <-app_assoc.
Qed.

Lemma archive_loads encode rules parse_float dict_other samples results stamps now recs :
  NoDup (es_id <$> samples) → Forall2 (λ s r, ca_sample_id r = es_id s) samples results →
  Forall (λ v, json_ok v = true) (records encode (sample_index samples) stamps results) →
  load_from_jsonl rules parse_float dict_other now (write_failed_case_archive encode samples results stamps) recs =
  (Ok (length (failures samples results)),
   recs ++ imap (λ i sr, replayed encode rules (stamps i) (now i) sr.1 sr.2) (failures samples results)).
Proof.
  intros Hnd Hids Hok. pose proof (records_failures encode _ _ _ Hids (sample_index_lookup samples Hnd) stamps) as Hr.
  rewrite Hr in Hok. unfold load_from_jsonl, write_failed_case_archive. rewrite Hr, documents_jsonl.
  - by rewrite load_lines_records.
  - apply Forall_lookup. intros i v Hv. rewrite list_lookup_imap in Hv. by apply fmap_Some in Hv as (x & _ & ->).
Qed.
End ArchiveFacts.

(** C38: Every failed case can be replayed: reading the archive that the runner
    writes for a run (one result per sample, distinct sample ids) gives the
    replay engine exactly one record per failed case, in the order of the run,
    each with that case's identifiers, error code, scores and step outcomes and
    with its own sample passed through the anonymization rules; cases that
    passed are absent, earlier records are kept and the count returned is the
    number of failures. *)
Theorem archive_replays_failures encode rules parse_float dict_other samples results stamps now recs :
  NoDup (es_id <$> samples) → Forall2 (λ s r, ca_sample_id r = es_id s) samples results →
  Forall (λ v, JsonRoundTrip.json_ok v = true)
    (FailedCases.records encode (FailedCases.sample_index samples) stamps results) →
  ReplayLoader.load_from_jsonl rules parse_float dict_other now
    (FailedCases.write_failed_case_archive encode samples results stamps) recs =
  (Ok (length (ArchiveFacts.failures samples results)),
   recs ++ imap (λ i sr, ArchiveFacts.replayed encode rules (stamps i) (now i) sr.1 sr.2)
     (ArchiveFacts.failures samples results)).
Proof. apply ArchiveFacts.archive_loads. Qed.

Module ArchiveExample.
Definition encode (t : text) : string := Json.concat_strings (Json.utf8 <$> t).
Definition sample (id : string) : EvalSample :=
  mkEvalSample id "rag" [36864; 27454] [34] ["d"] "easy" [] None None [("phone", VStr "13800000000")] "public" "default".
Definition hide (s : string) : string := if bool_decide (s = "13800000000") then "[PHONE]" else s.
Definition result (id : string) (success : bool) : EvalCaseResult :=
  mkCaseResult id "rag" "easy" success [] [34] (PyFloat.ratio 1 3) (PyFloat.ratio 5 2) (Some "trace") None [] PyFloat.zero
    PyFloat.zero PyFloat.zero (VStr "quality_regression") [("retrieval", true)] false false false 0 1 0 5 0.

Lemma archive_replays_failures_witness :
  let samples := [sample "a"; sample "b"; sample "c"] in
  let results := [result "a" false; result "b" true; result "c" false] in
  let loaded := ReplayLoader.load_from_jsonl [hide] (λ _, None) (λ _, Err (TypeError "")) (λ _, PyFloat.zero)
    (FailedCases.write_failed_case_archive encode samples results (λ n, PyFloat.of_Z (1 + Z.of_nat n))) [] in
  rp_case_id <$> loaded.2 = [VStr "a"; VStr "c"] ∧
  loaded = (Ok 2%nat, imap (λ i sr, ArchiveFacts.replayed encode [hide] (PyFloat.of_Z (1 + Z.of_nat i)) PyFloat.zero sr.1 sr.2)
    (ArchiveFacts.failures samples results)).
Proof.
  intros samples results loaded. split; [by vm_compute|].
  refine (archive_replays_failures encode [hide] (λ _, None) (λ _, Err (TypeError "")) samples results _
    (λ _, PyFloat.zero) [] _ _ _).
  - repeat constructor; set_solver.
  - repeat constructor.
  - by repeat constructor.
Defined.
End ArchiveExample.
