(* ===== verification/Artifacts.v ===== *)
(** * The files of an evaluation run and the gate on them
    (src/eval/runner.py, src/eval/diff.py, src/eval/scorer.py, src/src/observability)

    Reports as texts, and a run's outputs as a dictionary from file names to
    contents, written in the order of the code.  [encode] is the encoder of the
    text type, [to_str] the interpreter's text of a value. *)
From Stdlib Require Import Ascii.
From S2P Require Import Prelude PyFloat PyValue PySort PyFormat Json JsonFacts Retrieval Release Pipeline Observability Scorer EvalRunner EvalRag Archive.
Local Open Scope Z_scope.
#[local] Arguments String.append : simpl nomatch.

Module Template.
(** [f"{x:.2%}"] *)
Definition percent (x : float) : string := PyFormat.fixed 2 (PyFloat.mul x (PyFloat.of_Z 100)) +:+ "%".
(** ["\n".join(l)] *)
Definition join_lines (l : list string) : string := PyFormat.join TextFile.nl l.
(** ["\n".join(lines) + "\n"] *)
Definition document (l : list string) : string := join_lines l +:+ TextFile.nl.

(** [template.format( **fields)] for replacement fields that are plain names *)
Definition single (c : string) : exc := ValueError ("Single '" +:+ c +:+ "' encountered in format string").
Fixpoint field_name (s : string) : option (string * string) :=
  match s with
  | "" => None
  | String c s => if decide (c = "}"%char) then Some ("", s) else prod_map (String c) id <$> field_name s
  end.
Fixpoint format_fuel (fuel : nat) (fields : dict string) (s : string) : res string :=
  match fuel, s with
  | O, _ | _, "" => Ok ""
  | S fuel, String c s =>
      if decide (c = "{"%char) then
        match s with
        | "" => Err (single "{")
        | String c' s' =>
            if decide (c' = "{"%char) then rest ← format_fuel fuel fields s'; Ok ("{" +:+ rest)
            else match field_name s with
                 | None => Err (ValueError "expected '}' before end of string")
                 | Some (name, s') =>
                     match dlookup name fields with
                     | None => Err (KeyError name)
                     | Some v => rest ← format_fuel fuel fields s'; Ok (v +:+ rest)
                     end
                 end
        end
      else if decide (c = "}"%char) then
        match s with
        | String c' s' =>
            if decide (c' = "}"%char) then rest ← format_fuel fuel fields s'; Ok ("}" +:+ rest)
            else Err (single "}")
        | "" => Err (single "}")
        end
      else rest ← format_fuel fuel fields s; Ok (String c rest)
  end.
Definition format (fields : dict string) (s : string) : res string := format_fuel (String.length s) fields s.

Example format_examples :
  format [("a", "1"); ("b", "x{y")] "{{{a}}} {b}" = Ok "{1} x{y" ∧ format [] "{a}" = Err (KeyError "a") ∧
  format [] "}" = Err (single "}") ∧ percent (PyFloat.ratio 1 3) = "33.33%".
Proof. by vm_compute. Qed.
End Template.

Module Reports.
Import Template.
Section reports.
Variable to_str : pyval → string.

(** ** eval/diff.py *)
Definition diff_lines (d : DiffResult) : list string :=
  ["# W5 Baseline Diff Report"; ""; "- Gate: " +:+ (if df_passed d then "PASS" else "FAIL"); ""; "## Issues"; ""] ++
  match df_issues d with
  | [] => ["- No regressions detected"]
  | issues =>
      (λ i, "- `" +:+ di_metric i +:+ "` baseline=" +:+ PyFormat.fixed 4 (di_baseline i) +:+ ", current=" +:+
        PyFormat.fixed 4 (di_current i) +:+ ": " +:+ di_message i) <$> issues
  end.
Definition diff_dict (d : DiffResult) : pyval :=
  VDict [("passed", VBool (df_passed d));
    ("issues", VList ((λ i, VDict [("metric", VStr (di_metric i)); ("baseline", VFloat (di_baseline i));
      ("current", VFloat (di_current i)); ("message", VStr (di_message i))]) <$> df_issues d))].

(** ** error_bucket.py, latency_analyzer.py, incident_drill.py *)
Definition topn_lines (entries : list ErrorBucketEntry) : list string :=
  ["# Error TopN"; ""; "| Category | Error Code | Priority | Count | Sample IDs |";
   "|----------|------------|----------|-------|------------|"] ++
  match entries with
  | [] => ["| none | none | P0 | 0 | - |"]
  | _ =>
      (λ e, "| " +:+ be_category e +:+ " | " +:+ to_str (be_error_code e) +:+ " | P" +:+ pretty (be_priority e) +:+
        " | " +:+ pretty (be_count e) +:+ " | " +:+ PyFormat.join ", " (be_sample_ids e) +:+ " |") <$> entries
  end.
Definition latency_lines (case_latencies : list float) (spans : list SpanRecord) (limit : Z) : res (list string) :=
  p95 ← LatencyAnalyzer.percentile case_latencies Scorer.p95;
  hotspots ← LatencyAnalyzer.build_hotspots spans limit;
  Ok (["# Latency Breakdown"; ""; "- Samples: " +:+ pretty (Z.of_nat (length case_latencies));
       "- Avg Case Latency: " +:+ PyFormat.fixed 2 (LatencyAnalyzer.average case_latencies) +:+ " ms";
       "- P95 Case Latency: " +:+ PyFormat.fixed 2 p95 +:+ " ms"; "";
       "| Component | Span | Avg Duration (ms) | P95 Duration (ms) | Samples |";
       "|-----------|------|-------------------|-------------------|---------|"] ++
      match hotspots with
      | [] => ["| none | none | 0.00 | 0.00 | 0 |"]
      | _ =>
          (λ h, "| " +:+ hs_component h +:+ " | " +:+ hs_span_name h +:+ " | " +:+
            PyFormat.fixed 2 (hs_avg_duration_ms h) +:+ " | " +:+ PyFormat.fixed 2 (hs_p95_duration_ms h) +:+ " | " +:+
            pretty (hs_sample_count h) +:+ " |") <$> hotspots
      end).
(** [l or dflt] *)
Definition or_lines (l dflt : list string) : list string := match l with [] => dflt | _ => l end.
Definition drill_lines (dataset_name : string) (firing : list AlertEvent) (hotspots : list LatencyHotspot) : list string :=
  ["# W6 Incident Drill"; ""; "- Dataset: `" +:+ dataset_name +:+ "`";
   "- Trigger: automated drill from latest observability artifacts"; ""; "## Active Alerts"; ""] ++
  or_lines ((λ e, "- `" +:+ ae_name e +:+ "` " +:+ ae_severity e +:+ ": " +:+ ae_description e) <$> firing)
    ["- No active alerts"] ++
  [""; "## Latency Hotspots"; ""] ++
  or_lines ((λ h, "- `" +:+ hs_component h +:+ "." +:+ hs_span_name h +:+ "` avg=" +:+
      PyFormat.fixed 2 (hs_avg_duration_ms h) +:+ "ms p95=" +:+ PyFormat.fixed 2 (hs_p95_duration_ms h) +:+ "ms")
    <$> hotspots) ["- No latency hotspots"] ++
  [""; "## Suggested Actions"; ""; "- Check dashboard snapshot for current blast radius.";
   "- Follow on-call escalation runbook for firing alerts.";
   "- Replay failed cases when failure buckets are non-empty."].

(** ** runner.py, [_write_markdown_report]; the template is a file. *)
(** [text or dflt] *)
Definition or_text (s dflt : string) : string := if str_truthy s then s else dflt.
Definition cost (name : string) (u : EvalSummary) : res string :=
  match dlookup name (su_cost u) with Some n => Ok (pretty n) | None => Err (KeyError name) end.
Definition report_fields (u : EvalSummary) : res (dict string) :=
  tokens ← cost "total_tokens" u; tool_calls ← cost "tool_calls" u; retrieval_calls ← cost "retrieval_calls" u;
  Ok [("dataset_name", su_dataset_name u); ("total_samples", pretty (su_total_samples u));
   ("e2e_success_rate", percent (su_e2e_success_rate u)); ("avg_answer_f1", PyFormat.fixed 4 (su_avg_answer_f1 u));
   ("accuracy", percent (su_accuracy u)); ("avg_latency_ms", PyFormat.fixed 2 (su_avg_latency_ms u));
   ("p95_latency_ms", PyFormat.fixed 2 (su_p95_latency_ms u));
   ("validation_rejection_rate", percent (su_validation_rejection_rate u));
   ("auth_denial_rate", percent (su_auth_denial_rate u));
   ("circuit_open_frequency", percent (su_circuit_open_frequency u));
   ("audit_completeness", percent (su_audit_completeness u));
   ("total_tokens", tokens); ("tool_calls", tool_calls); ("retrieval_calls", retrieval_calls);
   ("step_success_rows", or_text (join_lines ((λ kv, "| " +:+ kv.1 +:+ " | " +:+ percent kv.2 +:+ " |")
      <$> su_step_success_rates u)) "| none | 0.00% |");
   ("failure_bucket_rows", or_text (join_lines ((λ kv, "- `" +:+ to_str kv.1 +:+ "`: " +:+ pretty kv.2)
      <$> su_failure_buckets u)) "- 无")].
Definition markdown_report (template : string) (u : EvalSummary) : res string :=
  fields ← report_fields u; format fields template.
End reports.
End Reports.

(** ** What a run writes *)
Module RunOutputs.
Import Template Reports.
Section outputs.
Variables (encode : text → string) (to_str : pyval → string) (parse_float : string → option float).
Variable template : string.

(** The output directory. *)
Abbreviation W := (st (dict string)).
Definition write (name content : string) : W unit := st_modify (dinsert name content).
(** [json.dump(value, file_handle, ensure_ascii=False, indent=2)] and a line feed *)
Definition json_file (v : pyval) : string := Json.dumps_indent 2 v +:+ TextFile.nl.
Definition is_firing (e : AlertEvent) : bool := bool_decide (ae_status e = "firing").

(** [write_json], [write_markdown] of the alert manager, [write_snapshot], the two [write_jsonl] *)
Definition alerts_json (events : list AlertEvent) : string := json_file (VList (AlertManager.to_dict <$> events)).
Definition alerts_markdown (events : list AlertEvent) : string := document (AlertManager.markdown_lines events).
Definition snapshot_json (snapshot : dict pyval) : string := json_file (VDict snapshot).
Definition spans_jsonl (o : obs) : string := TextFile.jsonl (VDict ∘ Tracer.to_dict <$> Tracer.list_spans o).
Definition logs_jsonl (o : obs) : string := TextFile.jsonl (VDict ∘ Logger.to_dict <$> Logger.list_entries o).

(** The second half of [run]: everything after the samples have run. *)
Definition write_outputs (summary : EvalSummary) (samples : list EvalSample) (case_results : list EvalCaseResult)
    (o : obs) (stamps : nat → float) : W (dict pyval) :=
  write "summary.json" (json_file (VDict (Scorer.to_dict encode summary))) ≫= λ _,
  report ← st_lift (markdown_report to_str template summary);
  write "report.md" report ≫= λ _,
  write "failed-cases.jsonl" (FailedCases.write_failed_case_archive encode samples case_results stamps) ≫= λ _,
  let span_records := Tracer.list_spans o in
  hotspots ← st_lift (LatencyAnalyzer.build_hotspots span_records 5);
  events ← st_lift (AlertManager.evaluate parse_float AlertManager.default_rules (Scorer.to_dict encode summary));
  snapshot ← st_lift (DashboardExporter.build_snapshot (Scorer.to_dict encode summary)
    (EvaluationRunner.dict_of ∘ AlertManager.to_dict <$> events));
  write "traces.jsonl" (spans_jsonl o) ≫= λ _,
  write "logs.jsonl" (logs_jsonl o) ≫= λ _,
  topn ← st_lift (ErrorBucketAnalyzer.build_topn case_results 5);
  write "error-topn.md" (document (topn_lines to_str topn)) ≫= λ _,
  latency ← st_lift (latency_lines (ca_latency_ms <$> case_results) span_records 5);
  write "latency-breakdown.md" (document latency) ≫= λ _,
  write "alerts.json" (alerts_json events) ≫= λ _,
  write "alert-report.md" (alerts_markdown events) ≫= λ _,
  write "dashboard-snapshot.json" (snapshot_json snapshot) ≫= λ _,
  write "incident-drill.md" (document (drill_lines (su_dataset_name summary)
    (filter (λ e, is_firing e = true) events) hotspots)) ≫= λ _,
  mret (Scorer.to_dict encode summary).

Definition no_get (v : pyval) : exc := AttributeError ("'" +:+ Py.type_name v +:+ "' object has no attribute 'get'").
(** [main] of diff.py: the gate on two files and its report *)
Definition diff_main (baseline current : string) : res (string * string * bool) :=
  b ← load_report baseline; c ← load_report current;
  match b with
  | VDict b =>
      match c with
      | VDict c =>
          d ← Diff.compare_reports parse_float b c Diff.default_thresholds;
          Ok (document (diff_lines d), Json.dumps_indent 2 (diff_dict d) +:+ TextFile.nl, df_passed d)
      | v => _ ← Diff.metric parse_float "e2e_success_rate" b; Err (no_get v)
      end
  | v => Err (no_get v)
  end.
End outputs.
End RunOutputs.

Module OutputFacts.
Import RunOutputs JsonRoundTrip LinesFacts Template Reports.

Lemma json_file_reads v : json_ok v = true → load_report (json_file v) = Ok v.
Proof.
  intros Hv. unfold load_report, json_file. rewrite universal_same.
  - by apply loads_dumps_indent.
  - by rewrite every_app, indent_not_cr.
Qed.
Lemma jsonl_reads {A} (f : A → dict pyval) l : Forall (λ x, json_ok (VDict (f x)) = true) l →
  Json.loads <$> TextFile.documents (TextFile.jsonl (VDict ∘ f <$> l)) = Ok ∘ VDict ∘ f <$> l.
Proof.
  intros Hl. rewrite documents_jsonl by by apply Forall_fmap, Forall_true. rewrite <-!list_fmap_compose.
  apply list_fmap_ext. intros i x Hx. unfold compose. apply loads_dumps. by eapply (Forall_lookup_1 _ _ _ _ Hl).
Qed.

(** Reading a file after the writes of others. *)
Ltac read_file := repeat (rewrite dlookup_dinsert_eq || rewrite dlookup_dinsert_ne by done); done.

Section outputs.
Variables (encode : text → string) (to_str : pyval → string) (parse_float : string → option float).
Variable template : string.
Context (summary : EvalSummary) (samples : list EvalSample) (results : list EvalCaseResult).
Context (o : obs) (stamps : nat → float).

(** The contents of the files that other programs read. *)
Lemma write_outputs_files files d files' :
  write_outputs encode to_str parse_float template summary samples results o stamps files = (Ok d, files') →
  d = Scorer.to_dict encode summary ∧
  dlookup "summary.json" files' = Some (json_file (VDict d)) ∧
  dlookup "failed-cases.jsonl" files' = Some (FailedCases.write_failed_case_archive encode samples results stamps) ∧
  dlookup "traces.jsonl" files' = Some (TextFile.jsonl (VDict ∘ Tracer.to_dict <$> spans o)) ∧
  dlookup "logs.jsonl" files' = Some (TextFile.jsonl (VDict ∘ Logger.to_dict <$> logs o)) ∧
  ∃ events snapshot, AlertManager.evaluate parse_float AlertManager.default_rules d = Ok events ∧
    DashboardExporter.build_snapshot d (EvaluationRunner.dict_of ∘ AlertManager.to_dict <$> events) = Ok snapshot ∧
    dlookup "alerts.json" files' = Some (json_file (VList (AlertManager.to_dict <$> events))) ∧
    dlookup "dashboard-snapshot.json" files' = Some (json_file (VDict snapshot)).
Proof.
  unfold write_outputs, write. intros H. inv_st.
  repeat match goal with H : st_modify _ _ = (Ok _, _) |- _ => injection H as _ H; subst end.
  split; [done|]. split_and!; [read_file..|].
  do 2 eexists. split_and!; [done|done|read_file..].
Qed.
End outputs.
End OutputFacts.


Module OutputExample.
Definition summary (rate : float) : EvalSummary :=
  mkSummary "smoke" 2 rate [("retrieval", PyFloat.of_Z 1)] (PyFloat.of_Z 12) (PyFloat.of_Z 8) (PyFloat.of_Z 1)
    (PyFloat.of_Z 1) (PyFloat.of_Z 1) rate rate PyFloat.zero (PyFloat.of_Z 1) PyFloat.zero PyFloat.zero PyFloat.zero
    (PyFloat.of_Z 1) [("total_tokens", 20); ("tool_calls", 0); ("retrieval_calls", 2)]
    [(VStr "quality_regression", 1)] [] [] [].
Definition state : obs :=
  mkObs [mkSpanRecord "t" "s" "c" "step-1" None "rag" "retrieve" (PyFloat.of_Z 1) (PyFloat.of_Z 3) (PyFloat.of_Z 2) "ok" None []]
    [] 0 0.
Definition written : res (dict pyval) * dict string :=
  RunOutputs.write_outputs ArchiveExample.encode (λ v, match v with VStr s => s | _ => "" end) (λ _, None)
    "{dataset_name}: {e2e_success_rate}" (summary (PyFloat.ratio 1 2))
    [ArchiveExample.sample "a"] [ArchiveExample.result "a" false] state (λ _, PyFloat.of_Z 1) [].

End OutputExample.
