(* ===== verification/AppMain.v ===== *)
(** * The command line of the agent (agent-system/src/api/app.py, [main], and
    agent-system/src/gateway/audit_logger.py)

    The program as its user sees it: a request file goes in, a document comes out
    on the standard output, the audit log gains one line per event and the
    standard error shows them.  [files] gives the decoded text of a file under the
    project directory, or the exception that opening it raises; a run of the
    program starts with a fresh application. *)
From S2P Require Import Prelude PyFloat PyValue PyFormat Json JsonFacts StateStore StateStoreFacts Planner PlannerFacts Policy Context Contract ContractFacts Executor ExecutorFacts App AppFacts Archive.
Import JsonRoundTrip AgentApplication.
Local Open Scope Z_scope.

(** ** The audit logger: a file and a stream *)
Module AuditOutput.
Section output.
Context (repr : pyval → string).

(** The logger "agent.audit" that all audit loggers of a process share: its level
    and the levels of its handlers. *)
Record logger := mkLogger { lg_level : Z; lg_handlers : list Z }.
Definition DEBUG : Z := 10.
Definition INFO : Z := 20.
(** [logging.getLogger] in a new process: no level of its own, no handler. *)
Definition new_logger : logger := mkLogger 0 [].

(** [__init__] *)
Definition init_logger (l : logger) : logger :=
  mkLogger DEBUG (match lg_handlers l with [] => [INFO] | handlers => handlers end).
(** The lines that a record of the given level shows. *)
Definition emit (level : Z) (line : string) (l : logger) : list string :=
  if lg_level l <=? level then (λ _, line) <$> filter (λ h, h ≤ level) (lg_handlers l) else [].
Definition debug (message : string) (fields : dict pyval) : logger → list string :=
  emit DEBUG (match fields with [] => message | _ => message +:+ " " +:+ repr (VDict fields) end).

(** The lines of [log_step_event] and [log_final_event], from the event. *)
Definition shown (e : dict pyval) (label key : string) : string :=
  " " +:+ label +:+ "=" +:+ Py.to_str repr (dget key VNone e).
Definition event_line (e : dict pyval) : string :=
  if decide (dlookup "event_type" e = Some (VStr "step")) then
    "step event" +:+ shown e "request_id" "request_id" +:+ shown e "session_id" "session_id" +:+
    shown e "step_id" "step_id" +:+ shown e "tool_id" "tool_id" +:+ shown e "result" "result_status"
  else
    "final event" +:+ shown e "request_id" "request_id" +:+ shown e "session_id" "session_id" +:+
    shown e "result" "result_status".

(** [_write_event] *)
Definition event_text (e : dict pyval) : string := Json.dumps_ascii (VDict e).
(** What the events of a run append to the log file and show. *)
Definition log_text (events : list (dict pyval)) : string := LinesFacts.text_lines (event_text <$> events).
Definition stream (events : list (dict pyval)) (l : logger) : list string :=
  events ≫= λ e, emit INFO (event_line e) l.

(** However many audit loggers a process makes, an event is shown once and a debug
    message never. *)
Lemma logger_shows n events message fields :
  let l := Nat.iter (S n) init_logger new_logger in
  stream events l = event_line <$> events ∧ debug message fields l = [].
Proof.
  cbv zeta. assert (Nat.iter (S n) init_logger new_logger = mkLogger DEBUG [INFO]) as ->.
  { induction n as [|n IH]; [done|]. rewrite Nat.iter_succ, IH. done. }
  split; [|done]. unfold stream. induction events as [|e events IH]; [done|]. cbn in *. by rewrite IH.
Qed.

Lemma log_reads events :
  Forall (λ e, json_ok (VDict e) = true ∧ texts_ok scalar_text (VDict e) = true) events →
  Json.loads <$> TextFile.documents (log_text events) = Ok ∘ VDict <$> events.
Proof.
  intros He. unfold log_text. rewrite LinesFacts.documents_lines.
  - rewrite <-list_fmap_compose. apply list_fmap_ext. intros i e Hi. unfold compose, event_text.
    apply (Forall_lookup_1 _ _ _ _ He) in Hi as [? ?]. by apply loads_dumps_ascii.
  - apply Forall_fmap, Forall_true. intros e. by apply LinesFacts.ascii_line.
Qed.
End output.
End AuditOutput.

(** ** [main] *)
Module AppMain.
Import TextFile.
Section main.
Context (utcnow : nat → string) (monotonic : nat → float).
Context (repr : pyval → string) (exc_str : exc → string).
Context (files : string → res string).
(** What the first access of [handle_request] to a payload that is no mapping
    raises, should the request contract let one pass. *)
Context (no_mapping : pyval → exc).

(** [_read_json_file] *)
Definition read_json_file (path : string) : res pyval := content ← files path; load_report content.
(** The contract files of the validator. *)
Definition contracts (path : string) : res pyval := read_json_file ("contracts/" +:+ path).

(** [json.dumps(value, indent=2)] *)
Definition ascii_indented (n : nat) : Json.style :=
  Json.mkStyle (Json.sy_open (Json.indented n)) (Json.sy_sep (Json.indented n)) (Json.sy_close (Json.indented n))
    Json.quote_ascii.
Definition dumps_ascii_indent (n : nat) (v : pyval) : string := Json.dumps_with (ascii_indented n) 0 v.

Definition request_contract (payload : pyval) : res unit :=
  ContractValidator.validate_uncached repr contracts "agent-request.schema.json" payload.
(** [app.handle_request(request_payload)] for a payload of any type *)
Definition answer (rounds : nat → round counters) (fuel : nat) (payload : pyval) : option (res (dict pyval) * app) :=
  match payload with
  | VDict request => handle_request utcnow monotonic repr exc_str contracts rounds fuel request init_app
  | v => Some (request_contract v ≫= λ _, Err (no_mapping v), mkApp StateStore.init [] ∅ 1)
  end.

(** [str(error)] and the document of the [except] branch *)
Definition contract_error (errors : list string) : pyval :=
  VDict [("success", VBool false);
    ("error", VDict [("code", VStr "contract_error"); ("message", VStr (PyFormat.join "; " errors))])].

Inductive ending := Printed (out : string) | Uncaught (e : exc).
Definition conclude (x : res (dict pyval)) : ending :=
  match x with
  | Ok response => Printed (dumps_ascii_indent 2 (VDict response) +:+ nl)
  | Err (ContractValidationError errors) => Printed (Json.dumps_ascii (contract_error errors) +:+ nl)
  | Err e => Uncaught e
  end.
Definition main (request_file : string) (rounds : nat → round counters) (fuel : nat) : option (ending * app) :=
  match read_json_file request_file with
  | Err e => Some (Uncaught e, init_app)
  | Ok payload => '(x, a) ← answer rounds fuel payload; Some (conclude x, a)
  end.

(** ** Facts *)
#[export] Instance ascii_indented_readable n : Readable (ascii_indented n) scalar_text.
Proof. split; [intros; apply spaces_ws..|]. apply ascii_readable. Qed.
Lemma response_reads v : json_ok v = true → texts_ok scalar_text v = true →
  Json.loads (dumps_ascii_indent 2 v +:+ nl) = Ok v.
Proof. intros. by apply (loads_dumps_ws (ascii_indented 2) scalar_text). Qed.
Lemma contract_error_reads errors : scalar_text (PyFormat.join "; " errors) = true →
  Json.loads (Json.dumps_ascii (contract_error errors) +:+ nl) = Ok (contract_error errors).
Proof.
  intros Ht. apply (loads_dumps_ws Json.ascii_style scalar_text); [|done]. split; [done|].
  cbn [texts_ok contract_error forallb fst snd]. rewrite Ht. by vm_compute.
Qed.

(** A request that violates its contract changes nothing but the clock. *)
Lemma refused_untouched rounds fuel payload e :
  request_contract payload = Err e →
  answer rounds fuel payload = Some (Err e, mkApp StateStore.init [] ∅ 1).
Proof.
  intros He. destruct payload as [| | | | | |request]; cbn [answer]; try by rewrite He.
  unfold handle_request, prepare. unfold request_contract in He. unfold validate. rewrite He. done.
Qed.
Lemma init_wf : store_wf (a_store init_app).
Proof. intros sid s Hs. change ((∅ : gmap string SessionState) !! sid = Some s) in Hs. by rewrite lookup_empty in Hs. Qed.
Lemma answer_ok rounds fuel payload :
  (∀ request p, payload = VDict request → Planner.create_plan repr request = Ok p → (Executor.enough 1 p ≤ fuel)%nat) →
  ∃ x a, answer rounds fuel payload = Some (x, a) ∧ store_wf (a_store a) ∧
    match x with Ok response => ∃ request, payload = VDict request ∧ response_ok request response a | Err _ => True end.
Proof.
  intros Hfuel. destruct payload as [| | | | | |request]; cbn [answer];
    try (eexists _, _; split; [reflexivity|]; split; [apply init_wf|]; by destruct (request_contract _)).
  destruct (handle_request_ok utcnow monotonic repr exc_str contracts rounds fuel request init_app init_wf) as (x & a & Ha & Hw & Hx).
  { intros p. by apply Hfuel. }
  exists x, a. split_and!; [done|done|]. destruct x as [response|]; [|done]. by exists request.
Qed.
End main.
End AppMain.
Import AppMain AuditOutput.


Module MainExample.
(** The contract files of the repository, a request, and one without its text. *)
Definition files (path : string) : res string :=
  if decide (path = "request.json") then Ok (Json.dumps (VDict demo_app_request))
  else if decide (path = "bad.json") then Ok (Json.dumps (VDict [("request_id", VStr "r1"); ("session_id", VStr "s1")]))
  else match Json.strip "contracts/" path with
       | Some name => v ← contract_files name; Ok (Json.dumps v)
       | None => Err (OSError ("No such file or directory: " +:+ path))
       end.
Definition ran (request_file : string) : option (ending * app) :=
  main (λ _, "t") (λ _, PyFloat.zero) (λ _, "") (λ _, "") files (λ _, AttributeError "") request_file (λ _, mkRound [] []) 3.

(** The text of a refused request. *)
Example bad_request_printed :
  (λ r : ending * app, (r.1, a_audit r.2)) <$> ran "bad.json" = Some (Printed (Json.dumps (contract_error
    ["$: missing required field user_input"; "$: missing required field allowed_tools"]) +:+ TextFile.nl), []).
Proof. vm_compute. reflexivity. Qed.

End MainExample.
