(* ===== verification/EvalMain.v ===== *)
(** * A whole evaluation run (src/eval/runner.py, [run] and [main])

    The samples run, one after the other or on the pool; the results are
    aggregated; every output file is written; the program prints the summary.
    The composition of [EvalParallel] and [Artifacts]. *)
From S2P Require Import Prelude PyFloat PyValue Json JsonFacts Retrieval Release Observability Scorer EvalRunner EvalRag EvalParallel Archive Artifacts.
Local Open Scope Z_scope.

Module EvaluationMain.
Section run.
Variables (encode : text → string) (to_str : pyval → string) (parse_float : string → option float).
Variables (pstdev : list float → float) (template : string) (stamps : nat → float).

(** The runner and the output directory. *)
Abbreviation state := (runner * dict string)%type.

(** [run]; [run_all] is [_run_samples]. *)
Definition run (run_all : list EvalSample → st runner (list EvalCaseResult)) (dataset_name : string)
    (samples : list EvalSample) : st state (dict pyval) :=
  st_lift (raise_if (bool_decide (samples = [])) (ValueError "dataset must contain at least one sample")) ≫= λ _,
  case_results ← zoom fst (λ r s, (r, s.2)) (run_all samples);
  summary ← st_lift (Scorer.aggregate_results pstdev dataset_name case_results);
  o ← st_gets (λ s, rn_obs s.1);
  zoom snd (λ f s, (s.1, f))
    (RunOutputs.write_outputs encode to_str parse_float template summary samples case_results o stamps).

(** [main]: what is printed *)
Definition main (run_all : list EvalSample → st runner (list EvalCaseResult)) (dataset_name : string)
    (samples : list EvalSample) : st state string :=
  summary ← run run_all dataset_name samples; mret (Json.dumps_indent 2 (VDict summary) +:+ TextFile.nl).

(** What a completed run leaves: the steps it went through. *)
Lemma main_inv run_all dataset_name samples r files out r' files' :
  main run_all dataset_name samples (r, files) = (Ok out, (r', files')) →
  ∃ results summary, samples ≠ [] ∧ run_all samples r = (Ok results, r') ∧
    Scorer.aggregate_results pstdev dataset_name results = Ok summary ∧
    RunOutputs.write_outputs encode to_str parse_float template summary samples results (rn_obs r') stamps files =
      (Ok (Scorer.to_dict encode summary), files') ∧
    out = RunOutputs.json_file (VDict (Scorer.to_dict encode summary)).
Proof.
  unfold main, run, zoom. intros H. inv_st.
  match goal with H : raise_if _ _ = Ok _ |- _ => apply raise_if_Ok, bool_decide_eq_false in H end.
  match goal with H : context [run_all samples] |- _ => rename H into Hr end.
  match goal with H : context [RunOutputs.write_outputs] |- _ => rename H into Hw end. cbn [fst snd] in Hr.
  destruct (run_all samples r) as [results r1]. injection Hr as -> <-. cbn [fst snd] in Hw.
  match type of Hw with context [let '(_, _) := ?w in _] => destruct w as [d files1] eqn:E end. injection Hw as -> <- <-.
  destruct (OutputFacts.write_outputs_files _ _ _ _ _ _ _ _ _ _ _ _ E) as [-> _].
  do 2 eexists. split_and!; [done|reflexivity|done|exact E|reflexivity].
Qed.

Lemma aggregate_total dataset_name results summary :
  Scorer.aggregate_results pstdev dataset_name results = Ok summary →
  su_total_samples summary = Z.of_nat (length results) ∧ su_dataset_name summary = dataset_name.
Proof.
  unfold Scorer.aggregate_results. intros H. apply bind_Ok in H as (? & _ & H). apply bind_Ok in H as (? & _ & H).
  by injection H as <-.
Qed.
End run.
End EvaluationMain.
Import EvaluationMain.

(** A parallel run that completes prints the summary that its file holds, over as
    many cases as the dataset has samples; the trace file has one line for every
    span of every sample and no other, the log file likewise. *)
Theorem parallel_run_writes_all encode to_str parse_float pstdev template stamps time date perf hex uuid hash repr repr_list
    exc_str dumps pow lower is_space is_alnum is_word log exp float_str md5 h config max_workers timeout env
    dataset_name samples r files out r' files' :
  let alone := ParallelRunner.threads time date perf hex uuid hash repr repr_list exc_str dumps pow lower is_space is_alnum
    is_word log exp float_str md5 h config samples r in
  1 < max_workers → length (ParallelRunner.pr_jobs env) = length samples → spans (rn_obs r) = [] → logs (rn_obs r) = [] →
  main encode to_str parse_float pstdev template stamps
    (ParallelRunner.run_samples time date perf hex uuid hash repr repr_list exc_str dumps pow lower is_space is_alnum
      is_word log exp float_str md5 h config max_workers timeout env) dataset_name samples (r, files) = (Ok out, (r', files')) →
  dlookup "summary.json" files' = Some out ∧
  (∃ summary, out = RunOutputs.json_file (VDict (Scorer.to_dict encode summary)) ∧
     su_total_samples summary = Z.of_nat (length samples)) ∧
  (∃ l, dlookup "traces.jsonl" files' = Some (TextFile.jsonl (VDict ∘ Tracer.to_dict <$> l)) ∧
     l ≡ₚ concat ((λ t, spans (rn_obs t.2)) <$> alone)) ∧
  (∃ l, dlookup "logs.jsonl" files' = Some (TextFile.jsonl (VDict ∘ Logger.to_dict <$> l)) ∧
     l ≡ₚ concat ((λ t, logs (rn_obs t.2)) <$> alone)).
Proof.
  intros alone Hw Hl Hsp Hlg H. apply main_inv in H as (results & summary & Hne & Hr & Ha & Ho & ->).
  apply OutputFacts.write_outputs_files in Ho as (_ & Hs & _ & Ht & Hlo & _). split; [done|].
  apply aggregate_total in Ha as [Ha _]. unfold ParallelRunner.run_samples in Hr.
  rewrite (proj2 (Z.leb_gt max_workers 1)) in Hr by lia. unfold ParallelRunner.run_pool in Hr. injection Hr as Hc <-.
  split_and!.
  - exists summary. split; [done|]. rewrite Ha. f_equal.
    eapply (ParallelRunner.pool_accounted time date perf hex uuid); [exact Hc|].
    rewrite ThreadPool.finish_times_length; [done|].
    assert (Z.to_nat max_workers = S (Z.to_nat (max_workers - 1))) as -> by lia. done.
  - cbn [spans rn_obs] in Ht. rewrite Hsp in Ht. eexists. split; [exact Ht|]. apply ThreadPool.weave_perm.
  - cbn [logs rn_obs] in Hlo. rewrite Hlg in Hlo. eexists. split; [exact Hlo|]. apply ThreadPool.weave_perm.
Qed.
