(* ===== verification/MultiAgentEval.v ===== *)
(** * Comparison of the demo flows (src/src/multi_agent/evaluator.py)

    The evaluator runs the three demo flows under a trace, compares their
    metrics and writes a summary, a report, the traces and the logs.  [time] and
    [perf] are the readings of the clocks, [hex] the identifiers, [repr] the
    interpreter's texts; the flows read clocks of their own. *)
From S2P Require Import Prelude PyFloat PyValue PySort PyFormat Json JsonFacts SharedMemory Messaging Dispatcher MultiAgent Observability Scorer EvalRunner Archive Artifacts.
Local Open Scope Z_scope.

Module MultiAgentEvaluator.
Record evaluator := mkEvaluator {
  ev_obs : obs;       (* the tracer and the logger *)
  ev_perf : nat;      (* readings of the performance counter *)
  ev_files : dict string;
}.
(** [__init__]; the output directory is empty. *)
Definition init : evaluator := mkEvaluator (mkObs [] [] 0 0) 0 [].

Section evaluator.
Variables (time perf : nat → float) (hex : nat → string) (repr : pyval → string).
(** The clocks of the flows *)
Variables (flow_time flow_perf : nat → float).
Abbreviation M := (st evaluator).

Definition set_obs (o : obs) (e : evaluator) : evaluator := mkEvaluator o (ev_perf e) (ev_files e).
Definition with_obs {A} (m : st obs A) : M A := zoom ev_obs set_obs m.
Definition perf_counter : M float := λ e,
  (Ok (perf (ev_perf e)), mkEvaluator (ev_obs e) (S (ev_perf e)) (ev_files e)).
Definition write (name content : string) : M unit :=
  st_modify (λ e, mkEvaluator (ev_obs e) (ev_perf e) (dinsert name content (ev_files e))).

(** [v[k]] on a dictionary, and [v[k1][k2]] *)
Definition item (k : string) (v : pyval) : res pyval :=
  match v with
  | VDict d => Py.subscript k d
  | v => Err (TypeError ("'" +:+ Py.type_name v +:+ "' object is not subscriptable"))
  end.
Definition item2 (k1 k2 : string) (v : pyval) : res pyval := x ← item k1 v; item k2 x.
(** [result[k] = v] *)
Definition set_item (k : string) (v : pyval) (result : pyval) : res pyval :=
  match result with
  | VDict d => Ok (VDict (dinsert k v d))
  | r => Err (TypeError ("'" +:+ Py.type_name r +:+ "' object does not support item assignment"))
  end.

Definition context (case_id : string) : TraceContext :=
  mkTraceContext ("trace-" +:+ case_id) ("sess-" +:+ case_id) case_id [].
Definition run_with_trace (case_id : string) (callback : res pyval) : M pyval :=
  let trace_context := context case_id in
  start_time ← perf_counter;
  with_obs (Logger.info time None "multi_agent" "flow_start" "Demo flow started" (Some trace_context) None None) ≫= λ _,
  result ← Tracer.with_span time hex None ev_obs set_obs trace_context "multi_agent" "demo_flow" (λ step_id,
    result ← st_lift callback;
    status ← st_lift (Py.get "status" VNone result);
    with_obs (Logger.info time None "multi_agent" "flow_complete" "Demo flow completed" (Some trace_context)
      (Some step_id) (Some [("status", status)])) ≫= λ _,
    mret result);
  now ← perf_counter;
  st_lift (r ← set_item "latency_ms" (VFloat (PyFloat.mul (PyFloat.sub now start_time) (PyFloat.of_Z 1000))) result;
           r ← set_item "trace_id" (VStr (tc_trace_id trace_context)) r;
           set_item "session_id" (VStr (tc_session_id trace_context)) r).

Definition build_summary (single_agent multi_agent conflict : pyval) : res pyval :=
  single_roles ← item2 "metrics" "role_count" single_agent;
  multi_roles ← item2 "metrics" "role_count" multi_agent;
  multi_callbacks ← item2 "metrics" "callback_count" multi_agent;
  requires_human ← item2 "metrics" "requires_human" conflict;
  Ok (VDict [("single_agent", single_agent); ("multi_agent_standard", multi_agent);
             ("multi_agent_conflict", conflict);
             ("comparison", VDict [("single_agent_role_count", single_roles);
                ("multi_agent_role_count", multi_roles); ("multi_agent_callback_count", multi_callbacks);
                ("conflict_requires_human", requires_human)])]).

(** [f"...{x}..."] *)
Definition shown (v : res pyval) : res string := Py.to_str repr <$> v.
Definition quoted (v : res pyval) : res string := (λ s, "`" +:+ s +:+ "`") <$> shown v.
Definition report_lines (summary : pyval) : res (list string) :=
  single ← shown (item2 "comparison" "single_agent_role_count" summary);
  multi ← shown (item2 "comparison" "multi_agent_role_count" summary);
  callbacks ← shown (item2 "comparison" "multi_agent_callback_count" summary);
  human ← shown (item2 "comparison" "conflict_requires_human" summary);
  single_status ← quoted (item2 "single_agent" "status" summary);
  single_result ← quoted (item2 "single_agent" "result" summary);
  standard_status ← quoted (item2 "multi_agent_standard" "status" summary);
  version ← quoted (m ← item2 "multi_agent_standard" "metrics" summary; item "memory_version" m);
  conflict_status ← quoted (item2 "multi_agent_conflict" "status" summary);
  role ← quoted (item2 "multi_agent_conflict" "selected_role" summary);
  Ok ["# W7 Single vs Multi Agent"; "";
      "- Single Agent Roles: " +:+ single; "- Multi Agent Roles: " +:+ multi;
      "- Multi Agent Callbacks: " +:+ callbacks; "- Conflict Requires Human: " +:+ human; "";
      "## Single Agent"; ""; "- Status: " +:+ single_status; "- Result: " +:+ single_result; "";
      "## Multi Agent Standard"; ""; "- Status: " +:+ standard_status; "- Memory Version: " +:+ version; "";
      "## Multi Agent Conflict"; ""; "- Status: " +:+ conflict_status; "- Selected Role: " +:+ role].

Definition run : M pyval :=
  single_agent ← run_with_trace "single-agent" (Ok (DemoFlow.run_single_agent_flow flow_perf));
  multi_agent ← run_with_trace "multi-agent-standard" (DemoFlow.run_standard_flow repr flow_time);
  conflict ← run_with_trace "multi-agent-conflict" DemoFlow.run_conflict_flow;
  summary ← st_lift (build_summary single_agent multi_agent conflict);
  write "summary.json" (RunOutputs.json_file summary) ≫= λ _,
  lines ← st_lift (report_lines summary);
  write "report.md" (Template.document lines) ≫= λ _,
  spans ← st_gets (λ e, Tracer.list_spans (ev_obs e));
  write "traces.jsonl" (TextFile.jsonl (VDict ∘ Tracer.to_dict <$> spans)) ≫= λ _,
  logs ← st_gets (λ e, Logger.list_entries (ev_obs e));
  write "logs.jsonl" (TextFile.jsonl (VDict ∘ Logger.to_dict <$> logs)) ≫= λ _,
  mret summary.
End evaluator.
End MultiAgentEvaluator.

Module EvaluatorFacts.
Import MultiAgentEvaluator.
Section facts.
Variables (time perf : nat → float) (hex : nat → string).

(** What a traced flow adds. *)
Lemma run_with_trace_spec case_id d e : ∃ latency span l1 l2 clock ids,
  run_with_trace time perf hex case_id (Ok (VDict d)) e =
  (Ok (VDict (dinsert "session_id" (VStr ("sess-" +:+ case_id))
     (dinsert "trace_id" (VStr ("trace-" +:+ case_id)) (dinsert "latency_ms" (VFloat latency) d)))),
   mkEvaluator (mkObs (spans (ev_obs e) ++ [span]) (logs (ev_obs e) ++ [l1; l2]) clock ids) (S (S (ev_perf e))) (ev_files e)) ∧
  (sp_case_id span, sp_status span) = (case_id, "ok") ∧
  (le_case_id l1, le_event_type l1) = (Some case_id, "flow_start") ∧
  (le_case_id l2, le_event_type l2) = (Some case_id, "flow_complete").
Proof.
  destruct e as [[ss ls clock ids] p files]. do 6 eexists. split; [|split_and!].
  - cbv [run_with_trace mbind st_bind res_bind perf_counter with_obs zoom set_obs Logger.info Logger.append now_ms st_lift
      st_modify export mret st_ret Tracer.with_span Tracer.start_span Tracer.enter Tracer.in_span Tracer.exit_
      Tracer.finish Tracer.record Tracer.close raise_if set_item Py.get ev_obs ev_perf ev_files spans logs ob_clock ob_ids
      sc_closed sc_step_id].
    rewrite <-(assoc_L (++)). reflexivity.
  - reflexivity.
  - reflexivity.
  - reflexivity.
Qed.
End facts.
End EvaluatorFacts.

(** The comparison always completes, whatever the clocks and identifiers are:
    the single agent has one role, the standard flow three roles and two
    callbacks, the conflict needs a human; the summary file reads back as the
    summary; every flow has one closed span and a start and a completion entry
    in the log, in order; the trace and log files hold them line by line. *)
Theorem comparison_completes time perf hex repr flow_time flow_perf :
  let '(r, e) := MultiAgentEvaluator.run time perf hex repr flow_time flow_perf MultiAgentEvaluator.init in
  let cases := ["single-agent"; "multi-agent-standard"; "multi-agent-conflict"] in
  ∃ summary, r = Ok summary ∧
  MultiAgentEvaluator.item "comparison" summary = Ok (VDict [("single_agent_role_count", VInt 1);
    ("multi_agent_role_count", VInt 3); ("multi_agent_callback_count", VInt 2); ("conflict_requires_human", VBool true)]) ∧
  (JsonRoundTrip.json_ok summary = true →
   load_report (dget "summary.json" "" (MultiAgentEvaluator.ev_files e)) = Ok summary) ∧
  (λ s, (sp_case_id s, sp_status s)) <$> spans (MultiAgentEvaluator.ev_obs e) = (λ c, (c, "ok")) <$> cases ∧
  (λ l, (le_case_id l, le_event_type l)) <$> logs (MultiAgentEvaluator.ev_obs e) =
    (c ← cases; [(Some c, "flow_start"); (Some c, "flow_complete")]) ∧
  dget "traces.jsonl" "" (MultiAgentEvaluator.ev_files e) =
    TextFile.jsonl (VDict ∘ Tracer.to_dict <$> spans (MultiAgentEvaluator.ev_obs e)) ∧
  dget "logs.jsonl" "" (MultiAgentEvaluator.ev_files e) =
    TextFile.jsonl (VDict ∘ Logger.to_dict <$> logs (MultiAgentEvaluator.ev_obs e)).
Proof.
  unfold MultiAgentEvaluator.run. destruct (demo_flows_complete repr flow_time) as [-> [chain ->]].
  unfold DemoFlow.run_single_agent_flow, MultiAgentEvaluator.init. cbv zeta. unfold mbind, st_bind.
  edestruct (EvaluatorFacts.run_with_trace_spec time perf hex "single-agent") as (t1 & s1 & a1 & b1 & c1 & i1 & -> & Hs1 & Ha1 & Hb1).
  edestruct (EvaluatorFacts.run_with_trace_spec time perf hex "multi-agent-standard") as (t2 & s2 & a2 & b2 & c2 & i2 & -> & Hs2 & Ha2 & Hb2).
  edestruct (EvaluatorFacts.run_with_trace_spec time perf hex "multi-agent-conflict") as (t3 & s3 & a3 & b3 & c3 & i3 & -> & Hs3 & Ha3 & Hb3).
  cbn -[Template.document RunOutputs.json_file TextFile.jsonl JsonRoundTrip.json_ok load_report pretty].
  eexists. split; [reflexivity|]. split; [reflexivity|]. split; [|split_and!].
  - intros Hok. by apply OutputFacts.json_file_reads.
  - cbn. by rewrite Hs1, Hs2, Hs3.
  - cbn. by rewrite Ha1, Ha2, Ha3, Hb1, Hb2, Hb3.
  - reflexivity.
  - reflexivity.
Qed.
