(* ===== verification/EvalScript.v ===== *)
(** * The knowledge base of an evaluation and the retrieval script
    (src/eval/runner.py, src/eval/scripts/eval_rag.py)

    The five documents the runner indexes, the eleven of the script, and the
    script's run over a dataset.  [lower], [is_space], [is_word] and [log], [exp],
    [md5] are as in the retrieval model; every reading of the clock is counted. *)
From S2P Require Import Prelude PyFloat PyValue Persistence PySort PyFormat Json JsonFacts Retrieval Compressor Release Observability Scorer EvalRunner EvalRag Archive Artifacts.
Local Open Scope Z_scope.

(** ** Documents *)
Definition document : Type := string * string * text.
Definition txt (s : string) : text := Json.points_of s.

Definition runner_documents : list document :=
  [("doc_refund_policy", "doc", txt "退款政策规定退款有效期为30天，超过30天不予退款。用户需在购买后30天内提出退款申请。");
   ("doc_merchant_onboard", "doc", txt "商户入驻需要提供以下资质：营业执照、食品经营许可证、法人身份证。所有证件需在有效期内。");
   ("doc_coupon_rules", "doc", txt "优惠券规则：单张优惠券最大面额为500元。每日领券上限为10张。默认不允许叠加使用。");
   ("doc_verification", "doc", txt "核销流程说明：核销超时时间为30分钟，超过30分钟未完成核销将自动取消。");
   ("doc_settlement", "doc", txt "商户结算提现流程：进入商户端，点击财务管理，选择提现申请，填写金额，提交审核，1到3个工作日到账。")].

Definition script_documents : list document :=
  [("doc_refund_policy", "doc", txt "退款政策规定退款有效期为30天，超过30天不予退款。用户需在购买后30天内提出退款申请。");
   ("doc_merchant_onboard", "doc", txt "商户入驻需要提供以下资质：营业执照、食品经营许可证、法人身份证。所有证件需在有效期内。");
   ("doc_coupon_rules", "doc", txt "优惠券规则：单张优惠券最大面额为500元。每日领券上限为10张。默认不允许叠加使用，除非活动明确标注支持叠加。");
   ("doc_verification", "doc", txt "核销流程说明：核销超时时间为30分钟，超过30分钟未完成核销将自动取消。");
   ("doc_settlement", "doc", txt "商户结算提现流程：进入商户端，点击财务管理，选择提现申请，填写金额，提交审核，1到3个工作日到账。");
   ("doc_complaint", "doc", txt "用户投诉处理流程：用户提交投诉后，客服48小时内响应，进行调查核实，给出处理方案，用户确认后关闭工单。");
   ("doc_activity_approval", "doc", txt "新活动上线审批流程：运营创建活动，主管审批，风控审核，技术确认，灰度发布，全量上线。");
   ("doc_merchant_freeze", "doc", txt "商户被冻结后已核销的订单正常结算，冻结期间新订单暂停核销。解冻后恢复正常。");
   ("doc_system_arch", "doc", txt "系统架构采用消息队列异步处理，升级期间订单会暂存队列，升级完成后自动补处理。Redis原子扣减保障库存不超发。");
   ("doc_merchant_rating", "doc", txt "商户评分低于3分将触发预警，连续两周低于3分将暂停推荐位展示，连续四周将启动商户约谈。");
   ("doc_merchant_manage", "doc", txt "商户管理制度包含评分预警、约谈、暂停合作三个等级。评分由用户评价、投诉率、核销成功率综合计算。")].

Module Seed.
Import HybridRetriever.
Section seed.
Context (lower : text → text) (is_word : Z → bool).

Definition chunk (d : document) (updated_at : float) : RetrievalChunk :=
  mkChunk (d.1.1 +:+ "_chunk_0") d.2 PyFloat.zero d.1.1 d.1.2 "public" [("updated_at", VFloat updated_at)] "".
Definition indexed (d : document) (updated_at : float) : IndexedChunk :=
  mkIndexedChunk (d.1.1 +:+ "_chunk_0") d.2 d.1.1 d.1.2 "public" [("updated_at", VFloat updated_at)] [].
Definition add (chunks : list RetrievalChunk) (ixs : list IndexedChunk) (h : retriever) : retriever :=
  mkRetriever (VectorRetriever.add_documents chunks (vector_retriever h))
    (KeywordRetriever.add_documents lower is_word ixs (keyword_retriever h)) (merge_strategy h) (vector_weight h)
    (keyword_weight h) (final_top_k h) (rrf_k h) (access_checker h).

(** [HybridRetriever(final_top_k=10)] *)
Definition fresh : retriever :=
  mkRetriever (VectorRetriever.new 20) (KeywordRetriever.new 20 (PyFloat.ratio 3 2) (PyFloat.ratio 3 4)) RRF
    (PyFloat.ratio 3 5) (PyFloat.ratio 2 5) 10 60 None.

(** [_seed_mock_knowledge]: one reading of the clock per document, shared by its
    two index entries; the script's [build_mock_index] takes two. *)
Definition seed_mock_knowledge (time : nat → float) (h : retriever) : retriever :=
  add (imap (λ i d, chunk d (time i)) runner_documents) (imap (λ i d, indexed d (time i)) runner_documents) h.
Definition build_mock_index (time : nat → float) (h : retriever) : retriever :=
  add (imap (λ i d, chunk d (time (2 * i)%nat)) script_documents)
    (imap (λ i d, indexed d (time (2 * i + 1)%nat)) script_documents) h.
End seed.
End Seed.

(** ** eval_rag.py *)
Record ScriptSample := mkScriptSample {
  ss_id : string;
  ss_category : string;
  ss_query : text;
  ss_expected_answer : text;
  ss_relevant_source_ids : list string;
  ss_difficulty : string;
}.
Record EvalMetrics := mkMetrics {
  em_sample_id : string;
  em_recall_at_5 : float;
  em_recall_at_10 : float;
  em_mrr : float;
  em_answer_f1 : float;
  em_latency_ms : float;
  em_retrieved_source_ids : list string;
  em_num_chunks_after_compress : Z;
}.
Record GroupReport := mkGroupReport {
  gp_count : Z;
  gp_avg_recall_at_5 : float;
  gp_avg_recall_at_10 : float;
  gp_avg_mrr : float;
  gp_avg_answer_f1 : float;
  gp_avg_latency_ms : float;
}.
Record EvalReport := mkEvalReport {
  ep_dataset_name : string;
  ep_total_samples : Z;
  ep_avg_recall_at_5 : float;
  ep_avg_recall_at_10 : float;
  ep_avg_mrr : float;
  ep_avg_answer_f1 : float;
  ep_avg_latency_ms : float;
  ep_p95_latency_ms : float;
  ep_by_category : dict GroupReport;
  ep_by_difficulty : dict GroupReport;
  ep_details : list EvalMetrics;
}.

Module RagScript.
(** Every field is required and there is no other. *)
Definition fields : list (string * option pyval) :=
  (λ k, (k, None)) <$> ["id"; "category"; "query"; "expected_answer"; "relevant_source_ids"; "difficulty"].
Definition load_dataset (content : string) : res (list (dict pyval)) :=
  Dataset.load_all fields (TextFile.documents content).

Section text.
Context (lower : text → text) (is_space is_word : Z → bool).

(** [re.findall(r"[\w\u4e00-\u9fff]+", text)] *)
Definition tokenize_for_f1 (t : text) : list text :=
  runs (λ c, is_word c || is_cjk c) (Compressor.strip is_space (lower t)).
Definition compute_f1 (predicted expected : text) : res float :=
  match tokenize_for_f1 predicted, tokenize_for_f1 expected with
  | [], _ | _, [] => Ok PyFloat.zero
  | _, _ =>
      let pred_tokens := tokenize_for_f1 predicted in
      let exp_tokens := tokenize_for_f1 expected in
      let pred_set : gset text := list_to_set pred_tokens in
      let exp_set : gset text := list_to_set exp_tokens in
      let common := Z.of_nat (size (pred_set ∩ exp_set)) in
      if common =? 0 then Ok PyFloat.zero else
      let precision := PyFloat.ratio common (Z.of_nat (size pred_set)) in
      let recall := PyFloat.ratio common (Z.of_nat (size exp_set)) in
      PyFloat.true_div (PyFloat.mul (PyFloat.mul (PyFloat.of_Z 2) precision) recall) (PyFloat.add precision recall)
  end.
End text.

Definition compute_recall_at_k (retrieved relevant : list string) (k : Z) : float :=
  if bool_decide (relevant = []) then PyFloat.of_Z 1
  else
    let retrieved_set : gset string := list_to_set (slice_to k retrieved) in
    let relevant_set : gset string := list_to_set relevant in
    PyFloat.ratio (Z.of_nat (size (retrieved_set ∩ relevant_set))) (Z.of_nat (size relevant_set)).
(** The loop over [enumerate], from zero. *)
Fixpoint first_relevant (relevant : gset string) (rank : Z) (retrieved : list string) : float :=
  match retrieved with
  | [] => PyFloat.zero
  | s :: retrieved =>
      if bool_decide (s ∈ relevant) then PyFloat.div (PyFloat.of_Z 1) (PyFloat.of_Z (rank + 1))
      else first_relevant relevant (rank + 1) retrieved
  end.
Definition compute_mrr (retrieved relevant : list string) : float :=
  if bool_decide (relevant = []) then PyFloat.of_Z 1 else first_relevant (list_to_set relevant) 0 retrieved.

(** [sum(f(m) for m in l) / n if n else 0] *)
Definition mean (f : EvalMetrics → float) (l : list EvalMetrics) : float :=
  if bool_decide (l = []) then PyFloat.zero
  else PyFloat.div (PySort.fsum (f <$> l)) (PyFloat.of_Z (Z.of_nat (length l))).
(** [sorted(latencies)[int(n * 0.95)] if n else 0] *)
Definition p95_latency (latencies : list float) : res float :=
  match latencies with
  | [] => Ok PyFloat.zero
  | _ =>
      i ← PyFloat.trunc (PyFloat.mul (PyFloat.of_Z (Z.of_nat (length latencies))) Scorer.p95);
      item (PySort.sort PyFloat.lt latencies) i
  end.

(** [_group_metrics]; a sample with a repeated id is found under the last one. *)
Definition sample_map (samples : list ScriptSample) : dict ScriptSample :=
  foldl (λ d s, dinsert (ss_id s) s d) [] samples.
Definition add_to_group (field : ScriptSample → string) (index : dict ScriptSample) (groups : dict (list EvalMetrics))
    (m : EvalMetrics) : dict (list EvalMetrics) :=
  match dlookup (em_sample_id m) index with
  | None => groups
  | Some s => dinsert (field s) (dget (field s) [] groups ++ [m]) groups
  end.
Definition group_report (l : list EvalMetrics) : GroupReport :=
  mkGroupReport (Z.of_nat (length l)) (mean em_recall_at_5 l) (mean em_recall_at_10 l) (mean em_mrr l)
    (mean em_answer_f1 l) (mean em_latency_ms l).
Definition group_metrics (metrics : list EvalMetrics) (samples : list ScriptSample) (field : ScriptSample → string) :
    dict GroupReport :=
  prod_map id group_report <$> foldl (add_to_group field (sample_map samples)) [] metrics.

(** The compressor and the number of clock readings so far. *)
Definition session : Type := Compressor.compressor * nat.
Abbreviation M := (st session).
Section run.
Context (time : nat → float) (lower : text → text) (is_space is_alnum is_word : Z → bool).
Context (log : float → res float) (exp : float → float) (float_str : float → string) (md5 : text → string).

Definition readings (n : nat) : M (nat → float) := λ s,
  (Ok (λ i, time (s.2 + i)%nat), (s.1, s.2 + n)%nat).
Definition compress (results : list RerankResult) : M CompressionResult :=
  t ← readings 2;
  zoom fst (λ c s, (c, s.2)) (Compressor.compress is_space is_alnum lower md5 results None (t 0%nat) (t 1%nat)).

(** [" ".join(l)] *)
Fixpoint join_spaces (l : list text) : text :=
  match l with [] => [] | [t] => t | t :: l => t ++ 32 :: join_spaces l end.
Definition evaluate_sample (h : HybridRetriever.retriever) (sample : ScriptSample) : M EvalMetrics :=
  start ← readings 1;
  t ← readings 2;
  retrieval_result ← st_lift (HybridRetriever.retrieve lower is_word log h (ss_query sample) "public" None
    (t 0%nat) (t 1%nat));
  t ← readings (2 + length (rr_chunks retrieval_result));
  rerank_output ← st_lift (Reranker.rerank exp float_str t Reranker.default_config (rr_chunks retrieval_result) None);
  compression ← compress (ro_results rerank_output);
  finish ← readings 1;
  let elapsed_ms := PyFloat.mul (PyFloat.sub (finish 0%nat) (start 0%nat)) (PyFloat.of_Z 1000) in
  let retrieved_ids := (λ r, source_id (rk_chunk r)) <$> ro_results rerank_output in
  let generated_answer := join_spaces (cc_content <$> cr_chunks compression) in
  f1 ← st_lift (compute_f1 lower is_space is_word generated_answer (ss_expected_answer sample));
  let relevant := ss_relevant_source_ids sample in
  mret (mkMetrics (ss_id sample) (compute_recall_at_k retrieved_ids relevant 5)
    (compute_recall_at_k retrieved_ids relevant 10) (compute_mrr retrieved_ids relevant) f1 elapsed_ms retrieved_ids
    (Z.of_nat (length (cr_chunks compression)))).
Fixpoint evaluate_all (h : HybridRetriever.retriever) (samples : list ScriptSample) : M (list EvalMetrics) :=
  match samples with
  | [] => mret []
  | s :: samples => m ← evaluate_sample h s; rest ← evaluate_all h samples; mret (m :: rest)
  end.

(** [Compressor(budget_manager=ContextBudgetManager(max_total_tokens=4096))] *)
Definition fresh_compressor : Compressor.compressor :=
  Compressor.mkCompressor (ContextBudgetManager.new 4096 ContextBudgetManager.default_allocation)
    (PyFloat.ratio 8 10) 10 (PyFloat.ratio 3 10).
(** The loop of [run_evaluation] and the report, on a loaded dataset. *)
Definition run_evaluation (dataset_name : string) (samples : list ScriptSample) : res EvalReport :=
  let h := Seed.build_mock_index lower is_word time Seed.fresh in
  metrics ← (evaluate_all h samples (fresh_compressor, 2 * length script_documents)%nat).1;
  p95_lat ← p95_latency (em_latency_ms <$> metrics);
  Ok (mkEvalReport dataset_name (Z.of_nat (length metrics)) (mean em_recall_at_5 metrics) (mean em_recall_at_10 metrics)
    (mean em_mrr metrics) (mean em_answer_f1 metrics) (mean em_latency_ms metrics) p95_lat
    (group_metrics metrics samples ss_category) (group_metrics metrics samples ss_difficulty) metrics).
End run.
End RagScript.

(** [_write_report] *)
Module ScriptReport.
Definition fix4 (x : float) : string := PyFormat.fixed 4 x.
Definition group_row (kv : string * GroupReport) : string :=
  "| " +:+ kv.1 +:+ " | " +:+ PyFormat.fixed 0 (PyFloat.of_Z (gp_count kv.2)) +:+ " | " +:+
  fix4 (gp_avg_recall_at_5 kv.2) +:+ " | " +:+ fix4 (gp_avg_mrr kv.2) +:+ " | " +:+ fix4 (gp_avg_answer_f1 kv.2) +:+ " |".
Definition detail_row (m : EvalMetrics) : string :=
  "| " +:+ em_sample_id m +:+ " | " +:+ PyFormat.fixed 2 (em_recall_at_5 m) +:+ " | " +:+ PyFormat.fixed 2 (em_mrr m) +:+
  " | " +:+ PyFormat.fixed 2 (em_answer_f1 m) +:+ " | " +:+ PyFormat.fixed 1 (em_latency_ms m) +:+ " |".
Definition report_lines (r : EvalReport) : list string :=
  ["# RAG 评测报告"; ""; "- 数据集: " +:+ ep_dataset_name r; "- 样本数: " +:+ pretty (ep_total_samples r); "";
   "## 总体指标"; ""; "| 指标 | 值 |"; "|------|-----|";
   "| Recall@5 | " +:+ fix4 (ep_avg_recall_at_5 r) +:+ " |"; "| Recall@10 | " +:+ fix4 (ep_avg_recall_at_10 r) +:+ " |";
   "| MRR | " +:+ fix4 (ep_avg_mrr r) +:+ " |"; "| Answer-F1 | " +:+ fix4 (ep_avg_answer_f1 r) +:+ " |";
   "| Avg Latency | " +:+ PyFormat.fixed 1 (ep_avg_latency_ms r) +:+ "ms |";
   "| P95 Latency | " +:+ PyFormat.fixed 1 (ep_p95_latency_ms r) +:+ "ms |"; "";
   "## 按类别"; ""; "| 类别 | 样本数 | Recall@5 | MRR | F1 |"; "|------|--------|----------|-----|-----|"] ++
  (group_row <$> ep_by_category r) ++
  [""; "## 按难度"; ""; "| 难度 | 样本数 | Recall@5 | MRR | F1 |"; "|------|--------|----------|-----|-----|"] ++
  (group_row <$> ep_by_difficulty r) ++
  [""; "## 样本明细"; ""; "| ID | Recall@5 | MRR | F1 | Latency(ms) |"; "|----|----------|-----|-----|-------------|"] ++
  (detail_row <$> ep_details r).
Definition write_report (r : EvalReport) : string := Template.document (report_lines r).
End ScriptReport.

(** ** The script and the runner score alike *)
Module ScriptFacts.
Import RagScript.

Lemma recall_agrees retrieved relevant k :
  compute_recall_at_k retrieved relevant k = Scorer.compute_recall_at_k retrieved relevant k.
Proof. by destruct relevant. Qed.
Lemma first_relevant_agrees relevant retrieved : ∀ rank,
  first_relevant (list_to_set relevant) rank retrieved = Scorer.reciprocal_rank relevant (rank + 1) retrieved.
Proof.
  induction retrieved as [|s retrieved IH]; intros rank; [done|]. cbn [first_relevant Scorer.reciprocal_rank].
  rewrite IH. erewrite bool_decide_ext; [done|]. apply elem_of_list_to_set.
Qed.
Lemma mrr_agrees retrieved relevant : compute_mrr retrieved relevant = Scorer.compute_mrr retrieved relevant.
Proof. destruct relevant as [|r relevant]; [done|]. apply (first_relevant_agrees (r :: relevant) retrieved 0). Qed.

(** The index of the script, for up to 5000 values. *)
Definition index95 (n : Z) : Z := 95 * n / 100.
Definition index_exact (n : Z) : bool :=
  bool_decide (PyFloat.trunc (PyFloat.mul (PyFloat.of_Z n) Scorer.p95) = Ok (index95 n)).
Lemma indexes_exact : forallb index_exact (seqZ 1 5000) = true.
Proof. by vm_compute. Qed.
Lemma index95_exact n : 1 ≤ n ≤ 5000 → PyFloat.trunc (PyFloat.mul (PyFloat.of_Z n) Scorer.p95) = Ok (index95 n).
Proof.
  intros Hn. pose proof indexes_exact as H. rewrite forallb_forall in H.
  assert (index_exact n = true) as Hi by (apply H, list_elem_of_In, elem_of_seqZ; lia).
  by apply bool_decide_eq_true in Hi.
Qed.
Lemma index95_bounds n : 1 ≤ n → 0 ≤ index95 n < n.
Proof. intros Hn. unfold index95. pose proof (Z.div_mod (95 * n) 100). pose proof (Z.mod_pos_bound (95 * n) 100). lia. Qed.
Lemma index95_rank n : n mod 20 ≠ 0 → index95 n = PercentileFacts.rank95 n - 1.
Proof.
  intros Hn. unfold index95, PercentileFacts.rank95.
  pose proof (Z.div_mod n 20 ltac:(lia)). pose proof (Z.mod_pos_bound n 20 ltac:(lia)).
  pose proof (Z.div_mod (95 * n) 100 ltac:(lia)). pose proof (Z.mod_pos_bound (95 * n) 100 ltac:(lia)).
  pose proof (Z.div_mod (95 * n + 99) 100 ltac:(lia)). pose proof (Z.mod_pos_bound (95 * n + 99) 100 ltac:(lia)). lia.
Qed.

(** The script's percentile: an element with at most 95 percent of the values
    below it; the nearest rank unless 20 divides the number of values, when it
    is the element after it. *)
Theorem script_p95 (l : list float) :
  Forall (λ x, PyFloat.is_nan x = false) l → 1 ≤ Z.of_nat (length l) ≤ 5000 →
  ∃ v, p95_latency l = Ok v ∧ v ∈ l ∧
    100 * PySort.count_if (λ x, PyFloat.lt x v) l ≤ 95 * Z.of_nat (length l) ∧
    95 * Z.of_nat (length l) < 100 * PySort.count_if (λ x, PyFloat.le x v) l ∧
    (Z.of_nat (length l) mod 20 ≠ 0 → Scorer.compute_percentile l Scorer.p95 = Ok v).
Proof.
  intros Hn Hlen. set (n := Z.of_nat (length l)) in *. pose proof (index95_exact n Hlen) as Hi.
  pose proof (index95_bounds n ltac:(lia)) as Hb. set (s := PySort.sort PyFloat.lt l).
  assert (length s = length l) as Hl by apply PySort.length_sort.
  destruct (lookup_lt_is_Some_2 s (Z.to_nat (index95 n))) as [v Hv]; [lia|]. exists v.
  assert (p95_latency l = item s (index95 n)) as ->.
  { unfold p95_latency. destruct l; [simpl in *; lia|]. fold n. by rewrite Hi. }
  assert (s ≡ₚ l) as Hp by apply PySort.sort_perm.
  assert (Forall (λ x, PyFloat.is_nan x = false) s) as Hns by by rewrite Hp.
  destruct (PercentileFacts.sorted_rank s (Z.to_nat (index95 n)) v Hns) as [H1 H2]; [|done|].
  { eapply PySort.sort_sorted; [apply PySort.strict_weak_float|done]. }
  rewrite (PercentileFacts.count_if_perm _ _ _ Hp) in H1. rewrite (PercentileFacts.count_if_perm _ _ _ Hp) in H2.
  unfold item. rewrite Hv. split; [done|]. split; [rewrite <-Hp; by eapply list_elem_of_lookup_2|].
  pose proof (Z.div_mod (95 * n) 100 ltac:(lia)). pose proof (Z.mod_pos_bound (95 * n) 100 ltac:(lia)).
  unfold index95 in *. split; [lia|]. split; [lia|]. intros Hm.
  destruct (PercentileFacts.rank95_exact n Hlen) as [Hc _]. fold (index95 n) in *. pose proof (index95_rank n Hm) as Hr.
  unfold Scorer.compute_percentile. destruct l as [|x l]; [simpl in *; lia|]. fold s. rewrite Hl. fold n. rewrite Hc.
  cbn [mbind res_bind]. rewrite <-Hr, Z.max_r by lia. unfold item. by rewrite Hv.
Qed.

Example script_p95_of_20 : let l := PyFloat.of_Z <$> seqZ 1 20 in
  p95_latency l = Ok (PyFloat.of_Z 20) ∧ Scorer.compute_percentile l Scorer.p95 = Ok (PyFloat.of_Z 19).
Proof. by vm_compute. Qed.
End ScriptFacts.

(** ** Groups and sources *)
Module GroupFacts.
Import RagScript ScriptFacts.

(** The field of the sample a metric belongs to. *)
Definition field_of (field : ScriptSample → string) (index : dict ScriptSample) (m : EvalMetrics) : option string :=
  field <$> dlookup (em_sample_id m) index.
Lemma groups_filter field index k l : ∀ groups,
  dget k [] (foldl (add_to_group field index) groups l) =
  dget k [] groups ++ filter (λ m, field_of field index m = Some k) l.
Proof.
  induction l as [|m l IH]; intros groups; [by rewrite app_nil_r|]. cbn [foldl]. rewrite IH, filter_cons.
  unfold add_to_group, field_of. destruct (dlookup (em_sample_id m) index) as [s|]; cbn [fmap option_fmap option_map].
  - rewrite dget_dinsert. case_decide as Hk.
    + subst. rewrite decide_True by done. by rewrite <-app_assoc.
    + rewrite decide_False by naive_solver. done.
  - by rewrite decide_False.
Qed.

Lemma groups_NoDup field index l : ∀ groups, NoDup (dkeys groups) →
  NoDup (dkeys (foldl (add_to_group field index) groups l)).
Proof.
  induction l as [|m l IH]; intros groups Hg; [done|]. cbn [foldl]. apply IH. unfold add_to_group.
  case_match; [by apply dinsert_NoDup|done].
Qed.

(** A group of the report averages exactly the samples with that field. *)
Lemma group_metrics_spec metrics samples field k g : (k, g) ∈ group_metrics metrics samples field →
  g = group_report (filter (λ m, field_of field (sample_map samples) m = Some k) metrics).
Proof.
  intros Hin. unfold group_metrics in Hin. apply list_elem_of_fmap in Hin as ([k' l] & [= -> ->] & Hin).
  pose proof (groups_filter field (sample_map samples) k' metrics []) as Hg.
  rewrite elem_of_dlookup in Hin by (apply groups_NoDup; constructor).
  unfold dget at 1 in Hg. rewrite Hin in Hg. simpl in Hg. by rewrite Hg.
Qed.

(** What the runner and the script index is public and comes from their tables. *)
Definition from_documents (docs : list document) (c : RetrievalChunk) : Prop :=
  ∃ d, d ∈ docs ∧ content c = d.2 ∧ source_id c = d.1.1.
Lemma seeded_indexed lower is_word (ta tb : nat → float) docs c :
  RetrievalFacts.indexed (Seed.add lower is_word (imap (λ i d, Seed.chunk d (ta i)) docs)
    (imap (λ i d, Seed.indexed d (tb i)) docs) Seed.fresh) c → from_documents docs c.
Proof.
  intros [Hv|Hk].
  - destruct Hv as (c0 & Hin & Hc). cbn [Seed.add HybridRetriever.vector_retriever VectorRetriever.add_documents
      VectorRetriever.chunks Seed.fresh VectorRetriever.new app] in Hin.
    apply elem_of_lookup_imap in Hin as (i & d & -> & Hd%list_elem_of_lookup_2). exists d. naive_solver.
  - destruct Hk as (x & Hin & _ & Hc & _ & Hs & _). cbn [Seed.add HybridRetriever.keyword_retriever
      KeywordRetriever.add_documents KeywordRetriever.documents Seed.fresh KeywordRetriever.new app] in Hin.
    apply list_elem_of_fmap in Hin as (y & -> & Hin).
    apply elem_of_lookup_imap in Hin as (i & d & -> & Hd%list_elem_of_lookup_2). exists d.
    unfold KeywordRetriever.with_tokens in *. simpl in *. done.
Qed.

(** The answer of a retrieval sample on the runner's own knowledge is the
    expected refusal, the fixed text, or one of the five documents. *)
Theorem seeded_answers time perf hex lower is_space is_alnum is_word log exp float_str md5 config sample s cr s' :
  RagFlow.run_rag_sample time perf hex lower is_space is_alnum is_word log exp float_str md5
    (Seed.seed_mock_knowledge lower is_word time Seed.fresh) config sample s = (Ok cr, s') →
  (RagFlow.REFUSE `prefix_of` es_expected_answer sample ∧ ca_answer cr = es_expected_answer sample ∨
   ca_answer cr = RagFlow.NOT_FOUND ∨ ca_answer cr ∈ snd <$> runner_documents) ∧
  ca_retrieved_source_ids cr ⊆ (λ d, d.1.1) <$> runner_documents.
Proof.
  intros (Ha & Hs & _)%run_rag_visible. split.
  - destruct Ha as [?|[?|(c & [Hi _] & ->)]]; [by left|by right; left|right; right].
    apply seeded_indexed in Hi as (d & Hd & -> & _). by apply list_elem_of_fmap_2.
  - intros src (c & [Hi _] & ->)%Hs. apply seeded_indexed in Hi as (d & Hd & _ & ->).
    by apply (list_elem_of_fmap_2 (λ d : document, d.1.1)).
Qed.

(** A dataset with tags is no dataset for the script. *)
Example script_rejects_tags :
  load_dataset (TextFile.jsonl [VDict ((λ k, (k, VStr "x")) <$>
    ["id"; "category"; "query"; "expected_answer"; "relevant_source_ids"; "difficulty"; "tags"])]) =
  Err (TypeError "EvalSample.__init__() got an unexpected keyword argument 'tags'").
Proof. by vm_compute. Qed.

(** A question of the dataset: the policy document is found. *)
Example script_finds_refund_policy :
  let sample := mkScriptSample "fact_001" "factual" (txt "退款政策的有效期是多少天？") (txt "退款有效期为30天")
    ["doc_refund_policy"] "easy" in
  match run_evaluation (λ _, PyFloat.of_Z 43200) (λ t, t) (λ c, c =? 32) (λ _, true) (λ _, false) Ok (λ x, x) (λ _, "")
    (λ t, match t with [] => "" | c :: _ => pretty c end) "rag" [sample] with
  | Ok r => ep_total_samples r = 1 ∧ ep_avg_recall_at_5 r = PyFloat.of_Z 1 ∧ ep_avg_mrr r = PyFloat.of_Z 1 ∧
      dkeys (ep_by_category r) = ["factual"]
  | Err _ => False
  end.
Proof. vm_compute. done. Qed.
End GroupFacts.
