(* ===== verification/ConfigBackends.v ===== *)
(** * The configuration center over any backend
    (src/src/persistence/interfaces.py, src/src/config_center/config_store.py)

    The interface [ConfigBackend] as a class with its laws, the center as a client
    of the interface, and the two implementations as instances: the in-memory
    backend keeps the names without a colon apart, the SQLite backend the texts
    it can encode.  Backends may raise. *)
From S2P Require Import Prelude PyFloat PyValue Persistence ConfigCenter Json JsonFacts Sqlite.
Local Open Scope Z_scope.

(** ** The interface *)
Class ConfigBackend (B : Type) := {
  cb_get : string → string → B → res (option ConfigRecord);
  cb_put : ConfigRecord → st B unit;
  cb_delete : string → string → st B bool;
  cb_list_by_namespace : string → B → res (list ConfigRecord);
  cb_list_all : B → res (list ConfigRecord);
  cb_get_history : string → string → B → res (list ConfigRecord);
  cb_clear : B → B;
}.

Definition cf_name (r : ConfigRecord) : string * string := (cf_namespace r, cf_key r).

(** [cb_ok] is the representation invariant, [cb_name] the names a backend keeps
    apart, [cb_storable] the records it can keep. *)
Class ConfigBackendLaws (B : Type) `{ConfigBackend B} := {
  cb_ok : B → Prop;
  cb_name : string * string → Prop;
  cb_storable : ConfigRecord → Prop;
  cb_storable_name r : cb_storable r → cb_name (cf_name r);
  cb_get_total b x : cb_ok b → cb_name x → ∃ r, cb_get x.1 x.2 b = Ok r;
  cb_put_total b r : cb_ok b → cb_storable r → (cb_put r b).1 = Ok tt ∧ cb_ok (cb_put r b).2;
  cb_get_put b r x : cb_ok b → cb_storable r → cb_name x →
    cb_get x.1 x.2 (cb_put r b).2 = if decide (x = cf_name r) then Ok (Some r) else cb_get x.1 x.2 b;
  cb_list b : cb_ok b → ∃ l, cb_list_all b = Ok l ∧ NoDup (cf_name <$> l) ∧ Forall (cb_name ∘ cf_name) l ∧
    (∀ r, r ∈ l ↔ cb_name (cf_name r) ∧ cb_get (cf_namespace r) (cf_key r) b = Ok (Some r));
}.

(** ** The center *)
Module BackedCenter.
Import ConfigCenter.
Record center (B : Type) := mkBacked { store : B; watchers : ConfigWatcher.watchers }.
Arguments mkBacked {B}. Arguments store {B}. Arguments watchers {B}.

Section center.
Context {B : Type} `{ConfigBackend B}.

(** [ConfigCenter(backend=backend)] *)
Definition new (b : B) : center B := mkBacked b ConfigWatcher.init.
Definition with_store {A} (m : st B A) : st (center B) A := zoom store (λ b c, mkBacked b (watchers c)) m.

Definition get (namespace key : string) (c : center B) : res (option ConfigEntry) :=
  (λ r : option ConfigRecord, record_to_entry <$> r) <$> cb_get namespace key (store c).
Definition put (namespace key : string) (value : pyval) (config_type description : string) (now : float)
    : st (center B) (ConfigEntry * list (string * WatchEvent)) := λ c,
  (existing ← st_lift (cb_get namespace key (store c));
   let old_value := from_option cf_value VNone existing in
   let old_version := from_option cf_version 0 existing in
   let record := mkConfigRecord namespace key value (old_version + 1) config_type now description in
   with_store (cb_put record) ≫= λ _,
   let event := mkWatchEvent namespace key old_value value old_version (old_version + 1)
     (match existing with None => "created" | Some _ => "updated" end) in
   mret (record_to_entry record, ConfigWatcher.notify event (watchers c))) c.
Definition delete (namespace key : string) : st (center B) (bool * list (string * WatchEvent)) := λ c,
  (existing ← st_lift (cb_get namespace key (store c));
   match existing with
   | None => mret (false, [])
   | Some r =>
       with_store (cb_delete namespace key) ≫= λ _,
       let event := mkWatchEvent namespace key (cf_value r) VNone (cf_version r) (cf_version r) "deleted" in
       mret (true, ConfigWatcher.notify event (watchers c))
   end) c.
Definition list_namespace (namespace : string) (c : center B) : res (list ConfigEntry) :=
  fmap (M:=list) record_to_entry <$> cb_list_by_namespace namespace (store c).
Definition list_all (c : center B) : res (list ConfigEntry) :=
  fmap (M:=list) record_to_entry <$> cb_list_all (store c).
Definition history (namespace key : string) (c : center B) : res (list ConfigEntry) :=
  fmap (M:=list) record_to_entry <$> cb_get_history namespace key (store c).
End center.
End BackedCenter.

(** ** The in-memory backend *)
#[global] Instance memory_config : ConfigBackend InMemoryConfig.config_store := {
  cb_get n k b := Ok (InMemoryConfig.get n k b);
  cb_put r b := (Ok tt, InMemoryConfig.put r b);
  cb_delete n k b := let '(found, b) := InMemoryConfig.delete n k b in (Ok found, b);
  cb_list_by_namespace n b := Ok (InMemoryConfig.list_by_namespace n b);
  cb_list_all b := Ok (InMemoryConfig.list_all b);
  cb_get_history n k b := Ok (InMemoryConfig.get_history n k b);
  cb_clear := InMemoryConfig.clear;
}.

(** Over it the center is the one of ConfigCenter.v. *)
Lemma backed_in_memory n k v ty d now (c : ConfigCenter.center) :
  let b := BackedCenter.mkBacked (ConfigCenter.backend c) (ConfigCenter.watcher c) in
  let '(e, calls, c1) := ConfigCenter.put n k v ty d now c in
  let '(found, calls', c2) := ConfigCenter.delete n k c in
  BackedCenter.get n k b = Ok (ConfigCenter.get n k c) ∧ BackedCenter.list_all b = Ok (ConfigCenter.list_all c) ∧
  BackedCenter.put n k v ty d now b =
    (Ok (e, calls), BackedCenter.mkBacked (ConfigCenter.backend c1) (ConfigCenter.watcher c1)) ∧
  BackedCenter.delete n k b =
    (Ok (found, calls'), BackedCenter.mkBacked (ConfigCenter.backend c2) (ConfigCenter.watcher c2)).
Proof.
  destruct c as [s w].
  unfold ConfigCenter.put, ConfigCenter.delete, ConfigCenter.get, BackedCenter.put, BackedCenter.delete, BackedCenter.get,
    BackedCenter.with_store, zoom, st_lift, mbind, st_bind.
  cbn [ConfigCenter.backend ConfigCenter.watcher BackedCenter.store BackedCenter.watchers cb_get cb_put cb_delete memory_config].
  destruct (InMemoryConfig.get n k s) eqn:E; [|done]. split_and!; try done.
  unfold InMemoryConfig.delete. by destruct (dmem _ _).
Qed.

Module MemoryLaws.
Definition composite (r : ConfigRecord) : string := InMemoryConfig.composite_key (cf_namespace r) (cf_key r).
Definition ok (b : InMemoryConfig.config_store) : Prop :=
  keyed composite (InMemoryConfig.cs_store b) ∧
  Forall (λ r, no_char colon (cf_namespace r)) (InMemoryConfig.list_all b).

Lemma names_NoDup (d : dict ConfigRecord) : keyed composite d → NoDup (cf_name <$> d.*2).
Proof.
  intros [Hk Hnd]. induction d as [|[k r] d IH]; [constructor|]. rewrite dkeys_cons in Hnd.
  apply NoDup_cons in Hnd as [Hni Hnd]. rewrite !fmap_cons.
  apply NoDup_cons. split; [|apply IH; [|done]; intros k' r' Hin; apply Hk; by right].
  intros (r' & Heq & ([k' r''] & -> & Hin)%list_elem_of_fmap)%list_elem_of_fmap. cbn in Heq. injection Heq as E1 E2.
  apply Hni. unfold dkeys. apply list_elem_of_fmap. exists (k', r''). split; [|done]. cbn [fst].
  rewrite (Hk k r) by by left. rewrite (Hk k' r'') by by right. unfold composite. by rewrite E1, E2.
Qed.

#[global] Instance memory_config_laws : ConfigBackendLaws InMemoryConfig.config_store.
Proof.
  refine {| cb_ok := ok; cb_name x := no_char colon x.1; cb_storable r := no_char colon (cf_namespace r) |}.
  - done.
  - intros b x _ _. by eexists.
  - intros b r [[Hk Hnd] Hc] Hr. split; [done|]. split; [split; [|by apply dinsert_NoDup]|].
    + intros k r' [[= -> ->]|Hin]%elem_of_dinsert; [done|by apply Hk].
    + apply Forall_forall. intros r' ([k r''] & -> & [[= -> ->]|Hin]%elem_of_dinsert)%list_elem_of_fmap; [done|].
      rewrite Forall_forall in Hc. apply Hc, list_elem_of_fmap. by exists (k, r'').
  - intros b r [n k] _ Hr Hn. cbn [cb_get cb_put memory_config snd fst] in *. rewrite config_get_put by done.
    unfold cf_name. repeat case_decide; naive_solver.
  - intros b [Hk Hc]. exists (InMemoryConfig.list_all b). split_and!; [done|by apply names_NoDup|done|].
    intros r. cbn [cb_get memory_config]. unfold InMemoryConfig.get. fold (composite r). destruct Hk as [Hk Hnd]. split.
    + intros Hin. split; [rewrite Forall_forall in Hc; by apply Hc|].
      apply list_elem_of_fmap in Hin as ([k r'] & -> & Hin). f_equal. apply elem_of_dlookup; [done|]. cbn [snd].
      by rewrite <-(Hk _ _ Hin).
    + intros [_ [= Hl]]. apply list_elem_of_fmap. exists (composite r, r). split; [done|]. by apply elem_of_dlookup.
Defined.
End MemoryLaws.

(** ** The SQLite backend *)
Definition sqlite_config (real_cell : float → option float) : ConfigBackend SQLiteConfigBackend.tables := {|
  cb_get := SQLiteConfigBackend.get;
  cb_put := SQLiteConfigBackend.put real_cell;
  cb_delete := SQLiteConfigBackend.delete;
  cb_list_by_namespace := SQLiteConfigBackend.list_by_namespace;
  cb_list_all := SQLiteConfigBackend.list_all;
  cb_get_history := SQLiteConfigBackend.get_history;
  cb_clear := SQLiteConfigBackend.clear;
|}.

Module SqliteLaws.
Import SQLiteConfigBackend.

(** Names that can be encoded. *)
Definition name_ok (x : string * string) : Prop := Storable.clean x.1 = true ∧ Storable.clean x.2 = true.
Abbreviation stores := (TableFacts.stores row_key row_to_record cf_name).
(** Every row reads back as a record, and no name occurs twice. *)
Definition ok (t : tables) : Prop :=
  ∃ l, Forall2 stores (ct_entries t) l ∧ NoDup (cf_name <$> l) ∧ Forall (name_ok ∘ cf_name) l.

Lemma find_replace {Row K} `{EqDecision K} (row_key : Row → K) k w t :
  find_first (λ w', bool_decide (row_key w' = k)) (Table.replace row_key w t) =
  if decide (k = row_key w) then Some w else find_first (λ w', bool_decide (row_key w' = k)) t.
Proof.
  unfold Table.replace, find_first. rewrite filter_app, list_filter_filter, filter_cons, filter_nil.
  destruct (decide (k = row_key w)) as [->|Hne].
  - rewrite (decide_True (P := bool_decide _ = true)) by by rewrite bool_decide_eq_true.
    rewrite (elem_of_nil_inv (filter _ t)); [done|].
    intros w' [[Hk%bool_decide_eq_true Hn] _]%list_elem_of_filter. done.
  - rewrite (decide_False (P := bool_decide _ = true)) by by rewrite bool_decide_eq_true.
    rewrite app_nil_r. f_equal. apply list_filter_iff. intros w'. rewrite bool_decide_eq_true. naive_solver congruence.
Qed.
Lemma Forall2_replace t l w r : Forall2 stores t l → stores w r →
  Forall2 stores (Table.replace row_key w t) (filter (λ r', cf_name r' ≠ cf_name r) l ++ [r]).
Proof.
  intros Ht Hw. unfold Table.replace. apply Forall2_app; [|constructor; [done|constructor]].
  apply Forall2_filter; [|done]. intros w' r' [_ ->]. destruct Hw as [_ ->]. done.
Qed.
Lemma stored_row t l k : Forall2 stores t l →
  match find_first (λ w, bool_decide (row_key w = k)) t with
  | Some w => ∃ r, r ∈ l ∧ cf_name r = k ∧ row_to_record w = Ok r
  | None => ∀ r, r ∈ l → cf_name r ≠ k
  end.
Proof.
  intros Ht. destruct (find_first _ t) as [w|] eqn:E.
  - apply find_first_Some in E as [(i & Hi)%list_elem_of_lookup Hk]. apply bool_decide_eq_true in Hk.
    destruct (Forall2_lookup_l _ _ _ _ _ Ht Hi) as (r & Hr & Hs & Hn). exists r.
    split; [by eapply list_elem_of_lookup_2|]. by rewrite <-Hn.
  - rewrite find_first_None in E. intros r (i & Hi)%list_elem_of_lookup <-.
    destruct (Forall2_lookup_r _ _ _ _ _ Ht Hi) as (w & Hw & _ & Hn).
    apply list_elem_of_lookup_2, E in Hw. by rewrite bool_decide_eq_false in Hw.
Qed.

Lemma sqlite_config_laws real_cell (Hreal : Storable.keeps_reals real_cell) :
  @ConfigBackendLaws tables (sqlite_config real_cell).
Proof.
  refine (@Build_ConfigBackendLaws _ (sqlite_config real_cell) ok name_ok (λ r, Storable.config r = true) _ _ _ _ _).
  - intros r. unfold Storable.config, name_ok. rewrite !andb_true_iff. cbn. naive_solver.
  - intros t [n k] (l & Ht & _ & _) [Hn Hk]. cbn [cb_get sqlite_config fst snd] in *. unfold get.
    rewrite (Storable.clean_text n Hn), (Storable.clean_text k Hk). cbn [mbind res_bind]. unfold Table.get.
    pose proof (stored_row _ l (n, k) Ht) as Hrow. destruct (find_first _ _); [|by eexists].
    destruct Hrow as (r & _ & _ & ->). by eexists.
  - intros t r (l & Ht & Hnd & Hl) Hr. cbn [cb_put sqlite_config]. unfold put.
    assert (name_ok (cf_name r)) as Hn.
    { revert Hr. unfold Storable.config, name_ok. rewrite !andb_true_iff. cbn. naive_solver. }
    destruct (Storable.config_storable real_cell Hreal r name_ok Hr Hn) as (_ & w & -> & Hs). split; [done|].
    exists (filter (λ r', cf_name r' ≠ cf_name r) l ++ [r]). split_and!.
    + by apply Forall2_replace.
    + rewrite fmap_app. apply NoDup_app. split_and!; [| |apply NoDup_singleton].
      * by eapply sublist_NoDup; [|apply fmap_sublist, sublist_filter].
      * intros x (r' & -> & [Hne _]%list_elem_of_filter)%list_elem_of_fmap.
        intros Heq%list_elem_of_singleton. by apply Hne.
    + apply Forall_app. split; [|by constructor]. rewrite Forall_forall in *. intros r' [_ ?]%list_elem_of_filter. auto.
  - intros t r [n k] (l & Ht & _ & _) Hr [Hn Hk]. cbn [cb_get cb_put sqlite_config fst snd] in *. unfold get, put.
    assert (name_ok (cf_name r)) as Hn'.
    { revert Hr. unfold Storable.config, name_ok. rewrite !andb_true_iff. cbn. naive_solver. }
    destruct (Storable.config_storable real_cell Hreal r name_ok Hr Hn') as (_ & w & -> & Hs & Hkey).
    rewrite (Storable.clean_text n Hn), (Storable.clean_text k Hk). cbn [mbind res_bind snd ct_entries]. unfold Table.get.
    rewrite find_replace, Hkey. change (cf_namespace r, cf_key r) with (cf_name r). case_decide; [by rewrite Hs|done].
  - intros t (l & Ht & Hnd & Hl). exists l. split_and!; [by apply (TableFacts.mapM_Ok row_key row_to_record cf_name)|done|done|].
    intros r. cbn [cb_get sqlite_config]. unfold get. split.
    + intros Hr. pose proof (proj1 (Forall_forall _ _) Hl r Hr) as Hn. split; [done|]. destruct Hn as [Hn Hk].
      cbn in Hn, Hk. rewrite (Storable.clean_text _ Hn), (Storable.clean_text _ Hk). cbn [mbind res_bind]. unfold Table.get.
      pose proof (stored_row _ l (cf_name r) Ht) as Hrow. change (cf_namespace r, cf_key r) with (cf_name r).
      destruct (find_first _ _); [|by destruct (Hrow r)].
      destruct Hrow as (r' & Hr' & Heq & ->). cbn [mbind res_bind]. do 2 f_equal.
      apply list_elem_of_lookup in Hr as [i Hi]. apply list_elem_of_lookup in Hr' as [j Hj].
      assert (i = j) as <-; [|congruence].
      eapply NoDup_lookup; [exact Hnd| |]; rewrite list_lookup_fmap; [by rewrite Hi|rewrite Hj; simpl; by rewrite Heq].
    + intros [[Hn Hk] Hg]. cbn in Hn, Hk. rewrite (Storable.clean_text _ Hn), (Storable.clean_text _ Hk) in Hg.
      cbn [mbind res_bind] in Hg. unfold Table.get in Hg. pose proof (stored_row _ l (cf_namespace r, cf_key r) Ht) as Hrow.
      destruct (find_first _ _); [|done]. destruct Hrow as (r' & Hr' & _ & Heq). rewrite Heq in Hg. cbn in Hg.
      by injection Hg as ->.
Defined.
End SqliteLaws.
