(* ===== verification/ConfigTools.v ===== *)
(** * Components configured from the center, and the configuration scripts
    (from_config_center of the release and observability components;
    src/scripts/init_default_config.py, export_config.py, import_config.py)

    The loaders read a center over the in-memory backend; the scripts open a
    SQLite database, and their loops are proved for a center over any lawful
    backend.  Values of entries are unchecked: [untyped] stands for what a text
    field becomes when the entry holds no text, [number] for the float a weight
    counts as; [parse_float] is [float] on a text. *)
From S2P Require Import Prelude PyFloat PyValue Persistence PySort PyFormat ConfigCenter Json JsonFacts Release Pipeline Archive Sqlite ConfigBackends.
Local Open Scope Z_scope.

(** ** Loading *)
Module Loaders.
Section loaders.
Variable untyped : pyval → string.
Variable number : pyval → float.
Variable parse_float : string → option float.
Variable float_str : float → string.

Definition as_text (v : pyval) : string := match v with VStr s => s | v => untyped v end.
(** [v[k]] *)
Definition item (k : string) (v : pyval) : res pyval :=
  match v with
  | VDict d => Py.subscript k d
  | VList _ => Err (TypeError "list indices must be integers or slices, not str")
  | VStr _ => Err (TypeError "string indices must be integers, not 'str'")
  | v => Err (TypeError ("'" +:+ Py.type_name v +:+ "' object is not subscriptable"))
  end.
Definition text_item (k : string) (v : pyval) : res string := x ← item k v; Ok (as_text x).
Definition float_item (k : string) (v : pyval) : res float := x ← item k v; Metrics.to_float parse_float x.

Fixpoint map_res {A B} (f : A → res B) (l : list A) : res (list B) :=
  match l with
  | [] => Ok []
  | x :: l => y ← f x; rest ← map_res f l; Ok (y :: rest)
  end.

(** [AlertManager.from_config_center]: the rules of the manager *)
Definition alert_rule (v : pyval) : res AlertRule :=
  name ← text_item "name" v; severity ← text_item "severity" v; metric ← text_item "metric" v;
  threshold ← float_item "threshold" v; comparator ← text_item "comparator" v; route ← text_item "route" v;
  description ← Py.get "description" (VStr "") v;
  Ok (mkAlertRule name severity metric threshold comparator route (as_text description)).
Definition load_alert_rules (namespace : string) (c : ConfigCenter.center) : res (list AlertRule) :=
  rules ← map_res (alert_rule ∘ ce_value) (ConfigCenter.list_namespace namespace c);
  Ok (AlertManager.new (match rules with [] => None | _ => Some rules end)).

(** [GateFunction.from_config_center] *)
Definition load_gate (namespace : string) (c : ConfigCenter.center) : res GateFunction.gate :=
  score ← match ConfigCenter.get namespace "score_threshold" c with
    | Some e => Metrics.to_float parse_float (ce_value e)
    | None => Ok (GateFunction.score_threshold GateFunction.default_gate)
    end;
  max_p1 ← match ConfigCenter.get namespace "max_p1_alerts" c with
    | Some e => Py.to_int (ce_value e)
    | None => Ok (GateFunction.max_p1_alerts GateFunction.default_gate)
    end;
  Ok (GateFunction.mkGate score max_p1).

(** [ErrorBudgetTracker.from_config_center] *)
Definition load_budget (namespace key : string) (c : ConfigCenter.center) : res ErrorBudgetTracker.tracker :=
  target ← match ConfigCenter.get namespace key c with
    | Some e => Metrics.to_float parse_float (ce_value e)
    | None => Ok (PyFloat.ratio 995 1000)
    end;
  ErrorBudgetTracker.new float_str target.

(** [InMemoryBusinessEvaluator.from_config_center]; [dict.update] *)
Definition overridden (dflt : dict float) (e : option ConfigEntry) : dict float :=
  match ce_value <$> e with
  | Some (VDict d) => foldl (λ w kv, dinsert kv.1 (number kv.2) w) dflt d
  | _ => dflt
  end.
Definition load_evaluator (namespace : string) (c : ConfigCenter.center) : res BusinessEvaluator.evaluator :=
  let w := overridden BusinessEvaluator.default_weights (ConfigCenter.get namespace "weights" c) in
  let bw := overridden BusinessEvaluator.default_business_weights (ConfigCenter.get namespace "business_weights" c) in
  threshold ← match ConfigCenter.get namespace "pass_threshold" c with
    | Some e => Metrics.to_float parse_float (ce_value e)
    | None => Ok (PyFloat.ratio 7 10)
    end;
  Ok (BusinessEvaluator.new (Some w) (Some bw) threshold).

(** [InMemoryChaosInjector.from_config_center]: the preset scenarios;
    [untyped_dict] is what parameters that are no dictionary count as. *)
Variable untyped_dict : pyval → dict pyval.
Definition scenario (d : dict pyval) : res ChaosScenario :=
  duration ← Metrics.to_float parse_float (dget "duration_seconds" (VFloat (PyFloat.of_Z 10)) d);
  Ok (mkScenario (as_text (dget "fault_type" (VStr "error") d)) (as_text (dget "target_component" (VStr "unknown") d))
        (match dget "parameters" (VDict []) d with VDict p => p | v => untyped_dict v end) duration
        (as_text (dget "description" (VStr "") d))).
Definition as_dict (v : pyval) : option (dict pyval) := match v with VDict d => Some d | _ => None end.
Definition load_scenarios (namespace : string) (c : ConfigCenter.center) : res (list ChaosScenario) :=
  map_res scenario (omap (as_dict ∘ ce_value) (ConfigCenter.list_namespace namespace c)).

(** [ABRouter.from_config_center] *)
Definition variant (v : pyval) : res VariantAllocation :=
  name ← text_item "name" v; p ← float_item "percentage" v; Ok (mkVariant name p).
Definition guardrail (v : pyval) : res MetricGuardrail :=
  metric ← text_item "metric" v; comparator ← text_item "comparator" v; threshold ← float_item "threshold" v;
  action ← Py.get "action" (VStr "stop_experiment") v;
  Ok (mkGuardrail metric comparator threshold (as_text action)).
Definition experiment (v : pyval) : res ExperimentConfig :=
  vs ← Py.get "variants" (VList []) v; vs ← Py.iterate vs; variants ← map_res variant vs;
  gs ← Py.get "guardrails" (VList []) v; gs ← Py.iterate gs; guardrails ← map_res guardrail gs;
  id ← text_item "experiment_id" v; dv ← text_item "default_variant" v;
  enabled ← Py.get "enabled" (VBool true) v; salt ← Py.get "salt" (VStr "default") v;
  allow ← Py.get "allow_override" (VBool true) v;
  Ok (mkExperiment id dv variants (Py.truthy enabled) (as_text salt) (Py.truthy allow) guardrails).
Definition load_experiments (namespace : string) (c : ConfigCenter.center) : res (dict ExperimentConfig) :=
  configs ← map_res (experiment ∘ ce_value) (ConfigCenter.list_namespace namespace c);
  Ok (foldl (λ d e, dinsert (experiment_id e) e d) [] configs).
End loaders.
End Loaders.

(** ** Scripts *)
Record ConfigItem := mkItem {
  it_namespace : string;
  it_key : string;
  it_config_type : string;
  it_value : pyval;
  it_description : string;
}.

Module ConfigScripts.
Import BackedCenter.

(** [_DEFAULT_CONFIGS]; an absent description is [""]. *)
Definition rule_value (name severity metric : string) (threshold : float) (comparator route description : string) : pyval :=
  VDict [("name", VStr name); ("severity", VStr severity); ("metric", VStr metric); ("threshold", VFloat threshold);
         ("comparator", VStr comparator); ("route", VStr route); ("description", VStr description)].
Definition share (name : string) (p : Z) : pyval :=
  VDict [("name", VStr name); ("percentage", VFloat (PyFloat.of_Z p))].
Definition guard (metric comparator : string) (threshold : float) : pyval :=
  VDict [("metric", VStr metric); ("comparator", VStr comparator); ("threshold", VFloat threshold)].
Definition default_configs : list ConfigItem :=
  [mkItem "alert_rules" "low_e2e_success_rate" "alert_rule"
     (rule_value "low_e2e_success_rate" "P1" "e2e_success_rate" (PyFloat.ratio 75 100) "lt" "oncall+owner+war-room"
        "E2E success rate drops below SLO.") "";
   mkItem "alert_rules" "high_p95_latency" "alert_rule"
     (rule_value "high_p95_latency" "P2" "p95_latency_ms" (PyFloat.ratio 75 10) "gt" "owner+team-channel"
        "P95 latency exceeds smoke baseline tolerance.") "";
   mkItem "feature_flags" "enable_multi_agent" "feature_flag" (VBool true) "Enable multi-agent collaboration pipeline.";
   mkItem "feature_flags" "enable_ab_routing" "feature_flag" (VBool true) "Enable A/B experiment routing.";
   mkItem "gateway" "circuit_breaker_defaults" "gateway"
     (VDict [("failure_threshold", VInt 5); ("recovery_timeout", VFloat (PyFloat.of_Z 30));
             ("success_threshold", VInt 2); ("window_size", VFloat (PyFloat.of_Z 60))])
     "Default circuit breaker configuration.";
   mkItem "experiments" "refund-decision-exp" "experiment"
     (VDict [("experiment_id", VStr "refund-decision-exp"); ("default_variant", VStr "control");
             ("variants", VList [share "control" 90; share "assistant_v2" 10]); ("salt", VStr "w8");
             ("guardrails", VList [guard "success_rate" "lt" (PyFloat.ratio 92 100);
                                   guard "latency.p95_ms" "gt" (PyFloat.of_Z 2500)])])
     "Refund decision experiment."].

Section scripts.
Context {B : Type} `{ConfigBackend B}.

Definition put_item (it : ConfigItem) (now : float) : st (center B) unit :=
  put (it_namespace it) (it_key it) (it_value it) (it_config_type it) (it_description it) now ≫= λ _, mret tt.

(** The loop of [init_default_config.main]: the number of entries created *)
Fixpoint init_loop (items : list ConfigItem) (now : nat → float) (created : nat) : st (center B) nat := λ c,
  match items with
  | [] => (Ok created, c)
  | it :: items =>
      match get (it_namespace it) (it_key it) c with
      | Err e => (Err e, c)
      | Ok (Some _) => init_loop items now created c
      | Ok None => (put_item it (now O) ≫= λ _, init_loop items (λ n, now (S n)) (S created)) c
      end
  end.

(** [export_config.main]: the text of the backup *)
Definition entry_dict (e : ConfigEntry) : pyval :=
  VDict [("namespace", VStr (ce_namespace e)); ("key", VStr (ce_key e)); ("value", ce_value e);
         ("version", VInt (ce_version e)); ("config_type", VStr (ce_config_type e));
         ("description", VStr (ce_description e))].
Definition export_config (c : center B) : res string :=
  entries ← list_all c; Ok (Json.dumps_indent 2 (VList (entry_dict <$> entries)) +:+ TextFile.nl).

(** The loop of [import_config.main]; entries before one that raises stay. *)
Variable untyped : pyval → string.
Definition item_of (v : pyval) : res ConfigItem :=
  n ← Loaders.text_item untyped "namespace" v; k ← Loaders.text_item untyped "key" v; x ← Loaders.item "value" v;
  ty ← Py.get "config_type" (VStr "feature_flag") v; d ← Py.get "description" (VStr "") v;
  Ok (mkItem n k (Loaders.as_text untyped ty) x (Loaders.as_text untyped d)).
Fixpoint import_loop (items : list pyval) (now : nat → float) (imported : nat) : st (center B) nat :=
  match items with
  | [] => mret imported
  | v :: items =>
      it ← st_lift (item_of v);
      put_item it (now O) ≫= λ _, import_loop items (λ n, now (S n)) (S imported)
  end.
Definition import_items (now : nat → float) (data : pyval) : st (center B) nat :=
  items ← st_lift (Py.iterate data); import_loop items now 0.
End scripts.

(** The scripts: each opens the database, brings its schema up to date and works
    on a center over the SQLite backend. *)
Section main.
Variable real_cell : float → option float.
#[local] Instance sqlite : ConfigBackend SQLiteConfigBackend.tables := sqlite_config real_cell.

Definition config_tables (d : database) : SQLiteConfigBackend.tables :=
  SQLiteConfigBackend.mkTables (default [] (db_config_entries d)) (default [] (db_config_history d)).
Definition set_config (t : SQLiteConfigBackend.tables) (d : database) : database :=
  mkDatabase (db_shared_memory d) (db_circuit_state d) (Some (SQLiteConfigBackend.ct_entries t))
    (Some (SQLiteConfigBackend.ct_history t)) (db_sessions d) (db_instances d) (db_schema_version d).
Definition on_database {A} (m : st (center SQLiteConfigBackend.tables) A) : st database A := λ d,
  let d := (SchemaManager.ensure_schema d).2 in
  let '(r, c) := m (new (config_tables d)) in (r, set_config (store c) d).

Definition init_main (now : nat → float) : st database nat := on_database (init_loop default_configs now 0).
Definition export_main : st database string := on_database (λ c, (export_config c, c)).
Definition import_main (untyped : pyval → string) (now : nat → float) (content : string) : st database nat :=
  data ← st_lift (Json.loads (TextFile.universal content));
  on_database (import_items untyped now data).
End main.
End ConfigScripts.

Module ConfigFacts.
Import BackedCenter ConfigScripts.

Definition item_name (it : ConfigItem) : string * string := (it_namespace it, it_key it).
Definition entry_name (e : ConfigEntry) : string * string := (ce_namespace e, ce_key e).
(** The entry a [put] of the item leaves, on top of version [v], and its record. *)
Definition entry_of (it : ConfigItem) (v : Z) (now : float) : ConfigEntry :=
  mkConfigEntry (it_namespace it) (it_key it) (it_value it) (v + 1) (it_config_type it) now (it_description it).
Definition record_of (it : ConfigItem) (v : Z) (now : float) : ConfigRecord :=
  mkConfigRecord (it_namespace it) (it_key it) (it_value it) (v + 1) (it_config_type it) now (it_description it).
(** The version under a name, 0 when there is none. *)
Definition version (r : res (option ConfigEntry)) : Z := match r with Ok (Some e) => ce_version e | _ => 0 end.
Definition item_of_entry (e : ConfigEntry) : ConfigItem :=
  mkItem (ce_namespace e) (ce_key e) (ce_config_type e) (ce_value e) (ce_description e).

Section facts.
Context {B : Type} `{ConfigBackendLaws B}.
Definition at_ (x : string * string) (c : center B) : res (option ConfigEntry) := get x.1 x.2 c.

(** Nothing is stored under the name. *)
Definition absent (x : string * string) (c : center B) : bool := match at_ x c with Ok None => true | _ => false end.

Lemma at_total x c : cb_ok (store c) → cb_name x → ∃ e, at_ x c = Ok e.
Proof. intros Hc Hx. destruct (cb_get_total _ x Hc Hx) as [r Hr]. unfold at_, get. rewrite Hr. by eexists. Qed.

Lemma put_item_spec it now c : cb_ok (store c) → cb_storable (record_of it (version (at_ (item_name it) c)) now) →
  let '(r, c') := put_item it now c in
  r = Ok tt ∧ cb_ok (store c') ∧
  ∀ x, cb_name x → at_ x c' =
    if decide (x = item_name it) then Ok (Some (entry_of it (version (at_ x c)) now)) else at_ x c.
Proof.
  intros Hc Hs. pose proof (cb_storable_name _ Hs) as Hn.
  destruct (cb_get_total _ (item_name it) Hc Hn) as [r Hr]. cbn [item_name fst snd] in Hr.
  assert (version (at_ (item_name it) c) = from_option cf_version 0 r) as Hv.
  { unfold at_, get. cbn [item_name fst snd]. rewrite Hr. by destruct r. }
  rewrite Hv in Hs. unfold put_item, put, st_lift, mbind, st_bind, with_store, zoom. rewrite Hr. fold (record_of it).
  change (mkConfigRecord _ _ _ _ _ _ _) with (record_of it (from_option cf_version 0 r) now).
  destruct (cb_put_total _ _ Hc Hs) as [Hp Hc'].
  pose proof (λ x, cb_get_put _ _ x Hc Hs) as Hg. destruct (cb_put _ (store c)) as [? b]. cbn [fst snd] in *. subst.
  split; [done|]. split; [done|]. intros x Hx. unfold at_, get. cbn [store]. rewrite (Hg x Hx).
  change (cf_name (record_of it _ now)) with (item_name it). case_decide as E; [|done]. subst x.
  rewrite <-Hv. done.
Qed.

(** ** Initialising *)
Lemma init_loop_spec items : ∀ now created c,
  cb_ok (store c) → Forall (λ it, ∀ i, cb_storable (record_of it 0 (now i))) items → NoDup (item_name <$> items) →
  let '(r, c') := init_loop items now created c in
  cb_ok (store c') ∧ (∀ x e, cb_name x → at_ x c = Ok (Some e) → at_ x c' = Ok (Some e)) ∧
  (∀ x, cb_name x → x ∉ item_name <$> items → at_ x c' = at_ x c) ∧
  Forall (λ it, at_ (item_name it) c = Ok None → ∃ t, at_ (item_name it) c' = Ok (Some (entry_of it 0 t))) items ∧
  r = Ok (created + length (filter (λ it, absent (item_name it) c = true) items))%nat.
Proof.
  induction items as [|it items IH]; intros now created c Hc Hs Hnd; cbn [init_loop].
  { split_and!; [done|done|done|constructor|]. simpl. f_equal. lia. }
  apply Forall_cons in Hs as [Hi Hs]. rewrite fmap_cons in *. apply NoDup_cons in Hnd as [Hni Hnd].
  assert (∀ it, (∀ i, cb_storable (record_of it 0 (now i))) → cb_name (item_name it)) as Hname.
  { intros it' Hst. exact (cb_storable_name _ (Hst 0%nat)). }
  destruct (at_total (item_name it) c Hc (Hname it Hi)) as [o Ho]. pose proof Ho as Ho'. unfold at_ in Ho'.
  cbn [item_name fst snd] in Ho'. rewrite filter_cons, Ho'.
  assert (absent (item_name it) c = match o with None => true | _ => false end) as Ha by (unfold absent; by rewrite Ho).
  destruct o as [e|].
  - rewrite decide_False by by rewrite Ha. specialize (IH now created c Hc Hs Hnd).
    destruct (init_loop items now created c) as [r c']. destruct IH as (Hc' & Hkeep & Hfr & Hall & Hr).
    split_and!; [done..| | |done].
    + intros x Hx [_ Hx']%not_elem_of_cons. by apply Hfr.
    + constructor; [by rewrite Ho|done].
  - rewrite decide_True by done. pose proof (put_item_spec it (now 0%nat) c Hc) as Hput. rewrite Ho in Hput.
    specialize (Hput (Hi 0%nat)). unfold mbind at 1, st_bind. destruct (put_item it (now 0%nat) c) as [r1 c1].
    destruct Hput as (-> & Hc1 & Hat). specialize (IH (λ n, now (S n)) (S created) c1 Hc1).
    destruct (init_loop items _ _ c1) as [r c']. destruct IH as (Hc' & Hkeep & Hfr & Hall & Hr); [|done|].
    { eapply Forall_impl; [exact Hs|]. intros it' Hst i. apply Hst. }
    assert (∀ x, cb_name x → x ≠ item_name it → at_ x c1 = at_ x c) as Hother.
    { intros x Hx Hne. rewrite Hat by done. by rewrite decide_False. }
    split_and!; [done|..].
    + intros x e Hx He. apply Hkeep; [done|]. rewrite Hother; [done..|]. intros ->. congruence.
    + intros x Hx [Hne Hx']%not_elem_of_cons. rewrite Hfr by done. by apply Hother.
    + constructor.
      * intros _. exists (now 0%nat). rewrite Hfr, Hat by auto. rewrite decide_True by done. by rewrite Ho.
      * rewrite Forall_forall in *. intros it' Hin He. apply Hall; [done|]. rewrite Hother; [done|by apply Hname, Hs|].
        intros Heq. apply Hni. rewrite <-Heq. by apply list_elem_of_fmap_2.
    + rewrite Hr. simpl. rewrite Nat.add_succ_r. do 4 f_equal. apply filter_ext_elem. intros it' Hin.
      rewrite Forall_forall in Hs. unfold absent. rewrite Hother; [done|by apply Hname, Hs|].
      intros Heq. apply Hni. rewrite <-Heq. by apply list_elem_of_fmap_2.
Qed.
Lemma init_loop_idle items : ∀ now created c,
  Forall (λ it, ∃ e, at_ (item_name it) c = Ok (Some e)) items → init_loop items now created c = (Ok created, c).
Proof.
  induction items as [|it items IH]; intros now created c Hp; [done|]. apply Forall_cons in Hp as [[e He] Hp].
  cbn [init_loop]. unfold at_ in He. cbn [item_name fst snd] in He. rewrite He. by apply IH.
Qed.

(** ** Restoring a backup *)
Variable untyped : pyval → string.
Lemma item_of_dict e : item_of untyped (entry_dict e) = Ok (item_of_entry e).
Proof. reflexivity. Qed.

Lemma import_loop_spec l : ∀ now imported c, cb_ok (store c) → NoDup (entry_name <$> l) →
  Forall (λ e, ∀ i, cb_storable (record_of (item_of_entry e) (version (at_ (entry_name e) c)) (now i))) l →
  let '(r, c') := import_loop untyped (entry_dict <$> l) now imported c in
  r = Ok (imported + length l)%nat ∧ cb_ok (store c') ∧
  (∀ x, cb_name x → x ∉ entry_name <$> l → at_ x c' = at_ x c) ∧
  Forall (λ e, ∃ i, at_ (entry_name e) c' =
    Ok (Some (entry_of (item_of_entry e) (version (at_ (entry_name e) c)) (now i)))) l.
Proof.
  induction l as [|e l IH]; intros now imported c Hc Hnd Hs.
  { cbn. split_and!; [f_equal; lia|done|done|constructor]. }
  apply Forall_cons in Hs as [Hi Hs]. rewrite fmap_cons in Hnd. apply NoDup_cons in Hnd as [Hni Hnd].
  rewrite !fmap_cons. cbn [import_loop]. rewrite item_of_dict. unfold st_lift, mbind, st_bind.
  pose proof (put_item_spec (item_of_entry e) (now 0%nat) c Hc (Hi 0%nat)) as Hput.
  destruct (put_item (item_of_entry e) (now 0%nat) c) as [r1 c1]. destruct Hput as (-> & Hc1 & Hat).
  assert (∀ e', e' ∈ l → at_ (entry_name e') c1 = at_ (entry_name e') c) as Hother.
  { intros e' Hin. rewrite Forall_forall in Hs. rewrite Hat by exact (cb_storable_name _ (Hs e' Hin 0%nat)).
    rewrite decide_False; [done|]. intros Heq. apply Hni.
    change (item_name (item_of_entry e)) with (entry_name e) in Heq. rewrite <-Heq. by apply list_elem_of_fmap_2. }
  specialize (IH (λ n, now (S n)) (S imported) c1 Hc1 Hnd).
  destruct (import_loop _ _ _ _ c1) as [r c']. destruct IH as (-> & Hc' & Hfr & Hall).
  { rewrite Forall_forall in *. intros e' Hin i. rewrite Hother by done. apply Hs; done. }
  split_and!; [f_equal; simpl; lia|done|..].
  - intros x Hx [Hne Hx']%not_elem_of_cons. rewrite Hfr, Hat by done. by rewrite decide_False.
  - constructor.
    + exists 0%nat. rewrite Hfr, Hat by (done || exact (cb_storable_name _ (Hi 0%nat))). by rewrite decide_True.
    + rewrite Forall_forall in *. intros e' Hin. destruct (Hall e' Hin) as [i Hi']. exists (S i). by rewrite Hi', Hother.
Qed.

(** The entries of a center have different names and are what it answers. *)
Lemma list_all_spec c : cb_ok (store c) → ∃ l, list_all c = Ok l ∧ NoDup (entry_name <$> l) ∧
  ∀ e, e ∈ l → cb_name (entry_name e) ∧ at_ (entry_name e) c = Ok (Some e).
Proof.
  intros Hc. destruct (cb_list _ Hc) as (l & Hl & Hnd & _ & Hin). exists (ConfigCenter.record_to_entry <$> l).
  split; [unfold list_all; by rewrite Hl|]. split; [by rewrite <-list_fmap_compose|].
  intros e (r & -> & Hr)%list_elem_of_fmap. apply Hin in Hr as [Hn Hg]. split; [done|].
  unfold at_, get. cbn [entry_name fst snd ConfigCenter.record_to_entry ce_namespace ce_key]. by rewrite Hg.
Qed.
Lemma export_read c l : list_all c = Ok l → JsonRoundTrip.json_ok (VList (entry_dict <$> l)) = true →
  ∃ text, export_config c = Ok text ∧ Json.loads (TextFile.universal text) = Ok (VList (entry_dict <$> l)).
Proof.
  intros Hl Hok. unfold export_config. rewrite Hl. eexists. split; [reflexivity|].
  rewrite LinesFacts.universal_same by by rewrite LinesFacts.every_app, LinesFacts.indent_not_cr.
  by rewrite JsonRoundTrip.loads_dumps_indent.
Qed.
End facts.
End ConfigFacts.

(** ** The scripts on a database *)
Module DatabaseFacts.
Import BackedCenter ConfigScripts ConfigFacts.

(** The entries of a database, and the entry under a name. *)
Definition db_entries (d : database) : res (list ConfigEntry) :=
  fmap (M:=list) ConfigCenter.record_to_entry <$> SQLiteConfigBackend.list_all (config_tables d).
Definition db_get (x : string * string) (d : database) : res (option ConfigEntry) :=
  fmap (M:=option) ConfigCenter.record_to_entry <$> SQLiteConfigBackend.get x.1 x.2 (config_tables d).
(** Every stored row can be read, and names are distinct. *)
Definition db_ok (d : database) : Prop := SqliteLaws.ok (config_tables d).

Lemma ensure_schema_tables d : config_tables (SchemaManager.ensure_schema d).2 = config_tables d.
Proof.
  destruct d as [m c e h s i [[v|]|]]; [|by destruct e, h..].
  unfold SchemaManager.ensure_schema. cbn. destruct (v <? SchemaManager.SCHEMA_VERSION); by destruct e, h.
Qed.
Lemma set_config_tables t d : config_tables (set_config t d) = t.
Proof. by destruct t. Qed.

Section database.
Context (real_cell : float → option float) (Hreal : Storable.keeps_reals real_cell).
#[local] Instance backend : ConfigBackend SQLiteConfigBackend.tables := sqlite_config real_cell.
#[local] Instance laws : ConfigBackendLaws SQLiteConfigBackend.tables := SqliteLaws.sqlite_config_laws real_cell Hreal.

Lemma on_database_eq {A} (m : st (center SQLiteConfigBackend.tables) A) d :
  let '(r, d') := on_database m d in
  r = (m (new (config_tables d))).1 ∧ config_tables d' = store (m (new (config_tables d))).2.
Proof using Type.
  unfold on_database. rewrite ensure_schema_tables. destruct (m _) as [r c]. split; [done|]. apply set_config_tables.
Qed.

Lemma export_spec d l : db_entries d = Ok l → JsonRoundTrip.json_ok (VList (entry_dict <$> l)) = true →
  ∃ text, (export_main real_cell d).1 = Ok text ∧ config_tables (export_main real_cell d).2 = config_tables d ∧
    Json.loads (TextFile.universal text) = Ok (VList (entry_dict <$> l)).
Proof using Type.
  intros Hl Hok. destruct (export_read (H := backend) (new (config_tables d)) l Hl Hok) as (text & Ht & Hr). exists text.
  pose proof (on_database_eq (λ c, (export_config c, c)) d) as H.
  change (export_main real_cell d) with (on_database (λ c, (export_config (H := backend) c, c)) d).
  destruct (on_database _ d) as [r d']. cbn [fst snd]. by destruct H as [-> ->].
Qed.
Lemma import_spec untyped now text l d : db_ok d → NoDup (entry_name <$> l) →
  Json.loads (TextFile.universal text) = Ok (VList (entry_dict <$> l)) →
  Forall (λ e, ∀ i, Storable.config (record_of (item_of_entry e) (version (db_get (entry_name e) d)) (now i)) = true) l →
  let '(r, d') := import_main real_cell untyped now text d in
  r = Ok (length l) ∧ db_ok d' ∧
  (∀ x, SqliteLaws.name_ok x → x ∉ entry_name <$> l → db_get x d' = db_get x d) ∧
  Forall (λ e, ∃ i, db_get (entry_name e) d' =
    Ok (Some (entry_of (item_of_entry e) (version (db_get (entry_name e) d)) (now i)))) l.
Proof using Hreal.
  intros Hd Hnd Hread Hs. pose proof (import_loop_spec untyped l now 0 (new (config_tables d)) Hd Hnd Hs) as H.
  unfold import_main. rewrite Hread. unfold st_lift, mbind, st_bind at 1. change (sqlite real_cell) with backend.
  pose proof (on_database_eq (import_items untyped now (VList (entry_dict <$> l))) d) as Ho.
  destruct (on_database _ d) as [r d']. destruct Ho as [-> Htab].
  change (import_items untyped now _) with (import_loop (B := SQLiteConfigBackend.tables) untyped (entry_dict <$> l) now 0) in *.
  destruct (import_loop _ _ _ _ _) as [r c']. cbn [fst snd] in *. destruct H as (-> & Hc' & Hfr & Hall).
  assert (∀ x, db_get x d' = at_ x c') as Hget by (intros x; unfold db_get, at_, get; by rewrite Htab).
  split_and!; [done|unfold db_ok; by rewrite Htab|..].
  - intros x Hx Hn. rewrite Hget. by apply Hfr.
  - eapply Forall_impl; [exact Hall|]. intros e [i Hi]. exists i. by rewrite Hget.
Qed.
Lemma init_spec now d : db_ok d → Forall (λ it, ∀ i, Storable.config (record_of it 0 (now i)) = true) default_configs →
  let '(r, d') := init_main real_cell now d in
  db_ok d' ∧ (∀ x e, SqliteLaws.name_ok x → db_get x d = Ok (Some e) → db_get x d' = Ok (Some e)) ∧
  (∀ x, SqliteLaws.name_ok x → x ∉ item_name <$> default_configs → db_get x d' = db_get x d) ∧
  Forall (λ it, db_get (item_name it) d = Ok None → ∃ t, db_get (item_name it) d' = Ok (Some (entry_of it 0 t))) default_configs ∧
  r = Ok (length (filter (λ it, absent (item_name it) (new (config_tables d)) = true) default_configs)).
Proof using Hreal.
  intros Hd Hs.
  assert (NoDup (item_name <$> default_configs)) as Hnd by (by apply (bool_decide_unpack _); vm_compute).
  pose proof (init_loop_spec default_configs now 0 (new (config_tables d)) Hd Hs Hnd) as H.
  unfold init_main. change (sqlite real_cell) with backend. pose proof (on_database_eq (init_loop default_configs now 0) d) as Ho.
  destruct (on_database _ d) as [r d']. destruct Ho as [-> Htab]. destruct (init_loop _ _ _ _) as [r c'].
  cbn [fst snd] in *. destruct H as (Hc' & Hkeep & Hfr & Hall & ->).
  assert (∀ x, db_get x d' = at_ x c') as Hget by (intros x; unfold db_get, at_, get; by rewrite Htab).
  split_and!; [unfold db_ok; by rewrite Htab|..|done].
  - intros x e Hx He. rewrite Hget. by apply Hkeep.
  - intros x Hx Hn. rewrite Hget. by apply Hfr.
  - eapply Forall_impl; [exact Hall|]. intros it Hi Hn. rewrite Hget. by apply Hi.
Qed.
End database.
End DatabaseFacts.

Import ConfigScripts ConfigFacts DatabaseFacts.

(** C40: A backup restores the configuration: importing what the export script
    wrote for one database into another imports every entry, gives each exported
    name its value, type and description back, at one version above the target's
    own (so at version 1 in a fresh database, whatever the exported version
    was), and leaves every other name of the target as it was; exporting changes
    no entry.  Entries hold JSON values that the database can keep. *)
Theorem config_backup_restores real_cell untyped now d d0 l :
  Storable.keeps_reals real_cell → db_ok d → db_ok d0 → db_entries d = Ok l →
  JsonRoundTrip.json_ok (VList (entry_dict <$> l)) = true →
  Forall (λ e, ∀ i, Storable.config (record_of (item_of_entry e) (version (db_get (entry_name e) d0)) (now i)) = true) l →
  let '(exported, d1) := export_main real_cell d in
  db_entries d1 = Ok l ∧ ∃ text, exported = Ok text ∧
  let '(imported, d') := import_main real_cell untyped now text d0 in
  imported = Ok (length l) ∧
  (∀ e, e ∈ l → ∃ t, db_get (ce_namespace e, ce_key e) d' =
     Ok (Some (mkConfigEntry (ce_namespace e) (ce_key e) (ce_value e)
       (version (db_get (ce_namespace e, ce_key e) d0) + 1) (ce_config_type e) t (ce_description e)))) ∧
  (∀ x, SqliteLaws.name_ok x → x ∉ entry_name <$> l → db_get x d' = db_get x d0).
Proof.
  intros Hreal Hd Hd0 Hl Hok Hs. destruct (export_spec real_cell d l Hl Hok) as (text & Ht & Htab & Hread).
  destruct (@list_all_spec _ _ (SqliteLaws.sqlite_config_laws real_cell Hreal) (BackedCenter.new (config_tables d)) Hd)
    as (l' & Hl' & Hnd & _).
  assert (l' = l) as -> by (enough (Ok l' = Ok l) by congruence; by rewrite <-Hl', <-Hl).
  destruct (export_main real_cell d) as [exported d1]. cbn [fst snd] in *.
  split; [unfold db_entries; by rewrite Htab|]. exists text. split; [done|].
  pose proof (import_spec real_cell Hreal untyped now text l d0 Hd0 Hnd Hread Hs) as Hi.
  destruct (import_main real_cell untyped now text d0) as [r d']. destruct Hi as (-> & _ & Hfr & Hall).
  split_and!; [done| |done]. rewrite Forall_forall in Hall. intros e He. destruct (Hall e He) as [i Hi]. by exists (now i).
Qed.

(** ** Examples *)
Module ScriptExample.
Definition cells : float → option float := SqliteExample.cells.
Definition empty_db : database := mkDatabase None None None None None None None.
Definition clock (_ : nat) : float := PyFloat.of_Z 1.
Definition entries : pyval :=
  VList [VDict [("namespace", VStr "gate"); ("key", VStr "score"); ("value", VFloat (PyFloat.ratio 7 10));
                ("config_type", VStr "gateway"); ("description", VStr "threshold")];
         VDict [("namespace", VStr "a::b"); ("key", VStr "flag"); ("value", VDict [("on", VBool true)])]].
Definition load (d : database) : database := (import_main cells (λ _, "") clock (Json.dumps entries) d).2.
Definition source : database := load (load empty_db).
Definition target : database := (init_main cells clock empty_db).2.
Definition listed : list ConfigEntry :=
  [mkConfigEntry "gate" "score" (VFloat (PyFloat.ratio 7 10)) 2 "gateway" (clock 0) "threshold";
   mkConfigEntry "a::b" "flag" (VDict [("on", VBool true)]) 2 "feature_flag" (clock 0) ""].

Definition record (e : ConfigEntry) : ConfigRecord :=
  mkConfigRecord (ce_namespace e) (ce_key e) (ce_value e) (ce_version e) (ce_config_type e) (ce_updated_at e) (ce_description e).
(** A database whose rows are these entries. *)
Lemma rows_ok d l : db_entries d = Ok l →
  SQLiteConfigBackend.row_key <$> SQLiteConfigBackend.ct_entries (config_tables d) = entry_name <$> l →
  NoDup (entry_name <$> l) → Forall SqliteLaws.name_ok (entry_name <$> l) → db_ok d.
Proof.
  unfold db_entries, db_ok, SqliteLaws.ok, SQLiteConfigBackend.list_all, Table.list_all.
  generalize (SQLiteConfigBackend.ct_entries (config_tables d)). intros t.
  destruct (mapM _ t) as [rs|] eqn:E; [|done]. cbn [fmap res_fmap]. intros [= <-]. rewrite <-!list_fmap_compose.
  change (entry_name ∘ ConfigCenter.record_to_entry) with cf_name. intros Hk Hnd Hn. exists rs.
  split_and!; [|done|by rewrite Forall_fmap in Hn]. clear Hnd Hn. revert rs E Hk.
  induction t as [|w t IH]; intros rs E Hk; cbn [mapM mbind res_bind mret res_ret] in E.
  { injection E as <-. constructor. }
  destruct (SQLiteConfigBackend.row_to_record w) as [r|] eqn:Er; [|done]. cbn [mbind res_bind] in E.
  destruct (mapM _ t) as [rs'|]; [|done]. injection E as <-. rewrite !fmap_cons in Hk.
  injection Hk as Hns Hkey Ht. constructor; [|by apply IH].
  split; [done|]. unfold SQLiteConfigBackend.row_key, cf_name. by f_equal.
Qed.
Lemma source_ok : db_ok source.
Proof.
  apply (rows_ok _ listed); [by vm_compute..|apply (bool_decide_unpack _); by vm_compute|].
  repeat (apply Forall_cons_2; [split; by vm_compute|]). apply Forall_nil_2.
Qed.
Lemma empty_ok : db_ok empty_db.
Proof. exists []. split_and!; constructor. Qed.
Lemma defaults_storable (now : nat → float) : (∀ i, Storable.plain (now i) = true) →
  Forall (λ it, ∀ i, Storable.config (record_of it 0 (now i)) = true) default_configs.
Proof.
  intros Hn. repeat (apply Forall_cons_2; [intros i; unfold Storable.config; cbn [cf_updated_at record_of];
    rewrite Hn; by vm_compute|]). apply Forall_nil_2.
Qed.
Lemma target_ok : db_ok target.
Proof.
  pose proof (init_spec cells SqliteExample.cells_keep clock empty_db empty_ok (defaults_storable clock (λ _, eq_refl))) as H.
  unfold target. destruct (init_main cells clock empty_db). by destruct H.
Qed.

Lemma config_backup_restores_witness :
  db_entries source = Ok listed ∧
  ∃ text, (export_main cells source).1 = Ok text ∧
  let '(imported, d') := import_main cells (λ _, "") clock text target in
  imported = Ok 2%nat ∧
  (∃ t, db_get ("gate", "score") d' =
     Ok (Some (mkConfigEntry "gate" "score" (VFloat (PyFloat.ratio 7 10)) 1 "gateway" t "threshold"))) ∧
  db_get ("feature_flags", "enable_ab_routing") d' = db_get ("feature_flags", "enable_ab_routing") target.
Proof.
  split; [by vm_compute|].
  pose proof (config_backup_restores cells (λ _, "") clock source target listed SqliteExample.cells_keep source_ok
    target_ok) as H.
  assert (Forall (λ e, ∀ i, Storable.config (record_of (item_of_entry e)
    (version (db_get (entry_name e) target)) (clock i)) = true) listed) as Hs.
  { repeat (apply Forall_cons_2; [intros i; by vm_compute|]). apply Forall_nil_2. }
  assert (version (db_get ("gate", "score") target) = 0) as Hv by by vm_compute.
  destruct (export_main cells source) as [exported d1] eqn:Ee.
  destruct H as (_ & text & -> & H); [by vm_compute|by vm_compute|exact Hs|]. exists text. split; [done|].
  destruct (import_main cells _ _ text target) as [r d']. destruct H as (-> & Hall & Hother).
  split_and!; [done| |].
  - destruct (Hall _ (list_elem_of_here _ _)) as [t Ht]. exists t. cbn [ce_namespace ce_key] in Ht. by rewrite Hv in Ht.
  - apply Hother; [split; by vm_compute|]. apply (bool_decide_unpack _). by vm_compute.
Defined.
End ScriptExample.

(** Initialising never overwrites: entries that exist stay as they are, the
    missing defaults are created at version 1 and counted, other names are
    untouched, and a second run creates nothing and changes no entry. *)
Theorem init_defaults_safe real_cell (now now' : nat → float) d :
  Storable.keeps_reals real_cell → (∀ i, Storable.plain (now i) = true) → db_ok d →
  let '(created, d') := init_main real_cell now d in
  (∀ x e, SqliteLaws.name_ok x → db_get x d = Ok (Some e) → db_get x d' = Ok (Some e)) ∧
  (∀ x, SqliteLaws.name_ok x → x ∉ item_name <$> default_configs → db_get x d' = db_get x d) ∧
  Forall (λ it, db_get (item_name it) d = Ok None → ∃ t, db_get (item_name it) d' = Ok (Some (entry_of it 0 t))) default_configs ∧
  (∃ n, created = Ok n) ∧
  let '(again, d'') := init_main real_cell now' d' in again = Ok 0%nat ∧ config_tables d'' = config_tables d'.
Proof.
  intros Hreal Hn Hd. pose proof (ScriptExample.defaults_storable now Hn) as Hs.
  pose proof (init_spec real_cell Hreal now d Hd Hs) as H. destruct (init_main real_cell now d) as [created d'].
  destruct H as (Hd' & Hkeep & Hfr & Hall & Hc). split_and!; [done..|by eexists|].
  assert (Forall (λ it, ∃ e, db_get (item_name it) d' = Ok (Some e)) default_configs) as Hp.
  { rewrite Forall_forall in *. intros it Hin.
    pose proof (@cb_storable_name _ _ (SqliteLaws.sqlite_config_laws real_cell Hreal) _ (Hs it Hin 0%nat)) as Hname.
    destruct (@at_total _ _ (SqliteLaws.sqlite_config_laws real_cell Hreal) (item_name it)
      (BackedCenter.new (config_tables d)) Hd Hname) as [[e|] He].
    - exists e. by apply Hkeep.
    - destruct (Hall it Hin He) as [t Ht]. by eexists. }
  pose proof (on_database_eq (init_loop (H := sqlite real_cell) default_configs now' 0) d') as Ho.
  unfold init_main. destruct (on_database _ d') as [again d'']. destruct Ho as [-> ->].
  by rewrite (init_loop_idle (H := sqlite real_cell) default_configs now' 0 (BackedCenter.new (config_tables d')) Hp).
Qed.

(** ** What the defaults configure *)
Definition initialised : ConfigCenter.center :=
  ConfigCenter.mkCenter (BackedCenter.store (init_loop default_configs (λ _, PyFloat.zero) 0
    (BackedCenter.new InMemoryConfig.init)).2) ConfigWatcher.init.
(** Once the defaults are in the center, only two of the five built-in alert
    rules are left: the ones about tool failures, rate limiting and cost are
    gone. *)
Example initialised_alert_rules :
  Loaders.load_alert_rules (λ _, "") (λ _, None) "alert_rules" initialised = Ok (take 2 AlertManager.default_rules) ∧
  Loaders.load_alert_rules (λ _, "") (λ _, None) "alert_rules" ConfigCenter.init = Ok AlertManager.default_rules.
Proof. by vm_compute. Qed.
Lemma initialised_experiment : ∃ e,
  Loaders.load_experiments (λ _, "") (λ _, None) "experiments" initialised = Ok [("refund-decision-exp", e)] ∧
  TrafficFacts.whole_percents e [("control", 90); ("assistant_v2", 10)] ∧ enabled e = true.
Proof.
  eexists. split; [by vm_compute|]. split; [|done]. split; [done|by repeat constructor|done| |].
  - by apply (bool_decide_unpack _); vm_compute.
  - by apply (bool_decide_unpack _); vm_compute.
Qed.
(** Nothing configured: the built-in gate, budget and weights. *)
Lemma unconfigured number parse_float float_str :
  Loaders.load_gate parse_float "gate_policy" ConfigCenter.init = Ok GateFunction.default_gate ∧
  Loaders.load_budget parse_float float_str "slo_targets" "default" ConfigCenter.init =
    Ok (ErrorBudgetTracker.mkTracker (PyFloat.ratio 995 1000) 0 0) ∧
  Loaders.load_evaluator number parse_float "business_eval" ConfigCenter.init =
    Ok (BusinessEvaluator.new None None (PyFloat.ratio 7 10)).
Proof. done. Qed.
