(* ===== verification/Redis.v ===== *)
(** * Redis: task queue, lock, state backends (src/src/scheduler/redis_queue.py,
    src/src/persistence/redis_backend.py)

    The server is a parameter: a class with what the commands that the code
    sends are documented to do.  Keys and values are UTF-8 texts, which the code
    decodes on the way in.  A command that does not fit the type of its key is
    outside the laws; the code gives every key one type.  [foreign] is what
    [TaskItem( **data)] and the like make of a document that this code did not
    write. *)
From S2P Require Import Prelude PyFloat PyValue Persistence Json JsonFacts Scheduler.
Local Open Scope Z_scope.

(** ** The server *)

(** What a key holds; the time to live is in milliseconds. *)
Inductive entry :=
| Absent
| Text (v : string) (ttl : option Z)
| Items (l : list string)
| Fields (h : gmap string string).

Class RedisServer (S : Type) := {
  r_view : string → S → entry;
  r_set : string → string → S → S;
  r_set_nx_px : string → string → Z → S → res bool * S;
  r_delete : string → S → bool * S;
  r_rpush : string → string → S → S;
  r_lpop : string → S → option string * S;
  r_hset : string → string → string → S → S;
  r_hdel : string → string → S → bool * S;
  r_hgetall : string → S → list (string * string);
  r_flushdb : S → S;
  r_wait : Z → S → S;  (* that many milliseconds pass *)
}.

(** The reading commands. *)
Section reads.
Context {S : Type} `{RedisServer S}.
Definition r_get (k : string) (s : S) : option string := match r_view k s with Text v _ => Some v | _ => None end.
Definition r_exists (k : string) (s : S) : bool := match r_view k s with Absent => false | _ => true end.
Definition r_lrange (k : string) (s : S) : list string := match r_view k s with Items l => l | _ => [] end.
Definition fields (k : string) (s : S) : gmap string string := match r_view k s with Fields h => h | _ => ∅ end.
Definition r_hget (k f : string) (s : S) : option string := fields k s !! f.
End reads.

Definition pop_rest (l : list string) : entry := match l with [] => Absent | _ => Items l end.
Definition hash_of (h : gmap string string) : entry := if decide (h = ∅) then Absent else Fields h.
Definition elapse (d : Z) (e : entry) : entry :=
  match e with
  | Text v (Some ttl) => if ttl <=? d then Absent else Text v (Some (ttl - d))
  | e => e
  end.

Class RedisLaws (S : Type) `{RedisServer S} := {
  view_set k v s k' : r_view k' (r_set k v s) = if decide (k = k') then Text v None else r_view k' s;
  set_nx_px_spec k v px s : 0 < px →
    (r_set_nx_px k v px s).1 = Ok (negb (r_exists k s)) ∧
    ∀ k', r_view k' (r_set_nx_px k v px s).2 =
      if negb (r_exists k s) && bool_decide (k = k') then Text v (Some px) else r_view k' s;
  delete_spec k s : (r_delete k s).1 = r_exists k s ∧
    ∀ k', r_view k' (r_delete k s).2 = if decide (k = k') then Absent else r_view k' s;
  view_rpush k v s k' : r_view k s = Absent ∨ (∃ l, r_view k s = Items l) →
    r_view k' (r_rpush k v s) = if decide (k = k') then Items (r_lrange k s ++ [v]) else r_view k' s;
  lpop_spec k s : r_view k s = Absent ∨ (∃ l, r_view k s = Items l) →
    (r_lpop k s).1 = head (r_lrange k s) ∧
    ∀ k', r_view k' (r_lpop k s).2 = if decide (k = k') then pop_rest (tail (r_lrange k s)) else r_view k' s;
  view_hset k f v s k' : r_view k s = Absent ∨ (∃ h, r_view k s = Fields h) →
    r_view k' (r_hset k f v s) = if decide (k = k') then Fields (<[f := v]> (fields k s)) else r_view k' s;
  hdel_spec k f s : r_view k s = Absent ∨ (∃ h, r_view k s = Fields h) →
    (r_hdel k f s).1 = bool_decide (is_Some (r_hget k f s)) ∧
    ∀ k', r_view k' (r_hdel k f s).2 = if decide (k = k') then hash_of (delete f (fields k s)) else r_view k' s;
  hgetall_spec k s : r_hgetall k s ≡ₚ map_to_list (fields k s);
  view_flushdb s k : r_view k (r_flushdb s) = Absent;
  view_wait d s k : 0 ≤ d → r_view k (r_wait d s) = elapse d (r_view k s);
}.

(** ** A server *)
Module ModelServer.
Abbreviation server := (gmap string entry).
Definition view (k : string) (s : server) : entry := default Absent (s !! k).
Definition items_at (k : string) (s : server) : list string := match view k s with Items l => l | _ => [] end.
Definition fields_at (k : string) (s : server) : gmap string string := match view k s with Fields h => h | _ => ∅ end.
#[export] Instance model_server : RedisServer server := {
  r_view := view;
  r_set k v s := <[k := Text v None]> s;
  r_set_nx_px k v px s :=
    match view k s with
    | Absent => (Ok true, <[k := Text v (Some px)]> s)
    | _ => (Ok false, s)
    end;
  r_delete k s := (match view k s with Absent => false | _ => true end, <[k := Absent]> s);
  r_rpush k v s := <[k := Items (items_at k s ++ [v])]> s;
  r_lpop k s := (head (items_at k s), <[k := pop_rest (tail (items_at k s))]> s);
  r_hset k f v s := <[k := Fields (<[f := v]> (fields_at k s))]> s;
  r_hdel k f s := (bool_decide (is_Some (fields_at k s !! f)), <[k := hash_of (delete f (fields_at k s))]> s);
  r_hgetall k s := map_to_list (fields_at k s);
  r_flushdb _ := ∅;
  r_wait d s := elapse d <$> s;
}.
Lemma view_insert k e s k' : view k' (<[k := e]> s) = if decide (k = k') then e else view k' s.
Proof. unfold view. case_decide; [subst; by rewrite lookup_insert_eq|by rewrite lookup_insert_ne]. Qed.
#[export] Instance model_laws : RedisLaws server.
Proof.
  split; intros; cbn [r_view r_set r_set_nx_px r_delete r_rpush r_lpop r_hset r_hdel r_hgetall r_flushdb r_wait model_server].
  all: try apply view_insert.
  - unfold r_exists. cbn [r_view model_server]. destruct (view k s) eqn:E; cbn [fst snd]; (split; [done|]); intros k'.
    + rewrite view_insert. simpl. by case_decide; case_bool_decide.
    + done.
    + done.
    + done.
  - split; [done|]. intros k'. apply view_insert.
  - split; [done|]. intros k'. apply view_insert.
  - split; [done|]. intros k'. apply view_insert.
  - done.
  - done.
  - unfold view. rewrite lookup_fmap. by destruct (s !! k).
Qed.
End ModelServer.

(** ** Documents of tasks *)
Module TaskDocument.
Definition opt_text (o : option string) : pyval := match o with Some s => VStr s | None => VNone end.
Definition task_to_dict (i : TaskItem) : pyval :=
  VDict [("task_id", VStr (task_id i)); ("queue_name", VStr (queue_name i)); ("payload", ti_payload i);
    ("priority", VInt (ti_priority i)); ("created_at", VFloat (ti_created_at i)); ("status", VStr (ti_status i));
    ("attempt_count", VInt (attempt_count i)); ("max_retries", VInt (max_retries i));
    ("processing_timeout", VFloat (processing_timeout i)); ("last_error", opt_text (last_error i));
    ("worker_id", opt_text (worker_id i))].

(** The document as a task, when its fields have their types. *)
Definition text_at (k : string) (d : dict pyval) : option string :=
  match dlookup k d with Some (VStr s) => Some s | _ => None end.
Definition int_at (k : string) (d : dict pyval) : option Z :=
  match dlookup k d with Some (VInt z) => Some z | _ => None end.
Definition float_at (k : string) (d : dict pyval) : option float :=
  match dlookup k d with Some (VFloat f) => Some f | _ => None end.
Definition opt_text_at (k : string) (d : dict pyval) : option (option string) :=
  match dlookup k d with Some (VStr s) => Some (Some s) | Some VNone => Some None | _ => None end.
Definition typed_task (v : pyval) : option TaskItem :=
  match v with
  | VDict d =>
      guard (length d = 11)%nat;;
      id ← text_at "task_id" d; queue ← text_at "queue_name" d; payload ← dlookup "payload" d;
      priority ← int_at "priority" d; created ← float_at "created_at" d; status ← text_at "status" d;
      attempts ← int_at "attempt_count" d; retries ← int_at "max_retries" d;
      timeout ← float_at "processing_timeout" d; error ← opt_text_at "last_error" d; worker ← opt_text_at "worker_id" d;
      Some (mkTaskItem id queue payload priority created status attempts retries timeout error worker)
  | _ => None
  end.
Lemma typed_task_dict i : typed_task (task_to_dict i) = Some i.
Proof. destruct i as [? ? ? ? ? ? ? ? ? [] []]; reflexivity. Qed.
End TaskDocument.
Import TaskDocument.

(** ** RedisTaskQueue *)
Module RedisTaskQueue.
Section queue.
Context {S : Type} `{RedisServer S} (foreign : pyval → res TaskItem).

Definition queue_key (name : string) : string := "tq:queue:" +:+ name.
Definition item_key (id : string) : string := "tq:item:" +:+ id.
Definition dead_key (name : string) : string := "tq:dead:" +:+ name.

Definition document (i : TaskItem) : string := Json.dumps_ascii (task_to_dict i).
Definition dict_to_task (v : pyval) : res TaskItem :=
  match typed_task v with Some i => Ok i | None => foreign v end.
Definition read_task (raw : string) : res TaskItem := v ← Json.loads raw; dict_to_task v.

Definition enqueue (i : TaskItem) : st S TaskItem := λ s,
  let i := InMemoryTaskQueue.set_status "pending" i in
  (Ok i, r_rpush (queue_key (queue_name i)) (task_id i) (r_set (item_key (task_id i)) (document i) s)).

Definition dequeue (name worker : string) : st S (option TaskItem) := λ s,
  let '(head, s) := r_lpop (queue_key name) s in
  match head with
  | None => (Ok None, s)
  | Some id =>
      match r_get (item_key id) s with
      | None => (Ok None, s)
      | Some raw =>
          match read_task raw with
          | Err e => (Err e, s)
          | Ok i =>
              let i := InMemoryTaskQueue.start_attempt worker i in
              (Ok (Some i), r_set (item_key id) (document i) s)
          end
      end
  end.

Definition ack (id : string) : st S bool := λ s,
  match r_get (item_key id) s with
  | None => (Ok false, s)
  | Some _ => (Ok true, (r_delete (item_key id) s).2)
  end.

Definition nack (id error : string) : st S bool := λ s,
  match r_get (item_key id) s with
  | None => (Ok false, s)
  | Some raw =>
      match read_task raw with
      | Err e => (Err e, s)
      | Ok i =>
          let i := InMemoryTaskQueue.set_error error i in
          if max_retries i <=? attempt_count i then
            let i := InMemoryTaskQueue.set_status "dead" i in
            (Ok true, r_rpush (dead_key (queue_name i)) (document i) (r_delete (item_key id) s).2)
          else
            let i := InMemoryTaskQueue.set_status "pending" i in
            (Ok true, r_rpush (queue_key (queue_name i)) id (r_set (item_key id) (document i) s))
      end
  end.

Fixpoint read_all (l : list string) : res (list TaskItem) :=
  match l with
  | [] => Ok []
  | raw :: l => i ← read_task raw; rest ← read_all l; Ok (i :: rest)
  end.
Definition peek_dead_letter (name : string) (s : S) : res (list TaskItem) := read_all (r_lrange (dead_key name) s).
Definition queue_length (name : string) (s : S) : nat := length (r_lrange (queue_key name) s).
Definition close (s : S) : S := r_flushdb s.
End queue.
End RedisTaskQueue.

Definition redis_task_queue {S} `{RedisServer S} (foreign : pyval → res TaskItem) : TaskQueue S := {|
  tq_enqueue := RedisTaskQueue.enqueue;
  tq_dequeue := RedisTaskQueue.dequeue foreign;
  tq_ack := RedisTaskQueue.ack;
  tq_nack := RedisTaskQueue.nack foreign;
  tq_peek_dead_letter := RedisTaskQueue.peek_dead_letter foreign;
  tq_queue_length := RedisTaskQueue.queue_length;
  tq_close := RedisTaskQueue.close;
|}.

(** ** RedisDistributedLock *)
Module RedisDistributedLock.
Section lock.
Context {S : Type} `{RedisServer S}.

Definition lock_key (name : string) : string := "lock:" +:+ name.
(** [holder_id or "_"] *)
Definition owner_text (holder : string) : string := if str_truthy holder then holder else "_".

(** One attempt of the loop of [acquire]. *)
Definition try_acquire (name holder : string) (ttl_ms : Z) : st S bool := λ s,
  r_set_nx_px (lock_key name) (owner_text holder) ttl_ms s.
(** [acquire]: each attempt has the reading it compares with the deadline and what
    the server does until the next one; [None] when the given attempts end. *)
Fixpoint attempts (name holder : string) (ttl_ms : Z) (deadline : float) (passes : list (float * (S → S))) :
    st S (option bool) := λ s,
  match passes with
  | [] => (Ok None, s)
  | (now, others) :: passes =>
      match try_acquire name holder ttl_ms s with
      | (Err e, s) => (Err e, s)
      | (Ok true, s) => (Ok (Some true), s)
      | (Ok false, s) =>
          if PyFloat.ge now deadline then (Ok (Some false), s)
          else attempts name holder ttl_ms deadline passes (others s)
      end
  end.
Definition acquire (name holder : string) (timeout ttl start : float) (passes : list (float * (S → S))) :
    st S (option bool) := λ s,
  match PyFloat.trunc (PyFloat.mul ttl (PyFloat.of_Z 1000)) with
  | Err e => (Err e, s)
  | Ok ttl_ms => attempts name holder ttl_ms (PyFloat.add start timeout) passes s
  end.

(** [release] reads the owner and deletes the key in two commands; [between] is
    what other clients do in between. *)
Definition release (name holder : string) (between : S → S) : st S bool := λ s,
  if str_truthy holder then
    match r_get (lock_key name) s with
    | None => (Ok false, s)
    | Some current =>
        if bool_decide (current ≠ holder) then (Ok false, s)
        else let '(found, s) := r_delete (lock_key name) (between s) in (Ok found, s)
    end
  else let '(found, s) := r_delete (lock_key name) s in (Ok found, s).
Definition is_locked (name : string) (s : S) : bool := r_exists (lock_key name) s.
End lock.
End RedisDistributedLock.

(** ** The Redis queue refines the in-memory queue *)
Module QueueRefinement.
Import RedisTaskQueue JsonRoundTrip ScanFacts.

(** A task whose document reads back. *)
Definition opt_scalar (o : option string) : bool := from_option scalar_text true o.
Definition task_ok (i : TaskItem) : bool :=
  scalar_text (task_id i) && scalar_text (queue_name i) && json_ok (ti_payload i) &&
  texts_ok scalar_text (ti_payload i) && json_float (ti_created_at i) && scalar_text (ti_status i) &&
  json_float (processing_timeout i) && opt_scalar (last_error i) && opt_scalar (worker_id i).

#[local] Opaque scalar_text Json.dumps_ascii Json.loads.
Lemma task_document_reads foreign i : task_ok i = true → read_task foreign (document i) = Ok i.
Proof.
  unfold task_ok. rewrite !andb_true_iff. intros. destruct_and?. unfold read_task, document.
  assert (∀ o, json_ok (opt_text o) = true) as Hj by by intros [].
  assert (∀ o, opt_scalar o = true → texts_ok scalar_text (opt_text o) = true) as Ht by by intros [].
  rewrite loads_dumps_ascii.
  - cbn [mbind res_bind]. unfold dict_to_task. by rewrite typed_task_dict.
  - cbn [json_ok task_to_dict forallb snd]. rewrite !Hj. repeat match goal with H : _ = true |- _ => rewrite H end. done.
  - cbn [texts_ok task_to_dict forallb fst snd]. rewrite !Ht by done.
    repeat match goal with H : _ = true |- _ => rewrite H end. by vm_compute.
Qed.

Lemma item_key_inj a b : item_key a = item_key b → a = b.
Proof. unfold item_key. apply (inj _). Qed.
Lemma queue_key_inj a b : queue_key a = queue_key b → a = b.
Proof. unfold queue_key. apply (inj _). Qed.
Lemma dead_key_inj a b : dead_key a = dead_key b → a = b.
Proof. unfold dead_key. apply (inj _). Qed.
Lemma item_queue_ne a b : item_key a ≠ queue_key b.
Proof. unfold item_key, queue_key. cbv [String.append]. congruence. Qed.
Lemma item_dead_ne a b : item_key a ≠ dead_key b.
Proof. unfold item_key, dead_key. cbv [String.append]. congruence. Qed.
Lemma queue_dead_ne a b : queue_key a ≠ dead_key b.
Proof. unfold queue_key, dead_key. cbv [String.append]. congruence. Qed.
Lemma decide_item {A} a b (x y : A) : (if decide (item_key a = item_key b) then x else y) = if decide (a = b) then x else y.
Proof. pose proof (item_key_inj a b). repeat case_decide; naive_solver. Qed.
Lemma decide_queue {A} a b (x y : A) : (if decide (queue_key a = queue_key b) then x else y) = if decide (a = b) then x else y.
Proof. pose proof (queue_key_inj a b). repeat case_decide; naive_solver. Qed.
Lemma decide_dead {A} a b (x y : A) : (if decide (dead_key a = dead_key b) then x else y) = if decide (a = b) then x else y.
Proof. pose proof (dead_key_inj a b). repeat case_decide; naive_solver. Qed.

Lemma pending_after_push name id name' q its dl :
  InMemoryTaskQueue.pending_ids name' (mkTaskQueue (InMemoryTaskQueue.push name id q) its dl) =
  if decide (name = name') then InMemoryTaskQueue.pending_ids name' q ++ [id] else InMemoryTaskQueue.pending_ids name' q.
Proof.
  unfold InMemoryTaskQueue.push, InMemoryTaskQueue.pending_ids. cbn [queues].
  case_decide; [subst; by rewrite lookup_insert_eq|by rewrite lookup_insert_ne].
Qed.

Section refinement.
Context {S : Type} `{RS : RedisServer S} `{!RedisLaws S} (foreign : pyval → res TaskItem).
Implicit Types (s : S) (q : task_queue).
Import InMemoryTaskQueue.
#[local] Set Default Proof Using "Type*".

Record represents (s : S) (q : task_queue) : Prop := {
  rp_items id : r_view (item_key id) s = match items q !! id with Some i => Text (document i) None | None => Absent end;
  rp_queues name : r_view (queue_key name) s = pop_rest (pending_ids name q);
  rp_dead name : r_view (dead_key name) s = pop_rest (document <$> peek_dead_letter name q);
  rp_live id i : items q !! id = Some i → task_ok i = true ∧ task_id i = id;
  rp_letters name : Forall (λ i, task_ok i = true) (peek_dead_letter name q);
}.

Lemma pop_rest_list (e : entry) l : e = pop_rest l → e = Absent ∨ ∃ l', e = Items l'.
Proof. intros ->. destruct l; [by left|right; by eexists]. Qed.
Lemma lrange_pop k s l : r_view k s = pop_rest l → r_lrange k s = l.
Proof. unfold r_lrange. intros ->. by destruct l. Qed.
Lemma pop_rest_app l v : Items (l ++ [v]) = pop_rest (l ++ [v]).
Proof. by destruct l. Qed.

Lemma item_get s q id : represents s q → r_get (item_key id) s = document <$> items q !! id.
Proof. intros Hr. unfold r_get. rewrite (rp_items s q Hr). by destruct (items q !! id). Qed.
Lemma represents_empty s : (∀ k, r_view k s = Absent) → represents s init.
Proof. intros Hs. split; try done. Qed.

Lemma view_set_queue id d s name : r_view (queue_key name) (r_set (item_key id) d s) = r_view (queue_key name) s.
Proof. rewrite view_set, decide_False; [done|]. apply item_queue_ne. Qed.
Lemma view_set_dead id d s name : r_view (dead_key name) (r_set (item_key id) d s) = r_view (dead_key name) s.
Proof. rewrite view_set, decide_False; [done|]. apply item_dead_ne. Qed.

(** Storing a live item and pushing its identifier. *)
Lemma represents_push s q i : represents s q → task_ok i = true →
  represents (r_rpush (queue_key (queue_name i)) (task_id i) (r_set (item_key (task_id i)) (document i) s))
    (mkTaskQueue (push (queue_name i) (task_id i) q) (<[task_id i := i]> (items q)) (dead_letter q)).
Proof.
  intros [Hi Hq Hd Hl Hp] Hok. set (s1 := r_set _ _ s).
  assert (r_view (queue_key (queue_name i)) s1 = pop_rest (pending_ids (queue_name i) q)) as Hq1.
  { unfold s1. rewrite view_set_queue. apply Hq. }
  pose proof (pop_rest_list _ _ Hq1) as Hty. pose proof (lrange_pop _ _ _ Hq1) as Hlr. split; cbn [items dead_letter].
  - intros id. rewrite view_rpush, decide_False by (done || intros E; by apply (item_queue_ne id (queue_name i))).
    unfold s1. rewrite view_set, decide_item, Hi.
    case_decide; [subst; by rewrite lookup_insert_eq|by rewrite lookup_insert_ne].
  - intros name. rewrite view_rpush, decide_queue, Hlr, pending_after_push by done. unfold s1.
    rewrite view_set_queue, Hq. case_decide; [subst; apply pop_rest_app|done].
  - intros name. rewrite view_rpush, decide_False by (done || apply queue_dead_ne). unfold s1.
    rewrite view_set_dead. apply Hd.
  - intros id j. rewrite lookup_insert. case_decide; [intros [= <-]; by subst|apply Hl].
  - done.
Qed.

Lemma represents_pop s q name id rest : represents s q → pending_ids name q = id :: rest →
  (r_lpop (queue_key name) s).1 = Some id ∧
  represents (r_lpop (queue_key name) s).2 (mkTaskQueue (<[name := rest]> (queues q)) (items q) (dead_letter q)).
Proof.
  intros [Hi Hq Hd Hl Hp] Hpend. pose proof (Hq name) as Hn.
  destruct (lpop_spec (queue_key name) s (pop_rest_list _ _ Hn)) as [Hh Hv].
  rewrite (lrange_pop _ _ _ Hn), Hpend in Hh, Hv. split; [done|]. cbn [tail] in Hv. split; cbn [items dead_letter].
  - intros id'. rewrite Hv, decide_False; [apply Hi|]. intros E. by apply (item_queue_ne id' name).
  - intros name'. rewrite Hv, decide_queue. unfold pending_ids. cbn [queues].
    case_decide; [subst; by rewrite lookup_insert_eq|rewrite lookup_insert_ne by done; apply Hq].
  - intros name'. rewrite Hv, decide_False by apply queue_dead_ne. apply Hd.
  - done.
  - done.
Qed.

Lemma represents_set s q id i : represents s q → task_ok i = true → task_id i = id →
  represents (r_set (item_key id) (document i) s) (mkTaskQueue (queues q) (<[id := i]> (items q)) (dead_letter q)).
Proof.
  intros [Hi Hq Hd Hl Hp] Hok Hid. split; cbn [items dead_letter].
  - intros id'. rewrite view_set, decide_item, Hi.
    case_decide; [subst; by rewrite lookup_insert_eq|by rewrite lookup_insert_ne].
  - intros name. rewrite view_set_queue. apply Hq.
  - intros name. rewrite view_set_dead. apply Hd.
  - intros id' j. rewrite lookup_insert. case_decide; [intros [= <-]; by subst|apply Hl].
  - done.
Qed.

Lemma represents_delete s q id : represents s q →
  represents (r_delete (item_key id) s).2 (mkTaskQueue (queues q) (delete id (items q)) (dead_letter q)).
Proof.
  intros [Hi Hq Hd Hl Hp]. destruct (delete_spec (item_key id) s) as [_ Hv]. split; cbn [items dead_letter].
  - intros id'. rewrite Hv, decide_item, Hi.
    case_decide; [subst; by rewrite lookup_delete_eq|by rewrite lookup_delete_ne].
  - intros name. rewrite Hv, decide_False by apply item_queue_ne. apply Hq.
  - intros name. rewrite Hv, decide_False by apply item_dead_ne. apply Hd.
  - intros id' j. rewrite lookup_delete. case_decide; [done|apply Hl].
  - done.
Qed.

Lemma represents_bury s q i : represents s q → task_ok i = true →
  represents (r_rpush (dead_key (queue_name i)) (document i) s)
    (mkTaskQueue (queues q) (items q)
       (<[queue_name i := default [] (dead_letter q !! queue_name i) ++ [i]]> (dead_letter q))).
Proof.
  intros [Hi Hq Hd Hl Hp] Hok. pose proof (Hd (queue_name i)) as Hn.
  pose proof (pop_rest_list _ _ Hn) as Hty. pose proof (lrange_pop _ _ _ Hn) as Hlr. split; cbn [items dead_letter].
  - intros id. rewrite view_rpush, decide_False; [apply Hi|intros E; by apply (item_dead_ne id (queue_name i))|done].
  - intros name. rewrite view_rpush, decide_False; [apply Hq|intros E; by apply (queue_dead_ne name (queue_name i))|done].
  - intros name. rewrite view_rpush, decide_dead, Hlr by done. unfold peek_dead_letter in *. cbn [dead_letter].
    case_decide; [subst; rewrite lookup_insert_eq|rewrite lookup_insert_ne by done; apply Hd].
    cbn [default from_option id]. rewrite fmap_app. apply pop_rest_app.
  - done.
  - intros name. unfold peek_dead_letter in *. cbn [dead_letter]. rewrite lookup_insert. case_decide; [|apply Hp].
    subst. cbn [default from_option id]. apply Forall_app. split; [apply Hp|by constructor].
Qed.

(** ** Runs of calls *)
Inductive queue_call :=
| Enqueue (i : TaskItem)
| Dequeue (name worker : string)
| Ack (id : string)
| Nack (id error : string).
Inductive answer := Task (i : option TaskItem) | Done (b : bool).

(** A call, on any task queue *)
Definition queue_step {Q} `{TaskQueue Q} (c : queue_call) : st Q answer :=
  match c with
  | Enqueue i => i ← tq_enqueue i; mret (Task (Some i))
  | Dequeue name worker => i ← tq_dequeue name worker; mret (Task i)
  | Ack id => b ← tq_ack id; mret (Done b)
  | Nack id error => b ← tq_nack id error; mret (Done b)
  end.
Definition redis_call : queue_call → st S answer := @queue_step S (redis_task_queue foreign).
Definition memory_call : queue_call → st task_queue answer := queue_step.
Definition call_ok (c : queue_call) : bool :=
  match c with
  | Enqueue i => task_ok i
  | Dequeue _ worker => scalar_text worker
  | Ack _ => true
  | Nack _ error => scalar_text error
  end.
(** Where the in-memory queue raises because a waiting task is gone, the Redis
    queue answers that there is none. *)
Definition same_answer (a b : res answer) : Prop :=
  a = b ∨ ∃ id, b = Err (KeyError id) ∧ a = Ok (Task None).

Lemma status_ok st i : scalar_text st = true → task_ok i = true → task_ok (set_status st i) = true.
Proof. unfold task_ok. cbn. rewrite !andb_true_iff. naive_solver. Qed.
Lemma error_ok e i : scalar_text e = true → task_ok i = true → task_ok (set_error e i) = true.
Proof. unfold task_ok. cbn. rewrite !andb_true_iff. naive_solver. Qed.
Lemma attempt_ok w i : scalar_text w = true → task_ok i = true → task_ok (start_attempt w i) = true.
Proof.
  assert (scalar_text "processing" = true) by by vm_compute. unfold task_ok. cbn. rewrite !andb_true_iff. naive_solver.
Qed.

Lemma queue_call_refines c s q : represents s q → call_ok c = true →
  let '(a, s') := redis_call c s in let '(b, q') := memory_call c q in same_answer a b ∧ represents s' q'.
Proof.
  intros Hr Hc. destruct c as [i|name worker|id|id error]; unfold redis_call, memory_call;
    cbn [queue_step tq_enqueue tq_dequeue tq_ack tq_nack redis_task_queue memory_task_queue call_ok] in *.
  - unfold mbind, st_bind, RedisTaskQueue.enqueue, enqueue. split; [by left|].
    apply (represents_push s q (set_status "pending" i)); [done|]. apply status_ok; [by vm_compute|done].
  - unfold mbind, st_bind, RedisTaskQueue.dequeue, dequeue. destruct (pending_ids name q) as [|id rest] eqn:Hp.
    { pose proof (rp_queues s q Hr name) as Hn. rewrite Hp in Hn.
      destruct (lpop_spec (queue_key name) s (pop_rest_list _ _ Hn)) as [Hh Hv].
      rewrite (lrange_pop _ _ _ Hn) in Hh, Hv. destruct (r_lpop (queue_key name) s) as [h s1]. cbn [fst snd] in *.
      subst h. split; [by left|]. destruct Hr as [Hi Hq Hd Hl Hle]. split; try done.
      - intros id. rewrite Hv, decide_False; [apply Hi|]. intros E. by apply (item_queue_ne id name).
      - intros name'. rewrite Hv, decide_queue. case_decide; [subst; by rewrite Hp|apply Hq].
      - intros name'. rewrite Hv, decide_False by apply queue_dead_ne. apply Hd. }
    destruct (represents_pop s q name id rest Hr Hp) as [Hh Hr1].
    destruct (r_lpop (queue_key name) s) as [h s1]. cbn [fst snd] in *. subst h.
    rewrite (item_get s1 _ id Hr1). cbn [items].
    destruct (items q !! id) as [i|] eqn:Ei; cbn [fmap option_fmap option_map].
    + destruct (rp_live s q Hr id i Ei) as [Hok Hid]. rewrite task_document_reads by done. split; [by left|].
      apply (represents_set s1 (mkTaskQueue (<[name := rest]> (queues q)) (items q) (dead_letter q)) id
        (start_attempt worker i) Hr1); [by apply attempt_ok|done].
    + split; [|done]. right. by eexists.
  - unfold mbind, st_bind, RedisTaskQueue.ack, ack. rewrite (item_get s q id Hr).
    destruct (items q !! id) as [i|]; cbn [fmap option_fmap option_map]; (split; [by left|]); [|done].
    by apply represents_delete.
  - unfold mbind, st_bind, RedisTaskQueue.nack, nack. rewrite (item_get s q id Hr).
    destruct (items q !! id) as [i|] eqn:Ei; cbn [fmap option_fmap option_map]; [|split; [by left|done]].
    destruct (rp_live s q Hr id i Ei) as [Hok Hid]. rewrite task_document_reads by done.
    assert (task_ok (set_error error i) = true) as He by by apply error_ok.
    destruct (max_retries (set_error error i) <=? attempt_count (set_error error i)); (split; [by left|]).
    + pose proof (represents_bury _ _ (set_status "dead" (set_error error i)) (represents_delete s q id Hr)) as Hb.
      apply Hb. apply status_ok; [by vm_compute|done].
    + subst id. apply (represents_push s q (set_status "pending" (set_error error i))); [done|].
      apply status_ok; [by vm_compute|done].
Qed.

Fixpoint run {X} (call : queue_call → st X answer) (l : list queue_call) (x : X) : list (res answer) * X :=
  match l with
  | [] => ([], x)
  | c :: l => let '(a, x) := call c x in let '(as_, x) := run call l x in (a :: as_, x)
  end.
Lemma queue_run_refines l : ∀ s q, represents s q → forallb call_ok l = true →
  let '(as_, s') := run redis_call l s in let '(bs, q') := run memory_call l q in
  Forall2 same_answer as_ bs ∧ represents s' q'.
Proof.
  induction l as [|c l IH]; intros s q Hr Hl; [done|]. apply andb_true_iff in Hl as [Hc Hl]. cbn [run].
  pose proof (queue_call_refines c s q Hr Hc) as H1. destruct (redis_call c s) as [a s1], (memory_call c q) as [b q1].
  destruct H1 as [Ha H1]. specialize (IH s1 q1 H1 Hl).
  destruct (run redis_call l s1) as [as_ s'], (run memory_call l q1) as [bs q']. destruct IH as [Has Hr'].
  split; [by constructor|done].
Qed.

Lemma dead_letters_read s q name : represents s q →
  RedisTaskQueue.peek_dead_letter foreign name s = Ok (peek_dead_letter name q).
Proof.
  intros Hr. unfold RedisTaskQueue.peek_dead_letter. rewrite (lrange_pop _ _ _ (rp_dead s q Hr name)).
  pose proof (rp_letters s q Hr name) as Hl. induction Hl as [|i l Hi Hl IH]; [done|].
  rewrite fmap_cons. cbn [read_all]. rewrite task_document_reads by done. cbn [mbind res_bind]. by rewrite IH.
Qed.
End refinement.
End QueueRefinement.

(** C34: The Redis task queue is interchangeable with the in-memory one: on any
    server that does what its commands document, starting from an empty
    database, every sequence of enqueues, dequeues, acknowledgements and
    rejections gets the same answers from both, apart from taking a task that
    was acknowledged while it waited (in memory that raises, over Redis there is
    no task); afterwards the lengths of all queues and the dead letters are the
    same.  Tasks are JSON values with text that is valid Unicode. *)
Theorem redis_queue_refines {S} `{RedisLaws S} foreign (s : S) l :
  (∀ k, r_view k s = Absent) → forallb QueueRefinement.call_ok l = true →
  let '(answers, s') := QueueRefinement.run (QueueRefinement.redis_call foreign) l s in
  let '(answers', q) := QueueRefinement.run QueueRefinement.memory_call l InMemoryTaskQueue.init in
  Forall2 QueueRefinement.same_answer answers answers' ∧
  ∀ name, RedisTaskQueue.queue_length name s' = InMemoryTaskQueue.queue_length name q ∧
    RedisTaskQueue.peek_dead_letter foreign name s' = Ok (InMemoryTaskQueue.peek_dead_letter name q).
Proof.
  intros Hs Hl. pose proof (QueueRefinement.queue_run_refines foreign l s _ (QueueRefinement.represents_empty s Hs) Hl) as Hr.
  destruct (QueueRefinement.run _ l s) as [answers s'], (QueueRefinement.run _ l InMemoryTaskQueue.init) as [answers' q].
  destruct Hr as [Ha Hr]. split; [done|]. intros name. split; [|by apply QueueRefinement.dead_letters_read].
  unfold RedisTaskQueue.queue_length, InMemoryTaskQueue.queue_length.
  by rewrite (QueueRefinement.lrange_pop _ _ _ (QueueRefinement.rp_queues _ _ Hr name)).
Qed.

Module QueueExample.
Import QueueRefinement ModelServer.
Definition none (v : pyval) : res TaskItem := Err (TypeError "").
Definition task : TaskItem :=
  mkTaskItem "t1" "mail" (VDict [("to", VStr (Json.utf8 233))]) 0 (PyFloat.ratio 1 2) "new" 0 2 (PyFloat.of_Z 30) None None.
(** Delivered twice, then a dead letter; a second task is taken back while it
    waits. *)
Definition calls : list queue_call :=
  [Enqueue task; Dequeue "mail" "w"; Nack "t1" "down"; Dequeue "mail" "w"; Nack "t1" "down"; Dequeue "mail" "w";
   Enqueue task; Ack "t1"; Dequeue "mail" "w"].

Lemma redis_queue_refines_witness :
  let '(answers, s') := run (redis_call none) calls (∅ : gmap string entry) in
  let '(answers', q) := run memory_call calls InMemoryTaskQueue.init in
  (last answers = Some (Ok (Task None)) ∧ last answers' = Some (Err (KeyError "t1")) ∧
   length (InMemoryTaskQueue.peek_dead_letter "mail" q) = 1%nat) ∧
  Forall2 same_answer answers answers' ∧
  ∀ name, RedisTaskQueue.queue_length name s' = InMemoryTaskQueue.queue_length name q ∧
    RedisTaskQueue.peek_dead_letter none name s' = Ok (InMemoryTaskQueue.peek_dead_letter name q).
Proof.
  pose proof (redis_queue_refines none (∅ : gmap string entry) calls ltac:(done) ltac:(by vm_compute)) as Hr.
  assert (last (run (redis_call none) calls (∅ : gmap string entry)).1 = Some (Ok (Task None)) ∧
    last (run memory_call calls InMemoryTaskQueue.init).1 = Some (Err (KeyError "t1")) ∧
    length (InMemoryTaskQueue.peek_dead_letter "mail" (run memory_call calls InMemoryTaskQueue.init).2) = 1%nat) as Hc
    by (split_and!; vm_compute; reflexivity).
  destruct (run (redis_call none) calls _) as [answers s'], (run memory_call calls _) as [answers' q].
  split; [exact Hc|exact Hr].
Defined.
End QueueExample.

(** ** The lock *)
Module LockFacts.
Import RedisDistributedLock.
Section facts.
Context {S : Type} `{RS : RedisServer S} `{!RedisLaws S}.
#[local] Set Default Proof Using "Type*".

(** What clients and the clock do. *)
Inductive lock_op :=
| TryAcquire (name holder : string) (ttl_ms : Z)
| Release (name holder : string)
| Wait (ms : Z).
Definition lock_exec (s : S) (o : lock_op) : S :=
  match o with
  | TryAcquire name holder ttl_ms => (try_acquire name holder ttl_ms s).2
  | Release name holder => (release name holder (λ s, s) s).2
  | Wait ms => r_wait ms s
  end.
(** The time an operation takes, and the operations that leave another's lock alone. *)
Definition takes (o : lock_op) : Z := match o with Wait ms => ms | _ => 0 end.
Definition allowed (name owner : string) (o : lock_op) : Prop :=
  match o with
  | TryAcquire _ _ ttl_ms => 0 < ttl_ms
  | Release name' holder => name' = name → holder ≠ "" ∧ holder ≠ owner
  | Wait ms => 0 ≤ ms
  end.
Fixpoint total_time (ops : list lock_op) : Z := match ops with [] => 0 | o :: ops => takes o + total_time ops end.

Lemma lock_key_inj a b : lock_key a = lock_key b → a = b.
Proof using. unfold lock_key. apply (inj _). Qed.

Lemma total_time_nonneg name owner ops : Forall (allowed name owner) ops → 0 ≤ total_time ops.
Proof using. induction 1 as [|o ops Ho Hops IH]; cbn [total_time]; [lia|]. destruct o; simpl in *; lia. Qed.

Lemma redis_lock_exec_keeps name owner ttl o s :
  r_view (lock_key name) s = Text owner (Some ttl) → allowed name owner o → takes o < ttl →
  r_view (lock_key name) (lock_exec s o) = Text owner (Some (ttl - takes o)).
Proof.
  intros Hv Ho Ht. destruct o as [name' holder ttl_ms|name' holder|ms]; cbn [lock_exec takes allowed] in *.
  - unfold try_acquire. destruct (set_nx_px_spec (lock_key name') (owner_text holder) ttl_ms s Ho) as [_ Hk].
    rewrite Hk, Z.sub_0_r. unfold r_exists. case_bool_decide as E; [|by rewrite andb_false_r].
    apply lock_key_inj in E as ->. by rewrite Hv.
  - rewrite Z.sub_0_r. unfold release.
    assert (∀ s0, r_view (lock_key name) s0 = Text owner (Some ttl) → name' ≠ name →
      r_view (lock_key name) (r_delete (lock_key name') s0).2 = Text owner (Some ttl)) as Hdel.
    { intros s0 Hs0 Hne. destruct (delete_spec (lock_key name') s0) as [_ Hk]. rewrite Hk, decide_False; [done|].
      intros E. by apply Hne, lock_key_inj. }
    destruct (decide (name' = name)) as [->|Hne].
    + destruct Ho as [Hh Hno]; [done|]. apply str_truthy_true in Hh. rewrite Hh. unfold r_get. rewrite Hv.
      by rewrite bool_decide_eq_true_2 by congruence.
    + specialize (Hdel s Hv Hne). destruct (str_truthy holder); [destruct (r_get (lock_key name') s); [case_bool_decide|]|];
        try done; by destruct (r_delete (lock_key name') s).
  - rewrite view_wait, Hv by lia. simpl. by rewrite (proj2 (Z.leb_gt ttl ms)) by lia.
Qed.
Lemma run_keeps name owner ops : ∀ ttl s,
  r_view (lock_key name) s = Text owner (Some ttl) → Forall (allowed name owner) ops → total_time ops < ttl →
  r_view (lock_key name) (foldl lock_exec s ops) = Text owner (Some (ttl - total_time ops)).
Proof.
  induction ops as [|o ops IH]; intros ttl s Hv Hops Ht; cbn [foldl total_time] in *; [by rewrite Z.sub_0_r|].
  apply Forall_cons in Hops as [Ho Hops]. pose proof (total_time_nonneg _ _ _ Hops).
  assert (takes o < ttl) as Hlt by lia. rewrite (IH (ttl - takes o)); [f_equal; f_equal; lia| |done|lia].
  by apply redis_lock_exec_keeps.
Qed.
End facts.
End LockFacts.
Import LockFacts.


Import ModelServer.

(** The owner is read and the key deleted in two steps: when the lock expires in
    between and another client takes it, releasing it deletes the other's lock. *)
Example release_deletes_other_lock :
  let s := (RedisDistributedLock.try_acquire "job" "a" 1000 (∅ : gmap string entry)).2 in
  let others s := (RedisDistributedLock.try_acquire "job" "b" 5000 (r_wait 1000 s)).2 in
  r_get (RedisDistributedLock.lock_key "job") (others s) = Some "b" ∧
  let '(r, s') := RedisDistributedLock.release "job" "a" others s in
  r = Ok true ∧ RedisDistributedLock.is_locked "job" s' = false.
Proof. by vm_compute. Qed.
