(* ===== verification/RedisWorkers.v ===== *)
(** * Workers that share a Redis task queue (src/src/scheduler/redis_queue.py)

    [Redis] runs an operation of the queue in one piece.  Between processes it is
    a sequence of commands, each atomic on the server, and other processes send
    theirs in between.  Here a worker is the command it sends next ([phase]);
    [advance] sends it.  [alone] shows that an operation whose commands are not
    interleaved is the operation of [Redis]; the invariant accounts for every
    task under every interleaving, crashes of workers included. *)
From stdpp Require Import relations.
From S2P Require Import Prelude PyFloat PyValue Persistence Json JsonFacts Scheduler Redis.
Local Open Scope Z_scope.
Import RedisTaskQueue QueueRefinement JsonRoundTrip ScanFacts.

(** ** Operations as sequences of commands *)
Module Commands.

(** What a call returned; a worker starts with [Started]. *)
Inductive value := Started | Queued (i : TaskItem) | Taken (i : option TaskItem) | Found (b : bool).

Inductive phase :=
| Storing (i : TaskItem)                    (* enqueue: SET the item *)
| Announcing (i : TaskItem)                 (* enqueue: RPUSH its identifier *)
| Popping (name worker : string)            (* dequeue: LPOP *)
| Popped (id worker : string)               (* dequeue: GET the item *)
| Marking (id : string) (i : TaskItem)      (* dequeue: SET the item *)
| AckReading (id : string)                  (* ack: GET *)
| AckDeleting (id : string)                 (* ack: DEL *)
| NackReading (id error : string)           (* nack: GET *)
| Burying (id : string) (i : TaskItem)      (* nack: DEL *)
| Entombing (id : string) (i : TaskItem)    (* nack: RPUSH the dead letter *)
| Retrying (id : string) (i : TaskItem)     (* nack: SET the item *)
| Requeueing (id : string) (i : TaskItem)   (* nack: RPUSH the identifier *)
| Returned (r : res value).

Section commands.
Context {S : Type} `{RedisServer S} (foreign : pyval → res TaskItem).

(** The first command of each operation. *)
Definition begin_enqueue (i : TaskItem) : phase := Storing (InMemoryTaskQueue.set_status "pending" i).
Definition begin_dequeue (name worker : string) : phase := Popping name worker.
Definition begin_ack (id : string) : phase := AckReading id.
Definition begin_nack (id error : string) : phase := NackReading id error.

(** What [nack] does with the item it read. *)
Definition reject (id error : string) (i : TaskItem) : phase :=
  let i := InMemoryTaskQueue.set_error error i in
  if max_retries i <=? attempt_count i then Burying id (InMemoryTaskQueue.set_status "dead" i)
  else Retrying id (InMemoryTaskQueue.set_status "pending" i).

(** Send the next command. *)
Definition advance (p : phase) (s : S) : phase * S :=
  match p with
  | Storing i => (Announcing i, r_set (item_key (task_id i)) (document i) s)
  | Announcing i => (Returned (Ok (Queued i)), r_rpush (queue_key (queue_name i)) (task_id i) s)
  | Popping name worker =>
      let '(head, s) := r_lpop (queue_key name) s in
      (match head with Some id => Popped id worker | None => Returned (Ok (Taken None)) end, s)
  | Popped id worker =>
      (match r_get (item_key id) s with
       | None => Returned (Ok (Taken None))
       | Some raw =>
           match read_task foreign raw with
           | Err e => Returned (Err e)
           | Ok i => Marking id (InMemoryTaskQueue.start_attempt worker i)
           end
       end, s)
  | Marking id i => (Returned (Ok (Taken (Some i))), r_set (item_key id) (document i) s)
  | AckReading id =>
      (match r_get (item_key id) s with None => Returned (Ok (Found false)) | Some _ => AckDeleting id end, s)
  | AckDeleting id => (Returned (Ok (Found true)), (r_delete (item_key id) s).2)
  | NackReading id error =>
      (match r_get (item_key id) s with
       | None => Returned (Ok (Found false))
       | Some raw => match read_task foreign raw with Err e => Returned (Err e) | Ok i => reject id error i end
       end, s)
  | Burying id i => (Entombing id i, (r_delete (item_key id) s).2)
  | Entombing _ i => (Returned (Ok (Found true)), r_rpush (dead_key (queue_name i)) (document i) s)
  | Retrying id i => (Requeueing id i, r_set (item_key id) (document i) s)
  | Requeueing id i => (Returned (Ok (Found true)), r_rpush (queue_key (queue_name i)) id s)
  | Returned r => (Returned r, s)
  end.

(** An operation whose commands nobody interleaves with; none has more than three. *)
Definition alone (p : phase) (s : S) : phase * S :=
  let '(p, s) := advance p s in let '(p, s) := advance p s in advance p s.

Definition returned {A} (f : A → value) (r : res A * S) : phase * S := (Returned (f <$> r.1), r.2).

Lemma enqueue_alone i s : alone (begin_enqueue i) s = returned Queued (RedisTaskQueue.enqueue i s).
Proof. done. Qed.
Lemma dequeue_alone name worker s :
  alone (begin_dequeue name worker) s = returned Taken (RedisTaskQueue.dequeue foreign name worker s).
Proof.
  unfold alone, returned, RedisTaskQueue.dequeue. cbn [begin_dequeue advance].
  destruct (r_lpop (queue_key name) s) as [[id|] s1]; [|done]. cbn [advance].
  destruct (r_get (item_key id) s1) as [raw|]; [|done]. by destruct (read_task foreign raw).
Qed.
Lemma ack_alone id s : alone (begin_ack id) s = returned Found (RedisTaskQueue.ack id s).
Proof.
  unfold alone, returned, RedisTaskQueue.ack. cbn [begin_ack advance].
  by destruct (r_get (item_key id) s).
Qed.
Lemma nack_alone id error s : alone (begin_nack id error) s = returned Found (RedisTaskQueue.nack foreign id error s).
Proof.
  unfold alone, returned, RedisTaskQueue.nack. cbn [begin_nack advance].
  destruct (r_get (item_key id) s) as [raw|]; [|done]. destruct (read_task foreign raw) as [i|e]; [|done].
  unfold reject. by destruct (_ <=? _).
Qed.
End commands.
End Commands.
Import Commands.

(** ** Workers and what happens to tasks *)
Module Workers.

(** The task a worker is responsible for. *)
Definition holds (p : phase) : option string :=
  match p with
  | Storing i | Announcing i | Returned (Ok (Taken (Some i))) => Some (task_id i)
  | Popped id _ | Marking id _ | AckReading id | AckDeleting id | NackReading id _
  | Burying id _ | Entombing id _ | Retrying id _ | Requeueing id _ => Some id
  | Popping _ _ | Returned _ => None
  end.

(** [issued], [acked] and [lost] record the identifiers that were submitted,
    acknowledged, and held by a worker that crashed. *)
Record system (D : Type) := mkSystem {
  server : D;
  workers : list phase;
  issued : gset string;
  acked : gset string;
  lost : gset string;
}.
#[global] Arguments mkSystem {D}.
#[global] Arguments server {D}.
#[global] Arguments workers {D}.
#[global] Arguments issued {D}.
#[global] Arguments acked {D}.
#[global] Arguments lost {D}.

(** What a worker does: submit a task under a new identifier that made no
    attempt too many, ask for a task, acknowledge or reject the one it took, send
    the next command of the call it is in, or crash and start over. *)
Inductive action :=
| Submits (i : TaskItem)
| Takes (name worker : string)
| Acks
| Nacks (error : string)
| Sends
| Crashes.

Definition attempts_left (i : TaskItem) : bool := attempt_count i <? Z.max 1 (max_retries i).
Definition opt_set (o : option string) : gset string := match o with Some id => {[id]} | None => ∅ end.
Definition deleted (p : phase) : option string := match p with AckDeleting id => Some id | _ => None end.

Section workers.
Context {D : Type} `{RedisServer D} (foreign : pyval → res TaskItem).

Definition turns (j : nat) (p : phase) (σ : system D) : system D :=
  mkSystem (server σ) (<[j := p]> (workers σ)) (issued σ) (acked σ) (lost σ).

Definition act (j : nat) (a : action) (σ : system D) : option (system D) :=
  p ← workers σ !! j;
  match a, p with
  | Submits i, Returned _ =>
      guard (holds p = None);; guard (task_id i ∉ issued σ);; guard (task_ok i = true);; guard (attempts_left i = true);;
      Some (mkSystem (server σ) (<[j := begin_enqueue i]> (workers σ)) ({[task_id i]} ∪ issued σ) (acked σ) (lost σ))
  | Takes name worker, Returned _ =>
      guard (holds p = None);; guard (scalar_text worker = true);; Some (turns j (begin_dequeue name worker) σ)
  | Acks, Returned (Ok (Taken (Some i))) => Some (turns j (begin_ack (task_id i)) σ)
  | Nacks error, Returned (Ok (Taken (Some i))) =>
      guard (scalar_text error = true);; Some (turns j (begin_nack (task_id i) error) σ)
  | Sends, _ =>
      let '(p', s) := advance foreign p (server σ) in
      Some (mkSystem s (<[j := p']> (workers σ)) (issued σ) (opt_set (deleted p) ∪ acked σ) (lost σ))
  | Crashes, _ =>
      Some (mkSystem (server σ) (<[j := Returned (Ok Started)]> (workers σ)) (issued σ) (acked σ) (opt_set (holds p) ∪ lost σ))
  | _, _ => None
  end.

(** Other clients of the database use other keys. *)
Definition same_tasks (s s' : D) : Prop :=
  ∀ x, r_view (item_key x) s' = r_view (item_key x) s ∧ r_view (queue_key x) s' = r_view (queue_key x) s ∧
    r_view (dead_key x) s' = r_view (dead_key x) s.
Inductive step (σ : system D) : system D → Prop :=
| step_worker j a σ' : act j a σ = Some σ' → step σ σ'
| step_others s : same_tasks (server σ) s → step σ (mkSystem s (workers σ) (issued σ) (acked σ) (lost σ)).

Definition begin (s : D) (n : nat) : system D := mkSystem s (replicate n (Returned (Ok Started))) ∅ ∅ ∅.

Fixpoint play (l : list (nat * action)) (σ : system D) : option (system D) :=
  match l with [] => Some σ | (j, a) :: l => act j a σ ≫= play l end.
Lemma play_steps l : ∀ σ σ', play l σ = Some σ' → rtc step σ σ'.
Proof.
  induction l as [|[j a] l IH]; intros σ σ'; cbn [play]; [by intros [= <-]|].
  intros (σ1 & Ha & Hl)%bind_Some. eapply rtc_l; [by eapply step_worker|by apply IH].
Qed.

(** ** Where a task is *)
Definition waiting (name : string) (s : D) : list string := r_lrange (queue_key name) s.
Definition letters (name : string) (s : D) : list string := r_lrange (dead_key name) s.
Definition held (σ : system D) (j : nat) : option string := workers σ !! j ≫= holds.

Inductive place := Waiting (name : string) (k : nat) | Held (j : nat) | Dead (name : string) (k : nat) | Acked | Lost.
#[global] Instance place_eq_dec : EqDecision place.
Proof. solve_decision. Defined.

Definition at_place (σ : system D) (id : string) (x : place) : Prop :=
  match x with
  | Waiting name k => waiting name (server σ) !! k = Some id
  | Held j => held σ j = Some id
  | Dead name k => ∃ i, letters name (server σ) !! k = Some (document i) ∧ task_ok i = true ∧ task_id i = id
  | Acked => id ∈ acked σ
  | Lost => id ∈ lost σ
  end.
End workers.
End Workers.
Import Workers.

Module WorkerFacts.
#[local] Opaque document read_task scalar_text.
Section facts.
Context {D : Type} `{RS : RedisServer D} `{!RedisLaws D} (foreign : pyval → res TaskItem).
Implicit Types (s : D) (σ : system D).
#[local] Set Default Proof Using "Type*".

(** ** What the commands do to queues, dead letters and items *)
Definition typed s : Prop :=
  ∀ name, r_view (queue_key name) s = pop_rest (waiting name s) ∧ r_view (dead_key name) s = pop_rest (letters name s).

Record effect s (W L : string → list string) (I : string → entry) : Prop := {
  ef_waiting name : r_view (queue_key name) s = pop_rest (W name);
  ef_letters name : r_view (dead_key name) s = pop_rest (L name);
  ef_items id : r_view (item_key id) s = I id;
}.
Abbreviation item_view s := (λ id, r_view (item_key id) s).

Lemma effect_typed s W L I : effect s W L I → typed s.
Proof.
  intros [Hw Hl _] name. rewrite Hw, Hl. unfold waiting, letters.
  by rewrite (lrange_pop _ _ _ (Hw name)), (lrange_pop _ _ _ (Hl name)).
Qed.
Lemma effect_lists s W L I name : effect s W L I → waiting name s = W name ∧ letters name s = L name.
Proof.
  intros [Hw Hl _]. unfold waiting, letters. by rewrite (lrange_pop _ _ _ (Hw name)), (lrange_pop _ _ _ (Hl name)).
Qed.

Lemma typed_effect s : typed s → effect s (λ n, waiting n s) (λ n, letters n s) (item_view s).
Proof. intros Ht. split; intros x; [apply Ht|apply Ht|done]. Qed.

Lemma set_effect s id v : typed s →
  effect (r_set (item_key id) v s) (λ n, waiting n s) (λ n, letters n s)
    (λ x, if decide (id = x) then Text v None else r_view (item_key x) s).
Proof.
  intros Ht. split; intros x; [rewrite view_set_queue|rewrite view_set_dead|by rewrite view_set, decide_item]; apply Ht.
Qed.
Lemma delete_effect s id : typed s →
  effect (r_delete (item_key id) s).2 (λ n, waiting n s) (λ n, letters n s)
    (λ x, if decide (id = x) then Absent else r_view (item_key x) s).
Proof.
  intros Ht. destruct (delete_spec (item_key id) s) as [_ Hv]. split; intros x; rewrite Hv.
  - rewrite decide_False by apply item_queue_ne. apply Ht.
  - rewrite decide_False by apply item_dead_ne. apply Ht.
  - by rewrite decide_item.
Qed.
Lemma push_effect s name id : typed s →
  effect (r_rpush (queue_key name) id s)
    (λ n, if decide (name = n) then waiting n s ++ [id] else waiting n s) (λ n, letters n s) (item_view s).
Proof.
  intros Ht. pose proof (pop_rest_list _ _ (proj1 (Ht name))) as Hty. split; intros x; rewrite view_rpush by done.
  - rewrite decide_queue. case_decide; [subst; apply pop_rest_app|apply Ht].
  - rewrite decide_False by apply queue_dead_ne. apply Ht.
  - rewrite decide_False; [done|]. intros E. by apply (item_queue_ne x name).
Qed.
Lemma bury_effect s name raw : typed s →
  effect (r_rpush (dead_key name) raw s) (λ n, waiting n s)
    (λ n, if decide (name = n) then letters n s ++ [raw] else letters n s) (item_view s).
Proof.
  intros Ht. pose proof (pop_rest_list _ _ (proj2 (Ht name))) as Hty. split; intros x; rewrite view_rpush by done.
  - rewrite decide_False; [apply Ht|]. intros E. by apply (queue_dead_ne x name).
  - rewrite decide_dead. case_decide; [subst; apply pop_rest_app|apply Ht].
  - rewrite decide_False; [done|]. intros E. by apply (item_dead_ne x name).
Qed.
Lemma pop_effect s name : typed s →
  (r_lpop (queue_key name) s).1 = head (waiting name s) ∧
  effect (r_lpop (queue_key name) s).2
    (λ n, if decide (name = n) then tail (waiting n s) else waiting n s) (λ n, letters n s) (item_view s).
Proof.
  intros Ht. destruct (lpop_spec (queue_key name) s (pop_rest_list _ _ (proj1 (Ht name)))) as [Hh Hv].
  split; [done|]. split; intros x; rewrite Hv.
  - rewrite decide_queue. case_decide; [by subst|apply Ht].
  - rewrite decide_False by apply queue_dead_ne. apply Ht.
  - rewrite decide_False; [done|]. intros E. by apply (item_queue_ne x name).
Qed.

(** ** Moving a task *)
Definition tracks σ σ' (g : place → place) : Prop :=
  ∀ id x', at_place σ' id x' ↔ ∃ x, at_place σ id x ∧ x' = g x.

Lemma tracks_same σ σ' :
  (∀ name, waiting name (server σ') = waiting name (server σ)) →
  (∀ name, letters name (server σ') = letters name (server σ)) →
  (∀ j, held σ' j = held σ j) → acked σ' = acked σ → lost σ' = lost σ → tracks σ σ' (λ x, x).
Proof.
  intros Hw Hl Hh Ha Ho id x'. assert (at_place σ' id x' ↔ at_place σ id x') as ->; [|naive_solver].
  destruct x'; unfold at_place; by rewrite ?Hw, ?Hl, ?Hh, ?Ha, ?Ho.
Qed.

(** A worker lets go of its task, which is at [y] afterwards. *)
Lemma tracks_put σ σ' j id y :
  held σ j = Some id → held σ' j = None → y ≠ Held j →
  (∀ id', at_place σ' id' y ↔ at_place σ id' y ∨ id' = id) →
  (∀ id' x, x ≠ y → x ≠ Held j → at_place σ' id' x ↔ at_place σ id' x) →
  tracks σ σ' (λ x, if decide (x = Held j) then y else x).
Proof.
  intros Hj Hj' Hne Hy Hx id' x'. split.
  - intros Hat. destruct (decide (x' = y)) as [->|Hny].
    + apply Hy in Hat as [Hat| ->]; [exists y|exists (Held j)]; by repeat case_decide.
    + destruct (decide (x' = Held j)) as [->|Hnj]; [unfold at_place in Hat; by rewrite Hj' in Hat|].
      exists x'. rewrite decide_False by done. by rewrite <-Hx.
  - intros (x & Hat & ->). case_decide as E; [subst x|].
    + apply Hy. right. unfold at_place in Hat. congruence.
    + destruct (decide (x = y)) as [->|]; [apply Hy; by left|by apply Hx].
Qed.

(** A worker takes the first task of a queue. *)
Lemma tracks_pop σ σ' j name id rest :
  waiting name (server σ) = id :: rest →
  (∀ n, waiting n (server σ') = if decide (name = n) then tail (waiting n (server σ)) else waiting n (server σ)) →
  (∀ n, letters n (server σ') = letters n (server σ)) →
  held σ j = None → (∀ k, held σ' k = if decide (j = k) then Some id else held σ k) →
  acked σ' = acked σ → lost σ' = lost σ →
  tracks σ σ' (λ x, match x with
    | Waiting n k => if decide (name = n) then match k with O => Held j | S k => Waiting n k end else x
    | _ => x
    end).
Proof.
  intros Hq Hw Hl Hj Hh Ha Ho id' x'. split.
  - destruct x' as [n k|k|n k| |]; unfold at_place at 1; rewrite ?Hw, ?Hl, ?Hh, ?Ha, ?Ho; intros Hat.
    + exists (Waiting n (if decide (name = n) then S k else k)). unfold at_place.
      case_decide; [subst; by rewrite Hq in *|by rewrite ?decide_False].
    + case_decide; [subst; exists (Waiting name 0)|by exists (Held k)].
      unfold at_place. rewrite decide_True by done. by rewrite Hq.
    + by exists (Dead n k).
    + by exists Acked.
    + by exists Lost.
  - intros (x & Hat & ->). destruct x as [n k|k|n k| |]; unfold at_place in *; rewrite ?Hl, ?Hh, ?Ha, ?Ho; try done.
    + case_decide; [subst; rewrite Hq in Hat; destruct k as [|k]|]; unfold at_place in *.
      * by rewrite Hh, decide_True.
      * by rewrite Hw, decide_True, Hq.
      * by rewrite Hw, decide_False.
    + rewrite decide_False; [done|]. intros <-. congruence.
Qed.

(** ** The invariant *)
Definition good (id : string) (i : TaskItem) : Prop := task_ok i = true ∧ task_id i = id.
Definition within (i : TaskItem) : Prop := attempt_count i ≤ Z.max 1 (max_retries i).
Definition stored s (id : string) (i : TaskItem) : Prop := r_view (item_key id) s = Text (document i) None ∧ good id i.

Definition phase_ok s (p : phase) : Prop :=
  match p with
  | Storing i => task_ok i = true ∧ attempts_left i = true
  | Announcing i => stored s (task_id i) i ∧ attempts_left i = true
  | Popping _ worker => scalar_text worker = true
  | Popped id worker => (∃ i, stored s id i ∧ attempts_left i = true) ∧ scalar_text worker = true
  | Marking id i => good id i ∧ within i
  | Returned (Ok (Taken (Some i))) => stored s (task_id i) i ∧ within i
  | Returned (Ok _) => True
  | Returned (Err _) => False
  | AckReading id => ∃ i, stored s id i ∧ within i
  | AckDeleting _ => True
  | NackReading id error => (∃ i, stored s id i ∧ within i) ∧ scalar_text error = true
  | Burying id i | Entombing id i => good id i ∧ within i
  | Retrying id i => good id i ∧ attempts_left i = true
  | Requeueing id i => stored s id i ∧ attempts_left i = true
  end.

Record inv σ : Prop := {
  inv_typed : typed (server σ);
  inv_waiting name id : id ∈ waiting name (server σ) → ∃ i, stored (server σ) id i ∧ attempts_left i = true;
  inv_letters name raw : raw ∈ letters name (server σ) → ∃ i, raw = document i ∧ task_ok i = true ∧ within i;
  inv_phases j p : workers σ !! j = Some p → phase_ok (server σ) p;
  inv_placed id : id ∈ issued σ ↔ ∃ x, at_place σ id x;
  inv_unique id x x' : at_place σ id x → at_place σ id x' → x = x';
}.

Lemma within_left i : attempts_left i = true → within i.
Proof using. unfold attempts_left, within. rewrite Z.ltb_lt. lia. Qed.

Lemma phase_ok_frame s s' p :
  (∀ id, holds p = Some id → r_view (item_key id) s' = r_view (item_key id) s) → phase_ok s p → phase_ok s' p.
Proof using.
  intros Hf. destruct p as [| | | | | | | | | | | |[[| |[|]|]|]]; cbn [phase_ok holds] in *; unfold stored;
    try rewrite (Hf _ eq_refl); done.
Qed.

(** A worker moves from [p] to [p'] and changes no item but the one it holds; what
    waits afterwards waited before or is the held one, stored with attempts left. *)
Lemma worker_keeps σ σ' j p p' W L I g :
  inv σ → workers σ !! j = Some p → workers σ' = <[j := p']> (workers σ) → issued σ' = issued σ →
  effect (server σ') W L I →
  (∀ id, holds p ≠ Some id → I id = r_view (item_key id) (server σ)) →
  (∀ name id, id ∈ W name → id ∈ waiting name (server σ) ∨
     ∃ i, stored (server σ') id i ∧ attempts_left i = true) →
  (∀ name raw, raw ∈ L name → raw ∈ letters name (server σ) ∨ ∃ i, raw = document i ∧ task_ok i = true ∧ within i) →
  phase_ok (server σ') p' → tracks σ σ' g → inv σ'.
Proof.
  intros Hi Hj Hws Hiss He HI HW HL Hp Ht. split.
  - by eapply effect_typed.
  - intros name id Hin. rewrite (proj1 (effect_lists _ _ _ _ name He)) in Hin.
    destruct (HW name id Hin) as [Hold|]; [|done]. destruct (inv_waiting σ Hi name id Hold) as (i & [Hv Hg] & Ha).
    exists i. split; [|done]. split; [|done]. rewrite (ef_items _ _ _ _ He), HI; [done|]. intros Hh.
    apply list_elem_of_lookup in Hold as [k Hk].
    assert (Waiting name k = Held j) as E; [|done]. apply (inv_unique σ Hi id); [done|].
    unfold at_place, held. by rewrite Hj.
  - intros name raw. rewrite (proj2 (effect_lists _ _ _ _ name He)). intros Hin.
    destruct (HL name raw Hin); [|done]. by apply (inv_letters σ Hi name).
  - intros k q. rewrite Hws. destruct (decide (j = k)) as [<-|Hne].
    { rewrite list_lookup_insert_eq by by eapply lookup_lt_Some. by intros [= <-]. }
    rewrite list_lookup_insert_ne by done. intros Hk. apply (phase_ok_frame (server σ)); [|by apply (inv_phases σ Hi k)].
    intros id Hq. rewrite (ef_items _ _ _ _ He). apply HI. intros Hh.
    assert (Held j = Held k) as [= ?]; [|done].
    apply (inv_unique σ Hi id); unfold at_place, held; [by rewrite Hj|by rewrite Hk].
  - intros id. rewrite Hiss, (inv_placed σ Hi). split.
    + intros [x Hx]. exists (g x). apply Ht. by exists x.
    + intros [x Hx]. apply Ht in Hx as (y & Hy & _). by exists y.
  - intros id x x' (y & Hy & ->)%Ht (y' & Hy' & ->)%Ht. f_equal. by apply (inv_unique σ Hi id).
Qed.

Lemma held_turn σ j p p' ws k : workers σ !! j = Some p → ws = <[j := p']> (workers σ) →
  (ws !! k ≫= holds) = if decide (j = k) then holds p' else held σ k.
Proof using.
  intros Hj ->. unfold held. case_decide; [subst|by rewrite list_lookup_insert_ne].
  by rewrite list_lookup_insert_eq by by eapply lookup_lt_Some.
Qed.

(** The worker keeps its task, or still has none, and changes at most its item. *)
Lemma keeps_task σ s j p p' I :
  inv σ → workers σ !! j = Some p → holds p' = holds p →
  effect s (λ n, waiting n (server σ)) (λ n, letters n (server σ)) I →
  (∀ id, holds p ≠ Some id → I id = r_view (item_key id) (server σ)) → phase_ok s p' →
  inv (mkSystem s (<[j := p']> (workers σ)) (issued σ) (acked σ) (lost σ)).
Proof.
  intros Hi Hj Hh He HI Hp. eapply (worker_keeps σ _ j p p'); [done..|exact He|done|auto|auto|done|].
  apply tracks_same; cbn [server acked lost]; try done; intros x; [apply (effect_lists _ _ _ _ x He)..|].
  unfold held at 1. cbn [workers]. rewrite (held_turn σ j p p' _ x Hj eq_refl). case_decide; [|done].
  subst. unfold held. by rewrite Hj.
Qed.

Lemma lookup_after {A} (l : list A) x k : (l ++ [x]) !! k = if decide (k = length l) then Some x else l !! k.
Proof using.
  case_decide; [subst; by apply list_lookup_middle|]. destruct (decide (k < length l)%nat); [by apply lookup_app_l|].
  rewrite (lookup_ge_None_2 l), lookup_ge_None_2; [done|rewrite length_app; simpl; lia|lia].
Qed.

(** The worker lets go of its task. *)
Lemma puts_task σ s j p p' id y W L I acked' lost' :
  inv σ → workers σ !! j = Some p → holds p = Some id → holds p' = None →
  let σ' := mkSystem s (<[j := p']> (workers σ)) (issued σ) acked' lost' in
  effect s W L I →
  (∀ id', id ≠ id' → I id' = r_view (item_key id') (server σ)) →
  (∀ name id', id' ∈ W name → id' ∈ waiting name (server σ) ∨ ∃ i, stored s id' i ∧ attempts_left i = true) →
  (∀ name raw, raw ∈ L name → raw ∈ letters name (server σ) ∨ ∃ i, raw = document i ∧ task_ok i = true ∧ within i) →
  phase_ok s p' → (∀ k, y ≠ Held k) →
  (∀ id', at_place σ' id' y ↔ at_place σ id' y ∨ id' = id) →
  (∀ id' x, x ≠ y → (∀ k, x ≠ Held k) → at_place σ' id' x ↔ at_place σ id' x) → inv σ'.
Proof.
  intros Hi Hj Hh Hh' σ' He HI HW HL Hp Hy Hat Hx.
  assert (∀ k, held σ' k = if decide (j = k) then None else held σ k) as Hk.
  { intros k. unfold held at 1. cbn [workers σ']. by rewrite (held_turn σ j p p' _ k Hj eq_refl), Hh'. }
  eapply (worker_keeps σ σ' j p p'); [done..|exact He| |done|done|done|].
  { intros id' Hne. apply HI. congruence. }
  apply (tracks_put _ _ j id y); [unfold held; by rewrite Hj|by rewrite Hk, decide_True|done|done|].
  intros id' x Hne Hnj. destruct x; try by apply Hx. unfold at_place. rewrite Hk, decide_False; [done|congruence].
Qed.

Lemma put_waiting σ s j p p' id i name :
  inv σ → workers σ !! j = Some p → holds p = Some id → holds p' = None → phase_ok s p' →
  stored (server σ) id i → attempts_left i = true → s = r_rpush (queue_key name) id (server σ) →
  inv (mkSystem s (<[j := p']> (workers σ)) (issued σ) (acked σ) (lost σ)).
Proof.
  intros Hi Hj Hh Hh' Hp Hst Ha ->. pose proof (push_effect _ name id (inv_typed σ Hi)) as He.
  eapply (puts_task σ _ j p p' id (Waiting name (length (waiting name (server σ))))); [done..|exact He|done| |auto|done|done| |].
  - intros name' id'. cbv beta. case_decide; [subst; rewrite elem_of_app, list_elem_of_singleton|by left].
    intros [?| ->]; [by left|]. right. exists i. split; [|done]. destruct Hst as [Hv Hg]. split; [|done].
    by rewrite (ef_items _ _ _ _ He).
  - intros id'. unfold at_place. cbn [server]. rewrite (proj1 (effect_lists _ _ _ _ name He)), decide_True by done.
    rewrite lookup_after, decide_True, (lookup_ge_None_2 (waiting name _)) by done. naive_solver.
  - intros id' x Hne Hnh. destruct x as [n k|k|n k| |]; try done.
    + unfold at_place. cbn [server]. rewrite (proj1 (effect_lists _ _ _ _ n He)). case_decide; [subst|done].
      assert (k ≠ length (waiting n (server σ))) by congruence. by rewrite lookup_after, decide_False.
    + by destruct (Hnh k).
    + unfold at_place. cbn [server]. by rewrite (proj2 (effect_lists _ _ _ _ n He)).
Qed.

Lemma document_inj i i' : task_ok i = true → task_ok i' = true → document i = document i' → i = i'.
Proof using.
  intros Hi Hi' E. apply (task_document_reads (λ _, Err (TypeError "x"))) in Hi, Hi'. rewrite E in Hi. congruence.
Qed.

Lemma put_dead σ j p p' id i name :
  inv σ → workers σ !! j = Some p → holds p = Some id → holds p' = None → good id i → within i →
  let s := r_rpush (dead_key name) (document i) (server σ) in phase_ok s p' →
  inv (mkSystem s (<[j := p']> (workers σ)) (issued σ) (acked σ) (lost σ)).
Proof.
  intros Hi Hj Hh Hh' [Hok Hid] Hw s Hp. subst s. pose proof (bury_effect _ name (document i) (inv_typed σ Hi)) as He.
  eapply (puts_task σ _ j p p' id (Dead name (length (letters name (server σ))))); [done..|exact He|done|auto| |done|done| |].
  - intros name' raw. cbv beta. case_decide; [subst; rewrite elem_of_app, list_elem_of_singleton|by left].
    intros [?| ->]; [by left|]. right. by exists i.
  - intros id'. unfold at_place. cbn [server]. rewrite (proj2 (effect_lists _ _ _ _ name He)), decide_True by done.
    rewrite lookup_after, decide_True, (lookup_ge_None_2 (letters name _)) by done. split.
    + intros (i' & E & Hok' & Hid'). right. apply (inj Some) in E. apply document_inj in E; [|done|done]. congruence.
    + intros [(? & ? & _)| ->]; [done|by exists i].
  - intros id' x Hne Hnh. destruct x as [n k|k|n k| |]; try done.
    + unfold at_place. cbn [server]. by rewrite (proj1 (effect_lists _ _ _ _ n He)).
    + by destruct (Hnh k).
    + unfold at_place. cbn [server]. rewrite (proj2 (effect_lists _ _ _ _ n He)). case_decide; [subst|done].
      assert (k ≠ length (letters n (server σ))) by congruence. by rewrite lookup_after, decide_False.
Qed.

Lemma put_acked σ j p p' id :
  inv σ → workers σ !! j = Some p → holds p = Some id → holds p' = None →
  let s := (r_delete (item_key id) (server σ)).2 in phase_ok s p' →
  inv (mkSystem s (<[j := p']> (workers σ)) (issued σ) ({[id]} ∪ acked σ) (lost σ)).
Proof.
  intros Hi Hj Hh Hh' s Hp. subst s. pose proof (delete_effect _ id (inv_typed σ Hi)) as He.
  eapply (puts_task σ _ j p p' id Acked); [done..|exact He| |auto|auto|done|done| |].
  - intros id' Hne. cbv beta. by rewrite decide_False.
  - intros id'. unfold at_place. cbn [acked]. set_solver.
  - intros id' x Hne Hnh. destruct x as [n k|k|n k| |]; try done; unfold at_place; cbn [server].
    + by rewrite (proj1 (effect_lists _ _ _ _ n He)).
    + by destruct (Hnh k).
    + by rewrite (proj2 (effect_lists _ _ _ _ n He)).
Qed.

Lemma put_lost σ j p p' id :
  inv σ → workers σ !! j = Some p → holds p = Some id → holds p' = None → phase_ok (server σ) p' →
  inv (mkSystem (server σ) (<[j := p']> (workers σ)) (issued σ) (acked σ) ({[id]} ∪ lost σ)).
Proof.
  intros Hi Hj Hh Hh' Hp. pose proof (typed_effect _ (inv_typed σ Hi)) as He.
  eapply (puts_task σ _ j p p' id Lost); [done..|exact He|done|auto|auto|done|done| |].
  - intros id'. unfold at_place. cbn [lost]. set_solver.
  - intros id' x Hne Hnh. destruct x as [n k|k|n k| |]; try done. by destruct (Hnh k).
Qed.

Lemma take_first σ j worker name :
  inv σ → workers σ !! j = Some (Popping name worker) →
  let '(p', s) := advance foreign (Popping name worker) (server σ) in
  inv (mkSystem s (<[j := p']> (workers σ)) (issued σ) (acked σ) (lost σ)).
Proof.
  intros Hi Hj. cbn [advance]. destruct (pop_effect _ name (inv_typed σ Hi)) as [Hh He].
  pose proof (inv_phases σ Hi j _ Hj) as Hp. cbn [phase_ok] in Hp.
  destruct (r_lpop (queue_key name) (server σ)) as [first s]. cbn [fst snd] in *. subst first.
  destruct (waiting name (server σ)) as [|id rest] eqn:Hq; cbn [head].
  - eapply (keeps_task σ s j); [done..| |done|done]. destruct He as [H1 H2 H3]. split; intros x; [|apply H2|apply H3].
    rewrite H1. cbv beta. case_decide; [subst; by rewrite Hq|done].
  - eapply (worker_keeps σ _ j _ (Popped id worker)); [done..|exact He|done| |auto| |].
    + intros n id'. cbv beta. case_decide; [subst; rewrite Hq; simpl; left; by right|by left].
    + cbn [phase_ok server]. split; [|done]. destruct (inv_waiting σ Hi name id) as (i & [Hv Hg] & Ha).
      { rewrite Hq. by left. }
      exists i. split; [|done]. split; [|done]. by rewrite (ef_items _ _ _ _ He).
    + apply (tracks_pop σ _ j name id rest); cbn [server acked lost]; try done.
      * intros n. apply (effect_lists _ _ _ _ n He).
      * intros n. apply (effect_lists _ _ _ _ n He).
      * unfold held. by rewrite Hj.
      * intros k. unfold held at 1. cbn [workers]. by rewrite (held_turn σ j _ (Popped id worker) _ k Hj eq_refl).
Qed.

Lemma stored_get s id i : stored s id i → r_get (item_key id) s = Some (document i).
Proof using. intros [Hv _]. unfold r_get. by rewrite Hv. Qed.
Lemma stored_set s id i : typed s → good id i → stored (r_set (item_key id) (document i) s) id i.
Proof. intros Ht Hg. split; [|done]. rewrite (ef_items _ _ _ _ (set_effect s id (document i) Ht)). by rewrite decide_True. Qed.

Lemma rejection_ok s id error i :
  good id i → within i → scalar_text error = true → phase_ok s (reject id error i) ∧ holds (reject id error i) = Some id.
Proof using.
  intros [Hok Hid] Hw He. pose proof (error_ok error i He Hok) as Hok1. unfold reject.
  case Z.leb_spec; intros Hlt; (split; [|done]); (split; [split|]); try done.
  - by apply status_ok; [vm_compute|].
  - by apply status_ok; [vm_compute|].
  - unfold attempts_left. cbn in *. apply Z.ltb_lt. lia.
Qed.
Lemma start_ok id worker i :
  good id i → attempts_left i = true → scalar_text worker = true →
  good id (InMemoryTaskQueue.start_attempt worker i) ∧ within (InMemoryTaskQueue.start_attempt worker i).
Proof using.
  intros [Hok Hid] Ha Hw. split; [split; [by apply attempt_ok|done]|]. unfold attempts_left, within in *. cbn.
  apply Z.ltb_lt in Ha. lia.
Qed.

(** Writing the held item. *)
Lemma stores_item σ j p p' id i :
  inv σ → workers σ !! j = Some p → holds p = Some id → holds p' = Some id → good id i →
  let s := r_set (item_key id) (document i) (server σ) in (stored s id i → phase_ok s p') →
  inv (mkSystem s (<[j := p']> (workers σ)) (issued σ) (acked σ) (lost σ)).
Proof.
  intros Hi Hj Hh Hh' Hg s Hp.
  eapply (keeps_task σ s j p p'); [done..|congruence|apply set_effect, (inv_typed σ Hi)| |].
  - intros id' Hne. cbv beta. rewrite decide_False; [done|congruence].
  - apply Hp, stored_set; [apply (inv_typed σ Hi)|done].
Qed.
(** Reading only. *)
Lemma reads_item σ j p p' :
  inv σ → workers σ !! j = Some p → holds p' = holds p → phase_ok (server σ) p' → inv (turns j p' σ).
Proof. intros Hi Hj Hh Hp. eapply (keeps_task σ); [done..|apply typed_effect, (inv_typed σ Hi)|done|done]. Qed.

Lemma send_keeps σ j p :
  inv σ → workers σ !! j = Some p →
  let '(p', s) := advance foreign p (server σ) in
  inv (mkSystem s (<[j := p']> (workers σ)) (issued σ) (opt_set (deleted p) ∪ acked σ) (lost σ)).
Proof.
  intros Hi Hj. pose proof (inv_phases σ Hi j p Hj) as Hp.
  destruct p as [i|i|name worker|id worker|id i|id|id|id error|id i|id i|id i|id i|r]; cbn [deleted opt_set];
    rewrite ?(union_empty_l_L (acked σ)); try (exact (take_first σ j worker name Hi Hj)); cbn [advance phase_ok] in *.
  - destruct Hp as [Hok Ha]. by eapply stores_item.
  - destruct Hp as [Hst Ha]. by eapply put_waiting.
  - destruct Hp as [(i & Hst & Ha) Hw]. pose proof Hst as [_ Hg]. rewrite (stored_get _ _ _ Hst).
    rewrite task_document_reads by apply Hg. eapply reads_item; [done..|]. by apply start_ok.
  - destruct Hp as [Hg Hw]. pose proof Hg as [_ <-]. by eapply stores_item.
  - destruct Hp as (i & Hst & Hw). rewrite (stored_get _ _ _ Hst). by eapply reads_item.
  - by eapply put_acked.
  - destruct Hp as [(i & Hst & Ha) Hw]. pose proof Hst as [_ Hg]. rewrite (stored_get _ _ _ Hst).
    rewrite task_document_reads by apply Hg. destruct (rejection_ok (server σ) id error i) as [Hr Hh]; [done..|].
    by eapply reads_item.
  - eapply keeps_task; [done..|apply delete_effect, (inv_typed σ Hi)| |done].
    intros id' Hne. cbv beta. rewrite decide_False; [done|cbn in Hne; congruence].
  - destruct Hp as [Hg Hw]. by eapply put_dead.
  - destruct Hp as [Hg Ha]. by eapply stores_item.
  - destruct Hp as [Hst Ha]. by eapply put_waiting.
  - by eapply reads_item.
Qed.

Lemma submit_keeps σ j r i :
  inv σ → workers σ !! j = Some (Returned r) → holds (Returned r) = None → task_id i ∉ issued σ →
  task_ok i = true → attempts_left i = true →
  inv (mkSystem (server σ) (<[j := begin_enqueue i]> (workers σ)) ({[task_id i]} ∪ issued σ) (acked σ) (lost σ)).
Proof.
  intros Hi Hj Hr Hni Hok Ha. set (σ' := mkSystem _ _ _ _ _).
  assert (∀ x, ¬ at_place σ (task_id i) x) as Hnew.
  { intros x Hx. apply Hni, (inv_placed σ Hi). by exists x. }
  assert (∀ k, held σ' k = if decide (j = k) then Some (task_id i) else held σ k) as Hh.
  { intros k. unfold held at 1. cbn [workers σ']. by rewrite (held_turn σ j _ (begin_enqueue i) _ k Hj eq_refl). }
  assert (held σ j = None) as Hj0 by by (unfold held; rewrite Hj).
  assert (∀ id x, at_place σ' id x ↔ at_place σ id x ∨ (id = task_id i ∧ x = Held j)) as Hat.
  { intros id [n k|k|n k| |]; unfold at_place; try (cbn [server acked lost σ']; naive_solver).
    rewrite Hh. case_decide; [subst; rewrite Hj0; naive_solver|naive_solver]. }
  split; cbn [server σ'].
  - apply (inv_typed σ Hi).
  - apply (inv_waiting σ Hi).
  - apply (inv_letters σ Hi).
  - intros k q. cbn [workers σ']. destruct (decide (j = k)) as [<-|Hne].
    + rewrite list_lookup_insert_eq by by eapply lookup_lt_Some. intros [= <-].
      split; [apply status_ok; [by vm_compute|done]|done].
    + rewrite list_lookup_insert_ne by done. apply (inv_phases σ Hi).
  - intros id. cbn [issued σ']. rewrite elem_of_union, elem_of_singleton, (inv_placed σ Hi). setoid_rewrite Hat. naive_solver.
  - intros id x x'. rewrite !Hat. intros [Hx|[-> ->]] [Hx'|[E ->]]; [by apply (inv_unique σ Hi id)| | |done].
    + subst. by destruct (Hnew x).
    + by destruct (Hnew x').
Qed.

Lemma others_keep σ s : inv σ → same_tasks (server σ) s → inv (mkSystem s (workers σ) (issued σ) (acked σ) (lost σ)).
Proof.
  intros Hi Hs.
  assert (∀ n, waiting n s = waiting n (server σ)) as Hw.
  { intros n. unfold waiting, r_lrange. by rewrite (proj1 (proj2 (Hs n))). }
  assert (∀ n, letters n s = letters n (server σ)) as Hl.
  { intros n. unfold letters, r_lrange. by rewrite (proj2 (proj2 (Hs n))). }
  assert (∀ id x, at_place (mkSystem s (workers σ) (issued σ) (acked σ) (lost σ)) id x ↔ at_place σ id x) as Hat.
  { intros id []; unfold at_place; cbn [server acked lost]; by rewrite ?Hw, ?Hl. }
  split; cbn [server workers issued].
  - intros n. rewrite Hw, Hl, (proj1 (proj2 (Hs n))), (proj2 (proj2 (Hs n))). apply (inv_typed σ Hi).
  - intros n id. rewrite Hw. intros Hin. destruct (inv_waiting σ Hi n id Hin) as (i & [Hv Hg] & Ha).
    exists i. split; [|done]. split; [|done]. by rewrite (proj1 (Hs id)).
  - intros n raw. rewrite Hl. apply (inv_letters σ Hi).
  - intros j p Hj. apply (phase_ok_frame (server σ)); [|by apply (inv_phases σ Hi j)]. intros id _. apply Hs.
  - intros id. setoid_rewrite Hat. apply (inv_placed σ Hi).
  - intros id x x'. rewrite !Hat. apply (inv_unique σ Hi).
Qed.

Lemma act_keeps σ j a σ' : inv σ → act foreign j a σ = Some σ' → inv σ'.
Proof.
  intros Hi. unfold act. destruct (workers σ !! j) as [p|] eqn:Hj; [|done]. cbn [mbind option_bind].
  pose proof (inv_phases σ Hi j p Hj) as Hp. destruct a as [i|name worker| |error| |].
  - destruct p; try done. repeat case_guard; try done. intros [= <-]. by eapply submit_keeps.
  - destruct p; try done. repeat case_guard; try done. intros [= <-]. by eapply reads_item.
  - destruct p as [| | | | | | | | | | | |[[| |[i|]|]|]]; try done. intros [= <-]. eapply reads_item; [done..|by exists i].
  - destruct p as [| | | | | | | | | | | |[[| |[i|]|]|]]; try done. case_guard; [|done]. intros [= <-].
    eapply reads_item; [done..|]. split; [by exists i|done].
  - pose proof (send_keeps σ j p Hi Hj) as Hk. destruct (advance foreign p (server σ)) as [p' s]. by destruct p; intros [= <-].
  - assert (act foreign j Crashes σ = Some σ' → inv σ') as Hc; [|unfold act in Hc; rewrite Hj in Hc; exact Hc].
    unfold act. rewrite Hj. cbn [mbind option_bind]. intros E.
    assert (σ' = mkSystem (server σ) (<[j := Returned (Ok Started)]> (workers σ)) (issued σ) (acked σ)
      (opt_set (holds p) ∪ lost σ)) as -> by by destruct p; injection E.
    destruct (holds p) as [id|] eqn:Hh; cbn [opt_set]; [by eapply put_lost|].
    rewrite union_empty_l_L. by eapply reads_item.
Qed.

Lemma begin_inv s n : (∀ k, r_view k s = Absent) → inv (begin s n).
Proof.
  intros Hs. assert (∀ k, r_lrange k s = []) as Hl by (intros k; unfold r_lrange; by rewrite Hs).
  assert (∀ id x, ¬ at_place (begin s n) id x) as Hat.
  { intros id [m k|k|m k| |]; unfold at_place, waiting, letters; cbn [server begin acked lost]; rewrite ?Hl; [done| |naive_solver|set_solver..].
    unfold held. cbn [workers begin]. intros (p & Hp & Hh)%bind_Some. apply lookup_replicate in Hp as [-> _]. done. }
  split.
  - intros name. unfold waiting, letters. cbn [server begin]. by rewrite !Hs, !Hl.
  - intros name id. unfold waiting. cbn [server begin]. rewrite Hl. by intros ?%not_elem_of_nil.
  - intros name id. unfold letters. cbn [server begin]. rewrite Hl. by intros ?%not_elem_of_nil.
  - intros j p. cbn [workers begin]. by intros [-> _]%lookup_replicate.
  - intros id. cbn [issued begin]. split; [set_solver|]. intros [x Hx]. by apply Hat in Hx.
  - intros id x x' Hx. by apply Hat in Hx.
Qed.

Lemma reachable_inv s n σ : (∀ k, r_view k s = Absent) → rtc (step foreign) (begin s n) σ → inv σ.
Proof.
  intros Hs Hr. assert (inv (begin s n)) as Hi by by apply begin_inv. induction Hr as [|σ σ1 σ2 Hst _ IH]; [done|].
  apply IH. destruct Hst as [j a σ' Ha|s' Hsame]; [by eapply act_keeps|by apply others_keep].
Qed.
End facts.
End WorkerFacts.

(** C33: No task of a Redis queue is lost or duplicated by concurrency: while any
    number of workers submit, take, acknowledge and reject tasks, their Redis
    commands interleaved in any way and with those of other clients, every
    submitted task is in exactly one place: it waits once in one queue, one
    worker has it, it is one dead letter, it was acknowledged, or the worker that
    had it crashed.  A task that waits has its item, no call fails, and no worker
    gets a task for more attempts than are allowed. *)
Theorem redis_tasks_accounted {D} `{RedisLaws D} foreign (s : D) n σ :
  (∀ k, r_view k s = Absent) → rtc (step foreign) (begin s n) σ →
  (∀ id, id ∈ issued σ → exists! x, at_place σ id x) ∧
  (∀ name id, id ∈ waiting name (server σ) →
     ∃ i, r_get (item_key id) (server σ) = Some (document i) ∧ task_id i = id ∧ attempts_left i = true) ∧
  (∀ j r, workers σ !! j = Some (Returned r) → ∃ v, r = Ok v) ∧
  (∀ j i, workers σ !! j = Some (Returned (Ok (Taken (Some i)))) → attempt_count i ≤ Z.max 1 (max_retries i)).
Proof.
  intros Hs Hr. pose proof (WorkerFacts.reachable_inv foreign s n σ Hs Hr) as Hi. split_and!.
  - intros id [x Hx]%(WorkerFacts.inv_placed σ Hi). exists x. split; [done|]. intros x'. by apply (WorkerFacts.inv_unique σ Hi id).
  - intros name id (i & Hst & Ha)%(WorkerFacts.inv_waiting σ Hi). exists i. rewrite (WorkerFacts.stored_get _ _ _ Hst).
    by destruct Hst as [_ [_ ?]].
  - intros j [v|e] Hj; [by exists v|]. by apply (WorkerFacts.inv_phases σ Hi) in Hj.
  - intros j i Hj. by apply (WorkerFacts.inv_phases σ Hi) in Hj as [_ Hw].
Qed.

Module WorkersExample.
Import ModelServer QueueExample Workers.
Definition second : TaskItem := mkTaskItem "t2" "mail" VNone 0 (PyFloat.ratio 1 2) "new" 0 1 (PyFloat.of_Z 30) None None.
(** Two workers take from one queue in alternation; the first crashes with its
    task, the second rejects its own until it is a dead letter. *)
Definition story : list (nat * action) :=
  [(0, Submits task); (1, Submits second); (1, Sends); (0, Sends); (0, Sends); (1, Sends);
   (0, Takes "mail" "a"); (1, Takes "mail" "b"); (0, Sends); (1, Sends); (1, Sends); (0, Sends); (1, Sends); (0, Sends);
   (1, Nacks "down"); (0, Crashes); (1, Sends); (1, Sends); (1, Sends)]%nat.
Definition told : system (gmap string entry) := default (begin ∅ 2) (play none story (begin ∅ 2)).

Lemma redis_tasks_accounted_witness :
  issued told = {["t1"; "t2"]} ∧
  (∀ id, id ∈ issued told → exists! x, at_place told id x) ∧
  (∀ name id, id ∈ waiting name (server told) →
     ∃ i, r_get (item_key id) (server told) = Some (document i) ∧ task_id i = id ∧ attempts_left i = true) ∧
  (∀ j r, workers told !! j = Some (Returned r) → ∃ v, r = Ok v) ∧
  (∀ j i, workers told !! j = Some (Returned (Ok (Taken (Some i)))) → attempt_count i ≤ Z.max 1 (max_retries i)).
Proof.
  split; [by vm_compute|]. apply (redis_tasks_accounted none (∅ : gmap string entry) 2 told); [done|].
  apply (play_steps none story). by vm_compute.
Defined.

(** Nothing returns the task of a worker that crashed, whatever its
    [processing_timeout]: its item stays marked as processing, and the queue
    answers that it is empty. *)
Example crashed_task_never_returns :
  option_map ti_status (match read_task none (default "" (r_get (item_key "t1") (server told))) with Ok i => Some i | _ => None end)
    = Some "processing" ∧
  (RedisTaskQueue.dequeue none "mail" "b" (server told)).1 = Ok None ∧
  at_place told "t1" Lost ∧ at_place told "t2" (Dead "mail" 0).
Proof.
  split_and!; [by vm_compute|by vm_compute| |].
  - change ("t1" ∈ lost told). apply (bool_decide_unpack _). by vm_compute.
  - eexists (InMemoryTaskQueue.set_status "dead" (InMemoryTaskQueue.set_error "down" (InMemoryTaskQueue.start_attempt "b" second))).
    by vm_compute.
Qed.
End WorkersExample.
