(* ===== verification/RedisBackends.v ===== *)
(** * Redis state backends (src/src/persistence/redis_backend.py)

    Shared memory and circuit states in one hash each, a JSON document per
    record, over the server of Redis.v.  [foreign] is what constructing a record
    makes of a document that this code did not write. *)
From S2P Require Import Prelude PyFloat PyValue Persistence Json JsonFacts Scheduler Sqlite Redis.
Local Open Scope Z_scope.
Import TaskDocument.

(** ** Documents of records *)
Module RecordDocuments.
Definition opt_float (o : option float) : pyval := match o with Some f => VFloat f | None => VNone end.
Definition opt_float_at (k : string) (d : dict pyval) : option (option float) :=
  match dlookup k d with Some (VFloat f) => Some (Some f) | Some VNone => Some None | _ => None end.

Definition memory_dict (r : MemoryRecord) : pyval :=
  VDict [("key", VStr (mr_key r)); ("value", mr_value r); ("version", VInt (mr_version r));
    ("writer_role", VStr (mr_writer_role r)); ("updated_at", VFloat (mr_updated_at r));
    ("expires_at", opt_float (mr_expires_at r))].
Definition typed_memory (v : pyval) : option MemoryRecord :=
  match v with
  | VDict d =>
      guard (length d = 6)%nat;;
      key ← text_at "key" d; value ← dlookup "value" d; version ← int_at "version" d; role ← text_at "writer_role" d;
      updated ← float_at "updated_at" d; expires ← opt_float_at "expires_at" d;
      Some (mkMemoryRecord key value version role updated expires)
  | _ => None
  end.

Definition circuit_dict (r : CircuitRecord) : pyval :=
  VDict [("tool_name", VStr (cr_tool_name r)); ("state", VStr (cr_state r)); ("failure_count", VInt (cr_failure_count r));
    ("success_count", VInt (cr_success_count r)); ("half_open_successes", VInt (cr_half_open_successes r));
    ("last_failure_time", VFloat (cr_last_failure_time r)); ("last_state_change", VFloat (cr_last_state_change r));
    ("total_calls", VInt (cr_total_calls r)); ("total_failures", VInt (cr_total_failures r));
    ("total_rejections", VInt (cr_total_rejections r))].
Definition typed_circuit (v : pyval) : option CircuitRecord :=
  match v with
  | VDict d =>
      guard (length d = 10)%nat;;
      name ← text_at "tool_name" d; state ← text_at "state" d; failures ← int_at "failure_count" d;
      successes ← int_at "success_count" d; half_open ← int_at "half_open_successes" d;
      last_failure ← float_at "last_failure_time" d; last_change ← float_at "last_state_change" d;
      calls ← int_at "total_calls" d; total_failures ← int_at "total_failures" d;
      rejections ← int_at "total_rejections" d;
      Some (mkCircuitRecord name state failures successes half_open last_failure last_change calls total_failures rejections)
  | _ => None
  end.
Lemma typed_memory_dict r : typed_memory (memory_dict r) = Some r.
Proof. destruct r as [? ? ? ? ? []]; reflexivity. Qed.
Lemma typed_circuit_dict r : typed_circuit (circuit_dict r) = Some r.
Proof. by destruct r. Qed.
End RecordDocuments.
Import RecordDocuments.

(** ** A hash of documents *)
Module HashBackend.
Section backend.
Context {S R : Type} `{RedisServer S}.
Context (hash_key : string) (key : R → string) (to_dict : R → pyval) (typed : pyval → option R).
Context (foreign : pyval → res R).

Definition document (r : R) : string := Serialization.serialize (to_dict r).
Definition read (raw : string) : res R :=
  v ← Json.loads raw; match typed v with Some r => Ok r | None => foreign v end.

(** The client encodes what it sends. *)
Definition get (k : string) (s : S) : res (option R) :=
  k ← Cell.text k;
  match r_hget hash_key k s with
  | None => Ok None
  | Some raw => r ← read raw; Ok (Some r)
  end.
Definition put (r : R) : st S unit := λ s,
  match k ← Cell.text (key r); d ← Cell.text (document r); Ok (k, d) with
  | Ok (k, d) => (Ok tt, r_hset hash_key k d s)
  | Err e => (Err e, s)
  end.
Definition delete (k : string) : st S bool := λ s,
  match Cell.text k with
  | Ok k => let '(found, s) := r_hdel hash_key k s in (Ok found, s)
  | Err e => (Err e, s)
  end.
Fixpoint read_all (l : list string) : res (list R) :=
  match l with
  | [] => Ok []
  | raw :: l => r ← read raw; rest ← read_all l; Ok (r :: rest)
  end.
Definition list_all (s : S) : res (list R) := read_all (r_hgetall hash_key s).*2.
Definition clear (s : S) : S := (r_delete hash_key s).2.

Definition redis_call (c : call R) : st S bool := λ s,
  match c with
  | CallPut r => (put r ≫= λ _, mret true) s
  | CallDelete k => delete k s
  | CallClear => (Ok true, clear s)
  end.
Fixpoint run (l : list (call R)) (s : S) : list (res bool) * S :=
  match l with
  | [] => ([], s)
  | c :: l => let '(a, s) := redis_call c s in let '(as_, s) := run l s in (a :: as_, s)
  end.
End backend.

Section refinement.
Context {S R : Type} `{RS : RedisServer S} `{!RedisLaws S}.
Context (hash_key : string) (key : R → string) (to_dict : R → pyval) (typed : pyval → option R).
Context (foreign : pyval → res R) (ok : R → bool).
Context (Htyped : ∀ r, typed (to_dict r) = Some r).
Context (Hkey : ∀ r, ok r = true → Storable.clean (key r) = true).
Context (Hok : ∀ r, ok r = true → Storable.json_text (to_dict r) = true).
#[local] Set Default Proof Using "Type*".
Abbreviation document := (document to_dict).

Record refines (s : S) (b : dict R) : Prop := {
  rf_type : r_view hash_key s = Absent ∨ ∃ h, r_view hash_key s = Fields h;
  rf_fields k : r_hget hash_key k s = document <$> dlookup k b;
  rf_keyed : keyed key b;
  rf_ok : Forall (λ r, ok r = true) b.*2;
}.

Lemma hash_document_reads r : ok r = true → Cell.text (document r) = Ok (document r) ∧ read typed foreign (document r) = Ok r.
Proof.
  intros Hr. destruct (Storable.json_text_reads (to_dict r) (Hok r Hr)) as [Ht Hd]. split; [exact Ht|].
  unfold read, HashBackend.document. cbn [Serialization.deserialize] in Hd. rewrite Hd. cbn [mbind res_bind]. by rewrite Htyped.
Qed.
Lemma lookup_ok b k r : Forall (λ r, ok r = true) b.*2 → dlookup k b = Some r → ok r = true.
Proof.
  intros Hb Hk. rewrite Forall_forall in Hb. apply Hb. induction b as [|[k' r'] b IH]; [done|]. cbn [dlookup] in Hk.
  case_decide; [injection Hk as ->; left|right]. apply IH; [|done]. intros x Hx. apply Hb. by right.
Qed.

Lemma hash_refines_put s b r : refines s b → ok r = true →
  (put hash_key key to_dict r s).1 = Ok tt ∧ refines (put hash_key key to_dict r s).2 (dinsert (key r) r b).
Proof.
  intros [Ht Hf [Hk Hnd] Hb] Hr. unfold put. rewrite (Storable.clean_text _ (Hkey r Hr)). cbn [mbind res_bind].
  rewrite (proj1 (hash_document_reads r Hr)). cbn [mbind res_bind fst snd]. split; [done|].
  assert (r_view hash_key (r_hset hash_key (key r) (document r) s) = Fields (<[key r := document r]> (fields hash_key s)))
    as Hv by (rewrite view_hset by done; by rewrite decide_True).
  split.
  - right. by eexists.
  - intros k. unfold r_hget, fields at 1. rewrite Hv, dlookup_dinsert.
    case_decide; [subst; by rewrite lookup_insert_eq|rewrite lookup_insert_ne by done; apply Hf].
  - split; [|by apply dinsert_NoDup]. intros k r' [[= -> ->]|Hin]%elem_of_dinsert; [done|by apply Hk].
  - apply Forall_fmap, Forall_forall. intros [k r'] [[= -> ->]|Hin]%elem_of_dinsert; [done|].
    rewrite Forall_fmap, Forall_forall in Hb. by apply (Hb (k, r')).
Qed.

Lemma hash_refines_delete s b k : refines s b → Storable.clean k = true →
  (delete hash_key k s).1 = Ok (InMemory.delete k b).1 ∧ refines (delete hash_key k s).2 (InMemory.delete k b).2.
Proof.
  intros [Ht Hf [Hk Hnd] Hb] Hc. unfold delete. rewrite (Storable.clean_text k Hc).
  destruct (hdel_spec hash_key k s Ht) as [Ha Hv]. destruct (r_hdel hash_key k s) as [found s1]. cbn [fst snd] in *.
  split.
  - rewrite Ha, Hf. unfold InMemory.delete, dmem. destruct (dlookup k b); done.
  - rewrite InMemory.delete_eq. specialize (Hv hash_key). rewrite decide_True in Hv by done. split.
    + rewrite Hv. unfold hash_of. case_decide; [by left|right; by eexists].
    + intros k'. unfold r_hget, fields at 1. rewrite Hv, dlookup_ddelete.
      assert (match hash_of (base.delete k (fields hash_key s)) with Fields h => h | _ => ∅ end =
        base.delete k (fields hash_key s)) as ->.
      { unfold hash_of. case_decide as E; [by rewrite E|done]. }
      rewrite lookup_delete. case_decide as E; case_decide as E'; [done|congruence|congruence|apply Hf].
    + split; [|by apply NoDup_ddelete]. intros k' r Hin%elem_of_ddelete. by apply Hk.
    + apply Forall_fmap, Forall_forall. intros [k' r'] Hin%elem_of_ddelete.
      rewrite Forall_fmap, Forall_forall in Hb. by apply (Hb (k', r')).
Qed.

Lemma hash_refines_empty s : r_view hash_key s = Absent → refines s [].
Proof.
  intros Hv. split; [by left| |split; [by intros ? ? []%elem_of_nil|constructor]|constructor].
  intros k. unfold r_hget, fields. by rewrite Hv.
Qed.

Lemma hash_call_refines c s b : refines s b → BackendRuns.call_ok ok c = true →
  (redis_call hash_key key to_dict c s).1 = Ok (BackendRuns.memory_call key c b).1 ∧
  refines (redis_call hash_key key to_dict c s).2 (BackendRuns.memory_call key c b).2.
Proof.
  intros Hr Hc. destruct c as [r|k|]; cbn [redis_call BackendRuns.memory_call BackendRuns.call_ok] in *.
  - destruct (hash_refines_put s b r Hr Hc) as [Ha Hr']. unfold mbind, st_bind.
    destruct (put hash_key key to_dict r s) as [a s1]. cbn [fst snd] in *. by subst a.
  - by apply hash_refines_delete.
  - split; [done|]. apply hash_refines_empty. destruct (delete_spec hash_key s) as [_ Hv].
    unfold clear. rewrite Hv. by rewrite decide_True.
Qed.
Lemma hash_run_refines l : ∀ s b, refines s b → forallb (BackendRuns.call_ok ok) l = true →
  (run hash_key key to_dict l s).1 = Ok <$> (BackendRuns.run_memory key l b).1 ∧
  refines (run hash_key key to_dict l s).2 (BackendRuns.run_memory key l b).2.
Proof.
  induction l as [|c l IH]; intros s b Hr Hl; [done|]. apply andb_true_iff in Hl as [Hc Hl].
  destruct (hash_call_refines c s b Hr Hc) as [Ha Hr']. cbn [run BackendRuns.run_memory].
  destruct (redis_call _ _ _ c s) as [a s'], (BackendRuns.memory_call key c b) as [a' b']. cbn [fst snd] in *.
  destruct (IH s' b' Hr' Hl) as [Has Hr'']. subst a.
  destruct (run _ _ _ l s'), (BackendRuns.run_memory key l b'). cbn [fst snd] in *. split; [|done]. csimpl. by rewrite Has.
Qed.

Lemma hash_refines_get s b k : refines s b → Storable.clean k = true →
  get hash_key typed foreign k s = Ok (InMemory.get k b).
Proof.
  intros Hr Hc. unfold get. rewrite (Storable.clean_text k Hc). cbn [mbind res_bind]. rewrite (rf_fields s b Hr).
  unfold InMemory.get. destruct (dlookup k b) as [r|] eqn:E; [|done]. cbn [fmap option_fmap option_map].
  pose proof (lookup_ok b k r (rf_ok s b Hr) E) as Hr'. by rewrite (proj2 (hash_document_reads r Hr')).
Qed.

Lemma fields_map s b : refines s b → fields hash_key s = list_to_map ((λ kv, (kv.1, document kv.2)) <$> b).
Proof.
  intros Hr. apply map_eq. intros k. pose proof (rf_fields s b Hr k) as Hk. unfold r_hget in Hk. rewrite Hk. clear.
  induction b as [|[k' r] b IH]; [done|]. rewrite fmap_cons. cbn [dlookup fst snd].
  rewrite list_to_map_cons, lookup_insert. repeat case_decide; (done || congruence || exact IH).
Qed.
Lemma hash_refines_list_all s b : refines s b →
  ∃ all, list_all hash_key typed foreign s = Ok all ∧ all ≡ₚ InMemory.list_all b.
Proof.
  intros Hr. pose proof (rf_keyed s b Hr) as [_ Hnd]. unfold list_all.
  assert ((r_hgetall hash_key s).*2 ≡ₚ document <$> b.*2) as Hp.
  { rewrite (hgetall_spec hash_key s), (fields_map s b Hr), map_to_list_to_map.
    - rewrite <-!list_fmap_compose. done.
    - rewrite <-list_fmap_compose. exact Hnd. }
  apply Permutation_map_inv in Hp as (all & -> & Hall). exists all. split; [|done].
  assert (Forall (λ r, ok r = true) all) as Hoks by (rewrite <-Hall; apply Hr).
  clear -Hoks Hok Htyped Hkey RedisLaws0. induction Hoks as [|r all Hr Hall IH]; [done|]. cbn [map read_all].
  rewrite (proj2 (hash_document_reads r Hr)). cbn [mbind res_bind]. by rewrite IH.
Qed.
End refinement.
End HashBackend.

(** ** RedisSharedMemoryBackend and RedisCircuitStateBackend *)
Module RedisBackends.
Definition memory_key : string := "agent:shared_memory".
Definition circuit_key : string := "agent:circuit_state".
Definition memory_ok (r : MemoryRecord) : bool := Storable.clean (mr_key r) && Storable.json_text (memory_dict r).
Definition circuit_ok (r : CircuitRecord) : bool := Storable.clean (cr_tool_name r) && Storable.json_text (circuit_dict r).

(** Every run of calls answers as the in-memory backend and leaves the same
    records. *)
Definition agrees {S R} `{RedisServer S} (hash_key : string) (key : R → string) (to_dict : R → pyval)
    (typed : pyval → option R) (foreign : pyval → res R) (ok : R → bool) (s : S) : Prop :=
  ∀ l, forallb (BackendRuns.call_ok ok) l = true →
  let '(answers, s') := HashBackend.run hash_key key to_dict l s in
  let '(answers', b) := BackendRuns.run_memory key l [] in
  answers = Ok <$> answers' ∧
  (∀ k, Storable.clean k = true → HashBackend.get hash_key typed foreign k s' = Ok (InMemory.get k b)) ∧
  (∃ all, HashBackend.list_all hash_key typed foreign s' = Ok all ∧ all ≡ₚ InMemory.list_all b).

Lemma hash_agrees {S R} `{RS : RedisServer S} `{!RedisLaws S} hash_key (key : R → string) to_dict typed foreign ok (s : S) :
  (∀ r, typed (to_dict r) = Some r) → (∀ r, ok r = Storable.clean (key r) && Storable.json_text (to_dict r)) →
  r_view hash_key s = Absent → agrees hash_key key to_dict typed foreign ok s.
Proof.
  intros Ht Hok Hs l Hl.
  assert (∀ r, ok r = true → Storable.clean (key r) = true) as Hk by (intros r; rewrite Hok; by intros []%andb_true_iff).
  assert (∀ r, ok r = true → Storable.json_text (to_dict r) = true) as Hj by (intros r; rewrite Hok; by intros []%andb_true_iff).
  destruct (HashBackend.hash_run_refines hash_key key to_dict typed foreign ok Ht Hk Hj l s []
    (HashBackend.hash_refines_empty hash_key key to_dict typed foreign ok Ht Hk Hj s Hs) Hl) as [Ha Hr].
  destruct (HashBackend.run _ _ _ l s) as [answers s'], (BackendRuns.run_memory key l []) as [answers' b]. cbn [fst snd] in *.
  split_and!; [done| |].
  - intros k Hc. by apply (HashBackend.hash_refines_get hash_key key to_dict typed foreign ok).
  - by apply (HashBackend.hash_refines_list_all hash_key key to_dict typed foreign ok).
Qed.
End RedisBackends.

(** The Redis backends are interchangeable with the in-memory ones: any sequence
    of writes, deletions and clears of records that can be encoded gets the same
    answers, no call raises, every key then reads the same record and listing
    gives the same records in some order. *)
Theorem redis_backends_refine {S} `{RedisLaws S} foreign_memory foreign_circuit (s : S) :
  r_view RedisBackends.memory_key s = Absent → r_view RedisBackends.circuit_key s = Absent →
  RedisBackends.agrees RedisBackends.memory_key mr_key memory_dict typed_memory foreign_memory RedisBackends.memory_ok s ∧
  RedisBackends.agrees RedisBackends.circuit_key cr_tool_name circuit_dict typed_circuit foreign_circuit
    RedisBackends.circuit_ok s.
Proof.
  intros Hm Hc. split; (apply RedisBackends.hash_agrees; [|done|done]);
    [apply typed_memory_dict|apply typed_circuit_dict].
Qed.
