(* ===== verification/RedisBus.v ===== *)
(** * Redis message bus (src/src/messaging/redis_bus.py)

    Publishing sends a JSON document to a channel; one listener thread takes
    documents from the subscription and calls the handlers.  The pub/sub side of
    the server is a parameter: a class with what its commands are documented to
    do.  A step of the listener handles one document; [act] is what a handler of
    the client does, and may raise or use the bus; [foreign] is what
    [Message( **data)] makes of a document that this code did not write. *)
From S2P Require Import Prelude PyFloat PyValue Persistence Json JsonFacts Messaging Scheduler Redis.
Local Open Scope Z_scope.
Import InMemoryMessageBus TaskDocument.
Set Default Proof Using "Type*".

(** ** Pub/sub *)
Class PubSub (P : Type) := {
  ps_subscribed : string → P → bool;
  ps_inbox : P → list (string * string);  (* channel and data, oldest first *)
  ps_subscribe : string → P → P;
  ps_unsubscribe : string → P → P;
  ps_unsubscribe_all : P → P;
  ps_publish : string → string → P → P;
  ps_get_message : P → option (string * string) * P;
}.
Class PubSubLaws (P : Type) `{PubSub P} := {
  subscribe_spec t p : ps_inbox (ps_subscribe t p) = ps_inbox p ∧
    ∀ t', ps_subscribed t' (ps_subscribe t p) = if decide (t = t') then true else ps_subscribed t' p;
  unsubscribe_spec t p : ps_inbox (ps_unsubscribe t p) = ps_inbox p ∧
    ∀ t', ps_subscribed t' (ps_unsubscribe t p) = if decide (t = t') then false else ps_subscribed t' p;
  publish_spec t d p :
    ps_inbox (ps_publish t d p) = (if ps_subscribed t p then ps_inbox p ++ [(t, d)] else ps_inbox p) ∧
    ∀ t', ps_subscribed t' (ps_publish t d p) = ps_subscribed t' p;
  get_message_spec p : (ps_get_message p).1 = head (ps_inbox p) ∧
    ps_inbox (ps_get_message p).2 = tail (ps_inbox p) ∧
    ∀ t', ps_subscribed t' (ps_get_message p).2 = ps_subscribed t' p;
}.

(** ** Documents of messages *)
Module MessageDocument.
Definition message_dict (m : Message) : pyval :=
  VDict [("topic", VStr (topic m)); ("payload", payload m); ("message_id", VStr (message_id m));
    ("sender_id", VStr (sender_id m)); ("timestamp", VFloat (timestamp m)); ("reply_to", opt_text (reply_to m));
    ("correlation_id", opt_text (correlation_id m))].
Definition typed_message (v : pyval) : option Message :=
  match v with
  | VDict d =>
      guard (length d = 7)%nat;;
      topic ← text_at "topic" d; payload ← dlookup "payload" d; id ← text_at "message_id" d;
      sender ← text_at "sender_id" d; time ← float_at "timestamp" d; reply ← opt_text_at "reply_to" d;
      corr ← opt_text_at "correlation_id" d;
      Some (mkMessage topic payload id sender time reply corr)
  | _ => None
  end.
Definition serialize_message (m : Message) : string := Json.dumps (message_dict m).
Definition deserialize_message (foreign : pyval → res Message) (raw : string) : res Message :=
  v ← Json.loads raw; match typed_message v with Some m => Ok m | None => foreign v end.

Lemma typed_message_dict m : typed_message (message_dict m) = Some m.
Proof. destruct m as [? ? ? ? ? [] []]; reflexivity. Qed.
Lemma message_reads foreign m : JsonRoundTrip.json_ok (message_dict m) = true →
  deserialize_message foreign (serialize_message m) = Ok m.
Proof.
  intros Hm. unfold deserialize_message, serialize_message. rewrite JsonRoundTrip.loads_dumps by done.
  cbn [mbind res_bind]. by rewrite typed_message_dict.
Qed.
End MessageDocument.
Import MessageDocument.

Module RedisMessageBus.
Record bus (P : Type) := mkRedisBus {
  rb_pubsub : P;
  rb_handlers : dict (list handler);
  rb_running : bool;
  rb_listening : bool;  (* the listener thread is alive *)
  rb_delivered : list (handler * Message);
  rb_counter : nat;
}.
Arguments mkRedisBus {P}. Arguments rb_pubsub {P}. Arguments rb_handlers {P}. Arguments rb_running {P}.
Arguments rb_listening {P}. Arguments rb_delivered {P}. Arguments rb_counter {P}.

Section bus.
Context {P : Type} `{PubSub P}.
Context (uuid : nat → string) (time : nat → float) (foreign : pyval → res Message).
Context (act : handler → Message → bus P → res unit * bus P).

Definition new (p : P) : bus P := mkRedisBus p [] false false [] 0.
Definition set_pubsub (p : P) (b : bus P) : bus P :=
  mkRedisBus p (rb_handlers b) (rb_running b) (rb_listening b) (rb_delivered b) (rb_counter b).
Definition set_handlers (h : dict (list handler)) (b : bus P) : bus P :=
  mkRedisBus (rb_pubsub b) h (rb_running b) (rb_listening b) (rb_delivered b) (rb_counter b).
Definition set_thread (running listening : bool) (b : bus P) : bus P :=
  mkRedisBus (rb_pubsub b) (rb_handlers b) running listening (rb_delivered b) (rb_counter b).
Definition handlers_of (t : string) (b : bus P) : list handler := dget t [] (rb_handlers b).

(** [Message(...)] with a fresh identifier and time *)
Definition new_message (t : string) (p : pyval) (sender : string) (reply corr : option string) (b : bus P) :
    Message * bus P :=
  (mkMessage t p (uuid (rb_counter b)) sender (time (rb_counter b)) reply corr,
   mkRedisBus (rb_pubsub b) (rb_handlers b) (rb_running b) (rb_listening b) (rb_delivered b) (S (rb_counter b))).
Definition send (m : Message) (b : bus P) : bus P :=
  set_pubsub (ps_publish (topic m) (serialize_message m) (rb_pubsub b)) b.
Definition publish (t : string) (p : pyval) (sender : string) (b : bus P) : Message * bus P :=
  let '(m, b) := new_message t p sender None None b in (m, send m b).

(** [_ensure_listener] *)
Definition ensure_listener (b : bus P) : bus P := if rb_running b then b else set_thread true true b.
Definition subscribe (t : string) (h : handler) (b : bus P) : bus P :=
  let is_new_topic := negb (dmem t (rb_handlers b)) in
  let b1 := set_handlers (dinsert t (handlers_of t b ++ [h]) (rb_handlers b)) b in
  let b2 := if is_new_topic then set_pubsub (ps_subscribe t (rb_pubsub b1)) b1 else b1 in
  ensure_listener b2.
Definition unsubscribe (t : string) (h : handler) (b : bus P) : bool * bus P :=
  if bool_decide (h ∈ handlers_of t b) then
    match remove_handler h (handlers_of t b) with
    | [] => (true, set_handlers (ddelete t (rb_handlers b)) (set_pubsub (ps_unsubscribe t (rb_pubsub b)) b))
    | hs => (true, set_handlers (dinsert t hs (rb_handlers b)) b)
    end
  else (false, b).
Definition topic_subscriber_count (t : string) (b : bus P) : Z := Z.of_nat (length (handlers_of t b)).

Definition reply (original : Message) (p : pyval) (sender : string) (b : bus P) : res Message * bus P :=
  match reply_to original with
  | Some (String c t as rt) =>
      let '(m, b) := new_message rt p sender None (Some (message_id original)) b in (Ok m, send m b)
  | _ => (Err (ValueError "original message has no reply_to topic"), b)
  end.

(** [request]; [meanwhile] is what happens until the event is set or the time is
    over. *)
Definition first_reply (n : nat) (b : bus P) : option Message :=
  snd <$> find_first (λ d, bool_decide (d.1 = OnReply n)) (rb_delivered b).
Definition request (t : string) (p : pyval) (sender : string) (meanwhile : bus P → bus P) (b : bus P) :
    option Message * bus P :=
  let n := rb_counter b in
  let reply_topic := "_reply." +:+ uuid n in
  let b1 := mkRedisBus (rb_pubsub b) (rb_handlers b) (rb_running b) (rb_listening b) (rb_delivered b) (S n) in
  let b2 := subscribe reply_topic (OnReply n) b1 in
  let '(m, b3) := new_message t p sender (Some reply_topic) None b2 in
  let b4 := meanwhile (send m b3) in
  (first_reply n b4, (unsubscribe reply_topic (OnReply n) b4).2).

Definition close (b : bus P) : bus P :=
  mkRedisBus (ps_unsubscribe_all (rb_pubsub b)) [] false false (rb_delivered b) (rb_counter b).

(** One handler call: the reply closure records the message, the others act. *)
Definition call (h : handler) (m : Message) (b : bus P) : res unit * bus P :=
  let b := mkRedisBus (rb_pubsub b) (rb_handlers b) (rb_running b) (rb_listening b)
             (rb_delivered b ++ [(h, m)]) (rb_counter b) in
  match h with OnReply _ => (Ok tt, b) | User _ => act h m b end.
Fixpoint call_all (hs : list handler) (m : Message) (b : bus P) : res unit * bus P :=
  match hs with
  | [] => (Ok tt, b)
  | h :: hs => match call h m b with (Ok _, b) => call_all hs m b | (Err e, b) => (Err e, b) end
  end.
(** One turn of [_listen_loop]: an exception outside [get_message] ends the
    thread, and [_running] stays set. *)
Definition listen (b : bus P) : bus P :=
  if negb (rb_listening b) then b
  else if negb (rb_running b) then set_thread false false b
  else
    let '(raw, p) := ps_get_message (rb_pubsub b) in
    let b := set_pubsub p b in
    match raw with
    | None => b
    | Some (t, data) =>
        match deserialize_message foreign data with
        | Err _ => set_thread (rb_running b) false b
        | Ok m =>
            match call_all (handlers_of t b) m b with
            | (Ok _, b) => b
            | (Err _, b) => set_thread (rb_running b) false b
            end
        end
    end.
End bus.
End RedisMessageBus.

(** ** Delivery *)
Module RedisBusFacts.
Import RedisMessageBus.
Section facts.
Context {P : Type} `{PS : PubSub P} `{!PubSubLaws P}.
Context (uuid : nat → string) (time : nat → float) (foreign : pyval → res Message).
Context (act : handler → Message → bus P → res unit * bus P).
Abbreviation listen := (listen foreign act).
Abbreviation publish := (publish uuid time).
Implicit Types b : bus P.

(** The topics with handlers are the subscribed channels. *)
Definition consistent (b : bus P) : Prop :=
  (∀ t, ps_subscribed t (rb_pubsub b) = dmem t (rb_handlers b)) ∧ (∀ t, dlookup t (rb_handlers b) ≠ Some []).

Lemma consistent_subscribe t h b : consistent b → consistent (subscribe t h b).
Proof using PubSubLaws0.
  clear act foreign.
  intros [Hs Hne]. unfold subscribe, ensure_listener.
  set (b2 := if negb (dmem t (rb_handlers b)) then _ else _).
  assert (consistent b2) as Hc.
  { assert (∀ t', dmem t' (dinsert t (handlers_of t b ++ [h]) (rb_handlers b)) =
      if decide (t = t') then true else dmem t' (rb_handlers b)) as Hm.
    { intros t'. unfold dmem. rewrite dlookup_dinsert. by case_decide. }
    unfold b2. split.
    - intros t'. destruct (dmem t (rb_handlers b)) eqn:Em; cbn [negb rb_pubsub rb_handlers set_pubsub set_handlers].
      + rewrite Hm, Hs. case_decide; [by subst|done].
      + rewrite (proj2 (subscribe_spec t _)), Hm, Hs. done.
    - intros t'. assert (dlookup t' (dinsert t (handlers_of t b ++ [h]) (rb_handlers b)) ≠ Some []) as Hl.
      { rewrite dlookup_dinsert. case_decide; [|apply Hne]. by destruct (handlers_of t b). }
      by destruct (dmem t (rb_handlers b)). }
  by destruct (rb_running b2).
Qed.
Lemma consistent_unsubscribe t h b : consistent b → consistent (unsubscribe t h b).2.
Proof using PubSubLaws0.
  clear act foreign.
  intros [Hs Hne]. unfold unsubscribe. case_bool_decide as Hin; [|done].
  assert (dmem t (rb_handlers b) = true) as Hm.
  { unfold dmem, handlers_of, dget in *. destruct (dlookup t (rb_handlers b)); [done|]. by apply elem_of_nil in Hin. }
  destruct (remove_handler h (handlers_of t b)) as [|h' hs]; cbn [snd]; split; cbn [set_handlers set_pubsub rb_pubsub rb_handlers].
  - intros t'. rewrite (proj2 (unsubscribe_spec t _)), Hs. unfold dmem. rewrite dlookup_ddelete.
    repeat case_decide; naive_solver.
  - intros t'. rewrite dlookup_ddelete. case_decide; [done|apply Hne].
  - intros t'. rewrite Hs. unfold dmem in *. rewrite dlookup_dinsert. case_decide; [by subst|done].
  - intros t'. rewrite dlookup_dinsert. case_decide; [done|apply Hne].
Qed.

(** A message sent to a topic waits for the listener if someone listens. *)
Lemma publish_inbox t p sender b : consistent b →
  let '(m, b') := publish t p sender b in
  topic m = t ∧ payload m = p ∧ rb_handlers b' = rb_handlers b ∧ rb_running b' = rb_running b ∧
  rb_listening b' = rb_listening b ∧ rb_delivered b' = rb_delivered b ∧ consistent b' ∧
  ps_inbox (rb_pubsub b') = ps_inbox (rb_pubsub b) ++
    (if dmem t (rb_handlers b) then [(t, serialize_message m)] else []).
Proof using PubSubLaws0.
  clear act foreign.
  intros [Hs Hne]. unfold RedisMessageBus.publish, new_message, send.
  cbn [topic payload set_pubsub rb_handlers rb_running rb_listening rb_delivered rb_pubsub].
  set (d := serialize_message _). destruct (publish_spec t d (rb_pubsub b)) as [Hi Hsub]. split_and!; try done.
  - split; [|done]. intros t'. cbn [rb_pubsub rb_handlers]. by rewrite Hsub.
  - rewrite Hi, Hs. destruct (dmem t (rb_handlers b)); [done|by rewrite app_nil_r].
Qed.

(** ** Handlers that only look *)
Definition observers : Prop := ∀ h m b, act h m b = (Ok tt, b).
Definition log (hs : list handler) (m : Message) : list (handler * Message) := (λ h, (h, m)) <$> hs.

Lemma call_all_observed hs m b : observers →
  call_all act hs m b = (Ok tt, mkRedisBus (rb_pubsub b) (rb_handlers b) (rb_running b) (rb_listening b)
    (rb_delivered b ++ log hs m) (rb_counter b)).
Proof.
  intros Hact. revert b. induction hs as [|h hs IH]; intros b; [rewrite app_nil_r; by destruct b|].
  cbn [call_all]. unfold call. assert (∀ b, match h with OnReply _ => (Ok tt, b) | User _ => act h m b end = (Ok tt, b)) as ->.
  { intros b0. destruct h; [apply Hact|done]. }
  rewrite IH. cbn [rb_pubsub rb_handlers rb_running rb_listening rb_delivered rb_counter]. unfold log.
  by rewrite fmap_cons, <-app_assoc.
Qed.

Lemma listen_one b t m rest : observers → rb_running b = true → rb_listening b = true →
  ps_inbox (rb_pubsub b) = (t, serialize_message m) :: rest → JsonRoundTrip.json_ok (message_dict m) = true →
  rb_running (listen b) = true ∧ rb_listening (listen b) = true ∧ rb_handlers (listen b) = rb_handlers b ∧
  ps_inbox (rb_pubsub (listen b)) = rest ∧ rb_delivered (listen b) = rb_delivered b ++ log (handlers_of t b) m.
Proof.
  intros Hact Hr Hl Hi Hm. unfold RedisMessageBus.listen. rewrite Hl, Hr. cbn [negb].
  destruct (get_message_spec (rb_pubsub b)) as (Hh & Ht & _). destruct (ps_get_message (rb_pubsub b)) as [raw p].
  cbn [fst snd] in *. rewrite Hi in Hh, Ht. cbn [head tail] in *. subst raw. rewrite message_reads by done.
  rewrite call_all_observed by done. unfold set_pubsub, handlers_of.
  cbn [rb_running rb_listening rb_handlers rb_pubsub rb_delivered]. done.
Qed.

Fixpoint publish_all (l : list (string * pyval * string)) (b : bus P) : list Message * bus P :=
  match l with
  | [] => ([], b)
  | (t, p, sender) :: l =>
      let '(m, b) := publish t p sender b in let '(ms, b) := publish_all l b in (m :: ms, b)
  end.
Fixpoint listen_all (n : nat) (b : bus P) : bus P := match n with O => b | S n => listen_all n (listen b) end.

Definition heard (b : bus P) (m : Message) : list (string * string) :=
  if dmem (topic m) (rb_handlers b) then [(topic m, serialize_message m)] else [].
Lemma publish_all_inbox l : ∀ b, consistent b →
  let '(ms, b') := publish_all l b in
  (λ m, (topic m, payload m)) <$> ms = l.*1 ∧ rb_handlers b' = rb_handlers b ∧
  rb_running b' = rb_running b ∧ rb_listening b' = rb_listening b ∧ rb_delivered b' = rb_delivered b ∧
  ps_inbox (rb_pubsub b') = ps_inbox (rb_pubsub b) ++ (ms ≫= heard b).
Proof using PubSubLaws0.
  clear act foreign.
  induction l as [|[[t p] sender] l IH]; intros b Hc; cbn [publish_all]; [by rewrite app_nil_r|].
  pose proof (publish_inbox t p sender b Hc) as H1. destruct (publish t p sender b) as [m b1].
  destruct H1 as (Ht & Hp & Hh & Hr & Hl & Hd & Hc1 & Hi). specialize (IH b1 Hc1). destruct (publish_all l b1) as [ms b2].
  destruct IH as (Hms & Hh2 & Hr2 & Hl2 & Hd2 & Hi2). rewrite fmap_cons, Hms, Ht, Hp.
  split_and!; [done|congruence..|]. rewrite Hi2, Hi, bind_cons, <-app_assoc. f_equal. f_equal.
  - unfold heard. by rewrite Ht.
  - unfold heard. by rewrite Hh.
Qed.
Lemma listen_all_delivers ms : ∀ b, observers → rb_running b = true → rb_listening b = true →
  Forall (λ m, JsonRoundTrip.json_ok (message_dict m) = true) ms →
  ps_inbox (rb_pubsub b) = ms ≫= heard b →
  rb_delivered (listen_all (length (ps_inbox (rb_pubsub b))) b) =
  rb_delivered b ++ (ms ≫= λ m, log (handlers_of (topic m) b) m).
Proof.
  induction ms as [|m ms IH]; intros b Hact Hr Hl Hok Hi; [rewrite Hi; by rewrite app_nil_r|].
  apply Forall_cons in Hok as [Hm Hok]. rewrite bind_cons in Hi. rewrite bind_cons. unfold heard at 1 in Hi.
  destruct (dmem (topic m) (rb_handlers b)) eqn:Em; cbn [app] in Hi.
  - destruct (listen_one b (topic m) m _ Hact Hr Hl Hi Hm) as (Hr1 & Hl1 & Hh1 & Hi1 & Hd1).
    rewrite Hi. cbn [length listen_all]. rewrite <-Hi1, IH; [|done..|].
    + rewrite Hd1, <-app_assoc. unfold handlers_of. by rewrite Hh1.
    + rewrite Hi1. unfold heard. by rewrite Hh1.
  - assert (handlers_of (topic m) b = []) as ->.
    { unfold dmem, handlers_of, dget in *. by destruct (dlookup (topic m) (rb_handlers b)). }
    rewrite IH by done. done.
Qed.

(** ** A listener that died *)
Definition dead (b : bus P) : Prop := rb_running b = true ∧ rb_listening b = false.
Inductive bus_call :=
| Publish (t : string) (p : pyval) (sender : string)
| Subscribe (t : string) (h : handler)
| Unsubscribe (t : string) (h : handler)
| Reply (original : Message) (p : pyval) (sender : string)
| Listen.
Definition exec (b : bus P) (c : bus_call) : bus P :=
  match c with
  | Publish t p sender => (publish t p sender b).2
  | Subscribe t h => subscribe t h b
  | Unsubscribe t h => (unsubscribe t h b).2
  | Reply o p sender => (reply uuid time o p sender b).2
  | Listen => listen b
  end.
Lemma dead_exec c b : dead b → dead (exec b c) ∧ rb_delivered (exec b c) = rb_delivered b.
Proof.
  intros [Hr Hl]. destruct c as [t p sender|t h|t h|o p sender|]; cbn [exec].
  - done.
  - unfold subscribe, ensure_listener. by destruct (dmem t (rb_handlers b)); cbn; rewrite Hr.
  - unfold unsubscribe. case_bool_decide; [|done]. by destruct (remove_handler h (handlers_of t b)).
  - unfold reply. by destruct (reply_to o) as [[|c t]|].
  - unfold RedisMessageBus.listen. by rewrite Hl.
Qed.
Lemma dead_forever calls b : dead b → dead (foldl exec b calls) ∧ rb_delivered (foldl exec b calls) = rb_delivered b.
Proof.
  revert b. induction calls as [|c calls IH]; intros b Hb; [done|]. cbn [foldl].
  destruct (dead_exec c b Hb) as [Hd He]. destruct (IH _ Hd) as [Hd' He']. split; [done|congruence].
Qed.
End facts.
End RedisBusFacts.
Import RedisMessageBus RedisBusFacts.


(** ** A server, and a handler that raises *)
Module BusDemo.
Record channels := mkChannels { subscribed : list string; inbox : list (string * string) }.
#[export] Instance demo_pubsub : PubSub channels := {
  ps_subscribed t p := bool_decide (t ∈ subscribed p);
  ps_inbox := inbox;
  ps_subscribe t p := mkChannels (t :: subscribed p) (inbox p);
  ps_unsubscribe t p := mkChannels (filter (λ t', t' ≠ t) (subscribed p)) (inbox p);
  ps_unsubscribe_all p := mkChannels [] (inbox p);
  ps_publish t d p :=
    mkChannels (subscribed p) (if bool_decide (t ∈ subscribed p) then inbox p ++ [(t, d)] else inbox p);
  ps_get_message p := (head (inbox p), mkChannels (subscribed p) (tail (inbox p)));
}.
#[export] Instance demo_laws : PubSubLaws channels.
Proof.
  split; intros; cbn; (split; [done|]); try done; intros t'; destruct (decide (t = t')) as [->|Hne].
  - apply bool_decide_eq_true_2. by left.
  - apply bool_decide_ext. rewrite elem_of_cons. naive_solver.
  - apply bool_decide_eq_false_2. rewrite list_elem_of_filter. naive_solver.
  - apply bool_decide_ext. rewrite list_elem_of_filter. naive_solver.
Qed.

Definition uuid (n : nat) : string := pretty (N.of_nat n).
Definition none (v : pyval) : res Message := Err (TypeError "").
Definition quiet (h : handler) (m : Message) (b : bus channels) : res unit * bus channels := (Ok tt, b).
Definition b0 : bus channels :=
  subscribe "news" (User 2) (subscribe "jobs" (User 1) (subscribe "jobs" (User 0) (new (mkChannels [] [])))).


(** The first job makes its handler raise: the thread ends, and later messages
    stay undelivered though the bus counts as running. *)
Definition raising (h : handler) (m : Message) (b : bus channels) : res unit * bus channels :=
  (if bool_decide (payload m = VInt 1) then Err (ValueError "bad job") else Ok tt, b).
Example listener_dies :
  let b1 := (publish_all uuid (λ _, PyFloat.zero) [("jobs", VInt 1, "x"); ("news", VInt 2, "x")] b0).2 in
  let b2 := listen_all none raising 5 b1 in
  prod_map id payload <$> rb_delivered b2 = [(User 0, VInt 1)] ∧ rb_running b2 = true ∧ rb_listening b2 = false ∧
  length (inbox (rb_pubsub b2)) = 1%nat.
Proof. by vm_compute. Qed.
End BusDemo.
