(* ===== verification/ConnectionPool.v ===== *)
(** * Connection pool (src/src/persistence/connection_pool.py)

    Connections are numbered in the order they are created.  Each access to the
    queue of idle connections and each section under the lock is one step.  [out]
    records, beside the state of the code, the connections that clients hold. *)
From S2P Require Import Prelude.

Record pool := mkPool {
  pl_max : Z;
  pl_idle : list nat;
  pl_created : Z;
  pl_next : nat;
}.

Module RedisConnectionPool.
Local Open Scope Z_scope.
Definition new (max_connections : Z) : pool := mkPool max_connections [] 0 0.

(** [self._idle.get_nowait()] *)
Definition take_idle (p : pool) : option (nat * pool) :=
  match pl_idle p with
  | [] => None
  | c :: idle => Some (c, mkPool (pl_max p) idle (pl_created p) (pl_next p))
  end.
(** [get_connection]; [meanwhile] is what other threads do while the last [get]
    waits for a connection. *)
Definition get_connection (meanwhile : pool → pool) : st pool nat := λ p,
  match take_idle p with
  | Some (c, p) => (Ok c, p)
  | None =>
      if pl_created p <? pl_max p
      then (Ok (pl_next p), mkPool (pl_max p) (pl_idle p) (pl_created p + 1) (S (pl_next p)))
      else match take_idle (meanwhile p) with
           | Some (c, p) => (Ok c, p)
           | None => (Err (Raised "Empty" ""), meanwhile p)
           end
  end.
Definition release_connection (c : nat) (p : pool) : pool :=
  mkPool (pl_max p) (pl_idle p ++ [c]) (pl_created p) (pl_next p).
Definition close_all (p : pool) : pool := mkPool (pl_max p) [] 0 (pl_next p).
Definition pool_size (p : pool) : Z := pl_created p.

(** ** Clients that return what they borrowed *)
Inductive step : pool * list nat → pool * list nat → Prop :=
| step_borrow p out c p' : get_connection id p = (Ok c, p') → step (p, out) (p', c :: out)
| step_refused p out p' e : get_connection id p = (Err e, p') → step (p, out) (p', out)
| step_return p l c r : step (p, l ++ c :: r) (release_connection c p, l ++ r).

Record pool_ok (p : pool) (out : list nat) : Prop := {
  ok_distinct : NoDup (pl_idle p ++ out);
  ok_counted : Z.of_nat (length (pl_idle p ++ out)) = pl_created p;
  ok_bounded : pl_created p ≤ Z.max 0 (pl_max p);
  ok_fresh : Forall (λ c, (c < pl_next p)%nat) (pl_idle p ++ out);
}.

Lemma get_ok p out c p' : pool_ok p out → get_connection id p = (Ok c, p') →
  pool_ok p' (c :: out) ∧ pl_max p' = pl_max p.
Proof.
  intros [Hd Hc Hb Hf]. unfold get_connection, take_idle, id.
  destruct (pl_idle p) as [|c' idle] eqn:Ei; cbn [app] in *.
  - destruct (Z.ltb_spec (pl_created p) (pl_max p)) as [Hlt|]; [|done].
    intros [= <- <-]. split; [|done]. split; cbn [pl_idle pl_created pl_next pl_max app].
    + apply NoDup_cons. split; [|done]. intros Hin. rewrite Forall_forall in Hf. specialize (Hf _ Hin). lia.
    + cbn [length]. lia.
    + lia.
    + constructor; [lia|]. eapply Forall_impl; [exact Hf|]. intros. simpl in *. lia.
  - intros [= <- <-]. split; [|done].
    assert (idle ++ c' :: out ≡ₚ c' :: idle ++ out) as Hp by by rewrite Permutation_middle.
    split; cbn [pl_idle pl_created pl_next pl_max]; rewrite ?Hp; done.
Qed.
Lemma return_ok p l c r : pool_ok p (l ++ c :: r) → pool_ok (release_connection c p) (l ++ r).
Proof.
  intros [Hd Hc Hb Hf]. unfold release_connection.
  assert ((pl_idle p ++ [c]) ++ l ++ r ≡ₚ pl_idle p ++ l ++ c :: r) as Hp.
  { rewrite <-app_assoc. cbn [app]. by rewrite <-(Permutation_middle l r c). }
  split; cbn [pl_idle pl_created pl_next pl_max]; rewrite ?Hp; done.
Qed.
Lemma reachable_ok max s : rtc step (new max, []) s → pool_ok s.1 s.2 ∧ pl_max s.1 = max.
Proof.
  intros Hr. assert (pool_ok (new max) [] ∧ pl_max (new max) = max) as H0.
  { split; [|done]. split; cbn; [constructor|done|lia|constructor]. }
  remember (new max, @nil nat) as s0 eqn:E0. assert (pool_ok s0.1 s0.2 ∧ pl_max s0.1 = max) as H1 by by rewrite E0.
  clear E0 H0. revert H1. induction Hr as [s|s1 s2 s3 Hs Hr IH]; [done|]. intros [Hok Hm]. apply IH. clear IH Hr.
  destruct Hs as [p out c p' Hg|p out p' e Hg|p l c r]; cbn [fst snd] in *.
  - destruct (get_ok _ _ _ _ Hok Hg) as [Hok' Hm']. split; [done|congruence].
  - assert (p' = p) as ->; [|done]. revert Hg. unfold get_connection, id.
    destruct (take_idle p) as [[]|]; [done|]. destruct (_ <? _); [done|]. by intros [= _ <-].
  - split; [by apply return_ok|done].
Qed.
End RedisConnectionPool.
Import RedisConnectionPool.

(** With clients that return only what they borrowed, and return it once, no
    connection is ever held by two of them, the pool never has more connections
    than its maximum, every connection is idle or held, and a client is refused
    only when all of them are held. *)
Theorem pool_never_overcommits max p out : rtc step (new max, []) (p, out) →
  NoDup out ∧ (Z.of_nat (length out) ≤ Z.max 0 max)%Z ∧
  pool_size p = Z.of_nat (length (pl_idle p) + length out) ∧
  (∀ e p', get_connection id p = (Err e, p') → (Z.max 0 max = Z.of_nat (length out))%Z).
Proof.
  intros [[Hd Hc Hb Hf] Hm]%reachable_ok. cbn [fst snd] in *. rewrite length_app in Hc. split_and!.
  - by apply NoDup_app in Hd as (_ & _ & ?).
  - rewrite Hm in Hb. lia.
  - unfold pool_size. lia.
  - intros e p'. unfold get_connection, take_idle, id. destruct (pl_idle p) as [|c idle] eqn:Ei; [|done].
    destruct (Z.ltb_spec (pl_created p) (pl_max p)) as [|Hge]; [done|]. intros _. simpl in Hc. lia.
Qed.

(** Closing forgets the connections that are held: the pool then hands out more
    than its maximum, and its size no longer counts the busy ones. *)
Example close_all_overcommits :
  let '(c1, p1) := get_connection id (new 1) in
  let p2 := close_all p1 in
  let '(c2, p3) := get_connection id p2 in
  c1 = Ok 0%nat ∧ pool_size p2 = 0%Z ∧ c2 = Ok 1%nat ∧ pool_size p3 = 1%Z.
Proof. by vm_compute. Qed.
